(* ===== verification/_CoqProject ===== *)
-Q . S2P
Prelude.v
Text.v
Prog.v
Win32.v
Accounting.v
WebBrowser.v
ComDispatch.v
ComObject.v
RefCount.v
AppBridge.v
SunApp.v
CSide.v
Visits.v
Embed.v
EmbedLife.v
CursorTimer.v
CursorCode.v
Callbacks.v
Structs.v
WvIdl.v
WvEnums.v
WvDecls.v
WvDeclsEvents.v
WvEntries.v
WvTables.v
WvApi.v
WvMacros.v
WvMacroTables.v
WvCApi.v
WvHelpers.v
WvObject.v
WvLife.v
WvScheme.v
WvOptions.v
WvCreate.v
WvRequest.v
Pages.v
WvOps.v
WvSession.v
Reentry.v
WvTyping.v
NestedTyping.v
GoBridge.v
