(* ===== verification/Prelude.v ===== *)
(** * gSuneido native bridge: verification development

    gSuneido is the Go implementation of the Suneido language.  Its Windows version
    has a layer of C and C++ under [src/builtin/goc], between the Go runtime and
    Windows: the message loop, two browser controls (the old embedded control and
    WebView2), COM automation, and the [suneido:] protocol through which both
    browsers show pages that Go makes.  On the Go side some files wrap that layer for
    Suneido code: callbacks, COM objects, the WebBrowser2 built-in, the pages.  This
    development models the layer and these files, and proves what makes them correct:
    every reference and every block is given back exactly once on every path, no
    callback faults or uses an object that is gone, a function pointer runs the Suneido
    function it was lent to, Go is only entered on its main thread, and the content Go
    makes arrives complete.

    ** How the code is modelled

    A function of the bridge is a program ([prog], file Prog) whose nodes are its
    external calls - Windows, COM objects, the C library, Go - in the order of the
    code, and whose branches are the possible answers.  Nothing external is
    modelled; [every_run C p tr Q] says that every run of [p] after the history
    [tr] in which the answers respect the contract [C] ends, with a result and a
    history that satisfy [Q].  The contracts are in the files that use them.
    [any_answer] assumes nothing.  [com_contract] is the rule of COM and of [new]: a call that
    hands out a pointer either succeeds with one or fails without.  To it
    [window_contract] adds that a message to an existing helper window is delivered,
    [embedded_contract U m] that a fresh block does not overlap memory in use (the user data of a
    window may be null, a held object or anything in the list [U], which is arbitrary),
    [keeps_handler] that a runtime that accepts a request keeps a reference on its handler,
    [ops_contract] that the length of an address in UTF-8 can be computed (it only serves
    [operations_guarded]), and
    [page_contract] says which page Go makes and that an ASCII address is its own UTF-8.  No
    contract says that an interface, the settings or a response is there.

    Where the code is not prepared for a failure, the theorems do not assume it away.  Either
    they describe what happens then: [breaks] lists the three failures on which the controller
    handler releases an object twice or calls through a null pointer, and [serve_spec] and
    [source_post] say exactly when a null string or response is used.  Or they hold of whole
    lives up to it: [until unprepared Q P] says that a run satisfies [Q], or else that
    one of the events of [unprepared] happened and [P] held at the moment before it.
    Programs are
    executable: [run] executes one against an environment ([good_env] is one that
    respects the contracts), which is how examples and counterexamples are computed.

    State that the code keeps in its own objects is a record that the functions
    take and return; objects of others are pointers.  The memory of the structures
    that the embedded browser sees is an explicit finite map with faults.  Machine
    integers are [Z] with the conversions of the code written out ([i32], [u32], ...).

    ** The files

    - Prelude, Text, Prog, Win32: machine integers and tactics; text, its numbers and lines;
      programs with external calls; the names, identifiers and signatures of the
      Windows API.
    - Accounting: references and blocks counted from a history ([held], [blocks]),
      the judgement [Acct bor tr R B] - after [tr] exactly the references [R] and
      the blocks [B] are owned, every call was made on an object that was borrowed
      ([bor]) or owned at that moment, and at no moment more had been given back than
      there was - with one rule per kind of call, the tactic [acct_step] that applies
      them, and [Acct_frame], [Acct_weave] and [around_accounts], which put the accounts
      of code that runs after, between and inside other code together.
    - RefCount: the contract of COM reference counting as a class ([ComObject],
      [ComLaws]) and the theorem about clients that follow its rules
      ([client_lifecycle]), which the instances in SunApp, WvObject, WvScheme and
      WvOptions discharge and use.
    - WebBrowser (webbrowser.c): the block of the client site, the 57 callbacks, the
      four virtual tables, dispatch through them.  Sessions of calls never fault and
      keep the block; QueryInterface obeys the identity rules; the window handle
      that was stored is the one that is read.
    - ComDispatch (com.cpp, traccel.cpp): automation calls and their strings.
    - ComObject (comobject_wingui.go): the COM objects of Suneido code, and the conversion
      of arguments and results, on top of ComDispatch.
    - AppBridge (cside.c, cside.h, goc.go): [suneidoAPP], the way into Go.
    - SunApp (sunapp.cpp): the protocol object of the embedded browser and its
      factory; a session delivers Go's bytes.
    - CSide (cside.c): alerts, [interrupt], the exception filter, [setup], the
      message loop and its routing; quitting unwinds nested loops.
    - Visits: what the embedded control and Suneido code do inside calls of the control -
      callbacks, keys, method calls - as trees, and why they are harmless.
    - Embed (webbrowser.c): [EmbedBrowserObject], [UnEmbedBrowserObject], with visits inside
      their calls; all of their error paths, and the witnesses of WebBrowser's theorems.
    - EmbedLife (webbrowser_wingui.go): the whole life of an embedded control, from
      [WebBrowser] to [Release], with callbacks, keys and method calls in any order and
      inside each other.
    - CursorTimer (cside.c): the timer thread and the message loop interleaved call
      by call; a transition system with invariants, and the proof that its automata
      accept what the translated code does.  Handlers set any cursors; the fields [replaced]
      and [shown] observe which cursor the timer replaced and whether its wait cursor is
      still the one shown.
    - CursorCode: every interleaving of the translated timer thread and message loop, with
      nested loops and runs of [message_hook], is a path of that system.
    - Callbacks (callbacks_wingui.go): the tables of function pointers that are lent to
      Suneido functions, a pool of pointers as their specification, and what runs when
      Windows calls one.
    - Structs (cmd/structs/structs.cpp): the program that prints the sizes of Windows
      structures, and how its output reads back.
    - WvIdl, WvEnums, WvDecls, WvDeclsEvents, WvEntries, WvTables, WvApi (WebView2.h): the
      declarations as data - all 223 interfaces in both of the forms the header has, the
      enumerations, the structures - and what makes them consistent.
    - WvMacros, WvMacroTables, WvCApi (WebView2.h): the forward declarations and the
      macros that call through the C tables, and what the preprocessor makes of them.
    - WvHelpers (helpers.h), WvObject (MyWebView2Base.h and the event handlers),
      WvScheme and WvOptions (MyCoreWebView2CustomSchemeRegistration.h,
      MyCoreWebView2EnvironmentOptions.h), WvCreate (the two completion handlers),
      WvRequest (MyCustomSchemeHandler.h), WvOps (webview2.cpp): the WebView2
      browser from its creation to its operations.
    - Pages: the same page reaches both browsers.
    - WvLife: the browser object and its handlers together, under any interleaving of
      the events of their lives.
    - WvSession: one browser from [CreateWebView2] to its end as a transition system whose
      steps run the code of the handlers and operations.
    - Reentry: the same with Go acting inside the handlers - closing the browser, calling
      operations, letting in more events - to any depth.
    - WvTyping, NestedTyping: the interface of every pointer, from how it was obtained, and
      the calls of a session - of WvSession and of Reentry - checked against the declarations.
    - GoBridge (goc.go, wingui.go, sunapp_wingui.go, webbrowser2_wingui.go): strings and
      message boxes, [sunAPP], and [WebBrowser2] with its methods, which puts the
      callbacks, the values and the WebView2 operations together.

    Functions and methods keep their names; a method of a class has the class in
    front where the name alone is ambiguous ([CSuneidoAPP_Release], [bo_Release] for
    [MyBrowserObject::Release]).  A long function is divided at its natural stages
    ([add_listeners], [finish_view], [setup_browser]), and repeated code is one
    definition with parameters ([add_handler], [get_string]).

    ** What the theorems show

    - Whole lives: [embedded_life_sound] and [browser_life_sound] (invariants of one
      browser under any order of events; the embedded one with events inside events),
      [nested_life_sound] (the same for WebView2), [creation_is_told] (liveness: Go hears how
      the creation ended), [browser_life_typed] and [nested_life_typed] (types of all calls).
    - Memory and references: [browser_session_safe], [embed_accounts],
      [embed_unembed_roundtrip], [create_browser], [controller_completed],
      [environment_completed], [browser_object_safe], [custom_scheme_serves],
      [invoke_accounts], [com_pointers_owned], [allowed_origins_round_trip],
      [registrations_round_trip], [pos_rect_change_accounts], [com_object_life],
      [web_browser2_created]; the lifecycle theorems
      are instances of RefCount's.
    - Function: [query_interface_identity], [window_handle_delivered],
      [same_page], [protocol_session_delivers], [reads_complete], [suneidoAPP_on_main_thread],
      [loop_body_routes], [operations_guarded], [ready_then_navigate],
      [get_source_delivers], [accelerator_forwards], [new_window_refuses_suneido],
      [conversion_round_trip].
    - Callbacks: [callbacks_refine] (the tables are a pool of lent pointers),
      [late_calls_served] (a call just after the clearing), [call_never_fails].
    - Go's conversions: [variant_round_trip], [argument_panics], [com_calls_answer],
      [sunAPP_answers], [web2_methods], [web2_source], [alert_cancel].
    - Control: [quit_unwinds], [interrupt_polls_hotkeys], [setup_then_request],
      [ticks_bounded], [cursor_restored], [wait_cursor_is_late], [silent_after_close],
      [code_interleavings_reachable] (the timer's system is what the code does).
    - Declarations: [c_tables_agree], [declarations_sound], [iids_identify],
      [versions_extend], [macros_call].
    - Text: [structs_output], [content_type_by_extension].
    - Weak points, as computed or proved facts: [wait_cursor_can_stay], [hidden_cursor_not_restored],
      [old_runtime_double_release], [failed_settings_null_call],
      [failed_origins_dangle], [failed_registrations_unnoticed],
      [bstr_conversion_fails], [handler_interfaces], [high_bytes_are_long],
      [clock_wrap_misdirects], [slot_lost], [window_not_cleared], [refused_object_lost],
      [large_unsigned_negative], [argument_panics], [late_callback_faults].

    ** Bounds and fuel

    [peek_loop] has fuel 101, one more than the code's own limit, and
    [interrupt_polls_hotkeys] shows that it never runs out.  [message_loop] has fuel
    because the loop of the code need not end; [quit_unwinds] gives a bound that is
    enough once a quit message is queued.  [cursor_loop] is the endless loop of the
    timer cut off after any number of iterations.  [layout] (inheritance of
    interfaces) has fuel 30 for chains of at most 23 interfaces; [slots] never fails
    on the interfaces of the header ([declarations_sound]).  Sessions are lists of
    steps of any length; [creation_is_told] takes an infinite sequence of steps that
    the runtime's promise makes fair, and finds the step from which on Go was told.
    [le_bytes] and [hex_digits]
    recurse on the width.

    ** What is not modelled

    Windows, the browser controls and the C library (external calls); Scintilla; the
    Suneido code that is called ([SuneidoAPP], the handler of errors, callbacks), the
    logging of Go and the process's end ten seconds after [Fatal]; the lock around the
    callback tables, as each operation is one step; constructors and destructors of an
    object that only the runtime releases, outside the file about its class.  In WvSession
    and WvTyping what Go does when it is called ([GoCallback], [GoSunAPP]) is a step of its
    own after the handler; Reentry has it inside.  The release of an embedded control while
    one of its own calls runs: nothing in the code guards against it, so Suneido code must
    not do it, and visits do not ([late_callback_faults] shows what a call of the site would
    meet).  The embedded control may call its site inside every call it gets, and does not report a
    position any more while its last reference is being released ([calm_gone], part of
    [behaves]): the site would then use an object that is going.  The block that
    [ConvertCharToWChar] makes for a call and deletes after it is not in the accounts, unlike
    the arrays of [ConvertWcharToChar] and of the allowed origins ([NewArray], [DeleteArray]).
    Messages that are handled inside [GetMessageA] itself reach the timer's system
    as the hook and the cursors that handlers set.  An allocation by [new] throws when it fails, so its result
    is never null.  The rest of gSuneido - the interpreter, the database, the
    bindings of single Windows functions - is written in Go and does not touch this layer.

    Of the C and C++ code nothing is left but prototypes, include lines and the frame
    around the declarations of WebView2.h (guards, braces and the one [lpVtbl] line of each
    interface, which say nothing of their own); the data that midl generated is modelled as
    the data it is.

    ** Plan

    All parts of the bridge are modelled.  What could be added concerns more of the Go side:
    the release of an embedded control from inside one of its calls, as a rule that Suneido
    code has to keep, and the bindings of single Windows functions. *)

From stdpp Require Export prelude gmap strings.

(** ** Machine integers

    The C code runs on 64-bit Windows: [int], [long] and [HRESULT] are 32-bit
    two's complement, [ULONG], [DWORD] and [UINT32] are 32-bit unsigned and
    [uintptr] is 64-bit unsigned.  A machine integer is a [Z]; the conversions
    below are the ones the C code performs implicitly at assignments and casts. *)

Definition u16 (z : Z) : Z := z mod 65536.
Definition u32 (z : Z) : Z := z mod 4294967296.
Definition u64 (z : Z) : Z := z mod 18446744073709551616.
Definition i32 (z : Z) : Z := (z + 2147483648) mod 4294967296 - 2147483648.
Definition i16 (z : Z) : Z := (z + 32768) mod 65536 - 32768.
Definition i64 (z : Z) : Z := (z + 9223372036854775808) mod 18446744073709551616 - 9223372036854775808.

Lemma u32_range z : (0 <= u32 z < 4294967296)%Z.
Proof. unfold u32. apply Z.mod_pos_bound. lia. Qed.

Lemma u64_range z : (0 <= u64 z < 18446744073709551616)%Z.
Proof. unfold u64. apply Z.mod_pos_bound. lia. Qed.

Lemma i32_range z : (-2147483648 <= i32 z < 2147483648)%Z.
Proof.
  unfold i32. pose proof (Z.mod_pos_bound (z + 2147483648) 4294967296). lia.
Qed.

Lemma u32_id z : (0 <= z < 4294967296)%Z -> u32 z = z.
Proof. apply Z.mod_small. Qed.

Lemma u64_id z : (0 <= z < 18446744073709551616)%Z -> u64 z = z.
Proof. apply Z.mod_small. Qed.

Lemma i32_id z : (-2147483648 <= z < 2147483648)%Z -> i32 z = z.
Proof. intros. unfold i32. rewrite Z.mod_small; lia. Qed.

Lemma i16_id z : (-32768 <= z < 32768)%Z -> i16 z = z.
Proof. intros. unfold i16. rewrite Z.mod_small; lia. Qed.

Lemma i64_id z : (-9223372036854775808 <= z < 9223372036854775808)%Z -> i64 z = z.
Proof. intros. unfold i64. rewrite Z.mod_small; lia. Qed.

Lemma i64_range z : (-9223372036854775808 <= i64 z < 9223372036854775808)%Z.
Proof. unfold i64. pose proof (Z.mod_pos_bound (z + 9223372036854775808) 18446744073709551616). lia. Qed.

Lemma i64_u64 z : i64 (u64 z) = i64 z.
Proof. unfold u64, i64. by rewrite Zplus_mod_idemp_l. Qed.

Lemma u32_i32 z : u32 (i32 z) = u32 z.
Proof.
  unfold u32, i32.
  replace ((z + 2147483648) mod 4294967296 - 2147483648)%Z
    with ((z + 2147483648) mod 4294967296 + -2147483648)%Z by lia.
  rewrite Zplus_mod_idemp_l. f_equal. lia.
Qed.

Lemma i32_u32 z : i32 (u32 z) = i32 z.
Proof. unfold u32, i32. by rewrite Zplus_mod_idemp_l. Qed.

Create HintDb words.
#[export] Hint Resolve u32_range u64_range i32_range : words.

Create Rewrite HintDb words_rw.
#[export] Hint Rewrite u32_i32 i32_u32 i64_u64 : words_rw.

(** C truth values: an integer is true when it is not zero. *)
Definition c_true (z : Z) : bool := negb (z =? 0)%Z.
Definition c_bool (b : bool) : Z := if b then 1 else 0.

Lemma c_true_bool b : c_true (c_bool b) = b.
Proof. by destruct b. Qed.
#[export] Hint Rewrite c_true_bool : words_rw.

Lemma c_true_spec z : c_true z = true <-> z <> 0%Z.
Proof. unfold c_true. rewrite negb_true_iff. apply Z.eqb_neq. Qed.

Lemma c_true_0 z : c_true z = false <-> z = 0%Z.
Proof. unfold c_true. rewrite negb_false_iff. apply Z.eqb_eq. Qed.

(** Case analysis on the tests of a translated function body. *)
Ltac case_tests :=
  repeat (case_match; simplify_eq/=).

(** ** Sums over lists *)

Definition sumZ {A} (f : A -> Z) (l : list A) : Z :=
  foldr (fun x acc => f x + acc)%Z 0%Z l.

Lemma sumZ_app {A} (f : A -> Z) l1 l2 :
  sumZ f (l1 ++ l2) = (sumZ f l1 + sumZ f l2)%Z.
Proof. induction l1; simpl; lia. Qed.

(** ** Prefixes *)

Lemma prefix_snoc_inv {A} (l1 l2 : list A) x :
  l1 `prefix_of` l2 ++ [x] -> l1 = l2 ++ [x] \/ l1 `prefix_of` l2.
Proof.
  intros [k Hk]. destruct k as [|y k _] using rev_ind; [left; by rewrite app_nil_r in Hk|right].
  rewrite app_assoc in Hk. apply app_inj_tail in Hk as [-> _]. by exists k.
Qed.

Lemma prefix_app_cases {A} (l l1 l2 : list A) :
  l `prefix_of` l1 ++ l2 -> l `prefix_of` l1 \/ exists k, l = l1 ++ k /\ k `prefix_of` l2.
Proof.
  revert l. induction l1 as [|x l1 IH]; intros l H; [right; by exists l|].
  destruct l as [|y l]; [left; apply prefix_nil|]. pose proof (prefix_cons_inv_1 _ _ _ _ H) as ->.
  apply prefix_cons_inv_2, IH in H as [H|(k & -> & H)]; [left; by apply prefix_cons|right; by exists k].
Qed.
