(* ===== verification/Text.v ===== *)
(** * Text

    What C's [printf] family writes - hexadecimal and decimal numbers - and how it is read
    back; prefixes, endings and lines of strings. *)

From stdpp Require Import pretty.
From S2P Require Import Prelude.

(** ** Hexadecimal numbers *)

Definition hex_digit (d : Z) : Ascii.ascii :=
  Ascii.ascii_of_nat (Z.to_nat (if d <? 10 then 48 + d else 87 + d)%Z).

(** [%x] of an [unsigned int]: at most eight digits, no leading zeros. *)
Fixpoint hex_digits (fuel : nat) (e : Z) (acc : string) : string :=
  match fuel with
  | O => acc
  | S fuel =>
      let acc := String (hex_digit (e mod 16)) acc in
      if (e / 16 =? 0)%Z then acc else hex_digits fuel (e / 16) acc
  end.

Definition format_x (e : Z) : string := hex_digits 8 e "".

(** Reading the digits back. *)
Definition digit_value (c : Ascii.ascii) : Z :=
  let n := Z.of_nat (Ascii.nat_of_ascii c) in if (n <? 58)%Z then (n - 48)%Z else (n - 87)%Z.

Fixpoint parse_x (s : string) (acc : Z) : Z :=
  match s with "" => acc | String c s => parse_x s (acc * 16 + digit_value c)%Z end.

Lemma digit_value_hex d : (0 <= d < 16)%Z -> digit_value (hex_digit d) = d.
Proof.
  intros Hd. assert (Hall : forallb (fun d => digit_value (hex_digit d) =? d)%Z
    (Z.of_nat <$> seq 0 16) = true) by reflexivity.
  rewrite forallb_forall in Hall. apply Z.eqb_eq, Hall.
  apply list_elem_of_In, list_elem_of_fmap. exists (Z.to_nat d). rewrite elem_of_seq. lia.
Qed.

Lemma hex_digits_value fuel : forall e acc v,
  (0 <= e < 16 ^ Z.of_nat fuel)%Z -> (0 < fuel)%nat ->
  parse_x (hex_digits fuel e acc) v = parse_x acc
    (v * 16 ^ Z.of_nat (String.length (hex_digits fuel e acc) - String.length acc) + e)%Z /\
  (String.length acc < String.length (hex_digits fuel e acc) <= String.length acc + fuel)%nat.
Proof.
  induction fuel as [|fuel IH]; intros e acc v He Hf; [lia|]. simpl hex_digits.
  pose proof (Z.mod_pos_bound e 16 ltac:(lia)) as Hm. pose proof (Z.div_mod e 16 ltac:(lia)) as Hdm.
  assert (0 <= e / 16)%Z by (apply Z.div_pos; lia).
  destruct (Z.eqb_spec (e / 16) 0) as [E0|E0].
  - simpl. rewrite digit_value_hex by lia. split; [|lia].
    replace (Datatypes.S (String.length acc) - String.length acc)%nat with 1%nat by lia.
    f_equal. lia.
  - assert (He16 : (e / 16 < 16 ^ Z.of_nat fuel)%Z).
    { apply Z.div_lt_upper_bound; [lia|]. rewrite Nat2Z.inj_succ, Z.pow_succ_r in He by lia. lia. }
    destruct fuel as [|fuel']; [simpl in He16; lia|].
    destruct (IH (e / 16)%Z (String (hex_digit (e mod 16)) acc) v) as [IH1 IH2]; [lia..|].
    clear IH. set (t := hex_digits _ _ _) in *. clearbody t.
    rewrite IH1. simpl parse_x. rewrite digit_value_hex by lia. simpl String.length in *.
    split; [|lia]. set (L := String.length t) in *.
    replace (L - String.length acc)%nat with (Datatypes.S (L - Datatypes.S (String.length acc))) by lia.
    rewrite Nat2Z.inj_succ, Z.pow_succ_r by lia. f_equal. nia.
Qed.

Lemma format_x_value e : (0 <= e < 4294967296)%Z ->
  parse_x (format_x e) 0 = e /\ (String.length (format_x e) <= 8)%nat.
Proof.
  intros He. destruct (hex_digits_value 8 e "" 0) as [H1 H2]; [lia..|].
  split; [|unfold format_x; simpl in *; lia]. unfold format_x. rewrite H1. simpl. lia.
Qed.

Lemma substring_all s : forall n, (String.length s <= n)%nat -> String.substring 0 n s = s.
Proof. induction s as [|c s IH]; intros [|n] Hn; simpl in *; try done; [lia|]. by rewrite IH by lia. Qed.

Lemma string_length_app s1 s2 : String.length (s1 ++ s2) = (String.length s1 + String.length s2)%nat.
Proof. induction s1; simpl; auto. Qed.


(** [%02x]: at least two digits. *)
Definition format_02x (e : Z) : string :=
  let s := format_x e in if (String.length s <? 2)%nat then "0" +:+ s else s.

(** ** Decimal numbers

    [pretty] is what [%d] writes. *)

Definition is_digit (c : Ascii.ascii) : bool :=
  let n := Ascii.nat_of_ascii c in (48 <=? n)%nat && (n <=? 57)%nat.

Definition dec_value (c : Ascii.ascii) : N := (Ascii.N_of_ascii c - 48)%N.

(** The number that [s] begins with, and the rest. *)
Fixpoint read_dec (acc : N) (s : string) : N * string :=
  match s with
  | "" => (acc, "")
  | String c s' => if is_digit c then read_dec (acc * 10 + dec_value c) s' else (acc, s)
  end.

Definition no_digit (s : string) : Prop := match s with "" => True | String c _ => is_digit c = false end.

Lemma read_dec_stop acc s : no_digit s -> read_dec acc s = (acc, s).
Proof. destruct s as [|c s]; simpl; [done|]. by intros ->. Qed.

Lemma pretty_digit d : (d < 10)%N -> is_digit (pretty_N_char d) = true /\ dec_value (pretty_N_char d) = d.
Proof.
  intros Hd. assert (Hc : d ∈ [0; 1; 2; 3; 4; 5; 6; 7; 8; 9]%N) by (rewrite !elem_of_cons, elem_of_nil; lia).
  rewrite !elem_of_cons, elem_of_nil in Hc. by repeat destruct Hc as [->|Hc].
Qed.

Lemma pretty_N_go_app x : forall s r, pretty_N_go x s +:+ r = pretty_N_go x (s +:+ r).
Proof.
  induction (N.lt_wf_0 x) as [x _ IH]; intros s r.
  assert (x = 0 \/ 0 < x)%N as [->|Hx] by lia; [by rewrite !pretty_N_go_0|].
  rewrite !(pretty_N_go_step x) by done. rewrite IH by (by apply N.div_lt). done.
Qed.

Lemma read_dec_go x : forall s, read_dec 0 (pretty_N_go x s) = read_dec x s.
Proof.
  induction (N.lt_wf_0 x) as [x _ IH]; intros s.
  assert (x = 0 \/ 0 < x)%N as [->|Hx] by lia; [by rewrite pretty_N_go_0|].
  rewrite pretty_N_go_step, IH by (done || by apply N.div_lt). simpl.
  destruct (pretty_digit (x mod 10)) as [H1 H2]; [by apply N.mod_lt|]. rewrite H1, H2.
  f_equal. pose proof (N.div_mod x 10 ltac:(lia)). lia.
Qed.

(** A number that was written reads back. *)
Lemma read_dec_pretty (z : Z) r : (0 <= z)%Z -> no_digit r -> read_dec 0 (pretty z +:+ r) = (Z.to_N z, r).
Proof.
  intros Hz Hr. destruct z as [|p|p]; [exact (read_dec_stop 0 r Hr)| |lia].
  change (pretty (Z.pos p)) with (pretty_N_go (N.pos p) ""). rewrite pretty_N_go_app, read_dec_go.
  by apply read_dec_stop.
Qed.

(** ** Prefixes and endings *)

(** [s] without the ending [suf]. *)
Fixpoint strip_suffix (suf s : string) : option string :=
  if String.eqb s suf then Some ""
  else match s with "" => None | String c s => String c <$> strip_suffix suf s end.

(** [s] without the prefix [pre]. *)
Fixpoint strip_prefix (pre s : string) : option string :=
  match pre, s with
  | "", _ => Some s
  | String c pre, String d s => if Ascii.eqb c d then strip_prefix pre s else None
  | _, "" => None
  end.

Lemma strip_prefix_app pre s : strip_prefix pre (pre +:+ s) = Some s.
Proof. induction pre as [|c pre IH]; [done|]. simpl. by rewrite Ascii.eqb_refl. Qed.

(** The part of [s] before the first [c], and the rest. *)
Fixpoint break_at (c : Ascii.ascii) (s : string) : string * string :=
  match s with
  | "" => ("", "")
  | String d s' => if Ascii.eqb d c then ("", s) else let '(a, b) := break_at c s' in (String d a, b)
  end.

Fixpoint has_char (c : Ascii.ascii) (s : string) : bool :=
  match s with "" => false | String x s => Ascii.eqb x c || has_char c s end.

Lemma break_at_app c s r : has_char c s = false -> break_at c (s +:+ String c r) = (s, String c r).
Proof.
  induction s as [|d s IH]; simpl; [by rewrite Ascii.eqb_refl|].
  intros [Hd Hs]%orb_false_elim. by rewrite Hd, IH.
Qed.

Lemma has_char_app c s1 s2 : has_char c (s1 +:+ s2) = has_char c s1 || has_char c s2.
Proof. induction s1 as [|d s1 IH]; simpl; [done|]. by rewrite IH, orb_assoc. Qed.

(** ** Lines *)

Definition newline : Ascii.ascii := Ascii.ascii_of_nat 10.
Definition nl : string := String newline "".

(** The lines that end with a newline. *)
Fixpoint lines_from (line : string) (s : string) : list string :=
  match s with
  | "" => []
  | String c s => if Ascii.eqb c newline then line :: lines_from "" s else lines_from (line +:+ String c "") s
  end.

Definition lines (s : string) : list string := lines_from "" s.

Lemma string_app_assoc s1 s2 s3 : (s1 +:+ s2) +:+ s3 = s1 +:+ s2 +:+ s3.
Proof.
  induction s1 as [|c s1 IH]; [done|].
  change (String c ((s1 +:+ s2) +:+ s3) = String c (s1 +:+ s2 +:+ s3)). by rewrite IH.
Qed.

Lemma string_app_nil s : s +:+ "" = s.
Proof. induction s as [|c s IH]; [done|]. change (String c (s +:+ "") = String c s). by rewrite IH. Qed.

Lemma lines_from_line l rest : has_char newline l = false -> forall line,
  lines_from line (l +:+ String newline rest) = (line +:+ l) :: lines rest.
Proof.
  induction l as [|c l IH]; intros Hl line.
  - change (line :: lines rest = (line +:+ "") :: lines rest). by rewrite string_app_nil.
  - apply orb_false_elim in Hl as [Hc Hl].
    change ((if Ascii.eqb c newline then line :: lines (l +:+ String newline rest)
             else lines_from (line +:+ String c "") (l +:+ String newline rest)) = (line +:+ String c l) :: lines rest).
    rewrite Hc, IH by done. by rewrite string_app_assoc.
Qed.

Lemma lines_cons l rest : has_char newline l = false -> lines (l +:+ nl +:+ rest) = l :: lines rest.
Proof. intros Hl. exact (lines_from_line l rest Hl ""). Qed.

Lemma pretty_N_go_newline x : forall s, has_char newline s = false -> has_char newline (pretty_N_go x s) = false.
Proof.
  induction (N.lt_wf_0 x) as [x _ IH]; intros s Hs.
  assert (x = 0 \/ 0 < x)%N as [->|Hx] by lia; [by rewrite pretty_N_go_0|].
  rewrite pretty_N_go_step by done. apply IH; [by apply N.div_lt|]. simpl. rewrite Hs, orb_false_r.
  assert (Hd : (x mod 10 < 10)%N) by (by apply N.mod_lt). revert Hd. generalize (x mod 10)%N as d. intros d Hd.
  assert (Hc : d ∈ [0; 1; 2; 3; 4; 5; 6; 7; 8; 9]%N) by (rewrite !elem_of_cons, elem_of_nil; lia).
  rewrite !elem_of_cons, elem_of_nil in Hc. by repeat destruct Hc as [->|Hc].
Qed.

Lemma pretty_newline (z : Z) : (0 <= z)%Z -> has_char newline (pretty z) = false.
Proof. intros Hz. destruct z as [|p|p]; [done|by apply (pretty_N_go_newline (N.pos p))|lia]. Qed.
