(* ===== verification/Prog.v ===== *)
(** * Programs with external calls

    The bridge is a thin layer between the Go runtime and the Windows API, so
    nearly every function of it alternates its own logic with calls to code
    that is not in the repository.  A function is modelled as a [prog]: a tree
    whose nodes are the external calls it makes, in order, and whose branches
    are the answers the callee may give.  [every_run] quantifies over all the
    answers a documented contract allows; [run] executes a program against a
    concrete environment. *)

From S2P Require Import Prelude.

Section prog.
Context {Act : Type} {Ans : Act -> Type}.

Inductive prog (T : Type) : Type :=
| Ret (x : T)
| Vis (a : Act) (k : Ans a -> prog T).
Arguments Ret {T} x.
Arguments Vis {T} a k.

(** One external call and the answer it got. *)
Inductive event : Type := Ev (a : Act) (r : Ans a).

Definition call (a : Act) : prog (Ans a) := Vis a Ret.

Fixpoint bind {T U} (p : prog T) (f : T -> prog U) : prog U :=
  match p with
  | Ret x => f x
  | Vis a k => Vis a (fun r => bind (k r) f)
  end.

(** A contract says which answers the callee may give after a history. *)
Definition contract := list event -> forall a, Ans a -> Prop.

Definition any_answer : contract := fun _ _ _ => True.

(** [every_run C p tr Q]: after history [tr], every run of [p] in which the
    callees respect [C] ends, with a result and a history that satisfy [Q]. *)
Fixpoint every_run {T} (C : contract) (p : prog T) (tr : list event)
    (Q : T -> list event -> Prop) : Prop :=
  match p with
  | Ret x => Q x tr
  | Vis a k => forall r, C tr a r -> every_run C (k r) (tr ++ [Ev a r]) Q
  end.

Lemma every_run_mono {T} C (p : prog T) tr (Q1 Q2 : T -> list event -> Prop) :
  (forall x tr', Q1 x tr' -> Q2 x tr') ->
  every_run C p tr Q1 -> every_run C p tr Q2.
Proof. revert tr. induction p; cbn; eauto. Qed.

Lemma every_run_bind {T U} C (p : prog T) (f : T -> prog U) tr Q :
  every_run C p tr (fun x tr' => every_run C (f x) tr' Q) ->
  every_run C (bind p f) tr Q.
Proof. revert tr. induction p; cbn; eauto. Qed.

Lemma every_run_and {T} C (p : prog T) tr (Q1 Q2 : T -> list event -> Prop) :
  every_run C p tr Q1 -> every_run C p tr Q2 ->
  every_run C p tr (fun x tr' => Q1 x tr' /\ Q2 x tr').
Proof. revert tr. induction p; cbn; eauto. Qed.

Lemma every_run_true {T} C (p : prog T) tr : every_run C p tr (fun _ _ => True).
Proof. revert tr. induction p; cbn; eauto. Qed.

(** A run with its result and the calls it made. *)
Inductive runs_to {T} : prog T -> T -> list event -> Prop :=
| runs_ret x : runs_to (Ret x) x []
| runs_vis a k r x tr : runs_to (k r) x tr -> runs_to (Vis a k) x (Ev a r :: tr).

Lemma every_run_runs_to {T} (p : prog T) pre Q x tr :
  every_run any_answer p pre Q -> runs_to p x tr -> Q x (pre ++ tr).
Proof.
  intros Hp Hr. revert pre Hp. induction Hr as [x|a k r x tr _ IH]; cbn; intros pre Hp; [by rewrite app_nil_r|].
  change (Ev a r :: tr) with ([Ev a r] ++ tr). rewrite (assoc_L (++)). by apply IH, Hp.
Qed.

(** Fewer answers, fewer runs. *)
Lemma every_run_contract {T} (C C' : contract) (p : prog T) tr Q :
  (forall tr a r, C' tr a r -> C tr a r) -> every_run C p tr Q -> every_run C' p tr Q.
Proof. intros HC. revert tr. induction p; cbn; eauto. Qed.

(** History only grows. *)
Lemma every_run_extends {T} C (p : prog T) tr :
  every_run C p tr (fun _ tr' => exists tr2, tr' = tr ++ tr2).
Proof.
  revert tr. induction p as [x|a k IH]; cbn; intros tr.
  - exists []. by rewrite app_nil_r.
  - intros r _. eapply every_run_mono; [|apply IH]. intros ? ? [tr2 ->].
    exists (Ev a r :: tr2). by rewrite <- (assoc_L (++)).
Qed.

Lemma every_run_history {T} C (p : prog T) tr (Q : T -> list event -> Prop) :
  every_run C p tr Q ->
  every_run C p tr (fun x tr' => Q x tr' /\ exists tr2, tr' = tr ++ tr2).
Proof. intros. apply every_run_and; [done|apply every_run_extends]. Qed.

(** A contract that asks nothing more of a call for a longer history before it. *)
Definition forgetful (C : contract) : Prop := forall tr1 tr2 a r, C (tr1 ++ tr2) a r -> C tr2 a r.

Lemma forgetful_and (C C' : contract) :
  forgetful C -> forgetful C' -> forgetful (fun tr a r => C tr a r /\ C' tr a r).
Proof. intros H H' tr1 tr2 a r [H1 H2]. eauto. Qed.

(** A history, after [pre], in which every answer respects the contract. *)
Fixpoint respects (C : contract) (pre tr : list event) : Prop :=
  match tr with
  | [] => True
  | Ev a r :: tr => C pre a r /\ respects C (pre ++ [Ev a r]) tr
  end.

Lemma respects_app C tr1 tr2 : forall pre,
  respects C pre (tr1 ++ tr2) <-> respects C pre tr1 /\ respects C (pre ++ tr1) tr2.
Proof.
  induction tr1 as [|[a r] tr1 IH]; intros pre; cbn; [rewrite app_nil_r; tauto|].
  rewrite IH, <- (assoc_L (++)). cbn. tauto.
Qed.

Lemma respects_at C pre tr1 a r tr2 : respects C pre (tr1 ++ Ev a r :: tr2) -> C (pre ++ tr1) a r.
Proof. intros [_ H]%respects_app. apply H. Qed.

(** Histories record the answers as the contract allows them. *)
Lemma respects_elem C tr a r : respects C [] tr -> Ev a r ∈ tr -> exists pre, C pre a r.
Proof.
  intros H (l1 & l2 & ->)%list_elem_of_split. apply respects_app in H as [_ H]. cbn in H. destruct H as [H _]. eauto.
Qed.

Lemma every_run_respects {T} C (p : prog T) tr (Q : T -> list event -> Prop) :
  respects C [] tr -> every_run C p tr Q ->
  every_run C p tr (fun x tr' => Q x tr' /\ respects C [] tr').
Proof.
  revert tr. induction p as [x|a k IH]; cbn; intros tr Htr Hp; [done|].
  intros r Hr. apply IH; [|by apply Hp]. apply respects_app. by repeat split.
Qed.

(** What holds of the runs that begin with an empty history holds after any other. *)
Lemma every_run_shift {T} C (p : prog T) tr (Q : T -> list event -> Prop) :
  forgetful C -> every_run C p [] Q ->
  every_run C p tr (fun x tr' => exists tr2, tr' = tr ++ tr2 /\ Q x tr2).
Proof.
  intros HC. enough (H : forall tr1, every_run C p tr1 Q ->
    every_run C p (tr ++ tr1) (fun x tr' => exists tr2, tr' = tr ++ tr2 /\ Q x tr2)).
  { intros Hp. specialize (H [] Hp). by rewrite app_nil_r in H. }
  induction p as [x|a k IH]; cbn; intros tr1 Hp; [by exists tr1|].
  intros r Hr. apply HC in Hr. specialize (IH r _ (Hp r Hr)). by rewrite (assoc_L (++)) in IH.
Qed.

(** The program [p] with [go n] run inside its [n]-th call, if it is one that lets other code
    run before it returns; [w] is what [go] works on. *)
Fixpoint around {W A} (enters : Act -> bool) (go : nat -> W -> prog (option W)) (n : nat) (p : prog A) (w : W)
    : prog (option (A * W)) :=
  match p with
  | Ret x => Ret (Some (x, w))
  | Vis a k =>
      Vis a (fun r =>
        if enters a then
          bind (go n w) (fun o =>
            match o with Some w => around enters go (S n) (k r) w | None => Ret None end)
        else around enters go (S n) (k r) w)
  end.

(** The same program, with the calls it made in its result. *)
Fixpoint traced {T} (p : prog T) : prog (T * list event) :=
  match p with
  | Ret x => Ret (x, [])
  | Vis a k => Vis a (fun r => bind (traced (k r)) (fun '(x, tr) => Ret (x, Ev a r :: tr)))
  end.

Lemma every_run_traced {T} C (p : prog T) (Q : T * list event -> list event -> Prop) : forall tr,
  every_run C p tr (fun x tr' => forall tr2, tr' = tr ++ tr2 -> Q (x, tr2) tr') ->
  every_run C (traced p) tr Q.
Proof.
  revert Q. induction p as [x|a k IH]; cbn; intros Q tr Hp.
  - apply Hp. by rewrite app_nil_r.
  - intros r Hr. apply every_run_bind, IH. eapply every_run_mono; [|by apply Hp].
    intros x tr' HQ tr2 Htr. cbn. apply HQ. by rewrite Htr, <- (assoc_L (++)).
Qed.

(** The environment as a state machine that answers calls. *)
Section run.
Context {S : Type} (h : S -> forall a, Ans a * S).

Fixpoint run {T} (p : prog T) (s : S) : T * S * list event :=
  match p with
  | Ret x => (x, s, [])
  | Vis a k =>
      let '(r, s1) := h s a in
      let '(x, s2, tr) := run (k r) s1 in (x, s2, Ev a r :: tr)
  end.

Definition result {T} (p : prog T) (s : S) : T := (run p s).1.1.
Definition final {T} (p : prog T) (s : S) : S := (run p s).1.2.
Definition trace {T} (p : prog T) (s : S) : list event := (run p s).2.

Lemma run_bind {T U} (p : prog T) (f : T -> prog U) s :
  run (bind p f) s =
    let '(x, s1, tr1) := run p s in
    let '(y, s2, tr2) := run (f x) s1 in (y, s2, tr1 ++ tr2).
Proof.
  revert s. induction p as [x|a k IH]; intros s; cbn.
  - by destruct (run (f x) s) as [[??]?].
  - destruct (h s a) as [r s1]. rewrite IH.
    destruct (run (k r) s1) as [[x s2] tr1].
    by destruct (run (f x) s2) as [[??]?].
Qed.

Lemma result_bind {T U} (p : prog T) (f : T -> prog U) s :
  result (bind p f) s = result (f (result p s)) (final p s).
Proof.
  unfold result, final. rewrite run_bind. destruct (run p s) as [[x s1] tr]. cbn.
  by destruct (run (f x) s1) as [[??]?].
Qed.

Lemma final_bind {T U} (p : prog T) (f : T -> prog U) s :
  final (bind p f) s = final (f (result p s)) (final p s).
Proof.
  unfold result, final. rewrite run_bind. destruct (run p s) as [[x s1] tr]. cbn.
  by destruct (run (f x) s1) as [[??]?].
Qed.

Lemma result_bind_call {U} a (f : Ans a -> prog U) s :
  result (bind (call a) f) s = result (f (h s a).1) (h s a).2.
Proof.
  unfold result, call. cbn. destruct (h s a) as [r s1]. cbn.
  by destruct (run (f r) s1) as [[??]?].
Qed.

Lemma final_bind_call {U} a (f : Ans a -> prog U) s :
  final (bind (call a) f) s = final (f (h s a).1) (h s a).2.
Proof.
  unfold final, call. cbn. destruct (h s a) as [r s1]. cbn.
  by destruct (run (f r) s1) as [[??]?].
Qed.

Lemma final_call a s : final (call a) s = (h s a).2.
Proof. unfold final, call. cbn. by destruct (h s a). Qed.

(** Programs that only make calls that satisfy [P], and an invariant of them. *)
Fixpoint only_calls {T} (P : Act -> Prop) (p : prog T) : Prop :=
  match p with
  | Ret _ => True
  | Vis a k => P a /\ forall r, only_calls P (k r)
  end.

Lemma only_calls_bind {T U} P (p : prog T) (f : T -> prog U) :
  only_calls P p -> (forall x, only_calls P (f x)) -> only_calls P (bind p f).
Proof. induction p as [x|a k IH]; cbn; [auto|]. intros [Ha Hk] Hf. split; auto. Qed.

Lemma only_calls_mono {T} (P Q : Act -> Prop) (p : prog T) :
  (forall a, P a -> Q a) -> only_calls P p -> only_calls Q p.
Proof. intros HPQ. induction p as [x|a k IH]; cbn; [auto|]. intros [Ha Hk]. split; auto. Qed.

(** Every event of a run is then a call of that kind. *)
Lemma only_calls_every_run {T} (P : Act -> Prop) C (p : prog T) tr :
  only_calls P p ->
  every_run C p tr (fun _ tr' => exists tr1,
    tr' = tr ++ tr1 /\ Forall (fun e => match e with Ev a _ => P a end) tr1).
Proof.
  revert tr. induction p as [x|a k IH]; intros tr; cbn.
  - intros _. exists []. by rewrite app_nil_r.
  - intros [Ha Hk] r _. eapply every_run_mono; [|by apply IH].
    intros ? ? (tr1 & -> & H1). exists (Ev a r :: tr1). by rewrite <- app_assoc, Forall_cons.
Qed.

Lemma only_calls_inv {T} (P : Act -> Prop) (R : S -> S -> Prop) (p : prog T) s :
  (forall s, R s s) -> (forall s1 s2 s3, R s1 s2 -> R s2 s3 -> R s1 s3) ->
  (forall s a, P a -> R s (h s a).2) ->
  only_calls P p -> R s (final p s).
Proof.
  intros Hrefl Htrans Hstep. unfold final. revert s.
  induction p as [x|a k IH]; intros s Hp; cbn in *; [apply Hrefl|].
  destruct Hp as [Ha Hk]. specialize (Hstep s a Ha).
  destruct (h s a) as [r s1]. specialize (IH r s1 (Hk r)).
  destruct (run (k r) s1) as [[??]?]. cbn in *. eauto.
Qed.

(** Every program of the model terminates: a run always has a result, and
    an environment that respects the contract only produces the runs
    [every_run] speaks about. *)
Lemma run_every_run {T} (C : contract) (p : prog T) Q tr s :
  (forall s tr a, C tr a (h s a).1) ->
  every_run C p tr Q ->
  Q (result p s) (tr ++ trace p s).
Proof.
  intros HC. unfold result, trace. revert tr s.
  induction p as [x|a k IH]; intros tr s Hp; cbn in *.
  - by rewrite app_nil_r.
  - destruct (h s a) as [r s1] eqn:E.
    specialize (IH r (tr ++ [Ev a r]) s1).
    destruct (run (k r) s1) as [[x s2] tr2]; cbn in *.
    rewrite <- app_assoc in IH. apply IH, Hp.
    specialize (HC s tr a). by rewrite E in HC.
Qed.

(** What holds of the history at the end of every run, and before when it holds after,
    holds now. *)
Lemma every_run_now {T} (C : contract) (p : prog T) (s : S) t (P : list event -> Prop) :
  (forall s tr a, C tr a (h s a).1) -> (forall t1 t2, P (t1 ++ t2) -> P t1) ->
  every_run C p t (fun _ t' => P t') -> P t.
Proof. intros HC HP Hp. exact (HP _ _ (run_every_run C p _ t s HC Hp)). Qed.

(** ** Up to an event nobody is prepared for

    [bad] events are answers the contract allows and the code has no branch for.
    [until Q P]: either there was none, and [Q] holds of the run; or [P] holds of the
    history before the first one. *)
Context (bad : event -> bool).

Definition spared (C : contract) : contract := fun tr a r => C tr a r /\ bad (Ev a r) = false.

Definition clean (tr : list event) : Prop := Forall (fun e => bad e = false) tr.

Definition until {T} (Q : T -> list event -> Prop) (P : list event -> Prop) (x : T) (tr : list event) : Prop :=
  (clean tr /\ Q x tr) \/
  exists tr1 e tr2, tr = tr1 ++ e :: tr2 /\ clean tr1 /\ bad e = true /\ P tr1.

(** What is proved of the runs that are spared such answers holds of all runs up to the
    first one, if it can be said at any moment. *)
Lemma every_run_until {T} (C : contract) (p : prog T) (s : S) (Q : T -> list event -> Prop) (P : list event -> Prop) :
  (forall s tr a, spared C tr a (h s a).1) -> (forall x tr, Q x tr -> P tr) -> (forall t1 t2, P (t1 ++ t2) -> P t1) ->
  forall tr, clean tr -> every_run (spared C) p tr Q -> every_run C p tr (until Q P).
Proof.
  intros HC HQ HP. induction p as [x|a k IH]; intros tr Htr Hp; [by left|]. cbn. intros r Hr.
  destruct (bad (Ev a r)) eqn:E.
  - eapply every_run_mono; [|apply every_run_extends]. intros x tr' [tr2 ->]. right.
    exists tr, (Ev a r), tr2. rewrite <- (assoc_L (++)). split_and!; [done..|].
    apply (every_run_now (spared C) (Vis a k) s tr P HC HP). eapply every_run_mono; [exact HQ|exact Hp].
  - apply IH; [apply Forall_app; split; [done|by constructor]|]. apply Hp. by split.
Qed.

Lemma respects_spared (C : contract) tr : forall pre, respects (spared C) pre tr -> clean tr.
Proof.
  induction tr as [|[a r] tr IH]; intros pre; cbn; [constructor|]. intros [[_ He] H]. constructor; [exact He|by eapply IH].
Qed.

Lemma until_mono {T} (Q1 Q2 : T -> list event -> Prop) (P1 P2 : list event -> Prop) x tr :
  (forall x tr, Q1 x tr -> Q2 x tr) -> (forall tr, P1 tr -> P2 tr) -> until Q1 P1 x tr -> until Q2 P2 x tr.
Proof. intros HQ HP [[? ?]|(tr1 & e & tr2 & ? & ? & ? & ?)]; [left; auto|right; exists tr1, e, tr2; auto]. Qed.
End run.
End prog.

Arguments prog {_} _ _ : assert.
Arguments Ret {_ _ _} x.
Arguments Vis {_ _ _} a k.
Arguments event {_} _.
Arguments Ev {_ _} a r.
Arguments contract {_} _.

#[export] Instance prog_ret {Act} {Ans : Act -> Type} : MRet (prog Ans) := fun _ => Ret.
#[export] Instance prog_bind {Act} {Ans : Act -> Type} : MBind (prog Ans) :=
  fun _ _ f p => bind p f.

(** Symbolic execution of [every_run any_answer]: introduce the answers and split
    on the tests, to the end of every path. *)
Ltac head_test p :=
  lazymatch p with
  | if ?b then _ else _ => destruct b eqn:?
  | match ?x with Some _ => _ | None => _ end => destruct x eqn:?
  | bind ?q _ => head_test q
  | mbind _ ?q => head_test q
  end.

Ltac explore_step :=
  cbn -[Z.eqb Z.ltb Z.leb];
  lazymatch goal with
  | |- forall r : unit, any_answer _ _ _ -> _ => intros [] _
  | |- forall r : prod _ _, any_answer _ _ _ -> _ => intros [? ?] _
  | |- forall r, any_answer _ _ _ -> _ => intros ? _
  | |- every_run _ ?p _ _ => head_test p
  end.
Ltac explore := repeat explore_step.
