(* ===== verification/Win32.v ===== *)
(** * The Windows API as the bridge sees it

    Interface identifiers, result codes and the signature of the external
    calls.  Nothing here models Windows itself: a call is only a name with its
    arguments and the type of its answer, and what the bridge relies on is
    stated as a contract on the answers where a theorem needs it. *)

From S2P Require Import Prelude Prog.

(** ** Identifiers *)

(** [struct GUID { unsigned long Data1; unsigned short Data2, Data3;
    unsigned char Data4[8]; }]; the fields hold unsigned values in range. *)
Record guid := GUID { Data1 : Z; Data2 : Z; Data3 : Z; Data4 : list Z }.

#[export] Instance guid_eq_dec : EqDecision guid.
Proof. solve_decision. Defined.

(** [n] little-endian bytes of [z]. *)
Fixpoint le_bytes (n : nat) (z : Z) : list Z :=
  match n with
  | O => []
  | S n => (z mod 256)%Z :: le_bytes n (z / 256)%Z
  end.

(** The 16 bytes [memcmp] sees. *)
Definition guid_bytes (g : guid) : list Z :=
  le_bytes 4 (Data1 g) ++ le_bytes 2 (Data2 g) ++ le_bytes 2 (Data3 g) ++ Data4 g.

Fixpoint memcmp (a b : list Z) : Z :=
  match a, b with
  | x :: a, y :: b => if (x =? y)%Z then memcmp a b else if (x <? y)%Z then -1 else 1
  | _, _ => 0
  end.

Definition guid_wf (g : guid) : Prop :=
  (0 <= Data1 g < 4294967296)%Z /\ (0 <= Data2 g < 65536)%Z /\
  (0 <= Data3 g < 65536)%Z /\ length (Data4 g) = 8.

Lemma le_bytes_length n z : length (le_bytes n z) = n.
Proof. revert z. induction n; intros; simpl; auto. Qed.

Lemma le_bytes_inj n a b :
  (0 <= a < 256 ^ Z.of_nat n)%Z -> (0 <= b < 256 ^ Z.of_nat n)%Z ->
  le_bytes n a = le_bytes n b -> a = b.
Proof.
  revert a b. induction n as [|n IH]; intros a b Ha Hb H; simpl in H.
  - change (256 ^ Z.of_nat 0)%Z with 1%Z in *. lia.
  - injection H as H0 H1.
    rewrite Nat2Z.inj_succ, Z.pow_succ_r in Ha, Hb by lia.
    assert (a / 256 = b / 256)%Z.
    { apply IH; [split; [apply Z.div_pos; lia | apply Z.div_lt_upper_bound; lia] .. | done]. }
    rewrite (Z.div_mod a 256), (Z.div_mod b 256) by lia. congruence.
Qed.

Lemma memcmp_0 a b : length a = length b -> memcmp a b = 0%Z <-> a = b.
Proof.
  revert b. induction a as [|x a IH]; intros [|y b] Hl; simpl in *; try lia.
  - done.
  - destruct (Z.eqb_spec x y) as [->|Hne].
    + rewrite IH by lia. split; congruence.
    + split; [case_match; lia | congruence].
Qed.

(** Comparing two identifiers with [memcmp] over [sizeof(GUID)] bytes decides
    their equality. *)
Lemma guid_memcmp a b :
  guid_wf a -> guid_wf b ->
  memcmp (guid_bytes a) (guid_bytes b) = 0%Z <-> a = b.
Proof.
  intros (A1 & A2 & A3 & A4) (B1 & B2 & B3 & B4).
  rewrite memcmp_0
    by (unfold guid_bytes; rewrite !length_app, !le_bytes_length; lia).
  split; [|congruence]. unfold guid_bytes. intros H.
  apply app_inj_1 in H as [H1 H]; [|by rewrite !le_bytes_length].
  apply app_inj_1 in H as [H2 H]; [|by rewrite !le_bytes_length].
  apply app_inj_1 in H as [H3 H4]; [|by rewrite !le_bytes_length].
  apply le_bytes_inj in H1, H2, H3; [|done..].
  destruct a, b; simpl in *; congruence.
Qed.

(** The identifiers of the Windows SDK that the code names (documented values). *)
Definition OLE_GUID (n : Z) : guid := GUID n 0 0 [192; 0; 0; 0; 0; 0; 0; 70]%Z.

Definition IID_IUnknown := OLE_GUID 0x0.
Definition IID_IClassFactory := OLE_GUID 0x1.
Definition IID_IOleObject := OLE_GUID 0x112.
Definition IID_IOleInPlaceObject := OLE_GUID 0x113.
Definition IID_IOleInPlaceActiveObject := OLE_GUID 0x117.
Definition IID_IOleClientSite := OLE_GUID 0x118.
Definition IID_IOleInPlaceSite := OLE_GUID 0x119.
Definition IID_IDispatch := OLE_GUID 0x20400.
Definition IID_IDocHostUIHandler :=
  GUID 0xbd3f23c0 0xd43e 0x11cf [0x89; 0x3b; 0x00; 0xaa; 0x00; 0xbd; 0xce; 0x1a]%Z.
Definition IID_IWebBrowser2 :=
  GUID 0xd30c1661 0xcdaf 0x11d0 [0x8a; 0x3e; 0x00; 0xc0; 0x4f; 0xc9; 0xe2; 0x6e]%Z.
Definition IID_IInternetProtocol :=
  GUID 0x79eac9e4 0xbaf9 0x11ce [0x8c; 0x82; 0x00; 0xaa; 0x00; 0x4b; 0xa9; 0x0b]%Z.
Definition CLSID_WebBrowser :=
  GUID 0x8856f961 0x340a 0x11d0 [0xa9; 0x6b; 0x00; 0xc0; 0x4f; 0xd7; 0x05; 0xa2]%Z.

(** ** Result codes *)

(** [HRESULT] is a [LONG]; a negative value is a failure. *)
Definition S_OK : Z := 0.
Definition S_FALSE : Z := 1.
Definition E_NOTIMPL : Z := i32 0x80004001.
Definition E_NOINTERFACE : Z := i32 0x80004002.
Definition E_POINTER : Z := i32 0x80004003.
Definition E_OUTOFMEMORY : Z := i32 0x8007000E.
Definition CLASS_E_NOAGGREGATION : Z := i32 0x80040110.

Definition SUCCEEDED (hr : Z) : bool := (0 <=? hr)%Z.
Definition FAILED (hr : Z) : bool := (hr <? 0)%Z.

Lemma FAILED_negb hr : FAILED hr = negb (SUCCEEDED hr).
Proof. unfold FAILED, SUCCEEDED. apply Z.ltb_antisym. Qed.

(** ** External calls *)

(** Pointers, handles and window handles are [Z], 0 being [NULL]. *)

Record MSG := Msg { msg_hwnd : Z; msg_message : Z; msg_wParam : Z; msg_lParam : Z }.
Record RECT := Rect { rc_left : Z; rc_top : Z; rc_right : Z; rc_bottom : Z }.

#[export] Instance MSG_eq_dec : EqDecision MSG.
Proof. solve_decision. Defined.

(** Arguments of a COM method call. *)
Inductive arg :=
| AInt (z : Z)              (** an integer, a flag or an enumerator *)
| APtr (p : Z)              (** an interface pointer, a handle or a buffer *)
| AStr (s : string)         (** a string constant *)
| AWide (s : list Z)        (** a UTF-16 string built at run time *)
| ARect (r : RECT)
| AIid (g : guid).

Inductive Win32 : Type :=
(* memory *)
| GlobalAlloc (flags bytes : Z)
| GlobalFree (p : Z)
| CoTaskMemAlloc (bytes : Z)
| CoTaskMemFree (p : Z)
| c_malloc (bytes : Z)
| c_free (p : Z)
| NewArray (n : Z)            (** [new T[n]] *)
| DeleteArray (p : Z)         (** [delete[]], after the destructors *)
| GetLastError
(* COM *)
| CoGetClassObject (clsid : guid) (ctx : Z) (iid : guid)
| CLSIDFromProgID (progid : Z)
| CoCreateInstance (clsid : Z) (ctx : Z) (iid : guid)
| OleSetContainedObject (obj : Z) (contained : bool)
| QueryInterface (obj : Z) (iid : guid)
| AddRef (obj : Z)
| Release (obj : Z)
| Invoke (obj : Z) (m : string) (args : list arg)  (** a method that returns an [HRESULT] *)
| Fetch (obj : Z) (m : string) (args : list arg)   (** a method with an interface pointer as [out] parameter *)
| GetValue (obj : Z) (m : string) (args : list arg)  (** a method with a value as [out] parameter *)
| GetString (obj : Z) (m : string) (args : list arg) (** a method with a string as [out] parameter *)
| CoInternetGetSession
| SHCreateMemStream (bytes : list Z)
| NewObject (cls : string)   (** [new] of a class of the bridge with a reference count *)
| CallProc (proc : Z) (args : list arg)  (** a function found with [GetProcAddress] *)
(* strings *)
| MultiByteToWideChar (s dst cch : Z)
| WideCharToMultiByte (cp : Z) (s : list Z) (cch : Z)
| SysAllocStringLen (cch : Z)
| SysFreeString (bstr : Z)
| SysStringLen (bstr : Z)
| VariantClear (vt val : Z)   (** frees what a [VARIANT] owns *)
| ReadResult                  (** what a method left in its result [VARIANT], which is now the caller's *)
(* libraries *)
| LoadLibrary (path : Z)
| GetProcAddress (lib : Z) (name : string)
| FreeLibrary (lib : Z)
(* calls into Go *)
| GoSunAPP (thread : Z) (url : list Z)
| GoCallback (fn type a b c : Z)
(* threads, windows and messages *)
| GetCurrentThreadId
| CreateThread (stack : Z)
| WaitForSingleObject (h : Z)
| MessageBox (text : Z) (caption : string) (type : Z)
| WriteStderr (text : string)
| GetQueueStatus (flags : Z)
| PeekMessage (min max remove : Z)
| GetMessageA
| PostQuitMessage (code : Z)
| GetAncestor (hwnd flags : Z)
| GetWindowLongPtrA (hwnd index : Z)
| TranslateAcceleratorA (hwnd haccel : Z) (msg : MSG)
| IsDialogMessage (hwnd : Z) (msg : MSG)
| TranslateMessage (msg : MSG)
| DispatchMessageA (msg : MSG)
| SendMessageA (hwnd msg wParam lParam : Z)
| DefWindowProc (hwnd msg wParam lParam : Z)
| CallNextHookEx (hook code wParam lParam : Z)
| EnumThreadWindows (thread : Z)
| DestroyWindow (hwnd : Z)
| RegisterClass (name : string)
| CreateWindow (cls : string)
| GetClientRect (hwnd : Z)
| Sleep (ms : Z)
| AttachThreadInput (tid main : Z)
| LoadCursorWait
| SetCursor (c : Z)
| GetCursorPos
| SetCursorPos (x y : Z)
(* shared atomics of cside.c: the value read depends on the other threads *)
| LoadTicks
| StoreTicks (v : Z)
| DecTicks
| LoadPrevCursor
| StorePrevCursor (c : Z)
(* program start *)
| Setup (what : string) (args : list Z).

(** Answers.  A method with an [out] pointer answers the result code and what
    it stored through the pointer. *)
Definition Ans (a : Win32) : Type :=
  match a with
  | CoGetClassObject _ _ _ | CLSIDFromProgID _ | CoCreateInstance _ _ _
  | QueryInterface _ _ | Fetch _ _ _ | GetValue _ _ _ | CoInternetGetSession | ReadResult => Z * Z
  | GetString _ _ _ => Z * option (Z * list Z)  (** the block and its characters *)
  | GoSunAPP _ _ => list Z
  | WideCharToMultiByte _ _ _ => Z * list Z  (** the result and what the buffer then holds *)
  | SendMessageA _ _ _ _ => bool   (** whether the window procedure was called *)
  | PeekMessage _ _ _ => option MSG
  | GetMessageA => Z * MSG
  | EnumThreadWindows _ => list Z
  | GetClientRect _ => RECT
  | GetCursorPos => Z * Z
  | WriteStderr _ | PostQuitMessage _ | Sleep _ | StoreTicks _ | StorePrevCursor _
  | CoTaskMemFree _ | c_free _ | DeleteArray _ | SysFreeString _ | VariantClear _ _ => unit
  | _ => Z
  end.

Abbreviation act := (prog Ans).
Abbreviation ev := (event Ans).

(** ** Documented behaviour

    Result codes of the calls that hand out a pointer: [S_OK] with
    a non-null pointer, or a failure with a null one. *)
Definition out_ok (hr q : Z) : Prop :=
  (hr = S_OK /\ q <> 0%Z) \/ ((hr < 0)%Z /\ q = 0%Z).

Definition com_contract : contract Ans := fun _ a =>
  match a return Ans a -> Prop with
  | CoGetClassObject _ _ _ | CoCreateInstance _ _ _
  | QueryInterface _ _ | Fetch _ _ _ | CoInternetGetSession => fun r => out_ok r.1 r.2
  | GetString _ _ _ => fun r =>
      (r.1 = S_OK /\ exists p w, r.2 = Some (p, w) /\ p <> 0%Z) \/ ((r.1 < 0)%Z /\ r.2 = None)
  | NewObject _ | NewArray _ => fun r => r <> 0%Z   (** [new] throws when it fails *)
  | _ => fun _ => True
  end.

(** A concrete environment that respects the contract, for examples: every call
    succeeds, and pointers are handed out from a counter. *)
Definition good_env (next : Z) (a : Win32) : Ans a * Z :=
  match a return Ans a * Z with
  | GlobalAlloc _ _ | CoTaskMemAlloc _ | c_malloc _ | NewArray _ | CreateThread _ | CreateWindow _ | RegisterClass _
  | SysAllocStringLen _ | LoadLibrary _ | GetProcAddress _ _ => (next, next + 100)%Z
  | CoGetClassObject _ _ _ | CLSIDFromProgID _ | CoCreateInstance _ _ _
  | QueryInterface _ _ | Fetch _ _ _ | CoInternetGetSession => ((S_OK, next), next + 100)%Z
  | GetValue _ _ _ => ((S_OK, 0)%Z, next)
  | ReadResult => ((9, next)%Z, next + 100)%Z
  | GetString _ _ _ => ((S_OK, Some (next, [97]))%Z, next + 100)%Z
  | SHCreateMemStream _ | NewObject _ => (next, next + 100)%Z
  | GoSunAPP _ url => (url, next)
  | WideCharToMultiByte _ s cch => ((Z.of_nat (length s) + 1, if (cch =? 0)%Z then [] else s ++ [0])%Z, next)
  | SendMessageA _ _ _ _ => (true, next)
  | PeekMessage _ _ _ => (None, next)
  | GetMessageA => ((1, Msg 0 0 0 0)%Z, next)
  | EnumThreadWindows _ => ([], next)
  | GetClientRect _ => (Rect 0 0 640 480, next)
  | GetCursorPos => ((0, 0)%Z, next)
  | WriteStderr _ | PostQuitMessage _ | Sleep _ | StoreTicks _ | StorePrevCursor _
  | CoTaskMemFree _ | c_free _ | DeleteArray _ | SysFreeString _ | VariantClear _ _ => (tt, next)
  | _ => (0%Z, next)
  end.
