(* ===== verification/Accounting.v ===== *)
(** * Accounting of references and memory

    COM objects are reference counted and every allocation must be freed once,
    so the functions of the bridge are judged by what a trace of external calls
    leaves with the caller.  [held] and [blocks] count it from the trace;
    [Acct] states it as two multisets, with one rule per kind of call, which is
    how the proofs about the long functions proceed. *)

From S2P Require Import Prelude Prog Win32.

(** ** Counting

    A successful call that hands out an interface pointer gives the caller one
    reference on it, [AddRef] one more, and [Release] takes one back.  Two calls
    may hand out the same pointer, so references are counted per pointer. *)

Definition gives (hr q p : Z) : Z :=
  if SUCCEEDED hr && c_true q && (q =? p)%Z then 1 else 0.

Definition ref_delta (p : Z) (e : ev) : Z :=
  match e with
  | Ev a r =>
      match a return Ans a -> Z with
      | CoGetClassObject _ _ _ | CoCreateInstance _ _ _
      | QueryInterface _ _ | Fetch _ _ _ | CoInternetGetSession => fun r => gives r.1 r.2 p
      | SHCreateMemStream _ => fun q => if c_true q && (q =? p)%Z then 1 else 0
      | NewObject _ => fun q => if c_true q && (q =? p)%Z then 1 else 0
      | AddRef o => fun _ => if (o =? p)%Z then 1 else 0
      | ReadResult => fun r => if ((r.1 =? 9) || (r.1 =? 13)) && c_true r.2 && (r.2 =? p)%Z then 1 else 0
      | Release o => fun _ => if (o =? p)%Z then -1 else 0
      | _ => fun _ => 0
      end r
  end%Z.

Definition held (tr : list ev) (p : Z) : Z := sumZ (ref_delta p) tr.

(** Blocks allocated and not freed. *)
Definition block_delta (p : Z) (e : ev) : Z :=
  match e with
  | Ev a r =>
      match a return Ans a -> Z with
      | GlobalAlloc _ _ => fun q => if c_true q && (q =? p)%Z then 1 else 0
      | CoTaskMemAlloc _ => fun q => if c_true q && (q =? p)%Z then 1 else 0
      | SysAllocStringLen _ => fun q => if c_true q && (q =? p)%Z then 1 else 0
      | GetString _ _ _ => fun r =>
          match r.2 with Some (q, _) => if SUCCEEDED r.1 && c_true q && (q =? p)%Z then 1 else 0 | None => 0 end
      | ReadResult => fun r => if (r.1 =? 8) && c_true r.2 && (r.2 =? p)%Z then 1 else 0
      | c_malloc _ | NewArray _ => fun q => if c_true q && (q =? p)%Z then 1 else 0
      | GlobalFree q => fun _ => if (q =? p)%Z then -1 else 0
      | c_free q | DeleteArray q => fun _ => if c_true q && (q =? p)%Z then -1 else 0
      | SysFreeString q => fun _ => if c_true q && (q =? p)%Z then -1 else 0
      | VariantClear vt q => fun _ => if (vt =? 8)%Z && c_true q && (q =? p)%Z then -1 else 0
      | CoTaskMemFree q => fun _ => if c_true q && (q =? p)%Z then -1 else 0
      | _ => fun _ => 0
      end r
  end%Z.

Definition blocks (tr : list ev) (p : Z) : Z := sumZ (block_delta p) tr.

(** The object a call is made on. *)
Definition uses (e : ev) : option Z :=
  match e with
  | Ev (QueryInterface o _) _ | Ev (AddRef o) _ | Ev (Release o) _
  | Ev (Invoke o _ _) _ | Ev (Fetch o _ _) _ | Ev (GetValue o _ _) _
  | Ev (GetString o _ _) _ => Some o
  | _ => None
  end.

(** Every call is made on an object the caller holds a reference on, or on one
    of the borrowed objects [bor]. *)
Fixpoint uses_held (bor : list Z) (pre tr : list ev) : Prop :=
  match tr with
  | [] => True
  | e :: tr =>
      match uses e with
      | Some o => o ∈ bor \/ (0 < held pre o)%Z
      | None => True
      end /\ uses_held bor (pre ++ [e]) tr
  end.

Lemma held_app tr1 tr2 p : held (tr1 ++ tr2) p = (held tr1 p + held tr2 p)%Z.
Proof. apply sumZ_app. Qed.

Lemma blocks_app tr1 tr2 p : blocks (tr1 ++ tr2) p = (blocks tr1 p + blocks tr2 p)%Z.
Proof. apply sumZ_app. Qed.

Lemma uses_held_app bor pre tr1 tr2 :
  uses_held bor pre (tr1 ++ tr2) <-> uses_held bor pre tr1 /\ uses_held bor (pre ++ tr1) tr2.
Proof.
  revert pre. induction tr1 as [|e tr1 IH]; intros pre; simpl.
  - rewrite app_nil_r. tauto.
  - rewrite IH, <- (assoc_L (++)). simpl. tauto.
Qed.


(** ** Ownership

    How often [p] occurs in a multiset of pointers. *)
Definition occ (p : Z) (l : list Z) : Z := sumZ (fun q => if (q =? p)%Z then 1 else 0)%Z l.

(** The trace leaves the caller with one reference per element of [refs] and one
    block per element of [blks]. *)
Definition owns (tr : list ev) (refs blks : list Z) : Prop :=
  forall p, held tr p = occ p refs /\ blocks tr p = occ p blks.

(** At no moment more was given back than there was. *)
Definition never_negative (tr : list ev) : Prop :=
  forall pre, pre `prefix_of` tr -> forall p, (0 <= held pre p)%Z /\ (0 <= blocks pre p)%Z.

(** ... and made every call on an object that was borrowed or held. *)
Record Acct (bor : list Z) (tr : list ev) (refs blks : list Z) : Prop := {
  acct_uses : uses_held bor [] tr;
  acct_owns : owns tr refs blks;
  acct_nonneg : never_negative tr }.

#[export] Instance occ_proper p : Proper ((≡ₚ) ==> (=)) (occ p).
Proof.
  intros l1 l2 H. unfold occ, sumZ. induction H; simpl; try lia.
Qed.

#[export] Instance owns_proper tr : Proper ((≡ₚ) ==> (≡ₚ) ==> iff) (owns tr).
Proof.
  intros r1 r2 Hr b1 b2 Hb. unfold owns. by setoid_rewrite Hr; setoid_rewrite Hb.
Qed.

#[export] Instance Acct_proper bor tr : Proper ((≡ₚ) ==> (≡ₚ) ==> iff) (Acct bor tr).
Proof.
  intros r1 r2 Hr b1 b2 Hb. split; intros [Hu Ho Hn]; (split; [done| |done]).
  - by rewrite <- Hr, <- Hb.
  - by rewrite Hr, Hb.
Qed.

Lemma occ_nonneg p l : (0 <= occ p l)%Z.
Proof. unfold occ, sumZ. induction l; simpl; [lia|]. case_match; lia. Qed.

Lemma occ_pos p l : p ∈ l -> (0 < occ p l)%Z.
Proof.
  induction l as [|q l IH]; [by rewrite elem_of_nil|].
  pose proof (occ_nonneg p l) as Hn. unfold occ, sumZ in *. simpl.
  rewrite elem_of_cons. destruct (Z.eqb_spec q p); [lia|]. intros [->|Hl]; [done|].
  specialize (IH Hl). lia.
Qed.

Lemma Acct_nil bor : Acct bor [] [] [].
Proof. split; [done| |]; [intros p; done|]. intros pre ->%prefix_nil_inv p. done. Qed.

Lemma owns_nonneg tr R B p : owns tr R B -> (0 <= held tr p)%Z /\ (0 <= blocks tr p)%Z.
Proof. intros Ho. destruct (Ho p) as [-> ->]. split; apply occ_nonneg. Qed.

Lemma never_negative_snoc tr e R B : never_negative tr -> owns (tr ++ [e]) R B -> never_negative (tr ++ [e]).
Proof.
  intros Hn Ho pre Hpre p. apply prefix_snoc_inv in Hpre as [->|Hpre]; [by eapply owns_nonneg|by apply Hn].
Qed.

Lemma Acct_held bor tr R B p : Acct bor tr R B -> p ∈ R -> (0 < held tr p)%Z.
Proof. intros [_ Ho _] Hp. destruct (Ho p) as [-> _]. by apply occ_pos. Qed.

Lemma occ_pos_inv p l : (0 < occ p l)%Z -> p ∈ l.
Proof.
  induction l as [|q l IH]; [done|]. unfold occ, sumZ in *. simpl.
  destruct (Z.eqb_spec q p) as [->|]; [intros _; apply list_elem_of_here|]. intros H. apply list_elem_of_further, IH. lia.
Qed.

Lemma Acct_held_inv bor tr R B p : Acct bor tr R B -> (0 < held tr p)%Z -> p ∈ R.
Proof. intros [_ Ho _] Hp. destruct (Ho p) as [E _]. rewrite E in Hp. by apply occ_pos_inv. Qed.

(** An event that neither uses nor changes anything. *)
Definition neutral (e : ev) : Prop := uses e = None /\ forall p, ref_delta p e = 0%Z /\ block_delta p e = 0%Z.

(** ** Sound histories

    Nothing was used that was not borrowed or held, and nothing given back twice; what is
    left at the end is a matter of its own. *)
Definition sound (bor : list Z) (tr : list ev) : Prop := uses_held bor [] tr /\ never_negative tr.

Lemma never_negative_app tr1 tr2 : never_negative (tr1 ++ tr2) -> never_negative tr1.
Proof. intros H pre Hp. apply H. by apply prefix_app_r. Qed.

Lemma counts_snoc tr e p : held (tr ++ [e]) p = (held tr p + ref_delta p e)%Z /\
  blocks (tr ++ [e]) p = (blocks tr p + block_delta p e)%Z.
Proof. rewrite held_app, blocks_app. unfold held, blocks, sumZ. simpl. split; lia. Qed.

Lemma uses_snoc bor tr e : uses_held bor [] (tr ++ [e]) <->
  uses_held bor [] tr /\ match uses e with Some o => o ∈ bor \/ (0 < held tr o)%Z | None => True end.
Proof. rewrite uses_held_app. simpl. tauto. Qed.

Lemma Acct_sound bor tr R B : Acct bor tr R B -> sound bor tr.
Proof. by intros []. Qed.

Lemma sound_app bor tr1 tr2 : sound bor (tr1 ++ tr2) -> sound bor tr1.
Proof. intros [H1 H2]. split; [by apply uses_held_app in H1 as [? _]|by eapply never_negative_app]. Qed.

Lemma sound_counts bor tr p : sound bor tr -> (0 <= held tr p)%Z /\ (0 <= blocks tr p)%Z.
Proof. intros [_ H]. by apply (H tr). Qed.

Lemma sound_neutral bor tr e : neutral e -> sound bor tr -> sound bor (tr ++ [e]).
Proof.
  intros [He Hd] [Hu Hn]. split; [apply uses_snoc; by rewrite He|]. intros pre [->|Hpre]%prefix_snoc_inv p; [|by apply Hn].
  destruct (counts_snoc tr e p) as [-> ->], (Hd p) as [-> ->]. rewrite !Z.add_0_r. by apply Hn.
Qed.

(** A run after another one: it may use what that one holds. *)
Lemma sound_frame bor bor' tr tr' : sound bor tr -> sound bor' tr' ->
  (forall o, o ∈ bor' -> o ∈ bor \/ (0 < held tr o)%Z) -> sound bor (tr ++ tr').
Proof.
  intros HF [Hu Hn] Hbor. assert (HnF := fun p => sound_counts bor tr p HF). split.
  - apply uses_held_app. split; [apply HF|]. simpl.
    assert (Hpre : forall pre tr', never_negative (pre ++ tr') -> uses_held bor' pre tr' -> uses_held bor (tr ++ pre) tr').
    { clear Hu Hn. intros pre tr2. revert pre. induction tr2 as [|e tr2 IH]; intros pre Hn; [done|].
      intros [He Hu]. split; [|rewrite <- (assoc_L (++)); apply IH; [by rewrite <- (assoc_L (++))|done]].
      assert (Hp : forall p, (0 <= held pre p)%Z) by (intros p; apply (Hn pre); by apply prefix_app_r).
      destruct (uses e) as [o|]; [|done]. rewrite held_app. specialize (Hp o). destruct (HnF o).
      destruct He as [Ho|Ho]; [|right; lia]. destruct (Hbor o Ho) as [?|?]; [by left|right; lia]. }
    rewrite <- (app_nil_r tr). by apply Hpre.
  - intros pre [Hp|(k & -> & Hk)]%prefix_app_cases p; [by apply HF|].
    destruct (Hn k Hk p), (HnF p). rewrite held_app, blocks_app. lia.
Qed.

(** Its accounts add up. *)
Lemma Acct_frame bor bor' tr tr' F FB R B :
  Acct bor tr F FB -> Acct bor' tr' R B -> (forall o, o ∈ bor' -> o ∈ bor \/ o ∈ F) ->
  Acct bor (tr ++ tr') (R ++ F) (B ++ FB).
Proof.
  intros HF HR Hbor. destruct (sound_frame bor bor' tr tr') as [Hu Hn]; [by eapply Acct_sound..| |].
  - intros o Ho. destruct (Hbor o Ho) as [?|?]; [by left|right]. by eapply Acct_held.
  - split; [done| |done]. intros p. destruct (acct_owns _ _ _ _ HF p) as [H1 H2], (acct_owns _ _ _ _ HR p) as [H3 H4].
    rewrite held_app, blocks_app, H1, H2, H3, H4. unfold occ. rewrite !sumZ_app. lia.
Qed.

(** ** Histories of two activities woven into one

    A neutral event may belong to both. *)

Inductive weave : list ev -> list ev -> list ev -> Prop :=
| weave_base a : weave a [] a
| weave_left e a b c : weave a b c -> weave (a ++ [e]) b (c ++ [e])
| weave_right e a b c : weave a b c -> weave a (b ++ [e]) (c ++ [e])
| weave_both e a b c : neutral e -> weave a b c -> weave (a ++ [e]) (b ++ [e]) (c ++ [e]).

Lemma weave_lefts n : forall a b c, weave a b c -> weave (a ++ n) b (c ++ n).
Proof.
  induction n as [|e n IH]; intros a b c H; [by rewrite !app_nil_r|].
  change (e :: n) with ([e] ++ n). rewrite !(assoc_L (++)). by apply IH, weave_left.
Qed.

Lemma weave_counts a b c p : weave a b c ->
  held c p = (held a p + held b p)%Z /\ blocks c p = (blocks a p + blocks b p)%Z.
Proof.
  induction 1 as [a|e a b c _ [IH1 IH2]|e a b c _ [IH1 IH2]|e a b c [_ He] _ [IH1 IH2]].
  - unfold held at 3, blocks at 3, sumZ. simpl. split; lia.
  - destruct (counts_snoc c e p) as [-> ->], (counts_snoc a e p) as [-> ->]. split; lia.
  - destruct (counts_snoc c e p) as [-> ->], (counts_snoc b e p) as [-> ->]. split; lia.
  - destruct (counts_snoc c e p) as [-> ->], (counts_snoc a e p) as [-> ->], (counts_snoc b e p) as [-> ->].
    destruct (He p) as [-> ->]. split; lia.
Qed.

Lemma weave_sound bor bor' a b c : weave a b c -> (forall o, o ∈ bor' -> o ∈ bor) ->
  uses_held bor [] a /\ never_negative a -> uses_held bor' [] b /\ never_negative b ->
  uses_held bor [] c /\ never_negative c.
Proof.
  intros Hw Hbor.
  assert (Hend : forall tr p, never_negative tr -> (0 <= held tr p)%Z /\ (0 <= blocks tr p)%Z).
  { intros tr p H. by apply (H tr). }
  assert (Hneg : forall a b c e, weave a b (c ++ [e]) -> never_negative a -> never_negative b -> never_negative c ->
    never_negative (c ++ [e])).
  { intros a1 b1 c1 e H Ha Hb Hc pre [->|Hpre]%prefix_snoc_inv p; [|by apply Hc].
    destruct (weave_counts a1 b1 _ p H) as [-> ->]. destruct (Hend a1 p Ha), (Hend b1 p Hb). lia. }
  induction Hw as [a|e a b c Hw IH|e a b c Hw IH|e a b c He Hw IH]; intros [Ha Na] [Hb Nb]; [done|..].
  - apply uses_snoc in Ha as [Ha Hu]. pose proof (never_negative_app _ _ Na) as Na'. destruct (IH (conj Ha Na') (conj Hb Nb)) as [IH1 IH2].
    split; [|by eapply Hneg; [by apply weave_left|..]]. apply uses_snoc. split; [done|]. destruct (uses e) as [o|]; [|done].
    destruct (weave_counts a b c o Hw) as [-> _]. destruct Hu; [by left|right]. destruct (Hend b o Nb). lia.
  - apply uses_snoc in Hb as [Hb Hu]. pose proof (never_negative_app _ _ Nb) as Nb'. destruct (IH (conj Ha Na) (conj Hb Nb')) as [IH1 IH2].
    split; [|by eapply Hneg; [by apply weave_right|..]]. apply uses_snoc. split; [done|]. destruct (uses e) as [o|]; [|done].
    destruct (weave_counts a b c o Hw) as [-> _]. destruct Hu as [?|?]; [left; by apply Hbor|right]. destruct (Hend a o Na). lia.
  - apply uses_snoc in Ha as [Ha _]. apply uses_snoc in Hb as [Hb _].
    destruct (IH (conj Ha (never_negative_app _ _ Na)) (conj Hb (never_negative_app _ _ Nb))) as [IH1 IH2].
    split; [|by eapply Hneg; [by apply weave_both|..]]. apply uses_snoc. split; [done|]. by rewrite (proj1 He).
Qed.

(** The accounts of the two add up. *)
Lemma Acct_weave bor bor' a b c F FB R B : weave a b c -> (forall o, o ∈ bor' -> o ∈ bor) ->
  Acct bor a F FB -> Acct bor' b R B -> Acct bor c (R ++ F) (B ++ FB).
Proof.
  intros Hw Hbor [Ha Oa Na] [Hb Ob Nb]. destruct (weave_sound bor bor' a b c Hw Hbor (conj Ha Na) (conj Hb Nb)) as [Hc Nc].
  split; [done| |done]. intros p. destruct (weave_counts a b c p Hw) as [-> ->]. destruct (Oa p) as [-> ->], (Ob p) as [-> ->].
  unfold occ. rewrite !sumZ_app. lia.
Qed.

(** Code that leaves nothing behind can run anywhere, on borrowed objects and on those that
    are held. *)
Lemma Acct_even {T} (C0 C : contract Ans) (p : act T) P bor bor' tr R B :
  forgetful C0 -> (forall tr a r, C tr a r -> C0 tr a r) ->
  every_run C0 p [] (fun x tr2 => P x /\ Acct bor' tr2 [] []) ->
  (forall o, o ∈ bor' -> o ∈ bor \/ o ∈ R) -> Acct bor tr R B ->
  every_run C p tr (fun x tr' => P x /\ Acct bor tr' R B).
Proof.
  intros H0 HC Hp Hbor HA. eapply every_run_contract; [exact HC|].
  eapply every_run_mono; [|by apply every_run_shift]. intros x tr' (tr2 & -> & Hx & HA2).
  split; [exact Hx|]. exact (Acct_frame _ _ _ _ _ _ _ _ HA HA2 Hbor).
Qed.

(** ** Programs with other code inside their calls

    [go] keeps what it works on and leaves the counts as they are, as long as the objects [G]
    are held.  Then [p] leaves what it leaves alone, wherever [go] runs inside it.  [U] are
    objects that calls may be made on although nobody counts the references on them. *)
Definition stays (tr tr' : list ev) : Prop := forall p, held tr' p = held tr p /\ blocks tr' p = blocks tr p.

Definition all_held (tr : list ev) (l : list Z) : Prop := Forall (fun o => 0 < held tr o)%Z l.

Definition adds (tr t tr0 : list ev) : Prop :=
  forall p, held tr p = (held t p + held tr0 p)%Z /\ blocks tr p = (blocks t p + blocks tr0 p)%Z.

Lemma stays_refl tr : stays tr tr.
Proof. done. Qed.

Lemma stays_trans tr1 tr2 tr3 : stays tr1 tr2 -> stays tr2 tr3 -> stays tr1 tr3.
Proof. intros H1 H2 p. destruct (H2 p) as [-> ->]. apply H1. Qed.

Lemma stays_held tr tr' l : stays tr tr' -> all_held tr l -> all_held tr' l.
Proof. intros H Hl. eapply Forall_impl; [exact Hl|]. intros o Ho. destruct (H o) as [-> _]. exact Ho. Qed.

Lemma stays_neutral tr e : neutral e -> stays tr (tr ++ [e]).
Proof. intros [_ He] p. destruct (counts_snoc tr e p) as [-> ->], (He p) as [-> ->]. lia. Qed.

Lemma stays_Acct bor tr tr' R B : stays tr tr' -> sound bor tr' -> Acct bor tr R B -> Acct bor tr' R B.
Proof. intros Hst [Hu Hn] HA. split; [done| |done]. intros p. destruct (Hst p) as [-> ->]. apply (acct_owns _ _ _ _ HA). Qed.

Definition usable (U : list Z) (tr : list ev) (l : list Z) : Prop := Forall (fun o => o ∈ U \/ 0 < held tr o)%Z l.

Lemma all_held_usable U tr l : all_held tr l -> usable U tr l.
Proof. intros H. eapply Forall_impl; [exact H|]. by right. Qed.

Section around.
Context (C C0 : contract Ans) (HC : forall tr t a r, C tr a r -> C0 t a r).
Context {S : Type} (h : S -> forall a, Ans a * S) (s0 : S) (Hh : forall s tr a, C0 tr a (h s a).1).
Context {W : Type} (I : W -> Prop) (U G : list Z).

Definition undisturbed (go : W -> act (option W)) : Prop := forall w tr,
  I w -> sound U tr -> all_held tr G ->
  every_run C (go w) tr (fun o tr' => exists w', o = Some w' /\ I w' /\ sound U tr' /\ stays tr tr').

Lemma all_held_adds tr t tr0 l bor : sound bor t -> adds tr t tr0 -> all_held tr0 l -> all_held tr l.
Proof using.
  intros Ht Ha H. eapply Forall_impl; [exact H|]. intros o Ho. simpl in Ho. destruct (Ha o) as [-> _], (sound_counts _ _ o Ht). lia.
Qed.

(** The next event of [p], in both histories. *)
Lemma adds_snoc bor tr t tr0 e : usable U tr0 bor -> sound U tr0 -> sound U tr -> sound bor (t ++ [e]) -> adds tr t tr0 ->
  sound U (tr ++ [e]) /\ adds (tr ++ [e]) (t ++ [e]) tr0.
Proof using.
  intros Hb H0 [Hu Hn] Ht Ha. assert (Ha' : adds (tr ++ [e]) (t ++ [e]) tr0).
  { intros p. destruct (counts_snoc tr e p) as [-> ->], (counts_snoc t e p) as [-> ->], (Ha p) as [-> ->]. lia. }
  split; [|done]. split.
  - destruct Ht as [[_ He]%uses_snoc Hnt]. apply uses_snoc. split; [done|]. destruct (uses e) as [o|]; [|done].
    destruct (Ha o) as [-> _], (sound_counts _ _ o H0). destruct (Hnt t (prefix_app_r _ _ _ (reflexivity _)) o).
    destruct He as [Ho|Ho]; [|right; lia]. eapply Forall_forall in Hb; [|exact Ho]. destruct Hb; [by left|right; lia].
  - intros pre [->|Hpre]%prefix_snoc_inv p; [|by apply Hn].
    destruct (Ha' p) as [-> ->], (sound_counts _ _ p H0), (sound_counts _ _ p Ht). lia.
Qed.

Lemma around_run {A} enters go (p : act A) P Q tr0 :
  (forall n, undisturbed (go n)) -> sound U tr0 -> all_held tr0 G -> usable U tr0 P ->
  (forall x t', Q x t' -> sound P t') -> forall n w t tr, I w -> sound U tr -> adds tr t tr0 -> every_run C0 p t Q ->
  every_run C (around enters go n p w) tr (fun o tr' => exists x w' t',
    o = Some (x, w') /\ I w' /\ Q x t' /\ sound U tr' /\ adds tr' t' tr0).
Proof using HC Hh s0.
  intros Hgo H0 HG HP HQ. induction p as [x|a k IH]; cbn; intros n w t tr Hw Hs Ha Hp; [by exists x, w, t|].
  intros r Hr. apply HC with (t := t) in Hr. specialize (Hp r Hr). set (e := Ev a r) in *.
  assert (Ht : sound P (t ++ [e])).
  { apply (every_run_now h C0 (k r) s0 _ (sound P)); [exact Hh|apply sound_app|]. eapply every_run_mono; [|exact Hp]. apply HQ. }
  destruct (adds_snoc P tr t tr0 e HP H0 Hs Ht Ha) as [Hs' Ha'].
  destruct (enters a); [|by apply (IH r (Datatypes.S n) w (t ++ [e]))].
  apply every_run_bind. eapply every_run_mono; [|apply Hgo; [exact Hw|exact Hs'|by apply (all_held_adds (tr ++ [e]) (t ++ [e]) tr0 G P)]].
  intros o tr' (w' & -> & Hw' & Hs2 & Hst). apply (IH r (Datatypes.S n) w' (t ++ [e])); try done.
  intros q. destruct (Hst q) as [-> ->]. apply Ha'.
Qed.

(** Code that leaves nothing behind. *)
Lemma around_even {A} enters go (p : act A) (P : A -> Prop) bor tr w n :
  (forall n, undisturbed (go n)) -> I w -> sound U tr -> all_held tr G -> usable U tr bor ->
  every_run C0 p [] (fun x t => P x /\ Acct bor t [] []) ->
  every_run C (around enters go n p w) tr (fun o tr' => exists x w',
    o = Some (x, w') /\ I w' /\ P x /\ sound U tr' /\ stays tr tr').
Proof using HC Hh s0.
  intros Hgo Hw Hs HG Hbor Hp. assert (H0 : adds tr [] tr) by (intros q; split; reflexivity).
  eapply every_run_mono; [|eapply (around_run enters go p bor _ tr Hgo Hs HG Hbor); [|exact Hw|exact Hs|exact H0|exact Hp]].
  - intros o tr' (x & w' & t & -> & Hw' & [HP Ht] & Hs' & Ha). exists x, w'. split_and!; [done..|].
    intros q. destruct (Ha q) as [-> ->], (acct_owns _ _ _ _ Ht q) as [-> ->]. done.
  - intros x t [_ Ht]. by eapply Acct_sound.
Qed.

(** In terms of the accounts. *)
Lemma around_accounts {A} enters go (p : act A) (P : A -> Prop) bor R' B' tr R B w :
  (forall n, undisturbed (go n)) -> I w -> Acct U tr R B ->
  (forall o, o ∈ G -> o ∈ R) -> (forall o, o ∈ bor -> o ∈ R) ->
  every_run C0 p [] (fun x t => P x /\ Acct bor t (R' x) (B' x)) ->
  every_run C (around enters go 0 p w) tr (fun o tr' => exists x w',
    o = Some (x, w') /\ I w' /\ P x /\ Acct U tr' (R' x ++ R) (B' x ++ B)).
Proof using HC Hh s0.
  intros Hgo Hw HA HG Hbor Hp. assert (Hall : forall l, (forall o, o ∈ l -> o ∈ R) -> all_held tr l).
  { intros l Hl. apply Forall_forall. intros o Ho. by eapply Acct_held, Hl. }
  pose proof (Acct_sound _ _ _ _ HA) as Hs. assert (H0 : adds tr [] tr) by (intros q; split; reflexivity).
  eapply every_run_mono; [|eapply (around_run enters go p bor _ tr Hgo Hs (Hall G HG) (all_held_usable _ _ _ (Hall bor Hbor))); [|exact Hw|exact Hs|exact H0|exact Hp]].
  - intros o tr' (x & w' & t & -> & Hw' & [HP Ht] & [Hu Hn] & Ha). exists x, w'. split_and!; [done..|]. split; [done| |done].
    intros q. destruct (Ha q) as [-> ->], (acct_owns _ _ _ _ Ht q) as [-> ->], (acct_owns _ _ _ _ HA q) as [-> ->].
    unfold occ. rewrite !sumZ_app. lia.
  - intros x t [_ Ht]. by eapply Acct_sound.
Qed.
End around.

(** The common shape of the rules: one more event. *)
Lemma Acct_snoc bor tr e R B R' B' :
  Acct bor tr R B ->
  match uses e with Some o => o ∈ bor \/ o ∈ R | None => True end ->
  (forall p, occ p R' = occ p R + ref_delta p e)%Z ->
  (forall p, occ p B' = occ p B + block_delta p e)%Z ->
  Acct bor (tr ++ [e]) R' B'.
Proof.
  intros HA Hu HR HB. pose proof (acct_owns _ _ _ _ HA) as Ho.
  assert (Ho' : owns (tr ++ [e]) R' B').
  { intros p. destruct (Ho p) as [H1 H2].
    rewrite held_app, blocks_app, H1, H2, HR, HB. unfold held, blocks, sumZ. simpl. lia. }
  split; [|done|by eapply never_negative_snoc; [apply HA|]].
  apply uses_held_app. split; [apply HA|]. simpl. split; [|done].
  destruct (uses e); [|done]. destruct Hu as [?|Hu]; [by left|right].
  eapply Acct_held; eauto.
Qed.

Lemma gives_ok hr q p : (0 <= hr)%Z -> q <> 0%Z -> gives hr q p = (if q =? p then 1 else 0)%Z.
Proof.
  intros. unfold gives, SUCCEEDED, c_true.
  rewrite (proj2 (Z.leb_le 0 hr)), (proj2 (Z.eqb_neq q 0)) by done. done.
Qed.

Lemma gives_fail hr q p : (hr < 0)%Z -> gives hr q p = 0%Z.
Proof. intros. unfold gives, SUCCEEDED. by rewrite (proj2 (Z.leb_gt 0 hr)). Qed.

(** Most rules only differ in what the event adds to the two multisets. *)
Ltac acct_delta :=
  intros; cbn -[occ];
  rewrite ?gives_ok, ?gives_fail by done;
  unfold c_true;
  repeat match goal with Hp : ?p <> 0%Z |- _ => rewrite (proj2 (Z.eqb_neq p 0) Hp); clear Hp end;
  unfold occ, sumZ; simpl; lia.

Ltac acct_same := eapply Acct_snoc; [eassumption|try done; eauto|acct_delta..].

Section rules.
Context (bor : list Z) (tr : list ev) (R B : list Z) (H : Acct bor tr R B).

Lemma Acct_invoke o m args r :
  o ∈ bor \/ o ∈ R -> Acct bor (tr ++ [Ev (Invoke o m args) r]) R B.
Proof using H. intros. by acct_same. Qed.

(** Calls that neither use an object nor move a reference or a block. *)
Lemma Acct_other a r :
  uses (Ev a r) = None -> (forall p, ref_delta p (Ev a r) = 0%Z) ->
  (forall p, block_delta p (Ev a r) = 0%Z) -> Acct bor (tr ++ [Ev a r]) R B.
Proof using H.
  intros Hu Hr Hb. eapply Acct_snoc; [exact H|by rewrite Hu|..]; intros p;
    rewrite ?Hr, ?Hb; lia.
Qed.

Lemma Acct_query_ok o iid hr q :
  o ∈ bor \/ o ∈ R -> (0 <= hr)%Z -> q <> 0%Z ->
  Acct bor (tr ++ [Ev (QueryInterface o iid) (hr, q)]) (q :: R) B.
Proof using H. intros. by acct_same. Qed.

Lemma Acct_query_fail o iid hr q :
  o ∈ bor \/ o ∈ R -> (hr < 0)%Z -> Acct bor (tr ++ [Ev (QueryInterface o iid) (hr, q)]) R B.
Proof using H. intros. by acct_same. Qed.

(** Without assuming anything about the answer. *)
Lemma Acct_query o iid r :
  o ∈ bor \/ o ∈ R ->
  Acct bor (tr ++ [Ev (QueryInterface o iid) r])
    ((if SUCCEEDED r.1 && c_true r.2 then [r.2] else []) ++ R) B.
Proof using H.
  intros. eapply Acct_snoc; eauto; intros p; cbn -[occ]; [|lia].
  unfold gives. destruct (SUCCEEDED r.1 && c_true r.2); unfold occ, sumZ; simpl; lia.
Qed.

Lemma Acct_fetch_ok o m args hr q :
  o ∈ bor \/ o ∈ R -> (0 <= hr)%Z -> q <> 0%Z ->
  Acct bor (tr ++ [Ev (Fetch o m args) (hr, q)]) (q :: R) B.
Proof using H. intros. by acct_same. Qed.

Lemma Acct_fetch_fail o m args hr q :
  o ∈ bor \/ o ∈ R -> (hr < 0)%Z -> Acct bor (tr ++ [Ev (Fetch o m args) (hr, q)]) R B.
Proof using H. intros. by acct_same. Qed.

Lemma Acct_classobject_ok c x iid hr q :
  (0 <= hr)%Z -> q <> 0%Z -> Acct bor (tr ++ [Ev (CoGetClassObject c x iid) (hr, q)]) (q :: R) B.
Proof using H. intros. by acct_same. Qed.

Lemma Acct_classobject_fail c x iid hr q :
  (hr < 0)%Z -> Acct bor (tr ++ [Ev (CoGetClassObject c x iid) (hr, q)]) R B.
Proof using H. intros. by acct_same. Qed.

Lemma Acct_create_ok c x iid hr q :
  (0 <= hr)%Z -> q <> 0%Z -> Acct bor (tr ++ [Ev (CoCreateInstance c x iid) (hr, q)]) (q :: R) B.
Proof using H. intros. by acct_same. Qed.

Lemma Acct_create_fail c x iid hr q :
  (hr < 0)%Z -> Acct bor (tr ++ [Ev (CoCreateInstance c x iid) (hr, q)]) R B.
Proof using H. intros. by acct_same. Qed.

Lemma Acct_addref o r : o ∈ bor \/ o ∈ R -> Acct bor (tr ++ [Ev (AddRef o) r]) (o :: R) B.
Proof using H.
  intros. eapply Acct_snoc; eauto; intros p; cbn -[occ]; [|lia]. unfold occ, sumZ. simpl. lia.
Qed.

Lemma Acct_release o r R' : R ≡ₚ o :: R' -> Acct bor (tr ++ [Ev (Release o) r]) R' B.
Proof using H.
  intros HR. eapply Acct_snoc; [exact H|..]; simpl.
  - right. rewrite HR. set_solver.
  - intros p. rewrite HR. cbn -[occ]. unfold occ, sumZ. simpl. case_match; lia.
  - intros. cbn. lia.
Qed.

Lemma Acct_getvalue o m args r :
  o ∈ bor \/ o ∈ R -> Acct bor (tr ++ [Ev (GetValue o m args) r]) R B.
Proof using H. intros. by acct_same. Qed.

Lemma Acct_session_ok hr q :
  (0 <= hr)%Z -> q <> 0%Z -> Acct bor (tr ++ [Ev CoInternetGetSession (hr, q)]) (q :: R) B.
Proof using H. intros. by acct_same. Qed.

Lemma Acct_session_fail hr q :
  (hr < 0)%Z -> Acct bor (tr ++ [Ev CoInternetGetSession (hr, q)]) R B.
Proof using H. intros. by acct_same. Qed.

Lemma Acct_getstring_ok o m args hr p w :
  o ∈ bor \/ o ∈ R -> (0 <= hr)%Z -> p <> 0%Z ->
  Acct bor (tr ++ [Ev (GetString o m args) (hr, Some (p, w))]) R (p :: B).
Proof using H.
  intros Ho Hr Hp. eapply Acct_snoc; [exact H|done|..]; intros q; cbn -[occ]; [lia|].
  unfold SUCCEEDED, c_true. rewrite (proj2 (Z.leb_le 0 hr)), (proj2 (Z.eqb_neq p 0)) by done.
  unfold occ, sumZ. simpl. case_match; lia.
Qed.

Lemma Acct_getstring_fail o m args hr :
  o ∈ bor \/ o ∈ R -> Acct bor (tr ++ [Ev (GetString o m args) (hr, None)]) R B.
Proof using H. intros. by acct_same. Qed.

Lemma Acct_new c p : p <> 0%Z -> Acct bor (tr ++ [Ev (NewObject c) p]) (p :: R) B.
Proof using H. intros. by acct_same. Qed.

Lemma Acct_stream b p : p <> 0%Z -> Acct bor (tr ++ [Ev (SHCreateMemStream b) p]) (p :: R) B.
Proof using H. intros. by acct_same. Qed.

Lemma Acct_stream_fail b : Acct bor (tr ++ [Ev (SHCreateMemStream b) 0%Z]) R B.
Proof using H. by acct_same. Qed.

Lemma Acct_cotask n p : p <> 0%Z -> Acct bor (tr ++ [Ev (CoTaskMemAlloc n) p]) R (p :: B).
Proof using H. intros. by acct_same. Qed.

Lemma Acct_cotask_fail n : Acct bor (tr ++ [Ev (CoTaskMemAlloc n) 0%Z]) R B.
Proof using H. by acct_same. Qed.

Lemma Acct_cotask_free p r B' :
  p <> 0%Z -> B ≡ₚ p :: B' -> Acct bor (tr ++ [Ev (CoTaskMemFree p) r]) R B'.
Proof using H.
  intros Hp HB. eapply Acct_snoc; [exact H|done|..]; intros q; cbn -[occ]; [lia|].
  rewrite HB. unfold c_true. rewrite (proj2 (Z.eqb_neq p 0)) by done.
  unfold occ, sumZ. simpl. case_match; lia.
Qed.

Lemma Acct_bstr n p : p <> 0%Z -> Acct bor (tr ++ [Ev (SysAllocStringLen n) p]) R (p :: B).
Proof using H. intros. by acct_same. Qed.

Lemma Acct_bstr_fail n : Acct bor (tr ++ [Ev (SysAllocStringLen n) 0%Z]) R B.
Proof using H. by acct_same. Qed.

Lemma Acct_bstr_free p r B' :
  p <> 0%Z -> B ≡ₚ p :: B' -> Acct bor (tr ++ [Ev (SysFreeString p) r]) R B'.
Proof using H.
  intros Hp HB. eapply Acct_snoc; [exact H|done|..]; intros q; cbn -[occ]; [lia|].
  rewrite HB. unfold c_true. rewrite (proj2 (Z.eqb_neq p 0)) by done.
  unfold occ, sumZ. simpl. case_match; lia.
Qed.

Lemma Acct_malloc n p : p <> 0%Z -> Acct bor (tr ++ [Ev (c_malloc n) p]) R (p :: B).
Proof using H. intros. by acct_same. Qed.

Lemma Acct_malloc_fail n : Acct bor (tr ++ [Ev (c_malloc n) 0%Z]) R B.
Proof using H. by acct_same. Qed.

Lemma Acct_free p r B' :
  p <> 0%Z -> B ≡ₚ p :: B' -> Acct bor (tr ++ [Ev (c_free p) r]) R B'.
Proof using H.
  intros Hp HB. eapply Acct_snoc; [exact H|done|..]; intros q; cbn -[occ]; [lia|].
  rewrite HB. unfold c_true. rewrite (proj2 (Z.eqb_neq p 0)) by done.
  unfold occ, sumZ. simpl. case_match; lia.
Qed.

Lemma Acct_new_array n p : p <> 0%Z -> Acct bor (tr ++ [Ev (NewArray n) p]) R (p :: B).
Proof using H. intros. by acct_same. Qed.

Lemma Acct_delete_array p r B' :
  p <> 0%Z -> B ≡ₚ p :: B' -> Acct bor (tr ++ [Ev (DeleteArray p) r]) R B'.
Proof using H.
  intros Hp HB. eapply Acct_snoc; [exact H|done|..]; intros q; cbn -[occ]; [lia|].
  rewrite HB. unfold c_true. rewrite (proj2 (Z.eqb_neq p 0)) by done.
  unfold occ, sumZ. simpl. case_match; lia.
Qed.

Lemma Acct_free_null r : Acct bor (tr ++ [Ev (c_free 0) r]) R B.
Proof using H. by acct_same. Qed.

Lemma Acct_galloc f n p : p <> 0%Z -> Acct bor (tr ++ [Ev (GlobalAlloc f n) p]) R (p :: B).
Proof using H. intros. by acct_same. Qed.

Lemma Acct_galloc_fail f n : Acct bor (tr ++ [Ev (GlobalAlloc f n) 0%Z]) R B.
Proof using H. by acct_same. Qed.

Lemma Acct_gfree p r B' : B ≡ₚ p :: B' -> Acct bor (tr ++ [Ev (GlobalFree p) r]) R B'.
Proof using H.
  intros HB. eapply Acct_snoc; [exact H|done|..]; intros q; cbn -[occ]; [lia|].
  rewrite HB. unfold occ, sumZ. simpl. case_match; lia.
Qed.
End rules.

(** ** Stepping through a function

    [acct_step H] moves [H : Acct bor tr R B] over the last event of the trace
    of the goal.  Released pointers are looked up among the first four. *)

Lemma perm_2 (x o : Z) R : x :: o :: R ≡ₚ o :: x :: R.
Proof. constructor. Qed.
Lemma perm_3 (x y o : Z) R : x :: y :: o :: R ≡ₚ o :: x :: y :: R.
Proof. etrans; [apply perm_skip, perm_2|apply perm_2]. Qed.
Lemma perm_4 (x y z o : Z) R : x :: y :: z :: o :: R ≡ₚ o :: x :: y :: z :: R.
Proof. etrans; [apply perm_skip, perm_3|apply perm_2]. Qed.

Ltac acct_mem :=
  first [ assumption
        | left; assumption
        | right; repeat apply list_elem_of_further; assumption
        | left; by repeat first [apply list_elem_of_here | apply list_elem_of_further]
        | right; by repeat first [apply list_elem_of_here | apply list_elem_of_further] ].

Ltac acct_perm :=
  first [ reflexivity | apply perm_2 | apply perm_3 | apply perm_4 ].

Ltac acct_by H pf :=
  let H' := fresh "HA" in pose proof pf as H'; clear H; rename H' into H.

Ltac acct_event H a r :=
  lazymatch a with
  | Invoke ?o ?m ?args =>
      acct_by H (Acct_invoke _ _ _ _ H o m args r ltac:(acct_mem))
  | GetValue ?o ?m ?args =>
      acct_by H (Acct_getvalue _ _ _ _ H o m args r ltac:(acct_mem))
  | Release ?o =>
      acct_by H (Acct_release _ _ _ _ H o r _ ltac:(acct_perm))
  | AddRef ?o => acct_by H (Acct_addref _ _ _ _ H o r ltac:(acct_mem))
  | GlobalFree ?p =>
      acct_by H (Acct_gfree _ _ _ _ H p r _ ltac:(acct_perm))
  | QueryInterface ?o ?iid =>
      lazymatch r with (?hr, ?q) =>
        first [ acct_by H (Acct_query_ok _ _ _ _ H o iid hr q ltac:(acct_mem) ltac:(unfold S_OK in *; lia) ltac:(done))
              | acct_by H (Acct_query_fail _ _ _ _ H o iid hr q ltac:(acct_mem) ltac:(unfold S_OK in *; lia)) ]
      end
  | Fetch ?o ?m ?args =>
      lazymatch r with (?hr, ?q) =>
        first [ acct_by H (Acct_fetch_ok _ _ _ _ H o m args hr q ltac:(acct_mem) ltac:(unfold S_OK in *; lia) ltac:(done))
              | acct_by H (Acct_fetch_fail _ _ _ _ H o m args hr q ltac:(acct_mem) ltac:(unfold S_OK in *; lia)) ]
      end
  | CoGetClassObject ?c ?x ?iid =>
      lazymatch r with (?hr, ?q) =>
        first [ acct_by H (Acct_classobject_ok _ _ _ _ H c x iid hr q ltac:(unfold S_OK in *; lia) ltac:(done))
              | acct_by H (Acct_classobject_fail _ _ _ _ H c x iid hr q ltac:(unfold S_OK in *; lia)) ]
      end
  | CoInternetGetSession =>
      lazymatch r with (?hr, ?q) =>
        first [ acct_by H (Acct_session_ok _ _ _ _ H hr q ltac:(unfold S_OK in *; lia) ltac:(done))
              | acct_by H (Acct_session_fail _ _ _ _ H hr q ltac:(unfold S_OK in *; lia)) ]
      end
  | SHCreateMemStream ?b =>
      first [ acct_by H (Acct_stream _ _ _ _ H b r ltac:(done))
            | acct_by H (Acct_stream_fail _ _ _ _ H b) ]
  | NewObject ?c => acct_by H (Acct_new _ _ _ _ H c r ltac:(done))
  | CoTaskMemFree ?p => acct_by H (Acct_cotask_free _ _ _ _ H p r _ ltac:(done) ltac:(acct_perm))
  | CoCreateInstance ?c ?x ?iid =>
      lazymatch r with (?hr, ?q) =>
        first [ acct_by H (Acct_create_ok _ _ _ _ H c x iid hr q ltac:(unfold S_OK in *; lia) ltac:(done))
              | acct_by H (Acct_create_fail _ _ _ _ H c x iid hr q ltac:(unfold S_OK in *; lia)) ]
      end
  | _ => acct_by H (Acct_other _ _ _ _ H a r eq_refl (fun _ => eq_refl) (fun _ => eq_refl))
  end.

(** Introduce the next answer and account for the call.  The answer of a call
    that hands out a pointer must have been split into its two cases before. *)
Ltac acct_step H :=
  lazymatch goal with
  | |- context [?tr ++ [Ev ?a ?r]] =>
      lazymatch type of H with Acct _ tr _ _ => acct_event H a r end
  end.
