(* ===== verification/WebBrowser.v ===== *)
(** * The embedded browser's client site (webbrowser.c)

    [builtin/goc/webbrowser.c] hosts an OLE browser control in a window.  It
    gives the browser one block of memory that packs four COM interfaces next
    to each other, and the browser calls back through the four function tables
    the block points to.  The functions recover the surrounding structure from
    an interface pointer by pointer arithmetic, so the model keeps addresses:
    memory maps the address of each scalar field to its value. *)

From S2P Require Import Prelude Prog Win32.

(** ** Memory *)

(** The four function tables of the file. *)
Inductive table :=
| MyIOleInPlaceFrameTable
| MyIOleClientSiteTable
| MyIDocHostUIHandlerTable
| MyIOleInPlaceSiteTable.

#[export] Instance table_eq_dec : EqDecision table.
Proof. solve_decision. Defined.

(** A field is not initialised, or holds a word or the address of one of the tables. *)
Inductive cell := Undef | Word (z : Z) | Vtbl (t : table).

#[export] Instance cell_eq_dec : EqDecision cell.
Proof. solve_decision. Defined.

Abbreviation mem := (gmap Z cell).

Definition load (m : mem) (a : Z) : option Z :=
  match m !! a with Some (Word z) => Some z | _ => None end.

Definition lpVtbl (m : mem) (a : Z) : option table :=
  match m !! a with Some (Vtbl t) => Some t | _ => None end.

(** A store to an address that is not mapped is a fault. *)
Definition store (m : mem) (a : Z) (v : Z) : option mem :=
  match m !! a with Some _ => Some (<[a := Word v]> m) | None => None end.

(** ** Structure layout

    On 64-bit Windows every field of these structures is 8 bytes. *)

Definition sizeof_ptr : Z := 8.

(** An interface structure is its [lpVtbl] pointer. *)
Definition sizeof_IOleClientSite : Z := sizeof_ptr.

(** [_IOleInPlaceFrameEx] *)
Definition frameEx_frame : Z := 0.
Definition frameEx_window : Z := frameEx_frame + sizeof_ptr.
Definition sizeof_frameEx : Z := frameEx_window + sizeof_ptr.

(** [_IOleInPlaceSiteEx] *)
Definition siteEx_inplace : Z := 0.
Definition siteEx_frame : Z := siteEx_inplace + sizeof_ptr.
Definition sizeof_siteEx : Z := siteEx_frame + sizeof_frameEx.

(** [_IDocHostUIHandlerEx] *)
Definition uiEx_ui : Z := 0.
Definition sizeof_uiEx : Z := uiEx_ui + sizeof_ptr.

(** [_IOleClientSiteEx] *)
Definition clientEx_client : Z := 0.
Definition clientEx_inplace : Z := clientEx_client + sizeof_IOleClientSite.
Definition clientEx_ui : Z := clientEx_inplace + sizeof_siteEx.
Definition sizeof_clientEx : Z := clientEx_ui + sizeof_uiEx.

(** ** Callbacks

    A callback gets the interface pointer the browser calls it through and its
    arguments; it may fault, write through the pointers it is given and call
    the browser.  Its result is the memory it leaves and the value it returns. *)

Abbreviation cb := (mem -> act (option (mem * Z))).

Definition returns (r : Z) : cb := fun m => Ret (Some (m, r)).

Definition fault {A} : act (option A) := Ret None.

Definition NOTIMPLEMENTED : cb := returns E_NOTIMPL.

(** [*a = v; return r;] *)
Definition store_return (a v r : Z) : cb := fun m =>
  match store m a v with
  | Some m => Ret (Some (m, r))
  | None => fault
  end.

(** *** IOleClientSite *)

Definition iid_is (riid iid : guid) : bool :=
  (memcmp (guid_bytes riid) (guid_bytes iid) =? 0)%Z.

Definition Site_QueryInterface (This : Z) (riid : guid) (ppvObject : Z) : cb := fun m =>
  if iid_is riid IID_IUnknown || iid_is riid IID_IOleClientSite then
    store_return ppvObject (This + clientEx_client) S_OK m
  else if iid_is riid IID_IOleInPlaceSite then
    store_return ppvObject (This + clientEx_inplace) S_OK m
  else if iid_is riid IID_IDocHostUIHandler then
    store_return ppvObject (This + clientEx_ui) S_OK m
  else
    store_return ppvObject 0 E_NOINTERFACE m.

Definition Site_AddRef (This : Z) : cb := returns 1.
Definition Site_Release (This : Z) : cb := returns 1.
Definition Site_SaveObject (This : Z) : cb := NOTIMPLEMENTED.
Definition Site_GetMoniker (This dwAssign dwWhichMoniker ppmk : Z) : cb := NOTIMPLEMENTED.
Definition Site_GetContainer (This ppContainer : Z) : cb :=
  store_return ppContainer 0 E_NOINTERFACE.
Definition Site_ShowObject (This : Z) : cb := returns S_OK.
Definition Site_OnShowWindow (This fShow : Z) : cb := NOTIMPLEMENTED.
Definition Site_RequestNewObjectLayout (This : Z) : cb := NOTIMPLEMENTED.

(** *** IDocHostUIHandler *)

Definition UI_QueryInterface (This : Z) (riid : guid) (ppvObj : Z) : cb :=
  Site_QueryInterface (This - sizeof_IOleClientSite - sizeof_siteEx) riid ppvObj.

Definition UI_AddRef (This : Z) : cb := returns 1.
Definition UI_Release (This : Z) : cb := returns 1.
Definition UI_ShowContextMenu (This dwID ppt pcmdtReserved pdispReserved : Z) : cb :=
  returns S_FALSE.

(** [struct DOCHOSTUIINFO { ULONG cbSize; DWORD dwFlags, dwDoubleClick;
    OLECHAR *pchHostCss, *pchHostNS; }] *)
Definition sizeof_DOCHOSTUIINFO : Z := 32.
Definition DOCHOSTUIFLAG_NO3DBORDER : Z := 0x4.
Definition DOCHOSTUIFLAG_DPI_AWARE : Z := 0x40000000.
Definition DOCHOSTUIDBLCLK_DEFAULT : Z := 0.

Definition UI_GetHostInfo (This pInfo : Z) : cb := fun m =>
  match store m pInfo sizeof_DOCHOSTUIINFO with
  | None => fault
  | Some m =>
      match store m (pInfo + 4) (Z.lor DOCHOSTUIFLAG_NO3DBORDER DOCHOSTUIFLAG_DPI_AWARE) with
      | None => fault
      | Some m => store_return (pInfo + 8) DOCHOSTUIDBLCLK_DEFAULT S_OK m
      end
  end.

Definition UI_ShowUI (This dwID pActiveObject pCommandTarget pFrame pDoc : Z) : cb :=
  returns S_OK.
Definition UI_HideUI (This : Z) : cb := returns S_OK.
Definition UI_UpdateUI (This : Z) : cb := returns S_OK.
Definition UI_EnableModeless (This fEnable : Z) : cb := returns S_OK.
Definition UI_OnDocWindowActivate (This fActivate : Z) : cb := returns S_OK.
Definition UI_OnFrameWindowActivate (This fActivate : Z) : cb := returns S_OK.
Definition UI_ResizeBorder (This prcBorder pUIWindow fRameWindow : Z) : cb := returns S_OK.
Definition UI_TranslateAccelerator (This lpMsg pguidCmdGroup nCmdID : Z) : cb := returns S_FALSE.
Definition UI_GetOptionKeyPath (This pchKey dw : Z) : cb := returns S_FALSE.
Definition UI_GetDropTarget (This pDropTarget ppDropTarget : Z) : cb := returns S_FALSE.
Definition UI_GetExternal (This ppDispatch : Z) : cb := store_return ppDispatch 0 S_FALSE.
Definition UI_TranslateUrl (This dwTranslate pchURLIn ppchURLOut : Z) : cb :=
  store_return ppchURLOut 0 S_FALSE.
Definition UI_FilterDataObject (This pDO ppDORet : Z) : cb := store_return ppDORet 0 S_FALSE.

(** *** IOleInPlaceSite *)

Definition InPlace_QueryInterface (This : Z) (riid : guid) (ppvObj : Z) : cb :=
  Site_QueryInterface (This - sizeof_IOleClientSite) riid ppvObj.

Definition InPlace_AddRef (This : Z) : cb := returns 1.
Definition InPlace_Release (This : Z) : cb := returns 1.

Definition InPlace_GetWindow (This lphwnd : Z) : cb := fun m =>
  match load m (This + siteEx_frame + frameEx_window) with
  | None => fault
  | Some window => store_return lphwnd window S_OK m
  end.

Definition InPlace_ContextSensitiveHelp (This fEnterMode : Z) : cb := NOTIMPLEMENTED.
Definition InPlace_CanInPlaceActivate (This : Z) : cb := returns S_OK.
Definition InPlace_OnInPlaceActivate (This : Z) : cb := returns S_OK.
Definition InPlace_OnUIActivate (This : Z) : cb := returns S_OK.

(** [struct OLEINPLACEFRAMEINFO { UINT cb; BOOL fMDIApp; HWND hwndFrame;
    HACCEL haccel; UINT cAccelEntries; }] *)
Definition frameInfo_fMDIApp : Z := 4.
Definition frameInfo_hwndFrame : Z := 8.
Definition frameInfo_haccel : Z := 16.
Definition frameInfo_cAccelEntries : Z := 24.

Definition InPlace_GetWindowContext
    (This lplpFrame lplpDoc lprcPosRect lprcClipRect lpFrameInfo : Z) : cb := fun m =>
  match
    (m ← store m lplpFrame (This + siteEx_frame);
     m ← store m lplpDoc 0;
     m ← store m (lpFrameInfo + frameInfo_fMDIApp) 0;
     frame ← load m lplpFrame;
     window ← load m (frame + frameEx_window);
     m ← store m (lpFrameInfo + frameInfo_hwndFrame) window;
     m ← store m (lpFrameInfo + frameInfo_haccel) 0;
     store m (lpFrameInfo + frameInfo_cAccelEntries) 0)
  with
  | Some m => Ret (Some (m, S_OK))
  | None => fault
  end.

Definition InPlace_Scroll (This scrollExtent : Z) : cb := NOTIMPLEMENTED.
Definition InPlace_OnUIDeactivate (This fUndoable : Z) : cb := returns S_OK.
Definition InPlace_OnInPlaceDeactivate (This : Z) : cb := returns S_OK.
Definition InPlace_DiscardUndoState (This : Z) : cb := NOTIMPLEMENTED.
Definition InPlace_DeactivateAndUndo (This : Z) : cb := NOTIMPLEMENTED.

Definition InPlace_OnPosRectChange (This lprcPosRect : Z) : cb := fun m =>
  match load m (This - sizeof_ptr - sizeof_IOleClientSite) with
  | None => fault
  | Some browserObject =>
      '(hr, inplace) ← call (QueryInterface browserObject IID_IOleInPlaceObject);
      if (hr =? 0)%Z then
        _ ← call (Invoke inplace "SetObjectRects" [APtr lprcPosRect; APtr lprcPosRect]);
        _ ← call (Release inplace);
        returns S_OK m
      else returns S_OK m
  end.

(** *** IOleInPlaceFrame *)

Definition Frame_QueryInterface (This : Z) (riid : guid) (ppvObj : Z) : cb := NOTIMPLEMENTED.
Definition Frame_AddRef (This : Z) : cb := returns 1.
Definition Frame_Release (This : Z) : cb := returns 1.

Definition Frame_GetWindow (This lphwnd : Z) : cb := fun m =>
  match load m (This + frameEx_window) with
  | None => fault
  | Some window => store_return lphwnd window S_OK m
  end.

Definition Frame_ContextSensitiveHelp (This fEnterMode : Z) : cb := NOTIMPLEMENTED.
Definition Frame_GetBorder (This lprectBorder : Z) : cb := NOTIMPLEMENTED.
Definition Frame_RequestBorderSpace (This pborderwidths : Z) : cb := NOTIMPLEMENTED.
Definition Frame_SetBorderSpace (This pborderwidths : Z) : cb := NOTIMPLEMENTED.
Definition Frame_SetActiveObject (This pActiveObject pszObjName : Z) : cb := returns S_OK.
Definition Frame_InsertMenus (This hmenuShared lpMenuWidths : Z) : cb := NOTIMPLEMENTED.
Definition Frame_SetMenu (This hmenuShared holemenu hwndActiveObject : Z) : cb := returns S_OK.
Definition Frame_RemoveMenus (This hmenuShared : Z) : cb := NOTIMPLEMENTED.
Definition Frame_SetStatusText (This pszStatusText : Z) : cb := returns S_OK.
Definition Frame_EnableModeless (This fEnable : Z) : cb := returns S_OK.
Definition Frame_TranslateAccelerator (This lpmsg wID : Z) : cb := NOTIMPLEMENTED.

(** ** Function tables

    The fields of a table are in the order of the SDK interface; the tables are
    initialised by position, as in the source. *)

Record IOleInPlaceFrameVtbl := FrameVtbl {
  fr_QueryInterface : Z -> guid -> Z -> cb;
  fr_AddRef : Z -> cb;
  fr_Release : Z -> cb;
  fr_GetWindow : Z -> Z -> cb;
  fr_ContextSensitiveHelp : Z -> Z -> cb;
  fr_GetBorder : Z -> Z -> cb;
  fr_RequestBorderSpace : Z -> Z -> cb;
  fr_SetBorderSpace : Z -> Z -> cb;
  fr_SetActiveObject : Z -> Z -> Z -> cb;
  fr_InsertMenus : Z -> Z -> Z -> cb;
  fr_SetMenu : Z -> Z -> Z -> Z -> cb;
  fr_RemoveMenus : Z -> Z -> cb;
  fr_SetStatusText : Z -> Z -> cb;
  fr_EnableModeless : Z -> Z -> cb;
  fr_TranslateAccelerator : Z -> Z -> Z -> cb }.

Definition FrameTable : IOleInPlaceFrameVtbl := FrameVtbl
  Frame_QueryInterface Frame_AddRef Frame_Release Frame_GetWindow
  Frame_ContextSensitiveHelp Frame_GetBorder Frame_RequestBorderSpace
  Frame_SetBorderSpace Frame_SetActiveObject Frame_InsertMenus Frame_SetMenu
  Frame_RemoveMenus Frame_SetStatusText Frame_EnableModeless
  Frame_TranslateAccelerator.

Record IOleClientSiteVtbl := ClientVtbl {
  cs_QueryInterface : Z -> guid -> Z -> cb;
  cs_AddRef : Z -> cb;
  cs_Release : Z -> cb;
  cs_SaveObject : Z -> cb;
  cs_GetMoniker : Z -> Z -> Z -> Z -> cb;
  cs_GetContainer : Z -> Z -> cb;
  cs_ShowObject : Z -> cb;
  cs_OnShowWindow : Z -> Z -> cb;
  cs_RequestNewObjectLayout : Z -> cb }.

Definition ClientTable : IOleClientSiteVtbl := ClientVtbl
  Site_QueryInterface Site_AddRef Site_Release Site_SaveObject Site_GetMoniker
  Site_GetContainer Site_ShowObject Site_OnShowWindow Site_RequestNewObjectLayout.

Record IDocHostUIHandlerVtbl := UIVtbl {
  ui_QueryInterface : Z -> guid -> Z -> cb;
  ui_AddRef : Z -> cb;
  ui_Release : Z -> cb;
  ui_ShowContextMenu : Z -> Z -> Z -> Z -> Z -> cb;
  ui_GetHostInfo : Z -> Z -> cb;
  ui_ShowUI : Z -> Z -> Z -> Z -> Z -> Z -> cb;
  ui_HideUI : Z -> cb;
  ui_UpdateUI : Z -> cb;
  ui_EnableModeless : Z -> Z -> cb;
  ui_OnDocWindowActivate : Z -> Z -> cb;
  ui_OnFrameWindowActivate : Z -> Z -> cb;
  ui_ResizeBorder : Z -> Z -> Z -> Z -> cb;
  ui_TranslateAccelerator : Z -> Z -> Z -> Z -> cb;
  ui_GetOptionKeyPath : Z -> Z -> Z -> cb;
  ui_GetDropTarget : Z -> Z -> Z -> cb;
  ui_GetExternal : Z -> Z -> cb;
  ui_TranslateUrl : Z -> Z -> Z -> Z -> cb;
  ui_FilterDataObject : Z -> Z -> Z -> cb }.

Definition UITable : IDocHostUIHandlerVtbl := UIVtbl
  UI_QueryInterface UI_AddRef UI_Release UI_ShowContextMenu UI_GetHostInfo
  UI_ShowUI UI_HideUI UI_UpdateUI UI_EnableModeless UI_OnDocWindowActivate
  UI_OnFrameWindowActivate UI_ResizeBorder UI_TranslateAccelerator
  UI_GetOptionKeyPath UI_GetDropTarget UI_GetExternal UI_TranslateUrl
  UI_FilterDataObject.

Record IOleInPlaceSiteVtbl := InPlaceVtbl {
  ip_QueryInterface : Z -> guid -> Z -> cb;
  ip_AddRef : Z -> cb;
  ip_Release : Z -> cb;
  ip_GetWindow : Z -> Z -> cb;
  ip_ContextSensitiveHelp : Z -> Z -> cb;
  ip_CanInPlaceActivate : Z -> cb;
  ip_OnInPlaceActivate : Z -> cb;
  ip_OnUIActivate : Z -> cb;
  ip_GetWindowContext : Z -> Z -> Z -> Z -> Z -> Z -> cb;
  ip_Scroll : Z -> Z -> cb;
  ip_OnUIDeactivate : Z -> Z -> cb;
  ip_OnInPlaceDeactivate : Z -> cb;
  ip_DiscardUndoState : Z -> cb;
  ip_DeactivateAndUndo : Z -> cb;
  ip_OnPosRectChange : Z -> Z -> cb }.

Definition InPlaceTable : IOleInPlaceSiteVtbl := InPlaceVtbl
  InPlace_QueryInterface InPlace_AddRef InPlace_Release InPlace_GetWindow
  InPlace_ContextSensitiveHelp InPlace_CanInPlaceActivate
  InPlace_OnInPlaceActivate InPlace_OnUIActivate InPlace_GetWindowContext
  InPlace_Scroll InPlace_OnUIDeactivate InPlace_OnInPlaceDeactivate
  InPlace_DiscardUndoState InPlace_DeactivateAndUndo InPlace_OnPosRectChange.

(** ** Calls by the browser

    The browser calls through the table the interface pointer points to. *)

Inductive client_call :=
| client_QueryInterface (riid : guid) (ppvObject : Z)
| client_AddRef
| client_Release
| client_SaveObject
| client_GetMoniker (dwAssign dwWhichMoniker ppmk : Z)
| client_GetContainer (ppContainer : Z)
| client_ShowObject
| client_OnShowWindow (fShow : Z)
| client_RequestNewObjectLayout.

Inductive inplace_call :=
| inplace_QueryInterface (riid : guid) (ppvObj : Z)
| inplace_AddRef
| inplace_Release
| inplace_GetWindow (lphwnd : Z)
| inplace_ContextSensitiveHelp (fEnterMode : Z)
| inplace_CanInPlaceActivate
| inplace_OnInPlaceActivate
| inplace_OnUIActivate
| inplace_GetWindowContext (lplpFrame lplpDoc lprcPosRect lprcClipRect lpFrameInfo : Z)
| inplace_Scroll (scrollExtent : Z)
| inplace_OnUIDeactivate (fUndoable : Z)
| inplace_OnInPlaceDeactivate
| inplace_DiscardUndoState
| inplace_DeactivateAndUndo
| inplace_OnPosRectChange (lprcPosRect : Z).

Inductive frame_call :=
| frame_QueryInterface (riid : guid) (ppvObj : Z)
| frame_AddRef
| frame_Release
| frame_GetWindow (lphwnd : Z)
| frame_ContextSensitiveHelp (fEnterMode : Z)
| frame_GetBorder (lprectBorder : Z)
| frame_RequestBorderSpace (pborderwidths : Z)
| frame_SetBorderSpace (pborderwidths : Z)
| frame_SetActiveObject (pActiveObject pszObjName : Z)
| frame_InsertMenus (hmenuShared lpMenuWidths : Z)
| frame_SetMenu (hmenuShared holemenu hwndActiveObject : Z)
| frame_RemoveMenus (hmenuShared : Z)
| frame_SetStatusText (pszStatusText : Z)
| frame_EnableModeless (fEnable : Z)
| frame_TranslateAccelerator (lpmsg wID : Z).

Inductive ui_call :=
| ui_call_QueryInterface (riid : guid) (ppvObj : Z)
| ui_call_AddRef
| ui_call_Release
| ui_call_ShowContextMenu (dwID ppt pcmdtReserved pdispReserved : Z)
| ui_call_GetHostInfo (pInfo : Z)
| ui_call_ShowUI (dwID pActiveObject pCommandTarget pFrame pDoc : Z)
| ui_call_HideUI
| ui_call_UpdateUI
| ui_call_EnableModeless (fEnable : Z)
| ui_call_OnDocWindowActivate (fActivate : Z)
| ui_call_OnFrameWindowActivate (fActivate : Z)
| ui_call_ResizeBorder (prcBorder pUIWindow fRameWindow : Z)
| ui_call_TranslateAccelerator (lpMsg pguidCmdGroup nCmdID : Z)
| ui_call_GetOptionKeyPath (pchKey dw : Z)
| ui_call_GetDropTarget (pDropTarget ppDropTarget : Z)
| ui_call_GetExternal (ppDispatch : Z)
| ui_call_TranslateUrl (dwTranslate pchURLIn ppchURLOut : Z)
| ui_call_FilterDataObject (pDO ppDORet : Z).

Inductive site_call :=
| OnClient (c : client_call)
| OnInPlace (c : inplace_call)
| OnFrame (c : frame_call)
| OnUI (c : ui_call).

Definition via_client (t : IOleClientSiteVtbl) (This : Z) (c : client_call) : cb :=
  match c with
  | client_QueryInterface riid ppv => cs_QueryInterface t This riid ppv
  | client_AddRef => cs_AddRef t This
  | client_Release => cs_Release t This
  | client_SaveObject => cs_SaveObject t This
  | client_GetMoniker a b c => cs_GetMoniker t This a b c
  | client_GetContainer a => cs_GetContainer t This a
  | client_ShowObject => cs_ShowObject t This
  | client_OnShowWindow a => cs_OnShowWindow t This a
  | client_RequestNewObjectLayout => cs_RequestNewObjectLayout t This
  end.

Definition via_inplace (t : IOleInPlaceSiteVtbl) (This : Z) (c : inplace_call) : cb :=
  match c with
  | inplace_QueryInterface riid ppv => ip_QueryInterface t This riid ppv
  | inplace_AddRef => ip_AddRef t This
  | inplace_Release => ip_Release t This
  | inplace_GetWindow a => ip_GetWindow t This a
  | inplace_ContextSensitiveHelp a => ip_ContextSensitiveHelp t This a
  | inplace_CanInPlaceActivate => ip_CanInPlaceActivate t This
  | inplace_OnInPlaceActivate => ip_OnInPlaceActivate t This
  | inplace_OnUIActivate => ip_OnUIActivate t This
  | inplace_GetWindowContext a b c d e => ip_GetWindowContext t This a b c d e
  | inplace_Scroll a => ip_Scroll t This a
  | inplace_OnUIDeactivate a => ip_OnUIDeactivate t This a
  | inplace_OnInPlaceDeactivate => ip_OnInPlaceDeactivate t This
  | inplace_DiscardUndoState => ip_DiscardUndoState t This
  | inplace_DeactivateAndUndo => ip_DeactivateAndUndo t This
  | inplace_OnPosRectChange a => ip_OnPosRectChange t This a
  end.

Definition via_frame (t : IOleInPlaceFrameVtbl) (This : Z) (c : frame_call) : cb :=
  match c with
  | frame_QueryInterface riid ppv => fr_QueryInterface t This riid ppv
  | frame_AddRef => fr_AddRef t This
  | frame_Release => fr_Release t This
  | frame_GetWindow a => fr_GetWindow t This a
  | frame_ContextSensitiveHelp a => fr_ContextSensitiveHelp t This a
  | frame_GetBorder a => fr_GetBorder t This a
  | frame_RequestBorderSpace a => fr_RequestBorderSpace t This a
  | frame_SetBorderSpace a => fr_SetBorderSpace t This a
  | frame_SetActiveObject a b => fr_SetActiveObject t This a b
  | frame_InsertMenus a b => fr_InsertMenus t This a b
  | frame_SetMenu a b c => fr_SetMenu t This a b c
  | frame_RemoveMenus a => fr_RemoveMenus t This a
  | frame_SetStatusText a => fr_SetStatusText t This a
  | frame_EnableModeless a => fr_EnableModeless t This a
  | frame_TranslateAccelerator a b => fr_TranslateAccelerator t This a b
  end.

Definition via_ui (t : IDocHostUIHandlerVtbl) (This : Z) (c : ui_call) : cb :=
  match c with
  | ui_call_QueryInterface riid ppv => ui_QueryInterface t This riid ppv
  | ui_call_AddRef => ui_AddRef t This
  | ui_call_Release => ui_Release t This
  | ui_call_ShowContextMenu a b c d => ui_ShowContextMenu t This a b c d
  | ui_call_GetHostInfo a => ui_GetHostInfo t This a
  | ui_call_ShowUI a b c d e => ui_ShowUI t This a b c d e
  | ui_call_HideUI => ui_HideUI t This
  | ui_call_UpdateUI => ui_UpdateUI t This
  | ui_call_EnableModeless a => ui_EnableModeless t This a
  | ui_call_OnDocWindowActivate a => ui_OnDocWindowActivate t This a
  | ui_call_OnFrameWindowActivate a => ui_OnFrameWindowActivate t This a
  | ui_call_ResizeBorder a b c => ui_ResizeBorder t This a b c
  | ui_call_TranslateAccelerator a b c => ui_TranslateAccelerator t This a b c
  | ui_call_GetOptionKeyPath a b => ui_GetOptionKeyPath t This a b
  | ui_call_GetDropTarget a b => ui_GetDropTarget t This a b
  | ui_call_GetExternal a => ui_GetExternal t This a
  | ui_call_TranslateUrl a b c => ui_TranslateUrl t This a b c
  | ui_call_FilterDataObject a b => ui_FilterDataObject t This a b
  end.

(** [This->lpVtbl->method(This, ...)]: calling a method of one interface
    through a pointer to another is a fault. *)
Definition browser_calls (This : Z) (c : site_call) : cb := fun m =>
  match lpVtbl m This, c with
  | Some MyIOleClientSiteTable, OnClient c => via_client ClientTable This c m
  | Some MyIOleInPlaceSiteTable, OnInPlace c => via_inplace InPlaceTable This c m
  | Some MyIOleInPlaceFrameTable, OnFrame c => via_frame FrameTable This c m
  | Some MyIDocHostUIHandlerTable, OnUI c => via_ui UITable This c m
  | _, _ => fault
  end.

(** A sequence of calls, as the browser makes them over its lifetime. *)
Fixpoint browser_session (l : list (Z * site_call)) (m : mem) : act (option mem) :=
  match l with
  | [] => Ret (Some m)
  | (This, c) :: l =>
      r ← browser_calls This c m;
      match r with
      | Some (m, _) => browser_session l m
      | None => fault
      end
  end.

(** ** The block

    [ptr] points to the block [EmbedBrowserObject] allocates: the browser
    object's pointer, then the [_IOleClientSiteEx]. *)

Definition sizeof_block : Z := sizeof_clientEx + sizeof_ptr.

Definition site_of (ptr : Z) : Z := ptr + sizeof_ptr.

Record site_block (m : mem) (ptr hwnd obj : Z) : Prop := SiteBlock {
  sb_object : m !! ptr = Some (Word obj);
  sb_client : m !! (site_of ptr + clientEx_client)%Z = Some (Vtbl MyIOleClientSiteTable);
  sb_inplace : m !! (site_of ptr + clientEx_inplace)%Z = Some (Vtbl MyIOleInPlaceSiteTable);
  sb_frame : m !! (site_of ptr + clientEx_inplace + siteEx_frame)%Z
             = Some (Vtbl MyIOleInPlaceFrameTable);
  sb_window : m !! (site_of ptr + clientEx_inplace + siteEx_frame + frameEx_window)%Z
              = Some (Word hwnd);
  sb_ui : m !! (site_of ptr + clientEx_ui)%Z = Some (Vtbl MyIDocHostUIHandlerTable) }.

Definition in_block (ptr a : Z) : Prop := (ptr <= a < ptr + sizeof_block)%Z.

(** The addresses a call writes through. *)
Definition out_params (c : site_call) : list Z :=
  match c with
  | OnClient (client_QueryInterface _ p) | OnClient (client_GetContainer p) => [p]
  | OnInPlace (inplace_QueryInterface _ p) | OnInPlace (inplace_GetWindow p) => [p]
  | OnInPlace (inplace_GetWindowContext f d _ _ i) =>
      [f; d; i + frameInfo_fMDIApp; i + frameInfo_hwndFrame;
       i + frameInfo_haccel; i + frameInfo_cAccelEntries]%Z
  | OnFrame (frame_GetWindow p) => [p]
  | OnUI (ui_call_QueryInterface _ p) => [p]
  | OnUI (ui_call_GetHostInfo p) => [p; p + 4; p + 8]%Z
  | OnUI (ui_call_GetExternal p) | OnUI (ui_call_TranslateUrl _ _ p)
  | OnUI (ui_call_FilterDataObject _ p) => [p]
  | _ => []
  end.

(** The interface a call belongs to, as the address of its pointer in the block. *)
Definition interface_ptr (ptr : Z) (c : site_call) : Z :=
  match c with
  | OnClient _ => site_of ptr + clientEx_client
  | OnInPlace _ => site_of ptr + clientEx_inplace
  | OnFrame _ => site_of ptr + clientEx_inplace + siteEx_frame
  | OnUI _ => site_of ptr + clientEx_ui
  end.

(** What a well-behaved browser does: it calls a method through the pointer of
    its interface and passes distinct pointers to memory of its own. *)
Definition well_called (m : mem) (ptr : Z) (This : Z) (c : site_call) : Prop :=
  This = interface_ptr ptr c /\ NoDup (out_params c) /\
  Forall (fun a => is_Some (m !! a) /\ ~ in_block ptr a) (out_params c).

#[export] Instance in_block_dec ptr a : Decision (in_block ptr a).
Proof. unfold in_block. apply _. Defined.

#[export] Instance well_called_dec m ptr This c : Decision (well_called m ptr This c).
Proof. unfold well_called. apply _. Defined.

(** ** Lemmas on memory and layout *)

Ltac unfold_layout :=
  cbv [site_of interface_ptr in_block sizeof_block sizeof_clientEx clientEx_client
    clientEx_inplace clientEx_ui sizeof_siteEx siteEx_inplace siteEx_frame
    sizeof_frameEx frameEx_frame frameEx_window sizeof_uiEx uiEx_ui
    sizeof_IOleClientSite sizeof_ptr frameInfo_fMDIApp frameInfo_hwndFrame
    frameInfo_haccel frameInfo_cAccelEntries] in *.

Lemma store_mapped m a v :
  is_Some (m !! a) -> store m a v = Some (<[a := Word v]> m).
Proof. intros [c Hc]. unfold store. by rewrite Hc. Qed.

Lemma load_insert_eq (m : mem) a v : load (<[a := Word v]> m) a = Some v.
Proof. unfold load. by rewrite lookup_insert_eq. Qed.

Lemma load_insert_ne (m : mem) a b v : a <> b -> load (<[a := Word v]> m) b = load m b.
Proof. intros. unfold load. by rewrite lookup_insert_ne. Qed.

Lemma mapped_insert (m : mem) a b (c : cell) :
  is_Some (m !! b) -> is_Some (<[a := c]> m !! b).
Proof. intros. rewrite lookup_insert_is_Some. destruct (decide (a = b)); auto. Qed.

Lemma dom_store (m : mem) a (c : cell) : is_Some (m !! a) -> dom (<[a := c]> m) = dom m.
Proof. intros H. rewrite dom_insert_lookup_L; done. Qed.

Lemma site_block_insert m ptr hwnd obj a c :
  ~ in_block ptr a -> site_block m ptr hwnd obj -> site_block (<[a := c]> m) ptr hwnd obj.
Proof.
  intros Ha []. unfold_layout.
  constructor; unfold_layout; rewrite lookup_insert_ne by lia; done.
Qed.

Create HintDb site discriminated.
#[export] Hint Resolve mapped_insert site_block_insert : site.

(** The table behind each interface pointer of a block. *)
Lemma site_block_vtbl m ptr hwnd obj c :
  site_block m ptr hwnd obj ->
  lpVtbl m (interface_ptr ptr c) = Some match c with
    | OnClient _ => MyIOleClientSiteTable
    | OnInPlace _ => MyIOleInPlaceSiteTable
    | OnFrame _ => MyIOleInPlaceFrameTable
    | OnUI _ => MyIDocHostUIHandlerTable
    end.
Proof. intros []. unfold lpVtbl. destruct c; simpl; by simplify_map_eq. Qed.

(** What a call may change: the memory it was given to write to. *)
Definition only_outs (m : mem) (outs : list Z) (m' : mem) : Prop :=
  dom m' = dom m /\ forall a, a ∉ outs -> m' !! a = m !! a.

Lemma only_outs_refl m outs : only_outs m outs m.
Proof. done. Qed.

Lemma only_outs_insert m0 m outs a c :
  a ∈ outs -> is_Some (m !! a) -> only_outs m0 outs m -> only_outs m0 outs (<[a := c]> m).
Proof.
  intros Ha Hm [Hd Hl]. split.
  - by rewrite dom_store.
  - intros b Hb. rewrite lookup_insert_ne by (intros ->; done). auto.
Qed.

#[export] Hint Resolve only_outs_refl only_outs_insert : site.

Definition site_ok (ptr hwnd obj : Z) (m : mem) (outs : list Z)
    (r : option (mem * Z)) : Prop :=
  exists m' v, r = Some (m', v) /\ site_block m' ptr hwnd obj /\ only_outs m outs m'.

Lemma store_return_ok ptr hwnd obj m a v r :
  site_block m ptr hwnd obj -> is_Some (m !! a) -> ~ in_block ptr a ->
  exists m', store_return a v r m = Ret (Some (m', r)) /\
    site_block m' ptr hwnd obj /\ only_outs m [a] m'.
Proof.
  intros Hb Hm Ha. exists (<[a := Word v]> m). unfold store_return.
  rewrite store_mapped by done.
  split; [done|split]; eauto with site.
  apply only_outs_insert; [set_solver|done|done].
Qed.

Lemma load_window m ptr hwnd obj :
  site_block m ptr hwnd obj ->
  load m (site_of ptr + clientEx_inplace + siteEx_frame + frameEx_window) = Some hwnd.
Proof. intros []. unfold load. by simplify_map_eq. Qed.

(** ** The calls that do something *)

Lemma GetHostInfo_ok ptr hwnd obj m This p :
  site_block m ptr hwnd obj ->
  Forall (fun a => is_Some (m !! a) /\ ~ in_block ptr a) [p; p + 4; p + 8]%Z ->
  exists m', UI_GetHostInfo This p m = Ret (Some (m', S_OK)) /\
    site_block m' ptr hwnd obj /\ only_outs m [p; p + 4; p + 8]%Z m' /\
    load m' p = Some 32%Z /\ load m' (p + 4) = Some 0x40000004%Z /\ load m' (p + 8) = Some 0%Z.
Proof.
  intros Hb Ho. inv Ho as [|? ? [H1 N1] Ho']. inv Ho' as [|? ? [H2 N2] Ho].
  inv Ho as [|? ? [H3 N3] _].
  unfold UI_GetHostInfo, store_return.
  rewrite !store_mapped by eauto with site.
  eexists. split; [done|]. split; [eauto with site|]. split.
  - repeat (apply only_outs_insert; [apply list_elem_of_In; simpl; tauto|eauto with site|]). done.
  - rewrite ?load_insert_eq, ?(load_insert_ne _ (p + 8)), ?load_insert_eq,
      ?(load_insert_ne _ (p + 4)), ?load_insert_eq by lia. done.
Qed.

Lemma GetWindowContext_ok ptr hwnd obj m f d pr cr i :
  let This := interface_ptr ptr (OnInPlace inplace_AddRef) in
  let outs := out_params (OnInPlace (inplace_GetWindowContext f d pr cr i)) in
  site_block m ptr hwnd obj -> NoDup outs ->
  Forall (fun a => is_Some (m !! a) /\ ~ in_block ptr a) outs ->
  exists m', InPlace_GetWindowContext This f d pr cr i m = Ret (Some (m', S_OK)) /\
    site_block m' ptr hwnd obj /\ only_outs m outs m' /\
    load m' f = Some (interface_ptr ptr (OnFrame frame_AddRef)) /\
    load m' d = Some 0%Z /\ load m' (i + frameInfo_hwndFrame) = Some hwnd.
Proof.
  cbn zeta. intros Hb Hnd Ho. simpl in *.
  rewrite !Forall_cons in Ho. destruct Ho as ((Hf&Nf)&(Hd&Nd)&(H1&N1)&(H2&N2)&(H3&N3)&(H4&N4)&_).
  rewrite !NoDup_cons in Hnd. rewrite !not_elem_of_cons in Hnd.
  destruct Hnd as ((Nfd&Nf1&Nf2&Nf3&Nf4&_)&(Nd1&Nd2&Nd3&Nd4&_)&(N12&N13&N14&_)&(N23&N24&_)&(N34&_)&_).
  assert (Hw : forall a c, ~ in_block ptr a -> forall m, site_block m ptr hwnd obj ->
    site_block (<[a := c]> m) ptr hwnd obj) by eauto with site.
  unfold InPlace_GetWindowContext.
  rewrite (store_mapped m f) by done. cbn.
  rewrite store_mapped by eauto with site. cbn.
  rewrite store_mapped by eauto with site. cbn.
  rewrite (load_insert_ne _ _ f), (load_insert_ne _ _ f), load_insert_eq by done. cbn.
  rewrite (load_window _ ptr hwnd obj) by eauto with site. cbn.
  rewrite store_mapped by eauto with site. cbn.
  rewrite store_mapped by eauto with site. cbn.
  rewrite store_mapped by eauto 10 with site. cbn.
  eexists. split; [done|]. split; [eauto 10 with site|]. split.
  - repeat (apply only_outs_insert; [apply list_elem_of_In; simpl; tauto|eauto 10 with site|]). done.
  - repeat first [rewrite load_insert_eq | rewrite load_insert_ne by done]. done.
Qed.

(** [InPlace_OnPosRectChange] finds the browser object in the block and gives
    back the reference it takes. *)
Lemma OnPosRectChange_ok ptr hwnd obj m rect tr0 :
  site_block m ptr hwnd obj ->
  every_run any_answer
    (InPlace_OnPosRectChange (interface_ptr ptr (OnInPlace inplace_AddRef)) rect m) tr0
    (fun r tr => r = Some (m, S_OK)).
Proof.
  intros [Ho _ _ _ _ _]. unfold InPlace_OnPosRectChange.
  replace (interface_ptr ptr (OnInPlace inplace_AddRef) - sizeof_ptr - sizeof_IOleClientSite)%Z
    with ptr by (unfold_layout; lia).
  unfold load. rewrite Ho. cbn. intros [hr q] _. case_match; cbn; intros; done.
Qed.

Lemma Site_QueryInterface_ok ptr hwnd obj m site riid p :
  site_block m ptr hwnd obj -> is_Some (m !! p) -> ~ in_block ptr p ->
  exists m' v, Site_QueryInterface site riid p m = Ret (Some (m', v)) /\
    site_block m' ptr hwnd obj /\ only_outs m [p] m'.
Proof.
  intros Hb Hm Hp. unfold Site_QueryInterface.
  repeat case_match;
    (edestruct (store_return_ok ptr hwnd obj m p) as (m' & -> & ? & ?); [done..|]; eauto).
Qed.

Lemma GetWindow_ok ptr hwnd obj m p :
  site_block m ptr hwnd obj -> is_Some (m !! p) -> ~ in_block ptr p ->
  exists m', store_return p hwnd S_OK m = Ret (Some (m', S_OK)) /\
    site_block m' ptr hwnd obj /\ only_outs m [p] m' /\ load m' p = Some hwnd /\
    InPlace_GetWindow (interface_ptr ptr (OnInPlace inplace_AddRef)) p m = Ret (Some (m', S_OK)) /\
    Frame_GetWindow (interface_ptr ptr (OnFrame frame_AddRef)) p m = Ret (Some (m', S_OK)).
Proof.
  intros Hb Hm Hp. destruct (store_return_ok ptr hwnd obj m p hwnd S_OK) as (m' & E & ? & ?); [done..|].
  exists m'. unfold InPlace_GetWindow, Frame_GetWindow. simpl.
  rewrite (load_window m ptr hwnd obj) by done. rewrite E. split_and!; try done.
  unfold store_return in E. rewrite store_mapped in E by done. simplify_eq. apply load_insert_eq.
Qed.

Lemma browser_call_ok ptr hwnd obj m This c tr0 :
  site_block m ptr hwnd obj -> well_called m ptr This c ->
  every_run any_answer (browser_calls This c m) tr0
    (fun r _ => site_ok ptr hwnd obj m (out_params c) r).
Proof.
  intros Hb (-> & Hnd & Ho). unfold browser_calls, site_ok.
  rewrite (site_block_vtbl m ptr hwnd obj) by done.
  assert (Hret : forall o v, every_run any_answer (returns v m) tr0 (fun r _ =>
    exists m' v, r = Some (m', v) /\ site_block m' ptr hwnd obj /\ only_outs m o m'))
    by (intros; cbn; eauto with site).
  assert (Hst : forall p v r, [p] = out_params c ->
    every_run any_answer (store_return p v r m) tr0 (fun r _ => exists m' v,
      r = Some (m', v) /\ site_block m' ptr hwnd obj /\ only_outs m [p] m')).
  { intros p v r E. rewrite <- E in Ho. inv Ho as [|? ? [? ?] _].
    destruct (store_return_ok ptr hwnd obj m p v r) as (m' & -> & ? & ?); [done..|].
    cbn. eauto. }
  assert (Hqi : forall p site riid, [p] = out_params c ->
    every_run any_answer (Site_QueryInterface site riid p m) tr0 (fun r _ => exists m' v,
      r = Some (m', v) /\ site_block m' ptr hwnd obj /\ only_outs m [p] m')).
  { intros p site riid E. rewrite <- E in Ho. inv Ho as [|? ? [? ?] _].
    destruct (Site_QueryInterface_ok ptr hwnd obj m site riid p) as (m' & v & -> & ? & ?); [done..|].
    cbn. eauto. }
  destruct c as [c|c|c|c]; destruct c;
    try (apply Hret); try (by apply Hst); try (by apply Hqi);
    cbn -[interface_ptr out_params InPlace_GetWindow InPlace_GetWindowContext
            InPlace_OnPosRectChange Frame_GetWindow UI_GetHostInfo every_run].
  - inv Ho as [|? ? [? ?] _].
    destruct (GetWindow_ok ptr hwnd obj m lphwnd) as (m' & ? & ? & ? & ? & E & _); [done..|].
    change (interface_ptr ptr (OnInPlace (inplace_GetWindow lphwnd)))
      with (interface_ptr ptr (OnInPlace inplace_AddRef)). rewrite E. cbn. eauto.
  - edestruct (GetWindowContext_ok ptr hwnd obj m) as (m' & E & ? & ? & _); [done..|].
    cbn zeta in E. change (interface_ptr ptr (OnInPlace (inplace_GetWindowContext _ _ _ _ _)))
      with (interface_ptr ptr (OnInPlace inplace_AddRef)). rewrite E. cbn. eauto.
  - eapply every_run_mono; [|eapply OnPosRectChange_ok; done].
    intros ? ? ->. eauto with site.
  - inv Ho as [|? ? [? ?] _].
    destruct (GetWindow_ok ptr hwnd obj m lphwnd) as (m' & ? & ? & ? & ? & _ & E); [done..|].
    change (interface_ptr ptr (OnFrame (frame_GetWindow lphwnd)))
      with (interface_ptr ptr (OnFrame frame_AddRef)). rewrite E. cbn. eauto.
  - destruct (GetHostInfo_ok ptr hwnd obj m
      (interface_ptr ptr (OnUI (ui_call_GetHostInfo pInfo))) pInfo) as (m' & E & ? & ? & _); [done..|].
    rewrite E. cbn. eauto.
Qed.

(** ** Properties *)

(** The interface a component is asked for, as COM specifies it: the pointer and
    the table a caller of that interface needs behind it. *)
Definition query_spec (ptr : Z) (riid : guid) : option (Z * table) :=
  if decide (riid = IID_IUnknown \/ riid = IID_IOleClientSite) then
    Some (site_of ptr + clientEx_client, MyIOleClientSiteTable)%Z
  else if decide (riid = IID_IOleInPlaceSite) then
    Some (site_of ptr + clientEx_inplace, MyIOleInPlaceSiteTable)%Z
  else if decide (riid = IID_IDocHostUIHandler) then
    Some (site_of ptr + clientEx_ui, MyIDocHostUIHandlerTable)%Z
  else None.

Lemma iid_is_spec riid iid :
  guid_wf riid -> guid_wf iid -> iid_is riid iid = bool_decide (riid = iid).
Proof.
  intros. unfold iid_is. apply Bool.eq_iff_eq_true.
  rewrite Z.eqb_eq, bool_decide_eq_true. by apply guid_memcmp.
Qed.

Lemma guid_wf_sdk :
  guid_wf IID_IUnknown /\ guid_wf IID_IOleClientSite /\ guid_wf IID_IOleInPlaceSite /\
  guid_wf IID_IDocHostUIHandler.
Proof. unfold guid_wf. cbn. lia. Qed.

Lemma Site_QueryInterface_spec ptr m riid p :
  guid_wf riid -> is_Some (m !! p) ->
  Site_QueryInterface (site_of ptr) riid p m =
    match query_spec ptr riid with
    | Some (q, _) => Ret (Some (<[p := Word q]> m, S_OK))
    | None => Ret (Some (<[p := Word 0]> m, E_NOINTERFACE))
    end.
Proof.
  intros Hr Hp. destruct guid_wf_sdk as (W1 & W2 & W3 & W4).
  unfold Site_QueryInterface, query_spec, store_return.
  rewrite !iid_is_spec, !store_mapped, <- bool_decide_or by done.
  repeat case_bool_decide; repeat case_decide; tauto.
Qed.

(** C2: QueryInterface obeys the COM identity rules.  Through whichever of the
    client-site, in-place-site and UI-handler pointers the browser asks, and
    although two of the three functions find the structure by subtracting
    offsets from their own pointer, the answer is the same: the pointer of the
    requested interface in the same block, with that interface's function
    table behind it, or [E_NOINTERFACE] and a null pointer. *)
Theorem query_interface_identity m ptr hwnd obj riid p
    (Hb : site_block m ptr hwnd obj) (Hr : guid_wf riid) (Hp : is_Some (m !! p)) :
  let answer :=
    match query_spec ptr riid with
    | Some (q, _) => Ret (Some (<[p := Word q]> m, S_OK))
    | None => Ret (Some (<[p := Word 0]> m, E_NOINTERFACE))
    end in
  browser_calls (site_of ptr + clientEx_client) (OnClient (client_QueryInterface riid p)) m = answer /\
  browser_calls (site_of ptr + clientEx_inplace) (OnInPlace (inplace_QueryInterface riid p)) m = answer /\
  browser_calls (site_of ptr + clientEx_ui) (OnUI (ui_call_QueryInterface riid p)) m = answer /\
  (forall q t, query_spec ptr riid = Some (q, t) -> lpVtbl m q = Some t).
Proof.
  cbn zeta. rewrite <- (Site_QueryInterface_spec ptr m riid p) by done.
  destruct Hb as [_ H1 H2 _ _ H3].
  unfold browser_calls, lpVtbl. rewrite H1, H2, H3. cbn.
  unfold InPlace_QueryInterface, UI_QueryInterface.
  split_and!; try (f_equal; unfold_layout; lia).
  intros q t. unfold query_spec. repeat case_decide; intros; simplify_eq; by simplify_map_eq.
Qed.

(** C1: Over any session of calls by a well-behaved browser no callback faults,
    and none of them changes the block: the object pointer, the window handle
    and the four function tables are there for the next call, and only the
    memory the browser passed for results is written. *)
Theorem browser_session_safe ptr hwnd obj l m
    (Hb : site_block m ptr hwnd obj)
    (Hl : Forall (fun '(This, c) => well_called m ptr This c) l) :
  every_run any_answer (browser_session l m) [] (fun r _ =>
    exists m', r = Some m' /\ site_block m' ptr hwnd obj /\ dom m' = dom m /\
      forall a, Forall (fun '(_, c) => a ∉ out_params c) l -> m' !! a = m !! a).
Proof.
  generalize (@nil ev) as tr. revert m Hb Hl.
  induction l as [|[This c] l IH]; intros m Hb Hl tr.
  { cbn. eauto. }
  inv Hl as [|? ? Hc Hl']. cbn. apply every_run_bind.
  eapply every_run_mono; [|by eapply browser_call_ok].
  intros r tr1 (m1 & v & -> & Hb1 & Hd & Hm). cbn.
  assert (Hl1 : Forall (fun '(This, c) => well_called m1 ptr This c) l).
  { eapply Forall_impl; [exact Hl'|]. intros [t d] (? & ? & Ho). split_and!; [done..|].
    eapply Forall_impl; [exact Ho|]. cbn. intros a [Ha ?].
    rewrite <- elem_of_dom, Hd, elem_of_dom. done. }
  eapply every_run_mono; [|apply (IH m1 Hb1 Hl1)].
  intros r2 _ (m2 & -> & Hb2 & Hd2 & Hm2). exists m2. split_and!; [done..|congruence|].
  intros a Ha. inv Ha. rewrite Hm2, Hm; done.
Qed.

(** C3: The window handle the browser gets is the one given to
    [EmbedBrowserObject]: [InPlace_GetWindow] stores it, [InPlace_GetWindowContext]
    stores it in the frame information and hands out the frame pointer of the
    same block, and [Frame_GetWindow] through that pointer stores it again. *)
Theorem window_handle_delivered ptr hwnd obj m f d pr cr i p
    (Hb : site_block m ptr hwnd obj) (Hp : is_Some (m !! p)) (Np : ~ in_block ptr p)
    (Hc : well_called m ptr (interface_ptr ptr (OnInPlace inplace_AddRef))
            (OnInPlace (inplace_GetWindowContext f d pr cr i))) :
  exists m1 m2 m3 frame,
    browser_calls (interface_ptr ptr (OnInPlace inplace_AddRef))
      (OnInPlace (inplace_GetWindow p)) m = Ret (Some (m1, S_OK)) /\ load m1 p = Some hwnd /\
    browser_calls (interface_ptr ptr (OnInPlace inplace_AddRef))
      (OnInPlace (inplace_GetWindowContext f d pr cr i)) m = Ret (Some (m2, S_OK)) /\
    load m2 (i + frameInfo_hwndFrame) = Some hwnd /\ load m2 d = Some 0%Z /\
    load m2 f = Some frame /\
    browser_calls frame (OnFrame (frame_GetWindow p)) m2 = Ret (Some (m3, S_OK)) /\
    load m3 p = Some hwnd.
Proof.
  destruct Hc as (_ & Hnd & Ho).
  destruct (GetWindow_ok ptr hwnd obj m p) as (m1 & _ & ? & ? & ? & E1 & _); [done..|].
  destruct (GetWindowContext_ok ptr hwnd obj m f d pr cr i) as (m2 & E2 & Hb2 & [Hd _] & ? & ? & ?); [done..|].
  destruct (GetWindow_ok ptr hwnd obj m2 p) as (m3 & _ & ? & ? & ? & _ & E3); [done| |done|].
  { rewrite <- elem_of_dom, Hd, elem_of_dom. done. }
  exists m1, m2, m3, (interface_ptr ptr (OnFrame frame_AddRef)).
  unfold browser_calls.
  rewrite (site_block_vtbl m ptr hwnd obj), (site_block_vtbl m2 ptr hwnd obj) by done.
  split_and!; done.
Qed.
