(* ===== verification/ComDispatch.v ===== *)
(** * COM automation from Go (com.cpp, traccel.cpp)

    [builtin/goc/com.cpp] gives Go the COM operations of the [COMobject] built-in:
    creating an object by name, asking for [IDispatch], calling a method by name
    and releasing a reference.  [builtin/goc/traccel.cpp] forwards a keyboard
    message to a browser control. *)

From S2P Require Import Prelude Prog Win32 Accounting.

(** ** com.cpp *)

Definition release (iunk : Z) : act Z :=
  if c_true iunk then r ← call (Release iunk); Ret (i32 r) else Ret 0%Z.

Definition queryIDispatch (iunk : Z) : act Z :=
  if (iunk =? 0)%Z then Ret 0%Z
  else
    '(hr, idisp) ← call (QueryInterface iunk IID_IDispatch);
    if FAILED hr then Ret 0%Z else Ret idisp.

(** The wide string is converted into a stack buffer of [n] characters; its
    address does not matter to the calls below and is written [wbuf]. *)
Definition wbuf : Z := 1.

Definition CLSCTX_SERVER : Z := 0x15.

Definition createInstance (progid : Z) : act Z :=
  n ← call (MultiByteToWideChar progid 0 0);
  _ ← call (MultiByteToWideChar progid wbuf n);
  '(hr, clsid) ← call (CLSIDFromProgID wbuf);
  if FAILED hr then Ret 0%Z
  else
    '(hr, idisp) ← call (CoCreateInstance clsid CLSCTX_SERVER IID_IDispatch);
    Ret (if SUCCEEDED hr && c_true idisp then idisp else 0)%Z.

(** [struct VARIANT], as far as the code looks at it: the tag [vt] and the value,
    which for [VT_BSTR] is a [char*] on entry. *)
Record VARIANT := Variant { vt : Z; val : Z }.

Definition VT_BSTR : Z := 8.

(** The body of the first loop: a string argument becomes a [BSTR]. *)
Definition convert_arg (v : VARIANT) : act VARIANT :=
  if (vt v =? VT_BSTR)%Z then
    r ← call (MultiByteToWideChar (val v) 0 0);
    let n := i32 (r - 1) in
    bs ← call (SysAllocStringLen (u32 n));
    _ ← call (MultiByteToWideChar (val v) bs n);
    Ret (Variant (vt v) bs)
  else Ret v.

Fixpoint convert_args (args : list VARIANT) : act (list VARIANT) :=
  match args with
  | [] => Ret []
  | v :: args => v ← convert_arg v; args ← convert_args args; Ret (v :: args)
  end.

(** The second loop frees them. *)
Fixpoint free_args (args : list VARIANT) : act unit :=
  match args with
  | [] => Ret tt
  | v :: args =>
      _ ← (if (vt v =? VT_BSTR)%Z && c_true (val v) then call (SysFreeString (val v)) else Ret tt);
      free_args args
  end.

(** Returns the result code and what is left in the argument array. *)
Definition invoke2 (idisp name flags : Z) (args : list VARIANT) : act (Z * list VARIANT) :=
  if (idisp =? 0)%Z then Ret (-1, args)%Z
  else
    n ← call (MultiByteToWideChar name 0 0);
    _ ← call (MultiByteToWideChar name wbuf n);
    '(hr, dispid) ← call (GetValue idisp "GetIDsOfNames" [APtr wbuf; AInt 1]);
    if FAILED hr then Ret (hr, args)
    else
      args ← convert_args args;
      hr ← call (Invoke idisp "Invoke" [AInt dispid; AInt flags]);
      _ ← free_args args;
      Ret (hr, args).

Definition invoke (idisp name flags : Z) (params : list VARIANT) : act (Z * list VARIANT) :=
  invoke2 idisp name (u16 flags) params.

(** ** traccel.cpp *)

(** The message that the pointer argument names. *)
Definition message_args (msg : MSG) : list arg :=
  [APtr (msg_hwnd msg); AInt (msg_message msg); AInt (msg_wParam msg); AInt (msg_lParam msg)].

Definition traccel (ob : Z) (msg : MSG) : act Z :=
  if negb (c_true ob) then Ret S_FALSE
  else
    '(hr, pi) ← call (QueryInterface ob IID_IOleInPlaceActiveObject);
    if negb (SUCCEEDED hr) || negb (c_true pi) then Ret S_FALSE
    else
      hr ← call (Invoke pi "TranslateAcceleratorA" (message_args msg));
      _ ← call (Release pi);
      Ret hr.

(** ** Lemmas *)

#[global] Arguments convert_args !_ /.
#[global] Arguments free_args !_ /.

(** The BSTRs a converted argument list carries. *)
Definition bstrs (args : list VARIANT) : list Z :=
  omap (fun v => if (vt v =? VT_BSTR)%Z && c_true (val v) then Some (val v) else None) args.

Definition same_shape (args args' : list VARIANT) : Prop :=
  Forall2 (fun v v' => vt v = vt v' /\ (vt v <> VT_BSTR -> v = v')) args args'.

Lemma convert_arg_ok C bor tr R B v :
  Acct bor tr R B ->
  every_run C (convert_arg v) tr (fun v' tr' =>
    Acct bor tr' R (bstrs [v'] ++ B) /\ vt v = vt v' /\ (vt v <> VT_BSTR -> v = v')).
Proof.
  intros HA. unfold convert_arg. destruct (Z.eqb_spec (vt v) VT_BSTR) as [Hv|Hv]; cbn.
  - intros r _. acct_step HA. intros bs _.
    destruct (decide (bs = 0%Z)) as [->|Hbs].
    + acct_by HA (Acct_bstr_fail _ _ _ _ HA (u32 (i32 (r - 1)))).
      intros r2 _. acct_step HA. rewrite Hv. cbn. done.
    + acct_by HA (Acct_bstr _ _ _ _ HA (u32 (i32 (r - 1))) bs Hbs).
      intros r2 _. acct_step HA. rewrite Hv. cbn.
      rewrite (proj2 (c_true_spec bs) Hbs). done.
  - destruct (Z.eqb_spec (vt v) VT_BSTR); [done|]. cbn. done.
Qed.

Lemma convert_args_ok C bor tr R B args :
  Acct bor tr R B ->
  every_run C (convert_args args) tr (fun args' tr' =>
    Acct bor tr' R (bstrs args' ++ B) /\ same_shape args args').
Proof.
  revert tr B. induction args as [|v args IH]; intros tr B HA; simpl.
  { split; [done|constructor]. }
  apply every_run_bind. eapply every_run_mono; [|by eapply convert_arg_ok].
  intros v' tr1 (HA1 & Hv1 & Hv2). apply every_run_bind.
  eapply every_run_mono; [|by eapply IH]. intros args' tr2 (HA2 & Hs). cbn.
  split; [|by constructor].
  eapply Acct_proper; [reflexivity| |exact HA2].
  unfold bstrs. simpl. destruct ((vt v' =? VT_BSTR)%Z && c_true (val v')); simpl; [|done].
  apply Permutation_middle.
Qed.

Lemma free_args_ok C bor tr R B args :
  Acct bor tr R (bstrs args ++ B) ->
  every_run C (free_args args) tr (fun _ tr' => Acct bor tr' R B).
Proof.
  revert tr. induction args as [|v args IH]; intros tr HA; simpl; [done|].
  unfold bstrs in HA. simpl in HA.
  destruct (vt v =? VT_BSTR)%Z; simpl in *; [|by apply IH].
  destruct (c_true (val v)) eqn:E; simpl in *; [|by apply IH].
  intros r _. apply IH. eapply (Acct_bstr_free _ _ _ _ HA); [by apply c_true_spec|reflexivity].
Qed.

Lemma same_shape_refl args : same_shape args args.
Proof. unfold same_shape. induction args; auto. Qed.

Lemma invoke_ok idisp name flags params :
  every_run any_answer (invoke idisp name flags params) [] (fun '(hr, args) tr =>
    Acct [idisp] tr [] [] /\ same_shape params args /\
    ((idisp = 0%Z /\ hr = (-1)%Z /\ args = params /\ tr = []) \/
     (exists d, FAILED hr = true /\ args = params /\
        Ev (GetValue idisp "GetIDsOfNames" [APtr wbuf; AInt 1]) (hr, d) ∈ tr) \/
     (exists d, Ev (Invoke idisp "Invoke" [AInt d; AInt (u16 flags)]) hr ∈ tr))).
Proof.
  generalize (Acct_nil [idisp]) (eq_refl (@nil ev)).
  generalize (@nil ev) at 1 2 4 as tr. intros tr HA Htr. unfold invoke, invoke2.
  destruct (Z.eqb_spec idisp 0) as [->|Hid].
  { cbn. split_and!; eauto using same_shape_refl. }
  cbn. intros n _. acct_step HA. intros r1 _. acct_step HA. intros [hr d] _. acct_step HA.
  destruct (FAILED hr) eqn:Hf; cbn.
  { split_and!; [done|apply same_shape_refl|]. right. left. exists d.
    split_and!; [done..|]. apply elem_of_app. right. by apply list_elem_of_singleton. }
  apply every_run_bind. eapply every_run_mono; [|by eapply convert_args_ok].
  clear HA. intros args tr1 [HA Hs]. cbn. intros hr2 _. acct_step HA.
  apply every_run_bind. rewrite app_nil_r in HA.
  eapply every_run_mono; [|eapply every_run_history, free_args_ok].
  2: by rewrite app_nil_r.
  intros _ tr2 [HA2 [tr3 ->]]. cbn. split_and!; [done..|]. right. right. exists d.
  apply elem_of_app. left. apply elem_of_app. right. by apply list_elem_of_singleton.
Qed.

Lemma queryIDispatch_ok iunk :
  every_run any_answer (queryIDispatch iunk) [] (fun p tr => Acct [iunk] tr (if c_true p then [p] else []) []).
Proof.
  unfold queryIDispatch. destruct (Z.eqb_spec iunk 0) as [->|]; [apply Acct_nil|].
  pose proof (Acct_nil [iunk]) as HA. revert HA. generalize (@nil ev) as tr.
  cbn. intros tr HA [hr q] _. acct_by HA (Acct_query _ _ _ _ HA iunk IID_IDispatch (hr, q) ltac:(acct_mem)).
  rewrite FAILED_negb. cbn [fst snd] in HA. destruct (SUCCEEDED hr); cbn; [|done].
  rewrite app_nil_r in HA. cbn [andb] in HA. destruct (c_true q) eqn:E; [done|]. by apply c_true_0 in E as ->.
Qed.

Lemma createInstance_ok progid :
  every_run com_contract (createInstance progid) [] (fun p tr => Acct [] tr (if c_true p then [p] else []) []).
Proof.
  unfold createInstance. pose proof (Acct_nil []) as HA. revert HA.
  generalize (@nil ev) as tr. cbn.
  intros tr HA n _. acct_step HA. intros r1 _. acct_step HA. intros [hr d] _. acct_step HA.
  destruct (FAILED hr); cbn; [done|].
  intros [hr2 q] [[E Hq]|[E Hq]]; simpl in E, Hq; subst; acct_step HA; cbn.
  - rewrite (proj2 (c_true_spec q)) by done. cbn. by rewrite (proj2 (c_true_spec q)) by done.
  - destruct (SUCCEEDED hr2); done.
Qed.

Lemma traccel_ok ob msg : every_run any_answer (traccel ob msg) [] (fun _ tr => Acct [ob] tr [] []).
Proof.
  unfold traccel. destruct (c_true ob) eqn:Eo; [|apply Acct_nil].
  pose proof (Acct_nil [ob]) as HA. revert HA. generalize (@nil ev) as tr. cbn.
  intros tr HA [hr q] _.
  acct_by HA (Acct_query _ _ _ _ HA ob IID_IOleInPlaceActiveObject (hr, q) ltac:(acct_mem)).
  cbn [fst snd] in HA. destruct (SUCCEEDED hr), (c_true q); cbn [andb negb orb app] in *; try done. cbn.
  intros r _. acct_step HA. intros r2 _. acct_step HA. done.
Qed.

Lemma release_ok C iunk tr R B : Acct [] tr (iunk :: R) B ->
  every_run C (release iunk) tr (fun _ tr' => Acct [] tr' (if c_true iunk then R else iunk :: R) B).
Proof.
  intros HA. unfold release. destruct (c_true iunk) eqn:E; cbn; [|done].
  intros r _. acct_step HA. done.
Qed.

(** ** Properties *)

(** [invoke] balances its strings whatever COM answers: every BSTR it
    allocates for an argument is freed exactly once, nothing else is freed, and
    only the given object is used.  The caller gets -1 for a null object without
    any call, the failure of the name lookup with its arguments untouched, and
    otherwise the result of the method called with the 16-bit flags; the
    arguments keep their tags, and those that are not strings their value. *)
Theorem invoke_accounts idisp name flags params :
  every_run any_answer (invoke idisp name flags params) [] (fun '(hr, args) tr =>
    Acct [idisp] tr [] [] /\ same_shape params args /\
    ((idisp = 0%Z /\ hr = (-1)%Z /\ args = params /\ tr = []) \/
     (exists d, FAILED hr = true /\ args = params /\
        Ev (GetValue idisp "GetIDsOfNames" [APtr wbuf; AInt 1]) (hr, d) ∈ tr) \/
     (exists d, Ev (Invoke idisp "Invoke" [AInt d; AInt (u16 flags)]) hr ∈ tr))).
Proof. apply invoke_ok. Qed.

(** The pointers [queryIDispatch] and [createInstance] return are owned:
    a non-zero result comes with exactly one reference, zero with none, and the
    object asked keeps its references.  [traccel] leaves no reference behind, and
    [release] gives back exactly the one it was passed. *)
Theorem com_pointers_owned iunk progid ob msg :
  every_run any_answer (queryIDispatch iunk) [] (fun p tr =>
    Acct [iunk] tr (if c_true p then [p] else []) []) /\
  every_run com_contract (createInstance progid) [] (fun p tr =>
    Acct [] tr (if c_true p then [p] else []) []) /\
  every_run any_answer (traccel ob msg) [] (fun _ tr => Acct [ob] tr [] []) /\
  (forall tr R B, Acct [] tr (iunk :: R) B ->
     every_run any_answer (release iunk) tr (fun _ tr' =>
       Acct [] tr' (if c_true iunk then R else iunk :: R) B)).
Proof. split_and!; [apply queryIDispatch_ok|apply createInstance_ok|apply traccel_ok|apply release_ok]. Qed.

(** What [MultiByteToWideChar] documents for a string whose conversion takes
    [len s] characters with the terminator: it returns that number when asked for
    it or when the buffer is large enough, and fails with 0 otherwise. *)
Definition mb_contract (len : Z -> Z) : contract Ans := fun _ a =>
  match a return Ans a -> Prop with
  | MultiByteToWideChar s _ cch => fun r =>
      r = (if (cch =? 0)%Z then len s else if (cch <? len s)%Z then 0 else len s)%Z
  | _ => fun _ => True
  end.

(** The buffer [invoke2] converts a string argument into is one character too
    small: it is allocated and passed without room for the terminator although
    the source length -1 includes it, so for every non-empty string the
    conversion call itself fails. *)
Theorem bstr_conversion_fails len v (Hv : vt v = VT_BSTR)
    (Hlen : (2 <= len (val v) < 2147483648)%Z) :
  every_run (mb_contract len) (convert_arg v) [] (fun v' tr =>
    exists bs, val v' = bs /\
      last tr = Some (Ev (MultiByteToWideChar (val v) bs (len (val v) - 1)) 0%Z)).
Proof.
  unfold convert_arg. rewrite Hv. cbn. intros r ->. intros bs _.
  rewrite i32_id by lia. intros r2 Hr2. exists bs. split; [done|].
  rewrite Hr2. destruct (Z.eqb_spec (len (val v) - 1) 0); [lia|].
  by rewrite (proj2 (Z.ltb_lt (len (val v) - 1) (len (val v)))) by lia.
Qed.

Lemma bstr_conversion_fails_witness :
  every_run (mb_contract (fun _ => 6%Z)) (convert_arg (Variant 8 4096)) [] (fun v' tr =>
    exists bs, val v' = bs /\ last tr = Some (Ev (MultiByteToWideChar 4096 bs 5) 0%Z)).
Proof. apply (bstr_conversion_fails (fun _ => 6%Z) (Variant 8 4096)); [done|simpl; lia]. Defined.
