(* ===== verification/ComObject.v ===== *)
(** * COM objects as Suneido values (comobject_wingui.go)

    The [COMobject] built-in: objects with their references, and the conversions between
    Suneido values and the [VARIANT]s of an automation call, on top of the functions of
    com.cpp (ComDispatch). *)

From S2P Require Import Prelude Text Prog Win32 Accounting ComDispatch.

(** ** UTF-16 and UTF-8

    [utf16.Decode] of Go's library, and the conversion of a slice of code points to a
    string: half a surrogate pair and anything that is no code point become U+FFFD. *)

Definition replacement : Z := 0xFFFD.

Definition is_high (u : Z) : bool := (0xD800 <=? u)%Z && (u <? 0xDC00)%Z.
Definition is_low (u : Z) : bool := (0xDC00 <=? u)%Z && (u <? 0xE000)%Z.

Fixpoint utf16_decode (units : list Z) : list Z :=
  match units with
  | [] => []
  | u :: rest =>
      if is_high u then
        match rest with
        | v :: rest' =>
            if is_low v then ((u - 0xD800) * 1024 + (v - 0xDC00) + 0x10000)%Z :: utf16_decode rest'
            else replacement :: utf16_decode rest
        | [] => [replacement]
        end
      else (if is_low u then replacement else u) :: utf16_decode rest
  end.

(** A code point that is not half a surrogate pair. *)
Definition scalar (c : Z) : bool :=
  ((0 <=? c)%Z && (c <? 0xD800)%Z) || ((0xE000 <=? c)%Z && (c <? 0x110000)%Z).

Definition rune_bytes (c : Z) : list Z :=
  let c := if scalar c then c else replacement in
  (if c <? 0x80 then [c]
   else if c <? 0x800 then [0xC0 + c / 64; 0x80 + c mod 64]
   else if c <? 0x10000 then [0xE0 + c / 4096; 0x80 + c / 64 mod 64; 0x80 + c mod 64]
   else [0xF0 + c / 262144; 0x80 + c / 4096 mod 64; 0x80 + c / 64 mod 64; 0x80 + c mod 64])%Z.

Definition runes_string (cs : list Z) : list Z := cs ≫= rune_bytes.

(** ** Values *)

Record suCOMObject := SuCOMObject { co_ptr : Z; co_idisp : bool }.

(** A Suneido value as this file sees it: booleans, numbers (with what [ToInt] gives, if
    it succeeds), strings as bytes, COM objects, and anything else. *)
Inductive ComValue :=
| VBool (b : bool)
| VNum (toInt : option Z)
| VStr (s : list Z)
| VCom (o : suCOMObject)
| VOther.

(** A call ends with a value or panics. *)
Inductive panic :=
| FailedCall (what : string) (name : list Z) (code : Z)
| CannotConvert                    (* of an argument *)
| CannotConvertResult
| NotAPointer                      (* [Pinner.Pin] of what is not a pointer *)
| WrongUse (msg : string).

Abbreviation panics A := (A + panic)%type.

(** [false] and the empty string are 0. *)
Definition ToInt (x : ComValue) : option Z :=
  match x with
  | VNum n => n
  | VBool false | VStr [] => Some 0%Z
  | _ => None
  end.

Definition ToStr (x : ComValue) : option (list Z) := match x with VStr s => Some s | _ => None end.

(** ** From Suneido to COM *)

Definition VT_EMPTY : Z := 0.
Definition VT_NULL : Z := 1.
Definition VT_I2 : Z := 2.
Definition VT_I4 : Z := 3.
Definition VT_DISPATCH : Z := 9.
Definition VT_BOOL : Z := 11.
Definition VT_UNKNOWN : Z := 13.
Definition VT_UI2 : Z := 18.
Definition VT_UI4 : Z := 19.
Definition VT_I8 : Z := 20.
Definition VT_UI8 : Z := 21.

(** What is passed to [Pinner.Pin], whose argument has to be a pointer; it panics otherwise. *)
Inductive pinned := PinPointer | PinUintptr.

Definition Pin (p : pinned) : panics unit :=
  match p with PinPointer => inl tt | PinUintptr => inr NotAPointer end.

(** [addr] is the address of the copy that [zstrArg] makes of a string.  The field [ptr]
    of a COM object is a [uintptr]. *)
Definition suToVariant (addr : Z) (x : ComValue) : panics VARIANT :=
  match x with
  | VBool true => inl (Variant VT_BOOL (-1))
  | VBool false => inl (Variant VT_BOOL 0)
  | _ =>
      match ToInt x with
      | Some n =>
          inl (Variant (if (-2147483648 <=? n)%Z && (n <=? 2147483647)%Z then VT_I4 else VT_I8) n)
      | None =>
          match ToStr x with
          | Some _ => match Pin PinPointer with inl _ => inl (Variant VT_BSTR addr) | inr e => inr e end
          | None =>
              match x with
              | VCom o =>
                  match Pin PinUintptr with
                  | inl _ => inl (Variant (if co_idisp o then VT_DISPATCH else VT_UNKNOWN) (co_ptr o))
                  | inr e => inr e
                  end
              | _ => inr CannotConvert
              end
          end
      end
  end.

(** The loop of [convertArgs] from the last argument to the first. *)
Fixpoint convert_reversed (l : list (Z * ComValue)) : panics (list VARIANT) :=
  match l with
  | [] => inl []
  | (addr, x) :: l =>
      match suToVariant addr x with
      | inr e => inr e
      | inl v => match convert_reversed l with inl vs => inl (v :: vs) | inr e => inr e end
      end
  end.

Definition convertArgs (args : list (Z * ComValue)) : panics (list VARIANT) := convert_reversed (reverse args).

(** ** From COM to Suneido *)

Section comobject.

(** The 16-bit unit at an index of a [BSTR]. *)
Context (unit_at : Z -> nat -> Z).

Definition bstrToString (v : VARIANT) : act (list Z) :=
  if (val v =? 0)%Z then Ret []
  else n ← call (SysStringLen (val v)); Ret (runes_string (utf16_decode (unit_at (val v) <$> seq 0 (Z.to_nat n)))).

Definition variantToSu (v : VARIANT) : act (panics ComValue) :=
  if (vt v =? VT_NULL)%Z || (vt v =? VT_EMPTY)%Z then Ret (inl (VNum (Some 0%Z)))
  else if (vt v =? VT_BOOL)%Z then Ret (inl (VBool (negb (val v =? 0)%Z)))
  else if (vt v =? VT_I2)%Z then Ret (inl (VNum (Some (i16 (val v)))))
  else if (vt v =? VT_I4)%Z then Ret (inl (VNum (Some (i32 (val v)))))
  else if (vt v =? VT_I8)%Z then Ret (inl (VNum (Some (i64 (val v)))))
  else if (vt v =? VT_UI2)%Z then Ret (inl (VNum (Some (u16 (val v)))))
  else if (vt v =? VT_UI4)%Z then Ret (inl (VNum (Some (u32 (val v)))))
  else if (vt v =? VT_UI8)%Z then Ret (inl (VNum (Some (i64 (val v)))))
  else if (vt v =? VT_BSTR)%Z then
    s ← bstrToString v; _ ← call (VariantClear (vt v) (val v)); Ret (inl (VStr s))
  else if (vt v =? VT_DISPATCH)%Z then Ret (inl (VCom (SuCOMObject (val v) true)))
  else if (vt v =? VT_UNKNOWN)%Z then
    idisp ← queryIDispatch (val v);
    if negb (idisp =? 0)%Z then _ ← release (val v); Ret (inl (VCom (SuCOMObject idisp true)))
    else Ret (inl (VCom (SuCOMObject (val v) false)))
  else Ret (inr CannotConvertResult).

(** ** Calls *)

Definition DISPATCH_METHOD : Z := 1.
Definition DISPATCH_PROPERTYGET : Z := 2.
Definition DISPATCH_PROPERTYPUT : Z := 4.

Definition flagnames (flags : Z) : string :=
  if (flags =? 1)%Z then "call" else if (flags =? 2)%Z then "get" else if (flags =? 4)%Z then "put" else "".

Definition DISPID_PROPERTYPUT : Z := -3.

Record stDispParams := DispParams { rgvarg : list VARIANT; rgdispidNamedArgs : option Z; cArgs : Z; cNamedArgs : Z }.

Definition disp_params (flags : Z) (vs : list VARIANT) : stDispParams :=
  let put := (flags =? DISPATCH_PROPERTYPUT)%Z in
  DispParams vs (if put then Some DISPID_PROPERTYPUT else None) (u32 (Z.of_nat (length vs))) (if put then 1 else 0).

(** A name is its bytes and the address of the copy that C gets; [None] is Go's [nil].  The
    call stores its result in [result], which [variantToSu] reads. *)
Definition Name : Type := list Z * Z.

Definition go_invoke (idisp : Z) (name : Name) (flags : Z) (args : list (Z * ComValue))
    : act (panics (option ComValue)) :=
  match convertArgs args with
  | inr e => Ret (inr e)
  | inl vs =>
      let dp := disp_params flags vs in
      '(hr, _) ← invoke idisp name.2 flags (rgvarg dp);
      if (hr <? 0)%Z then Ret (inr (FailedCall (flagnames flags) name.1 (u32 hr)))
      else if (flags =? DISPATCH_PROPERTYPUT)%Z then Ret (inl None)
      else
        result ← call ReadResult;
        r ← variantToSu (Variant result.1 result.2);
        Ret (match r with inl x => inl (Some x) | inr e => inr e end)
  end.

(** ** The object *)

Definition COMobject (arg : ComValue) (progid : Z) : act (panics ComValue) :=
  match ToInt arg with
  | Some n =>
      let ptr := u64 n in
      idisp ← queryIDispatch ptr;
      if negb (idisp =? 0)%Z then _ ← release ptr; Ret (inl (VCom (SuCOMObject idisp true)))
      else Ret (inl (VCom (SuCOMObject ptr false)))
  | None =>
      match ToStr arg with
      | Some _ =>
          idisp ← createInstance progid;
          if (idisp =? 0)%Z then Ret (inl (VBool false)) else Ret (inl (VCom (SuCOMObject idisp true)))
      | None => Ret (inr (WrongUse "COMobject requires integer or string"))
      end
  end.

Definition com_DispatchQ (o : suCOMObject) : ComValue := VBool (co_idisp o).

Definition com_Release (o : suCOMObject) : act ComValue := r ← release (co_ptr o); Ret (VNum (Some r)).

(** A member is a value; [addr] is where the copy of its name is. *)
Definition com_Get (o : suCOMObject) (mem : ComValue) (addr : Z) : act (panics (option ComValue)) :=
  if negb (co_idisp o) then Ret (inr (WrongUse "COMobject can't get property of IUnknown"))
  else match ToStr mem with
       | None => Ret (inr (WrongUse "can't convert to String"))
       | Some s => go_invoke (co_ptr o) (s, addr) DISPATCH_PROPERTYGET []
       end.

Definition com_Put (o : suCOMObject) (mem : ComValue) (addr : Z) (x : Z * ComValue) : act (panics (option ComValue)) :=
  if negb (co_idisp o) then Ret (inr (WrongUse "COMobject can't put property of IUnknown"))
  else match ToStr mem with
       | None => Ret (inr (WrongUse "can't convert to String"))
       | Some s => go_invoke (co_ptr o) (s, addr) DISPATCH_PROPERTYPUT [x]
       end.

(** [o.m op= v]: [op] is what the interpreter computes, [addr2] is where the copy of its
    result is if that is a string. *)
Definition com_GetPut (o : suCOMObject) (mem : ComValue) (addr addr2 : Z) (v : ComValue)
    (op : option ComValue -> ComValue -> ComValue) (retOrig : bool) : act (panics (option ComValue)) :=
  r ← com_Get o mem addr;
  match r with
  | inr e => Ret (inr e)
  | inl orig =>
      let v := op orig v in
      r ← com_Put o mem addr (addr2, v);
      match r with
      | inr e => Ret (inr e)
      | inl _ => Ret (inl (if retOrig then orig else Some v))
      end
  end.

(** [simple]: the call has neither named arguments nor [@args]. *)
Definition com_call (o : suCOMObject) (name : Name) (simple : bool) (args : list (Z * ComValue))
    : act (panics (option ComValue)) :=
  if negb (co_idisp o) then Ret (inr (WrongUse "COMobject can't call method of IUnknown"))
  else if negb simple then Ret (inr (WrongUse "COMobject invalid call arguments"))
  else go_invoke (co_ptr o) name DISPATCH_METHOD args.

End comobject.

(** ** Lemmas: text *)

(** [utf16.Encode], for the specification of the decoder. *)
Definition utf16_units (c : Z) : list Z :=
  if (c <? 0x10000)%Z then [c]
  else [0xD800 + (c - 0x10000) / 1024; 0xDC00 + (c - 0x10000) mod 1024]%Z.

Definition utf16_encode (cs : list Z) : list Z := cs ≫= utf16_units.

Lemma scalar_spec c : scalar c = true <-> (0 <= c < 0xD800 \/ 0xE000 <= c < 0x110000)%Z.
Proof. unfold scalar. rewrite orb_true_iff, !andb_true_iff, !Z.leb_le, !Z.ltb_lt. lia. Qed.

Lemma is_high_spec u : is_high u = true <-> (0xD800 <= u < 0xDC00)%Z.
Proof. unfold is_high. by rewrite andb_true_iff, Z.leb_le, Z.ltb_lt. Qed.

Lemma is_low_spec u : is_low u = true <-> (0xDC00 <= u < 0xE000)%Z.
Proof. unfold is_low. by rewrite andb_true_iff, Z.leb_le, Z.ltb_lt. Qed.

Lemma is_high_false u : ~ (0xD800 <= u < 0xDC00)%Z -> is_high u = false.
Proof. intros H. apply not_true_iff_false. by rewrite is_high_spec. Qed.

Lemma is_low_false u : ~ (0xDC00 <= u < 0xE000)%Z -> is_low u = false.
Proof. intros H. apply not_true_iff_false. by rewrite is_low_spec. Qed.

(** A unit that is no half of a pair, or a pair, decodes to its code point, whatever follows. *)
Lemma decode_units c rest : scalar c = true -> utf16_decode (utf16_units c ++ rest) = c :: utf16_decode rest.
Proof.
  intros Hc%scalar_spec. unfold utf16_units. destruct (Z.ltb_spec c 0x10000) as [Hlt|Hge].
  - cbn [app utf16_decode]. by rewrite is_high_false, is_low_false by lia.
  - pose proof (Z.div_mod (c - 0x10000) 1024 ltac:(lia)) as Hd. pose proof (Z.mod_pos_bound (c - 0x10000) 1024 ltac:(lia)).
    set (q := ((c - 0x10000) / 1024)%Z) in *. set (r := ((c - 0x10000) mod 1024)%Z) in *. clearbody q r.
    cbn [app utf16_decode]. rewrite (proj2 (is_high_spec _)), (proj2 (is_low_spec _)) by lia. f_equal. lia.
Qed.

Lemma utf16_decode_encode cs : Forall (fun c => scalar c = true) cs -> utf16_decode (utf16_encode cs) = cs.
Proof.
  unfold utf16_encode. induction 1 as [|c cs Hc _ IH]; [done|]. rewrite bind_cons.
  by rewrite decode_units, IH by done.
Qed.

Lemma utf16_decode_low us : Forall (fun u => 0 <= u < 0xD800)%Z us -> utf16_decode us = us.
Proof.
  induction 1 as [|u us Hu _ IH]; [done|]. cbn [utf16_decode]. by rewrite is_high_false, is_low_false, IH by lia.
Qed.

Lemma runes_ascii cs : Forall (fun c => 0 <= c < 128)%Z cs -> runes_string cs = cs.
Proof.
  unfold runes_string. induction 1 as [|c cs Hc _ IH]; [done|]. rewrite bind_cons, IH. unfold rune_bytes.
  rewrite (proj2 (scalar_spec c)) by lia. by rewrite (proj2 (Z.ltb_lt c 128)) by lia.
Qed.

(** ** Lemmas: conversions *)

Lemma convert_reversed_ok l vs : convert_reversed l = inl vs ->
  Forall2 (fun x v => suToVariant x.1 x.2 = inl v) l vs.
Proof.
  revert vs. induction l as [|[addr x] l IH]; intros vs; cbn [convert_reversed]; [intros [= <-]; constructor|].
  destruct (suToVariant addr x) as [v|e] eqn:E; [|done]. destruct (convert_reversed l) as [vs'|e]; [|done].
  intros [= <-]. constructor; [done|by apply IH].
Qed.

(** The last argument comes first. *)
Lemma convertArgs_ok args vs : convertArgs args = inl vs ->
  Forall2 (fun x v => suToVariant x.1 x.2 = inl v) args (reverse vs).
Proof.
  intros H%convert_reversed_ok%Forall2_reverse. by rewrite reverse_involutive in H.
Qed.

(** A value that goes to COM and comes back. *)
Definition simple_value (x : ComValue) : Prop :=
  match x with
  | VBool _ => True
  | VNum (Some n) => (-9223372036854775808 <= n < 9223372036854775808)%Z
  | _ => False
  end.

Lemma simple_round_trip unit_at addr x : simple_value x ->
  exists v, suToVariant addr x = inl v /\ variantToSu unit_at v = Ret (inl x).
Proof.
  destruct x as [b|[n|]| | |]; simpl; try done.
  - intros _. destruct b; by eexists.
  - intros Hn. eexists. split; [done|].
    destruct (Z.leb_spec (-2147483648) n), (Z.leb_spec n 2147483647); cbn [andb].
    + change (variantToSu unit_at (Variant VT_I4 n)) with (@Ret _ Ans _ (@inl ComValue panic (VNum (Some (i32 n))))).
      by rewrite i32_id by lia.
    + change (variantToSu unit_at (Variant VT_I8 n)) with (@Ret _ Ans _ (@inl ComValue panic (VNum (Some (i64 n))))).
      by rewrite i64_id by lia.
    + change (variantToSu unit_at (Variant VT_I8 n)) with (@Ret _ Ans _ (@inl ComValue panic (VNum (Some (i64 n))))).
      by rewrite i64_id by lia.
    + lia.
Qed.

(** The types of numbers: the values of each, and how many patterns of bits it has.  Unsigned
    numbers of 64 bits only as far as they are also signed ones. *)
Definition number_types : list (Z * (Z * Z * Z)) := [
  (VT_I2, (-32768, 32768, 65536)); (VT_I4, (-2147483648, 2147483648, 4294967296));
  (VT_I8, (-9223372036854775808, 9223372036854775808, 18446744073709551616));
  (VT_UI2, (0, 65536, 65536)); (VT_UI4, (0, 4294967296, 4294967296));
  (VT_UI8, (0, 9223372036854775808, 18446744073709551616))]%Z.

(** What a result owns. *)
Definition variant_refs (v : VARIANT) : list Z :=
  if ((vt v =? VT_DISPATCH)%Z || (vt v =? VT_UNKNOWN)%Z) && c_true (val v) then [val v] else [].

Definition variant_blocks (v : VARIANT) : list Z := if (vt v =? VT_BSTR)%Z && c_true (val v) then [val v] else [].

Definition value_refs (x : ComValue) : list Z :=
  match x with VCom o => if c_true (co_ptr o) then [co_ptr o] else [] | _ => [] end.

Definition supported (t : Z) : bool :=
  bool_decide (t ∈ [VT_EMPTY; VT_NULL; VT_BOOL; VT_I2; VT_I4; VT_I8; VT_UI2; VT_UI4; VT_UI8; VT_BSTR; VT_DISPATCH; VT_UNKNOWN]).

Definition result_ok (v : VARIANT) (bor R B : list Z) (r : panics ComValue) (tr : list ev) : Prop :=
  match r with
  | inl x => Acct bor tr (value_refs x ++ R) B /\ supported (vt v) = true
  | inr e => e = CannotConvertResult /\ Acct bor tr (variant_refs v ++ R) (variant_blocks v ++ B) /\ supported (vt v) = false
  end.

Lemma Acct_variant_clear bor tr R B B' p r : Acct bor tr R B -> p <> 0%Z -> B ≡ₚ p :: B' ->
  Acct bor (tr ++ [Ev (VariantClear VT_BSTR p) r]) R B'.
Proof.
  intros H Hp HB. eapply Acct_snoc; [exact H|done|..]; intros q; cbn -[occ]; [lia|].
  rewrite HB. unfold c_true. rewrite (proj2 (Z.eqb_neq p 0)) by done. unfold occ, sumZ. simpl. case_match; lia.
Qed.

Lemma Acct_variant_clear_null bor tr R B r : Acct bor tr R B -> Acct bor (tr ++ [Ev (VariantClear VT_BSTR 0) r]) R B.
Proof. intros H. eapply Acct_snoc; [exact H|done|..]; intros q; cbn -[occ]; lia. Qed.

Lemma bstr_ok C unit_at bor R B tr s : Acct bor tr R (variant_blocks (Variant VT_BSTR s) ++ B) ->
  every_run C (variantToSu unit_at (Variant VT_BSTR s)) tr (result_ok (Variant VT_BSTR s) bor R B).
Proof.
  intros HA. cbn. unfold bstrToString, variant_blocks in *. cbn in HA |- *.
  destruct (Z.eqb_spec s 0) as [->|Hs]; cbn.
  - intros [] _. split; [|done]. by apply Acct_variant_clear_null.
  - intros n _ [] _. split; [|done]. rewrite (proj2 (c_true_spec s)) in HA by done. cbn in HA.
    eapply Acct_variant_clear; [|done|reflexivity]. by apply (Acct_other _ _ _ _ HA).
Qed.

Lemma unknown_ok C unit_at bor R B tr p :
  Acct bor tr (variant_refs (Variant VT_UNKNOWN p) ++ R) B ->
  every_run C (variantToSu unit_at (Variant VT_UNKNOWN p)) tr (result_ok (Variant VT_UNKNOWN p) bor R B).
Proof.
  intros HA. unfold variant_refs in HA. cbn in HA |- *. unfold queryIDispatch. destruct (Z.eqb_spec p 0) as [->|Hp]; cbn.
  { by split. }
  rewrite (proj2 (c_true_spec p)) in HA by done. cbn in HA. intros [hr q] _.
  acct_by HA (Acct_query _ _ _ _ HA p IID_IDispatch (hr, q) ltac:(acct_mem)). cbn [fst snd] in HA.
  rewrite FAILED_negb. destruct (SUCCEEDED hr); cbn.
  - destruct (Z.eqb_spec q 0) as [->|Hq]; cbn.
    + split; [|done]. cbn in HA. by rewrite (proj2 (c_true_spec p)).
    + rewrite (proj2 (c_true_spec q)) in HA by done. cbn in HA. unfold release. rewrite (proj2 (c_true_spec p)) by done. cbn.
      intros r _. split; [|done]. cbn. rewrite (proj2 (c_true_spec q)) by done. cbn.
      eapply (Acct_release _ _ _ _ HA). apply perm_swap.
  - split; [|done]. cbn. by rewrite (proj2 (c_true_spec p)).
Qed.

Lemma variantToSu_ok C unit_at bor R B tr v :
  Acct bor tr (variant_refs v ++ R) (variant_blocks v ++ B) ->
  every_run C (variantToSu unit_at v) tr (result_ok v bor R B).
Proof.
  destruct v as [t x]. intros HA.
  destruct (decide (t = VT_BSTR)) as [->|H1]; [by apply bstr_ok|].
  destruct (decide (t = VT_UNKNOWN)) as [->|H2]; [by apply unknown_ok|].
  assert (HB : Acct bor tr (variant_refs (Variant t x) ++ R) B).
  { unfold variant_blocks in HA. cbn [vt val] in HA. by rewrite (proj2 (Z.eqb_neq t VT_BSTR)) in HA. }
  destruct (decide (t = VT_DISPATCH)) as [->|H3].
  { split; [exact HB|done]. }
  assert (HC : Acct bor tr R B).
  { unfold variant_refs in HB. cbn [vt val] in HB.
    by rewrite (proj2 (Z.eqb_neq t VT_DISPATCH)), (proj2 (Z.eqb_neq t VT_UNKNOWN)) in HB. }
  unfold variantToSu. cbn [vt val]. rewrite (proj2 (Z.eqb_neq _ _) H1), (proj2 (Z.eqb_neq _ _) H2), (proj2 (Z.eqb_neq _ _) H3).
  repeat lazymatch goal with
  | |- every_run _ (if (t =? ?c)%Z || (t =? ?d)%Z then _ else _) _ _ =>
      destruct (Z.eqb_spec t c) as [->|]; [by split|]; destruct (Z.eqb_spec t d) as [->|]; [by split|]; cbn [orb]
  | |- every_run _ (if (t =? ?c)%Z then _ else _) _ _ => destruct (Z.eqb_spec t c) as [->|]; [by split|]
  end.
  split; [done|]. split; [exact HA|]. apply bool_decide_eq_false_2. rewrite !elem_of_cons, elem_of_nil. tauto.
Qed.

(** ** Lemmas: results *)

Lemma same_wrap x n w h : (x mod w = n mod w)%Z -> ((x + h) mod w = (n + h) mod w)%Z.
Proof. intros E. by rewrite <- (Zplus_mod_idemp_l x), E, Zplus_mod_idemp_l. Qed.

Lemma number_result unit_at t lo hi w n x : (t, (lo, hi, w)) ∈ number_types -> (lo <= n < hi)%Z -> (x mod w = n mod w)%Z ->
  variantToSu unit_at (Variant t x) = Ret (inl (VNum (Some n))).
Proof.
  unfold number_types. rewrite !elem_of_cons, elem_of_nil. intros Ht Hn Hx.
  assert (H : exists f, variantToSu unit_at (Variant t x) = Ret (inl (VNum (Some (f x)))) /\ f x = f n /\ f n = n).
  { destruct Ht as [[= -> -> -> ->]|[[= -> -> -> ->]|[[= -> -> -> ->]|[[= -> -> -> ->]|[[= -> -> -> ->]|[[= -> -> -> ->]|[]]]]]]].
    - exists i16. split_and!; [done|unfold i16; f_equal; by apply same_wrap|apply i16_id; lia].
    - exists i32. split_and!; [done|unfold i32; f_equal; by apply same_wrap|apply i32_id; lia].
    - exists i64. split_and!; [done|unfold i64; f_equal; by apply same_wrap|apply i64_id; lia].
    - exists u16. split_and!; [done|exact Hx|apply Z.mod_small; lia].
    - exists u32. split_and!; [done|exact Hx|apply Z.mod_small; lia].
    - exists i64. split_and!; [done|unfold i64; f_equal; by apply same_wrap|apply i64_id; lia]. }
  destruct H as (f & -> & -> & ->). done.
Qed.

Lemma large_unsigned unit_at n : (9223372036854775808 <= n < 18446744073709551616)%Z ->
  variantToSu unit_at (Variant VT_UI8 n) = Ret (inl (VNum (Some (n - 18446744073709551616)%Z))).
Proof.
  intros Hn. change (@Ret _ Ans _ (@inl ComValue panic (VNum (Some (i64 n)))) = Ret (inl (VNum (Some (n - 18446744073709551616)%Z)))).
  do 4 f_equal. transitivity (i64 (n - 18446744073709551616)); [|apply i64_id; lia].
  unfold i64. f_equal. apply same_wrap. rewrite <- (Z_mod_plus_full (n - 18446744073709551616) 1 18446744073709551616). f_equal. lia.
Qed.

Lemma other_results unit_at x :
  variantToSu unit_at (Variant VT_BOOL x) = Ret (inl (VBool (bool_decide (x <> 0%Z)))) /\
  variantToSu unit_at (Variant VT_EMPTY x) = Ret (inl (VNum (Some 0%Z))) /\
  variantToSu unit_at (Variant VT_NULL x) = Ret (inl (VNum (Some 0%Z))) /\
  variantToSu unit_at (Variant VT_DISPATCH x) = Ret (inl (VCom (SuCOMObject x true))) /\
  forall t, supported t = false -> variantToSu unit_at (Variant t x) = Ret (inr CannotConvertResult).
Proof.
  split_and!; try done.
  - change (@Ret _ Ans _ (@inl ComValue panic (VBool (negb (x =? 0)%Z))) = Ret (inl (VBool (bool_decide (x <> 0%Z))))).
    do 3 f_equal. by destruct (Z.eqb_spec x 0); case_bool_decide.
  - intros t. unfold supported. rewrite bool_decide_eq_false, !not_elem_of_cons.
    intros (H1 & H2 & H3 & H4 & H5 & H6 & H7 & H8 & H9 & H10 & H11 & H12 & _). unfold variantToSu. cbn [vt val].
    by rewrite !(proj2 (Z.eqb_neq _ _)).
Qed.

(** ** Lemmas: calls *)

(** The call was made, with result code [hr]. *)
Definition invoked (idisp flags hr : Z) (tr : list ev) : Prop :=
  exists d, Ev (Invoke idisp "Invoke" [AInt d; AInt (u16 flags)]) hr ∈ tr.

(** The error code [hr] came from somewhere: a null object, the lookup of the name, the call. *)
Definition failed_with (idisp flags hr : Z) (tr : list ev) : Prop :=
  (idisp = 0 /\ hr = -1 /\ tr = [])%Z \/
  (exists d, Ev (GetValue idisp "GetIDsOfNames" [APtr wbuf; AInt 1]) (hr, d) ∈ tr) \/ invoked idisp flags hr tr.

(** What a call comes to. *)
Definition outcome_of (idisp : Z) (name : Name) (flags : Z) (tr : list ev) (r : panics (option ComValue)) : Prop :=
  match r with
  | inr (FailedCall what n code) => what = flagnames flags /\ n = name.1 /\
      exists hr, (hr < 0)%Z /\ code = u32 hr /\ failed_with idisp flags hr tr
  | inr CannotConvertResult => flags <> DISPATCH_PROPERTYPUT /\ exists hr, (0 <= hr)%Z /\ invoked idisp flags hr tr
  | inr _ => tr = []
  | inl o => (o = None <-> flags = DISPATCH_PROPERTYPUT) /\ exists hr, (0 <= hr)%Z /\ invoked idisp flags hr tr
  end.

Lemma suToVariant_panics addr x e : suToVariant addr x = inr e -> e = NotAPointer \/ e = CannotConvert.
Proof. unfold suToVariant. destruct x as [[]|[n|]|[|]| |]; cbn; intros [= <-]; auto. Qed.

Lemma convert_panics l e : convert_reversed l = inr e -> e = NotAPointer \/ e = CannotConvert.
Proof.
  induction l as [|[addr x] l IH]; [done|]. cbn [convert_reversed].
  destruct (suToVariant addr x) as [v|e'] eqn:E; [|intros [= <-]; by eapply suToVariant_panics].
  destruct (convert_reversed l); [done|]. intros [= <-]. by apply IH.
Qed.

(** A result comes with what it owns. *)
Lemma Acct_result bor tr R B t v : Acct bor tr R B ->
  Acct bor (tr ++ [Ev ReadResult (t, v)]) (variant_refs (Variant t v) ++ R) (variant_blocks (Variant t v) ++ B).
Proof.
  intros HA. eapply Acct_snoc; [exact HA|done|..]; intros p; unfold variant_refs, variant_blocks; cbn -[occ];
    unfold VT_DISPATCH, VT_UNKNOWN, VT_BSTR, occ; rewrite sumZ_app; unfold sumZ;
    [destruct ((t =? 9)%Z || (t =? 13)%Z)|destruct (t =? 8)%Z]; destruct (c_true v); simpl; try case_match; lia.
Qed.

(** A result that cannot be converted owns nothing that is counted. *)
Lemma unsupported_owns v : supported (vt v) = false -> variant_refs v = [] /\ variant_blocks v = [].
Proof.
  unfold supported. rewrite bool_decide_eq_false, !not_elem_of_cons. intros H. unfold variant_refs, variant_blocks.
  assert ((vt v =? VT_DISPATCH)%Z = false) as -> by (apply Z.eqb_neq; tauto).
  assert ((vt v =? VT_UNKNOWN)%Z = false) as -> by (apply Z.eqb_neq; tauto).
  by assert ((vt v =? VT_BSTR)%Z = false) as -> by (apply Z.eqb_neq; tauto).
Qed.

(** What a use of an object gives to its caller. *)
Definition answer_refs (r : panics (option ComValue)) : list Z :=
  match r with inl (Some x) => value_refs x | _ => [] end.

Lemma go_invoke_ok unit_at idisp name flags args :
  every_run any_answer (go_invoke unit_at idisp name flags args) [] (fun r tr =>
    Acct [idisp] tr (answer_refs r) [] /\ outcome_of idisp name flags tr r).
Proof.
  unfold go_invoke. destruct (convertArgs args) as [vs|e] eqn:Ec.
  2: { apply convert_panics in Ec as [-> | ->]; (split; [apply Acct_nil|done]). }
  apply every_run_bind. eapply every_run_mono; [|apply invoke_ok]. cbn [rgvarg disp_params].
  intros [hr vs'] tr (HA & _ & Hwhy).
  assert (Hf : failed_with idisp flags hr tr) by
    (destruct Hwhy as [(?&?&?&?)|[(d & _ & _ & H)|H]]; [by left|right; left; by exists d|by right; right]).
  destruct (Z.ltb_spec hr 0) as [Hlt|Hge]; [split; [done|]; split_and!; [done..|by exists hr]|].
  assert (Hi : invoked idisp flags hr tr).
  { destruct Hwhy as [(?&?&?&?)|[(d & E & _)|H]]; [lia| |exact H]. apply Z.ltb_lt in E. lia. }
  destruct (Z.eqb_spec flags DISPATCH_PROPERTYPUT) as [->|Hp]; [split; [done|]; split; [done|by exists hr]|].
  cbn -[variantToSu]. intros [t v] _. apply (Acct_result _ _ _ _ t v) in HA. apply every_run_bind.
  eapply every_run_mono; [|apply every_run_history, (variantToSu_ok _ _ [idisp] [] []); exact HA].
  intros r tr' [Hr [tr2 ->]]. assert (Hi' : invoked idisp flags hr ((tr ++ [Ev ReadResult (t, v)]) ++ tr2)).
  { destruct Hi as [d Hd]. exists d. rewrite !elem_of_app. by do 2 left. }
  destruct r as [x|e]; cbn in *.
  - destruct Hr as [Hr _]. rewrite app_nil_r in Hr. split; [done|]. split; [done|by exists hr].
  - destruct Hr as (-> & Hr & Hs). destruct (unsupported_owns (Variant t v) Hs) as [-> ->] in Hr.
    split; [done|]. split; [done|by exists hr].
Qed.

(** ** The life of an object *)

Inductive com_use :=
| UseGet (mem : ComValue) (addr : Z)
| UsePut (mem : ComValue) (addr : Z) (x : Z * ComValue)
| UseCall (name : Name) (simple : bool) (args : list (Z * ComValue)).

Definition use_object (unit_at : Z -> nat -> Z) (o : suCOMObject) (u : com_use) : act (panics (option ComValue)) :=
  match u with
  | UseGet mem addr => com_Get unit_at o mem addr
  | UsePut mem addr x => com_Put unit_at o mem addr x
  | UseCall name simple args => com_call unit_at o name simple args
  end.

Fixpoint use_all (unit_at : Z -> nat -> Z) (o : suCOMObject) (l : list com_use) : act (list (panics (option ComValue))) :=
  match l with
  | [] => Ret []
  | u :: l => r ← use_object unit_at o u; rs ← use_all unit_at o l; Ret (r :: rs)
  end.

(** An object is made from [arg], used, and released at the end.  A panic is Suneido's to
    catch; it goes on. *)
Definition com_life (unit_at : Z -> nat -> Z) (arg : ComValue) (progid : Z) (l : list com_use)
    : act (list (panics (option ComValue))) :=
  o ← COMobject arg progid;
  match o with
  | inl (VCom o) => rs ← use_all unit_at o l; _ ← com_Release o; Ret rs
  | _ => Ret []
  end.

Lemma use_object_ok unit_at o u :
  every_run any_answer (use_object unit_at o u) [] (fun r tr => Acct [co_ptr o] tr (answer_refs r) []).
Proof.
  assert (Hnil : Acct [co_ptr o] [] [] []) by apply Acct_nil.
  destruct u as [mem addr|mem addr x|name simple args]; cbn [use_object] in *;
    unfold com_Get, com_Put, com_call; destruct (co_idisp o); cbn [negb]; [|exact Hnil| |exact Hnil| |exact Hnil].
  1, 2: destruct (ToStr mem) as [s|]; [|exact Hnil].
  3: destruct simple; cbn [negb]; [|exact Hnil].
  all: eapply every_run_mono; [|by apply go_invoke_ok]; by intros r tr [H _].
Qed.

Lemma use_all_ok unit_at o l : forall tr F, Acct [] tr F [] -> co_ptr o ∈ F ->
  every_run any_answer (use_all unit_at o l) tr (fun rs tr' =>
    length rs = length l /\ Acct [] tr' ((rs ≫= answer_refs) ++ F) []).
Proof.
  induction l as [|u l IH]; intros tr F HA Ho; cbn [use_all]; [by split|]. apply every_run_bind.
  eapply every_run_mono; [|apply every_run_shift; [done|by apply use_object_ok]].
  intros r tr' (tr2 & -> & HA2). apply every_run_bind.
  assert (HA3 : Acct [] (tr ++ tr2) (answer_refs r ++ F) []).
  { apply (Acct_frame [] [co_ptr o] tr tr2 F [] _ [] HA HA2). intros p ->%list_elem_of_singleton. by right. }
  eapply every_run_mono; [|apply (IH _ _ HA3); apply elem_of_app; by right].
  intros rs tr3 [Hl HA4]. split; [cbn; by rewrite Hl|]. rewrite bind_cons. eapply Acct_proper; [|reflexivity|exact HA4].
  rewrite <- (assoc_L (++)), !(assoc_L (++)). f_equiv. apply Permutation_app_comm.
Qed.

(** What [COMobject] makes of its argument; a number is a pointer that is handed over. *)
Definition given (arg : ComValue) : list Z :=
  match ToInt arg with Some n => if c_true (u64 n) then [u64 n] else [] | None => [] end.

Lemma COMobject_ok arg progid tr : Acct [] tr (given arg) [] ->
  every_run com_contract (COMobject arg progid) tr (fun r tr' =>
    Acct [] tr' (match r with inl x => value_refs x | inr _ => [] end) [] /\
    match r with
    | inl (VCom o) => co_ptr o <> 0%Z \/ co_idisp o = false
    | inl x => x = VBool false
    | inr e => e = WrongUse "COMobject requires integer or string"
    end).
Proof.
  unfold COMobject, given. intros HA. destruct (ToInt arg) as [n|].
  - unfold queryIDispatch. destruct (Z.eqb_spec (u64 n) 0) as [E|Hp].
    { rewrite E in *. cbn. by split; [|right]. }
    rewrite (proj2 (c_true_spec (u64 n))) in HA by done. cbn -[u64]. intros [hr q] Hq.
    acct_by HA (Acct_query _ _ _ _ HA (u64 n) IID_IDispatch (hr, q) ltac:(acct_mem)). cbn [fst snd] in HA.
    rewrite FAILED_negb. destruct (SUCCEEDED hr) eqn:Es; cbn -[u64].
    + destruct Hq as [[Ehr Hq]|[Hlt Eq]]; [|exfalso; simpl in Hlt; unfold SUCCEEDED in Es; apply Z.leb_le in Es; lia].
      simpl in Ehr, Hq. subst hr.
      rewrite (proj2 (Z.eqb_neq q 0) Hq), (proj2 (c_true_spec q) Hq) in *. cbn -[u64] in *.
      unfold release. rewrite (proj2 (c_true_spec (u64 n)) Hp). cbn -[u64]. intros r _. split; [|by left].
      rewrite (proj2 (c_true_spec q) Hq). eapply (Acct_release _ _ _ _ HA). apply perm_swap.
    + rewrite (proj2 (c_true_spec (u64 n)) Hp). split; [exact HA|by left].
  - destruct (ToStr arg); [|by split]. apply every_run_bind.
    eapply every_run_mono; [|apply every_run_shift; [|apply createInstance_ok]]; [|by intros tr1 tr2 a r].
    intros p tr' (tr2 & -> & HA2). assert (HA3 : Acct [] (tr ++ tr2) (if c_true p then [p] else []) []).
    { rewrite <- (app_nil_r (if c_true p then [p] else [])).
      apply (Acct_frame [] [] tr tr2 [] [] _ [] HA HA2). by intros o ?%elem_of_nil. }
    destruct (Z.eqb_spec p 0) as [->|Hp]; [by split|]. split; [exact HA3|]. by left.
Qed.

(** Every use of an object without automation panics before any call. *)
Lemma use_all_null unit_at o l : co_idisp o = false ->
  forall tr, every_run any_answer (use_all unit_at o l) tr (fun rs tr' => tr' = tr /\ rs ≫= answer_refs = []).
Proof.
  intros Hi tr. induction l as [|u l IH]; [by split|]. cbn [use_all]. apply every_run_bind.
  assert (Hu : exists e, use_object unit_at o u = Ret (inr e)).
  { destruct u; cbn [use_object]; unfold com_Get, com_Put, com_call; rewrite Hi; by eexists. }
  destruct Hu as [e ->]. cbn [every_run]. apply every_run_bind. eapply every_run_mono; [|apply IH].
  by intros rs tr' [-> Hrs].
Qed.

Lemma com_life_ok unit_at arg progid l tr : Acct [] tr (given arg) [] ->
  every_run com_contract (com_life unit_at arg progid l) tr (fun rs tr' => Acct [] tr' (rs ≫= answer_refs) []).
Proof.
  intros HA. unfold com_life. apply every_run_bind. eapply every_run_mono; [|by apply COMobject_ok].
  clear HA. intros r tr1 [HA Hr]. destruct r as [[b|n|s|o|]|e]; try discriminate; try exact HA.
  assert (Ho : forall C rs tr', Acct [] tr' ((rs ≫= answer_refs) ++ value_refs (VCom o)) [] ->
    every_run C (_ ← com_Release o; Ret rs) tr' (fun rs tr' => Acct [] tr' (rs ≫= answer_refs) [])).
  { intros C rs tr' HA'. unfold com_Release, release. cbn in HA'. destruct (c_true (co_ptr o)); [|by rewrite app_nil_r in HA'].
    intros r _. eapply (Acct_release _ _ _ _ HA'). by rewrite (comm (++)). }
  apply every_run_bind. apply every_run_contract with (C := any_answer); [done|].
  eapply every_run_mono with (Q1 := fun rs tr' => Acct [] tr' ((rs ≫= answer_refs) ++ value_refs (VCom o)) []).
  { intros rs tr' HA'. by apply Ho. }
  destruct (decide (co_ptr o = 0%Z)) as [E|Hp].
  - destruct Hr as [?|Hi]; [done|]. eapply every_run_mono; [|by apply (use_all_null unit_at o l)].
    intros rs tr' [-> ->]. exact HA.
  - cbn [value_refs] in *. rewrite (proj2 (c_true_spec _) Hp) in *.
    eapply every_run_mono; [|apply use_all_ok; [exact HA|by left]]. by intros rs tr' [_ HA'].
Qed.

(** ** Properties *)

(** C37: What values become on the way to COM and back.  A boolean or a number of 64 bits comes
    back as it was.  A number in any of COM's types arrives as it is, whatever the unused bits of
    the value hold, but for unsigned 64-bit numbers from 2^63 on, which arrive negative; the empty
    variants arrive as 0, an automation interface as the object around it, and a type that is not
    supported panics.  A COM object cannot be passed at all.  A string goes as its bytes and comes
    from the text it stands for in UTF-16, each code point of it in UTF-8 (ASCII as it is).  The
    arguments of a call arrive in the reverse order, as automation wants them. *)
Theorem variant_round_trip unit_at addr :
  (forall x, simple_value x -> exists v, suToVariant addr x = inl v /\ variantToSu unit_at v = Ret (inl x)) /\
  (forall t lo hi w n x, (t, (lo, hi, w)) ∈ number_types -> (lo <= n < hi)%Z -> (x mod w = n mod w)%Z ->
     variantToSu unit_at (Variant t x) = Ret (inl (VNum (Some n)))) /\
  (forall n, (9223372036854775808 <= n < 18446744073709551616)%Z ->
     variantToSu unit_at (Variant VT_UI8 n) = Ret (inl (VNum (Some (n - 18446744073709551616)%Z)))) /\
  (forall x, variantToSu unit_at (Variant VT_BOOL x) = Ret (inl (VBool (bool_decide (x <> 0%Z)))) /\
     variantToSu unit_at (Variant VT_EMPTY x) = Ret (inl (VNum (Some 0%Z))) /\
     variantToSu unit_at (Variant VT_NULL x) = Ret (inl (VNum (Some 0%Z))) /\
     variantToSu unit_at (Variant VT_DISPATCH x) = Ret (inl (VCom (SuCOMObject x true))) /\
     forall t, supported t = false -> variantToSu unit_at (Variant t x) = Ret (inr CannotConvertResult)) /\
  (forall o, suToVariant addr (VCom o) = inr NotAPointer) /\
  (forall b s, suToVariant addr (VStr (b :: s)) = inl (Variant VT_BSTR addr)) /\
  (forall bs cs, bs <> 0%Z -> Forall (fun c => scalar c = true) cs ->
     (forall i u, utf16_encode cs !! i = Some u -> unit_at bs i = u) ->
     every_run (fun _ a => match a return Ans a -> Prop with
                           | SysStringLen p => fun n => p = bs -> n = Z.of_nat (length (utf16_encode cs))
                           | _ => fun _ => True end)
       (variantToSu unit_at (Variant VT_BSTR bs)) [] (fun r _ => r = inl (VStr (runes_string cs)))) /\
  (forall cs, Forall (fun c => 0 <= c < 128)%Z cs -> runes_string cs = cs) /\
  (forall args vs, convertArgs args = inl vs ->
     Forall2 (fun x v => suToVariant x.1 x.2 = inl v) args (reverse vs)).
Proof.
  split_and!; [intros x; apply simple_round_trip|apply number_result|apply large_unsigned|apply other_results|done|done|
    |apply runes_ascii|apply convertArgs_ok].
  intros bs cs Hbs Hcs Hu. cbn. unfold bstrToString. cbn [val]. rewrite (proj2 (Z.eqb_neq bs 0)) by done. cbn.
  intros n ->; [|done]. intros [] _. do 2 f_equal. rewrite Nat2Z.id.
  replace (unit_at bs <$> seq 0 (length (utf16_encode cs))) with (utf16_encode cs); [by rewrite utf16_decode_encode|].
  apply list_eq. intros i. rewrite list_lookup_fmap. destruct (utf16_encode cs !! i) as [u|] eqn:Ei.
  - rewrite lookup_seq_lt by (by eapply lookup_lt_Some). simpl. by rewrite (Hu i u Ei).
  - rewrite lookup_seq_ge; [done|]. by apply lookup_ge_None_1.
Qed.

(** What can be passed to COM: booleans, numbers without fraction and strings, the
    empty string as the number 0.  A COM object never can: the conversion pins its pointer,
    which is a number for Go, and that panics. *)
Theorem argument_panics addr x :
  match suToVariant addr x with
  | inr e => (e = NotAPointer /\ exists o, x = VCom o) \/ (e = CannotConvert /\ (x = VOther \/ x = VNum None))
  | inl v =>
      (exists b, x = VBool b /\ v = Variant VT_BOOL (if b then -1 else 0)%Z) \/
      (exists n, ToInt x = Some n /\ v = Variant (if bool_decide (i32 n = n) then VT_I4 else VT_I8) n) \/
      (exists b s, x = VStr (b :: s) /\ v = Variant VT_BSTR addr)
  end.
Proof.
  assert (H32 : forall n, ((-2147483648 <=? n)%Z && (n <=? 2147483647)%Z) = bool_decide (i32 n = n)).
  { intros n. apply eq_true_iff_eq. rewrite andb_true_iff, !Z.leb_le, bool_decide_eq_true. split.
    - intros. apply i32_id. lia.
    - intros <-. pose proof (i32_range n). lia. }
  destruct x as [[]|[n|]|[|b s]|o|]; cbn; rewrite ?H32; eauto 10.
Qed.


Definition a_com_life : act (list (panics (option ComValue))) :=
  com_life (fun _ _ => 0%Z) (VStr [65]%Z) 16
    [UseCall ([70]%Z, 17%Z) true [(18, VStr [66]); (0, VNum (Some 5))]%Z; UsePut (VStr [71]%Z) 19 (20, VOther)%Z;
     UseGet (VStr [71]%Z) 21].


(** In it the call and the get each return an object, the put panics over its argument. *)
Example a_com_life_objects :
  result good_env a_com_life 100%Z =
    [inl (Some (VCom (SuCOMObject 400 true))); inr CannotConvert; inl (Some (VCom (SuCOMObject 500 true)))].
Proof. vm_compute. reflexivity. Qed.

(** A method call, a get or a put panics with the name and the error code exactly
    when the call itself gives one; a panic over an argument comes before anything was
    called; only a put has no result. *)
Theorem com_calls_answer unit_at idisp name flags args :
  every_run any_answer (go_invoke unit_at idisp name flags args) [] (fun r tr =>
    Acct [idisp] tr (answer_refs r) [] /\ outcome_of idisp name flags tr r).
Proof. by apply go_invoke_ok. Qed.

(** Numbers of 64 bits without sign come back negative when they are large. *)
Example large_unsigned_negative unit_at : variantToSu unit_at (Variant VT_UI8 (-1)) = Ret (inl (VNum (Some (-1)%Z))).
Proof. reflexivity. Qed.

(** A text comes back in UTF-8, but a string goes as bytes of the ANSI code page. *)
Example result_bytes : runes_string (utf16_decode [0x41; 0xE9; 0x20AC; 0xD83D; 0xDE00; 0xD83D]%Z) =
  [0x41; 0xC3; 0xA9; 0xE2; 0x82; 0xAC; 0xF0; 0x9F; 0x98; 0x80; 0xEF; 0xBF; 0xBD]%Z.
Proof. reflexivity. Qed.
