(* ===== verification/RefCount.v ===== *)
(** * Reference-counted COM objects: the interface and what its clients rely on

    The bridge hands objects of its own to Windows: the [suneido:] protocol and
    its factory (sunapp.cpp), the WebView2 event handlers and the two option
    objects (webview2/My*.h).  Each implements [IUnknown] by hand around a counter.
    [ComObject] collects the three operations as a class implements them;
    [ComLaws] is the contract of [IUnknown]; [client_lifecycle] is proved once
    against the contract and holds of every class that satisfies it. *)

From S2P Require Import Prelude Prog Win32.

(** [InterlockedIncrement] and [InterlockedDecrement] on a [LONG]. *)
Definition InterlockedIncrement (z : Z) : Z := i32 (z + 1).
Definition InterlockedDecrement (z : Z) : Z := i32 (z - 1).

(** The overloads on a [ULONG]. *)
Definition InterlockedIncrementU (z : Z) : Z := u32 (z + 1).
Definition InterlockedDecrementU (z : Z) : Z := u32 (z - 1).

#[global] Arguments InterlockedIncrement : simpl never.
#[global] Arguments InterlockedDecrement : simpl never.
#[global] Arguments InterlockedIncrementU : simpl never.
#[global] Arguments InterlockedDecrementU : simpl never.
#[global] Arguments u32 : simpl never.
#[global] Arguments i32 : simpl never.

(** [St] is the object, [P] its fields without the counter, and [W] what a
    destructor can change outside the object. *)
Class ComObject (St P W : Type) := {
  refs : St -> Z;
  data : St -> P;
  com_AddRef : St -> Z * St;
  com_Release : St -> W -> act (Z * option St * W);  (** [None]: deleted *)
  com_QueryInterface : St -> guid -> Z * bool * St;  (** whether [*ppv] is the object *)
  com_destroy : P -> W -> act W }.                   (** the destructor *)

(** The counts for which the counter does not overflow. *)
Definition max_refs : Z := 2147483647.

Class ComLaws (St P W : Type) `{ComObject St P W} := {
  supports : guid -> bool;
  supports_IUnknown : supports IID_IUnknown = true;
  addref_law s : (0 < refs s < max_refs)%Z ->
    (com_AddRef s).1 = (refs s + 1)%Z /\ refs (com_AddRef s).2 = (refs s + 1)%Z /\
    data (com_AddRef s).2 = data s;
  release_law s w : (1 < refs s <= max_refs)%Z ->
    exists s', com_Release s w = Ret ((refs s - 1)%Z, Some s', w) /\
      refs s' = (refs s - 1)%Z /\ data s' = data s;
  release_last_law s w : refs s = 1%Z ->
    com_Release s w = (w' ← com_destroy (data s) w; Ret (0%Z, None, w'));
  query_law s iid :
    com_QueryInterface s iid =
      if supports iid then (S_OK, true, (com_AddRef s).2) else (E_NOINTERFACE, false, s) }.

(** ** A client *)

Inductive client_op := CAddRef | CRelease | CQuery (iid : guid).

Section client.
Context {St P W : Type} `{ComObject St P W}.

(** What a client does with the object it got; [None] when it uses the object
    after it was deleted.  The list is the results the client saw. *)
Fixpoint client (ops : list client_op) (o : option St) (w : W) (acc : list Z)
    : act (option (list Z * option St * W)) :=
  match ops, o with
  | [], _ => Ret (Some (acc, o, w))
  | _, None => Ret None
  | CAddRef :: ops, Some s =>
      client ops (Some (com_AddRef s).2) w (acc ++ [(com_AddRef s).1])
  | CQuery iid :: ops, Some s =>
      client ops (Some (com_QueryInterface s iid).2) w (acc ++ [(com_QueryInterface s iid).1.1])
  | CRelease :: ops, Some s =>
      '(n, o, w) ← com_Release s w; client ops o w (acc ++ [n])
  end.
End client.

(** The references the client holds after [ops] when it held [n] before, the
    rules it must follow, and the results it is promised. *)
Section rules.
Context (sup : guid -> bool).

Definition op_refs (n : Z) (op : client_op) : Z :=
  match op with
  | CAddRef => n + 1
  | CRelease => n - 1
  | CQuery iid => if sup iid then n + 1 else n
  end%Z.

Definition op_result (n : Z) (op : client_op) : Z :=
  match op with
  | CAddRef => n + 1
  | CRelease => n - 1
  | CQuery iid => if sup iid then S_OK else E_NOINTERFACE
  end%Z.

Fixpoint balance (n : Z) (ops : list client_op) : Z :=
  match ops with [] => n | op :: ops => balance (op_refs n op) ops end.

Fixpoint promised (n : Z) (ops : list client_op) : list Z :=
  match ops with [] => [] | op :: ops => op_result n op :: promised (op_refs n op) ops end.

(** A client only uses an object it holds a reference on. *)
Fixpoint follows_rules (n : Z) (ops : list client_op) : bool :=
  match ops with
  | [] => true
  | op :: ops => (0 <? n)%Z && (n <? max_refs)%Z && follows_rules (op_refs n op) ops
  end.
End rules.

Section lifecycle.
Context {St P W : Type} `{L : ComLaws St P W}.
Context {E : Type} (h : E -> forall a, Ans a * E).

(** The object lives exactly as long as the client holds references, its counter
    is their number, every call gives the promised result, the data is never
    touched, and the destructor runs once, at the last [Release]. *)
Lemma client_lifecycle ops s w acc e :
  follows_rules supports (refs s) ops = true -> (0 < refs s <= max_refs)%Z ->
  let n := balance supports (refs s) ops in
  let results := acc ++ promised supports (refs s) ops in
  if (n =? 0)%Z then
    run h (client ops (Some s) w acc) e =
      let '(w', e', tr) := run h (com_destroy (data s) w) e in
      (Some (results, None, w'), e', tr)
  else
    exists s', run h (client ops (Some s) w acc) e = (Some (results, Some s', w), e, []) /\
      refs s' = n /\ data s' = data s /\ (0 < n <= max_refs)%Z.
Proof.
  revert s acc. induction ops as [|op ops IH]; intros s acc Hr Hn; simpl in *.
  { destruct (Z.eqb_spec (refs s) 0); [lia|]. exists s. by rewrite app_nil_r. }
  apply andb_prop in Hr as [[_ Hlt%Z.ltb_lt]%andb_prop Hr].
  assert (Hadd : forall s', refs s' = (refs s + 1)%Z -> (0 < refs s' <= max_refs)%Z) by lia.
  destruct (addref_law s) as (A1 & A2 & A3); [lia|].
  destruct op as [| |iid]; simpl in *.
  - specialize (IH (com_AddRef s).2 (acc ++ [(refs s + 1)%Z])).
    rewrite A1. rewrite A2, A3 in IH. rewrite <- (assoc_L (++)) in IH. by apply IH; [|lia].
  - destruct (decide (refs s = 1%Z)) as [H1|H1].
    + rewrite release_last_law by done. rewrite H1 in *.
      destruct ops as [|op ops]; [|done].
      unfold mbind, prog_bind. rewrite !run_bind. by destruct (run h (com_destroy (data s) w) e) as [[??] tr]; cbn; rewrite !app_nil_r.
    + destruct (release_law s w) as (s' & E1 & E2 & E3); [lia|]. rewrite E1. cbn.
      specialize (IH s' (acc ++ [(refs s - 1)%Z])).
      rewrite E2, E3 in IH. rewrite <- (assoc_L (++)) in IH. by apply IH; [|lia].
  - rewrite !query_law. destruct (supports iid); simpl.
    + specialize (IH (com_AddRef s).2 (acc ++ [S_OK])).
      rewrite A2, A3 in IH. rewrite <- (assoc_L (++)) in IH. by apply IH; [|lia].
    + specialize (IH s (acc ++ [E_NOINTERFACE])).
      rewrite <- (assoc_L (++)) in IH. by apply IH.
Qed.
End lifecycle.

(** Arithmetic of the counters within their range. *)
Lemma increment_range z : (0 < z < max_refs)%Z ->
  InterlockedIncrement z = (z + 1)%Z /\ InterlockedIncrementU z = (z + 1)%Z /\
  u32 (InterlockedIncrement z) = (z + 1)%Z.
Proof.
  unfold max_refs, InterlockedIncrement, InterlockedIncrementU. intros.
  rewrite i32_id, u32_id by lia. done.
Qed.

Lemma decrement_range z : (0 < z <= max_refs)%Z ->
  InterlockedDecrement z = (z - 1)%Z /\ InterlockedDecrementU z = (z - 1)%Z /\
  u32 (InterlockedDecrement z) = (z - 1)%Z.
Proof.
  unfold max_refs, InterlockedDecrement, InterlockedDecrementU. intros.
  rewrite i32_id, u32_id by lia. done.
Qed.

(** Discharges [ComLaws] for a class whose operations follow the pattern; [unf]
    unfolds the operations. *)
Ltac com_laws unf :=
  lazymatch goal with
  | |- forall s, (0 < _ < max_refs)%Z -> _ =>
      let s := fresh in let Hs := fresh in
      intros s Hs; destruct (increment_range _ Hs) as (E1 & E2 & E3); cbn in *;
      unf; rewrite ?E3, ?E2; cbn; rewrite ?E2, ?E1; done
  | |- forall s w, (1 < _ <= max_refs)%Z -> _ =>
      let s := fresh in let w := fresh in let Hs := fresh in
      intros s w Hs; eexists;
      destruct (decrement_range (refs s)) as (E1 & E2 & E3); [lia|];
      cbn in *; unf; rewrite ?E3, ?E2, ?E1;
      match goal with |- context [(?n - 1 =? 0)%Z] =>
        destruct (Z.eqb_spec (n - 1) 0); [lia|] end;
      (split_and!; [reflexivity|cbn; rewrite ?E3, ?E2, ?E1; done|done])
  | |- forall s w, _ = 1%Z -> _ =>
      let s := fresh in let w := fresh in let Hs := fresh in
      intros s w Hs; cbn in *; unf; rewrite ?Hs; reflexivity
  | |- forall s iid, _ => intros ? ?; reflexivity
  | |- _ => reflexivity
  end.
