(* ===== verification/AppBridge.v ===== *)
(** * From a [suneido:] URL to Go (cside.c, goc.go)

    Both browser controls ask the bridge for the content of [suneido:] URLs, on
    whatever thread they please.  Go code that answers must run on the main
    thread, so [suneidoAPP] goes through a message to the helper window when it is
    called on another one. *)

From S2P Require Import Prelude Prog Win32 Accounting.

(** A [char*]: null, a buffer of the caller that [free] must not get, or a block that was
    allocated with [malloc].  The contents are the bytes of the whole block. *)
Inductive cstring :=
| Null
| StackBuf (bytes : list Z)
| Malloced (addr : Z) (bytes : list Z).

Definition contents (s : cstring) : list Z :=
  match s with Null => [] | StackBuf b | Malloced _ b => b end.

(** The bytes before the first zero: what C and [C.GoString] take as the string
    ([C.GoString] of a null pointer is the empty string). *)
Fixpoint c_str (mem : list Z) : list Z :=
  match mem with
  | [] => []
  | b :: mem => if (b =? 0)%Z then [] else b :: c_str mem
  end.

(** [buf_t] of cside.h. *)
Record buf_t := Buf { buf_data : cstring; buf_size : Z }.

(** The globals of cside.c that [setup] initialises. *)
Record globals := Globals { main_threadid : Z; hook : Z; helperHwnd : Z }.

Definition WM_USER : Z := 0x400.
Definition sunappMsg : Z := WM_USER + 1.

(** [SuneidoAPP] of goc.go, running on [thread]: [C.CString] allocates the length
    and a terminator. *)
Definition SuneidoAPP (thread : Z) (buf : buf_t) : act buf_t :=
  result ← call (GoSunAPP thread (c_str (contents (buf_data buf))));
  p ← call (c_malloc (Z.of_nat (length result) + 1));
  Ret (Buf (Malloced p (result ++ [0%Z])) (i32 (Z.of_nat (length result)))).

(** The window procedure of the helper window, which Windows calls on the thread
    that created it.  The [LPARAM] of [sunappMsg] is a [buf_t]. *)
Definition helperWndProc (thread hwnd uMsg wParam : Z) (lParam : buf_t) : act (Z * buf_t) :=
  if (uMsg =? sunappMsg)%Z then
    buf ← SuneidoAPP thread lParam; Ret (0%Z, buf)
  else r ← call (DefWindowProc hwnd uMsg wParam 0); Ret (r, lParam).

(** [buf.size] is not initialised before the call: [junk] is what the stack holds
    there.  [SendMessageA] answers whether the window procedure was called. *)
Definition suneidoAPP (g : globals) (junk : Z) (url : cstring) : act buf_t :=
  tid ← call GetCurrentThreadId;
  let buf := Buf url junk in
  if negb (tid =? main_threadid g)%Z then
    sent ← call (SendMessageA (helperHwnd g) sunappMsg 0 0);
    if (sent : bool)
    then '(_, buf) ← helperWndProc (main_threadid g) (helperHwnd g) sunappMsg 0 buf; Ret buf
    else Ret buf
  else SuneidoAPP tid buf.

(** ** Properties *)

(** The calls into Go of a trace. *)
Definition go_calls (tr : list ev) : list (Z * list Z * list Z) :=
  omap (fun e => match e with
                 | Ev a r => match a return Ans a -> option (Z * list Z * list Z) with
                             | GoSunAPP t url => fun r => Some (t, url, r)
                             | _ => fun _ => None
                             end r
                 end) tr.

Lemma go_calls_app tr1 tr2 : go_calls (tr1 ++ tr2) = go_calls tr1 ++ go_calls tr2.
Proof. apply omap_app. Qed.

Lemma c_str_zero mem rest : Forall (fun b => b <> 0%Z) mem -> c_str (mem ++ 0%Z :: rest) = mem.
Proof.
  induction 1 as [|b mem Hb _ IH]; simpl; [done|].
  rewrite (proj2 (Z.eqb_neq b 0)) by done. by rewrite IH.
Qed.

(** What [suneidoAPP] promises the two browsers: either Go was asked exactly
    once, on the main thread, and the result is Go's bytes in a fresh block
    with its length; or the message was not delivered, Go was not asked, and the
    result is the caller's own buffer with the junk size. *)
Definition app_answer (g : globals) (junk : Z) (url : cstring) (tr0 tr : list ev) (buf : buf_t) : Prop :=
  (exists result p,
     go_calls tr = go_calls tr0 ++ [(main_threadid g, c_str (contents url), result)] /\
     buf = Buf (Malloced p (result ++ [0%Z])) (i32 (Z.of_nat (length result))) /\
     last tr = Some (Ev (c_malloc (Z.of_nat (length result) + 1)) p)) \/
  (buf = Buf url junk /\ go_calls tr = go_calls tr0 /\
   last tr = Some (Ev (SendMessageA (helperHwnd g) sunappMsg 0 0) false)).

Lemma suneidoAPP_answer C g junk url tr0 :
  every_run C (suneidoAPP g junk url) tr0 (fun buf tr => app_answer g junk url tr0 tr buf).
Proof.
  unfold suneidoAPP, app_answer. cbn. intros tid _.
  destruct (Z.eqb_spec tid (main_threadid g)) as [->|]; cbn.
  - intros result _ p _. left. exists result, p.
    rewrite !go_calls_app, last_snoc. cbn. by rewrite !app_nil_r.
  - intros [|] _; cbn.
    + intros result _ p _. left. exists result, p.
      rewrite !go_calls_app, last_snoc. cbn. by rewrite !app_nil_r.
    + right. rewrite !go_calls_app, last_snoc. cbn. by rewrite !app_nil_r.
Qed.

(** Windows delivers the message when the helper window exists. *)
Definition window_contract (hwnd : Z) : contract Ans := fun _ a =>
  match a return Ans a -> Prop with
  | SendMessageA w _ _ _ => fun r => w = hwnd -> hwnd <> 0%Z -> r = true
  | _ => fun _ => True
  end.

(** The block [suneidoAPP] leaves with its caller (none if [malloc] gave null). *)
Definition block_of (p : Z) : list Z := if c_true p then [p] else [].

Lemma Acct_malloc_block bor tr R B n p :
  Acct bor tr R B -> Acct bor (tr ++ [Ev (c_malloc n) p]) R (block_of p ++ B).
Proof.
  intros HA. unfold block_of. destruct (c_true p) eqn:E.
  - apply (Acct_malloc _ _ _ _ HA). by apply c_true_spec.
  - apply c_true_0 in E as ->. apply (Acct_malloc_fail _ _ _ _ HA).
Qed.

Lemma Acct_free_block bor tr R B p r :
  Acct bor tr R (block_of p ++ B) -> Acct bor (tr ++ [Ev (c_free p) r]) R B.
Proof.
  unfold block_of. intros HA. destruct (c_true p) eqn:E.
  - apply (Acct_free _ _ _ _ HA); [by apply c_true_spec|done].
  - apply c_true_0 in E as ->. apply (Acct_free_null _ _ _ _ HA).
Qed.

(** The calls that [suneidoAPP] makes and the block it leaves. *)
Lemma suneidoAPP_calls C g junk url bor tr0 R B :
  (forall tr a r, C tr a r -> window_contract (helperHwnd g) tr a r) ->
  helperHwnd g <> 0%Z -> Acct bor tr0 R B ->
  every_run C (suneidoAPP g junk url) tr0 (fun buf tr =>
    exists pre result p,
      tr = tr0 ++ pre ++ [Ev (GoSunAPP (main_threadid g) (c_str (contents url))) result;
                          Ev (c_malloc (Z.of_nat (length result) + 1)) p] /\
      Forall (fun e => match e with Ev a _ => a = GetCurrentThreadId \/ a = SendMessageA (helperHwnd g) sunappMsg 0 0 end) pre /\
      buf = Buf (Malloced p (result ++ [0%Z])) (i32 (Z.of_nat (length result))) /\
      Acct bor tr R (block_of p ++ B)).
Proof.
  intros HC Hw HA. unfold suneidoAPP. cbn. intros tid _. acct_step HA.
  destruct (Z.eqb_spec tid (main_threadid g)) as [->|]; cbn.
  - intros result _. acct_step HA. intros p _. exists [Ev GetCurrentThreadId (main_threadid g)], result, p.
    rewrite <- !app_assoc. split_and!; [done|rewrite !Forall_cons, Forall_nil; auto|done|].
    apply (Acct_malloc_block _ _ _ _ (Z.of_nat (length result) + 1) p) in HA. rewrite <- !app_assoc in HA. exact HA.
  - intros [|] Hs; apply HC in Hs; cbn; [|by specialize (Hs eq_refl Hw)]. acct_step HA.
    intros result _. acct_step HA. intros p _.
    exists [Ev GetCurrentThreadId tid; Ev (SendMessageA (helperHwnd g) sunappMsg 0 0) true], result, p.
    rewrite <- !app_assoc. split_and!; [done|rewrite !Forall_cons, Forall_nil; auto|done|].
    apply (Acct_malloc_block _ _ _ _ (Z.of_nat (length result) + 1) p) in HA. rewrite <- !app_assoc in HA. exact HA.
Qed.

Lemma suneidoAPP_acct g junk url bor tr0 R B :
  helperHwnd g <> 0%Z -> Acct bor tr0 R B ->
  every_run (window_contract (helperHwnd g)) (suneidoAPP g junk url) tr0 (fun buf tr =>
    exists result p,
      go_calls tr = go_calls tr0 ++ [(main_threadid g, c_str (contents url), result)] /\
      buf = Buf (Malloced p (result ++ [0%Z])) (i32 (Z.of_nat (length result))) /\
      last tr = Some (Ev (c_malloc (Z.of_nat (length result) + 1)) p) /\
      Acct bor tr R (block_of p ++ B)).
Proof.
  intros Hw HA. eapply every_run_mono; [|apply (suneidoAPP_calls (window_contract (helperHwnd g)) g junk url bor tr0 R B); auto].
  intros buf tr (pre & result & p & -> & Hpre & -> & HA'). exists result, p.
  rewrite !go_calls_app. assert (go_calls pre = []) as ->.
  { clear HA'. induction Hpre as [|[a r] pre [-> | ->] _ IH]; done. }
  split_and!; [done|done| |done].
  rewrite (app_assoc tr0), last_app. done.
Qed.

(** C15: On whatever thread a browser asks for a [suneido:] URL, Go is asked exactly
    once, on the main thread and with the URL up to its terminator, and the
    answer is Go's bytes in a block of their length plus the terminator, with that
    length as the size (up to 2 GB) - provided the helper window exists and
    Windows delivers messages to it. *)
Theorem suneidoAPP_on_main_thread g junk url (Hw : helperHwnd g <> 0%Z) :
  every_run (window_contract (helperHwnd g)) (suneidoAPP g junk url) [] (fun buf tr =>
    exists result p,
      go_calls tr = [(main_threadid g, c_str (contents url), result)] /\
      last tr = Some (Ev (c_malloc (Z.of_nat (length result) + 1)) p) /\
      buf_data buf = Malloced p (result ++ [0%Z]) /\
      ((Z.of_nat (length result) < 2147483648)%Z -> buf_size buf = Z.of_nat (length result))).
Proof.
  eapply every_run_mono; [|apply (suneidoAPP_acct g junk url [] [] [] []); [done|apply Acct_nil]].
  intros buf tr (result & p & Hg & -> & Hl & _). exists result, p.
  split_and!; [done..|]. intros. apply i32_id. lia.
Qed.

Lemma suneidoAPP_on_main_thread_witness :
  every_run (window_contract 77) (suneidoAPP (Globals 5 6 77) 0 (StackBuf [115; 58; 0]%Z)) []
    (fun buf tr => exists result p,
      go_calls tr = [(5, [115; 58], result)]%Z /\
      last tr = Some (Ev (c_malloc (Z.of_nat (length result) + 1)) p) /\
      buf_data buf = Malloced p (result ++ [0%Z]) /\
      ((Z.of_nat (length result) < 2147483648)%Z -> buf_size buf = Z.of_nat (length result))).
Proof.
  apply (suneidoAPP_on_main_thread (Globals 5 6 77) 0 (StackBuf [115; 58; 0]%Z)). done.
Defined.
