(* ===== verification/SunApp.v ===== *)
(** * The [suneido:] protocol of the embedded browser (sunapp.cpp)

    [CSuneidoAPP] is the pluggable protocol object: [Start] fetches the whole
    content through [suneidoAPP], [Read] hands it out in pieces of the size the
    browser asks for.  [CFactory] is its class factory. *)

From S2P Require Import Prelude Prog Win32 Accounting RefCount AppBridge.

(** ** CSuneidoAPP *)

(** The fields [len], [pos] (ULONG), [str] and [m_cRef] (long). *)
Record CSuneidoAPP := SunApp { len : Z; pos : Z; str : cstring; m_cRef : Z }.

Definition new_CSuneidoAPP : CSuneidoAPP := SunApp 0 0 Null 1.

(** [delete str]: nothing for null, and only valid for a block of the heap. The
    boolean is whether the heap is intact. *)
Definition delete_str (s : cstring) (ok : bool) : act bool :=
  match s with
  | Null => Ret ok
  | Malloced p _ => _ ← call (c_free p); Ret ok
  | StackBuf _ => Ret false
  end.

Definition CSuneidoAPP_AddRef (this : CSuneidoAPP) : Z * CSuneidoAPP :=
  let n := InterlockedIncrement (m_cRef this) in
  (u32 n, SunApp (len this) (pos this) (str this) n).

Definition CSuneidoAPP_Release (this : CSuneidoAPP) (ok : bool) : act (Z * option CSuneidoAPP * bool) :=
  let n := InterlockedDecrement (m_cRef this) in
  if (n =? 0)%Z then ok ← delete_str (str this) ok; Ret (0%Z, None, ok)
  else Ret (u32 n, Some (SunApp (len this) (pos this) (str this) n), ok).

Definition CSuneidoAPP_QueryInterface (this : CSuneidoAPP) (iid : guid) : Z * bool * CSuneidoAPP :=
  if bool_decide (iid = IID_IUnknown) || bool_decide (iid = IID_IInternetProtocol)
  then (S_OK, true, (CSuneidoAPP_AddRef this).2)
  else (E_NOINTERFACE, false, this).

(** The conversions of [W2CA]: the buffer has two bytes per character. *)
Definition CP_ACP : Z := 0.

Definition AtlW2AHelper (lpw : list Z) (nChars : Z) : act cstring :=
  '(_, lpa) ← call (WideCharToMultiByte CP_ACP lpw nChars); Ret (StackBuf lpa).

Definition W2CA (w : option (list Z)) : act cstring :=
  match w with
  | None => Ret Null
  | Some lpw => AtlW2AHelper lpw (i32 ((Z.of_nat (length lpw) + 1) * 2))
  end.

Definition BSCF_LASTDATANOTIFICATION : Z := 4.
Definition BSCF_DATAFULLYAVAILABLE : Z := 8.

Definition Start (g : globals) (junk : Z) (this : CSuneidoAPP) (szUrl : option (list Z)) (pOIProtSink : Z)
    : act (CSuneidoAPP * Z) :=
  url ← W2CA szUrl;
  result ← suneidoAPP g junk url;
  let n := u32 (buf_size result) in
  let this := SunApp n 0 (buf_data result) (m_cRef this) in
  _ ← call (Invoke pOIProtSink "ReportData"
              [AInt (Z.lor BSCF_DATAFULLYAVAILABLE BSCF_LASTDATANOTIFICATION); AInt n; AInt n]);
  Ret (this, S_OK).

(** [memcpy(pv, s, n)] from offset [off] of a block: [None] when it reads outside. *)
Definition memcpy (block : list Z) (off n : Z) : option (list Z) :=
  if (off + n <=? Z.of_nat (length block))%Z
  then Some (take (Z.to_nat n) (drop (Z.to_nat off) block)) else None.

(** The result code, [*pcbRead], the bytes stored at [pv] and the object after. *)
Definition Read (this : CSuneidoAPP) (cb : Z) : option (Z * Z * list Z * CSuneidoAPP) :=
  let pcbRead := (if cb <? u32 (len this - pos this) then cb else u32 (len this - pos this))%Z in
  bytes ← memcpy (contents (str this)) (pos this) pcbRead;
  let pos' := u32 (pos this + pcbRead) in
  Some (if (len this <=? pos')%Z then S_FALSE else S_OK, pcbRead, bytes,
        SunApp (len this) pos' (str this) (m_cRef this)).

(** The methods that do nothing. *)
Definition Continue : Z := S_OK.
Definition SunApp_Abort : Z := S_OK.
Definition Terminate : Z := S_OK.
Definition Suspend : Z := E_NOTIMPL.
Definition Resume : Z := E_NOTIMPL.
Definition Seek : Z := E_NOTIMPL.
Definition LockRequest : Z := S_OK.
Definition UnlockRequest : Z := S_OK.

(** ** CFactory *)

(** The factory is a static object with only a counter. *)
Record CFactory := Factory { factory_cRef : Z }.

Definition CFactory_AddRef (this : CFactory) : Z * CFactory :=
  let n := InterlockedIncrement (factory_cRef this) in (u32 n, Factory n).

Definition CFactory_Release (this : CFactory) (ok : bool) : act (Z * option CFactory * bool) :=
  let n := InterlockedDecrement (factory_cRef this) in
  if (n =? 0)%Z then Ret (0%Z, None, false)  (* [delete this] of a static object *)
  else Ret (u32 n, Some (Factory n), ok).

Definition CFactory_QueryInterface (this : CFactory) (iid : guid) : Z * bool * CFactory :=
  if bool_decide (iid = IID_IUnknown) || bool_decide (iid = IID_IClassFactory)
  then (S_OK, true, (CFactory_AddRef this).2)
  else (E_NOINTERFACE, false, this).

(** [new] throws when it fails, so the test for null never holds.  Returns the
    result code and the object [*ppv] points to. *)
Definition CreateInstance (pUnknownOuter : Z) (iid : guid) (ok : bool) : act (Z * option CSuneidoAPP * bool) :=
  if c_true pUnknownOuter then Ret (CLASS_E_NOAGGREGATION, None, ok)
  else
    let '(hr, out, pA) := CSuneidoAPP_QueryInterface new_CSuneidoAPP iid in
    '(_, pA, ok) ← CSuneidoAPP_Release pA ok;
    Ret (hr, if (out : bool) then pA else None, ok).

Definition LockServer : Z := S_OK.

(** ** Registration *)

Definition CLSID_SuneidoAPP : guid :=
  GUID 0xBFBE2090 0x6BBA 0x11D4 [0xBC; 0x13; 0x00; 0x60; 0x6E; 0x30; 0xB2; 0x58]%Z.
Definition clsid : string := "{BFBE2090-6BBA-11D4-BC13-00606E30B258}".

Definition sunapp_register_classes (factory : Z) : act bool :=
  '(hr, iis) ← call CoInternetGetSession;
  if FAILED hr then Ret false
  else
    _ ← call (Invoke iis "RegisterNameSpace" [APtr factory; AIid CLSID_SuneidoAPP; AStr "suneido"; AInt 0; AInt 0; AInt 0]);
    _ ← call (Release iis);
    Ret true.

Definition sunapp_revoke_classes : act unit := _ ← call (Setup "CoUninitialize" []); Ret tt.

(** ** [IUnknown] *)

#[export] Instance CSuneidoAPP_com : ComObject CSuneidoAPP (Z * Z * cstring) bool := {|
  refs := m_cRef;
  data s := (len s, pos s, str s);
  com_AddRef := CSuneidoAPP_AddRef;
  com_Release := CSuneidoAPP_Release;
  com_QueryInterface := CSuneidoAPP_QueryInterface;
  com_destroy p ok := delete_str p.2 ok |}.

#[export] Instance CSuneidoAPP_laws : ComLaws CSuneidoAPP (Z * Z * cstring) bool.
Proof.
  apply (Build_ComLaws _ _ _ _ (fun iid => bool_decide (iid = IID_IUnknown) || bool_decide (iid = IID_IInternetProtocol)));
    com_laws ltac:(unfold CSuneidoAPP_AddRef, CSuneidoAPP_Release).
Defined.

#[export] Instance CFactory_com : ComObject CFactory unit bool := {|
  refs := factory_cRef;
  data _ := tt;
  com_AddRef := CFactory_AddRef;
  com_Release := CFactory_Release;
  com_QueryInterface := CFactory_QueryInterface;
  com_destroy _ _ := Ret false |}.

#[export] Instance CFactory_laws : ComLaws CFactory unit bool.
Proof.
  apply (Build_ComLaws _ _ _ _ (fun iid => bool_decide (iid = IID_IUnknown) || bool_decide (iid = IID_IClassFactory)));
    com_laws ltac:(unfold CFactory_AddRef, CFactory_Release).
Defined.

(** ** Reading as a stream

    The abstract view: [d] is what has not been read yet. *)
Fixpoint read_stream (d : list Z) (cbs : list Z) : list (Z * list Z) :=
  match cbs with
  | [] => []
  | cb :: cbs =>
      let d' := drop (Z.to_nat cb) d in
      (match d' with [] => S_FALSE | _ => S_OK end, take (Z.to_nat cb) d) :: read_stream d' cbs
  end.

(** A browser that calls [Read] with buffers of the sizes [cbs]. *)
Fixpoint reads (this : CSuneidoAPP) (cbs : list Z) : option (list (Z * list Z) * CSuneidoAPP) :=
  match cbs with
  | [] => Some ([], this)
  | cb :: cbs =>
      '(hr, n, bytes, this) ← Read this cb;
      '(out, this) ← reads this cbs;
      Some ((hr, bytes) :: out, this)
  end.

(** The data between [pos] and [len] is inside the block. *)
Definition app_wf (this : CSuneidoAPP) : Prop :=
  (0 <= pos this <= len this)%Z /\ (len this < 4294967296)%Z /\
  (len this <= Z.of_nat (length (contents (str this))))%Z.

Definition remaining (this : CSuneidoAPP) : list Z :=
  drop (Z.to_nat (pos this)) (take (Z.to_nat (len this)) (contents (str this))).

Lemma remaining_length this : app_wf this -> Z.of_nat (length (remaining this)) = (len this - pos this)%Z.
Proof. intros (H1 & H2 & H3). unfold remaining. rewrite length_drop, length_take. lia. Qed.

(** One read takes the next [cb] bytes of the stream. *)
Lemma Read_stream this cb : app_wf this -> (0 <= cb < 4294967296)%Z ->
  exists this',
    Read this cb = Some (match drop (Z.to_nat cb) (remaining this) with [] => S_FALSE | _ => S_OK end,
                         Z.min cb (Z.of_nat (length (remaining this))),
                         take (Z.to_nat cb) (remaining this), this') /\
    app_wf this' /\ remaining this' = drop (Z.to_nat cb) (remaining this) /\
    str this' = str this /\ m_cRef this' = m_cRef this.
Proof.
  intros Hwf Hcb. pose proof (remaining_length this Hwf) as HL. destruct Hwf as (H1 & H2 & H3).
  unfold Read. rewrite (u32_id (len this - pos this)) by lia.
  replace (if (cb <? len this - pos this)%Z then cb else (len this - pos this)%Z)
    with (Z.min cb (len this - pos this)) by (destruct (Z.ltb_spec cb (len this - pos this)); lia).
  unfold memcpy. rewrite (proj2 (Z.leb_le (pos this + _) _)) by lia. cbn [mbind option_bind].
  rewrite u32_id by lia.
  set (n := Z.min cb (len this - pos this)).
  assert (Htake : take (Z.to_nat n) (drop (Z.to_nat (pos this)) (contents (str this))) =
                  take (Z.to_nat cb) (remaining this)).
  { unfold remaining. rewrite skipn_firstn_comm, take_take. f_equal. unfold n. lia. }
  assert (Hn : n = Z.min cb (len this - pos this)) by done. clearbody n.
  eexists (SunApp (len this) (pos this + n) (str this) (m_cRef this)). split_and!.
  - rewrite Htake, HL, <- Hn. do 4 f_equal.
    destruct (drop (Z.to_nat cb) (remaining this)) eqn:E; apply (f_equal length) in E;
      rewrite length_drop in E; simpl in E; destruct (Z.leb_spec (len this) (pos this + n));
      solve [done | lia].
  - repeat split; simpl; lia.
  - unfold remaining; simpl. rewrite drop_drop.
    destruct (Z.le_gt_cases cb (len this - pos this)).
    + f_equal. lia.
    + rewrite !drop_ge; [done|rewrite length_take; lia..].
  - done.
  - done.
Qed.

Lemma sizes_nonneg cbs : Forall (fun cb => 0 <= cb < 4294967296)%Z cbs -> (0 <= sumZ id cbs)%Z.
Proof. unfold sumZ, id. induction 1; simpl; lia. Qed.

Lemma drop_sizes {A} cb cbs (d : list A) :
  (0 <= cb)%Z -> (0 <= sumZ id cbs)%Z ->
  drop (Z.to_nat (sumZ id cbs)) (drop (Z.to_nat cb) d) = drop (Z.to_nat (sumZ id (cb :: cbs))) d.
Proof. intros. rewrite drop_drop. f_equal. unfold sumZ, id in *. simpl. lia. Qed.

Lemma reads_stream cbs : forall this,
  app_wf this -> Forall (fun cb => 0 <= cb < 4294967296)%Z cbs ->
  exists this', reads this cbs = Some (read_stream (remaining this) cbs, this') /\ app_wf this' /\
    str this' = str this /\ m_cRef this' = m_cRef this /\
    remaining this' = drop (Z.to_nat (sumZ id cbs)) (remaining this).
Proof.
  induction cbs as [|cb cbs IH]; intros this Hwf Hc; simpl.
  { by exists this. }
  apply Forall_cons in Hc as [Hcb Hc].
  destruct (Read_stream this cb Hwf Hcb) as (t1 & -> & Hwf1 & Hd & Hs1 & Hr1). cbn -[sumZ].
  destruct (IH t1 Hwf1 Hc) as (t2 & -> & Hwf2 & Hs2 & Hr2 & Hd2). exists t2. cbn -[sumZ].
  rewrite Hs2, Hr2, Hd2, Hd, drop_sizes by (auto using sizes_nonneg; lia). done.
Qed.

(** The pieces are the data in order, and the last result code says whether it
    is complete. *)
Lemma read_stream_concat cbs : forall d, Forall (fun cb => 0 <= cb < 4294967296)%Z cbs ->
  concat (read_stream d cbs).*2 = take (Z.to_nat (sumZ id cbs)) d.
Proof.
  induction cbs as [|cb cbs IH]; intros d Hc; [done|].
  apply Forall_cons in Hc as [Hcb Hc]. pose proof (sizes_nonneg _ Hc).
  change (sumZ id (cb :: cbs)) with (cb + sumZ id cbs)%Z.
  rewrite Z2Nat.inj_add by lia. rewrite <- take_take_drop. simpl. by rewrite IH.
Qed.

Lemma read_stream_last cbs : forall d, Forall (fun cb => 0 <= cb < 4294967296)%Z cbs -> cbs <> [] ->
  fst <$> last (read_stream d cbs) =
    Some (match drop (Z.to_nat (sumZ id cbs)) d with [] => S_FALSE | _ => S_OK end).
Proof.
  induction cbs as [|cb cbs IH]; intros d Hc Hne; [done|].
  apply Forall_cons in Hc as [Hcb Hc]. pose proof (sizes_nonneg _ Hc).
  rewrite <- drop_sizes by lia. destruct cbs as [|cb' cbs]; [done|].
  rewrite <- (IH _ Hc) by done. simpl. done.
Qed.

(** ** Properties *)

(** What the browser does with one URL: it gets the protocol object from the
    factory, starts it, reads with buffers of the sizes [cbs] and releases it. *)
Definition protocol_session (g : globals) (junk : Z) (url : option (list Z)) (sink : Z) (cbs : list Z)
    : act (option (list (Z * list Z)) * bool) :=
  '(_, obj, ok) ← CreateInstance 0 IID_IInternetProtocol true;
  match obj with
  | None => Ret (None, ok)
  | Some this =>
      '(this, _) ← Start g junk this url sink;
      match reads this cbs with
      | None => Ret (None, ok)
      | Some (out, this) => '(_, _, ok) ← CSuneidoAPP_Release this ok; Ret (Some out, ok)
      end
  end.

(** The bytes Go is asked for: what the conversion of the address gave, up to its
    terminator. *)
Definition address_bytes (w : option (list Z)) (tr : list ev) (curl : list Z) : Prop :=
  match w with
  | None => curl = []
  | Some w => exists cch r b, Ev (WideCharToMultiByte CP_ACP w cch) (r, b) ∈ tr /\ curl = c_str b /\
      cch = i32 ((Z.of_nat (length w) + 1) * 2)
  end.

Lemma address_bytes_app w tr tr2 curl : address_bytes w tr curl -> address_bytes w (tr ++ tr2) curl.
Proof.
  destruct w as [w|]; [|done]. intros (cch & r & b & H & E). exists cch, r, b. split; [|done]. apply elem_of_app. by left.
Qed.

Lemma W2CA_acct C w bor tr R B : Acct bor tr R B ->
  every_run C (W2CA w) tr (fun s tr' => go_calls tr' = go_calls tr /\ Acct bor tr' R B /\
    address_bytes w tr' (c_str (contents s))).
Proof.
  intros HA. destruct w as [w|]; cbn -[Z.mul]; [|done]. intros [r lpa] _. acct_step HA. cbn -[Z.mul].
  rewrite go_calls_app. cbn -[Z.mul]. rewrite app_nil_r. split_and!; [done..|]. eexists _, r, lpa. split_and!; [|done..].
  apply elem_of_app. right. apply list_elem_of_here.
Qed.

(** [Start] leaves the object positioned at the start of Go's answer. *)
Lemma Start_ok g junk this url sink tr0 R B :
  helperHwnd g <> 0%Z -> Acct [sink] tr0 R B ->
  every_run (window_contract (helperHwnd g)) (Start g junk this url sink) tr0 (fun '(this', hr) tr =>
    exists curl result p,
      go_calls tr = go_calls tr0 ++ [(main_threadid g, curl, result)] /\ address_bytes url tr curl /\
      hr = S_OK /\ app_wf this' /\ str this' = Malloced p (result ++ [0%Z]) /\
      remaining this' = take (Z.to_nat (u32 (Z.of_nat (length result)))) result /\
      m_cRef this' = m_cRef this /\ Acct [sink] tr R (block_of p ++ B)).
Proof.
  intros Hw HA. unfold Start. apply every_run_bind.
  eapply every_run_mono; [|by apply (W2CA_acct _ _ _ _ _ _ HA)]. clear HA.
  intros curl tr1 (Hg1 & HA & Hu). apply every_run_bind.
  eapply every_run_mono; [|by apply every_run_history, (suneidoAPP_acct g junk curl _ _ _ _ Hw HA)]. clear HA.
  intros buf tr2 [(result & p & Hg2 & -> & _ & HA) [tr3 E3]]. cbn -[app_wf]. intros r _. acct_step HA.
  rewrite u32_i32 in *. pose proof (u32_range (Z.of_nat (length result))) as Hr.
  assert (u32 (Z.of_nat (length result)) <= Z.of_nat (length result))%Z
    by (apply Z.mod_le; lia).
  exists (c_str (contents curl)), result, p. split_and!; try done.
  - rewrite go_calls_app, Hg2, Hg1. cbn. by rewrite app_nil_r.
  - rewrite E3. by apply address_bytes_app, address_bytes_app.
  - repeat split; simpl; rewrite ?length_app; simpl; lia.
  - unfold remaining. simpl. rewrite take_app_le by lia. done.
Qed.

Lemma protocol_session_ok g junk url sink cbs :
  helperHwnd g <> 0%Z -> Forall (fun cb => 0 <= cb < 4294967296)%Z cbs ->
  every_run (window_contract (helperHwnd g)) (protocol_session g junk url sink cbs) []
    (fun '(out, ok) tr => exists curl result,
      go_calls tr = [(main_threadid g, curl, result)] /\ address_bytes url tr curl /\ ok = true /\
      Acct [sink] tr [] [] /\
      out = Some (read_stream (take (Z.to_nat (u32 (Z.of_nat (length result)))) result) cbs)).
Proof.
  intros Hw Hc. assert (HC : CreateInstance 0 IID_IInternetProtocol true = Ret (S_OK, Some new_CSuneidoAPP, true))
    by reflexivity.
  unfold protocol_session. rewrite HC. clear HC. cbn -[Start]. apply every_run_bind.
  eapply every_run_mono; [|apply Start_ok; [done|apply Acct_nil]].
  intros [this hr] tr (curl & result & p & Hg & Hu & -> & Hwf & Hs & Hrem & Hrefs & HA).
  destruct (reads_stream cbs this Hwf Hc) as (this' & -> & _ & Hs' & Hrefs' & _).
  unfold CSuneidoAPP_Release. rewrite Hrefs', Hrefs, Hs', Hs. cbn. intros r _.
  exists curl, result. split_and!; [|by apply address_bytes_app|done|by apply Acct_free_block|by rewrite Hrem].
  rewrite go_calls_app. cbn. by rewrite app_nil_r.
Qed.

(** C16: A [suneido:] request of the embedded browser delivers exactly what Go
    answered: Go is asked once, on the main thread, for the converted address; the sequence of reads,
    whatever buffer sizes the browser uses, never leaves the block and gives the
    bytes of the answer in order with [S_FALSE] exactly when none are left
    (answers under 4 GB are complete); and the last [Release] frees the block
    of the answer, so nothing is leaked or freed twice. *)
Theorem protocol_session_delivers g junk url sink cbs
    (Hw : helperHwnd g <> 0%Z) (Hc : Forall (fun cb => 0 <= cb < 4294967296)%Z cbs) :
  every_run (window_contract (helperHwnd g)) (protocol_session g junk url sink cbs) []
    (fun '(out, ok) tr => exists curl result,
      go_calls tr = [(main_threadid g, curl, result)] /\ address_bytes url tr curl /\ ok = true /\
      Acct [sink] tr [] [] /\
      out = Some (read_stream (take (Z.to_nat (u32 (Z.of_nat (length result)))) result) cbs)).
Proof. by apply protocol_session_ok. Qed.

Lemma protocol_session_delivers_witness :
  every_run (window_contract 77)
    (protocol_session (Globals 5 6 77) 0 (Some [115; 58]%Z) 900 [2; 0; 3]%Z) []
    (fun '(out, ok) tr => exists curl result,
      go_calls tr = [(5%Z, curl, result)] /\ address_bytes (Some [115; 58]%Z) tr curl /\ ok = true /\ Acct [900%Z] tr [] [] /\
      out = Some (read_stream (take (Z.to_nat (u32 (Z.of_nat (length result)))) result) [2; 0; 3]%Z)).
Proof.
  apply (protocol_session_delivers (Globals 5 6 77) 0 (Some [115; 58]%Z) 900 [2; 0; 3]%Z);
    [done|repeat constructor; lia].
Defined.

(** C24: A browser that reads with buffers of at least one byte has the whole
    answer after at most as many reads as it has bytes: the pieces put together
    are the answer, the last result code is [S_FALSE], and nothing is left. *)
Theorem reads_complete this cbs (Hwf : app_wf this) (Hc : Forall (fun cb => 1 <= cb < 4294967296)%Z cbs)
    (Hlen : (len this - pos this <= Z.of_nat (length cbs))%Z) (Hne : cbs <> []) :
  exists out this', reads this cbs = Some (out, this') /\
    concat out.*2 = remaining this /\ (fst <$> last out) = Some S_FALSE /\ remaining this' = [].
Proof.
  assert (Hsum : (Z.of_nat (length cbs) <= sumZ id cbs)%Z).
  { clear Hlen Hne. induction Hc; cbn -[Z.of_nat]; unfold id, sumZ in *; lia. }
  assert (Hc0 : Forall (fun cb => 0 <= cb < 4294967296)%Z cbs) by (eapply Forall_impl; eauto; simpl; lia).
  pose proof (remaining_length this Hwf).
  destruct (reads_stream cbs this Hwf Hc0) as (this' & Hr & _ & _ & _ & Hd).
  exists (read_stream (remaining this) cbs), this'.
  rewrite read_stream_concat, read_stream_last, Hd, (drop_ge (remaining this)), take_ge by (done || lia).
  done.
Qed.

Lemma reads_complete_witness :
  exists out this', reads (SunApp 3 0 (Malloced 8 [7; 8; 9; 0]%Z) 1) [2; 1; 5]%Z = Some (out, this') /\
    concat out.*2 = [7; 8; 9]%Z /\ (fst <$> last out) = Some S_FALSE /\ remaining this' = [].
Proof.
  apply (reads_complete (SunApp 3 0 (Malloced 8 [7; 8; 9; 0]%Z) 1) [2; 1; 5]%Z);
    [repeat split; simpl; lia|repeat constructor; lia|simpl; lia|done].
Defined.

(** The protocol object lives exactly as long as its users hold references: for
    every sequence of calls that follows the rules of COM, each call returns the new
    count (or [S_OK]/[E_NOINTERFACE] by the interface asked for), the position and
    data are untouched, and the destructor - which frees the answer - runs
    exactly once, at the release of the last reference; never before. *)
Theorem protocol_object_lifecycle {E} (h : E -> forall a, Ans a * E) ops (this : CSuneidoAPP) e
    (Hr : follows_rules (supports (St := CSuneidoAPP)) (m_cRef this) ops = true) (Hn : (0 < m_cRef this <= max_refs)%Z) :
  let n := balance (supports (St := CSuneidoAPP)) (m_cRef this) ops in
  let results := promised (supports (St := CSuneidoAPP)) (m_cRef this) ops in
  if (n =? 0)%Z then
    run h (client ops (Some this) true []) e =
      let '(ok, e', tr) := run h (delete_str (str this) true) e in
      (Some (results, None, ok), e', tr)
  else
    run h (client ops (Some this) true []) e =
      (Some (results, Some (SunApp (len this) (pos this) (str this) n), true), e, []).
Proof.
  pose proof (client_lifecycle h ops this true [] e Hr Hn) as HL. cbn zeta in *.
  change (refs this) with (m_cRef this) in HL. destruct (_ =? 0)%Z.
  - done.
  - destruct HL as ([l p s r] & -> & <- & Hd & _). cbn in *. by simplify_eq.
Qed.

Lemma protocol_object_lifecycle_witness :
  run good_env (client [CAddRef; CQuery IID_IClassFactory; CRelease; CRelease]
                  (Some (SunApp 3 1 (Malloced 8 [7; 8; 9; 0]%Z) 1)) true []) 0%Z =
    (Some ([2; E_NOINTERFACE; 1; 0]%Z, None, true), 0%Z, [Ev (c_free 8) tt]).
Proof.
  apply (protocol_object_lifecycle good_env [CAddRef; CQuery IID_IClassFactory; CRelease; CRelease]
           (SunApp 3 1 (Malloced 8 [7; 8; 9; 0]%Z) 1) 0%Z); [reflexivity|split; reflexivity || discriminate].
Defined.

(** The factory gives out a fresh object with one reference for exactly the
    interfaces it supports, and otherwise only an error, with the object it had
    created already gone; aggregation is refused.  The static factory itself
    survives any balanced use of it. *)
Theorem factory_creates pUnknownOuter iid ok :
  every_run any_answer (CreateInstance pUnknownOuter iid ok) [] (fun '(hr, obj, ok') tr =>
    tr = [] /\ ok' = ok /\
    if c_true pUnknownOuter then hr = CLASS_E_NOAGGREGATION /\ obj = None
    else if supports (St := CSuneidoAPP) iid then hr = S_OK /\ obj = Some new_CSuneidoAPP
    else hr = E_NOINTERFACE /\ obj = None) /\
  forall E (h : E -> forall a, Ans a * E) ops (f : CFactory) e,
    follows_rules (supports (St := CFactory)) (factory_cRef f) ops = true ->
    (0 < factory_cRef f <= max_refs)%Z ->
    (0 < balance (supports (St := CFactory)) (factory_cRef f) ops)%Z ->
    exists f', run h (client ops (Some f) ok []) e =
      (Some (promised (supports (St := CFactory)) (factory_cRef f) ops, Some f', ok), e, []).
Proof.
  split.
  - unfold CreateInstance, CSuneidoAPP_QueryInterface. cbn [supports CSuneidoAPP_laws].
    destruct (c_true pUnknownOuter); [done|].
    destruct (bool_decide (iid = IID_IUnknown) || bool_decide (iid = IID_IInternetProtocol)); done.
  - intros E h ops f e Hr Hn Hb. pose proof (client_lifecycle h ops f ok [] e Hr Hn) as HL.
    cbn zeta in HL. change (refs f) with (factory_cRef f) in HL.
    destruct (Z.eqb_spec (balance supports (factory_cRef f) ops) 0) as [E0|]; [lia|].
    destruct HL as (f' & HL & _). by exists f'.
Qed.
