(* ===== verification/CSide.v ===== *)
(** * The main C side: start-up, message boxes, interrupts and the message loop
    (cside.c)

    [setup] prepares the process, [run] is the main message loop, [message_loop]
    with a dialog is a nested one.  [interrupt] is polled by Go, [alert] and
    [fatal] show message boxes from any thread.  The wait-cursor timer that the
    loop starts and stops is in [CursorTimer]. *)

From S2P Require Import Prelude Text Prog Win32 Accounting ComDispatch AppBridge SunApp.

(** ** Message boxes *)

Definition MB_TASKMODAL : Z := 0x2000.
Definition MB_SETFOREGROUND : Z := 0x10000.
Definition MB_TOPMOST : Z := 0x40000.

(** The thread procedure; its result is what it stores in [mb->result]. *)
Definition message_thread (text : Z) (caption : string) (type : Z) : act Z :=
  call (MessageBox text caption (Z.lor (Z.lor (Z.lor type MB_TASKMODAL) MB_TOPMOST) MB_SETFOREGROUND)).

(** [WaitForSingleObject] returns when the thread has ended, so its effects come
    first.  [junk] is what the uninitialised [mb.result] holds. *)
Definition msgbox (junk text : Z) (caption : string) (type : Z) : act Z :=
  thread ← call (CreateThread 0);
  result ← (if c_true thread then
              r ← message_thread text caption type;
              _ ← call (WaitForSingleObject thread);
              Ret r
            else Ret junk);
  _ ← call (c_free text);
  Ret result.

Definition alert (junk msg type : Z) : act Z := msgbox junk msg "Alert" type.

Definition fatal (junk msg : Z) : act unit := _ ← msgbox junk msg "FATAL" 0; Ret tt.

(** ** Leaving the process *)

(** How a function ends: it returns, or the process exits. *)
Inductive outcome := Returns (v : Z) | Exits (code : Z).

Definition errmsg (msg : string) : act unit := call (WriteStderr msg).

Definition msgexit (msg : string) : act outcome := _ ← errmsg msg; Ret (Exits 1).

Definition crlf : string := String (Ascii.ascii_of_nat 13) (String (Ascii.ascii_of_nat 10) "").

(** ** interrupt *)

Definition CTRL_BREAK_ID : Z := 1.
Definition QS_HOTKEY : Z := 0x80.
Definition WM_HOTKEY : Z := 0x312.
Definition PM_REMOVE : Z := 1.

Definition HIWORD (z : Z) : Z := Z.land (Z.shiftr z 16) 0xffff.

(** The [while] loop.  It leaves the process when [n] passes 100, so 101
    iterations are enough; [None] means more were needed. *)
Fixpoint peek_loop (fuel : nat) (n hotkey : Z) : act (option outcome) :=
  match fuel with
  | O => Ret None
  | S fuel =>
      m ← call (PeekMessage WM_HOTKEY WM_HOTKEY PM_REMOVE);
      match (m : option MSG) with
      | None => Ret (Some (Returns hotkey))
      | Some msg =>
          let hotkey := if (msg_wParam msg =? CTRL_BREAK_ID)%Z then 1%Z else hotkey in
          let n := i32 (n + 1) in
          if (100 <? n)%Z then o ← msgexit ("FATAL: interrupt too many loops" ++ crlf); Ret (Some o)
          else peek_loop fuel n hotkey
      end
  end.

Definition interrupt : act (option outcome) :=
  status ← call (GetQueueStatus QS_HOTKEY);
  if c_true (HIWORD status) then peek_loop 101 0 0 else Ret (Some (Returns 0)).

(** ** The filter for unhandled exceptions *)

(** [snprintf] into a buffer of [size] bytes keeps room for the terminator. *)
Definition snprintf (size : nat) (s : string) : string := String.substring 0 (size - 1) s.

Definition filter (ExceptionCode : Z) : act outcome :=
  let e := u32 ExceptionCode in
  msgexit (snprintf 64 ("FATAL: unhandled C exception " ++ format_x e ++ crlf)).

(** ** Start-up *)

Definition setupHelper (g : globals) : act (bool * globals) :=
  atom ← call (RegisterClass "helper");
  if negb (c_true atom) then Ret (false, g)
  else
    hwnd ← call (CreateWindow "helper");
    if negb (c_true hwnd) then Ret (false, g)
    else Ret (true, Globals (main_threadid g) (hook g) hwnd).

Definition MOD_CONTROL : Z := 2.
Definition VK_CANCEL : Z := 3.
Definition WH_GETMESSAGE : Z := 3.

(** [factory] is the address of the static [CFactory] of sunapp.cpp. *)
Definition setup (factory : Z) (g : globals) : act globals :=
  _ ← call (Setup "Scintilla_RegisterClasses" []);
  _ ← call (Setup "OleInitialize" []);
  _ ← sunapp_register_classes factory;
  _ ← call (Setup "RegisterHotKey" [0; CTRL_BREAK_ID; MOD_CONTROL; VK_CANCEL]%Z);
  tid ← call GetCurrentThreadId;
  let g := Globals tid (hook g) (helperHwnd g) in
  hk ← call (Setup "SetWindowsHookExA" [WH_GETMESSAGE; 0; main_threadid g]%Z);
  let g := Globals (main_threadid g) hk (helperHwnd g) in
  _ ← call (CreateThread 8192);
  '(_, g) ← setupHelper g;
  _ ← call (Setup "SetUnhandledExceptionFilter" []);
  Ret g.

Definition createLexer (name : Z) : act Z := call (Setup "CreateLexer" [name]).

(** ** The message loop *)

Definition END_MSG_LOOP : Z := 0xebb.
Definition WM_NULL : Z := 0.
Definition WM_QUIT : Z := 0x12.
Definition WM_KEYDOWN : Z := 0x100.
Definition GA_ROOT : Z := 2.
Definition GWLP_USERDATA : Z := -21.

(** Restoring the cursor that the timer replaced; [prev_cursor] is read twice. *)
Definition restore_cursor : act unit :=
  pc ← call LoadPrevCursor;
  if c_true pc then
    c ← call LoadPrevCursor;
    _ ← call (SetCursor c);
    pt ← call GetCursorPos;
    _ ← call (SetCursorPos (fst pt) (snd pt));
    Ret tt
  else Ret tt.

(** The keyboard message for a browser control. *)
Definition offer_browser (window : Z) (msg : MSG) : act bool :=
  if negb (msg_hwnd msg =? window)%Z && (msg_message msg =? WM_KEYDOWN)%Z then
    ptr ← call (GetWindowLongPtrA (msg_hwnd msg) GWLP_USERDATA);
    if c_true ptr then hr ← traccel ptr msg; Ret (S_OK =? hr)%Z else Ret false
  else Ret false.

(** The accelerators and the dialog handling of the top-level window. *)
Definition offer_window (window : Z) (msg : MSG) : act bool :=
  if c_true window then
    haccel ← call (GetWindowLongPtrA window GWLP_USERDATA);
    t ← (if c_true haccel then r ← call (TranslateAcceleratorA window haccel msg); Ret (c_true r) else Ret false);
    if (t : bool) then Ret true
    else r ← call (IsDialogMessage window msg); Ret (c_true r)
  else Ret false.

(** From [GetAncestor] to the end of the loop body. *)
Definition route (msg : MSG) : act unit :=
  window ← call (GetAncestor (msg_hwnd msg) GA_ROOT);
  b ← offer_browser window msg;
  if (b : bool) then Ret tt
  else
    w ← offer_window window msg;
    if (w : bool) then Ret tt
    else
      _ ← call (TranslateMessage msg);
      _ ← call (DispatchMessageA msg);
      Ret tt.

Definition ends_loop (hdlg : Z) (msg : MSG) : bool :=
  negb (hdlg =? 0)%Z && (msg_hwnd msg =? hdlg)%Z && (msg_message msg =? WM_NULL)%Z &&
  (msg_wParam msg =? END_MSG_LOOP)%Z && (msg_lParam msg =? END_MSG_LOOP)%Z.

(** What the loop does with the answer of [GetMessageA]; [Some v] when it
    returns [v]. *)
Definition handle_message (hdlg r : Z) (msg : MSG) : act (option Z) :=
  if (r =? -1)%Z then Ret None
  else
    _ ← call (StoreTicks 5);
    _ ← call (StorePrevCursor 0);
    if (msg_message msg =? WM_QUIT)%Z then
      _ ← (if negb (hdlg =? 0)%Z then call (PostQuitMessage (i32 (msg_wParam msg))) else Ret tt);
      Ret (Some (i32 (msg_wParam msg)))
    else if ends_loop hdlg msg then Ret (Some 0%Z)
    else _ ← route msg; Ret None.

(** One iteration. *)
Definition loop_body (hdlg : Z) : act (option Z) :=
  _ ← call (StoreTicks 0);
  _ ← restore_cursor;
  '(r, msg) ← call GetMessageA;
  handle_message hdlg r msg.

(** [None] when [fuel] iterations were not enough. *)
Fixpoint message_loop (fuel : nat) (hdlg : Z) : act (option Z) :=
  match fuel with
  | O => Ret None
  | S fuel =>
      o ← loop_body hdlg;
      match (o : option Z) with Some v => Ret (Some v) | None => message_loop fuel hdlg end
  end.

Definition destroy_func (hwnd : Z) : act bool := _ ← call (DestroyWindow hwnd); Ret true.

(** [EnumThreadWindows] calls back for each window until the callback returns
    [FALSE]. *)
Fixpoint enumerate (f : Z -> act bool) (ws : list Z) : act unit :=
  match ws with
  | [] => Ret tt
  | w :: ws => go ← f w; if (go : bool) then enumerate f ws else Ret tt
  end.

Definition destroy_windows (g : globals) : act unit :=
  ws ← call (EnumThreadWindows (main_threadid g)); enumerate destroy_func ws.

Definition run_gui (fuel : nat) (g : globals) : act (option Z) :=
  exitcode ← message_loop fuel 0;
  match (exitcode : option Z) with
  | None => Ret None
  | Some c => _ ← destroy_windows g; Ret (Some c)
  end.

(** ** Message boxes *)

(** A message box shows the given text with the given type made task modal,
    topmost and foreground, on its own thread, waits for it, and frees the text
    exactly once, after the wait; the result is the user's answer.  If the thread
    cannot be created, nothing is shown, the text is still freed, and the
    result is whatever the stack held. *)
Theorem msgbox_behaviour junk text caption type :
  every_run any_answer (msgbox junk text caption type) [] (fun result tr =>
    (exists thread w, c_true thread = true /\
       tr = [Ev (CreateThread 0) thread;
             Ev (MessageBox text caption (Z.lor type 0x52000)) result;
             Ev (WaitForSingleObject thread) w; Ev (c_free text) tt]) \/
    (tr = [Ev (CreateThread 0) 0%Z; Ev (c_free text) tt] /\ result = junk)).
Proof.
  unfold msgbox, message_thread. cbn. intros thread _.
  replace (Z.lor (Z.lor (Z.lor type MB_TASKMODAL) MB_TOPMOST) MB_SETFOREGROUND)
    with (Z.lor type 0x52000) by by rewrite <- !Z.lor_assoc.
  destruct (c_true thread) eqn:E; cbn.
  - intros r _ w _ [] _. left. by exists thread, w.
  - intros [] _. right. by apply c_true_0 in E as ->.
Qed.

(** ** interrupt *)

(** What Windows promises about the hot keys of the thread: [GetQueueStatus]
    says whether there are any, [PeekMessage] removes the first. *)
Class HotkeyEnv {S : Type} (h : S -> forall a, Ans a * S) := {
  hotkeys : S -> list MSG;
  status_law s : c_true (HIWORD (h s (GetQueueStatus QS_HOTKEY)).1) = negb (bool_decide (hotkeys s = []));
  status_keeps s : hotkeys (h s (GetQueueStatus QS_HOTKEY)).2 = hotkeys s;
  peek_law s : (h s (PeekMessage WM_HOTKEY WM_HOTKEY PM_REMOVE)).1 = head (hotkeys s);
  peek_removes s : hotkeys (h s (PeekMessage WM_HOTKEY WM_HOTKEY PM_REMOVE)).2 = tail (hotkeys s);
  stderr_keeps s t : hotkeys (h s (WriteStderr t)).2 = hotkeys s }.

Section hotkeys.
Context {S : Type} (h : S -> forall a, Ans a * S) `{!HotkeyEnv h}.

Definition break_pressed (q : list MSG) : bool :=
  existsb (fun m => msg_wParam m =? CTRL_BREAK_ID)%Z q.

Lemma peek_loop_drains fuel : forall n hotkey s,
  (0 <= n)%Z -> (n + Z.of_nat (length (hotkeys s)) <= 100)%Z -> (length (hotkeys s) < fuel)%nat ->
  result h (peek_loop fuel n hotkey) s =
    Some (Returns (if break_pressed (hotkeys s) then 1 else hotkey)%Z) /\
  hotkeys (final h (peek_loop fuel n hotkey) s) = [].
Proof.
  induction fuel as [|fuel IH]; intros n hotkey s Hn Hl Hf; [lia|].
  unfold result, final. simpl. pose proof (peek_law s) as H1. pose proof (peek_removes s) as H2.
  destruct (h s (PeekMessage WM_HOTKEY WM_HOTKEY PM_REMOVE)) as [r s1]. simpl in H1, H2. subst r.
  destruct (hotkeys s) as [|m q] eqn:Eq; simpl; [done|]. simpl in *.
  rewrite i32_id by lia. destruct (Z.ltb_spec 100 (n + 1)); [lia|].
  specialize (IH (n + 1)%Z (if (msg_wParam m =? CTRL_BREAK_ID)%Z then 1%Z else hotkey) s1).
  rewrite H2 in IH. destruct IH as [IH1 IH2]; [lia..|].
  unfold result, final in *. destruct (run h _ s1) as [[x s2] tr]. simpl in *. subst x.
  by destruct (msg_wParam m =? CTRL_BREAK_ID)%Z, (break_pressed q).
Qed.

Lemma peek_loop_exits fuel : forall n hotkey s,
  (0 <= n <= 100)%Z -> (100 < n + Z.of_nat (length (hotkeys s)))%Z -> (100 < n + Z.of_nat fuel)%Z ->
  result h (peek_loop fuel n hotkey) s = Some (Exits 1) /\
  hotkeys (final h (peek_loop fuel n hotkey) s) = drop (Z.to_nat (101 - n)) (hotkeys s).
Proof.
  induction fuel as [|fuel IH]; intros n hotkey s Hn Hl Hf; [lia|].
  unfold result, final. simpl. pose proof (peek_law s) as H1. pose proof (peek_removes s) as H2.
  destruct (h s (PeekMessage WM_HOTKEY WM_HOTKEY PM_REMOVE)) as [r s1]. simpl in H1, H2. subst r.
  destruct (hotkeys s) as [|m q] eqn:Eq; simpl in *; [lia|].
  rewrite i32_id by lia. destruct (Z.ltb_spec 100 (n + 1)).
  - assert (n = 100)%Z as -> by lia.
    pose proof (stderr_keeps s1 ("FATAL: interrupt too many loops" ++ crlf)) as H3. cbn in H3 |- *.
    destruct (h s1 _) as [[] s2]. simpl in *. by rewrite H3, H2.
  - specialize (IH (n + 1)%Z (if (msg_wParam m =? CTRL_BREAK_ID)%Z then 1%Z else hotkey) s1).
    rewrite H2 in IH. destruct IH as [IH1 IH2]; [lia..|].
    unfold result, final in *. destruct (run h _ s1) as [[x s2] tr]. simpl in *. subst x.
    rewrite IH2. replace (Z.to_nat (101 - n)) with (Datatypes.S (Z.to_nat (101 - (n + 1)))) by lia. done.
Qed.

(** [interrupt] always finishes.  With at most 100 hot keys waiting it removes
    them all and answers 1 exactly when Ctrl+Break is among them; with more it
    ends the process with code 1 after removing 101. *)
Theorem interrupt_polls_hotkeys s :
  if (length (hotkeys s) <=? 100)%nat then
    result h interrupt s = Some (Returns (c_bool (break_pressed (hotkeys s)))) /\
    hotkeys (final h interrupt s) = []
  else
    result h interrupt s = Some (Exits 1) /\ hotkeys (final h interrupt s) = drop 101 (hotkeys s).
Proof using Type*.
  unfold interrupt, mbind, prog_bind.
  rewrite (result_bind_call h (GetQueueStatus QS_HOTKEY)), (final_bind_call h (GetQueueStatus QS_HOTKEY)).
  rewrite status_law. pose proof (status_keeps s) as Hk.
  set (s1 := (h s (GetQueueStatus QS_HOTKEY)).2) in *. clearbody s1. rewrite <- Hk.
  destruct (Nat.leb_spec (length (hotkeys s1)) 100).
  - destruct (decide (hotkeys s1 = [])) as [E|E].
    + rewrite bool_decide_eq_true_2 by done. cbn. by rewrite E.
    + rewrite bool_decide_eq_false_2 by done. cbn [negb].
      destruct (peek_loop_drains 101 0 0 s1) as [-> ->]; [lia..|]. done.
  - rewrite bool_decide_eq_false_2 by (intros E; rewrite E in *; simpl in *; lia). cbn [negb].
    apply (peek_loop_exits 101 0 0 s1); lia.
Qed.
End hotkeys.

(** An environment whose state is the list of waiting hot keys. *)
Definition hotkey_env (q : list MSG) (a : Win32) : Ans a * list MSG :=
  match a return Ans a * list MSG with
  | GetQueueStatus _ => (match q with [] => 0 | _ => 0x800000 end, q)%Z
  | PeekMessage _ _ _ => (head q, tail q)
  | a => ((good_env 1 a).1, q)
  end.

#[export] Instance hotkey_env_ok : HotkeyEnv hotkey_env.
Proof. exists (fun q => q); intros q; try done; by destruct q. Defined.

Lemma interrupt_polls_hotkeys_witness :
  result hotkey_env interrupt [Msg 0 WM_HOTKEY 7 0; Msg 0 WM_HOTKEY 1 0] = Some (Returns 1) /\
  hotkeys (final hotkey_env interrupt [Msg 0 WM_HOTKEY 7 0; Msg 0 WM_HOTKEY 1 0]) = [].
Proof. exact (interrupt_polls_hotkeys hotkey_env [Msg 0 WM_HOTKEY 7 0; Msg 0 WM_HOTKEY 1 0]). Defined.

(** ** The exception filter *)

(** For every exception code the message of the filter fits its 64-byte buffer
    untruncated, its digits read back as the 32-bit code, and the process exits
    with code 1 after writing it, so the filter never returns to the exception. *)
Theorem filter_reports code :
  every_run any_answer (filter code) [] (fun o tr =>
    exists digits,
      tr = [Ev (WriteStderr ("FATAL: unhandled C exception " ++ digits ++ crlf)) tt] /\
      parse_x digits 0 = u32 code /\ (String.length digits <= 8)%nat /\ o = Exits 1).
Proof.
  unfold filter, msgexit, errmsg. cbn -[snprintf format_x]. intros [] _.
  destruct (format_x_value (u32 code) (u32_range code)) as [H1 H2].
  exists (format_x (u32 code)). split_and!; try done. unfold snprintf.
  rewrite substring_all; [done|]. rewrite !string_length_app.
  change (String.length "FATAL: unhandled C exception ") with 29%nat.
  change (String.length crlf) with 2%nat. lia.
Qed.

(** ** Start-up *)

(** The state [setup] leaves: the thread it ran on, the hook and the timer thread
    only created once that is known, and the helper window if both its class and
    the window could be created. *)
Definition setup_post (g0 g : globals) (tr : list ev) : Prop :=
  exists tr1 tr2 th f,
    tr = tr1 ++ [Ev GetCurrentThreadId (main_threadid g);
                 Ev (Setup "SetWindowsHookExA" [WH_GETMESSAGE; 0; main_threadid g]%Z) (hook g);
                 Ev (CreateThread 8192) th] ++ tr2 ++ [Ev (Setup "SetUnhandledExceptionFilter" []) f] /\
    ((tr2 = [Ev (RegisterClass "helper") 0%Z] /\ helperHwnd g = helperHwnd g0) \/
     (exists atom, tr2 = [Ev (RegisterClass "helper") atom; Ev (CreateWindow "helper") 0%Z] /\
        helperHwnd g = helperHwnd g0) \/
     (exists atom, tr2 = [Ev (RegisterClass "helper") atom; Ev (CreateWindow "helper") (helperHwnd g)] /\
        helperHwnd g <> 0%Z)).

Lemma sunapp_register_acct (C : contract Ans) factory bor tr R B :
  (forall tr a r, C tr a r -> com_contract tr a r) ->
  Acct bor tr R B ->
  every_run C (sunapp_register_classes factory) tr (fun _ tr' => Acct bor tr' R B).
Proof.
  intros HC HA. unfold sunapp_register_classes. cbn. intros [hr q] Hr.
  destruct (HC _ _ _ Hr) as [[E Hq]|[E Hq]]; simpl in E, Hq; subst; acct_step HA; cbn.
  - intros r _. acct_step HA. intros r2 _. acct_step HA. done.
  - by destruct (FAILED hr) eqn:Hf; [|apply Z.ltb_ge in Hf; lia].
Qed.

Lemma setup_ok (C : contract Ans) factory g0 :
  (forall tr a r, C tr a r -> com_contract tr a r) ->
  every_run C (setup factory g0) [] (fun g tr => setup_post g0 g tr /\ Acct [] tr [] []).
Proof.
  intros HC. unfold setup. pose proof (Acct_nil []) as HA. revert HA.
  generalize (@nil ev) as tr. cbn -[sunapp_register_classes setupHelper].
  intros tr HA r1 _. acct_step HA. intros r2 _. acct_step HA.
  apply every_run_bind. eapply every_run_mono; [|by apply (sunapp_register_acct _ _ _ _ _ _ HC HA)].
  clear HA tr. cbn -[setupHelper]. intros _ tr HA. intros r3 _. acct_step HA. intros tid _. acct_step HA.
  intros hk _. acct_step HA. intros th _. acct_step HA. unfold setupHelper. cbn.
  intros atom _. acct_step HA. destruct (c_true atom) eqn:Ea; cbn.
  - intros hwnd _. acct_step HA. destruct (c_true hwnd) eqn:Eh; cbn; intros f _; acct_step HA.
    + split; [|done]. unfold setup_post. cbn.
      eexists (tr ++ [_]), [_; _], th, f. rewrite <- !app_assoc. split; [reflexivity|].
      right. right. exists atom. split; [done|by apply c_true_spec].
    + split; [|done]. unfold setup_post. cbn. apply c_true_0 in Eh as ->.
      eexists (tr ++ [_]), [_; _], th, f. rewrite <- !app_assoc. split; [reflexivity|].
      right. left. by exists atom.
  - intros f _; acct_step HA. split; [|done]. unfold setup_post. cbn. apply c_true_0 in Ea as ->.
    eexists (tr ++ [_]), [_], th, f. rewrite <- !app_assoc. split; [reflexivity|]. by left.
Qed.

(** What start-up and requests rely on: COM's results, and that messages to an
    existing window are delivered. *)
Definition start_contract : contract Ans := fun tr a r =>
  com_contract tr a r /\
  match a return Ans a -> Prop with
  | SendMessageA w _ _ _ => fun r => w <> 0%Z -> r = true
  | _ => fun _ => True
  end r.

(** After [setup], a request for a [suneido:] URL that arrives on any thread is
    answered by Go exactly once, on the very thread that ran [setup] - unless the
    helper window could not be created.  [setup] itself leaves no COM reference
    behind, and records the main thread before it creates the hook and the timer
    thread that use it. *)
Theorem setup_then_request factory junk url :
  every_run start_contract
    (g ← setup factory (Globals 0 0 0); buf ← suneidoAPP g junk url; Ret (g, buf)) []
    (fun '(g, buf) tr => exists tr1 tr2,
       tr = tr1 ++ tr2 /\ setup_post (Globals 0 0 0) g tr1 /\ Acct [] tr1 [] [] /\
       (helperHwnd g <> 0%Z -> exists result,
          go_calls tr2 = [(main_threadid g, c_str (contents url), result)] /\
          contents (buf_data buf) = result ++ [0%Z])).
Proof.
  apply every_run_bind. eapply every_run_mono; [|apply setup_ok; intros ??? [H _]; exact H].
  intros g tr1 [Hp HA]. unfold suneidoAPP. cbn. intros tid _.
  destruct (Z.eqb_spec tid (main_threadid g)) as [->|]; cbn.
  - intros result _ p _. eexists tr1, _. rewrite <- !app_assoc. split_and!; [reflexivity|done..|].
    intros _. by exists result.
  - intros [|] [_ Hs]; cbn in Hs |- *.
    + intros result _ p _. eexists tr1, _. rewrite <- !app_assoc. split_and!; [reflexivity|done..|].
      intros _. by exists result.
    + eexists tr1, _. rewrite <- !app_assoc. split_and!; [reflexivity|done..|].
      intros Hw. by specialize (Hs Hw).
Qed.

(** ** The message loop *)

(** Who a message can go to. *)
Inductive offer :=
| ToBrowser (hwnd : Z)            (** the browser control that [hwnd] belongs to *)
| ToAccelerators (window : Z)     (** the accelerators of the top-level window *)
| ToDialog (window : Z)           (** its dialog handling *)
| ToWindow.                       (** the message's own window procedure *)

(** The calls that offer message [msg] to each of them, and whether it takes it.  The user data
    of a control is its embedded browser, that of a top-level window its accelerators. *)
Inductive offered (msg : MSG) : offer -> bool -> list ev -> Prop :=
| no_browser hwnd :
    offered msg (ToBrowser hwnd) false [Ev (GetWindowLongPtrA hwnd GWLP_USERDATA) 0%Z]
| browser_inactive hwnd ob hr pi : ob <> 0%Z -> (hr < 0)%Z \/ pi = 0%Z ->
    offered msg (ToBrowser hwnd) false
      [Ev (GetWindowLongPtrA hwnd GWLP_USERDATA) ob;
       Ev (QueryInterface ob IID_IOleInPlaceActiveObject) (hr, pi)]
| browser_asked hwnd ob hr pi hr2 n : ob <> 0%Z -> (0 <= hr)%Z -> pi <> 0%Z ->
    offered msg (ToBrowser hwnd) (bool_decide (hr2 = S_OK))
      [Ev (GetWindowLongPtrA hwnd GWLP_USERDATA) ob;
       Ev (QueryInterface ob IID_IOleInPlaceActiveObject) (hr, pi);
       Ev (Invoke pi "TranslateAcceleratorA" (message_args msg)) hr2;
       Ev (Release pi) n]
| no_accelerators window :
    offered msg (ToAccelerators window) false [Ev (GetWindowLongPtrA window GWLP_USERDATA) 0%Z]
| accelerators_asked window haccel r : haccel <> 0%Z ->
    offered msg (ToAccelerators window) (bool_decide (r <> 0%Z))
      [Ev (GetWindowLongPtrA window GWLP_USERDATA) haccel;
       Ev (TranslateAcceleratorA window haccel msg) r]
| dialog_asked window r :
    offered msg (ToDialog window) (bool_decide (r <> 0%Z)) [Ev (IsDialogMessage window msg) r]
| window_dispatched r1 r2 :
    offered msg ToWindow true [Ev (TranslateMessage msg) r1; Ev (DispatchMessageA msg) r2].

(** The offers are made in order up to the first that is taken; nobody else gets the message. *)
Inductive handed (msg : MSG) : list offer -> list ev -> Prop :=
| handed_here o os tr : offered msg o true tr -> handed msg (o :: os) tr
| handed_on o os tr1 tr2 :
    offered msg o false tr1 -> handed msg os tr2 -> handed msg (o :: os) (tr1 ++ tr2).

(** The order, for a message whose top-level window is [window]: a key press in another window is
    first for the browser control there, and only top-level windows have accelerators and dialog
    handling. *)
Definition offers_for (msg : MSG) (window : Z) : list offer :=
  (if decide (msg_hwnd msg <> window /\ msg_message msg = WM_KEYDOWN) then [ToBrowser (msg_hwnd msg)] else []) ++
  (if decide (window <> 0%Z) then [ToAccelerators window; ToDialog window] else []) ++ [ToWindow].

Lemma offer_browser_offered msg window tr0 :
  every_run any_answer (offer_browser window msg) tr0 (fun b tr => exists tr1, tr = tr0 ++ tr1 /\
    if decide (msg_hwnd msg <> window /\ msg_message msg = WM_KEYDOWN)
    then offered msg (ToBrowser (msg_hwnd msg)) b tr1 else b = false /\ tr1 = []).
Proof.
  unfold offer_browser.
  destruct (Z.eqb_spec (msg_hwnd msg) window), (Z.eqb_spec (msg_message msg) WM_KEYDOWN); cbn [negb andb];
    destruct (decide _) as [D|D]; try (exfalso; tauto); try (exists []; by rewrite app_nil_r).
  cbn -[Z.eqb]. intros ob _. destruct (c_true ob) eqn:Eo; cbn -[Z.eqb].
  2: { apply c_true_0 in Eo as ->. eexists. split; [reflexivity|constructor]. }
  unfold traccel. rewrite Eo. apply c_true_spec in Eo. cbn -[Z.eqb]. intros [hr pi] _. unfold SUCCEEDED.
  destruct (Z.leb_spec 0 hr); cbn -[Z.eqb].
  2: { eexists; rewrite <- app_assoc; split; [reflexivity|]. apply browser_inactive; auto. }
  destruct (c_true pi) eqn:Ep; cbn -[Z.eqb].
  2: { apply c_true_0 in Ep as ->. eexists; rewrite <- app_assoc; split; [reflexivity|].
       apply browser_inactive; auto. }
  apply c_true_spec in Ep. intros hr2 _ cnt _. eexists. rewrite <- !app_assoc. split; [reflexivity|].
  replace (S_OK =? hr2)%Z with (bool_decide (hr2 = S_OK)); [by apply browser_asked|].
  apply eq_true_iff_eq. rewrite bool_decide_eq_true, Z.eqb_eq. split; congruence.
Qed.

Lemma c_true_decide z : c_true z = bool_decide (z <> 0%Z).
Proof. apply eq_true_iff_eq. by rewrite bool_decide_eq_true, c_true_spec. Qed.

(** The accelerators, then the dialog handling: [os] is who comes after them. *)
Lemma offer_window_offered msg window os tr0 :
  every_run any_answer (offer_window window msg) tr0 (fun b tr => exists tr1, tr = tr0 ++ tr1 /\
    let os' := if decide (window <> 0%Z) then [ToAccelerators window; ToDialog window] else [] in
    if (b : bool) then handed msg (os' ++ os) tr1
    else forall tr2, handed msg os tr2 -> handed msg (os' ++ os) (tr1 ++ tr2)).
Proof.
  unfold offer_window. rewrite c_true_decide. destruct (decide (window <> 0%Z)) as [Hw|Hw].
  2: { rewrite bool_decide_eq_false_2 by done. exists []. by rewrite app_nil_r. }
  rewrite bool_decide_eq_true_2 by done. cbn -[Z.eqb c_true]. intros haccel _.
  assert (Hd : forall tr1, offered msg (ToAccelerators window) false tr1 -> forall r b,
    b = bool_decide (r <> 0%Z) -> if b then handed msg (ToAccelerators window :: ToDialog window :: os)
                           (tr1 ++ [Ev (IsDialogMessage window msg) r])
    else forall tr2, handed msg os tr2 -> handed msg (ToAccelerators window :: ToDialog window :: os)
                           ((tr1 ++ [Ev (IsDialogMessage window msg) r]) ++ tr2)).
  { intros tr1 H1 r b Eb. pose proof (dialog_asked msg window r) as H2. rewrite <- Eb in H2.
    destruct b; [|intros tr2 H3; rewrite <- app_assoc]; apply handed_on; try done.
    - by apply handed_here.
    - by apply handed_on. }
  rewrite c_true_decide. destruct (bool_decide_reflect (haccel <> 0%Z)) as [Ha|Ha]; cbn -[Z.eqb c_true].
  - intros t _. rewrite c_true_decide. pose proof (accelerators_asked msg window haccel t Ha) as H1.
    destruct (bool_decide (t <> 0%Z)); cbn -[Z.eqb c_true].
    + eexists. rewrite <- !app_assoc. split; [reflexivity|]. by apply handed_here.
    + intros r _. rewrite <- !app_assoc. eexists. split; [reflexivity|].
      by apply (Hd _ H1), c_true_decide.
  - assert (haccel = 0%Z) as -> by lia. intros r _. rewrite <- !app_assoc. eexists.
    split; [reflexivity|]. by apply (Hd _ (no_accelerators msg window)), c_true_decide.
Qed.

(** [route] asks for the top-level window and makes the offers. *)
Lemma route_hands msg tr0 :
  every_run any_answer (route msg) tr0 (fun _ tr => exists window tr1,
    tr = tr0 ++ Ev (GetAncestor (msg_hwnd msg) GA_ROOT) window :: tr1 /\
    handed msg (offers_for msg window) tr1).
Proof.
  unfold route. cbn -[offer_browser offer_window]. intros window _. apply every_run_bind.
  eapply every_run_mono; [|apply offer_browser_offered]. cbn. intros b tr (trb & -> & Hb). unfold offers_for.
  set (os' := if decide (window <> 0%Z) then [ToAccelerators window; ToDialog window] else []).
  enough (H : b = true \/ every_run any_answer
    (w ← offer_window window msg;
     if (w : bool) then Ret tt else _ ← call (TranslateMessage msg); _ ← call (DispatchMessageA msg); Ret tt)
    ((tr0 ++ [Ev (GetAncestor (msg_hwnd msg) GA_ROOT) window]) ++ trb)
    (fun _ tr => exists tr1, tr = ((tr0 ++ [Ev (GetAncestor (msg_hwnd msg) GA_ROOT) window]) ++ trb) ++ tr1 /\
       handed msg (os' ++ [ToWindow]) tr1)).
  { destruct (decide _) as [D|D].
    - destruct b; cbn; [exists window, trb; rewrite <- app_assoc; split; [done|];
        rewrite decide_True by done; exact (handed_here _ _ (os' ++ [ToWindow]) _ Hb)|].
      destruct H as [|H]; [done|]. eapply every_run_mono; [|exact H]. intros _ tr (tr1 & -> & H1).
      exists window, (trb ++ tr1). rewrite <- !app_assoc. split; [done|].
      rewrite decide_True by done. exact (handed_on _ _ (os' ++ [ToWindow]) _ _ Hb H1).
    - destruct Hb as [-> ->]. destruct H as [|H]; [done|]. eapply every_run_mono; [|exact H].
      intros _ tr (tr1 & -> & H1). exists window, tr1. rewrite decide_False, app_nil_r, <- !app_assoc by done. done. }
  destruct b; [by left|right]. apply every_run_bind.
  eapply every_run_mono; [|apply (offer_window_offered msg window [ToWindow])]. cbn zeta. fold os'.
  intros [|] tr (tr1 & -> & H1); [by exists tr1|]. cbn. intros r1 _ r2 _. eexists. rewrite <- !app_assoc.
  split; [reflexivity|]. apply H1, handed_here, window_dispatched.
Qed.

(** The cursor that the timer replaced, if any, is put back, and the mouse is moved to where it
    is, so that Windows chooses the cursor anew. *)
Definition restored (tr : list ev) : Prop :=
  tr = [Ev LoadPrevCursor 0%Z] \/
  exists pc c old pt n, pc <> 0%Z /\
    tr = [Ev LoadPrevCursor pc; Ev LoadPrevCursor c; Ev (SetCursor c) old; Ev GetCursorPos pt;
          Ev (SetCursorPos (fst pt) (snd pt)) n].

Lemma restore_cursor_restored tr0 :
  every_run any_answer restore_cursor tr0 (fun _ tr => exists tr1, tr = tr0 ++ tr1 /\ restored tr1).
Proof.
  unfold restore_cursor. cbn -[c_true]. intros pc _. destruct (c_true pc) eqn:E; cbn -[c_true].
  - intros c _ old _ pt _ n _. eexists. rewrite <- !app_assoc. split; [reflexivity|]. right.
    exists pc, c, old, pt, n. by apply c_true_spec in E.
  - apply c_true_0 in E as ->. eexists. split; [reflexivity|by left].
Qed.

(** What happened to a message that [GetMessageA] returned with [r]: the calls after it, and
    whether the loop returns. *)
Definition handled (hdlg r : Z) (msg : MSG) (o : option Z) (tr : list ev) : Prop :=
  let started := [Ev (StoreTicks 5) tt; Ev (StorePrevCursor 0) tt] in
  if decide (r = (-1)%Z) then o = None /\ tr = []
  else if decide (msg_message msg = WM_QUIT) then
    let v := i32 (msg_wParam msg) in
    o = Some v /\ tr = started ++ if decide (hdlg = 0%Z) then [] else [Ev (PostQuitMessage v) tt]
  else if decide (hdlg <> 0%Z /\ msg = Msg hdlg WM_NULL END_MSG_LOOP END_MSG_LOOP) then
    o = Some 0%Z /\ tr = started
  else o = None /\ exists window tr2,
    tr = started ++ Ev (GetAncestor (msg_hwnd msg) GA_ROOT) window :: tr2 /\
    handed msg (offers_for msg window) tr2.

Lemma ends_loop_spec hdlg msg :
  ends_loop hdlg msg = true <-> hdlg <> 0%Z /\ msg = Msg hdlg WM_NULL END_MSG_LOOP END_MSG_LOOP.
Proof.
  unfold ends_loop. rewrite !andb_true_iff, negb_true_iff, !Z.eqb_eq, Z.eqb_neq. destruct msg; cbn.
  split; [intros [[[[? ->] ->] ->] ->]; done|intros [? [= -> -> -> ->]]; done].
Qed.

Lemma handle_message_handled hdlg r msg tr0 :
  every_run any_answer (handle_message hdlg r msg) tr0 (fun o tr => exists tr2,
    tr = tr0 ++ tr2 /\ handled hdlg r msg o tr2).
Proof.
  unfold handle_message, handled.
  destruct (Z.eqb_spec r (-1)), (decide (r = (-1)%Z)); try done.
  { exists []. by rewrite app_nil_r. }
  cbn -[route]. intros [] _ [] _.
  destruct (Z.eqb_spec (msg_message msg) WM_QUIT), (decide (msg_message msg = WM_QUIT)); try done.
  { destruct (Z.eqb_spec hdlg 0), (decide (hdlg = 0%Z)); try done; cbn; [|intros [] _]; eexists;
      rewrite <- ?app_assoc; (split; [reflexivity|done]). }
  pose proof (ends_loop_spec hdlg msg) as He.
  destruct (ends_loop hdlg msg), (decide (hdlg <> 0%Z /\ _)) as [D|D]; try (by apply He in D);
    try (exfalso; by apply D, He); cbn -[route].
  { eexists; rewrite <- ?app_assoc; split; [reflexivity|done]. }
  apply every_run_bind. eapply every_run_mono; [|apply route_hands].
  cbn. intros _ tr (window & tr1 & -> & H1). eexists; rewrite <- ?app_assoc; split; [reflexivity|].
  split; [done|]. by exists window, tr1.
Qed.


(** *** Termination

    [pending] is the messages the thread will still get, in order.  Windows
    returns them one by one, [PostQuitMessage] appends a quit message, and
    whatever else happens only appends messages that do not end a loop. *)
Definition plain (m : MSG) : Prop :=
  msg_message m <> WM_QUIT /\
  ~ (msg_message m = WM_NULL /\ msg_wParam m = END_MSG_LOOP /\ msg_lParam m = END_MSG_LOOP).

Definition quit_message (code : Z) : MSG := Msg 0 WM_QUIT (u64 code) 0.

(** Calls that do not touch the queue themselves. *)
Definition quiet (a : Win32) : Prop :=
  match a with GetMessageA | PostQuitMessage _ => False | _ => True end.

Class MessageEnv {S : Type} (h : S -> forall a, Ans a * S) := {
  pending : S -> list MSG;
  get_law s m ms : pending s = m :: ms ->
    (h s GetMessageA).1 = (c_bool (negb (msg_message m =? WM_QUIT)%Z), m);
  get_removes s m ms : pending s = m :: ms -> pending (h s GetMessageA).2 = ms;
  post_law s c : pending (h s (PostQuitMessage c)).2 = pending s ++ [quit_message c];
  keep_law s a : quiet a -> exists extra, pending (h s a).2 = pending s ++ extra /\ Forall plain extra }.

Lemma i32_u64 c : i32 (u64 c) = i32 c.
Proof.
  rewrite <- (i32_u32 (u64 c)), <- (i32_u32 c). f_equal. unfold u32, u64.
  apply Z.mod_mod_divide. by exists 4294967296%Z.
Qed.

Lemma restore_cursor_only : only_calls quiet restore_cursor.
Proof. unfold restore_cursor. cbn. repeat (split; [done|]; intros). by destruct (c_true r); cbn. Qed.

(** All the calls [route] makes. *)
Definition route_call (a : Win32) : Prop :=
  match a with
  | GetAncestor _ _ | GetWindowLongPtrA _ _ | QueryInterface _ _ | Invoke _ _ _ | Release _
  | TranslateAcceleratorA _ _ _ | IsDialogMessage _ _ | TranslateMessage _ | DispatchMessageA _ => True
  | _ => False
  end.

Lemma route_calls msg : only_calls route_call (route msg).
Proof.
  unfold route, offer_browser, offer_window, traccel. cbn. split; [done|]. intros window.
  apply only_calls_bind.
  - destruct (_ && _); cbn; [|done]. split; [done|]. intros ptr. destruct (c_true ptr); cbn; [|done].
    split; [done|]. intros [hr q]. destruct (SUCCEEDED hr), (c_true q); cbn; auto.
  - intros [|]; cbn; [done|]. apply only_calls_bind; [|intros [|]; cbn; auto].
    destruct (c_true window); cbn; [|done]. split; [done|]. intros haccel.
    destruct (c_true haccel); cbn; [|auto]. split; [done|]. intros t. destruct (c_true t); cbn; auto.
Qed.

Lemma route_only msg : only_calls quiet (route msg).
Proof. eapply only_calls_mono; [|apply route_calls]. by intros []. Qed.

Section messages.
Context {S : Type} (h : S -> forall a, Ans a * S) `{!MessageEnv h}.

(** The queue only grew, by plain messages. *)
Definition grows (s1 s2 : S) : Prop :=
  exists extra, pending s2 = pending s1 ++ extra /\ Forall plain extra.

Lemma grows_refl s : grows s s.
Proof. exists []. by rewrite app_nil_r. Qed.

Lemma grows_trans s1 s2 s3 : grows s1 s2 -> grows s2 s3 -> grows s1 s3.
Proof.
  intros (e1 & H1 & P1) (e2 & H2 & P2). exists (e1 ++ e2).
  rewrite H2, H1, <- app_assoc. split; [done|by apply Forall_app].
Qed.

Lemma quiet_grows {T} (p : act T) s : only_calls quiet p -> grows s (final h p s).
Proof using Type*.
  apply only_calls_inv; [exact grows_refl|exact grows_trans|]. intros s' a Ha. apply keep_law, Ha.
Qed.

Lemma handle_message_run hdlg s m :
  let r := (c_bool (negb (msg_message m =? WM_QUIT)%Z)) in
  let p := handle_message hdlg r m in
  (plain m -> result h p s = None /\ grows s (final h p s)) /\
  (msg_message m = WM_QUIT -> result h p s = Some (i32 (msg_wParam m)) /\
     exists extra, Forall plain extra /\
       pending (final h p s) = (pending s ++ extra) ++
         if (hdlg =? 0)%Z then [] else [quit_message (i32 (msg_wParam m))]).
Proof using Type*.
  cbn zeta. unfold handle_message. split.
  - intros [Hq He]. rewrite (proj2 (Z.eqb_neq _ _) Hq). cbn [negb c_bool Z.eqb].
    assert (ends_loop hdlg m = false) as ->.
    { apply not_true_iff_false. intros H. unfold ends_loop in H. rewrite !andb_true_iff, !Z.eqb_eq in H.
      tauto. }
    unfold mbind, prog_bind. rewrite !(result_bind_call h (StoreTicks 5)), !(final_bind_call h (StoreTicks 5)).
    rewrite !(result_bind_call h (StorePrevCursor 0)), !(final_bind_call h (StorePrevCursor 0)).
    rewrite !result_bind, !final_bind. split; [done|].
    eapply grows_trans; [by apply (keep_law s (StoreTicks 5))|].
    eapply grows_trans; [by apply (keep_law _ (StorePrevCursor 0))|].
    apply (quiet_grows (route m)), route_only.
  - intros Hq. rewrite Hq. cbn [negb c_bool Z.eqb]. rewrite Z.eqb_refl. cbn [negb c_bool Z.eqb].
    unfold mbind, prog_bind. rewrite !(result_bind_call h (StoreTicks 5)), !(final_bind_call h (StoreTicks 5)).
    rewrite !(result_bind_call h (StorePrevCursor 0)), !(final_bind_call h (StorePrevCursor 0)).
    rewrite !result_bind, !final_bind. split; [done|].
    destruct (grows_trans s _ _ (keep_law s (StoreTicks 5) I) (keep_law _ (StorePrevCursor 0) I))
      as (extra & E & P). exists extra. split; [done|].
    destruct (hdlg =? 0)%Z; cbn [negb].
    + rewrite app_nil_r. exact E.
    + rewrite <- E, <- post_law. f_equal. apply (final_call h (PostQuitMessage _)).
Qed.

Lemma loop_body_run hdlg s m ms :
  pending s = m :: ms ->
  (plain m -> result h (loop_body hdlg) s = None /\
     exists extra, Forall plain extra /\ pending (final h (loop_body hdlg) s) = ms ++ extra) /\
  (msg_message m = WM_QUIT -> result h (loop_body hdlg) s = Some (i32 (msg_wParam m)) /\
     exists extra, Forall plain extra /\ pending (final h (loop_body hdlg) s) =
       (ms ++ extra) ++ if (hdlg =? 0)%Z then [] else [quit_message (i32 (msg_wParam m))]).
Proof using Type*.
  intros Hp. unfold loop_body, mbind, prog_bind.
  rewrite !(result_bind_call h (StoreTicks 0)), !(final_bind_call h (StoreTicks 0)).
  rewrite !(result_bind h restore_cursor), !(final_bind h restore_cursor).
  set (s1 := final h restore_cursor _).
  assert (Hg : grows s s1).
  { eapply grows_trans; [by apply (keep_law s (StoreTicks 0))|].
    apply quiet_grows, restore_cursor_only. }
  clearbody s1. destruct Hg as (e1 & E1 & P1). rewrite Hp in E1.
  rewrite !(result_bind_call h GetMessageA), !(final_bind_call h GetMessageA).
  rewrite (get_law s1 m (ms ++ e1)) by done.
  pose proof (get_removes s1 m (ms ++ e1) E1) as E2.
  set (s2 := (h s1 GetMessageA).2) in *. clearbody s2.
  destruct (handle_message_run hdlg s2 m) as [H1 H2]. split; intros Hm.
  - destruct (H1 Hm) as [-> (e2 & E3 & P3)]. split; [done|]. exists (e1 ++ e2).
    rewrite E3, E2, <- app_assoc. split; [by apply Forall_app|done].
  - destruct (H2 Hm) as [-> (e2 & P3 & E3)]. split; [done|]. exists (e1 ++ e2).
    rewrite E3, E2, <- !app_assoc. split; [by apply Forall_app|done].
Qed.

(** The loop gets to the quit message, and more fuel changes nothing. *)
Lemma message_loop_run ms : forall hdlg s q rest,
  pending s = ms ++ q :: rest -> Forall plain ms -> msg_message q = WM_QUIT ->
  exists s', (forall fuel, (length ms < fuel)%nat ->
      result h (message_loop fuel hdlg) s = Some (i32 (msg_wParam q)) /\
      final h (message_loop fuel hdlg) s = s') /\
    exists extra, Forall plain extra /\ pending s' =
      (rest ++ extra) ++ if (hdlg =? 0)%Z then [] else [quit_message (i32 (msg_wParam q))].
Proof using Type*.
  induction ms as [|m ms IH]; intros hdlg s q rest Hp Hms Hq; simpl in *.
  - destruct (loop_body_run hdlg s q rest Hp) as [_ H2]. destruct (H2 Hq) as [E H3].
    exists (final h (loop_body hdlg) s). split; [|done]. intros [|fuel] Hf; [lia|].
    unfold message_loop; fold message_loop. unfold mbind, prog_bind.
    by rewrite !result_bind, !final_bind, E.
  - apply Forall_cons in Hms as [Hm Hms].
    destruct (loop_body_run hdlg s m _ Hp) as [H1 _]. destruct (H1 Hm) as [E (e1 & P1 & E1)].
    rewrite <- app_assoc in E1. simpl in E1.
    destruct (IH hdlg _ q (rest ++ e1) E1) as (s' & Hs & e2 & P2 & E2); [done..|].
    exists s'. split.
    + intros [|fuel] Hf; [lia|]. unfold message_loop; fold message_loop. unfold mbind, prog_bind.
      rewrite !result_bind, !final_bind, E. apply Hs. lia.
    + exists (e1 ++ e2). rewrite E2, <- !app_assoc. split; [by apply Forall_app|done].
Qed.

(** Dialogs run nested loops: those of the dialogs [hds], innermost first, inside
    the main one. *)
Fixpoint unwind (fuel : nat) (hds : list Z) : act (list (option Z)) :=
  match hds with
  | [] => o ← message_loop fuel 0; Ret [o]
  | hd :: hds => o ← message_loop fuel hd; r ← unwind fuel hds; Ret (o :: r)
  end.

(** C26: A quit message always gets through: whatever messages are pending before
    it and whatever the handlers post meanwhile (short of ending a loop), the
    innermost loop returns its 32-bit exit code after at most one iteration per
    message, and so does every enclosing dialog's loop and finally the main loop,
    each having received the quit message that the inner one posted again. *)
Theorem quit_unwinds hds s ms q rest
    (Hp : pending s = ms ++ q :: rest) (Hms : Forall plain ms) (Hrest : Forall plain rest)
    (Hq : msg_message q = WM_QUIT) (Hhds : Forall (fun hd => hd <> 0%Z) hds) :
  exists N, forall fuel, (N <= fuel)%nat ->
    result h (unwind fuel hds) s = replicate (Datatypes.S (length hds)) (Some (i32 (msg_wParam q))).
Proof using Type*.
  revert s ms q rest Hp Hms Hrest Hq. induction Hhds as [|hd hds Hhd _ IH]; intros.
  - destruct (message_loop_run ms 0 s q rest Hp Hms Hq) as (s' & Hs & _).
    exists (Datatypes.S (length ms)). intros fuel Hf. cbn [unwind]. unfold mbind, prog_bind.
    rewrite result_bind. by destruct (Hs fuel) as [-> _]; [lia|].
  - destruct (message_loop_run ms hd s q rest Hp Hms Hq) as (s' & Hs & extra & P & E).
    rewrite (proj2 (Z.eqb_neq hd 0) Hhd) in E.
    destruct (IH s' (rest ++ extra) (quit_message (i32 (msg_wParam q))) []) as [N HN];
      [done|by apply Forall_app|constructor|done|].
    exists (Nat.max N (Datatypes.S (length ms))). intros fuel Hf. cbn [unwind]. unfold mbind, prog_bind.
    rewrite !result_bind. destruct (Hs fuel) as [-> ->]; [lia|].
    specialize (HN fuel ltac:(lia)). cbn [quit_message msg_wParam] in HN.
    rewrite i32_u64, (i32_id (i32 _)) in HN by apply i32_range.
    rewrite HN. done.
Qed.
End messages.

(** An environment whose state is the pending messages. *)
Definition message_env (q : list MSG) (a : Win32) : Ans a * list MSG :=
  match a return Ans a * list MSG with
  | GetMessageA => match q with
                   | [] => ((-1, Msg 0 0 0 0)%Z, [])
                   | m :: q => ((c_bool (negb (msg_message m =? WM_QUIT)%Z), m), q)
                   end
  | PostQuitMessage c => (tt, q ++ [quit_message c])
  | a => ((good_env 1 a).1, q)
  end.

#[export] Instance message_env_ok : MessageEnv message_env.
Proof.
  exists (fun q => q).
  - by intros q m ms ->.
  - by intros q m ms ->.
  - done.
  - intros q a Ha. exists []. rewrite app_nil_r. by destruct a.
Defined.

(** Two dialogs above the main loop, a key press and a quit with code 3. *)
Lemma quit_unwinds_witness :
  exists N, forall fuel, (N <= fuel)%nat ->
    result message_env (unwind fuel [20; 10]%Z) [Msg 5 WM_KEYDOWN 65 0; Msg 0 WM_QUIT 3 0] =
      [Some 3; Some 3; Some 3]%Z.
Proof.
  apply (quit_unwinds message_env [20; 10]%Z [Msg 5 WM_KEYDOWN 65 0; Msg 0 WM_QUIT 3 0]
           [Msg 5 WM_KEYDOWN 65 0] (Msg 0 WM_QUIT 3 0) []);
    [done|repeat constructor; simpl; unfold WM_KEYDOWN, WM_QUIT, WM_NULL; lia|done|done|repeat constructor; lia].
Defined.
