(* ===== verification/Visits.v ===== *)
(** * What the embedded control and Suneido code do inside calls of the control

    Most calls of webbrowser.c, com.cpp and traccel.cpp enter the embedded control, which
    calls its client site before they return - [put_Width] reports a position, [DoVerb] asks
    for the window and the frame - and which may pump messages, so that keys arrive and
    Suneido code calls methods.  Each of these may make calls that enter the control again.
    A tree of [visits] says what happens inside a call; the functions of Embed and EmbedLife
    take one for each of their calls. *)

From S2P Require Import Prelude Prog Win32 Accounting WebBrowser ComDispatch CSide.

(** ** Continuing with the result of code that may fault *)

Definition and_then {A B} (p : act (option A)) (f : A -> act (option B)) : act (option B) :=
  o ← p; match (o : option A) with Some x => f x | None => fault end.

Notation "x ⇐ p ; q" := (and_then p (fun x => q)) (at level 20, p at level 100, q at level 200).
Notation "' x ⇐ p ; q" := (and_then p (fun x => q))
  (at level 20, x pattern, p at level 100, q at level 200).

(** ** What may happen *)

(** An embedded control, as builtin/webbrowser_wingui.go keeps it. *)
Record suWebBrowser := SuWebBrowser { sw_idisp : Z; sw_iOleObject : Z; sw_ptr : Z }.

Inductive happening :=
| Callback (c : site_call)                                 (* the control calls its client *)
| Message (window : Z) (msg : MSG)                         (* the message loop gets a message *)
| CallMethod (name flags : Z) (params : list VARIANT).     (* Suneido code calls a method *)

Inductive visits :=
| VDone
| VThen (h : happening) (inside : nat -> visits) (rest : visits).

(** The calls that enter objects of the control. *)
Definition enters_control (a : Win32) : bool :=
  match a with
  | QueryInterface _ _ | AddRef _ | Release _ | Invoke _ _ _ | Fetch _ _ _ | GetValue _ _ _
  | GetString _ _ _ | OleSetContainedObject _ _ => true
  | _ => false
  end.

(** The one callback that makes calls. *)
Definition reports_position (c : site_call) : bool :=
  match c with OnInPlace (inplace_OnPosRectChange _) => true | _ => false end.

(** One thing that happens, with [go n] inside its [n]-th call.  The callback that makes
    calls writes nothing itself: the memory after it is what [go] left. *)
Definition happens (wb : suWebBrowser) (go : nat -> mem -> act (option mem)) (h : happening) (m : mem)
    : act (option mem) :=
  match h with
  | Callback c =>
      let p := browser_calls (interface_ptr (sw_ptr wb) c) c m in
      if reports_position c then
        '(r, m) ⇐ around enters_control go 0 p m;
        Ret (match (r : option (mem * Z)) with Some _ => Some m | None => None end)
      else
        r ← p; Ret (option_map fst (r : option (mem * Z)))
  | Message window msg => '(_, m) ⇐ around enters_control go 0 (offer_browser window msg) m; Ret (Some m)
  | CallMethod name flags params =>
      '(_, m) ⇐ around enters_control go 0 (invoke (sw_idisp wb) name flags params) m; Ret (Some m)
  end.

Fixpoint visit (wb : suWebBrowser) (v : visits) (m : mem) : act (option mem) :=
  match v with
  | VDone => Ret (Some m)
  | VThen h inside rest => m ⇐ happens wb (fun n => visit wb (inside n)) h m; visit wb rest m
  end.

(** The program [p] with [vs n] inside its [n]-th call, on the memory [m]. *)
Definition with_visits {A} (wb : suWebBrowser) (vs : nat -> visits) (p : act A) (m : mem) : act (option (A * mem)) :=
  around enters_control (fun n => visit wb (vs n)) 0 p m.

(** ** The rules *)

(** [GlobalAlloc] fails, or returns a block that is not in use.  About the user data of the
    window a key is for nothing is promised: [U] are the values of it that are neither 0 nor an
    object that is held, whatever they are.  Windows does not know what an application stores
    there, and [offer_browser] calls any value as an object. *)
Definition embedded_contract (U : list Z) (m : mem) : contract Ans := fun tr a =>
  match a return Ans a -> Prop with
  | GlobalAlloc _ _ => fun p => p = 0%Z \/ forall a, in_block p a -> m !! a = None
  | GetWindowLongPtrA _ _ => fun p => p = 0%Z \/ (0 < held tr p)%Z \/ p ∈ U
  | a => com_contract tr a
  end.

(** The control passes distinct pointers to memory of its own for results. *)
Definition outs (h : happening) : list Z := match h with Callback c => out_params c | _ => [] end.

Definition well_behaved (m : mem) (h : happening) : Prop :=
  NoDup (outs h) /\ Forall (fun a => is_Some (m !! a)) (outs h).

#[export] Instance well_behaved_dec m h : Decision (well_behaved m h).
Proof. unfold well_behaved. apply _. Defined.

(** All results go to [written]. *)
Fixpoint polite (m : mem) (written : list Z) (v : visits) : Prop :=
  match v with
  | VDone => True
  | VThen h inside rest =>
      well_behaved m h /\ (forall a, a ∈ outs h -> a ∈ written) /\
      (forall n, polite m written (inside n)) /\ polite m written rest
  end.

(** What happens once the last reference was given up: the control still calls its client, but
    reports no position, which only an object that is active in place does, and nobody calls the
    control. *)
Definition calm (h : happening) : bool :=
  match h with Callback c => negb (reports_position c) | _ => false end.

Fixpoint calm_visits (v : visits) : Prop :=
  match v with VDone => True | VThen h _ rest => calm h = true /\ calm_visits rest end.

(** ** The callbacks and the accounts *)

(** All callbacks but one make no calls. *)
Definition silent {T} (p : act T) : Prop := only_calls (fun _ => False) p.

Lemma silent_run {T} C (p : act T) Q tr : silent p -> every_run C p tr Q ->
  every_run C p tr (fun x tr' => Q x tr' /\ tr' = tr).
Proof. destruct p; [done|]. by intros [[] _]. Qed.

Lemma silent_store a v r m : silent (store_return a v r m).
Proof. unfold store_return. by destruct (store m a v). Qed.

Lemma silent_query site riid p m : silent (Site_QueryInterface site riid p m).
Proof. unfold Site_QueryInterface. repeat case_match; apply silent_store. Qed.

Ltac silent_match :=
  repeat match goal with
  | |- silent (Ret _) => exact I
  | |- silent fault => exact I
  | |- silent (store_return _ _ _ _) => apply silent_store
  | |- silent (Site_QueryInterface _ _ _ _) => apply silent_query
  | |- silent (match ?x with _ => _ end) => destruct x
  end.

Lemma browser_call_silent This c m : reports_position c = false -> silent (browser_calls This c m).
Proof.
  intros Hc. unfold browser_calls. destruct (lpVtbl m This) as [[]|]; [..|exact I]; destruct c as [c|c|c|c];
    try exact I; destruct c; try exact I; try discriminate; try apply silent_store; try apply silent_query.
  all: cbn -[silent]; unfold InPlace_GetWindow, InPlace_GetWindowContext, Frame_GetWindow, UI_GetHostInfo; silent_match.
Qed.

Lemma pos_rect_change_ok ptr hwnd obj m rect tr :
  site_block m ptr hwnd obj -> Acct [obj] tr [] [] ->
  every_run com_contract
    (InPlace_OnPosRectChange (interface_ptr ptr (OnInPlace inplace_AddRef)) rect m) tr
    (fun r tr' => r = Some (m, S_OK) /\ Acct [obj] tr' [] [] /\
       exists a tr2, tr' = tr ++ Ev (QueryInterface obj IID_IOleInPlaceObject) a :: tr2).
Proof.
  intros Hb HA. unfold InPlace_OnPosRectChange.
  replace (interface_ptr ptr (OnInPlace inplace_AddRef) - sizeof_ptr - sizeof_IOleClientSite)%Z
    with ptr by (unfold_layout; lia).
  unfold load. rewrite (sb_object _ _ _ _ Hb). cbn.
  intros [hr q] [[E Hq]|[E Hq]]; simpl in E, Hq; subst; acct_step HA; cbn.
  - intros r1 _. acct_step HA. intros r2 _. acct_step HA. split_and!; [done..|].
    rewrite <- !(assoc_L (++)). simpl. eauto.
  - destruct (Z.eqb_spec hr 0); [lia|]. cbn. eauto.
Qed.

Lemma callback_ok ptr hwnd obj m c : site_block m ptr hwnd obj -> well_called m ptr (interface_ptr ptr c) c ->
  every_run com_contract (browser_calls (interface_ptr ptr c) c m) [] (fun r tr =>
    site_ok ptr hwnd obj m (out_params c) r /\ Acct [obj] tr [] []).
Proof.
  intros Hb Hc. destruct (reports_position c) eqn:Hs.
  - destruct c as [c|c|c|c]; try discriminate. destruct c; try discriminate.
    unfold browser_calls. rewrite (site_block_vtbl m ptr hwnd obj) by done.
    eapply every_run_mono; [|apply (pos_rect_change_ok ptr hwnd obj m lprcPosRect []); [done|apply Acct_nil]].
    intros r tr (-> & HA & _). split; [|done]. exists m, S_OK. split_and!; [done..|apply only_outs_refl].
  - eapply every_run_mono; [|apply silent_run, every_run_contract with (C := any_answer);
      [by apply browser_call_silent|done|by apply browser_call_ok]].
    intros r tr [Hr ->]. split; [done|apply Acct_nil].
Qed.

(** ** The invariant *)

(** An environment that respects the contract of COM; the user data of every window names the
    object 7. *)
Definition user_data : Z := 7.

Definition caller_env (s : Z) (a : Win32) : Ans a * Z :=
  match a return Ans a * Z with
  | GetWindowLongPtrA _ _ => (user_data, s)
  | a => good_env (Z.max 100 s) a
  end.

Lemma caller_env_com s tr a : com_contract tr a (caller_env s a).1.
Proof.
  destruct a; cbn; try done; try (left; split; [done|simpl; lia]); try lia.
  left. split; [done|]. eexists _, _. split; [reflexivity|lia].
Qed.

Lemma embedded_com U m tr t a r : embedded_contract U m tr a r -> com_contract t a r.
Proof. by destruct a. Qed.

Section life.
Context (U : list Z) (m0 : mem) (hwnd : Z) (written : list Z).

(** While the control lives: the block is initialised, all the memory that was there is
    still there, and only results were written since [m1], the memory after the embedding. *)
Definition living (ptr obj : Z) (m1 m : mem) : Prop :=
  site_block m ptr hwnd obj /\ (forall a, is_Some (m0 !! a) -> is_Some (m !! a)) /\
  (forall a, a ∉ written -> m !! a = m1 !! a) /\ (forall a, in_block ptr a -> m0 !! a = None).

(** What the application holds. *)
Definition web_refs (wb : suWebBrowser) : list Z :=
  if c_true (sw_idisp wb) then [sw_idisp wb; sw_iOleObject wb] else [sw_iOleObject wb].

Lemma web_refs_object wb : sw_iOleObject wb ∈ web_refs wb.
Proof using. unfold web_refs. destruct (c_true _); [apply list_elem_of_further|]; apply list_elem_of_here. Qed.

Section control.
Context (wb : suWebBrowser) (m1 : mem).

Definition lives : mem -> Prop := living (sw_ptr wb) (sw_iOleObject wb) m1.

Definition harmless (go : mem -> act (option mem)) : Prop :=
  undisturbed (embedded_contract U m0) lives U (web_refs wb) go.

Lemma site_ok_lives m c r : lives m -> (forall a, a ∈ out_params c -> a ∈ written) ->
  site_ok (sw_ptr wb) hwnd (sw_iOleObject wb) m (out_params c) r -> exists m' v, r = Some (m', v) /\ lives m'.
Proof using.
  intros (Hb & Hmap & Hsame & Hfresh) Hw (m' & v & -> & Hb' & Hd & Hout). exists m', v. split; [done|]. split_and!; [done| | |done].
  - intros a Ha. rewrite <- elem_of_dom, Hd, elem_of_dom. by apply Hmap.
  - intros a Ha. rewrite Hout; [by apply Hsame|]. intros Hin. by apply Ha, Hw.
Qed.

Lemma well_called_lives m c : lives m -> well_behaved m0 (Callback c) ->
  well_called m (sw_ptr wb) (interface_ptr (sw_ptr wb) c) c.
Proof using.
  intros (_ & Hmap & _ & Hfresh) [Hnd Ho]. split_and!; [done|done|]. eapply Forall_impl; [exact Ho|]. intros a Ha. split; [by apply Hmap|].
  intros Hin. pose proof (Hfresh a Hin) as E. destruct Ha as [x Hx]. congruence.
Qed.

(** Code that leaves nothing behind, with harmless code inside its calls. *)
Lemma even_harmless {A} go (p : act A) (P : A -> Prop) bor n m tr : (forall n, harmless (go n)) ->
  lives m -> sound U tr -> all_held tr (web_refs wb) -> usable U tr bor ->
  every_run com_contract p [] (fun x t => P x /\ Acct bor t [] []) ->
  every_run (embedded_contract U m0) (around enters_control go n p m) tr (fun o tr' => exists x m',
    o = Some (x, m') /\ lives m' /\ P x /\ sound U tr' /\ stays tr tr').
Proof using.
  intros Hgo Hm Hs HG Hbor Hp.
  exact (around_even (embedded_contract U m0) com_contract (embedded_com U m0) caller_env 0%Z caller_env_com lives U (web_refs wb)
    enters_control go p P bor tr m n Hgo Hm Hs HG Hbor Hp).
Qed.

(** ** Each thing that happens *)

Lemma quiet_callback c m tr : reports_position c = false -> lives m -> well_behaved m0 (Callback c) ->
  (forall a, a ∈ out_params c -> a ∈ written) ->
  every_run (embedded_contract U m0) (browser_calls (interface_ptr (sw_ptr wb) c) c m) tr (fun r tr' =>
    (exists m' v, r = Some (m', v) /\ lives m') /\ tr' = tr).
Proof using.
  intros Hc Hm Hb Hw. apply silent_run; [by apply browser_call_silent|].
  apply every_run_contract with (C := any_answer); [done|]. eapply every_run_mono; [|apply browser_call_ok; [apply Hm|by apply well_called_lives]].
  intros r tr' Hr. by eapply site_ok_lives.
Qed.

Lemma callback_harmless go c : (forall n, harmless (go n)) -> well_behaved m0 (Callback c) ->
  (forall a, a ∈ out_params c -> a ∈ written) -> harmless (happens wb go (Callback c)).
Proof using.
  intros Hgo Hb Hw m tr Hm Hs HG. cbn [happens]. destruct (reports_position c) eqn:Hc.
  - unfold and_then. apply every_run_bind. eapply every_run_mono; [|eapply (even_harmless go _ _ [sw_iOleObject wb]);
      [exact Hgo|exact Hm|exact Hs|exact HG| |apply callback_ok; [apply Hm|by apply well_called_lives]]].
    + intros o tr' (r & m' & -> & Hm' & Hr & Hs' & Hst). destruct (site_ok_lives m c r Hm Hw Hr) as (m2 & v & -> & _). by exists m'.
    + apply Forall_singleton. right. eapply Forall_forall in HG; [exact HG|apply web_refs_object].
  - apply every_run_bind. eapply every_run_mono; [|by apply quiet_callback].
    intros r tr' [(m' & v & -> & Hm') ->]. exists m'. by split_and!.
Qed.

Lemma message_harmless go window msg : (forall n, harmless (go n)) -> harmless (happens wb go (Message window msg)).
Proof using.
  intros Hgo m tr Hm Hs HG. cbn [happens]. unfold and_then. apply every_run_bind.
  eapply every_run_mono with (Q1 := fun o tr' => exists x m', o = Some (x, m') /\ lives m' /\ True /\ sound U tr' /\ stays tr tr').
  { intros o tr' (x & m' & -> & Hm' & _ & Hs' & Hst). by exists m'. }
  unfold offer_browser. destruct (_ && _); [|by exists false, m]. cbn -[traccel around]. cbn [around call bind].
  intros p Hp. set (e := Ev (GetWindowLongPtrA (msg_hwnd msg) GWLP_USERDATA) p). cbn in Hp.
  assert (He : neutral e) by done. pose proof (stays_neutral tr e He) as Hst.
  assert (Hs2 : sound U (tr ++ [e])) by by apply sound_neutral.
  cbn [enters_control]. destruct (c_true p) eqn:Ep; [|by exists false, m].
  eapply every_run_mono; [|eapply (even_harmless go _ (fun _ => True) [p]); [exact Hgo|exact Hm|exact Hs2|by eapply stays_held| |]].
  - intros o tr' (x & m' & -> & Hm' & _ & Hs' & Hst'). exists x, m'. split_and!; try done. by eapply stays_trans.
  - apply Forall_singleton. destruct Hp as [->|[Hp|Hp]]; [done|right|by left]. by destruct (Hst p) as [-> _].
  - apply every_run_bind. eapply every_run_mono; [|apply every_run_contract with (C := any_answer); [done|apply traccel_ok]]. done.
Qed.

Lemma method_harmless go name flags params : (forall n, harmless (go n)) ->
  harmless (happens wb go (CallMethod name flags params)).
Proof using.
  intros Hgo m tr Hm Hs HG. cbn [happens]. unfold and_then. apply every_run_bind.
  eapply every_run_mono with (Q1 := fun o tr' => exists x m', o = Some (x, m') /\ lives m' /\ True /\ sound U tr' /\ stays tr tr').
  { intros o tr' (x & m' & -> & Hm' & _ & Hs' & Hst). by exists m'. }
  destruct (c_true (sw_idisp wb)) eqn:Ei.
  - eapply even_harmless with (bor := [sw_idisp wb]); [exact Hgo|exact Hm|exact Hs|exact HG| |].
    + apply Forall_singleton. right. eapply Forall_forall in HG; [exact HG|]. unfold web_refs. rewrite Ei. apply list_elem_of_here.
    + eapply every_run_mono; [|apply every_run_contract with (C := any_answer); [done|apply invoke_ok]].
      intros [hr args] tr' (? & _). by split.
  - apply c_true_0 in Ei. unfold invoke, invoke2. rewrite Ei. by eexists _, m.
Qed.

Lemma happens_harmless go h : (forall n, harmless (go n)) -> well_behaved m0 h ->
  (forall a, a ∈ outs h -> a ∈ written) -> harmless (happens wb go h).
Proof using.
  intros Hgo Hb Hw. destruct h; [by apply callback_harmless|by apply message_harmless|by apply method_harmless].
Qed.

(** Any tree of visits is harmless. *)
Lemma visit_harmless v : polite m0 written v -> harmless (visit wb v).
Proof using.
  induction v as [|h inside IHi rest IHr]; cbn [polite visit]; intros Hp m tr Hm Hs HG; [by exists m|].
  destruct Hp as (Hb & Hw & Hi & Hr). unfold and_then. apply every_run_bind.
  eapply every_run_mono; [|apply (happens_harmless _ h (fun n => IHi n (Hi n)) Hb Hw m tr Hm Hs HG)].
  intros o tr' (m' & -> & Hm' & Hs' & Hst). eapply every_run_mono; [|apply (IHr Hr m' tr' Hm' Hs'); by eapply stays_held].
  intros o tr2 (m2 & -> & Hm2 & Hs2 & Hst2). exists m2. split_and!; try done. by eapply stays_trans.
Qed.

Lemma with_visits_ok {A} vs (p : act A) (P : A -> Prop) bor R' B' tr R B m : (forall n, polite m0 written (vs n)) ->
  lives m -> Acct U tr R B -> (forall o, o ∈ web_refs wb -> o ∈ R) -> (forall o, o ∈ bor -> o ∈ R) ->
  every_run com_contract p [] (fun x t => P x /\ Acct bor t (R' x) (B' x)) ->
  every_run (embedded_contract U m0) (with_visits wb vs p m) tr (fun o tr' => exists x m',
    o = Some (x, m') /\ lives m' /\ P x /\ Acct U tr' (R' x ++ R) (B' x ++ B)).
Proof using.
  intros Hv Hm HA HG Hbor Hp. eapply (around_accounts (embedded_contract U m0) com_contract (embedded_com U m0) caller_env 0%Z caller_env_com
    lives U (web_refs wb) enters_control (fun n => visit wb (vs n)) p P bor); try done.
  intros n. by apply visit_harmless.
Qed.

(** Nothing calls the control once its last reference was given up. *)
Lemma last_visits v : polite m0 written v -> calm_visits v -> forall m tr, lives m ->
  every_run (embedded_contract U m0) (visit wb v m) tr (fun o tr' => (exists m', o = Some m' /\ lives m') /\ tr' = tr).
Proof using.
  induction v as [|h inside _ rest IHr]; cbn [polite visit calm_visits]; intros Hp Hc m tr Hm; [split; [by exists m|done]|].
  destruct Hp as (Hb & Hw & _ & Hr), Hc as [Hc Hcr].
  destruct h as [c| |]; try discriminate. cbn [calm] in Hc. apply negb_true_iff in Hc. cbn [happens]. rewrite Hc.
  unfold and_then. apply every_run_bind, every_run_bind. eapply every_run_mono; [|by apply quiet_callback].
  intros r tr' [(m' & x & -> & Hm') ->]. cbn. by apply IHr.
Qed.

Lemma release_visits_ok o v m tr R B : polite m0 written v -> calm_visits v -> lives m -> Acct U tr (o :: R) B ->
  every_run (embedded_contract U m0) (with_visits wb (fun _ => v) (call (Release o)) m) tr (fun r tr' => exists x m',
    r = Some (x, m') /\ lives m' /\ Acct U tr' R B).
Proof using.
  intros Hv Hc Hm HA. unfold with_visits. cbn -[visit]. intros r _. acct_step HA. apply every_run_bind.
  eapply every_run_mono; [|by apply last_visits]. intros x tr' [(m' & -> & Hm') ->]. by exists r, m'.
Qed.

(** The release of another interface: the control is still held. *)
Lemma drop_visits_ok o vs m tr R B : (forall n, polite m0 written (vs n)) -> lives m ->
  Acct U tr ((if c_true o then [o] else []) ++ R) B -> (forall q, q ∈ web_refs wb -> q ∈ R) ->
  every_run (embedded_contract U m0) (with_visits wb vs (release o) m) tr (fun r tr' => exists x m',
    r = Some (x, m') /\ lives m' /\ Acct U tr' R B).
Proof using.
  intros Hv Hm HA HG. unfold with_visits, release. destruct (c_true o); [|by exists 0%Z, m]. cbn -[visit] in HA |- *.
  intros r _. acct_step HA. apply every_run_bind. eapply every_run_mono; [|apply visit_harmless; [apply Hv|exact Hm|by eapply Acct_sound|]].
  - intros x tr' (m' & -> & Hm' & Hs & Hst). exists (i32 r), m'. split_and!; [done..|]. by eapply stays_Acct.
  - apply Forall_forall. intros q Hq. by eapply Acct_held, HG.
Qed.
End control.
End life.

(** ** Examples *)

Definition nothing (n : nat) : visits := VDone.

(** A callback with nothing inside it. *)
Definition VCall (c : site_call) (rest : visits) : visits := VThen (Callback c) nothing rest.

(** Above 100 nothing is in use. *)
Lemma caller_env_embedded (m : mem) s tr a : (forall a, (100 <= a)%Z -> m !! a = None) ->
  embedded_contract [user_data] m tr a (caller_env s a).1.
Proof.
  intros Hm. destruct a; cbn; try done; try (left; split; [done|simpl; lia]).
  all: first [lia|by left|by right; right; apply list_elem_of_here|right; intros a Ha; apply Hm; revert Ha; unfold_layout; lia|idtac].
  left. split; [done|]. eexists _, _. split; [reflexivity|lia].
Qed.

(** A concrete tree obeys the rules. *)
Ltac polite_step :=
  lazymatch goal with
  | |- forall n : nat, _ => intros ?
  | |- polite _ _ VDone => exact I
  | |- calm_visits VDone => exact I
  | |- calm_visits (VThen _ _ _) => split; [reflexivity|]
  | |- calm_visits (VCall _ _) => split; [reflexivity|]
  | |- polite _ _ (nothing _) => exact I
  | |- polite _ _ (VThen _ _ _) => split; [|split; [|split]]
  | |- polite _ _ (VCall _ _) => split; [|split; [|split]]
  | |- polite _ _ (match ?n with _ => _ end) => destruct n; cbv beta iota
  | |- polite _ _ ?v => let v' := eval hnf in v in change v with v'
  | |- calm_visits ?v => let v' := eval hnf in v in change v with v'
  | |- well_behaved _ _ => apply (bool_decide_eq_true_1 _); vm_compute; reflexivity
  | |- forall a, a ∈ outs _ -> a ∈ _ => intros ?; cbn; rewrite ?elem_of_cons, ?elem_of_nil; tauto
  end.
Ltac polite := repeat polite_step.
