(* ===== verification/Embed.v ===== *)
(** * Embedding and removing the browser (webbrowser.c)

    [EmbedBrowserObject] allocates the block of [WebBrowser], creates the
    browser control, gives it the client site and shows it in the window;
    [UnEmbedBrowserObject] undoes it.  From the moment the control has the site it may
    call it back inside every call it gets, which [behaviour] says.  The theorems account
    for every reference and every block on all of the paths, whatever the calls answer. *)

From S2P Require Import Prelude Prog Win32 Accounting WebBrowser ComDispatch CSide Visits.

(** ** Allocation *)

(** The addresses of the fields of the block at [ptr]. *)
Definition block_fields (ptr : Z) : list Z :=
  let site := site_of ptr in
  [ptr; site + clientEx_client; site + clientEx_inplace;
   site + clientEx_inplace + siteEx_frame;
   site + clientEx_inplace + siteEx_frame + frameEx_window;
   site + clientEx_ui]%Z.

Definition alloc_block (ptr : Z) (m : mem) : mem :=
  foldr (fun a m => <[a := Undef]> m) m (block_fields ptr).

Definition free_block (ptr : Z) (m : mem) : mem :=
  foldr (fun a m => delete a m) m (block_fields ptr).

(** ** The functions *)

Definition GMEM_FIXED : Z := 0.
Definition OLECLOSE_NOSAVE : Z := 1.
Definition OLEIVERB_SHOW : Z := -1.
Definition CLSCTX_INPROC_SERVER : Z := 1.
Definition CLSCTX_INPROC_HANDLER : Z := 2.

(** What happens inside the calls of a control, over its life. *)
Record behaviour := Behaviour {
  in_setup : nat -> visits;   (* inside the calls of [setup_browser] *)
  in_query : nat -> visits;   (* inside those of [queryIDispatch] *)
  in_life : visits;           (* from the embedding to the release *)
  in_drop : nat -> visits;    (* while the automation interface is released *)
  in_close : visits;          (* inside [Close] *)
  in_release : visits;        (* inside the last [Release], while the control is still all there *)
  in_gone : visits }.         (* the rest of it, when its last reference is gone *)

(** The control before it was asked for its automation interface, and after that is released. *)
Definition control (browserObject ptr : Z) : suWebBrowser := SuWebBrowser 0 browserObject ptr.

Definition UnEmbedBrowserObject (b : behaviour) (browserObject ptr : Z) (m : mem) : act (option mem) :=
  '(_, m) ⇐ with_visits (control browserObject ptr) (fun _ => in_close b)
             (call (Invoke browserObject "Close" [AInt OLECLOSE_NOSAVE])) m;
  m ⇐ visit (control browserObject ptr) (in_release b) m;
  '(_, m) ⇐ with_visits (control browserObject ptr) (fun _ => in_gone b) (call (Release browserObject)) m;
  _ ← call (GlobalFree ptr);
  Ret (Some (free_block ptr m)).

(** The structures are initialised before anything of them is published. *)
Definition init_site (hwnd ptr : Z) (m : mem) : mem :=
  let site := site_of ptr in
  <[(site + clientEx_ui)%Z := Vtbl MyIDocHostUIHandlerTable]>
  (<[(site + clientEx_inplace + siteEx_frame + frameEx_window)%Z := Word hwnd]>
  (<[(site + clientEx_inplace + siteEx_frame)%Z := Vtbl MyIOleInPlaceFrameTable]>
  (<[(site + clientEx_inplace)%Z := Vtbl MyIOleInPlaceSiteTable]>
  (<[(site + clientEx_client)%Z := Vtbl MyIOleClientSiteTable]> m)))).

(** From [SetClientSite] to the release of the [IWebBrowser2]: [true] when the
    browser is set up. *)
Definition setup_browser (hwnd browserObject site : Z) : act bool :=
  hr ← call (Invoke browserObject "SetClientSite" [APtr site]);
  if (hr =? 0)%Z then
    _ ← call (Invoke browserObject "SetHostNames" [AStr "Suneido Host"; APtr 0]);
    rect ← call (GetClientRect hwnd);
    hr ← call (OleSetContainedObject browserObject true);
    if (hr =? 0)%Z then
      hr ← call (Invoke browserObject "DoVerb"
             [AInt OLEIVERB_SHOW; APtr 0; APtr site; AInt (-1); APtr hwnd; ARect rect]);
      if (hr =? 0)%Z then
        '(hr, webBrowser2) ← call (QueryInterface browserObject IID_IWebBrowser2);
        if (hr =? 0)%Z then
          _ ← call (Invoke webBrowser2 "put_Left" [AInt 0]);
          _ ← call (Invoke webBrowser2 "put_Top" [AInt 0]);
          _ ← call (Invoke webBrowser2 "put_Width" [AInt (rc_right rect)]);
          _ ← call (Invoke webBrowser2 "put_Height" [AInt (rc_bottom rect)]);
          _ ← call (Release webBrowser2);
          Ret true
        else Ret false
      else Ret false
    else Ret false
  else Ret false.

(** After [CreateInstance]: the object is stored in the block before the control gets the
    site, inside whose calls it is needed. *)
Definition host_browser (b : behaviour) (hwnd browserObject ptr pBrowserObject pPtr : Z) (m : mem)
    : act (option (mem * Z)) :=
  let m := <[ptr := Word browserObject]> m in
  '(ok, m) ⇐ with_visits (control browserObject ptr) (in_setup b)
               (setup_browser hwnd browserObject (site_of ptr)) m;
  if (ok : bool) then
    match (m ← store m pBrowserObject browserObject; store m pPtr ptr) with
    | Some m => Ret (Some (m, 0)%Z)
    | None => fault
    end
  else
    m ⇐ UnEmbedBrowserObject b browserObject ptr m;
    Ret (Some (m, -4)%Z).

Definition EmbedBrowserObject (b : behaviour) (hwnd pBrowserObject pPtr : Z) (m : mem) : act (option (mem * Z)) :=
  match store m pBrowserObject 0 with
  | None => fault
  | Some m =>
      ptr ← call (GlobalAlloc GMEM_FIXED (sizeof_clientEx + sizeof_ptr));
      if negb (c_true ptr) then Ret (Some (m, -1)%Z)
      else
        let m := init_site hwnd ptr (alloc_block ptr m) in
        '(hr, pClassFactory) ← call (CoGetClassObject CLSID_WebBrowser
            (Z.lor CLSCTX_INPROC_SERVER CLSCTX_INPROC_HANDLER) IID_IClassFactory);
        if (hr =? 0)%Z && c_true pClassFactory then
          '(hr, browserObject) ← call (Fetch pClassFactory "CreateInstance"
              [APtr 0; AIid IID_IOleObject]);
          if (hr =? 0)%Z then
            _ ← call (Release pClassFactory);
            host_browser b hwnd browserObject ptr pBrowserObject pPtr m
          else
            _ ← call (Release pClassFactory);
            _ ← call (GlobalFree ptr);
            Ret (Some (free_block ptr m, -3)%Z)
        else
          _ ← call (GlobalFree ptr);
          Ret (Some (free_block ptr m, -2)%Z)
  end.

(** ** Lemmas *)

#[global] Arguments free_block _ _ : simpl never.
#[global] Arguments alloc_block _ _ : simpl never.
#[global] Arguments init_site _ _ _ : simpl never.
#[global] Arguments setup_browser _ _ _ : simpl never.
#[global] Arguments host_browser _ _ _ _ _ _ _ : simpl never.

Lemma site_block_init hwnd ptr obj m :
  site_block (<[ptr := Word obj]> (init_site hwnd ptr (alloc_block ptr m))) ptr hwnd obj.
Proof.
  constructor; unfold init_site; unfold_layout;
    repeat first [apply lookup_insert_eq | rewrite lookup_insert_ne by lia].
Qed.

Lemma block_fields_in ptr a : a ∈ block_fields ptr -> in_block ptr a.
Proof.
  unfold block_fields. unfold_layout. rewrite !elem_of_cons, elem_of_nil. lia.
Qed.

Lemma lookup_free_block ptr m a : a ∉ block_fields ptr -> free_block ptr m !! a = m !! a.
Proof.
  unfold free_block. induction (block_fields ptr) as [|b l IH]; simpl; [done|].
  rewrite not_elem_of_cons. intros [? ?]. rewrite lookup_delete_ne by done. auto.
Qed.

Lemma lookup_free_block_in ptr m a : a ∈ block_fields ptr -> free_block ptr m !! a = None.
Proof.
  unfold free_block. induction (block_fields ptr) as [|b l IH]; simpl.
  - by rewrite elem_of_nil.
  - rewrite elem_of_cons. intros [->|?].
    + apply lookup_delete_eq.
    + destruct (decide (b = a)) as [->|]; [apply lookup_delete_eq|].
      rewrite lookup_delete_ne by done. auto.
Qed.

(** Memory outside the block is not touched by its initialisation. *)
Lemma lookup_init_site hwnd ptr m a :
  a ∉ block_fields ptr -> init_site hwnd ptr (alloc_block ptr m) !! a = m !! a.
Proof.
  unfold block_fields, init_site, alloc_block. cbn.
  rewrite !not_elem_of_cons. intros (? & ? & ? & ? & ? & ? & _).
  rewrite !lookup_insert_ne by done. done.
Qed.

Lemma free_block_insert ptr a (c : cell) (m : mem) :
  ~ in_block ptr a -> free_block ptr (<[a := c]> m) = <[a := c]> (free_block ptr m).
Proof.
  intros Ha. unfold free_block.
  assert (Hb : Forall (fun b => b <> a) (block_fields ptr)).
  { apply Forall_forall. intros b Hb ->. by apply Ha, block_fields_in. }
  induction Hb as [|b l Hba _ IH]; simpl; [done|].
  rewrite IH. by rewrite delete_insert_ne.
Qed.

Lemma setup_browser_ok hwnd obj site :
  every_run com_contract (setup_browser hwnd obj site) [] (fun _ tr => True /\ Acct [obj] tr [] []).
Proof.
  pose proof (Acct_nil [obj]) as HA. revert HA. generalize (@nil ev) as tr. intros tr HA. unfold setup_browser. cbn.
  intros r1 _. acct_step HA. case_match; cbn; [|done].
  intros r2 _. acct_step HA. intros rect _. acct_step HA.
  intros r3 _. acct_step HA. case_match; cbn; [|done].
  intros r4 _. acct_step HA. case_match; cbn; [|done].
  intros [hr q] Hq. destruct Hq as [[E Hq]|[E Hq]]; simpl in *; subst; acct_step HA; cbn.
  - intros r5 _. acct_step HA. intros r6 _. acct_step HA. intros r7 _. acct_step HA.
    intros r8 _. acct_step HA. intros r9 _. acct_step HA. done.
  - case_match; [lia|]. done.
Qed.

Lemma mapped_fresh (m : mem) ptr a :
  (forall a, in_block ptr a -> m !! a = None) -> is_Some (m !! a) -> ~ in_block ptr a.
Proof. intros Hf [c Hc] Ha. rewrite (Hf a Ha) in Hc. done. Qed.

(** ** From the initialised block to the end *)

(** All that happens is by the rules, and all results go to [written]. *)
Record behaves (m : mem) (written : list Z) (b : behaviour) : Prop := Behaves {
  polite_setup : forall n, polite m written (in_setup b n);
  polite_query : forall n, polite m written (in_query b n);
  polite_life : polite m written (in_life b);
  polite_drop : forall n, polite m written (in_drop b n);
  polite_close : polite m written (in_close b);
  polite_release : polite m written (in_release b);
  polite_gone : polite m written (in_gone b);
  calm_gone : calm_visits (in_gone b) }.

Section embedding.
Context (U : list Z) (m : mem) (hwnd : Z) (written : list Z) (ptr obj : Z).
Context (Hf : forall a, in_block ptr a -> m !! a = None).

(** Memory when the control gets the site: [*pBrowserObject] was cleared, the block is
    initialised and the object stored in it. *)
Definition at_start (pB : Z) : mem := <[ptr := Word obj]> (init_site hwnd ptr (alloc_block ptr (<[pB := Word 0]> m))).

Lemma lookup_at_start pB a : a ∉ block_fields ptr -> at_start pB !! a = <[pB := Word 0]> m !! a.
Proof using.
  clear Hf. intros Ha. unfold at_start. rewrite lookup_insert_ne; [by apply lookup_init_site|].
  intros ->. apply Ha, list_elem_of_here.
Qed.

Lemma living_start pB : living m hwnd written ptr obj (at_start pB) (at_start pB).
Proof using Hf.
  split_and!; [apply site_block_init| |done|exact Hf]. intros a Ha.
  rewrite lookup_at_start by (intros Hin%block_fields_in; by apply (mapped_fresh m ptr a)). by apply mapped_insert.
Qed.

(** Freeing the block brings back what was there. *)
Lemma free_living pB m' a : living m hwnd written ptr obj (at_start pB) m' -> a ∉ written -> is_Some (m !! pB) ->
  free_block ptr m' !! a = <[pB := Word 0]> m !! a.
Proof using Hf.
  intros (_ & _ & Hsame & _) Ha HB. destruct (decide (a ∈ block_fields ptr)) as [Hin|Hin].
  - rewrite lookup_free_block_in by done. pose proof (block_fields_in _ _ Hin) as Hb.
    rewrite lookup_insert_ne by (intros ->; by apply (mapped_fresh m ptr a)). symmetry. by apply Hf.
  - rewrite lookup_free_block, Hsame by done. by apply lookup_at_start.
Qed.

Lemma UnEmbed_ok b m1 m' tr : behaves m written b -> living m hwnd written ptr obj m1 m' -> Acct U tr [obj] [ptr] ->
  every_run (embedded_contract U m) (UnEmbedBrowserObject b obj ptr m') tr (fun r tr' =>
    exists m2, r = Some (free_block ptr m2) /\ living m hwnd written ptr obj m1 m2 /\ Acct U tr' [] []).
Proof using.
  intros Hb Hm HA. unfold UnEmbedBrowserObject, and_then. apply every_run_bind.
  eapply every_run_mono; [|eapply (with_visits_ok U m hwnd written (control obj ptr) m1 _ _ (fun _ => True) [obj] (fun _ => []) (fun _ => []));
    [intros _; apply Hb|exact Hm|exact HA|done|done|]].
  - clear HA. intros o tr' (x & m2 & -> & Hm2 & _ & HA). simpl in HA. apply every_run_bind.
    eapply every_run_mono; [|apply (visit_harmless U m hwnd written (control obj ptr) m1); [apply Hb|exact Hm2|by eapply Acct_sound|]].
    2: { apply Forall_forall. intros q Hq. by eapply Acct_held. }
    intros o tr2 (m3 & -> & Hm3 & Hs & Hst). pose proof (stays_Acct _ _ _ _ _ Hst Hs HA) as HA3. clear HA. rename HA3 into HA.
    apply every_run_bind.
    eapply every_run_mono; [|eapply (release_visits_ok U m hwnd written (control obj ptr) m1); [apply Hb|apply Hb|exact Hm3|exact HA]].
    clear HA. intros o tr4 (y & m4 & -> & Hm4 & HA). cbn. intros r _. acct_step HA. by exists m4.
  - cbn. intros r _. split; [done|]. apply (Acct_invoke _ _ _ _ (Acct_nil [obj])). left. apply list_elem_of_here.
Qed.

(** The last two stores of the successful path. *)
Lemma publish_ok pB pP m' : is_Some (m !! pB) -> is_Some (m !! pP) -> pB <> pP ->
  living m hwnd written ptr obj (at_start pB) m' ->
  exists m2, (m ← store m' pB obj; store m pP ptr) = Some m2 /\
    load m2 pB = Some obj /\ load m2 pP = Some ptr /\ living m hwnd (pB :: pP :: written) ptr obj m2 m2 /\
    (forall a, a ∉ written -> free_block ptr m2 !! a = <[pP := Word ptr]> (<[pB := Word obj]> m) !! a).
Proof using Hf.
  intros HB HP Hne Hm. pose proof Hm as (Hb & Hmap & _ & _).
  pose proof (mapped_fresh _ _ _ Hf HB) as NB. pose proof (mapped_fresh _ _ _ Hf HP) as NP.
  rewrite store_mapped by auto. cbn. rewrite store_mapped by (apply mapped_insert; auto).
  eexists. split; [done|]. split_and!; [rewrite load_insert_ne by done; apply load_insert_eq|apply load_insert_eq| |].
  - split_and!; [by apply site_block_insert, site_block_insert| |done|exact Hf]. intros a Ha. by apply mapped_insert, mapped_insert, Hmap.
  - intros a Ha. rewrite !free_block_insert by done. destruct (decide (a = pP)) as [->|]; [by rewrite !lookup_insert_eq|].
    rewrite !(lookup_insert_ne _ pP) by done. destruct (decide (a = pB)) as [->|]; [by rewrite !lookup_insert_eq|].
    rewrite lookup_insert_ne, (free_living pB) by done. by rewrite !lookup_insert_ne.
Qed.
End embedding.

(** ** Properties *)

(** What the caller of [EmbedBrowserObject] may rely on. *)
Definition embed_post (U : list Z) (m : mem) (hwnd pBrowserObject pPtr : Z) (written : list Z)
    (r : option (mem * Z)) (tr : list ev) : Prop :=
  (exists m' ptr obj,
     r = Some (m', 0)%Z /\ Acct U tr [obj] [ptr] /\ site_block m' ptr hwnd obj /\
     load m' pBrowserObject = Some obj /\ load m' pPtr = Some ptr /\
     (forall a, a ∉ written -> free_block ptr m' !! a = <[pPtr := Word ptr]> (<[pBrowserObject := Word obj]> m) !! a) /\
     obj <> 0%Z /\ (forall a, in_block ptr a -> m !! a = None) /\ (forall a, is_Some (m !! a) -> is_Some (m' !! a))) \/
  (exists m' code,
     r = Some (m', code) /\ Acct U tr [] [] /\ code ∈ [-1; -2; -3; -4]%Z /\
     (forall a, a ∉ written -> m' !! a = <[pBrowserObject := Word 0]> m !! a)).

Lemma embed_failed U m hwnd pB pP written m' code tr : code ∈ [-1; -2; -3; -4]%Z -> Acct U tr [] [] ->
  (forall a, a ∉ written -> m' !! a = <[pB := Word 0]> m !! a) -> embed_post U m hwnd pB pP written (Some (m', code)) tr.
Proof. intros. right. by exists m', code. Qed.

Lemma host_browser_ok U b hwnd pB pP m written ptr obj tr : behaves m written b ->
  is_Some (m !! pB) -> is_Some (m !! pP) -> pB <> pP -> (forall a, in_block ptr a -> m !! a = None) -> obj <> 0%Z ->
  Acct U tr [obj] [ptr] ->
  every_run (embedded_contract U m)
    (host_browser b hwnd obj ptr pB pP (init_site hwnd ptr (alloc_block ptr (<[pB := Word 0]> m)))) tr
    (embed_post U m hwnd pB pP written).
Proof.
  intros Hb HB HP Hne Hf Hnz HA. unfold host_browser, and_then. apply every_run_bind.
  eapply every_run_mono; [|eapply (with_visits_ok U m hwnd written (control obj ptr) _ _ _ (fun _ => True) [obj] (fun _ => []) (fun _ => []));
    [apply Hb|by apply living_start|exact HA|done|done|apply setup_browser_ok]].
  clear HA. intros o tr' (ok & m' & -> & Hm' & _ & HA). destruct ok.
  - destruct (publish_ok m hwnd written ptr obj Hf pB pP m' HB HP Hne Hm') as (m2 & -> & H1 & H2 & (H3 & H4 & _) & H5).
    left. exists m2, ptr, obj. by split_and!.
  - apply every_run_bind. eapply every_run_mono; [|by eapply UnEmbed_ok].
    intros o tr2 (m2 & -> & Hm2 & HA2). apply embed_failed; [clear; set_solver|done|]. intros a Ha. by eapply free_living.
Qed.

Lemma free_init_site_eq hwnd ptr m : (forall a, in_block ptr a -> m !! a = None) ->
  free_block ptr (init_site hwnd ptr (alloc_block ptr m)) = m.
Proof.
  intros Hf. apply map_eq. intros a. destruct (decide (a ∈ block_fields ptr)) as [Ha|Ha].
  - rewrite lookup_free_block_in by done. symmetry. by apply Hf, block_fields_in.
  - rewrite lookup_free_block by done. by apply lookup_init_site.
Qed.

Lemma embed_ok U b hwnd pB pP m written tr : behaves m written b ->
  is_Some (m !! pB) -> is_Some (m !! pP) -> pB <> pP -> Acct U tr [] [] ->
  every_run (embedded_contract U m) (EmbedBrowserObject b hwnd pB pP m) tr (embed_post U m hwnd pB pP written).
Proof.
  intros Hb HB HP Hne HA. unfold EmbedBrowserObject. rewrite store_mapped by done. cbn.
  intros ptr Hptr. destruct (Z.eqb_spec ptr 0) as [->|Hnz].
  { cbn. apply embed_failed; [clear; set_solver| |done]. apply (Acct_galloc_fail _ _ _ _ HA). }
  assert (Hf : forall a, in_block ptr a -> m !! a = None) by (by destruct Hptr).
  assert (Hf' : forall a, in_block ptr a -> <[pB := Word 0]> m !! a = None).
  { intros a Ha. rewrite lookup_insert_ne; [auto|]. intros ->. by apply (mapped_fresh _ _ _ Hf HB). }
  acct_by HA (Acct_galloc _ _ _ _ HA GMEM_FIXED (sizeof_clientEx + sizeof_ptr) ptr Hnz).
  unfold c_true at 1. rewrite (proj2 (Z.eqb_neq ptr 0)) by done. cbn.
  intros [hr cf] [[E Hcf]|[E Hcf]]; simpl in E, Hcf; subst; cbn; acct_step HA.
  2: { destruct (Z.eqb_spec hr 0); [lia|]. cbn. intros r1 _. acct_step HA.
       rewrite free_init_site_eq by done. by apply embed_failed; [clear; set_solver| |]. }
  unfold c_true. rewrite (proj2 (Z.eqb_neq cf 0)) by done. cbn.
  intros [hr obj] [[E Hobj]|[E Hobj]]; simpl in E, Hobj; subst; cbn; acct_step HA.
  2: { destruct (Z.eqb_spec hr 0); [lia|]. cbn. intros r1 _. acct_step HA. intros r2 _. acct_step HA.
       rewrite free_init_site_eq by done. by apply embed_failed; [clear; set_solver| |]. }
  intros r1 _. acct_step HA. by apply host_browser_ok.
Qed.

(** C4: On every path through [EmbedBrowserObject], whatever the Windows calls
    answer and whatever the control does inside them - calls of its client site,
    nested to any depth, keys that arrive - all calls are made on objects it
    holds (or on what the user data of a window names that a key is for, [U]), no callback
    faults and nothing leaks: on success it returns 0, the
    caller owns exactly one reference on the browser object and the one block,
    both returned through the [out] parameters, and the block is initialised for
    the callbacks; on failure it returns -1, -2, -3 or -4 and owns nothing, and
    the object pointer is null.  Memory is as before but for the results the
    callbacks were asked for. *)
Theorem embed_accounts U b hwnd pB pP m written (Hb : behaves m written b)
    (HB : is_Some (m !! pB)) (HP : is_Some (m !! pP)) (Hne : pB <> pP) :
  every_run (embedded_contract U m) (EmbedBrowserObject b hwnd pB pP m) []
    (embed_post U m hwnd pB pP written).
Proof. apply embed_ok; auto using Acct_nil. Qed.

(** Memory of the caller and, from 32 on, of the control, for the examples. *)
Definition caller_mem : mem := {[ 16%Z := Word 7; 24%Z := Word 7; 32%Z := Word 7; 40%Z := Word 7 ]}.

Lemma caller_mem_high a : (100 <= a)%Z -> caller_mem !! a = None.
Proof. intros Ha. unfold caller_mem. rewrite !lookup_insert_ne, lookup_singleton_ne by lia. done. Qed.

(** A control that, as [DoVerb] shows it, asks for the in-place site and its window, and
    that reports a position inside [put_Width]; while it is told its rectangles it asks for
    the window of the frame. *)
Definition a_setup (n : nat) : visits :=
  match n with
  | 4 => VCall (OnClient (client_QueryInterface IID_IOleInPlaceSite 40)) (VCall (OnInPlace (inplace_GetWindow 32)) VDone)
  | 8 => VThen (Callback (OnInPlace (inplace_OnPosRectChange 48)))
           (fun n => match n with 1 => VCall (OnFrame (frame_GetWindow 32)) VDone | _ => VDone end) VDone
  | _ => VDone
  end.

(** It releases the site when it is closed and when it is gone; it still reports a position
    while it is released. *)
Definition a_close : visits := VCall (OnClient client_Release) VDone.

Definition a_release : visits := VCall (OnInPlace (inplace_OnPosRectChange 48)) VDone.

Definition a_control : behaviour := Behaviour a_setup nothing VDone nothing a_close a_release a_close.

Lemma a_control_behaves : behaves caller_mem [32; 40]%Z a_control.
Proof. constructor; polite. Qed.

Lemma embed_accounts_witness :
  embed_post [user_data] caller_mem 5 16 24 [32; 40]%Z
    (result caller_env (EmbedBrowserObject a_control 5 16 24 caller_mem) 1%Z)
    ([] ++ trace caller_env (EmbedBrowserObject a_control 5 16 24 caller_mem) 1%Z).
Proof.
  apply (run_every_run caller_env (embedded_contract [user_data] caller_mem)); [intros; apply caller_env_embedded, caller_mem_high|].
  apply embed_accounts; [apply a_control_behaves|by vm_compute; eauto..|done].
Defined.

(** In it the callbacks answer: the window and the in-place site arrive. *)
Example callbacks_answered :
  (r ← result caller_env (EmbedBrowserObject a_control 5 16 24 caller_mem) 1%Z;
   w ← load r.1 32; p ← load r.1 24; s ← load r.1 40; Some (w, s - p)%Z) = Some (5, 16)%Z.
Proof. vm_compute. reflexivity. Qed.

(** The life of an embedded browser, as [goc.EmbedBrowserObject] and
    [goc.UnEmbedBrowserObject] drive it: the object and the block come back from
    the first call and are given to the second. *)
Definition embed_unembed (b : behaviour) (hwnd pBrowserObject pPtr : Z) (m : mem) : act (option mem) :=
  '(m, ret) ⇐ EmbedBrowserObject b hwnd pBrowserObject pPtr m;
  if (ret =? 0)%Z then
    match load m pBrowserObject, load m pPtr with
    | Some obj, Some ptr => UnEmbedBrowserObject b obj ptr m
    | _, _ => fault
    end
  else Ret (Some m).

(** What a successful embedding leaves is a living control. *)
Lemma embedded_lives m hwnd written ptr obj m' : (forall a, is_Some (m !! a) -> is_Some (m' !! a)) ->
  site_block m' ptr hwnd obj -> (forall a, in_block ptr a -> m !! a = None) -> living m hwnd written ptr obj m' m'.
Proof. done. Qed.

(** Embedding a browser and removing it again gives back every reference and
    every block, never uses an object it does not hold, and leaves memory as it
    was except for the two [out] parameters and the results of callbacks; so does a
    failed embedding. *)
Theorem embed_unembed_roundtrip U b hwnd pB pP m written (Hb : behaves m written b)
    (HB : is_Some (m !! pB)) (HP : is_Some (m !! pP)) (Hne : pB <> pP) :
  every_run (embedded_contract U m) (embed_unembed b hwnd pB pP m) [] (fun r tr =>
    Acct U tr [] [] /\
    exists m', r = Some m' /\ forall a, a <> pB -> a <> pP -> a ∉ written -> m' !! a = m !! a).
Proof.
  unfold embed_unembed, and_then. apply every_run_bind.
  eapply every_run_mono; [|by apply embed_ok; auto using Acct_nil].
  intros r tr [(m' & ptr & obj & -> & HA & Hs & H1 & H2 & Hm & _ & Hf & Hmap)|(m' & code & -> & HA & Hc & Hm)].
  - rewrite Z.eqb_refl, H1, H2. eapply every_run_mono; [|eapply UnEmbed_ok; [exact Hb|by eapply embedded_lives|exact HA]].
    intros r tr' (m2 & -> & (_ & _ & Hsame & _) & HA'). split; [done|]. eexists. split; [done|]. intros a Ha1 Ha2 Ha3.
    transitivity (free_block ptr m' !! a); [|by rewrite Hm, !lookup_insert_ne].
    destruct (decide (a ∈ block_fields ptr)); [by rewrite !lookup_free_block_in|by rewrite !lookup_free_block, Hsame].
  - destruct (Z.eqb_spec code 0) as [->|_].
    + apply list_elem_of_In in Hc. simpl in Hc. lia.
    + cbn. split; [done|]. eexists. split; [done|]. intros a Ha _ Hw. by rewrite Hm, lookup_insert_ne.
Qed.

Lemma embed_unembed_roundtrip_witness :
  let p := embed_unembed a_control 5 16 24 caller_mem in
  Acct [user_data] ([] ++ trace caller_env p 1%Z) [] [] /\
  exists m', result caller_env p 1%Z = Some m' /\
    forall a, a <> 16%Z -> a <> 24%Z -> a ∉ [32; 40]%Z -> m' !! a = caller_mem !! a.
Proof.
  intros p.
  apply (run_every_run caller_env (embedded_contract [user_data] caller_mem) p (fun r tr =>
    Acct [user_data] tr [] [] /\ exists m', r = Some m' /\
      forall a, a <> 16%Z -> a <> 24%Z -> a ∉ [32; 40]%Z -> m' !! a = caller_mem !! a));
    [intros; apply caller_env_embedded, caller_mem_high|].
  apply embed_unembed_roundtrip; [apply a_control_behaves|by vm_compute; eauto..|done].
Defined.

(** The last release of [UnEmbedBrowserObject] need not be the last of all - Suneido code can
    make another COM object of [GetIOleObject] - and nothing tells the control that its site
    is gone: the site's [Release] does not count, and [SetClientSite] is not called again.
    Whatever it calls afterwards is read from the freed block. *)
Definition call_after_release (b : behaviour) (browserObject ptr : Z) (c : site_call) (m : mem) : act (option (mem * Z)) :=
  m ⇐ UnEmbedBrowserObject b browserObject ptr m;
  browser_calls (interface_ptr ptr c) c m.

Lemma interface_ptr_field ptr c : interface_ptr ptr c ∈ block_fields ptr.
Proof. unfold block_fields. destruct c; cbn [interface_ptr]; rewrite !elem_of_cons; tauto. Qed.

Theorem late_callback_faults U b m hwnd written ptr obj m1 m' tr c (Hb : behaves m written b)
    (Hm : living m hwnd written ptr obj m1 m') (HA : Acct U tr [obj] [ptr]) :
  every_run (embedded_contract U m) (call_after_release b obj ptr c m') tr (fun r _ => r = None).
Proof.
  unfold call_after_release, and_then. apply every_run_bind. pose proof Hm as (_ & _ & _ & Hf).
  eapply every_run_mono; [|by eapply UnEmbed_ok].
  intros r tr' (m2 & -> & _). unfold browser_calls, lpVtbl.
  rewrite lookup_free_block_in by apply interface_ptr_field. done.
Qed.

(** The browser reports a new position to the in-place site of a block. *)
Definition report_position (ptr rect : Z) : cb :=
  browser_calls (site_of ptr + clientEx_inplace) (OnInPlace (inplace_OnPosRectChange rect)).

(** When the browser reports a new position, [InPlace_OnPosRectChange] finds
    the browser object's pointer in front of the client site, asks exactly that
    object for its in-place interface, uses only what it holds and gives the
    reference back, whether or not the request succeeds. *)
Theorem pos_rect_change_accounts ptr hwnd obj m rect (Hb : site_block m ptr hwnd obj) :
  every_run com_contract
    (report_position ptr rect m) []
    (fun r tr => r = Some (m, S_OK) /\ Acct [obj] tr [] [] /\
       exists a tr2, tr = Ev (QueryInterface obj IID_IOleInPlaceObject) a :: tr2).
Proof.
  unfold report_position. change (site_of ptr + clientEx_inplace)%Z with (interface_ptr ptr (OnInPlace inplace_AddRef)).
  unfold browser_calls.
  rewrite (site_block_vtbl m ptr hwnd obj (OnInPlace inplace_AddRef)) by done.
  apply (pos_rect_change_ok ptr hwnd obj m rect []); auto using Acct_nil.
Qed.

Definition embedded_mem : mem := <[1000%Z := Word 42]> (init_site 7 1000 (alloc_block 1000 ∅)).

Lemma pos_rect_change_accounts_witness :
  every_run com_contract
    (browser_calls 1016 (OnInPlace (inplace_OnPosRectChange 4096)) embedded_mem) []
    (fun r tr => r = Some (embedded_mem, S_OK) /\ Acct [42%Z] tr [] [] /\
       exists a tr2, tr = Ev (QueryInterface 42 IID_IOleInPlaceObject) a :: tr2).
Proof. apply (pos_rect_change_accounts 1000 7 42), site_block_init. Defined.

Lemma late_callback_faults_witness :
  every_run (embedded_contract [] ∅) (call_after_release (Behaviour nothing nothing VDone nothing VDone VDone VDone) 42 1000
    (OnInPlace inplace_OnInPlaceDeactivate) embedded_mem) [Ev (NewObject "") 42%Z; Ev (c_malloc 0) 1000%Z]
    (fun r _ => r = None).
Proof.
  apply (late_callback_faults [] _ ∅ 7 [] 1000 42 embedded_mem).
  - constructor; polite.
  - split_and!; [apply site_block_init| |done|done]. intros a [x Hx]. done.
  - apply (Acct_malloc [] [Ev (NewObject "") 42%Z] [42%Z] []); [|done]. apply (Acct_new [] [] [] []); [apply Acct_nil|done].
Defined.

(** The witnesses of the properties of [WebBrowser], on an initialised block. *)

Definition session_mem : mem :=
  foldr (fun a m => <[a := Word 0]> m) embedded_mem [2000; 2008; 2016; 2024; 2028; 2032; 2040; 2048]%Z.

Lemma session_block : site_block session_mem 1000 7 42.
Proof.
  unfold session_mem, embedded_mem. cbn [foldr].
  repeat (apply site_block_insert; [unfold_layout; lia|]). apply site_block_init.
Qed.

Lemma query_interface_identity_witness :
  browser_calls 1016 (OnInPlace (inplace_QueryInterface IID_IDocHostUIHandler 2000)) session_mem
  = Ret (Some (<[2000%Z := Word 1040]> session_mem, S_OK)).
Proof.
  destruct (query_interface_identity session_mem 1000 7 42 IID_IDocHostUIHandler 2000)
    as (_ & H & _).
  - apply session_block.
  - apply guid_wf_sdk.
  - by vm_compute; eauto.
  - exact H.
Defined.

Lemma window_handle_delivered_witness :
  exists m1 m2 m3 frame,
    browser_calls 1016 (OnInPlace (inplace_GetWindow 2000)) session_mem = Ret (Some (m1, S_OK)) /\
    load m1 2000 = Some 7%Z /\
    browser_calls 1016 (OnInPlace (inplace_GetWindowContext 2008 2016 0 0 2024)) session_mem
      = Ret (Some (m2, S_OK)) /\
    load m2 2032 = Some 7%Z /\ load m2 2016 = Some 0%Z /\ load m2 2008 = Some frame /\
    browser_calls frame (OnFrame (frame_GetWindow 2000)) m2 = Ret (Some (m3, S_OK)) /\
    load m3 2000 = Some 7%Z.
Proof.
  apply (window_handle_delivered 1000 7 42 session_mem 2008 2016 0 0 2024 2000).
  - apply session_block.
  - by vm_compute; eauto.
  - unfold_layout. lia.
  - apply (bool_decide_unpack _). by vm_compute.
Defined.

Lemma browser_session_safe_witness :
  every_run any_answer
    (browser_session [(1008%Z, OnClient (client_QueryInterface IID_IUnknown 2000));
                      (1016%Z, OnInPlace (inplace_OnPosRectChange 3000));
                      (1040%Z, OnUI (ui_call_GetExternal 2008))] session_mem) []
    (fun r _ => exists m', r = Some m' /\ site_block m' 1000 7 42 /\ dom m' = dom session_mem /\
      forall a, Forall (fun '(_, c) => a ∉ out_params c)
        [(1008%Z, OnClient (client_QueryInterface IID_IUnknown 2000));
         (1016%Z, OnInPlace (inplace_OnPosRectChange 3000));
         (1040%Z, OnUI (ui_call_GetExternal 2008))] -> m' !! a = session_mem !! a).
Proof.
  apply (browser_session_safe 1000 7 42).
  - apply session_block.
  - repeat constructor; apply (bool_decide_unpack _); by vm_compute.
Defined.
