(* ===== verification/EmbedLife.v ===== *)
(** * The life of an embedded browser

    What builtin/webbrowser_wingui.go makes of the parts: [WebBrowser] embeds the control
    and asks it for its automation interface; then, in any order, the control calls the
    functions of webbrowser.c, the message loop of cside.c offers it keys through
    traccel.cpp, and Suneido code calls its methods through com.cpp; [Release] removes it.
    Inside every call of the control more of this may happen, to any depth. *)

From S2P Require Import Prelude Prog Win32 Accounting WebBrowser ComDispatch CSide Visits Embed.

(** ** webbrowser_wingui.go *)

(** The built-in function [WebBrowser]: [None] when the control could not be embedded. *)
Definition WebBrowser (b : behaviour) (hwnd piunk pptr : Z) (m : mem) : act (option (mem * option suWebBrowser)) :=
  '(m, rtn) ⇐ EmbedBrowserObject b hwnd piunk pptr m;
  if negb (rtn =? 0)%Z then Ret (Some (m, None))
  else
    match load m piunk, load m pptr with
    | Some iunk, Some ptr =>
        '(idisp, m) ⇐ with_visits (control iunk ptr) (in_query b) (queryIDispatch iunk) m;
        Ret (Some (m, Some (SuWebBrowser idisp iunk ptr)))
    | _, _ => fault
    end.

Definition web_Release (b : behaviour) (wb : suWebBrowser) (m : mem) : act (option mem) :=
  '(_, m) ⇐ with_visits (control (sw_iOleObject wb) (sw_ptr wb)) (in_drop b) (release (sw_idisp wb)) m;
  UnEmbedBrowserObject b (sw_iOleObject wb) (sw_ptr wb) m.

Definition web_GetIOleObject (wb : suWebBrowser) : Z := sw_iOleObject wb.

(** From the creation to the release. *)
Definition embedded_life (b : behaviour) (hwnd piunk pptr : Z) (m : mem) : act (option mem) :=
  '(m, o) ⇐ WebBrowser b hwnd piunk pptr m;
  match (o : option suWebBrowser) with
  | None => Ret (Some m)
  | Some wb => m ⇐ visit wb (in_life b) m; web_Release b wb m
  end.

(** ** The steps *)

(** What [WebBrowser] leaves: no control and no more than was there, or a control that lives,
    in memory that is as before but for the block and the results. *)
Definition created (U : list Z) (m : mem) (hwnd piunk pptr : Z) (written : list Z) (r : option (mem * option suWebBrowser)) (tr : list ev) : Prop :=
  (exists m', r = Some (m', None) /\ Acct U tr [] [] /\ forall a, a <> piunk -> a ∉ written -> m' !! a = m !! a) \/
  (exists m1 m' wb, r = Some (m', Some wb) /\ Acct U tr (web_refs wb) [sw_ptr wb] /\
     living m hwnd written (sw_ptr wb) (sw_iOleObject wb) m1 m' /\
     forall a, a <> piunk -> a <> pptr -> a ∉ written -> free_block (sw_ptr wb) m1 !! a = m !! a).

Lemma queryIDispatch_com iunk : every_run com_contract (queryIDispatch iunk) [] (fun p tr =>
  True /\ Acct [iunk] tr (if c_true p then [p] else []) []).
Proof.
  apply every_run_contract with (C := any_answer); [done|]. eapply every_run_mono; [|apply queryIDispatch_ok]. by split.
Qed.

Lemma web_refs_split idisp obj ptr :
  web_refs (SuWebBrowser idisp obj ptr) = (if c_true idisp then [idisp] else []) ++ [obj].
Proof. unfold web_refs. simpl. by destruct (c_true idisp). Qed.

Lemma WebBrowser_ok U b hwnd piunk pptr m written : behaves m written b ->
  is_Some (m !! piunk) -> is_Some (m !! pptr) -> piunk <> pptr ->
  every_run (embedded_contract U m) (WebBrowser b hwnd piunk pptr m) [] (created U m hwnd piunk pptr written).
Proof.
  intros Hb HB HP Hne. unfold WebBrowser, and_then. apply every_run_bind.
  eapply every_run_mono; [|by apply embed_ok; auto using Acct_nil].
  intros r tr [(m1 & ptr & obj & -> & HA & Hs & H1 & H2 & Hfree & _ & Hf & Hmap)|(m' & code & -> & HA & Hc & Hm)].
  - rewrite Z.eqb_refl, H1, H2. cbn [negb]. apply every_run_bind.
    assert (Hliv : living m hwnd written ptr obj m1 m1) by by apply embedded_lives.
    eapply every_run_mono; [|eapply (with_visits_ok U m hwnd written (control obj ptr) m1 _ _ (fun _ => True) [obj]
      (fun p => if c_true p then [p] else []) (fun _ => [])); [apply Hb|exact Hliv|exact HA|done|done|apply queryIDispatch_com]].
    intros o tr' (p & m2 & -> & Hm2 & _ & HA2). right. exists m1, m2, (SuWebBrowser p obj ptr). rewrite web_refs_split.
    split_and!; [done|done|exact Hm2|]. intros a Ha1 Ha2 Ha3. simpl. by rewrite Hfree, !lookup_insert_ne.
  - assert (Hz : (code =? 0)%Z = false).
    { apply Z.eqb_neq. intros ->. apply list_elem_of_In in Hc. simpl in Hc. lia. }
    rewrite Hz. cbn [negb every_run]. left. exists m'. split_and!; [done..|]. intros a Ha Hw. by rewrite Hm, lookup_insert_ne.
Qed.

Lemma web_Release_ok U b m0 hwnd written m1 wb m tr : behaves m0 written b ->
  living m0 hwnd written (sw_ptr wb) (sw_iOleObject wb) m1 m -> Acct U tr (web_refs wb) [sw_ptr wb] ->
  every_run (embedded_contract U m0) (web_Release b wb m) tr (fun r tr' => exists m2,
    r = Some (free_block (sw_ptr wb) m2) /\ living m0 hwnd written (sw_ptr wb) (sw_iOleObject wb) m1 m2 /\ Acct U tr' [] []).
Proof.
  intros Hb Hm HA. destruct wb as [idisp obj ptr]. rewrite web_refs_split in HA. simpl in *. unfold web_Release, and_then. cbn [sw_idisp sw_iOleObject sw_ptr].
  apply every_run_bind. eapply every_run_mono; [|eapply (drop_visits_ok U m0 hwnd written (control obj ptr) m1); [apply Hb|exact Hm|exact HA|done]].
  intros o tr' (x & m2 & -> & Hm2 & HA2). by eapply UnEmbed_ok.
Qed.

(** C5: The whole life of an embedded browser, whatever Windows and the control answer,
    in whatever order the control calls its client, keys arrive and methods are called,
    and whatever of this happens inside each other's calls, and inside the calls of the
    embedding and of the release - only once its last reference is gone the control reports
    no position any more ([calm_gone]): no callback faults, nothing is given back that is not
    held, and in the end every reference, string and block has been given back and memory is
    as before but for the results that were asked for.  Every call is made on an object that is
    held at that moment, except that a key is offered to whatever the user data of its window
    names ([U]), which the code does not check. *)
Theorem embedded_life_sound U b hwnd piunk pptr m written (Hb : behaves m written b)
    (HB : is_Some (m !! piunk)) (HP : is_Some (m !! pptr)) (Hne : piunk <> pptr) :
  every_run (embedded_contract U m) (embedded_life b hwnd piunk pptr m) [] (fun r tr =>
    Acct U tr [] [] /\ exists m', r = Some m' /\
      forall a, a <> piunk -> a <> pptr -> a ∉ written -> m' !! a = m !! a).
Proof.
  unfold embedded_life, and_then. apply every_run_bind. eapply every_run_mono; [|by apply WebBrowser_ok].
  intros r tr [(m' & -> & HA & Hm')|(m1 & m2 & wb & -> & HA & Hliv & Hm1)]; [cbn; split; [done|]; eexists; split; [done|]; auto|].
  apply every_run_bind. eapply every_run_mono; [|apply (visit_harmless U m hwnd written wb m1); [apply Hb|exact Hliv|by eapply Acct_sound|]].
  - intros o tr' (m3 & -> & Hm3 & Hs & Hst). eapply every_run_mono; [|eapply web_Release_ok; [exact Hb|exact Hm3|by eapply stays_Acct]].
    intros r tr2 (m4 & -> & (_ & _ & Hsame & _) & HA4). split; [done|]. eexists. split; [done|]. intros a Ha1 Ha2 Ha3.
    rewrite <- Hm1 by done. destruct (decide (a ∈ block_fields (sw_ptr wb))); [by rewrite !lookup_free_block_in|by rewrite !lookup_free_block, Hsame].
  - apply Forall_forall. intros q Hq. by eapply Acct_held.
Qed.

(** A life: the embedding and the closing of Embed's example; in between the control asks for
    its window, a key arrives, and a method is called, inside which the control reports a
    position and Suneido code calls the method again. *)
Definition in_method (n : nat) : visits :=
  match n with
  | 6 => VCall (OnInPlace (inplace_OnPosRectChange 48)) (VThen (CallMethod 1 1 []) nothing VDone)
  | _ => VDone
  end.

Definition a_life : behaviour := Behaviour a_setup nothing
  (VCall (OnInPlace (inplace_GetWindow 32))
     (VThen (Message 5 (Msg 6 WM_KEYDOWN 9 0)) nothing
        (VThen (CallMethod 1 1 [Variant VT_BSTR 2; Variant 3 4]) in_method VDone)))
  nothing a_close a_release a_close.

Lemma a_life_behaves : behaves caller_mem [32; 40]%Z a_life.
Proof. constructor; polite. Qed.

Lemma embedded_life_sound_witness :
  let p := embedded_life a_life 5 16 24 caller_mem in
  Acct [user_data] ([] ++ trace caller_env p 1%Z) [] [] /\
  exists m', result caller_env p 1%Z = Some m' /\
    forall a, a <> 16%Z -> a <> 24%Z -> a ∉ [32; 40]%Z -> m' !! a = caller_mem !! a.
Proof.
  intros p.
  apply (run_every_run caller_env (embedded_contract [user_data] caller_mem) p (fun r tr =>
    Acct [user_data] tr [] [] /\ exists m', r = Some m' /\
      forall a, a <> 16%Z -> a <> 24%Z -> a ∉ [32; 40]%Z -> m' !! a = caller_mem !! a));
    [intros; apply caller_env_embedded, caller_mem_high|].
  apply embedded_life_sound; [apply a_life_behaves|by vm_compute; eauto..|done].
Defined.

Definition times (s : string) (tr : list ev) : nat :=
  length (List.filter (fun e => match e with Ev (Invoke _ m _) _ => bool_decide (m = s) | _ => false end) tr).

(** In it the control learns its window - the address it gave for the answer holds 5 -, the
    automation interface is called twice, a key reaches what the user data names, and the
    rectangles are set three times, the last time inside the last release. *)
Example life_happens :
  let p := embedded_life a_life 5 16 24 caller_mem in
  (m ← result caller_env p 1%Z; load m 32) = Some 5%Z /\
  times "Invoke" (trace caller_env p 1%Z) = 2 /\ times "TranslateAcceleratorA" (trace caller_env p 1%Z) = 1 /\
  times "SetObjectRects" (trace caller_env p 1%Z) = 3.
Proof. vm_compute. repeat split. Qed.
