(* ===== verification/CursorTimer.v ===== *)
(** * The wait-cursor timer (cside.c)

    A second thread shows the wait cursor when the main thread has been handling
    one message for too long.  The threads share the atomics [ticks] and
    [prev_cursor] and the cursor of Windows, and nothing orders their accesses, so
    the model interleaves them call by call.  The two threads are automata over the
    calls they make; [threads_refine_automata] shows that they accept what the translated
    code does. *)

From S2P Require Import Prelude Prog Win32 CSide.

(** ** The timer thread and the hook *)

(** One iteration of the loop of [cursor_thread]; [wait_cursor] was loaded before. *)
Definition cursor_body (wait_cursor : Z) : act unit :=
  _ ← call (Sleep 25);
  t ← call LoadTicks;
  if (0 <? t)%Z then
    n ← call DecTicks;
    if (n =? 0)%Z then
      old ← call (SetCursor wait_cursor);
      _ ← call (StorePrevCursor old);
      Ret tt
    else Ret tt
  else Ret tt.

(** The loop never ends; [n] iterations of it. *)
Fixpoint cursor_loop (n : nat) (wait_cursor : Z) : act unit :=
  match n with
  | O => Ret tt
  | S n => _ ← cursor_body wait_cursor; cursor_loop n wait_cursor
  end.

Definition cursor_thread (n : nat) (main_threadid : Z) : act unit :=
  wait_cursor ← call LoadCursorWait;
  tid ← call GetCurrentThreadId;
  _ ← call (AttachThreadInput tid main_threadid);
  cursor_loop n wait_cursor.

Definition message_hook (hook code wParam lParam : Z) : act Z :=
  _ ← call (StoreTicks 0);
  call (CallNextHookEx hook code wParam lParam).

(** ** The threads as automata over their calls *)

Inductive timer_pc := Sleeping | Testing | Decrementing | Firing | Saving (old : Z).

Inductive main_pc :=
| Top | TestPrev | LoadPrev | Restore (c : Z) | GetPos | SetPos | Waiting | Starting | Clearing | Handling.

Definition timer_next (wait : Z) (pc : timer_pc) (e : ev) : option timer_pc :=
  match e with
  | Ev a r =>
      match a return Ans a -> option timer_pc with
      | Sleep _ => fun _ => if pc is Sleeping then Some Testing else None
      | LoadTicks => fun t => if pc is Testing then Some (if (0 <? t)%Z then Decrementing else Sleeping) else None
      | DecTicks => fun n => if pc is Decrementing then Some (if (n =? 0)%Z then Firing else Sleeping) else None
      | SetCursor c => fun old => if pc is Firing then if (c =? wait)%Z then Some (Saving old) else None else None
      | StorePrevCursor c => fun _ =>
          if pc is Saving old then if (c =? old)%Z then Some Sleeping else None else None
      | _ => fun _ => None
      end r
  end.

(** While a message is handled the main thread makes any other call. *)
Definition shared_call (a : Win32) : bool :=
  match a with
  | LoadTicks | StoreTicks _ | DecTicks | LoadPrevCursor | StorePrevCursor _ | SetCursor _
  | GetMessageA | Sleep _ => true
  | _ => false
  end.

Definition main_next (pc : main_pc) (e : ev) : option main_pc :=
  match e with
  | Ev a r =>
      match pc with
      | Top => match a with StoreTicks v => if (v =? 0)%Z then Some TestPrev else None | _ => None end
      | TestPrev =>
          match a return Ans a -> option main_pc with
          | LoadPrevCursor => fun c => Some (if c_true c then LoadPrev else Waiting)
          | _ => fun _ => None
          end r
      | LoadPrev =>
          match a return Ans a -> option main_pc with
          | LoadPrevCursor => fun c => Some (Restore c)
          | _ => fun _ => None
          end r
      | Restore c => match a with SetCursor c' => if (c' =? c)%Z then Some GetPos else None | _ => None end
      | GetPos => match a with GetCursorPos => Some SetPos | _ => None end
      | SetPos => match a with SetCursorPos _ _ => Some Waiting | _ => None end
      | Waiting =>
          match a return Ans a -> option main_pc with
          | GetMessageA => fun rm => Some (if (rm.1 =? -1)%Z then Top else Starting)
          | _ => fun _ => None
          end r
      | Starting => match a with StoreTicks v => if (v =? 5)%Z then Some Clearing else None | _ => None end
      | Clearing => match a with StorePrevCursor c => if (c =? 0)%Z then Some Handling else None | _ => None end
      | Handling => if shared_call a then None else Some Handling
      end
  end.

Fixpoint accepts {A} (next : A -> ev -> option A) (pc : A) (tr : list ev) : option A :=
  match tr with
  | [] => Some pc
  | e :: tr => match next pc e with Some pc => accepts next pc tr | None => None end
  end.

Lemma accepts_app {A} (next : A -> ev -> option A) tr1 : forall pc pc1 tr2,
  accepts next pc tr1 = Some pc1 -> accepts next pc (tr1 ++ tr2) = accepts next pc1 tr2.
Proof. induction tr1 as [|e tr1 IH]; intros pc pc1 tr2; simpl; [by intros [= ->]|]. case_match; [apply IH|done]. Qed.

(** The timer automaton accepts exactly the shape of the timer's code. *)
Lemma cursor_body_accepted wait tr :
  every_run any_answer (cursor_body wait) tr (fun _ tr' => exists tr1,
    tr' = tr ++ tr1 /\ accepts (timer_next wait) Sleeping tr1 = Some Sleeping).
Proof.
  unfold cursor_body. explore; eexists; rewrite <- ?app_assoc; (split; [reflexivity|]);
    cbn -[Z.ltb Z.eqb]; repeat match goal with E : _ = ?b |- _ => is_constructor b; rewrite E; cbn -[Z.ltb Z.eqb] end;
    rewrite ?Z.eqb_refl; reflexivity.
Qed.

Lemma handling_accepted tr :
  Forall (fun e => match e with Ev a _ => shared_call a = false end) tr ->
  accepts main_next Handling tr = Some Handling.
Proof. induction 1 as [|[a r] tr Ha _ IH]; simpl; [done|]. by rewrite Ha. Qed.

#[local] Ltac regroup :=
  match goal with
  | |- context [?l ++ [?a] ++ [?b] ++ [?c] ++ ?x] =>
      change (l ++ [a] ++ [b] ++ [c] ++ x) with (l ++ [a; b; c] ++ x); rewrite (app_assoc l [a; b; c] x)
  end.

(** The main automaton accepts one iteration of the message loop: it ends while
    handling a message, or back at the top when [GetMessageA] failed. *)
Lemma loop_body_accepted hdlg tr :
  every_run any_answer (loop_body hdlg) tr (fun o tr' => exists tr1,
    tr' = tr ++ tr1 /\
    (accepts main_next Top tr1 = Some Handling \/ (o = None /\ accepts main_next Top tr1 = Some Top))).
Proof.
  unfold loop_body, restore_cursor, handle_message.
  cbn -[route Z.eqb]. intros [] _. intros pc _. 
  assert (Hrest : forall tr0 tr1,
    accepts main_next Top tr1 = Some Waiting ->
    every_run any_answer ('(r, msg) ← call GetMessageA; handle_message hdlg r msg) (tr0 ++ tr1) (fun o tr' =>
      exists tr2, tr' = tr0 ++ tr2 /\
      (accepts main_next Top tr2 = Some Handling \/ (o = None /\ accepts main_next Top tr2 = Some Top)))).
  { intros tr0 tr1 H1. unfold handle_message. cbn -[route Z.eqb]. intros [r msg] _.
    destruct (r =? -1)%Z eqn:Er; cbn -[route Z.eqb].
    - eexists; rewrite <- app_assoc; split; [reflexivity|]. right. split; [done|].
      rewrite (accepts_app _ _ _ _ _ H1). cbn -[Z.eqb]. by rewrite Er.
    - intros [] _ [] _.
      assert (H2 : accepts main_next Top (tr1 ++ [Ev GetMessageA (r, msg); Ev (StoreTicks 5) tt; Ev (StorePrevCursor 0) tt])
                   = Some Handling).
      { rewrite (accepts_app _ _ _ _ _ H1). cbn -[Z.eqb]. by rewrite Er. }
      destruct (msg_message msg =? WM_QUIT)%Z; [destruct (hdlg =? 0)%Z|destruct (ends_loop hdlg msg)]; cbn -[route Z.eqb].
      + eexists; rewrite <- !app_assoc; split; [reflexivity|]. by left.
      + intros [] _. eexists; rewrite <- !app_assoc; split; [reflexivity|]. left.
        regroup. rewrite (accepts_app _ _ _ _ _ H2). done.
      + eexists; rewrite <- !app_assoc; split; [reflexivity|]. by left.
      + apply every_run_bind. eapply every_run_mono; [|eapply only_calls_every_run, route_calls].
        cbn. intros _ tr' (tr2 & -> & H3). eexists; rewrite <- !app_assoc; split; [reflexivity|]. left.
        regroup. rewrite (accepts_app _ _ _ _ _ H2).
        apply handling_accepted. eapply Forall_impl; [exact H3|]. intros [[] ?]; done. }
  rewrite <- app_assoc. destruct (c_true pc) eqn:E; cbn -[route Z.eqb].
  - intros c _ r _ pt _ r2 _. rewrite <- !app_assoc. apply Hrest. cbn -[Z.eqb]. rewrite E.
    by rewrite !Z.eqb_refl.
  - apply Hrest. cbn. by rewrite E.
Qed.

Lemma cursor_loop_accepted n wait : forall tr,
  every_run any_answer (cursor_loop n wait) tr (fun _ tr' => exists tr1,
    tr' = tr ++ tr1 /\ accepts (timer_next wait) Sleeping tr1 = Some Sleeping).
Proof.
  induction n as [|n IH]; intros tr; cbn [cursor_loop]; [exists []; by rewrite app_nil_r|].
  apply every_run_bind. eapply every_run_mono; [|apply cursor_body_accepted].
  cbn beta. intros _ ? (tr1 & -> & H1). eapply every_run_mono; [|apply IH].
  intros _ ? (tr2 & -> & H2). exists (tr1 ++ tr2). rewrite app_assoc. split; [done|].
  by rewrite (accepts_app _ _ _ _ _ H1).
Qed.

(** The two automata accept everything the code does: any number of iterations of the
    timer thread, which end where they began, and an iteration of the message loop,
    which ends while handling a message or back at the top when [GetMessageA]
    failed. *)
Theorem threads_refine_automata :
  (forall n wait tr, every_run any_answer (cursor_loop n wait) tr (fun _ tr' => exists tr1,
     tr' = tr ++ tr1 /\ accepts (timer_next wait) Sleeping tr1 = Some Sleeping)) /\
  (forall hdlg tr, every_run any_answer (loop_body hdlg) tr (fun _ tr' => exists tr1,
     tr' = tr ++ tr1 /\
     (accepts main_next Top tr1 = Some Handling \/ accepts main_next Top tr1 = Some Top))).
Proof.
  split; [intros n wait; apply cursor_loop_accepted|]. intros hdlg tr.
  eapply every_run_mono; [|apply loop_body_accepted]. intros o tr' (tr1 & -> & [H|[_ H]]); eauto.
Qed.

(** ** The two threads together

    [ticks] and [prev_cursor] are the atomics, [cursor] the cursor shown.  The
    other fields only observe: the sleeps and decrements of the timer since it was
    started, the cursor that the timer last replaced, whether the wait cursor it put there
    is still the one shown - nobody has set a cursor since - and whether the races
    described at [observe_lost] happened. *)
Record system := Sys {
  ticks : Z; prev_cursor : Z; cursor : Z;
  timer : timer_pc; main : main_pc;
  slept : nat; counted : nat;
  replaced : Z; shown : bool; lost : bool }.

(** The effect of a call on the shared state - [ticks], [prev_cursor] and the cursor;
    [None] when the answer is not the one the shared state gives. *)
Definition shared_step (m : Z * Z * Z) (e : ev) : option (Z * Z * Z) :=
  let '(t, p, c) := m in
  match e with
  | Ev a r =>
      match a return Ans a -> option (Z * Z * Z) with
      | StoreTicks v => fun _ => Some (v, p, c)
      | LoadTicks => fun v => if (v =? t)%Z then Some (t, p, c) else None
      | DecTicks => fun n => if (n =? t - 1)%Z then Some (n, p, c) else None
      | LoadPrevCursor => fun v => if (v =? p)%Z then Some (t, p, c) else None
      | StorePrevCursor v => fun _ => Some (t, v, c)
      | SetCursor v => fun old => if (old =? c)%Z then Some (t, p, v) else None
      | _ => fun _ => Some (t, p, c)
      end r
  end.

Definition memory (s : system) : Z * Z * Z := (ticks s, prev_cursor s, cursor s).

Definition mem_step (s : system) (e : ev) : option (Z * Z * Z) := shared_step (memory s) e.

Definition fired (pc : timer_pc) : bool := match pc with Firing | Saving _ => true | _ => false end.

Definition saving (pc : timer_pc) : bool := match pc with Saving _ => true | _ => false end.

(** The main thread loses the race when it stops the timer between its last
    decrement and its store to [prev_cursor], or clears a [prev_cursor] that the
    timer stored since [ticks] was set, before it was ever looked at. *)
Definition observe_lost (s : system) (a : Win32) : bool :=
  match main s, a with
  | Top, StoreTicks _ => fired (timer s)
  | Clearing, StorePrevCursor _ => shown s && c_true (replaced s) && negb (fired (timer s))
  | _, _ => false
  end.

Inductive who :=
| TimerDoes (e : ev)
| MainDoes (e : ev)
| HookRuns            (* [message_hook], inside [GetMessageA] or a handler's own loop *)
| HandlerSets (c : Z) (* a message handler sets any cursor, also the wait cursor or none *)
| IterationEnds.

(** The answer of the timer's [SetCursor]: what it replaced. *)
Definition observe_replaced (s : system) (e : ev) : Z :=
  match e with
  | Ev a r => match a return Ans a -> Z with SetCursor _ => fun old => old | _ => fun _ => replaced s end r
  end.

Definition sys_step (wait : Z) (w : who) (s : system) : option system :=
  match w with
  | TimerDoes (Ev a r as e) =>
      match timer_next wait (timer s) e, mem_step s e with
      | Some pc, Some (t, p, c) =>
          Some (Sys t p c pc (main s)
                 (match a with Sleep _ => S (slept s) | _ => slept s end)
                 (match a with DecTicks => S (counted s) | _ => counted s end)
                 (observe_replaced s e) (match a with SetCursor _ => true | _ => shown s end) (lost s))
      | _, _ => None
      end
  | MainDoes (Ev a r as e) =>
      match main_next (main s) e, mem_step s e with
      | Some pc, Some (t, p, c) =>
          let start := match main s with Starting => true | _ => false end in
          Some (Sys t p c (timer s) pc
                 (if start then 0 else slept s) (if start then 0 else counted s)
                 (replaced s) (match a with SetCursor _ => false | _ => shown s end)
                 (lost s || observe_lost s a))
      | _, _ => None
      end
  | HookRuns =>
      match main s with
      | Waiting | Handling =>
          Some (Sys 0 (prev_cursor s) (cursor s) (timer s) (main s) (slept s) (counted s) (replaced s) (shown s) (lost s))
      | _ => None
      end
  | HandlerSets c =>
      match main s with
      | Waiting | Handling =>
          Some (Sys (ticks s) (prev_cursor s) c (timer s) (main s) (slept s) (counted s) (replaced s) false (lost s))
      | _ => None
      end
  | IterationEnds =>
      match main s with
      | Handling =>
          Some (Sys (ticks s) (prev_cursor s) (cursor s) (timer s) Top (slept s) (counted s) (replaced s) (shown s) (lost s))
      | _ => None
      end
  end.

Definition step (wait : Z) (s s' : system) : Prop := exists w, sys_step wait w s = Some s'.

Definition init (c : Z) : system := Sys 0 0 c Sleeping Top 0 0 0 false false.

Definition reachable (wait c : Z) (s : system) : Prop := rtc (step wait) (init c) s.

Fixpoint exec (wait : Z) (ws : list who) (s : system) : option system :=
  match ws with
  | [] => Some s
  | w :: ws => match sys_step wait w s with Some s => exec wait ws s | None => None end
  end.

Lemma exec_reachable wait c ws s : exec wait ws (init c) = Some s -> reachable wait c s.
Proof.
  unfold reachable. generalize (init c) as s0. induction ws as [|w ws IH]; intros s0; simpl.
  - intros [= ->]. apply rtc_refl.
  - destruct (sys_step wait w s0) as [s1|] eqn:E; [|done]. intros H.
    eapply rtc_l; [by exists w|by apply IH].
Qed.

(** *** Invariants *)

Definition pending_dec (pc : timer_pc) : nat :=
  match pc with Testing | Decrementing => 1 | _ => 0 end.

(** The counter: it never runs below -1, and while it runs it counts down from 5,
    at most one step ahead of the sleeps. *)
Definition counter_inv (s : system) : Prop :=
  (-1 <= ticks s <= 5)%Z /\
  (timer s = Decrementing -> 0 <= ticks s)%Z /\
  ((0 < ticks s)%Z -> ticks s = (5 - Z.of_nat (counted s))%Z) /\
  (counted s + pending_dec (timer s) <= slept s + 1)%nat.

Ltac split_innermost x :=
  lazymatch x with
  | context [match ?y with _ => _ end] => split_innermost y
  | _ => first [is_var x; destruct x | destruct x eqn:?]
  end.

(** The transitions of a step, one case for each call of each thread. *)
Ltac step_cases Hw :=
  match type of Hw with
  | sys_step _ ?w _ = _ => destruct w as [[a r]|[a r]| |c'|]; [destruct a; try discriminate Hw..| | |]
  end;
  unfold sys_step, timer_next, main_next, mem_step, shared_step, memory, observe_lost, observe_replaced in Hw; cbn -[Z.eqb Z.ltb Z.sub] in Hw;
  repeat match type of Hw with
  | context [match ?x with _ => _ end] =>
      split_innermost x; try discriminate Hw; cbn -[Z.eqb Z.ltb Z.sub] in Hw
  end;
  injection Hw as <-; cbn -[Z.eqb Z.ltb Z.sub] in *;
  repeat match goal with
  | E : (_ =? _)%Z = true |- _ => apply Z.eqb_eq in E; subst
  | E : (_ =? _)%Z = false |- _ => apply Z.eqb_neq in E
  | E : (_ <? _)%Z = true |- _ => apply Z.ltb_lt in E
  | E : (_ <? _)%Z = false |- _ => apply Z.ltb_ge in E
  end.

Lemma counter_step wait s s' : counter_inv s -> step wait s s' -> counter_inv s'.
Proof.
  intros (H1 & H2 & H3 & H4) [w Hw]. destruct s as [t p c tm mn sl ct rp sh lo].
  unfold counter_inv. step_cases Hw.
  all: split_and!; intros; try discriminate; first [lia|solve [auto]|specialize (H2 eq_refl); lia|idtac].
  destruct tm; simpl; lia.
Qed.

Lemma counter_reachable wait c s : reachable wait c s -> counter_inv s.
Proof.
  unfold reachable. apply (rtc_ind_r (counter_inv)).
  - unfold counter_inv; simpl. split_and!; intros; try discriminate; lia.
  - intros s1 s2 _ Hs IH. by eapply counter_step.
Qed.

(** The cursor, as long as no race was lost. *)
Definition unstarted (pc : main_pc) : bool :=
  match pc with Top | Clearing | Handling => false | _ => true end.

(** The wait cursor of the timer is shown in the place of another one. *)
Definition covering (s : system) : Prop := shown s = true /\ replaced s <> 0%Z.

(** [prev_cursor] is 0 or what the timer replaced, but for the moment in which the timer is
    about to store it; the wait cursor is only shown where it will be found there. *)
Definition cursor_inv (s : system) : Prop :=
  (unstarted (main s) = true -> (ticks s <= 0)%Z /\ fired (timer s) = false) /\
  (fired (timer s) = true \/ covering s -> (ticks s <= 0)%Z) /\
  match timer s with Saving old => replaced s = old | _ => prev_cursor s <> 0%Z -> prev_cursor s = replaced s end /\
  (timer s = Firing -> ~ covering s) /\
  match main s with
  | LoadPrev => prev_cursor s <> 0%Z
  | Restore c => c = replaced s /\ c <> 0%Z
  | GetPos => cursor s = replaced s
  | _ => True
  end /\
  (covering s ->
    match main s with
    | GetPos | SetPos | Waiting | Starting => False
    | TestPrev | LoadPrev | Restore _ => prev_cursor s <> 0%Z
    | _ => prev_cursor s <> 0%Z \/ saving (timer s) = true
    end).

Lemma cursor_step wait s s' :
  (lost s = false -> cursor_inv s) -> step wait s s' -> lost s' = false -> cursor_inv s'.
Proof.
  intros Hinv [w Hs] Hl. destruct s as [t p c tm mn sl ct rp sh lo].
  assert (lost s' = false -> lo = false) as Hlo.
  { clear -Hs. step_cases Hs; try done; by destruct lo. }
  specialize (Hinv (Hlo Hl)). clear Hlo. destruct Hinv as (H1 & H2 & H3 & H4 & H5 & H6).
  unfold cursor_inv, covering in *. step_cases Hs.
  all: try solve [split_and!; assumption].
  all: repeat match goal with H : true = true -> _ |- _ => specialize (H eq_refl) end.
  all: split_and!; intros; try assumption; try done.
  all: try solve [intuition (discriminate || congruence || lia)].
  all: try solve [destruct mn; simpl in *; intuition (discriminate || congruence || lia)].
  all: try solve [destruct tm; simpl in *; intuition (discriminate || congruence || lia)].
  - by apply c_true_spec.
  - apply c_true_0 in Heqb0. by apply (H6 H).
  - destruct H as [-> Hr]. apply orb_false_elim in Hl as [_ Hl]. rewrite (proj2 (c_true_spec rp) Hr) in Hl. right.
    destruct tm; try discriminate Hl; [by destruct (H4 eq_refl)|done].
Qed.

Lemma cursor_reachable wait c s : reachable wait c s -> lost s = false -> cursor_inv s.
Proof.
  unfold reachable. apply (rtc_ind_r (fun s => lost s = false -> cursor_inv s)).
  - intros _. unfold cursor_inv, covering; simpl. split_and!; intros; try done; try lia; intuition congruence.
  - intros s1 s2 _ Hs IH. by eapply cursor_step.
Qed.

(** What [shown] observes. *)
Lemma shown_wait wait c s : reachable wait c s -> shown s = true -> cursor s = wait.
Proof.
  unfold reachable. apply (rtc_ind_r (fun s => shown s = true -> cursor s = wait)); [done|].
  intros s1 s2 _ [w Hs] IH. destruct s1 as [t p c0 tm mn sl ct rp sh lo]. step_cases Hs; intros Hsh; auto; discriminate.
Qed.

(** ** Properties *)

(** In every interleaving of the timer with the main thread, the hook and the
    handlers, [ticks] stays between -1 and 5 although its test and its decrement
    are not one operation. *)
Theorem ticks_bounded wait c s (H : reachable wait c s) : (-1 <= ticks s <= 5)%Z.
Proof. apply (counter_reachable _ _ _ H). Qed.

Definition busy_schedule : list who :=
  [MainDoes (Ev (StoreTicks 0) tt); MainDoes (Ev LoadPrevCursor 0%Z);
   MainDoes (Ev GetMessageA (1, Msg 7 0 0 0)%Z);
   MainDoes (Ev (StoreTicks 5) tt); MainDoes (Ev (StorePrevCursor 0) tt)] ++
  concat ((fun n => [TimerDoes (Ev (Sleep 25) tt); TimerDoes (Ev LoadTicks n);
                     TimerDoes (Ev DecTicks (n - 1)%Z)]) <$> [5; 4; 3; 2; 1]%Z).

Lemma ticks_bounded_witness : (-1 <= ticks (Sys 0 0 9 Firing Handling 5 5 0 false false) <= 5)%Z.
Proof. apply (ticks_bounded 8 9). apply (exec_reachable 8 9 busy_schedule). reflexivity. Defined.

(** The timer decides to show the wait cursor only after five decrements, and at
    least four whole sleeps of 25 ms, since the main thread started the timer
    for the message it is handling; any message finished or hooked earlier
    stops it. *)
Theorem wait_cursor_is_late wait c s s' (H : reachable wait c s) (Hs : step wait s s')
    (Hf : timer s <> Firing) (Hf' : timer s' = Firing) :
  counted s' = 5%nat /\ (4 <= slept s')%nat /\ ticks s' = 0%Z.
Proof.
  apply counter_reachable in H as (H1 & H2 & H3 & H4).
  destruct Hs as [w Hw]. destruct s as [t p c0 tm mn sl ct rp sh lo].
  step_cases Hw; try done. assert (t = 1)%Z as -> by lia. specialize (H3 ltac:(lia)). lia.
Qed.

Lemma wait_cursor_is_late_witness :
  counted (Sys 0 0 9 Firing Handling 5 5 0 false false) = 5%nat /\
  (4 <= slept (Sys 0 0 9 Firing Handling 5 5 0 false false))%nat /\ ticks (Sys 0 0 9 Firing Handling 5 5 0 false false) = 0%Z.
Proof.
  apply (wait_cursor_is_late 8 9 (Sys 1 0 9 Decrementing Handling 5 4 0 false false)).
  - apply (exec_reachable 8 9 (take 19 busy_schedule)). reflexivity.
  - exists (TimerDoes (Ev DecTicks 0%Z)). reflexivity.
  - discriminate.
  - reflexivity.
Defined.

(** C27: The wait cursor that the timer shows in the place of another cursor is gone whenever
    the main thread waits for a message, and before that the main thread restores exactly
    the cursor that the timer replaced - whatever cursors the handlers set, the wait cursor
    among them - in every interleaving in which the main thread did not stop the timer
    between its last decrement and its store, or clear the cursor it had just stored.
    ([shown] is the wait cursor of the timer being shown: nobody has set another since.) *)
Theorem cursor_restored wait c s (H : reachable wait c s) (Hl : lost s = false) :
  (shown s = true -> cursor s = wait) /\
  (main s = Waiting -> ~ (shown s = true /\ replaced s <> 0%Z)) /\
  (forall c', main s = Restore c' -> c' = replaced s /\ c' <> 0%Z) /\
  (main s = GetPos -> cursor s = replaced s).
Proof.
  destruct (cursor_reachable wait c s H Hl) as (_ & _ & _ & _ & H5 & H6). split_and!.
  - by eapply shown_wait.
  - intros E. rewrite E in H6. exact H6.
  - intros c' E. by rewrite E in H5.
  - intros E. by rewrite E in H5.
Qed.

Definition restored_schedule : list who :=
  busy_schedule ++
  [TimerDoes (Ev (SetCursor 8) 9%Z); TimerDoes (Ev (StorePrevCursor 9) tt); IterationEnds;
   MainDoes (Ev (StoreTicks 0) tt); MainDoes (Ev LoadPrevCursor 9%Z); MainDoes (Ev LoadPrevCursor 9%Z);
   MainDoes (Ev (SetCursor 9) 8%Z); MainDoes (Ev GetCursorPos (3, 4)%Z); MainDoes (Ev (SetCursorPos 3 4) 0%Z)].

Definition restored_state : system := Sys 0 9 9 Sleeping GetPos 5 5 9 false false.

Lemma cursor_restored_witness :
  (shown restored_state = true -> cursor restored_state = 8%Z) /\
  (main restored_state = Waiting -> ~ (shown restored_state = true /\ replaced restored_state <> 0%Z)) /\
  (forall c', main restored_state = Restore c' -> c' = replaced restored_state /\ c' <> 0%Z) /\
  (main restored_state = GetPos -> cursor restored_state = replaced restored_state).
Proof.
  apply (cursor_restored 8 9); [|reflexivity].
  apply (exec_reachable 8 9 (take (length restored_schedule - 2) restored_schedule)). reflexivity.
Defined.

(** A handler that sets the wait cursor itself: the timer replaces it with itself, and that
    is what is restored. *)
Example handlers_wait_cursor :
  exec 8 (busy_schedule ++ [HandlerSets 8; TimerDoes (Ev (SetCursor 8) 8%Z); TimerDoes (Ev (StorePrevCursor 8) tt); IterationEnds;
    MainDoes (Ev (StoreTicks 0) tt); MainDoes (Ev LoadPrevCursor 8%Z); MainDoes (Ev LoadPrevCursor 8%Z);
    MainDoes (Ev (SetCursor 8) 8%Z); MainDoes (Ev GetCursorPos (3, 4)%Z); MainDoes (Ev (SetCursorPos 3 4) 0%Z)]) (init 9) =
  Some (Sys 0 8 8 Sleeping Waiting 5 5 8 false false).
Proof. reflexivity. Qed.

(** The cursor that is no cursor - a hidden one, which [SetCursor] answers as null - is not
    restored, since a null [prev_cursor] means that there is nothing to restore: the wait
    cursor stays. *)
Theorem hidden_cursor_not_restored : exists s,
  reachable 8 9 s /\ lost s = false /\ main s = Waiting /\ shown s = true /\ cursor s = 8%Z /\ replaced s = 0%Z.
Proof.
  exists (Sys 0 0 8 Sleeping Waiting 5 5 0 true false). split; [|done].
  apply (exec_reachable 8 9 (busy_schedule ++
    [HandlerSets 0; TimerDoes (Ev (SetCursor 8) 0%Z); TimerDoes (Ev (StorePrevCursor 0) tt); IterationEnds;
     MainDoes (Ev (StoreTicks 0) tt); MainDoes (Ev LoadPrevCursor 0%Z)])).
  reflexivity.
Qed.

(** The race is real: the main thread may finish its message between the timer's
    last decrement and its [SetCursor]; it then waits under the wait cursor,
    and the next message clears [prev_cursor] unseen, so that nothing
    restores the cursor any more. *)
Theorem wait_cursor_can_stay : exists s,
  reachable 8 9 s /\ main s = Waiting /\ timer s = Sleeping /\ cursor s = 8%Z /\
  prev_cursor s = 0%Z /\ ticks s = 0%Z.
Proof.
  exists (Sys 0 0 8 Sleeping Waiting 0 0 9 true true). split; [|done].
  apply (exec_reachable 8 9 (busy_schedule ++
    [IterationEnds; MainDoes (Ev (StoreTicks 0) tt); MainDoes (Ev LoadPrevCursor 0%Z);
     TimerDoes (Ev (SetCursor 8) 9%Z); TimerDoes (Ev (StorePrevCursor 9) tt);
     MainDoes (Ev GetMessageA (1, Msg 7 0 0 0)%Z); MainDoes (Ev (StoreTicks 5) tt);
     MainDoes (Ev (StorePrevCursor 0) tt); IterationEnds;
     MainDoes (Ev (StoreTicks 0) tt); MainDoes (Ev LoadPrevCursor 0%Z)])).
  reflexivity.
Qed.
