(* ===== verification/CursorCode.v ===== *)
(** * The timer and the code

    The system of CursorTimer interleaves two automata.  Here it is tied to the code: every
    interleaving of what the translated timer thread does with what the translated message
    loop does - with the loops that handlers run inside it, the hook and the handlers'
    cursors - is a path of the system, so its invariants hold of the code. *)

From S2P Require Import Prelude Prog Win32 CSide CursorTimer.

(** ** Whole loops *)

(** The main thread, with the end of an iteration implied by the start of the next. *)
Definition loop_next (pc : main_pc) (e : ev) : option main_pc :=
  match main_next pc e with
  | Some pc => Some pc
  | None => match pc with Handling => main_next Top e | _ => None end
  end.

Lemma accepts_loop tr : forall pc pc', accepts main_next pc tr = Some pc' -> accepts loop_next pc tr = Some pc'.
Proof.
  induction tr as [|e tr IH]; intros pc pc'; simpl; [done|]. unfold loop_next at 1.
  destruct (main_next pc e) as [pc1|]; [apply IH|done].
Qed.

Lemma top_not_handling e pc : main_next Top e = Some pc -> main_next Handling e = None.
Proof. destruct e as [a r]. by destruct a. Qed.

Lemma top_loop e : loop_next Top e = main_next Top e.
Proof. unfold loop_next. by destruct (main_next Top e). Qed.

(** What starts an iteration can come where a message is being handled. *)
Lemma accepts_from_handling tr pc : accepts loop_next Top tr = Some pc -> tr <> [] ->
  accepts loop_next Handling tr = Some pc.
Proof.
  destruct tr as [|e tr]; [done|]. intros H _. simpl in *. rewrite top_loop in H.
  destruct (main_next Top e) as [pc1|] eqn:E; [|done]. unfold loop_next at 1. by rewrite (top_not_handling _ _ E), E.
Qed.

Definition at_rest (pc : main_pc) : Prop := pc = Top \/ pc = Handling.

Lemma message_loop_accepted fuel hdlg : forall tr,
  every_run any_answer (message_loop fuel hdlg) tr (fun o tr' => exists tr1,
    tr' = tr ++ tr1 /\ exists pc, accepts loop_next Top tr1 = Some pc /\ at_rest pc /\ (o <> None -> pc = Handling)).
Proof.
  induction fuel as [|fuel IH]; intros tr; cbn [message_loop].
  { exists []. rewrite app_nil_r. split; [done|]. exists Top. split_and!; [done|by left|done]. }
  apply every_run_bind. eapply every_run_mono; [|apply loop_body_accepted].
  intros o tr' (tr1 & -> & Ho).
  assert (H1 : exists pc1, accepts loop_next Top tr1 = Some pc1 /\ at_rest pc1 /\ (o <> None -> pc1 = Handling)).
  { destruct Ho as [H|[-> H]]; apply accepts_loop in H; eexists; (split; [exact H|]); split; unfold at_rest; auto; done. }
  clear Ho. destruct H1 as (pc1 & H1 & Hr & Ho). destruct o as [v|].
  - exists tr1. split; [done|]. exists pc1. split_and!; [done|done|]. intros _. by apply Ho.
  - eapply every_run_mono; [|apply IH]. intros o tr' (tr2 & -> & pc2 & H2 & Hr2 & Ho2). exists (tr1 ++ tr2).
    rewrite (assoc_L (++)). split; [done|]. destruct (decide (tr2 = [])) as [->|Hne].
    + rewrite app_nil_r. cbn in H2. injection H2 as <-. exists pc1. split_and!; [done|done|].
      intros H. by specialize (Ho2 H).
    + exists pc2. split_and!; [|done|done]. rewrite (accepts_app _ _ _ _ _ H1).
      destruct Hr as [-> | ->]; [done|by apply accepts_from_handling].
Qed.

(** Calls during which handlers run, and with them loops of their own. *)
Definition runs_handlers (e : ev) : bool :=
  match e with
  | Ev a _ => negb (shared_call a) && match a with GetCursorPos | SetCursorPos _ _ => false | _ => true end
  end.

(** What the main thread does in one call of [message_loop], with the loops that are run while
    messages are handled (dialogs): a list of all its calls in order. *)
Inductive main_trace : option Z -> list ev -> Prop :=
| MT_loop fuel hdlg o tr : runs_to (message_loop fuel hdlg) o tr -> main_trace o tr
| MT_nested o tr1 e tr2 v nested : main_trace o (tr1 ++ e :: tr2) -> runs_handlers e = true ->
    main_trace (Some v) nested -> main_trace o (tr1 ++ nested ++ e :: tr2).

Lemma accepts_split {A} (next : A -> ev -> option A) tr1 : forall pc tr2 pc2,
  accepts next pc (tr1 ++ tr2) = Some pc2 ->
  exists pc1, accepts next pc tr1 = Some pc1 /\ accepts next pc1 tr2 = Some pc2.
Proof.
  induction tr1 as [|e tr1 IH]; intros pc tr2 pc2; simpl; [eauto|]. destruct (next pc e); [apply IH|done].
Qed.

Lemma handlers_in_handling pc e pc' : runs_handlers e = true -> loop_next pc e = Some pc' -> pc = Handling.
Proof. destruct e as [a r]. destruct pc, a; done. Qed.

Lemma main_trace_accepted o tr : main_trace o tr ->
  exists pc, accepts loop_next Top tr = Some pc /\ at_rest pc /\ (o <> None -> pc = Handling).
Proof.
  induction 1 as [fuel hdlg o tr Hr|o tr1 e tr2 v nested _ IH1 He _ IH2].
  - apply (every_run_runs_to _ [] _ _ _ (message_loop_accepted fuel hdlg [])) in Hr. simpl in Hr.
    destruct Hr as (tr1 & <- & Hr). exact Hr.
  - destruct IH1 as (pc & H1 & Hr). destruct IH2 as (pcn & Hn & _ & Hv). rewrite Hv in Hn by done.
    apply accepts_split in H1 as (pc1 & H1 & H2). exists pc. split; [|done].
    assert (pc1 = Handling) as ->.
    { simpl in H2. destruct (loop_next pc1 e) as [pc2|] eqn:E; [|done]. by eapply handlers_in_handling. }
    rewrite (accepts_app _ _ _ _ _ H1). rewrite (accepts_app _ _ _ Handling); [done|].
    apply accepts_from_handling; [done|]. by intros ->.
Qed.

(** ** Interleavings *)

(** The hook runs inside [GetMessageA] and inside the handlers' own loops, and handlers run inside
    [GetMessageA], where messages that are sent are handled. *)
Definition runs_hook (e : ev) : bool :=
  runs_handlers e || match e with Ev GetMessageA _ => true | _ => false end.

(** The effect of several calls on the shared state. *)
Fixpoint shared_steps (m : Z * Z * Z) (tr : list ev) : option (Z * Z * Z) :=
  match tr with
  | [] => Some m
  | e :: tr => match shared_step m e with Some m => shared_steps m tr | None => None end
  end.

(** [interleaves wait tt tm m ws m']: beginning with the shared state [m], the calls [tt] of
    the timer thread and [tm] of the main thread can begin to happen in the order [ws],
    with runs of [message_hook] and any cursors set by handlers in between, and lead to [m'];
    every answer is what the shared state gives. *)
Inductive interleaves (wait : Z) : list ev -> list ev -> Z * Z * Z -> list who -> Z * Z * Z -> Prop :=
| IL_stop tt tm m : interleaves wait tt tm m [] m
| IL_timer e tt tm m m1 ws m2 : shared_step m e = Some m1 -> interleaves wait tt tm m1 ws m2 ->
    interleaves wait (e :: tt) tm m (TimerDoes e :: ws) m2
| IL_main e tt tm m m1 ws m2 : shared_step m e = Some m1 -> interleaves wait tt tm m1 ws m2 ->
    interleaves wait tt (e :: tm) m (MainDoes e :: ws) m2
| IL_hook e tt tm hook code wParam lParam v tr m m1 ws m2 : runs_hook e = true ->
    runs_to (message_hook hook code wParam lParam) v tr -> shared_steps m tr = Some m1 ->
    interleaves wait tt (e :: tm) m1 ws m2 ->
    interleaves wait tt (e :: tm) m (HookRuns :: ws) m2
| IL_handler e tt tm t p c c' ws m2 : runs_hook e = true ->
    interleaves wait tt (e :: tm) (t, p, c') ws m2 ->
    interleaves wait tt (e :: tm) (t, p, c) (HandlerSets c' :: ws) m2.

(** The schedule of the system, without the marks for the ends of iterations. *)
Definition happened (w : who) : bool := match w with IterationEnds => false | _ => true end.

Lemma timer_does wait s e pc m1 : timer_next wait (timer s) e = Some pc -> shared_step (memory s) e = Some m1 ->
  exists s', sys_step wait (TimerDoes e) s = Some s' /\ memory s' = m1 /\ timer s' = pc /\ main s' = main s.
Proof.
  intros H1 H2. destruct e as [a r]. unfold sys_step, mem_step. rewrite H1, H2. destruct m1 as [[t p] c]. eauto.
Qed.

Lemma main_does wait s e pc m1 : main_next (main s) e = Some pc -> shared_step (memory s) e = Some m1 ->
  exists s', sys_step wait (MainDoes e) s = Some s' /\ memory s' = m1 /\ main s' = pc /\ timer s' = timer s.
Proof.
  intros H1 H2. destruct e as [a r]. unfold sys_step, mem_step. rewrite H1, H2. destruct m1 as [[t p] c]. eauto.
Qed.

(** A step of the loop, with the end of the iteration before it where there is one. *)
Lemma loop_does wait s e pc m1 : loop_next (main s) e = Some pc -> shared_step (memory s) e = Some m1 ->
  exists ws s', exec wait ws s = Some s' /\ memory s' = m1 /\ main s' = pc /\ timer s' = timer s /\
    List.filter happened ws = [MainDoes e].
Proof.
  unfold loop_next. intros H1 H2. destruct (main_next (main s) e) as [pc1|] eqn:E.
  - injection H1 as ->. destruct (main_does wait s e pc m1 E H2) as (s' & Hs & Hm & ? & ?).
    exists [MainDoes e], s'. cbn [exec]. by rewrite Hs.
  - destruct (main s) eqn:Em; try done. set (s1 := Sys (ticks s) (prev_cursor s) (cursor s) (timer s) Top (slept s) (counted s) (replaced s) (shown s) (lost s)).
    destruct (main_does wait s1 e pc m1) as (s' & Hs & Hm & ? & ?); [done..|]. exists [IterationEnds; MainDoes e], s'.
    cbn [exec]. replace (sys_step wait IterationEnds s) with (Some s1) by (unfold sys_step; by rewrite Em). by rewrite Hs.
Qed.

Lemma exec_app wait ws1 : forall ws2 s s1, exec wait ws1 s = Some s1 -> exec wait (ws1 ++ ws2) s = exec wait ws2 s1.
Proof. induction ws1 as [|w ws1 IH]; intros ws2 s s1; simpl; [by intros [= ->]|]. destruct (sys_step wait w s); [apply IH|done]. Qed.

(** The hook stops the timer and leaves the rest alone. *)
Lemma hook_stops hook code wParam lParam v tr m : runs_to (message_hook hook code wParam lParam) v tr ->
  shared_steps m tr = Some (0%Z, m.1.2, m.2).
Proof.
  intros H. revert m. pattern v, tr. change tr with ([] ++ tr). eapply every_run_runs_to, H.
  unfold message_hook. cbn. intros [] _ r _ [[t p] c]. reflexivity.
Qed.

Lemma hook_in e pc pc' : runs_hook e = true -> loop_next pc e = Some pc' -> pc = Waiting \/ pc = Handling.
Proof.
  unfold runs_hook. intros [H|H]%orb_true_iff Hn; [right; by eapply handlers_in_handling|].
  destruct e as [a r]. destruct a; try done. destruct pc; auto; done.
Qed.

Lemma interleaves_exec wait tt tm m ws m2 : interleaves wait tt tm m ws m2 -> forall s,
  is_Some (accepts (timer_next wait) (timer s) tt) -> is_Some (accepts loop_next (main s) tm) -> memory s = m ->
  exists ws' s', exec wait ws' s = Some s' /\ memory s' = m2 /\ List.filter happened ws' = ws.
Proof.
  induction 1 as [tt tm m|e tt tm m m1 ws m2 He _ IH|e tt tm m m1 ws m2 He _ IH
    |e tt tm hk co wp lp v tr m m1 ws m2 He Hr Hsh _ IH|e tt tm t p c c' ws m2 He _ IH]; intros s Ht Hm Hs.
  - by exists [], s.
  - simpl in Ht. destruct (timer_next wait (timer s) e) as [pc|] eqn:E; [|by destruct Ht].
    destruct (timer_does wait s e pc m1) as (s1 & H1 & Hm1 & Ht1 & Hn1); [done|by rewrite Hs|].
    destruct (IH s1) as (ws' & s' & Hx & Hm' & Hf); [by rewrite Ht1|by rewrite Hn1|done|].
    exists (TimerDoes e :: ws'), s'. cbn [exec List.filter happened]. by rewrite H1, Hf.
  - simpl in Hm. destruct (loop_next (main s) e) as [pc|] eqn:E; [|by destruct Hm].
    destruct (loop_does wait s e pc m1) as (ws1 & s1 & H1 & Hm1 & Hn1 & Ht1 & Hf1); [done|by rewrite Hs|].
    destruct (IH s1) as (ws' & s' & Hx & Hm' & Hf); [by rewrite Ht1|by rewrite Hn1|done|].
    exists (ws1 ++ ws'), s'. rewrite (exec_app _ _ _ _ _ H1), List.filter_app, Hf1, Hf. done.
  - assert (Hpc : main s = Waiting \/ main s = Handling).
    { simpl in Hm. destruct (loop_next (main s) e) eqn:E; [by eapply hook_in|by destruct Hm]. }
    rewrite (hook_stops _ _ _ _ _ _ m Hr) in Hsh. injection Hsh as <-.
    set (s1 := Sys 0 (prev_cursor s) (cursor s) (timer s) (main s) (slept s) (counted s) (replaced s) (shown s) (lost s)).
    destruct (IH s1) as (ws' & s' & Hx & Hm' & Hf); [done|done|by rewrite <- Hs|].
    exists (HookRuns :: ws'), s'. cbn [exec List.filter happened].
    replace (sys_step wait HookRuns s) with (Some s1) by (unfold sys_step, s1; by destruct Hpc as [E | E]; rewrite !E). by rewrite Hf.
  - assert (Hpc : main s = Waiting \/ main s = Handling).
    { simpl in Hm. destruct (loop_next (main s) e) eqn:E; [by eapply hook_in|by destruct Hm]. }
    set (s1 := Sys (ticks s) (prev_cursor s) c' (timer s) (main s) (slept s) (counted s) (replaced s) false (lost s)).
    destruct (IH s1) as (ws' & s' & Hx & Hm' & Hf); [done|done|unfold memory in *; simpl; congruence|].
    exists (HandlerSets c' :: ws'), s'. cbn [exec List.filter happened].
    replace (sys_step wait (HandlerSets c') s) with (Some s1) by (unfold sys_step, s1; by destruct Hpc as [E | E]; rewrite !E).
    by rewrite Hf.
Qed.

(** ** Properties *)

(** C28: Whatever the timer thread and the main thread of the code do together is a behaviour of
    the system of CursorTimer: take the calls of any number of iterations of the timer, and
    those of a message loop with any loops run inside it; however they interleave, with runs of
    [message_hook] and with any cursors set by handlers, the shared state is that of a reachable state -
    so [ticks] stays between -1 and 5, and what was proved of the cursor holds of the code. *)
Theorem code_interleavings_reachable wait c n tt o tm ws t p c'
    (Ht : runs_to (cursor_loop n wait) tt.1 tt.2) (Hm : main_trace o tm)
    (Hw : interleaves wait tt.2 tm (0%Z, 0%Z, c) ws (t, p, c')) :
  exists ws' s, exec wait ws' (init c) = Some s /\ List.filter happened ws' = ws /\ reachable wait c s /\
    memory s = (t, p, c') /\ (-1 <= t <= 5)%Z.
Proof.
  destruct tt as [[] tt]. simpl in *.
  apply (every_run_runs_to _ [] _ _ _ (cursor_loop_accepted n wait [])) in Ht as (tt1 & E & Ht). simpl in E. subst tt1.
  apply main_trace_accepted in Hm as (pc & Hm & _).
  destruct (interleaves_exec _ _ _ _ _ _ Hw (init c)) as (ws' & s & Hx & Hs & Hf); [simpl; by rewrite Ht|simpl; by rewrite Hm|done|].
  exists ws', s. pose proof (exec_reachable _ _ _ _ Hx) as Hr. split_and!; [done..| |].
  all: destruct (counter_reachable _ _ _ Hr) as [H _]; unfold memory in Hs; simplify_eq; apply H.
Qed.

(** The hook runs while the loop waits; the message takes so long that the timer shows the wait cursor; the next iteration of the
    loop restores the cursor and gets the quit message. *)
Definition slow_timer : list ev :=
  concat ((fun n => [Ev (Sleep 25) tt; Ev LoadTicks n; Ev DecTicks (n - 1)%Z]) <$> [5; 4; 3; 2; 1]%Z) ++
  [Ev (SetCursor 8) 9%Z; Ev (StorePrevCursor 9) tt].

Definition slow_loop : list ev := [
  Ev (StoreTicks 0) tt; Ev LoadPrevCursor 0%Z; Ev GetMessageA (1, Msg 7 0 0 0)%Z; Ev (StoreTicks 5) tt;
  Ev (StorePrevCursor 0) tt; Ev (GetAncestor 7 GA_ROOT) 7%Z; Ev (GetWindowLongPtrA 7 GWLP_USERDATA) 0%Z;
  Ev (IsDialogMessage 7 (Msg 7 0 0 0)) 0%Z; Ev (TranslateMessage (Msg 7 0 0 0)) 0%Z;
  Ev (DispatchMessageA (Msg 7 0 0 0)) 0%Z;
  Ev (StoreTicks 0) tt; Ev LoadPrevCursor 9%Z; Ev LoadPrevCursor 9%Z; Ev (SetCursor 9) 8%Z;
  Ev GetCursorPos (3, 4)%Z; Ev (SetCursorPos 3 4) 0%Z; Ev GetMessageA (0, Msg 0 WM_QUIT 0 0)%Z;
  Ev (StoreTicks 5) tt; Ev (StorePrevCursor 0) tt].

Definition slow_schedule : list who :=
  (MainDoes <$> take 2 slow_loop) ++ [HookRuns] ++ (MainDoes <$> drop 2 (take 9 slow_loop)) ++ (TimerDoes <$> slow_timer) ++ (MainDoes <$> drop 9 slow_loop).

Lemma code_interleavings_reachable_witness :
  exists ws' s, exec 8 ws' (init 9) = Some s /\ List.filter happened ws' = slow_schedule /\ reachable 8 9 s /\
    memory s = (5, 0, 9)%Z /\ (-1 <= 5 <= 5)%Z.
Proof.
  apply (code_interleavings_reachable 8 9 5 (tt, slow_timer) (Some 0%Z) slow_loop).
  - repeat (cbn; constructor).
  - apply (MT_loop 2 0). repeat (cbn; constructor).
  - repeat (cbn; first [apply IL_timer with (m1 := (_, _, _)); [reflexivity|] | eapply IL_main; [reflexivity|]
                       | eapply IL_timer; [reflexivity|] | apply IL_stop
                       | eapply (IL_hook _ _ _ _ 0 0 0 0 0 [Ev (StoreTicks 0) tt; Ev (CallNextHookEx 0 0 0 0) 0%Z]);
                         [reflexivity|repeat constructor|reflexivity|]]).
Defined.
