(* ===== verification/Callbacks.v ===== *)
(** * Callbacks from Windows into Suneido code (callbacks_wingui.go)

    Windows calls Suneido functions through function pointers that Go makes; a pointer
    can never be given back, so callbacks_wingui.go keeps tables of slots, each with one
    pointer, and lends a slot to a Suneido function from [NewCallback] to [ClearCallback].
    Since Windows may still call a pointer shortly after it was cleared, a slot keeps its
    function, and is lent again only after a delay. *)

From S2P Require Import Prelude Prog.

(** ** Values

    A Suneido value as far as this file looks at it.  Go compares values by identity;
    [Method p] is the bound method at the address [p]. *)

Inductive Value :=
| Nil                          (* no value yet *)
| Number (toInt : option Z)    (* what [ToInt] gives, [None] if it panics *)
| Method (p : Z)
| Other (p : Z).

#[export] Instance value_eq_dec : EqDecision Value.
Proof. solve_decision. Defined.

(** The slots.  The zero value is a slot that was never used. *)
Record callback := Callback { gocb : Z; cb_fn : Value; cb_th : Z; active : bool; keepTill : Z }.

Definition no_callback : callback := Callback 0 Nil 0 false 0.

Definition set_gocb (h : Z) (cb : callback) : callback :=
  Callback h (cb_fn cb) (cb_th cb) (active cb) (keepTill cb).

Definition lend (th : Z) (fn : Value) (cb : callback) : callback :=
  Callback (gocb cb) fn th true (keepTill cb).

Definition retire (keep : Z) (cb : callback) : callback :=
  Callback (gocb cb) (cb_fn cb) (cb_th cb) false keep.

(** [cbs]: the tables of the callbacks with 2, 3 and 4 arguments; and the functions of
    the windows that share the single pointer of [SetWindowProc]. *)
Record state := State { cbs : list (list callback); hwndToCb : gmap Z Value }.

Definition ncb2s : nat := 32.
Definition ncb3s : nat := 32.
Definition ncb4s : nat := 512.

Definition ncbs : list nat := [ncb2s; ncb3s; ncb4s].

Definition init : state := State ((fun n => replicate n no_callback) <$> ncbs) ∅.

Definition delay : Z := 10.

(** [clock] is the time since the start in milliseconds, as an [uint32]. *)
Definition clock (now : Z) : Z := u32 now.

(** Go panics, or the process ends. *)
Inductive outcome (A : Type) := Done (a : A) (s : state) | Panic (msg : string) | Exit (msg : string).
Arguments Done {A} a s.
Arguments Panic {A} msg.
Arguments Exit {A} msg.

Section callbacks.

(** [goCallback nargs i] is the pointer that [syscall.NewCallback] makes for slot [i] of
    the table for [nargs] arguments; [deref p] is the method at the address [p]: the
    object it is bound to and the function. *)
Context (goCallback : nat -> nat -> Z) (deref : Z -> Z * Z) (MainThread wndProcCb : Z).

(** [cbs[nargs-2]]: an index below 0 is as much out of range as one above 2. *)
Definition table (nargs : nat) (s : state) : option (list callback) :=
  if nargs <? 2 then None else cbs s !! (nargs - 2).

(** Identity equality, except for bound methods. *)
Definition cbeq (x y : Value) : bool :=
  if decide (x = y) then true
  else match x, y with
       | Method p, Method q => bool_decide (deref p = deref q)
       | _, _ => false
       end.

(** The loop of [NewCallback]: [j] is the slot found so far.  [None] is the panic for a
    function that has a callback already. *)
Fixpoint find_slot (nargs : nat) (fn : Value) (clk : Z) (l : list callback) (i : nat) (j : option nat)
    : option (list callback * option nat) :=
  match l with
  | [] => Some ([], j)
  | cb :: l' =>
      if (gocb cb =? 0)%Z then
        match j with
        | None => Some (set_gocb (goCallback nargs i) cb :: l', Some i)
        | Some j => Some (l, Some j)
        end
      else
        let j := match j with
                 | None => if negb (active cb) && (keepTill cb <? clk)%Z then Some i else None
                 | Some j => Some j
                 end in
        if active cb && cbeq fn (cb_fn cb) then None
        else '(l', j) ← find_slot nargs fn clk l' (S i) j; Some (cb :: l', j)
  end.

Definition NewCallback (now : Z) (th : Z) (fn : Value) (nargs : nat) (s : state) : outcome Z :=
  match fn with
  | Number (Some n) => Done (u64 n) s
  | Number None => Panic "can't convert to integer"
  | _ =>
      let clk := clock now in
      match table nargs s with
      | None => Panic "index out of range"
      | Some callbacks =>
          match find_slot nargs fn clk callbacks 0 None with
          | None => Panic "duplicate callback"
          | Some (_, None) => Exit "too many callbacks"
          | Some (callbacks, Some j) =>
              let callbacks := alter (lend th fn) j callbacks in
              Done (from_option gocb 0%Z (callbacks !! j))
                (State (<[nargs - 2 := callbacks]> (cbs s)) (hwndToCb s))
          end
      end
  end.

(** The inner loop of [clearCallback]: whether a callback of [fn] was cleared, and
    whether an inactive one was seen. *)
Fixpoint clear_table (fn : Value) (keep : Z) (l : list callback) (inactive : bool)
    : list callback * bool * bool :=
  match l with
  | [] => ([], false, inactive)
  | cb :: l' =>
      if (gocb cb =? 0)%Z then (l, false, inactive)
      else if cbeq fn (cb_fn cb) then
        if active cb then (retire keep cb :: l', true, inactive)
        else let '(l', done, inactive) := clear_table fn keep l' true in (cb :: l', done, inactive)
      else let '(l', done, inactive) := clear_table fn keep l' inactive in (cb :: l', done, inactive)
  end.

Fixpoint clear_tables (fn : Value) (keep : Z) (ls : list (list callback)) (inactive : bool)
    : list (list callback) * bool * bool :=
  match ls with
  | [] => ([], false, inactive)
  | l :: ls =>
      let '(l, done, inactive) := clear_table fn keep l inactive in
      if (done : bool) then (l :: ls, true, inactive)
      else let '(ls, done, inactive) := clear_tables fn keep ls inactive in (l :: ls, done, inactive)
  end.

(** The loop over the windows; Go visits them in any order, here [order]. *)
Fixpoint clear_window (fn : Value) (order : list Z) (m : gmap Z Value) : gmap Z Value * bool :=
  match order with
  | [] => (m, false)
  | hwnd :: order =>
      if decide (m !! hwnd = Some fn) then (delete hwnd m, true) else clear_window fn order m
  end.

Definition clearCallback (now : Z) (fn : Value) (order : list Z) (s : state) : bool * state :=
  let '(ls, done, inactive) := clear_tables fn (u32 (clock now + delay)) (cbs s) false in
  if done then (true, State ls (hwndToCb s))
  else if inactive then (false, s)
  else let '(m, done) := clear_window fn order (hwndToCb s) in (done, State (cbs s) m).

(** [WndProcCallback], which [SetWindowProc] uses. *)
Definition WndProcCallback (th hwnd : Z) (fn : Value) (s : state) : outcome Z :=
  if (th =? MainThread)%Z then Done wndProcCb (State (cbs s) (<[hwnd := fn]> (hwndToCb s)))
  else Panic "WndProc callback can only be used from the main GUI thread".

(** The slots up to the first that was never used. *)
Fixpoint used (l : list callback) : list callback :=
  match l with
  | [] => []
  | cb :: l => if (gocb cb =? 0)%Z then [] else cb :: used l
  end.

Definition Callbacks (s : state) : list Value := cb_fn <$> filter (fun cb => active cb) (cbs s ≫= used).

Definition CallbacksCount (s : state) : nat := length (filter (fun cb => active cb) (cbs s ≫= used)).

(** What the closure of slot [i] of a table runs when Windows calls it: [callv], with the
    function and the thread of the slot at that time; and whether a call that comes too
    late is logged. *)
Definition callv (now : Z) (nargs i : nat) (s : state) : option (bool * Z * Value) :=
  l ← table nargs s; cb ← l !! i;
  Some (negb (active cb) && (keepTill cb <? clock now)%Z, cb_th cb, cb_fn cb).

(** [wndProcCall]: [None] is the end of the process for a window without function. *)
Definition wndProcCall (hwnd : Z) (s : state) : option (Z * Value) :=
  fn ← hwndToCb s !! hwnd; Some (MainThread, fn).

(** ** Operations from outside *)

Inductive op :=
| New (th : Z) (fn : Value) (nargs : nat)
| Clear (fn : Value) (order : list Z)
| SetProc (th hwnd : Z) (fn : Value).

Inductive answer := Pointer (h : Z) | Panicked (msg : string) | Cleared (found : bool).

Definition settle (s : state) (r : outcome Z) : option (answer * state) :=
  match r with
  | Done h s => Some (Pointer h, s)
  | Panic msg => Some (Panicked msg, s)
  | Exit _ => None
  end.

(** [None] is the end of the process. *)
Definition exec (now : Z) (o : op) (s : state) : option (answer * state) :=
  match o with
  | New th fn nargs => settle s (NewCallback now th fn nargs s)
  | Clear fn order => let '(b, s) := clearCallback now fn order s in Some (Cleared b, s)
  | SetProc th hwnd fn => settle s (WndProcCallback th hwnd fn s)
  end.

Fixpoint execs (l : list (Z * op)) (s : state) : option (list answer * state) :=
  match l with
  | [] => Some ([], s)
  | (now, o) :: l => '(a, s) ← exec now o s; '(l, s) ← execs l s; Some (a :: l, s)
  end.

(** ** Specification

    What is lent: for a table and a slot, the function and the thread. *)

Definition is_function (fn : Value) : Prop := match fn with Number _ => False | _ => True end.

Inductive spec (p : gmap (nat * nat) (Value * Z)) : op -> answer -> gmap (nat * nat) (Value * Z) -> Prop :=
| spec_number th n nargs : spec p (New th (Number (Some n)) nargs) (Pointer (u64 n)) p
| spec_new th fn n i : is_function fn -> p !! (n, i) = None ->
    (forall k f t, p !! (n, k) = Some (f, t) -> cbeq fn f = false) ->
    spec p (New th fn (n + 2)) (Pointer (goCallback (n + 2) i)) (<[(n, i) := (fn, th)]> p)
| spec_duplicate th fn n k f t : is_function fn -> p !! (n, k) = Some (f, t) -> cbeq fn f = true ->
    spec p (New th fn (n + 2)) (Panicked "duplicate callback") p
| spec_bad_number th nargs : spec p (New th (Number None) nargs) (Panicked "can't convert to integer") p
| spec_bad_nargs th fn nargs : is_function fn -> ~ 2 <= nargs <= 4 ->
    spec p (New th fn nargs) (Panicked "index out of range") p
| spec_clear fn order n i f t : p !! (n, i) = Some (f, t) -> cbeq fn f = true ->
    (forall m k g u, p !! (m, k) = Some (g, u) -> cbeq fn g = true -> n <= m) ->
    spec p (Clear fn order) (Cleared true) (delete (n, i) p)
| spec_clear_other fn order b : (forall m k g u, p !! (m, k) = Some (g, u) -> cbeq fn g = false) ->
    spec p (Clear fn order) (Cleared b) p
| spec_set hwnd fn : spec p (SetProc MainThread hwnd fn) (Pointer wndProcCb) p
| spec_set_thread th hwnd fn msg : th <> MainThread -> spec p (SetProc th hwnd fn) (Panicked msg) p.

Inductive specs (p : gmap (nat * nat) (Value * Z)) : list op -> list answer -> gmap (nat * nat) (Value * Z) -> Prop :=
| specs_nil : specs p [] [] p
| specs_cons o a p1 l as' p2 : spec p o a p1 -> specs p1 l as' p2 -> specs p (o :: l) (a :: as') p2.

(** ** Invariant *)

(** Slots [i], ... of the table: the used ones come first, each with its pointer. *)
Fixpoint slots_ok (nargs i : nat) (l : list callback) : Prop :=
  match l with
  | [] => True
  | cb :: l' => gocb cb = goCallback nargs i /\ slots_ok nargs (S i) l' \/ Forall (eq no_callback) l
  end.

(** No two active slots have the same function. *)
Definition distinct_fns (l : list callback) : Prop :=
  forall i j a b, l !! i = Some a -> l !! j = Some b -> active a = true -> active b = true ->
    cbeq (cb_fn a) (cb_fn b) = true -> i = j.

Definition table_ok (nargs : nat) (l : list callback) : Prop := slots_ok nargs 0 l /\ distinct_fns l.

Definition inv (s : state) : Prop :=
  length <$> cbs s = ncbs /\ forall n l, cbs s !! n = Some l -> table_ok (n + 2) l.

(** What the slots are lent to. *)
Definition lent (s : state) (n i : nat) : option (Value * Z) :=
  l ← cbs s !! n; cb ← l !! i; if active cb then Some (cb_fn cb, cb_th cb) else None.

Definition represents (s : state) (p : gmap (nat * nat) (Value * Z)) : Prop := forall n i, p !! (n, i) = lent s n i.

(** ** Lemmas *)

Context (goCallback_nonzero : forall n i, goCallback n i <> 0%Z).

Lemma cbeq_spec x y : cbeq x y = true <->
  x = y \/ exists p q, x = Method p /\ y = Method q /\ deref p = deref q.
Proof using.
  unfold cbeq. destruct (decide (x = y)) as [->|Hne]; [by split; auto|].
  destruct x as [| |p|], y as [| |q|]; try (split; [done|intros [?|(? & ? & ? & ? & ?)]; congruence]).
  rewrite bool_decide_eq_true. split; [by eauto 10|]. intros [?|(? & ? & [= <-] & [= <-] & ?)]; done.
Qed.

Lemma cbeq_refl x : cbeq x x = true.
Proof using. apply cbeq_spec. by left. Qed.

Lemma cbeq_sym x y : cbeq x y = true -> cbeq y x = true.
Proof using. rewrite !cbeq_spec. intros [->|(p & q & -> & -> & E)]; [by left|eauto 10]. Qed.

Lemma cbeq_trans x y z : cbeq x y = true -> cbeq y z = true -> cbeq x z = true.
Proof using.
  rewrite !cbeq_spec. intros [->|(p & q & -> & -> & E)] [H|(p' & q' & H1 & -> & E')]; subst; try by eauto 10.
  injection H1 as <-. right. exists p, q'. split_and!; [done..|congruence].
Qed.

Lemma slots_ok_unused nargs i l : Forall (eq no_callback) l -> slots_ok nargs i l.
Proof using. destruct l; [done|by right]. Qed.

Lemma unused_inactive l k cb : Forall (eq no_callback) l -> l !! k = Some cb -> active cb = false.
Proof using. intros H Hk. rewrite Forall_forall in H. by rewrite <- (H cb) by by eapply list_elem_of_lookup_2. Qed.

Lemma slots_ok_lookup nargs l : forall i k cb, slots_ok nargs i l -> l !! k = Some cb ->
  gocb cb = goCallback nargs (i + k) \/ cb = no_callback.
Proof using.
  induction l as [|c l IH]; intros i k cb Hl Hk; [done|].
  destruct Hl as [[Hc Hl]|Hl].
  - destruct k as [|k]; simpl in Hk; [injection Hk as <-; left; by rewrite Nat.add_0_r|].
    rewrite Nat.add_succ_r. by apply (IH (S i)).
  - right. symmetry. rewrite Forall_forall in Hl. by eapply Hl, list_elem_of_lookup_2.
Qed.

(** A used slot may change, but for its pointer. *)
Lemma slots_ok_update nargs l : forall i k cb cb', slots_ok nargs i l -> l !! k = Some cb ->
  gocb cb <> 0%Z -> gocb cb' = gocb cb -> slots_ok nargs i (<[k := cb']> l).
Proof using.
  induction l as [|c l IH]; intros i k cb cb' Hl Hk Hz Hg; [done|]. destruct Hl as [[Hc Hl]|Hl].
  - destruct k as [|k]; left; [injection Hk as <-; by rewrite Hg|]. split; [done|]. by eapply IH.
  - exfalso. apply Hz. rewrite Forall_forall in Hl. by rewrite <- (Hl cb) by by eapply list_elem_of_lookup_2.
Qed.

(** No active slot has the function. *)
Definition fresh_for (fn : Value) (l : list callback) : Prop :=
  Forall (fun cb => active cb = true -> cbeq fn (cb_fn cb) = false) l.

(** A slot that can be lent. *)
Definition available (clk : Z) (cb : callback) : Prop :=
  gocb cb = 0%Z \/ (active cb = false /\ (keepTill cb < clk)%Z).

Lemma fresh_unused fn l : Forall (eq no_callback) l -> fresh_for fn l.
Proof using. intros H. eapply Forall_impl; [exact H|]. by intros cb <-. Qed.

Definition has_active (fn : Value) (l : list callback) : Prop :=
  exists k cb, l !! k = Some cb /\ active cb = true /\ cbeq fn (cb_fn cb) = true.

Lemma has_active_cons fn c l : has_active fn l -> has_active fn (c :: l).
Proof using. intros (k & cb & ? & ? & ?). by exists (S k), cb. Qed.

Lemma find_slot_kept nargs fn clk j l : forall i, slots_ok nargs i l ->
  (find_slot nargs fn clk l i (Some j) = None /\ has_active fn l) \/
  (find_slot nargs fn clk l i (Some j) = Some (l, Some j) /\ fresh_for fn l).
Proof using goCallback_nonzero.
  induction l as [|cb l IH]; intros i Hl; [right; split; [done|constructor]|]. cbn [find_slot].
  destruct Hl as [[Hc Hl]|Hl].
  - rewrite (proj2 (Z.eqb_neq (gocb cb) 0)) by (by rewrite Hc).
    destruct (active cb && cbeq fn (cb_fn cb)) eqn:E.
    + apply andb_true_iff in E as [E1 E2]. left. split; [done|]. by exists 0, cb.
    + destruct (IH (S i) Hl) as [[-> H]|[-> H]]; [left|right]; (split; [done|]); [by apply has_active_cons|].
      constructor; [|done]. intros Ha. by rewrite Ha in E.
  - right. split; [|by apply fresh_unused]. apply Forall_cons in Hl as [<- _]. done.
Qed.

(** What the loop finds. *)
Lemma find_slot_ok nargs fn clk l : forall i, slots_ok nargs i l ->
  (find_slot nargs fn clk l i None = None /\ has_active fn l) \/
  (fresh_for fn l /\ (
    (find_slot nargs fn clk l i None = Some (l, None) /\ Forall (fun cb => ~ available clk cb) l) \/
    exists k cb, let l' := <[k := set_gocb (goCallback nargs (i + k)) cb]> l in
      l !! k = Some cb /\ available clk cb /\ active cb = false /\ slots_ok nargs i l' /\
      find_slot nargs fn clk l i None = Some (l', Some (i + k)))).
Proof using goCallback_nonzero.
  induction l as [|cb l IH]; intros i Hl; [right; split; [constructor|left; split; [done|constructor]]|].
  cbn [find_slot]. destruct Hl as [[Hc Hl]|Hl].
  - assert (Hz : gocb cb <> 0%Z) by (by rewrite Hc). rewrite (proj2 (Z.eqb_neq _ _) Hz).
    destruct (active cb && cbeq fn (cb_fn cb)) eqn:E.
    { apply andb_true_iff in E as [E1 E2]. left. split; [done|]. by exists 0, cb. }
    assert (Hf : active cb = true -> cbeq fn (cb_fn cb) = false) by (intros Ha; by rewrite Ha in E).
    destruct (negb (active cb) && (keepTill cb <? clk)%Z) eqn:Er.
    + apply andb_true_iff in Er as [Ea%negb_true_iff Ek%Z.ltb_lt].
      destruct (find_slot_kept nargs fn clk i l (S i) Hl) as [[-> H]|[-> H]]; [left|right].
      { split; [done|by apply has_active_cons]. }
      split; [by constructor|]. right. exists 0, cb. rewrite Nat.add_0_r. simpl.
      assert (set_gocb (goCallback nargs i) cb = cb) as -> by (rewrite <- Hc; by destruct cb).
      split_and!; [done|by right|done|by left|done].
    + assert (Hn : ~ available clk cb).
      { intros [?|[Ha Hk]]; [done|]. rewrite Ha, (proj2 (Z.ltb_lt _ _) Hk) in Er. done. }
      destruct (IH (S i) Hl) as [[-> H]|[Hfr [[-> H]|(k & c & Hk & Hav & Ha & Hs & ->)]]]; [left|right..].
      * split; [done|by apply has_active_cons].
      * split; [by constructor|]. left. split; [done|by constructor].
      * split; [by constructor|]. right. exists (S k), c. rewrite Nat.add_succ_r. simpl.
        split_and!; [done..|by left|done].
  - right. split; [by apply fresh_unused|]. right. exists 0, cb. pose proof Hl as [<- Hl']%Forall_cons. simpl.
    rewrite Nat.add_0_r. split_and!; [done|by left|done| |done]. left. split; [done|]. by apply slots_ok_unused.
Qed.

Lemma find_distinct_fns fn th h l k cb : distinct_fns l -> fresh_for fn l -> l !! k = Some cb ->
  distinct_fns (<[k := lend th fn (set_gocb h cb)]> l).
Proof using.
  intros Hd Hf Hk i j a b Hi Hj Ha Hb Hab. unfold fresh_for in Hf. rewrite Forall_forall in Hf.
  destruct (decide (i = k)) as [->|Hik], (decide (j = k)) as [->|Hjk]; [done|..];
    rewrite ?list_lookup_insert_eq in Hi by (by eapply lookup_lt_Some);
    rewrite ?list_lookup_insert_eq in Hj by (by eapply lookup_lt_Some);
    rewrite ?list_lookup_insert_ne in Hi by done; rewrite ?list_lookup_insert_ne in Hj by done.
  - injection Hi as <-. simpl in Hab. rewrite (Hf b) in Hab; [done|by eapply list_elem_of_lookup_2|done].
  - injection Hj as <-. apply cbeq_sym in Hab. simpl in Hab.
    rewrite (Hf a) in Hab; [done|by eapply list_elem_of_lookup_2|done].
  - by eapply Hd.
Qed.

Lemma inv_update s n l l' w : inv s -> cbs s !! n = Some l -> length l' = length l -> table_ok (n + 2) l' ->
  inv (State (<[n := l']> (cbs s)) w).
Proof using.
  intros [Hl Ht] Hn Hlen Hok. split; cbn [cbs].
  - rewrite list_fmap_insert, Hlen, Hl. apply list_insert_id. by rewrite <- Hl, list_lookup_fmap, Hn.
  - intros m l0. destruct (decide (m = n)) as [->|Hne].
    + rewrite list_lookup_insert_eq by (by eapply lookup_lt_Some). by intros [= <-].
    + rewrite list_lookup_insert_ne by done. apply Ht.
Qed.

Lemma lent_update s w n l k cb m i : cbs s !! n = Some l -> k < length l ->
  lent (State (<[n := <[k := cb]> l]> (cbs s)) w) m i =
  if decide (m = n /\ i = k) then (if active cb then Some (cb_fn cb, cb_th cb) else None) else lent s m i.
Proof using.
  intros Hn Hk. unfold lent. cbn [cbs]. destruct (decide (m = n)) as [->|Hm].
  - rewrite list_lookup_insert_eq by (by eapply lookup_lt_Some). rewrite Hn. cbn.
    destruct (decide (i = k)) as [->|Hi].
    + rewrite list_lookup_insert_eq by done. by rewrite decide_True.
    + rewrite list_lookup_insert_ne by done. by rewrite decide_False by (by intros [? ?]).
  - rewrite list_lookup_insert_ne by done. by rewrite decide_False by (by intros [? ?]).
Qed.

Lemma table_Some nargs s l : table nargs s = Some l <-> exists n, nargs = n + 2 /\ cbs s !! n = Some l.
Proof using.
  unfold table. destruct (Nat.ltb_spec nargs 2) as [H|H]; (split; [|intros (n & -> & Hn)]).
  - done.
  - lia.
  - intros Hl. exists (nargs - 2). by split; [lia|].
  - by rewrite Nat.add_sub.
Qed.

Lemma table_None nargs s : length (cbs s) = 3 -> table nargs s = None -> ~ 2 <= nargs <= 4.
Proof using.
  unfold table. intros Hl. destruct (Nat.ltb_spec nargs 2); [lia|]. intros Hn%lookup_ge_None_1. lia.
Qed.

Lemma inv_length s : inv s -> length (cbs s) = 3.
Proof using. intros [H _]. apply (f_equal length) in H. by rewrite length_fmap in H. Qed.

Lemma alter_insert_list {A} (f : A -> A) k x (l : list A) : k < length l -> alter f k (<[k := x]> l) = <[k := f x]> l.
Proof using.
  intros Hk. apply list_eq. intros i. destruct (decide (i = k)) as [->|Hi].
  - by rewrite list_lookup_alter_eq, !list_lookup_insert_eq.
  - by rewrite list_lookup_alter_ne, !list_lookup_insert_ne.
Qed.

(** [NewCallback] for a function. *)
Lemma NewCallback_ok now th fn nargs s : inv s -> is_function fn ->
  match NewCallback now th fn nargs s with
  | Done h s' => exists n k l cb, nargs = n + 2 /\ cbs s !! n = Some l /\ l !! k = Some cb /\
      available (clock now) cb /\ active cb = false /\ fresh_for fn l /\ h = goCallback nargs k /\
      s' = State (<[n := <[k := lend th fn (set_gocb h cb)]> l]> (cbs s)) (hwndToCb s) /\ inv s'
  | Panic msg =>
      (msg = "duplicate callback" /\ exists n l, nargs = n + 2 /\ cbs s !! n = Some l /\ has_active fn l) \/
      (msg = "index out of range" /\ ~ 2 <= nargs <= 4)
  | Exit _ => exists n l, nargs = n + 2 /\ cbs s !! n = Some l /\ fresh_for fn l /\
      Forall (fun cb => ~ available (clock now) cb) l
  end.
Proof using goCallback_nonzero.
  intros Hs Hfn. unfold NewCallback. destruct fn as [|n|p|p]; [|done|..].
  all: destruct (table nargs s) as [l|] eqn:El; [|right; split; [done|eapply table_None; [by apply inv_length|done]]].
  all: apply table_Some in El as (n & -> & Hn); rewrite Nat.add_sub; destruct (proj2 Hs n l Hn) as [Hok Hd];
    match goal with |- context [find_slot _ ?f _ _ _ _] => set (fn := f) in * end;
    destruct (find_slot_ok (n + 2) fn (clock now) l 0 Hok)
      as [[-> H]|[Hf [[-> H]|(k & cb & Hk & Hav & Ha & Hok' & ->)]]];
    [left; split; [done|by exists n, l]|by exists n, l|]; rewrite Nat.add_0_l in *; clearbody fn.
  all: assert (Hlt : k < length l) by (by eapply lookup_lt_Some).
  all: set (l1 := <[k := set_gocb (goCallback (n + 2) k) cb]> l) in *.
  all: assert (E : alter (lend th fn) k l1 = <[k := lend th fn (set_gocb (goCallback (n + 2) k) cb)]> l)
    by (by apply alter_insert_list).
  all: rewrite E, list_lookup_insert_eq by done; cbn [from_option gocb lend set_gocb].
  all: exists n, k, l, cb; split_and!; try done; eapply inv_update; [done..|by rewrite length_insert|].
  all: split; [|by apply find_distinct_fns].
  all: assert (E2 : <[k := lend th fn (set_gocb (goCallback (n + 2) k) cb)]> l =
      <[k := lend th fn (set_gocb (goCallback (n + 2) k) cb)]> l1) by (unfold l1; by rewrite list_insert_insert_eq).
  all: rewrite E2; eapply slots_ok_update; [done|unfold l1; by rewrite list_lookup_insert_eq|apply goCallback_nonzero|done].
Qed.

(** What [clearCallback] finds in one table, and in all. *)
Lemma clear_table_ok nargs fn keep l : forall i b, slots_ok nargs i l ->
  match clear_table fn keep l b with
  | (l', true, _) => exists k cb, l !! k = Some cb /\ gocb cb <> 0%Z /\ active cb = true /\ cbeq fn (cb_fn cb) = true /\
      l' = <[k := retire keep cb]> l
  | (l', false, _) => l' = l /\ fresh_for fn l
  end.
Proof using goCallback_nonzero.
  induction l as [|cb l IH]; intros i b Hl; [by split; [|constructor]|]. cbn [clear_table]. destruct Hl as [[Hc Hl]|Hl].
  - assert (Hz : gocb cb <> 0%Z) by (by rewrite Hc). rewrite (proj2 (Z.eqb_neq _ _) Hz).
    destruct (cbeq fn (cb_fn cb)) eqn:E; [destruct (active cb) eqn:Ea; [by exists 0, cb|]|].
    + specialize (IH (S i) true Hl). destruct (clear_table fn keep l true) as [[l' []] ?].
      * destruct IH as (k & c & ? & ? & ? & ? & ->). by exists (S k), c.
      * destruct IH as [-> H]. split; [done|]. constructor; [|done]. by rewrite Ea.
    + specialize (IH (S i) b Hl). destruct (clear_table fn keep l b) as [[l' []] ?].
      * destruct IH as (k & c & ? & ? & ? & ? & ->). by exists (S k), c.
      * destruct IH as [-> H]. split; [done|]. by constructor.
  - pose proof Hl as [<- _]%Forall_cons. cbn. split; [done|]. by apply fresh_unused.
Qed.

Lemma clear_tables_ok fn keep ls : forall b, (forall n l, ls !! n = Some l -> exists nargs, slots_ok nargs 0 l) ->
  match clear_tables fn keep ls b with
  | (ls', true, _) => exists n l k cb, ls !! n = Some l /\ l !! k = Some cb /\ gocb cb <> 0%Z /\ active cb = true /\
      cbeq fn (cb_fn cb) = true /\ ls' = <[n := <[k := retire keep cb]> l]> ls /\
      forall m l', m < n -> ls !! m = Some l' -> fresh_for fn l'
  | (ls', false, _) => ls' = ls /\ forall m l', ls !! m = Some l' -> fresh_for fn l'
  end.
Proof using goCallback_nonzero.
  induction ls as [|l ls IH]; intros b Hok; [done|]. cbn [clear_tables]. destruct (Hok 0 l eq_refl) as [nargs Hl].
  pose proof (clear_table_ok nargs fn keep l 0 b Hl) as H. destruct (clear_table fn keep l b) as [[l1 []] b1].
  - destruct H as (k & cb & ? & ? & ? & ? & ->). exists 0, l, k, cb. split_and!; [done..|]. intros m l' Hm. lia.
  - destruct H as [-> Hf]. specialize (IH b1 (fun n l H => Hok (S n) l H)).
    destruct (clear_tables fn keep ls b1) as [[ls1 []] b2].
    + destruct IH as (n & l2 & k & cb & ? & ? & ? & ? & ? & -> & Hm). exists (S n), l2, k, cb. split_and!; [done..|].
      intros [|m] l' Hlt Hl'; [by injection Hl' as <-|]. eapply Hm; [|done]. lia.
    + destruct IH as [-> Hm]. split; [done|]. intros [|m] l' Hl'; [by injection Hl' as <-|]. by eapply Hm.
Qed.

Lemma clearCallback_ok now fn order s : inv s ->
  match clearCallback now fn order s with
  | (b, s') =>
      (b = true /\ exists n l k cb, cbs s !! n = Some l /\ l !! k = Some cb /\ gocb cb <> 0%Z /\ active cb = true /\
        cbeq fn (cb_fn cb) = true /\
        s' = State (<[n := <[k := retire (u32 (clock now + delay)) cb]> l]> (cbs s)) (hwndToCb s) /\
        forall m l', m < n -> cbs s !! m = Some l' -> fresh_for fn l') \/
      (cbs s' = cbs s /\ forall m l', cbs s !! m = Some l' -> fresh_for fn l')
  end.
Proof using goCallback_nonzero.
  intros [_ Hok]. unfold clearCallback.
  assert (Hok' : forall n l, cbs s !! n = Some l -> exists nargs, slots_ok nargs 0 l) by
    (intros n l Hn; exists (n + 2); by apply Hok).
  pose proof (clear_tables_ok fn (u32 (clock now + delay)) (cbs s) false Hok') as H.
  destruct (clear_tables _ _ _ _) as [[ls []] ina].
  - cbv beta iota zeta. left. split; [done|]. destruct H as (n & l & k & cb & ? & ? & ? & ? & ? & -> & ?).
    by exists n, l, k, cb.
  - destruct H as [-> H]. destruct ina; cbv beta iota zeta; [by right|].
    destruct (clear_window _ _ _). right. done.
Qed.

Lemma inv_retire s n l k cb keep w : inv s -> cbs s !! n = Some l -> l !! k = Some cb -> gocb cb <> 0%Z ->
  inv (State (<[n := <[k := retire keep cb]> l]> (cbs s)) w).
Proof using.
  intros Hs Hn Hk Hz. eapply inv_update; [done..|by rewrite length_insert|]. destruct (proj2 Hs n l Hn) as [Hok Hd].
  split; [by eapply slots_ok_update|]. intros i j a b Hi Hj Ha Hb Hab.
  destruct (decide (i = k)) as [->|Hik];
    [rewrite list_lookup_insert_eq in Hi by (by eapply lookup_lt_Some); by injection Hi as <-|].
  destruct (decide (j = k)) as [->|Hjk];
    [rewrite list_lookup_insert_eq in Hj by (by eapply lookup_lt_Some); by injection Hj as <-|].
  rewrite list_lookup_insert_ne in Hi, Hj by done. by eapply Hd.
Qed.

(** ** Refinement *)

Lemma fresh_pool s p n l fn k f t : represents s p -> cbs s !! n = Some l -> fresh_for fn l ->
  p !! (n, k) = Some (f, t) -> cbeq fn f = false.
Proof using.
  intros Hp Hn Hf. rewrite Hp. unfold lent. rewrite Hn. cbn. destruct (l !! k) as [cb|] eqn:Hk; [|done]. cbn.
  destruct (active cb) eqn:Ha; [|done]. intros [= <- <-]. unfold fresh_for in Hf. rewrite Forall_forall in Hf.
  apply Hf; [by eapply list_elem_of_lookup_2|done].
Qed.

Lemma active_pool s p n l k cb : represents s p -> cbs s !! n = Some l -> l !! k = Some cb -> active cb = true ->
  p !! (n, k) = Some (cb_fn cb, cb_th cb).
Proof using. intros Hp Hn Hk Ha. rewrite Hp. unfold lent. rewrite Hn. cbn. rewrite Hk. cbn. by rewrite Ha. Qed.

Lemma pool_table s p n k x : represents s p -> p !! (n, k) = Some x -> exists l, cbs s !! n = Some l.
Proof using. intros Hp. rewrite Hp. unfold lent. destruct (cbs s !! n) as [l|]; [by eauto|done]. Qed.

Lemma New_refines now th fn nargs s p a s' : inv s -> represents s p ->
  exec now (New th fn nargs) s = Some (a, s') ->
  inv s' /\ exists p', spec p (New th fn nargs) a p' /\ represents s' p'.
Proof using goCallback_nonzero.
  intros Hs Hp He. assert (Hnum : (exists n, fn = Number n) \/ is_function fn) by (destruct fn; simpl; eauto).
  destruct Hnum as [[[n|] ->]|Hfn].
  { injection He as <- <-. split; [done|]. exists p. split; [constructor|done]. }
  { injection He as <- <-. split; [done|]. exists p. split; [constructor|done]. }
  pose proof (NewCallback_ok now th fn nargs s Hs Hfn) as H. cbn [exec] in He.
  destruct (NewCallback now th fn nargs s) as [h s1|msg|msg]; cbn [settle] in He; [..|done]; injection He as <- <-.
  - destruct H as (n & k & l & cb & -> & Hn & Hk & _ & Hac & Hf & -> & -> & Hinv). split; [done|].
    assert (Hlt : k < length l) by (by eapply lookup_lt_Some).
    exists (<[(n, k) := (fn, th)]> p). split.
    + constructor; [done| |by intros j f t; eapply fresh_pool]. rewrite Hp. unfold lent. rewrite Hn. cbn. rewrite Hk. cbn.
      by rewrite Hac.
    + intros m i. rewrite lent_update by done. destruct (decide (m = n /\ i = k)) as [[-> ->]|Hne].
      * by rewrite lookup_insert_eq.
      * rewrite lookup_insert_ne by (intros [= -> ->]; by apply Hne). apply Hp.
  - split; [done|]. exists p. split; [|done].
    destruct H as [[-> (n & l & -> & Hn & k & cb & Hk & Ha & E)]|[-> H]]; [|by constructor].
    eapply spec_duplicate; [done|by eapply active_pool|done].
Qed.

Lemma Clear_refines now fn order s p : inv s -> represents s p ->
  let '(b, s') := clearCallback now fn order s in
  inv s' /\ exists p', spec p (Clear fn order) (Cleared b) p' /\ represents s' p'.
Proof using goCallback_nonzero.
  intros Hs Hp. pose proof (clearCallback_ok now fn order s Hs) as H.
  destruct (clearCallback now fn order s) as [b s']. destruct H as [[-> (n & l & k & cb & Hn & Hk & Hz & Ha & E & -> & Hm)]|[Hc Hm]].
  - split; [by eapply inv_retire|]. exists (delete (n, k) p). split.
    + eapply spec_clear; [by eapply active_pool|done|]. intros m j g u Hg Eg.
      destruct (decide (n <= m)) as [|Hlt]; [done|]. exfalso. destruct (pool_table s p m j _ Hp Hg) as [l' Hl'].
      rewrite (fresh_pool s p m l' fn j g u) in Eg; [done..|by apply (Hm m); [lia|]|done].
    + intros m i. rewrite lent_update by (done || by eapply lookup_lt_Some).
      destruct (decide (m = n /\ i = k)) as [[-> ->]|Hne]; [by rewrite lookup_delete_eq|].
      rewrite lookup_delete_ne by (intros [= -> ->]; by apply Hne). apply Hp.
  - assert (Hs' : inv s') by (unfold inv; by rewrite Hc).
    split; [done|]. exists p. split; [|by intros m i; unfold lent; rewrite Hc; apply Hp].
    apply spec_clear_other. intros m j g u Hg. destruct (pool_table s p m j _ Hp Hg) as [l' Hl'].
    by eapply fresh_pool; [..|exact Hg]; [done..|eapply Hm].
Qed.

Lemma exec_refines now o s p a s' : inv s -> represents s p -> exec now o s = Some (a, s') ->
  inv s' /\ exists p', spec p o a p' /\ represents s' p'.
Proof using goCallback_nonzero.
  intros Hs Hp He. destruct o as [th fn nargs|fn order|th hwnd fn].
  - by eapply New_refines.
  - cbn [exec] in He. pose proof (Clear_refines now fn order s p Hs Hp) as H.
    destruct (clearCallback now fn order s) as [b s1]. by injection He as <- <-.
  - unfold exec, WndProcCallback in He. destruct (Z.eqb_spec th MainThread) as [->|Hne]; injection He as <- <-;
      (split; [done|]); exists p; (split; [by constructor|done]).
Qed.

Lemma execs_refine l : forall s p as' s', inv s -> represents s p -> execs l s = Some (as', s') ->
  inv s' /\ exists p', specs p l.*2 as' p' /\ represents s' p'.
Proof using goCallback_nonzero.
  induction l as [|[now o] l IH]; intros s p as' s' Hs Hp; cbn [execs].
  { intros [= <- <-]. split; [done|]. exists p. split; [constructor|done]. }
  destruct (exec now o s) as [[a s1]|] eqn:E; [|done]. cbn.
  destruct (execs l s1) as [[as1 s2]|] eqn:E2; [|done]. cbn. intros [= <- <-].
  destruct (exec_refines now o s p a s1 Hs Hp E) as (Hs1 & p1 & Hsp & Hp1).
  destruct (IH s1 p1 as1 s2 Hs1 Hp1 E2) as (Hs2 & p2 & Hsp2 & Hp2). split; [done|]. exists p2. split; [by econstructor|done].
Qed.

Lemma init_ok : inv init /\ represents init ∅.
Proof using.
  assert (Hz : forall n k l cb, cbs init !! n = Some l -> l !! k = Some cb -> cb = no_callback).
  { intros n k l cb Hn Hk. unfold init in Hn. cbn [cbs] in Hn. rewrite list_lookup_fmap in Hn.
    destruct (ncbs !! n) as [m|]; [|done]. injection Hn as <-. by apply lookup_replicate in Hk as [-> _]. }
  split; [split; [reflexivity|]|].
  - intros n l Hn. split; [apply slots_ok_unused, Forall_lookup_2; intros k cb Hk; symmetry; by eapply Hz|].
    intros i j a b Hi _ Ha. by rewrite (Hz n i l a Hn Hi) in Ha.
  - intros n i. rewrite lookup_empty. unfold lent. destruct (cbs init !! n) as [l|] eqn:Hn; [|done]. cbn.
    destruct (l !! i) as [cb|] eqn:Hi; [|done]. cbn. by rewrite (Hz n i l cb Hn Hi).
Qed.

(** ** Calls after the clearing *)

(** A slot that was cleared, with what it still holds. *)
Definition cleared_slot (s : state) (n k : nat) (f : Value) (t keep : Z) : Prop :=
  exists l cb, cbs s !! n = Some l /\ l !! k = Some cb /\ gocb cb <> 0%Z /\ active cb = false /\
    cb_fn cb = f /\ cb_th cb = t /\ keepTill cb = keep.

(** A change of another slot leaves it. *)
Lemma cleared_slot_update s w n k f t keep m i l cb cb' : cleared_slot s n k f t keep ->
  cbs s !! m = Some l -> l !! i = Some cb -> (m = n -> i = k -> False) ->
  cleared_slot (State (<[m := <[i := cb']> l]> (cbs s)) w) n k f t keep.
Proof using.
  intros (l0 & c0 & Hn & Hk & ?) Hm Hi Hne. unfold cleared_slot. cbn [cbs]. destruct (decide (m = n)) as [->|Hmn].
  - assert (l0 = l) as -> by congruence. exists (<[i := cb']> l), c0.
    rewrite list_lookup_insert_eq by (by eapply lookup_lt_Some).
    rewrite list_lookup_insert_ne by (intros ->; by apply Hne). done.
  - exists l0, c0. by rewrite list_lookup_insert_ne.
Qed.

Lemma exec_keeps_cleared now o s a s' n k f t keep : inv s -> cleared_slot s n k f t keep -> (clock now <= keep)%Z ->
  exec now o s = Some (a, s') -> inv s' /\ cleared_slot s' n k f t keep.
Proof using goCallback_nonzero.
  intros Hs Hc Hk He. destruct o as [th fn nargs|fn order|th hwnd fn]; cbn [exec] in He.
  - assert (Hnum : (exists n, fn = Number n) \/ is_function fn) by (destruct fn; simpl; eauto).
    destruct Hnum as [[[m|] ->]|Hfn]; [by injection He as <- <-..|].
    pose proof (NewCallback_ok now th fn nargs s Hs Hfn) as H.
    destruct (NewCallback now th fn nargs s) as [h s1|msg|msg]; cbn [settle] in He; [|by injection He as <- <-|done].
    injection He as <- <-. destruct H as (m & i & l & cb & -> & Hm & Hi & Hav & Ha & _ & _ & -> & Hinv). split; [done|].
    eapply cleared_slot_update; [done..|]. intros -> ->. destruct Hc as (l0 & c0 & Hn & Hk0 & Hz & _ & _ & _ & Hkp).
    assert (l0 = l) as -> by congruence. assert (c0 = cb) as -> by congruence. destruct Hav as [?|[_ Hlt]]; [done|lia].
  - pose proof (clearCallback_ok now fn order s Hs) as H. destruct (clearCallback now fn order s) as [b s1].
    injection He as <- <-. destruct H as [[-> (m & l & i & cb & Hm & Hi & Hz & Ha & _ & -> & _)]|[Hcb _]].
    + split; [by eapply inv_retire|]. eapply cleared_slot_update; [done..|]. intros -> ->.
      destruct Hc as (l0 & c0 & Hn & Hk0 & _ & Ha0 & _). congruence.
    + unfold inv, cleared_slot. rewrite Hcb. by split.
  - unfold WndProcCallback in He. destruct (th =? MainThread)%Z; by injection He as <- <-.
Qed.

Lemma clock_near now d : (0 <= d)%Z -> (clock now + d < 4294967296)%Z -> clock (now + d) = (clock now + d)%Z.
Proof using.
  intros Hd Hw. unfold clock, u32 in *. pose proof (Z.mod_pos_bound now 4294967296 ltac:(lia)).
  rewrite <- Zplus_mod_idemp_l. by apply Z.mod_small; lia.
Qed.

Lemma execs_keep_cleared l : forall s as' s' n k f t since, inv s -> (clock since + delay < 4294967296)%Z ->
  cleared_slot s n k f t (clock since + delay) ->
  Forall (fun o => (since <= o.1 <= since + delay)%Z) l -> execs l s = Some (as', s') ->
  cleared_slot s' n k f t (clock since + delay).
Proof using goCallback_nonzero.
  induction l as [|[now o] l IH]; intros s as' s' n k f t since Hs Hw Hc Hl; cbn [execs]; [by intros [= _ <-]|].
  destruct (exec now o s) as [[a s1]|] eqn:E; [|done]. cbn.
  destruct (execs l s1) as [[as1 s2]|] eqn:E2; [|done]. cbn. intros [= _ <-]. apply Forall_cons in Hl as [Hnow Hl].
  cbn [fst] in Hnow. unfold delay in *.
  assert (Hk : clock now = (clock since + (now - since))%Z)
    by (rewrite <- clock_near by lia; f_equal; lia).
  destruct (exec_keeps_cleared now o s a s1 n k f t _ Hs Hc ltac:(lia) E) as [Hs1 Hc1]. by eapply IH.
Qed.

Lemma clear_clears now fn order s s1 n k f t : inv s -> clearCallback now fn order s = (true, s1) ->
  lent s n k = Some (f, t) -> lent s1 n k = None -> cleared_slot s1 n k f t (u32 (clock now + delay)).
Proof using goCallback_nonzero.
  intros Hs Hclear Hl Hl1. pose proof (clearCallback_ok now fn order s Hs) as H. rewrite Hclear in H.
  destruct H as [[_ (m & l & i & cb & Hm & Hi & Hz & Ha & _ & -> & _)]|[Hc _]].
  - rewrite lent_update in Hl1 by (done || by eapply lookup_lt_Some).
    destruct (decide (n = m /\ k = i)) as [[-> ->]|_]; [|congruence].
    unfold lent in Hl. rewrite Hm in Hl. cbn in Hl. rewrite Hi in Hl. cbn in Hl. rewrite Ha in Hl. injection Hl as <- <-.
    exists (<[i := retire (u32 (clock now + delay)) cb]> l), (retire (u32 (clock now + delay)) cb). cbn [cbs].
    rewrite !list_lookup_insert_eq by (by eapply lookup_lt_Some). done.
  - unfold lent in Hl, Hl1. rewrite Hc in Hl1. congruence.
Qed.

(** ** What [Callbacks] lists *)

Lemma used_active nargs l : forall i k cb, slots_ok nargs i l -> l !! k = Some cb -> active cb = true -> cb ∈ used l.
Proof using goCallback_nonzero.
  induction l as [|c l IH]; intros i k cb Hl Hk Ha; [done|]. cbn [used]. destruct Hl as [[Hc Hl]|Hl].
  - rewrite (proj2 (Z.eqb_neq (gocb c) 0)) by (by rewrite Hc).
    destruct k as [|k]; [injection Hk as <-; by left|right; by eapply IH].
  - by rewrite (unused_inactive _ _ _ Hl Hk) in Ha.
Qed.

Lemma used_subset l cb : cb ∈ used l -> cb ∈ l.
Proof using.
  induction l as [|c l IH]; cbn [used]; [done|]. destruct (gocb c =? 0)%Z; [by intros ?%elem_of_nil|].
  rewrite !elem_of_cons. intros [->|H]; [by left|right; by apply IH].
Qed.

Lemma Callbacks_pool s p f : inv s -> represents s p ->
  f ∈ Callbacks s <-> exists n i t, p !! (n, i) = Some (f, t).
Proof using goCallback_nonzero.
  intros [_ Hok] Hp. unfold Callbacks. rewrite list_elem_of_fmap. split.
  - intros (cb & -> & [Ha (l & Hcb & Hl)%list_elem_of_bind]%list_elem_of_filter).
    apply list_elem_of_lookup in Hl as [n Hn]. apply used_subset, list_elem_of_lookup in Hcb as [i Hi].
    exists n, i, (cb_th cb). eapply active_pool; [done..|]. by destruct (active cb).
  - intros (n & i & t & H). rewrite Hp in H. unfold lent in H. destruct (cbs s !! n) as [l|] eqn:Hn; [|done]. cbn in H.
    destruct (l !! i) as [cb|] eqn:Hi; [|done]. cbn in H. destruct (active cb) eqn:Ha; [|done]. injection H as <- <-.
    exists cb. split; [done|]. apply list_elem_of_filter. split; [by rewrite Ha|]. apply list_elem_of_bind.
    exists l. split; [|by eapply list_elem_of_lookup_2]. eapply (used_active (n + 2)); [by apply Hok|done..].
Qed.

Lemma callv_lent s n i f t now : lent s n i = Some (f, t) -> callv now (n + 2) i s = Some (false, t, f).
Proof using.
  unfold lent, callv. intros H. destruct (cbs s !! n) as [l|] eqn:Hn; [|done].
  rewrite (proj2 (table_Some (n + 2) s l)) by eauto. cbn in H |- *. destruct (l !! i) as [cb|]; [|done]. cbn in H |- *.
  destruct (active cb); [|done]. by injection H as <- <-.
Qed.

Lemma callv_cleared s n k f t keep now : cleared_slot s n k f t keep -> (clock now <= keep)%Z ->
  callv now (n + 2) k s = Some (false, t, f).
Proof using.
  intros (l & cb & Hn & Hk & _ & Ha & <- & <- & <-) Hle. unfold callv.
  rewrite (proj2 (table_Some (n + 2) s l)) by eauto. cbn. rewrite Hk. cbn.
  by rewrite Ha, (proj2 (Z.ltb_ge (keepTill cb) (clock now))).
Qed.

End callbacks.

(** ** Running a callback *)

(** What a Suneido function returns: nothing, a truth value, or a value with what [ToInt]
    and [ToStr] give, [None] if they panic. *)
Inductive returned := RNil | RFalse | RTrue | RVal (toInt : option Z) (toStr : option (list Z)).

Inductive called := Returned (x : returned) | Panics (e : Z).

(** The calls out of this file: the thread, the user's [Handler] function ([RunHandler] is
    the making of the exception, the lookup of the function and its call; the answer is
    what it panics with), the log and the message box. *)
Inductive Go :=
| GetState (th : Z)
| GetName (th : Z) (name : string)   (** a global name; [inr] is the panic of its loading *)
| RestoreState (th st : Z)
| ThCall (th : Z) (fn : Value) (args : list Z)
| RunHandler (th e : Z)
| LogUncaught (th e : Z)
| Alert (e : Z)
| LogInactive (fn : Value).

Definition GoAns (a : Go) : Type :=
  match a with
  | GetState _ => Z
  | GetName _ _ => Value + Z
  | ThCall _ _ _ => called
  | RunHandler _ _ => option Z
  | _ => unit
  end.

Abbreviation go := (prog GoAns).

Definition gev : Type := event GoAns.

Definition go_call (a : Go) : go (GoAns a) := Prog.call a.

(** [handler]; [inHandler] is the flag of the thread, and so is the result. *)
Definition handler (th : Z) (inHandler : bool) (e : Z) : go bool :=
  if inHandler then _ ← go_call (LogUncaught th e); _ ← go_call (Alert e); Ret true
  else
    r ← go_call (RunHandler th e);
    _ ← (match r with
         | None => Ret tt
         | Some e2 => _ ← go_call (LogUncaught th e2); go_call (Alert e2)
         end);
    Ret false.

(** [None] is the panic of [ToInt]. *)
Definition return_word (x : returned) : option Z :=
  match x with
  | RNil | RFalse => Some 0%Z
  | RTrue => Some 1%Z
  | RVal n _ => u64 <$> n
  end.

(** What the panic of [ToInt] is passed on as. *)
Definition not_int : Z := -1.

(** [call]: a panic, also that of [ToInt], goes to the handler; the result is then 0. *)
Definition call (th : Z) (inHandler : bool) (fn : Value) (args : list Z) : go (Z * bool) :=
  st ← go_call (GetState th);
  x ← go_call (ThCall th fn args);
  r ← (match x with
       | Returned x =>
           match return_word x with
           | Some w => Ret (w, inHandler)
           | None => b ← handler th inHandler not_int; Ret (0%Z, b)
           end
       | Panics e => b ← handler th inHandler e; Ret (0%Z, b)
       end);
  _ ← go_call (RestoreState th st);
  Ret r.

(** The closure of a slot, and the pointer the windows share.  [None] is the end of the
    process (for a slot, that there is no such slot). *)
Definition run_callback (now : Z) (nargs i : nat) (args : list Z) (inHandler : bool) (s : state)
    : go (option (Z * bool)) :=
  match callv now nargs i s with
  | None => Ret None
  | Some (late, th, fn) =>
      _ ← (if (late : bool) then go_call (LogInactive fn) else Ret tt);
      r ← call th inHandler fn (i64 <$> args); Ret (Some r)
  end.

Definition run_wndproc (MainThread a b c d : Z) (inHandler : bool) (s : state) : go (option (Z * bool)) :=
  match wndProcCall MainThread a s with
  | None => Ret None
  | Some (th, fn) => r ← call th inHandler fn (i64 <$> [a; b; c; d]); Ret (Some r)
  end.

(** ** What a callback promises *)

(** What Windows gets for what a function did, and the error that goes to the handler. *)
Inductive settles : called -> Z -> option Z -> Prop :=
| settles_nothing x : x = RNil \/ x = RFalse -> settles (Returned x) 0 None
| settles_true : settles (Returned RTrue) 1 None
| settles_number n t : settles (Returned (RVal (Some n) t)) (u64 n) None
| settles_no_number t : settles (Returned (RVal None t)) 0 (Some not_int)
| settles_panic e : settles (Panics e) 0 (Some e).

(** What happens with an error: the user's [Handler] runs, exactly once, with that error, and what
    it panics with in turn is logged and shown; an error inside the [Handler] is only logged and
    shown. *)
Inductive error_served (th : Z) : bool -> option Z -> list gev -> Prop :=
| no_error inHandler : error_served th inHandler None []
| error_in_handler e : error_served th true (Some e) [Ev (LogUncaught th e) tt; Ev (Alert e) tt]
| error_handled e : error_served th false (Some e) [Ev (RunHandler th e) None]
| error_twice e e2 : error_served th false (Some e)
    [Ev (RunHandler th e) (Some e2); Ev (LogUncaught th e2) tt; Ev (Alert e2) tt].

(** A call of Suneido code from a callback: the function runs once, between the saving of the state
    of the thread and its restoring. *)
Definition call_ok (th : Z) (inHandler : bool) (fn : Value) (args : list Z) (r : Z * bool) (tr : list gev) : Prop :=
  exists st x err mid, tr = Ev (GetState th) st :: Ev (ThCall th fn args) x :: mid ++ [Ev (RestoreState th st) tt] /\
    settles x r.1 err /\ error_served th inHandler err mid /\
    r.2 = inHandler /\ (0 <= r.1 < 18446744073709551616)%Z.

Lemma handler_serves th inHandler e tr0 :
  every_run any_answer (handler th inHandler e) tr0 (fun b tr => b = inHandler /\
    exists mid, tr = tr0 ++ mid /\ error_served th inHandler (Some e) mid).
Proof.
  unfold handler. destruct inHandler; cbn.
  - intros [] _ [] _. split; [done|]. eexists. rewrite <- app_assoc. split; [reflexivity|constructor].
  - intros [e2|] _; cbn; [intros [] _ [] _|]; (split; [done|]); eexists; rewrite <- ?app_assoc;
      (split; [reflexivity|constructor]).
Qed.

Lemma call_handles th inHandler e st x tr fn args :
  settles x 0 (Some e) -> tr = [Ev (GetState th) st; Ev (ThCall th fn args) x] ->
  every_run any_answer (r ← (b ← handler th inHandler e; Ret (0%Z, b)); _ ← go_call (RestoreState th st); Ret r) tr
    (call_ok th inHandler fn args).
Proof.
  intros Hx ->. do 2 apply every_run_bind. eapply every_run_mono; [|apply handler_serves].
  intros b tr (-> & mid & -> & Hmid). cbn. intros [] _. exists st, x, (Some e), mid. cbn.
  split_and!; [by rewrite <- ?app_assoc|done..|lia|lia].
Qed.

Lemma call_ok_run th inHandler fn args :
  every_run any_answer (call th inHandler fn args) [] (call_ok th inHandler fn args).
Proof.
  unfold call. cbn -[u64 handler mbind]. intros st _ x _.
  pose proof (fun e H => call_handles th inHandler e st x _ fn args H eq_refl) as Hpanic.
  assert (Hret : forall w, settles x w None -> (0 <= w < 18446744073709551616)%Z ->
    call_ok th inHandler fn args (w, inHandler)
      [Ev (GetState th) st; Ev (ThCall th fn args) x; Ev (RestoreState th st) tt]).
  { intros w Hw Hr. exists st, x, None, []. split_and!; [done..|constructor|done|cbn; lia|cbn; lia]. }
  destruct x as [[| | |[n|] t]|e]; cbn -[handler u64 mbind every_run].
  - intros [] _. apply Hret; [by constructor; left|lia].
  - intros [] _. apply Hret; [by constructor; right|lia].
  - intros [] _. apply Hret; [constructor|lia].
  - intros [] _. apply Hret; [constructor|apply u64_range].
  - apply (Hpanic not_int). constructor.
  - apply (Hpanic e). constructor.
Qed.

(** ** Properties *)

(** C19: Whatever Suneido code does with callbacks, the tables implement a map from pointers
    to functions: [NewCallback] lends a pointer that is not lent, and only to a function
    that has none in that table; [ClearCallback] takes back the pointer of the function
    it is given, of the first table that has one; nothing else changes what is lent.  A
    call of a lent pointer runs its function on its thread, and [Callbacks] lists
    exactly the functions that have a pointer. *)
Theorem callbacks_refine goCallback deref MainThread wndProcCb l as' s
    (Hg : forall nargs i, goCallback nargs i <> 0%Z)
    (He : execs goCallback deref MainThread wndProcCb l init = Some (as', s)) :
  exists p, specs goCallback deref MainThread wndProcCb ∅ l.*2 as' p /\
    (forall n i f t now, p !! (n, i) = Some (f, t) -> callv now (n + 2) i s = Some (false, t, f)) /\
    (forall f, f ∈ Callbacks s <-> exists n i t, p !! (n, i) = Some (f, t)).
Proof.
  destruct (init_ok goCallback deref) as [Hi Hr].
  destruct (execs_refine goCallback deref MainThread wndProcCb Hg l init ∅ as' s Hi Hr He) as (Hs & p & Hp & Hrep).
  exists p. split_and!; [done| |by intros f; eapply Callbacks_pool].
  intros n i f t now H. apply (callv_lent s). by rewrite <- Hrep.
Qed.

(** C20: Windows may still call a pointer that was just cleared.  For the [delay] after
    [ClearCallback], if the clock does not wrap around in that time, whatever else Suneido
    code does with callbacks, every such call runs the function and the thread the pointer
    was lent to, as before, and is not reported. *)
Theorem late_calls_served goCallback deref MainThread wndProcCb l0 as0 s fn order since s1 n k f t l as' s2 now
    (Hg : forall nargs i, goCallback nargs i <> 0%Z)
    (H0 : execs goCallback deref MainThread wndProcCb l0 init = Some (as0, s))
    (Hlent : lent s n k = Some (f, t))
    (Hclear : clearCallback deref since fn order s = (true, s1)) (Hgone : lent s1 n k = None)
    (Hwrap : (clock since + delay < 4294967296)%Z)
    (Hl : Forall (fun o => (since <= o.1 <= since + delay)%Z) l)
    (H2 : execs goCallback deref MainThread wndProcCb l s1 = Some (as', s2))
    (Hnow : (since <= now <= since + delay)%Z) :
  callv now (n + 2) k s2 = Some (false, t, f).
Proof.
  destruct (init_ok goCallback deref) as [Hi Hr].
  destruct (execs_refine goCallback deref MainThread wndProcCb Hg l0 init ∅ as0 s Hi Hr H0)
    as (Hs & p & _ & Hp).
  pose proof (clear_clears goCallback deref Hg since fn order s s1 n k f t Hs Hclear Hlent Hgone) as Hc.
  unfold delay in *. rewrite u32_id in Hc by (pose proof (u32_range since); unfold clock in *; lia).
  assert (Hs1 : inv goCallback deref s1).
  { pose proof (Clear_refines goCallback deref MainThread wndProcCb Hg since fn order s) as H.
    rewrite Hclear in H. by destruct (H p Hs Hp). }
  pose proof (execs_keep_cleared goCallback deref MainThread wndProcCb Hg l s1 as' s2 n k f t since Hs1 Hwrap Hc Hl H2) as Hc2.
  eapply callv_cleared; [exact Hc2|]. unfold delay.
  replace now with (since + (now - since))%Z by lia. rewrite clock_near by lia. lia.
Qed.

(** C22: A call from Windows into Suneido code never fails: whatever the function does,
    Windows gets a 64-bit answer - nothing and [false] are 0, [true] is 1, a number is itself, and
    a panic or what is no number gives 0 - and the state of the thread is restored last.  An error
    goes to the user's [Handler], which then runs exactly once, and not at all without an error;
    its own error, and an error while it runs already, is only logged and shown.  The function gets
    the arguments as signed numbers; a call that comes too late is logged and run all the same. *)
Theorem call_never_fails now nargs i args inHandler s late th fn
    (H : callv now nargs i s = Some (late, th, fn)) :
  every_run any_answer (run_callback now nargs i args inHandler s) [] (fun r tr =>
    exists x tr1, r = Some x /\ tr = (if late then [Ev (LogInactive fn) tt] else []) ++ tr1 /\
      call_ok th inHandler fn (i64 <$> args) x tr1).
Proof.
  unfold run_callback. rewrite H. apply every_run_bind.
  assert (Hrun : forall pre, every_run any_answer (r ← call th inHandler fn (i64 <$> args); Ret (Some r)) pre (fun r tr =>
    exists x tr1, r = Some x /\ tr = pre ++ tr1 /\ call_ok th inHandler fn (i64 <$> args) x tr1)).
  { intros pre. apply every_run_bind. eapply every_run_mono; [|apply every_run_shift; [done|apply call_ok_run]].
    intros x tr (tr1 & -> & Hx). by exists x, tr1. }
  destruct late; cbn -[call]; [intros [] _|]; apply Hrun.
Qed.

(** ** Examples and weak points *)

Definition example_pointer (nargs i : nat) : Z := Z.of_nat (nargs * 1000 + i + 1).

Lemma example_pointer_nonzero nargs i : example_pointer nargs i <> 0%Z.
Proof. unfold example_pointer. lia. Qed.

Definition example_deref (p : Z) : Z * Z := (p / 10, 7)%Z.

Definition example_execs := execs example_pointer example_deref 1 99.

(** Two functions, one cleared and soon another made. *)
Definition a_session : list (Z * op) := [
  (100, New 1 (Other 5) 4); (101, New 1 (Method 21) 4); (102, New 2 (Other 5) 4); (103, New 2 (Other 5) 2);
  (200, Clear (Method 22) []); (205, New 1 (Other 6) 4); (211, New 1 (Other 8) 4); (300, New 1 (Number (Some 77%Z)) 4)]%Z.

Example a_session_answers : fst <$> example_execs a_session init = Some [
  Pointer 4001; Pointer 4002; Panicked "duplicate callback"; Pointer 2001; Cleared true; Pointer 4003; Pointer 4002; Pointer 77].
Proof. vm_compute. reflexivity. Qed.

Lemma callbacks_refine_witness : exists as' s, example_execs a_session init = Some (as', s) /\
  exists p, specs example_pointer example_deref 1 99 ∅ a_session.*2 as' p /\
    (forall n i f t now, p !! (n, i) = Some (f, t) -> callv now (n + 2) i s = Some (false, t, f)) /\
    (forall f, f ∈ Callbacks s <-> exists n i t, p !! (n, i) = Some (f, t)).
Proof.
  destruct (example_execs a_session init) as [[as' s]|] eqn:E; [|vm_compute in E; discriminate].
  exists as', s. split; [reflexivity|].
  apply (callbacks_refine example_pointer example_deref 1 99 a_session as' s example_pointer_nonzero E).
Defined.

(** Just after the clearing the slot still runs the function. *)
Lemma late_calls_served_witness : exists s s1 s2 as0 as',
  example_execs (take 3 a_session) init = Some (as0, s) /\
  clearCallback example_deref 200 (Method 22) [] s = (true, s1) /\
  example_execs [(205, New 1 (Other 6) 4)%Z] s1 = Some (as', s2) /\
  callv 210 4 1 s2 = Some (false, 1%Z, Method 21).
Proof.
  destruct (example_execs (take 3 a_session) init) as [[as0 s]|] eqn:E0; [|vm_compute in E0; discriminate].
  destruct (clearCallback example_deref 200 (Method 22) [] s) as [b s1] eqn:E1.
  destruct (example_execs [(205, New 1 (Other 6) 4)%Z] s1) as [[as' s2]|] eqn:E2.
  - exists s, s1, s2, as0, as'.
    assert (b = true) as -> by (vm_compute in E0; injection E0 as <- <-; vm_compute in E1; congruence).
    split_and!; [first [exact E0|reflexivity]|exact E1|first [exact E2|reflexivity]|].
    apply (late_calls_served example_pointer example_deref 1 99 (take 3 a_session) as0 s (Method 22) [] 200 s1 2 1
      (Method 21) 1 [(205, New 1 (Other 6) 4)%Z] as' s2 210); [apply example_pointer_nonzero|exact E0| |exact E1| | | |exact E2|].
    + vm_compute in E0. injection E0 as <- <-. reflexivity.
    + vm_compute in E0. injection E0 as <- <-. vm_compute in E1. injection E1 as <-. reflexivity.
    + vm_compute. reflexivity.
    + repeat constructor; simpl; unfold delay; lia.
    + unfold delay. lia.
  - exfalso. vm_compute in E0. injection E0 as <- <-. vm_compute in E1. injection E1 as <- <-. vm_compute in E2. discriminate.
Defined.

Lemma call_never_fails_witness :
  every_run any_answer (run_callback 0 2 0 [5; 18446744073709551615]%Z false
      (State [[Callback 9 (Other 6) 3 true 0]; []; []] ∅)) [] (fun r tr =>
    exists x tr1, r = Some x /\ tr = [] ++ tr1 /\ call_ok 3 false (Other 6) [5; -1]%Z x tr1).
Proof. apply (call_never_fails 0 2 0 [5; 18446744073709551615]%Z false _ false 3 (Other 6)). reflexivity. Defined.

(** When the clock is about to wrap around - every 49.7 days - a slot is lent again at
    once, and a late call runs another function. *)
Example clock_wrap_misdirects :
  (fst <$> example_execs [(4294967290, New 1 (Other 5) 4); (4294967290, Clear (Other 5) []);
                          (4294967290, New 1 (Other 6) 4)]%Z init) = Some [Pointer 4001; Cleared true; Pointer 4001].
Proof. vm_compute. reflexivity. Qed.

(** A slot cleared at a certain moment of those days is never lent again. *)
Lemma slot_lost cb now : keepTill cb = 4294967295%Z -> gocb cb <> 0%Z -> ~ available (clock now) cb.
Proof. intros Hk Hz [?|[_ H]]; [done|]. rewrite Hk in H. pose proof (u32_range now). unfold clock in H. lia. Qed.

Example slot_lost_when : u32 (clock 4294967285 + delay) = 4294967295%Z.
Proof. reflexivity. Qed.

(** A window keeps its function when the function was once an ordinary callback, and
    when it is a bound method made anew. *)
Example window_not_cleared :
  (fst <$> example_execs [(1, New 1 (Other 5) 4); (2, Clear (Other 5) []); (3, SetProc 1 70 (Other 5)); (4, Clear (Other 5) [70]);
                          (5, SetProc 1 71 (Method 21)); (6, Clear (Method 22) [70; 71])]%Z init) =
  Some [Pointer 4001; Cleared true; Pointer 99; Cleared false; Pointer 99; Cleared false].
Proof. vm_compute. reflexivity. Qed.
