(* ===== verification/Structs.v ===== *)
(** * The sizes of the Windows structures (cmd/structs/structs.cpp)

    A program that was used to check the Go declarations of Windows structures: it prints
    for each structure a Go expression that only compiles when Go's size is the same, and
    the bytes of a [TOOLINFOA] with a different pattern in every member.  The sizes and the
    layout come from the headers of Windows, so they are parameters. *)

From stdpp Require Import pretty.
From S2P Require Import Prelude Text Win32.

(** ** The program *)

(** [%zd] of a [size_t]. *)
Definition format_zd (n : Z) : string := pretty ((n + 9223372036854775808) mod 18446744073709551616 - 9223372036854775808)%Z.

(** The two forms of the macro [printSize], for 64 and for 32 bits. *)
Definition printSize (win64 : bool) (t : string) (size : Z) : string :=
  if win64 then "_ = x[unsafe.Sizeof(" +:+ t +:+ "{}) - " +:+ format_zd size +:+ "]" +:+ nl
  else "Assert(" +:+ t +:+ ".Size() is: " +:+ format_zd size +:+ ", msg: '" +:+ t +:+ "')" +:+ nl.

(** The structures, in the order of [main]. *)
Definition structs : list string := [
  "ACCEL"; "BITMAP"; "BITMAPINFOHEADER"; "BROWSEINFO"; "CHARRANGE"; "CHOOSECOLOR"; "CHOOSEFONTA";
  "CWPRETSTRUCT"; "DEVMODE"; "DEVNAMES"; "DOCINFO"; "DRAWITEMSTRUCT"; "DRAWTEXTPARAMS"; "EDITBALLOONTIP";
  "FIXED"; "FLASHWINFO"; "GLYPHMETRICS"; "GUID"; "HDHITTESTINFO"; "HDITEM"; "IMAGEINFO";
  "INITCOMMONCONTROLSEX"; "LOGBRUSH"; "LOGFONT"; "LVCOLUMN"; "LVHITTESTINFO"; "LVITEM"; "MENUITEMINFO";
  "MINMAXINFO"; "MSG"; "NMDAYSTATE"; "NMHDR"; "NMLISTVIEW"; "NMLVDISPINFO"; "NMTTDISPINFO"; "NMTVDISPINFO";
  "NOTIFYICONDATA"; "OPENFILENAME"; "OSVERSIONINFOEX"; "PAGESETUPDLG"; "PAINTSTRUCT"; "POINT"; "PRINTDLG";
  "RECT"; "SCNotification"; "SCROLLINFO"; "SHELLEXECUTEINFO"; "SYSTEMTIME"; "TCITEM"; "TEXTMETRIC";
  "TEXTRANGE"; "TOOLINFO"; "TPMPARAMS"; "TRACKMOUSEEVENT"; "TVINSERTSTRUCT"; "TVITEM"; "WINDOWPLACEMENT";
  "WNDCLASS"; "VARIANT"].

(** The assignments to the members of [ti]. *)
Definition assignments : list (string * Z) := [
  ("cbSize", 0x11111111); ("uFlags", 0x22222222); ("hwnd", 0x3333333333333333); ("uId", 0x4444444444444444);
  ("rect.left", 0x11111111); ("rect.top", 0x22222222); ("rect.right", 0x33333333); ("rect.bottom", 0x44444444);
  ("hinst", 0x5555555555555555); ("lpszText", 0x6666666666666666); ("lParam", 0x7777777777777777);
  ("lpReserved", 0x8888888888888888)]%Z.

(** An assignment writes the bytes of the value, the lowest first. *)
Definition store (mem : list Z) (place : nat * nat) (v : Z) : list Z :=
  take place.1 mem ++ le_bytes place.2 v ++ drop (place.1 + place.2) mem.

(** One iteration of the loop: [char] is signed and becomes an [int], which [%x] prints as
    an [unsigned int]; an empty line follows every fourth byte. *)
Definition print_byte (i : nat) (b : Z) : string :=
  format_02x (u32 (if (b <? 128)%Z then b else b - 256)) +:+ nl +:+ (if (i mod 4 =? 3)%nat then nl else "").

Fixpoint dump (i : nat) (mem : list Z) : string :=
  match mem with [] => "" | b :: mem => print_byte i b +:+ dump (S i) mem end.

(** The layout of the structures: sizes, and offset and width of the members of [TOOLINFOA];
    [junk] is what the memory of [ti] holds before. *)
Section layout.
Context (sizeof : string -> Z) (member : string -> nat * nat).

Definition print_sizes (win64 : bool) : string :=
  foldr (fun t s => printSize win64 t (sizeof t) +:+ s) "" structs.

Definition fill (junk : list Z) : list Z :=
  foldl (fun mem '(f, v) => store mem (member f) v) junk assignments.

Definition main (win64 : bool) (junk : list Z) : string := print_sizes win64 +:+ dump 0 (fill junk).

(** ** Reading the output *)

(** What a line of the first part says. *)
Definition read_check (line : string) : option (string * N) :=
  rest ← strip_prefix "_ = x[unsafe.Sizeof(" line;
  let '(t, rest) := break_at (Ascii.ascii_of_nat 123) rest in
  rest ← strip_prefix "{}) - " rest;
  let '(n, rest) := read_dec 0 rest in
  if String.eqb rest "]" then Some (t, n) else None.

(** The byte on a line of the second part. *)
Definition read_byte (line : string) : Z := (parse_x line 0 mod 256)%Z.

Definition nonempty (line : string) : bool := negb (String.eqb line "").

(** ** Lemmas *)

Definition size_ok (n : Z) : Prop := (0 <= n < 9223372036854775808)%Z.

Lemma format_zd_id n : size_ok n -> format_zd n = pretty n.
Proof. intros H. unfold format_zd, size_ok in *. rewrite Z.mod_small by lia. f_equal. lia. Qed.

Lemma read_check_printed t size : has_char (Ascii.ascii_of_nat 123) t = false -> (0 <= size)%Z ->
  read_check ("_ = x[unsafe.Sizeof(" +:+ t +:+ "{}) - " +:+ pretty size +:+ "]") = Some (t, Z.to_N size).
Proof.
  intros Ht Hs. unfold read_check. rewrite strip_prefix_app. cbn [mbind option_bind].
  change ("{}) - " +:+ pretty size +:+ "]") with (String (Ascii.ascii_of_nat 123) ("}) - " +:+ pretty size +:+ "]")).
  rewrite break_at_app by done.
  change (String (Ascii.ascii_of_nat 123) ("}) - " +:+ pretty size +:+ "]")) with ("{}) - " +:+ pretty size +:+ "]").
  rewrite strip_prefix_app. cbn [mbind option_bind]. by rewrite read_dec_pretty.
Qed.

Lemma structs_plain : forallb (fun t => negb (has_char (Ascii.ascii_of_nat 123) t) && negb (has_char newline t)) structs = true.
Proof. reflexivity. Qed.

Lemma lines_checks l rest : (forall t, t ∈ l -> size_ok (sizeof t)) ->
  forallb (fun t => negb (has_char (Ascii.ascii_of_nat 123) t) && negb (has_char newline t)) l = true ->
  exists cs, lines (foldr (fun t s => printSize true t (sizeof t) +:+ s) "" l +:+ rest) = cs ++ lines rest /\
    length cs = length l /\ mapM read_check cs = Some ((fun t => (t, Z.to_N (sizeof t))) <$> l).
Proof.
  induction l as [|t l IH]; intros Hs Hl; [by exists []|].
  cbn [forallb] in Hl. rewrite !andb_true_iff, !negb_true_iff in Hl. destruct Hl as [[H1 H2] Hl].
  assert (Hz : size_ok (sizeof t)) by (apply Hs, list_elem_of_here).
  assert (Ht : (0 <= sizeof t)%Z) by apply Hz.
  destruct IH as (cs & E & Hlen & Hm); [intros u Hu; by apply Hs, list_elem_of_further|done|].
  exists (("_ = x[unsafe.Sizeof(" +:+ t +:+ "{}) - " +:+ pretty (sizeof t) +:+ "]") :: cs). split_and!.
  - cbn [foldr app]. unfold printSize at 1. rewrite format_zd_id, !string_app_assoc by done.
    rewrite <- E, <- (lines_cons _ (foldr _ _ _ +:+ rest)).
    + by rewrite !string_app_assoc.
    + rewrite !has_char_app, H2, pretty_newline by done. reflexivity.
  - simpl. by rewrite Hlen.
  - cbn [mapM]. rewrite read_check_printed by done. cbn [mbind option_bind]. by rewrite Hm.
Qed.

(** Every byte prints as it reads; what the line has besides the last two digits is the
    sign extension. *)
Lemma print_byte_reads b : (0 <= b < 256)%Z ->
  let line := format_02x (u32 (if (b <? 128)%Z then b else b - 256)) in
  has_char newline line = false /\ read_byte line = b /\ nonempty line = true.
Proof using.
  intros Hb. assert (Hall : forallb (fun n => let b := Z.of_nat n in
      let line := format_02x (u32 (if (b <? 128)%Z then b else b - 256)) in
      negb (has_char newline line) && (read_byte line =? b)%Z && nonempty line) (seq 0 256) = true) by (vm_compute; done).
  pose proof (proj1 (forallb_forall _ _) Hall (Z.to_nat b)) as E. clear Hall.
  assert (Hin : In (Z.to_nat b) (seq 0 256)) by (apply in_seq; lia). specialize (E Hin). clear Hin. cbv beta zeta in E.
  rewrite Z2Nat.id in E by apply Hb.
  rewrite !andb_true_iff, negb_true_iff, Z.eqb_eq in E. destruct E as [[? ?] ?]. done.
Qed.

Lemma lines_dump mem : Forall (fun b => 0 <= b < 256)%Z mem -> forall i,
  read_byte <$> List.filter nonempty (lines (dump i mem)) = mem.
Proof using.
  induction 1 as [|b mem Hb _ IH]; intros i; [done|]. cbn [dump]. unfold print_byte.
  destruct (print_byte_reads b Hb) as (H1 & H2 & H3). revert H1 H2 H3.
  generalize (format_02x (u32 (if (b <? 128)%Z then b else b - 256))) as line. intros line H1 H2 H3.
  rewrite !string_app_assoc, lines_cons by done. cbn [List.filter]. rewrite H3.
  assert (E : List.filter nonempty (lines ((if (i mod 4 =? 3)%nat then nl else "") +:+ dump (S i) mem)) =
              List.filter nonempty (lines (dump (S i) mem))).
  { destruct (i mod 4 =? 3)%nat; [|done]. pose proof (lines_cons "" (dump (S i) mem) eq_refl) as El.
    change ("" +:+ nl +:+ dump (S i) mem) with (nl +:+ dump (S i) mem) in El. by rewrite El. }
  rewrite E, fmap_cons, IH. by rewrite H2.
Qed.

(** Assignments to disjoint members do not disturb each other. *)
Definition within (n : nat) (p : nat * nat) : Prop := p.1 + p.2 <= n.
Definition disjoint_places (p q : nat * nat) : Prop := p.1 + p.2 <= q.1 \/ q.1 + q.2 <= p.1.

Lemma store_length mem p v : within (length mem) p -> length (store mem p v) = length mem.
Proof using. unfold within, store. intros H. rewrite !length_app, le_bytes_length, length_take, length_drop. lia. Qed.

Lemma store_same mem p v : within (length mem) p -> take p.2 (drop p.1 (store mem p v)) = le_bytes p.2 v.
Proof using.
  unfold within, store. intros H. rewrite drop_app_length' by (rewrite length_take; lia).
  by rewrite take_app_length' by (by rewrite le_bytes_length).
Qed.

Lemma store_other mem p q v : within (length mem) p -> within (length mem) q -> disjoint_places p q ->
  take q.2 (drop q.1 (store mem p v)) = take q.2 (drop q.1 mem).
Proof using.
  unfold within, disjoint_places, store. intros Hp Hq Hd. apply list_eq. intros i.
  destruct (decide (i < q.2)) as [Hi|Hi].
  2: { rewrite !lookup_ge_None_2; [done|rewrite length_take; lia..]. }
  rewrite !lookup_take_lt, !lookup_drop by done.
  destruct (decide (q.1 + i < p.1)) as [H1|H1].
  - rewrite lookup_app_l by (rewrite length_take; lia). by rewrite lookup_take_lt.
  - rewrite lookup_app_r by (rewrite length_take; lia). rewrite length_take, Nat.min_l by lia.
    rewrite lookup_app_r by (rewrite le_bytes_length; lia). rewrite le_bytes_length, lookup_drop. f_equal. lia.
Qed.

Lemma store_bytes mem p v : Forall (fun b => 0 <= b < 256)%Z mem -> Forall (fun b => 0 <= b < 256)%Z (store mem p v).
Proof using.
  intros H. unfold store. rewrite !Forall_app. split_and!; [by apply Forall_take| |by apply Forall_drop].
  generalize p.2 as n. intros n. revert v. induction n as [|n IH]; intros v; constructor; [apply Z.mod_pos_bound; lia|apply IH].
Qed.

(** All the places of a list of assignments are inside and pairwise disjoint. *)
Definition laid_out (n : nat) (l : list (string * Z)) : Prop :=
  (forall f v, (f, v) ∈ l -> within n (member f)) /\
  (forall i j f v g w, l !! i = Some (f, v) -> l !! j = Some (g, w) -> i <> j -> disjoint_places (member f) (member g)).

Lemma fill_from l : forall mem, laid_out (length mem) l -> Forall (fun b => 0 <= b < 256)%Z mem ->
  let mem' := foldl (fun mem '(f, v) => store mem (member f) v) mem l in
  length mem' = length mem /\ Forall (fun b => 0 <= b < 256)%Z mem' /\
  (forall f v, (f, v) ∈ l -> take (member f).2 (drop (member f).1 mem') = le_bytes (member f).2 v) /\
  (forall q, within (length mem) q -> (forall f v, (f, v) ∈ l -> disjoint_places (member f) q) ->
     take q.2 (drop q.1 mem') = take q.2 (drop q.1 mem)).
Proof using.
  induction l as [|[f v] l IH]; intros mem [Hin Hdis] Hb.
  { cbn. split_and!; [done|done| |done]. intros f v Hf. by apply elem_of_nil in Hf. }
  assert (Hf : within (length mem) (member f)) by (eapply Hin, list_elem_of_here).
  cbn [foldl]. destruct (IH (store mem (member f) v)) as (H1 & H2 & H3 & H4).
  - rewrite store_length by done. split; [intros g w Hg; eapply Hin; by apply list_elem_of_further|].
    intros i j g1 w1 g2 w2 Hi Hj Hij. apply (Hdis (S i) (S j) g1 w1 g2 w2); [done|done|lia].
  - by apply store_bytes.
  - rewrite store_length in * by done. split_and!; [done|done| |].
    + intros g w [[= -> ->]|Hg]%elem_of_cons; [|by apply H3].
      rewrite H4; [by apply store_same|done|]. intros g w' [k Hk]%list_elem_of_lookup.
      destruct (Hdis 0 (S k) f v g w') as [?|?]; [done|done|lia|by right|by left].
    + intros q Hq Hd. rewrite H4; [|done|intros g w Hg; eapply Hd; by apply list_elem_of_further].
      apply store_other; [done|done|]. eapply Hd, list_elem_of_here.
Qed.
End layout.

(** ** Properties *)

(** C33: The output can be read back.  On 64-bit Windows its first lines are, in order, one check
    per structure with the size the C compiler gives it; the lines after them that are not
    empty are the bytes of the [TOOLINFOA], in which every member has the bytes of its
    own pattern, in whatever order and with whatever padding the compiler lays them out. *)
Theorem structs_output sizeof member junk
    (Hsize : forall t, t ∈ structs -> size_ok (sizeof t))
    (Hplace : laid_out member (length junk) assignments)
    (Hjunk : Forall (fun b => 0 <= b < 256)%Z junk) :
  exists checks bytes,
    lines (main sizeof member true junk) = checks ++ bytes /\
    mapM read_check checks = Some ((fun t => (t, Z.to_N (sizeof t))) <$> structs) /\
    length (read_byte <$> List.filter nonempty bytes) = length junk /\
    forall f v, (f, v) ∈ assignments ->
      take (member f).2 (drop (member f).1 (read_byte <$> List.filter nonempty bytes)) = le_bytes (member f).2 v.
Proof.
  destruct (lines_checks sizeof structs (dump 0 (fill member junk)) Hsize structs_plain) as (cs & E & _ & Hm).
  destruct (fill_from member assignments junk Hplace Hjunk) as (H1 & H2 & H3 & _).
  fold (fill member junk) in H1, H2, H3.
  exists cs, (lines (dump 0 (fill member junk))). rewrite (lines_dump _ H2 0). split_and!; done.
Qed.

(** The layout of [TOOLINFOA] on 64-bit Windows. *)
Definition toolinfo_place (f : string) : nat * nat :=
  default (0, 0) (snd <$> List.find (fun p => String.eqb p.1 f) [
    ("cbSize", (0, 4)); ("uFlags", (4, 4)); ("hwnd", (8, 8)); ("uId", (16, 8)); ("rect.left", (24, 4));
    ("rect.top", (28, 4)); ("rect.right", (32, 4)); ("rect.bottom", (36, 4)); ("hinst", (40, 8));
    ("lpszText", (48, 8)); ("lParam", (56, 8)); ("lpReserved", (64, 8))]).

Lemma toolinfo_laid_out : laid_out toolinfo_place 72 assignments.
Proof.
  split.
  - assert (H : forallb (fun p => (toolinfo_place p.1).1 + (toolinfo_place p.1).2 <=? 72) assignments = true) by reflexivity.
    intros f v Hf. rewrite forallb_forall in H. apply list_elem_of_In in Hf. by apply Nat.leb_le, (H _ Hf).
  - intros i j f v g w Hi Hj Hij. apply lookup_lt_Some in Hi as Hi'. apply lookup_lt_Some in Hj as Hj'. simpl in Hi', Hj'.
    assert (H : forallb (fun i => forallb (fun j => (i =? j) ||
      match assignments !! i, assignments !! j with
      | Some (f, _), Some (g, _) =>
          let p := toolinfo_place f in let q := toolinfo_place g in (p.1 + p.2 <=? q.1) || (q.1 + q.2 <=? p.1)
      | _, _ => false
      end) (seq 0 12)) (seq 0 12) = true) by reflexivity.
    rewrite forallb_forall in H. specialize (H i ltac:(apply in_seq; lia)). rewrite forallb_forall in H.
    specialize (H j ltac:(apply in_seq; lia)). rewrite Hi, Hj, (proj2 (Nat.eqb_neq i j) Hij) in H. cbv zeta in H.
    rewrite orb_false_l in H. apply orb_true_iff in H as [H%Nat.leb_le|H%Nat.leb_le]; [by left|by right].
Qed.

Lemma structs_output_witness : exists checks bytes,
  lines (main (fun _ => 72%Z) toolinfo_place true (replicate 72 0%Z)) = checks ++ bytes /\
  mapM read_check checks = Some ((fun t => (t, Z.to_N 72)) <$> structs) /\
  length (read_byte <$> List.filter nonempty bytes) = 72 /\
  forall f v, (f, v) ∈ assignments ->
    take (toolinfo_place f).2 (drop (toolinfo_place f).1 (read_byte <$> List.filter nonempty bytes)) =
      le_bytes (toolinfo_place f).2 v.
Proof.
  apply (structs_output (fun _ => 72%Z) toolinfo_place (replicate 72 0%Z)).
  - intros t _. unfold size_ok. lia.
  - exact toolinfo_laid_out.
  - apply Forall_replicate. lia.
Defined.

(** The format asks for two digits, but a byte from 128 on is printed with eight. *)
Example high_bytes_are_long : print_byte 0 0x88 = "ffffff88" +:+ nl.
Proof. reflexivity. Qed.
