(* ===== verification/WvIdl.v ===== *)
(** * WebView2.h: declarations as data

    What the header declares of an interface, in both of the forms it has, the C++ class
    and the C table of functions.  Parameter names are left out: they are no part of the
    binary interface. *)

From S2P Require Import Prelude Win32.

(** A parameter: its attributes and its type. *)
Record param := P { p_attrs : string; p_type : string }.

(** A method: [propget], [propput] or nothing, the result type, name and parameters. *)
Record method := M { m_attr : string; m_ret : string; m_name : string; m_params : list param }.

(** A C++ declaration: name, [MIDL_INTERFACE] string, [IID_] constant, base, own methods. *)
Record interface := Interface {
  i_name : string; i_uuid : string; i_iid : guid; i_base : string; i_own : list method }.

(** An entry of a C table: the interface that declares it ([DECLSPEC_XFGVIRT]). *)
Record entry := F { e_owner : string; e_method : method }.

#[export] Instance param_eq_dec : EqDecision param.
Proof. solve_decision. Defined.
#[export] Instance method_eq_dec : EqDecision method.
Proof. solve_decision. Defined.
#[export] Instance entry_eq_dec : EqDecision entry.
Proof. solve_decision. Defined.

(** [IUnknown] of the Windows SDK. *)
Definition IUnknown_methods : list method := [
   M "" "HRESULT" "QueryInterface" [P "in" "REFIID"; P "annotation,iid_is,out" "void **"];
   M "" "ULONG" "AddRef" [];
   M "" "ULONG" "Release" []].


(** A macro of the C interface: the method, which is the end of the macro's name, and the
    parameters after [This].  [#define I_m(This,a) ( (This)->lpVtbl -> m(This,a) )] is
    [X "m" ["a"]] among the macros of [I]. *)
Record cmacro := X { x_method : string; x_formals : list string }.
