(* ===== verification/WvEnums.v ===== *)
(** * WebView2.h: enumerations and structures

    The enumerations of the arguments, every enumerator with its value, and the two
    structures. *)

From S2P Require Import Prelude.

(** ** Enumerations *)

Definition COREWEBVIEW2_CAPTURE_PREVIEW_IMAGE_FORMAT_PNG : Z := 0.
Definition COREWEBVIEW2_CAPTURE_PREVIEW_IMAGE_FORMAT_JPEG : Z := (COREWEBVIEW2_CAPTURE_PREVIEW_IMAGE_FORMAT_PNG + 1)%Z.

Definition COREWEBVIEW2_CAPTURE_PREVIEW_IMAGE_FORMAT : list Z := [
   COREWEBVIEW2_CAPTURE_PREVIEW_IMAGE_FORMAT_PNG; COREWEBVIEW2_CAPTURE_PREVIEW_IMAGE_FORMAT_JPEG].

Definition COREWEBVIEW2_COOKIE_SAME_SITE_KIND_NONE : Z := 0.
Definition COREWEBVIEW2_COOKIE_SAME_SITE_KIND_LAX : Z := (COREWEBVIEW2_COOKIE_SAME_SITE_KIND_NONE + 1)%Z.
Definition COREWEBVIEW2_COOKIE_SAME_SITE_KIND_STRICT : Z := (COREWEBVIEW2_COOKIE_SAME_SITE_KIND_LAX + 1)%Z.

Definition COREWEBVIEW2_COOKIE_SAME_SITE_KIND : list Z := [
   COREWEBVIEW2_COOKIE_SAME_SITE_KIND_NONE; COREWEBVIEW2_COOKIE_SAME_SITE_KIND_LAX;
   COREWEBVIEW2_COOKIE_SAME_SITE_KIND_STRICT].

Definition COREWEBVIEW2_HOST_RESOURCE_ACCESS_KIND_DENY : Z := 0.
Definition COREWEBVIEW2_HOST_RESOURCE_ACCESS_KIND_ALLOW : Z := (COREWEBVIEW2_HOST_RESOURCE_ACCESS_KIND_DENY + 1)%Z.
Definition COREWEBVIEW2_HOST_RESOURCE_ACCESS_KIND_DENY_CORS : Z := (COREWEBVIEW2_HOST_RESOURCE_ACCESS_KIND_ALLOW + 1)%Z.

Definition COREWEBVIEW2_HOST_RESOURCE_ACCESS_KIND : list Z := [
   COREWEBVIEW2_HOST_RESOURCE_ACCESS_KIND_DENY; COREWEBVIEW2_HOST_RESOURCE_ACCESS_KIND_ALLOW;
   COREWEBVIEW2_HOST_RESOURCE_ACCESS_KIND_DENY_CORS].

Definition COREWEBVIEW2_SCRIPT_DIALOG_KIND_ALERT : Z := 0.
Definition COREWEBVIEW2_SCRIPT_DIALOG_KIND_CONFIRM : Z := (COREWEBVIEW2_SCRIPT_DIALOG_KIND_ALERT + 1)%Z.
Definition COREWEBVIEW2_SCRIPT_DIALOG_KIND_PROMPT : Z := (COREWEBVIEW2_SCRIPT_DIALOG_KIND_CONFIRM + 1)%Z.
Definition COREWEBVIEW2_SCRIPT_DIALOG_KIND_BEFOREUNLOAD : Z := (COREWEBVIEW2_SCRIPT_DIALOG_KIND_PROMPT + 1)%Z.

Definition COREWEBVIEW2_SCRIPT_DIALOG_KIND : list Z := [
   COREWEBVIEW2_SCRIPT_DIALOG_KIND_ALERT; COREWEBVIEW2_SCRIPT_DIALOG_KIND_CONFIRM;
   COREWEBVIEW2_SCRIPT_DIALOG_KIND_PROMPT; COREWEBVIEW2_SCRIPT_DIALOG_KIND_BEFOREUNLOAD].

Definition COREWEBVIEW2_PROCESS_FAILED_KIND_BROWSER_PROCESS_EXITED : Z := 0.
Definition COREWEBVIEW2_PROCESS_FAILED_KIND_RENDER_PROCESS_EXITED : Z := (COREWEBVIEW2_PROCESS_FAILED_KIND_BROWSER_PROCESS_EXITED + 1)%Z.
Definition COREWEBVIEW2_PROCESS_FAILED_KIND_RENDER_PROCESS_UNRESPONSIVE : Z := (COREWEBVIEW2_PROCESS_FAILED_KIND_RENDER_PROCESS_EXITED + 1)%Z.
Definition COREWEBVIEW2_PROCESS_FAILED_KIND_FRAME_RENDER_PROCESS_EXITED : Z := (COREWEBVIEW2_PROCESS_FAILED_KIND_RENDER_PROCESS_UNRESPONSIVE + 1)%Z.
Definition COREWEBVIEW2_PROCESS_FAILED_KIND_UTILITY_PROCESS_EXITED : Z := (COREWEBVIEW2_PROCESS_FAILED_KIND_FRAME_RENDER_PROCESS_EXITED + 1)%Z.
Definition COREWEBVIEW2_PROCESS_FAILED_KIND_SANDBOX_HELPER_PROCESS_EXITED : Z := (COREWEBVIEW2_PROCESS_FAILED_KIND_UTILITY_PROCESS_EXITED + 1)%Z.
Definition COREWEBVIEW2_PROCESS_FAILED_KIND_GPU_PROCESS_EXITED : Z := (COREWEBVIEW2_PROCESS_FAILED_KIND_SANDBOX_HELPER_PROCESS_EXITED + 1)%Z.
Definition COREWEBVIEW2_PROCESS_FAILED_KIND_PPAPI_PLUGIN_PROCESS_EXITED : Z := (COREWEBVIEW2_PROCESS_FAILED_KIND_GPU_PROCESS_EXITED + 1)%Z.
Definition COREWEBVIEW2_PROCESS_FAILED_KIND_PPAPI_BROKER_PROCESS_EXITED : Z := (COREWEBVIEW2_PROCESS_FAILED_KIND_PPAPI_PLUGIN_PROCESS_EXITED + 1)%Z.
Definition COREWEBVIEW2_PROCESS_FAILED_KIND_UNKNOWN_PROCESS_EXITED : Z := (COREWEBVIEW2_PROCESS_FAILED_KIND_PPAPI_BROKER_PROCESS_EXITED + 1)%Z.

Definition COREWEBVIEW2_PROCESS_FAILED_KIND : list Z := [
   COREWEBVIEW2_PROCESS_FAILED_KIND_BROWSER_PROCESS_EXITED;
   COREWEBVIEW2_PROCESS_FAILED_KIND_RENDER_PROCESS_EXITED;
   COREWEBVIEW2_PROCESS_FAILED_KIND_RENDER_PROCESS_UNRESPONSIVE;
   COREWEBVIEW2_PROCESS_FAILED_KIND_FRAME_RENDER_PROCESS_EXITED;
   COREWEBVIEW2_PROCESS_FAILED_KIND_UTILITY_PROCESS_EXITED;
   COREWEBVIEW2_PROCESS_FAILED_KIND_SANDBOX_HELPER_PROCESS_EXITED;
   COREWEBVIEW2_PROCESS_FAILED_KIND_GPU_PROCESS_EXITED;
   COREWEBVIEW2_PROCESS_FAILED_KIND_PPAPI_PLUGIN_PROCESS_EXITED;
   COREWEBVIEW2_PROCESS_FAILED_KIND_PPAPI_BROKER_PROCESS_EXITED;
   COREWEBVIEW2_PROCESS_FAILED_KIND_UNKNOWN_PROCESS_EXITED].

Definition COREWEBVIEW2_PROCESS_FAILED_REASON_UNEXPECTED : Z := 0.
Definition COREWEBVIEW2_PROCESS_FAILED_REASON_UNRESPONSIVE : Z := (COREWEBVIEW2_PROCESS_FAILED_REASON_UNEXPECTED + 1)%Z.
Definition COREWEBVIEW2_PROCESS_FAILED_REASON_TERMINATED : Z := (COREWEBVIEW2_PROCESS_FAILED_REASON_UNRESPONSIVE + 1)%Z.
Definition COREWEBVIEW2_PROCESS_FAILED_REASON_CRASHED : Z := (COREWEBVIEW2_PROCESS_FAILED_REASON_TERMINATED + 1)%Z.
Definition COREWEBVIEW2_PROCESS_FAILED_REASON_LAUNCH_FAILED : Z := (COREWEBVIEW2_PROCESS_FAILED_REASON_CRASHED + 1)%Z.
Definition COREWEBVIEW2_PROCESS_FAILED_REASON_OUT_OF_MEMORY : Z := (COREWEBVIEW2_PROCESS_FAILED_REASON_LAUNCH_FAILED + 1)%Z.
Definition COREWEBVIEW2_PROCESS_FAILED_REASON_PROFILE_DELETED : Z := (COREWEBVIEW2_PROCESS_FAILED_REASON_OUT_OF_MEMORY + 1)%Z.

Definition COREWEBVIEW2_PROCESS_FAILED_REASON : list Z := [
   COREWEBVIEW2_PROCESS_FAILED_REASON_UNEXPECTED; COREWEBVIEW2_PROCESS_FAILED_REASON_UNRESPONSIVE;
   COREWEBVIEW2_PROCESS_FAILED_REASON_TERMINATED; COREWEBVIEW2_PROCESS_FAILED_REASON_CRASHED;
   COREWEBVIEW2_PROCESS_FAILED_REASON_LAUNCH_FAILED; COREWEBVIEW2_PROCESS_FAILED_REASON_OUT_OF_MEMORY;
   COREWEBVIEW2_PROCESS_FAILED_REASON_PROFILE_DELETED].

Definition COREWEBVIEW2_PERMISSION_KIND_UNKNOWN_PERMISSION : Z := 0.
Definition COREWEBVIEW2_PERMISSION_KIND_MICROPHONE : Z := (COREWEBVIEW2_PERMISSION_KIND_UNKNOWN_PERMISSION + 1)%Z.
Definition COREWEBVIEW2_PERMISSION_KIND_CAMERA : Z := (COREWEBVIEW2_PERMISSION_KIND_MICROPHONE + 1)%Z.
Definition COREWEBVIEW2_PERMISSION_KIND_GEOLOCATION : Z := (COREWEBVIEW2_PERMISSION_KIND_CAMERA + 1)%Z.
Definition COREWEBVIEW2_PERMISSION_KIND_NOTIFICATIONS : Z := (COREWEBVIEW2_PERMISSION_KIND_GEOLOCATION + 1)%Z.
Definition COREWEBVIEW2_PERMISSION_KIND_OTHER_SENSORS : Z := (COREWEBVIEW2_PERMISSION_KIND_NOTIFICATIONS + 1)%Z.
Definition COREWEBVIEW2_PERMISSION_KIND_CLIPBOARD_READ : Z := (COREWEBVIEW2_PERMISSION_KIND_OTHER_SENSORS + 1)%Z.
Definition COREWEBVIEW2_PERMISSION_KIND_MULTIPLE_AUTOMATIC_DOWNLOADS : Z := (COREWEBVIEW2_PERMISSION_KIND_CLIPBOARD_READ + 1)%Z.
Definition COREWEBVIEW2_PERMISSION_KIND_FILE_READ_WRITE : Z := (COREWEBVIEW2_PERMISSION_KIND_MULTIPLE_AUTOMATIC_DOWNLOADS + 1)%Z.
Definition COREWEBVIEW2_PERMISSION_KIND_AUTOPLAY : Z := (COREWEBVIEW2_PERMISSION_KIND_FILE_READ_WRITE + 1)%Z.
Definition COREWEBVIEW2_PERMISSION_KIND_LOCAL_FONTS : Z := (COREWEBVIEW2_PERMISSION_KIND_AUTOPLAY + 1)%Z.
Definition COREWEBVIEW2_PERMISSION_KIND_MIDI_SYSTEM_EXCLUSIVE_MESSAGES : Z := (COREWEBVIEW2_PERMISSION_KIND_LOCAL_FONTS + 1)%Z.
Definition COREWEBVIEW2_PERMISSION_KIND_WINDOW_MANAGEMENT : Z := (COREWEBVIEW2_PERMISSION_KIND_MIDI_SYSTEM_EXCLUSIVE_MESSAGES + 1)%Z.

Definition COREWEBVIEW2_PERMISSION_KIND : list Z := [
   COREWEBVIEW2_PERMISSION_KIND_UNKNOWN_PERMISSION; COREWEBVIEW2_PERMISSION_KIND_MICROPHONE;
   COREWEBVIEW2_PERMISSION_KIND_CAMERA; COREWEBVIEW2_PERMISSION_KIND_GEOLOCATION;
   COREWEBVIEW2_PERMISSION_KIND_NOTIFICATIONS; COREWEBVIEW2_PERMISSION_KIND_OTHER_SENSORS;
   COREWEBVIEW2_PERMISSION_KIND_CLIPBOARD_READ; COREWEBVIEW2_PERMISSION_KIND_MULTIPLE_AUTOMATIC_DOWNLOADS;
   COREWEBVIEW2_PERMISSION_KIND_FILE_READ_WRITE; COREWEBVIEW2_PERMISSION_KIND_AUTOPLAY;
   COREWEBVIEW2_PERMISSION_KIND_LOCAL_FONTS; COREWEBVIEW2_PERMISSION_KIND_MIDI_SYSTEM_EXCLUSIVE_MESSAGES;
   COREWEBVIEW2_PERMISSION_KIND_WINDOW_MANAGEMENT].

Definition COREWEBVIEW2_PERMISSION_STATE_DEFAULT : Z := 0.
Definition COREWEBVIEW2_PERMISSION_STATE_ALLOW : Z := (COREWEBVIEW2_PERMISSION_STATE_DEFAULT + 1)%Z.
Definition COREWEBVIEW2_PERMISSION_STATE_DENY : Z := (COREWEBVIEW2_PERMISSION_STATE_ALLOW + 1)%Z.

Definition COREWEBVIEW2_PERMISSION_STATE : list Z := [
   COREWEBVIEW2_PERMISSION_STATE_DEFAULT; COREWEBVIEW2_PERMISSION_STATE_ALLOW;
   COREWEBVIEW2_PERMISSION_STATE_DENY].

Definition COREWEBVIEW2_WEB_ERROR_STATUS_UNKNOWN : Z := 0.
Definition COREWEBVIEW2_WEB_ERROR_STATUS_CERTIFICATE_COMMON_NAME_IS_INCORRECT : Z := (COREWEBVIEW2_WEB_ERROR_STATUS_UNKNOWN + 1)%Z.
Definition COREWEBVIEW2_WEB_ERROR_STATUS_CERTIFICATE_EXPIRED : Z := (COREWEBVIEW2_WEB_ERROR_STATUS_CERTIFICATE_COMMON_NAME_IS_INCORRECT + 1)%Z.
Definition COREWEBVIEW2_WEB_ERROR_STATUS_CLIENT_CERTIFICATE_CONTAINS_ERRORS : Z := (COREWEBVIEW2_WEB_ERROR_STATUS_CERTIFICATE_EXPIRED + 1)%Z.
Definition COREWEBVIEW2_WEB_ERROR_STATUS_CERTIFICATE_REVOKED : Z := (COREWEBVIEW2_WEB_ERROR_STATUS_CLIENT_CERTIFICATE_CONTAINS_ERRORS + 1)%Z.
Definition COREWEBVIEW2_WEB_ERROR_STATUS_CERTIFICATE_IS_INVALID : Z := (COREWEBVIEW2_WEB_ERROR_STATUS_CERTIFICATE_REVOKED + 1)%Z.
Definition COREWEBVIEW2_WEB_ERROR_STATUS_SERVER_UNREACHABLE : Z := (COREWEBVIEW2_WEB_ERROR_STATUS_CERTIFICATE_IS_INVALID + 1)%Z.
Definition COREWEBVIEW2_WEB_ERROR_STATUS_TIMEOUT : Z := (COREWEBVIEW2_WEB_ERROR_STATUS_SERVER_UNREACHABLE + 1)%Z.
Definition COREWEBVIEW2_WEB_ERROR_STATUS_ERROR_HTTP_INVALID_SERVER_RESPONSE : Z := (COREWEBVIEW2_WEB_ERROR_STATUS_TIMEOUT + 1)%Z.
Definition COREWEBVIEW2_WEB_ERROR_STATUS_CONNECTION_ABORTED : Z := (COREWEBVIEW2_WEB_ERROR_STATUS_ERROR_HTTP_INVALID_SERVER_RESPONSE + 1)%Z.
Definition COREWEBVIEW2_WEB_ERROR_STATUS_CONNECTION_RESET : Z := (COREWEBVIEW2_WEB_ERROR_STATUS_CONNECTION_ABORTED + 1)%Z.
Definition COREWEBVIEW2_WEB_ERROR_STATUS_DISCONNECTED : Z := (COREWEBVIEW2_WEB_ERROR_STATUS_CONNECTION_RESET + 1)%Z.
Definition COREWEBVIEW2_WEB_ERROR_STATUS_CANNOT_CONNECT : Z := (COREWEBVIEW2_WEB_ERROR_STATUS_DISCONNECTED + 1)%Z.
Definition COREWEBVIEW2_WEB_ERROR_STATUS_HOST_NAME_NOT_RESOLVED : Z := (COREWEBVIEW2_WEB_ERROR_STATUS_CANNOT_CONNECT + 1)%Z.
Definition COREWEBVIEW2_WEB_ERROR_STATUS_OPERATION_CANCELED : Z := (COREWEBVIEW2_WEB_ERROR_STATUS_HOST_NAME_NOT_RESOLVED + 1)%Z.
Definition COREWEBVIEW2_WEB_ERROR_STATUS_REDIRECT_FAILED : Z := (COREWEBVIEW2_WEB_ERROR_STATUS_OPERATION_CANCELED + 1)%Z.
Definition COREWEBVIEW2_WEB_ERROR_STATUS_UNEXPECTED_ERROR : Z := (COREWEBVIEW2_WEB_ERROR_STATUS_REDIRECT_FAILED + 1)%Z.
Definition COREWEBVIEW2_WEB_ERROR_STATUS_VALID_AUTHENTICATION_CREDENTIALS_REQUIRED : Z := (COREWEBVIEW2_WEB_ERROR_STATUS_UNEXPECTED_ERROR + 1)%Z.
Definition COREWEBVIEW2_WEB_ERROR_STATUS_VALID_PROXY_AUTHENTICATION_REQUIRED : Z := (COREWEBVIEW2_WEB_ERROR_STATUS_VALID_AUTHENTICATION_CREDENTIALS_REQUIRED + 1)%Z.

Definition COREWEBVIEW2_WEB_ERROR_STATUS : list Z := [
   COREWEBVIEW2_WEB_ERROR_STATUS_UNKNOWN;
   COREWEBVIEW2_WEB_ERROR_STATUS_CERTIFICATE_COMMON_NAME_IS_INCORRECT;
   COREWEBVIEW2_WEB_ERROR_STATUS_CERTIFICATE_EXPIRED;
   COREWEBVIEW2_WEB_ERROR_STATUS_CLIENT_CERTIFICATE_CONTAINS_ERRORS;
   COREWEBVIEW2_WEB_ERROR_STATUS_CERTIFICATE_REVOKED; COREWEBVIEW2_WEB_ERROR_STATUS_CERTIFICATE_IS_INVALID;
   COREWEBVIEW2_WEB_ERROR_STATUS_SERVER_UNREACHABLE; COREWEBVIEW2_WEB_ERROR_STATUS_TIMEOUT;
   COREWEBVIEW2_WEB_ERROR_STATUS_ERROR_HTTP_INVALID_SERVER_RESPONSE;
   COREWEBVIEW2_WEB_ERROR_STATUS_CONNECTION_ABORTED; COREWEBVIEW2_WEB_ERROR_STATUS_CONNECTION_RESET;
   COREWEBVIEW2_WEB_ERROR_STATUS_DISCONNECTED; COREWEBVIEW2_WEB_ERROR_STATUS_CANNOT_CONNECT;
   COREWEBVIEW2_WEB_ERROR_STATUS_HOST_NAME_NOT_RESOLVED; COREWEBVIEW2_WEB_ERROR_STATUS_OPERATION_CANCELED;
   COREWEBVIEW2_WEB_ERROR_STATUS_REDIRECT_FAILED; COREWEBVIEW2_WEB_ERROR_STATUS_UNEXPECTED_ERROR;
   COREWEBVIEW2_WEB_ERROR_STATUS_VALID_AUTHENTICATION_CREDENTIALS_REQUIRED;
   COREWEBVIEW2_WEB_ERROR_STATUS_VALID_PROXY_AUTHENTICATION_REQUIRED].

Definition COREWEBVIEW2_WEB_RESOURCE_CONTEXT_ALL : Z := 0.
Definition COREWEBVIEW2_WEB_RESOURCE_CONTEXT_DOCUMENT : Z := (COREWEBVIEW2_WEB_RESOURCE_CONTEXT_ALL + 1)%Z.
Definition COREWEBVIEW2_WEB_RESOURCE_CONTEXT_STYLESHEET : Z := (COREWEBVIEW2_WEB_RESOURCE_CONTEXT_DOCUMENT + 1)%Z.
Definition COREWEBVIEW2_WEB_RESOURCE_CONTEXT_IMAGE : Z := (COREWEBVIEW2_WEB_RESOURCE_CONTEXT_STYLESHEET + 1)%Z.
Definition COREWEBVIEW2_WEB_RESOURCE_CONTEXT_MEDIA : Z := (COREWEBVIEW2_WEB_RESOURCE_CONTEXT_IMAGE + 1)%Z.
Definition COREWEBVIEW2_WEB_RESOURCE_CONTEXT_FONT : Z := (COREWEBVIEW2_WEB_RESOURCE_CONTEXT_MEDIA + 1)%Z.
Definition COREWEBVIEW2_WEB_RESOURCE_CONTEXT_SCRIPT : Z := (COREWEBVIEW2_WEB_RESOURCE_CONTEXT_FONT + 1)%Z.
Definition COREWEBVIEW2_WEB_RESOURCE_CONTEXT_XML_HTTP_REQUEST : Z := (COREWEBVIEW2_WEB_RESOURCE_CONTEXT_SCRIPT + 1)%Z.
Definition COREWEBVIEW2_WEB_RESOURCE_CONTEXT_FETCH : Z := (COREWEBVIEW2_WEB_RESOURCE_CONTEXT_XML_HTTP_REQUEST + 1)%Z.
Definition COREWEBVIEW2_WEB_RESOURCE_CONTEXT_TEXT_TRACK : Z := (COREWEBVIEW2_WEB_RESOURCE_CONTEXT_FETCH + 1)%Z.
Definition COREWEBVIEW2_WEB_RESOURCE_CONTEXT_EVENT_SOURCE : Z := (COREWEBVIEW2_WEB_RESOURCE_CONTEXT_TEXT_TRACK + 1)%Z.
Definition COREWEBVIEW2_WEB_RESOURCE_CONTEXT_WEBSOCKET : Z := (COREWEBVIEW2_WEB_RESOURCE_CONTEXT_EVENT_SOURCE + 1)%Z.
Definition COREWEBVIEW2_WEB_RESOURCE_CONTEXT_MANIFEST : Z := (COREWEBVIEW2_WEB_RESOURCE_CONTEXT_WEBSOCKET + 1)%Z.
Definition COREWEBVIEW2_WEB_RESOURCE_CONTEXT_SIGNED_EXCHANGE : Z := (COREWEBVIEW2_WEB_RESOURCE_CONTEXT_MANIFEST + 1)%Z.
Definition COREWEBVIEW2_WEB_RESOURCE_CONTEXT_PING : Z := (COREWEBVIEW2_WEB_RESOURCE_CONTEXT_SIGNED_EXCHANGE + 1)%Z.
Definition COREWEBVIEW2_WEB_RESOURCE_CONTEXT_CSP_VIOLATION_REPORT : Z := (COREWEBVIEW2_WEB_RESOURCE_CONTEXT_PING + 1)%Z.
Definition COREWEBVIEW2_WEB_RESOURCE_CONTEXT_OTHER : Z := (COREWEBVIEW2_WEB_RESOURCE_CONTEXT_CSP_VIOLATION_REPORT + 1)%Z.

Definition COREWEBVIEW2_WEB_RESOURCE_CONTEXT : list Z := [
   COREWEBVIEW2_WEB_RESOURCE_CONTEXT_ALL; COREWEBVIEW2_WEB_RESOURCE_CONTEXT_DOCUMENT;
   COREWEBVIEW2_WEB_RESOURCE_CONTEXT_STYLESHEET; COREWEBVIEW2_WEB_RESOURCE_CONTEXT_IMAGE;
   COREWEBVIEW2_WEB_RESOURCE_CONTEXT_MEDIA; COREWEBVIEW2_WEB_RESOURCE_CONTEXT_FONT;
   COREWEBVIEW2_WEB_RESOURCE_CONTEXT_SCRIPT; COREWEBVIEW2_WEB_RESOURCE_CONTEXT_XML_HTTP_REQUEST;
   COREWEBVIEW2_WEB_RESOURCE_CONTEXT_FETCH; COREWEBVIEW2_WEB_RESOURCE_CONTEXT_TEXT_TRACK;
   COREWEBVIEW2_WEB_RESOURCE_CONTEXT_EVENT_SOURCE; COREWEBVIEW2_WEB_RESOURCE_CONTEXT_WEBSOCKET;
   COREWEBVIEW2_WEB_RESOURCE_CONTEXT_MANIFEST; COREWEBVIEW2_WEB_RESOURCE_CONTEXT_SIGNED_EXCHANGE;
   COREWEBVIEW2_WEB_RESOURCE_CONTEXT_PING; COREWEBVIEW2_WEB_RESOURCE_CONTEXT_CSP_VIOLATION_REPORT;
   COREWEBVIEW2_WEB_RESOURCE_CONTEXT_OTHER].

Definition COREWEBVIEW2_MOVE_FOCUS_REASON_PROGRAMMATIC : Z := 0.
Definition COREWEBVIEW2_MOVE_FOCUS_REASON_NEXT : Z := (COREWEBVIEW2_MOVE_FOCUS_REASON_PROGRAMMATIC + 1)%Z.
Definition COREWEBVIEW2_MOVE_FOCUS_REASON_PREVIOUS : Z := (COREWEBVIEW2_MOVE_FOCUS_REASON_NEXT + 1)%Z.

Definition COREWEBVIEW2_MOVE_FOCUS_REASON : list Z := [
   COREWEBVIEW2_MOVE_FOCUS_REASON_PROGRAMMATIC; COREWEBVIEW2_MOVE_FOCUS_REASON_NEXT;
   COREWEBVIEW2_MOVE_FOCUS_REASON_PREVIOUS].

Definition COREWEBVIEW2_KEY_EVENT_KIND_KEY_DOWN : Z := 0.
Definition COREWEBVIEW2_KEY_EVENT_KIND_KEY_UP : Z := (COREWEBVIEW2_KEY_EVENT_KIND_KEY_DOWN + 1)%Z.
Definition COREWEBVIEW2_KEY_EVENT_KIND_SYSTEM_KEY_DOWN : Z := (COREWEBVIEW2_KEY_EVENT_KIND_KEY_UP + 1)%Z.
Definition COREWEBVIEW2_KEY_EVENT_KIND_SYSTEM_KEY_UP : Z := (COREWEBVIEW2_KEY_EVENT_KIND_SYSTEM_KEY_DOWN + 1)%Z.

Definition COREWEBVIEW2_KEY_EVENT_KIND : list Z := [
   COREWEBVIEW2_KEY_EVENT_KIND_KEY_DOWN; COREWEBVIEW2_KEY_EVENT_KIND_KEY_UP;
   COREWEBVIEW2_KEY_EVENT_KIND_SYSTEM_KEY_DOWN; COREWEBVIEW2_KEY_EVENT_KIND_SYSTEM_KEY_UP].

Definition COREWEBVIEW2_BROWSER_PROCESS_EXIT_KIND_NORMAL : Z := 0.
Definition COREWEBVIEW2_BROWSER_PROCESS_EXIT_KIND_FAILED : Z := (COREWEBVIEW2_BROWSER_PROCESS_EXIT_KIND_NORMAL + 1)%Z.

Definition COREWEBVIEW2_BROWSER_PROCESS_EXIT_KIND : list Z := [
   COREWEBVIEW2_BROWSER_PROCESS_EXIT_KIND_NORMAL; COREWEBVIEW2_BROWSER_PROCESS_EXIT_KIND_FAILED].

Definition COREWEBVIEW2_MOUSE_EVENT_KIND_HORIZONTAL_WHEEL : Z := 0x20e.
Definition COREWEBVIEW2_MOUSE_EVENT_KIND_LEFT_BUTTON_DOUBLE_CLICK : Z := 0x203.
Definition COREWEBVIEW2_MOUSE_EVENT_KIND_LEFT_BUTTON_DOWN : Z := 0x201.
Definition COREWEBVIEW2_MOUSE_EVENT_KIND_LEFT_BUTTON_UP : Z := 0x202.
Definition COREWEBVIEW2_MOUSE_EVENT_KIND_LEAVE : Z := 0x2a3.
Definition COREWEBVIEW2_MOUSE_EVENT_KIND_MIDDLE_BUTTON_DOUBLE_CLICK : Z := 0x209.
Definition COREWEBVIEW2_MOUSE_EVENT_KIND_MIDDLE_BUTTON_DOWN : Z := 0x207.
Definition COREWEBVIEW2_MOUSE_EVENT_KIND_MIDDLE_BUTTON_UP : Z := 0x208.
Definition COREWEBVIEW2_MOUSE_EVENT_KIND_MOVE : Z := 0x200.
Definition COREWEBVIEW2_MOUSE_EVENT_KIND_RIGHT_BUTTON_DOUBLE_CLICK : Z := 0x206.
Definition COREWEBVIEW2_MOUSE_EVENT_KIND_RIGHT_BUTTON_DOWN : Z := 0x204.
Definition COREWEBVIEW2_MOUSE_EVENT_KIND_RIGHT_BUTTON_UP : Z := 0x205.
Definition COREWEBVIEW2_MOUSE_EVENT_KIND_WHEEL : Z := 0x20a.
Definition COREWEBVIEW2_MOUSE_EVENT_KIND_X_BUTTON_DOUBLE_CLICK : Z := 0x20d.
Definition COREWEBVIEW2_MOUSE_EVENT_KIND_X_BUTTON_DOWN : Z := 0x20b.
Definition COREWEBVIEW2_MOUSE_EVENT_KIND_X_BUTTON_UP : Z := 0x20c.
Definition COREWEBVIEW2_MOUSE_EVENT_KIND_NON_CLIENT_RIGHT_BUTTON_DOWN : Z := 0xa4.
Definition COREWEBVIEW2_MOUSE_EVENT_KIND_NON_CLIENT_RIGHT_BUTTON_UP : Z := 0xa5.

Definition COREWEBVIEW2_MOUSE_EVENT_KIND : list Z := [
   COREWEBVIEW2_MOUSE_EVENT_KIND_HORIZONTAL_WHEEL; COREWEBVIEW2_MOUSE_EVENT_KIND_LEFT_BUTTON_DOUBLE_CLICK;
   COREWEBVIEW2_MOUSE_EVENT_KIND_LEFT_BUTTON_DOWN; COREWEBVIEW2_MOUSE_EVENT_KIND_LEFT_BUTTON_UP;
   COREWEBVIEW2_MOUSE_EVENT_KIND_LEAVE; COREWEBVIEW2_MOUSE_EVENT_KIND_MIDDLE_BUTTON_DOUBLE_CLICK;
   COREWEBVIEW2_MOUSE_EVENT_KIND_MIDDLE_BUTTON_DOWN; COREWEBVIEW2_MOUSE_EVENT_KIND_MIDDLE_BUTTON_UP;
   COREWEBVIEW2_MOUSE_EVENT_KIND_MOVE; COREWEBVIEW2_MOUSE_EVENT_KIND_RIGHT_BUTTON_DOUBLE_CLICK;
   COREWEBVIEW2_MOUSE_EVENT_KIND_RIGHT_BUTTON_DOWN; COREWEBVIEW2_MOUSE_EVENT_KIND_RIGHT_BUTTON_UP;
   COREWEBVIEW2_MOUSE_EVENT_KIND_WHEEL; COREWEBVIEW2_MOUSE_EVENT_KIND_X_BUTTON_DOUBLE_CLICK;
   COREWEBVIEW2_MOUSE_EVENT_KIND_X_BUTTON_DOWN; COREWEBVIEW2_MOUSE_EVENT_KIND_X_BUTTON_UP;
   COREWEBVIEW2_MOUSE_EVENT_KIND_NON_CLIENT_RIGHT_BUTTON_DOWN;
   COREWEBVIEW2_MOUSE_EVENT_KIND_NON_CLIENT_RIGHT_BUTTON_UP].

Definition COREWEBVIEW2_MOUSE_EVENT_VIRTUAL_KEYS_NONE : Z := 0.
Definition COREWEBVIEW2_MOUSE_EVENT_VIRTUAL_KEYS_LEFT_BUTTON : Z := 0x1.
Definition COREWEBVIEW2_MOUSE_EVENT_VIRTUAL_KEYS_RIGHT_BUTTON : Z := 0x2.
Definition COREWEBVIEW2_MOUSE_EVENT_VIRTUAL_KEYS_SHIFT : Z := 0x4.
Definition COREWEBVIEW2_MOUSE_EVENT_VIRTUAL_KEYS_CONTROL : Z := 0x8.
Definition COREWEBVIEW2_MOUSE_EVENT_VIRTUAL_KEYS_MIDDLE_BUTTON : Z := 0x10.
Definition COREWEBVIEW2_MOUSE_EVENT_VIRTUAL_KEYS_X_BUTTON1 : Z := 0x20.
Definition COREWEBVIEW2_MOUSE_EVENT_VIRTUAL_KEYS_X_BUTTON2 : Z := 0x40.

Definition COREWEBVIEW2_MOUSE_EVENT_VIRTUAL_KEYS : list Z := [
   COREWEBVIEW2_MOUSE_EVENT_VIRTUAL_KEYS_NONE; COREWEBVIEW2_MOUSE_EVENT_VIRTUAL_KEYS_LEFT_BUTTON;
   COREWEBVIEW2_MOUSE_EVENT_VIRTUAL_KEYS_RIGHT_BUTTON; COREWEBVIEW2_MOUSE_EVENT_VIRTUAL_KEYS_SHIFT;
   COREWEBVIEW2_MOUSE_EVENT_VIRTUAL_KEYS_CONTROL; COREWEBVIEW2_MOUSE_EVENT_VIRTUAL_KEYS_MIDDLE_BUTTON;
   COREWEBVIEW2_MOUSE_EVENT_VIRTUAL_KEYS_X_BUTTON1; COREWEBVIEW2_MOUSE_EVENT_VIRTUAL_KEYS_X_BUTTON2].

Definition COREWEBVIEW2_POINTER_EVENT_KIND_ACTIVATE : Z := 0x24b.
Definition COREWEBVIEW2_POINTER_EVENT_KIND_DOWN : Z := 0x246.
Definition COREWEBVIEW2_POINTER_EVENT_KIND_ENTER : Z := 0x249.
Definition COREWEBVIEW2_POINTER_EVENT_KIND_LEAVE : Z := 0x24a.
Definition COREWEBVIEW2_POINTER_EVENT_KIND_UP : Z := 0x247.
Definition COREWEBVIEW2_POINTER_EVENT_KIND_UPDATE : Z := 0x245.

Definition COREWEBVIEW2_POINTER_EVENT_KIND : list Z := [
   COREWEBVIEW2_POINTER_EVENT_KIND_ACTIVATE; COREWEBVIEW2_POINTER_EVENT_KIND_DOWN;
   COREWEBVIEW2_POINTER_EVENT_KIND_ENTER; COREWEBVIEW2_POINTER_EVENT_KIND_LEAVE;
   COREWEBVIEW2_POINTER_EVENT_KIND_UP; COREWEBVIEW2_POINTER_EVENT_KIND_UPDATE].

Definition COREWEBVIEW2_BOUNDS_MODE_USE_RAW_PIXELS : Z := 0.
Definition COREWEBVIEW2_BOUNDS_MODE_USE_RASTERIZATION_SCALE : Z := (COREWEBVIEW2_BOUNDS_MODE_USE_RAW_PIXELS + 1)%Z.

Definition COREWEBVIEW2_BOUNDS_MODE : list Z := [
   COREWEBVIEW2_BOUNDS_MODE_USE_RAW_PIXELS; COREWEBVIEW2_BOUNDS_MODE_USE_RASTERIZATION_SCALE].

Definition COREWEBVIEW2_CLIENT_CERTIFICATE_KIND_SMART_CARD : Z := 0.
Definition COREWEBVIEW2_CLIENT_CERTIFICATE_KIND_PIN : Z := (COREWEBVIEW2_CLIENT_CERTIFICATE_KIND_SMART_CARD + 1)%Z.
Definition COREWEBVIEW2_CLIENT_CERTIFICATE_KIND_OTHER : Z := (COREWEBVIEW2_CLIENT_CERTIFICATE_KIND_PIN + 1)%Z.

Definition COREWEBVIEW2_CLIENT_CERTIFICATE_KIND : list Z := [
   COREWEBVIEW2_CLIENT_CERTIFICATE_KIND_SMART_CARD; COREWEBVIEW2_CLIENT_CERTIFICATE_KIND_PIN;
   COREWEBVIEW2_CLIENT_CERTIFICATE_KIND_OTHER].

Definition COREWEBVIEW2_DOWNLOAD_STATE_IN_PROGRESS : Z := 0.
Definition COREWEBVIEW2_DOWNLOAD_STATE_INTERRUPTED : Z := (COREWEBVIEW2_DOWNLOAD_STATE_IN_PROGRESS + 1)%Z.
Definition COREWEBVIEW2_DOWNLOAD_STATE_COMPLETED : Z := (COREWEBVIEW2_DOWNLOAD_STATE_INTERRUPTED + 1)%Z.

Definition COREWEBVIEW2_DOWNLOAD_STATE : list Z := [
   COREWEBVIEW2_DOWNLOAD_STATE_IN_PROGRESS; COREWEBVIEW2_DOWNLOAD_STATE_INTERRUPTED;
   COREWEBVIEW2_DOWNLOAD_STATE_COMPLETED].

Definition COREWEBVIEW2_DOWNLOAD_INTERRUPT_REASON_NONE : Z := 0.
Definition COREWEBVIEW2_DOWNLOAD_INTERRUPT_REASON_FILE_FAILED : Z := (COREWEBVIEW2_DOWNLOAD_INTERRUPT_REASON_NONE + 1)%Z.
Definition COREWEBVIEW2_DOWNLOAD_INTERRUPT_REASON_FILE_ACCESS_DENIED : Z := (COREWEBVIEW2_DOWNLOAD_INTERRUPT_REASON_FILE_FAILED + 1)%Z.
Definition COREWEBVIEW2_DOWNLOAD_INTERRUPT_REASON_FILE_NO_SPACE : Z := (COREWEBVIEW2_DOWNLOAD_INTERRUPT_REASON_FILE_ACCESS_DENIED + 1)%Z.
Definition COREWEBVIEW2_DOWNLOAD_INTERRUPT_REASON_FILE_NAME_TOO_LONG : Z := (COREWEBVIEW2_DOWNLOAD_INTERRUPT_REASON_FILE_NO_SPACE + 1)%Z.
Definition COREWEBVIEW2_DOWNLOAD_INTERRUPT_REASON_FILE_TOO_LARGE : Z := (COREWEBVIEW2_DOWNLOAD_INTERRUPT_REASON_FILE_NAME_TOO_LONG + 1)%Z.
Definition COREWEBVIEW2_DOWNLOAD_INTERRUPT_REASON_FILE_MALICIOUS : Z := (COREWEBVIEW2_DOWNLOAD_INTERRUPT_REASON_FILE_TOO_LARGE + 1)%Z.
Definition COREWEBVIEW2_DOWNLOAD_INTERRUPT_REASON_FILE_TRANSIENT_ERROR : Z := (COREWEBVIEW2_DOWNLOAD_INTERRUPT_REASON_FILE_MALICIOUS + 1)%Z.
Definition COREWEBVIEW2_DOWNLOAD_INTERRUPT_REASON_FILE_BLOCKED_BY_POLICY : Z := (COREWEBVIEW2_DOWNLOAD_INTERRUPT_REASON_FILE_TRANSIENT_ERROR + 1)%Z.
Definition COREWEBVIEW2_DOWNLOAD_INTERRUPT_REASON_FILE_SECURITY_CHECK_FAILED : Z := (COREWEBVIEW2_DOWNLOAD_INTERRUPT_REASON_FILE_BLOCKED_BY_POLICY + 1)%Z.
Definition COREWEBVIEW2_DOWNLOAD_INTERRUPT_REASON_FILE_TOO_SHORT : Z := (COREWEBVIEW2_DOWNLOAD_INTERRUPT_REASON_FILE_SECURITY_CHECK_FAILED + 1)%Z.
Definition COREWEBVIEW2_DOWNLOAD_INTERRUPT_REASON_FILE_HASH_MISMATCH : Z := (COREWEBVIEW2_DOWNLOAD_INTERRUPT_REASON_FILE_TOO_SHORT + 1)%Z.
Definition COREWEBVIEW2_DOWNLOAD_INTERRUPT_REASON_NETWORK_FAILED : Z := (COREWEBVIEW2_DOWNLOAD_INTERRUPT_REASON_FILE_HASH_MISMATCH + 1)%Z.
Definition COREWEBVIEW2_DOWNLOAD_INTERRUPT_REASON_NETWORK_TIMEOUT : Z := (COREWEBVIEW2_DOWNLOAD_INTERRUPT_REASON_NETWORK_FAILED + 1)%Z.
Definition COREWEBVIEW2_DOWNLOAD_INTERRUPT_REASON_NETWORK_DISCONNECTED : Z := (COREWEBVIEW2_DOWNLOAD_INTERRUPT_REASON_NETWORK_TIMEOUT + 1)%Z.
Definition COREWEBVIEW2_DOWNLOAD_INTERRUPT_REASON_NETWORK_SERVER_DOWN : Z := (COREWEBVIEW2_DOWNLOAD_INTERRUPT_REASON_NETWORK_DISCONNECTED + 1)%Z.
Definition COREWEBVIEW2_DOWNLOAD_INTERRUPT_REASON_NETWORK_INVALID_REQUEST : Z := (COREWEBVIEW2_DOWNLOAD_INTERRUPT_REASON_NETWORK_SERVER_DOWN + 1)%Z.
Definition COREWEBVIEW2_DOWNLOAD_INTERRUPT_REASON_SERVER_FAILED : Z := (COREWEBVIEW2_DOWNLOAD_INTERRUPT_REASON_NETWORK_INVALID_REQUEST + 1)%Z.
Definition COREWEBVIEW2_DOWNLOAD_INTERRUPT_REASON_SERVER_NO_RANGE : Z := (COREWEBVIEW2_DOWNLOAD_INTERRUPT_REASON_SERVER_FAILED + 1)%Z.
Definition COREWEBVIEW2_DOWNLOAD_INTERRUPT_REASON_SERVER_BAD_CONTENT : Z := (COREWEBVIEW2_DOWNLOAD_INTERRUPT_REASON_SERVER_NO_RANGE + 1)%Z.
Definition COREWEBVIEW2_DOWNLOAD_INTERRUPT_REASON_SERVER_UNAUTHORIZED : Z := (COREWEBVIEW2_DOWNLOAD_INTERRUPT_REASON_SERVER_BAD_CONTENT + 1)%Z.
Definition COREWEBVIEW2_DOWNLOAD_INTERRUPT_REASON_SERVER_CERTIFICATE_PROBLEM : Z := (COREWEBVIEW2_DOWNLOAD_INTERRUPT_REASON_SERVER_UNAUTHORIZED + 1)%Z.
Definition COREWEBVIEW2_DOWNLOAD_INTERRUPT_REASON_SERVER_FORBIDDEN : Z := (COREWEBVIEW2_DOWNLOAD_INTERRUPT_REASON_SERVER_CERTIFICATE_PROBLEM + 1)%Z.
Definition COREWEBVIEW2_DOWNLOAD_INTERRUPT_REASON_SERVER_UNEXPECTED_RESPONSE : Z := (COREWEBVIEW2_DOWNLOAD_INTERRUPT_REASON_SERVER_FORBIDDEN + 1)%Z.
Definition COREWEBVIEW2_DOWNLOAD_INTERRUPT_REASON_SERVER_CONTENT_LENGTH_MISMATCH : Z := (COREWEBVIEW2_DOWNLOAD_INTERRUPT_REASON_SERVER_UNEXPECTED_RESPONSE + 1)%Z.
Definition COREWEBVIEW2_DOWNLOAD_INTERRUPT_REASON_SERVER_CROSS_ORIGIN_REDIRECT : Z := (COREWEBVIEW2_DOWNLOAD_INTERRUPT_REASON_SERVER_CONTENT_LENGTH_MISMATCH + 1)%Z.
Definition COREWEBVIEW2_DOWNLOAD_INTERRUPT_REASON_USER_CANCELED : Z := (COREWEBVIEW2_DOWNLOAD_INTERRUPT_REASON_SERVER_CROSS_ORIGIN_REDIRECT + 1)%Z.
Definition COREWEBVIEW2_DOWNLOAD_INTERRUPT_REASON_USER_SHUTDOWN : Z := (COREWEBVIEW2_DOWNLOAD_INTERRUPT_REASON_USER_CANCELED + 1)%Z.
Definition COREWEBVIEW2_DOWNLOAD_INTERRUPT_REASON_USER_PAUSED : Z := (COREWEBVIEW2_DOWNLOAD_INTERRUPT_REASON_USER_SHUTDOWN + 1)%Z.
Definition COREWEBVIEW2_DOWNLOAD_INTERRUPT_REASON_DOWNLOAD_PROCESS_CRASHED : Z := (COREWEBVIEW2_DOWNLOAD_INTERRUPT_REASON_USER_PAUSED + 1)%Z.

Definition COREWEBVIEW2_DOWNLOAD_INTERRUPT_REASON : list Z := [
   COREWEBVIEW2_DOWNLOAD_INTERRUPT_REASON_NONE; COREWEBVIEW2_DOWNLOAD_INTERRUPT_REASON_FILE_FAILED;
   COREWEBVIEW2_DOWNLOAD_INTERRUPT_REASON_FILE_ACCESS_DENIED;
   COREWEBVIEW2_DOWNLOAD_INTERRUPT_REASON_FILE_NO_SPACE;
   COREWEBVIEW2_DOWNLOAD_INTERRUPT_REASON_FILE_NAME_TOO_LONG;
   COREWEBVIEW2_DOWNLOAD_INTERRUPT_REASON_FILE_TOO_LARGE;
   COREWEBVIEW2_DOWNLOAD_INTERRUPT_REASON_FILE_MALICIOUS;
   COREWEBVIEW2_DOWNLOAD_INTERRUPT_REASON_FILE_TRANSIENT_ERROR;
   COREWEBVIEW2_DOWNLOAD_INTERRUPT_REASON_FILE_BLOCKED_BY_POLICY;
   COREWEBVIEW2_DOWNLOAD_INTERRUPT_REASON_FILE_SECURITY_CHECK_FAILED;
   COREWEBVIEW2_DOWNLOAD_INTERRUPT_REASON_FILE_TOO_SHORT;
   COREWEBVIEW2_DOWNLOAD_INTERRUPT_REASON_FILE_HASH_MISMATCH;
   COREWEBVIEW2_DOWNLOAD_INTERRUPT_REASON_NETWORK_FAILED;
   COREWEBVIEW2_DOWNLOAD_INTERRUPT_REASON_NETWORK_TIMEOUT;
   COREWEBVIEW2_DOWNLOAD_INTERRUPT_REASON_NETWORK_DISCONNECTED;
   COREWEBVIEW2_DOWNLOAD_INTERRUPT_REASON_NETWORK_SERVER_DOWN;
   COREWEBVIEW2_DOWNLOAD_INTERRUPT_REASON_NETWORK_INVALID_REQUEST;
   COREWEBVIEW2_DOWNLOAD_INTERRUPT_REASON_SERVER_FAILED;
   COREWEBVIEW2_DOWNLOAD_INTERRUPT_REASON_SERVER_NO_RANGE;
   COREWEBVIEW2_DOWNLOAD_INTERRUPT_REASON_SERVER_BAD_CONTENT;
   COREWEBVIEW2_DOWNLOAD_INTERRUPT_REASON_SERVER_UNAUTHORIZED;
   COREWEBVIEW2_DOWNLOAD_INTERRUPT_REASON_SERVER_CERTIFICATE_PROBLEM;
   COREWEBVIEW2_DOWNLOAD_INTERRUPT_REASON_SERVER_FORBIDDEN;
   COREWEBVIEW2_DOWNLOAD_INTERRUPT_REASON_SERVER_UNEXPECTED_RESPONSE;
   COREWEBVIEW2_DOWNLOAD_INTERRUPT_REASON_SERVER_CONTENT_LENGTH_MISMATCH;
   COREWEBVIEW2_DOWNLOAD_INTERRUPT_REASON_SERVER_CROSS_ORIGIN_REDIRECT;
   COREWEBVIEW2_DOWNLOAD_INTERRUPT_REASON_USER_CANCELED;
   COREWEBVIEW2_DOWNLOAD_INTERRUPT_REASON_USER_SHUTDOWN;
   COREWEBVIEW2_DOWNLOAD_INTERRUPT_REASON_USER_PAUSED;
   COREWEBVIEW2_DOWNLOAD_INTERRUPT_REASON_DOWNLOAD_PROCESS_CRASHED].

Definition COREWEBVIEW2_PRINT_ORIENTATION_PORTRAIT : Z := 0.
Definition COREWEBVIEW2_PRINT_ORIENTATION_LANDSCAPE : Z := (COREWEBVIEW2_PRINT_ORIENTATION_PORTRAIT + 1)%Z.

Definition COREWEBVIEW2_PRINT_ORIENTATION : list Z := [
   COREWEBVIEW2_PRINT_ORIENTATION_PORTRAIT; COREWEBVIEW2_PRINT_ORIENTATION_LANDSCAPE].

Definition COREWEBVIEW2_DEFAULT_DOWNLOAD_DIALOG_CORNER_ALIGNMENT_TOP_LEFT : Z := 0.
Definition COREWEBVIEW2_DEFAULT_DOWNLOAD_DIALOG_CORNER_ALIGNMENT_TOP_RIGHT : Z := (COREWEBVIEW2_DEFAULT_DOWNLOAD_DIALOG_CORNER_ALIGNMENT_TOP_LEFT + 1)%Z.
Definition COREWEBVIEW2_DEFAULT_DOWNLOAD_DIALOG_CORNER_ALIGNMENT_BOTTOM_LEFT : Z := (COREWEBVIEW2_DEFAULT_DOWNLOAD_DIALOG_CORNER_ALIGNMENT_TOP_RIGHT + 1)%Z.
Definition COREWEBVIEW2_DEFAULT_DOWNLOAD_DIALOG_CORNER_ALIGNMENT_BOTTOM_RIGHT : Z := (COREWEBVIEW2_DEFAULT_DOWNLOAD_DIALOG_CORNER_ALIGNMENT_BOTTOM_LEFT + 1)%Z.

Definition COREWEBVIEW2_DEFAULT_DOWNLOAD_DIALOG_CORNER_ALIGNMENT : list Z := [
   COREWEBVIEW2_DEFAULT_DOWNLOAD_DIALOG_CORNER_ALIGNMENT_TOP_LEFT;
   COREWEBVIEW2_DEFAULT_DOWNLOAD_DIALOG_CORNER_ALIGNMENT_TOP_RIGHT;
   COREWEBVIEW2_DEFAULT_DOWNLOAD_DIALOG_CORNER_ALIGNMENT_BOTTOM_LEFT;
   COREWEBVIEW2_DEFAULT_DOWNLOAD_DIALOG_CORNER_ALIGNMENT_BOTTOM_RIGHT].

Definition COREWEBVIEW2_PROCESS_KIND_BROWSER : Z := 0.
Definition COREWEBVIEW2_PROCESS_KIND_RENDERER : Z := (COREWEBVIEW2_PROCESS_KIND_BROWSER + 1)%Z.
Definition COREWEBVIEW2_PROCESS_KIND_UTILITY : Z := (COREWEBVIEW2_PROCESS_KIND_RENDERER + 1)%Z.
Definition COREWEBVIEW2_PROCESS_KIND_SANDBOX_HELPER : Z := (COREWEBVIEW2_PROCESS_KIND_UTILITY + 1)%Z.
Definition COREWEBVIEW2_PROCESS_KIND_GPU : Z := (COREWEBVIEW2_PROCESS_KIND_SANDBOX_HELPER + 1)%Z.
Definition COREWEBVIEW2_PROCESS_KIND_PPAPI_PLUGIN : Z := (COREWEBVIEW2_PROCESS_KIND_GPU + 1)%Z.
Definition COREWEBVIEW2_PROCESS_KIND_PPAPI_BROKER : Z := (COREWEBVIEW2_PROCESS_KIND_PPAPI_PLUGIN + 1)%Z.

Definition COREWEBVIEW2_PROCESS_KIND : list Z := [
   COREWEBVIEW2_PROCESS_KIND_BROWSER; COREWEBVIEW2_PROCESS_KIND_RENDERER;
   COREWEBVIEW2_PROCESS_KIND_UTILITY; COREWEBVIEW2_PROCESS_KIND_SANDBOX_HELPER;
   COREWEBVIEW2_PROCESS_KIND_GPU; COREWEBVIEW2_PROCESS_KIND_PPAPI_PLUGIN;
   COREWEBVIEW2_PROCESS_KIND_PPAPI_BROKER].

Definition COREWEBVIEW2_PDF_TOOLBAR_ITEMS_NONE : Z := 0.
Definition COREWEBVIEW2_PDF_TOOLBAR_ITEMS_SAVE : Z := 0x1.
Definition COREWEBVIEW2_PDF_TOOLBAR_ITEMS_PRINT : Z := 0x2.
Definition COREWEBVIEW2_PDF_TOOLBAR_ITEMS_SAVE_AS : Z := 0x4.
Definition COREWEBVIEW2_PDF_TOOLBAR_ITEMS_ZOOM_IN : Z := 0x8.
Definition COREWEBVIEW2_PDF_TOOLBAR_ITEMS_ZOOM_OUT : Z := 0x10.
Definition COREWEBVIEW2_PDF_TOOLBAR_ITEMS_ROTATE : Z := 0x20.
Definition COREWEBVIEW2_PDF_TOOLBAR_ITEMS_FIT_PAGE : Z := 0x40.
Definition COREWEBVIEW2_PDF_TOOLBAR_ITEMS_PAGE_LAYOUT : Z := 0x80.
Definition COREWEBVIEW2_PDF_TOOLBAR_ITEMS_BOOKMARKS : Z := 0x100.
Definition COREWEBVIEW2_PDF_TOOLBAR_ITEMS_PAGE_SELECTOR : Z := 0x200.
Definition COREWEBVIEW2_PDF_TOOLBAR_ITEMS_SEARCH : Z := 0x400.
Definition COREWEBVIEW2_PDF_TOOLBAR_ITEMS_FULL_SCREEN : Z := 0x800.
Definition COREWEBVIEW2_PDF_TOOLBAR_ITEMS_MORE_SETTINGS : Z := 0x1000.

Definition COREWEBVIEW2_PDF_TOOLBAR_ITEMS : list Z := [
   COREWEBVIEW2_PDF_TOOLBAR_ITEMS_NONE; COREWEBVIEW2_PDF_TOOLBAR_ITEMS_SAVE;
   COREWEBVIEW2_PDF_TOOLBAR_ITEMS_PRINT; COREWEBVIEW2_PDF_TOOLBAR_ITEMS_SAVE_AS;
   COREWEBVIEW2_PDF_TOOLBAR_ITEMS_ZOOM_IN; COREWEBVIEW2_PDF_TOOLBAR_ITEMS_ZOOM_OUT;
   COREWEBVIEW2_PDF_TOOLBAR_ITEMS_ROTATE; COREWEBVIEW2_PDF_TOOLBAR_ITEMS_FIT_PAGE;
   COREWEBVIEW2_PDF_TOOLBAR_ITEMS_PAGE_LAYOUT; COREWEBVIEW2_PDF_TOOLBAR_ITEMS_BOOKMARKS;
   COREWEBVIEW2_PDF_TOOLBAR_ITEMS_PAGE_SELECTOR; COREWEBVIEW2_PDF_TOOLBAR_ITEMS_SEARCH;
   COREWEBVIEW2_PDF_TOOLBAR_ITEMS_FULL_SCREEN; COREWEBVIEW2_PDF_TOOLBAR_ITEMS_MORE_SETTINGS].

Definition COREWEBVIEW2_CONTEXT_MENU_TARGET_KIND_PAGE : Z := 0.
Definition COREWEBVIEW2_CONTEXT_MENU_TARGET_KIND_IMAGE : Z := (COREWEBVIEW2_CONTEXT_MENU_TARGET_KIND_PAGE + 1)%Z.
Definition COREWEBVIEW2_CONTEXT_MENU_TARGET_KIND_SELECTED_TEXT : Z := (COREWEBVIEW2_CONTEXT_MENU_TARGET_KIND_IMAGE + 1)%Z.
Definition COREWEBVIEW2_CONTEXT_MENU_TARGET_KIND_AUDIO : Z := (COREWEBVIEW2_CONTEXT_MENU_TARGET_KIND_SELECTED_TEXT + 1)%Z.
Definition COREWEBVIEW2_CONTEXT_MENU_TARGET_KIND_VIDEO : Z := (COREWEBVIEW2_CONTEXT_MENU_TARGET_KIND_AUDIO + 1)%Z.

Definition COREWEBVIEW2_CONTEXT_MENU_TARGET_KIND : list Z := [
   COREWEBVIEW2_CONTEXT_MENU_TARGET_KIND_PAGE; COREWEBVIEW2_CONTEXT_MENU_TARGET_KIND_IMAGE;
   COREWEBVIEW2_CONTEXT_MENU_TARGET_KIND_SELECTED_TEXT; COREWEBVIEW2_CONTEXT_MENU_TARGET_KIND_AUDIO;
   COREWEBVIEW2_CONTEXT_MENU_TARGET_KIND_VIDEO].

Definition COREWEBVIEW2_CONTEXT_MENU_ITEM_KIND_COMMAND : Z := 0.
Definition COREWEBVIEW2_CONTEXT_MENU_ITEM_KIND_CHECK_BOX : Z := (COREWEBVIEW2_CONTEXT_MENU_ITEM_KIND_COMMAND + 1)%Z.
Definition COREWEBVIEW2_CONTEXT_MENU_ITEM_KIND_RADIO : Z := (COREWEBVIEW2_CONTEXT_MENU_ITEM_KIND_CHECK_BOX + 1)%Z.
Definition COREWEBVIEW2_CONTEXT_MENU_ITEM_KIND_SEPARATOR : Z := (COREWEBVIEW2_CONTEXT_MENU_ITEM_KIND_RADIO + 1)%Z.
Definition COREWEBVIEW2_CONTEXT_MENU_ITEM_KIND_SUBMENU : Z := (COREWEBVIEW2_CONTEXT_MENU_ITEM_KIND_SEPARATOR + 1)%Z.

Definition COREWEBVIEW2_CONTEXT_MENU_ITEM_KIND : list Z := [
   COREWEBVIEW2_CONTEXT_MENU_ITEM_KIND_COMMAND; COREWEBVIEW2_CONTEXT_MENU_ITEM_KIND_CHECK_BOX;
   COREWEBVIEW2_CONTEXT_MENU_ITEM_KIND_RADIO; COREWEBVIEW2_CONTEXT_MENU_ITEM_KIND_SEPARATOR;
   COREWEBVIEW2_CONTEXT_MENU_ITEM_KIND_SUBMENU].

Definition COREWEBVIEW2_PREFERRED_COLOR_SCHEME_AUTO : Z := 0.
Definition COREWEBVIEW2_PREFERRED_COLOR_SCHEME_LIGHT : Z := (COREWEBVIEW2_PREFERRED_COLOR_SCHEME_AUTO + 1)%Z.
Definition COREWEBVIEW2_PREFERRED_COLOR_SCHEME_DARK : Z := (COREWEBVIEW2_PREFERRED_COLOR_SCHEME_LIGHT + 1)%Z.

Definition COREWEBVIEW2_PREFERRED_COLOR_SCHEME : list Z := [
   COREWEBVIEW2_PREFERRED_COLOR_SCHEME_AUTO; COREWEBVIEW2_PREFERRED_COLOR_SCHEME_LIGHT;
   COREWEBVIEW2_PREFERRED_COLOR_SCHEME_DARK].

Definition COREWEBVIEW2_BROWSING_DATA_KINDS_FILE_SYSTEMS : Z := (Z.shiftl 1 0).
Definition COREWEBVIEW2_BROWSING_DATA_KINDS_INDEXED_DB : Z := (Z.shiftl 1 1).
Definition COREWEBVIEW2_BROWSING_DATA_KINDS_LOCAL_STORAGE : Z := (Z.shiftl 1 2).
Definition COREWEBVIEW2_BROWSING_DATA_KINDS_WEB_SQL : Z := (Z.shiftl 1 3).
Definition COREWEBVIEW2_BROWSING_DATA_KINDS_CACHE_STORAGE : Z := (Z.shiftl 1 4).
Definition COREWEBVIEW2_BROWSING_DATA_KINDS_ALL_DOM_STORAGE : Z := (Z.shiftl 1 5).
Definition COREWEBVIEW2_BROWSING_DATA_KINDS_COOKIES : Z := (Z.shiftl 1 6).
Definition COREWEBVIEW2_BROWSING_DATA_KINDS_ALL_SITE : Z := (Z.shiftl 1 7).
Definition COREWEBVIEW2_BROWSING_DATA_KINDS_DISK_CACHE : Z := (Z.shiftl 1 8).
Definition COREWEBVIEW2_BROWSING_DATA_KINDS_DOWNLOAD_HISTORY : Z := (Z.shiftl 1 9).
Definition COREWEBVIEW2_BROWSING_DATA_KINDS_GENERAL_AUTOFILL : Z := (Z.shiftl 1 10).
Definition COREWEBVIEW2_BROWSING_DATA_KINDS_PASSWORD_AUTOSAVE : Z := (Z.shiftl 1 11).
Definition COREWEBVIEW2_BROWSING_DATA_KINDS_BROWSING_HISTORY : Z := (Z.shiftl 1 12).
Definition COREWEBVIEW2_BROWSING_DATA_KINDS_SETTINGS : Z := (Z.shiftl 1 13).
Definition COREWEBVIEW2_BROWSING_DATA_KINDS_ALL_PROFILE : Z := (Z.shiftl 1 14).
Definition COREWEBVIEW2_BROWSING_DATA_KINDS_SERVICE_WORKERS : Z := (Z.shiftl 1 15).

Definition COREWEBVIEW2_BROWSING_DATA_KINDS : list Z := [
   COREWEBVIEW2_BROWSING_DATA_KINDS_FILE_SYSTEMS; COREWEBVIEW2_BROWSING_DATA_KINDS_INDEXED_DB;
   COREWEBVIEW2_BROWSING_DATA_KINDS_LOCAL_STORAGE; COREWEBVIEW2_BROWSING_DATA_KINDS_WEB_SQL;
   COREWEBVIEW2_BROWSING_DATA_KINDS_CACHE_STORAGE; COREWEBVIEW2_BROWSING_DATA_KINDS_ALL_DOM_STORAGE;
   COREWEBVIEW2_BROWSING_DATA_KINDS_COOKIES; COREWEBVIEW2_BROWSING_DATA_KINDS_ALL_SITE;
   COREWEBVIEW2_BROWSING_DATA_KINDS_DISK_CACHE; COREWEBVIEW2_BROWSING_DATA_KINDS_DOWNLOAD_HISTORY;
   COREWEBVIEW2_BROWSING_DATA_KINDS_GENERAL_AUTOFILL; COREWEBVIEW2_BROWSING_DATA_KINDS_PASSWORD_AUTOSAVE;
   COREWEBVIEW2_BROWSING_DATA_KINDS_BROWSING_HISTORY; COREWEBVIEW2_BROWSING_DATA_KINDS_SETTINGS;
   COREWEBVIEW2_BROWSING_DATA_KINDS_ALL_PROFILE; COREWEBVIEW2_BROWSING_DATA_KINDS_SERVICE_WORKERS].

Definition COREWEBVIEW2_SERVER_CERTIFICATE_ERROR_ACTION_ALWAYS_ALLOW : Z := 0.
Definition COREWEBVIEW2_SERVER_CERTIFICATE_ERROR_ACTION_CANCEL : Z := (COREWEBVIEW2_SERVER_CERTIFICATE_ERROR_ACTION_ALWAYS_ALLOW + 1)%Z.
Definition COREWEBVIEW2_SERVER_CERTIFICATE_ERROR_ACTION_DEFAULT : Z := (COREWEBVIEW2_SERVER_CERTIFICATE_ERROR_ACTION_CANCEL + 1)%Z.

Definition COREWEBVIEW2_SERVER_CERTIFICATE_ERROR_ACTION : list Z := [
   COREWEBVIEW2_SERVER_CERTIFICATE_ERROR_ACTION_ALWAYS_ALLOW;
   COREWEBVIEW2_SERVER_CERTIFICATE_ERROR_ACTION_CANCEL;
   COREWEBVIEW2_SERVER_CERTIFICATE_ERROR_ACTION_DEFAULT].

Definition COREWEBVIEW2_FAVICON_IMAGE_FORMAT_PNG : Z := 0.
Definition COREWEBVIEW2_FAVICON_IMAGE_FORMAT_JPEG : Z := (COREWEBVIEW2_FAVICON_IMAGE_FORMAT_PNG + 1)%Z.

Definition COREWEBVIEW2_FAVICON_IMAGE_FORMAT : list Z := [
   COREWEBVIEW2_FAVICON_IMAGE_FORMAT_PNG; COREWEBVIEW2_FAVICON_IMAGE_FORMAT_JPEG].

Definition COREWEBVIEW2_PRINT_DIALOG_KIND_BROWSER : Z := 0.
Definition COREWEBVIEW2_PRINT_DIALOG_KIND_SYSTEM : Z := (COREWEBVIEW2_PRINT_DIALOG_KIND_BROWSER + 1)%Z.

Definition COREWEBVIEW2_PRINT_DIALOG_KIND : list Z := [
   COREWEBVIEW2_PRINT_DIALOG_KIND_BROWSER; COREWEBVIEW2_PRINT_DIALOG_KIND_SYSTEM].

Definition COREWEBVIEW2_PRINT_DUPLEX_DEFAULT : Z := 0.
Definition COREWEBVIEW2_PRINT_DUPLEX_ONE_SIDED : Z := (COREWEBVIEW2_PRINT_DUPLEX_DEFAULT + 1)%Z.
Definition COREWEBVIEW2_PRINT_DUPLEX_TWO_SIDED_LONG_EDGE : Z := (COREWEBVIEW2_PRINT_DUPLEX_ONE_SIDED + 1)%Z.
Definition COREWEBVIEW2_PRINT_DUPLEX_TWO_SIDED_SHORT_EDGE : Z := (COREWEBVIEW2_PRINT_DUPLEX_TWO_SIDED_LONG_EDGE + 1)%Z.

Definition COREWEBVIEW2_PRINT_DUPLEX : list Z := [
   COREWEBVIEW2_PRINT_DUPLEX_DEFAULT; COREWEBVIEW2_PRINT_DUPLEX_ONE_SIDED;
   COREWEBVIEW2_PRINT_DUPLEX_TWO_SIDED_LONG_EDGE; COREWEBVIEW2_PRINT_DUPLEX_TWO_SIDED_SHORT_EDGE].

Definition COREWEBVIEW2_PRINT_COLOR_MODE_DEFAULT : Z := 0.
Definition COREWEBVIEW2_PRINT_COLOR_MODE_COLOR : Z := (COREWEBVIEW2_PRINT_COLOR_MODE_DEFAULT + 1)%Z.
Definition COREWEBVIEW2_PRINT_COLOR_MODE_GRAYSCALE : Z := (COREWEBVIEW2_PRINT_COLOR_MODE_COLOR + 1)%Z.

Definition COREWEBVIEW2_PRINT_COLOR_MODE : list Z := [
   COREWEBVIEW2_PRINT_COLOR_MODE_DEFAULT; COREWEBVIEW2_PRINT_COLOR_MODE_COLOR;
   COREWEBVIEW2_PRINT_COLOR_MODE_GRAYSCALE].

Definition COREWEBVIEW2_PRINT_COLLATION_DEFAULT : Z := 0.
Definition COREWEBVIEW2_PRINT_COLLATION_COLLATED : Z := (COREWEBVIEW2_PRINT_COLLATION_DEFAULT + 1)%Z.
Definition COREWEBVIEW2_PRINT_COLLATION_UNCOLLATED : Z := (COREWEBVIEW2_PRINT_COLLATION_COLLATED + 1)%Z.

Definition COREWEBVIEW2_PRINT_COLLATION : list Z := [
   COREWEBVIEW2_PRINT_COLLATION_DEFAULT; COREWEBVIEW2_PRINT_COLLATION_COLLATED;
   COREWEBVIEW2_PRINT_COLLATION_UNCOLLATED].

Definition COREWEBVIEW2_PRINT_MEDIA_SIZE_DEFAULT : Z := 0.
Definition COREWEBVIEW2_PRINT_MEDIA_SIZE_CUSTOM : Z := (COREWEBVIEW2_PRINT_MEDIA_SIZE_DEFAULT + 1)%Z.

Definition COREWEBVIEW2_PRINT_MEDIA_SIZE : list Z := [
   COREWEBVIEW2_PRINT_MEDIA_SIZE_DEFAULT; COREWEBVIEW2_PRINT_MEDIA_SIZE_CUSTOM].

Definition COREWEBVIEW2_PRINT_STATUS_SUCCEEDED : Z := 0.
Definition COREWEBVIEW2_PRINT_STATUS_PRINTER_UNAVAILABLE : Z := (COREWEBVIEW2_PRINT_STATUS_SUCCEEDED + 1)%Z.
Definition COREWEBVIEW2_PRINT_STATUS_OTHER_ERROR : Z := (COREWEBVIEW2_PRINT_STATUS_PRINTER_UNAVAILABLE + 1)%Z.

Definition COREWEBVIEW2_PRINT_STATUS : list Z := [
   COREWEBVIEW2_PRINT_STATUS_SUCCEEDED; COREWEBVIEW2_PRINT_STATUS_PRINTER_UNAVAILABLE;
   COREWEBVIEW2_PRINT_STATUS_OTHER_ERROR].

Definition COREWEBVIEW2_TRACKING_PREVENTION_LEVEL_NONE : Z := 0.
Definition COREWEBVIEW2_TRACKING_PREVENTION_LEVEL_BASIC : Z := (COREWEBVIEW2_TRACKING_PREVENTION_LEVEL_NONE + 1)%Z.
Definition COREWEBVIEW2_TRACKING_PREVENTION_LEVEL_BALANCED : Z := (COREWEBVIEW2_TRACKING_PREVENTION_LEVEL_BASIC + 1)%Z.
Definition COREWEBVIEW2_TRACKING_PREVENTION_LEVEL_STRICT : Z := (COREWEBVIEW2_TRACKING_PREVENTION_LEVEL_BALANCED + 1)%Z.

Definition COREWEBVIEW2_TRACKING_PREVENTION_LEVEL : list Z := [
   COREWEBVIEW2_TRACKING_PREVENTION_LEVEL_NONE; COREWEBVIEW2_TRACKING_PREVENTION_LEVEL_BASIC;
   COREWEBVIEW2_TRACKING_PREVENTION_LEVEL_BALANCED; COREWEBVIEW2_TRACKING_PREVENTION_LEVEL_STRICT].

Definition COREWEBVIEW2_SHARED_BUFFER_ACCESS_READ_ONLY : Z := 0.
Definition COREWEBVIEW2_SHARED_BUFFER_ACCESS_READ_WRITE : Z := (COREWEBVIEW2_SHARED_BUFFER_ACCESS_READ_ONLY + 1)%Z.

Definition COREWEBVIEW2_SHARED_BUFFER_ACCESS : list Z := [
   COREWEBVIEW2_SHARED_BUFFER_ACCESS_READ_ONLY; COREWEBVIEW2_SHARED_BUFFER_ACCESS_READ_WRITE].

Definition COREWEBVIEW2_MEMORY_USAGE_TARGET_LEVEL_NORMAL : Z := 0.
Definition COREWEBVIEW2_MEMORY_USAGE_TARGET_LEVEL_LOW : Z := (COREWEBVIEW2_MEMORY_USAGE_TARGET_LEVEL_NORMAL + 1)%Z.

Definition COREWEBVIEW2_MEMORY_USAGE_TARGET_LEVEL : list Z := [
   COREWEBVIEW2_MEMORY_USAGE_TARGET_LEVEL_NORMAL; COREWEBVIEW2_MEMORY_USAGE_TARGET_LEVEL_LOW].

Definition COREWEBVIEW2_NAVIGATION_KIND_RELOAD : Z := 0.
Definition COREWEBVIEW2_NAVIGATION_KIND_BACK_OR_FORWARD : Z := 1.
Definition COREWEBVIEW2_NAVIGATION_KIND_NEW_DOCUMENT : Z := 2.

Definition COREWEBVIEW2_NAVIGATION_KIND : list Z := [
   COREWEBVIEW2_NAVIGATION_KIND_RELOAD; COREWEBVIEW2_NAVIGATION_KIND_BACK_OR_FORWARD;
   COREWEBVIEW2_NAVIGATION_KIND_NEW_DOCUMENT].

Definition COREWEBVIEW2_FRAME_KIND_UNKNOWN : Z := 0.
Definition COREWEBVIEW2_FRAME_KIND_MAIN_FRAME : Z := (COREWEBVIEW2_FRAME_KIND_UNKNOWN + 1)%Z.
Definition COREWEBVIEW2_FRAME_KIND_IFRAME : Z := (COREWEBVIEW2_FRAME_KIND_MAIN_FRAME + 1)%Z.
Definition COREWEBVIEW2_FRAME_KIND_EMBED : Z := (COREWEBVIEW2_FRAME_KIND_IFRAME + 1)%Z.
Definition COREWEBVIEW2_FRAME_KIND_OBJECT : Z := (COREWEBVIEW2_FRAME_KIND_EMBED + 1)%Z.

Definition COREWEBVIEW2_FRAME_KIND : list Z := [
   COREWEBVIEW2_FRAME_KIND_UNKNOWN; COREWEBVIEW2_FRAME_KIND_MAIN_FRAME; COREWEBVIEW2_FRAME_KIND_IFRAME;
   COREWEBVIEW2_FRAME_KIND_EMBED; COREWEBVIEW2_FRAME_KIND_OBJECT].

Definition COREWEBVIEW2_WEB_RESOURCE_REQUEST_SOURCE_KINDS_NONE : Z := 0.
Definition COREWEBVIEW2_WEB_RESOURCE_REQUEST_SOURCE_KINDS_DOCUMENT : Z := 1.
Definition COREWEBVIEW2_WEB_RESOURCE_REQUEST_SOURCE_KINDS_SHARED_WORKER : Z := 2.
Definition COREWEBVIEW2_WEB_RESOURCE_REQUEST_SOURCE_KINDS_SERVICE_WORKER : Z := 4.
Definition COREWEBVIEW2_WEB_RESOURCE_REQUEST_SOURCE_KINDS_ALL : Z := 0xffffffff.

Definition COREWEBVIEW2_WEB_RESOURCE_REQUEST_SOURCE_KINDS : list Z := [
   COREWEBVIEW2_WEB_RESOURCE_REQUEST_SOURCE_KINDS_NONE;
   COREWEBVIEW2_WEB_RESOURCE_REQUEST_SOURCE_KINDS_DOCUMENT;
   COREWEBVIEW2_WEB_RESOURCE_REQUEST_SOURCE_KINDS_SHARED_WORKER;
   COREWEBVIEW2_WEB_RESOURCE_REQUEST_SOURCE_KINDS_SERVICE_WORKER;
   COREWEBVIEW2_WEB_RESOURCE_REQUEST_SOURCE_KINDS_ALL].

Definition enumerations : list (string * list Z) := [
   ("COREWEBVIEW2_CAPTURE_PREVIEW_IMAGE_FORMAT", COREWEBVIEW2_CAPTURE_PREVIEW_IMAGE_FORMAT);
   ("COREWEBVIEW2_COOKIE_SAME_SITE_KIND", COREWEBVIEW2_COOKIE_SAME_SITE_KIND);
   ("COREWEBVIEW2_HOST_RESOURCE_ACCESS_KIND", COREWEBVIEW2_HOST_RESOURCE_ACCESS_KIND);
   ("COREWEBVIEW2_SCRIPT_DIALOG_KIND", COREWEBVIEW2_SCRIPT_DIALOG_KIND);
   ("COREWEBVIEW2_PROCESS_FAILED_KIND", COREWEBVIEW2_PROCESS_FAILED_KIND);
   ("COREWEBVIEW2_PROCESS_FAILED_REASON", COREWEBVIEW2_PROCESS_FAILED_REASON);
   ("COREWEBVIEW2_PERMISSION_KIND", COREWEBVIEW2_PERMISSION_KIND);
   ("COREWEBVIEW2_PERMISSION_STATE", COREWEBVIEW2_PERMISSION_STATE);
   ("COREWEBVIEW2_WEB_ERROR_STATUS", COREWEBVIEW2_WEB_ERROR_STATUS);
   ("COREWEBVIEW2_WEB_RESOURCE_CONTEXT", COREWEBVIEW2_WEB_RESOURCE_CONTEXT);
   ("COREWEBVIEW2_MOVE_FOCUS_REASON", COREWEBVIEW2_MOVE_FOCUS_REASON);
   ("COREWEBVIEW2_KEY_EVENT_KIND", COREWEBVIEW2_KEY_EVENT_KIND);
   ("COREWEBVIEW2_BROWSER_PROCESS_EXIT_KIND", COREWEBVIEW2_BROWSER_PROCESS_EXIT_KIND);
   ("COREWEBVIEW2_MOUSE_EVENT_KIND", COREWEBVIEW2_MOUSE_EVENT_KIND);
   ("COREWEBVIEW2_MOUSE_EVENT_VIRTUAL_KEYS", COREWEBVIEW2_MOUSE_EVENT_VIRTUAL_KEYS);
   ("COREWEBVIEW2_POINTER_EVENT_KIND", COREWEBVIEW2_POINTER_EVENT_KIND);
   ("COREWEBVIEW2_BOUNDS_MODE", COREWEBVIEW2_BOUNDS_MODE);
   ("COREWEBVIEW2_CLIENT_CERTIFICATE_KIND", COREWEBVIEW2_CLIENT_CERTIFICATE_KIND);
   ("COREWEBVIEW2_DOWNLOAD_STATE", COREWEBVIEW2_DOWNLOAD_STATE);
   ("COREWEBVIEW2_DOWNLOAD_INTERRUPT_REASON", COREWEBVIEW2_DOWNLOAD_INTERRUPT_REASON);
   ("COREWEBVIEW2_PRINT_ORIENTATION", COREWEBVIEW2_PRINT_ORIENTATION);
   ("COREWEBVIEW2_DEFAULT_DOWNLOAD_DIALOG_CORNER_ALIGNMENT", COREWEBVIEW2_DEFAULT_DOWNLOAD_DIALOG_CORNER_ALIGNMENT);
   ("COREWEBVIEW2_PROCESS_KIND", COREWEBVIEW2_PROCESS_KIND);
   ("COREWEBVIEW2_PDF_TOOLBAR_ITEMS", COREWEBVIEW2_PDF_TOOLBAR_ITEMS);
   ("COREWEBVIEW2_CONTEXT_MENU_TARGET_KIND", COREWEBVIEW2_CONTEXT_MENU_TARGET_KIND);
   ("COREWEBVIEW2_CONTEXT_MENU_ITEM_KIND", COREWEBVIEW2_CONTEXT_MENU_ITEM_KIND);
   ("COREWEBVIEW2_PREFERRED_COLOR_SCHEME", COREWEBVIEW2_PREFERRED_COLOR_SCHEME);
   ("COREWEBVIEW2_BROWSING_DATA_KINDS", COREWEBVIEW2_BROWSING_DATA_KINDS);
   ("COREWEBVIEW2_SERVER_CERTIFICATE_ERROR_ACTION", COREWEBVIEW2_SERVER_CERTIFICATE_ERROR_ACTION);
   ("COREWEBVIEW2_FAVICON_IMAGE_FORMAT", COREWEBVIEW2_FAVICON_IMAGE_FORMAT);
   ("COREWEBVIEW2_PRINT_DIALOG_KIND", COREWEBVIEW2_PRINT_DIALOG_KIND);
   ("COREWEBVIEW2_PRINT_DUPLEX", COREWEBVIEW2_PRINT_DUPLEX);
   ("COREWEBVIEW2_PRINT_COLOR_MODE", COREWEBVIEW2_PRINT_COLOR_MODE);
   ("COREWEBVIEW2_PRINT_COLLATION", COREWEBVIEW2_PRINT_COLLATION);
   ("COREWEBVIEW2_PRINT_MEDIA_SIZE", COREWEBVIEW2_PRINT_MEDIA_SIZE);
   ("COREWEBVIEW2_PRINT_STATUS", COREWEBVIEW2_PRINT_STATUS);
   ("COREWEBVIEW2_TRACKING_PREVENTION_LEVEL", COREWEBVIEW2_TRACKING_PREVENTION_LEVEL);
   ("COREWEBVIEW2_SHARED_BUFFER_ACCESS", COREWEBVIEW2_SHARED_BUFFER_ACCESS);
   ("COREWEBVIEW2_MEMORY_USAGE_TARGET_LEVEL", COREWEBVIEW2_MEMORY_USAGE_TARGET_LEVEL);
   ("COREWEBVIEW2_NAVIGATION_KIND", COREWEBVIEW2_NAVIGATION_KIND);
   ("COREWEBVIEW2_FRAME_KIND", COREWEBVIEW2_FRAME_KIND);
   ("COREWEBVIEW2_WEB_RESOURCE_REQUEST_SOURCE_KINDS", COREWEBVIEW2_WEB_RESOURCE_REQUEST_SOURCE_KINDS)].

(** ** Structures

    The members in order, with their types. *)

Definition COREWEBVIEW2_PHYSICAL_KEY_STATUS : list (string * string) := [
   ("UINT32", "RepeatCount"); ("UINT32", "ScanCode"); ("BOOL", "IsExtendedKey"); ("BOOL", "IsMenuKeyDown");
   ("BOOL", "WasKeyDown"); ("BOOL", "IsKeyReleased")].

Definition COREWEBVIEW2_COLOR : list (string * string) := [("BYTE", "A"); ("BYTE", "R"); ("BYTE", "G"); ("BYTE", "B")].

Definition structures : list (string * list (string * string)) := [("COREWEBVIEW2_PHYSICAL_KEY_STATUS", COREWEBVIEW2_PHYSICAL_KEY_STATUS); ("COREWEBVIEW2_COLOR", COREWEBVIEW2_COLOR)].
