(* ===== verification/WvDecls.v ===== *)
(** * WebView2.h: the versioned interfaces

    The C++ declarations of the browser's interfaces - the view, the controller, the
    environment, their versions and the objects they give access to - in the order of the
    header: identifiers, base and methods of each. *)

From S2P Require Import Prelude Win32 WvIdl.

Definition ICoreWebView2_own1 : list method := [
   M "propget" "HRESULT" "get_Settings" [P "retval,out" "ICoreWebView2Settings **"];
   M "propget" "HRESULT" "get_Source" [P "retval,out" "LPWSTR *"];
   M "" "HRESULT" "Navigate" [P "in" "LPCWSTR"];
   M "" "HRESULT" "NavigateToString" [P "in" "LPCWSTR"];
   M "" "HRESULT" "add_NavigationStarting" [P "in" "ICoreWebView2NavigationStartingEventHandler *"; P "out" "EventRegistrationToken *"];
   M "" "HRESULT" "remove_NavigationStarting" [P "in" "EventRegistrationToken"];
   M "" "HRESULT" "add_ContentLoading" [P "in" "ICoreWebView2ContentLoadingEventHandler *"; P "out" "EventRegistrationToken *"];
   M "" "HRESULT" "remove_ContentLoading" [P "in" "EventRegistrationToken"];
   M "" "HRESULT" "add_SourceChanged" [P "in" "ICoreWebView2SourceChangedEventHandler *"; P "out" "EventRegistrationToken *"];
   M "" "HRESULT" "remove_SourceChanged" [P "in" "EventRegistrationToken"];
   M "" "HRESULT" "add_HistoryChanged" [P "in" "ICoreWebView2HistoryChangedEventHandler *"; P "out" "EventRegistrationToken *"];
   M "" "HRESULT" "remove_HistoryChanged" [P "in" "EventRegistrationToken"];
   M "" "HRESULT" "add_NavigationCompleted" [P "in" "ICoreWebView2NavigationCompletedEventHandler *"; P "out" "EventRegistrationToken *"];
   M "" "HRESULT" "remove_NavigationCompleted" [P "in" "EventRegistrationToken"];
   M "" "HRESULT" "add_FrameNavigationStarting" [P "in" "ICoreWebView2NavigationStartingEventHandler *"; P "out" "EventRegistrationToken *"];
   M "" "HRESULT" "remove_FrameNavigationStarting" [P "in" "EventRegistrationToken"];
   M "" "HRESULT" "add_FrameNavigationCompleted" [P "in" "ICoreWebView2NavigationCompletedEventHandler *"; P "out" "EventRegistrationToken *"];
   M "" "HRESULT" "remove_FrameNavigationCompleted" [P "in" "EventRegistrationToken"];
   M "" "HRESULT" "add_ScriptDialogOpening" [P "in" "ICoreWebView2ScriptDialogOpeningEventHandler *"; P "out" "EventRegistrationToken *"];
   M "" "HRESULT" "remove_ScriptDialogOpening" [P "in" "EventRegistrationToken"];
   M "" "HRESULT" "add_PermissionRequested" [P "in" "ICoreWebView2PermissionRequestedEventHandler *"; P "out" "EventRegistrationToken *"];
   M "" "HRESULT" "remove_PermissionRequested" [P "in" "EventRegistrationToken"];
   M "" "HRESULT" "add_ProcessFailed" [P "in" "ICoreWebView2ProcessFailedEventHandler *"; P "out" "EventRegistrationToken *"];
   M "" "HRESULT" "remove_ProcessFailed" [P "in" "EventRegistrationToken"];
   M "" "HRESULT" "AddScriptToExecuteOnDocumentCreated" [P "in" "LPCWSTR"; P "in" "ICoreWebView2AddScriptToExecuteOnDocumentCreatedCompletedHandler *"];
   M "" "HRESULT" "RemoveScriptToExecuteOnDocumentCreated" [P "in" "LPCWSTR"];
   M "" "HRESULT" "ExecuteScript" [P "in" "LPCWSTR"; P "in" "ICoreWebView2ExecuteScriptCompletedHandler *"];
   M "" "HRESULT" "CapturePreview" [P "in" "COREWEBVIEW2_CAPTURE_PREVIEW_IMAGE_FORMAT"; P "in" "IStream *"; P "in" "ICoreWebView2CapturePreviewCompletedHandler *"];
   M "" "HRESULT" "Reload" [];
   M "" "HRESULT" "PostWebMessageAsJson" [P "in" "LPCWSTR"];
   M "" "HRESULT" "PostWebMessageAsString" [P "in" "LPCWSTR"];
   M "" "HRESULT" "add_WebMessageReceived" [P "in" "ICoreWebView2WebMessageReceivedEventHandler *"; P "out" "EventRegistrationToken *"];
   M "" "HRESULT" "remove_WebMessageReceived" [P "in" "EventRegistrationToken"];
   M "" "HRESULT" "CallDevToolsProtocolMethod" [P "in" "LPCWSTR"; P "in" "LPCWSTR"; P "in" "ICoreWebView2CallDevToolsProtocolMethodCompletedHandler *"];
   M "propget" "HRESULT" "get_BrowserProcessId" [P "retval,out" "UINT32 *"];
   M "propget" "HRESULT" "get_CanGoBack" [P "retval,out" "BOOL *"];
   M "propget" "HRESULT" "get_CanGoForward" [P "retval,out" "BOOL *"];
   M "" "HRESULT" "GoBack" [];
   M "" "HRESULT" "GoForward" [];
   M "" "HRESULT" "GetDevToolsProtocolEventReceiver" [P "in" "LPCWSTR"; P "retval,out" "ICoreWebView2DevToolsProtocolEventReceiver **"];
   M "" "HRESULT" "Stop" [];
   M "" "HRESULT" "add_NewWindowRequested" [P "in" "ICoreWebView2NewWindowRequestedEventHandler *"; P "out" "EventRegistrationToken *"]].

Definition ICoreWebView2_own2 : list method := [
   M "" "HRESULT" "remove_NewWindowRequested" [P "in" "EventRegistrationToken"];
   M "" "HRESULT" "add_DocumentTitleChanged" [P "in" "ICoreWebView2DocumentTitleChangedEventHandler *"; P "out" "EventRegistrationToken *"];
   M "" "HRESULT" "remove_DocumentTitleChanged" [P "in" "EventRegistrationToken"];
   M "propget" "HRESULT" "get_DocumentTitle" [P "retval,out" "LPWSTR *"];
   M "" "HRESULT" "AddHostObjectToScript" [P "in" "LPCWSTR"; P "in" "VARIANT *"];
   M "" "HRESULT" "RemoveHostObjectFromScript" [P "in" "LPCWSTR"];
   M "" "HRESULT" "OpenDevToolsWindow" [];
   M "" "HRESULT" "add_ContainsFullScreenElementChanged" [P "in" "ICoreWebView2ContainsFullScreenElementChangedEventHandler *"; P "out" "EventRegistrationToken *"];
   M "" "HRESULT" "remove_ContainsFullScreenElementChanged" [P "in" "EventRegistrationToken"];
   M "propget" "HRESULT" "get_ContainsFullScreenElement" [P "retval,out" "BOOL *"];
   M "" "HRESULT" "add_WebResourceRequested" [P "in" "ICoreWebView2WebResourceRequestedEventHandler *"; P "out" "EventRegistrationToken *"];
   M "" "HRESULT" "remove_WebResourceRequested" [P "in" "EventRegistrationToken"];
   M "" "HRESULT" "AddWebResourceRequestedFilter" [P "in" "const LPCWSTR"; P "in" "const COREWEBVIEW2_WEB_RESOURCE_CONTEXT"];
   M "" "HRESULT" "RemoveWebResourceRequestedFilter" [P "in" "const LPCWSTR"; P "in" "const COREWEBVIEW2_WEB_RESOURCE_CONTEXT"];
   M "" "HRESULT" "add_WindowCloseRequested" [P "in" "ICoreWebView2WindowCloseRequestedEventHandler *"; P "out" "EventRegistrationToken *"];
   M "" "HRESULT" "remove_WindowCloseRequested" [P "in" "EventRegistrationToken"]].

Definition ICoreWebView2 : interface := Interface "ICoreWebView2" "76eceacb-0462-4d94-ac83-423a6793775e"
  (GUID 0x76eceacb 0x462 0x4d94 [0xac; 0x83; 0x42; 0x3a; 0x67; 0x93; 0x77; 0x5e]%Z)
  "IUnknown" (ICoreWebView2_own1 ++ ICoreWebView2_own2).

Definition ICoreWebView2_2 : interface := Interface "ICoreWebView2_2" "9E8F0CF8-E670-4B5E-B2BC-73E061E3184C"
  (GUID 0x9e8f0cf8 0xe670 0x4b5e [0xb2; 0xbc; 0x73; 0xe0; 0x61; 0xe3; 0x18; 0x4c]%Z)
  "ICoreWebView2" [
   M "" "HRESULT" "add_WebResourceResponseReceived" [P "in" "ICoreWebView2WebResourceResponseReceivedEventHandler *"; P "out" "EventRegistrationToken *"];
   M "" "HRESULT" "remove_WebResourceResponseReceived" [P "in" "EventRegistrationToken"];
   M "" "HRESULT" "NavigateWithWebResourceRequest" [P "in" "ICoreWebView2WebResourceRequest *"];
   M "" "HRESULT" "add_DOMContentLoaded" [P "in" "ICoreWebView2DOMContentLoadedEventHandler *"; P "out" "EventRegistrationToken *"];
   M "" "HRESULT" "remove_DOMContentLoaded" [P "in" "EventRegistrationToken"];
   M "propget" "HRESULT" "get_CookieManager" [P "retval,out" "ICoreWebView2CookieManager **"];
   M "propget" "HRESULT" "get_Environment" [P "retval,out" "ICoreWebView2Environment **"]].

Definition ICoreWebView2_3 : interface := Interface "ICoreWebView2_3" "A0D6DF20-3B92-416D-AA0C-437A9C727857"
  (GUID 0xa0d6df20 0x3b92 0x416d [0xaa; 0x0c; 0x43; 0x7a; 0x9c; 0x72; 0x78; 0x57]%Z)
  "ICoreWebView2_2" [
   M "" "HRESULT" "TrySuspend" [P "in" "ICoreWebView2TrySuspendCompletedHandler *"];
   M "" "HRESULT" "Resume" [];
   M "propget" "HRESULT" "get_IsSuspended" [P "retval,out" "BOOL *"];
   M "" "HRESULT" "SetVirtualHostNameToFolderMapping" [P "in" "LPCWSTR"; P "in" "LPCWSTR"; P "in" "COREWEBVIEW2_HOST_RESOURCE_ACCESS_KIND"];
   M "" "HRESULT" "ClearVirtualHostNameToFolderMapping" [P "in" "LPCWSTR"]].

Definition ICoreWebView2_4 : interface := Interface "ICoreWebView2_4" "20d02d59-6df2-42dc-bd06-f98a694b1302"
  (GUID 0x20d02d59 0x6df2 0x42dc [0xbd; 0x06; 0xf9; 0x8a; 0x69; 0x4b; 0x13; 0x02]%Z)
  "ICoreWebView2_3" [
   M "" "HRESULT" "add_FrameCreated" [P "in" "ICoreWebView2FrameCreatedEventHandler *"; P "out" "EventRegistrationToken *"];
   M "" "HRESULT" "remove_FrameCreated" [P "in" "EventRegistrationToken"];
   M "" "HRESULT" "add_DownloadStarting" [P "in" "ICoreWebView2DownloadStartingEventHandler *"; P "out" "EventRegistrationToken *"];
   M "" "HRESULT" "remove_DownloadStarting" [P "in" "EventRegistrationToken"]].

Definition ICoreWebView2_5 : interface := Interface "ICoreWebView2_5" "bedb11b8-d63c-11eb-b8bc-0242ac130003"
  (GUID 0xbedb11b8 0xd63c 0x11eb [0xb8; 0xbc; 0x02; 0x42; 0xac; 0x13; 0x00; 0x03]%Z)
  "ICoreWebView2_4" [
   M "" "HRESULT" "add_ClientCertificateRequested" [P "in" "ICoreWebView2ClientCertificateRequestedEventHandler *"; P "out" "EventRegistrationToken *"];
   M "" "HRESULT" "remove_ClientCertificateRequested" [P "in" "EventRegistrationToken"]].

Definition ICoreWebView2_6 : interface := Interface "ICoreWebView2_6" "499aadac-d92c-4589-8a75-111bfc167795"
  (GUID 0x499aadac 0xd92c 0x4589 [0x8a; 0x75; 0x11; 0x1b; 0xfc; 0x16; 0x77; 0x95]%Z)
  "ICoreWebView2_5" [
   M "" "HRESULT" "OpenTaskManagerWindow" []].

Definition ICoreWebView2_7 : interface := Interface "ICoreWebView2_7" "79c24d83-09a3-45ae-9418-487f32a58740"
  (GUID 0x79c24d83 0x9a3 0x45ae [0x94; 0x18; 0x48; 0x7f; 0x32; 0xa5; 0x87; 0x40]%Z)
  "ICoreWebView2_6" [
   M "" "HRESULT" "PrintToPdf" [P "in" "LPCWSTR"; P "in" "ICoreWebView2PrintSettings *"; P "in" "ICoreWebView2PrintToPdfCompletedHandler *"]].

Definition ICoreWebView2_8 : interface := Interface "ICoreWebView2_8" "E9632730-6E1E-43AB-B7B8-7B2C9E62E094"
  (GUID 0xe9632730 0x6e1e 0x43ab [0xb7; 0xb8; 0x7b; 0x2c; 0x9e; 0x62; 0xe0; 0x94]%Z)
  "ICoreWebView2_7" [
   M "" "HRESULT" "add_IsMutedChanged" [P "in" "ICoreWebView2IsMutedChangedEventHandler *"; P "out" "EventRegistrationToken *"];
   M "" "HRESULT" "remove_IsMutedChanged" [P "in" "EventRegistrationToken"];
   M "propget" "HRESULT" "get_IsMuted" [P "retval,out" "BOOL *"];
   M "propput" "HRESULT" "put_IsMuted" [P "in" "BOOL"];
   M "" "HRESULT" "add_IsDocumentPlayingAudioChanged" [P "in" "ICoreWebView2IsDocumentPlayingAudioChangedEventHandler *"; P "out" "EventRegistrationToken *"];
   M "" "HRESULT" "remove_IsDocumentPlayingAudioChanged" [P "in" "EventRegistrationToken"];
   M "propget" "HRESULT" "get_IsDocumentPlayingAudio" [P "retval,out" "BOOL *"]].

Definition ICoreWebView2_9 : interface := Interface "ICoreWebView2_9" "4d7b2eab-9fdc-468d-b998-a9260b5ed651"
  (GUID 0x4d7b2eab 0x9fdc 0x468d [0xb9; 0x98; 0xa9; 0x26; 0x0b; 0x5e; 0xd6; 0x51]%Z)
  "ICoreWebView2_8" [
   M "" "HRESULT" "add_IsDefaultDownloadDialogOpenChanged" [P "in" "ICoreWebView2IsDefaultDownloadDialogOpenChangedEventHandler *"; P "out" "EventRegistrationToken *"];
   M "" "HRESULT" "remove_IsDefaultDownloadDialogOpenChanged" [P "in" "EventRegistrationToken"];
   M "propget" "HRESULT" "get_IsDefaultDownloadDialogOpen" [P "retval,out" "BOOL *"];
   M "" "HRESULT" "OpenDefaultDownloadDialog" [];
   M "" "HRESULT" "CloseDefaultDownloadDialog" [];
   M "propget" "HRESULT" "get_DefaultDownloadDialogCornerAlignment" [P "retval,out" "COREWEBVIEW2_DEFAULT_DOWNLOAD_DIALOG_CORNER_ALIGNMENT *"];
   M "propput" "HRESULT" "put_DefaultDownloadDialogCornerAlignment" [P "in" "COREWEBVIEW2_DEFAULT_DOWNLOAD_DIALOG_CORNER_ALIGNMENT"];
   M "propget" "HRESULT" "get_DefaultDownloadDialogMargin" [P "retval,out" "POINT *"];
   M "propput" "HRESULT" "put_DefaultDownloadDialogMargin" [P "in" "POINT"]].

Definition ICoreWebView2_10 : interface := Interface "ICoreWebView2_10" "b1690564-6f5a-4983-8e48-31d1143fecdb"
  (GUID 0xb1690564 0x6f5a 0x4983 [0x8e; 0x48; 0x31; 0xd1; 0x14; 0x3f; 0xec; 0xdb]%Z)
  "ICoreWebView2_9" [
   M "" "HRESULT" "add_BasicAuthenticationRequested" [P "in" "ICoreWebView2BasicAuthenticationRequestedEventHandler *"; P "out" "EventRegistrationToken *"];
   M "" "HRESULT" "remove_BasicAuthenticationRequested" [P "in" "EventRegistrationToken"]].

Definition ICoreWebView2_11 : interface := Interface "ICoreWebView2_11" "0be78e56-c193-4051-b943-23b460c08bdb"
  (GUID 0xbe78e56 0xc193 0x4051 [0xb9; 0x43; 0x23; 0xb4; 0x60; 0xc0; 0x8b; 0xdb]%Z)
  "ICoreWebView2_10" [
   M "" "HRESULT" "CallDevToolsProtocolMethodForSession" [P "in" "LPCWSTR"; P "in" "LPCWSTR"; P "in" "LPCWSTR"; P "in" "ICoreWebView2CallDevToolsProtocolMethodCompletedHandler *"];
   M "" "HRESULT" "add_ContextMenuRequested" [P "in" "ICoreWebView2ContextMenuRequestedEventHandler *"; P "out" "EventRegistrationToken *"];
   M "" "HRESULT" "remove_ContextMenuRequested" [P "in" "EventRegistrationToken"]].

Definition ICoreWebView2_12 : interface := Interface "ICoreWebView2_12" "35D69927-BCFA-4566-9349-6B3E0D154CAC"
  (GUID 0x35d69927 0xbcfa 0x4566 [0x93; 0x49; 0x6b; 0x3e; 0x0d; 0x15; 0x4c; 0xac]%Z)
  "ICoreWebView2_11" [
   M "" "HRESULT" "add_StatusBarTextChanged" [P "in" "ICoreWebView2StatusBarTextChangedEventHandler *"; P "out" "EventRegistrationToken *"];
   M "" "HRESULT" "remove_StatusBarTextChanged" [P "in" "EventRegistrationToken"];
   M "propget" "HRESULT" "get_StatusBarText" [P "retval,out" "LPWSTR *"]].

Definition ICoreWebView2_13 : interface := Interface "ICoreWebView2_13" "F75F09A8-667E-4983-88D6-C8773F315E84"
  (GUID 0xf75f09a8 0x667e 0x4983 [0x88; 0xd6; 0xc8; 0x77; 0x3f; 0x31; 0x5e; 0x84]%Z)
  "ICoreWebView2_12" [
   M "propget" "HRESULT" "get_Profile" [P "retval,out" "ICoreWebView2Profile **"]].

Definition ICoreWebView2_14 : interface := Interface "ICoreWebView2_14" "6DAA4F10-4A90-4753-8898-77C5DF534165"
  (GUID 0x6daa4f10 0x4a90 0x4753 [0x88; 0x98; 0x77; 0xc5; 0xdf; 0x53; 0x41; 0x65]%Z)
  "ICoreWebView2_13" [
   M "" "HRESULT" "add_ServerCertificateErrorDetected" [P "in" "ICoreWebView2ServerCertificateErrorDetectedEventHandler *"; P "out" "EventRegistrationToken *"];
   M "" "HRESULT" "remove_ServerCertificateErrorDetected" [P "in" "EventRegistrationToken"];
   M "" "HRESULT" "ClearServerCertificateErrorActions" [P "in" "ICoreWebView2ClearServerCertificateErrorActionsCompletedHandler *"]].

Definition ICoreWebView2_15 : interface := Interface "ICoreWebView2_15" "517B2D1D-7DAE-4A66-A4F4-10352FFB9518"
  (GUID 0x517b2d1d 0x7dae 0x4a66 [0xa4; 0xf4; 0x10; 0x35; 0x2f; 0xfb; 0x95; 0x18]%Z)
  "ICoreWebView2_14" [
   M "" "HRESULT" "add_FaviconChanged" [P "in" "ICoreWebView2FaviconChangedEventHandler *"; P "out" "EventRegistrationToken *"];
   M "" "HRESULT" "remove_FaviconChanged" [P "in" "EventRegistrationToken"];
   M "propget" "HRESULT" "get_FaviconUri" [P "retval,out" "LPWSTR *"];
   M "" "HRESULT" "GetFavicon" [P "in" "COREWEBVIEW2_FAVICON_IMAGE_FORMAT"; P "in" "ICoreWebView2GetFaviconCompletedHandler *"]].

Definition ICoreWebView2_16 : interface := Interface "ICoreWebView2_16" "0EB34DC9-9F91-41E1-8639-95CD5943906B"
  (GUID 0xeb34dc9 0x9f91 0x41e1 [0x86; 0x39; 0x95; 0xcd; 0x59; 0x43; 0x90; 0x6b]%Z)
  "ICoreWebView2_15" [
   M "" "HRESULT" "Print" [P "in" "ICoreWebView2PrintSettings *"; P "in" "ICoreWebView2PrintCompletedHandler *"];
   M "" "HRESULT" "ShowPrintUI" [P "in" "COREWEBVIEW2_PRINT_DIALOG_KIND"];
   M "" "HRESULT" "PrintToPdfStream" [P "in" "ICoreWebView2PrintSettings *"; P "in" "ICoreWebView2PrintToPdfStreamCompletedHandler *"]].

Definition ICoreWebView2_17 : interface := Interface "ICoreWebView2_17" "702E75D4-FD44-434D-9D70-1A68A6B1192A"
  (GUID 0x702e75d4 0xfd44 0x434d [0x9d; 0x70; 0x1a; 0x68; 0xa6; 0xb1; 0x19; 0x2a]%Z)
  "ICoreWebView2_16" [
   M "" "HRESULT" "PostSharedBufferToScript" [P "in" "ICoreWebView2SharedBuffer *"; P "in" "COREWEBVIEW2_SHARED_BUFFER_ACCESS"; P "in" "LPCWSTR"]].

Definition ICoreWebView2_18 : interface := Interface "ICoreWebView2_18" "7A626017-28BE-49B2-B865-3BA2B3522D90"
  (GUID 0x7a626017 0x28be 0x49b2 [0xb8; 0x65; 0x3b; 0xa2; 0xb3; 0x52; 0x2d; 0x90]%Z)
  "ICoreWebView2_17" [
   M "" "HRESULT" "add_LaunchingExternalUriScheme" [P "in" "ICoreWebView2LaunchingExternalUriSchemeEventHandler *"; P "out" "EventRegistrationToken *"];
   M "" "HRESULT" "remove_LaunchingExternalUriScheme" [P "in" "EventRegistrationToken"]].

Definition ICoreWebView2_19 : interface := Interface "ICoreWebView2_19" "6921F954-79B0-437F-A997-C85811897C68"
  (GUID 0x6921f954 0x79b0 0x437f [0xa9; 0x97; 0xc8; 0x58; 0x11; 0x89; 0x7c; 0x68]%Z)
  "ICoreWebView2_18" [
   M "propget" "HRESULT" "get_MemoryUsageTargetLevel" [P "retval,out" "COREWEBVIEW2_MEMORY_USAGE_TARGET_LEVEL *"];
   M "propput" "HRESULT" "put_MemoryUsageTargetLevel" [P "in" "COREWEBVIEW2_MEMORY_USAGE_TARGET_LEVEL"]].

Definition ICoreWebView2_20 : interface := Interface "ICoreWebView2_20" "b4bc1926-7305-11ee-b962-0242ac120002"
  (GUID 0xb4bc1926 0x7305 0x11ee [0xb9; 0x62; 0x02; 0x42; 0xac; 0x12; 0x00; 0x02]%Z)
  "ICoreWebView2_19" [
   M "propget" "HRESULT" "get_FrameId" [P "retval,out" "UINT32 *"]].

Definition ICoreWebView2_21 : interface := Interface "ICoreWebView2_21" "c4980dea-587b-43b9-8143-3ef3bf552d95"
  (GUID 0xc4980dea 0x587b 0x43b9 [0x81; 0x43; 0x3e; 0xf3; 0xbf; 0x55; 0x2d; 0x95]%Z)
  "ICoreWebView2_20" [
   M "" "HRESULT" "ExecuteScriptWithResult" [P "in" "LPCWSTR"; P "in" "ICoreWebView2ExecuteScriptWithResultCompletedHandler *"]].

Definition ICoreWebView2_22 : interface := Interface "ICoreWebView2_22" "DB75DFC7-A857-4632-A398-6969DDE26C0A"
  (GUID 0xdb75dfc7 0xa857 0x4632 [0xa3; 0x98; 0x69; 0x69; 0xdd; 0xe2; 0x6c; 0x0a]%Z)
  "ICoreWebView2_21" [
   M "" "HRESULT" "AddWebResourceRequestedFilterWithRequestSourceKinds" [P "in" "const LPCWSTR"; P "in" "const COREWEBVIEW2_WEB_RESOURCE_CONTEXT"; P "in" "const COREWEBVIEW2_WEB_RESOURCE_REQUEST_SOURCE_KINDS"];
   M "" "HRESULT" "RemoveWebResourceRequestedFilterWithRequestSourceKinds" [P "in" "const LPCWSTR"; P "in" "const COREWEBVIEW2_WEB_RESOURCE_CONTEXT"; P "in" "const COREWEBVIEW2_WEB_RESOURCE_REQUEST_SOURCE_KINDS"]].

Definition ICoreWebView2BasicAuthenticationResponse : interface := Interface "ICoreWebView2BasicAuthenticationResponse" "07023f7d-2d77-4d67-9040-6e7d428c6a40"
  (GUID 0x7023f7d 0x2d77 0x4d67 [0x90; 0x40; 0x6e; 0x7d; 0x42; 0x8c; 0x6a; 0x40]%Z)
  "IUnknown" [
   M "propget" "HRESULT" "get_UserName" [P "retval,out" "LPWSTR *"];
   M "propput" "HRESULT" "put_UserName" [P "in" "LPCWSTR"];
   M "propget" "HRESULT" "get_Password" [P "retval,out" "LPWSTR *"];
   M "propput" "HRESULT" "put_Password" [P "in" "LPCWSTR"]].

Definition ICoreWebView2CompositionController : interface := Interface "ICoreWebView2CompositionController" "3df9b733-b9ae-4a15-86b4-eb9ee9826469"
  (GUID 0x3df9b733 0xb9ae 0x4a15 [0x86; 0xb4; 0xeb; 0x9e; 0xe9; 0x82; 0x64; 0x69]%Z)
  "IUnknown" [
   M "propget" "HRESULT" "get_RootVisualTarget" [P "retval,out" "IUnknown **"];
   M "propput" "HRESULT" "put_RootVisualTarget" [P "in" "IUnknown *"];
   M "" "HRESULT" "SendMouseInput" [P "in" "COREWEBVIEW2_MOUSE_EVENT_KIND"; P "in" "COREWEBVIEW2_MOUSE_EVENT_VIRTUAL_KEYS"; P "in" "UINT32"; P "in" "POINT"];
   M "" "HRESULT" "SendPointerInput" [P "in" "COREWEBVIEW2_POINTER_EVENT_KIND"; P "in" "ICoreWebView2PointerInfo *"];
   M "propget" "HRESULT" "get_Cursor" [P "retval,out" "HCURSOR *"];
   M "propget" "HRESULT" "get_SystemCursorId" [P "retval,out" "UINT32 *"];
   M "" "HRESULT" "add_CursorChanged" [P "in" "ICoreWebView2CursorChangedEventHandler *"; P "out" "EventRegistrationToken *"];
   M "" "HRESULT" "remove_CursorChanged" [P "in" "EventRegistrationToken"]].

Definition ICoreWebView2CompositionController2 : interface := Interface "ICoreWebView2CompositionController2" "0b6a3d24-49cb-4806-ba20-b5e0734a7b26"
  (GUID 0xb6a3d24 0x49cb 0x4806 [0xba; 0x20; 0xb5; 0xe0; 0x73; 0x4a; 0x7b; 0x26]%Z)
  "ICoreWebView2CompositionController" [
   M "propget" "HRESULT" "get_AutomationProvider" [P "retval,out" "IUnknown **"]].

Definition ICoreWebView2CompositionController3 : interface := Interface "ICoreWebView2CompositionController3" "9570570e-4d76-4361-9ee1-f04d0dbdfb1e"
  (GUID 0x9570570e 0x4d76 0x4361 [0x9e; 0xe1; 0xf0; 0x4d; 0x0d; 0xbd; 0xfb; 0x1e]%Z)
  "ICoreWebView2CompositionController2" [
   M "" "HRESULT" "DragEnter" [P "in" "IDataObject *"; P "in" "DWORD"; P "in" "POINT"; P "retval,out" "DWORD *"];
   M "" "HRESULT" "DragLeave" [];
   M "" "HRESULT" "DragOver" [P "in" "DWORD"; P "in" "POINT"; P "retval,out" "DWORD *"];
   M "" "HRESULT" "Drop" [P "in" "IDataObject *"; P "in" "DWORD"; P "in" "POINT"; P "retval,out" "DWORD *"]].

Definition ICoreWebView2Controller : interface := Interface "ICoreWebView2Controller" "4d00c0d1-9434-4eb6-8078-8697a560334f"
  (GUID 0x4d00c0d1 0x9434 0x4eb6 [0x80; 0x78; 0x86; 0x97; 0xa5; 0x60; 0x33; 0x4f]%Z)
  "IUnknown" [
   M "propget" "HRESULT" "get_IsVisible" [P "retval,out" "BOOL *"];
   M "propput" "HRESULT" "put_IsVisible" [P "in" "BOOL"];
   M "propget" "HRESULT" "get_Bounds" [P "retval,out" "RECT *"];
   M "propput" "HRESULT" "put_Bounds" [P "in" "RECT"];
   M "propget" "HRESULT" "get_ZoomFactor" [P "retval,out" "double *"];
   M "propput" "HRESULT" "put_ZoomFactor" [P "in" "double"];
   M "" "HRESULT" "add_ZoomFactorChanged" [P "in" "ICoreWebView2ZoomFactorChangedEventHandler *"; P "out" "EventRegistrationToken *"];
   M "" "HRESULT" "remove_ZoomFactorChanged" [P "in" "EventRegistrationToken"];
   M "" "HRESULT" "SetBoundsAndZoomFactor" [P "in" "RECT"; P "in" "double"];
   M "" "HRESULT" "MoveFocus" [P "in" "COREWEBVIEW2_MOVE_FOCUS_REASON"];
   M "" "HRESULT" "add_MoveFocusRequested" [P "in" "ICoreWebView2MoveFocusRequestedEventHandler *"; P "out" "EventRegistrationToken *"];
   M "" "HRESULT" "remove_MoveFocusRequested" [P "in" "EventRegistrationToken"];
   M "" "HRESULT" "add_GotFocus" [P "in" "ICoreWebView2FocusChangedEventHandler *"; P "out" "EventRegistrationToken *"];
   M "" "HRESULT" "remove_GotFocus" [P "in" "EventRegistrationToken"];
   M "" "HRESULT" "add_LostFocus" [P "in" "ICoreWebView2FocusChangedEventHandler *"; P "out" "EventRegistrationToken *"];
   M "" "HRESULT" "remove_LostFocus" [P "in" "EventRegistrationToken"];
   M "" "HRESULT" "add_AcceleratorKeyPressed" [P "in" "ICoreWebView2AcceleratorKeyPressedEventHandler *"; P "out" "EventRegistrationToken *"];
   M "" "HRESULT" "remove_AcceleratorKeyPressed" [P "in" "EventRegistrationToken"];
   M "propget" "HRESULT" "get_ParentWindow" [P "retval,out" "HWND *"];
   M "propput" "HRESULT" "put_ParentWindow" [P "in" "HWND"];
   M "" "HRESULT" "NotifyParentWindowPositionChanged" [];
   M "" "HRESULT" "Close" [];
   M "propget" "HRESULT" "get_CoreWebView2" [P "retval,out" "ICoreWebView2 **"]].

Definition ICoreWebView2Controller2 : interface := Interface "ICoreWebView2Controller2" "c979903e-d4ca-4228-92eb-47ee3fa96eab"
  (GUID 0xc979903e 0xd4ca 0x4228 [0x92; 0xeb; 0x47; 0xee; 0x3f; 0xa9; 0x6e; 0xab]%Z)
  "ICoreWebView2Controller" [
   M "propget" "HRESULT" "get_DefaultBackgroundColor" [P "retval,out" "COREWEBVIEW2_COLOR *"];
   M "propput" "HRESULT" "put_DefaultBackgroundColor" [P "in" "COREWEBVIEW2_COLOR"]].

Definition ICoreWebView2Controller3 : interface := Interface "ICoreWebView2Controller3" "f9614724-5d2b-41dc-aef7-73d62b51543b"
  (GUID 0xf9614724 0x5d2b 0x41dc [0xae; 0xf7; 0x73; 0xd6; 0x2b; 0x51; 0x54; 0x3b]%Z)
  "ICoreWebView2Controller2" [
   M "propget" "HRESULT" "get_RasterizationScale" [P "retval,out" "double *"];
   M "propput" "HRESULT" "put_RasterizationScale" [P "in" "double"];
   M "propget" "HRESULT" "get_ShouldDetectMonitorScaleChanges" [P "retval,out" "BOOL *"];
   M "propput" "HRESULT" "put_ShouldDetectMonitorScaleChanges" [P "in" "BOOL"];
   M "" "HRESULT" "add_RasterizationScaleChanged" [P "in" "ICoreWebView2RasterizationScaleChangedEventHandler *"; P "out" "EventRegistrationToken *"];
   M "" "HRESULT" "remove_RasterizationScaleChanged" [P "in" "EventRegistrationToken"];
   M "propget" "HRESULT" "get_BoundsMode" [P "retval,out" "COREWEBVIEW2_BOUNDS_MODE *"];
   M "propput" "HRESULT" "put_BoundsMode" [P "in" "COREWEBVIEW2_BOUNDS_MODE"]].

Definition ICoreWebView2Controller4 : interface := Interface "ICoreWebView2Controller4" "97d418d5-a426-4e49-a151-e1a10f327d9e"
  (GUID 0x97d418d5 0xa426 0x4e49 [0xa1; 0x51; 0xe1; 0xa1; 0x0f; 0x32; 0x7d; 0x9e]%Z)
  "ICoreWebView2Controller3" [
   M "propget" "HRESULT" "get_AllowExternalDrop" [P "retval,out" "BOOL *"];
   M "propput" "HRESULT" "put_AllowExternalDrop" [P "in" "BOOL"]].

Definition ICoreWebView2ControllerOptions : interface := Interface "ICoreWebView2ControllerOptions" "12aae616-8ccb-44ec-bcb3-eb1831881635"
  (GUID 0x12aae616 0x8ccb 0x44ec [0xbc; 0xb3; 0xeb; 0x18; 0x31; 0x88; 0x16; 0x35]%Z)
  "IUnknown" [
   M "propget" "HRESULT" "get_ProfileName" [P "retval,out" "LPWSTR *"];
   M "propput" "HRESULT" "put_ProfileName" [P "in" "LPCWSTR"];
   M "propget" "HRESULT" "get_IsInPrivateModeEnabled" [P "retval,out" "BOOL *"];
   M "propput" "HRESULT" "put_IsInPrivateModeEnabled" [P "in" "BOOL"]].

Definition ICoreWebView2ControllerOptions2 : interface := Interface "ICoreWebView2ControllerOptions2" "06c991d8-9e7e-11ed-a8fc-0242ac120002"
  (GUID 0x6c991d8 0x9e7e 0x11ed [0xa8; 0xfc; 0x02; 0x42; 0xac; 0x12; 0x00; 0x02]%Z)
  "ICoreWebView2ControllerOptions" [
   M "propget" "HRESULT" "get_ScriptLocale" [P "retval,out" "LPWSTR *"];
   M "propput" "HRESULT" "put_ScriptLocale" [P "in" "LPCWSTR"]].

Definition ICoreWebView2Cookie : interface := Interface "ICoreWebView2Cookie" "AD26D6BE-1486-43E6-BF87-A2034006CA21"
  (GUID 0xad26d6be 0x1486 0x43e6 [0xbf; 0x87; 0xa2; 0x03; 0x40; 0x06; 0xca; 0x21]%Z)
  "IUnknown" [
   M "propget" "HRESULT" "get_Name" [P "retval,out" "LPWSTR *"];
   M "propget" "HRESULT" "get_Value" [P "retval,out" "LPWSTR *"];
   M "propput" "HRESULT" "put_Value" [P "in" "LPCWSTR"];
   M "propget" "HRESULT" "get_Domain" [P "retval,out" "LPWSTR *"];
   M "propget" "HRESULT" "get_Path" [P "retval,out" "LPWSTR *"];
   M "propget" "HRESULT" "get_Expires" [P "retval,out" "double *"];
   M "propput" "HRESULT" "put_Expires" [P "in" "double"];
   M "propget" "HRESULT" "get_IsHttpOnly" [P "retval,out" "BOOL *"];
   M "propput" "HRESULT" "put_IsHttpOnly" [P "in" "BOOL"];
   M "propget" "HRESULT" "get_SameSite" [P "retval,out" "COREWEBVIEW2_COOKIE_SAME_SITE_KIND *"];
   M "propput" "HRESULT" "put_SameSite" [P "in" "COREWEBVIEW2_COOKIE_SAME_SITE_KIND"];
   M "propget" "HRESULT" "get_IsSecure" [P "retval,out" "BOOL *"];
   M "propput" "HRESULT" "put_IsSecure" [P "in" "BOOL"];
   M "propget" "HRESULT" "get_IsSession" [P "retval,out" "BOOL *"]].

Definition ICoreWebView2CookieList : interface := Interface "ICoreWebView2CookieList" "F7F6F714-5D2A-43C6-9503-346ECE02D186"
  (GUID 0xf7f6f714 0x5d2a 0x43c6 [0x95; 0x03; 0x34; 0x6e; 0xce; 0x02; 0xd1; 0x86]%Z)
  "IUnknown" [
   M "propget" "HRESULT" "get_Count" [P "retval,out" "UINT *"];
   M "" "HRESULT" "GetValueAtIndex" [P "in" "UINT"; P "retval,out" "ICoreWebView2Cookie **"]].

Definition ICoreWebView2CookieManager : interface := Interface "ICoreWebView2CookieManager" "177CD9E7-B6F5-451A-94A0-5D7A3A4C4141"
  (GUID 0x177cd9e7 0xb6f5 0x451a [0x94; 0xa0; 0x5d; 0x7a; 0x3a; 0x4c; 0x41; 0x41]%Z)
  "IUnknown" [
   M "" "HRESULT" "CreateCookie" [P "in" "LPCWSTR"; P "in" "LPCWSTR"; P "in" "LPCWSTR"; P "in" "LPCWSTR"; P "retval,out" "ICoreWebView2Cookie **"];
   M "" "HRESULT" "CopyCookie" [P "in" "ICoreWebView2Cookie *"; P "retval,out" "ICoreWebView2Cookie **"];
   M "" "HRESULT" "GetCookies" [P "in" "LPCWSTR"; P "in" "ICoreWebView2GetCookiesCompletedHandler *"];
   M "" "HRESULT" "AddOrUpdateCookie" [P "in" "ICoreWebView2Cookie *"];
   M "" "HRESULT" "DeleteCookie" [P "in" "ICoreWebView2Cookie *"];
   M "" "HRESULT" "DeleteCookies" [P "in" "LPCWSTR"; P "in" "LPCWSTR"];
   M "" "HRESULT" "DeleteCookiesWithDomainAndPath" [P "in" "LPCWSTR"; P "in" "LPCWSTR"; P "in" "LPCWSTR"];
   M "" "HRESULT" "DeleteAllCookies" []].

Definition ICoreWebView2Certificate : interface := Interface "ICoreWebView2Certificate" "C5FB2FCE-1CAC-4AEE-9C79-5ED0362EAAE0"
  (GUID 0xc5fb2fce 0x1cac 0x4aee [0x9c; 0x79; 0x5e; 0xd0; 0x36; 0x2e; 0xaa; 0xe0]%Z)
  "IUnknown" [
   M "propget" "HRESULT" "get_Subject" [P "retval,out" "LPWSTR *"];
   M "propget" "HRESULT" "get_Issuer" [P "retval,out" "LPWSTR *"];
   M "propget" "HRESULT" "get_ValidFrom" [P "retval,out" "double *"];
   M "propget" "HRESULT" "get_ValidTo" [P "retval,out" "double *"];
   M "propget" "HRESULT" "get_DerEncodedSerialNumber" [P "retval,out" "LPWSTR *"];
   M "propget" "HRESULT" "get_DisplayName" [P "retval,out" "LPWSTR *"];
   M "" "HRESULT" "ToPemEncoding" [P "retval,out" "LPWSTR *"];
   M "propget" "HRESULT" "get_PemEncodedIssuerCertificateChain" [P "retval,out" "ICoreWebView2StringCollection **"]].

Definition ICoreWebView2ClientCertificate : interface := Interface "ICoreWebView2ClientCertificate" "e7188076-bcc3-11eb-8529-0242ac130003"
  (GUID 0xe7188076 0xbcc3 0x11eb [0x85; 0x29; 0x02; 0x42; 0xac; 0x13; 0x00; 0x03]%Z)
  "IUnknown" [
   M "propget" "HRESULT" "get_Subject" [P "retval,out" "LPWSTR *"];
   M "propget" "HRESULT" "get_Issuer" [P "retval,out" "LPWSTR *"];
   M "propget" "HRESULT" "get_ValidFrom" [P "retval,out" "double *"];
   M "propget" "HRESULT" "get_ValidTo" [P "retval,out" "double *"];
   M "propget" "HRESULT" "get_DerEncodedSerialNumber" [P "retval,out" "LPWSTR *"];
   M "propget" "HRESULT" "get_DisplayName" [P "retval,out" "LPWSTR *"];
   M "" "HRESULT" "ToPemEncoding" [P "retval,out" "LPWSTR *"];
   M "propget" "HRESULT" "get_PemEncodedIssuerCertificateChain" [P "retval,out" "ICoreWebView2StringCollection **"];
   M "propget" "HRESULT" "get_Kind" [P "retval,out" "COREWEBVIEW2_CLIENT_CERTIFICATE_KIND *"]].

Definition ICoreWebView2StringCollection : interface := Interface "ICoreWebView2StringCollection" "f41f3f8a-bcc3-11eb-8529-0242ac130003"
  (GUID 0xf41f3f8a 0xbcc3 0x11eb [0x85; 0x29; 0x02; 0x42; 0xac; 0x13; 0x00; 0x03]%Z)
  "IUnknown" [
   M "propget" "HRESULT" "get_Count" [P "retval,out" "UINT *"];
   M "" "HRESULT" "GetValueAtIndex" [P "in" "UINT"; P "retval,out" "LPWSTR *"]].

Definition ICoreWebView2ClientCertificateCollection : interface := Interface "ICoreWebView2ClientCertificateCollection" "ef5674d2-bcc3-11eb-8529-0242ac130003"
  (GUID 0xef5674d2 0xbcc3 0x11eb [0x85; 0x29; 0x02; 0x42; 0xac; 0x13; 0x00; 0x03]%Z)
  "IUnknown" [
   M "propget" "HRESULT" "get_Count" [P "retval,out" "UINT *"];
   M "" "HRESULT" "GetValueAtIndex" [P "in" "UINT"; P "retval,out" "ICoreWebView2ClientCertificate **"]].

Definition ICoreWebView2ContextMenuItem : interface := Interface "ICoreWebView2ContextMenuItem" "7aed49e3-a93f-497a-811c-749c6b6b6c65"
  (GUID 0x7aed49e3 0xa93f 0x497a [0x81; 0x1c; 0x74; 0x9c; 0x6b; 0x6b; 0x6c; 0x65]%Z)
  "IUnknown" [
   M "propget" "HRESULT" "get_Name" [P "retval,out" "LPWSTR *"];
   M "propget" "HRESULT" "get_Label" [P "retval,out" "LPWSTR *"];
   M "propget" "HRESULT" "get_CommandId" [P "retval,out" "INT32 *"];
   M "propget" "HRESULT" "get_ShortcutKeyDescription" [P "retval,out" "LPWSTR *"];
   M "propget" "HRESULT" "get_Icon" [P "retval,out" "IStream **"];
   M "propget" "HRESULT" "get_Kind" [P "retval,out" "COREWEBVIEW2_CONTEXT_MENU_ITEM_KIND *"];
   M "propput" "HRESULT" "put_IsEnabled" [P "in" "BOOL"];
   M "propget" "HRESULT" "get_IsEnabled" [P "retval,out" "BOOL *"];
   M "propput" "HRESULT" "put_IsChecked" [P "in" "BOOL"];
   M "propget" "HRESULT" "get_IsChecked" [P "retval,out" "BOOL *"];
   M "propget" "HRESULT" "get_Children" [P "retval,out" "ICoreWebView2ContextMenuItemCollection **"];
   M "" "HRESULT" "add_CustomItemSelected" [P "in" "ICoreWebView2CustomItemSelectedEventHandler *"; P "out" "EventRegistrationToken *"];
   M "" "HRESULT" "remove_CustomItemSelected" [P "in" "EventRegistrationToken"]].

Definition ICoreWebView2ContextMenuItemCollection : interface := Interface "ICoreWebView2ContextMenuItemCollection" "f562a2f5-c415-45cf-b909-d4b7c1e276d3"
  (GUID 0xf562a2f5 0xc415 0x45cf [0xb9; 0x09; 0xd4; 0xb7; 0xc1; 0xe2; 0x76; 0xd3]%Z)
  "IUnknown" [
   M "propget" "HRESULT" "get_Count" [P "retval,out" "UINT32 *"];
   M "" "HRESULT" "GetValueAtIndex" [P "in" "UINT32"; P "retval,out" "ICoreWebView2ContextMenuItem **"];
   M "" "HRESULT" "RemoveValueAtIndex" [P "in" "UINT32"];
   M "" "HRESULT" "InsertValueAtIndex" [P "in" "UINT32"; P "in" "ICoreWebView2ContextMenuItem *"]].

Definition ICoreWebView2ContextMenuTarget : interface := Interface "ICoreWebView2ContextMenuTarget" "b8611d99-eed6-4f3f-902c-a198502ad472"
  (GUID 0xb8611d99 0xeed6 0x4f3f [0x90; 0x2c; 0xa1; 0x98; 0x50; 0x2a; 0xd4; 0x72]%Z)
  "IUnknown" [
   M "propget" "HRESULT" "get_Kind" [P "retval,out" "COREWEBVIEW2_CONTEXT_MENU_TARGET_KIND *"];
   M "propget" "HRESULT" "get_IsEditable" [P "retval,out" "BOOL *"];
   M "propget" "HRESULT" "get_IsRequestedForMainFrame" [P "retval,out" "BOOL *"];
   M "propget" "HRESULT" "get_PageUri" [P "retval,out" "LPWSTR *"];
   M "propget" "HRESULT" "get_FrameUri" [P "retval,out" "LPWSTR *"];
   M "propget" "HRESULT" "get_HasLinkUri" [P "retval,out" "BOOL *"];
   M "propget" "HRESULT" "get_LinkUri" [P "retval,out" "LPWSTR *"];
   M "propget" "HRESULT" "get_HasLinkText" [P "retval,out" "BOOL *"];
   M "propget" "HRESULT" "get_LinkText" [P "retval,out" "LPWSTR *"];
   M "propget" "HRESULT" "get_HasSourceUri" [P "retval,out" "BOOL *"];
   M "propget" "HRESULT" "get_SourceUri" [P "retval,out" "LPWSTR *"];
   M "propget" "HRESULT" "get_HasSelection" [P "retval,out" "BOOL *"];
   M "propget" "HRESULT" "get_SelectionText" [P "retval,out" "LPWSTR *"]].

Definition ICoreWebView2CustomSchemeRegistration : interface := Interface "ICoreWebView2CustomSchemeRegistration" "d60ac92c-37a6-4b26-a39e-95cfe59047bb"
  (GUID 0xd60ac92c 0x37a6 0x4b26 [0xa3; 0x9e; 0x95; 0xcf; 0xe5; 0x90; 0x47; 0xbb]%Z)
  "IUnknown" [
   M "propget" "HRESULT" "get_SchemeName" [P "retval,out" "LPWSTR *"];
   M "propget" "HRESULT" "get_TreatAsSecure" [P "retval,out" "BOOL *"];
   M "propput" "HRESULT" "put_TreatAsSecure" [P "in" "BOOL"];
   M "" "HRESULT" "GetAllowedOrigins" [P "out" "UINT32 *"; P "out" "LPWSTR **"];
   M "" "HRESULT" "SetAllowedOrigins" [P "in" "UINT32"; P "in" "LPCWSTR *"];
   M "propget" "HRESULT" "get_HasAuthorityComponent" [P "retval,out" "BOOL *"];
   M "propput" "HRESULT" "put_HasAuthorityComponent" [P "in" "BOOL"]].

Definition ICoreWebView2Deferral : interface := Interface "ICoreWebView2Deferral" "c10e7f7b-b585-46f0-a623-8befbf3e4ee0"
  (GUID 0xc10e7f7b 0xb585 0x46f0 [0xa6; 0x23; 0x8b; 0xef; 0xbf; 0x3e; 0x4e; 0xe0]%Z)
  "IUnknown" [
   M "" "HRESULT" "Complete" []].

Definition ICoreWebView2DevToolsProtocolEventReceiver : interface := Interface "ICoreWebView2DevToolsProtocolEventReceiver" "b32ca51a-8371-45e9-9317-af021d080367"
  (GUID 0xb32ca51a 0x8371 0x45e9 [0x93; 0x17; 0xaf; 0x02; 0x1d; 0x08; 0x03; 0x67]%Z)
  "IUnknown" [
   M "" "HRESULT" "add_DevToolsProtocolEventReceived" [P "in" "ICoreWebView2DevToolsProtocolEventReceivedEventHandler *"; P "out" "EventRegistrationToken *"];
   M "" "HRESULT" "remove_DevToolsProtocolEventReceived" [P "in" "EventRegistrationToken"]].

Definition ICoreWebView2DownloadOperation : interface := Interface "ICoreWebView2DownloadOperation" "3d6b6cf2-afe1-44c7-a995-c65117714336"
  (GUID 0x3d6b6cf2 0xafe1 0x44c7 [0xa9; 0x95; 0xc6; 0x51; 0x17; 0x71; 0x43; 0x36]%Z)
  "IUnknown" [
   M "" "HRESULT" "add_BytesReceivedChanged" [P "in" "ICoreWebView2BytesReceivedChangedEventHandler *"; P "out" "EventRegistrationToken *"];
   M "" "HRESULT" "remove_BytesReceivedChanged" [P "in" "EventRegistrationToken"];
   M "" "HRESULT" "add_EstimatedEndTimeChanged" [P "in" "ICoreWebView2EstimatedEndTimeChangedEventHandler *"; P "out" "EventRegistrationToken *"];
   M "" "HRESULT" "remove_EstimatedEndTimeChanged" [P "in" "EventRegistrationToken"];
   M "" "HRESULT" "add_StateChanged" [P "in" "ICoreWebView2StateChangedEventHandler *"; P "out" "EventRegistrationToken *"];
   M "" "HRESULT" "remove_StateChanged" [P "in" "EventRegistrationToken"];
   M "propget" "HRESULT" "get_Uri" [P "retval,out" "LPWSTR *"];
   M "propget" "HRESULT" "get_ContentDisposition" [P "retval,out" "LPWSTR *"];
   M "propget" "HRESULT" "get_MimeType" [P "retval,out" "LPWSTR *"];
   M "propget" "HRESULT" "get_TotalBytesToReceive" [P "retval,out" "INT64 *"];
   M "propget" "HRESULT" "get_BytesReceived" [P "retval,out" "INT64 *"];
   M "propget" "HRESULT" "get_EstimatedEndTime" [P "retval,out" "LPWSTR *"];
   M "propget" "HRESULT" "get_ResultFilePath" [P "retval,out" "LPWSTR *"];
   M "propget" "HRESULT" "get_State" [P "retval,out" "COREWEBVIEW2_DOWNLOAD_STATE *"];
   M "propget" "HRESULT" "get_InterruptReason" [P "retval,out" "COREWEBVIEW2_DOWNLOAD_INTERRUPT_REASON *"];
   M "" "HRESULT" "Cancel" [];
   M "" "HRESULT" "Pause" [];
   M "" "HRESULT" "Resume" [];
   M "propget" "HRESULT" "get_CanResume" [P "retval,out" "BOOL *"]].

Definition ICoreWebView2Environment : interface := Interface "ICoreWebView2Environment" "b96d755e-0319-4e92-a296-23436f46a1fc"
  (GUID 0xb96d755e 0x319 0x4e92 [0xa2; 0x96; 0x23; 0x43; 0x6f; 0x46; 0xa1; 0xfc]%Z)
  "IUnknown" [
   M "" "HRESULT" "CreateCoreWebView2Controller" [P "" "HWND"; P "" "ICoreWebView2CreateCoreWebView2ControllerCompletedHandler *"];
   M "" "HRESULT" "CreateWebResourceResponse" [P "in" "IStream *"; P "in" "int"; P "in" "LPCWSTR"; P "in" "LPCWSTR"; P "retval,out" "ICoreWebView2WebResourceResponse **"];
   M "propget" "HRESULT" "get_BrowserVersionString" [P "retval,out" "LPWSTR *"];
   M "" "HRESULT" "add_NewBrowserVersionAvailable" [P "in" "ICoreWebView2NewBrowserVersionAvailableEventHandler *"; P "out" "EventRegistrationToken *"];
   M "" "HRESULT" "remove_NewBrowserVersionAvailable" [P "in" "EventRegistrationToken"]].

Definition ICoreWebView2Environment2 : interface := Interface "ICoreWebView2Environment2" "41F3632B-5EF4-404F-AD82-2D606C5A9A21"
  (GUID 0x41f3632b 0x5ef4 0x404f [0xad; 0x82; 0x2d; 0x60; 0x6c; 0x5a; 0x9a; 0x21]%Z)
  "ICoreWebView2Environment" [
   M "" "HRESULT" "CreateWebResourceRequest" [P "in" "LPCWSTR"; P "in" "LPCWSTR"; P "in" "IStream *"; P "in" "LPCWSTR"; P "retval,out" "ICoreWebView2WebResourceRequest **"]].

Definition ICoreWebView2Environment3 : interface := Interface "ICoreWebView2Environment3" "80a22ae3-be7c-4ce2-afe1-5a50056cdeeb"
  (GUID 0x80a22ae3 0xbe7c 0x4ce2 [0xaf; 0xe1; 0x5a; 0x50; 0x05; 0x6c; 0xde; 0xeb]%Z)
  "ICoreWebView2Environment2" [
   M "" "HRESULT" "CreateCoreWebView2CompositionController" [P "" "HWND"; P "" "ICoreWebView2CreateCoreWebView2CompositionControllerCompletedHandler *"];
   M "" "HRESULT" "CreateCoreWebView2PointerInfo" [P "retval,out" "ICoreWebView2PointerInfo **"]].

Definition ICoreWebView2Environment4 : interface := Interface "ICoreWebView2Environment4" "20944379-6dcf-41d6-a0a0-abc0fc50de0d"
  (GUID 0x20944379 0x6dcf 0x41d6 [0xa0; 0xa0; 0xab; 0xc0; 0xfc; 0x50; 0xde; 0x0d]%Z)
  "ICoreWebView2Environment3" [
   M "" "HRESULT" "GetAutomationProviderForWindow" [P "in" "HWND"; P "retval,out" "IUnknown **"]].

Definition ICoreWebView2Environment5 : interface := Interface "ICoreWebView2Environment5" "319e423d-e0d7-4b8d-9254-ae9475de9b17"
  (GUID 0x319e423d 0xe0d7 0x4b8d [0x92; 0x54; 0xae; 0x94; 0x75; 0xde; 0x9b; 0x17]%Z)
  "ICoreWebView2Environment4" [
   M "" "HRESULT" "add_BrowserProcessExited" [P "in" "ICoreWebView2BrowserProcessExitedEventHandler *"; P "out" "EventRegistrationToken *"];
   M "" "HRESULT" "remove_BrowserProcessExited" [P "in" "EventRegistrationToken"]].

Definition ICoreWebView2Environment6 : interface := Interface "ICoreWebView2Environment6" "e59ee362-acbd-4857-9a8e-d3644d9459a9"
  (GUID 0xe59ee362 0xacbd 0x4857 [0x9a; 0x8e; 0xd3; 0x64; 0x4d; 0x94; 0x59; 0xa9]%Z)
  "ICoreWebView2Environment5" [
   M "" "HRESULT" "CreatePrintSettings" [P "retval,out" "ICoreWebView2PrintSettings **"]].

Definition ICoreWebView2Environment7 : interface := Interface "ICoreWebView2Environment7" "43C22296-3BBD-43A4-9C00-5C0DF6DD29A2"
  (GUID 0x43c22296 0x3bbd 0x43a4 [0x9c; 0x00; 0x5c; 0x0d; 0xf6; 0xdd; 0x29; 0xa2]%Z)
  "ICoreWebView2Environment6" [
   M "propget" "HRESULT" "get_UserDataFolder" [P "retval,out" "LPWSTR *"]].

Definition ICoreWebView2Environment8 : interface := Interface "ICoreWebView2Environment8" "D6EB91DD-C3D2-45E5-BD29-6DC2BC4DE9CF"
  (GUID 0xd6eb91dd 0xc3d2 0x45e5 [0xbd; 0x29; 0x6d; 0xc2; 0xbc; 0x4d; 0xe9; 0xcf]%Z)
  "ICoreWebView2Environment7" [
   M "" "HRESULT" "add_ProcessInfosChanged" [P "in" "ICoreWebView2ProcessInfosChangedEventHandler *"; P "out" "EventRegistrationToken *"];
   M "" "HRESULT" "remove_ProcessInfosChanged" [P "in" "EventRegistrationToken"];
   M "" "HRESULT" "GetProcessInfos" [P "retval,out" "ICoreWebView2ProcessInfoCollection **"]].

Definition ICoreWebView2Environment9 : interface := Interface "ICoreWebView2Environment9" "f06f41bf-4b5a-49d8-b9f6-fa16cd29f274"
  (GUID 0xf06f41bf 0x4b5a 0x49d8 [0xb9; 0xf6; 0xfa; 0x16; 0xcd; 0x29; 0xf2; 0x74]%Z)
  "ICoreWebView2Environment8" [
   M "" "HRESULT" "CreateContextMenuItem" [P "in" "LPCWSTR"; P "in" "IStream *"; P "in" "COREWEBVIEW2_CONTEXT_MENU_ITEM_KIND"; P "retval,out" "ICoreWebView2ContextMenuItem **"]].

Definition ICoreWebView2Environment10 : interface := Interface "ICoreWebView2Environment10" "ee0eb9df-6f12-46ce-b53f-3f47b9c928e0"
  (GUID 0xee0eb9df 0x6f12 0x46ce [0xb5; 0x3f; 0x3f; 0x47; 0xb9; 0xc9; 0x28; 0xe0]%Z)
  "ICoreWebView2Environment9" [
   M "" "HRESULT" "CreateCoreWebView2ControllerOptions" [P "retval,out" "ICoreWebView2ControllerOptions **"];
   M "" "HRESULT" "CreateCoreWebView2ControllerWithOptions" [P "in" "HWND"; P "in" "ICoreWebView2ControllerOptions *"; P "in" "ICoreWebView2CreateCoreWebView2ControllerCompletedHandler *"];
   M "" "HRESULT" "CreateCoreWebView2CompositionControllerWithOptions" [P "in" "HWND"; P "in" "ICoreWebView2ControllerOptions *"; P "in" "ICoreWebView2CreateCoreWebView2CompositionControllerCompletedHandler *"]].

Definition ICoreWebView2Environment11 : interface := Interface "ICoreWebView2Environment11" "F0913DC6-A0EC-42EF-9805-91DFF3A2966A"
  (GUID 0xf0913dc6 0xa0ec 0x42ef [0x98; 0x05; 0x91; 0xdf; 0xf3; 0xa2; 0x96; 0x6a]%Z)
  "ICoreWebView2Environment10" [
   M "propget" "HRESULT" "get_FailureReportFolderPath" [P "retval,out" "LPWSTR *"]].

Definition ICoreWebView2Environment12 : interface := Interface "ICoreWebView2Environment12" "F503DB9B-739F-48DD-B151-FDFCF253F54E"
  (GUID 0xf503db9b 0x739f 0x48dd [0xb1; 0x51; 0xfd; 0xfc; 0xf2; 0x53; 0xf5; 0x4e]%Z)
  "ICoreWebView2Environment11" [
   M "" "HRESULT" "CreateSharedBuffer" [P "in" "UINT64"; P "retval,out" "ICoreWebView2SharedBuffer **"]].

Definition ICoreWebView2Environment13 : interface := Interface "ICoreWebView2Environment13" "af641f58-72b2-11ee-b962-0242ac120002"
  (GUID 0xaf641f58 0x72b2 0x11ee [0xb9; 0x62; 0x02; 0x42; 0xac; 0x12; 0x00; 0x02]%Z)
  "ICoreWebView2Environment12" [
   M "" "HRESULT" "GetProcessExtendedInfos" [P "in" "ICoreWebView2GetProcessExtendedInfosCompletedHandler *"]].

Definition ICoreWebView2EnvironmentOptions : interface := Interface "ICoreWebView2EnvironmentOptions" "2fde08a8-1e9a-4766-8c05-95a9ceb9d1c5"
  (GUID 0x2fde08a8 0x1e9a 0x4766 [0x8c; 0x05; 0x95; 0xa9; 0xce; 0xb9; 0xd1; 0xc5]%Z)
  "IUnknown" [
   M "propget" "HRESULT" "get_AdditionalBrowserArguments" [P "retval,out" "LPWSTR *"];
   M "propput" "HRESULT" "put_AdditionalBrowserArguments" [P "in" "LPCWSTR"];
   M "propget" "HRESULT" "get_Language" [P "retval,out" "LPWSTR *"];
   M "propput" "HRESULT" "put_Language" [P "in" "LPCWSTR"];
   M "propget" "HRESULT" "get_TargetCompatibleBrowserVersion" [P "retval,out" "LPWSTR *"];
   M "propput" "HRESULT" "put_TargetCompatibleBrowserVersion" [P "in" "LPCWSTR"];
   M "propget" "HRESULT" "get_AllowSingleSignOnUsingOSPrimaryAccount" [P "retval,out" "BOOL *"];
   M "propput" "HRESULT" "put_AllowSingleSignOnUsingOSPrimaryAccount" [P "in" "BOOL"]].

Definition ICoreWebView2EnvironmentOptions2 : interface := Interface "ICoreWebView2EnvironmentOptions2" "FF85C98A-1BA7-4A6B-90C8-2B752C89E9E2"
  (GUID 0xff85c98a 0x1ba7 0x4a6b [0x90; 0xc8; 0x2b; 0x75; 0x2c; 0x89; 0xe9; 0xe2]%Z)
  "IUnknown" [
   M "propget" "HRESULT" "get_ExclusiveUserDataFolderAccess" [P "retval,out" "BOOL *"];
   M "propput" "HRESULT" "put_ExclusiveUserDataFolderAccess" [P "in" "BOOL"]].

Definition ICoreWebView2EnvironmentOptions3 : interface := Interface "ICoreWebView2EnvironmentOptions3" "4A5C436E-A9E3-4A2E-89C3-910D3513F5CC"
  (GUID 0x4a5c436e 0xa9e3 0x4a2e [0x89; 0xc3; 0x91; 0x0d; 0x35; 0x13; 0xf5; 0xcc]%Z)
  "IUnknown" [
   M "propget" "HRESULT" "get_IsCustomCrashReportingEnabled" [P "retval,out" "BOOL *"];
   M "propput" "HRESULT" "put_IsCustomCrashReportingEnabled" [P "in" "BOOL"]].

Definition ICoreWebView2EnvironmentOptions4 : interface := Interface "ICoreWebView2EnvironmentOptions4" "ac52d13f-0d38-475a-9dca-876580d6793e"
  (GUID 0xac52d13f 0xd38 0x475a [0x9d; 0xca; 0x87; 0x65; 0x80; 0xd6; 0x79; 0x3e]%Z)
  "IUnknown" [
   M "" "HRESULT" "GetCustomSchemeRegistrations" [P "out" "UINT32 *"; P "out" "ICoreWebView2CustomSchemeRegistration ***"];
   M "" "HRESULT" "SetCustomSchemeRegistrations" [P "in" "UINT32"; P "in" "ICoreWebView2CustomSchemeRegistration **"]].

Definition ICoreWebView2EnvironmentOptions5 : interface := Interface "ICoreWebView2EnvironmentOptions5" "0AE35D64-C47F-4464-814E-259C345D1501"
  (GUID 0xae35d64 0xc47f 0x4464 [0x81; 0x4e; 0x25; 0x9c; 0x34; 0x5d; 0x15; 0x01]%Z)
  "IUnknown" [
   M "propget" "HRESULT" "get_EnableTrackingPrevention" [P "retval,out" "BOOL *"];
   M "propput" "HRESULT" "put_EnableTrackingPrevention" [P "in" "BOOL"]].

Definition ICoreWebView2EnvironmentOptions6 : interface := Interface "ICoreWebView2EnvironmentOptions6" "57D29CC3-C84F-42A0-B0E2-EFFBD5E179DE"
  (GUID 0x57d29cc3 0xc84f 0x42a0 [0xb0; 0xe2; 0xef; 0xfb; 0xd5; 0xe1; 0x79; 0xde]%Z)
  "IUnknown" [
   M "propget" "HRESULT" "get_AreBrowserExtensionsEnabled" [P "retval,out" "BOOL *"];
   M "propput" "HRESULT" "put_AreBrowserExtensionsEnabled" [P "in" "BOOL"]].

Definition ICoreWebView2ProcessExtendedInfo : interface := Interface "ICoreWebView2ProcessExtendedInfo" "af4c4c2e-45db-11ee-be56-0242ac120002"
  (GUID 0xaf4c4c2e 0x45db 0x11ee [0xbe; 0x56; 0x02; 0x42; 0xac; 0x12; 0x00; 0x02]%Z)
  "IUnknown" [
   M "propget" "HRESULT" "get_ProcessInfo" [P "retval,out" "ICoreWebView2ProcessInfo **"];
   M "propget" "HRESULT" "get_AssociatedFrameInfos" [P "retval,out" "ICoreWebView2FrameInfoCollection **"]].

Definition ICoreWebView2ProcessExtendedInfoCollection : interface := Interface "ICoreWebView2ProcessExtendedInfoCollection" "32efa696-407a-11ee-be56-0242ac120002"
  (GUID 0x32efa696 0x407a 0x11ee [0xbe; 0x56; 0x02; 0x42; 0xac; 0x12; 0x00; 0x02]%Z)
  "IUnknown" [
   M "propget" "HRESULT" "get_Count" [P "retval,out" "UINT *"];
   M "" "HRESULT" "GetValueAtIndex" [P "in" "UINT32"; P "retval,out" "ICoreWebView2ProcessExtendedInfo **"]].

Definition ICoreWebView2Frame : interface := Interface "ICoreWebView2Frame" "f1131a5e-9ba9-11eb-a8b3-0242ac130003"
  (GUID 0xf1131a5e 0x9ba9 0x11eb [0xa8; 0xb3; 0x02; 0x42; 0xac; 0x13; 0x00; 0x03]%Z)
  "IUnknown" [
   M "propget" "HRESULT" "get_Name" [P "retval,out" "LPWSTR *"];
   M "" "HRESULT" "add_NameChanged" [P "in" "ICoreWebView2FrameNameChangedEventHandler *"; P "out" "EventRegistrationToken *"];
   M "" "HRESULT" "remove_NameChanged" [P "in" "EventRegistrationToken"];
   M "" "HRESULT" "AddHostObjectToScriptWithOrigins" [P "in" "LPCWSTR"; P "in" "VARIANT *"; P "in" "UINT32"; P "size_is,in" "LPCWSTR *"];
   M "" "HRESULT" "RemoveHostObjectFromScript" [P "in" "LPCWSTR"];
   M "" "HRESULT" "add_Destroyed" [P "in" "ICoreWebView2FrameDestroyedEventHandler *"; P "out" "EventRegistrationToken *"];
   M "" "HRESULT" "remove_Destroyed" [P "in" "EventRegistrationToken"];
   M "" "HRESULT" "IsDestroyed" [P "retval,out" "BOOL *"]].

Definition ICoreWebView2Frame2 : interface := Interface "ICoreWebView2Frame2" "7a6a5834-d185-4dbf-b63f-4a9bc43107d4"
  (GUID 0x7a6a5834 0xd185 0x4dbf [0xb6; 0x3f; 0x4a; 0x9b; 0xc4; 0x31; 0x07; 0xd4]%Z)
  "ICoreWebView2Frame" [
   M "" "HRESULT" "add_NavigationStarting" [P "in" "ICoreWebView2FrameNavigationStartingEventHandler *"; P "out" "EventRegistrationToken *"];
   M "" "HRESULT" "remove_NavigationStarting" [P "in" "EventRegistrationToken"];
   M "" "HRESULT" "add_ContentLoading" [P "in" "ICoreWebView2FrameContentLoadingEventHandler *"; P "out" "EventRegistrationToken *"];
   M "" "HRESULT" "remove_ContentLoading" [P "in" "EventRegistrationToken"];
   M "" "HRESULT" "add_NavigationCompleted" [P "in" "ICoreWebView2FrameNavigationCompletedEventHandler *"; P "out" "EventRegistrationToken *"];
   M "" "HRESULT" "remove_NavigationCompleted" [P "in" "EventRegistrationToken"];
   M "" "HRESULT" "add_DOMContentLoaded" [P "in" "ICoreWebView2FrameDOMContentLoadedEventHandler *"; P "out" "EventRegistrationToken *"];
   M "" "HRESULT" "remove_DOMContentLoaded" [P "in" "EventRegistrationToken"];
   M "" "HRESULT" "ExecuteScript" [P "in" "LPCWSTR"; P "in" "ICoreWebView2ExecuteScriptCompletedHandler *"];
   M "" "HRESULT" "PostWebMessageAsJson" [P "in" "LPCWSTR"];
   M "" "HRESULT" "PostWebMessageAsString" [P "in" "LPCWSTR"];
   M "" "HRESULT" "add_WebMessageReceived" [P "in" "ICoreWebView2FrameWebMessageReceivedEventHandler *"; P "out" "EventRegistrationToken *"];
   M "" "HRESULT" "remove_WebMessageReceived" [P "in" "EventRegistrationToken"]].

Definition ICoreWebView2Frame3 : interface := Interface "ICoreWebView2Frame3" "b50d82cc-cc28-481d-9614-cb048895e6a0"
  (GUID 0xb50d82cc 0xcc28 0x481d [0x96; 0x14; 0xcb; 0x04; 0x88; 0x95; 0xe6; 0xa0]%Z)
  "ICoreWebView2Frame2" [
   M "" "HRESULT" "add_PermissionRequested" [P "in" "ICoreWebView2FramePermissionRequestedEventHandler *"; P "out" "EventRegistrationToken *"];
   M "" "HRESULT" "remove_PermissionRequested" [P "in" "EventRegistrationToken"]].

Definition ICoreWebView2Frame4 : interface := Interface "ICoreWebView2Frame4" "188782DC-92AA-4732-AB3C-FCC59F6F68B9"
  (GUID 0x188782dc 0x92aa 0x4732 [0xab; 0x3c; 0xfc; 0xc5; 0x9f; 0x6f; 0x68; 0xb9]%Z)
  "ICoreWebView2Frame3" [
   M "" "HRESULT" "PostSharedBufferToScript" [P "in" "ICoreWebView2SharedBuffer *"; P "in" "COREWEBVIEW2_SHARED_BUFFER_ACCESS"; P "in" "LPCWSTR"]].

Definition ICoreWebView2Frame5 : interface := Interface "ICoreWebView2Frame5" "99d199c4-7305-11ee-b962-0242ac120002"
  (GUID 0x99d199c4 0x7305 0x11ee [0xb9; 0x62; 0x02; 0x42; 0xac; 0x12; 0x00; 0x02]%Z)
  "ICoreWebView2Frame4" [
   M "propget" "HRESULT" "get_FrameId" [P "retval,out" "UINT32 *"]].

Definition ICoreWebView2FrameInfo : interface := Interface "ICoreWebView2FrameInfo" "da86b8a1-bdf3-4f11-9955-528cefa59727"
  (GUID 0xda86b8a1 0xbdf3 0x4f11 [0x99; 0x55; 0x52; 0x8c; 0xef; 0xa5; 0x97; 0x27]%Z)
  "IUnknown" [
   M "propget" "HRESULT" "get_Name" [P "retval,out" "LPWSTR *"];
   M "propget" "HRESULT" "get_Source" [P "retval,out" "LPWSTR *"]].

Definition ICoreWebView2FrameInfo2 : interface := Interface "ICoreWebView2FrameInfo2" "56f85cfa-72c4-11ee-b962-0242ac120002"
  (GUID 0x56f85cfa 0x72c4 0x11ee [0xb9; 0x62; 0x02; 0x42; 0xac; 0x12; 0x00; 0x02]%Z)
  "ICoreWebView2FrameInfo" [
   M "propget" "HRESULT" "get_ParentFrameInfo" [P "retval,out" "ICoreWebView2FrameInfo **"];
   M "propget" "HRESULT" "get_FrameId" [P "retval,out" "UINT32 *"];
   M "propget" "HRESULT" "get_FrameKind" [P "retval,out" "COREWEBVIEW2_FRAME_KIND *"]].

Definition ICoreWebView2FrameInfoCollection : interface := Interface "ICoreWebView2FrameInfoCollection" "8f834154-d38e-4d90-affb-6800a7272839"
  (GUID 0x8f834154 0xd38e 0x4d90 [0xaf; 0xfb; 0x68; 0x00; 0xa7; 0x27; 0x28; 0x39]%Z)
  "IUnknown" [
   M "" "HRESULT" "GetIterator" [P "retval,out" "ICoreWebView2FrameInfoCollectionIterator **"]].

Definition ICoreWebView2FrameInfoCollectionIterator : interface := Interface "ICoreWebView2FrameInfoCollectionIterator" "1bf89e2d-1b2b-4629-b28f-05099b41bb03"
  (GUID 0x1bf89e2d 0x1b2b 0x4629 [0xb2; 0x8f; 0x05; 0x09; 0x9b; 0x41; 0xbb; 0x03]%Z)
  "IUnknown" [
   M "propget" "HRESULT" "get_HasCurrent" [P "retval,out" "BOOL *"];
   M "" "HRESULT" "GetCurrent" [P "retval,out" "ICoreWebView2FrameInfo **"];
   M "" "HRESULT" "MoveNext" [P "retval,out" "BOOL *"]].

Definition ICoreWebView2HttpHeadersCollectionIterator : interface := Interface "ICoreWebView2HttpHeadersCollectionIterator" "0702fc30-f43b-47bb-ab52-a42cb552ad9f"
  (GUID 0x702fc30 0xf43b 0x47bb [0xab; 0x52; 0xa4; 0x2c; 0xb5; 0x52; 0xad; 0x9f]%Z)
  "IUnknown" [
   M "" "HRESULT" "GetCurrentHeader" [P "out" "LPWSTR *"; P "out" "LPWSTR *"];
   M "propget" "HRESULT" "get_HasCurrentHeader" [P "retval,out" "BOOL *"];
   M "" "HRESULT" "MoveNext" [P "retval,out" "BOOL *"]].

Definition ICoreWebView2HttpRequestHeaders : interface := Interface "ICoreWebView2HttpRequestHeaders" "e86cac0e-5523-465c-b536-8fb9fc8c8c60"
  (GUID 0xe86cac0e 0x5523 0x465c [0xb5; 0x36; 0x8f; 0xb9; 0xfc; 0x8c; 0x8c; 0x60]%Z)
  "IUnknown" [
   M "" "HRESULT" "GetHeader" [P "in" "LPCWSTR"; P "retval,out" "LPWSTR *"];
   M "" "HRESULT" "GetHeaders" [P "in" "LPCWSTR"; P "retval,out" "ICoreWebView2HttpHeadersCollectionIterator **"];
   M "" "HRESULT" "Contains" [P "in" "LPCWSTR"; P "retval,out" "BOOL *"];
   M "" "HRESULT" "SetHeader" [P "in" "LPCWSTR"; P "in" "LPCWSTR"];
   M "" "HRESULT" "RemoveHeader" [P "in" "LPCWSTR"];
   M "" "HRESULT" "GetIterator" [P "retval,out" "ICoreWebView2HttpHeadersCollectionIterator **"]].

Definition ICoreWebView2HttpResponseHeaders : interface := Interface "ICoreWebView2HttpResponseHeaders" "03c5ff5a-9b45-4a88-881c-89a9f328619c"
  (GUID 0x3c5ff5a 0x9b45 0x4a88 [0x88; 0x1c; 0x89; 0xa9; 0xf3; 0x28; 0x61; 0x9c]%Z)
  "IUnknown" [
   M "" "HRESULT" "AppendHeader" [P "in" "LPCWSTR"; P "in" "LPCWSTR"];
   M "" "HRESULT" "Contains" [P "in" "LPCWSTR"; P "retval,out" "BOOL *"];
   M "" "HRESULT" "GetHeader" [P "in" "LPCWSTR"; P "retval,out" "LPWSTR *"];
   M "" "HRESULT" "GetHeaders" [P "in" "LPCWSTR"; P "retval,out" "ICoreWebView2HttpHeadersCollectionIterator **"];
   M "" "HRESULT" "GetIterator" [P "retval,out" "ICoreWebView2HttpHeadersCollectionIterator **"]].

Definition ICoreWebView2PermissionSettingCollectionView : interface := Interface "ICoreWebView2PermissionSettingCollectionView" "f5596f62-3de5-47b1-91e8-a4104b596b96"
  (GUID 0xf5596f62 0x3de5 0x47b1 [0x91; 0xe8; 0xa4; 0x10; 0x4b; 0x59; 0x6b; 0x96]%Z)
  "IUnknown" [
   M "" "HRESULT" "GetValueAtIndex" [P "in" "UINT32"; P "retval,out" "ICoreWebView2PermissionSetting **"];
   M "propget" "HRESULT" "get_Count" [P "retval,out" "UINT32 *"]].

Definition ICoreWebView2PermissionSetting : interface := Interface "ICoreWebView2PermissionSetting" "792b6eca-5576-421c-9119-74ebb3a4ffb3"
  (GUID 0x792b6eca 0x5576 0x421c [0x91; 0x19; 0x74; 0xeb; 0xb3; 0xa4; 0xff; 0xb3]%Z)
  "IUnknown" [
   M "propget" "HRESULT" "get_PermissionKind" [P "retval,out" "COREWEBVIEW2_PERMISSION_KIND *"];
   M "propget" "HRESULT" "get_PermissionOrigin" [P "retval,out" "LPWSTR *"];
   M "propget" "HRESULT" "get_PermissionState" [P "retval,out" "COREWEBVIEW2_PERMISSION_STATE *"]].

Definition ICoreWebView2PointerInfo_own1 : list method := [
   M "propget" "HRESULT" "get_PointerKind" [P "retval,out" "DWORD *"];
   M "propput" "HRESULT" "put_PointerKind" [P "in" "DWORD"];
   M "propget" "HRESULT" "get_PointerId" [P "retval,out" "UINT32 *"];
   M "propput" "HRESULT" "put_PointerId" [P "in" "UINT32"];
   M "propget" "HRESULT" "get_FrameId" [P "retval,out" "UINT32 *"];
   M "propput" "HRESULT" "put_FrameId" [P "in" "UINT32"];
   M "propget" "HRESULT" "get_PointerFlags" [P "retval,out" "UINT32 *"];
   M "propput" "HRESULT" "put_PointerFlags" [P "in" "UINT32"];
   M "propget" "HRESULT" "get_PointerDeviceRect" [P "retval,out" "RECT *"];
   M "propput" "HRESULT" "put_PointerDeviceRect" [P "in" "RECT"];
   M "propget" "HRESULT" "get_DisplayRect" [P "retval,out" "RECT *"];
   M "propput" "HRESULT" "put_DisplayRect" [P "in" "RECT"];
   M "propget" "HRESULT" "get_PixelLocation" [P "retval,out" "POINT *"];
   M "propput" "HRESULT" "put_PixelLocation" [P "in" "POINT"];
   M "propget" "HRESULT" "get_HimetricLocation" [P "retval,out" "POINT *"];
   M "propput" "HRESULT" "put_HimetricLocation" [P "in" "POINT"];
   M "propget" "HRESULT" "get_PixelLocationRaw" [P "retval,out" "POINT *"];
   M "propput" "HRESULT" "put_PixelLocationRaw" [P "in" "POINT"];
   M "propget" "HRESULT" "get_HimetricLocationRaw" [P "retval,out" "POINT *"];
   M "propput" "HRESULT" "put_HimetricLocationRaw" [P "in" "POINT"];
   M "propget" "HRESULT" "get_Time" [P "retval,out" "DWORD *"];
   M "propput" "HRESULT" "put_Time" [P "in" "DWORD"];
   M "propget" "HRESULT" "get_HistoryCount" [P "retval,out" "UINT32 *"];
   M "propput" "HRESULT" "put_HistoryCount" [P "in" "UINT32"];
   M "propget" "HRESULT" "get_InputData" [P "retval,out" "INT32 *"];
   M "propput" "HRESULT" "put_InputData" [P "in" "INT32"];
   M "propget" "HRESULT" "get_KeyStates" [P "retval,out" "DWORD *"];
   M "propput" "HRESULT" "put_KeyStates" [P "in" "DWORD"];
   M "propget" "HRESULT" "get_PerformanceCount" [P "retval,out" "UINT64 *"];
   M "propput" "HRESULT" "put_PerformanceCount" [P "in" "UINT64"];
   M "propget" "HRESULT" "get_ButtonChangeKind" [P "retval,out" "INT32 *"];
   M "propput" "HRESULT" "put_ButtonChangeKind" [P "in" "INT32"];
   M "propget" "HRESULT" "get_PenFlags" [P "retval,out" "UINT32 *"];
   M "propput" "HRESULT" "put_PenFlags" [P "in" "UINT32"];
   M "propget" "HRESULT" "get_PenMask" [P "retval,out" "UINT32 *"];
   M "propput" "HRESULT" "put_PenMask" [P "in" "UINT32"];
   M "propget" "HRESULT" "get_PenPressure" [P "retval,out" "UINT32 *"];
   M "propput" "HRESULT" "put_PenPressure" [P "in" "UINT32"];
   M "propget" "HRESULT" "get_PenRotation" [P "retval,out" "UINT32 *"];
   M "propput" "HRESULT" "put_PenRotation" [P "in" "UINT32"];
   M "propget" "HRESULT" "get_PenTiltX" [P "retval,out" "INT32 *"];
   M "propput" "HRESULT" "put_PenTiltX" [P "in" "INT32"];
   M "propget" "HRESULT" "get_PenTiltY" [P "retval,out" "INT32 *"];
   M "propput" "HRESULT" "put_PenTiltY" [P "in" "INT32"];
   M "propget" "HRESULT" "get_TouchFlags" [P "retval,out" "UINT32 *"];
   M "propput" "HRESULT" "put_TouchFlags" [P "in" "UINT32"];
   M "propget" "HRESULT" "get_TouchMask" [P "retval,out" "UINT32 *"]].

Definition ICoreWebView2PointerInfo_own2 : list method := [
   M "propput" "HRESULT" "put_TouchMask" [P "in" "UINT32"];
   M "propget" "HRESULT" "get_TouchContact" [P "retval,out" "RECT *"];
   M "propput" "HRESULT" "put_TouchContact" [P "in" "RECT"];
   M "propget" "HRESULT" "get_TouchContactRaw" [P "retval,out" "RECT *"];
   M "propput" "HRESULT" "put_TouchContactRaw" [P "in" "RECT"];
   M "propget" "HRESULT" "get_TouchOrientation" [P "retval,out" "UINT32 *"];
   M "propput" "HRESULT" "put_TouchOrientation" [P "in" "UINT32"];
   M "propget" "HRESULT" "get_TouchPressure" [P "retval,out" "UINT32 *"];
   M "propput" "HRESULT" "put_TouchPressure" [P "in" "UINT32"]].

Definition ICoreWebView2PointerInfo : interface := Interface "ICoreWebView2PointerInfo" "e6995887-d10d-4f5d-9359-4ce46e4f96b9"
  (GUID 0xe6995887 0xd10d 0x4f5d [0x93; 0x59; 0x4c; 0xe4; 0x6e; 0x4f; 0x96; 0xb9]%Z)
  "IUnknown" (ICoreWebView2PointerInfo_own1 ++ ICoreWebView2PointerInfo_own2).

Definition ICoreWebView2PrintSettings : interface := Interface "ICoreWebView2PrintSettings" "377f3721-c74e-48ca-8db1-df68e51d60e2"
  (GUID 0x377f3721 0xc74e 0x48ca [0x8d; 0xb1; 0xdf; 0x68; 0xe5; 0x1d; 0x60; 0xe2]%Z)
  "IUnknown" [
   M "propget" "HRESULT" "get_Orientation" [P "retval,out" "COREWEBVIEW2_PRINT_ORIENTATION *"];
   M "propput" "HRESULT" "put_Orientation" [P "in" "COREWEBVIEW2_PRINT_ORIENTATION"];
   M "propget" "HRESULT" "get_ScaleFactor" [P "retval,out" "double *"];
   M "propput" "HRESULT" "put_ScaleFactor" [P "in" "double"];
   M "propget" "HRESULT" "get_PageWidth" [P "retval,out" "double *"];
   M "propput" "HRESULT" "put_PageWidth" [P "in" "double"];
   M "propget" "HRESULT" "get_PageHeight" [P "retval,out" "double *"];
   M "propput" "HRESULT" "put_PageHeight" [P "in" "double"];
   M "propget" "HRESULT" "get_MarginTop" [P "retval,out" "double *"];
   M "propput" "HRESULT" "put_MarginTop" [P "in" "double"];
   M "propget" "HRESULT" "get_MarginBottom" [P "retval,out" "double *"];
   M "propput" "HRESULT" "put_MarginBottom" [P "in" "double"];
   M "propget" "HRESULT" "get_MarginLeft" [P "retval,out" "double *"];
   M "propput" "HRESULT" "put_MarginLeft" [P "in" "double"];
   M "propget" "HRESULT" "get_MarginRight" [P "retval,out" "double *"];
   M "propput" "HRESULT" "put_MarginRight" [P "in" "double"];
   M "propget" "HRESULT" "get_ShouldPrintBackgrounds" [P "retval,out" "BOOL *"];
   M "propput" "HRESULT" "put_ShouldPrintBackgrounds" [P "in" "BOOL"];
   M "propget" "HRESULT" "get_ShouldPrintSelectionOnly" [P "retval,out" "BOOL *"];
   M "propput" "HRESULT" "put_ShouldPrintSelectionOnly" [P "in" "BOOL"];
   M "propget" "HRESULT" "get_ShouldPrintHeaderAndFooter" [P "retval,out" "BOOL *"];
   M "propput" "HRESULT" "put_ShouldPrintHeaderAndFooter" [P "in" "BOOL"];
   M "propget" "HRESULT" "get_HeaderTitle" [P "retval,out" "LPWSTR *"];
   M "propput" "HRESULT" "put_HeaderTitle" [P "in" "LPCWSTR"];
   M "propget" "HRESULT" "get_FooterUri" [P "retval,out" "LPWSTR *"];
   M "propput" "HRESULT" "put_FooterUri" [P "in" "LPCWSTR"]].

Definition ICoreWebView2PrintSettings2 : interface := Interface "ICoreWebView2PrintSettings2" "CA7F0E1F-3484-41D1-8C1A-65CD44A63F8D"
  (GUID 0xca7f0e1f 0x3484 0x41d1 [0x8c; 0x1a; 0x65; 0xcd; 0x44; 0xa6; 0x3f; 0x8d]%Z)
  "ICoreWebView2PrintSettings" [
   M "propget" "HRESULT" "get_PageRanges" [P "retval,out" "LPWSTR *"];
   M "propput" "HRESULT" "put_PageRanges" [P "in" "LPCWSTR"];
   M "propget" "HRESULT" "get_PagesPerSide" [P "retval,out" "INT32 *"];
   M "propput" "HRESULT" "put_PagesPerSide" [P "in" "INT32"];
   M "propget" "HRESULT" "get_Copies" [P "retval,out" "INT32 *"];
   M "propput" "HRESULT" "put_Copies" [P "in" "INT32"];
   M "propget" "HRESULT" "get_Collation" [P "retval,out" "COREWEBVIEW2_PRINT_COLLATION *"];
   M "propput" "HRESULT" "put_Collation" [P "in" "COREWEBVIEW2_PRINT_COLLATION"];
   M "propget" "HRESULT" "get_ColorMode" [P "retval,out" "COREWEBVIEW2_PRINT_COLOR_MODE *"];
   M "propput" "HRESULT" "put_ColorMode" [P "in" "COREWEBVIEW2_PRINT_COLOR_MODE"];
   M "propget" "HRESULT" "get_Duplex" [P "retval,out" "COREWEBVIEW2_PRINT_DUPLEX *"];
   M "propput" "HRESULT" "put_Duplex" [P "in" "COREWEBVIEW2_PRINT_DUPLEX"];
   M "propget" "HRESULT" "get_MediaSize" [P "retval,out" "COREWEBVIEW2_PRINT_MEDIA_SIZE *"];
   M "propput" "HRESULT" "put_MediaSize" [P "in" "COREWEBVIEW2_PRINT_MEDIA_SIZE"];
   M "propget" "HRESULT" "get_PrinterName" [P "retval,out" "LPWSTR *"];
   M "propput" "HRESULT" "put_PrinterName" [P "in" "LPCWSTR"]].

Definition ICoreWebView2Profile : interface := Interface "ICoreWebView2Profile" "79110ad3-cd5d-4373-8bc3-c60658f17a5f"
  (GUID 0x79110ad3 0xcd5d 0x4373 [0x8b; 0xc3; 0xc6; 0x06; 0x58; 0xf1; 0x7a; 0x5f]%Z)
  "IUnknown" [
   M "propget" "HRESULT" "get_ProfileName" [P "retval,out" "LPWSTR *"];
   M "propget" "HRESULT" "get_IsInPrivateModeEnabled" [P "retval,out" "BOOL *"];
   M "propget" "HRESULT" "get_ProfilePath" [P "retval,out" "LPWSTR *"];
   M "propget" "HRESULT" "get_DefaultDownloadFolderPath" [P "retval,out" "LPWSTR *"];
   M "propput" "HRESULT" "put_DefaultDownloadFolderPath" [P "in" "LPCWSTR"];
   M "propget" "HRESULT" "get_PreferredColorScheme" [P "retval,out" "COREWEBVIEW2_PREFERRED_COLOR_SCHEME *"];
   M "propput" "HRESULT" "put_PreferredColorScheme" [P "in" "COREWEBVIEW2_PREFERRED_COLOR_SCHEME"]].

Definition ICoreWebView2Profile2 : interface := Interface "ICoreWebView2Profile2" "fa740d4b-5eae-4344-a8ad-74be31925397"
  (GUID 0xfa740d4b 0x5eae 0x4344 [0xa8; 0xad; 0x74; 0xbe; 0x31; 0x92; 0x53; 0x97]%Z)
  "ICoreWebView2Profile" [
   M "" "HRESULT" "ClearBrowsingData" [P "in" "COREWEBVIEW2_BROWSING_DATA_KINDS"; P "in" "ICoreWebView2ClearBrowsingDataCompletedHandler *"];
   M "" "HRESULT" "ClearBrowsingDataInTimeRange" [P "in" "COREWEBVIEW2_BROWSING_DATA_KINDS"; P "in" "double"; P "in" "double"; P "in" "ICoreWebView2ClearBrowsingDataCompletedHandler *"];
   M "" "HRESULT" "ClearBrowsingDataAll" [P "in" "ICoreWebView2ClearBrowsingDataCompletedHandler *"]].

Definition ICoreWebView2Profile3 : interface := Interface "ICoreWebView2Profile3" "B188E659-5685-4E05-BDBA-FC640E0F1992"
  (GUID 0xb188e659 0x5685 0x4e05 [0xbd; 0xba; 0xfc; 0x64; 0x0e; 0x0f; 0x19; 0x92]%Z)
  "ICoreWebView2Profile2" [
   M "propget" "HRESULT" "get_PreferredTrackingPreventionLevel" [P "retval,out" "COREWEBVIEW2_TRACKING_PREVENTION_LEVEL *"];
   M "propput" "HRESULT" "put_PreferredTrackingPreventionLevel" [P "in" "COREWEBVIEW2_TRACKING_PREVENTION_LEVEL"]].

Definition ICoreWebView2Profile4 : interface := Interface "ICoreWebView2Profile4" "8F4ae680-192e-4eC8-833a-21cfadaef628"
  (GUID 0x8f4ae680 0x192e 0x4ec8 [0x83; 0x3a; 0x21; 0xcf; 0xad; 0xae; 0xf6; 0x28]%Z)
  "ICoreWebView2Profile3" [
   M "" "HRESULT" "SetPermissionState" [P "in" "COREWEBVIEW2_PERMISSION_KIND"; P "in" "LPCWSTR"; P "in" "COREWEBVIEW2_PERMISSION_STATE"; P "in" "ICoreWebView2SetPermissionStateCompletedHandler *"];
   M "" "HRESULT" "GetNonDefaultPermissionSettings" [P "in" "ICoreWebView2GetNonDefaultPermissionSettingsCompletedHandler *"]].

Definition ICoreWebView2Profile5 : interface := Interface "ICoreWebView2Profile5" "2EE5B76E-6E80-4DF2-BCD3-D4EC3340A01B"
  (GUID 0x2ee5b76e 0x6e80 0x4df2 [0xbc; 0xd3; 0xd4; 0xec; 0x33; 0x40; 0xa0; 0x1b]%Z)
  "ICoreWebView2Profile4" [
   M "propget" "HRESULT" "get_CookieManager" [P "retval,out" "ICoreWebView2CookieManager **"]].

Definition ICoreWebView2Profile6 : interface := Interface "ICoreWebView2Profile6" "BD82FA6A-1D65-4C33-B2B4-0393020CC61B"
  (GUID 0xbd82fa6a 0x1d65 0x4c33 [0xb2; 0xb4; 0x03; 0x93; 0x02; 0x0c; 0xc6; 0x1b]%Z)
  "ICoreWebView2Profile5" [
   M "propget" "HRESULT" "get_IsPasswordAutosaveEnabled" [P "retval,out" "BOOL *"];
   M "propput" "HRESULT" "put_IsPasswordAutosaveEnabled" [P "in" "BOOL"];
   M "propget" "HRESULT" "get_IsGeneralAutofillEnabled" [P "retval,out" "BOOL *"];
   M "propput" "HRESULT" "put_IsGeneralAutofillEnabled" [P "in" "BOOL"]].

Definition ICoreWebView2Profile7 : interface := Interface "ICoreWebView2Profile7" "7b4c7906-a1aa-4cb4-b723-db09f813d541"
  (GUID 0x7b4c7906 0xa1aa 0x4cb4 [0xb7; 0x23; 0xdb; 0x09; 0xf8; 0x13; 0xd5; 0x41]%Z)
  "ICoreWebView2Profile6" [
   M "" "HRESULT" "AddBrowserExtension" [P "in" "LPCWSTR"; P "in" "ICoreWebView2ProfileAddBrowserExtensionCompletedHandler *"];
   M "" "HRESULT" "GetBrowserExtensions" [P "in" "ICoreWebView2ProfileGetBrowserExtensionsCompletedHandler *"]].

Definition ICoreWebView2Profile8 : interface := Interface "ICoreWebView2Profile8" "fbf70c2f-eb1f-4383-85a0-163e92044011"
  (GUID 0xfbf70c2f 0xeb1f 0x4383 [0x85; 0xa0; 0x16; 0x3e; 0x92; 0x04; 0x40; 0x11]%Z)
  "ICoreWebView2Profile7" [
   M "" "HRESULT" "Delete" [];
   M "" "HRESULT" "add_Deleted" [P "in" "ICoreWebView2ProfileDeletedEventHandler *"; P "out" "EventRegistrationToken *"];
   M "" "HRESULT" "remove_Deleted" [P "in" "EventRegistrationToken"]].

Definition ICoreWebView2Settings : interface := Interface "ICoreWebView2Settings" "e562e4f0-d7fa-43ac-8d71-c05150499f00"
  (GUID 0xe562e4f0 0xd7fa 0x43ac [0x8d; 0x71; 0xc0; 0x51; 0x50; 0x49; 0x9f; 0x00]%Z)
  "IUnknown" [
   M "propget" "HRESULT" "get_IsScriptEnabled" [P "retval,out" "BOOL *"];
   M "propput" "HRESULT" "put_IsScriptEnabled" [P "in" "BOOL"];
   M "propget" "HRESULT" "get_IsWebMessageEnabled" [P "retval,out" "BOOL *"];
   M "propput" "HRESULT" "put_IsWebMessageEnabled" [P "in" "BOOL"];
   M "propget" "HRESULT" "get_AreDefaultScriptDialogsEnabled" [P "retval,out" "BOOL *"];
   M "propput" "HRESULT" "put_AreDefaultScriptDialogsEnabled" [P "in" "BOOL"];
   M "propget" "HRESULT" "get_IsStatusBarEnabled" [P "retval,out" "BOOL *"];
   M "propput" "HRESULT" "put_IsStatusBarEnabled" [P "in" "BOOL"];
   M "propget" "HRESULT" "get_AreDevToolsEnabled" [P "retval,out" "BOOL *"];
   M "propput" "HRESULT" "put_AreDevToolsEnabled" [P "in" "BOOL"];
   M "propget" "HRESULT" "get_AreDefaultContextMenusEnabled" [P "retval,out" "BOOL *"];
   M "propput" "HRESULT" "put_AreDefaultContextMenusEnabled" [P "in" "BOOL"];
   M "propget" "HRESULT" "get_AreHostObjectsAllowed" [P "retval,out" "BOOL *"];
   M "propput" "HRESULT" "put_AreHostObjectsAllowed" [P "in" "BOOL"];
   M "propget" "HRESULT" "get_IsZoomControlEnabled" [P "retval,out" "BOOL *"];
   M "propput" "HRESULT" "put_IsZoomControlEnabled" [P "in" "BOOL"];
   M "propget" "HRESULT" "get_IsBuiltInErrorPageEnabled" [P "retval,out" "BOOL *"];
   M "propput" "HRESULT" "put_IsBuiltInErrorPageEnabled" [P "in" "BOOL"]].

Definition ICoreWebView2Settings2 : interface := Interface "ICoreWebView2Settings2" "ee9a0f68-f46c-4e32-ac23-ef8cac224d2a"
  (GUID 0xee9a0f68 0xf46c 0x4e32 [0xac; 0x23; 0xef; 0x8c; 0xac; 0x22; 0x4d; 0x2a]%Z)
  "ICoreWebView2Settings" [
   M "propget" "HRESULT" "get_UserAgent" [P "retval,out" "LPWSTR *"];
   M "propput" "HRESULT" "put_UserAgent" [P "in" "LPCWSTR"]].

Definition ICoreWebView2Settings3 : interface := Interface "ICoreWebView2Settings3" "fdb5ab74-af33-4854-84f0-0a631deb5eba"
  (GUID 0xfdb5ab74 0xaf33 0x4854 [0x84; 0xf0; 0x0a; 0x63; 0x1d; 0xeb; 0x5e; 0xba]%Z)
  "ICoreWebView2Settings2" [
   M "propget" "HRESULT" "get_AreBrowserAcceleratorKeysEnabled" [P "retval,out" "BOOL *"];
   M "propput" "HRESULT" "put_AreBrowserAcceleratorKeysEnabled" [P "in" "BOOL"]].

Definition ICoreWebView2Settings4 : interface := Interface "ICoreWebView2Settings4" "cb56846c-4168-4d53-b04f-03b6d6796ff2"
  (GUID 0xcb56846c 0x4168 0x4d53 [0xb0; 0x4f; 0x03; 0xb6; 0xd6; 0x79; 0x6f; 0xf2]%Z)
  "ICoreWebView2Settings3" [
   M "propget" "HRESULT" "get_IsPasswordAutosaveEnabled" [P "retval,out" "BOOL *"];
   M "propput" "HRESULT" "put_IsPasswordAutosaveEnabled" [P "in" "BOOL"];
   M "propget" "HRESULT" "get_IsGeneralAutofillEnabled" [P "retval,out" "BOOL *"];
   M "propput" "HRESULT" "put_IsGeneralAutofillEnabled" [P "in" "BOOL"]].

Definition ICoreWebView2Settings5 : interface := Interface "ICoreWebView2Settings5" "183e7052-1d03-43a0-ab99-98e043b66b39"
  (GUID 0x183e7052 0x1d03 0x43a0 [0xab; 0x99; 0x98; 0xe0; 0x43; 0xb6; 0x6b; 0x39]%Z)
  "ICoreWebView2Settings4" [
   M "propget" "HRESULT" "get_IsPinchZoomEnabled" [P "retval,out" "BOOL *"];
   M "propput" "HRESULT" "put_IsPinchZoomEnabled" [P "in" "BOOL"]].

Definition ICoreWebView2Settings6 : interface := Interface "ICoreWebView2Settings6" "11cb3acd-9bc8-43b8-83bf-f40753714f87"
  (GUID 0x11cb3acd 0x9bc8 0x43b8 [0x83; 0xbf; 0xf4; 0x07; 0x53; 0x71; 0x4f; 0x87]%Z)
  "ICoreWebView2Settings5" [
   M "propget" "HRESULT" "get_IsSwipeNavigationEnabled" [P "retval,out" "BOOL *"];
   M "propput" "HRESULT" "put_IsSwipeNavigationEnabled" [P "in" "BOOL"]].

Definition ICoreWebView2Settings7 : interface := Interface "ICoreWebView2Settings7" "488dc902-35ef-42d2-bc7d-94b65c4bc49c"
  (GUID 0x488dc902 0x35ef 0x42d2 [0xbc; 0x7d; 0x94; 0xb6; 0x5c; 0x4b; 0xc4; 0x9c]%Z)
  "ICoreWebView2Settings6" [
   M "propget" "HRESULT" "get_HiddenPdfToolbarItems" [P "retval,out" "COREWEBVIEW2_PDF_TOOLBAR_ITEMS *"];
   M "propput" "HRESULT" "put_HiddenPdfToolbarItems" [P "in" "COREWEBVIEW2_PDF_TOOLBAR_ITEMS"]].

Definition ICoreWebView2Settings8 : interface := Interface "ICoreWebView2Settings8" "9e6b0e8f-86ad-4e81-8147-a9b5edb68650"
  (GUID 0x9e6b0e8f 0x86ad 0x4e81 [0x81; 0x47; 0xa9; 0xb5; 0xed; 0xb6; 0x86; 0x50]%Z)
  "ICoreWebView2Settings7" [
   M "propget" "HRESULT" "get_IsReputationCheckingRequired" [P "retval,out" "BOOL *"];
   M "propput" "HRESULT" "put_IsReputationCheckingRequired" [P "in" "BOOL"]].

Definition ICoreWebView2SharedBuffer : interface := Interface "ICoreWebView2SharedBuffer" "B747A495-0C6F-449E-97B8-2F81E9D6AB43"
  (GUID 0xb747a495 0xc6f 0x449e [0x97; 0xb8; 0x2f; 0x81; 0xe9; 0xd6; 0xab; 0x43]%Z)
  "IUnknown" [
   M "propget" "HRESULT" "get_Size" [P "retval,out" "UINT64 *"];
   M "propget" "HRESULT" "get_Buffer" [P "retval,out" "BYTE **"];
   M "" "HRESULT" "OpenStream" [P "retval,out" "IStream **"];
   M "propget" "HRESULT" "get_FileMappingHandle" [P "retval,out" "HANDLE *"];
   M "" "HRESULT" "Close" []].

Definition ICoreWebView2WebResourceRequest : interface := Interface "ICoreWebView2WebResourceRequest" "97055cd4-512c-4264-8b5f-e3f446cea6a5"
  (GUID 0x97055cd4 0x512c 0x4264 [0x8b; 0x5f; 0xe3; 0xf4; 0x46; 0xce; 0xa6; 0xa5]%Z)
  "IUnknown" [
   M "propget" "HRESULT" "get_Uri" [P "retval,out" "LPWSTR *"];
   M "propput" "HRESULT" "put_Uri" [P "in" "LPCWSTR"];
   M "propget" "HRESULT" "get_Method" [P "retval,out" "LPWSTR *"];
   M "propput" "HRESULT" "put_Method" [P "in" "LPCWSTR"];
   M "propget" "HRESULT" "get_Content" [P "retval,out" "IStream **"];
   M "propput" "HRESULT" "put_Content" [P "in" "IStream *"];
   M "propget" "HRESULT" "get_Headers" [P "retval,out" "ICoreWebView2HttpRequestHeaders **"]].

Definition ICoreWebView2WebResourceResponse : interface := Interface "ICoreWebView2WebResourceResponse" "aafcc94f-fa27-48fd-97df-830ef75aaec9"
  (GUID 0xaafcc94f 0xfa27 0x48fd [0x97; 0xdf; 0x83; 0x0e; 0xf7; 0x5a; 0xae; 0xc9]%Z)
  "IUnknown" [
   M "propget" "HRESULT" "get_Content" [P "retval,out" "IStream **"];
   M "propput" "HRESULT" "put_Content" [P "in" "IStream *"];
   M "propget" "HRESULT" "get_Headers" [P "retval,out" "ICoreWebView2HttpResponseHeaders **"];
   M "propget" "HRESULT" "get_StatusCode" [P "retval,out" "int *"];
   M "propput" "HRESULT" "put_StatusCode" [P "in" "int"];
   M "propget" "HRESULT" "get_ReasonPhrase" [P "retval,out" "LPWSTR *"];
   M "propput" "HRESULT" "put_ReasonPhrase" [P "in" "LPCWSTR"]].

Definition ICoreWebView2WebResourceResponseView : interface := Interface "ICoreWebView2WebResourceResponseView" "79701053-7759-4162-8F7D-F1B3F084928D"
  (GUID 0x79701053 0x7759 0x4162 [0x8f; 0x7d; 0xf1; 0xb3; 0xf0; 0x84; 0x92; 0x8d]%Z)
  "IUnknown" [
   M "propget" "HRESULT" "get_Headers" [P "retval,out" "ICoreWebView2HttpResponseHeaders **"];
   M "propget" "HRESULT" "get_StatusCode" [P "retval,out" "int *"];
   M "propget" "HRESULT" "get_ReasonPhrase" [P "retval,out" "LPWSTR *"];
   M "" "HRESULT" "GetContent" [P "in" "ICoreWebView2WebResourceResponseViewGetContentCompletedHandler *"]].

Definition ICoreWebView2WindowFeatures : interface := Interface "ICoreWebView2WindowFeatures" "5eaf559f-b46e-4397-8860-e422f287ff1e"
  (GUID 0x5eaf559f 0xb46e 0x4397 [0x88; 0x60; 0xe4; 0x22; 0xf2; 0x87; 0xff; 0x1e]%Z)
  "IUnknown" [
   M "propget" "HRESULT" "get_HasPosition" [P "retval,out" "BOOL *"];
   M "propget" "HRESULT" "get_HasSize" [P "retval,out" "BOOL *"];
   M "propget" "HRESULT" "get_Left" [P "retval,out" "UINT32 *"];
   M "propget" "HRESULT" "get_Top" [P "retval,out" "UINT32 *"];
   M "propget" "HRESULT" "get_Height" [P "retval,out" "UINT32 *"];
   M "propget" "HRESULT" "get_Width" [P "retval,out" "UINT32 *"];
   M "propget" "HRESULT" "get_ShouldDisplayMenuBar" [P "retval,out" "BOOL *"];
   M "propget" "HRESULT" "get_ShouldDisplayStatus" [P "retval,out" "BOOL *"];
   M "propget" "HRESULT" "get_ShouldDisplayToolbar" [P "retval,out" "BOOL *"];
   M "propget" "HRESULT" "get_ShouldDisplayScrollBars" [P "retval,out" "BOOL *"]].

Definition ICoreWebView2ProcessInfo : interface := Interface "ICoreWebView2ProcessInfo" "84FA7612-3F3D-4FBF-889D-FAD000492D72"
  (GUID 0x84fa7612 0x3f3d 0x4fbf [0x88; 0x9d; 0xfa; 0xd0; 0x00; 0x49; 0x2d; 0x72]%Z)
  "IUnknown" [
   M "propget" "HRESULT" "get_ProcessId" [P "retval,out" "INT32 *"];
   M "propget" "HRESULT" "get_Kind" [P "retval,out" "COREWEBVIEW2_PROCESS_KIND *"]].

Definition ICoreWebView2ProcessInfoCollection : interface := Interface "ICoreWebView2ProcessInfoCollection" "402B99CD-A0CC-4FA5-B7A5-51D86A1D2339"
  (GUID 0x402b99cd 0xa0cc 0x4fa5 [0xb7; 0xa5; 0x51; 0xd8; 0x6a; 0x1d; 0x23; 0x39]%Z)
  "IUnknown" [
   M "propget" "HRESULT" "get_Count" [P "retval,out" "UINT *"];
   M "" "HRESULT" "GetValueAtIndex" [P "in" "UINT32"; P "retval,out" "ICoreWebView2ProcessInfo **"]].

Definition ICoreWebView2BrowserExtensionList : interface := Interface "ICoreWebView2BrowserExtensionList" "2EF3D2DC-BD5F-4F4D-90AF-FD67798F0C2F"
  (GUID 0x2ef3d2dc 0xbd5f 0x4f4d [0x90; 0xaf; 0xfd; 0x67; 0x79; 0x8f; 0x0c; 0x2f]%Z)
  "IUnknown" [
   M "propget" "HRESULT" "get_Count" [P "retval,out" "UINT *"];
   M "" "HRESULT" "GetValueAtIndex" [P "in" "UINT"; P "retval,out" "ICoreWebView2BrowserExtension **"]].

Definition ICoreWebView2BrowserExtension : interface := Interface "ICoreWebView2BrowserExtension" "7EF7FFA0-FAC5-462C-B189-3D9EDBE575DA"
  (GUID 0x7ef7ffa0 0xfac5 0x462c [0xb1; 0x89; 0x3d; 0x9e; 0xdb; 0xe5; 0x75; 0xda]%Z)
  "IUnknown" [
   M "propget" "HRESULT" "get_Id" [P "retval,out" "LPWSTR *"];
   M "propget" "HRESULT" "get_Name" [P "retval,out" "LPWSTR *"];
   M "" "HRESULT" "Remove" [P "in" "ICoreWebView2BrowserExtensionRemoveCompletedHandler *"];
   M "propget" "HRESULT" "get_IsEnabled" [P "retval,out" "BOOL *"];
   M "" "HRESULT" "Enable" [P "in" "BOOL"; P "in" "ICoreWebView2BrowserExtensionEnableCompletedHandler *"]].

Definition ICoreWebView2ExecuteScriptResult : interface := Interface "ICoreWebView2ExecuteScriptResult" "0CE15963-3698-4DF7-9399-71ED6CDD8C9F"
  (GUID 0xce15963 0x3698 0x4df7 [0x93; 0x99; 0x71; 0xed; 0x6c; 0xdd; 0x8c; 0x9f]%Z)
  "IUnknown" [
   M "propget" "HRESULT" "get_Succeeded" [P "retval,out" "BOOL *"];
   M "propget" "HRESULT" "get_ResultAsJson" [P "retval,out" "LPWSTR *"];
   M "" "HRESULT" "TryGetResultAsString" [P "out" "LPWSTR *"; P "out" "BOOL *"];
   M "propget" "HRESULT" "get_Exception" [P "retval,out" "ICoreWebView2ScriptException **"]].

Definition ICoreWebView2ScriptException : interface := Interface "ICoreWebView2ScriptException" "054DAE00-84A3-49FF-BC17-4012A90BC9FD"
  (GUID 0x54dae00 0x84a3 0x49ff [0xbc; 0x17; 0x40; 0x12; 0xa9; 0x0b; 0xc9; 0xfd]%Z)
  "IUnknown" [
   M "propget" "HRESULT" "get_LineNumber" [P "retval,out" "UINT32 *"];
   M "propget" "HRESULT" "get_ColumnNumber" [P "retval,out" "UINT32 *"];
   M "propget" "HRESULT" "get_Name" [P "retval,out" "LPWSTR *"];
   M "propget" "HRESULT" "get_Message" [P "retval,out" "LPWSTR *"];
   M "propget" "HRESULT" "get_ToJson" [P "retval,out" "LPWSTR *"]].

Definition ICoreWebView2File : interface := Interface "ICoreWebView2File" "f2c19559-6bc1-4583-a757-90021be9afec"
  (GUID 0xf2c19559 0x6bc1 0x4583 [0xa7; 0x57; 0x90; 0x02; 0x1b; 0xe9; 0xaf; 0xec]%Z)
  "IUnknown" [
   M "propget" "HRESULT" "get_Path" [P "retval,out" "LPWSTR *"]].

Definition ICoreWebView2ObjectCollectionView : interface := Interface "ICoreWebView2ObjectCollectionView" "0f36fd87-4f69-4415-98da-888f89fb9a33"
  (GUID 0xf36fd87 0x4f69 0x4415 [0x98; 0xda; 0x88; 0x8f; 0x89; 0xfb; 0x9a; 0x33]%Z)
  "IUnknown" [
   M "propget" "HRESULT" "get_Count" [P "retval,out" "UINT32 *"];
   M "" "HRESULT" "GetValueAtIndex" [P "in" "UINT32"; P "retval,out" "IUnknown **"]].
