(* ===== verification/WvDeclsEvents.v ===== *)
(** * WebView2.h: handlers and event arguments

    The C++ declarations of the interfaces that programs implement, the completion and
    event handlers, and of those their calls are given, in the order of the header. *)

From S2P Require Import Prelude Win32 WvIdl.

Definition ICoreWebView2AcceleratorKeyPressedEventArgs : interface := Interface "ICoreWebView2AcceleratorKeyPressedEventArgs" "9f760f8a-fb79-42be-9990-7b56900fa9c7"
  (GUID 0x9f760f8a 0xfb79 0x42be [0x99; 0x90; 0x7b; 0x56; 0x90; 0x0f; 0xa9; 0xc7]%Z)
  "IUnknown" [
   M "propget" "HRESULT" "get_KeyEventKind" [P "retval,out" "COREWEBVIEW2_KEY_EVENT_KIND *"];
   M "propget" "HRESULT" "get_VirtualKey" [P "retval,out" "UINT *"];
   M "propget" "HRESULT" "get_KeyEventLParam" [P "retval,out" "INT *"];
   M "propget" "HRESULT" "get_PhysicalKeyStatus" [P "retval,out" "COREWEBVIEW2_PHYSICAL_KEY_STATUS *"];
   M "propget" "HRESULT" "get_Handled" [P "retval,out" "BOOL *"];
   M "propput" "HRESULT" "put_Handled" [P "in" "BOOL"]].

Definition ICoreWebView2AcceleratorKeyPressedEventArgs2 : interface := Interface "ICoreWebView2AcceleratorKeyPressedEventArgs2" "03b2c8c8-7799-4e34-bd66-ed26aa85f2bf"
  (GUID 0x3b2c8c8 0x7799 0x4e34 [0xbd; 0x66; 0xed; 0x26; 0xaa; 0x85; 0xf2; 0xbf]%Z)
  "ICoreWebView2AcceleratorKeyPressedEventArgs" [
   M "propget" "HRESULT" "get_IsBrowserAcceleratorKeyEnabled" [P "retval,out" "BOOL *"];
   M "propput" "HRESULT" "put_IsBrowserAcceleratorKeyEnabled" [P "in" "BOOL"]].

Definition ICoreWebView2AcceleratorKeyPressedEventHandler : interface := Interface "ICoreWebView2AcceleratorKeyPressedEventHandler" "b29c7e28-fa79-41a8-8e44-65811c76dcb2"
  (GUID 0xb29c7e28 0xfa79 0x41a8 [0x8e; 0x44; 0x65; 0x81; 0x1c; 0x76; 0xdc; 0xb2]%Z)
  "IUnknown" [
   M "" "HRESULT" "Invoke" [P "in" "ICoreWebView2Controller *"; P "in" "ICoreWebView2AcceleratorKeyPressedEventArgs *"]].

Definition ICoreWebView2AddScriptToExecuteOnDocumentCreatedCompletedHandler : interface := Interface "ICoreWebView2AddScriptToExecuteOnDocumentCreatedCompletedHandler" "b99369f3-9b11-47b5-bc6f-8e7895fcea17"
  (GUID 0xb99369f3 0x9b11 0x47b5 [0xbc; 0x6f; 0x8e; 0x78; 0x95; 0xfc; 0xea; 0x17]%Z)
  "IUnknown" [
   M "" "HRESULT" "Invoke" [P "in" "HRESULT"; P "in" "LPCWSTR"]].

Definition ICoreWebView2CallDevToolsProtocolMethodCompletedHandler : interface := Interface "ICoreWebView2CallDevToolsProtocolMethodCompletedHandler" "5c4889f0-5ef6-4c5a-952c-d8f1b92d0574"
  (GUID 0x5c4889f0 0x5ef6 0x4c5a [0x95; 0x2c; 0xd8; 0xf1; 0xb9; 0x2d; 0x05; 0x74]%Z)
  "IUnknown" [
   M "" "HRESULT" "Invoke" [P "in" "HRESULT"; P "in" "LPCWSTR"]].

Definition ICoreWebView2CapturePreviewCompletedHandler : interface := Interface "ICoreWebView2CapturePreviewCompletedHandler" "697e05e9-3d8f-45fa-96f4-8ffe1ededaf5"
  (GUID 0x697e05e9 0x3d8f 0x45fa [0x96; 0xf4; 0x8f; 0xfe; 0x1e; 0xde; 0xda; 0xf5]%Z)
  "IUnknown" [
   M "" "HRESULT" "Invoke" [P "in" "HRESULT"]].

Definition ICoreWebView2BasicAuthenticationRequestedEventArgs : interface := Interface "ICoreWebView2BasicAuthenticationRequestedEventArgs" "ef05516f-d897-4f9e-b672-d8e2307a3fb0"
  (GUID 0xef05516f 0xd897 0x4f9e [0xb6; 0x72; 0xd8; 0xe2; 0x30; 0x7a; 0x3f; 0xb0]%Z)
  "IUnknown" [
   M "propget" "HRESULT" "get_Uri" [P "retval,out" "LPWSTR *"];
   M "propget" "HRESULT" "get_Challenge" [P "retval,out" "LPWSTR *"];
   M "propget" "HRESULT" "get_Response" [P "retval,out" "ICoreWebView2BasicAuthenticationResponse **"];
   M "propget" "HRESULT" "get_Cancel" [P "retval,out" "BOOL *"];
   M "propput" "HRESULT" "put_Cancel" [P "in" "BOOL"];
   M "" "HRESULT" "GetDeferral" [P "retval,out" "ICoreWebView2Deferral **"]].

Definition ICoreWebView2BasicAuthenticationRequestedEventHandler : interface := Interface "ICoreWebView2BasicAuthenticationRequestedEventHandler" "58b4d6c2-18d4-497e-b39b-9a96533fa278"
  (GUID 0x58b4d6c2 0x18d4 0x497e [0xb3; 0x9b; 0x9a; 0x96; 0x53; 0x3f; 0xa2; 0x78]%Z)
  "IUnknown" [
   M "" "HRESULT" "Invoke" [P "in" "ICoreWebView2 *"; P "in" "ICoreWebView2BasicAuthenticationRequestedEventArgs *"]].

Definition ICoreWebView2BrowserProcessExitedEventArgs : interface := Interface "ICoreWebView2BrowserProcessExitedEventArgs" "1f00663f-af8c-4782-9cdd-dd01c52e34cb"
  (GUID 0x1f00663f 0xaf8c 0x4782 [0x9c; 0xdd; 0xdd; 0x01; 0xc5; 0x2e; 0x34; 0xcb]%Z)
  "IUnknown" [
   M "propget" "HRESULT" "get_BrowserProcessExitKind" [P "retval,out" "COREWEBVIEW2_BROWSER_PROCESS_EXIT_KIND *"];
   M "propget" "HRESULT" "get_BrowserProcessId" [P "retval,out" "UINT32 *"]].

Definition ICoreWebView2BrowserProcessExitedEventHandler : interface := Interface "ICoreWebView2BrowserProcessExitedEventHandler" "fa504257-a216-4911-a860-fe8825712861"
  (GUID 0xfa504257 0xa216 0x4911 [0xa8; 0x60; 0xfe; 0x88; 0x25; 0x71; 0x28; 0x61]%Z)
  "IUnknown" [
   M "" "HRESULT" "Invoke" [P "in" "ICoreWebView2Environment *"; P "in" "ICoreWebView2BrowserProcessExitedEventArgs *"]].

Definition ICoreWebView2BytesReceivedChangedEventHandler : interface := Interface "ICoreWebView2BytesReceivedChangedEventHandler" "828e8ab6-d94c-4264-9cef-5217170d6251"
  (GUID 0x828e8ab6 0xd94c 0x4264 [0x9c; 0xef; 0x52; 0x17; 0x17; 0x0d; 0x62; 0x51]%Z)
  "IUnknown" [
   M "" "HRESULT" "Invoke" [P "in" "ICoreWebView2DownloadOperation *"; P "in" "IUnknown *"]].

Definition ICoreWebView2ContentLoadingEventArgs : interface := Interface "ICoreWebView2ContentLoadingEventArgs" "0c8a1275-9b6b-4901-87ad-70df25bafa6e"
  (GUID 0xc8a1275 0x9b6b 0x4901 [0x87; 0xad; 0x70; 0xdf; 0x25; 0xba; 0xfa; 0x6e]%Z)
  "IUnknown" [
   M "propget" "HRESULT" "get_IsErrorPage" [P "retval,out" "BOOL *"];
   M "propget" "HRESULT" "get_NavigationId" [P "retval,out" "UINT64 *"]].

Definition ICoreWebView2ContentLoadingEventHandler : interface := Interface "ICoreWebView2ContentLoadingEventHandler" "364471e7-f2be-4910-bdba-d72077d51c4b"
  (GUID 0x364471e7 0xf2be 0x4910 [0xbd; 0xba; 0xd7; 0x20; 0x77; 0xd5; 0x1c; 0x4b]%Z)
  "IUnknown" [
   M "" "HRESULT" "Invoke" [P "in" "ICoreWebView2 *"; P "in" "ICoreWebView2ContentLoadingEventArgs *"]].

Definition ICoreWebView2ContextMenuRequestedEventArgs : interface := Interface "ICoreWebView2ContextMenuRequestedEventArgs" "a1d309ee-c03f-11eb-8529-0242ac130003"
  (GUID 0xa1d309ee 0xc03f 0x11eb [0x85; 0x29; 0x02; 0x42; 0xac; 0x13; 0x00; 0x03]%Z)
  "IUnknown" [
   M "propget" "HRESULT" "get_MenuItems" [P "retval,out" "ICoreWebView2ContextMenuItemCollection **"];
   M "propget" "HRESULT" "get_ContextMenuTarget" [P "retval,out" "ICoreWebView2ContextMenuTarget **"];
   M "propget" "HRESULT" "get_Location" [P "retval,out" "POINT *"];
   M "propput" "HRESULT" "put_SelectedCommandId" [P "in" "INT32"];
   M "propget" "HRESULT" "get_SelectedCommandId" [P "retval,out" "INT32 *"];
   M "propput" "HRESULT" "put_Handled" [P "in" "BOOL"];
   M "propget" "HRESULT" "get_Handled" [P "retval,out" "BOOL *"];
   M "" "HRESULT" "GetDeferral" [P "retval,out" "ICoreWebView2Deferral **"]].

Definition ICoreWebView2ContextMenuRequestedEventHandler : interface := Interface "ICoreWebView2ContextMenuRequestedEventHandler" "04d3fe1d-ab87-42fb-a898-da241d35b63c"
  (GUID 0x4d3fe1d 0xab87 0x42fb [0xa8; 0x98; 0xda; 0x24; 0x1d; 0x35; 0xb6; 0x3c]%Z)
  "IUnknown" [
   M "" "HRESULT" "Invoke" [P "in" "ICoreWebView2 *"; P "in" "ICoreWebView2ContextMenuRequestedEventArgs *"]].

Definition ICoreWebView2ClearBrowsingDataCompletedHandler : interface := Interface "ICoreWebView2ClearBrowsingDataCompletedHandler" "e9710a06-1d1d-49b2-8234-226f35846ae5"
  (GUID 0xe9710a06 0x1d1d 0x49b2 [0x82; 0x34; 0x22; 0x6f; 0x35; 0x84; 0x6a; 0xe5]%Z)
  "IUnknown" [
   M "" "HRESULT" "Invoke" [P "in" "HRESULT"]].

Definition ICoreWebView2ClientCertificateRequestedEventArgs : interface := Interface "ICoreWebView2ClientCertificateRequestedEventArgs" "bc59db28-bcc3-11eb-8529-0242ac130003"
  (GUID 0xbc59db28 0xbcc3 0x11eb [0x85; 0x29; 0x02; 0x42; 0xac; 0x13; 0x00; 0x03]%Z)
  "IUnknown" [
   M "propget" "HRESULT" "get_Host" [P "retval,out" "LPWSTR *"];
   M "propget" "HRESULT" "get_Port" [P "retval,out" "int *"];
   M "propget" "HRESULT" "get_IsProxy" [P "retval,out" "BOOL *"];
   M "propget" "HRESULT" "get_AllowedCertificateAuthorities" [P "retval,out" "ICoreWebView2StringCollection **"];
   M "propget" "HRESULT" "get_MutuallyTrustedCertificates" [P "retval,out" "ICoreWebView2ClientCertificateCollection **"];
   M "propget" "HRESULT" "get_SelectedCertificate" [P "retval,out" "ICoreWebView2ClientCertificate **"];
   M "propput" "HRESULT" "put_SelectedCertificate" [P "in" "ICoreWebView2ClientCertificate *"];
   M "propget" "HRESULT" "get_Cancel" [P "retval,out" "BOOL *"];
   M "propput" "HRESULT" "put_Cancel" [P "in" "BOOL"];
   M "propget" "HRESULT" "get_Handled" [P "retval,out" "BOOL *"];
   M "propput" "HRESULT" "put_Handled" [P "in" "BOOL"];
   M "" "HRESULT" "GetDeferral" [P "retval,out" "ICoreWebView2Deferral **"]].

Definition ICoreWebView2ClientCertificateRequestedEventHandler : interface := Interface "ICoreWebView2ClientCertificateRequestedEventHandler" "d7175ba2-bcc3-11eb-8529-0242ac130003"
  (GUID 0xd7175ba2 0xbcc3 0x11eb [0x85; 0x29; 0x02; 0x42; 0xac; 0x13; 0x00; 0x03]%Z)
  "IUnknown" [
   M "" "HRESULT" "Invoke" [P "in" "ICoreWebView2 *"; P "in" "ICoreWebView2ClientCertificateRequestedEventArgs *"]].

Definition ICoreWebView2ClearServerCertificateErrorActionsCompletedHandler : interface := Interface "ICoreWebView2ClearServerCertificateErrorActionsCompletedHandler" "3B40AAC6-ACFE-4FFD-8211-F607B96E2D5B"
  (GUID 0x3b40aac6 0xacfe 0x4ffd [0x82; 0x11; 0xf6; 0x07; 0xb9; 0x6e; 0x2d; 0x5b]%Z)
  "IUnknown" [
   M "" "HRESULT" "Invoke" [P "in" "HRESULT"]].

Definition ICoreWebView2CreateCoreWebView2CompositionControllerCompletedHandler : interface := Interface "ICoreWebView2CreateCoreWebView2CompositionControllerCompletedHandler" "02fab84b-1428-4fb7-ad45-1b2e64736184"
  (GUID 0x2fab84b 0x1428 0x4fb7 [0xad; 0x45; 0x1b; 0x2e; 0x64; 0x73; 0x61; 0x84]%Z)
  "IUnknown" [
   M "" "HRESULT" "Invoke" [P "" "HRESULT"; P "" "ICoreWebView2CompositionController *"]].

Definition ICoreWebView2CreateCoreWebView2ControllerCompletedHandler : interface := Interface "ICoreWebView2CreateCoreWebView2ControllerCompletedHandler" "6c4819f3-c9b7-4260-8127-c9f5bde7f68c"
  (GUID 0x6c4819f3 0xc9b7 0x4260 [0x81; 0x27; 0xc9; 0xf5; 0xbd; 0xe7; 0xf6; 0x8c]%Z)
  "IUnknown" [
   M "" "HRESULT" "Invoke" [P "" "HRESULT"; P "" "ICoreWebView2Controller *"]].

Definition ICoreWebView2CreateCoreWebView2EnvironmentCompletedHandler : interface := Interface "ICoreWebView2CreateCoreWebView2EnvironmentCompletedHandler" "4e8a3389-c9d8-4bd2-b6b5-124fee6cc14d"
  (GUID 0x4e8a3389 0xc9d8 0x4bd2 [0xb6; 0xb5; 0x12; 0x4f; 0xee; 0x6c; 0xc1; 0x4d]%Z)
  "IUnknown" [
   M "" "HRESULT" "Invoke" [P "" "HRESULT"; P "" "ICoreWebView2Environment *"]].

Definition ICoreWebView2ContainsFullScreenElementChangedEventHandler : interface := Interface "ICoreWebView2ContainsFullScreenElementChangedEventHandler" "e45d98b1-afef-45be-8baf-6c7728867f73"
  (GUID 0xe45d98b1 0xafef 0x45be [0x8b; 0xaf; 0x6c; 0x77; 0x28; 0x86; 0x7f; 0x73]%Z)
  "IUnknown" [
   M "" "HRESULT" "Invoke" [P "in" "ICoreWebView2 *"; P "in" "IUnknown *"]].

Definition ICoreWebView2CursorChangedEventHandler : interface := Interface "ICoreWebView2CursorChangedEventHandler" "9da43ccc-26e1-4dad-b56c-d8961c94c571"
  (GUID 0x9da43ccc 0x26e1 0x4dad [0xb5; 0x6c; 0xd8; 0x96; 0x1c; 0x94; 0xc5; 0x71]%Z)
  "IUnknown" [
   M "" "HRESULT" "Invoke" [P "in" "ICoreWebView2CompositionController *"; P "in" "IUnknown *"]].

Definition ICoreWebView2CustomItemSelectedEventHandler : interface := Interface "ICoreWebView2CustomItemSelectedEventHandler" "49e1d0bc-fe9e-4481-b7c2-32324aa21998"
  (GUID 0x49e1d0bc 0xfe9e 0x4481 [0xb7; 0xc2; 0x32; 0x32; 0x4a; 0xa2; 0x19; 0x98]%Z)
  "IUnknown" [
   M "" "HRESULT" "Invoke" [P "in" "ICoreWebView2ContextMenuItem *"; P "in" "IUnknown *"]].

Definition ICoreWebView2DocumentTitleChangedEventHandler : interface := Interface "ICoreWebView2DocumentTitleChangedEventHandler" "f5f2b923-953e-4042-9f95-f3a118e1afd4"
  (GUID 0xf5f2b923 0x953e 0x4042 [0x9f; 0x95; 0xf3; 0xa1; 0x18; 0xe1; 0xaf; 0xd4]%Z)
  "IUnknown" [
   M "" "HRESULT" "Invoke" [P "in" "ICoreWebView2 *"; P "in" "IUnknown *"]].

Definition ICoreWebView2DOMContentLoadedEventArgs : interface := Interface "ICoreWebView2DOMContentLoadedEventArgs" "16B1E21A-C503-44F2-84C9-70ABA5031283"
  (GUID 0x16b1e21a 0xc503 0x44f2 [0x84; 0xc9; 0x70; 0xab; 0xa5; 0x03; 0x12; 0x83]%Z)
  "IUnknown" [
   M "propget" "HRESULT" "get_NavigationId" [P "retval,out" "UINT64 *"]].

Definition ICoreWebView2DOMContentLoadedEventHandler : interface := Interface "ICoreWebView2DOMContentLoadedEventHandler" "4BAC7E9C-199E-49ED-87ED-249303ACF019"
  (GUID 0x4bac7e9c 0x199e 0x49ed [0x87; 0xed; 0x24; 0x93; 0x03; 0xac; 0xf0; 0x19]%Z)
  "IUnknown" [
   M "" "HRESULT" "Invoke" [P "in" "ICoreWebView2 *"; P "in" "ICoreWebView2DOMContentLoadedEventArgs *"]].

Definition ICoreWebView2DevToolsProtocolEventReceivedEventArgs : interface := Interface "ICoreWebView2DevToolsProtocolEventReceivedEventArgs" "653c2959-bb3a-4377-8632-b58ada4e66c4"
  (GUID 0x653c2959 0xbb3a 0x4377 [0x86; 0x32; 0xb5; 0x8a; 0xda; 0x4e; 0x66; 0xc4]%Z)
  "IUnknown" [
   M "propget" "HRESULT" "get_ParameterObjectAsJson" [P "retval,out" "LPWSTR *"]].

Definition ICoreWebView2DevToolsProtocolEventReceivedEventArgs2 : interface := Interface "ICoreWebView2DevToolsProtocolEventReceivedEventArgs2" "2DC4959D-1494-4393-95BA-BEA4CB9EBD1B"
  (GUID 0x2dc4959d 0x1494 0x4393 [0x95; 0xba; 0xbe; 0xa4; 0xcb; 0x9e; 0xbd; 0x1b]%Z)
  "ICoreWebView2DevToolsProtocolEventReceivedEventArgs" [
   M "propget" "HRESULT" "get_SessionId" [P "retval,out" "LPWSTR *"]].

Definition ICoreWebView2DevToolsProtocolEventReceivedEventHandler : interface := Interface "ICoreWebView2DevToolsProtocolEventReceivedEventHandler" "e2fda4be-5456-406c-a261-3d452138362c"
  (GUID 0xe2fda4be 0x5456 0x406c [0xa2; 0x61; 0x3d; 0x45; 0x21; 0x38; 0x36; 0x2c]%Z)
  "IUnknown" [
   M "" "HRESULT" "Invoke" [P "in" "ICoreWebView2 *"; P "in" "ICoreWebView2DevToolsProtocolEventReceivedEventArgs *"]].

Definition ICoreWebView2DownloadStartingEventArgs : interface := Interface "ICoreWebView2DownloadStartingEventArgs" "e99bbe21-43e9-4544-a732-282764eafa60"
  (GUID 0xe99bbe21 0x43e9 0x4544 [0xa7; 0x32; 0x28; 0x27; 0x64; 0xea; 0xfa; 0x60]%Z)
  "IUnknown" [
   M "propget" "HRESULT" "get_DownloadOperation" [P "retval,out" "ICoreWebView2DownloadOperation **"];
   M "propget" "HRESULT" "get_Cancel" [P "retval,out" "BOOL *"];
   M "propput" "HRESULT" "put_Cancel" [P "in" "BOOL"];
   M "propget" "HRESULT" "get_ResultFilePath" [P "retval,out" "LPWSTR *"];
   M "propput" "HRESULT" "put_ResultFilePath" [P "in" "LPCWSTR"];
   M "propget" "HRESULT" "get_Handled" [P "retval,out" "BOOL *"];
   M "propput" "HRESULT" "put_Handled" [P "in" "BOOL"];
   M "" "HRESULT" "GetDeferral" [P "retval,out" "ICoreWebView2Deferral **"]].

Definition ICoreWebView2DownloadStartingEventHandler : interface := Interface "ICoreWebView2DownloadStartingEventHandler" "efedc989-c396-41ca-83f7-07f845a55724"
  (GUID 0xefedc989 0xc396 0x41ca [0x83; 0xf7; 0x07; 0xf8; 0x45; 0xa5; 0x57; 0x24]%Z)
  "IUnknown" [
   M "" "HRESULT" "Invoke" [P "in" "ICoreWebView2 *"; P "in" "ICoreWebView2DownloadStartingEventArgs *"]].

Definition ICoreWebView2EstimatedEndTimeChangedEventHandler : interface := Interface "ICoreWebView2EstimatedEndTimeChangedEventHandler" "28f0d425-93fe-4e63-9f8d-2aeec6d3ba1e"
  (GUID 0x28f0d425 0x93fe 0x4e63 [0x9f; 0x8d; 0x2a; 0xee; 0xc6; 0xd3; 0xba; 0x1e]%Z)
  "IUnknown" [
   M "" "HRESULT" "Invoke" [P "in" "ICoreWebView2DownloadOperation *"; P "in" "IUnknown *"]].

Definition ICoreWebView2ExecuteScriptCompletedHandler : interface := Interface "ICoreWebView2ExecuteScriptCompletedHandler" "49511172-cc67-4bca-9923-137112f4c4cc"
  (GUID 0x49511172 0xcc67 0x4bca [0x99; 0x23; 0x13; 0x71; 0x12; 0xf4; 0xc4; 0xcc]%Z)
  "IUnknown" [
   M "" "HRESULT" "Invoke" [P "in" "HRESULT"; P "in" "LPCWSTR"]].

Definition ICoreWebView2GetProcessExtendedInfosCompletedHandler : interface := Interface "ICoreWebView2GetProcessExtendedInfosCompletedHandler" "f45e55aa-3bc2-11ee-be56-0242ac120002"
  (GUID 0xf45e55aa 0x3bc2 0x11ee [0xbe; 0x56; 0x02; 0x42; 0xac; 0x12; 0x00; 0x02]%Z)
  "IUnknown" [
   M "" "HRESULT" "Invoke" [P "in" "HRESULT"; P "in" "ICoreWebView2ProcessExtendedInfoCollection *"]].

Definition ICoreWebView2FrameContentLoadingEventHandler : interface := Interface "ICoreWebView2FrameContentLoadingEventHandler" "0d6156f2-d332-49a7-9e03-7d8f2feeee54"
  (GUID 0xd6156f2 0xd332 0x49a7 [0x9e; 0x03; 0x7d; 0x8f; 0x2f; 0xee; 0xee; 0x54]%Z)
  "IUnknown" [
   M "" "HRESULT" "Invoke" [P "in" "ICoreWebView2Frame *"; P "in" "ICoreWebView2ContentLoadingEventArgs *"]].

Definition ICoreWebView2FrameCreatedEventArgs : interface := Interface "ICoreWebView2FrameCreatedEventArgs" "4d6e7b5e-9baa-11eb-a8b3-0242ac130003"
  (GUID 0x4d6e7b5e 0x9baa 0x11eb [0xa8; 0xb3; 0x02; 0x42; 0xac; 0x13; 0x00; 0x03]%Z)
  "IUnknown" [
   M "propget" "HRESULT" "get_Frame" [P "retval,out" "ICoreWebView2Frame **"]].

Definition ICoreWebView2FrameCreatedEventHandler : interface := Interface "ICoreWebView2FrameCreatedEventHandler" "38059770-9baa-11eb-a8b3-0242ac130003"
  (GUID 0x38059770 0x9baa 0x11eb [0xa8; 0xb3; 0x02; 0x42; 0xac; 0x13; 0x00; 0x03]%Z)
  "IUnknown" [
   M "" "HRESULT" "Invoke" [P "in" "ICoreWebView2 *"; P "in" "ICoreWebView2FrameCreatedEventArgs *"]].

Definition ICoreWebView2FrameDestroyedEventHandler : interface := Interface "ICoreWebView2FrameDestroyedEventHandler" "59dd7b4c-9baa-11eb-a8b3-0242ac130003"
  (GUID 0x59dd7b4c 0x9baa 0x11eb [0xa8; 0xb3; 0x02; 0x42; 0xac; 0x13; 0x00; 0x03]%Z)
  "IUnknown" [
   M "" "HRESULT" "Invoke" [P "in" "ICoreWebView2Frame *"; P "in" "IUnknown *"]].

Definition ICoreWebView2FrameDOMContentLoadedEventHandler : interface := Interface "ICoreWebView2FrameDOMContentLoadedEventHandler" "38d9520d-340f-4d1e-a775-43fce9753683"
  (GUID 0x38d9520d 0x340f 0x4d1e [0xa7; 0x75; 0x43; 0xfc; 0xe9; 0x75; 0x36; 0x83]%Z)
  "IUnknown" [
   M "" "HRESULT" "Invoke" [P "in" "ICoreWebView2Frame *"; P "in" "ICoreWebView2DOMContentLoadedEventArgs *"]].

Definition ICoreWebView2FrameNameChangedEventHandler : interface := Interface "ICoreWebView2FrameNameChangedEventHandler" "435c7dc8-9baa-11eb-a8b3-0242ac130003"
  (GUID 0x435c7dc8 0x9baa 0x11eb [0xa8; 0xb3; 0x02; 0x42; 0xac; 0x13; 0x00; 0x03]%Z)
  "IUnknown" [
   M "" "HRESULT" "Invoke" [P "in" "ICoreWebView2Frame *"; P "in" "IUnknown *"]].

Definition ICoreWebView2FrameNavigationCompletedEventHandler : interface := Interface "ICoreWebView2FrameNavigationCompletedEventHandler" "609302ad-0e36-4f9a-a210-6a45272842a9"
  (GUID 0x609302ad 0xe36 0x4f9a [0xa2; 0x10; 0x6a; 0x45; 0x27; 0x28; 0x42; 0xa9]%Z)
  "IUnknown" [
   M "" "HRESULT" "Invoke" [P "in" "ICoreWebView2Frame *"; P "in" "ICoreWebView2NavigationCompletedEventArgs *"]].

Definition ICoreWebView2FrameNavigationStartingEventHandler : interface := Interface "ICoreWebView2FrameNavigationStartingEventHandler" "e79908bf-2d5d-4968-83db-263fea2c1da3"
  (GUID 0xe79908bf 0x2d5d 0x4968 [0x83; 0xdb; 0x26; 0x3f; 0xea; 0x2c; 0x1d; 0xa3]%Z)
  "IUnknown" [
   M "" "HRESULT" "Invoke" [P "in" "ICoreWebView2Frame *"; P "in" "ICoreWebView2NavigationStartingEventArgs *"]].

Definition ICoreWebView2FramePermissionRequestedEventHandler : interface := Interface "ICoreWebView2FramePermissionRequestedEventHandler" "845d0edd-8bd8-429b-9915-4821789f23e9"
  (GUID 0x845d0edd 0x8bd8 0x429b [0x99; 0x15; 0x48; 0x21; 0x78; 0x9f; 0x23; 0xe9]%Z)
  "IUnknown" [
   M "" "HRESULT" "Invoke" [P "in" "ICoreWebView2Frame *"; P "in" "ICoreWebView2PermissionRequestedEventArgs2 *"]].

Definition ICoreWebView2FrameWebMessageReceivedEventHandler : interface := Interface "ICoreWebView2FrameWebMessageReceivedEventHandler" "e371e005-6d1d-4517-934b-a8f1629c62a5"
  (GUID 0xe371e005 0x6d1d 0x4517 [0x93; 0x4b; 0xa8; 0xf1; 0x62; 0x9c; 0x62; 0xa5]%Z)
  "IUnknown" [
   M "" "HRESULT" "Invoke" [P "in" "ICoreWebView2Frame *"; P "in" "ICoreWebView2WebMessageReceivedEventArgs *"]].

Definition ICoreWebView2FocusChangedEventHandler : interface := Interface "ICoreWebView2FocusChangedEventHandler" "05ea24bd-6452-4926-9014-4b82b498135d"
  (GUID 0x5ea24bd 0x6452 0x4926 [0x90; 0x14; 0x4b; 0x82; 0xb4; 0x98; 0x13; 0x5d]%Z)
  "IUnknown" [
   M "" "HRESULT" "Invoke" [P "in" "ICoreWebView2Controller *"; P "in" "IUnknown *"]].

Definition ICoreWebView2GetCookiesCompletedHandler : interface := Interface "ICoreWebView2GetCookiesCompletedHandler" "5A4F5069-5C15-47C3-8646-F4DE1C116670"
  (GUID 0x5a4f5069 0x5c15 0x47c3 [0x86; 0x46; 0xf4; 0xde; 0x1c; 0x11; 0x66; 0x70]%Z)
  "IUnknown" [
   M "" "HRESULT" "Invoke" [P "" "HRESULT"; P "" "ICoreWebView2CookieList *"]].

Definition ICoreWebView2GetNonDefaultPermissionSettingsCompletedHandler : interface := Interface "ICoreWebView2GetNonDefaultPermissionSettingsCompletedHandler" "38274481-a15c-4563-94cf-990edc9aeb95"
  (GUID 0x38274481 0xa15c 0x4563 [0x94; 0xcf; 0x99; 0x0e; 0xdc; 0x9a; 0xeb; 0x95]%Z)
  "IUnknown" [
   M "" "HRESULT" "Invoke" [P "in" "HRESULT"; P "in" "ICoreWebView2PermissionSettingCollectionView *"]].

Definition ICoreWebView2HistoryChangedEventHandler : interface := Interface "ICoreWebView2HistoryChangedEventHandler" "c79a420c-efd9-4058-9295-3e8b4bcab645"
  (GUID 0xc79a420c 0xefd9 0x4058 [0x92; 0x95; 0x3e; 0x8b; 0x4b; 0xca; 0xb6; 0x45]%Z)
  "IUnknown" [
   M "" "HRESULT" "Invoke" [P "in" "ICoreWebView2 *"; P "in" "IUnknown *"]].

Definition ICoreWebView2IsDefaultDownloadDialogOpenChangedEventHandler : interface := Interface "ICoreWebView2IsDefaultDownloadDialogOpenChangedEventHandler" "3117da26-ae13-438d-bd46-edbeb2c4ce81"
  (GUID 0x3117da26 0xae13 0x438d [0xbd; 0x46; 0xed; 0xbe; 0xb2; 0xc4; 0xce; 0x81]%Z)
  "IUnknown" [
   M "" "HRESULT" "Invoke" [P "in" "ICoreWebView2 *"; P "in" "IUnknown *"]].

Definition ICoreWebView2LaunchingExternalUriSchemeEventArgs : interface := Interface "ICoreWebView2LaunchingExternalUriSchemeEventArgs" "07D1A6C3-7175-4BA1-9306-E593CA07E46C"
  (GUID 0x7d1a6c3 0x7175 0x4ba1 [0x93; 0x06; 0xe5; 0x93; 0xca; 0x07; 0xe4; 0x6c]%Z)
  "IUnknown" [
   M "propget" "HRESULT" "get_Uri" [P "retval,out" "LPWSTR *"];
   M "propget" "HRESULT" "get_InitiatingOrigin" [P "retval,out" "LPWSTR *"];
   M "propget" "HRESULT" "get_IsUserInitiated" [P "retval,out" "BOOL *"];
   M "propget" "HRESULT" "get_Cancel" [P "retval,out" "BOOL *"];
   M "propput" "HRESULT" "put_Cancel" [P "in" "BOOL"];
   M "" "HRESULT" "GetDeferral" [P "retval,out" "ICoreWebView2Deferral **"]].

Definition ICoreWebView2LaunchingExternalUriSchemeEventHandler : interface := Interface "ICoreWebView2LaunchingExternalUriSchemeEventHandler" "74F712E0-8165-43A9-A13F-0CCE597E75DF"
  (GUID 0x74f712e0 0x8165 0x43a9 [0xa1; 0x3f; 0x0c; 0xce; 0x59; 0x7e; 0x75; 0xdf]%Z)
  "IUnknown" [
   M "" "HRESULT" "Invoke" [P "in" "ICoreWebView2 *"; P "in" "ICoreWebView2LaunchingExternalUriSchemeEventArgs *"]].

Definition ICoreWebView2MoveFocusRequestedEventArgs : interface := Interface "ICoreWebView2MoveFocusRequestedEventArgs" "2d6aa13b-3839-4a15-92fc-d88b3c0d9c9d"
  (GUID 0x2d6aa13b 0x3839 0x4a15 [0x92; 0xfc; 0xd8; 0x8b; 0x3c; 0x0d; 0x9c; 0x9d]%Z)
  "IUnknown" [
   M "propget" "HRESULT" "get_Reason" [P "retval,out" "COREWEBVIEW2_MOVE_FOCUS_REASON *"];
   M "propget" "HRESULT" "get_Handled" [P "retval,out" "BOOL *"];
   M "propput" "HRESULT" "put_Handled" [P "in" "BOOL"]].

Definition ICoreWebView2MoveFocusRequestedEventHandler : interface := Interface "ICoreWebView2MoveFocusRequestedEventHandler" "69035451-6dc7-4cb8-9bce-b2bd70ad289f"
  (GUID 0x69035451 0x6dc7 0x4cb8 [0x9b; 0xce; 0xb2; 0xbd; 0x70; 0xad; 0x28; 0x9f]%Z)
  "IUnknown" [
   M "" "HRESULT" "Invoke" [P "in" "ICoreWebView2Controller *"; P "in" "ICoreWebView2MoveFocusRequestedEventArgs *"]].

Definition ICoreWebView2NavigationCompletedEventArgs : interface := Interface "ICoreWebView2NavigationCompletedEventArgs" "30d68b7d-20d9-4752-a9ca-ec8448fbb5c1"
  (GUID 0x30d68b7d 0x20d9 0x4752 [0xa9; 0xca; 0xec; 0x84; 0x48; 0xfb; 0xb5; 0xc1]%Z)
  "IUnknown" [
   M "propget" "HRESULT" "get_IsSuccess" [P "retval,out" "BOOL *"];
   M "propget" "HRESULT" "get_WebErrorStatus" [P "retval,out" "COREWEBVIEW2_WEB_ERROR_STATUS *"];
   M "propget" "HRESULT" "get_NavigationId" [P "retval,out" "UINT64 *"]].

Definition ICoreWebView2NavigationCompletedEventArgs2 : interface := Interface "ICoreWebView2NavigationCompletedEventArgs2" "FDF8B738-EE1E-4DB2-A329-8D7D7B74D792"
  (GUID 0xfdf8b738 0xee1e 0x4db2 [0xa3; 0x29; 0x8d; 0x7d; 0x7b; 0x74; 0xd7; 0x92]%Z)
  "ICoreWebView2NavigationCompletedEventArgs" [
   M "propget" "HRESULT" "get_HttpStatusCode" [P "retval,out" "int *"]].

Definition ICoreWebView2NavigationCompletedEventHandler : interface := Interface "ICoreWebView2NavigationCompletedEventHandler" "d33a35bf-1c49-4f98-93ab-006e0533fe1c"
  (GUID 0xd33a35bf 0x1c49 0x4f98 [0x93; 0xab; 0x00; 0x6e; 0x05; 0x33; 0xfe; 0x1c]%Z)
  "IUnknown" [
   M "" "HRESULT" "Invoke" [P "in" "ICoreWebView2 *"; P "in" "ICoreWebView2NavigationCompletedEventArgs *"]].

Definition ICoreWebView2NavigationStartingEventArgs : interface := Interface "ICoreWebView2NavigationStartingEventArgs" "5b495469-e119-438a-9b18-7604f25f2e49"
  (GUID 0x5b495469 0xe119 0x438a [0x9b; 0x18; 0x76; 0x04; 0xf2; 0x5f; 0x2e; 0x49]%Z)
  "IUnknown" [
   M "propget" "HRESULT" "get_Uri" [P "retval,out" "LPWSTR *"];
   M "propget" "HRESULT" "get_IsUserInitiated" [P "retval,out" "BOOL *"];
   M "propget" "HRESULT" "get_IsRedirected" [P "retval,out" "BOOL *"];
   M "propget" "HRESULT" "get_RequestHeaders" [P "retval,out" "ICoreWebView2HttpRequestHeaders **"];
   M "propget" "HRESULT" "get_Cancel" [P "retval,out" "BOOL *"];
   M "propput" "HRESULT" "put_Cancel" [P "in" "BOOL"];
   M "propget" "HRESULT" "get_NavigationId" [P "retval,out" "UINT64 *"]].

Definition ICoreWebView2NavigationStartingEventArgs2 : interface := Interface "ICoreWebView2NavigationStartingEventArgs2" "9086BE93-91AA-472D-A7E0-579F2BA006AD"
  (GUID 0x9086be93 0x91aa 0x472d [0xa7; 0xe0; 0x57; 0x9f; 0x2b; 0xa0; 0x06; 0xad]%Z)
  "ICoreWebView2NavigationStartingEventArgs" [
   M "propget" "HRESULT" "get_AdditionalAllowedFrameAncestors" [P "retval,out" "LPWSTR *"];
   M "propput" "HRESULT" "put_AdditionalAllowedFrameAncestors" [P "in" "LPCWSTR"]].

Definition ICoreWebView2NavigationStartingEventArgs3 : interface := Interface "ICoreWebView2NavigationStartingEventArgs3" "DDFFE494-4942-4BD2-AB73-35B8FF40E19F"
  (GUID 0xddffe494 0x4942 0x4bd2 [0xab; 0x73; 0x35; 0xb8; 0xff; 0x40; 0xe1; 0x9f]%Z)
  "ICoreWebView2NavigationStartingEventArgs2" [
   M "propget" "HRESULT" "get_NavigationKind" [P "retval,out" "COREWEBVIEW2_NAVIGATION_KIND *"]].

Definition ICoreWebView2NavigationStartingEventHandler : interface := Interface "ICoreWebView2NavigationStartingEventHandler" "9adbe429-f36d-432b-9ddc-f8881fbd76e3"
  (GUID 0x9adbe429 0xf36d 0x432b [0x9d; 0xdc; 0xf8; 0x88; 0x1f; 0xbd; 0x76; 0xe3]%Z)
  "IUnknown" [
   M "" "HRESULT" "Invoke" [P "in" "ICoreWebView2 *"; P "in" "ICoreWebView2NavigationStartingEventArgs *"]].

Definition ICoreWebView2NewBrowserVersionAvailableEventHandler : interface := Interface "ICoreWebView2NewBrowserVersionAvailableEventHandler" "f9a2976e-d34e-44fc-adee-81b6b57ca914"
  (GUID 0xf9a2976e 0xd34e 0x44fc [0xad; 0xee; 0x81; 0xb6; 0xb5; 0x7c; 0xa9; 0x14]%Z)
  "IUnknown" [
   M "" "HRESULT" "Invoke" [P "in" "ICoreWebView2Environment *"; P "in" "IUnknown *"]].

Definition ICoreWebView2NewWindowRequestedEventArgs : interface := Interface "ICoreWebView2NewWindowRequestedEventArgs" "34acb11c-fc37-4418-9132-f9c21d1eafb9"
  (GUID 0x34acb11c 0xfc37 0x4418 [0x91; 0x32; 0xf9; 0xc2; 0x1d; 0x1e; 0xaf; 0xb9]%Z)
  "IUnknown" [
   M "propget" "HRESULT" "get_Uri" [P "retval,out" "LPWSTR *"];
   M "propput" "HRESULT" "put_NewWindow" [P "in" "ICoreWebView2 *"];
   M "propget" "HRESULT" "get_NewWindow" [P "retval,out" "ICoreWebView2 **"];
   M "propput" "HRESULT" "put_Handled" [P "in" "BOOL"];
   M "propget" "HRESULT" "get_Handled" [P "retval,out" "BOOL *"];
   M "propget" "HRESULT" "get_IsUserInitiated" [P "retval,out" "BOOL *"];
   M "" "HRESULT" "GetDeferral" [P "retval,out" "ICoreWebView2Deferral **"];
   M "propget" "HRESULT" "get_WindowFeatures" [P "retval,out" "ICoreWebView2WindowFeatures **"]].

Definition ICoreWebView2NewWindowRequestedEventArgs2 : interface := Interface "ICoreWebView2NewWindowRequestedEventArgs2" "bbc7baed-74c6-4c92-b63a-7f5aeae03de3"
  (GUID 0xbbc7baed 0x74c6 0x4c92 [0xb6; 0x3a; 0x7f; 0x5a; 0xea; 0xe0; 0x3d; 0xe3]%Z)
  "ICoreWebView2NewWindowRequestedEventArgs" [
   M "propget" "HRESULT" "get_Name" [P "retval,out" "LPWSTR *"]].

Definition ICoreWebView2NewWindowRequestedEventArgs3 : interface := Interface "ICoreWebView2NewWindowRequestedEventArgs3" "842bed3c-6ad6-4dd9-b938-28c96667ad66"
  (GUID 0x842bed3c 0x6ad6 0x4dd9 [0xb9; 0x38; 0x28; 0xc9; 0x66; 0x67; 0xad; 0x66]%Z)
  "ICoreWebView2NewWindowRequestedEventArgs2" [
   M "propget" "HRESULT" "get_OriginalSourceFrameInfo" [P "retval,out" "ICoreWebView2FrameInfo **"]].

Definition ICoreWebView2NewWindowRequestedEventHandler : interface := Interface "ICoreWebView2NewWindowRequestedEventHandler" "d4c185fe-c81c-4989-97af-2d3fa7ab5651"
  (GUID 0xd4c185fe 0xc81c 0x4989 [0x97; 0xaf; 0x2d; 0x3f; 0xa7; 0xab; 0x56; 0x51]%Z)
  "IUnknown" [
   M "" "HRESULT" "Invoke" [P "in" "ICoreWebView2 *"; P "in" "ICoreWebView2NewWindowRequestedEventArgs *"]].

Definition ICoreWebView2PermissionRequestedEventArgs : interface := Interface "ICoreWebView2PermissionRequestedEventArgs" "973ae2ef-ff18-4894-8fb2-3c758f046810"
  (GUID 0x973ae2ef 0xff18 0x4894 [0x8f; 0xb2; 0x3c; 0x75; 0x8f; 0x04; 0x68; 0x10]%Z)
  "IUnknown" [
   M "propget" "HRESULT" "get_Uri" [P "retval,out" "LPWSTR *"];
   M "propget" "HRESULT" "get_PermissionKind" [P "retval,out" "COREWEBVIEW2_PERMISSION_KIND *"];
   M "propget" "HRESULT" "get_IsUserInitiated" [P "retval,out" "BOOL *"];
   M "propget" "HRESULT" "get_State" [P "retval,out" "COREWEBVIEW2_PERMISSION_STATE *"];
   M "propput" "HRESULT" "put_State" [P "in" "COREWEBVIEW2_PERMISSION_STATE"];
   M "" "HRESULT" "GetDeferral" [P "retval,out" "ICoreWebView2Deferral **"]].

Definition ICoreWebView2PermissionRequestedEventArgs2 : interface := Interface "ICoreWebView2PermissionRequestedEventArgs2" "74d7127f-9de6-4200-8734-42d6fb4ff741"
  (GUID 0x74d7127f 0x9de6 0x4200 [0x87; 0x34; 0x42; 0xd6; 0xfb; 0x4f; 0xf7; 0x41]%Z)
  "ICoreWebView2PermissionRequestedEventArgs" [
   M "propget" "HRESULT" "get_Handled" [P "retval,out" "BOOL *"];
   M "propput" "HRESULT" "put_Handled" [P "in" "BOOL"]].

Definition ICoreWebView2PermissionRequestedEventArgs3 : interface := Interface "ICoreWebView2PermissionRequestedEventArgs3" "e61670bc-3dce-4177-86d2-c629ae3cb6ac"
  (GUID 0xe61670bc 0x3dce 0x4177 [0x86; 0xd2; 0xc6; 0x29; 0xae; 0x3c; 0xb6; 0xac]%Z)
  "ICoreWebView2PermissionRequestedEventArgs2" [
   M "propget" "HRESULT" "get_SavesInProfile" [P "retval,out" "BOOL *"];
   M "propput" "HRESULT" "put_SavesInProfile" [P "in" "BOOL"]].

Definition ICoreWebView2PermissionRequestedEventHandler : interface := Interface "ICoreWebView2PermissionRequestedEventHandler" "15e1c6a3-c72a-4df3-91d7-d097fbec6bfd"
  (GUID 0x15e1c6a3 0xc72a 0x4df3 [0x91; 0xd7; 0xd0; 0x97; 0xfb; 0xec; 0x6b; 0xfd]%Z)
  "IUnknown" [
   M "" "HRESULT" "Invoke" [P "in" "ICoreWebView2 *"; P "in" "ICoreWebView2PermissionRequestedEventArgs *"]].

Definition ICoreWebView2PrintToPdfCompletedHandler : interface := Interface "ICoreWebView2PrintToPdfCompletedHandler" "ccf1ef04-fd8e-4d5f-b2de-0983e41b8c36"
  (GUID 0xccf1ef04 0xfd8e 0x4d5f [0xb2; 0xde; 0x09; 0x83; 0xe4; 0x1b; 0x8c; 0x36]%Z)
  "IUnknown" [
   M "" "HRESULT" "Invoke" [P "in" "HRESULT"; P "" "BOOL"]].

Definition ICoreWebView2PrintCompletedHandler : interface := Interface "ICoreWebView2PrintCompletedHandler" "8FD80075-ED08-42DB-8570-F5D14977461E"
  (GUID 0x8fd80075 0xed08 0x42db [0x85; 0x70; 0xf5; 0xd1; 0x49; 0x77; 0x46; 0x1e]%Z)
  "IUnknown" [
   M "" "HRESULT" "Invoke" [P "in" "HRESULT"; P "in" "COREWEBVIEW2_PRINT_STATUS"]].

Definition ICoreWebView2PrintToPdfStreamCompletedHandler : interface := Interface "ICoreWebView2PrintToPdfStreamCompletedHandler" "4C9F8229-8F93-444F-A711-2C0DFD6359D5"
  (GUID 0x4c9f8229 0x8f93 0x444f [0xa7; 0x11; 0x2c; 0x0d; 0xfd; 0x63; 0x59; 0xd5]%Z)
  "IUnknown" [
   M "" "HRESULT" "Invoke" [P "in" "HRESULT"; P "in" "IStream *"]].

Definition ICoreWebView2ProcessFailedEventArgs : interface := Interface "ICoreWebView2ProcessFailedEventArgs" "8155a9a4-1474-4a86-8cae-151b0fa6b8ca"
  (GUID 0x8155a9a4 0x1474 0x4a86 [0x8c; 0xae; 0x15; 0x1b; 0x0f; 0xa6; 0xb8; 0xca]%Z)
  "IUnknown" [
   M "propget" "HRESULT" "get_ProcessFailedKind" [P "retval,out" "COREWEBVIEW2_PROCESS_FAILED_KIND *"]].

Definition ICoreWebView2ProcessFailedEventArgs2 : interface := Interface "ICoreWebView2ProcessFailedEventArgs2" "4dab9422-46fa-4c3e-a5d2-41d2071d3680"
  (GUID 0x4dab9422 0x46fa 0x4c3e [0xa5; 0xd2; 0x41; 0xd2; 0x07; 0x1d; 0x36; 0x80]%Z)
  "ICoreWebView2ProcessFailedEventArgs" [
   M "propget" "HRESULT" "get_Reason" [P "retval,out" "COREWEBVIEW2_PROCESS_FAILED_REASON *"];
   M "propget" "HRESULT" "get_ExitCode" [P "retval,out" "int *"];
   M "propget" "HRESULT" "get_ProcessDescription" [P "retval,out" "LPWSTR *"];
   M "propget" "HRESULT" "get_FrameInfosForFailedProcess" [P "retval,out" "ICoreWebView2FrameInfoCollection **"]].

Definition ICoreWebView2ProcessFailedEventHandler : interface := Interface "ICoreWebView2ProcessFailedEventHandler" "79e0aea4-990b-42d9-aa1d-0fcc2e5bc7f1"
  (GUID 0x79e0aea4 0x990b 0x42d9 [0xaa; 0x1d; 0x0f; 0xcc; 0x2e; 0x5b; 0xc7; 0xf1]%Z)
  "IUnknown" [
   M "" "HRESULT" "Invoke" [P "in" "ICoreWebView2 *"; P "in" "ICoreWebView2ProcessFailedEventArgs *"]].

Definition ICoreWebView2ProfileDeletedEventHandler : interface := Interface "ICoreWebView2ProfileDeletedEventHandler" "DF35055D-772E-4DBE-B743-5FBF74A2B258"
  (GUID 0xdf35055d 0x772e 0x4dbe [0xb7; 0x43; 0x5f; 0xbf; 0x74; 0xa2; 0xb2; 0x58]%Z)
  "IUnknown" [
   M "" "HRESULT" "Invoke" [P "in" "ICoreWebView2Profile *"; P "in" "IUnknown *"]].

Definition ICoreWebView2RasterizationScaleChangedEventHandler : interface := Interface "ICoreWebView2RasterizationScaleChangedEventHandler" "9c98c8b1-ac53-427e-a345-3049b5524bbe"
  (GUID 0x9c98c8b1 0xac53 0x427e [0xa3; 0x45; 0x30; 0x49; 0xb5; 0x52; 0x4b; 0xbe]%Z)
  "IUnknown" [
   M "" "HRESULT" "Invoke" [P "in" "ICoreWebView2Controller *"; P "in" "IUnknown *"]].

Definition ICoreWebView2ServerCertificateErrorDetectedEventArgs : interface := Interface "ICoreWebView2ServerCertificateErrorDetectedEventArgs" "012193ED-7C13-48FF-969D-A84C1F432A14"
  (GUID 0x12193ed 0x7c13 0x48ff [0x96; 0x9d; 0xa8; 0x4c; 0x1f; 0x43; 0x2a; 0x14]%Z)
  "IUnknown" [
   M "propget" "HRESULT" "get_ErrorStatus" [P "retval,out" "COREWEBVIEW2_WEB_ERROR_STATUS *"];
   M "propget" "HRESULT" "get_RequestUri" [P "retval,out" "LPWSTR *"];
   M "propget" "HRESULT" "get_ServerCertificate" [P "retval,out" "ICoreWebView2Certificate **"];
   M "propget" "HRESULT" "get_Action" [P "retval,out" "COREWEBVIEW2_SERVER_CERTIFICATE_ERROR_ACTION *"];
   M "propput" "HRESULT" "put_Action" [P "in" "COREWEBVIEW2_SERVER_CERTIFICATE_ERROR_ACTION"];
   M "" "HRESULT" "GetDeferral" [P "retval,out" "ICoreWebView2Deferral **"]].

Definition ICoreWebView2ServerCertificateErrorDetectedEventHandler : interface := Interface "ICoreWebView2ServerCertificateErrorDetectedEventHandler" "969B3A26-D85E-4795-8199-FEF57344DA22"
  (GUID 0x969b3a26 0xd85e 0x4795 [0x81; 0x99; 0xfe; 0xf5; 0x73; 0x44; 0xda; 0x22]%Z)
  "IUnknown" [
   M "" "HRESULT" "Invoke" [P "in" "ICoreWebView2 *"; P "in" "ICoreWebView2ServerCertificateErrorDetectedEventArgs *"]].

Definition ICoreWebView2SetPermissionStateCompletedHandler : interface := Interface "ICoreWebView2SetPermissionStateCompletedHandler" "fc77fb30-9c9e-4076-b8c7-7644a703ca1b"
  (GUID 0xfc77fb30 0x9c9e 0x4076 [0xb8; 0xc7; 0x76; 0x44; 0xa7; 0x03; 0xca; 0x1b]%Z)
  "IUnknown" [
   M "" "HRESULT" "Invoke" [P "in" "HRESULT"]].

Definition ICoreWebView2ScriptDialogOpeningEventArgs : interface := Interface "ICoreWebView2ScriptDialogOpeningEventArgs" "7390bb70-abe0-4843-9529-f143b31b03d6"
  (GUID 0x7390bb70 0xabe0 0x4843 [0x95; 0x29; 0xf1; 0x43; 0xb3; 0x1b; 0x03; 0xd6]%Z)
  "IUnknown" [
   M "propget" "HRESULT" "get_Uri" [P "retval,out" "LPWSTR *"];
   M "propget" "HRESULT" "get_Kind" [P "retval,out" "COREWEBVIEW2_SCRIPT_DIALOG_KIND *"];
   M "propget" "HRESULT" "get_Message" [P "retval,out" "LPWSTR *"];
   M "" "HRESULT" "Accept" [];
   M "propget" "HRESULT" "get_DefaultText" [P "retval,out" "LPWSTR *"];
   M "propget" "HRESULT" "get_ResultText" [P "retval,out" "LPWSTR *"];
   M "propput" "HRESULT" "put_ResultText" [P "in" "LPCWSTR"];
   M "" "HRESULT" "GetDeferral" [P "retval,out" "ICoreWebView2Deferral **"]].

Definition ICoreWebView2ScriptDialogOpeningEventHandler : interface := Interface "ICoreWebView2ScriptDialogOpeningEventHandler" "ef381bf9-afa8-4e37-91c4-8ac48524bdfb"
  (GUID 0xef381bf9 0xafa8 0x4e37 [0x91; 0xc4; 0x8a; 0xc4; 0x85; 0x24; 0xbd; 0xfb]%Z)
  "IUnknown" [
   M "" "HRESULT" "Invoke" [P "in" "ICoreWebView2 *"; P "in" "ICoreWebView2ScriptDialogOpeningEventArgs *"]].

Definition ICoreWebView2SourceChangedEventArgs : interface := Interface "ICoreWebView2SourceChangedEventArgs" "31e0e545-1dba-4266-8914-f63848a1f7d7"
  (GUID 0x31e0e545 0x1dba 0x4266 [0x89; 0x14; 0xf6; 0x38; 0x48; 0xa1; 0xf7; 0xd7]%Z)
  "IUnknown" [
   M "propget" "HRESULT" "get_IsNewDocument" [P "retval,out" "BOOL *"]].

Definition ICoreWebView2SourceChangedEventHandler : interface := Interface "ICoreWebView2SourceChangedEventHandler" "3c067f9f-5388-4772-8b48-79f7ef1ab37c"
  (GUID 0x3c067f9f 0x5388 0x4772 [0x8b; 0x48; 0x79; 0xf7; 0xef; 0x1a; 0xb3; 0x7c]%Z)
  "IUnknown" [
   M "" "HRESULT" "Invoke" [P "in" "ICoreWebView2 *"; P "in" "ICoreWebView2SourceChangedEventArgs *"]].

Definition ICoreWebView2StateChangedEventHandler : interface := Interface "ICoreWebView2StateChangedEventHandler" "81336594-7ede-4ba9-bf71-acf0a95b58dd"
  (GUID 0x81336594 0x7ede 0x4ba9 [0xbf; 0x71; 0xac; 0xf0; 0xa9; 0x5b; 0x58; 0xdd]%Z)
  "IUnknown" [
   M "" "HRESULT" "Invoke" [P "in" "ICoreWebView2DownloadOperation *"; P "in" "IUnknown *"]].

Definition ICoreWebView2StatusBarTextChangedEventHandler : interface := Interface "ICoreWebView2StatusBarTextChangedEventHandler" "A5E3B0D0-10DF-4156-BFAD-3B43867ACAC6"
  (GUID 0xa5e3b0d0 0x10df 0x4156 [0xbf; 0xad; 0x3b; 0x43; 0x86; 0x7a; 0xca; 0xc6]%Z)
  "IUnknown" [
   M "" "HRESULT" "Invoke" [P "in" "ICoreWebView2 *"; P "in" "IUnknown *"]].

Definition ICoreWebView2TrySuspendCompletedHandler : interface := Interface "ICoreWebView2TrySuspendCompletedHandler" "00F206A7-9D17-4605-91F6-4E8E4DE192E3"
  (GUID 0xf206a7 0x9d17 0x4605 [0x91; 0xf6; 0x4e; 0x8e; 0x4d; 0xe1; 0x92; 0xe3]%Z)
  "IUnknown" [
   M "" "HRESULT" "Invoke" [P "in" "HRESULT"; P "in" "BOOL"]].

Definition ICoreWebView2WebMessageReceivedEventArgs : interface := Interface "ICoreWebView2WebMessageReceivedEventArgs" "0f99a40c-e962-4207-9e92-e3d542eff849"
  (GUID 0xf99a40c 0xe962 0x4207 [0x9e; 0x92; 0xe3; 0xd5; 0x42; 0xef; 0xf8; 0x49]%Z)
  "IUnknown" [
   M "propget" "HRESULT" "get_Source" [P "retval,out" "LPWSTR *"];
   M "propget" "HRESULT" "get_WebMessageAsJson" [P "retval,out" "LPWSTR *"];
   M "" "HRESULT" "TryGetWebMessageAsString" [P "retval,out" "LPWSTR *"]].

Definition ICoreWebView2WebMessageReceivedEventHandler : interface := Interface "ICoreWebView2WebMessageReceivedEventHandler" "57213f19-00e6-49fa-8e07-898ea01ecbd2"
  (GUID 0x57213f19 0xe6 0x49fa [0x8e; 0x07; 0x89; 0x8e; 0xa0; 0x1e; 0xcb; 0xd2]%Z)
  "IUnknown" [
   M "" "HRESULT" "Invoke" [P "in" "ICoreWebView2 *"; P "in" "ICoreWebView2WebMessageReceivedEventArgs *"]].

Definition ICoreWebView2WebResourceRequestedEventArgs : interface := Interface "ICoreWebView2WebResourceRequestedEventArgs" "453e667f-12c7-49d4-be6d-ddbe7956f57a"
  (GUID 0x453e667f 0x12c7 0x49d4 [0xbe; 0x6d; 0xdd; 0xbe; 0x79; 0x56; 0xf5; 0x7a]%Z)
  "IUnknown" [
   M "propget" "HRESULT" "get_Request" [P "retval,out" "ICoreWebView2WebResourceRequest **"];
   M "propget" "HRESULT" "get_Response" [P "retval,out" "ICoreWebView2WebResourceResponse **"];
   M "propput" "HRESULT" "put_Response" [P "in" "ICoreWebView2WebResourceResponse *"];
   M "" "HRESULT" "GetDeferral" [P "retval,out" "ICoreWebView2Deferral **"];
   M "propget" "HRESULT" "get_ResourceContext" [P "retval,out" "COREWEBVIEW2_WEB_RESOURCE_CONTEXT *"]].

Definition ICoreWebView2WebResourceRequestedEventArgs2 : interface := Interface "ICoreWebView2WebResourceRequestedEventArgs2" "9C562C24-B219-4D7F-92F6-B187FBBADD56"
  (GUID 0x9c562c24 0xb219 0x4d7f [0x92; 0xf6; 0xb1; 0x87; 0xfb; 0xba; 0xdd; 0x56]%Z)
  "ICoreWebView2WebResourceRequestedEventArgs" [
   M "propget" "HRESULT" "get_RequestedSourceKind" [P "retval,out" "COREWEBVIEW2_WEB_RESOURCE_REQUEST_SOURCE_KINDS *"]].

Definition ICoreWebView2WebResourceRequestedEventHandler : interface := Interface "ICoreWebView2WebResourceRequestedEventHandler" "ab00b74c-15f1-4646-80e8-e76341d25d71"
  (GUID 0xab00b74c 0x15f1 0x4646 [0x80; 0xe8; 0xe7; 0x63; 0x41; 0xd2; 0x5d; 0x71]%Z)
  "IUnknown" [
   M "" "HRESULT" "Invoke" [P "in" "ICoreWebView2 *"; P "in" "ICoreWebView2WebResourceRequestedEventArgs *"]].

Definition ICoreWebView2WebResourceResponseReceivedEventHandler : interface := Interface "ICoreWebView2WebResourceResponseReceivedEventHandler" "7DE9898A-24F5-40C3-A2DE-D4F458E69828"
  (GUID 0x7de9898a 0x24f5 0x40c3 [0xa2; 0xde; 0xd4; 0xf4; 0x58; 0xe6; 0x98; 0x28]%Z)
  "IUnknown" [
   M "" "HRESULT" "Invoke" [P "in" "ICoreWebView2 *"; P "in" "ICoreWebView2WebResourceResponseReceivedEventArgs *"]].

Definition ICoreWebView2WebResourceResponseReceivedEventArgs : interface := Interface "ICoreWebView2WebResourceResponseReceivedEventArgs" "D1DB483D-6796-4B8B-80FC-13712BB716F4"
  (GUID 0xd1db483d 0x6796 0x4b8b [0x80; 0xfc; 0x13; 0x71; 0x2b; 0xb7; 0x16; 0xf4]%Z)
  "IUnknown" [
   M "propget" "HRESULT" "get_Request" [P "retval,out" "ICoreWebView2WebResourceRequest **"];
   M "propget" "HRESULT" "get_Response" [P "retval,out" "ICoreWebView2WebResourceResponseView **"]].

Definition ICoreWebView2WebResourceResponseViewGetContentCompletedHandler : interface := Interface "ICoreWebView2WebResourceResponseViewGetContentCompletedHandler" "875738E1-9FA2-40E3-8B74-2E8972DD6FE7"
  (GUID 0x875738e1 0x9fa2 0x40e3 [0x8b; 0x74; 0x2e; 0x89; 0x72; 0xdd; 0x6f; 0xe7]%Z)
  "IUnknown" [
   M "" "HRESULT" "Invoke" [P "in" "HRESULT"; P "in" "IStream *"]].

Definition ICoreWebView2WindowCloseRequestedEventHandler : interface := Interface "ICoreWebView2WindowCloseRequestedEventHandler" "5c19e9e0-092f-486b-affa-ca8231913039"
  (GUID 0x5c19e9e0 0x92f 0x486b [0xaf; 0xfa; 0xca; 0x82; 0x31; 0x91; 0x30; 0x39]%Z)
  "IUnknown" [
   M "" "HRESULT" "Invoke" [P "in" "ICoreWebView2 *"; P "in" "IUnknown *"]].

Definition ICoreWebView2ZoomFactorChangedEventHandler : interface := Interface "ICoreWebView2ZoomFactorChangedEventHandler" "b52d71d6-c4df-4543-a90c-64a3e60f38cb"
  (GUID 0xb52d71d6 0xc4df 0x4543 [0xa9; 0x0c; 0x64; 0xa3; 0xe6; 0x0f; 0x38; 0xcb]%Z)
  "IUnknown" [
   M "" "HRESULT" "Invoke" [P "in" "ICoreWebView2Controller *"; P "in" "IUnknown *"]].

Definition ICoreWebView2IsMutedChangedEventHandler : interface := Interface "ICoreWebView2IsMutedChangedEventHandler" "57D90347-CD0E-4952-A4A2-7483A2756F08"
  (GUID 0x57d90347 0xcd0e 0x4952 [0xa4; 0xa2; 0x74; 0x83; 0xa2; 0x75; 0x6f; 0x08]%Z)
  "IUnknown" [
   M "" "HRESULT" "Invoke" [P "in" "ICoreWebView2 *"; P "in" "IUnknown *"]].

Definition ICoreWebView2IsDocumentPlayingAudioChangedEventHandler : interface := Interface "ICoreWebView2IsDocumentPlayingAudioChangedEventHandler" "5DEF109A-2F4B-49FA-B7F6-11C39E513328"
  (GUID 0x5def109a 0x2f4b 0x49fa [0xb7; 0xf6; 0x11; 0xc3; 0x9e; 0x51; 0x33; 0x28]%Z)
  "IUnknown" [
   M "" "HRESULT" "Invoke" [P "in" "ICoreWebView2 *"; P "in" "IUnknown *"]].

Definition ICoreWebView2ProcessInfosChangedEventHandler : interface := Interface "ICoreWebView2ProcessInfosChangedEventHandler" "F4AF0C39-44B9-40E9-8B11-0484CFB9E0A1"
  (GUID 0xf4af0c39 0x44b9 0x40e9 [0x8b; 0x11; 0x04; 0x84; 0xcf; 0xb9; 0xe0; 0xa1]%Z)
  "IUnknown" [
   M "" "HRESULT" "Invoke" [P "in" "ICoreWebView2Environment *"; P "in" "IUnknown *"]].

Definition ICoreWebView2FaviconChangedEventHandler : interface := Interface "ICoreWebView2FaviconChangedEventHandler" "2913DA94-833D-4DE0-8DCA-900FC524A1A4"
  (GUID 0x2913da94 0x833d 0x4de0 [0x8d; 0xca; 0x90; 0x0f; 0xc5; 0x24; 0xa1; 0xa4]%Z)
  "IUnknown" [
   M "" "HRESULT" "Invoke" [P "in" "ICoreWebView2 *"; P "in" "IUnknown *"]].

Definition ICoreWebView2GetFaviconCompletedHandler : interface := Interface "ICoreWebView2GetFaviconCompletedHandler" "A2508329-7DA8-49D7-8C05-FA125E4AEE8D"
  (GUID 0xa2508329 0x7da8 0x49d7 [0x8c; 0x05; 0xfa; 0x12; 0x5e; 0x4a; 0xee; 0x8d]%Z)
  "IUnknown" [
   M "" "HRESULT" "Invoke" [P "in" "HRESULT"; P "in" "IStream *"]].

Definition ICoreWebView2ProfileAddBrowserExtensionCompletedHandler : interface := Interface "ICoreWebView2ProfileAddBrowserExtensionCompletedHandler" "DF1AAB27-82B9-4AB6-AAE8-017A49398C14"
  (GUID 0xdf1aab27 0x82b9 0x4ab6 [0xaa; 0xe8; 0x01; 0x7a; 0x49; 0x39; 0x8c; 0x14]%Z)
  "IUnknown" [
   M "" "HRESULT" "Invoke" [P "in" "HRESULT"; P "in" "ICoreWebView2BrowserExtension *"]].

Definition ICoreWebView2ProfileGetBrowserExtensionsCompletedHandler : interface := Interface "ICoreWebView2ProfileGetBrowserExtensionsCompletedHandler" "FCE16A1C-F107-4601-8B75-FC4940AE25D0"
  (GUID 0xfce16a1c 0xf107 0x4601 [0x8b; 0x75; 0xfc; 0x49; 0x40; 0xae; 0x25; 0xd0]%Z)
  "IUnknown" [
   M "" "HRESULT" "Invoke" [P "in" "HRESULT"; P "in" "ICoreWebView2BrowserExtensionList *"]].

Definition ICoreWebView2BrowserExtensionEnableCompletedHandler : interface := Interface "ICoreWebView2BrowserExtensionEnableCompletedHandler" "30C186CE-7FAD-421F-A3BC-A8EAF071DDB8"
  (GUID 0x30c186ce 0x7fad 0x421f [0xa3; 0xbc; 0xa8; 0xea; 0xf0; 0x71; 0xdd; 0xb8]%Z)
  "IUnknown" [
   M "" "HRESULT" "Invoke" [P "in" "HRESULT"]].

Definition ICoreWebView2BrowserExtensionRemoveCompletedHandler : interface := Interface "ICoreWebView2BrowserExtensionRemoveCompletedHandler" "8E41909A-9B18-4BB1-8CDF-930F467A50BE"
  (GUID 0x8e41909a 0x9b18 0x4bb1 [0x8c; 0xdf; 0x93; 0x0f; 0x46; 0x7a; 0x50; 0xbe]%Z)
  "IUnknown" [
   M "" "HRESULT" "Invoke" [P "in" "HRESULT"]].

Definition ICoreWebView2ExecuteScriptWithResultCompletedHandler : interface := Interface "ICoreWebView2ExecuteScriptWithResultCompletedHandler" "1BB5317B-8238-4C67-A7FF-BAF6558F289D"
  (GUID 0x1bb5317b 0x8238 0x4c67 [0xa7; 0xff; 0xba; 0xf6; 0x55; 0x8f; 0x28; 0x9d]%Z)
  "IUnknown" [
   M "" "HRESULT" "Invoke" [P "in" "HRESULT"; P "in" "ICoreWebView2ExecuteScriptResult *"]].

Definition ICoreWebView2WebMessageReceivedEventArgs2 : interface := Interface "ICoreWebView2WebMessageReceivedEventArgs2" "06fc7ab7-c90c-4297-9389-33ca01cf6d5e"
  (GUID 0x6fc7ab7 0xc90c 0x4297 [0x93; 0x89; 0x33; 0xca; 0x01; 0xcf; 0x6d; 0x5e]%Z)
  "ICoreWebView2WebMessageReceivedEventArgs" [
   M "propget" "HRESULT" "get_AdditionalObjects" [P "retval,out" "ICoreWebView2ObjectCollectionView **"]].
