(* ===== verification/WvEntries.v ===== *)
(** * WebView2.h: the entries of the C tables

    For each interface the entries that its own C table of functions adds to the inherited
    ones, with their signatures; [This], the first parameter of every entry, is left out. *)

From S2P Require Import Prelude WvIdl.

Definition IUnknown_entries : list entry := [
   F "IUnknown" (M "" "HRESULT" "QueryInterface" [P "in" "REFIID"; P "annotation,iid_is,out" "void **"]);
   F "IUnknown" (M "" "ULONG" "AddRef" []);
   F "IUnknown" (M "" "ULONG" "Release" [])].

Definition ICoreWebView2AcceleratorKeyPressedEventArgs_entries : list entry := [
   F "ICoreWebView2AcceleratorKeyPressedEventArgs" (M "propget" "HRESULT" "get_KeyEventKind" [P "retval,out" "COREWEBVIEW2_KEY_EVENT_KIND *"]);
   F "ICoreWebView2AcceleratorKeyPressedEventArgs" (M "propget" "HRESULT" "get_VirtualKey" [P "retval,out" "UINT *"]);
   F "ICoreWebView2AcceleratorKeyPressedEventArgs" (M "propget" "HRESULT" "get_KeyEventLParam" [P "retval,out" "INT *"]);
   F "ICoreWebView2AcceleratorKeyPressedEventArgs" (M "propget" "HRESULT" "get_PhysicalKeyStatus" [P "retval,out" "COREWEBVIEW2_PHYSICAL_KEY_STATUS *"]);
   F "ICoreWebView2AcceleratorKeyPressedEventArgs" (M "propget" "HRESULT" "get_Handled" [P "retval,out" "BOOL *"]);
   F "ICoreWebView2AcceleratorKeyPressedEventArgs" (M "propput" "HRESULT" "put_Handled" [P "in" "BOOL"])].

Definition ICoreWebView2AcceleratorKeyPressedEventArgs2_entries : list entry := [
   F "ICoreWebView2AcceleratorKeyPressedEventArgs2" (M "propget" "HRESULT" "get_IsBrowserAcceleratorKeyEnabled" [P "retval,out" "BOOL *"]);
   F "ICoreWebView2AcceleratorKeyPressedEventArgs2" (M "propput" "HRESULT" "put_IsBrowserAcceleratorKeyEnabled" [P "in" "BOOL"])].

Definition ICoreWebView2AcceleratorKeyPressedEventHandler_entries : list entry := [
   F "ICoreWebView2AcceleratorKeyPressedEventHandler" (M "" "HRESULT" "Invoke" [P "in" "ICoreWebView2Controller *"; P "in" "ICoreWebView2AcceleratorKeyPressedEventArgs *"])].

Definition ICoreWebView2AddScriptToExecuteOnDocumentCreatedCompletedHandler_entries : list entry := [
   F "ICoreWebView2AddScriptToExecuteOnDocumentCreatedCompletedHandler" (M "" "HRESULT" "Invoke" [P "in" "HRESULT"; P "in" "LPCWSTR"])].

Definition ICoreWebView2CallDevToolsProtocolMethodCompletedHandler_entries : list entry := [
   F "ICoreWebView2CallDevToolsProtocolMethodCompletedHandler" (M "" "HRESULT" "Invoke" [P "in" "HRESULT"; P "in" "LPCWSTR"])].

Definition ICoreWebView2CapturePreviewCompletedHandler_entries : list entry := [
   F "ICoreWebView2CapturePreviewCompletedHandler" (M "" "HRESULT" "Invoke" [P "in" "HRESULT"])].

Definition ICoreWebView2_entries1 : list entry := [
   F "ICoreWebView2" (M "propget" "HRESULT" "get_Settings" [P "retval,out" "ICoreWebView2Settings **"]);
   F "ICoreWebView2" (M "propget" "HRESULT" "get_Source" [P "retval,out" "LPWSTR *"]);
   F "ICoreWebView2" (M "" "HRESULT" "Navigate" [P "in" "LPCWSTR"]);
   F "ICoreWebView2" (M "" "HRESULT" "NavigateToString" [P "in" "LPCWSTR"]);
   F "ICoreWebView2" (M "" "HRESULT" "add_NavigationStarting" [P "in" "ICoreWebView2NavigationStartingEventHandler *"; P "out" "EventRegistrationToken *"]);
   F "ICoreWebView2" (M "" "HRESULT" "remove_NavigationStarting" [P "in" "EventRegistrationToken"]);
   F "ICoreWebView2" (M "" "HRESULT" "add_ContentLoading" [P "in" "ICoreWebView2ContentLoadingEventHandler *"; P "out" "EventRegistrationToken *"]);
   F "ICoreWebView2" (M "" "HRESULT" "remove_ContentLoading" [P "in" "EventRegistrationToken"]);
   F "ICoreWebView2" (M "" "HRESULT" "add_SourceChanged" [P "in" "ICoreWebView2SourceChangedEventHandler *"; P "out" "EventRegistrationToken *"]);
   F "ICoreWebView2" (M "" "HRESULT" "remove_SourceChanged" [P "in" "EventRegistrationToken"]);
   F "ICoreWebView2" (M "" "HRESULT" "add_HistoryChanged" [P "in" "ICoreWebView2HistoryChangedEventHandler *"; P "out" "EventRegistrationToken *"]);
   F "ICoreWebView2" (M "" "HRESULT" "remove_HistoryChanged" [P "in" "EventRegistrationToken"]);
   F "ICoreWebView2" (M "" "HRESULT" "add_NavigationCompleted" [P "in" "ICoreWebView2NavigationCompletedEventHandler *"; P "out" "EventRegistrationToken *"]);
   F "ICoreWebView2" (M "" "HRESULT" "remove_NavigationCompleted" [P "in" "EventRegistrationToken"]);
   F "ICoreWebView2" (M "" "HRESULT" "add_FrameNavigationStarting" [P "in" "ICoreWebView2NavigationStartingEventHandler *"; P "out" "EventRegistrationToken *"]);
   F "ICoreWebView2" (M "" "HRESULT" "remove_FrameNavigationStarting" [P "in" "EventRegistrationToken"]);
   F "ICoreWebView2" (M "" "HRESULT" "add_FrameNavigationCompleted" [P "in" "ICoreWebView2NavigationCompletedEventHandler *"; P "out" "EventRegistrationToken *"]);
   F "ICoreWebView2" (M "" "HRESULT" "remove_FrameNavigationCompleted" [P "in" "EventRegistrationToken"]);
   F "ICoreWebView2" (M "" "HRESULT" "add_ScriptDialogOpening" [P "in" "ICoreWebView2ScriptDialogOpeningEventHandler *"; P "out" "EventRegistrationToken *"]);
   F "ICoreWebView2" (M "" "HRESULT" "remove_ScriptDialogOpening" [P "in" "EventRegistrationToken"]);
   F "ICoreWebView2" (M "" "HRESULT" "add_PermissionRequested" [P "in" "ICoreWebView2PermissionRequestedEventHandler *"; P "out" "EventRegistrationToken *"]);
   F "ICoreWebView2" (M "" "HRESULT" "remove_PermissionRequested" [P "in" "EventRegistrationToken"]);
   F "ICoreWebView2" (M "" "HRESULT" "add_ProcessFailed" [P "in" "ICoreWebView2ProcessFailedEventHandler *"; P "out" "EventRegistrationToken *"])].

Definition ICoreWebView2_entries2 : list entry := [
   F "ICoreWebView2" (M "" "HRESULT" "remove_ProcessFailed" [P "in" "EventRegistrationToken"]);
   F "ICoreWebView2" (M "" "HRESULT" "AddScriptToExecuteOnDocumentCreated" [P "in" "LPCWSTR"; P "in" "ICoreWebView2AddScriptToExecuteOnDocumentCreatedCompletedHandler *"]);
   F "ICoreWebView2" (M "" "HRESULT" "RemoveScriptToExecuteOnDocumentCreated" [P "in" "LPCWSTR"]);
   F "ICoreWebView2" (M "" "HRESULT" "ExecuteScript" [P "in" "LPCWSTR"; P "in" "ICoreWebView2ExecuteScriptCompletedHandler *"]);
   F "ICoreWebView2" (M "" "HRESULT" "CapturePreview" [P "in" "COREWEBVIEW2_CAPTURE_PREVIEW_IMAGE_FORMAT"; P "in" "IStream *"; P "in" "ICoreWebView2CapturePreviewCompletedHandler *"]);
   F "ICoreWebView2" (M "" "HRESULT" "Reload" []);
   F "ICoreWebView2" (M "" "HRESULT" "PostWebMessageAsJson" [P "in" "LPCWSTR"]);
   F "ICoreWebView2" (M "" "HRESULT" "PostWebMessageAsString" [P "in" "LPCWSTR"]);
   F "ICoreWebView2" (M "" "HRESULT" "add_WebMessageReceived" [P "in" "ICoreWebView2WebMessageReceivedEventHandler *"; P "out" "EventRegistrationToken *"]);
   F "ICoreWebView2" (M "" "HRESULT" "remove_WebMessageReceived" [P "in" "EventRegistrationToken"]);
   F "ICoreWebView2" (M "" "HRESULT" "CallDevToolsProtocolMethod" [P "in" "LPCWSTR"; P "in" "LPCWSTR"; P "in" "ICoreWebView2CallDevToolsProtocolMethodCompletedHandler *"]);
   F "ICoreWebView2" (M "propget" "HRESULT" "get_BrowserProcessId" [P "retval,out" "UINT32 *"]);
   F "ICoreWebView2" (M "propget" "HRESULT" "get_CanGoBack" [P "retval,out" "BOOL *"]);
   F "ICoreWebView2" (M "propget" "HRESULT" "get_CanGoForward" [P "retval,out" "BOOL *"]);
   F "ICoreWebView2" (M "" "HRESULT" "GoBack" []);
   F "ICoreWebView2" (M "" "HRESULT" "GoForward" []);
   F "ICoreWebView2" (M "" "HRESULT" "GetDevToolsProtocolEventReceiver" [P "in" "LPCWSTR"; P "retval,out" "ICoreWebView2DevToolsProtocolEventReceiver **"]);
   F "ICoreWebView2" (M "" "HRESULT" "Stop" []);
   F "ICoreWebView2" (M "" "HRESULT" "add_NewWindowRequested" [P "in" "ICoreWebView2NewWindowRequestedEventHandler *"; P "out" "EventRegistrationToken *"]);
   F "ICoreWebView2" (M "" "HRESULT" "remove_NewWindowRequested" [P "in" "EventRegistrationToken"]);
   F "ICoreWebView2" (M "" "HRESULT" "add_DocumentTitleChanged" [P "in" "ICoreWebView2DocumentTitleChangedEventHandler *"; P "out" "EventRegistrationToken *"]);
   F "ICoreWebView2" (M "" "HRESULT" "remove_DocumentTitleChanged" [P "in" "EventRegistrationToken"]);
   F "ICoreWebView2" (M "propget" "HRESULT" "get_DocumentTitle" [P "retval,out" "LPWSTR *"]);
   F "ICoreWebView2" (M "" "HRESULT" "AddHostObjectToScript" [P "in" "LPCWSTR"; P "in" "VARIANT *"])].

Definition ICoreWebView2_entries3 : list entry := [
   F "ICoreWebView2" (M "" "HRESULT" "RemoveHostObjectFromScript" [P "in" "LPCWSTR"]);
   F "ICoreWebView2" (M "" "HRESULT" "OpenDevToolsWindow" []);
   F "ICoreWebView2" (M "" "HRESULT" "add_ContainsFullScreenElementChanged" [P "in" "ICoreWebView2ContainsFullScreenElementChangedEventHandler *"; P "out" "EventRegistrationToken *"]);
   F "ICoreWebView2" (M "" "HRESULT" "remove_ContainsFullScreenElementChanged" [P "in" "EventRegistrationToken"]);
   F "ICoreWebView2" (M "propget" "HRESULT" "get_ContainsFullScreenElement" [P "retval,out" "BOOL *"]);
   F "ICoreWebView2" (M "" "HRESULT" "add_WebResourceRequested" [P "in" "ICoreWebView2WebResourceRequestedEventHandler *"; P "out" "EventRegistrationToken *"]);
   F "ICoreWebView2" (M "" "HRESULT" "remove_WebResourceRequested" [P "in" "EventRegistrationToken"]);
   F "ICoreWebView2" (M "" "HRESULT" "AddWebResourceRequestedFilter" [P "in" "const LPCWSTR"; P "in" "const COREWEBVIEW2_WEB_RESOURCE_CONTEXT"]);
   F "ICoreWebView2" (M "" "HRESULT" "RemoveWebResourceRequestedFilter" [P "in" "const LPCWSTR"; P "in" "const COREWEBVIEW2_WEB_RESOURCE_CONTEXT"]);
   F "ICoreWebView2" (M "" "HRESULT" "add_WindowCloseRequested" [P "in" "ICoreWebView2WindowCloseRequestedEventHandler *"; P "out" "EventRegistrationToken *"]);
   F "ICoreWebView2" (M "" "HRESULT" "remove_WindowCloseRequested" [P "in" "EventRegistrationToken"])].

Definition ICoreWebView2_2_entries : list entry := [
   F "ICoreWebView2_2" (M "" "HRESULT" "add_WebResourceResponseReceived" [P "in" "ICoreWebView2WebResourceResponseReceivedEventHandler *"; P "out" "EventRegistrationToken *"]);
   F "ICoreWebView2_2" (M "" "HRESULT" "remove_WebResourceResponseReceived" [P "in" "EventRegistrationToken"]);
   F "ICoreWebView2_2" (M "" "HRESULT" "NavigateWithWebResourceRequest" [P "in" "ICoreWebView2WebResourceRequest *"]);
   F "ICoreWebView2_2" (M "" "HRESULT" "add_DOMContentLoaded" [P "in" "ICoreWebView2DOMContentLoadedEventHandler *"; P "out" "EventRegistrationToken *"]);
   F "ICoreWebView2_2" (M "" "HRESULT" "remove_DOMContentLoaded" [P "in" "EventRegistrationToken"]);
   F "ICoreWebView2_2" (M "propget" "HRESULT" "get_CookieManager" [P "retval,out" "ICoreWebView2CookieManager **"]);
   F "ICoreWebView2_2" (M "propget" "HRESULT" "get_Environment" [P "retval,out" "ICoreWebView2Environment **"])].

Definition ICoreWebView2_3_entries : list entry := [
   F "ICoreWebView2_3" (M "" "HRESULT" "TrySuspend" [P "in" "ICoreWebView2TrySuspendCompletedHandler *"]);
   F "ICoreWebView2_3" (M "" "HRESULT" "Resume" []);
   F "ICoreWebView2_3" (M "propget" "HRESULT" "get_IsSuspended" [P "retval,out" "BOOL *"]);
   F "ICoreWebView2_3" (M "" "HRESULT" "SetVirtualHostNameToFolderMapping" [P "in" "LPCWSTR"; P "in" "LPCWSTR"; P "in" "COREWEBVIEW2_HOST_RESOURCE_ACCESS_KIND"]);
   F "ICoreWebView2_3" (M "" "HRESULT" "ClearVirtualHostNameToFolderMapping" [P "in" "LPCWSTR"])].

Definition ICoreWebView2_4_entries : list entry := [
   F "ICoreWebView2_4" (M "" "HRESULT" "add_FrameCreated" [P "in" "ICoreWebView2FrameCreatedEventHandler *"; P "out" "EventRegistrationToken *"]);
   F "ICoreWebView2_4" (M "" "HRESULT" "remove_FrameCreated" [P "in" "EventRegistrationToken"]);
   F "ICoreWebView2_4" (M "" "HRESULT" "add_DownloadStarting" [P "in" "ICoreWebView2DownloadStartingEventHandler *"; P "out" "EventRegistrationToken *"]);
   F "ICoreWebView2_4" (M "" "HRESULT" "remove_DownloadStarting" [P "in" "EventRegistrationToken"])].

Definition ICoreWebView2_5_entries : list entry := [
   F "ICoreWebView2_5" (M "" "HRESULT" "add_ClientCertificateRequested" [P "in" "ICoreWebView2ClientCertificateRequestedEventHandler *"; P "out" "EventRegistrationToken *"]);
   F "ICoreWebView2_5" (M "" "HRESULT" "remove_ClientCertificateRequested" [P "in" "EventRegistrationToken"])].

Definition ICoreWebView2_6_entries : list entry := [
   F "ICoreWebView2_6" (M "" "HRESULT" "OpenTaskManagerWindow" [])].

Definition ICoreWebView2_7_entries : list entry := [
   F "ICoreWebView2_7" (M "" "HRESULT" "PrintToPdf" [P "in" "LPCWSTR"; P "in" "ICoreWebView2PrintSettings *"; P "in" "ICoreWebView2PrintToPdfCompletedHandler *"])].

Definition ICoreWebView2_8_entries : list entry := [
   F "ICoreWebView2_8" (M "" "HRESULT" "add_IsMutedChanged" [P "in" "ICoreWebView2IsMutedChangedEventHandler *"; P "out" "EventRegistrationToken *"]);
   F "ICoreWebView2_8" (M "" "HRESULT" "remove_IsMutedChanged" [P "in" "EventRegistrationToken"]);
   F "ICoreWebView2_8" (M "propget" "HRESULT" "get_IsMuted" [P "retval,out" "BOOL *"]);
   F "ICoreWebView2_8" (M "propput" "HRESULT" "put_IsMuted" [P "in" "BOOL"]);
   F "ICoreWebView2_8" (M "" "HRESULT" "add_IsDocumentPlayingAudioChanged" [P "in" "ICoreWebView2IsDocumentPlayingAudioChangedEventHandler *"; P "out" "EventRegistrationToken *"]);
   F "ICoreWebView2_8" (M "" "HRESULT" "remove_IsDocumentPlayingAudioChanged" [P "in" "EventRegistrationToken"]);
   F "ICoreWebView2_8" (M "propget" "HRESULT" "get_IsDocumentPlayingAudio" [P "retval,out" "BOOL *"])].

Definition ICoreWebView2_9_entries : list entry := [
   F "ICoreWebView2_9" (M "" "HRESULT" "add_IsDefaultDownloadDialogOpenChanged" [P "in" "ICoreWebView2IsDefaultDownloadDialogOpenChangedEventHandler *"; P "out" "EventRegistrationToken *"]);
   F "ICoreWebView2_9" (M "" "HRESULT" "remove_IsDefaultDownloadDialogOpenChanged" [P "in" "EventRegistrationToken"]);
   F "ICoreWebView2_9" (M "propget" "HRESULT" "get_IsDefaultDownloadDialogOpen" [P "retval,out" "BOOL *"]);
   F "ICoreWebView2_9" (M "" "HRESULT" "OpenDefaultDownloadDialog" []);
   F "ICoreWebView2_9" (M "" "HRESULT" "CloseDefaultDownloadDialog" []);
   F "ICoreWebView2_9" (M "propget" "HRESULT" "get_DefaultDownloadDialogCornerAlignment" [P "retval,out" "COREWEBVIEW2_DEFAULT_DOWNLOAD_DIALOG_CORNER_ALIGNMENT *"]);
   F "ICoreWebView2_9" (M "propput" "HRESULT" "put_DefaultDownloadDialogCornerAlignment" [P "in" "COREWEBVIEW2_DEFAULT_DOWNLOAD_DIALOG_CORNER_ALIGNMENT"]);
   F "ICoreWebView2_9" (M "propget" "HRESULT" "get_DefaultDownloadDialogMargin" [P "retval,out" "POINT *"]);
   F "ICoreWebView2_9" (M "propput" "HRESULT" "put_DefaultDownloadDialogMargin" [P "in" "POINT"])].

Definition ICoreWebView2_10_entries : list entry := [
   F "ICoreWebView2_10" (M "" "HRESULT" "add_BasicAuthenticationRequested" [P "in" "ICoreWebView2BasicAuthenticationRequestedEventHandler *"; P "out" "EventRegistrationToken *"]);
   F "ICoreWebView2_10" (M "" "HRESULT" "remove_BasicAuthenticationRequested" [P "in" "EventRegistrationToken"])].

Definition ICoreWebView2_11_entries : list entry := [
   F "ICoreWebView2_11" (M "" "HRESULT" "CallDevToolsProtocolMethodForSession" [P "in" "LPCWSTR"; P "in" "LPCWSTR"; P "in" "LPCWSTR"; P "in" "ICoreWebView2CallDevToolsProtocolMethodCompletedHandler *"]);
   F "ICoreWebView2_11" (M "" "HRESULT" "add_ContextMenuRequested" [P "in" "ICoreWebView2ContextMenuRequestedEventHandler *"; P "out" "EventRegistrationToken *"]);
   F "ICoreWebView2_11" (M "" "HRESULT" "remove_ContextMenuRequested" [P "in" "EventRegistrationToken"])].

Definition ICoreWebView2_12_entries : list entry := [
   F "ICoreWebView2_12" (M "" "HRESULT" "add_StatusBarTextChanged" [P "in" "ICoreWebView2StatusBarTextChangedEventHandler *"; P "out" "EventRegistrationToken *"]);
   F "ICoreWebView2_12" (M "" "HRESULT" "remove_StatusBarTextChanged" [P "in" "EventRegistrationToken"]);
   F "ICoreWebView2_12" (M "propget" "HRESULT" "get_StatusBarText" [P "retval,out" "LPWSTR *"])].

Definition ICoreWebView2_13_entries : list entry := [
   F "ICoreWebView2_13" (M "propget" "HRESULT" "get_Profile" [P "retval,out" "ICoreWebView2Profile **"])].

Definition ICoreWebView2_14_entries : list entry := [
   F "ICoreWebView2_14" (M "" "HRESULT" "add_ServerCertificateErrorDetected" [P "in" "ICoreWebView2ServerCertificateErrorDetectedEventHandler *"; P "out" "EventRegistrationToken *"]);
   F "ICoreWebView2_14" (M "" "HRESULT" "remove_ServerCertificateErrorDetected" [P "in" "EventRegistrationToken"]);
   F "ICoreWebView2_14" (M "" "HRESULT" "ClearServerCertificateErrorActions" [P "in" "ICoreWebView2ClearServerCertificateErrorActionsCompletedHandler *"])].

Definition ICoreWebView2_15_entries : list entry := [
   F "ICoreWebView2_15" (M "" "HRESULT" "add_FaviconChanged" [P "in" "ICoreWebView2FaviconChangedEventHandler *"; P "out" "EventRegistrationToken *"]);
   F "ICoreWebView2_15" (M "" "HRESULT" "remove_FaviconChanged" [P "in" "EventRegistrationToken"]);
   F "ICoreWebView2_15" (M "propget" "HRESULT" "get_FaviconUri" [P "retval,out" "LPWSTR *"]);
   F "ICoreWebView2_15" (M "" "HRESULT" "GetFavicon" [P "in" "COREWEBVIEW2_FAVICON_IMAGE_FORMAT"; P "in" "ICoreWebView2GetFaviconCompletedHandler *"])].

Definition ICoreWebView2_16_entries : list entry := [
   F "ICoreWebView2_16" (M "" "HRESULT" "Print" [P "in" "ICoreWebView2PrintSettings *"; P "in" "ICoreWebView2PrintCompletedHandler *"]);
   F "ICoreWebView2_16" (M "" "HRESULT" "ShowPrintUI" [P "in" "COREWEBVIEW2_PRINT_DIALOG_KIND"]);
   F "ICoreWebView2_16" (M "" "HRESULT" "PrintToPdfStream" [P "in" "ICoreWebView2PrintSettings *"; P "in" "ICoreWebView2PrintToPdfStreamCompletedHandler *"])].

Definition ICoreWebView2_17_entries : list entry := [
   F "ICoreWebView2_17" (M "" "HRESULT" "PostSharedBufferToScript" [P "in" "ICoreWebView2SharedBuffer *"; P "in" "COREWEBVIEW2_SHARED_BUFFER_ACCESS"; P "in" "LPCWSTR"])].

Definition ICoreWebView2_18_entries : list entry := [
   F "ICoreWebView2_18" (M "" "HRESULT" "add_LaunchingExternalUriScheme" [P "in" "ICoreWebView2LaunchingExternalUriSchemeEventHandler *"; P "out" "EventRegistrationToken *"]);
   F "ICoreWebView2_18" (M "" "HRESULT" "remove_LaunchingExternalUriScheme" [P "in" "EventRegistrationToken"])].

Definition ICoreWebView2_19_entries : list entry := [
   F "ICoreWebView2_19" (M "propget" "HRESULT" "get_MemoryUsageTargetLevel" [P "retval,out" "COREWEBVIEW2_MEMORY_USAGE_TARGET_LEVEL *"]);
   F "ICoreWebView2_19" (M "propput" "HRESULT" "put_MemoryUsageTargetLevel" [P "in" "COREWEBVIEW2_MEMORY_USAGE_TARGET_LEVEL"])].

Definition ICoreWebView2_20_entries : list entry := [
   F "ICoreWebView2_20" (M "propget" "HRESULT" "get_FrameId" [P "retval,out" "UINT32 *"])].

Definition ICoreWebView2_21_entries : list entry := [
   F "ICoreWebView2_21" (M "" "HRESULT" "ExecuteScriptWithResult" [P "in" "LPCWSTR"; P "in" "ICoreWebView2ExecuteScriptWithResultCompletedHandler *"])].

Definition ICoreWebView2_22_entries : list entry := [
   F "ICoreWebView2_22" (M "" "HRESULT" "AddWebResourceRequestedFilterWithRequestSourceKinds" [P "in" "const LPCWSTR"; P "in" "const COREWEBVIEW2_WEB_RESOURCE_CONTEXT"; P "in" "const COREWEBVIEW2_WEB_RESOURCE_REQUEST_SOURCE_KINDS"]);
   F "ICoreWebView2_22" (M "" "HRESULT" "RemoveWebResourceRequestedFilterWithRequestSourceKinds" [P "in" "const LPCWSTR"; P "in" "const COREWEBVIEW2_WEB_RESOURCE_CONTEXT"; P "in" "const COREWEBVIEW2_WEB_RESOURCE_REQUEST_SOURCE_KINDS"])].

Definition ICoreWebView2BasicAuthenticationRequestedEventArgs_entries : list entry := [
   F "ICoreWebView2BasicAuthenticationRequestedEventArgs" (M "propget" "HRESULT" "get_Uri" [P "retval,out" "LPWSTR *"]);
   F "ICoreWebView2BasicAuthenticationRequestedEventArgs" (M "propget" "HRESULT" "get_Challenge" [P "retval,out" "LPWSTR *"]);
   F "ICoreWebView2BasicAuthenticationRequestedEventArgs" (M "propget" "HRESULT" "get_Response" [P "retval,out" "ICoreWebView2BasicAuthenticationResponse **"]);
   F "ICoreWebView2BasicAuthenticationRequestedEventArgs" (M "propget" "HRESULT" "get_Cancel" [P "retval,out" "BOOL *"]);
   F "ICoreWebView2BasicAuthenticationRequestedEventArgs" (M "propput" "HRESULT" "put_Cancel" [P "in" "BOOL"]);
   F "ICoreWebView2BasicAuthenticationRequestedEventArgs" (M "" "HRESULT" "GetDeferral" [P "retval,out" "ICoreWebView2Deferral **"])].

Definition ICoreWebView2BasicAuthenticationRequestedEventHandler_entries : list entry := [
   F "ICoreWebView2BasicAuthenticationRequestedEventHandler" (M "" "HRESULT" "Invoke" [P "in" "ICoreWebView2 *"; P "in" "ICoreWebView2BasicAuthenticationRequestedEventArgs *"])].

Definition ICoreWebView2BasicAuthenticationResponse_entries : list entry := [
   F "ICoreWebView2BasicAuthenticationResponse" (M "propget" "HRESULT" "get_UserName" [P "retval,out" "LPWSTR *"]);
   F "ICoreWebView2BasicAuthenticationResponse" (M "propput" "HRESULT" "put_UserName" [P "in" "LPCWSTR"]);
   F "ICoreWebView2BasicAuthenticationResponse" (M "propget" "HRESULT" "get_Password" [P "retval,out" "LPWSTR *"]);
   F "ICoreWebView2BasicAuthenticationResponse" (M "propput" "HRESULT" "put_Password" [P "in" "LPCWSTR"])].

Definition ICoreWebView2BrowserProcessExitedEventArgs_entries : list entry := [
   F "ICoreWebView2BrowserProcessExitedEventArgs" (M "propget" "HRESULT" "get_BrowserProcessExitKind" [P "retval,out" "COREWEBVIEW2_BROWSER_PROCESS_EXIT_KIND *"]);
   F "ICoreWebView2BrowserProcessExitedEventArgs" (M "propget" "HRESULT" "get_BrowserProcessId" [P "retval,out" "UINT32 *"])].

Definition ICoreWebView2BrowserProcessExitedEventHandler_entries : list entry := [
   F "ICoreWebView2BrowserProcessExitedEventHandler" (M "" "HRESULT" "Invoke" [P "in" "ICoreWebView2Environment *"; P "in" "ICoreWebView2BrowserProcessExitedEventArgs *"])].

Definition ICoreWebView2BytesReceivedChangedEventHandler_entries : list entry := [
   F "ICoreWebView2BytesReceivedChangedEventHandler" (M "" "HRESULT" "Invoke" [P "in" "ICoreWebView2DownloadOperation *"; P "in" "IUnknown *"])].

Definition ICoreWebView2CompositionController_entries : list entry := [
   F "ICoreWebView2CompositionController" (M "propget" "HRESULT" "get_RootVisualTarget" [P "retval,out" "IUnknown **"]);
   F "ICoreWebView2CompositionController" (M "propput" "HRESULT" "put_RootVisualTarget" [P "in" "IUnknown *"]);
   F "ICoreWebView2CompositionController" (M "" "HRESULT" "SendMouseInput" [P "in" "COREWEBVIEW2_MOUSE_EVENT_KIND"; P "in" "COREWEBVIEW2_MOUSE_EVENT_VIRTUAL_KEYS"; P "in" "UINT32"; P "in" "POINT"]);
   F "ICoreWebView2CompositionController" (M "" "HRESULT" "SendPointerInput" [P "in" "COREWEBVIEW2_POINTER_EVENT_KIND"; P "in" "ICoreWebView2PointerInfo *"]);
   F "ICoreWebView2CompositionController" (M "propget" "HRESULT" "get_Cursor" [P "retval,out" "HCURSOR *"]);
   F "ICoreWebView2CompositionController" (M "propget" "HRESULT" "get_SystemCursorId" [P "retval,out" "UINT32 *"]);
   F "ICoreWebView2CompositionController" (M "" "HRESULT" "add_CursorChanged" [P "in" "ICoreWebView2CursorChangedEventHandler *"; P "out" "EventRegistrationToken *"]);
   F "ICoreWebView2CompositionController" (M "" "HRESULT" "remove_CursorChanged" [P "in" "EventRegistrationToken"])].

Definition ICoreWebView2CompositionController2_entries : list entry := [
   F "ICoreWebView2CompositionController2" (M "propget" "HRESULT" "get_AutomationProvider" [P "retval,out" "IUnknown **"])].

Definition ICoreWebView2CompositionController3_entries : list entry := [
   F "ICoreWebView2CompositionController3" (M "" "HRESULT" "DragEnter" [P "in" "IDataObject *"; P "in" "DWORD"; P "in" "POINT"; P "retval,out" "DWORD *"]);
   F "ICoreWebView2CompositionController3" (M "" "HRESULT" "DragLeave" []);
   F "ICoreWebView2CompositionController3" (M "" "HRESULT" "DragOver" [P "in" "DWORD"; P "in" "POINT"; P "retval,out" "DWORD *"]);
   F "ICoreWebView2CompositionController3" (M "" "HRESULT" "Drop" [P "in" "IDataObject *"; P "in" "DWORD"; P "in" "POINT"; P "retval,out" "DWORD *"])].

Definition ICoreWebView2Controller_entries : list entry := [
   F "ICoreWebView2Controller" (M "propget" "HRESULT" "get_IsVisible" [P "retval,out" "BOOL *"]);
   F "ICoreWebView2Controller" (M "propput" "HRESULT" "put_IsVisible" [P "in" "BOOL"]);
   F "ICoreWebView2Controller" (M "propget" "HRESULT" "get_Bounds" [P "retval,out" "RECT *"]);
   F "ICoreWebView2Controller" (M "propput" "HRESULT" "put_Bounds" [P "in" "RECT"]);
   F "ICoreWebView2Controller" (M "propget" "HRESULT" "get_ZoomFactor" [P "retval,out" "double *"]);
   F "ICoreWebView2Controller" (M "propput" "HRESULT" "put_ZoomFactor" [P "in" "double"]);
   F "ICoreWebView2Controller" (M "" "HRESULT" "add_ZoomFactorChanged" [P "in" "ICoreWebView2ZoomFactorChangedEventHandler *"; P "out" "EventRegistrationToken *"]);
   F "ICoreWebView2Controller" (M "" "HRESULT" "remove_ZoomFactorChanged" [P "in" "EventRegistrationToken"]);
   F "ICoreWebView2Controller" (M "" "HRESULT" "SetBoundsAndZoomFactor" [P "in" "RECT"; P "in" "double"]);
   F "ICoreWebView2Controller" (M "" "HRESULT" "MoveFocus" [P "in" "COREWEBVIEW2_MOVE_FOCUS_REASON"]);
   F "ICoreWebView2Controller" (M "" "HRESULT" "add_MoveFocusRequested" [P "in" "ICoreWebView2MoveFocusRequestedEventHandler *"; P "out" "EventRegistrationToken *"]);
   F "ICoreWebView2Controller" (M "" "HRESULT" "remove_MoveFocusRequested" [P "in" "EventRegistrationToken"]);
   F "ICoreWebView2Controller" (M "" "HRESULT" "add_GotFocus" [P "in" "ICoreWebView2FocusChangedEventHandler *"; P "out" "EventRegistrationToken *"]);
   F "ICoreWebView2Controller" (M "" "HRESULT" "remove_GotFocus" [P "in" "EventRegistrationToken"]);
   F "ICoreWebView2Controller" (M "" "HRESULT" "add_LostFocus" [P "in" "ICoreWebView2FocusChangedEventHandler *"; P "out" "EventRegistrationToken *"]);
   F "ICoreWebView2Controller" (M "" "HRESULT" "remove_LostFocus" [P "in" "EventRegistrationToken"]);
   F "ICoreWebView2Controller" (M "" "HRESULT" "add_AcceleratorKeyPressed" [P "in" "ICoreWebView2AcceleratorKeyPressedEventHandler *"; P "out" "EventRegistrationToken *"]);
   F "ICoreWebView2Controller" (M "" "HRESULT" "remove_AcceleratorKeyPressed" [P "in" "EventRegistrationToken"]);
   F "ICoreWebView2Controller" (M "propget" "HRESULT" "get_ParentWindow" [P "retval,out" "HWND *"]);
   F "ICoreWebView2Controller" (M "propput" "HRESULT" "put_ParentWindow" [P "in" "HWND"]);
   F "ICoreWebView2Controller" (M "" "HRESULT" "NotifyParentWindowPositionChanged" []);
   F "ICoreWebView2Controller" (M "" "HRESULT" "Close" []);
   F "ICoreWebView2Controller" (M "propget" "HRESULT" "get_CoreWebView2" [P "retval,out" "ICoreWebView2 **"])].

Definition ICoreWebView2Controller2_entries : list entry := [
   F "ICoreWebView2Controller2" (M "propget" "HRESULT" "get_DefaultBackgroundColor" [P "retval,out" "COREWEBVIEW2_COLOR *"]);
   F "ICoreWebView2Controller2" (M "propput" "HRESULT" "put_DefaultBackgroundColor" [P "in" "COREWEBVIEW2_COLOR"])].

Definition ICoreWebView2Controller3_entries : list entry := [
   F "ICoreWebView2Controller3" (M "propget" "HRESULT" "get_RasterizationScale" [P "retval,out" "double *"]);
   F "ICoreWebView2Controller3" (M "propput" "HRESULT" "put_RasterizationScale" [P "in" "double"]);
   F "ICoreWebView2Controller3" (M "propget" "HRESULT" "get_ShouldDetectMonitorScaleChanges" [P "retval,out" "BOOL *"]);
   F "ICoreWebView2Controller3" (M "propput" "HRESULT" "put_ShouldDetectMonitorScaleChanges" [P "in" "BOOL"]);
   F "ICoreWebView2Controller3" (M "" "HRESULT" "add_RasterizationScaleChanged" [P "in" "ICoreWebView2RasterizationScaleChangedEventHandler *"; P "out" "EventRegistrationToken *"]);
   F "ICoreWebView2Controller3" (M "" "HRESULT" "remove_RasterizationScaleChanged" [P "in" "EventRegistrationToken"]);
   F "ICoreWebView2Controller3" (M "propget" "HRESULT" "get_BoundsMode" [P "retval,out" "COREWEBVIEW2_BOUNDS_MODE *"]);
   F "ICoreWebView2Controller3" (M "propput" "HRESULT" "put_BoundsMode" [P "in" "COREWEBVIEW2_BOUNDS_MODE"])].

Definition ICoreWebView2Controller4_entries : list entry := [
   F "ICoreWebView2Controller4" (M "propget" "HRESULT" "get_AllowExternalDrop" [P "retval,out" "BOOL *"]);
   F "ICoreWebView2Controller4" (M "propput" "HRESULT" "put_AllowExternalDrop" [P "in" "BOOL"])].

Definition ICoreWebView2ControllerOptions_entries : list entry := [
   F "ICoreWebView2ControllerOptions" (M "propget" "HRESULT" "get_ProfileName" [P "retval,out" "LPWSTR *"]);
   F "ICoreWebView2ControllerOptions" (M "propput" "HRESULT" "put_ProfileName" [P "in" "LPCWSTR"]);
   F "ICoreWebView2ControllerOptions" (M "propget" "HRESULT" "get_IsInPrivateModeEnabled" [P "retval,out" "BOOL *"]);
   F "ICoreWebView2ControllerOptions" (M "propput" "HRESULT" "put_IsInPrivateModeEnabled" [P "in" "BOOL"])].

Definition ICoreWebView2ControllerOptions2_entries : list entry := [
   F "ICoreWebView2ControllerOptions2" (M "propget" "HRESULT" "get_ScriptLocale" [P "retval,out" "LPWSTR *"]);
   F "ICoreWebView2ControllerOptions2" (M "propput" "HRESULT" "put_ScriptLocale" [P "in" "LPCWSTR"])].

Definition ICoreWebView2ContentLoadingEventArgs_entries : list entry := [
   F "ICoreWebView2ContentLoadingEventArgs" (M "propget" "HRESULT" "get_IsErrorPage" [P "retval,out" "BOOL *"]);
   F "ICoreWebView2ContentLoadingEventArgs" (M "propget" "HRESULT" "get_NavigationId" [P "retval,out" "UINT64 *"])].

Definition ICoreWebView2ContentLoadingEventHandler_entries : list entry := [
   F "ICoreWebView2ContentLoadingEventHandler" (M "" "HRESULT" "Invoke" [P "in" "ICoreWebView2 *"; P "in" "ICoreWebView2ContentLoadingEventArgs *"])].

Definition ICoreWebView2ContextMenuRequestedEventArgs_entries : list entry := [
   F "ICoreWebView2ContextMenuRequestedEventArgs" (M "propget" "HRESULT" "get_MenuItems" [P "retval,out" "ICoreWebView2ContextMenuItemCollection **"]);
   F "ICoreWebView2ContextMenuRequestedEventArgs" (M "propget" "HRESULT" "get_ContextMenuTarget" [P "retval,out" "ICoreWebView2ContextMenuTarget **"]);
   F "ICoreWebView2ContextMenuRequestedEventArgs" (M "propget" "HRESULT" "get_Location" [P "retval,out" "POINT *"]);
   F "ICoreWebView2ContextMenuRequestedEventArgs" (M "propput" "HRESULT" "put_SelectedCommandId" [P "in" "INT32"]);
   F "ICoreWebView2ContextMenuRequestedEventArgs" (M "propget" "HRESULT" "get_SelectedCommandId" [P "retval,out" "INT32 *"]);
   F "ICoreWebView2ContextMenuRequestedEventArgs" (M "propput" "HRESULT" "put_Handled" [P "in" "BOOL"]);
   F "ICoreWebView2ContextMenuRequestedEventArgs" (M "propget" "HRESULT" "get_Handled" [P "retval,out" "BOOL *"]);
   F "ICoreWebView2ContextMenuRequestedEventArgs" (M "" "HRESULT" "GetDeferral" [P "retval,out" "ICoreWebView2Deferral **"])].

Definition ICoreWebView2ContextMenuRequestedEventHandler_entries : list entry := [
   F "ICoreWebView2ContextMenuRequestedEventHandler" (M "" "HRESULT" "Invoke" [P "in" "ICoreWebView2 *"; P "in" "ICoreWebView2ContextMenuRequestedEventArgs *"])].

Definition ICoreWebView2Cookie_entries : list entry := [
   F "ICoreWebView2Cookie" (M "propget" "HRESULT" "get_Name" [P "retval,out" "LPWSTR *"]);
   F "ICoreWebView2Cookie" (M "propget" "HRESULT" "get_Value" [P "retval,out" "LPWSTR *"]);
   F "ICoreWebView2Cookie" (M "propput" "HRESULT" "put_Value" [P "in" "LPCWSTR"]);
   F "ICoreWebView2Cookie" (M "propget" "HRESULT" "get_Domain" [P "retval,out" "LPWSTR *"]);
   F "ICoreWebView2Cookie" (M "propget" "HRESULT" "get_Path" [P "retval,out" "LPWSTR *"]);
   F "ICoreWebView2Cookie" (M "propget" "HRESULT" "get_Expires" [P "retval,out" "double *"]);
   F "ICoreWebView2Cookie" (M "propput" "HRESULT" "put_Expires" [P "in" "double"]);
   F "ICoreWebView2Cookie" (M "propget" "HRESULT" "get_IsHttpOnly" [P "retval,out" "BOOL *"]);
   F "ICoreWebView2Cookie" (M "propput" "HRESULT" "put_IsHttpOnly" [P "in" "BOOL"]);
   F "ICoreWebView2Cookie" (M "propget" "HRESULT" "get_SameSite" [P "retval,out" "COREWEBVIEW2_COOKIE_SAME_SITE_KIND *"]);
   F "ICoreWebView2Cookie" (M "propput" "HRESULT" "put_SameSite" [P "in" "COREWEBVIEW2_COOKIE_SAME_SITE_KIND"]);
   F "ICoreWebView2Cookie" (M "propget" "HRESULT" "get_IsSecure" [P "retval,out" "BOOL *"]);
   F "ICoreWebView2Cookie" (M "propput" "HRESULT" "put_IsSecure" [P "in" "BOOL"]);
   F "ICoreWebView2Cookie" (M "propget" "HRESULT" "get_IsSession" [P "retval,out" "BOOL *"])].

Definition ICoreWebView2CookieList_entries : list entry := [
   F "ICoreWebView2CookieList" (M "propget" "HRESULT" "get_Count" [P "retval,out" "UINT *"]);
   F "ICoreWebView2CookieList" (M "" "HRESULT" "GetValueAtIndex" [P "in" "UINT"; P "retval,out" "ICoreWebView2Cookie **"])].

Definition ICoreWebView2CookieManager_entries : list entry := [
   F "ICoreWebView2CookieManager" (M "" "HRESULT" "CreateCookie" [P "in" "LPCWSTR"; P "in" "LPCWSTR"; P "in" "LPCWSTR"; P "in" "LPCWSTR"; P "retval,out" "ICoreWebView2Cookie **"]);
   F "ICoreWebView2CookieManager" (M "" "HRESULT" "CopyCookie" [P "in" "ICoreWebView2Cookie *"; P "retval,out" "ICoreWebView2Cookie **"]);
   F "ICoreWebView2CookieManager" (M "" "HRESULT" "GetCookies" [P "in" "LPCWSTR"; P "in" "ICoreWebView2GetCookiesCompletedHandler *"]);
   F "ICoreWebView2CookieManager" (M "" "HRESULT" "AddOrUpdateCookie" [P "in" "ICoreWebView2Cookie *"]);
   F "ICoreWebView2CookieManager" (M "" "HRESULT" "DeleteCookie" [P "in" "ICoreWebView2Cookie *"]);
   F "ICoreWebView2CookieManager" (M "" "HRESULT" "DeleteCookies" [P "in" "LPCWSTR"; P "in" "LPCWSTR"]);
   F "ICoreWebView2CookieManager" (M "" "HRESULT" "DeleteCookiesWithDomainAndPath" [P "in" "LPCWSTR"; P "in" "LPCWSTR"; P "in" "LPCWSTR"]);
   F "ICoreWebView2CookieManager" (M "" "HRESULT" "DeleteAllCookies" [])].

Definition ICoreWebView2Certificate_entries : list entry := [
   F "ICoreWebView2Certificate" (M "propget" "HRESULT" "get_Subject" [P "retval,out" "LPWSTR *"]);
   F "ICoreWebView2Certificate" (M "propget" "HRESULT" "get_Issuer" [P "retval,out" "LPWSTR *"]);
   F "ICoreWebView2Certificate" (M "propget" "HRESULT" "get_ValidFrom" [P "retval,out" "double *"]);
   F "ICoreWebView2Certificate" (M "propget" "HRESULT" "get_ValidTo" [P "retval,out" "double *"]);
   F "ICoreWebView2Certificate" (M "propget" "HRESULT" "get_DerEncodedSerialNumber" [P "retval,out" "LPWSTR *"]);
   F "ICoreWebView2Certificate" (M "propget" "HRESULT" "get_DisplayName" [P "retval,out" "LPWSTR *"]);
   F "ICoreWebView2Certificate" (M "" "HRESULT" "ToPemEncoding" [P "retval,out" "LPWSTR *"]);
   F "ICoreWebView2Certificate" (M "propget" "HRESULT" "get_PemEncodedIssuerCertificateChain" [P "retval,out" "ICoreWebView2StringCollection **"])].

Definition ICoreWebView2ClientCertificate_entries : list entry := [
   F "ICoreWebView2ClientCertificate" (M "propget" "HRESULT" "get_Subject" [P "retval,out" "LPWSTR *"]);
   F "ICoreWebView2ClientCertificate" (M "propget" "HRESULT" "get_Issuer" [P "retval,out" "LPWSTR *"]);
   F "ICoreWebView2ClientCertificate" (M "propget" "HRESULT" "get_ValidFrom" [P "retval,out" "double *"]);
   F "ICoreWebView2ClientCertificate" (M "propget" "HRESULT" "get_ValidTo" [P "retval,out" "double *"]);
   F "ICoreWebView2ClientCertificate" (M "propget" "HRESULT" "get_DerEncodedSerialNumber" [P "retval,out" "LPWSTR *"]);
   F "ICoreWebView2ClientCertificate" (M "propget" "HRESULT" "get_DisplayName" [P "retval,out" "LPWSTR *"]);
   F "ICoreWebView2ClientCertificate" (M "" "HRESULT" "ToPemEncoding" [P "retval,out" "LPWSTR *"]);
   F "ICoreWebView2ClientCertificate" (M "propget" "HRESULT" "get_PemEncodedIssuerCertificateChain" [P "retval,out" "ICoreWebView2StringCollection **"]);
   F "ICoreWebView2ClientCertificate" (M "propget" "HRESULT" "get_Kind" [P "retval,out" "COREWEBVIEW2_CLIENT_CERTIFICATE_KIND *"])].

Definition ICoreWebView2StringCollection_entries : list entry := [
   F "ICoreWebView2StringCollection" (M "propget" "HRESULT" "get_Count" [P "retval,out" "UINT *"]);
   F "ICoreWebView2StringCollection" (M "" "HRESULT" "GetValueAtIndex" [P "in" "UINT"; P "retval,out" "LPWSTR *"])].

Definition ICoreWebView2ClearBrowsingDataCompletedHandler_entries : list entry := [
   F "ICoreWebView2ClearBrowsingDataCompletedHandler" (M "" "HRESULT" "Invoke" [P "in" "HRESULT"])].

Definition ICoreWebView2ClientCertificateCollection_entries : list entry := [
   F "ICoreWebView2ClientCertificateCollection" (M "propget" "HRESULT" "get_Count" [P "retval,out" "UINT *"]);
   F "ICoreWebView2ClientCertificateCollection" (M "" "HRESULT" "GetValueAtIndex" [P "in" "UINT"; P "retval,out" "ICoreWebView2ClientCertificate **"])].

Definition ICoreWebView2ClientCertificateRequestedEventArgs_entries : list entry := [
   F "ICoreWebView2ClientCertificateRequestedEventArgs" (M "propget" "HRESULT" "get_Host" [P "retval,out" "LPWSTR *"]);
   F "ICoreWebView2ClientCertificateRequestedEventArgs" (M "propget" "HRESULT" "get_Port" [P "retval,out" "int *"]);
   F "ICoreWebView2ClientCertificateRequestedEventArgs" (M "propget" "HRESULT" "get_IsProxy" [P "retval,out" "BOOL *"]);
   F "ICoreWebView2ClientCertificateRequestedEventArgs" (M "propget" "HRESULT" "get_AllowedCertificateAuthorities" [P "retval,out" "ICoreWebView2StringCollection **"]);
   F "ICoreWebView2ClientCertificateRequestedEventArgs" (M "propget" "HRESULT" "get_MutuallyTrustedCertificates" [P "retval,out" "ICoreWebView2ClientCertificateCollection **"]);
   F "ICoreWebView2ClientCertificateRequestedEventArgs" (M "propget" "HRESULT" "get_SelectedCertificate" [P "retval,out" "ICoreWebView2ClientCertificate **"]);
   F "ICoreWebView2ClientCertificateRequestedEventArgs" (M "propput" "HRESULT" "put_SelectedCertificate" [P "in" "ICoreWebView2ClientCertificate *"]);
   F "ICoreWebView2ClientCertificateRequestedEventArgs" (M "propget" "HRESULT" "get_Cancel" [P "retval,out" "BOOL *"]);
   F "ICoreWebView2ClientCertificateRequestedEventArgs" (M "propput" "HRESULT" "put_Cancel" [P "in" "BOOL"]);
   F "ICoreWebView2ClientCertificateRequestedEventArgs" (M "propget" "HRESULT" "get_Handled" [P "retval,out" "BOOL *"]);
   F "ICoreWebView2ClientCertificateRequestedEventArgs" (M "propput" "HRESULT" "put_Handled" [P "in" "BOOL"]);
   F "ICoreWebView2ClientCertificateRequestedEventArgs" (M "" "HRESULT" "GetDeferral" [P "retval,out" "ICoreWebView2Deferral **"])].

Definition ICoreWebView2ClientCertificateRequestedEventHandler_entries : list entry := [
   F "ICoreWebView2ClientCertificateRequestedEventHandler" (M "" "HRESULT" "Invoke" [P "in" "ICoreWebView2 *"; P "in" "ICoreWebView2ClientCertificateRequestedEventArgs *"])].

Definition ICoreWebView2ContextMenuItem_entries : list entry := [
   F "ICoreWebView2ContextMenuItem" (M "propget" "HRESULT" "get_Name" [P "retval,out" "LPWSTR *"]);
   F "ICoreWebView2ContextMenuItem" (M "propget" "HRESULT" "get_Label" [P "retval,out" "LPWSTR *"]);
   F "ICoreWebView2ContextMenuItem" (M "propget" "HRESULT" "get_CommandId" [P "retval,out" "INT32 *"]);
   F "ICoreWebView2ContextMenuItem" (M "propget" "HRESULT" "get_ShortcutKeyDescription" [P "retval,out" "LPWSTR *"]);
   F "ICoreWebView2ContextMenuItem" (M "propget" "HRESULT" "get_Icon" [P "retval,out" "IStream **"]);
   F "ICoreWebView2ContextMenuItem" (M "propget" "HRESULT" "get_Kind" [P "retval,out" "COREWEBVIEW2_CONTEXT_MENU_ITEM_KIND *"]);
   F "ICoreWebView2ContextMenuItem" (M "propput" "HRESULT" "put_IsEnabled" [P "in" "BOOL"]);
   F "ICoreWebView2ContextMenuItem" (M "propget" "HRESULT" "get_IsEnabled" [P "retval,out" "BOOL *"]);
   F "ICoreWebView2ContextMenuItem" (M "propput" "HRESULT" "put_IsChecked" [P "in" "BOOL"]);
   F "ICoreWebView2ContextMenuItem" (M "propget" "HRESULT" "get_IsChecked" [P "retval,out" "BOOL *"]);
   F "ICoreWebView2ContextMenuItem" (M "propget" "HRESULT" "get_Children" [P "retval,out" "ICoreWebView2ContextMenuItemCollection **"]);
   F "ICoreWebView2ContextMenuItem" (M "" "HRESULT" "add_CustomItemSelected" [P "in" "ICoreWebView2CustomItemSelectedEventHandler *"; P "out" "EventRegistrationToken *"]);
   F "ICoreWebView2ContextMenuItem" (M "" "HRESULT" "remove_CustomItemSelected" [P "in" "EventRegistrationToken"])].

Definition ICoreWebView2ContextMenuItemCollection_entries : list entry := [
   F "ICoreWebView2ContextMenuItemCollection" (M "propget" "HRESULT" "get_Count" [P "retval,out" "UINT32 *"]);
   F "ICoreWebView2ContextMenuItemCollection" (M "" "HRESULT" "GetValueAtIndex" [P "in" "UINT32"; P "retval,out" "ICoreWebView2ContextMenuItem **"]);
   F "ICoreWebView2ContextMenuItemCollection" (M "" "HRESULT" "RemoveValueAtIndex" [P "in" "UINT32"]);
   F "ICoreWebView2ContextMenuItemCollection" (M "" "HRESULT" "InsertValueAtIndex" [P "in" "UINT32"; P "in" "ICoreWebView2ContextMenuItem *"])].

Definition ICoreWebView2ContextMenuTarget_entries : list entry := [
   F "ICoreWebView2ContextMenuTarget" (M "propget" "HRESULT" "get_Kind" [P "retval,out" "COREWEBVIEW2_CONTEXT_MENU_TARGET_KIND *"]);
   F "ICoreWebView2ContextMenuTarget" (M "propget" "HRESULT" "get_IsEditable" [P "retval,out" "BOOL *"]);
   F "ICoreWebView2ContextMenuTarget" (M "propget" "HRESULT" "get_IsRequestedForMainFrame" [P "retval,out" "BOOL *"]);
   F "ICoreWebView2ContextMenuTarget" (M "propget" "HRESULT" "get_PageUri" [P "retval,out" "LPWSTR *"]);
   F "ICoreWebView2ContextMenuTarget" (M "propget" "HRESULT" "get_FrameUri" [P "retval,out" "LPWSTR *"]);
   F "ICoreWebView2ContextMenuTarget" (M "propget" "HRESULT" "get_HasLinkUri" [P "retval,out" "BOOL *"]);
   F "ICoreWebView2ContextMenuTarget" (M "propget" "HRESULT" "get_LinkUri" [P "retval,out" "LPWSTR *"]);
   F "ICoreWebView2ContextMenuTarget" (M "propget" "HRESULT" "get_HasLinkText" [P "retval,out" "BOOL *"]);
   F "ICoreWebView2ContextMenuTarget" (M "propget" "HRESULT" "get_LinkText" [P "retval,out" "LPWSTR *"]);
   F "ICoreWebView2ContextMenuTarget" (M "propget" "HRESULT" "get_HasSourceUri" [P "retval,out" "BOOL *"]);
   F "ICoreWebView2ContextMenuTarget" (M "propget" "HRESULT" "get_SourceUri" [P "retval,out" "LPWSTR *"]);
   F "ICoreWebView2ContextMenuTarget" (M "propget" "HRESULT" "get_HasSelection" [P "retval,out" "BOOL *"]);
   F "ICoreWebView2ContextMenuTarget" (M "propget" "HRESULT" "get_SelectionText" [P "retval,out" "LPWSTR *"])].

Definition ICoreWebView2ClearServerCertificateErrorActionsCompletedHandler_entries : list entry := [
   F "ICoreWebView2ClearServerCertificateErrorActionsCompletedHandler" (M "" "HRESULT" "Invoke" [P "in" "HRESULT"])].

Definition ICoreWebView2CreateCoreWebView2CompositionControllerCompletedHandler_entries : list entry := [
   F "ICoreWebView2CreateCoreWebView2CompositionControllerCompletedHandler" (M "" "HRESULT" "Invoke" [P "" "HRESULT"; P "" "ICoreWebView2CompositionController *"])].

Definition ICoreWebView2CreateCoreWebView2ControllerCompletedHandler_entries : list entry := [
   F "ICoreWebView2CreateCoreWebView2ControllerCompletedHandler" (M "" "HRESULT" "Invoke" [P "" "HRESULT"; P "" "ICoreWebView2Controller *"])].

Definition ICoreWebView2CreateCoreWebView2EnvironmentCompletedHandler_entries : list entry := [
   F "ICoreWebView2CreateCoreWebView2EnvironmentCompletedHandler" (M "" "HRESULT" "Invoke" [P "" "HRESULT"; P "" "ICoreWebView2Environment *"])].

Definition ICoreWebView2ContainsFullScreenElementChangedEventHandler_entries : list entry := [
   F "ICoreWebView2ContainsFullScreenElementChangedEventHandler" (M "" "HRESULT" "Invoke" [P "in" "ICoreWebView2 *"; P "in" "IUnknown *"])].

Definition ICoreWebView2CursorChangedEventHandler_entries : list entry := [
   F "ICoreWebView2CursorChangedEventHandler" (M "" "HRESULT" "Invoke" [P "in" "ICoreWebView2CompositionController *"; P "in" "IUnknown *"])].

Definition ICoreWebView2CustomItemSelectedEventHandler_entries : list entry := [
   F "ICoreWebView2CustomItemSelectedEventHandler" (M "" "HRESULT" "Invoke" [P "in" "ICoreWebView2ContextMenuItem *"; P "in" "IUnknown *"])].

Definition ICoreWebView2CustomSchemeRegistration_entries : list entry := [
   F "ICoreWebView2CustomSchemeRegistration" (M "propget" "HRESULT" "get_SchemeName" [P "retval,out" "LPWSTR *"]);
   F "ICoreWebView2CustomSchemeRegistration" (M "propget" "HRESULT" "get_TreatAsSecure" [P "retval,out" "BOOL *"]);
   F "ICoreWebView2CustomSchemeRegistration" (M "propput" "HRESULT" "put_TreatAsSecure" [P "in" "BOOL"]);
   F "ICoreWebView2CustomSchemeRegistration" (M "" "HRESULT" "GetAllowedOrigins" [P "out" "UINT32 *"; P "out" "LPWSTR **"]);
   F "ICoreWebView2CustomSchemeRegistration" (M "" "HRESULT" "SetAllowedOrigins" [P "in" "UINT32"; P "in" "LPCWSTR *"]);
   F "ICoreWebView2CustomSchemeRegistration" (M "propget" "HRESULT" "get_HasAuthorityComponent" [P "retval,out" "BOOL *"]);
   F "ICoreWebView2CustomSchemeRegistration" (M "propput" "HRESULT" "put_HasAuthorityComponent" [P "in" "BOOL"])].

Definition ICoreWebView2DocumentTitleChangedEventHandler_entries : list entry := [
   F "ICoreWebView2DocumentTitleChangedEventHandler" (M "" "HRESULT" "Invoke" [P "in" "ICoreWebView2 *"; P "in" "IUnknown *"])].

Definition ICoreWebView2DOMContentLoadedEventArgs_entries : list entry := [
   F "ICoreWebView2DOMContentLoadedEventArgs" (M "propget" "HRESULT" "get_NavigationId" [P "retval,out" "UINT64 *"])].

Definition ICoreWebView2DOMContentLoadedEventHandler_entries : list entry := [
   F "ICoreWebView2DOMContentLoadedEventHandler" (M "" "HRESULT" "Invoke" [P "in" "ICoreWebView2 *"; P "in" "ICoreWebView2DOMContentLoadedEventArgs *"])].

Definition ICoreWebView2Deferral_entries : list entry := [
   F "ICoreWebView2Deferral" (M "" "HRESULT" "Complete" [])].

Definition ICoreWebView2DevToolsProtocolEventReceivedEventArgs_entries : list entry := [
   F "ICoreWebView2DevToolsProtocolEventReceivedEventArgs" (M "propget" "HRESULT" "get_ParameterObjectAsJson" [P "retval,out" "LPWSTR *"])].

Definition ICoreWebView2DevToolsProtocolEventReceivedEventArgs2_entries : list entry := [
   F "ICoreWebView2DevToolsProtocolEventReceivedEventArgs2" (M "propget" "HRESULT" "get_SessionId" [P "retval,out" "LPWSTR *"])].

Definition ICoreWebView2DevToolsProtocolEventReceivedEventHandler_entries : list entry := [
   F "ICoreWebView2DevToolsProtocolEventReceivedEventHandler" (M "" "HRESULT" "Invoke" [P "in" "ICoreWebView2 *"; P "in" "ICoreWebView2DevToolsProtocolEventReceivedEventArgs *"])].

Definition ICoreWebView2DevToolsProtocolEventReceiver_entries : list entry := [
   F "ICoreWebView2DevToolsProtocolEventReceiver" (M "" "HRESULT" "add_DevToolsProtocolEventReceived" [P "in" "ICoreWebView2DevToolsProtocolEventReceivedEventHandler *"; P "out" "EventRegistrationToken *"]);
   F "ICoreWebView2DevToolsProtocolEventReceiver" (M "" "HRESULT" "remove_DevToolsProtocolEventReceived" [P "in" "EventRegistrationToken"])].

Definition ICoreWebView2DownloadOperation_entries : list entry := [
   F "ICoreWebView2DownloadOperation" (M "" "HRESULT" "add_BytesReceivedChanged" [P "in" "ICoreWebView2BytesReceivedChangedEventHandler *"; P "out" "EventRegistrationToken *"]);
   F "ICoreWebView2DownloadOperation" (M "" "HRESULT" "remove_BytesReceivedChanged" [P "in" "EventRegistrationToken"]);
   F "ICoreWebView2DownloadOperation" (M "" "HRESULT" "add_EstimatedEndTimeChanged" [P "in" "ICoreWebView2EstimatedEndTimeChangedEventHandler *"; P "out" "EventRegistrationToken *"]);
   F "ICoreWebView2DownloadOperation" (M "" "HRESULT" "remove_EstimatedEndTimeChanged" [P "in" "EventRegistrationToken"]);
   F "ICoreWebView2DownloadOperation" (M "" "HRESULT" "add_StateChanged" [P "in" "ICoreWebView2StateChangedEventHandler *"; P "out" "EventRegistrationToken *"]);
   F "ICoreWebView2DownloadOperation" (M "" "HRESULT" "remove_StateChanged" [P "in" "EventRegistrationToken"]);
   F "ICoreWebView2DownloadOperation" (M "propget" "HRESULT" "get_Uri" [P "retval,out" "LPWSTR *"]);
   F "ICoreWebView2DownloadOperation" (M "propget" "HRESULT" "get_ContentDisposition" [P "retval,out" "LPWSTR *"]);
   F "ICoreWebView2DownloadOperation" (M "propget" "HRESULT" "get_MimeType" [P "retval,out" "LPWSTR *"]);
   F "ICoreWebView2DownloadOperation" (M "propget" "HRESULT" "get_TotalBytesToReceive" [P "retval,out" "INT64 *"]);
   F "ICoreWebView2DownloadOperation" (M "propget" "HRESULT" "get_BytesReceived" [P "retval,out" "INT64 *"]);
   F "ICoreWebView2DownloadOperation" (M "propget" "HRESULT" "get_EstimatedEndTime" [P "retval,out" "LPWSTR *"]);
   F "ICoreWebView2DownloadOperation" (M "propget" "HRESULT" "get_ResultFilePath" [P "retval,out" "LPWSTR *"]);
   F "ICoreWebView2DownloadOperation" (M "propget" "HRESULT" "get_State" [P "retval,out" "COREWEBVIEW2_DOWNLOAD_STATE *"]);
   F "ICoreWebView2DownloadOperation" (M "propget" "HRESULT" "get_InterruptReason" [P "retval,out" "COREWEBVIEW2_DOWNLOAD_INTERRUPT_REASON *"]);
   F "ICoreWebView2DownloadOperation" (M "" "HRESULT" "Cancel" []);
   F "ICoreWebView2DownloadOperation" (M "" "HRESULT" "Pause" []);
   F "ICoreWebView2DownloadOperation" (M "" "HRESULT" "Resume" []);
   F "ICoreWebView2DownloadOperation" (M "propget" "HRESULT" "get_CanResume" [P "retval,out" "BOOL *"])].

Definition ICoreWebView2DownloadStartingEventArgs_entries : list entry := [
   F "ICoreWebView2DownloadStartingEventArgs" (M "propget" "HRESULT" "get_DownloadOperation" [P "retval,out" "ICoreWebView2DownloadOperation **"]);
   F "ICoreWebView2DownloadStartingEventArgs" (M "propget" "HRESULT" "get_Cancel" [P "retval,out" "BOOL *"]);
   F "ICoreWebView2DownloadStartingEventArgs" (M "propput" "HRESULT" "put_Cancel" [P "in" "BOOL"]);
   F "ICoreWebView2DownloadStartingEventArgs" (M "propget" "HRESULT" "get_ResultFilePath" [P "retval,out" "LPWSTR *"]);
   F "ICoreWebView2DownloadStartingEventArgs" (M "propput" "HRESULT" "put_ResultFilePath" [P "in" "LPCWSTR"]);
   F "ICoreWebView2DownloadStartingEventArgs" (M "propget" "HRESULT" "get_Handled" [P "retval,out" "BOOL *"]);
   F "ICoreWebView2DownloadStartingEventArgs" (M "propput" "HRESULT" "put_Handled" [P "in" "BOOL"]);
   F "ICoreWebView2DownloadStartingEventArgs" (M "" "HRESULT" "GetDeferral" [P "retval,out" "ICoreWebView2Deferral **"])].

Definition ICoreWebView2DownloadStartingEventHandler_entries : list entry := [
   F "ICoreWebView2DownloadStartingEventHandler" (M "" "HRESULT" "Invoke" [P "in" "ICoreWebView2 *"; P "in" "ICoreWebView2DownloadStartingEventArgs *"])].

Definition ICoreWebView2Environment_entries : list entry := [
   F "ICoreWebView2Environment" (M "" "HRESULT" "CreateCoreWebView2Controller" [P "" "HWND"; P "" "ICoreWebView2CreateCoreWebView2ControllerCompletedHandler *"]);
   F "ICoreWebView2Environment" (M "" "HRESULT" "CreateWebResourceResponse" [P "in" "IStream *"; P "in" "int"; P "in" "LPCWSTR"; P "in" "LPCWSTR"; P "retval,out" "ICoreWebView2WebResourceResponse **"]);
   F "ICoreWebView2Environment" (M "propget" "HRESULT" "get_BrowserVersionString" [P "retval,out" "LPWSTR *"]);
   F "ICoreWebView2Environment" (M "" "HRESULT" "add_NewBrowserVersionAvailable" [P "in" "ICoreWebView2NewBrowserVersionAvailableEventHandler *"; P "out" "EventRegistrationToken *"]);
   F "ICoreWebView2Environment" (M "" "HRESULT" "remove_NewBrowserVersionAvailable" [P "in" "EventRegistrationToken"])].

Definition ICoreWebView2Environment2_entries : list entry := [
   F "ICoreWebView2Environment2" (M "" "HRESULT" "CreateWebResourceRequest" [P "in" "LPCWSTR"; P "in" "LPCWSTR"; P "in" "IStream *"; P "in" "LPCWSTR"; P "retval,out" "ICoreWebView2WebResourceRequest **"])].

Definition ICoreWebView2Environment3_entries : list entry := [
   F "ICoreWebView2Environment3" (M "" "HRESULT" "CreateCoreWebView2CompositionController" [P "" "HWND"; P "" "ICoreWebView2CreateCoreWebView2CompositionControllerCompletedHandler *"]);
   F "ICoreWebView2Environment3" (M "" "HRESULT" "CreateCoreWebView2PointerInfo" [P "retval,out" "ICoreWebView2PointerInfo **"])].

Definition ICoreWebView2Environment4_entries : list entry := [
   F "ICoreWebView2Environment4" (M "" "HRESULT" "GetAutomationProviderForWindow" [P "in" "HWND"; P "retval,out" "IUnknown **"])].

Definition ICoreWebView2Environment5_entries : list entry := [
   F "ICoreWebView2Environment5" (M "" "HRESULT" "add_BrowserProcessExited" [P "in" "ICoreWebView2BrowserProcessExitedEventHandler *"; P "out" "EventRegistrationToken *"]);
   F "ICoreWebView2Environment5" (M "" "HRESULT" "remove_BrowserProcessExited" [P "in" "EventRegistrationToken"])].

Definition ICoreWebView2Environment6_entries : list entry := [
   F "ICoreWebView2Environment6" (M "" "HRESULT" "CreatePrintSettings" [P "retval,out" "ICoreWebView2PrintSettings **"])].

Definition ICoreWebView2Environment7_entries : list entry := [
   F "ICoreWebView2Environment7" (M "propget" "HRESULT" "get_UserDataFolder" [P "retval,out" "LPWSTR *"])].

Definition ICoreWebView2Environment8_entries : list entry := [
   F "ICoreWebView2Environment8" (M "" "HRESULT" "add_ProcessInfosChanged" [P "in" "ICoreWebView2ProcessInfosChangedEventHandler *"; P "out" "EventRegistrationToken *"]);
   F "ICoreWebView2Environment8" (M "" "HRESULT" "remove_ProcessInfosChanged" [P "in" "EventRegistrationToken"]);
   F "ICoreWebView2Environment8" (M "" "HRESULT" "GetProcessInfos" [P "retval,out" "ICoreWebView2ProcessInfoCollection **"])].

Definition ICoreWebView2Environment9_entries : list entry := [
   F "ICoreWebView2Environment9" (M "" "HRESULT" "CreateContextMenuItem" [P "in" "LPCWSTR"; P "in" "IStream *"; P "in" "COREWEBVIEW2_CONTEXT_MENU_ITEM_KIND"; P "retval,out" "ICoreWebView2ContextMenuItem **"])].

Definition ICoreWebView2Environment10_entries : list entry := [
   F "ICoreWebView2Environment10" (M "" "HRESULT" "CreateCoreWebView2ControllerOptions" [P "retval,out" "ICoreWebView2ControllerOptions **"]);
   F "ICoreWebView2Environment10" (M "" "HRESULT" "CreateCoreWebView2ControllerWithOptions" [P "in" "HWND"; P "in" "ICoreWebView2ControllerOptions *"; P "in" "ICoreWebView2CreateCoreWebView2ControllerCompletedHandler *"]);
   F "ICoreWebView2Environment10" (M "" "HRESULT" "CreateCoreWebView2CompositionControllerWithOptions" [P "in" "HWND"; P "in" "ICoreWebView2ControllerOptions *"; P "in" "ICoreWebView2CreateCoreWebView2CompositionControllerCompletedHandler *"])].

Definition ICoreWebView2Environment11_entries : list entry := [
   F "ICoreWebView2Environment11" (M "propget" "HRESULT" "get_FailureReportFolderPath" [P "retval,out" "LPWSTR *"])].

Definition ICoreWebView2Environment12_entries : list entry := [
   F "ICoreWebView2Environment12" (M "" "HRESULT" "CreateSharedBuffer" [P "in" "UINT64"; P "retval,out" "ICoreWebView2SharedBuffer **"])].

Definition ICoreWebView2Environment13_entries : list entry := [
   F "ICoreWebView2Environment13" (M "" "HRESULT" "GetProcessExtendedInfos" [P "in" "ICoreWebView2GetProcessExtendedInfosCompletedHandler *"])].

Definition ICoreWebView2EnvironmentOptions_entries : list entry := [
   F "ICoreWebView2EnvironmentOptions" (M "propget" "HRESULT" "get_AdditionalBrowserArguments" [P "retval,out" "LPWSTR *"]);
   F "ICoreWebView2EnvironmentOptions" (M "propput" "HRESULT" "put_AdditionalBrowserArguments" [P "in" "LPCWSTR"]);
   F "ICoreWebView2EnvironmentOptions" (M "propget" "HRESULT" "get_Language" [P "retval,out" "LPWSTR *"]);
   F "ICoreWebView2EnvironmentOptions" (M "propput" "HRESULT" "put_Language" [P "in" "LPCWSTR"]);
   F "ICoreWebView2EnvironmentOptions" (M "propget" "HRESULT" "get_TargetCompatibleBrowserVersion" [P "retval,out" "LPWSTR *"]);
   F "ICoreWebView2EnvironmentOptions" (M "propput" "HRESULT" "put_TargetCompatibleBrowserVersion" [P "in" "LPCWSTR"]);
   F "ICoreWebView2EnvironmentOptions" (M "propget" "HRESULT" "get_AllowSingleSignOnUsingOSPrimaryAccount" [P "retval,out" "BOOL *"]);
   F "ICoreWebView2EnvironmentOptions" (M "propput" "HRESULT" "put_AllowSingleSignOnUsingOSPrimaryAccount" [P "in" "BOOL"])].

Definition ICoreWebView2EnvironmentOptions2_entries : list entry := [
   F "ICoreWebView2EnvironmentOptions2" (M "propget" "HRESULT" "get_ExclusiveUserDataFolderAccess" [P "retval,out" "BOOL *"]);
   F "ICoreWebView2EnvironmentOptions2" (M "propput" "HRESULT" "put_ExclusiveUserDataFolderAccess" [P "in" "BOOL"])].

Definition ICoreWebView2EnvironmentOptions3_entries : list entry := [
   F "ICoreWebView2EnvironmentOptions3" (M "propget" "HRESULT" "get_IsCustomCrashReportingEnabled" [P "retval,out" "BOOL *"]);
   F "ICoreWebView2EnvironmentOptions3" (M "propput" "HRESULT" "put_IsCustomCrashReportingEnabled" [P "in" "BOOL"])].

Definition ICoreWebView2EnvironmentOptions4_entries : list entry := [
   F "ICoreWebView2EnvironmentOptions4" (M "" "HRESULT" "GetCustomSchemeRegistrations" [P "out" "UINT32 *"; P "out" "ICoreWebView2CustomSchemeRegistration ***"]);
   F "ICoreWebView2EnvironmentOptions4" (M "" "HRESULT" "SetCustomSchemeRegistrations" [P "in" "UINT32"; P "in" "ICoreWebView2CustomSchemeRegistration **"])].

Definition ICoreWebView2EnvironmentOptions5_entries : list entry := [
   F "ICoreWebView2EnvironmentOptions5" (M "propget" "HRESULT" "get_EnableTrackingPrevention" [P "retval,out" "BOOL *"]);
   F "ICoreWebView2EnvironmentOptions5" (M "propput" "HRESULT" "put_EnableTrackingPrevention" [P "in" "BOOL"])].

Definition ICoreWebView2EnvironmentOptions6_entries : list entry := [
   F "ICoreWebView2EnvironmentOptions6" (M "propget" "HRESULT" "get_AreBrowserExtensionsEnabled" [P "retval,out" "BOOL *"]);
   F "ICoreWebView2EnvironmentOptions6" (M "propput" "HRESULT" "put_AreBrowserExtensionsEnabled" [P "in" "BOOL"])].

Definition ICoreWebView2EstimatedEndTimeChangedEventHandler_entries : list entry := [
   F "ICoreWebView2EstimatedEndTimeChangedEventHandler" (M "" "HRESULT" "Invoke" [P "in" "ICoreWebView2DownloadOperation *"; P "in" "IUnknown *"])].

Definition ICoreWebView2ExecuteScriptCompletedHandler_entries : list entry := [
   F "ICoreWebView2ExecuteScriptCompletedHandler" (M "" "HRESULT" "Invoke" [P "in" "HRESULT"; P "in" "LPCWSTR"])].

Definition ICoreWebView2GetProcessExtendedInfosCompletedHandler_entries : list entry := [
   F "ICoreWebView2GetProcessExtendedInfosCompletedHandler" (M "" "HRESULT" "Invoke" [P "in" "HRESULT"; P "in" "ICoreWebView2ProcessExtendedInfoCollection *"])].

Definition ICoreWebView2ProcessExtendedInfo_entries : list entry := [
   F "ICoreWebView2ProcessExtendedInfo" (M "propget" "HRESULT" "get_ProcessInfo" [P "retval,out" "ICoreWebView2ProcessInfo **"]);
   F "ICoreWebView2ProcessExtendedInfo" (M "propget" "HRESULT" "get_AssociatedFrameInfos" [P "retval,out" "ICoreWebView2FrameInfoCollection **"])].

Definition ICoreWebView2ProcessExtendedInfoCollection_entries : list entry := [
   F "ICoreWebView2ProcessExtendedInfoCollection" (M "propget" "HRESULT" "get_Count" [P "retval,out" "UINT *"]);
   F "ICoreWebView2ProcessExtendedInfoCollection" (M "" "HRESULT" "GetValueAtIndex" [P "in" "UINT32"; P "retval,out" "ICoreWebView2ProcessExtendedInfo **"])].

Definition ICoreWebView2Frame_entries : list entry := [
   F "ICoreWebView2Frame" (M "propget" "HRESULT" "get_Name" [P "retval,out" "LPWSTR *"]);
   F "ICoreWebView2Frame" (M "" "HRESULT" "add_NameChanged" [P "in" "ICoreWebView2FrameNameChangedEventHandler *"; P "out" "EventRegistrationToken *"]);
   F "ICoreWebView2Frame" (M "" "HRESULT" "remove_NameChanged" [P "in" "EventRegistrationToken"]);
   F "ICoreWebView2Frame" (M "" "HRESULT" "AddHostObjectToScriptWithOrigins" [P "in" "LPCWSTR"; P "in" "VARIANT *"; P "in" "UINT32"; P "size_is,in" "LPCWSTR *"]);
   F "ICoreWebView2Frame" (M "" "HRESULT" "RemoveHostObjectFromScript" [P "in" "LPCWSTR"]);
   F "ICoreWebView2Frame" (M "" "HRESULT" "add_Destroyed" [P "in" "ICoreWebView2FrameDestroyedEventHandler *"; P "out" "EventRegistrationToken *"]);
   F "ICoreWebView2Frame" (M "" "HRESULT" "remove_Destroyed" [P "in" "EventRegistrationToken"]);
   F "ICoreWebView2Frame" (M "" "HRESULT" "IsDestroyed" [P "retval,out" "BOOL *"])].

Definition ICoreWebView2Frame2_entries : list entry := [
   F "ICoreWebView2Frame2" (M "" "HRESULT" "add_NavigationStarting" [P "in" "ICoreWebView2FrameNavigationStartingEventHandler *"; P "out" "EventRegistrationToken *"]);
   F "ICoreWebView2Frame2" (M "" "HRESULT" "remove_NavigationStarting" [P "in" "EventRegistrationToken"]);
   F "ICoreWebView2Frame2" (M "" "HRESULT" "add_ContentLoading" [P "in" "ICoreWebView2FrameContentLoadingEventHandler *"; P "out" "EventRegistrationToken *"]);
   F "ICoreWebView2Frame2" (M "" "HRESULT" "remove_ContentLoading" [P "in" "EventRegistrationToken"]);
   F "ICoreWebView2Frame2" (M "" "HRESULT" "add_NavigationCompleted" [P "in" "ICoreWebView2FrameNavigationCompletedEventHandler *"; P "out" "EventRegistrationToken *"]);
   F "ICoreWebView2Frame2" (M "" "HRESULT" "remove_NavigationCompleted" [P "in" "EventRegistrationToken"]);
   F "ICoreWebView2Frame2" (M "" "HRESULT" "add_DOMContentLoaded" [P "in" "ICoreWebView2FrameDOMContentLoadedEventHandler *"; P "out" "EventRegistrationToken *"]);
   F "ICoreWebView2Frame2" (M "" "HRESULT" "remove_DOMContentLoaded" [P "in" "EventRegistrationToken"]);
   F "ICoreWebView2Frame2" (M "" "HRESULT" "ExecuteScript" [P "in" "LPCWSTR"; P "in" "ICoreWebView2ExecuteScriptCompletedHandler *"]);
   F "ICoreWebView2Frame2" (M "" "HRESULT" "PostWebMessageAsJson" [P "in" "LPCWSTR"]);
   F "ICoreWebView2Frame2" (M "" "HRESULT" "PostWebMessageAsString" [P "in" "LPCWSTR"]);
   F "ICoreWebView2Frame2" (M "" "HRESULT" "add_WebMessageReceived" [P "in" "ICoreWebView2FrameWebMessageReceivedEventHandler *"; P "out" "EventRegistrationToken *"]);
   F "ICoreWebView2Frame2" (M "" "HRESULT" "remove_WebMessageReceived" [P "in" "EventRegistrationToken"])].

Definition ICoreWebView2Frame3_entries : list entry := [
   F "ICoreWebView2Frame3" (M "" "HRESULT" "add_PermissionRequested" [P "in" "ICoreWebView2FramePermissionRequestedEventHandler *"; P "out" "EventRegistrationToken *"]);
   F "ICoreWebView2Frame3" (M "" "HRESULT" "remove_PermissionRequested" [P "in" "EventRegistrationToken"])].

Definition ICoreWebView2Frame4_entries : list entry := [
   F "ICoreWebView2Frame4" (M "" "HRESULT" "PostSharedBufferToScript" [P "in" "ICoreWebView2SharedBuffer *"; P "in" "COREWEBVIEW2_SHARED_BUFFER_ACCESS"; P "in" "LPCWSTR"])].

Definition ICoreWebView2Frame5_entries : list entry := [
   F "ICoreWebView2Frame5" (M "propget" "HRESULT" "get_FrameId" [P "retval,out" "UINT32 *"])].

Definition ICoreWebView2FrameContentLoadingEventHandler_entries : list entry := [
   F "ICoreWebView2FrameContentLoadingEventHandler" (M "" "HRESULT" "Invoke" [P "in" "ICoreWebView2Frame *"; P "in" "ICoreWebView2ContentLoadingEventArgs *"])].

Definition ICoreWebView2FrameCreatedEventArgs_entries : list entry := [
   F "ICoreWebView2FrameCreatedEventArgs" (M "propget" "HRESULT" "get_Frame" [P "retval,out" "ICoreWebView2Frame **"])].

Definition ICoreWebView2FrameCreatedEventHandler_entries : list entry := [
   F "ICoreWebView2FrameCreatedEventHandler" (M "" "HRESULT" "Invoke" [P "in" "ICoreWebView2 *"; P "in" "ICoreWebView2FrameCreatedEventArgs *"])].

Definition ICoreWebView2FrameDestroyedEventHandler_entries : list entry := [
   F "ICoreWebView2FrameDestroyedEventHandler" (M "" "HRESULT" "Invoke" [P "in" "ICoreWebView2Frame *"; P "in" "IUnknown *"])].

Definition ICoreWebView2FrameDOMContentLoadedEventHandler_entries : list entry := [
   F "ICoreWebView2FrameDOMContentLoadedEventHandler" (M "" "HRESULT" "Invoke" [P "in" "ICoreWebView2Frame *"; P "in" "ICoreWebView2DOMContentLoadedEventArgs *"])].

Definition ICoreWebView2FrameNameChangedEventHandler_entries : list entry := [
   F "ICoreWebView2FrameNameChangedEventHandler" (M "" "HRESULT" "Invoke" [P "in" "ICoreWebView2Frame *"; P "in" "IUnknown *"])].

Definition ICoreWebView2FrameNavigationCompletedEventHandler_entries : list entry := [
   F "ICoreWebView2FrameNavigationCompletedEventHandler" (M "" "HRESULT" "Invoke" [P "in" "ICoreWebView2Frame *"; P "in" "ICoreWebView2NavigationCompletedEventArgs *"])].

Definition ICoreWebView2FrameNavigationStartingEventHandler_entries : list entry := [
   F "ICoreWebView2FrameNavigationStartingEventHandler" (M "" "HRESULT" "Invoke" [P "in" "ICoreWebView2Frame *"; P "in" "ICoreWebView2NavigationStartingEventArgs *"])].

Definition ICoreWebView2FramePermissionRequestedEventHandler_entries : list entry := [
   F "ICoreWebView2FramePermissionRequestedEventHandler" (M "" "HRESULT" "Invoke" [P "in" "ICoreWebView2Frame *"; P "in" "ICoreWebView2PermissionRequestedEventArgs2 *"])].

Definition ICoreWebView2FrameWebMessageReceivedEventHandler_entries : list entry := [
   F "ICoreWebView2FrameWebMessageReceivedEventHandler" (M "" "HRESULT" "Invoke" [P "in" "ICoreWebView2Frame *"; P "in" "ICoreWebView2WebMessageReceivedEventArgs *"])].

Definition ICoreWebView2FrameInfo_entries : list entry := [
   F "ICoreWebView2FrameInfo" (M "propget" "HRESULT" "get_Name" [P "retval,out" "LPWSTR *"]);
   F "ICoreWebView2FrameInfo" (M "propget" "HRESULT" "get_Source" [P "retval,out" "LPWSTR *"])].

Definition ICoreWebView2FrameInfo2_entries : list entry := [
   F "ICoreWebView2FrameInfo2" (M "propget" "HRESULT" "get_ParentFrameInfo" [P "retval,out" "ICoreWebView2FrameInfo **"]);
   F "ICoreWebView2FrameInfo2" (M "propget" "HRESULT" "get_FrameId" [P "retval,out" "UINT32 *"]);
   F "ICoreWebView2FrameInfo2" (M "propget" "HRESULT" "get_FrameKind" [P "retval,out" "COREWEBVIEW2_FRAME_KIND *"])].

Definition ICoreWebView2FrameInfoCollection_entries : list entry := [
   F "ICoreWebView2FrameInfoCollection" (M "" "HRESULT" "GetIterator" [P "retval,out" "ICoreWebView2FrameInfoCollectionIterator **"])].

Definition ICoreWebView2FrameInfoCollectionIterator_entries : list entry := [
   F "ICoreWebView2FrameInfoCollectionIterator" (M "propget" "HRESULT" "get_HasCurrent" [P "retval,out" "BOOL *"]);
   F "ICoreWebView2FrameInfoCollectionIterator" (M "" "HRESULT" "GetCurrent" [P "retval,out" "ICoreWebView2FrameInfo **"]);
   F "ICoreWebView2FrameInfoCollectionIterator" (M "" "HRESULT" "MoveNext" [P "retval,out" "BOOL *"])].

Definition ICoreWebView2FocusChangedEventHandler_entries : list entry := [
   F "ICoreWebView2FocusChangedEventHandler" (M "" "HRESULT" "Invoke" [P "in" "ICoreWebView2Controller *"; P "in" "IUnknown *"])].

Definition ICoreWebView2GetCookiesCompletedHandler_entries : list entry := [
   F "ICoreWebView2GetCookiesCompletedHandler" (M "" "HRESULT" "Invoke" [P "" "HRESULT"; P "" "ICoreWebView2CookieList *"])].

Definition ICoreWebView2GetNonDefaultPermissionSettingsCompletedHandler_entries : list entry := [
   F "ICoreWebView2GetNonDefaultPermissionSettingsCompletedHandler" (M "" "HRESULT" "Invoke" [P "in" "HRESULT"; P "in" "ICoreWebView2PermissionSettingCollectionView *"])].

Definition ICoreWebView2HistoryChangedEventHandler_entries : list entry := [
   F "ICoreWebView2HistoryChangedEventHandler" (M "" "HRESULT" "Invoke" [P "in" "ICoreWebView2 *"; P "in" "IUnknown *"])].

Definition ICoreWebView2HttpHeadersCollectionIterator_entries : list entry := [
   F "ICoreWebView2HttpHeadersCollectionIterator" (M "" "HRESULT" "GetCurrentHeader" [P "out" "LPWSTR *"; P "out" "LPWSTR *"]);
   F "ICoreWebView2HttpHeadersCollectionIterator" (M "propget" "HRESULT" "get_HasCurrentHeader" [P "retval,out" "BOOL *"]);
   F "ICoreWebView2HttpHeadersCollectionIterator" (M "" "HRESULT" "MoveNext" [P "retval,out" "BOOL *"])].

Definition ICoreWebView2HttpRequestHeaders_entries : list entry := [
   F "ICoreWebView2HttpRequestHeaders" (M "" "HRESULT" "GetHeader" [P "in" "LPCWSTR"; P "retval,out" "LPWSTR *"]);
   F "ICoreWebView2HttpRequestHeaders" (M "" "HRESULT" "GetHeaders" [P "in" "LPCWSTR"; P "retval,out" "ICoreWebView2HttpHeadersCollectionIterator **"]);
   F "ICoreWebView2HttpRequestHeaders" (M "" "HRESULT" "Contains" [P "in" "LPCWSTR"; P "retval,out" "BOOL *"]);
   F "ICoreWebView2HttpRequestHeaders" (M "" "HRESULT" "SetHeader" [P "in" "LPCWSTR"; P "in" "LPCWSTR"]);
   F "ICoreWebView2HttpRequestHeaders" (M "" "HRESULT" "RemoveHeader" [P "in" "LPCWSTR"]);
   F "ICoreWebView2HttpRequestHeaders" (M "" "HRESULT" "GetIterator" [P "retval,out" "ICoreWebView2HttpHeadersCollectionIterator **"])].

Definition ICoreWebView2HttpResponseHeaders_entries : list entry := [
   F "ICoreWebView2HttpResponseHeaders" (M "" "HRESULT" "AppendHeader" [P "in" "LPCWSTR"; P "in" "LPCWSTR"]);
   F "ICoreWebView2HttpResponseHeaders" (M "" "HRESULT" "Contains" [P "in" "LPCWSTR"; P "retval,out" "BOOL *"]);
   F "ICoreWebView2HttpResponseHeaders" (M "" "HRESULT" "GetHeader" [P "in" "LPCWSTR"; P "retval,out" "LPWSTR *"]);
   F "ICoreWebView2HttpResponseHeaders" (M "" "HRESULT" "GetHeaders" [P "in" "LPCWSTR"; P "retval,out" "ICoreWebView2HttpHeadersCollectionIterator **"]);
   F "ICoreWebView2HttpResponseHeaders" (M "" "HRESULT" "GetIterator" [P "retval,out" "ICoreWebView2HttpHeadersCollectionIterator **"])].

Definition ICoreWebView2IsDefaultDownloadDialogOpenChangedEventHandler_entries : list entry := [
   F "ICoreWebView2IsDefaultDownloadDialogOpenChangedEventHandler" (M "" "HRESULT" "Invoke" [P "in" "ICoreWebView2 *"; P "in" "IUnknown *"])].

Definition ICoreWebView2LaunchingExternalUriSchemeEventArgs_entries : list entry := [
   F "ICoreWebView2LaunchingExternalUriSchemeEventArgs" (M "propget" "HRESULT" "get_Uri" [P "retval,out" "LPWSTR *"]);
   F "ICoreWebView2LaunchingExternalUriSchemeEventArgs" (M "propget" "HRESULT" "get_InitiatingOrigin" [P "retval,out" "LPWSTR *"]);
   F "ICoreWebView2LaunchingExternalUriSchemeEventArgs" (M "propget" "HRESULT" "get_IsUserInitiated" [P "retval,out" "BOOL *"]);
   F "ICoreWebView2LaunchingExternalUriSchemeEventArgs" (M "propget" "HRESULT" "get_Cancel" [P "retval,out" "BOOL *"]);
   F "ICoreWebView2LaunchingExternalUriSchemeEventArgs" (M "propput" "HRESULT" "put_Cancel" [P "in" "BOOL"]);
   F "ICoreWebView2LaunchingExternalUriSchemeEventArgs" (M "" "HRESULT" "GetDeferral" [P "retval,out" "ICoreWebView2Deferral **"])].

Definition ICoreWebView2LaunchingExternalUriSchemeEventHandler_entries : list entry := [
   F "ICoreWebView2LaunchingExternalUriSchemeEventHandler" (M "" "HRESULT" "Invoke" [P "in" "ICoreWebView2 *"; P "in" "ICoreWebView2LaunchingExternalUriSchemeEventArgs *"])].

Definition ICoreWebView2MoveFocusRequestedEventArgs_entries : list entry := [
   F "ICoreWebView2MoveFocusRequestedEventArgs" (M "propget" "HRESULT" "get_Reason" [P "retval,out" "COREWEBVIEW2_MOVE_FOCUS_REASON *"]);
   F "ICoreWebView2MoveFocusRequestedEventArgs" (M "propget" "HRESULT" "get_Handled" [P "retval,out" "BOOL *"]);
   F "ICoreWebView2MoveFocusRequestedEventArgs" (M "propput" "HRESULT" "put_Handled" [P "in" "BOOL"])].

Definition ICoreWebView2MoveFocusRequestedEventHandler_entries : list entry := [
   F "ICoreWebView2MoveFocusRequestedEventHandler" (M "" "HRESULT" "Invoke" [P "in" "ICoreWebView2Controller *"; P "in" "ICoreWebView2MoveFocusRequestedEventArgs *"])].

Definition ICoreWebView2NavigationCompletedEventArgs_entries : list entry := [
   F "ICoreWebView2NavigationCompletedEventArgs" (M "propget" "HRESULT" "get_IsSuccess" [P "retval,out" "BOOL *"]);
   F "ICoreWebView2NavigationCompletedEventArgs" (M "propget" "HRESULT" "get_WebErrorStatus" [P "retval,out" "COREWEBVIEW2_WEB_ERROR_STATUS *"]);
   F "ICoreWebView2NavigationCompletedEventArgs" (M "propget" "HRESULT" "get_NavigationId" [P "retval,out" "UINT64 *"])].

Definition ICoreWebView2NavigationCompletedEventArgs2_entries : list entry := [
   F "ICoreWebView2NavigationCompletedEventArgs2" (M "propget" "HRESULT" "get_HttpStatusCode" [P "retval,out" "int *"])].

Definition ICoreWebView2NavigationCompletedEventHandler_entries : list entry := [
   F "ICoreWebView2NavigationCompletedEventHandler" (M "" "HRESULT" "Invoke" [P "in" "ICoreWebView2 *"; P "in" "ICoreWebView2NavigationCompletedEventArgs *"])].

Definition ICoreWebView2NavigationStartingEventArgs_entries : list entry := [
   F "ICoreWebView2NavigationStartingEventArgs" (M "propget" "HRESULT" "get_Uri" [P "retval,out" "LPWSTR *"]);
   F "ICoreWebView2NavigationStartingEventArgs" (M "propget" "HRESULT" "get_IsUserInitiated" [P "retval,out" "BOOL *"]);
   F "ICoreWebView2NavigationStartingEventArgs" (M "propget" "HRESULT" "get_IsRedirected" [P "retval,out" "BOOL *"]);
   F "ICoreWebView2NavigationStartingEventArgs" (M "propget" "HRESULT" "get_RequestHeaders" [P "retval,out" "ICoreWebView2HttpRequestHeaders **"]);
   F "ICoreWebView2NavigationStartingEventArgs" (M "propget" "HRESULT" "get_Cancel" [P "retval,out" "BOOL *"]);
   F "ICoreWebView2NavigationStartingEventArgs" (M "propput" "HRESULT" "put_Cancel" [P "in" "BOOL"]);
   F "ICoreWebView2NavigationStartingEventArgs" (M "propget" "HRESULT" "get_NavigationId" [P "retval,out" "UINT64 *"])].

Definition ICoreWebView2NavigationStartingEventArgs2_entries : list entry := [
   F "ICoreWebView2NavigationStartingEventArgs2" (M "propget" "HRESULT" "get_AdditionalAllowedFrameAncestors" [P "retval,out" "LPWSTR *"]);
   F "ICoreWebView2NavigationStartingEventArgs2" (M "propput" "HRESULT" "put_AdditionalAllowedFrameAncestors" [P "in" "LPCWSTR"])].

Definition ICoreWebView2NavigationStartingEventArgs3_entries : list entry := [
   F "ICoreWebView2NavigationStartingEventArgs3" (M "propget" "HRESULT" "get_NavigationKind" [P "retval,out" "COREWEBVIEW2_NAVIGATION_KIND *"])].

Definition ICoreWebView2NavigationStartingEventHandler_entries : list entry := [
   F "ICoreWebView2NavigationStartingEventHandler" (M "" "HRESULT" "Invoke" [P "in" "ICoreWebView2 *"; P "in" "ICoreWebView2NavigationStartingEventArgs *"])].

Definition ICoreWebView2NewBrowserVersionAvailableEventHandler_entries : list entry := [
   F "ICoreWebView2NewBrowserVersionAvailableEventHandler" (M "" "HRESULT" "Invoke" [P "in" "ICoreWebView2Environment *"; P "in" "IUnknown *"])].

Definition ICoreWebView2NewWindowRequestedEventArgs_entries : list entry := [
   F "ICoreWebView2NewWindowRequestedEventArgs" (M "propget" "HRESULT" "get_Uri" [P "retval,out" "LPWSTR *"]);
   F "ICoreWebView2NewWindowRequestedEventArgs" (M "propput" "HRESULT" "put_NewWindow" [P "in" "ICoreWebView2 *"]);
   F "ICoreWebView2NewWindowRequestedEventArgs" (M "propget" "HRESULT" "get_NewWindow" [P "retval,out" "ICoreWebView2 **"]);
   F "ICoreWebView2NewWindowRequestedEventArgs" (M "propput" "HRESULT" "put_Handled" [P "in" "BOOL"]);
   F "ICoreWebView2NewWindowRequestedEventArgs" (M "propget" "HRESULT" "get_Handled" [P "retval,out" "BOOL *"]);
   F "ICoreWebView2NewWindowRequestedEventArgs" (M "propget" "HRESULT" "get_IsUserInitiated" [P "retval,out" "BOOL *"]);
   F "ICoreWebView2NewWindowRequestedEventArgs" (M "" "HRESULT" "GetDeferral" [P "retval,out" "ICoreWebView2Deferral **"]);
   F "ICoreWebView2NewWindowRequestedEventArgs" (M "propget" "HRESULT" "get_WindowFeatures" [P "retval,out" "ICoreWebView2WindowFeatures **"])].

Definition ICoreWebView2NewWindowRequestedEventArgs2_entries : list entry := [
   F "ICoreWebView2NewWindowRequestedEventArgs2" (M "propget" "HRESULT" "get_Name" [P "retval,out" "LPWSTR *"])].

Definition ICoreWebView2NewWindowRequestedEventArgs3_entries : list entry := [
   F "ICoreWebView2NewWindowRequestedEventArgs3" (M "propget" "HRESULT" "get_OriginalSourceFrameInfo" [P "retval,out" "ICoreWebView2FrameInfo **"])].

Definition ICoreWebView2NewWindowRequestedEventHandler_entries : list entry := [
   F "ICoreWebView2NewWindowRequestedEventHandler" (M "" "HRESULT" "Invoke" [P "in" "ICoreWebView2 *"; P "in" "ICoreWebView2NewWindowRequestedEventArgs *"])].

Definition ICoreWebView2PermissionRequestedEventArgs_entries : list entry := [
   F "ICoreWebView2PermissionRequestedEventArgs" (M "propget" "HRESULT" "get_Uri" [P "retval,out" "LPWSTR *"]);
   F "ICoreWebView2PermissionRequestedEventArgs" (M "propget" "HRESULT" "get_PermissionKind" [P "retval,out" "COREWEBVIEW2_PERMISSION_KIND *"]);
   F "ICoreWebView2PermissionRequestedEventArgs" (M "propget" "HRESULT" "get_IsUserInitiated" [P "retval,out" "BOOL *"]);
   F "ICoreWebView2PermissionRequestedEventArgs" (M "propget" "HRESULT" "get_State" [P "retval,out" "COREWEBVIEW2_PERMISSION_STATE *"]);
   F "ICoreWebView2PermissionRequestedEventArgs" (M "propput" "HRESULT" "put_State" [P "in" "COREWEBVIEW2_PERMISSION_STATE"]);
   F "ICoreWebView2PermissionRequestedEventArgs" (M "" "HRESULT" "GetDeferral" [P "retval,out" "ICoreWebView2Deferral **"])].

Definition ICoreWebView2PermissionRequestedEventArgs2_entries : list entry := [
   F "ICoreWebView2PermissionRequestedEventArgs2" (M "propget" "HRESULT" "get_Handled" [P "retval,out" "BOOL *"]);
   F "ICoreWebView2PermissionRequestedEventArgs2" (M "propput" "HRESULT" "put_Handled" [P "in" "BOOL"])].

Definition ICoreWebView2PermissionRequestedEventArgs3_entries : list entry := [
   F "ICoreWebView2PermissionRequestedEventArgs3" (M "propget" "HRESULT" "get_SavesInProfile" [P "retval,out" "BOOL *"]);
   F "ICoreWebView2PermissionRequestedEventArgs3" (M "propput" "HRESULT" "put_SavesInProfile" [P "in" "BOOL"])].

Definition ICoreWebView2PermissionRequestedEventHandler_entries : list entry := [
   F "ICoreWebView2PermissionRequestedEventHandler" (M "" "HRESULT" "Invoke" [P "in" "ICoreWebView2 *"; P "in" "ICoreWebView2PermissionRequestedEventArgs *"])].

Definition ICoreWebView2PermissionSettingCollectionView_entries : list entry := [
   F "ICoreWebView2PermissionSettingCollectionView" (M "" "HRESULT" "GetValueAtIndex" [P "in" "UINT32"; P "retval,out" "ICoreWebView2PermissionSetting **"]);
   F "ICoreWebView2PermissionSettingCollectionView" (M "propget" "HRESULT" "get_Count" [P "retval,out" "UINT32 *"])].

Definition ICoreWebView2PermissionSetting_entries : list entry := [
   F "ICoreWebView2PermissionSetting" (M "propget" "HRESULT" "get_PermissionKind" [P "retval,out" "COREWEBVIEW2_PERMISSION_KIND *"]);
   F "ICoreWebView2PermissionSetting" (M "propget" "HRESULT" "get_PermissionOrigin" [P "retval,out" "LPWSTR *"]);
   F "ICoreWebView2PermissionSetting" (M "propget" "HRESULT" "get_PermissionState" [P "retval,out" "COREWEBVIEW2_PERMISSION_STATE *"])].

Definition ICoreWebView2PointerInfo_entries1 : list entry := [
   F "ICoreWebView2PointerInfo" (M "propget" "HRESULT" "get_PointerKind" [P "retval,out" "DWORD *"]);
   F "ICoreWebView2PointerInfo" (M "propput" "HRESULT" "put_PointerKind" [P "in" "DWORD"]);
   F "ICoreWebView2PointerInfo" (M "propget" "HRESULT" "get_PointerId" [P "retval,out" "UINT32 *"]);
   F "ICoreWebView2PointerInfo" (M "propput" "HRESULT" "put_PointerId" [P "in" "UINT32"]);
   F "ICoreWebView2PointerInfo" (M "propget" "HRESULT" "get_FrameId" [P "retval,out" "UINT32 *"]);
   F "ICoreWebView2PointerInfo" (M "propput" "HRESULT" "put_FrameId" [P "in" "UINT32"]);
   F "ICoreWebView2PointerInfo" (M "propget" "HRESULT" "get_PointerFlags" [P "retval,out" "UINT32 *"]);
   F "ICoreWebView2PointerInfo" (M "propput" "HRESULT" "put_PointerFlags" [P "in" "UINT32"]);
   F "ICoreWebView2PointerInfo" (M "propget" "HRESULT" "get_PointerDeviceRect" [P "retval,out" "RECT *"]);
   F "ICoreWebView2PointerInfo" (M "propput" "HRESULT" "put_PointerDeviceRect" [P "in" "RECT"]);
   F "ICoreWebView2PointerInfo" (M "propget" "HRESULT" "get_DisplayRect" [P "retval,out" "RECT *"]);
   F "ICoreWebView2PointerInfo" (M "propput" "HRESULT" "put_DisplayRect" [P "in" "RECT"]);
   F "ICoreWebView2PointerInfo" (M "propget" "HRESULT" "get_PixelLocation" [P "retval,out" "POINT *"]);
   F "ICoreWebView2PointerInfo" (M "propput" "HRESULT" "put_PixelLocation" [P "in" "POINT"]);
   F "ICoreWebView2PointerInfo" (M "propget" "HRESULT" "get_HimetricLocation" [P "retval,out" "POINT *"]);
   F "ICoreWebView2PointerInfo" (M "propput" "HRESULT" "put_HimetricLocation" [P "in" "POINT"]);
   F "ICoreWebView2PointerInfo" (M "propget" "HRESULT" "get_PixelLocationRaw" [P "retval,out" "POINT *"]);
   F "ICoreWebView2PointerInfo" (M "propput" "HRESULT" "put_PixelLocationRaw" [P "in" "POINT"]);
   F "ICoreWebView2PointerInfo" (M "propget" "HRESULT" "get_HimetricLocationRaw" [P "retval,out" "POINT *"]);
   F "ICoreWebView2PointerInfo" (M "propput" "HRESULT" "put_HimetricLocationRaw" [P "in" "POINT"]);
   F "ICoreWebView2PointerInfo" (M "propget" "HRESULT" "get_Time" [P "retval,out" "DWORD *"]);
   F "ICoreWebView2PointerInfo" (M "propput" "HRESULT" "put_Time" [P "in" "DWORD"]);
   F "ICoreWebView2PointerInfo" (M "propget" "HRESULT" "get_HistoryCount" [P "retval,out" "UINT32 *"]);
   F "ICoreWebView2PointerInfo" (M "propput" "HRESULT" "put_HistoryCount" [P "in" "UINT32"]);
   F "ICoreWebView2PointerInfo" (M "propget" "HRESULT" "get_InputData" [P "retval,out" "INT32 *"])].

Definition ICoreWebView2PointerInfo_entries2 : list entry := [
   F "ICoreWebView2PointerInfo" (M "propput" "HRESULT" "put_InputData" [P "in" "INT32"]);
   F "ICoreWebView2PointerInfo" (M "propget" "HRESULT" "get_KeyStates" [P "retval,out" "DWORD *"]);
   F "ICoreWebView2PointerInfo" (M "propput" "HRESULT" "put_KeyStates" [P "in" "DWORD"]);
   F "ICoreWebView2PointerInfo" (M "propget" "HRESULT" "get_PerformanceCount" [P "retval,out" "UINT64 *"]);
   F "ICoreWebView2PointerInfo" (M "propput" "HRESULT" "put_PerformanceCount" [P "in" "UINT64"]);
   F "ICoreWebView2PointerInfo" (M "propget" "HRESULT" "get_ButtonChangeKind" [P "retval,out" "INT32 *"]);
   F "ICoreWebView2PointerInfo" (M "propput" "HRESULT" "put_ButtonChangeKind" [P "in" "INT32"]);
   F "ICoreWebView2PointerInfo" (M "propget" "HRESULT" "get_PenFlags" [P "retval,out" "UINT32 *"]);
   F "ICoreWebView2PointerInfo" (M "propput" "HRESULT" "put_PenFlags" [P "in" "UINT32"]);
   F "ICoreWebView2PointerInfo" (M "propget" "HRESULT" "get_PenMask" [P "retval,out" "UINT32 *"]);
   F "ICoreWebView2PointerInfo" (M "propput" "HRESULT" "put_PenMask" [P "in" "UINT32"]);
   F "ICoreWebView2PointerInfo" (M "propget" "HRESULT" "get_PenPressure" [P "retval,out" "UINT32 *"]);
   F "ICoreWebView2PointerInfo" (M "propput" "HRESULT" "put_PenPressure" [P "in" "UINT32"]);
   F "ICoreWebView2PointerInfo" (M "propget" "HRESULT" "get_PenRotation" [P "retval,out" "UINT32 *"]);
   F "ICoreWebView2PointerInfo" (M "propput" "HRESULT" "put_PenRotation" [P "in" "UINT32"]);
   F "ICoreWebView2PointerInfo" (M "propget" "HRESULT" "get_PenTiltX" [P "retval,out" "INT32 *"]);
   F "ICoreWebView2PointerInfo" (M "propput" "HRESULT" "put_PenTiltX" [P "in" "INT32"]);
   F "ICoreWebView2PointerInfo" (M "propget" "HRESULT" "get_PenTiltY" [P "retval,out" "INT32 *"]);
   F "ICoreWebView2PointerInfo" (M "propput" "HRESULT" "put_PenTiltY" [P "in" "INT32"]);
   F "ICoreWebView2PointerInfo" (M "propget" "HRESULT" "get_TouchFlags" [P "retval,out" "UINT32 *"]);
   F "ICoreWebView2PointerInfo" (M "propput" "HRESULT" "put_TouchFlags" [P "in" "UINT32"]);
   F "ICoreWebView2PointerInfo" (M "propget" "HRESULT" "get_TouchMask" [P "retval,out" "UINT32 *"]);
   F "ICoreWebView2PointerInfo" (M "propput" "HRESULT" "put_TouchMask" [P "in" "UINT32"]);
   F "ICoreWebView2PointerInfo" (M "propget" "HRESULT" "get_TouchContact" [P "retval,out" "RECT *"]);
   F "ICoreWebView2PointerInfo" (M "propput" "HRESULT" "put_TouchContact" [P "in" "RECT"])].

Definition ICoreWebView2PointerInfo_entries3 : list entry := [
   F "ICoreWebView2PointerInfo" (M "propget" "HRESULT" "get_TouchContactRaw" [P "retval,out" "RECT *"]);
   F "ICoreWebView2PointerInfo" (M "propput" "HRESULT" "put_TouchContactRaw" [P "in" "RECT"]);
   F "ICoreWebView2PointerInfo" (M "propget" "HRESULT" "get_TouchOrientation" [P "retval,out" "UINT32 *"]);
   F "ICoreWebView2PointerInfo" (M "propput" "HRESULT" "put_TouchOrientation" [P "in" "UINT32"]);
   F "ICoreWebView2PointerInfo" (M "propget" "HRESULT" "get_TouchPressure" [P "retval,out" "UINT32 *"]);
   F "ICoreWebView2PointerInfo" (M "propput" "HRESULT" "put_TouchPressure" [P "in" "UINT32"])].

Definition ICoreWebView2PrintSettings_entries1 : list entry := [
   F "ICoreWebView2PrintSettings" (M "propget" "HRESULT" "get_Orientation" [P "retval,out" "COREWEBVIEW2_PRINT_ORIENTATION *"]);
   F "ICoreWebView2PrintSettings" (M "propput" "HRESULT" "put_Orientation" [P "in" "COREWEBVIEW2_PRINT_ORIENTATION"]);
   F "ICoreWebView2PrintSettings" (M "propget" "HRESULT" "get_ScaleFactor" [P "retval,out" "double *"]);
   F "ICoreWebView2PrintSettings" (M "propput" "HRESULT" "put_ScaleFactor" [P "in" "double"]);
   F "ICoreWebView2PrintSettings" (M "propget" "HRESULT" "get_PageWidth" [P "retval,out" "double *"]);
   F "ICoreWebView2PrintSettings" (M "propput" "HRESULT" "put_PageWidth" [P "in" "double"]);
   F "ICoreWebView2PrintSettings" (M "propget" "HRESULT" "get_PageHeight" [P "retval,out" "double *"]);
   F "ICoreWebView2PrintSettings" (M "propput" "HRESULT" "put_PageHeight" [P "in" "double"]);
   F "ICoreWebView2PrintSettings" (M "propget" "HRESULT" "get_MarginTop" [P "retval,out" "double *"]);
   F "ICoreWebView2PrintSettings" (M "propput" "HRESULT" "put_MarginTop" [P "in" "double"]);
   F "ICoreWebView2PrintSettings" (M "propget" "HRESULT" "get_MarginBottom" [P "retval,out" "double *"]);
   F "ICoreWebView2PrintSettings" (M "propput" "HRESULT" "put_MarginBottom" [P "in" "double"]);
   F "ICoreWebView2PrintSettings" (M "propget" "HRESULT" "get_MarginLeft" [P "retval,out" "double *"]);
   F "ICoreWebView2PrintSettings" (M "propput" "HRESULT" "put_MarginLeft" [P "in" "double"]);
   F "ICoreWebView2PrintSettings" (M "propget" "HRESULT" "get_MarginRight" [P "retval,out" "double *"]);
   F "ICoreWebView2PrintSettings" (M "propput" "HRESULT" "put_MarginRight" [P "in" "double"]);
   F "ICoreWebView2PrintSettings" (M "propget" "HRESULT" "get_ShouldPrintBackgrounds" [P "retval,out" "BOOL *"]);
   F "ICoreWebView2PrintSettings" (M "propput" "HRESULT" "put_ShouldPrintBackgrounds" [P "in" "BOOL"]);
   F "ICoreWebView2PrintSettings" (M "propget" "HRESULT" "get_ShouldPrintSelectionOnly" [P "retval,out" "BOOL *"]);
   F "ICoreWebView2PrintSettings" (M "propput" "HRESULT" "put_ShouldPrintSelectionOnly" [P "in" "BOOL"]);
   F "ICoreWebView2PrintSettings" (M "propget" "HRESULT" "get_ShouldPrintHeaderAndFooter" [P "retval,out" "BOOL *"]);
   F "ICoreWebView2PrintSettings" (M "propput" "HRESULT" "put_ShouldPrintHeaderAndFooter" [P "in" "BOOL"]);
   F "ICoreWebView2PrintSettings" (M "propget" "HRESULT" "get_HeaderTitle" [P "retval,out" "LPWSTR *"]);
   F "ICoreWebView2PrintSettings" (M "propput" "HRESULT" "put_HeaderTitle" [P "in" "LPCWSTR"]);
   F "ICoreWebView2PrintSettings" (M "propget" "HRESULT" "get_FooterUri" [P "retval,out" "LPWSTR *"])].

Definition ICoreWebView2PrintSettings_entries2 : list entry := [
   F "ICoreWebView2PrintSettings" (M "propput" "HRESULT" "put_FooterUri" [P "in" "LPCWSTR"])].

Definition ICoreWebView2PrintSettings2_entries : list entry := [
   F "ICoreWebView2PrintSettings2" (M "propget" "HRESULT" "get_PageRanges" [P "retval,out" "LPWSTR *"]);
   F "ICoreWebView2PrintSettings2" (M "propput" "HRESULT" "put_PageRanges" [P "in" "LPCWSTR"]);
   F "ICoreWebView2PrintSettings2" (M "propget" "HRESULT" "get_PagesPerSide" [P "retval,out" "INT32 *"]);
   F "ICoreWebView2PrintSettings2" (M "propput" "HRESULT" "put_PagesPerSide" [P "in" "INT32"]);
   F "ICoreWebView2PrintSettings2" (M "propget" "HRESULT" "get_Copies" [P "retval,out" "INT32 *"]);
   F "ICoreWebView2PrintSettings2" (M "propput" "HRESULT" "put_Copies" [P "in" "INT32"]);
   F "ICoreWebView2PrintSettings2" (M "propget" "HRESULT" "get_Collation" [P "retval,out" "COREWEBVIEW2_PRINT_COLLATION *"]);
   F "ICoreWebView2PrintSettings2" (M "propput" "HRESULT" "put_Collation" [P "in" "COREWEBVIEW2_PRINT_COLLATION"]);
   F "ICoreWebView2PrintSettings2" (M "propget" "HRESULT" "get_ColorMode" [P "retval,out" "COREWEBVIEW2_PRINT_COLOR_MODE *"]);
   F "ICoreWebView2PrintSettings2" (M "propput" "HRESULT" "put_ColorMode" [P "in" "COREWEBVIEW2_PRINT_COLOR_MODE"]);
   F "ICoreWebView2PrintSettings2" (M "propget" "HRESULT" "get_Duplex" [P "retval,out" "COREWEBVIEW2_PRINT_DUPLEX *"]);
   F "ICoreWebView2PrintSettings2" (M "propput" "HRESULT" "put_Duplex" [P "in" "COREWEBVIEW2_PRINT_DUPLEX"]);
   F "ICoreWebView2PrintSettings2" (M "propget" "HRESULT" "get_MediaSize" [P "retval,out" "COREWEBVIEW2_PRINT_MEDIA_SIZE *"]);
   F "ICoreWebView2PrintSettings2" (M "propput" "HRESULT" "put_MediaSize" [P "in" "COREWEBVIEW2_PRINT_MEDIA_SIZE"]);
   F "ICoreWebView2PrintSettings2" (M "propget" "HRESULT" "get_PrinterName" [P "retval,out" "LPWSTR *"]);
   F "ICoreWebView2PrintSettings2" (M "propput" "HRESULT" "put_PrinterName" [P "in" "LPCWSTR"])].

Definition ICoreWebView2PrintToPdfCompletedHandler_entries : list entry := [
   F "ICoreWebView2PrintToPdfCompletedHandler" (M "" "HRESULT" "Invoke" [P "in" "HRESULT"; P "" "BOOL"])].

Definition ICoreWebView2PrintCompletedHandler_entries : list entry := [
   F "ICoreWebView2PrintCompletedHandler" (M "" "HRESULT" "Invoke" [P "in" "HRESULT"; P "in" "COREWEBVIEW2_PRINT_STATUS"])].

Definition ICoreWebView2PrintToPdfStreamCompletedHandler_entries : list entry := [
   F "ICoreWebView2PrintToPdfStreamCompletedHandler" (M "" "HRESULT" "Invoke" [P "in" "HRESULT"; P "in" "IStream *"])].

Definition ICoreWebView2ProcessFailedEventArgs_entries : list entry := [
   F "ICoreWebView2ProcessFailedEventArgs" (M "propget" "HRESULT" "get_ProcessFailedKind" [P "retval,out" "COREWEBVIEW2_PROCESS_FAILED_KIND *"])].

Definition ICoreWebView2ProcessFailedEventArgs2_entries : list entry := [
   F "ICoreWebView2ProcessFailedEventArgs2" (M "propget" "HRESULT" "get_Reason" [P "retval,out" "COREWEBVIEW2_PROCESS_FAILED_REASON *"]);
   F "ICoreWebView2ProcessFailedEventArgs2" (M "propget" "HRESULT" "get_ExitCode" [P "retval,out" "int *"]);
   F "ICoreWebView2ProcessFailedEventArgs2" (M "propget" "HRESULT" "get_ProcessDescription" [P "retval,out" "LPWSTR *"]);
   F "ICoreWebView2ProcessFailedEventArgs2" (M "propget" "HRESULT" "get_FrameInfosForFailedProcess" [P "retval,out" "ICoreWebView2FrameInfoCollection **"])].

Definition ICoreWebView2ProcessFailedEventHandler_entries : list entry := [
   F "ICoreWebView2ProcessFailedEventHandler" (M "" "HRESULT" "Invoke" [P "in" "ICoreWebView2 *"; P "in" "ICoreWebView2ProcessFailedEventArgs *"])].

Definition ICoreWebView2Profile_entries : list entry := [
   F "ICoreWebView2Profile" (M "propget" "HRESULT" "get_ProfileName" [P "retval,out" "LPWSTR *"]);
   F "ICoreWebView2Profile" (M "propget" "HRESULT" "get_IsInPrivateModeEnabled" [P "retval,out" "BOOL *"]);
   F "ICoreWebView2Profile" (M "propget" "HRESULT" "get_ProfilePath" [P "retval,out" "LPWSTR *"]);
   F "ICoreWebView2Profile" (M "propget" "HRESULT" "get_DefaultDownloadFolderPath" [P "retval,out" "LPWSTR *"]);
   F "ICoreWebView2Profile" (M "propput" "HRESULT" "put_DefaultDownloadFolderPath" [P "in" "LPCWSTR"]);
   F "ICoreWebView2Profile" (M "propget" "HRESULT" "get_PreferredColorScheme" [P "retval,out" "COREWEBVIEW2_PREFERRED_COLOR_SCHEME *"]);
   F "ICoreWebView2Profile" (M "propput" "HRESULT" "put_PreferredColorScheme" [P "in" "COREWEBVIEW2_PREFERRED_COLOR_SCHEME"])].

Definition ICoreWebView2Profile2_entries : list entry := [
   F "ICoreWebView2Profile2" (M "" "HRESULT" "ClearBrowsingData" [P "in" "COREWEBVIEW2_BROWSING_DATA_KINDS"; P "in" "ICoreWebView2ClearBrowsingDataCompletedHandler *"]);
   F "ICoreWebView2Profile2" (M "" "HRESULT" "ClearBrowsingDataInTimeRange" [P "in" "COREWEBVIEW2_BROWSING_DATA_KINDS"; P "in" "double"; P "in" "double"; P "in" "ICoreWebView2ClearBrowsingDataCompletedHandler *"]);
   F "ICoreWebView2Profile2" (M "" "HRESULT" "ClearBrowsingDataAll" [P "in" "ICoreWebView2ClearBrowsingDataCompletedHandler *"])].

Definition ICoreWebView2Profile3_entries : list entry := [
   F "ICoreWebView2Profile3" (M "propget" "HRESULT" "get_PreferredTrackingPreventionLevel" [P "retval,out" "COREWEBVIEW2_TRACKING_PREVENTION_LEVEL *"]);
   F "ICoreWebView2Profile3" (M "propput" "HRESULT" "put_PreferredTrackingPreventionLevel" [P "in" "COREWEBVIEW2_TRACKING_PREVENTION_LEVEL"])].

Definition ICoreWebView2Profile4_entries : list entry := [
   F "ICoreWebView2Profile4" (M "" "HRESULT" "SetPermissionState" [P "in" "COREWEBVIEW2_PERMISSION_KIND"; P "in" "LPCWSTR"; P "in" "COREWEBVIEW2_PERMISSION_STATE"; P "in" "ICoreWebView2SetPermissionStateCompletedHandler *"]);
   F "ICoreWebView2Profile4" (M "" "HRESULT" "GetNonDefaultPermissionSettings" [P "in" "ICoreWebView2GetNonDefaultPermissionSettingsCompletedHandler *"])].

Definition ICoreWebView2Profile5_entries : list entry := [
   F "ICoreWebView2Profile5" (M "propget" "HRESULT" "get_CookieManager" [P "retval,out" "ICoreWebView2CookieManager **"])].

Definition ICoreWebView2Profile6_entries : list entry := [
   F "ICoreWebView2Profile6" (M "propget" "HRESULT" "get_IsPasswordAutosaveEnabled" [P "retval,out" "BOOL *"]);
   F "ICoreWebView2Profile6" (M "propput" "HRESULT" "put_IsPasswordAutosaveEnabled" [P "in" "BOOL"]);
   F "ICoreWebView2Profile6" (M "propget" "HRESULT" "get_IsGeneralAutofillEnabled" [P "retval,out" "BOOL *"]);
   F "ICoreWebView2Profile6" (M "propput" "HRESULT" "put_IsGeneralAutofillEnabled" [P "in" "BOOL"])].

Definition ICoreWebView2Profile7_entries : list entry := [
   F "ICoreWebView2Profile7" (M "" "HRESULT" "AddBrowserExtension" [P "in" "LPCWSTR"; P "in" "ICoreWebView2ProfileAddBrowserExtensionCompletedHandler *"]);
   F "ICoreWebView2Profile7" (M "" "HRESULT" "GetBrowserExtensions" [P "in" "ICoreWebView2ProfileGetBrowserExtensionsCompletedHandler *"])].

Definition ICoreWebView2Profile8_entries : list entry := [
   F "ICoreWebView2Profile8" (M "" "HRESULT" "Delete" []);
   F "ICoreWebView2Profile8" (M "" "HRESULT" "add_Deleted" [P "in" "ICoreWebView2ProfileDeletedEventHandler *"; P "out" "EventRegistrationToken *"]);
   F "ICoreWebView2Profile8" (M "" "HRESULT" "remove_Deleted" [P "in" "EventRegistrationToken"])].

Definition ICoreWebView2ProfileDeletedEventHandler_entries : list entry := [
   F "ICoreWebView2ProfileDeletedEventHandler" (M "" "HRESULT" "Invoke" [P "in" "ICoreWebView2Profile *"; P "in" "IUnknown *"])].

Definition ICoreWebView2RasterizationScaleChangedEventHandler_entries : list entry := [
   F "ICoreWebView2RasterizationScaleChangedEventHandler" (M "" "HRESULT" "Invoke" [P "in" "ICoreWebView2Controller *"; P "in" "IUnknown *"])].

Definition ICoreWebView2ServerCertificateErrorDetectedEventArgs_entries : list entry := [
   F "ICoreWebView2ServerCertificateErrorDetectedEventArgs" (M "propget" "HRESULT" "get_ErrorStatus" [P "retval,out" "COREWEBVIEW2_WEB_ERROR_STATUS *"]);
   F "ICoreWebView2ServerCertificateErrorDetectedEventArgs" (M "propget" "HRESULT" "get_RequestUri" [P "retval,out" "LPWSTR *"]);
   F "ICoreWebView2ServerCertificateErrorDetectedEventArgs" (M "propget" "HRESULT" "get_ServerCertificate" [P "retval,out" "ICoreWebView2Certificate **"]);
   F "ICoreWebView2ServerCertificateErrorDetectedEventArgs" (M "propget" "HRESULT" "get_Action" [P "retval,out" "COREWEBVIEW2_SERVER_CERTIFICATE_ERROR_ACTION *"]);
   F "ICoreWebView2ServerCertificateErrorDetectedEventArgs" (M "propput" "HRESULT" "put_Action" [P "in" "COREWEBVIEW2_SERVER_CERTIFICATE_ERROR_ACTION"]);
   F "ICoreWebView2ServerCertificateErrorDetectedEventArgs" (M "" "HRESULT" "GetDeferral" [P "retval,out" "ICoreWebView2Deferral **"])].

Definition ICoreWebView2ServerCertificateErrorDetectedEventHandler_entries : list entry := [
   F "ICoreWebView2ServerCertificateErrorDetectedEventHandler" (M "" "HRESULT" "Invoke" [P "in" "ICoreWebView2 *"; P "in" "ICoreWebView2ServerCertificateErrorDetectedEventArgs *"])].

Definition ICoreWebView2SetPermissionStateCompletedHandler_entries : list entry := [
   F "ICoreWebView2SetPermissionStateCompletedHandler" (M "" "HRESULT" "Invoke" [P "in" "HRESULT"])].

Definition ICoreWebView2ScriptDialogOpeningEventArgs_entries : list entry := [
   F "ICoreWebView2ScriptDialogOpeningEventArgs" (M "propget" "HRESULT" "get_Uri" [P "retval,out" "LPWSTR *"]);
   F "ICoreWebView2ScriptDialogOpeningEventArgs" (M "propget" "HRESULT" "get_Kind" [P "retval,out" "COREWEBVIEW2_SCRIPT_DIALOG_KIND *"]);
   F "ICoreWebView2ScriptDialogOpeningEventArgs" (M "propget" "HRESULT" "get_Message" [P "retval,out" "LPWSTR *"]);
   F "ICoreWebView2ScriptDialogOpeningEventArgs" (M "" "HRESULT" "Accept" []);
   F "ICoreWebView2ScriptDialogOpeningEventArgs" (M "propget" "HRESULT" "get_DefaultText" [P "retval,out" "LPWSTR *"]);
   F "ICoreWebView2ScriptDialogOpeningEventArgs" (M "propget" "HRESULT" "get_ResultText" [P "retval,out" "LPWSTR *"]);
   F "ICoreWebView2ScriptDialogOpeningEventArgs" (M "propput" "HRESULT" "put_ResultText" [P "in" "LPCWSTR"]);
   F "ICoreWebView2ScriptDialogOpeningEventArgs" (M "" "HRESULT" "GetDeferral" [P "retval,out" "ICoreWebView2Deferral **"])].

Definition ICoreWebView2ScriptDialogOpeningEventHandler_entries : list entry := [
   F "ICoreWebView2ScriptDialogOpeningEventHandler" (M "" "HRESULT" "Invoke" [P "in" "ICoreWebView2 *"; P "in" "ICoreWebView2ScriptDialogOpeningEventArgs *"])].

Definition ICoreWebView2Settings_entries : list entry := [
   F "ICoreWebView2Settings" (M "propget" "HRESULT" "get_IsScriptEnabled" [P "retval,out" "BOOL *"]);
   F "ICoreWebView2Settings" (M "propput" "HRESULT" "put_IsScriptEnabled" [P "in" "BOOL"]);
   F "ICoreWebView2Settings" (M "propget" "HRESULT" "get_IsWebMessageEnabled" [P "retval,out" "BOOL *"]);
   F "ICoreWebView2Settings" (M "propput" "HRESULT" "put_IsWebMessageEnabled" [P "in" "BOOL"]);
   F "ICoreWebView2Settings" (M "propget" "HRESULT" "get_AreDefaultScriptDialogsEnabled" [P "retval,out" "BOOL *"]);
   F "ICoreWebView2Settings" (M "propput" "HRESULT" "put_AreDefaultScriptDialogsEnabled" [P "in" "BOOL"]);
   F "ICoreWebView2Settings" (M "propget" "HRESULT" "get_IsStatusBarEnabled" [P "retval,out" "BOOL *"]);
   F "ICoreWebView2Settings" (M "propput" "HRESULT" "put_IsStatusBarEnabled" [P "in" "BOOL"]);
   F "ICoreWebView2Settings" (M "propget" "HRESULT" "get_AreDevToolsEnabled" [P "retval,out" "BOOL *"]);
   F "ICoreWebView2Settings" (M "propput" "HRESULT" "put_AreDevToolsEnabled" [P "in" "BOOL"]);
   F "ICoreWebView2Settings" (M "propget" "HRESULT" "get_AreDefaultContextMenusEnabled" [P "retval,out" "BOOL *"]);
   F "ICoreWebView2Settings" (M "propput" "HRESULT" "put_AreDefaultContextMenusEnabled" [P "in" "BOOL"]);
   F "ICoreWebView2Settings" (M "propget" "HRESULT" "get_AreHostObjectsAllowed" [P "retval,out" "BOOL *"]);
   F "ICoreWebView2Settings" (M "propput" "HRESULT" "put_AreHostObjectsAllowed" [P "in" "BOOL"]);
   F "ICoreWebView2Settings" (M "propget" "HRESULT" "get_IsZoomControlEnabled" [P "retval,out" "BOOL *"]);
   F "ICoreWebView2Settings" (M "propput" "HRESULT" "put_IsZoomControlEnabled" [P "in" "BOOL"]);
   F "ICoreWebView2Settings" (M "propget" "HRESULT" "get_IsBuiltInErrorPageEnabled" [P "retval,out" "BOOL *"]);
   F "ICoreWebView2Settings" (M "propput" "HRESULT" "put_IsBuiltInErrorPageEnabled" [P "in" "BOOL"])].

Definition ICoreWebView2Settings2_entries : list entry := [
   F "ICoreWebView2Settings2" (M "propget" "HRESULT" "get_UserAgent" [P "retval,out" "LPWSTR *"]);
   F "ICoreWebView2Settings2" (M "propput" "HRESULT" "put_UserAgent" [P "in" "LPCWSTR"])].

Definition ICoreWebView2Settings3_entries : list entry := [
   F "ICoreWebView2Settings3" (M "propget" "HRESULT" "get_AreBrowserAcceleratorKeysEnabled" [P "retval,out" "BOOL *"]);
   F "ICoreWebView2Settings3" (M "propput" "HRESULT" "put_AreBrowserAcceleratorKeysEnabled" [P "in" "BOOL"])].

Definition ICoreWebView2Settings4_entries : list entry := [
   F "ICoreWebView2Settings4" (M "propget" "HRESULT" "get_IsPasswordAutosaveEnabled" [P "retval,out" "BOOL *"]);
   F "ICoreWebView2Settings4" (M "propput" "HRESULT" "put_IsPasswordAutosaveEnabled" [P "in" "BOOL"]);
   F "ICoreWebView2Settings4" (M "propget" "HRESULT" "get_IsGeneralAutofillEnabled" [P "retval,out" "BOOL *"]);
   F "ICoreWebView2Settings4" (M "propput" "HRESULT" "put_IsGeneralAutofillEnabled" [P "in" "BOOL"])].

Definition ICoreWebView2Settings5_entries : list entry := [
   F "ICoreWebView2Settings5" (M "propget" "HRESULT" "get_IsPinchZoomEnabled" [P "retval,out" "BOOL *"]);
   F "ICoreWebView2Settings5" (M "propput" "HRESULT" "put_IsPinchZoomEnabled" [P "in" "BOOL"])].

Definition ICoreWebView2Settings6_entries : list entry := [
   F "ICoreWebView2Settings6" (M "propget" "HRESULT" "get_IsSwipeNavigationEnabled" [P "retval,out" "BOOL *"]);
   F "ICoreWebView2Settings6" (M "propput" "HRESULT" "put_IsSwipeNavigationEnabled" [P "in" "BOOL"])].

Definition ICoreWebView2Settings7_entries : list entry := [
   F "ICoreWebView2Settings7" (M "propget" "HRESULT" "get_HiddenPdfToolbarItems" [P "retval,out" "COREWEBVIEW2_PDF_TOOLBAR_ITEMS *"]);
   F "ICoreWebView2Settings7" (M "propput" "HRESULT" "put_HiddenPdfToolbarItems" [P "in" "COREWEBVIEW2_PDF_TOOLBAR_ITEMS"])].

Definition ICoreWebView2Settings8_entries : list entry := [
   F "ICoreWebView2Settings8" (M "propget" "HRESULT" "get_IsReputationCheckingRequired" [P "retval,out" "BOOL *"]);
   F "ICoreWebView2Settings8" (M "propput" "HRESULT" "put_IsReputationCheckingRequired" [P "in" "BOOL"])].

Definition ICoreWebView2SharedBuffer_entries : list entry := [
   F "ICoreWebView2SharedBuffer" (M "propget" "HRESULT" "get_Size" [P "retval,out" "UINT64 *"]);
   F "ICoreWebView2SharedBuffer" (M "propget" "HRESULT" "get_Buffer" [P "retval,out" "BYTE **"]);
   F "ICoreWebView2SharedBuffer" (M "" "HRESULT" "OpenStream" [P "retval,out" "IStream **"]);
   F "ICoreWebView2SharedBuffer" (M "propget" "HRESULT" "get_FileMappingHandle" [P "retval,out" "HANDLE *"]);
   F "ICoreWebView2SharedBuffer" (M "" "HRESULT" "Close" [])].

Definition ICoreWebView2SourceChangedEventArgs_entries : list entry := [
   F "ICoreWebView2SourceChangedEventArgs" (M "propget" "HRESULT" "get_IsNewDocument" [P "retval,out" "BOOL *"])].

Definition ICoreWebView2SourceChangedEventHandler_entries : list entry := [
   F "ICoreWebView2SourceChangedEventHandler" (M "" "HRESULT" "Invoke" [P "in" "ICoreWebView2 *"; P "in" "ICoreWebView2SourceChangedEventArgs *"])].

Definition ICoreWebView2StateChangedEventHandler_entries : list entry := [
   F "ICoreWebView2StateChangedEventHandler" (M "" "HRESULT" "Invoke" [P "in" "ICoreWebView2DownloadOperation *"; P "in" "IUnknown *"])].

Definition ICoreWebView2StatusBarTextChangedEventHandler_entries : list entry := [
   F "ICoreWebView2StatusBarTextChangedEventHandler" (M "" "HRESULT" "Invoke" [P "in" "ICoreWebView2 *"; P "in" "IUnknown *"])].

Definition ICoreWebView2TrySuspendCompletedHandler_entries : list entry := [
   F "ICoreWebView2TrySuspendCompletedHandler" (M "" "HRESULT" "Invoke" [P "in" "HRESULT"; P "in" "BOOL"])].

Definition ICoreWebView2WebMessageReceivedEventArgs_entries : list entry := [
   F "ICoreWebView2WebMessageReceivedEventArgs" (M "propget" "HRESULT" "get_Source" [P "retval,out" "LPWSTR *"]);
   F "ICoreWebView2WebMessageReceivedEventArgs" (M "propget" "HRESULT" "get_WebMessageAsJson" [P "retval,out" "LPWSTR *"]);
   F "ICoreWebView2WebMessageReceivedEventArgs" (M "" "HRESULT" "TryGetWebMessageAsString" [P "retval,out" "LPWSTR *"])].

Definition ICoreWebView2WebMessageReceivedEventHandler_entries : list entry := [
   F "ICoreWebView2WebMessageReceivedEventHandler" (M "" "HRESULT" "Invoke" [P "in" "ICoreWebView2 *"; P "in" "ICoreWebView2WebMessageReceivedEventArgs *"])].

Definition ICoreWebView2WebResourceRequest_entries : list entry := [
   F "ICoreWebView2WebResourceRequest" (M "propget" "HRESULT" "get_Uri" [P "retval,out" "LPWSTR *"]);
   F "ICoreWebView2WebResourceRequest" (M "propput" "HRESULT" "put_Uri" [P "in" "LPCWSTR"]);
   F "ICoreWebView2WebResourceRequest" (M "propget" "HRESULT" "get_Method" [P "retval,out" "LPWSTR *"]);
   F "ICoreWebView2WebResourceRequest" (M "propput" "HRESULT" "put_Method" [P "in" "LPCWSTR"]);
   F "ICoreWebView2WebResourceRequest" (M "propget" "HRESULT" "get_Content" [P "retval,out" "IStream **"]);
   F "ICoreWebView2WebResourceRequest" (M "propput" "HRESULT" "put_Content" [P "in" "IStream *"]);
   F "ICoreWebView2WebResourceRequest" (M "propget" "HRESULT" "get_Headers" [P "retval,out" "ICoreWebView2HttpRequestHeaders **"])].

Definition ICoreWebView2WebResourceRequestedEventArgs_entries : list entry := [
   F "ICoreWebView2WebResourceRequestedEventArgs" (M "propget" "HRESULT" "get_Request" [P "retval,out" "ICoreWebView2WebResourceRequest **"]);
   F "ICoreWebView2WebResourceRequestedEventArgs" (M "propget" "HRESULT" "get_Response" [P "retval,out" "ICoreWebView2WebResourceResponse **"]);
   F "ICoreWebView2WebResourceRequestedEventArgs" (M "propput" "HRESULT" "put_Response" [P "in" "ICoreWebView2WebResourceResponse *"]);
   F "ICoreWebView2WebResourceRequestedEventArgs" (M "" "HRESULT" "GetDeferral" [P "retval,out" "ICoreWebView2Deferral **"]);
   F "ICoreWebView2WebResourceRequestedEventArgs" (M "propget" "HRESULT" "get_ResourceContext" [P "retval,out" "COREWEBVIEW2_WEB_RESOURCE_CONTEXT *"])].

Definition ICoreWebView2WebResourceRequestedEventArgs2_entries : list entry := [
   F "ICoreWebView2WebResourceRequestedEventArgs2" (M "propget" "HRESULT" "get_RequestedSourceKind" [P "retval,out" "COREWEBVIEW2_WEB_RESOURCE_REQUEST_SOURCE_KINDS *"])].

Definition ICoreWebView2WebResourceRequestedEventHandler_entries : list entry := [
   F "ICoreWebView2WebResourceRequestedEventHandler" (M "" "HRESULT" "Invoke" [P "in" "ICoreWebView2 *"; P "in" "ICoreWebView2WebResourceRequestedEventArgs *"])].

Definition ICoreWebView2WebResourceResponse_entries : list entry := [
   F "ICoreWebView2WebResourceResponse" (M "propget" "HRESULT" "get_Content" [P "retval,out" "IStream **"]);
   F "ICoreWebView2WebResourceResponse" (M "propput" "HRESULT" "put_Content" [P "in" "IStream *"]);
   F "ICoreWebView2WebResourceResponse" (M "propget" "HRESULT" "get_Headers" [P "retval,out" "ICoreWebView2HttpResponseHeaders **"]);
   F "ICoreWebView2WebResourceResponse" (M "propget" "HRESULT" "get_StatusCode" [P "retval,out" "int *"]);
   F "ICoreWebView2WebResourceResponse" (M "propput" "HRESULT" "put_StatusCode" [P "in" "int"]);
   F "ICoreWebView2WebResourceResponse" (M "propget" "HRESULT" "get_ReasonPhrase" [P "retval,out" "LPWSTR *"]);
   F "ICoreWebView2WebResourceResponse" (M "propput" "HRESULT" "put_ReasonPhrase" [P "in" "LPCWSTR"])].

Definition ICoreWebView2WebResourceResponseReceivedEventHandler_entries : list entry := [
   F "ICoreWebView2WebResourceResponseReceivedEventHandler" (M "" "HRESULT" "Invoke" [P "in" "ICoreWebView2 *"; P "in" "ICoreWebView2WebResourceResponseReceivedEventArgs *"])].

Definition ICoreWebView2WebResourceResponseReceivedEventArgs_entries : list entry := [
   F "ICoreWebView2WebResourceResponseReceivedEventArgs" (M "propget" "HRESULT" "get_Request" [P "retval,out" "ICoreWebView2WebResourceRequest **"]);
   F "ICoreWebView2WebResourceResponseReceivedEventArgs" (M "propget" "HRESULT" "get_Response" [P "retval,out" "ICoreWebView2WebResourceResponseView **"])].

Definition ICoreWebView2WebResourceResponseView_entries : list entry := [
   F "ICoreWebView2WebResourceResponseView" (M "propget" "HRESULT" "get_Headers" [P "retval,out" "ICoreWebView2HttpResponseHeaders **"]);
   F "ICoreWebView2WebResourceResponseView" (M "propget" "HRESULT" "get_StatusCode" [P "retval,out" "int *"]);
   F "ICoreWebView2WebResourceResponseView" (M "propget" "HRESULT" "get_ReasonPhrase" [P "retval,out" "LPWSTR *"]);
   F "ICoreWebView2WebResourceResponseView" (M "" "HRESULT" "GetContent" [P "in" "ICoreWebView2WebResourceResponseViewGetContentCompletedHandler *"])].

Definition ICoreWebView2WebResourceResponseViewGetContentCompletedHandler_entries : list entry := [
   F "ICoreWebView2WebResourceResponseViewGetContentCompletedHandler" (M "" "HRESULT" "Invoke" [P "in" "HRESULT"; P "in" "IStream *"])].

Definition ICoreWebView2WindowCloseRequestedEventHandler_entries : list entry := [
   F "ICoreWebView2WindowCloseRequestedEventHandler" (M "" "HRESULT" "Invoke" [P "in" "ICoreWebView2 *"; P "in" "IUnknown *"])].

Definition ICoreWebView2WindowFeatures_entries : list entry := [
   F "ICoreWebView2WindowFeatures" (M "propget" "HRESULT" "get_HasPosition" [P "retval,out" "BOOL *"]);
   F "ICoreWebView2WindowFeatures" (M "propget" "HRESULT" "get_HasSize" [P "retval,out" "BOOL *"]);
   F "ICoreWebView2WindowFeatures" (M "propget" "HRESULT" "get_Left" [P "retval,out" "UINT32 *"]);
   F "ICoreWebView2WindowFeatures" (M "propget" "HRESULT" "get_Top" [P "retval,out" "UINT32 *"]);
   F "ICoreWebView2WindowFeatures" (M "propget" "HRESULT" "get_Height" [P "retval,out" "UINT32 *"]);
   F "ICoreWebView2WindowFeatures" (M "propget" "HRESULT" "get_Width" [P "retval,out" "UINT32 *"]);
   F "ICoreWebView2WindowFeatures" (M "propget" "HRESULT" "get_ShouldDisplayMenuBar" [P "retval,out" "BOOL *"]);
   F "ICoreWebView2WindowFeatures" (M "propget" "HRESULT" "get_ShouldDisplayStatus" [P "retval,out" "BOOL *"]);
   F "ICoreWebView2WindowFeatures" (M "propget" "HRESULT" "get_ShouldDisplayToolbar" [P "retval,out" "BOOL *"]);
   F "ICoreWebView2WindowFeatures" (M "propget" "HRESULT" "get_ShouldDisplayScrollBars" [P "retval,out" "BOOL *"])].

Definition ICoreWebView2ZoomFactorChangedEventHandler_entries : list entry := [
   F "ICoreWebView2ZoomFactorChangedEventHandler" (M "" "HRESULT" "Invoke" [P "in" "ICoreWebView2Controller *"; P "in" "IUnknown *"])].

Definition ICoreWebView2IsMutedChangedEventHandler_entries : list entry := [
   F "ICoreWebView2IsMutedChangedEventHandler" (M "" "HRESULT" "Invoke" [P "in" "ICoreWebView2 *"; P "in" "IUnknown *"])].

Definition ICoreWebView2IsDocumentPlayingAudioChangedEventHandler_entries : list entry := [
   F "ICoreWebView2IsDocumentPlayingAudioChangedEventHandler" (M "" "HRESULT" "Invoke" [P "in" "ICoreWebView2 *"; P "in" "IUnknown *"])].

Definition ICoreWebView2ProcessInfo_entries : list entry := [
   F "ICoreWebView2ProcessInfo" (M "propget" "HRESULT" "get_ProcessId" [P "retval,out" "INT32 *"]);
   F "ICoreWebView2ProcessInfo" (M "propget" "HRESULT" "get_Kind" [P "retval,out" "COREWEBVIEW2_PROCESS_KIND *"])].

Definition ICoreWebView2ProcessInfoCollection_entries : list entry := [
   F "ICoreWebView2ProcessInfoCollection" (M "propget" "HRESULT" "get_Count" [P "retval,out" "UINT *"]);
   F "ICoreWebView2ProcessInfoCollection" (M "" "HRESULT" "GetValueAtIndex" [P "in" "UINT32"; P "retval,out" "ICoreWebView2ProcessInfo **"])].

Definition ICoreWebView2ProcessInfosChangedEventHandler_entries : list entry := [
   F "ICoreWebView2ProcessInfosChangedEventHandler" (M "" "HRESULT" "Invoke" [P "in" "ICoreWebView2Environment *"; P "in" "IUnknown *"])].

Definition ICoreWebView2FaviconChangedEventHandler_entries : list entry := [
   F "ICoreWebView2FaviconChangedEventHandler" (M "" "HRESULT" "Invoke" [P "in" "ICoreWebView2 *"; P "in" "IUnknown *"])].

Definition ICoreWebView2GetFaviconCompletedHandler_entries : list entry := [
   F "ICoreWebView2GetFaviconCompletedHandler" (M "" "HRESULT" "Invoke" [P "in" "HRESULT"; P "in" "IStream *"])].

Definition ICoreWebView2ProfileAddBrowserExtensionCompletedHandler_entries : list entry := [
   F "ICoreWebView2ProfileAddBrowserExtensionCompletedHandler" (M "" "HRESULT" "Invoke" [P "in" "HRESULT"; P "in" "ICoreWebView2BrowserExtension *"])].

Definition ICoreWebView2ProfileGetBrowserExtensionsCompletedHandler_entries : list entry := [
   F "ICoreWebView2ProfileGetBrowserExtensionsCompletedHandler" (M "" "HRESULT" "Invoke" [P "in" "HRESULT"; P "in" "ICoreWebView2BrowserExtensionList *"])].

Definition ICoreWebView2BrowserExtensionList_entries : list entry := [
   F "ICoreWebView2BrowserExtensionList" (M "propget" "HRESULT" "get_Count" [P "retval,out" "UINT *"]);
   F "ICoreWebView2BrowserExtensionList" (M "" "HRESULT" "GetValueAtIndex" [P "in" "UINT"; P "retval,out" "ICoreWebView2BrowserExtension **"])].

Definition ICoreWebView2BrowserExtension_entries : list entry := [
   F "ICoreWebView2BrowserExtension" (M "propget" "HRESULT" "get_Id" [P "retval,out" "LPWSTR *"]);
   F "ICoreWebView2BrowserExtension" (M "propget" "HRESULT" "get_Name" [P "retval,out" "LPWSTR *"]);
   F "ICoreWebView2BrowserExtension" (M "" "HRESULT" "Remove" [P "in" "ICoreWebView2BrowserExtensionRemoveCompletedHandler *"]);
   F "ICoreWebView2BrowserExtension" (M "propget" "HRESULT" "get_IsEnabled" [P "retval,out" "BOOL *"]);
   F "ICoreWebView2BrowserExtension" (M "" "HRESULT" "Enable" [P "in" "BOOL"; P "in" "ICoreWebView2BrowserExtensionEnableCompletedHandler *"])].

Definition ICoreWebView2BrowserExtensionEnableCompletedHandler_entries : list entry := [
   F "ICoreWebView2BrowserExtensionEnableCompletedHandler" (M "" "HRESULT" "Invoke" [P "in" "HRESULT"])].

Definition ICoreWebView2BrowserExtensionRemoveCompletedHandler_entries : list entry := [
   F "ICoreWebView2BrowserExtensionRemoveCompletedHandler" (M "" "HRESULT" "Invoke" [P "in" "HRESULT"])].

Definition ICoreWebView2ExecuteScriptResult_entries : list entry := [
   F "ICoreWebView2ExecuteScriptResult" (M "propget" "HRESULT" "get_Succeeded" [P "retval,out" "BOOL *"]);
   F "ICoreWebView2ExecuteScriptResult" (M "propget" "HRESULT" "get_ResultAsJson" [P "retval,out" "LPWSTR *"]);
   F "ICoreWebView2ExecuteScriptResult" (M "" "HRESULT" "TryGetResultAsString" [P "out" "LPWSTR *"; P "out" "BOOL *"]);
   F "ICoreWebView2ExecuteScriptResult" (M "propget" "HRESULT" "get_Exception" [P "retval,out" "ICoreWebView2ScriptException **"])].

Definition ICoreWebView2ExecuteScriptWithResultCompletedHandler_entries : list entry := [
   F "ICoreWebView2ExecuteScriptWithResultCompletedHandler" (M "" "HRESULT" "Invoke" [P "in" "HRESULT"; P "in" "ICoreWebView2ExecuteScriptResult *"])].

Definition ICoreWebView2ScriptException_entries : list entry := [
   F "ICoreWebView2ScriptException" (M "propget" "HRESULT" "get_LineNumber" [P "retval,out" "UINT32 *"]);
   F "ICoreWebView2ScriptException" (M "propget" "HRESULT" "get_ColumnNumber" [P "retval,out" "UINT32 *"]);
   F "ICoreWebView2ScriptException" (M "propget" "HRESULT" "get_Name" [P "retval,out" "LPWSTR *"]);
   F "ICoreWebView2ScriptException" (M "propget" "HRESULT" "get_Message" [P "retval,out" "LPWSTR *"]);
   F "ICoreWebView2ScriptException" (M "propget" "HRESULT" "get_ToJson" [P "retval,out" "LPWSTR *"])].

Definition ICoreWebView2File_entries : list entry := [
   F "ICoreWebView2File" (M "propget" "HRESULT" "get_Path" [P "retval,out" "LPWSTR *"])].

Definition ICoreWebView2ObjectCollectionView_entries : list entry := [
   F "ICoreWebView2ObjectCollectionView" (M "propget" "HRESULT" "get_Count" [P "retval,out" "UINT32 *"]);
   F "ICoreWebView2ObjectCollectionView" (M "" "HRESULT" "GetValueAtIndex" [P "in" "UINT32"; P "retval,out" "IUnknown **"])].

Definition ICoreWebView2WebMessageReceivedEventArgs2_entries : list entry := [
   F "ICoreWebView2WebMessageReceivedEventArgs2" (M "propget" "HRESULT" "get_AdditionalObjects" [P "retval,out" "ICoreWebView2ObjectCollectionView **"])].
