(* ===== verification/WvTables.v ===== *)
(** * WebView2.h: the C tables

    The C table of functions of every interface, in the order of the header.  A table
    repeats the entries of the bases, which are the same text wherever they occur (but for
    the type of [This]), so it is written with the lists of WvEntries; a long one in parts. *)

From S2P Require Import Prelude WvIdl WvEntries.

Definition ICoreWebView2AcceleratorKeyPressedEventArgsVtbl : list entry :=
   IUnknown_entries ++ ICoreWebView2AcceleratorKeyPressedEventArgs_entries.

Definition ICoreWebView2AcceleratorKeyPressedEventArgs2Vtbl : list entry :=
   IUnknown_entries ++ ICoreWebView2AcceleratorKeyPressedEventArgs_entries ++
   ICoreWebView2AcceleratorKeyPressedEventArgs2_entries.

Definition ICoreWebView2AcceleratorKeyPressedEventHandlerVtbl : list entry :=
   IUnknown_entries ++ ICoreWebView2AcceleratorKeyPressedEventHandler_entries.

Definition ICoreWebView2AddScriptToExecuteOnDocumentCreatedCompletedHandlerVtbl : list entry :=
   IUnknown_entries ++ ICoreWebView2AddScriptToExecuteOnDocumentCreatedCompletedHandler_entries.

Definition ICoreWebView2CallDevToolsProtocolMethodCompletedHandlerVtbl : list entry :=
   IUnknown_entries ++ ICoreWebView2CallDevToolsProtocolMethodCompletedHandler_entries.

Definition ICoreWebView2CapturePreviewCompletedHandlerVtbl : list entry :=
   IUnknown_entries ++ ICoreWebView2CapturePreviewCompletedHandler_entries.

Definition ICoreWebView2Vtbl_part1 : list entry := IUnknown_entries ++ ICoreWebView2_entries1.

Definition ICoreWebView2Vtbl_part2 : list entry := ICoreWebView2_entries2.

Definition ICoreWebView2Vtbl_part3 : list entry := ICoreWebView2_entries3.

Definition ICoreWebView2Vtbl : list entry :=
   ICoreWebView2Vtbl_part1 ++ ICoreWebView2Vtbl_part2 ++ ICoreWebView2Vtbl_part3.

Definition ICoreWebView2_2Vtbl_part1 : list entry := IUnknown_entries ++ ICoreWebView2_entries1.

Definition ICoreWebView2_2Vtbl_part2 : list entry := ICoreWebView2_entries2.

Definition ICoreWebView2_2Vtbl_part3 : list entry := ICoreWebView2_entries3 ++ ICoreWebView2_2_entries.

Definition ICoreWebView2_2Vtbl : list entry :=
   ICoreWebView2_2Vtbl_part1 ++ ICoreWebView2_2Vtbl_part2 ++ ICoreWebView2_2Vtbl_part3.

Definition ICoreWebView2_3Vtbl_part1 : list entry := IUnknown_entries ++ ICoreWebView2_entries1.

Definition ICoreWebView2_3Vtbl_part2 : list entry := ICoreWebView2_entries2.

Definition ICoreWebView2_3Vtbl_part3 : list entry :=
   ICoreWebView2_entries3 ++ ICoreWebView2_2_entries ++ ICoreWebView2_3_entries.

Definition ICoreWebView2_3Vtbl : list entry :=
   ICoreWebView2_3Vtbl_part1 ++ ICoreWebView2_3Vtbl_part2 ++ ICoreWebView2_3Vtbl_part3.

Definition ICoreWebView2_4Vtbl_part1 : list entry := IUnknown_entries ++ ICoreWebView2_entries1.

Definition ICoreWebView2_4Vtbl_part2 : list entry := ICoreWebView2_entries2.

Definition ICoreWebView2_4Vtbl_part3 : list entry :=
   ICoreWebView2_entries3 ++ ICoreWebView2_2_entries ++ ICoreWebView2_3_entries ++ ICoreWebView2_4_entries.

Definition ICoreWebView2_4Vtbl : list entry :=
   ICoreWebView2_4Vtbl_part1 ++ ICoreWebView2_4Vtbl_part2 ++ ICoreWebView2_4Vtbl_part3.

Definition ICoreWebView2_5Vtbl_part1 : list entry := IUnknown_entries ++ ICoreWebView2_entries1.

Definition ICoreWebView2_5Vtbl_part2 : list entry := ICoreWebView2_entries2.

Definition ICoreWebView2_5Vtbl_part3 : list entry :=
   ICoreWebView2_entries3 ++ ICoreWebView2_2_entries ++ ICoreWebView2_3_entries ++ ICoreWebView2_4_entries.

Definition ICoreWebView2_5Vtbl_part4 : list entry := ICoreWebView2_5_entries.

Definition ICoreWebView2_5Vtbl : list entry :=
   ICoreWebView2_5Vtbl_part1 ++ ICoreWebView2_5Vtbl_part2 ++ ICoreWebView2_5Vtbl_part3 ++
   ICoreWebView2_5Vtbl_part4.

Definition ICoreWebView2_6Vtbl_part1 : list entry := IUnknown_entries ++ ICoreWebView2_entries1.

Definition ICoreWebView2_6Vtbl_part2 : list entry := ICoreWebView2_entries2.

Definition ICoreWebView2_6Vtbl_part3 : list entry :=
   ICoreWebView2_entries3 ++ ICoreWebView2_2_entries ++ ICoreWebView2_3_entries ++ ICoreWebView2_4_entries.

Definition ICoreWebView2_6Vtbl_part4 : list entry :=
   ICoreWebView2_5_entries ++ ICoreWebView2_6_entries.

Definition ICoreWebView2_6Vtbl : list entry :=
   ICoreWebView2_6Vtbl_part1 ++ ICoreWebView2_6Vtbl_part2 ++ ICoreWebView2_6Vtbl_part3 ++
   ICoreWebView2_6Vtbl_part4.

Definition ICoreWebView2_7Vtbl_part1 : list entry := IUnknown_entries ++ ICoreWebView2_entries1.

Definition ICoreWebView2_7Vtbl_part2 : list entry := ICoreWebView2_entries2.

Definition ICoreWebView2_7Vtbl_part3 : list entry :=
   ICoreWebView2_entries3 ++ ICoreWebView2_2_entries ++ ICoreWebView2_3_entries ++ ICoreWebView2_4_entries.

Definition ICoreWebView2_7Vtbl_part4 : list entry :=
   ICoreWebView2_5_entries ++ ICoreWebView2_6_entries ++ ICoreWebView2_7_entries.

Definition ICoreWebView2_7Vtbl : list entry :=
   ICoreWebView2_7Vtbl_part1 ++ ICoreWebView2_7Vtbl_part2 ++ ICoreWebView2_7Vtbl_part3 ++
   ICoreWebView2_7Vtbl_part4.

Definition ICoreWebView2_8Vtbl_part1 : list entry := IUnknown_entries ++ ICoreWebView2_entries1.

Definition ICoreWebView2_8Vtbl_part2 : list entry := ICoreWebView2_entries2.

Definition ICoreWebView2_8Vtbl_part3 : list entry :=
   ICoreWebView2_entries3 ++ ICoreWebView2_2_entries ++ ICoreWebView2_3_entries ++ ICoreWebView2_4_entries.

Definition ICoreWebView2_8Vtbl_part4 : list entry :=
   ICoreWebView2_5_entries ++ ICoreWebView2_6_entries ++ ICoreWebView2_7_entries ++ ICoreWebView2_8_entries.

Definition ICoreWebView2_8Vtbl : list entry :=
   ICoreWebView2_8Vtbl_part1 ++ ICoreWebView2_8Vtbl_part2 ++ ICoreWebView2_8Vtbl_part3 ++
   ICoreWebView2_8Vtbl_part4.

Definition ICoreWebView2_9Vtbl_part1 : list entry := IUnknown_entries ++ ICoreWebView2_entries1.

Definition ICoreWebView2_9Vtbl_part2 : list entry := ICoreWebView2_entries2.

Definition ICoreWebView2_9Vtbl_part3 : list entry :=
   ICoreWebView2_entries3 ++ ICoreWebView2_2_entries ++ ICoreWebView2_3_entries ++ ICoreWebView2_4_entries.

Definition ICoreWebView2_9Vtbl_part4 : list entry :=
   ICoreWebView2_5_entries ++ ICoreWebView2_6_entries ++ ICoreWebView2_7_entries ++
   ICoreWebView2_8_entries ++ ICoreWebView2_9_entries.

Definition ICoreWebView2_9Vtbl : list entry :=
   ICoreWebView2_9Vtbl_part1 ++ ICoreWebView2_9Vtbl_part2 ++ ICoreWebView2_9Vtbl_part3 ++
   ICoreWebView2_9Vtbl_part4.

Definition ICoreWebView2_10Vtbl_part1 : list entry := IUnknown_entries ++ ICoreWebView2_entries1.

Definition ICoreWebView2_10Vtbl_part2 : list entry := ICoreWebView2_entries2.

Definition ICoreWebView2_10Vtbl_part3 : list entry :=
   ICoreWebView2_entries3 ++ ICoreWebView2_2_entries ++ ICoreWebView2_3_entries ++ ICoreWebView2_4_entries.

Definition ICoreWebView2_10Vtbl_part4 : list entry :=
   ICoreWebView2_5_entries ++ ICoreWebView2_6_entries ++ ICoreWebView2_7_entries ++
   ICoreWebView2_8_entries ++ ICoreWebView2_9_entries ++ ICoreWebView2_10_entries.

Definition ICoreWebView2_10Vtbl : list entry :=
   ICoreWebView2_10Vtbl_part1 ++ ICoreWebView2_10Vtbl_part2 ++ ICoreWebView2_10Vtbl_part3 ++
   ICoreWebView2_10Vtbl_part4.

Definition ICoreWebView2_11Vtbl_part1 : list entry := IUnknown_entries ++ ICoreWebView2_entries1.

Definition ICoreWebView2_11Vtbl_part2 : list entry := ICoreWebView2_entries2.

Definition ICoreWebView2_11Vtbl_part3 : list entry :=
   ICoreWebView2_entries3 ++ ICoreWebView2_2_entries ++ ICoreWebView2_3_entries ++ ICoreWebView2_4_entries.

Definition ICoreWebView2_11Vtbl_part4 : list entry :=
   ICoreWebView2_5_entries ++ ICoreWebView2_6_entries ++ ICoreWebView2_7_entries ++
   ICoreWebView2_8_entries ++ ICoreWebView2_9_entries ++ ICoreWebView2_10_entries ++
   ICoreWebView2_11_entries.

Definition ICoreWebView2_11Vtbl : list entry :=
   ICoreWebView2_11Vtbl_part1 ++ ICoreWebView2_11Vtbl_part2 ++ ICoreWebView2_11Vtbl_part3 ++
   ICoreWebView2_11Vtbl_part4.

Definition ICoreWebView2_12Vtbl_part1 : list entry := IUnknown_entries ++ ICoreWebView2_entries1.

Definition ICoreWebView2_12Vtbl_part2 : list entry := ICoreWebView2_entries2.

Definition ICoreWebView2_12Vtbl_part3 : list entry :=
   ICoreWebView2_entries3 ++ ICoreWebView2_2_entries ++ ICoreWebView2_3_entries ++ ICoreWebView2_4_entries.

Definition ICoreWebView2_12Vtbl_part4 : list entry :=
   ICoreWebView2_5_entries ++ ICoreWebView2_6_entries ++ ICoreWebView2_7_entries ++
   ICoreWebView2_8_entries ++ ICoreWebView2_9_entries ++ ICoreWebView2_10_entries ++
   ICoreWebView2_11_entries.

Definition ICoreWebView2_12Vtbl_part5 : list entry := ICoreWebView2_12_entries.

Definition ICoreWebView2_12Vtbl : list entry :=
   ICoreWebView2_12Vtbl_part1 ++ ICoreWebView2_12Vtbl_part2 ++ ICoreWebView2_12Vtbl_part3 ++
   ICoreWebView2_12Vtbl_part4 ++ ICoreWebView2_12Vtbl_part5.

Definition ICoreWebView2_13Vtbl_part1 : list entry := IUnknown_entries ++ ICoreWebView2_entries1.

Definition ICoreWebView2_13Vtbl_part2 : list entry := ICoreWebView2_entries2.

Definition ICoreWebView2_13Vtbl_part3 : list entry :=
   ICoreWebView2_entries3 ++ ICoreWebView2_2_entries ++ ICoreWebView2_3_entries ++ ICoreWebView2_4_entries.

Definition ICoreWebView2_13Vtbl_part4 : list entry :=
   ICoreWebView2_5_entries ++ ICoreWebView2_6_entries ++ ICoreWebView2_7_entries ++
   ICoreWebView2_8_entries ++ ICoreWebView2_9_entries ++ ICoreWebView2_10_entries ++
   ICoreWebView2_11_entries ++ ICoreWebView2_12_entries.

Definition ICoreWebView2_13Vtbl_part5 : list entry := ICoreWebView2_13_entries.

Definition ICoreWebView2_13Vtbl : list entry :=
   ICoreWebView2_13Vtbl_part1 ++ ICoreWebView2_13Vtbl_part2 ++ ICoreWebView2_13Vtbl_part3 ++
   ICoreWebView2_13Vtbl_part4 ++ ICoreWebView2_13Vtbl_part5.

Definition ICoreWebView2_14Vtbl_part1 : list entry := IUnknown_entries ++ ICoreWebView2_entries1.

Definition ICoreWebView2_14Vtbl_part2 : list entry := ICoreWebView2_entries2.

Definition ICoreWebView2_14Vtbl_part3 : list entry :=
   ICoreWebView2_entries3 ++ ICoreWebView2_2_entries ++ ICoreWebView2_3_entries ++ ICoreWebView2_4_entries.

Definition ICoreWebView2_14Vtbl_part4 : list entry :=
   ICoreWebView2_5_entries ++ ICoreWebView2_6_entries ++ ICoreWebView2_7_entries ++
   ICoreWebView2_8_entries ++ ICoreWebView2_9_entries ++ ICoreWebView2_10_entries ++
   ICoreWebView2_11_entries ++ ICoreWebView2_12_entries.

Definition ICoreWebView2_14Vtbl_part5 : list entry :=
   ICoreWebView2_13_entries ++ ICoreWebView2_14_entries.

Definition ICoreWebView2_14Vtbl : list entry :=
   ICoreWebView2_14Vtbl_part1 ++ ICoreWebView2_14Vtbl_part2 ++ ICoreWebView2_14Vtbl_part3 ++
   ICoreWebView2_14Vtbl_part4 ++ ICoreWebView2_14Vtbl_part5.

Definition ICoreWebView2_15Vtbl_part1 : list entry := IUnknown_entries ++ ICoreWebView2_entries1.

Definition ICoreWebView2_15Vtbl_part2 : list entry := ICoreWebView2_entries2.

Definition ICoreWebView2_15Vtbl_part3 : list entry :=
   ICoreWebView2_entries3 ++ ICoreWebView2_2_entries ++ ICoreWebView2_3_entries ++ ICoreWebView2_4_entries.

Definition ICoreWebView2_15Vtbl_part4 : list entry :=
   ICoreWebView2_5_entries ++ ICoreWebView2_6_entries ++ ICoreWebView2_7_entries ++
   ICoreWebView2_8_entries ++ ICoreWebView2_9_entries ++ ICoreWebView2_10_entries ++
   ICoreWebView2_11_entries ++ ICoreWebView2_12_entries.

Definition ICoreWebView2_15Vtbl_part5 : list entry :=
   ICoreWebView2_13_entries ++ ICoreWebView2_14_entries ++ ICoreWebView2_15_entries.

Definition ICoreWebView2_15Vtbl : list entry :=
   ICoreWebView2_15Vtbl_part1 ++ ICoreWebView2_15Vtbl_part2 ++ ICoreWebView2_15Vtbl_part3 ++
   ICoreWebView2_15Vtbl_part4 ++ ICoreWebView2_15Vtbl_part5.

Definition ICoreWebView2_16Vtbl_part1 : list entry := IUnknown_entries ++ ICoreWebView2_entries1.

Definition ICoreWebView2_16Vtbl_part2 : list entry := ICoreWebView2_entries2.

Definition ICoreWebView2_16Vtbl_part3 : list entry :=
   ICoreWebView2_entries3 ++ ICoreWebView2_2_entries ++ ICoreWebView2_3_entries ++ ICoreWebView2_4_entries.

Definition ICoreWebView2_16Vtbl_part4 : list entry :=
   ICoreWebView2_5_entries ++ ICoreWebView2_6_entries ++ ICoreWebView2_7_entries ++
   ICoreWebView2_8_entries ++ ICoreWebView2_9_entries ++ ICoreWebView2_10_entries ++
   ICoreWebView2_11_entries ++ ICoreWebView2_12_entries.

Definition ICoreWebView2_16Vtbl_part5 : list entry :=
   ICoreWebView2_13_entries ++ ICoreWebView2_14_entries ++ ICoreWebView2_15_entries ++
   ICoreWebView2_16_entries.

Definition ICoreWebView2_16Vtbl : list entry :=
   ICoreWebView2_16Vtbl_part1 ++ ICoreWebView2_16Vtbl_part2 ++ ICoreWebView2_16Vtbl_part3 ++
   ICoreWebView2_16Vtbl_part4 ++ ICoreWebView2_16Vtbl_part5.

Definition ICoreWebView2_17Vtbl_part1 : list entry := IUnknown_entries ++ ICoreWebView2_entries1.

Definition ICoreWebView2_17Vtbl_part2 : list entry := ICoreWebView2_entries2.

Definition ICoreWebView2_17Vtbl_part3 : list entry :=
   ICoreWebView2_entries3 ++ ICoreWebView2_2_entries ++ ICoreWebView2_3_entries ++ ICoreWebView2_4_entries.

Definition ICoreWebView2_17Vtbl_part4 : list entry :=
   ICoreWebView2_5_entries ++ ICoreWebView2_6_entries ++ ICoreWebView2_7_entries ++
   ICoreWebView2_8_entries ++ ICoreWebView2_9_entries ++ ICoreWebView2_10_entries ++
   ICoreWebView2_11_entries ++ ICoreWebView2_12_entries.

Definition ICoreWebView2_17Vtbl_part5 : list entry :=
   ICoreWebView2_13_entries ++ ICoreWebView2_14_entries ++ ICoreWebView2_15_entries ++
   ICoreWebView2_16_entries ++ ICoreWebView2_17_entries.

Definition ICoreWebView2_17Vtbl : list entry :=
   ICoreWebView2_17Vtbl_part1 ++ ICoreWebView2_17Vtbl_part2 ++ ICoreWebView2_17Vtbl_part3 ++
   ICoreWebView2_17Vtbl_part4 ++ ICoreWebView2_17Vtbl_part5.

Definition ICoreWebView2_18Vtbl_part1 : list entry := IUnknown_entries ++ ICoreWebView2_entries1.

Definition ICoreWebView2_18Vtbl_part2 : list entry := ICoreWebView2_entries2.

Definition ICoreWebView2_18Vtbl_part3 : list entry :=
   ICoreWebView2_entries3 ++ ICoreWebView2_2_entries ++ ICoreWebView2_3_entries ++ ICoreWebView2_4_entries.

Definition ICoreWebView2_18Vtbl_part4 : list entry :=
   ICoreWebView2_5_entries ++ ICoreWebView2_6_entries ++ ICoreWebView2_7_entries ++
   ICoreWebView2_8_entries ++ ICoreWebView2_9_entries ++ ICoreWebView2_10_entries ++
   ICoreWebView2_11_entries ++ ICoreWebView2_12_entries.

Definition ICoreWebView2_18Vtbl_part5 : list entry :=
   ICoreWebView2_13_entries ++ ICoreWebView2_14_entries ++ ICoreWebView2_15_entries ++
   ICoreWebView2_16_entries ++ ICoreWebView2_17_entries ++ ICoreWebView2_18_entries.

Definition ICoreWebView2_18Vtbl : list entry :=
   ICoreWebView2_18Vtbl_part1 ++ ICoreWebView2_18Vtbl_part2 ++ ICoreWebView2_18Vtbl_part3 ++
   ICoreWebView2_18Vtbl_part4 ++ ICoreWebView2_18Vtbl_part5.

Definition ICoreWebView2_19Vtbl_part1 : list entry := IUnknown_entries ++ ICoreWebView2_entries1.

Definition ICoreWebView2_19Vtbl_part2 : list entry := ICoreWebView2_entries2.

Definition ICoreWebView2_19Vtbl_part3 : list entry :=
   ICoreWebView2_entries3 ++ ICoreWebView2_2_entries ++ ICoreWebView2_3_entries ++ ICoreWebView2_4_entries.

Definition ICoreWebView2_19Vtbl_part4 : list entry :=
   ICoreWebView2_5_entries ++ ICoreWebView2_6_entries ++ ICoreWebView2_7_entries ++
   ICoreWebView2_8_entries ++ ICoreWebView2_9_entries ++ ICoreWebView2_10_entries ++
   ICoreWebView2_11_entries ++ ICoreWebView2_12_entries.

Definition ICoreWebView2_19Vtbl_part5 : list entry :=
   ICoreWebView2_13_entries ++ ICoreWebView2_14_entries ++ ICoreWebView2_15_entries ++
   ICoreWebView2_16_entries ++ ICoreWebView2_17_entries ++ ICoreWebView2_18_entries ++
   ICoreWebView2_19_entries.

Definition ICoreWebView2_19Vtbl : list entry :=
   ICoreWebView2_19Vtbl_part1 ++ ICoreWebView2_19Vtbl_part2 ++ ICoreWebView2_19Vtbl_part3 ++
   ICoreWebView2_19Vtbl_part4 ++ ICoreWebView2_19Vtbl_part5.

Definition ICoreWebView2_20Vtbl_part1 : list entry := IUnknown_entries ++ ICoreWebView2_entries1.

Definition ICoreWebView2_20Vtbl_part2 : list entry := ICoreWebView2_entries2.

Definition ICoreWebView2_20Vtbl_part3 : list entry :=
   ICoreWebView2_entries3 ++ ICoreWebView2_2_entries ++ ICoreWebView2_3_entries ++ ICoreWebView2_4_entries.

Definition ICoreWebView2_20Vtbl_part4 : list entry :=
   ICoreWebView2_5_entries ++ ICoreWebView2_6_entries ++ ICoreWebView2_7_entries ++
   ICoreWebView2_8_entries ++ ICoreWebView2_9_entries ++ ICoreWebView2_10_entries ++
   ICoreWebView2_11_entries ++ ICoreWebView2_12_entries.

Definition ICoreWebView2_20Vtbl_part5 : list entry :=
   ICoreWebView2_13_entries ++ ICoreWebView2_14_entries ++ ICoreWebView2_15_entries ++
   ICoreWebView2_16_entries ++ ICoreWebView2_17_entries ++ ICoreWebView2_18_entries ++
   ICoreWebView2_19_entries ++ ICoreWebView2_20_entries.

Definition ICoreWebView2_20Vtbl : list entry :=
   ICoreWebView2_20Vtbl_part1 ++ ICoreWebView2_20Vtbl_part2 ++ ICoreWebView2_20Vtbl_part3 ++
   ICoreWebView2_20Vtbl_part4 ++ ICoreWebView2_20Vtbl_part5.

Definition ICoreWebView2_21Vtbl_part1 : list entry := IUnknown_entries ++ ICoreWebView2_entries1.

Definition ICoreWebView2_21Vtbl_part2 : list entry := ICoreWebView2_entries2.

Definition ICoreWebView2_21Vtbl_part3 : list entry :=
   ICoreWebView2_entries3 ++ ICoreWebView2_2_entries ++ ICoreWebView2_3_entries ++ ICoreWebView2_4_entries.

Definition ICoreWebView2_21Vtbl_part4 : list entry :=
   ICoreWebView2_5_entries ++ ICoreWebView2_6_entries ++ ICoreWebView2_7_entries ++
   ICoreWebView2_8_entries ++ ICoreWebView2_9_entries ++ ICoreWebView2_10_entries ++
   ICoreWebView2_11_entries ++ ICoreWebView2_12_entries.

Definition ICoreWebView2_21Vtbl_part5 : list entry :=
   ICoreWebView2_13_entries ++ ICoreWebView2_14_entries ++ ICoreWebView2_15_entries ++
   ICoreWebView2_16_entries ++ ICoreWebView2_17_entries ++ ICoreWebView2_18_entries ++
   ICoreWebView2_19_entries ++ ICoreWebView2_20_entries ++ ICoreWebView2_21_entries.

Definition ICoreWebView2_21Vtbl : list entry :=
   ICoreWebView2_21Vtbl_part1 ++ ICoreWebView2_21Vtbl_part2 ++ ICoreWebView2_21Vtbl_part3 ++
   ICoreWebView2_21Vtbl_part4 ++ ICoreWebView2_21Vtbl_part5.

Definition ICoreWebView2_22Vtbl_part1 : list entry := IUnknown_entries ++ ICoreWebView2_entries1.

Definition ICoreWebView2_22Vtbl_part2 : list entry := ICoreWebView2_entries2.

Definition ICoreWebView2_22Vtbl_part3 : list entry :=
   ICoreWebView2_entries3 ++ ICoreWebView2_2_entries ++ ICoreWebView2_3_entries ++ ICoreWebView2_4_entries.

Definition ICoreWebView2_22Vtbl_part4 : list entry :=
   ICoreWebView2_5_entries ++ ICoreWebView2_6_entries ++ ICoreWebView2_7_entries ++
   ICoreWebView2_8_entries ++ ICoreWebView2_9_entries ++ ICoreWebView2_10_entries ++
   ICoreWebView2_11_entries ++ ICoreWebView2_12_entries.

Definition ICoreWebView2_22Vtbl_part5 : list entry :=
   ICoreWebView2_13_entries ++ ICoreWebView2_14_entries ++ ICoreWebView2_15_entries ++
   ICoreWebView2_16_entries ++ ICoreWebView2_17_entries ++ ICoreWebView2_18_entries ++
   ICoreWebView2_19_entries ++ ICoreWebView2_20_entries ++ ICoreWebView2_21_entries ++
   ICoreWebView2_22_entries.

Definition ICoreWebView2_22Vtbl : list entry :=
   ICoreWebView2_22Vtbl_part1 ++ ICoreWebView2_22Vtbl_part2 ++ ICoreWebView2_22Vtbl_part3 ++
   ICoreWebView2_22Vtbl_part4 ++ ICoreWebView2_22Vtbl_part5.

Definition ICoreWebView2BasicAuthenticationRequestedEventArgsVtbl : list entry :=
   IUnknown_entries ++ ICoreWebView2BasicAuthenticationRequestedEventArgs_entries.

Definition ICoreWebView2BasicAuthenticationRequestedEventHandlerVtbl : list entry :=
   IUnknown_entries ++ ICoreWebView2BasicAuthenticationRequestedEventHandler_entries.

Definition ICoreWebView2BasicAuthenticationResponseVtbl : list entry :=
   IUnknown_entries ++ ICoreWebView2BasicAuthenticationResponse_entries.

Definition ICoreWebView2BrowserProcessExitedEventArgsVtbl : list entry :=
   IUnknown_entries ++ ICoreWebView2BrowserProcessExitedEventArgs_entries.

Definition ICoreWebView2BrowserProcessExitedEventHandlerVtbl : list entry :=
   IUnknown_entries ++ ICoreWebView2BrowserProcessExitedEventHandler_entries.

Definition ICoreWebView2BytesReceivedChangedEventHandlerVtbl : list entry :=
   IUnknown_entries ++ ICoreWebView2BytesReceivedChangedEventHandler_entries.

Definition ICoreWebView2CompositionControllerVtbl : list entry :=
   IUnknown_entries ++ ICoreWebView2CompositionController_entries.

Definition ICoreWebView2CompositionController2Vtbl : list entry :=
   IUnknown_entries ++ ICoreWebView2CompositionController_entries ++
   ICoreWebView2CompositionController2_entries.

Definition ICoreWebView2CompositionController3Vtbl : list entry :=
   IUnknown_entries ++ ICoreWebView2CompositionController_entries ++
   ICoreWebView2CompositionController2_entries ++ ICoreWebView2CompositionController3_entries.

Definition ICoreWebView2ControllerVtbl : list entry :=
   IUnknown_entries ++ ICoreWebView2Controller_entries.

Definition ICoreWebView2Controller2Vtbl : list entry :=
   IUnknown_entries ++ ICoreWebView2Controller_entries ++ ICoreWebView2Controller2_entries.

Definition ICoreWebView2Controller3Vtbl_part1 : list entry :=
   IUnknown_entries ++ ICoreWebView2Controller_entries ++ ICoreWebView2Controller2_entries.

Definition ICoreWebView2Controller3Vtbl_part2 : list entry := ICoreWebView2Controller3_entries.

Definition ICoreWebView2Controller3Vtbl : list entry :=
   ICoreWebView2Controller3Vtbl_part1 ++ ICoreWebView2Controller3Vtbl_part2.

Definition ICoreWebView2Controller4Vtbl_part1 : list entry :=
   IUnknown_entries ++ ICoreWebView2Controller_entries ++ ICoreWebView2Controller2_entries.

Definition ICoreWebView2Controller4Vtbl_part2 : list entry :=
   ICoreWebView2Controller3_entries ++ ICoreWebView2Controller4_entries.

Definition ICoreWebView2Controller4Vtbl : list entry :=
   ICoreWebView2Controller4Vtbl_part1 ++ ICoreWebView2Controller4Vtbl_part2.

Definition ICoreWebView2ControllerOptionsVtbl : list entry :=
   IUnknown_entries ++ ICoreWebView2ControllerOptions_entries.

Definition ICoreWebView2ControllerOptions2Vtbl : list entry :=
   IUnknown_entries ++ ICoreWebView2ControllerOptions_entries ++ ICoreWebView2ControllerOptions2_entries.

Definition ICoreWebView2ContentLoadingEventArgsVtbl : list entry :=
   IUnknown_entries ++ ICoreWebView2ContentLoadingEventArgs_entries.

Definition ICoreWebView2ContentLoadingEventHandlerVtbl : list entry :=
   IUnknown_entries ++ ICoreWebView2ContentLoadingEventHandler_entries.

Definition ICoreWebView2ContextMenuRequestedEventArgsVtbl : list entry :=
   IUnknown_entries ++ ICoreWebView2ContextMenuRequestedEventArgs_entries.

Definition ICoreWebView2ContextMenuRequestedEventHandlerVtbl : list entry :=
   IUnknown_entries ++ ICoreWebView2ContextMenuRequestedEventHandler_entries.

Definition ICoreWebView2CookieVtbl : list entry := IUnknown_entries ++ ICoreWebView2Cookie_entries.

Definition ICoreWebView2CookieListVtbl : list entry :=
   IUnknown_entries ++ ICoreWebView2CookieList_entries.

Definition ICoreWebView2CookieManagerVtbl : list entry :=
   IUnknown_entries ++ ICoreWebView2CookieManager_entries.

Definition ICoreWebView2CertificateVtbl : list entry :=
   IUnknown_entries ++ ICoreWebView2Certificate_entries.

Definition ICoreWebView2ClientCertificateVtbl : list entry :=
   IUnknown_entries ++ ICoreWebView2ClientCertificate_entries.

Definition ICoreWebView2StringCollectionVtbl : list entry :=
   IUnknown_entries ++ ICoreWebView2StringCollection_entries.

Definition ICoreWebView2ClearBrowsingDataCompletedHandlerVtbl : list entry :=
   IUnknown_entries ++ ICoreWebView2ClearBrowsingDataCompletedHandler_entries.

Definition ICoreWebView2ClientCertificateCollectionVtbl : list entry :=
   IUnknown_entries ++ ICoreWebView2ClientCertificateCollection_entries.

Definition ICoreWebView2ClientCertificateRequestedEventArgsVtbl : list entry :=
   IUnknown_entries ++ ICoreWebView2ClientCertificateRequestedEventArgs_entries.

Definition ICoreWebView2ClientCertificateRequestedEventHandlerVtbl : list entry :=
   IUnknown_entries ++ ICoreWebView2ClientCertificateRequestedEventHandler_entries.

Definition ICoreWebView2ContextMenuItemVtbl : list entry :=
   IUnknown_entries ++ ICoreWebView2ContextMenuItem_entries.

Definition ICoreWebView2ContextMenuItemCollectionVtbl : list entry :=
   IUnknown_entries ++ ICoreWebView2ContextMenuItemCollection_entries.

Definition ICoreWebView2ContextMenuTargetVtbl : list entry :=
   IUnknown_entries ++ ICoreWebView2ContextMenuTarget_entries.

Definition ICoreWebView2ClearServerCertificateErrorActionsCompletedHandlerVtbl : list entry :=
   IUnknown_entries ++ ICoreWebView2ClearServerCertificateErrorActionsCompletedHandler_entries.

Definition ICoreWebView2CreateCoreWebView2CompositionControllerCompletedHandlerVtbl : list entry :=
   IUnknown_entries ++ ICoreWebView2CreateCoreWebView2CompositionControllerCompletedHandler_entries.

Definition ICoreWebView2CreateCoreWebView2ControllerCompletedHandlerVtbl : list entry :=
   IUnknown_entries ++ ICoreWebView2CreateCoreWebView2ControllerCompletedHandler_entries.

Definition ICoreWebView2CreateCoreWebView2EnvironmentCompletedHandlerVtbl : list entry :=
   IUnknown_entries ++ ICoreWebView2CreateCoreWebView2EnvironmentCompletedHandler_entries.

Definition ICoreWebView2ContainsFullScreenElementChangedEventHandlerVtbl : list entry :=
   IUnknown_entries ++ ICoreWebView2ContainsFullScreenElementChangedEventHandler_entries.

Definition ICoreWebView2CursorChangedEventHandlerVtbl : list entry :=
   IUnknown_entries ++ ICoreWebView2CursorChangedEventHandler_entries.

Definition ICoreWebView2CustomItemSelectedEventHandlerVtbl : list entry :=
   IUnknown_entries ++ ICoreWebView2CustomItemSelectedEventHandler_entries.

Definition ICoreWebView2CustomSchemeRegistrationVtbl : list entry :=
   IUnknown_entries ++ ICoreWebView2CustomSchemeRegistration_entries.

Definition ICoreWebView2DocumentTitleChangedEventHandlerVtbl : list entry :=
   IUnknown_entries ++ ICoreWebView2DocumentTitleChangedEventHandler_entries.

Definition ICoreWebView2DOMContentLoadedEventArgsVtbl : list entry :=
   IUnknown_entries ++ ICoreWebView2DOMContentLoadedEventArgs_entries.

Definition ICoreWebView2DOMContentLoadedEventHandlerVtbl : list entry :=
   IUnknown_entries ++ ICoreWebView2DOMContentLoadedEventHandler_entries.

Definition ICoreWebView2DeferralVtbl : list entry := IUnknown_entries ++ ICoreWebView2Deferral_entries.

Definition ICoreWebView2DevToolsProtocolEventReceivedEventArgsVtbl : list entry :=
   IUnknown_entries ++ ICoreWebView2DevToolsProtocolEventReceivedEventArgs_entries.

Definition ICoreWebView2DevToolsProtocolEventReceivedEventArgs2Vtbl : list entry :=
   IUnknown_entries ++ ICoreWebView2DevToolsProtocolEventReceivedEventArgs_entries ++
   ICoreWebView2DevToolsProtocolEventReceivedEventArgs2_entries.

Definition ICoreWebView2DevToolsProtocolEventReceivedEventHandlerVtbl : list entry :=
   IUnknown_entries ++ ICoreWebView2DevToolsProtocolEventReceivedEventHandler_entries.

Definition ICoreWebView2DevToolsProtocolEventReceiverVtbl : list entry :=
   IUnknown_entries ++ ICoreWebView2DevToolsProtocolEventReceiver_entries.

Definition ICoreWebView2DownloadOperationVtbl : list entry :=
   IUnknown_entries ++ ICoreWebView2DownloadOperation_entries.

Definition ICoreWebView2DownloadStartingEventArgsVtbl : list entry :=
   IUnknown_entries ++ ICoreWebView2DownloadStartingEventArgs_entries.

Definition ICoreWebView2DownloadStartingEventHandlerVtbl : list entry :=
   IUnknown_entries ++ ICoreWebView2DownloadStartingEventHandler_entries.

Definition ICoreWebView2EnvironmentVtbl : list entry :=
   IUnknown_entries ++ ICoreWebView2Environment_entries.

Definition ICoreWebView2Environment2Vtbl : list entry :=
   IUnknown_entries ++ ICoreWebView2Environment_entries ++ ICoreWebView2Environment2_entries.

Definition ICoreWebView2Environment3Vtbl : list entry :=
   IUnknown_entries ++ ICoreWebView2Environment_entries ++ ICoreWebView2Environment2_entries ++
   ICoreWebView2Environment3_entries.

Definition ICoreWebView2Environment4Vtbl : list entry :=
   IUnknown_entries ++ ICoreWebView2Environment_entries ++ ICoreWebView2Environment2_entries ++
   ICoreWebView2Environment3_entries ++ ICoreWebView2Environment4_entries.

Definition ICoreWebView2Environment5Vtbl : list entry :=
   IUnknown_entries ++ ICoreWebView2Environment_entries ++ ICoreWebView2Environment2_entries ++
   ICoreWebView2Environment3_entries ++ ICoreWebView2Environment4_entries ++
   ICoreWebView2Environment5_entries.

Definition ICoreWebView2Environment6Vtbl : list entry :=
   IUnknown_entries ++ ICoreWebView2Environment_entries ++ ICoreWebView2Environment2_entries ++
   ICoreWebView2Environment3_entries ++ ICoreWebView2Environment4_entries ++
   ICoreWebView2Environment5_entries ++ ICoreWebView2Environment6_entries.

Definition ICoreWebView2Environment7Vtbl : list entry :=
   IUnknown_entries ++ ICoreWebView2Environment_entries ++ ICoreWebView2Environment2_entries ++
   ICoreWebView2Environment3_entries ++ ICoreWebView2Environment4_entries ++
   ICoreWebView2Environment5_entries ++ ICoreWebView2Environment6_entries ++
   ICoreWebView2Environment7_entries.

Definition ICoreWebView2Environment8Vtbl : list entry :=
   IUnknown_entries ++ ICoreWebView2Environment_entries ++ ICoreWebView2Environment2_entries ++
   ICoreWebView2Environment3_entries ++ ICoreWebView2Environment4_entries ++
   ICoreWebView2Environment5_entries ++ ICoreWebView2Environment6_entries ++
   ICoreWebView2Environment7_entries ++ ICoreWebView2Environment8_entries.

Definition ICoreWebView2Environment9Vtbl : list entry :=
   IUnknown_entries ++ ICoreWebView2Environment_entries ++ ICoreWebView2Environment2_entries ++
   ICoreWebView2Environment3_entries ++ ICoreWebView2Environment4_entries ++
   ICoreWebView2Environment5_entries ++ ICoreWebView2Environment6_entries ++
   ICoreWebView2Environment7_entries ++ ICoreWebView2Environment8_entries ++
   ICoreWebView2Environment9_entries.

Definition ICoreWebView2Environment10Vtbl : list entry :=
   IUnknown_entries ++ ICoreWebView2Environment_entries ++ ICoreWebView2Environment2_entries ++
   ICoreWebView2Environment3_entries ++ ICoreWebView2Environment4_entries ++
   ICoreWebView2Environment5_entries ++ ICoreWebView2Environment6_entries ++
   ICoreWebView2Environment7_entries ++ ICoreWebView2Environment8_entries ++
   ICoreWebView2Environment9_entries ++ ICoreWebView2Environment10_entries.

Definition ICoreWebView2Environment11Vtbl : list entry :=
   IUnknown_entries ++ ICoreWebView2Environment_entries ++ ICoreWebView2Environment2_entries ++
   ICoreWebView2Environment3_entries ++ ICoreWebView2Environment4_entries ++
   ICoreWebView2Environment5_entries ++ ICoreWebView2Environment6_entries ++
   ICoreWebView2Environment7_entries ++ ICoreWebView2Environment8_entries ++
   ICoreWebView2Environment9_entries ++ ICoreWebView2Environment10_entries ++
   ICoreWebView2Environment11_entries.

Definition ICoreWebView2Environment12Vtbl_part1 : list entry :=
   IUnknown_entries ++ ICoreWebView2Environment_entries ++ ICoreWebView2Environment2_entries ++
   ICoreWebView2Environment3_entries ++ ICoreWebView2Environment4_entries ++
   ICoreWebView2Environment5_entries ++ ICoreWebView2Environment6_entries ++
   ICoreWebView2Environment7_entries ++ ICoreWebView2Environment8_entries ++
   ICoreWebView2Environment9_entries ++ ICoreWebView2Environment10_entries ++
   ICoreWebView2Environment11_entries.

Definition ICoreWebView2Environment12Vtbl_part2 : list entry := ICoreWebView2Environment12_entries.

Definition ICoreWebView2Environment12Vtbl : list entry :=
   ICoreWebView2Environment12Vtbl_part1 ++ ICoreWebView2Environment12Vtbl_part2.

Definition ICoreWebView2Environment13Vtbl_part1 : list entry :=
   IUnknown_entries ++ ICoreWebView2Environment_entries ++ ICoreWebView2Environment2_entries ++
   ICoreWebView2Environment3_entries ++ ICoreWebView2Environment4_entries ++
   ICoreWebView2Environment5_entries ++ ICoreWebView2Environment6_entries ++
   ICoreWebView2Environment7_entries ++ ICoreWebView2Environment8_entries ++
   ICoreWebView2Environment9_entries ++ ICoreWebView2Environment10_entries ++
   ICoreWebView2Environment11_entries.

Definition ICoreWebView2Environment13Vtbl_part2 : list entry :=
   ICoreWebView2Environment12_entries ++ ICoreWebView2Environment13_entries.

Definition ICoreWebView2Environment13Vtbl : list entry :=
   ICoreWebView2Environment13Vtbl_part1 ++ ICoreWebView2Environment13Vtbl_part2.

Definition ICoreWebView2EnvironmentOptionsVtbl : list entry :=
   IUnknown_entries ++ ICoreWebView2EnvironmentOptions_entries.

Definition ICoreWebView2EnvironmentOptions2Vtbl : list entry :=
   IUnknown_entries ++ ICoreWebView2EnvironmentOptions2_entries.

Definition ICoreWebView2EnvironmentOptions3Vtbl : list entry :=
   IUnknown_entries ++ ICoreWebView2EnvironmentOptions3_entries.

Definition ICoreWebView2EnvironmentOptions4Vtbl : list entry :=
   IUnknown_entries ++ ICoreWebView2EnvironmentOptions4_entries.

Definition ICoreWebView2EnvironmentOptions5Vtbl : list entry :=
   IUnknown_entries ++ ICoreWebView2EnvironmentOptions5_entries.

Definition ICoreWebView2EnvironmentOptions6Vtbl : list entry :=
   IUnknown_entries ++ ICoreWebView2EnvironmentOptions6_entries.

Definition ICoreWebView2EstimatedEndTimeChangedEventHandlerVtbl : list entry :=
   IUnknown_entries ++ ICoreWebView2EstimatedEndTimeChangedEventHandler_entries.

Definition ICoreWebView2ExecuteScriptCompletedHandlerVtbl : list entry :=
   IUnknown_entries ++ ICoreWebView2ExecuteScriptCompletedHandler_entries.

Definition ICoreWebView2GetProcessExtendedInfosCompletedHandlerVtbl : list entry :=
   IUnknown_entries ++ ICoreWebView2GetProcessExtendedInfosCompletedHandler_entries.

Definition ICoreWebView2ProcessExtendedInfoVtbl : list entry :=
   IUnknown_entries ++ ICoreWebView2ProcessExtendedInfo_entries.

Definition ICoreWebView2ProcessExtendedInfoCollectionVtbl : list entry :=
   IUnknown_entries ++ ICoreWebView2ProcessExtendedInfoCollection_entries.

Definition ICoreWebView2FrameVtbl : list entry := IUnknown_entries ++ ICoreWebView2Frame_entries.

Definition ICoreWebView2Frame2Vtbl : list entry :=
   IUnknown_entries ++ ICoreWebView2Frame_entries ++ ICoreWebView2Frame2_entries.

Definition ICoreWebView2Frame3Vtbl : list entry :=
   IUnknown_entries ++ ICoreWebView2Frame_entries ++ ICoreWebView2Frame2_entries ++
   ICoreWebView2Frame3_entries.

Definition ICoreWebView2Frame4Vtbl_part1 : list entry :=
   IUnknown_entries ++ ICoreWebView2Frame_entries ++ ICoreWebView2Frame2_entries ++
   ICoreWebView2Frame3_entries.

Definition ICoreWebView2Frame4Vtbl_part2 : list entry := ICoreWebView2Frame4_entries.

Definition ICoreWebView2Frame4Vtbl : list entry :=
   ICoreWebView2Frame4Vtbl_part1 ++ ICoreWebView2Frame4Vtbl_part2.

Definition ICoreWebView2Frame5Vtbl_part1 : list entry :=
   IUnknown_entries ++ ICoreWebView2Frame_entries ++ ICoreWebView2Frame2_entries ++
   ICoreWebView2Frame3_entries.

Definition ICoreWebView2Frame5Vtbl_part2 : list entry :=
   ICoreWebView2Frame4_entries ++ ICoreWebView2Frame5_entries.

Definition ICoreWebView2Frame5Vtbl : list entry :=
   ICoreWebView2Frame5Vtbl_part1 ++ ICoreWebView2Frame5Vtbl_part2.

Definition ICoreWebView2FrameContentLoadingEventHandlerVtbl : list entry :=
   IUnknown_entries ++ ICoreWebView2FrameContentLoadingEventHandler_entries.

Definition ICoreWebView2FrameCreatedEventArgsVtbl : list entry :=
   IUnknown_entries ++ ICoreWebView2FrameCreatedEventArgs_entries.

Definition ICoreWebView2FrameCreatedEventHandlerVtbl : list entry :=
   IUnknown_entries ++ ICoreWebView2FrameCreatedEventHandler_entries.

Definition ICoreWebView2FrameDestroyedEventHandlerVtbl : list entry :=
   IUnknown_entries ++ ICoreWebView2FrameDestroyedEventHandler_entries.

Definition ICoreWebView2FrameDOMContentLoadedEventHandlerVtbl : list entry :=
   IUnknown_entries ++ ICoreWebView2FrameDOMContentLoadedEventHandler_entries.

Definition ICoreWebView2FrameNameChangedEventHandlerVtbl : list entry :=
   IUnknown_entries ++ ICoreWebView2FrameNameChangedEventHandler_entries.

Definition ICoreWebView2FrameNavigationCompletedEventHandlerVtbl : list entry :=
   IUnknown_entries ++ ICoreWebView2FrameNavigationCompletedEventHandler_entries.

Definition ICoreWebView2FrameNavigationStartingEventHandlerVtbl : list entry :=
   IUnknown_entries ++ ICoreWebView2FrameNavigationStartingEventHandler_entries.

Definition ICoreWebView2FramePermissionRequestedEventHandlerVtbl : list entry :=
   IUnknown_entries ++ ICoreWebView2FramePermissionRequestedEventHandler_entries.

Definition ICoreWebView2FrameWebMessageReceivedEventHandlerVtbl : list entry :=
   IUnknown_entries ++ ICoreWebView2FrameWebMessageReceivedEventHandler_entries.

Definition ICoreWebView2FrameInfoVtbl : list entry :=
   IUnknown_entries ++ ICoreWebView2FrameInfo_entries.

Definition ICoreWebView2FrameInfo2Vtbl : list entry :=
   IUnknown_entries ++ ICoreWebView2FrameInfo_entries ++ ICoreWebView2FrameInfo2_entries.

Definition ICoreWebView2FrameInfoCollectionVtbl : list entry :=
   IUnknown_entries ++ ICoreWebView2FrameInfoCollection_entries.

Definition ICoreWebView2FrameInfoCollectionIteratorVtbl : list entry :=
   IUnknown_entries ++ ICoreWebView2FrameInfoCollectionIterator_entries.

Definition ICoreWebView2FocusChangedEventHandlerVtbl : list entry :=
   IUnknown_entries ++ ICoreWebView2FocusChangedEventHandler_entries.

Definition ICoreWebView2GetCookiesCompletedHandlerVtbl : list entry :=
   IUnknown_entries ++ ICoreWebView2GetCookiesCompletedHandler_entries.

Definition ICoreWebView2GetNonDefaultPermissionSettingsCompletedHandlerVtbl : list entry :=
   IUnknown_entries ++ ICoreWebView2GetNonDefaultPermissionSettingsCompletedHandler_entries.

Definition ICoreWebView2HistoryChangedEventHandlerVtbl : list entry :=
   IUnknown_entries ++ ICoreWebView2HistoryChangedEventHandler_entries.

Definition ICoreWebView2HttpHeadersCollectionIteratorVtbl : list entry :=
   IUnknown_entries ++ ICoreWebView2HttpHeadersCollectionIterator_entries.

Definition ICoreWebView2HttpRequestHeadersVtbl : list entry :=
   IUnknown_entries ++ ICoreWebView2HttpRequestHeaders_entries.

Definition ICoreWebView2HttpResponseHeadersVtbl : list entry :=
   IUnknown_entries ++ ICoreWebView2HttpResponseHeaders_entries.

Definition ICoreWebView2IsDefaultDownloadDialogOpenChangedEventHandlerVtbl : list entry :=
   IUnknown_entries ++ ICoreWebView2IsDefaultDownloadDialogOpenChangedEventHandler_entries.

Definition ICoreWebView2LaunchingExternalUriSchemeEventArgsVtbl : list entry :=
   IUnknown_entries ++ ICoreWebView2LaunchingExternalUriSchemeEventArgs_entries.

Definition ICoreWebView2LaunchingExternalUriSchemeEventHandlerVtbl : list entry :=
   IUnknown_entries ++ ICoreWebView2LaunchingExternalUriSchemeEventHandler_entries.

Definition ICoreWebView2MoveFocusRequestedEventArgsVtbl : list entry :=
   IUnknown_entries ++ ICoreWebView2MoveFocusRequestedEventArgs_entries.

Definition ICoreWebView2MoveFocusRequestedEventHandlerVtbl : list entry :=
   IUnknown_entries ++ ICoreWebView2MoveFocusRequestedEventHandler_entries.

Definition ICoreWebView2NavigationCompletedEventArgsVtbl : list entry :=
   IUnknown_entries ++ ICoreWebView2NavigationCompletedEventArgs_entries.

Definition ICoreWebView2NavigationCompletedEventArgs2Vtbl : list entry :=
   IUnknown_entries ++ ICoreWebView2NavigationCompletedEventArgs_entries ++
   ICoreWebView2NavigationCompletedEventArgs2_entries.

Definition ICoreWebView2NavigationCompletedEventHandlerVtbl : list entry :=
   IUnknown_entries ++ ICoreWebView2NavigationCompletedEventHandler_entries.

Definition ICoreWebView2NavigationStartingEventArgsVtbl : list entry :=
   IUnknown_entries ++ ICoreWebView2NavigationStartingEventArgs_entries.

Definition ICoreWebView2NavigationStartingEventArgs2Vtbl : list entry :=
   IUnknown_entries ++ ICoreWebView2NavigationStartingEventArgs_entries ++
   ICoreWebView2NavigationStartingEventArgs2_entries.

Definition ICoreWebView2NavigationStartingEventArgs3Vtbl : list entry :=
   IUnknown_entries ++ ICoreWebView2NavigationStartingEventArgs_entries ++
   ICoreWebView2NavigationStartingEventArgs2_entries ++ ICoreWebView2NavigationStartingEventArgs3_entries.

Definition ICoreWebView2NavigationStartingEventHandlerVtbl : list entry :=
   IUnknown_entries ++ ICoreWebView2NavigationStartingEventHandler_entries.

Definition ICoreWebView2NewBrowserVersionAvailableEventHandlerVtbl : list entry :=
   IUnknown_entries ++ ICoreWebView2NewBrowserVersionAvailableEventHandler_entries.

Definition ICoreWebView2NewWindowRequestedEventArgsVtbl : list entry :=
   IUnknown_entries ++ ICoreWebView2NewWindowRequestedEventArgs_entries.

Definition ICoreWebView2NewWindowRequestedEventArgs2Vtbl : list entry :=
   IUnknown_entries ++ ICoreWebView2NewWindowRequestedEventArgs_entries ++
   ICoreWebView2NewWindowRequestedEventArgs2_entries.

Definition ICoreWebView2NewWindowRequestedEventArgs3Vtbl : list entry :=
   IUnknown_entries ++ ICoreWebView2NewWindowRequestedEventArgs_entries ++
   ICoreWebView2NewWindowRequestedEventArgs2_entries ++ ICoreWebView2NewWindowRequestedEventArgs3_entries.

Definition ICoreWebView2NewWindowRequestedEventHandlerVtbl : list entry :=
   IUnknown_entries ++ ICoreWebView2NewWindowRequestedEventHandler_entries.

Definition ICoreWebView2PermissionRequestedEventArgsVtbl : list entry :=
   IUnknown_entries ++ ICoreWebView2PermissionRequestedEventArgs_entries.

Definition ICoreWebView2PermissionRequestedEventArgs2Vtbl : list entry :=
   IUnknown_entries ++ ICoreWebView2PermissionRequestedEventArgs_entries ++
   ICoreWebView2PermissionRequestedEventArgs2_entries.

Definition ICoreWebView2PermissionRequestedEventArgs3Vtbl : list entry :=
   IUnknown_entries ++ ICoreWebView2PermissionRequestedEventArgs_entries ++
   ICoreWebView2PermissionRequestedEventArgs2_entries ++ ICoreWebView2PermissionRequestedEventArgs3_entries.

Definition ICoreWebView2PermissionRequestedEventHandlerVtbl : list entry :=
   IUnknown_entries ++ ICoreWebView2PermissionRequestedEventHandler_entries.

Definition ICoreWebView2PermissionSettingCollectionViewVtbl : list entry :=
   IUnknown_entries ++ ICoreWebView2PermissionSettingCollectionView_entries.

Definition ICoreWebView2PermissionSettingVtbl : list entry :=
   IUnknown_entries ++ ICoreWebView2PermissionSetting_entries.

Definition ICoreWebView2PointerInfoVtbl_part1 : list entry :=
   IUnknown_entries ++ ICoreWebView2PointerInfo_entries1.

Definition ICoreWebView2PointerInfoVtbl_part2 : list entry := ICoreWebView2PointerInfo_entries2.

Definition ICoreWebView2PointerInfoVtbl_part3 : list entry := ICoreWebView2PointerInfo_entries3.

Definition ICoreWebView2PointerInfoVtbl : list entry :=
   ICoreWebView2PointerInfoVtbl_part1 ++ ICoreWebView2PointerInfoVtbl_part2 ++
   ICoreWebView2PointerInfoVtbl_part3.

Definition ICoreWebView2PrintSettingsVtbl_part1 : list entry :=
   IUnknown_entries ++ ICoreWebView2PrintSettings_entries1.

Definition ICoreWebView2PrintSettingsVtbl_part2 : list entry := ICoreWebView2PrintSettings_entries2.

Definition ICoreWebView2PrintSettingsVtbl : list entry :=
   ICoreWebView2PrintSettingsVtbl_part1 ++ ICoreWebView2PrintSettingsVtbl_part2.

Definition ICoreWebView2PrintSettings2Vtbl_part1 : list entry :=
   IUnknown_entries ++ ICoreWebView2PrintSettings_entries1 ++ ICoreWebView2PrintSettings_entries2.

Definition ICoreWebView2PrintSettings2Vtbl_part2 : list entry := ICoreWebView2PrintSettings2_entries.

Definition ICoreWebView2PrintSettings2Vtbl : list entry :=
   ICoreWebView2PrintSettings2Vtbl_part1 ++ ICoreWebView2PrintSettings2Vtbl_part2.

Definition ICoreWebView2PrintToPdfCompletedHandlerVtbl : list entry :=
   IUnknown_entries ++ ICoreWebView2PrintToPdfCompletedHandler_entries.

Definition ICoreWebView2PrintCompletedHandlerVtbl : list entry :=
   IUnknown_entries ++ ICoreWebView2PrintCompletedHandler_entries.

Definition ICoreWebView2PrintToPdfStreamCompletedHandlerVtbl : list entry :=
   IUnknown_entries ++ ICoreWebView2PrintToPdfStreamCompletedHandler_entries.

Definition ICoreWebView2ProcessFailedEventArgsVtbl : list entry :=
   IUnknown_entries ++ ICoreWebView2ProcessFailedEventArgs_entries.

Definition ICoreWebView2ProcessFailedEventArgs2Vtbl : list entry :=
   IUnknown_entries ++ ICoreWebView2ProcessFailedEventArgs_entries ++
   ICoreWebView2ProcessFailedEventArgs2_entries.

Definition ICoreWebView2ProcessFailedEventHandlerVtbl : list entry :=
   IUnknown_entries ++ ICoreWebView2ProcessFailedEventHandler_entries.

Definition ICoreWebView2ProfileVtbl : list entry := IUnknown_entries ++ ICoreWebView2Profile_entries.

Definition ICoreWebView2Profile2Vtbl : list entry :=
   IUnknown_entries ++ ICoreWebView2Profile_entries ++ ICoreWebView2Profile2_entries.

Definition ICoreWebView2Profile3Vtbl : list entry :=
   IUnknown_entries ++ ICoreWebView2Profile_entries ++ ICoreWebView2Profile2_entries ++
   ICoreWebView2Profile3_entries.

Definition ICoreWebView2Profile4Vtbl : list entry :=
   IUnknown_entries ++ ICoreWebView2Profile_entries ++ ICoreWebView2Profile2_entries ++
   ICoreWebView2Profile3_entries ++ ICoreWebView2Profile4_entries.

Definition ICoreWebView2Profile5Vtbl : list entry :=
   IUnknown_entries ++ ICoreWebView2Profile_entries ++ ICoreWebView2Profile2_entries ++
   ICoreWebView2Profile3_entries ++ ICoreWebView2Profile4_entries ++ ICoreWebView2Profile5_entries.

Definition ICoreWebView2Profile6Vtbl : list entry :=
   IUnknown_entries ++ ICoreWebView2Profile_entries ++ ICoreWebView2Profile2_entries ++
   ICoreWebView2Profile3_entries ++ ICoreWebView2Profile4_entries ++ ICoreWebView2Profile5_entries ++
   ICoreWebView2Profile6_entries.

Definition ICoreWebView2Profile7Vtbl : list entry :=
   IUnknown_entries ++ ICoreWebView2Profile_entries ++ ICoreWebView2Profile2_entries ++
   ICoreWebView2Profile3_entries ++ ICoreWebView2Profile4_entries ++ ICoreWebView2Profile5_entries ++
   ICoreWebView2Profile6_entries ++ ICoreWebView2Profile7_entries.

Definition ICoreWebView2Profile8Vtbl : list entry :=
   IUnknown_entries ++ ICoreWebView2Profile_entries ++ ICoreWebView2Profile2_entries ++
   ICoreWebView2Profile3_entries ++ ICoreWebView2Profile4_entries ++ ICoreWebView2Profile5_entries ++
   ICoreWebView2Profile6_entries ++ ICoreWebView2Profile7_entries ++ ICoreWebView2Profile8_entries.

Definition ICoreWebView2ProfileDeletedEventHandlerVtbl : list entry :=
   IUnknown_entries ++ ICoreWebView2ProfileDeletedEventHandler_entries.

Definition ICoreWebView2RasterizationScaleChangedEventHandlerVtbl : list entry :=
   IUnknown_entries ++ ICoreWebView2RasterizationScaleChangedEventHandler_entries.

Definition ICoreWebView2ServerCertificateErrorDetectedEventArgsVtbl : list entry :=
   IUnknown_entries ++ ICoreWebView2ServerCertificateErrorDetectedEventArgs_entries.

Definition ICoreWebView2ServerCertificateErrorDetectedEventHandlerVtbl : list entry :=
   IUnknown_entries ++ ICoreWebView2ServerCertificateErrorDetectedEventHandler_entries.

Definition ICoreWebView2SetPermissionStateCompletedHandlerVtbl : list entry :=
   IUnknown_entries ++ ICoreWebView2SetPermissionStateCompletedHandler_entries.

Definition ICoreWebView2ScriptDialogOpeningEventArgsVtbl : list entry :=
   IUnknown_entries ++ ICoreWebView2ScriptDialogOpeningEventArgs_entries.

Definition ICoreWebView2ScriptDialogOpeningEventHandlerVtbl : list entry :=
   IUnknown_entries ++ ICoreWebView2ScriptDialogOpeningEventHandler_entries.

Definition ICoreWebView2SettingsVtbl : list entry := IUnknown_entries ++ ICoreWebView2Settings_entries.

Definition ICoreWebView2Settings2Vtbl : list entry :=
   IUnknown_entries ++ ICoreWebView2Settings_entries ++ ICoreWebView2Settings2_entries.

Definition ICoreWebView2Settings3Vtbl : list entry :=
   IUnknown_entries ++ ICoreWebView2Settings_entries ++ ICoreWebView2Settings2_entries ++
   ICoreWebView2Settings3_entries.

Definition ICoreWebView2Settings4Vtbl_part1 : list entry :=
   IUnknown_entries ++ ICoreWebView2Settings_entries ++ ICoreWebView2Settings2_entries ++
   ICoreWebView2Settings3_entries.

Definition ICoreWebView2Settings4Vtbl_part2 : list entry := ICoreWebView2Settings4_entries.

Definition ICoreWebView2Settings4Vtbl : list entry :=
   ICoreWebView2Settings4Vtbl_part1 ++ ICoreWebView2Settings4Vtbl_part2.

Definition ICoreWebView2Settings5Vtbl_part1 : list entry :=
   IUnknown_entries ++ ICoreWebView2Settings_entries ++ ICoreWebView2Settings2_entries ++
   ICoreWebView2Settings3_entries ++ ICoreWebView2Settings4_entries.

Definition ICoreWebView2Settings5Vtbl_part2 : list entry := ICoreWebView2Settings5_entries.

Definition ICoreWebView2Settings5Vtbl : list entry :=
   ICoreWebView2Settings5Vtbl_part1 ++ ICoreWebView2Settings5Vtbl_part2.

Definition ICoreWebView2Settings6Vtbl_part1 : list entry :=
   IUnknown_entries ++ ICoreWebView2Settings_entries ++ ICoreWebView2Settings2_entries ++
   ICoreWebView2Settings3_entries ++ ICoreWebView2Settings4_entries.

Definition ICoreWebView2Settings6Vtbl_part2 : list entry :=
   ICoreWebView2Settings5_entries ++ ICoreWebView2Settings6_entries.

Definition ICoreWebView2Settings6Vtbl : list entry :=
   ICoreWebView2Settings6Vtbl_part1 ++ ICoreWebView2Settings6Vtbl_part2.

Definition ICoreWebView2Settings7Vtbl_part1 : list entry :=
   IUnknown_entries ++ ICoreWebView2Settings_entries ++ ICoreWebView2Settings2_entries ++
   ICoreWebView2Settings3_entries ++ ICoreWebView2Settings4_entries.

Definition ICoreWebView2Settings7Vtbl_part2 : list entry :=
   ICoreWebView2Settings5_entries ++ ICoreWebView2Settings6_entries ++ ICoreWebView2Settings7_entries.

Definition ICoreWebView2Settings7Vtbl : list entry :=
   ICoreWebView2Settings7Vtbl_part1 ++ ICoreWebView2Settings7Vtbl_part2.

Definition ICoreWebView2Settings8Vtbl_part1 : list entry :=
   IUnknown_entries ++ ICoreWebView2Settings_entries ++ ICoreWebView2Settings2_entries ++
   ICoreWebView2Settings3_entries ++ ICoreWebView2Settings4_entries.

Definition ICoreWebView2Settings8Vtbl_part2 : list entry :=
   ICoreWebView2Settings5_entries ++ ICoreWebView2Settings6_entries ++ ICoreWebView2Settings7_entries ++
   ICoreWebView2Settings8_entries.

Definition ICoreWebView2Settings8Vtbl : list entry :=
   ICoreWebView2Settings8Vtbl_part1 ++ ICoreWebView2Settings8Vtbl_part2.

Definition ICoreWebView2SharedBufferVtbl : list entry :=
   IUnknown_entries ++ ICoreWebView2SharedBuffer_entries.

Definition ICoreWebView2SourceChangedEventArgsVtbl : list entry :=
   IUnknown_entries ++ ICoreWebView2SourceChangedEventArgs_entries.

Definition ICoreWebView2SourceChangedEventHandlerVtbl : list entry :=
   IUnknown_entries ++ ICoreWebView2SourceChangedEventHandler_entries.

Definition ICoreWebView2StateChangedEventHandlerVtbl : list entry :=
   IUnknown_entries ++ ICoreWebView2StateChangedEventHandler_entries.

Definition ICoreWebView2StatusBarTextChangedEventHandlerVtbl : list entry :=
   IUnknown_entries ++ ICoreWebView2StatusBarTextChangedEventHandler_entries.

Definition ICoreWebView2TrySuspendCompletedHandlerVtbl : list entry :=
   IUnknown_entries ++ ICoreWebView2TrySuspendCompletedHandler_entries.

Definition ICoreWebView2WebMessageReceivedEventArgsVtbl : list entry :=
   IUnknown_entries ++ ICoreWebView2WebMessageReceivedEventArgs_entries.

Definition ICoreWebView2WebMessageReceivedEventHandlerVtbl : list entry :=
   IUnknown_entries ++ ICoreWebView2WebMessageReceivedEventHandler_entries.

Definition ICoreWebView2WebResourceRequestVtbl : list entry :=
   IUnknown_entries ++ ICoreWebView2WebResourceRequest_entries.

Definition ICoreWebView2WebResourceRequestedEventArgsVtbl : list entry :=
   IUnknown_entries ++ ICoreWebView2WebResourceRequestedEventArgs_entries.

Definition ICoreWebView2WebResourceRequestedEventArgs2Vtbl : list entry :=
   IUnknown_entries ++ ICoreWebView2WebResourceRequestedEventArgs_entries ++
   ICoreWebView2WebResourceRequestedEventArgs2_entries.

Definition ICoreWebView2WebResourceRequestedEventHandlerVtbl : list entry :=
   IUnknown_entries ++ ICoreWebView2WebResourceRequestedEventHandler_entries.

Definition ICoreWebView2WebResourceResponseVtbl : list entry :=
   IUnknown_entries ++ ICoreWebView2WebResourceResponse_entries.

Definition ICoreWebView2WebResourceResponseReceivedEventHandlerVtbl : list entry :=
   IUnknown_entries ++ ICoreWebView2WebResourceResponseReceivedEventHandler_entries.

Definition ICoreWebView2WebResourceResponseReceivedEventArgsVtbl : list entry :=
   IUnknown_entries ++ ICoreWebView2WebResourceResponseReceivedEventArgs_entries.

Definition ICoreWebView2WebResourceResponseViewVtbl : list entry :=
   IUnknown_entries ++ ICoreWebView2WebResourceResponseView_entries.

Definition ICoreWebView2WebResourceResponseViewGetContentCompletedHandlerVtbl : list entry :=
   IUnknown_entries ++ ICoreWebView2WebResourceResponseViewGetContentCompletedHandler_entries.

Definition ICoreWebView2WindowCloseRequestedEventHandlerVtbl : list entry :=
   IUnknown_entries ++ ICoreWebView2WindowCloseRequestedEventHandler_entries.

Definition ICoreWebView2WindowFeaturesVtbl : list entry :=
   IUnknown_entries ++ ICoreWebView2WindowFeatures_entries.

Definition ICoreWebView2ZoomFactorChangedEventHandlerVtbl : list entry :=
   IUnknown_entries ++ ICoreWebView2ZoomFactorChangedEventHandler_entries.

Definition ICoreWebView2IsMutedChangedEventHandlerVtbl : list entry :=
   IUnknown_entries ++ ICoreWebView2IsMutedChangedEventHandler_entries.

Definition ICoreWebView2IsDocumentPlayingAudioChangedEventHandlerVtbl : list entry :=
   IUnknown_entries ++ ICoreWebView2IsDocumentPlayingAudioChangedEventHandler_entries.

Definition ICoreWebView2ProcessInfoVtbl : list entry :=
   IUnknown_entries ++ ICoreWebView2ProcessInfo_entries.

Definition ICoreWebView2ProcessInfoCollectionVtbl : list entry :=
   IUnknown_entries ++ ICoreWebView2ProcessInfoCollection_entries.

Definition ICoreWebView2ProcessInfosChangedEventHandlerVtbl : list entry :=
   IUnknown_entries ++ ICoreWebView2ProcessInfosChangedEventHandler_entries.

Definition ICoreWebView2FaviconChangedEventHandlerVtbl : list entry :=
   IUnknown_entries ++ ICoreWebView2FaviconChangedEventHandler_entries.

Definition ICoreWebView2GetFaviconCompletedHandlerVtbl : list entry :=
   IUnknown_entries ++ ICoreWebView2GetFaviconCompletedHandler_entries.

Definition ICoreWebView2ProfileAddBrowserExtensionCompletedHandlerVtbl : list entry :=
   IUnknown_entries ++ ICoreWebView2ProfileAddBrowserExtensionCompletedHandler_entries.

Definition ICoreWebView2ProfileGetBrowserExtensionsCompletedHandlerVtbl : list entry :=
   IUnknown_entries ++ ICoreWebView2ProfileGetBrowserExtensionsCompletedHandler_entries.

Definition ICoreWebView2BrowserExtensionListVtbl : list entry :=
   IUnknown_entries ++ ICoreWebView2BrowserExtensionList_entries.

Definition ICoreWebView2BrowserExtensionVtbl : list entry :=
   IUnknown_entries ++ ICoreWebView2BrowserExtension_entries.

Definition ICoreWebView2BrowserExtensionEnableCompletedHandlerVtbl : list entry :=
   IUnknown_entries ++ ICoreWebView2BrowserExtensionEnableCompletedHandler_entries.

Definition ICoreWebView2BrowserExtensionRemoveCompletedHandlerVtbl : list entry :=
   IUnknown_entries ++ ICoreWebView2BrowserExtensionRemoveCompletedHandler_entries.

Definition ICoreWebView2ExecuteScriptResultVtbl : list entry :=
   IUnknown_entries ++ ICoreWebView2ExecuteScriptResult_entries.

Definition ICoreWebView2ExecuteScriptWithResultCompletedHandlerVtbl : list entry :=
   IUnknown_entries ++ ICoreWebView2ExecuteScriptWithResultCompletedHandler_entries.

Definition ICoreWebView2ScriptExceptionVtbl : list entry :=
   IUnknown_entries ++ ICoreWebView2ScriptException_entries.

Definition ICoreWebView2FileVtbl : list entry := IUnknown_entries ++ ICoreWebView2File_entries.

Definition ICoreWebView2ObjectCollectionViewVtbl : list entry :=
   IUnknown_entries ++ ICoreWebView2ObjectCollectionView_entries.

Definition ICoreWebView2WebMessageReceivedEventArgs2Vtbl : list entry :=
   IUnknown_entries ++ ICoreWebView2WebMessageReceivedEventArgs_entries ++
   ICoreWebView2WebMessageReceivedEventArgs2_entries.
