(* ===== verification/WvApi.v ===== *)
(** * The WebView2 interfaces as a whole (WebView2.h)

    All interfaces of the header: the layout of their tables as inheritance gives it, the
    tables the header spells out, and the identifiers. *)

From S2P Require Import Prelude Text Prog Win32.
From S2P Require Export WvIdl WvEnums WvDecls WvDeclsEvents WvEntries WvTables.

(** ** The interfaces *)

Definition interfaces : list interface := [
   ICoreWebView2AcceleratorKeyPressedEventArgs; ICoreWebView2AcceleratorKeyPressedEventArgs2;
   ICoreWebView2AcceleratorKeyPressedEventHandler;
   ICoreWebView2AddScriptToExecuteOnDocumentCreatedCompletedHandler;
   ICoreWebView2CallDevToolsProtocolMethodCompletedHandler; ICoreWebView2CapturePreviewCompletedHandler;
   ICoreWebView2; ICoreWebView2_2; ICoreWebView2_3; ICoreWebView2_4; ICoreWebView2_5; ICoreWebView2_6;
   ICoreWebView2_7; ICoreWebView2_8; ICoreWebView2_9; ICoreWebView2_10; ICoreWebView2_11; ICoreWebView2_12;
   ICoreWebView2_13; ICoreWebView2_14; ICoreWebView2_15; ICoreWebView2_16; ICoreWebView2_17;
   ICoreWebView2_18; ICoreWebView2_19; ICoreWebView2_20; ICoreWebView2_21; ICoreWebView2_22;
   ICoreWebView2BasicAuthenticationRequestedEventArgs;
   ICoreWebView2BasicAuthenticationRequestedEventHandler; ICoreWebView2BasicAuthenticationResponse;
   ICoreWebView2BrowserProcessExitedEventArgs; ICoreWebView2BrowserProcessExitedEventHandler;
   ICoreWebView2BytesReceivedChangedEventHandler; ICoreWebView2CompositionController;
   ICoreWebView2CompositionController2; ICoreWebView2CompositionController3; ICoreWebView2Controller;
   ICoreWebView2Controller2; ICoreWebView2Controller3; ICoreWebView2Controller4;
   ICoreWebView2ControllerOptions; ICoreWebView2ControllerOptions2; ICoreWebView2ContentLoadingEventArgs;
   ICoreWebView2ContentLoadingEventHandler; ICoreWebView2ContextMenuRequestedEventArgs;
   ICoreWebView2ContextMenuRequestedEventHandler; ICoreWebView2Cookie; ICoreWebView2CookieList;
   ICoreWebView2CookieManager; ICoreWebView2Certificate; ICoreWebView2ClientCertificate;
   ICoreWebView2StringCollection; ICoreWebView2ClearBrowsingDataCompletedHandler;
   ICoreWebView2ClientCertificateCollection; ICoreWebView2ClientCertificateRequestedEventArgs;
   ICoreWebView2ClientCertificateRequestedEventHandler; ICoreWebView2ContextMenuItem;
   ICoreWebView2ContextMenuItemCollection; ICoreWebView2ContextMenuTarget;
   ICoreWebView2ClearServerCertificateErrorActionsCompletedHandler;
   ICoreWebView2CreateCoreWebView2CompositionControllerCompletedHandler;
   ICoreWebView2CreateCoreWebView2ControllerCompletedHandler;
   ICoreWebView2CreateCoreWebView2EnvironmentCompletedHandler;
   ICoreWebView2ContainsFullScreenElementChangedEventHandler; ICoreWebView2CursorChangedEventHandler;
   ICoreWebView2CustomItemSelectedEventHandler; ICoreWebView2CustomSchemeRegistration;
   ICoreWebView2DocumentTitleChangedEventHandler; ICoreWebView2DOMContentLoadedEventArgs;
   ICoreWebView2DOMContentLoadedEventHandler; ICoreWebView2Deferral;
   ICoreWebView2DevToolsProtocolEventReceivedEventArgs;
   ICoreWebView2DevToolsProtocolEventReceivedEventArgs2;
   ICoreWebView2DevToolsProtocolEventReceivedEventHandler; ICoreWebView2DevToolsProtocolEventReceiver;
   ICoreWebView2DownloadOperation; ICoreWebView2DownloadStartingEventArgs;
   ICoreWebView2DownloadStartingEventHandler; ICoreWebView2Environment; ICoreWebView2Environment2;
   ICoreWebView2Environment3; ICoreWebView2Environment4; ICoreWebView2Environment5;
   ICoreWebView2Environment6; ICoreWebView2Environment7; ICoreWebView2Environment8;
   ICoreWebView2Environment9; ICoreWebView2Environment10; ICoreWebView2Environment11;
   ICoreWebView2Environment12; ICoreWebView2Environment13; ICoreWebView2EnvironmentOptions;
   ICoreWebView2EnvironmentOptions2; ICoreWebView2EnvironmentOptions3; ICoreWebView2EnvironmentOptions4;
   ICoreWebView2EnvironmentOptions5; ICoreWebView2EnvironmentOptions6;
   ICoreWebView2EstimatedEndTimeChangedEventHandler; ICoreWebView2ExecuteScriptCompletedHandler;
   ICoreWebView2GetProcessExtendedInfosCompletedHandler; ICoreWebView2ProcessExtendedInfo;
   ICoreWebView2ProcessExtendedInfoCollection; ICoreWebView2Frame; ICoreWebView2Frame2;
   ICoreWebView2Frame3; ICoreWebView2Frame4; ICoreWebView2Frame5;
   ICoreWebView2FrameContentLoadingEventHandler; ICoreWebView2FrameCreatedEventArgs;
   ICoreWebView2FrameCreatedEventHandler; ICoreWebView2FrameDestroyedEventHandler;
   ICoreWebView2FrameDOMContentLoadedEventHandler; ICoreWebView2FrameNameChangedEventHandler;
   ICoreWebView2FrameNavigationCompletedEventHandler; ICoreWebView2FrameNavigationStartingEventHandler;
   ICoreWebView2FramePermissionRequestedEventHandler; ICoreWebView2FrameWebMessageReceivedEventHandler;
   ICoreWebView2FrameInfo; ICoreWebView2FrameInfo2; ICoreWebView2FrameInfoCollection;
   ICoreWebView2FrameInfoCollectionIterator; ICoreWebView2FocusChangedEventHandler;
   ICoreWebView2GetCookiesCompletedHandler; ICoreWebView2GetNonDefaultPermissionSettingsCompletedHandler;
   ICoreWebView2HistoryChangedEventHandler; ICoreWebView2HttpHeadersCollectionIterator;
   ICoreWebView2HttpRequestHeaders; ICoreWebView2HttpResponseHeaders;
   ICoreWebView2IsDefaultDownloadDialogOpenChangedEventHandler;
   ICoreWebView2LaunchingExternalUriSchemeEventArgs; ICoreWebView2LaunchingExternalUriSchemeEventHandler;
   ICoreWebView2MoveFocusRequestedEventArgs; ICoreWebView2MoveFocusRequestedEventHandler;
   ICoreWebView2NavigationCompletedEventArgs; ICoreWebView2NavigationCompletedEventArgs2;
   ICoreWebView2NavigationCompletedEventHandler; ICoreWebView2NavigationStartingEventArgs;
   ICoreWebView2NavigationStartingEventArgs2; ICoreWebView2NavigationStartingEventArgs3;
   ICoreWebView2NavigationStartingEventHandler; ICoreWebView2NewBrowserVersionAvailableEventHandler;
   ICoreWebView2NewWindowRequestedEventArgs; ICoreWebView2NewWindowRequestedEventArgs2;
   ICoreWebView2NewWindowRequestedEventArgs3; ICoreWebView2NewWindowRequestedEventHandler;
   ICoreWebView2PermissionRequestedEventArgs; ICoreWebView2PermissionRequestedEventArgs2;
   ICoreWebView2PermissionRequestedEventArgs3; ICoreWebView2PermissionRequestedEventHandler;
   ICoreWebView2PermissionSettingCollectionView; ICoreWebView2PermissionSetting; ICoreWebView2PointerInfo;
   ICoreWebView2PrintSettings; ICoreWebView2PrintSettings2; ICoreWebView2PrintToPdfCompletedHandler;
   ICoreWebView2PrintCompletedHandler; ICoreWebView2PrintToPdfStreamCompletedHandler;
   ICoreWebView2ProcessFailedEventArgs; ICoreWebView2ProcessFailedEventArgs2;
   ICoreWebView2ProcessFailedEventHandler; ICoreWebView2Profile; ICoreWebView2Profile2;
   ICoreWebView2Profile3; ICoreWebView2Profile4; ICoreWebView2Profile5; ICoreWebView2Profile6;
   ICoreWebView2Profile7; ICoreWebView2Profile8; ICoreWebView2ProfileDeletedEventHandler;
   ICoreWebView2RasterizationScaleChangedEventHandler;
   ICoreWebView2ServerCertificateErrorDetectedEventArgs;
   ICoreWebView2ServerCertificateErrorDetectedEventHandler;
   ICoreWebView2SetPermissionStateCompletedHandler; ICoreWebView2ScriptDialogOpeningEventArgs;
   ICoreWebView2ScriptDialogOpeningEventHandler; ICoreWebView2Settings; ICoreWebView2Settings2;
   ICoreWebView2Settings3; ICoreWebView2Settings4; ICoreWebView2Settings5; ICoreWebView2Settings6;
   ICoreWebView2Settings7; ICoreWebView2Settings8; ICoreWebView2SharedBuffer;
   ICoreWebView2SourceChangedEventArgs; ICoreWebView2SourceChangedEventHandler;
   ICoreWebView2StateChangedEventHandler; ICoreWebView2StatusBarTextChangedEventHandler;
   ICoreWebView2TrySuspendCompletedHandler; ICoreWebView2WebMessageReceivedEventArgs;
   ICoreWebView2WebMessageReceivedEventHandler; ICoreWebView2WebResourceRequest;
   ICoreWebView2WebResourceRequestedEventArgs; ICoreWebView2WebResourceRequestedEventArgs2;
   ICoreWebView2WebResourceRequestedEventHandler; ICoreWebView2WebResourceResponse;
   ICoreWebView2WebResourceResponseReceivedEventHandler; ICoreWebView2WebResourceResponseReceivedEventArgs;
   ICoreWebView2WebResourceResponseView; ICoreWebView2WebResourceResponseViewGetContentCompletedHandler;
   ICoreWebView2WindowCloseRequestedEventHandler; ICoreWebView2WindowFeatures;
   ICoreWebView2ZoomFactorChangedEventHandler; ICoreWebView2IsMutedChangedEventHandler;
   ICoreWebView2IsDocumentPlayingAudioChangedEventHandler; ICoreWebView2ProcessInfo;
   ICoreWebView2ProcessInfoCollection; ICoreWebView2ProcessInfosChangedEventHandler;
   ICoreWebView2FaviconChangedEventHandler; ICoreWebView2GetFaviconCompletedHandler;
   ICoreWebView2ProfileAddBrowserExtensionCompletedHandler;
   ICoreWebView2ProfileGetBrowserExtensionsCompletedHandler; ICoreWebView2BrowserExtensionList;
   ICoreWebView2BrowserExtension; ICoreWebView2BrowserExtensionEnableCompletedHandler;
   ICoreWebView2BrowserExtensionRemoveCompletedHandler; ICoreWebView2ExecuteScriptResult;
   ICoreWebView2ExecuteScriptWithResultCompletedHandler; ICoreWebView2ScriptException; ICoreWebView2File;
   ICoreWebView2ObjectCollectionView; ICoreWebView2WebMessageReceivedEventArgs2].

(** The C tables. *)
Definition c_tables : list (interface * list entry) := [
   (ICoreWebView2AcceleratorKeyPressedEventArgs, ICoreWebView2AcceleratorKeyPressedEventArgsVtbl);
   (ICoreWebView2AcceleratorKeyPressedEventArgs2, ICoreWebView2AcceleratorKeyPressedEventArgs2Vtbl);
   (ICoreWebView2AcceleratorKeyPressedEventHandler, ICoreWebView2AcceleratorKeyPressedEventHandlerVtbl);
   (ICoreWebView2AddScriptToExecuteOnDocumentCreatedCompletedHandler, ICoreWebView2AddScriptToExecuteOnDocumentCreatedCompletedHandlerVtbl);
   (ICoreWebView2CallDevToolsProtocolMethodCompletedHandler, ICoreWebView2CallDevToolsProtocolMethodCompletedHandlerVtbl);
   (ICoreWebView2CapturePreviewCompletedHandler, ICoreWebView2CapturePreviewCompletedHandlerVtbl);
   (ICoreWebView2, ICoreWebView2Vtbl); (ICoreWebView2_2, ICoreWebView2_2Vtbl);
   (ICoreWebView2_3, ICoreWebView2_3Vtbl); (ICoreWebView2_4, ICoreWebView2_4Vtbl);
   (ICoreWebView2_5, ICoreWebView2_5Vtbl); (ICoreWebView2_6, ICoreWebView2_6Vtbl);
   (ICoreWebView2_7, ICoreWebView2_7Vtbl); (ICoreWebView2_8, ICoreWebView2_8Vtbl);
   (ICoreWebView2_9, ICoreWebView2_9Vtbl); (ICoreWebView2_10, ICoreWebView2_10Vtbl);
   (ICoreWebView2_11, ICoreWebView2_11Vtbl); (ICoreWebView2_12, ICoreWebView2_12Vtbl);
   (ICoreWebView2_13, ICoreWebView2_13Vtbl); (ICoreWebView2_14, ICoreWebView2_14Vtbl);
   (ICoreWebView2_15, ICoreWebView2_15Vtbl); (ICoreWebView2_16, ICoreWebView2_16Vtbl);
   (ICoreWebView2_17, ICoreWebView2_17Vtbl); (ICoreWebView2_18, ICoreWebView2_18Vtbl);
   (ICoreWebView2_19, ICoreWebView2_19Vtbl); (ICoreWebView2_20, ICoreWebView2_20Vtbl);
   (ICoreWebView2_21, ICoreWebView2_21Vtbl); (ICoreWebView2_22, ICoreWebView2_22Vtbl);
   (ICoreWebView2BasicAuthenticationRequestedEventArgs, ICoreWebView2BasicAuthenticationRequestedEventArgsVtbl);
   (ICoreWebView2BasicAuthenticationRequestedEventHandler, ICoreWebView2BasicAuthenticationRequestedEventHandlerVtbl);
   (ICoreWebView2BasicAuthenticationResponse, ICoreWebView2BasicAuthenticationResponseVtbl);
   (ICoreWebView2BrowserProcessExitedEventArgs, ICoreWebView2BrowserProcessExitedEventArgsVtbl);
   (ICoreWebView2BrowserProcessExitedEventHandler, ICoreWebView2BrowserProcessExitedEventHandlerVtbl);
   (ICoreWebView2BytesReceivedChangedEventHandler, ICoreWebView2BytesReceivedChangedEventHandlerVtbl);
   (ICoreWebView2CompositionController, ICoreWebView2CompositionControllerVtbl);
   (ICoreWebView2CompositionController2, ICoreWebView2CompositionController2Vtbl);
   (ICoreWebView2CompositionController3, ICoreWebView2CompositionController3Vtbl);
   (ICoreWebView2Controller, ICoreWebView2ControllerVtbl);
   (ICoreWebView2Controller2, ICoreWebView2Controller2Vtbl);
   (ICoreWebView2Controller3, ICoreWebView2Controller3Vtbl);
   (ICoreWebView2Controller4, ICoreWebView2Controller4Vtbl);
   (ICoreWebView2ControllerOptions, ICoreWebView2ControllerOptionsVtbl);
   (ICoreWebView2ControllerOptions2, ICoreWebView2ControllerOptions2Vtbl);
   (ICoreWebView2ContentLoadingEventArgs, ICoreWebView2ContentLoadingEventArgsVtbl);
   (ICoreWebView2ContentLoadingEventHandler, ICoreWebView2ContentLoadingEventHandlerVtbl);
   (ICoreWebView2ContextMenuRequestedEventArgs, ICoreWebView2ContextMenuRequestedEventArgsVtbl);
   (ICoreWebView2ContextMenuRequestedEventHandler, ICoreWebView2ContextMenuRequestedEventHandlerVtbl);
   (ICoreWebView2Cookie, ICoreWebView2CookieVtbl); (ICoreWebView2CookieList, ICoreWebView2CookieListVtbl);
   (ICoreWebView2CookieManager, ICoreWebView2CookieManagerVtbl);
   (ICoreWebView2Certificate, ICoreWebView2CertificateVtbl);
   (ICoreWebView2ClientCertificate, ICoreWebView2ClientCertificateVtbl);
   (ICoreWebView2StringCollection, ICoreWebView2StringCollectionVtbl);
   (ICoreWebView2ClearBrowsingDataCompletedHandler, ICoreWebView2ClearBrowsingDataCompletedHandlerVtbl);
   (ICoreWebView2ClientCertificateCollection, ICoreWebView2ClientCertificateCollectionVtbl);
   (ICoreWebView2ClientCertificateRequestedEventArgs, ICoreWebView2ClientCertificateRequestedEventArgsVtbl);
   (ICoreWebView2ClientCertificateRequestedEventHandler, ICoreWebView2ClientCertificateRequestedEventHandlerVtbl);
   (ICoreWebView2ContextMenuItem, ICoreWebView2ContextMenuItemVtbl);
   (ICoreWebView2ContextMenuItemCollection, ICoreWebView2ContextMenuItemCollectionVtbl);
   (ICoreWebView2ContextMenuTarget, ICoreWebView2ContextMenuTargetVtbl);
   (ICoreWebView2ClearServerCertificateErrorActionsCompletedHandler, ICoreWebView2ClearServerCertificateErrorActionsCompletedHandlerVtbl);
   (ICoreWebView2CreateCoreWebView2CompositionControllerCompletedHandler, ICoreWebView2CreateCoreWebView2CompositionControllerCompletedHandlerVtbl);
   (ICoreWebView2CreateCoreWebView2ControllerCompletedHandler, ICoreWebView2CreateCoreWebView2ControllerCompletedHandlerVtbl);
   (ICoreWebView2CreateCoreWebView2EnvironmentCompletedHandler, ICoreWebView2CreateCoreWebView2EnvironmentCompletedHandlerVtbl);
   (ICoreWebView2ContainsFullScreenElementChangedEventHandler, ICoreWebView2ContainsFullScreenElementChangedEventHandlerVtbl);
   (ICoreWebView2CursorChangedEventHandler, ICoreWebView2CursorChangedEventHandlerVtbl);
   (ICoreWebView2CustomItemSelectedEventHandler, ICoreWebView2CustomItemSelectedEventHandlerVtbl);
   (ICoreWebView2CustomSchemeRegistration, ICoreWebView2CustomSchemeRegistrationVtbl);
   (ICoreWebView2DocumentTitleChangedEventHandler, ICoreWebView2DocumentTitleChangedEventHandlerVtbl);
   (ICoreWebView2DOMContentLoadedEventArgs, ICoreWebView2DOMContentLoadedEventArgsVtbl);
   (ICoreWebView2DOMContentLoadedEventHandler, ICoreWebView2DOMContentLoadedEventHandlerVtbl);
   (ICoreWebView2Deferral, ICoreWebView2DeferralVtbl);
   (ICoreWebView2DevToolsProtocolEventReceivedEventArgs, ICoreWebView2DevToolsProtocolEventReceivedEventArgsVtbl);
   (ICoreWebView2DevToolsProtocolEventReceivedEventArgs2, ICoreWebView2DevToolsProtocolEventReceivedEventArgs2Vtbl);
   (ICoreWebView2DevToolsProtocolEventReceivedEventHandler, ICoreWebView2DevToolsProtocolEventReceivedEventHandlerVtbl);
   (ICoreWebView2DevToolsProtocolEventReceiver, ICoreWebView2DevToolsProtocolEventReceiverVtbl);
   (ICoreWebView2DownloadOperation, ICoreWebView2DownloadOperationVtbl);
   (ICoreWebView2DownloadStartingEventArgs, ICoreWebView2DownloadStartingEventArgsVtbl);
   (ICoreWebView2DownloadStartingEventHandler, ICoreWebView2DownloadStartingEventHandlerVtbl);
   (ICoreWebView2Environment, ICoreWebView2EnvironmentVtbl);
   (ICoreWebView2Environment2, ICoreWebView2Environment2Vtbl);
   (ICoreWebView2Environment3, ICoreWebView2Environment3Vtbl);
   (ICoreWebView2Environment4, ICoreWebView2Environment4Vtbl);
   (ICoreWebView2Environment5, ICoreWebView2Environment5Vtbl);
   (ICoreWebView2Environment6, ICoreWebView2Environment6Vtbl);
   (ICoreWebView2Environment7, ICoreWebView2Environment7Vtbl);
   (ICoreWebView2Environment8, ICoreWebView2Environment8Vtbl);
   (ICoreWebView2Environment9, ICoreWebView2Environment9Vtbl);
   (ICoreWebView2Environment10, ICoreWebView2Environment10Vtbl);
   (ICoreWebView2Environment11, ICoreWebView2Environment11Vtbl);
   (ICoreWebView2Environment12, ICoreWebView2Environment12Vtbl);
   (ICoreWebView2Environment13, ICoreWebView2Environment13Vtbl);
   (ICoreWebView2EnvironmentOptions, ICoreWebView2EnvironmentOptionsVtbl);
   (ICoreWebView2EnvironmentOptions2, ICoreWebView2EnvironmentOptions2Vtbl);
   (ICoreWebView2EnvironmentOptions3, ICoreWebView2EnvironmentOptions3Vtbl);
   (ICoreWebView2EnvironmentOptions4, ICoreWebView2EnvironmentOptions4Vtbl);
   (ICoreWebView2EnvironmentOptions5, ICoreWebView2EnvironmentOptions5Vtbl);
   (ICoreWebView2EnvironmentOptions6, ICoreWebView2EnvironmentOptions6Vtbl);
   (ICoreWebView2EstimatedEndTimeChangedEventHandler, ICoreWebView2EstimatedEndTimeChangedEventHandlerVtbl);
   (ICoreWebView2ExecuteScriptCompletedHandler, ICoreWebView2ExecuteScriptCompletedHandlerVtbl);
   (ICoreWebView2GetProcessExtendedInfosCompletedHandler, ICoreWebView2GetProcessExtendedInfosCompletedHandlerVtbl);
   (ICoreWebView2ProcessExtendedInfo, ICoreWebView2ProcessExtendedInfoVtbl);
   (ICoreWebView2ProcessExtendedInfoCollection, ICoreWebView2ProcessExtendedInfoCollectionVtbl);
   (ICoreWebView2Frame, ICoreWebView2FrameVtbl); (ICoreWebView2Frame2, ICoreWebView2Frame2Vtbl);
   (ICoreWebView2Frame3, ICoreWebView2Frame3Vtbl); (ICoreWebView2Frame4, ICoreWebView2Frame4Vtbl);
   (ICoreWebView2Frame5, ICoreWebView2Frame5Vtbl);
   (ICoreWebView2FrameContentLoadingEventHandler, ICoreWebView2FrameContentLoadingEventHandlerVtbl);
   (ICoreWebView2FrameCreatedEventArgs, ICoreWebView2FrameCreatedEventArgsVtbl);
   (ICoreWebView2FrameCreatedEventHandler, ICoreWebView2FrameCreatedEventHandlerVtbl);
   (ICoreWebView2FrameDestroyedEventHandler, ICoreWebView2FrameDestroyedEventHandlerVtbl);
   (ICoreWebView2FrameDOMContentLoadedEventHandler, ICoreWebView2FrameDOMContentLoadedEventHandlerVtbl);
   (ICoreWebView2FrameNameChangedEventHandler, ICoreWebView2FrameNameChangedEventHandlerVtbl);
   (ICoreWebView2FrameNavigationCompletedEventHandler, ICoreWebView2FrameNavigationCompletedEventHandlerVtbl);
   (ICoreWebView2FrameNavigationStartingEventHandler, ICoreWebView2FrameNavigationStartingEventHandlerVtbl);
   (ICoreWebView2FramePermissionRequestedEventHandler, ICoreWebView2FramePermissionRequestedEventHandlerVtbl);
   (ICoreWebView2FrameWebMessageReceivedEventHandler, ICoreWebView2FrameWebMessageReceivedEventHandlerVtbl);
   (ICoreWebView2FrameInfo, ICoreWebView2FrameInfoVtbl);
   (ICoreWebView2FrameInfo2, ICoreWebView2FrameInfo2Vtbl);
   (ICoreWebView2FrameInfoCollection, ICoreWebView2FrameInfoCollectionVtbl);
   (ICoreWebView2FrameInfoCollectionIterator, ICoreWebView2FrameInfoCollectionIteratorVtbl);
   (ICoreWebView2FocusChangedEventHandler, ICoreWebView2FocusChangedEventHandlerVtbl);
   (ICoreWebView2GetCookiesCompletedHandler, ICoreWebView2GetCookiesCompletedHandlerVtbl);
   (ICoreWebView2GetNonDefaultPermissionSettingsCompletedHandler, ICoreWebView2GetNonDefaultPermissionSettingsCompletedHandlerVtbl);
   (ICoreWebView2HistoryChangedEventHandler, ICoreWebView2HistoryChangedEventHandlerVtbl);
   (ICoreWebView2HttpHeadersCollectionIterator, ICoreWebView2HttpHeadersCollectionIteratorVtbl);
   (ICoreWebView2HttpRequestHeaders, ICoreWebView2HttpRequestHeadersVtbl);
   (ICoreWebView2HttpResponseHeaders, ICoreWebView2HttpResponseHeadersVtbl);
   (ICoreWebView2IsDefaultDownloadDialogOpenChangedEventHandler, ICoreWebView2IsDefaultDownloadDialogOpenChangedEventHandlerVtbl);
   (ICoreWebView2LaunchingExternalUriSchemeEventArgs, ICoreWebView2LaunchingExternalUriSchemeEventArgsVtbl);
   (ICoreWebView2LaunchingExternalUriSchemeEventHandler, ICoreWebView2LaunchingExternalUriSchemeEventHandlerVtbl);
   (ICoreWebView2MoveFocusRequestedEventArgs, ICoreWebView2MoveFocusRequestedEventArgsVtbl);
   (ICoreWebView2MoveFocusRequestedEventHandler, ICoreWebView2MoveFocusRequestedEventHandlerVtbl);
   (ICoreWebView2NavigationCompletedEventArgs, ICoreWebView2NavigationCompletedEventArgsVtbl);
   (ICoreWebView2NavigationCompletedEventArgs2, ICoreWebView2NavigationCompletedEventArgs2Vtbl);
   (ICoreWebView2NavigationCompletedEventHandler, ICoreWebView2NavigationCompletedEventHandlerVtbl);
   (ICoreWebView2NavigationStartingEventArgs, ICoreWebView2NavigationStartingEventArgsVtbl);
   (ICoreWebView2NavigationStartingEventArgs2, ICoreWebView2NavigationStartingEventArgs2Vtbl);
   (ICoreWebView2NavigationStartingEventArgs3, ICoreWebView2NavigationStartingEventArgs3Vtbl);
   (ICoreWebView2NavigationStartingEventHandler, ICoreWebView2NavigationStartingEventHandlerVtbl);
   (ICoreWebView2NewBrowserVersionAvailableEventHandler, ICoreWebView2NewBrowserVersionAvailableEventHandlerVtbl);
   (ICoreWebView2NewWindowRequestedEventArgs, ICoreWebView2NewWindowRequestedEventArgsVtbl);
   (ICoreWebView2NewWindowRequestedEventArgs2, ICoreWebView2NewWindowRequestedEventArgs2Vtbl);
   (ICoreWebView2NewWindowRequestedEventArgs3, ICoreWebView2NewWindowRequestedEventArgs3Vtbl);
   (ICoreWebView2NewWindowRequestedEventHandler, ICoreWebView2NewWindowRequestedEventHandlerVtbl);
   (ICoreWebView2PermissionRequestedEventArgs, ICoreWebView2PermissionRequestedEventArgsVtbl);
   (ICoreWebView2PermissionRequestedEventArgs2, ICoreWebView2PermissionRequestedEventArgs2Vtbl);
   (ICoreWebView2PermissionRequestedEventArgs3, ICoreWebView2PermissionRequestedEventArgs3Vtbl);
   (ICoreWebView2PermissionRequestedEventHandler, ICoreWebView2PermissionRequestedEventHandlerVtbl);
   (ICoreWebView2PermissionSettingCollectionView, ICoreWebView2PermissionSettingCollectionViewVtbl);
   (ICoreWebView2PermissionSetting, ICoreWebView2PermissionSettingVtbl);
   (ICoreWebView2PointerInfo, ICoreWebView2PointerInfoVtbl);
   (ICoreWebView2PrintSettings, ICoreWebView2PrintSettingsVtbl);
   (ICoreWebView2PrintSettings2, ICoreWebView2PrintSettings2Vtbl);
   (ICoreWebView2PrintToPdfCompletedHandler, ICoreWebView2PrintToPdfCompletedHandlerVtbl);
   (ICoreWebView2PrintCompletedHandler, ICoreWebView2PrintCompletedHandlerVtbl);
   (ICoreWebView2PrintToPdfStreamCompletedHandler, ICoreWebView2PrintToPdfStreamCompletedHandlerVtbl);
   (ICoreWebView2ProcessFailedEventArgs, ICoreWebView2ProcessFailedEventArgsVtbl);
   (ICoreWebView2ProcessFailedEventArgs2, ICoreWebView2ProcessFailedEventArgs2Vtbl);
   (ICoreWebView2ProcessFailedEventHandler, ICoreWebView2ProcessFailedEventHandlerVtbl);
   (ICoreWebView2Profile, ICoreWebView2ProfileVtbl); (ICoreWebView2Profile2, ICoreWebView2Profile2Vtbl);
   (ICoreWebView2Profile3, ICoreWebView2Profile3Vtbl); (ICoreWebView2Profile4, ICoreWebView2Profile4Vtbl);
   (ICoreWebView2Profile5, ICoreWebView2Profile5Vtbl); (ICoreWebView2Profile6, ICoreWebView2Profile6Vtbl);
   (ICoreWebView2Profile7, ICoreWebView2Profile7Vtbl); (ICoreWebView2Profile8, ICoreWebView2Profile8Vtbl);
   (ICoreWebView2ProfileDeletedEventHandler, ICoreWebView2ProfileDeletedEventHandlerVtbl);
   (ICoreWebView2RasterizationScaleChangedEventHandler, ICoreWebView2RasterizationScaleChangedEventHandlerVtbl);
   (ICoreWebView2ServerCertificateErrorDetectedEventArgs, ICoreWebView2ServerCertificateErrorDetectedEventArgsVtbl);
   (ICoreWebView2ServerCertificateErrorDetectedEventHandler, ICoreWebView2ServerCertificateErrorDetectedEventHandlerVtbl);
   (ICoreWebView2SetPermissionStateCompletedHandler, ICoreWebView2SetPermissionStateCompletedHandlerVtbl);
   (ICoreWebView2ScriptDialogOpeningEventArgs, ICoreWebView2ScriptDialogOpeningEventArgsVtbl);
   (ICoreWebView2ScriptDialogOpeningEventHandler, ICoreWebView2ScriptDialogOpeningEventHandlerVtbl);
   (ICoreWebView2Settings, ICoreWebView2SettingsVtbl);
   (ICoreWebView2Settings2, ICoreWebView2Settings2Vtbl);
   (ICoreWebView2Settings3, ICoreWebView2Settings3Vtbl);
   (ICoreWebView2Settings4, ICoreWebView2Settings4Vtbl);
   (ICoreWebView2Settings5, ICoreWebView2Settings5Vtbl);
   (ICoreWebView2Settings6, ICoreWebView2Settings6Vtbl);
   (ICoreWebView2Settings7, ICoreWebView2Settings7Vtbl);
   (ICoreWebView2Settings8, ICoreWebView2Settings8Vtbl);
   (ICoreWebView2SharedBuffer, ICoreWebView2SharedBufferVtbl);
   (ICoreWebView2SourceChangedEventArgs, ICoreWebView2SourceChangedEventArgsVtbl);
   (ICoreWebView2SourceChangedEventHandler, ICoreWebView2SourceChangedEventHandlerVtbl);
   (ICoreWebView2StateChangedEventHandler, ICoreWebView2StateChangedEventHandlerVtbl);
   (ICoreWebView2StatusBarTextChangedEventHandler, ICoreWebView2StatusBarTextChangedEventHandlerVtbl);
   (ICoreWebView2TrySuspendCompletedHandler, ICoreWebView2TrySuspendCompletedHandlerVtbl);
   (ICoreWebView2WebMessageReceivedEventArgs, ICoreWebView2WebMessageReceivedEventArgsVtbl);
   (ICoreWebView2WebMessageReceivedEventHandler, ICoreWebView2WebMessageReceivedEventHandlerVtbl);
   (ICoreWebView2WebResourceRequest, ICoreWebView2WebResourceRequestVtbl);
   (ICoreWebView2WebResourceRequestedEventArgs, ICoreWebView2WebResourceRequestedEventArgsVtbl);
   (ICoreWebView2WebResourceRequestedEventArgs2, ICoreWebView2WebResourceRequestedEventArgs2Vtbl);
   (ICoreWebView2WebResourceRequestedEventHandler, ICoreWebView2WebResourceRequestedEventHandlerVtbl);
   (ICoreWebView2WebResourceResponse, ICoreWebView2WebResourceResponseVtbl);
   (ICoreWebView2WebResourceResponseReceivedEventHandler, ICoreWebView2WebResourceResponseReceivedEventHandlerVtbl);
   (ICoreWebView2WebResourceResponseReceivedEventArgs, ICoreWebView2WebResourceResponseReceivedEventArgsVtbl);
   (ICoreWebView2WebResourceResponseView, ICoreWebView2WebResourceResponseViewVtbl);
   (ICoreWebView2WebResourceResponseViewGetContentCompletedHandler, ICoreWebView2WebResourceResponseViewGetContentCompletedHandlerVtbl);
   (ICoreWebView2WindowCloseRequestedEventHandler, ICoreWebView2WindowCloseRequestedEventHandlerVtbl);
   (ICoreWebView2WindowFeatures, ICoreWebView2WindowFeaturesVtbl);
   (ICoreWebView2ZoomFactorChangedEventHandler, ICoreWebView2ZoomFactorChangedEventHandlerVtbl);
   (ICoreWebView2IsMutedChangedEventHandler, ICoreWebView2IsMutedChangedEventHandlerVtbl);
   (ICoreWebView2IsDocumentPlayingAudioChangedEventHandler, ICoreWebView2IsDocumentPlayingAudioChangedEventHandlerVtbl);
   (ICoreWebView2ProcessInfo, ICoreWebView2ProcessInfoVtbl);
   (ICoreWebView2ProcessInfoCollection, ICoreWebView2ProcessInfoCollectionVtbl);
   (ICoreWebView2ProcessInfosChangedEventHandler, ICoreWebView2ProcessInfosChangedEventHandlerVtbl);
   (ICoreWebView2FaviconChangedEventHandler, ICoreWebView2FaviconChangedEventHandlerVtbl);
   (ICoreWebView2GetFaviconCompletedHandler, ICoreWebView2GetFaviconCompletedHandlerVtbl);
   (ICoreWebView2ProfileAddBrowserExtensionCompletedHandler, ICoreWebView2ProfileAddBrowserExtensionCompletedHandlerVtbl);
   (ICoreWebView2ProfileGetBrowserExtensionsCompletedHandler, ICoreWebView2ProfileGetBrowserExtensionsCompletedHandlerVtbl);
   (ICoreWebView2BrowserExtensionList, ICoreWebView2BrowserExtensionListVtbl);
   (ICoreWebView2BrowserExtension, ICoreWebView2BrowserExtensionVtbl);
   (ICoreWebView2BrowserExtensionEnableCompletedHandler, ICoreWebView2BrowserExtensionEnableCompletedHandlerVtbl);
   (ICoreWebView2BrowserExtensionRemoveCompletedHandler, ICoreWebView2BrowserExtensionRemoveCompletedHandlerVtbl);
   (ICoreWebView2ExecuteScriptResult, ICoreWebView2ExecuteScriptResultVtbl);
   (ICoreWebView2ExecuteScriptWithResultCompletedHandler, ICoreWebView2ExecuteScriptWithResultCompletedHandlerVtbl);
   (ICoreWebView2ScriptException, ICoreWebView2ScriptExceptionVtbl);
   (ICoreWebView2File, ICoreWebView2FileVtbl);
   (ICoreWebView2ObjectCollectionView, ICoreWebView2ObjectCollectionViewVtbl);
   (ICoreWebView2WebMessageReceivedEventArgs2, ICoreWebView2WebMessageReceivedEventArgs2Vtbl)].

(** ** Layout *)

(** The slots of an interface in order: those of its base, then its own. *)
Definition find_interface (name : string) : option interface :=
  List.find (fun i => String.eqb (i_name i) name) interfaces.

(** [fuel] bounds the length of the chain of bases; the longest has 23 interfaces. *)
Fixpoint layout (fuel : nat) (name : string) : option (list entry) :=
  match fuel with
  | O => None
  | S fuel =>
      if String.eqb name "IUnknown" then Some (F "IUnknown" <$> IUnknown_methods)
      else
        match find_interface name with
        | None => None
        | Some i =>
            match layout fuel (i_base i) with
            | None => None
            | Some base => Some (base ++ (F name <$> i_own i))
            end
        end
  end.

Definition slots (i : interface) : option (list entry) := layout 30 (i_name i).

(** The slot of a method, for a call through an interface pointer. *)
Definition slot_of (i : interface) (m : string) : option nat :=
  match slots i with
  | None => None
  | Some l => fst <$> list_find (fun e => m_name (e_method e) = m) l
  end.

(** ** The identifiers as strings *)

Definition hex_value (c : Ascii.ascii) : option Z :=
  let n := Z.of_nat (Ascii.nat_of_ascii c) in
  if (48 <=? n)%Z && (n <=? 57)%Z then Some (n - 48)%Z
  else if (97 <=? n)%Z && (n <=? 102)%Z then Some (n - 87)%Z
  else if (65 <=? n)%Z && (n <=? 70)%Z then Some (n - 55)%Z else None.

(** The hexadecimal digits of a string, without its dashes. *)
Fixpoint hex_string (s : string) : list Z :=
  match s with
  | "" => []
  | String c s => match hex_value c with Some d => d :: hex_string s | None => hex_string s end
  end.

Definition big_endian (ds : list Z) : Z := foldl (fun acc d => acc * 16 + d)%Z 0%Z ds.

Fixpoint hex_bytes (ds : list Z) : list Z :=
  match ds with a :: b :: ds => (a * 16 + b)%Z :: hex_bytes ds | _ => [] end.

(** [xxxxxxxx-xxxx-xxxx-xxxx-xxxxxxxxxxxx]. *)
Definition parse_uuid (s : string) : guid :=
  let ds := hex_string s in
  GUID (big_endian (take 8 ds)) (big_endian (take 4 (drop 8 ds))) (big_endian (take 4 (drop 12 ds)))
    (hex_bytes (drop 16 ds)).

(** [NoDup] of strings, faster. *)
Fixpoint distinct (l : list string) : bool :=
  match l with [] => true | x :: l => negb (existsb (String.eqb x) l) && distinct l end.

Lemma distinct_NoDup l : distinct l = true -> NoDup l.
Proof.
  induction l as [|x l IH]; [constructor|]. simpl. rewrite andb_true_iff, negb_true_iff. intros [Hx Hl].
  constructor; [|by apply IH]. intros Hin. apply not_true_iff_false in Hx. apply Hx, existsb_exists.
  exists x. split; [by apply list_elem_of_In|apply String.eqb_refl].
Qed.

(** ** Properties *)

Definition table_agrees (p : interface * list entry) : bool :=
  bool_decide (slots p.1 = Some p.2).

Lemma tables_checked : forallb table_agrees c_tables = true.
Proof. vm_compute. reflexivity. Qed.

(** C34: The two forms of every interface agree: the C table has exactly the entries, in
    the order, with the owners and the signatures that the C++ classes give by
    inheritance - [IUnknown] first, then each base, then the interface's own. *)
Theorem c_tables_agree i tbl (H : In (i, tbl) c_tables) : slots i = Some tbl.
Proof.
  pose proof (proj1 (forallb_forall _ _) tables_checked _ H) as E.
  by apply bool_decide_eq_true_1 in E.
Qed.

Lemma c_tables_agree_witness : slots ICoreWebView2Settings = Some ICoreWebView2SettingsVtbl.
Proof. apply c_tables_agree. simpl. tauto. Defined.

(** Every [IID_] constant is the identifier of its [MIDL_INTERFACE] declaration, and
    no two interfaces share one: asking for an interface can only give that one. *)
Theorem iids_identify :
  Forall (fun i => i_iid i = parse_uuid (i_uuid i) /\ guid_wf (i_iid i)) interfaces /\
  NoDup (i_iid <$> interfaces).
Proof.
  split; [|apply (bool_decide_eq_true_1 _); vm_compute; reflexivity].
  repeat constructor; vm_compute; intros; discriminate.
Qed.

Lemma layout_eq fuel name : layout (S fuel) name =
  if String.eqb name "IUnknown" then Some (F "IUnknown" <$> IUnknown_methods)
  else i ← find_interface name; base ← layout fuel (i_base i); Some (base ++ (F name <$> i_own i)).
Proof. reflexivity. Qed.

Lemma layout_mono fuel : forall name l, layout fuel name = Some l -> layout (S fuel) name = Some l.
Proof.
  induction fuel as [|fuel IH]; intros name l; [done|].
  rewrite !layout_eq. destruct (name =? "IUnknown")%string; [done|].
  destruct (find_interface name) as [i|]; [|done]. cbn [mbind option_bind].
  destruct (layout fuel (i_base i)) as [b|] eqn:E; [|done]. by rewrite (IH _ _ E).
Qed.

(** A base occupies the first slots. *)
Lemma slots_base i j l :
  find_interface (i_name i) = Some i -> (i_name i =? "IUnknown")%string = false ->
  i_base i = i_name j -> slots i = Some l ->
  exists b, slots j = Some b /\ b `prefix_of` l.
Proof.
  unfold slots. intros Hi Hu Hb. rewrite layout_eq, Hu, Hi. cbn [mbind option_bind]. rewrite Hb.
  destruct (layout 29 (i_name j)) as [b|] eqn:E; [|done]. intros [= <-].
  exists b. split; [by apply layout_mono|by eexists].
Qed.

(** ** Inheritance *)

Lemma find_by_name (l : list interface) i : NoDup (i_name <$> l) -> i ∈ l ->
  List.find (fun j => String.eqb (i_name j) (i_name i)) l = Some i.
Proof.
  induction l as [|j l IH]; [by intros _ ?%elem_of_nil|]. rewrite fmap_cons, NoDup_cons. intros [Hj Hl] Hi. simpl.
  destruct (String.eqb_spec (i_name j) (i_name i)) as [E|E].
  - apply elem_of_cons in Hi as [->|Hi]; [done|]. destruct Hj. rewrite E. by apply list_elem_of_fmap_2.
  - apply elem_of_cons in Hi as [->|Hi]; [done|]. by apply IH.
Qed.

Lemma names_distinct : NoDup (i_name <$> interfaces).
Proof. apply distinct_NoDup. vm_compute. reflexivity. Qed.

Lemma find_interface_name i : i ∈ interfaces -> find_interface (i_name i) = Some i.
Proof. apply find_by_name, names_distinct. Qed.

Lemma find_interface_Some n i : find_interface n = Some i -> i ∈ interfaces /\ i_name i = n.
Proof. intros [H E]%List.find_some. split; [by apply list_elem_of_In|by apply String.eqb_eq]. Qed.

Lemma not_IUnknown i : i ∈ interfaces -> (i_name i =? "IUnknown")%string = false.
Proof.
  intros Hi%list_elem_of_In.
  assert (E : forallb (fun i => negb (i_name i =? "IUnknown")%string) interfaces = true) by reflexivity.
  by apply negb_true_iff, (proj1 (forallb_forall _ _) E).
Qed.

(** [i] is [j] or derived from it. *)
Inductive derives : interface -> interface -> Prop :=
| derives_refl i : i ∈ interfaces -> derives i i
| derives_step i b j : i ∈ interfaces -> find_interface (i_base i) = Some b -> derives b j -> derives i j.

(** The names of the methods, in the order of the slots. *)
Definition slot_names (i : interface) : list string :=
  from_option (fmap (fun e => m_name (e_method e))) [] (slots i).

(** No interface of the header has overloaded methods, not even by inheritance. *)
Lemma slots_checked : forallb (fun i => negb (bool_decide (slots i = None)) && distinct (slot_names i)) interfaces = true.
Proof. vm_compute. reflexivity. Qed.

Lemma slots_sound i : i ∈ interfaces -> exists l, slots i = Some l /\ NoDup (m_name ∘ e_method <$> l).
Proof.
  intros Hi%list_elem_of_In. pose proof (proj1 (forallb_forall _ _) slots_checked _ Hi) as E.
  cbv beta in E. unfold slot_names in E. destruct (slots i) as [l|]; [|done]. exists l. split; [done|].
  by apply andb_true_iff in E as [_ E%distinct_NoDup].
Qed.

Lemma derives_prefix i j : derives i j -> exists li lj, slots i = Some li /\ slots j = Some lj /\ lj `prefix_of` li.
Proof.
  induction 1 as [i Hi|i b j Hi Hb Hd (lb & lj & Hlb & Hlj & Hp)].
  - destruct (slots_sound i Hi) as (l & Hl & _). by exists l, l.
  - destruct (slots_sound i Hi) as (l & Hl & _). apply find_interface_Some in Hb as [_ Hb].
    destruct (slots_base i b l) as (l' & Hl' & Hp'); [by apply find_interface_name|by apply not_IUnknown|done|done|].
    assert (l' = lb) as -> by congruence. exists l, lj. split_and!; [done..|]. by etrans.
Qed.

(** An object with a derived interface can be used wherever the base is expected: every
    method of the base is in the same slot, with the same signature. *)
Lemma derived_slot i j m k : derives i j -> slot_of j m = Some k -> slot_of i m = Some k.
Proof.
  intros (li & lj & Hi & Hj & l' & ->)%derives_prefix. unfold slot_of. rewrite Hi, Hj. intros Hk.
  destruct (list_find _ lj) as [[k' e]|] eqn:E; [|done]. rewrite (list_find_app_l _ _ _ _ _ E). exact Hk.
Qed.

(** The versions of the browser interface. *)
Definition versions : list interface := [
   ICoreWebView2; ICoreWebView2_2; ICoreWebView2_3; ICoreWebView2_4; ICoreWebView2_5; ICoreWebView2_6;
   ICoreWebView2_7; ICoreWebView2_8; ICoreWebView2_9; ICoreWebView2_10; ICoreWebView2_11;
   ICoreWebView2_12; ICoreWebView2_13; ICoreWebView2_14; ICoreWebView2_15; ICoreWebView2_16;
   ICoreWebView2_17; ICoreWebView2_18; ICoreWebView2_19; ICoreWebView2_20; ICoreWebView2_21; ICoreWebView2_22].

Lemma versions_bases : i_base <$> tail versions = take 21 (i_name <$> versions).
Proof. reflexivity. Qed.

Lemma versions_listed i : i ∈ versions -> i ∈ interfaces.
Proof.
  assert (E : Forall (fun i => find_interface (i_name i) = Some i) versions) by (repeat constructor).
  intros Hi. rewrite Forall_forall in E. by apply E, find_interface_Some in Hi as [? _].
Qed.

Lemma versions_derive a b i j : a <= b -> versions !! a = Some i -> versions !! b = Some j -> derives j i.
Proof.
  intros Hab Hi. revert j. induction Hab as [|b Hab IH]; intros j Hj.
  - assert (j = i) as -> by congruence. by eapply derives_refl, versions_listed, list_elem_of_lookup_2.
  - destruct (versions !! b) as [k|] eqn:Hk; [|apply lookup_ge_None_1 in Hk; apply lookup_lt_Some in Hj; lia].
    eapply derives_step; [by eapply versions_listed, list_elem_of_lookup_2| |by apply IH].
    replace (i_base j) with (i_name k); [by apply find_interface_name; eapply versions_listed, list_elem_of_lookup_2|].
    pose proof versions_bases as E. apply (f_equal (.!! b)) in E.
    rewrite list_lookup_fmap, lookup_tail, Hj in E. apply lookup_lt_Some in Hj. simpl in Hj.
    rewrite lookup_take_lt, list_lookup_fmap, Hk in E by lia. simpl in E. congruence.
Qed.

(** A newer version of the browser interface can be used wherever an older one is
    expected: for any two versions the slots of the older are the first slots of the
    newer, so every method keeps its slot. *)
Theorem versions_extend a b i j (Hab : (a < b)%nat) (Hi : versions !! a = Some i) (Hj : versions !! b = Some j) :
  exists la lb, slots i = Some la /\ slots j = Some lb /\ la `prefix_of` lb.
Proof.
  destruct (derives_prefix j i) as (lj & li & ? & ? & ?); [eapply versions_derive; [|done..]; lia|]. by exists li, lj.
Qed.

Lemma versions_extend_witness : exists la lb,
  slots ICoreWebView2 = Some la /\ slots ICoreWebView2_22 = Some lb /\ la `prefix_of` lb.
Proof. apply (versions_extend 0 21); [lia|reflexivity..]. Defined.

(** ** Types *)

(** The types of Windows that the declarations use. *)
Definition windows_types : list string := [
   "IUnknown"; "IStream"; "IDataObject"; "VARIANT"; "EventRegistrationToken"; "HRESULT"; "HWND"; "HCURSOR";
   "HANDLE"; "BOOL"; "INT"; "UINT"; "INT32"; "UINT32"; "INT64"; "UINT64"; "DWORD"; "BYTE"; "int"; "double";
   "LPCWSTR"; "LPWSTR"; "POINT"; "RECT"].

Definition declared_types : list string :=
  windows_types ++ (i_name <$> interfaces) ++ (fst <$> enumerations) ++ (fst <$> structures).

(** [const] parameters take what the others take. *)
Definition unqualified (t : string) : string := default t (strip_prefix "const " t).

(** The name in a type: without [const] and the asterisks. *)
Definition type_name (t : string) : string := (break_at (Ascii.ascii_of_nat 32) (unqualified t)).1.

Definition method_types (m : method) : list string := m_ret m :: (type_name ∘ p_type <$> m_params m).

Lemma types_checked : forallb (fun i => forallb (fun m => forallb (fun t =>
  existsb (String.eqb t) declared_types) (method_types m)) (i_own i)) interfaces = true.
Proof. vm_compute. reflexivity. Qed.

Lemma types_declared i m t : i ∈ interfaces -> m ∈ i_own i -> t ∈ method_types m -> t ∈ declared_types.
Proof.
  intros Hi%list_elem_of_In Hm%list_elem_of_In Ht%list_elem_of_In. pose proof types_checked as E.
  rewrite forallb_forall in E. specialize (E _ Hi). rewrite forallb_forall in E. specialize (E _ Hm).
  rewrite forallb_forall in E. specialize (E _ Ht). apply existsb_exists in E as (t' & Ht' & ->%String.eqb_eq).
  by apply list_elem_of_In.
Qed.

(** C35: The declarations of the header make sense as a whole: every interface has a table,
    because its bases are declared, and one that the header spells out in C; no method
    is overloaded, so a name is one slot; every type in a signature is declared; a derived
    interface has every method of its bases in the same slot, so that a pointer to it can
    be used as one to the base; and the enumerators of an enumeration are different
    numbers of 32 bits. *)
Theorem declarations_sound :
  c_tables.*1 = interfaces /\
  (forall i, i ∈ interfaces -> exists l, slots i = Some l /\ NoDup (m_name ∘ e_method <$> l)) /\
  (forall i m t, i ∈ interfaces -> m ∈ i_own i -> t ∈ method_types m -> t ∈ declared_types) /\
  (forall i j m k, derives i j -> slot_of j m = Some k -> slot_of i m = Some k) /\
  Forall (fun e => NoDup e.2 /\ Forall (fun v => 0 <= v < 4294967296)%Z e.2) enumerations.
Proof.
  split_and!; [reflexivity|exact slots_sound|exact types_declared|exact derived_slot|].
  apply (bool_decide_eq_true_1 _). vm_compute. reflexivity.
Qed.

(** Whether an interface has a method with so many parameters. *)
Definition has_method (i : interface) (m : string) (nargs : nat) : bool :=
  match slots i with
  | None => false
  | Some l => existsb (fun e => String.eqb (m_name (e_method e)) m &&
                                Nat.eqb (length (m_params (e_method e))) nargs) l
  end.
