(* ===== verification/WvMacros.v ===== *)
(** * WebView2.h: the macros of the C interface

    For each interface the macros that its [COBJMACROS] section adds to those of the
    bases: the name after the name of the interface, and the parameters after [This].
    The text of every macro, the name and the parameters of its call included, is that
    of [cmacro_line] and [cmacro_body] (WvCApi). *)

From S2P Require Import Prelude WvIdl.

Definition IUnknown_macros : list cmacro := [
   X "QueryInterface" ["riid"; "ppvObject"]; X "AddRef" []; X "Release" []].

Definition ICoreWebView2AcceleratorKeyPressedEventArgs_macros : list cmacro := [
   X "get_KeyEventKind" ["keyEventKind"]; X "get_VirtualKey" ["virtualKey"];
   X "get_KeyEventLParam" ["lParam"]; X "get_PhysicalKeyStatus" ["physicalKeyStatus"];
   X "get_Handled" ["handled"]; X "put_Handled" ["handled"]].

Definition ICoreWebView2AcceleratorKeyPressedEventArgs2_macros : list cmacro := [
   X "get_IsBrowserAcceleratorKeyEnabled" ["value"]; X "put_IsBrowserAcceleratorKeyEnabled" ["value"]].

Definition ICoreWebView2AcceleratorKeyPressedEventHandler_macros : list cmacro := [X "Invoke" ["sender"; "args"]].

Definition ICoreWebView2AddScriptToExecuteOnDocumentCreatedCompletedHandler_macros : list cmacro := [X "Invoke" ["errorCode"; "id"]].

Definition ICoreWebView2CallDevToolsProtocolMethodCompletedHandler_macros : list cmacro := [X "Invoke" ["errorCode"; "returnObjectAsJson"]].

Definition ICoreWebView2CapturePreviewCompletedHandler_macros : list cmacro := [X "Invoke" ["errorCode"]].

Definition ICoreWebView2_macros1 : list cmacro := [
   X "get_Settings" ["settings"]; X "get_Source" ["uri"]; X "Navigate" ["uri"];
   X "NavigateToString" ["htmlContent"]; X "add_NavigationStarting" ["eventHandler"; "token"];
   X "remove_NavigationStarting" ["token"]; X "add_ContentLoading" ["eventHandler"; "token"];
   X "remove_ContentLoading" ["token"]; X "add_SourceChanged" ["eventHandler"; "token"];
   X "remove_SourceChanged" ["token"]; X "add_HistoryChanged" ["eventHandler"; "token"];
   X "remove_HistoryChanged" ["token"]; X "add_NavigationCompleted" ["eventHandler"; "token"];
   X "remove_NavigationCompleted" ["token"]; X "add_FrameNavigationStarting" ["eventHandler"; "token"];
   X "remove_FrameNavigationStarting" ["token"];
   X "add_FrameNavigationCompleted" ["eventHandler"; "token"];
   X "remove_FrameNavigationCompleted" ["token"]; X "add_ScriptDialogOpening" ["eventHandler"; "token"];
   X "remove_ScriptDialogOpening" ["token"]; X "add_PermissionRequested" ["eventHandler"; "token"];
   X "remove_PermissionRequested" ["token"]; X "add_ProcessFailed" ["eventHandler"; "token"];
   X "remove_ProcessFailed" ["token"]; X "AddScriptToExecuteOnDocumentCreated" ["javaScript"; "handler"];
   X "RemoveScriptToExecuteOnDocumentCreated" ["id"]; X "ExecuteScript" ["javaScript"; "handler"];
   X "CapturePreview" ["imageFormat"; "imageStream"; "handler"]; X "Reload" [];
   X "PostWebMessageAsJson" ["webMessageAsJson"]; X "PostWebMessageAsString" ["webMessageAsString"];
   X "add_WebMessageReceived" ["handler"; "token"]; X "remove_WebMessageReceived" ["token"]].

Definition ICoreWebView2_macros2 : list cmacro := [
   X "CallDevToolsProtocolMethod" ["methodName"; "parametersAsJson"; "handler"];
   X "get_BrowserProcessId" ["value"]; X "get_CanGoBack" ["canGoBack"];
   X "get_CanGoForward" ["canGoForward"]; X "GoBack" []; X "GoForward" [];
   X "GetDevToolsProtocolEventReceiver" ["eventName"; "receiver"]; X "Stop" [];
   X "add_NewWindowRequested" ["eventHandler"; "token"]; X "remove_NewWindowRequested" ["token"];
   X "add_DocumentTitleChanged" ["eventHandler"; "token"]; X "remove_DocumentTitleChanged" ["token"];
   X "get_DocumentTitle" ["title"]; X "AddHostObjectToScript" ["name"; "object"];
   X "RemoveHostObjectFromScript" ["name"]; X "OpenDevToolsWindow" [];
   X "add_ContainsFullScreenElementChanged" ["eventHandler"; "token"];
   X "remove_ContainsFullScreenElementChanged" ["token"];
   X "get_ContainsFullScreenElement" ["containsFullScreenElement"];
   X "add_WebResourceRequested" ["eventHandler"; "token"]; X "remove_WebResourceRequested" ["token"];
   X "AddWebResourceRequestedFilter" ["uri"; "resourceContext"];
   X "RemoveWebResourceRequestedFilter" ["uri"; "resourceContext"];
   X "add_WindowCloseRequested" ["eventHandler"; "token"]; X "remove_WindowCloseRequested" ["token"]].

Definition ICoreWebView2_2_macros : list cmacro := [
   X "add_WebResourceResponseReceived" ["eventHandler"; "token"];
   X "remove_WebResourceResponseReceived" ["token"]; X "NavigateWithWebResourceRequest" ["request"];
   X "add_DOMContentLoaded" ["eventHandler"; "token"]; X "remove_DOMContentLoaded" ["token"];
   X "get_CookieManager" ["cookieManager"]; X "get_Environment" ["environment"]].

Definition ICoreWebView2_3_macros : list cmacro := [
   X "TrySuspend" ["handler"]; X "Resume" []; X "get_IsSuspended" ["isSuspended"];
   X "SetVirtualHostNameToFolderMapping" ["hostName"; "folderPath"; "accessKind"];
   X "ClearVirtualHostNameToFolderMapping" ["hostName"]].

Definition ICoreWebView2_4_macros : list cmacro := [
   X "add_FrameCreated" ["eventHandler"; "token"]; X "remove_FrameCreated" ["token"];
   X "add_DownloadStarting" ["eventHandler"; "token"]; X "remove_DownloadStarting" ["token"]].

Definition ICoreWebView2_5_macros : list cmacro := [
   X "add_ClientCertificateRequested" ["eventHandler"; "token"];
   X "remove_ClientCertificateRequested" ["token"]].

Definition ICoreWebView2_6_macros : list cmacro := [X "OpenTaskManagerWindow" []].

Definition ICoreWebView2_7_macros : list cmacro := [
   X "PrintToPdf" ["resultFilePath"; "printSettings"; "handler"]].

Definition ICoreWebView2_8_macros : list cmacro := [
   X "add_IsMutedChanged" ["eventHandler"; "token"]; X "remove_IsMutedChanged" ["token"];
   X "get_IsMuted" ["value"]; X "put_IsMuted" ["value"];
   X "add_IsDocumentPlayingAudioChanged" ["eventHandler"; "token"];
   X "remove_IsDocumentPlayingAudioChanged" ["token"]; X "get_IsDocumentPlayingAudio" ["value"]].

Definition ICoreWebView2_9_macros : list cmacro := [
   X "add_IsDefaultDownloadDialogOpenChanged" ["handler"; "token"];
   X "remove_IsDefaultDownloadDialogOpenChanged" ["token"]; X "get_IsDefaultDownloadDialogOpen" ["value"];
   X "OpenDefaultDownloadDialog" []; X "CloseDefaultDownloadDialog" [];
   X "get_DefaultDownloadDialogCornerAlignment" ["value"];
   X "put_DefaultDownloadDialogCornerAlignment" ["value"]; X "get_DefaultDownloadDialogMargin" ["value"];
   X "put_DefaultDownloadDialogMargin" ["value"]].

Definition ICoreWebView2_10_macros : list cmacro := [
   X "add_BasicAuthenticationRequested" ["eventHandler"; "token"];
   X "remove_BasicAuthenticationRequested" ["token"]].

Definition ICoreWebView2_11_macros : list cmacro := [
   X "CallDevToolsProtocolMethodForSession" ["sessionId"; "methodName"; "parametersAsJson"; "handler"];
   X "add_ContextMenuRequested" ["eventHandler"; "token"]; X "remove_ContextMenuRequested" ["token"]].

Definition ICoreWebView2_12_macros : list cmacro := [
   X "add_StatusBarTextChanged" ["eventHandler"; "token"]; X "remove_StatusBarTextChanged" ["token"];
   X "get_StatusBarText" ["value"]].

Definition ICoreWebView2_13_macros : list cmacro := [X "get_Profile" ["value"]].

Definition ICoreWebView2_14_macros : list cmacro := [
   X "add_ServerCertificateErrorDetected" ["eventHandler"; "token"];
   X "remove_ServerCertificateErrorDetected" ["token"]; X "ClearServerCertificateErrorActions" ["handler"]].

Definition ICoreWebView2_15_macros : list cmacro := [
   X "add_FaviconChanged" ["eventHandler"; "token"]; X "remove_FaviconChanged" ["token"];
   X "get_FaviconUri" ["value"]; X "GetFavicon" ["format"; "completedHandler"]].

Definition ICoreWebView2_16_macros : list cmacro := [
   X "Print" ["printSettings"; "handler"]; X "ShowPrintUI" ["printDialogKind"];
   X "PrintToPdfStream" ["printSettings"; "handler"]].

Definition ICoreWebView2_17_macros : list cmacro := [
   X "PostSharedBufferToScript" ["sharedBuffer"; "access"; "additionalDataAsJson"]].

Definition ICoreWebView2_18_macros : list cmacro := [
   X "add_LaunchingExternalUriScheme" ["eventHandler"; "token"];
   X "remove_LaunchingExternalUriScheme" ["token"]].

Definition ICoreWebView2_19_macros : list cmacro := [
   X "get_MemoryUsageTargetLevel" ["level"]; X "put_MemoryUsageTargetLevel" ["level"]].

Definition ICoreWebView2_20_macros : list cmacro := [X "get_FrameId" ["id"]].

Definition ICoreWebView2_21_macros : list cmacro := [
   X "ExecuteScriptWithResult" ["javaScript"; "handler"]].

Definition ICoreWebView2_22_macros : list cmacro := [
   X "AddWebResourceRequestedFilterWithRequestSourceKinds" ["uri"; "resourceContext"; "requestSourceKinds"];
   X "RemoveWebResourceRequestedFilterWithRequestSourceKinds" ["uri"; "resourceContext"; "requestSourceKinds"]].

Definition ICoreWebView2BasicAuthenticationRequestedEventArgs_macros : list cmacro := [
   X "get_Uri" ["value"]; X "get_Challenge" ["challenge"]; X "get_Response" ["response"];
   X "get_Cancel" ["cancel"]; X "put_Cancel" ["cancel"]; X "GetDeferral" ["deferral"]].

Definition ICoreWebView2BasicAuthenticationRequestedEventHandler_macros : list cmacro := [X "Invoke" ["sender"; "args"]].

Definition ICoreWebView2BasicAuthenticationResponse_macros : list cmacro := [
   X "get_UserName" ["userName"]; X "put_UserName" ["userName"]; X "get_Password" ["password"];
   X "put_Password" ["password"]].

Definition ICoreWebView2BrowserProcessExitedEventArgs_macros : list cmacro := [
   X "get_BrowserProcessExitKind" ["browserProcessExitKind"]; X "get_BrowserProcessId" ["value"]].

Definition ICoreWebView2BrowserProcessExitedEventHandler_macros : list cmacro := [X "Invoke" ["sender"; "args"]].

Definition ICoreWebView2BytesReceivedChangedEventHandler_macros : list cmacro := [X "Invoke" ["sender"; "args"]].

Definition ICoreWebView2CompositionController_macros : list cmacro := [
   X "get_RootVisualTarget" ["target"]; X "put_RootVisualTarget" ["target"];
   X "SendMouseInput" ["eventKind"; "virtualKeys"; "mouseData"; "point"];
   X "SendPointerInput" ["eventKind"; "pointerInfo"]; X "get_Cursor" ["cursor"];
   X "get_SystemCursorId" ["systemCursorId"]; X "add_CursorChanged" ["eventHandler"; "token"];
   X "remove_CursorChanged" ["token"]].

Definition ICoreWebView2CompositionController2_macros : list cmacro := [X "get_AutomationProvider" ["provider"]].

Definition ICoreWebView2CompositionController3_macros : list cmacro := [
   X "DragEnter" ["dataObject"; "keyState"; "point"; "effect"]; X "DragLeave" [];
   X "DragOver" ["keyState"; "point"; "effect"]; X "Drop" ["dataObject"; "keyState"; "point"; "effect"]].

Definition ICoreWebView2Controller_macros : list cmacro := [
   X "get_IsVisible" ["isVisible"]; X "put_IsVisible" ["isVisible"]; X "get_Bounds" ["bounds"];
   X "put_Bounds" ["bounds"]; X "get_ZoomFactor" ["zoomFactor"]; X "put_ZoomFactor" ["zoomFactor"];
   X "add_ZoomFactorChanged" ["eventHandler"; "token"]; X "remove_ZoomFactorChanged" ["token"];
   X "SetBoundsAndZoomFactor" ["bounds"; "zoomFactor"]; X "MoveFocus" ["reason"];
   X "add_MoveFocusRequested" ["eventHandler"; "token"]; X "remove_MoveFocusRequested" ["token"];
   X "add_GotFocus" ["eventHandler"; "token"]; X "remove_GotFocus" ["token"];
   X "add_LostFocus" ["eventHandler"; "token"]; X "remove_LostFocus" ["token"];
   X "add_AcceleratorKeyPressed" ["eventHandler"; "token"]; X "remove_AcceleratorKeyPressed" ["token"];
   X "get_ParentWindow" ["parentWindow"]; X "put_ParentWindow" ["parentWindow"];
   X "NotifyParentWindowPositionChanged" []; X "Close" []; X "get_CoreWebView2" ["coreWebView2"]].

Definition ICoreWebView2Controller2_macros : list cmacro := [
   X "get_DefaultBackgroundColor" ["backgroundColor"]; X "put_DefaultBackgroundColor" ["backgroundColor"]].

Definition ICoreWebView2Controller3_macros : list cmacro := [
   X "get_RasterizationScale" ["scale"]; X "put_RasterizationScale" ["scale"];
   X "get_ShouldDetectMonitorScaleChanges" ["value"]; X "put_ShouldDetectMonitorScaleChanges" ["value"];
   X "add_RasterizationScaleChanged" ["eventHandler"; "token"];
   X "remove_RasterizationScaleChanged" ["token"]; X "get_BoundsMode" ["boundsMode"];
   X "put_BoundsMode" ["boundsMode"]].

Definition ICoreWebView2Controller4_macros : list cmacro := [
   X "get_AllowExternalDrop" ["value"]; X "put_AllowExternalDrop" ["value"]].

Definition ICoreWebView2ControllerOptions_macros : list cmacro := [
   X "get_ProfileName" ["value"]; X "put_ProfileName" ["value"]; X "get_IsInPrivateModeEnabled" ["value"];
   X "put_IsInPrivateModeEnabled" ["value"]].

Definition ICoreWebView2ControllerOptions2_macros : list cmacro := [
   X "get_ScriptLocale" ["locale"]; X "put_ScriptLocale" ["locale"]].

Definition ICoreWebView2ContentLoadingEventArgs_macros : list cmacro := [
   X "get_IsErrorPage" ["isErrorPage"]; X "get_NavigationId" ["navigationId"]].

Definition ICoreWebView2ContentLoadingEventHandler_macros : list cmacro := [X "Invoke" ["sender"; "args"]].

Definition ICoreWebView2ContextMenuRequestedEventArgs_macros : list cmacro := [
   X "get_MenuItems" ["value"]; X "get_ContextMenuTarget" ["value"]; X "get_Location" ["value"];
   X "put_SelectedCommandId" ["value"]; X "get_SelectedCommandId" ["value"]; X "put_Handled" ["value"];
   X "get_Handled" ["value"]; X "GetDeferral" ["deferral"]].

Definition ICoreWebView2ContextMenuRequestedEventHandler_macros : list cmacro := [X "Invoke" ["sender"; "args"]].

Definition ICoreWebView2Cookie_macros : list cmacro := [
   X "get_Name" ["name"]; X "get_Value" ["value"]; X "put_Value" ["value"]; X "get_Domain" ["domain"];
   X "get_Path" ["path"]; X "get_Expires" ["expires"]; X "put_Expires" ["expires"];
   X "get_IsHttpOnly" ["isHttpOnly"]; X "put_IsHttpOnly" ["isHttpOnly"]; X "get_SameSite" ["sameSite"];
   X "put_SameSite" ["sameSite"]; X "get_IsSecure" ["isSecure"]; X "put_IsSecure" ["isSecure"];
   X "get_IsSession" ["isSession"]].

Definition ICoreWebView2CookieList_macros : list cmacro := [
   X "get_Count" ["count"]; X "GetValueAtIndex" ["index"; "cookie"]].

Definition ICoreWebView2CookieManager_macros : list cmacro := [
   X "CreateCookie" ["name"; "value"; "domain"; "path"; "cookie"];
   X "CopyCookie" ["cookieParam"; "cookie"]; X "GetCookies" ["uri"; "handler"];
   X "AddOrUpdateCookie" ["cookie"]; X "DeleteCookie" ["cookie"]; X "DeleteCookies" ["name"; "uri"];
   X "DeleteCookiesWithDomainAndPath" ["name"; "domain"; "path"]; X "DeleteAllCookies" []].

Definition ICoreWebView2Certificate_macros : list cmacro := [
   X "get_Subject" ["value"]; X "get_Issuer" ["value"]; X "get_ValidFrom" ["value"];
   X "get_ValidTo" ["value"]; X "get_DerEncodedSerialNumber" ["value"]; X "get_DisplayName" ["value"];
   X "ToPemEncoding" ["pemEncodedData"]; X "get_PemEncodedIssuerCertificateChain" ["value"]].

Definition ICoreWebView2ClientCertificate_macros : list cmacro := [
   X "get_Subject" ["value"]; X "get_Issuer" ["value"]; X "get_ValidFrom" ["value"];
   X "get_ValidTo" ["value"]; X "get_DerEncodedSerialNumber" ["value"]; X "get_DisplayName" ["value"];
   X "ToPemEncoding" ["pemEncodedData"]; X "get_PemEncodedIssuerCertificateChain" ["value"];
   X "get_Kind" ["value"]].

Definition ICoreWebView2StringCollection_macros : list cmacro := [
   X "get_Count" ["value"]; X "GetValueAtIndex" ["index"; "value"]].

Definition ICoreWebView2ClearBrowsingDataCompletedHandler_macros : list cmacro := [X "Invoke" ["errorCode"]].

Definition ICoreWebView2ClientCertificateCollection_macros : list cmacro := [
   X "get_Count" ["value"]; X "GetValueAtIndex" ["index"; "certificate"]].

Definition ICoreWebView2ClientCertificateRequestedEventArgs_macros : list cmacro := [
   X "get_Host" ["value"]; X "get_Port" ["value"]; X "get_IsProxy" ["value"];
   X "get_AllowedCertificateAuthorities" ["value"]; X "get_MutuallyTrustedCertificates" ["value"];
   X "get_SelectedCertificate" ["value"]; X "put_SelectedCertificate" ["value"]; X "get_Cancel" ["value"];
   X "put_Cancel" ["value"]; X "get_Handled" ["value"]; X "put_Handled" ["value"];
   X "GetDeferral" ["deferral"]].

Definition ICoreWebView2ClientCertificateRequestedEventHandler_macros : list cmacro := [X "Invoke" ["sender"; "args"]].

Definition ICoreWebView2ContextMenuItem_macros : list cmacro := [
   X "get_Name" ["value"]; X "get_Label" ["value"]; X "get_CommandId" ["value"];
   X "get_ShortcutKeyDescription" ["value"]; X "get_Icon" ["value"]; X "get_Kind" ["value"];
   X "put_IsEnabled" ["value"]; X "get_IsEnabled" ["value"]; X "put_IsChecked" ["value"];
   X "get_IsChecked" ["value"]; X "get_Children" ["value"];
   X "add_CustomItemSelected" ["eventHandler"; "token"]; X "remove_CustomItemSelected" ["token"]].

Definition ICoreWebView2ContextMenuItemCollection_macros : list cmacro := [
   X "get_Count" ["value"]; X "GetValueAtIndex" ["index"; "value"]; X "RemoveValueAtIndex" ["index"];
   X "InsertValueAtIndex" ["index"; "value"]].

Definition ICoreWebView2ContextMenuTarget_macros : list cmacro := [
   X "get_Kind" ["value"]; X "get_IsEditable" ["value"]; X "get_IsRequestedForMainFrame" ["value"];
   X "get_PageUri" ["value"]; X "get_FrameUri" ["value"]; X "get_HasLinkUri" ["value"];
   X "get_LinkUri" ["value"]; X "get_HasLinkText" ["value"]; X "get_LinkText" ["value"];
   X "get_HasSourceUri" ["value"]; X "get_SourceUri" ["value"]; X "get_HasSelection" ["value"];
   X "get_SelectionText" ["value"]].

Definition ICoreWebView2ClearServerCertificateErrorActionsCompletedHandler_macros : list cmacro := [X "Invoke" ["errorCode"]].

Definition ICoreWebView2CreateCoreWebView2CompositionControllerCompletedHandler_macros : list cmacro := [X "Invoke" ["errorCode"; "webView"]].

Definition ICoreWebView2CreateCoreWebView2ControllerCompletedHandler_macros : list cmacro := [X "Invoke" ["errorCode"; "createdController"]].

Definition ICoreWebView2CreateCoreWebView2EnvironmentCompletedHandler_macros : list cmacro := [X "Invoke" ["errorCode"; "createdEnvironment"]].

Definition ICoreWebView2ContainsFullScreenElementChangedEventHandler_macros : list cmacro := [X "Invoke" ["sender"; "args"]].

Definition ICoreWebView2CursorChangedEventHandler_macros : list cmacro := [X "Invoke" ["sender"; "args"]].

Definition ICoreWebView2CustomItemSelectedEventHandler_macros : list cmacro := [X "Invoke" ["sender"; "args"]].

Definition ICoreWebView2CustomSchemeRegistration_macros : list cmacro := [
   X "get_SchemeName" ["schemeName"]; X "get_TreatAsSecure" ["treatAsSecure"];
   X "put_TreatAsSecure" ["value"]; X "GetAllowedOrigins" ["allowedOriginsCount"; "allowedOrigins"];
   X "SetAllowedOrigins" ["allowedOriginsCount"; "allowedOrigins"];
   X "get_HasAuthorityComponent" ["hasAuthorityComponent"];
   X "put_HasAuthorityComponent" ["hasAuthorityComponent"]].

Definition ICoreWebView2DocumentTitleChangedEventHandler_macros : list cmacro := [X "Invoke" ["sender"; "args"]].

Definition ICoreWebView2DOMContentLoadedEventArgs_macros : list cmacro := [X "get_NavigationId" ["navigationId"]].

Definition ICoreWebView2DOMContentLoadedEventHandler_macros : list cmacro := [X "Invoke" ["sender"; "args"]].

Definition ICoreWebView2Deferral_macros : list cmacro := [X "Complete" []].

Definition ICoreWebView2DevToolsProtocolEventReceivedEventArgs_macros : list cmacro := [
   X "get_ParameterObjectAsJson" ["parameterObjectAsJson"]].

Definition ICoreWebView2DevToolsProtocolEventReceivedEventArgs2_macros : list cmacro := [X "get_SessionId" ["sessionId"]].

Definition ICoreWebView2DevToolsProtocolEventReceivedEventHandler_macros : list cmacro := [X "Invoke" ["sender"; "args"]].

Definition ICoreWebView2DevToolsProtocolEventReceiver_macros : list cmacro := [
   X "add_DevToolsProtocolEventReceived" ["handler"; "token"];
   X "remove_DevToolsProtocolEventReceived" ["token"]].

Definition ICoreWebView2DownloadOperation_macros : list cmacro := [
   X "add_BytesReceivedChanged" ["eventHandler"; "token"]; X "remove_BytesReceivedChanged" ["token"];
   X "add_EstimatedEndTimeChanged" ["eventHandler"; "token"]; X "remove_EstimatedEndTimeChanged" ["token"];
   X "add_StateChanged" ["eventHandler"; "token"]; X "remove_StateChanged" ["token"]; X "get_Uri" ["uri"];
   X "get_ContentDisposition" ["contentDisposition"]; X "get_MimeType" ["mimeType"];
   X "get_TotalBytesToReceive" ["totalBytesToReceive"]; X "get_BytesReceived" ["bytesReceived"];
   X "get_EstimatedEndTime" ["estimatedEndTime"]; X "get_ResultFilePath" ["resultFilePath"];
   X "get_State" ["downloadState"]; X "get_InterruptReason" ["interruptReason"]; X "Cancel" [];
   X "Pause" []; X "Resume" []; X "get_CanResume" ["canResume"]].

Definition ICoreWebView2DownloadStartingEventArgs_macros : list cmacro := [
   X "get_DownloadOperation" ["downloadOperation"]; X "get_Cancel" ["cancel"]; X "put_Cancel" ["cancel"];
   X "get_ResultFilePath" ["resultFilePath"]; X "put_ResultFilePath" ["resultFilePath"];
   X "get_Handled" ["handled"]; X "put_Handled" ["handled"]; X "GetDeferral" ["deferral"]].

Definition ICoreWebView2DownloadStartingEventHandler_macros : list cmacro := [X "Invoke" ["sender"; "args"]].

Definition ICoreWebView2Environment_macros : list cmacro := [
   X "CreateCoreWebView2Controller" ["parentWindow"; "handler"];
   X "CreateWebResourceResponse" ["content"; "statusCode"; "reasonPhrase"; "headers"; "response"];
   X "get_BrowserVersionString" ["versionInfo"];
   X "add_NewBrowserVersionAvailable" ["eventHandler"; "token"];
   X "remove_NewBrowserVersionAvailable" ["token"]].

Definition ICoreWebView2Environment2_macros : list cmacro := [
   X "CreateWebResourceRequest" ["uri"; "method"; "postData"; "headers"; "request"]].

Definition ICoreWebView2Environment3_macros : list cmacro := [
   X "CreateCoreWebView2CompositionController" ["parentWindow"; "handler"];
   X "CreateCoreWebView2PointerInfo" ["pointerInfo"]].

Definition ICoreWebView2Environment4_macros : list cmacro := [
   X "GetAutomationProviderForWindow" ["hwnd"; "provider"]].

Definition ICoreWebView2Environment5_macros : list cmacro := [
   X "add_BrowserProcessExited" ["eventHandler"; "token"]; X "remove_BrowserProcessExited" ["token"]].

Definition ICoreWebView2Environment6_macros : list cmacro := [X "CreatePrintSettings" ["printSettings"]].

Definition ICoreWebView2Environment7_macros : list cmacro := [X "get_UserDataFolder" ["value"]].

Definition ICoreWebView2Environment8_macros : list cmacro := [
   X "add_ProcessInfosChanged" ["eventHandler"; "token"]; X "remove_ProcessInfosChanged" ["token"];
   X "GetProcessInfos" ["value"]].

Definition ICoreWebView2Environment9_macros : list cmacro := [
   X "CreateContextMenuItem" ["label"; "iconStream"; "kind"; "item"]].

Definition ICoreWebView2Environment10_macros : list cmacro := [
   X "CreateCoreWebView2ControllerOptions" ["options"];
   X "CreateCoreWebView2ControllerWithOptions" ["parentWindow"; "options"; "handler"];
   X "CreateCoreWebView2CompositionControllerWithOptions" ["parentWindow"; "options"; "handler"]].

Definition ICoreWebView2Environment11_macros : list cmacro := [X "get_FailureReportFolderPath" ["value"]].

Definition ICoreWebView2Environment12_macros : list cmacro := [
   X "CreateSharedBuffer" ["size"; "shared_buffer"]].

Definition ICoreWebView2Environment13_macros : list cmacro := [X "GetProcessExtendedInfos" ["handler"]].

Definition ICoreWebView2EnvironmentOptions_macros : list cmacro := [
   X "get_AdditionalBrowserArguments" ["value"]; X "put_AdditionalBrowserArguments" ["value"];
   X "get_Language" ["value"]; X "put_Language" ["value"];
   X "get_TargetCompatibleBrowserVersion" ["value"]; X "put_TargetCompatibleBrowserVersion" ["value"];
   X "get_AllowSingleSignOnUsingOSPrimaryAccount" ["allow"];
   X "put_AllowSingleSignOnUsingOSPrimaryAccount" ["allow"]].

Definition ICoreWebView2EnvironmentOptions2_macros : list cmacro := [
   X "get_ExclusiveUserDataFolderAccess" ["value"]; X "put_ExclusiveUserDataFolderAccess" ["value"]].

Definition ICoreWebView2EnvironmentOptions3_macros : list cmacro := [
   X "get_IsCustomCrashReportingEnabled" ["value"]; X "put_IsCustomCrashReportingEnabled" ["value"]].

Definition ICoreWebView2EnvironmentOptions4_macros : list cmacro := [
   X "GetCustomSchemeRegistrations" ["count"; "schemeRegistrations"];
   X "SetCustomSchemeRegistrations" ["count"; "schemeRegistrations"]].

Definition ICoreWebView2EnvironmentOptions5_macros : list cmacro := [
   X "get_EnableTrackingPrevention" ["value"]; X "put_EnableTrackingPrevention" ["value"]].

Definition ICoreWebView2EnvironmentOptions6_macros : list cmacro := [
   X "get_AreBrowserExtensionsEnabled" ["value"]; X "put_AreBrowserExtensionsEnabled" ["value"]].

Definition ICoreWebView2EstimatedEndTimeChangedEventHandler_macros : list cmacro := [X "Invoke" ["sender"; "args"]].

Definition ICoreWebView2ExecuteScriptCompletedHandler_macros : list cmacro := [X "Invoke" ["errorCode"; "resultObjectAsJson"]].

Definition ICoreWebView2GetProcessExtendedInfosCompletedHandler_macros : list cmacro := [X "Invoke" ["errorCode"; "value"]].

Definition ICoreWebView2ProcessExtendedInfo_macros : list cmacro := [
   X "get_ProcessInfo" ["processInfo"]; X "get_AssociatedFrameInfos" ["frames"]].

Definition ICoreWebView2ProcessExtendedInfoCollection_macros : list cmacro := [
   X "get_Count" ["count"]; X "GetValueAtIndex" ["index"; "processInfo"]].

Definition ICoreWebView2Frame_macros : list cmacro := [
   X "get_Name" ["name"]; X "add_NameChanged" ["eventHandler"; "token"]; X "remove_NameChanged" ["token"];
   X "AddHostObjectToScriptWithOrigins" ["name"; "object"; "originsCount"; "origins"];
   X "RemoveHostObjectFromScript" ["name"]; X "add_Destroyed" ["eventHandler"; "token"];
   X "remove_Destroyed" ["token"]; X "IsDestroyed" ["destroyed"]].

Definition ICoreWebView2Frame2_macros : list cmacro := [
   X "add_NavigationStarting" ["eventHandler"; "token"]; X "remove_NavigationStarting" ["token"];
   X "add_ContentLoading" ["eventHandler"; "token"]; X "remove_ContentLoading" ["token"];
   X "add_NavigationCompleted" ["eventHandler"; "token"]; X "remove_NavigationCompleted" ["token"];
   X "add_DOMContentLoaded" ["eventHandler"; "token"]; X "remove_DOMContentLoaded" ["token"];
   X "ExecuteScript" ["javaScript"; "handler"]; X "PostWebMessageAsJson" ["webMessageAsJson"];
   X "PostWebMessageAsString" ["webMessageAsString"]; X "add_WebMessageReceived" ["handler"; "token"];
   X "remove_WebMessageReceived" ["token"]].

Definition ICoreWebView2Frame3_macros : list cmacro := [
   X "add_PermissionRequested" ["handler"; "token"]; X "remove_PermissionRequested" ["token"]].

Definition ICoreWebView2Frame4_macros : list cmacro := [
   X "PostSharedBufferToScript" ["sharedBuffer"; "access"; "additionalDataAsJson"]].

Definition ICoreWebView2Frame5_macros : list cmacro := [X "get_FrameId" ["id"]].

Definition ICoreWebView2FrameContentLoadingEventHandler_macros : list cmacro := [X "Invoke" ["sender"; "args"]].

Definition ICoreWebView2FrameCreatedEventArgs_macros : list cmacro := [X "get_Frame" ["frame"]].

Definition ICoreWebView2FrameCreatedEventHandler_macros : list cmacro := [X "Invoke" ["sender"; "args"]].

Definition ICoreWebView2FrameDestroyedEventHandler_macros : list cmacro := [X "Invoke" ["sender"; "args"]].

Definition ICoreWebView2FrameDOMContentLoadedEventHandler_macros : list cmacro := [X "Invoke" ["sender"; "args"]].

Definition ICoreWebView2FrameNameChangedEventHandler_macros : list cmacro := [X "Invoke" ["sender"; "args"]].

Definition ICoreWebView2FrameNavigationCompletedEventHandler_macros : list cmacro := [X "Invoke" ["sender"; "args"]].

Definition ICoreWebView2FrameNavigationStartingEventHandler_macros : list cmacro := [X "Invoke" ["sender"; "args"]].

Definition ICoreWebView2FramePermissionRequestedEventHandler_macros : list cmacro := [X "Invoke" ["sender"; "args"]].

Definition ICoreWebView2FrameWebMessageReceivedEventHandler_macros : list cmacro := [X "Invoke" ["sender"; "args"]].

Definition ICoreWebView2FrameInfo_macros : list cmacro := [
   X "get_Name" ["name"]; X "get_Source" ["source"]].

Definition ICoreWebView2FrameInfo2_macros : list cmacro := [
   X "get_ParentFrameInfo" ["frameInfo"]; X "get_FrameId" ["id"]; X "get_FrameKind" ["kind"]].

Definition ICoreWebView2FrameInfoCollection_macros : list cmacro := [X "GetIterator" ["iterator"]].

Definition ICoreWebView2FrameInfoCollectionIterator_macros : list cmacro := [
   X "get_HasCurrent" ["hasCurrent"]; X "GetCurrent" ["frameInfo"]; X "MoveNext" ["hasNext"]].

Definition ICoreWebView2FocusChangedEventHandler_macros : list cmacro := [X "Invoke" ["sender"; "args"]].

Definition ICoreWebView2GetCookiesCompletedHandler_macros : list cmacro := [X "Invoke" ["result"; "cookieList"]].

Definition ICoreWebView2GetNonDefaultPermissionSettingsCompletedHandler_macros : list cmacro := [X "Invoke" ["errorCode"; "collectionView"]].

Definition ICoreWebView2HistoryChangedEventHandler_macros : list cmacro := [X "Invoke" ["sender"; "args"]].

Definition ICoreWebView2HttpHeadersCollectionIterator_macros : list cmacro := [
   X "GetCurrentHeader" ["name"; "value"]; X "get_HasCurrentHeader" ["hasCurrent"];
   X "MoveNext" ["hasNext"]].

Definition ICoreWebView2HttpRequestHeaders_macros : list cmacro := [
   X "GetHeader" ["name"; "value"]; X "GetHeaders" ["name"; "iterator"]; X "Contains" ["name"; "contains"];
   X "SetHeader" ["name"; "value"]; X "RemoveHeader" ["name"]; X "GetIterator" ["iterator"]].

Definition ICoreWebView2HttpResponseHeaders_macros : list cmacro := [
   X "AppendHeader" ["name"; "value"]; X "Contains" ["name"; "contains"]; X "GetHeader" ["name"; "value"];
   X "GetHeaders" ["name"; "iterator"]; X "GetIterator" ["iterator"]].

Definition ICoreWebView2IsDefaultDownloadDialogOpenChangedEventHandler_macros : list cmacro := [X "Invoke" ["sender"; "args"]].

Definition ICoreWebView2LaunchingExternalUriSchemeEventArgs_macros : list cmacro := [
   X "get_Uri" ["value"]; X "get_InitiatingOrigin" ["value"]; X "get_IsUserInitiated" ["value"];
   X "get_Cancel" ["value"]; X "put_Cancel" ["value"]; X "GetDeferral" ["value"]].

Definition ICoreWebView2LaunchingExternalUriSchemeEventHandler_macros : list cmacro := [X "Invoke" ["sender"; "args"]].

Definition ICoreWebView2MoveFocusRequestedEventArgs_macros : list cmacro := [
   X "get_Reason" ["reason"]; X "get_Handled" ["value"]; X "put_Handled" ["value"]].

Definition ICoreWebView2MoveFocusRequestedEventHandler_macros : list cmacro := [X "Invoke" ["sender"; "args"]].

Definition ICoreWebView2NavigationCompletedEventArgs_macros : list cmacro := [
   X "get_IsSuccess" ["isSuccess"]; X "get_WebErrorStatus" ["webErrorStatus"];
   X "get_NavigationId" ["navigationId"]].

Definition ICoreWebView2NavigationCompletedEventArgs2_macros : list cmacro := [X "get_HttpStatusCode" ["http_status_code"]].

Definition ICoreWebView2NavigationCompletedEventHandler_macros : list cmacro := [X "Invoke" ["sender"; "args"]].

Definition ICoreWebView2NavigationStartingEventArgs_macros : list cmacro := [
   X "get_Uri" ["uri"]; X "get_IsUserInitiated" ["isUserInitiated"]; X "get_IsRedirected" ["isRedirected"];
   X "get_RequestHeaders" ["requestHeaders"]; X "get_Cancel" ["cancel"]; X "put_Cancel" ["cancel"];
   X "get_NavigationId" ["navigationId"]].

Definition ICoreWebView2NavigationStartingEventArgs2_macros : list cmacro := [
   X "get_AdditionalAllowedFrameAncestors" ["value"]; X "put_AdditionalAllowedFrameAncestors" ["value"]].

Definition ICoreWebView2NavigationStartingEventArgs3_macros : list cmacro := [X "get_NavigationKind" ["navigation_kind"]].

Definition ICoreWebView2NavigationStartingEventHandler_macros : list cmacro := [X "Invoke" ["sender"; "args"]].

Definition ICoreWebView2NewBrowserVersionAvailableEventHandler_macros : list cmacro := [X "Invoke" ["sender"; "args"]].

Definition ICoreWebView2NewWindowRequestedEventArgs_macros : list cmacro := [
   X "get_Uri" ["uri"]; X "put_NewWindow" ["newWindow"]; X "get_NewWindow" ["newWindow"];
   X "put_Handled" ["handled"]; X "get_Handled" ["handled"]; X "get_IsUserInitiated" ["isUserInitiated"];
   X "GetDeferral" ["deferral"]; X "get_WindowFeatures" ["value"]].

Definition ICoreWebView2NewWindowRequestedEventArgs2_macros : list cmacro := [X "get_Name" ["value"]].

Definition ICoreWebView2NewWindowRequestedEventArgs3_macros : list cmacro := [X "get_OriginalSourceFrameInfo" ["frameInfo"]].

Definition ICoreWebView2NewWindowRequestedEventHandler_macros : list cmacro := [X "Invoke" ["sender"; "args"]].

Definition ICoreWebView2PermissionRequestedEventArgs_macros : list cmacro := [
   X "get_Uri" ["uri"]; X "get_PermissionKind" ["permissionKind"];
   X "get_IsUserInitiated" ["isUserInitiated"]; X "get_State" ["state"]; X "put_State" ["state"];
   X "GetDeferral" ["deferral"]].

Definition ICoreWebView2PermissionRequestedEventArgs2_macros : list cmacro := [
   X "get_Handled" ["handled"]; X "put_Handled" ["handled"]].

Definition ICoreWebView2PermissionRequestedEventArgs3_macros : list cmacro := [
   X "get_SavesInProfile" ["value"]; X "put_SavesInProfile" ["value"]].

Definition ICoreWebView2PermissionRequestedEventHandler_macros : list cmacro := [X "Invoke" ["sender"; "args"]].

Definition ICoreWebView2PermissionSettingCollectionView_macros : list cmacro := [
   X "GetValueAtIndex" ["index"; "permissionSetting"]; X "get_Count" ["value"]].

Definition ICoreWebView2PermissionSetting_macros : list cmacro := [
   X "get_PermissionKind" ["value"]; X "get_PermissionOrigin" ["value"]; X "get_PermissionState" ["value"]].

Definition ICoreWebView2PointerInfo_macros1 : list cmacro := [
   X "get_PointerKind" ["pointerKind"]; X "put_PointerKind" ["pointerKind"];
   X "get_PointerId" ["pointerId"]; X "put_PointerId" ["pointerId"]; X "get_FrameId" ["frameId"];
   X "put_FrameId" ["frameId"]; X "get_PointerFlags" ["pointerFlags"];
   X "put_PointerFlags" ["pointerFlags"]; X "get_PointerDeviceRect" ["pointerDeviceRect"];
   X "put_PointerDeviceRect" ["pointerDeviceRect"]; X "get_DisplayRect" ["displayRect"];
   X "put_DisplayRect" ["displayRect"]; X "get_PixelLocation" ["pixelLocation"];
   X "put_PixelLocation" ["pixelLocation"]; X "get_HimetricLocation" ["himetricLocation"];
   X "put_HimetricLocation" ["himetricLocation"]; X "get_PixelLocationRaw" ["pixelLocationRaw"];
   X "put_PixelLocationRaw" ["pixelLocationRaw"]; X "get_HimetricLocationRaw" ["himetricLocationRaw"];
   X "put_HimetricLocationRaw" ["himetricLocationRaw"]; X "get_Time" ["time"]; X "put_Time" ["time"];
   X "get_HistoryCount" ["historyCount"]; X "put_HistoryCount" ["historyCount"];
   X "get_InputData" ["inputData"]; X "put_InputData" ["inputData"]; X "get_KeyStates" ["keyStates"];
   X "put_KeyStates" ["keyStates"]; X "get_PerformanceCount" ["performanceCount"];
   X "put_PerformanceCount" ["performanceCount"]; X "get_ButtonChangeKind" ["buttonChangeKind"];
   X "put_ButtonChangeKind" ["buttonChangeKind"]; X "get_PenFlags" ["penFLags"]].

Definition ICoreWebView2PointerInfo_macros2 : list cmacro := [
   X "put_PenFlags" ["penFLags"]; X "get_PenMask" ["penMask"]; X "put_PenMask" ["penMask"];
   X "get_PenPressure" ["penPressure"]; X "put_PenPressure" ["penPressure"];
   X "get_PenRotation" ["penRotation"]; X "put_PenRotation" ["penRotation"]; X "get_PenTiltX" ["penTiltX"];
   X "put_PenTiltX" ["penTiltX"]; X "get_PenTiltY" ["penTiltY"]; X "put_PenTiltY" ["penTiltY"];
   X "get_TouchFlags" ["touchFlags"]; X "put_TouchFlags" ["touchFlags"]; X "get_TouchMask" ["touchMask"];
   X "put_TouchMask" ["touchMask"]; X "get_TouchContact" ["touchContact"];
   X "put_TouchContact" ["touchContact"]; X "get_TouchContactRaw" ["touchContactRaw"];
   X "put_TouchContactRaw" ["touchContactRaw"]; X "get_TouchOrientation" ["touchOrientation"];
   X "put_TouchOrientation" ["touchOrientation"]; X "get_TouchPressure" ["touchPressure"];
   X "put_TouchPressure" ["touchPressure"]].

Definition ICoreWebView2PrintSettings_macros : list cmacro := [
   X "get_Orientation" ["orientation"]; X "put_Orientation" ["orientation"];
   X "get_ScaleFactor" ["scaleFactor"]; X "put_ScaleFactor" ["scaleFactor"];
   X "get_PageWidth" ["pageWidth"]; X "put_PageWidth" ["pageWidth"]; X "get_PageHeight" ["pageHeight"];
   X "put_PageHeight" ["pageHeight"]; X "get_MarginTop" ["marginTop"]; X "put_MarginTop" ["marginTop"];
   X "get_MarginBottom" ["marginBottom"]; X "put_MarginBottom" ["marginBottom"];
   X "get_MarginLeft" ["marginLeft"]; X "put_MarginLeft" ["marginLeft"];
   X "get_MarginRight" ["marginRight"]; X "put_MarginRight" ["marginRight"];
   X "get_ShouldPrintBackgrounds" ["shouldPrintBackgrounds"];
   X "put_ShouldPrintBackgrounds" ["shouldPrintBackgrounds"];
   X "get_ShouldPrintSelectionOnly" ["shouldPrintSelectionOnly"];
   X "put_ShouldPrintSelectionOnly" ["shouldPrintSelectionOnly"];
   X "get_ShouldPrintHeaderAndFooter" ["shouldPrintHeaderAndFooter"];
   X "put_ShouldPrintHeaderAndFooter" ["shouldPrintHeaderAndFooter"]; X "get_HeaderTitle" ["headerTitle"];
   X "put_HeaderTitle" ["headerTitle"]; X "get_FooterUri" ["footerUri"]; X "put_FooterUri" ["footerUri"]].

Definition ICoreWebView2PrintSettings2_macros : list cmacro := [
   X "get_PageRanges" ["value"]; X "put_PageRanges" ["value"]; X "get_PagesPerSide" ["value"];
   X "put_PagesPerSide" ["value"]; X "get_Copies" ["value"]; X "put_Copies" ["value"];
   X "get_Collation" ["value"]; X "put_Collation" ["value"]; X "get_ColorMode" ["value"];
   X "put_ColorMode" ["value"]; X "get_Duplex" ["value"]; X "put_Duplex" ["value"];
   X "get_MediaSize" ["value"]; X "put_MediaSize" ["value"]; X "get_PrinterName" ["value"];
   X "put_PrinterName" ["value"]].

Definition ICoreWebView2PrintToPdfCompletedHandler_macros : list cmacro := [X "Invoke" ["errorCode"; "isSuccessful"]].

Definition ICoreWebView2PrintCompletedHandler_macros : list cmacro := [X "Invoke" ["errorCode"; "printStatus"]].

Definition ICoreWebView2PrintToPdfStreamCompletedHandler_macros : list cmacro := [X "Invoke" ["errorCode"; "pdfStream"]].

Definition ICoreWebView2ProcessFailedEventArgs_macros : list cmacro := [X "get_ProcessFailedKind" ["processFailedKind"]].

Definition ICoreWebView2ProcessFailedEventArgs2_macros : list cmacro := [
   X "get_Reason" ["reason"]; X "get_ExitCode" ["exitCode"];
   X "get_ProcessDescription" ["processDescription"]; X "get_FrameInfosForFailedProcess" ["frames"]].

Definition ICoreWebView2ProcessFailedEventHandler_macros : list cmacro := [X "Invoke" ["sender"; "args"]].

Definition ICoreWebView2Profile_macros : list cmacro := [
   X "get_ProfileName" ["value"]; X "get_IsInPrivateModeEnabled" ["value"]; X "get_ProfilePath" ["value"];
   X "get_DefaultDownloadFolderPath" ["value"]; X "put_DefaultDownloadFolderPath" ["value"];
   X "get_PreferredColorScheme" ["value"]; X "put_PreferredColorScheme" ["value"]].

Definition ICoreWebView2Profile2_macros : list cmacro := [
   X "ClearBrowsingData" ["dataKinds"; "handler"];
   X "ClearBrowsingDataInTimeRange" ["dataKinds"; "startTime"; "endTime"; "handler"];
   X "ClearBrowsingDataAll" ["handler"]].

Definition ICoreWebView2Profile3_macros : list cmacro := [
   X "get_PreferredTrackingPreventionLevel" ["value"]; X "put_PreferredTrackingPreventionLevel" ["value"]].

Definition ICoreWebView2Profile4_macros : list cmacro := [
   X "SetPermissionState" ["permissionKind"; "origin"; "state"; "completedHandler"];
   X "GetNonDefaultPermissionSettings" ["completedHandler"]].

Definition ICoreWebView2Profile5_macros : list cmacro := [X "get_CookieManager" ["cookieManager"]].

Definition ICoreWebView2Profile6_macros : list cmacro := [
   X "get_IsPasswordAutosaveEnabled" ["value"]; X "put_IsPasswordAutosaveEnabled" ["value"];
   X "get_IsGeneralAutofillEnabled" ["value"]; X "put_IsGeneralAutofillEnabled" ["value"]].

Definition ICoreWebView2Profile7_macros : list cmacro := [
   X "AddBrowserExtension" ["extensionFolderPath"; "handler"]; X "GetBrowserExtensions" ["handler"]].

Definition ICoreWebView2Profile8_macros : list cmacro := [
   X "Delete" []; X "add_Deleted" ["eventHandler"; "token"]; X "remove_Deleted" ["token"]].

Definition ICoreWebView2ProfileDeletedEventHandler_macros : list cmacro := [X "Invoke" ["sender"; "args"]].

Definition ICoreWebView2RasterizationScaleChangedEventHandler_macros : list cmacro := [X "Invoke" ["sender"; "args"]].

Definition ICoreWebView2ServerCertificateErrorDetectedEventArgs_macros : list cmacro := [
   X "get_ErrorStatus" ["value"]; X "get_RequestUri" ["value"]; X "get_ServerCertificate" ["value"];
   X "get_Action" ["value"]; X "put_Action" ["value"]; X "GetDeferral" ["deferral"]].

Definition ICoreWebView2ServerCertificateErrorDetectedEventHandler_macros : list cmacro := [X "Invoke" ["sender"; "args"]].

Definition ICoreWebView2SetPermissionStateCompletedHandler_macros : list cmacro := [X "Invoke" ["errorCode"]].

Definition ICoreWebView2ScriptDialogOpeningEventArgs_macros : list cmacro := [
   X "get_Uri" ["uri"]; X "get_Kind" ["kind"]; X "get_Message" ["message"]; X "Accept" [];
   X "get_DefaultText" ["defaultText"]; X "get_ResultText" ["resultText"];
   X "put_ResultText" ["resultText"]; X "GetDeferral" ["deferral"]].

Definition ICoreWebView2ScriptDialogOpeningEventHandler_macros : list cmacro := [X "Invoke" ["sender"; "args"]].

Definition ICoreWebView2Settings_macros : list cmacro := [
   X "get_IsScriptEnabled" ["isScriptEnabled"]; X "put_IsScriptEnabled" ["isScriptEnabled"];
   X "get_IsWebMessageEnabled" ["isWebMessageEnabled"];
   X "put_IsWebMessageEnabled" ["isWebMessageEnabled"];
   X "get_AreDefaultScriptDialogsEnabled" ["areDefaultScriptDialogsEnabled"];
   X "put_AreDefaultScriptDialogsEnabled" ["areDefaultScriptDialogsEnabled"];
   X "get_IsStatusBarEnabled" ["isStatusBarEnabled"]; X "put_IsStatusBarEnabled" ["isStatusBarEnabled"];
   X "get_AreDevToolsEnabled" ["areDevToolsEnabled"]; X "put_AreDevToolsEnabled" ["areDevToolsEnabled"];
   X "get_AreDefaultContextMenusEnabled" ["enabled"]; X "put_AreDefaultContextMenusEnabled" ["enabled"];
   X "get_AreHostObjectsAllowed" ["allowed"]; X "put_AreHostObjectsAllowed" ["allowed"];
   X "get_IsZoomControlEnabled" ["enabled"]; X "put_IsZoomControlEnabled" ["enabled"];
   X "get_IsBuiltInErrorPageEnabled" ["enabled"]; X "put_IsBuiltInErrorPageEnabled" ["enabled"]].

Definition ICoreWebView2Settings2_macros : list cmacro := [
   X "get_UserAgent" ["userAgent"]; X "put_UserAgent" ["userAgent"]].

Definition ICoreWebView2Settings3_macros : list cmacro := [
   X "get_AreBrowserAcceleratorKeysEnabled" ["areBrowserAcceleratorKeysEnabled"];
   X "put_AreBrowserAcceleratorKeysEnabled" ["areBrowserAcceleratorKeysEnabled"]].

Definition ICoreWebView2Settings4_macros : list cmacro := [
   X "get_IsPasswordAutosaveEnabled" ["value"]; X "put_IsPasswordAutosaveEnabled" ["value"];
   X "get_IsGeneralAutofillEnabled" ["value"]; X "put_IsGeneralAutofillEnabled" ["value"]].

Definition ICoreWebView2Settings5_macros : list cmacro := [
   X "get_IsPinchZoomEnabled" ["enabled"]; X "put_IsPinchZoomEnabled" ["enabled"]].

Definition ICoreWebView2Settings6_macros : list cmacro := [
   X "get_IsSwipeNavigationEnabled" ["enabled"]; X "put_IsSwipeNavigationEnabled" ["enabled"]].

Definition ICoreWebView2Settings7_macros : list cmacro := [
   X "get_HiddenPdfToolbarItems" ["hidden_pdf_toolbar_items"];
   X "put_HiddenPdfToolbarItems" ["hidden_pdf_toolbar_items"]].

Definition ICoreWebView2Settings8_macros : list cmacro := [
   X "get_IsReputationCheckingRequired" ["value"]; X "put_IsReputationCheckingRequired" ["value"]].

Definition ICoreWebView2SharedBuffer_macros : list cmacro := [
   X "get_Size" ["value"]; X "get_Buffer" ["value"]; X "OpenStream" ["value"];
   X "get_FileMappingHandle" ["value"]; X "Close" []].

Definition ICoreWebView2SourceChangedEventArgs_macros : list cmacro := [X "get_IsNewDocument" ["isNewDocument"]].

Definition ICoreWebView2SourceChangedEventHandler_macros : list cmacro := [X "Invoke" ["sender"; "args"]].

Definition ICoreWebView2StateChangedEventHandler_macros : list cmacro := [X "Invoke" ["sender"; "args"]].

Definition ICoreWebView2StatusBarTextChangedEventHandler_macros : list cmacro := [X "Invoke" ["sender"; "args"]].

Definition ICoreWebView2TrySuspendCompletedHandler_macros : list cmacro := [X "Invoke" ["errorCode"; "isSuccessful"]].

Definition ICoreWebView2WebMessageReceivedEventArgs_macros : list cmacro := [
   X "get_Source" ["source"]; X "get_WebMessageAsJson" ["webMessageAsJson"];
   X "TryGetWebMessageAsString" ["webMessageAsString"]].

Definition ICoreWebView2WebMessageReceivedEventHandler_macros : list cmacro := [X "Invoke" ["sender"; "args"]].

Definition ICoreWebView2WebResourceRequest_macros : list cmacro := [
   X "get_Uri" ["uri"]; X "put_Uri" ["uri"]; X "get_Method" ["method"]; X "put_Method" ["method"];
   X "get_Content" ["content"]; X "put_Content" ["content"]; X "get_Headers" ["headers"]].

Definition ICoreWebView2WebResourceRequestedEventArgs_macros : list cmacro := [
   X "get_Request" ["request"]; X "get_Response" ["response"]; X "put_Response" ["response"];
   X "GetDeferral" ["deferral"]; X "get_ResourceContext" ["context"]].

Definition ICoreWebView2WebResourceRequestedEventArgs2_macros : list cmacro := [
   X "get_RequestedSourceKind" ["requestedSourceKind"]].

Definition ICoreWebView2WebResourceRequestedEventHandler_macros : list cmacro := [X "Invoke" ["sender"; "args"]].

Definition ICoreWebView2WebResourceResponse_macros : list cmacro := [
   X "get_Content" ["content"]; X "put_Content" ["content"]; X "get_Headers" ["headers"];
   X "get_StatusCode" ["statusCode"]; X "put_StatusCode" ["statusCode"];
   X "get_ReasonPhrase" ["reasonPhrase"]; X "put_ReasonPhrase" ["reasonPhrase"]].

Definition ICoreWebView2WebResourceResponseReceivedEventHandler_macros : list cmacro := [X "Invoke" ["sender"; "args"]].

Definition ICoreWebView2WebResourceResponseReceivedEventArgs_macros : list cmacro := [
   X "get_Request" ["request"]; X "get_Response" ["response"]].

Definition ICoreWebView2WebResourceResponseView_macros : list cmacro := [
   X "get_Headers" ["headers"]; X "get_StatusCode" ["statusCode"]; X "get_ReasonPhrase" ["reasonPhrase"];
   X "GetContent" ["handler"]].

Definition ICoreWebView2WebResourceResponseViewGetContentCompletedHandler_macros : list cmacro := [X "Invoke" ["errorCode"; "content"]].

Definition ICoreWebView2WindowCloseRequestedEventHandler_macros : list cmacro := [X "Invoke" ["sender"; "args"]].

Definition ICoreWebView2WindowFeatures_macros : list cmacro := [
   X "get_HasPosition" ["value"]; X "get_HasSize" ["value"]; X "get_Left" ["value"]; X "get_Top" ["value"];
   X "get_Height" ["value"]; X "get_Width" ["value"]; X "get_ShouldDisplayMenuBar" ["value"];
   X "get_ShouldDisplayStatus" ["value"]; X "get_ShouldDisplayToolbar" ["value"];
   X "get_ShouldDisplayScrollBars" ["value"]].

Definition ICoreWebView2ZoomFactorChangedEventHandler_macros : list cmacro := [X "Invoke" ["sender"; "args"]].

Definition ICoreWebView2IsMutedChangedEventHandler_macros : list cmacro := [X "Invoke" ["sender"; "args"]].

Definition ICoreWebView2IsDocumentPlayingAudioChangedEventHandler_macros : list cmacro := [X "Invoke" ["sender"; "args"]].

Definition ICoreWebView2ProcessInfo_macros : list cmacro := [
   X "get_ProcessId" ["value"]; X "get_Kind" ["kind"]].

Definition ICoreWebView2ProcessInfoCollection_macros : list cmacro := [
   X "get_Count" ["count"]; X "GetValueAtIndex" ["index"; "processInfo"]].

Definition ICoreWebView2ProcessInfosChangedEventHandler_macros : list cmacro := [X "Invoke" ["sender"; "args"]].

Definition ICoreWebView2FaviconChangedEventHandler_macros : list cmacro := [X "Invoke" ["sender"; "args"]].

Definition ICoreWebView2GetFaviconCompletedHandler_macros : list cmacro := [X "Invoke" ["errorCode"; "faviconStream"]].

Definition ICoreWebView2ProfileAddBrowserExtensionCompletedHandler_macros : list cmacro := [X "Invoke" ["errorCode"; "extension"]].

Definition ICoreWebView2ProfileGetBrowserExtensionsCompletedHandler_macros : list cmacro := [X "Invoke" ["errorCode"; "extensionList"]].

Definition ICoreWebView2BrowserExtensionList_macros : list cmacro := [
   X "get_Count" ["count"]; X "GetValueAtIndex" ["index"; "extension"]].

Definition ICoreWebView2BrowserExtension_macros : list cmacro := [
   X "get_Id" ["value"]; X "get_Name" ["value"]; X "Remove" ["handler"]; X "get_IsEnabled" ["value"];
   X "Enable" ["isEnabled"; "handler"]].

Definition ICoreWebView2BrowserExtensionEnableCompletedHandler_macros : list cmacro := [X "Invoke" ["errorCode"]].

Definition ICoreWebView2BrowserExtensionRemoveCompletedHandler_macros : list cmacro := [X "Invoke" ["errorCode"]].

Definition ICoreWebView2ExecuteScriptResult_macros : list cmacro := [
   X "get_Succeeded" ["value"]; X "get_ResultAsJson" ["jsonResult"];
   X "TryGetResultAsString" ["stringResult"; "value"]; X "get_Exception" ["exception"]].

Definition ICoreWebView2ExecuteScriptWithResultCompletedHandler_macros : list cmacro := [X "Invoke" ["errorCode"; "result"]].

Definition ICoreWebView2ScriptException_macros : list cmacro := [
   X "get_LineNumber" ["value"]; X "get_ColumnNumber" ["value"]; X "get_Name" ["value"];
   X "get_Message" ["value"]; X "get_ToJson" ["value"]].

Definition ICoreWebView2File_macros : list cmacro := [X "get_Path" ["path"]].

Definition ICoreWebView2ObjectCollectionView_macros : list cmacro := [
   X "get_Count" ["value"]; X "GetValueAtIndex" ["index"; "value"]].

Definition ICoreWebView2WebMessageReceivedEventArgs2_macros : list cmacro := [X "get_AdditionalObjects" ["value"]].
