(* ===== verification/WvMacroTables.v ===== *)
(** * WebView2.h: the macros of every interface

    The [COBJMACROS] section of every interface, in the order of the header: the macros of
    the bases, which are the same text but for the name of the interface, and its own.  A
    long section is written in parts. *)

From S2P Require Import Prelude WvIdl WvMacros.

Definition ICoreWebView2AcceleratorKeyPressedEventArgs_COBJMACROS : list cmacro :=
   IUnknown_macros ++ ICoreWebView2AcceleratorKeyPressedEventArgs_macros.

Definition ICoreWebView2AcceleratorKeyPressedEventArgs2_COBJMACROS : list cmacro :=
   IUnknown_macros ++ ICoreWebView2AcceleratorKeyPressedEventArgs_macros ++
   ICoreWebView2AcceleratorKeyPressedEventArgs2_macros.

Definition ICoreWebView2AcceleratorKeyPressedEventHandler_COBJMACROS : list cmacro :=
   IUnknown_macros ++ ICoreWebView2AcceleratorKeyPressedEventHandler_macros.

Definition ICoreWebView2AddScriptToExecuteOnDocumentCreatedCompletedHandler_COBJMACROS : list cmacro :=
   IUnknown_macros ++ ICoreWebView2AddScriptToExecuteOnDocumentCreatedCompletedHandler_macros.

Definition ICoreWebView2CallDevToolsProtocolMethodCompletedHandler_COBJMACROS : list cmacro :=
   IUnknown_macros ++ ICoreWebView2CallDevToolsProtocolMethodCompletedHandler_macros.

Definition ICoreWebView2CapturePreviewCompletedHandler_COBJMACROS : list cmacro :=
   IUnknown_macros ++ ICoreWebView2CapturePreviewCompletedHandler_macros.

Definition ICoreWebView2_COBJMACROS_part1 : list cmacro := IUnknown_macros ++ ICoreWebView2_macros1.

Definition ICoreWebView2_COBJMACROS_part2 : list cmacro := ICoreWebView2_macros2.

Definition ICoreWebView2_COBJMACROS : list cmacro :=
   ICoreWebView2_COBJMACROS_part1 ++ ICoreWebView2_COBJMACROS_part2.

Definition ICoreWebView2_2_COBJMACROS_part1 : list cmacro := IUnknown_macros ++ ICoreWebView2_macros1.

Definition ICoreWebView2_2_COBJMACROS_part2 : list cmacro := ICoreWebView2_macros2 ++ ICoreWebView2_2_macros.

Definition ICoreWebView2_2_COBJMACROS : list cmacro :=
   ICoreWebView2_2_COBJMACROS_part1 ++ ICoreWebView2_2_COBJMACROS_part2.

Definition ICoreWebView2_3_COBJMACROS_part1 : list cmacro := IUnknown_macros ++ ICoreWebView2_macros1.

Definition ICoreWebView2_3_COBJMACROS_part2 : list cmacro :=
   ICoreWebView2_macros2 ++ ICoreWebView2_2_macros ++ ICoreWebView2_3_macros.

Definition ICoreWebView2_3_COBJMACROS : list cmacro :=
   ICoreWebView2_3_COBJMACROS_part1 ++ ICoreWebView2_3_COBJMACROS_part2.

Definition ICoreWebView2_4_COBJMACROS_part1 : list cmacro := IUnknown_macros ++ ICoreWebView2_macros1.

Definition ICoreWebView2_4_COBJMACROS_part2 : list cmacro :=
   ICoreWebView2_macros2 ++ ICoreWebView2_2_macros ++ ICoreWebView2_3_macros ++ ICoreWebView2_4_macros.

Definition ICoreWebView2_4_COBJMACROS : list cmacro :=
   ICoreWebView2_4_COBJMACROS_part1 ++ ICoreWebView2_4_COBJMACROS_part2.

Definition ICoreWebView2_5_COBJMACROS_part1 : list cmacro := IUnknown_macros ++ ICoreWebView2_macros1.

Definition ICoreWebView2_5_COBJMACROS_part2 : list cmacro :=
   ICoreWebView2_macros2 ++ ICoreWebView2_2_macros ++ ICoreWebView2_3_macros ++ ICoreWebView2_4_macros ++
   ICoreWebView2_5_macros.

Definition ICoreWebView2_5_COBJMACROS : list cmacro :=
   ICoreWebView2_5_COBJMACROS_part1 ++ ICoreWebView2_5_COBJMACROS_part2.

Definition ICoreWebView2_6_COBJMACROS_part1 : list cmacro := IUnknown_macros ++ ICoreWebView2_macros1.

Definition ICoreWebView2_6_COBJMACROS_part2 : list cmacro :=
   ICoreWebView2_macros2 ++ ICoreWebView2_2_macros ++ ICoreWebView2_3_macros ++ ICoreWebView2_4_macros ++
   ICoreWebView2_5_macros ++ ICoreWebView2_6_macros.

Definition ICoreWebView2_6_COBJMACROS : list cmacro :=
   ICoreWebView2_6_COBJMACROS_part1 ++ ICoreWebView2_6_COBJMACROS_part2.

Definition ICoreWebView2_7_COBJMACROS_part1 : list cmacro := IUnknown_macros ++ ICoreWebView2_macros1.

Definition ICoreWebView2_7_COBJMACROS_part2 : list cmacro :=
   ICoreWebView2_macros2 ++ ICoreWebView2_2_macros ++ ICoreWebView2_3_macros ++ ICoreWebView2_4_macros ++
   ICoreWebView2_5_macros ++ ICoreWebView2_6_macros ++ ICoreWebView2_7_macros.

Definition ICoreWebView2_7_COBJMACROS : list cmacro :=
   ICoreWebView2_7_COBJMACROS_part1 ++ ICoreWebView2_7_COBJMACROS_part2.

Definition ICoreWebView2_8_COBJMACROS_part1 : list cmacro := IUnknown_macros ++ ICoreWebView2_macros1.

Definition ICoreWebView2_8_COBJMACROS_part2 : list cmacro :=
   ICoreWebView2_macros2 ++ ICoreWebView2_2_macros ++ ICoreWebView2_3_macros ++ ICoreWebView2_4_macros ++
   ICoreWebView2_5_macros ++ ICoreWebView2_6_macros ++ ICoreWebView2_7_macros.

Definition ICoreWebView2_8_COBJMACROS_part3 : list cmacro := ICoreWebView2_8_macros.

Definition ICoreWebView2_8_COBJMACROS : list cmacro :=
   ICoreWebView2_8_COBJMACROS_part1 ++ ICoreWebView2_8_COBJMACROS_part2 ++ ICoreWebView2_8_COBJMACROS_part3.

Definition ICoreWebView2_9_COBJMACROS_part1 : list cmacro := IUnknown_macros ++ ICoreWebView2_macros1.

Definition ICoreWebView2_9_COBJMACROS_part2 : list cmacro :=
   ICoreWebView2_macros2 ++ ICoreWebView2_2_macros ++ ICoreWebView2_3_macros ++ ICoreWebView2_4_macros ++
   ICoreWebView2_5_macros ++ ICoreWebView2_6_macros ++ ICoreWebView2_7_macros.

Definition ICoreWebView2_9_COBJMACROS_part3 : list cmacro := ICoreWebView2_8_macros ++ ICoreWebView2_9_macros.

Definition ICoreWebView2_9_COBJMACROS : list cmacro :=
   ICoreWebView2_9_COBJMACROS_part1 ++ ICoreWebView2_9_COBJMACROS_part2 ++ ICoreWebView2_9_COBJMACROS_part3.

Definition ICoreWebView2_10_COBJMACROS_part1 : list cmacro := IUnknown_macros ++ ICoreWebView2_macros1.

Definition ICoreWebView2_10_COBJMACROS_part2 : list cmacro :=
   ICoreWebView2_macros2 ++ ICoreWebView2_2_macros ++ ICoreWebView2_3_macros ++ ICoreWebView2_4_macros ++
   ICoreWebView2_5_macros ++ ICoreWebView2_6_macros ++ ICoreWebView2_7_macros.

Definition ICoreWebView2_10_COBJMACROS_part3 : list cmacro :=
   ICoreWebView2_8_macros ++ ICoreWebView2_9_macros ++ ICoreWebView2_10_macros.

Definition ICoreWebView2_10_COBJMACROS : list cmacro :=
   ICoreWebView2_10_COBJMACROS_part1 ++ ICoreWebView2_10_COBJMACROS_part2 ++
   ICoreWebView2_10_COBJMACROS_part3.

Definition ICoreWebView2_11_COBJMACROS_part1 : list cmacro := IUnknown_macros ++ ICoreWebView2_macros1.

Definition ICoreWebView2_11_COBJMACROS_part2 : list cmacro :=
   ICoreWebView2_macros2 ++ ICoreWebView2_2_macros ++ ICoreWebView2_3_macros ++ ICoreWebView2_4_macros ++
   ICoreWebView2_5_macros ++ ICoreWebView2_6_macros ++ ICoreWebView2_7_macros.

Definition ICoreWebView2_11_COBJMACROS_part3 : list cmacro :=
   ICoreWebView2_8_macros ++ ICoreWebView2_9_macros ++ ICoreWebView2_10_macros ++ ICoreWebView2_11_macros.

Definition ICoreWebView2_11_COBJMACROS : list cmacro :=
   ICoreWebView2_11_COBJMACROS_part1 ++ ICoreWebView2_11_COBJMACROS_part2 ++
   ICoreWebView2_11_COBJMACROS_part3.

Definition ICoreWebView2_12_COBJMACROS_part1 : list cmacro := IUnknown_macros ++ ICoreWebView2_macros1.

Definition ICoreWebView2_12_COBJMACROS_part2 : list cmacro :=
   ICoreWebView2_macros2 ++ ICoreWebView2_2_macros ++ ICoreWebView2_3_macros ++ ICoreWebView2_4_macros ++
   ICoreWebView2_5_macros ++ ICoreWebView2_6_macros ++ ICoreWebView2_7_macros.

Definition ICoreWebView2_12_COBJMACROS_part3 : list cmacro :=
   ICoreWebView2_8_macros ++ ICoreWebView2_9_macros ++ ICoreWebView2_10_macros ++
   ICoreWebView2_11_macros ++ ICoreWebView2_12_macros.

Definition ICoreWebView2_12_COBJMACROS : list cmacro :=
   ICoreWebView2_12_COBJMACROS_part1 ++ ICoreWebView2_12_COBJMACROS_part2 ++
   ICoreWebView2_12_COBJMACROS_part3.

Definition ICoreWebView2_13_COBJMACROS_part1 : list cmacro := IUnknown_macros ++ ICoreWebView2_macros1.

Definition ICoreWebView2_13_COBJMACROS_part2 : list cmacro :=
   ICoreWebView2_macros2 ++ ICoreWebView2_2_macros ++ ICoreWebView2_3_macros ++ ICoreWebView2_4_macros ++
   ICoreWebView2_5_macros ++ ICoreWebView2_6_macros ++ ICoreWebView2_7_macros.

Definition ICoreWebView2_13_COBJMACROS_part3 : list cmacro :=
   ICoreWebView2_8_macros ++ ICoreWebView2_9_macros ++ ICoreWebView2_10_macros ++
   ICoreWebView2_11_macros ++ ICoreWebView2_12_macros ++ ICoreWebView2_13_macros.

Definition ICoreWebView2_13_COBJMACROS : list cmacro :=
   ICoreWebView2_13_COBJMACROS_part1 ++ ICoreWebView2_13_COBJMACROS_part2 ++
   ICoreWebView2_13_COBJMACROS_part3.

Definition ICoreWebView2_14_COBJMACROS_part1 : list cmacro := IUnknown_macros ++ ICoreWebView2_macros1.

Definition ICoreWebView2_14_COBJMACROS_part2 : list cmacro :=
   ICoreWebView2_macros2 ++ ICoreWebView2_2_macros ++ ICoreWebView2_3_macros ++ ICoreWebView2_4_macros ++
   ICoreWebView2_5_macros ++ ICoreWebView2_6_macros ++ ICoreWebView2_7_macros.

Definition ICoreWebView2_14_COBJMACROS_part3 : list cmacro :=
   ICoreWebView2_8_macros ++ ICoreWebView2_9_macros ++ ICoreWebView2_10_macros ++
   ICoreWebView2_11_macros ++ ICoreWebView2_12_macros ++ ICoreWebView2_13_macros ++ ICoreWebView2_14_macros.

Definition ICoreWebView2_14_COBJMACROS : list cmacro :=
   ICoreWebView2_14_COBJMACROS_part1 ++ ICoreWebView2_14_COBJMACROS_part2 ++
   ICoreWebView2_14_COBJMACROS_part3.

Definition ICoreWebView2_15_COBJMACROS_part1 : list cmacro := IUnknown_macros ++ ICoreWebView2_macros1.

Definition ICoreWebView2_15_COBJMACROS_part2 : list cmacro :=
   ICoreWebView2_macros2 ++ ICoreWebView2_2_macros ++ ICoreWebView2_3_macros ++ ICoreWebView2_4_macros ++
   ICoreWebView2_5_macros ++ ICoreWebView2_6_macros ++ ICoreWebView2_7_macros.

Definition ICoreWebView2_15_COBJMACROS_part3 : list cmacro :=
   ICoreWebView2_8_macros ++ ICoreWebView2_9_macros ++ ICoreWebView2_10_macros ++
   ICoreWebView2_11_macros ++ ICoreWebView2_12_macros ++ ICoreWebView2_13_macros ++
   ICoreWebView2_14_macros ++ ICoreWebView2_15_macros.

Definition ICoreWebView2_15_COBJMACROS : list cmacro :=
   ICoreWebView2_15_COBJMACROS_part1 ++ ICoreWebView2_15_COBJMACROS_part2 ++
   ICoreWebView2_15_COBJMACROS_part3.

Definition ICoreWebView2_16_COBJMACROS_part1 : list cmacro := IUnknown_macros ++ ICoreWebView2_macros1.

Definition ICoreWebView2_16_COBJMACROS_part2 : list cmacro :=
   ICoreWebView2_macros2 ++ ICoreWebView2_2_macros ++ ICoreWebView2_3_macros ++ ICoreWebView2_4_macros ++
   ICoreWebView2_5_macros ++ ICoreWebView2_6_macros ++ ICoreWebView2_7_macros.

Definition ICoreWebView2_16_COBJMACROS_part3 : list cmacro :=
   ICoreWebView2_8_macros ++ ICoreWebView2_9_macros ++ ICoreWebView2_10_macros ++
   ICoreWebView2_11_macros ++ ICoreWebView2_12_macros ++ ICoreWebView2_13_macros ++
   ICoreWebView2_14_macros ++ ICoreWebView2_15_macros ++ ICoreWebView2_16_macros.

Definition ICoreWebView2_16_COBJMACROS : list cmacro :=
   ICoreWebView2_16_COBJMACROS_part1 ++ ICoreWebView2_16_COBJMACROS_part2 ++
   ICoreWebView2_16_COBJMACROS_part3.

Definition ICoreWebView2_17_COBJMACROS_part1 : list cmacro := IUnknown_macros ++ ICoreWebView2_macros1.

Definition ICoreWebView2_17_COBJMACROS_part2 : list cmacro :=
   ICoreWebView2_macros2 ++ ICoreWebView2_2_macros ++ ICoreWebView2_3_macros ++ ICoreWebView2_4_macros ++
   ICoreWebView2_5_macros ++ ICoreWebView2_6_macros ++ ICoreWebView2_7_macros.

Definition ICoreWebView2_17_COBJMACROS_part3 : list cmacro :=
   ICoreWebView2_8_macros ++ ICoreWebView2_9_macros ++ ICoreWebView2_10_macros ++
   ICoreWebView2_11_macros ++ ICoreWebView2_12_macros ++ ICoreWebView2_13_macros ++
   ICoreWebView2_14_macros ++ ICoreWebView2_15_macros ++ ICoreWebView2_16_macros ++ ICoreWebView2_17_macros.

Definition ICoreWebView2_17_COBJMACROS : list cmacro :=
   ICoreWebView2_17_COBJMACROS_part1 ++ ICoreWebView2_17_COBJMACROS_part2 ++
   ICoreWebView2_17_COBJMACROS_part3.

Definition ICoreWebView2_18_COBJMACROS_part1 : list cmacro := IUnknown_macros ++ ICoreWebView2_macros1.

Definition ICoreWebView2_18_COBJMACROS_part2 : list cmacro :=
   ICoreWebView2_macros2 ++ ICoreWebView2_2_macros ++ ICoreWebView2_3_macros ++ ICoreWebView2_4_macros ++
   ICoreWebView2_5_macros ++ ICoreWebView2_6_macros ++ ICoreWebView2_7_macros.

Definition ICoreWebView2_18_COBJMACROS_part3 : list cmacro :=
   ICoreWebView2_8_macros ++ ICoreWebView2_9_macros ++ ICoreWebView2_10_macros ++
   ICoreWebView2_11_macros ++ ICoreWebView2_12_macros ++ ICoreWebView2_13_macros ++
   ICoreWebView2_14_macros ++ ICoreWebView2_15_macros ++ ICoreWebView2_16_macros ++
   ICoreWebView2_17_macros ++ ICoreWebView2_18_macros.

Definition ICoreWebView2_18_COBJMACROS : list cmacro :=
   ICoreWebView2_18_COBJMACROS_part1 ++ ICoreWebView2_18_COBJMACROS_part2 ++
   ICoreWebView2_18_COBJMACROS_part3.

Definition ICoreWebView2_19_COBJMACROS_part1 : list cmacro := IUnknown_macros ++ ICoreWebView2_macros1.

Definition ICoreWebView2_19_COBJMACROS_part2 : list cmacro :=
   ICoreWebView2_macros2 ++ ICoreWebView2_2_macros ++ ICoreWebView2_3_macros ++ ICoreWebView2_4_macros ++
   ICoreWebView2_5_macros ++ ICoreWebView2_6_macros ++ ICoreWebView2_7_macros.

Definition ICoreWebView2_19_COBJMACROS_part3 : list cmacro :=
   ICoreWebView2_8_macros ++ ICoreWebView2_9_macros ++ ICoreWebView2_10_macros ++
   ICoreWebView2_11_macros ++ ICoreWebView2_12_macros ++ ICoreWebView2_13_macros ++
   ICoreWebView2_14_macros ++ ICoreWebView2_15_macros ++ ICoreWebView2_16_macros ++
   ICoreWebView2_17_macros ++ ICoreWebView2_18_macros ++ ICoreWebView2_19_macros.

Definition ICoreWebView2_19_COBJMACROS : list cmacro :=
   ICoreWebView2_19_COBJMACROS_part1 ++ ICoreWebView2_19_COBJMACROS_part2 ++
   ICoreWebView2_19_COBJMACROS_part3.

Definition ICoreWebView2_20_COBJMACROS_part1 : list cmacro := IUnknown_macros ++ ICoreWebView2_macros1.

Definition ICoreWebView2_20_COBJMACROS_part2 : list cmacro :=
   ICoreWebView2_macros2 ++ ICoreWebView2_2_macros ++ ICoreWebView2_3_macros ++ ICoreWebView2_4_macros ++
   ICoreWebView2_5_macros ++ ICoreWebView2_6_macros ++ ICoreWebView2_7_macros.

Definition ICoreWebView2_20_COBJMACROS_part3 : list cmacro :=
   ICoreWebView2_8_macros ++ ICoreWebView2_9_macros ++ ICoreWebView2_10_macros ++
   ICoreWebView2_11_macros ++ ICoreWebView2_12_macros ++ ICoreWebView2_13_macros ++
   ICoreWebView2_14_macros ++ ICoreWebView2_15_macros ++ ICoreWebView2_16_macros ++
   ICoreWebView2_17_macros ++ ICoreWebView2_18_macros ++ ICoreWebView2_19_macros ++ ICoreWebView2_20_macros.

Definition ICoreWebView2_20_COBJMACROS : list cmacro :=
   ICoreWebView2_20_COBJMACROS_part1 ++ ICoreWebView2_20_COBJMACROS_part2 ++
   ICoreWebView2_20_COBJMACROS_part3.

Definition ICoreWebView2_21_COBJMACROS_part1 : list cmacro := IUnknown_macros ++ ICoreWebView2_macros1.

Definition ICoreWebView2_21_COBJMACROS_part2 : list cmacro :=
   ICoreWebView2_macros2 ++ ICoreWebView2_2_macros ++ ICoreWebView2_3_macros ++ ICoreWebView2_4_macros ++
   ICoreWebView2_5_macros ++ ICoreWebView2_6_macros ++ ICoreWebView2_7_macros.

Definition ICoreWebView2_21_COBJMACROS_part3 : list cmacro :=
   ICoreWebView2_8_macros ++ ICoreWebView2_9_macros ++ ICoreWebView2_10_macros ++
   ICoreWebView2_11_macros ++ ICoreWebView2_12_macros ++ ICoreWebView2_13_macros ++
   ICoreWebView2_14_macros ++ ICoreWebView2_15_macros ++ ICoreWebView2_16_macros ++
   ICoreWebView2_17_macros ++ ICoreWebView2_18_macros ++ ICoreWebView2_19_macros ++
   ICoreWebView2_20_macros ++ ICoreWebView2_21_macros.

Definition ICoreWebView2_21_COBJMACROS : list cmacro :=
   ICoreWebView2_21_COBJMACROS_part1 ++ ICoreWebView2_21_COBJMACROS_part2 ++
   ICoreWebView2_21_COBJMACROS_part3.

Definition ICoreWebView2_22_COBJMACROS_part1 : list cmacro := IUnknown_macros ++ ICoreWebView2_macros1.

Definition ICoreWebView2_22_COBJMACROS_part2 : list cmacro :=
   ICoreWebView2_macros2 ++ ICoreWebView2_2_macros ++ ICoreWebView2_3_macros ++ ICoreWebView2_4_macros ++
   ICoreWebView2_5_macros ++ ICoreWebView2_6_macros ++ ICoreWebView2_7_macros.

Definition ICoreWebView2_22_COBJMACROS_part3 : list cmacro :=
   ICoreWebView2_8_macros ++ ICoreWebView2_9_macros ++ ICoreWebView2_10_macros ++
   ICoreWebView2_11_macros ++ ICoreWebView2_12_macros ++ ICoreWebView2_13_macros ++
   ICoreWebView2_14_macros ++ ICoreWebView2_15_macros ++ ICoreWebView2_16_macros ++
   ICoreWebView2_17_macros ++ ICoreWebView2_18_macros ++ ICoreWebView2_19_macros ++
   ICoreWebView2_20_macros ++ ICoreWebView2_21_macros ++ ICoreWebView2_22_macros.

Definition ICoreWebView2_22_COBJMACROS : list cmacro :=
   ICoreWebView2_22_COBJMACROS_part1 ++ ICoreWebView2_22_COBJMACROS_part2 ++
   ICoreWebView2_22_COBJMACROS_part3.

Definition ICoreWebView2BasicAuthenticationRequestedEventArgs_COBJMACROS : list cmacro :=
   IUnknown_macros ++ ICoreWebView2BasicAuthenticationRequestedEventArgs_macros.

Definition ICoreWebView2BasicAuthenticationRequestedEventHandler_COBJMACROS : list cmacro :=
   IUnknown_macros ++ ICoreWebView2BasicAuthenticationRequestedEventHandler_macros.

Definition ICoreWebView2BasicAuthenticationResponse_COBJMACROS : list cmacro :=
   IUnknown_macros ++ ICoreWebView2BasicAuthenticationResponse_macros.

Definition ICoreWebView2BrowserProcessExitedEventArgs_COBJMACROS : list cmacro :=
   IUnknown_macros ++ ICoreWebView2BrowserProcessExitedEventArgs_macros.

Definition ICoreWebView2BrowserProcessExitedEventHandler_COBJMACROS : list cmacro :=
   IUnknown_macros ++ ICoreWebView2BrowserProcessExitedEventHandler_macros.

Definition ICoreWebView2BytesReceivedChangedEventHandler_COBJMACROS : list cmacro :=
   IUnknown_macros ++ ICoreWebView2BytesReceivedChangedEventHandler_macros.

Definition ICoreWebView2CompositionController_COBJMACROS : list cmacro :=
   IUnknown_macros ++ ICoreWebView2CompositionController_macros.

Definition ICoreWebView2CompositionController2_COBJMACROS : list cmacro :=
   IUnknown_macros ++ ICoreWebView2CompositionController_macros ++
   ICoreWebView2CompositionController2_macros.

Definition ICoreWebView2CompositionController3_COBJMACROS : list cmacro :=
   IUnknown_macros ++ ICoreWebView2CompositionController_macros ++
   ICoreWebView2CompositionController2_macros ++ ICoreWebView2CompositionController3_macros.

Definition ICoreWebView2Controller_COBJMACROS : list cmacro := IUnknown_macros ++ ICoreWebView2Controller_macros.

Definition ICoreWebView2Controller2_COBJMACROS : list cmacro :=
   IUnknown_macros ++ ICoreWebView2Controller_macros ++ ICoreWebView2Controller2_macros.

Definition ICoreWebView2Controller3_COBJMACROS : list cmacro :=
   IUnknown_macros ++ ICoreWebView2Controller_macros ++ ICoreWebView2Controller2_macros ++
   ICoreWebView2Controller3_macros.

Definition ICoreWebView2Controller4_COBJMACROS : list cmacro :=
   IUnknown_macros ++ ICoreWebView2Controller_macros ++ ICoreWebView2Controller2_macros ++
   ICoreWebView2Controller3_macros ++ ICoreWebView2Controller4_macros.

Definition ICoreWebView2ControllerOptions_COBJMACROS : list cmacro :=
   IUnknown_macros ++ ICoreWebView2ControllerOptions_macros.

Definition ICoreWebView2ControllerOptions2_COBJMACROS : list cmacro :=
   IUnknown_macros ++ ICoreWebView2ControllerOptions_macros ++ ICoreWebView2ControllerOptions2_macros.

Definition ICoreWebView2ContentLoadingEventArgs_COBJMACROS : list cmacro :=
   IUnknown_macros ++ ICoreWebView2ContentLoadingEventArgs_macros.

Definition ICoreWebView2ContentLoadingEventHandler_COBJMACROS : list cmacro :=
   IUnknown_macros ++ ICoreWebView2ContentLoadingEventHandler_macros.

Definition ICoreWebView2ContextMenuRequestedEventArgs_COBJMACROS : list cmacro :=
   IUnknown_macros ++ ICoreWebView2ContextMenuRequestedEventArgs_macros.

Definition ICoreWebView2ContextMenuRequestedEventHandler_COBJMACROS : list cmacro :=
   IUnknown_macros ++ ICoreWebView2ContextMenuRequestedEventHandler_macros.

Definition ICoreWebView2Cookie_COBJMACROS : list cmacro := IUnknown_macros ++ ICoreWebView2Cookie_macros.

Definition ICoreWebView2CookieList_COBJMACROS : list cmacro := IUnknown_macros ++ ICoreWebView2CookieList_macros.

Definition ICoreWebView2CookieManager_COBJMACROS : list cmacro :=
   IUnknown_macros ++ ICoreWebView2CookieManager_macros.

Definition ICoreWebView2Certificate_COBJMACROS : list cmacro :=
   IUnknown_macros ++ ICoreWebView2Certificate_macros.

Definition ICoreWebView2ClientCertificate_COBJMACROS : list cmacro :=
   IUnknown_macros ++ ICoreWebView2ClientCertificate_macros.

Definition ICoreWebView2StringCollection_COBJMACROS : list cmacro :=
   IUnknown_macros ++ ICoreWebView2StringCollection_macros.

Definition ICoreWebView2ClearBrowsingDataCompletedHandler_COBJMACROS : list cmacro :=
   IUnknown_macros ++ ICoreWebView2ClearBrowsingDataCompletedHandler_macros.

Definition ICoreWebView2ClientCertificateCollection_COBJMACROS : list cmacro :=
   IUnknown_macros ++ ICoreWebView2ClientCertificateCollection_macros.

Definition ICoreWebView2ClientCertificateRequestedEventArgs_COBJMACROS : list cmacro :=
   IUnknown_macros ++ ICoreWebView2ClientCertificateRequestedEventArgs_macros.

Definition ICoreWebView2ClientCertificateRequestedEventHandler_COBJMACROS : list cmacro :=
   IUnknown_macros ++ ICoreWebView2ClientCertificateRequestedEventHandler_macros.

Definition ICoreWebView2ContextMenuItem_COBJMACROS : list cmacro :=
   IUnknown_macros ++ ICoreWebView2ContextMenuItem_macros.

Definition ICoreWebView2ContextMenuItemCollection_COBJMACROS : list cmacro :=
   IUnknown_macros ++ ICoreWebView2ContextMenuItemCollection_macros.

Definition ICoreWebView2ContextMenuTarget_COBJMACROS : list cmacro :=
   IUnknown_macros ++ ICoreWebView2ContextMenuTarget_macros.

Definition ICoreWebView2ClearServerCertificateErrorActionsCompletedHandler_COBJMACROS : list cmacro :=
   IUnknown_macros ++ ICoreWebView2ClearServerCertificateErrorActionsCompletedHandler_macros.

Definition ICoreWebView2CreateCoreWebView2CompositionControllerCompletedHandler_COBJMACROS : list cmacro :=
   IUnknown_macros ++ ICoreWebView2CreateCoreWebView2CompositionControllerCompletedHandler_macros.

Definition ICoreWebView2CreateCoreWebView2ControllerCompletedHandler_COBJMACROS : list cmacro :=
   IUnknown_macros ++ ICoreWebView2CreateCoreWebView2ControllerCompletedHandler_macros.

Definition ICoreWebView2CreateCoreWebView2EnvironmentCompletedHandler_COBJMACROS : list cmacro :=
   IUnknown_macros ++ ICoreWebView2CreateCoreWebView2EnvironmentCompletedHandler_macros.

Definition ICoreWebView2ContainsFullScreenElementChangedEventHandler_COBJMACROS : list cmacro :=
   IUnknown_macros ++ ICoreWebView2ContainsFullScreenElementChangedEventHandler_macros.

Definition ICoreWebView2CursorChangedEventHandler_COBJMACROS : list cmacro :=
   IUnknown_macros ++ ICoreWebView2CursorChangedEventHandler_macros.

Definition ICoreWebView2CustomItemSelectedEventHandler_COBJMACROS : list cmacro :=
   IUnknown_macros ++ ICoreWebView2CustomItemSelectedEventHandler_macros.

Definition ICoreWebView2CustomSchemeRegistration_COBJMACROS : list cmacro :=
   IUnknown_macros ++ ICoreWebView2CustomSchemeRegistration_macros.

Definition ICoreWebView2DocumentTitleChangedEventHandler_COBJMACROS : list cmacro :=
   IUnknown_macros ++ ICoreWebView2DocumentTitleChangedEventHandler_macros.

Definition ICoreWebView2DOMContentLoadedEventArgs_COBJMACROS : list cmacro :=
   IUnknown_macros ++ ICoreWebView2DOMContentLoadedEventArgs_macros.

Definition ICoreWebView2DOMContentLoadedEventHandler_COBJMACROS : list cmacro :=
   IUnknown_macros ++ ICoreWebView2DOMContentLoadedEventHandler_macros.

Definition ICoreWebView2Deferral_COBJMACROS : list cmacro := IUnknown_macros ++ ICoreWebView2Deferral_macros.

Definition ICoreWebView2DevToolsProtocolEventReceivedEventArgs_COBJMACROS : list cmacro :=
   IUnknown_macros ++ ICoreWebView2DevToolsProtocolEventReceivedEventArgs_macros.

Definition ICoreWebView2DevToolsProtocolEventReceivedEventArgs2_COBJMACROS : list cmacro :=
   IUnknown_macros ++ ICoreWebView2DevToolsProtocolEventReceivedEventArgs_macros ++
   ICoreWebView2DevToolsProtocolEventReceivedEventArgs2_macros.

Definition ICoreWebView2DevToolsProtocolEventReceivedEventHandler_COBJMACROS : list cmacro :=
   IUnknown_macros ++ ICoreWebView2DevToolsProtocolEventReceivedEventHandler_macros.

Definition ICoreWebView2DevToolsProtocolEventReceiver_COBJMACROS : list cmacro :=
   IUnknown_macros ++ ICoreWebView2DevToolsProtocolEventReceiver_macros.

Definition ICoreWebView2DownloadOperation_COBJMACROS : list cmacro :=
   IUnknown_macros ++ ICoreWebView2DownloadOperation_macros.

Definition ICoreWebView2DownloadStartingEventArgs_COBJMACROS : list cmacro :=
   IUnknown_macros ++ ICoreWebView2DownloadStartingEventArgs_macros.

Definition ICoreWebView2DownloadStartingEventHandler_COBJMACROS : list cmacro :=
   IUnknown_macros ++ ICoreWebView2DownloadStartingEventHandler_macros.

Definition ICoreWebView2Environment_COBJMACROS : list cmacro :=
   IUnknown_macros ++ ICoreWebView2Environment_macros.

Definition ICoreWebView2Environment2_COBJMACROS : list cmacro :=
   IUnknown_macros ++ ICoreWebView2Environment_macros ++ ICoreWebView2Environment2_macros.

Definition ICoreWebView2Environment3_COBJMACROS : list cmacro :=
   IUnknown_macros ++ ICoreWebView2Environment_macros ++ ICoreWebView2Environment2_macros ++
   ICoreWebView2Environment3_macros.

Definition ICoreWebView2Environment4_COBJMACROS : list cmacro :=
   IUnknown_macros ++ ICoreWebView2Environment_macros ++ ICoreWebView2Environment2_macros ++
   ICoreWebView2Environment3_macros ++ ICoreWebView2Environment4_macros.

Definition ICoreWebView2Environment5_COBJMACROS : list cmacro :=
   IUnknown_macros ++ ICoreWebView2Environment_macros ++ ICoreWebView2Environment2_macros ++
   ICoreWebView2Environment3_macros ++ ICoreWebView2Environment4_macros ++ ICoreWebView2Environment5_macros.

Definition ICoreWebView2Environment6_COBJMACROS : list cmacro :=
   IUnknown_macros ++ ICoreWebView2Environment_macros ++ ICoreWebView2Environment2_macros ++
   ICoreWebView2Environment3_macros ++ ICoreWebView2Environment4_macros ++
   ICoreWebView2Environment5_macros ++ ICoreWebView2Environment6_macros.

Definition ICoreWebView2Environment7_COBJMACROS : list cmacro :=
   IUnknown_macros ++ ICoreWebView2Environment_macros ++ ICoreWebView2Environment2_macros ++
   ICoreWebView2Environment3_macros ++ ICoreWebView2Environment4_macros ++
   ICoreWebView2Environment5_macros ++ ICoreWebView2Environment6_macros ++ ICoreWebView2Environment7_macros.

Definition ICoreWebView2Environment8_COBJMACROS : list cmacro :=
   IUnknown_macros ++ ICoreWebView2Environment_macros ++ ICoreWebView2Environment2_macros ++
   ICoreWebView2Environment3_macros ++ ICoreWebView2Environment4_macros ++
   ICoreWebView2Environment5_macros ++ ICoreWebView2Environment6_macros ++
   ICoreWebView2Environment7_macros ++ ICoreWebView2Environment8_macros.

Definition ICoreWebView2Environment9_COBJMACROS : list cmacro :=
   IUnknown_macros ++ ICoreWebView2Environment_macros ++ ICoreWebView2Environment2_macros ++
   ICoreWebView2Environment3_macros ++ ICoreWebView2Environment4_macros ++
   ICoreWebView2Environment5_macros ++ ICoreWebView2Environment6_macros ++
   ICoreWebView2Environment7_macros ++ ICoreWebView2Environment8_macros ++ ICoreWebView2Environment9_macros.

Definition ICoreWebView2Environment10_COBJMACROS : list cmacro :=
   IUnknown_macros ++ ICoreWebView2Environment_macros ++ ICoreWebView2Environment2_macros ++
   ICoreWebView2Environment3_macros ++ ICoreWebView2Environment4_macros ++
   ICoreWebView2Environment5_macros ++ ICoreWebView2Environment6_macros ++
   ICoreWebView2Environment7_macros ++ ICoreWebView2Environment8_macros ++
   ICoreWebView2Environment9_macros ++ ICoreWebView2Environment10_macros.

Definition ICoreWebView2Environment11_COBJMACROS : list cmacro :=
   IUnknown_macros ++ ICoreWebView2Environment_macros ++ ICoreWebView2Environment2_macros ++
   ICoreWebView2Environment3_macros ++ ICoreWebView2Environment4_macros ++
   ICoreWebView2Environment5_macros ++ ICoreWebView2Environment6_macros ++
   ICoreWebView2Environment7_macros ++ ICoreWebView2Environment8_macros ++
   ICoreWebView2Environment9_macros ++ ICoreWebView2Environment10_macros ++
   ICoreWebView2Environment11_macros.

Definition ICoreWebView2Environment12_COBJMACROS : list cmacro :=
   IUnknown_macros ++ ICoreWebView2Environment_macros ++ ICoreWebView2Environment2_macros ++
   ICoreWebView2Environment3_macros ++ ICoreWebView2Environment4_macros ++
   ICoreWebView2Environment5_macros ++ ICoreWebView2Environment6_macros ++
   ICoreWebView2Environment7_macros ++ ICoreWebView2Environment8_macros ++
   ICoreWebView2Environment9_macros ++ ICoreWebView2Environment10_macros ++
   ICoreWebView2Environment11_macros ++ ICoreWebView2Environment12_macros.

Definition ICoreWebView2Environment13_COBJMACROS : list cmacro :=
   IUnknown_macros ++ ICoreWebView2Environment_macros ++ ICoreWebView2Environment2_macros ++
   ICoreWebView2Environment3_macros ++ ICoreWebView2Environment4_macros ++
   ICoreWebView2Environment5_macros ++ ICoreWebView2Environment6_macros ++
   ICoreWebView2Environment7_macros ++ ICoreWebView2Environment8_macros ++
   ICoreWebView2Environment9_macros ++ ICoreWebView2Environment10_macros ++
   ICoreWebView2Environment11_macros ++ ICoreWebView2Environment12_macros ++
   ICoreWebView2Environment13_macros.

Definition ICoreWebView2EnvironmentOptions_COBJMACROS : list cmacro :=
   IUnknown_macros ++ ICoreWebView2EnvironmentOptions_macros.

Definition ICoreWebView2EnvironmentOptions2_COBJMACROS : list cmacro :=
   IUnknown_macros ++ ICoreWebView2EnvironmentOptions2_macros.

Definition ICoreWebView2EnvironmentOptions3_COBJMACROS : list cmacro :=
   IUnknown_macros ++ ICoreWebView2EnvironmentOptions3_macros.

Definition ICoreWebView2EnvironmentOptions4_COBJMACROS : list cmacro :=
   IUnknown_macros ++ ICoreWebView2EnvironmentOptions4_macros.

Definition ICoreWebView2EnvironmentOptions5_COBJMACROS : list cmacro :=
   IUnknown_macros ++ ICoreWebView2EnvironmentOptions5_macros.

Definition ICoreWebView2EnvironmentOptions6_COBJMACROS : list cmacro :=
   IUnknown_macros ++ ICoreWebView2EnvironmentOptions6_macros.

Definition ICoreWebView2EstimatedEndTimeChangedEventHandler_COBJMACROS : list cmacro :=
   IUnknown_macros ++ ICoreWebView2EstimatedEndTimeChangedEventHandler_macros.

Definition ICoreWebView2ExecuteScriptCompletedHandler_COBJMACROS : list cmacro :=
   IUnknown_macros ++ ICoreWebView2ExecuteScriptCompletedHandler_macros.

Definition ICoreWebView2GetProcessExtendedInfosCompletedHandler_COBJMACROS : list cmacro :=
   IUnknown_macros ++ ICoreWebView2GetProcessExtendedInfosCompletedHandler_macros.

Definition ICoreWebView2ProcessExtendedInfo_COBJMACROS : list cmacro :=
   IUnknown_macros ++ ICoreWebView2ProcessExtendedInfo_macros.

Definition ICoreWebView2ProcessExtendedInfoCollection_COBJMACROS : list cmacro :=
   IUnknown_macros ++ ICoreWebView2ProcessExtendedInfoCollection_macros.

Definition ICoreWebView2Frame_COBJMACROS : list cmacro := IUnknown_macros ++ ICoreWebView2Frame_macros.

Definition ICoreWebView2Frame2_COBJMACROS : list cmacro :=
   IUnknown_macros ++ ICoreWebView2Frame_macros ++ ICoreWebView2Frame2_macros.

Definition ICoreWebView2Frame3_COBJMACROS : list cmacro :=
   IUnknown_macros ++ ICoreWebView2Frame_macros ++ ICoreWebView2Frame2_macros ++ ICoreWebView2Frame3_macros.

Definition ICoreWebView2Frame4_COBJMACROS : list cmacro :=
   IUnknown_macros ++ ICoreWebView2Frame_macros ++ ICoreWebView2Frame2_macros ++
   ICoreWebView2Frame3_macros ++ ICoreWebView2Frame4_macros.

Definition ICoreWebView2Frame5_COBJMACROS : list cmacro :=
   IUnknown_macros ++ ICoreWebView2Frame_macros ++ ICoreWebView2Frame2_macros ++
   ICoreWebView2Frame3_macros ++ ICoreWebView2Frame4_macros ++ ICoreWebView2Frame5_macros.

Definition ICoreWebView2FrameContentLoadingEventHandler_COBJMACROS : list cmacro :=
   IUnknown_macros ++ ICoreWebView2FrameContentLoadingEventHandler_macros.

Definition ICoreWebView2FrameCreatedEventArgs_COBJMACROS : list cmacro :=
   IUnknown_macros ++ ICoreWebView2FrameCreatedEventArgs_macros.

Definition ICoreWebView2FrameCreatedEventHandler_COBJMACROS : list cmacro :=
   IUnknown_macros ++ ICoreWebView2FrameCreatedEventHandler_macros.

Definition ICoreWebView2FrameDestroyedEventHandler_COBJMACROS : list cmacro :=
   IUnknown_macros ++ ICoreWebView2FrameDestroyedEventHandler_macros.

Definition ICoreWebView2FrameDOMContentLoadedEventHandler_COBJMACROS : list cmacro :=
   IUnknown_macros ++ ICoreWebView2FrameDOMContentLoadedEventHandler_macros.

Definition ICoreWebView2FrameNameChangedEventHandler_COBJMACROS : list cmacro :=
   IUnknown_macros ++ ICoreWebView2FrameNameChangedEventHandler_macros.

Definition ICoreWebView2FrameNavigationCompletedEventHandler_COBJMACROS : list cmacro :=
   IUnknown_macros ++ ICoreWebView2FrameNavigationCompletedEventHandler_macros.

Definition ICoreWebView2FrameNavigationStartingEventHandler_COBJMACROS : list cmacro :=
   IUnknown_macros ++ ICoreWebView2FrameNavigationStartingEventHandler_macros.

Definition ICoreWebView2FramePermissionRequestedEventHandler_COBJMACROS : list cmacro :=
   IUnknown_macros ++ ICoreWebView2FramePermissionRequestedEventHandler_macros.

Definition ICoreWebView2FrameWebMessageReceivedEventHandler_COBJMACROS : list cmacro :=
   IUnknown_macros ++ ICoreWebView2FrameWebMessageReceivedEventHandler_macros.

Definition ICoreWebView2FrameInfo_COBJMACROS : list cmacro := IUnknown_macros ++ ICoreWebView2FrameInfo_macros.

Definition ICoreWebView2FrameInfo2_COBJMACROS : list cmacro :=
   IUnknown_macros ++ ICoreWebView2FrameInfo_macros ++ ICoreWebView2FrameInfo2_macros.

Definition ICoreWebView2FrameInfoCollection_COBJMACROS : list cmacro :=
   IUnknown_macros ++ ICoreWebView2FrameInfoCollection_macros.

Definition ICoreWebView2FrameInfoCollectionIterator_COBJMACROS : list cmacro :=
   IUnknown_macros ++ ICoreWebView2FrameInfoCollectionIterator_macros.

Definition ICoreWebView2FocusChangedEventHandler_COBJMACROS : list cmacro :=
   IUnknown_macros ++ ICoreWebView2FocusChangedEventHandler_macros.

Definition ICoreWebView2GetCookiesCompletedHandler_COBJMACROS : list cmacro :=
   IUnknown_macros ++ ICoreWebView2GetCookiesCompletedHandler_macros.

Definition ICoreWebView2GetNonDefaultPermissionSettingsCompletedHandler_COBJMACROS : list cmacro :=
   IUnknown_macros ++ ICoreWebView2GetNonDefaultPermissionSettingsCompletedHandler_macros.

Definition ICoreWebView2HistoryChangedEventHandler_COBJMACROS : list cmacro :=
   IUnknown_macros ++ ICoreWebView2HistoryChangedEventHandler_macros.

Definition ICoreWebView2HttpHeadersCollectionIterator_COBJMACROS : list cmacro :=
   IUnknown_macros ++ ICoreWebView2HttpHeadersCollectionIterator_macros.

Definition ICoreWebView2HttpRequestHeaders_COBJMACROS : list cmacro :=
   IUnknown_macros ++ ICoreWebView2HttpRequestHeaders_macros.

Definition ICoreWebView2HttpResponseHeaders_COBJMACROS : list cmacro :=
   IUnknown_macros ++ ICoreWebView2HttpResponseHeaders_macros.

Definition ICoreWebView2IsDefaultDownloadDialogOpenChangedEventHandler_COBJMACROS : list cmacro :=
   IUnknown_macros ++ ICoreWebView2IsDefaultDownloadDialogOpenChangedEventHandler_macros.

Definition ICoreWebView2LaunchingExternalUriSchemeEventArgs_COBJMACROS : list cmacro :=
   IUnknown_macros ++ ICoreWebView2LaunchingExternalUriSchemeEventArgs_macros.

Definition ICoreWebView2LaunchingExternalUriSchemeEventHandler_COBJMACROS : list cmacro :=
   IUnknown_macros ++ ICoreWebView2LaunchingExternalUriSchemeEventHandler_macros.

Definition ICoreWebView2MoveFocusRequestedEventArgs_COBJMACROS : list cmacro :=
   IUnknown_macros ++ ICoreWebView2MoveFocusRequestedEventArgs_macros.

Definition ICoreWebView2MoveFocusRequestedEventHandler_COBJMACROS : list cmacro :=
   IUnknown_macros ++ ICoreWebView2MoveFocusRequestedEventHandler_macros.

Definition ICoreWebView2NavigationCompletedEventArgs_COBJMACROS : list cmacro :=
   IUnknown_macros ++ ICoreWebView2NavigationCompletedEventArgs_macros.

Definition ICoreWebView2NavigationCompletedEventArgs2_COBJMACROS : list cmacro :=
   IUnknown_macros ++ ICoreWebView2NavigationCompletedEventArgs_macros ++
   ICoreWebView2NavigationCompletedEventArgs2_macros.

Definition ICoreWebView2NavigationCompletedEventHandler_COBJMACROS : list cmacro :=
   IUnknown_macros ++ ICoreWebView2NavigationCompletedEventHandler_macros.

Definition ICoreWebView2NavigationStartingEventArgs_COBJMACROS : list cmacro :=
   IUnknown_macros ++ ICoreWebView2NavigationStartingEventArgs_macros.

Definition ICoreWebView2NavigationStartingEventArgs2_COBJMACROS : list cmacro :=
   IUnknown_macros ++ ICoreWebView2NavigationStartingEventArgs_macros ++
   ICoreWebView2NavigationStartingEventArgs2_macros.

Definition ICoreWebView2NavigationStartingEventArgs3_COBJMACROS : list cmacro :=
   IUnknown_macros ++ ICoreWebView2NavigationStartingEventArgs_macros ++
   ICoreWebView2NavigationStartingEventArgs2_macros ++ ICoreWebView2NavigationStartingEventArgs3_macros.

Definition ICoreWebView2NavigationStartingEventHandler_COBJMACROS : list cmacro :=
   IUnknown_macros ++ ICoreWebView2NavigationStartingEventHandler_macros.

Definition ICoreWebView2NewBrowserVersionAvailableEventHandler_COBJMACROS : list cmacro :=
   IUnknown_macros ++ ICoreWebView2NewBrowserVersionAvailableEventHandler_macros.

Definition ICoreWebView2NewWindowRequestedEventArgs_COBJMACROS : list cmacro :=
   IUnknown_macros ++ ICoreWebView2NewWindowRequestedEventArgs_macros.

Definition ICoreWebView2NewWindowRequestedEventArgs2_COBJMACROS : list cmacro :=
   IUnknown_macros ++ ICoreWebView2NewWindowRequestedEventArgs_macros ++
   ICoreWebView2NewWindowRequestedEventArgs2_macros.

Definition ICoreWebView2NewWindowRequestedEventArgs3_COBJMACROS : list cmacro :=
   IUnknown_macros ++ ICoreWebView2NewWindowRequestedEventArgs_macros ++
   ICoreWebView2NewWindowRequestedEventArgs2_macros ++ ICoreWebView2NewWindowRequestedEventArgs3_macros.

Definition ICoreWebView2NewWindowRequestedEventHandler_COBJMACROS : list cmacro :=
   IUnknown_macros ++ ICoreWebView2NewWindowRequestedEventHandler_macros.

Definition ICoreWebView2PermissionRequestedEventArgs_COBJMACROS : list cmacro :=
   IUnknown_macros ++ ICoreWebView2PermissionRequestedEventArgs_macros.

Definition ICoreWebView2PermissionRequestedEventArgs2_COBJMACROS : list cmacro :=
   IUnknown_macros ++ ICoreWebView2PermissionRequestedEventArgs_macros ++
   ICoreWebView2PermissionRequestedEventArgs2_macros.

Definition ICoreWebView2PermissionRequestedEventArgs3_COBJMACROS : list cmacro :=
   IUnknown_macros ++ ICoreWebView2PermissionRequestedEventArgs_macros ++
   ICoreWebView2PermissionRequestedEventArgs2_macros ++ ICoreWebView2PermissionRequestedEventArgs3_macros.

Definition ICoreWebView2PermissionRequestedEventHandler_COBJMACROS : list cmacro :=
   IUnknown_macros ++ ICoreWebView2PermissionRequestedEventHandler_macros.

Definition ICoreWebView2PermissionSettingCollectionView_COBJMACROS : list cmacro :=
   IUnknown_macros ++ ICoreWebView2PermissionSettingCollectionView_macros.

Definition ICoreWebView2PermissionSetting_COBJMACROS : list cmacro :=
   IUnknown_macros ++ ICoreWebView2PermissionSetting_macros.

Definition ICoreWebView2PointerInfo_COBJMACROS_part1 : list cmacro :=
   IUnknown_macros ++ ICoreWebView2PointerInfo_macros1.

Definition ICoreWebView2PointerInfo_COBJMACROS_part2 : list cmacro := ICoreWebView2PointerInfo_macros2.

Definition ICoreWebView2PointerInfo_COBJMACROS : list cmacro :=
   ICoreWebView2PointerInfo_COBJMACROS_part1 ++ ICoreWebView2PointerInfo_COBJMACROS_part2.

Definition ICoreWebView2PrintSettings_COBJMACROS : list cmacro :=
   IUnknown_macros ++ ICoreWebView2PrintSettings_macros.

Definition ICoreWebView2PrintSettings2_COBJMACROS : list cmacro :=
   IUnknown_macros ++ ICoreWebView2PrintSettings_macros ++ ICoreWebView2PrintSettings2_macros.

Definition ICoreWebView2PrintToPdfCompletedHandler_COBJMACROS : list cmacro :=
   IUnknown_macros ++ ICoreWebView2PrintToPdfCompletedHandler_macros.

Definition ICoreWebView2PrintCompletedHandler_COBJMACROS : list cmacro :=
   IUnknown_macros ++ ICoreWebView2PrintCompletedHandler_macros.

Definition ICoreWebView2PrintToPdfStreamCompletedHandler_COBJMACROS : list cmacro :=
   IUnknown_macros ++ ICoreWebView2PrintToPdfStreamCompletedHandler_macros.

Definition ICoreWebView2ProcessFailedEventArgs_COBJMACROS : list cmacro :=
   IUnknown_macros ++ ICoreWebView2ProcessFailedEventArgs_macros.

Definition ICoreWebView2ProcessFailedEventArgs2_COBJMACROS : list cmacro :=
   IUnknown_macros ++ ICoreWebView2ProcessFailedEventArgs_macros ++
   ICoreWebView2ProcessFailedEventArgs2_macros.

Definition ICoreWebView2ProcessFailedEventHandler_COBJMACROS : list cmacro :=
   IUnknown_macros ++ ICoreWebView2ProcessFailedEventHandler_macros.

Definition ICoreWebView2Profile_COBJMACROS : list cmacro := IUnknown_macros ++ ICoreWebView2Profile_macros.

Definition ICoreWebView2Profile2_COBJMACROS : list cmacro :=
   IUnknown_macros ++ ICoreWebView2Profile_macros ++ ICoreWebView2Profile2_macros.

Definition ICoreWebView2Profile3_COBJMACROS : list cmacro :=
   IUnknown_macros ++ ICoreWebView2Profile_macros ++ ICoreWebView2Profile2_macros ++
   ICoreWebView2Profile3_macros.

Definition ICoreWebView2Profile4_COBJMACROS : list cmacro :=
   IUnknown_macros ++ ICoreWebView2Profile_macros ++ ICoreWebView2Profile2_macros ++
   ICoreWebView2Profile3_macros ++ ICoreWebView2Profile4_macros.

Definition ICoreWebView2Profile5_COBJMACROS : list cmacro :=
   IUnknown_macros ++ ICoreWebView2Profile_macros ++ ICoreWebView2Profile2_macros ++
   ICoreWebView2Profile3_macros ++ ICoreWebView2Profile4_macros ++ ICoreWebView2Profile5_macros.

Definition ICoreWebView2Profile6_COBJMACROS : list cmacro :=
   IUnknown_macros ++ ICoreWebView2Profile_macros ++ ICoreWebView2Profile2_macros ++
   ICoreWebView2Profile3_macros ++ ICoreWebView2Profile4_macros ++ ICoreWebView2Profile5_macros ++
   ICoreWebView2Profile6_macros.

Definition ICoreWebView2Profile7_COBJMACROS : list cmacro :=
   IUnknown_macros ++ ICoreWebView2Profile_macros ++ ICoreWebView2Profile2_macros ++
   ICoreWebView2Profile3_macros ++ ICoreWebView2Profile4_macros ++ ICoreWebView2Profile5_macros ++
   ICoreWebView2Profile6_macros ++ ICoreWebView2Profile7_macros.

Definition ICoreWebView2Profile8_COBJMACROS : list cmacro :=
   IUnknown_macros ++ ICoreWebView2Profile_macros ++ ICoreWebView2Profile2_macros ++
   ICoreWebView2Profile3_macros ++ ICoreWebView2Profile4_macros ++ ICoreWebView2Profile5_macros ++
   ICoreWebView2Profile6_macros ++ ICoreWebView2Profile7_macros ++ ICoreWebView2Profile8_macros.

Definition ICoreWebView2ProfileDeletedEventHandler_COBJMACROS : list cmacro :=
   IUnknown_macros ++ ICoreWebView2ProfileDeletedEventHandler_macros.

Definition ICoreWebView2RasterizationScaleChangedEventHandler_COBJMACROS : list cmacro :=
   IUnknown_macros ++ ICoreWebView2RasterizationScaleChangedEventHandler_macros.

Definition ICoreWebView2ServerCertificateErrorDetectedEventArgs_COBJMACROS : list cmacro :=
   IUnknown_macros ++ ICoreWebView2ServerCertificateErrorDetectedEventArgs_macros.

Definition ICoreWebView2ServerCertificateErrorDetectedEventHandler_COBJMACROS : list cmacro :=
   IUnknown_macros ++ ICoreWebView2ServerCertificateErrorDetectedEventHandler_macros.

Definition ICoreWebView2SetPermissionStateCompletedHandler_COBJMACROS : list cmacro :=
   IUnknown_macros ++ ICoreWebView2SetPermissionStateCompletedHandler_macros.

Definition ICoreWebView2ScriptDialogOpeningEventArgs_COBJMACROS : list cmacro :=
   IUnknown_macros ++ ICoreWebView2ScriptDialogOpeningEventArgs_macros.

Definition ICoreWebView2ScriptDialogOpeningEventHandler_COBJMACROS : list cmacro :=
   IUnknown_macros ++ ICoreWebView2ScriptDialogOpeningEventHandler_macros.

Definition ICoreWebView2Settings_COBJMACROS : list cmacro := IUnknown_macros ++ ICoreWebView2Settings_macros.

Definition ICoreWebView2Settings2_COBJMACROS : list cmacro :=
   IUnknown_macros ++ ICoreWebView2Settings_macros ++ ICoreWebView2Settings2_macros.

Definition ICoreWebView2Settings3_COBJMACROS : list cmacro :=
   IUnknown_macros ++ ICoreWebView2Settings_macros ++ ICoreWebView2Settings2_macros ++
   ICoreWebView2Settings3_macros.

Definition ICoreWebView2Settings4_COBJMACROS : list cmacro :=
   IUnknown_macros ++ ICoreWebView2Settings_macros ++ ICoreWebView2Settings2_macros ++
   ICoreWebView2Settings3_macros ++ ICoreWebView2Settings4_macros.

Definition ICoreWebView2Settings5_COBJMACROS : list cmacro :=
   IUnknown_macros ++ ICoreWebView2Settings_macros ++ ICoreWebView2Settings2_macros ++
   ICoreWebView2Settings3_macros ++ ICoreWebView2Settings4_macros ++ ICoreWebView2Settings5_macros.

Definition ICoreWebView2Settings6_COBJMACROS : list cmacro :=
   IUnknown_macros ++ ICoreWebView2Settings_macros ++ ICoreWebView2Settings2_macros ++
   ICoreWebView2Settings3_macros ++ ICoreWebView2Settings4_macros ++ ICoreWebView2Settings5_macros ++
   ICoreWebView2Settings6_macros.

Definition ICoreWebView2Settings7_COBJMACROS : list cmacro :=
   IUnknown_macros ++ ICoreWebView2Settings_macros ++ ICoreWebView2Settings2_macros ++
   ICoreWebView2Settings3_macros ++ ICoreWebView2Settings4_macros ++ ICoreWebView2Settings5_macros ++
   ICoreWebView2Settings6_macros ++ ICoreWebView2Settings7_macros.

Definition ICoreWebView2Settings8_COBJMACROS : list cmacro :=
   IUnknown_macros ++ ICoreWebView2Settings_macros ++ ICoreWebView2Settings2_macros ++
   ICoreWebView2Settings3_macros ++ ICoreWebView2Settings4_macros ++ ICoreWebView2Settings5_macros ++
   ICoreWebView2Settings6_macros ++ ICoreWebView2Settings7_macros ++ ICoreWebView2Settings8_macros.

Definition ICoreWebView2SharedBuffer_COBJMACROS : list cmacro :=
   IUnknown_macros ++ ICoreWebView2SharedBuffer_macros.

Definition ICoreWebView2SourceChangedEventArgs_COBJMACROS : list cmacro :=
   IUnknown_macros ++ ICoreWebView2SourceChangedEventArgs_macros.

Definition ICoreWebView2SourceChangedEventHandler_COBJMACROS : list cmacro :=
   IUnknown_macros ++ ICoreWebView2SourceChangedEventHandler_macros.

Definition ICoreWebView2StateChangedEventHandler_COBJMACROS : list cmacro :=
   IUnknown_macros ++ ICoreWebView2StateChangedEventHandler_macros.

Definition ICoreWebView2StatusBarTextChangedEventHandler_COBJMACROS : list cmacro :=
   IUnknown_macros ++ ICoreWebView2StatusBarTextChangedEventHandler_macros.

Definition ICoreWebView2TrySuspendCompletedHandler_COBJMACROS : list cmacro :=
   IUnknown_macros ++ ICoreWebView2TrySuspendCompletedHandler_macros.

Definition ICoreWebView2WebMessageReceivedEventArgs_COBJMACROS : list cmacro :=
   IUnknown_macros ++ ICoreWebView2WebMessageReceivedEventArgs_macros.

Definition ICoreWebView2WebMessageReceivedEventHandler_COBJMACROS : list cmacro :=
   IUnknown_macros ++ ICoreWebView2WebMessageReceivedEventHandler_macros.

Definition ICoreWebView2WebResourceRequest_COBJMACROS : list cmacro :=
   IUnknown_macros ++ ICoreWebView2WebResourceRequest_macros.

Definition ICoreWebView2WebResourceRequestedEventArgs_COBJMACROS : list cmacro :=
   IUnknown_macros ++ ICoreWebView2WebResourceRequestedEventArgs_macros.

Definition ICoreWebView2WebResourceRequestedEventArgs2_COBJMACROS : list cmacro :=
   IUnknown_macros ++ ICoreWebView2WebResourceRequestedEventArgs_macros ++
   ICoreWebView2WebResourceRequestedEventArgs2_macros.

Definition ICoreWebView2WebResourceRequestedEventHandler_COBJMACROS : list cmacro :=
   IUnknown_macros ++ ICoreWebView2WebResourceRequestedEventHandler_macros.

Definition ICoreWebView2WebResourceResponse_COBJMACROS : list cmacro :=
   IUnknown_macros ++ ICoreWebView2WebResourceResponse_macros.

Definition ICoreWebView2WebResourceResponseReceivedEventHandler_COBJMACROS : list cmacro :=
   IUnknown_macros ++ ICoreWebView2WebResourceResponseReceivedEventHandler_macros.

Definition ICoreWebView2WebResourceResponseReceivedEventArgs_COBJMACROS : list cmacro :=
   IUnknown_macros ++ ICoreWebView2WebResourceResponseReceivedEventArgs_macros.

Definition ICoreWebView2WebResourceResponseView_COBJMACROS : list cmacro :=
   IUnknown_macros ++ ICoreWebView2WebResourceResponseView_macros.

Definition ICoreWebView2WebResourceResponseViewGetContentCompletedHandler_COBJMACROS : list cmacro :=
   IUnknown_macros ++ ICoreWebView2WebResourceResponseViewGetContentCompletedHandler_macros.

Definition ICoreWebView2WindowCloseRequestedEventHandler_COBJMACROS : list cmacro :=
   IUnknown_macros ++ ICoreWebView2WindowCloseRequestedEventHandler_macros.

Definition ICoreWebView2WindowFeatures_COBJMACROS : list cmacro :=
   IUnknown_macros ++ ICoreWebView2WindowFeatures_macros.

Definition ICoreWebView2ZoomFactorChangedEventHandler_COBJMACROS : list cmacro :=
   IUnknown_macros ++ ICoreWebView2ZoomFactorChangedEventHandler_macros.

Definition ICoreWebView2IsMutedChangedEventHandler_COBJMACROS : list cmacro :=
   IUnknown_macros ++ ICoreWebView2IsMutedChangedEventHandler_macros.

Definition ICoreWebView2IsDocumentPlayingAudioChangedEventHandler_COBJMACROS : list cmacro :=
   IUnknown_macros ++ ICoreWebView2IsDocumentPlayingAudioChangedEventHandler_macros.

Definition ICoreWebView2ProcessInfo_COBJMACROS : list cmacro :=
   IUnknown_macros ++ ICoreWebView2ProcessInfo_macros.

Definition ICoreWebView2ProcessInfoCollection_COBJMACROS : list cmacro :=
   IUnknown_macros ++ ICoreWebView2ProcessInfoCollection_macros.

Definition ICoreWebView2ProcessInfosChangedEventHandler_COBJMACROS : list cmacro :=
   IUnknown_macros ++ ICoreWebView2ProcessInfosChangedEventHandler_macros.

Definition ICoreWebView2FaviconChangedEventHandler_COBJMACROS : list cmacro :=
   IUnknown_macros ++ ICoreWebView2FaviconChangedEventHandler_macros.

Definition ICoreWebView2GetFaviconCompletedHandler_COBJMACROS : list cmacro :=
   IUnknown_macros ++ ICoreWebView2GetFaviconCompletedHandler_macros.

Definition ICoreWebView2ProfileAddBrowserExtensionCompletedHandler_COBJMACROS : list cmacro :=
   IUnknown_macros ++ ICoreWebView2ProfileAddBrowserExtensionCompletedHandler_macros.

Definition ICoreWebView2ProfileGetBrowserExtensionsCompletedHandler_COBJMACROS : list cmacro :=
   IUnknown_macros ++ ICoreWebView2ProfileGetBrowserExtensionsCompletedHandler_macros.

Definition ICoreWebView2BrowserExtensionList_COBJMACROS : list cmacro :=
   IUnknown_macros ++ ICoreWebView2BrowserExtensionList_macros.

Definition ICoreWebView2BrowserExtension_COBJMACROS : list cmacro :=
   IUnknown_macros ++ ICoreWebView2BrowserExtension_macros.

Definition ICoreWebView2BrowserExtensionEnableCompletedHandler_COBJMACROS : list cmacro :=
   IUnknown_macros ++ ICoreWebView2BrowserExtensionEnableCompletedHandler_macros.

Definition ICoreWebView2BrowserExtensionRemoveCompletedHandler_COBJMACROS : list cmacro :=
   IUnknown_macros ++ ICoreWebView2BrowserExtensionRemoveCompletedHandler_macros.

Definition ICoreWebView2ExecuteScriptResult_COBJMACROS : list cmacro :=
   IUnknown_macros ++ ICoreWebView2ExecuteScriptResult_macros.

Definition ICoreWebView2ExecuteScriptWithResultCompletedHandler_COBJMACROS : list cmacro :=
   IUnknown_macros ++ ICoreWebView2ExecuteScriptWithResultCompletedHandler_macros.

Definition ICoreWebView2ScriptException_COBJMACROS : list cmacro :=
   IUnknown_macros ++ ICoreWebView2ScriptException_macros.

Definition ICoreWebView2File_COBJMACROS : list cmacro := IUnknown_macros ++ ICoreWebView2File_macros.

Definition ICoreWebView2ObjectCollectionView_COBJMACROS : list cmacro :=
   IUnknown_macros ++ ICoreWebView2ObjectCollectionView_macros.

Definition ICoreWebView2WebMessageReceivedEventArgs2_COBJMACROS : list cmacro :=
   IUnknown_macros ++ ICoreWebView2WebMessageReceivedEventArgs_macros ++
   ICoreWebView2WebMessageReceivedEventArgs2_macros.
