(* ===== verification/WvCApi.v ===== *)
(** * WebView2.h: the C interface as a whole

    The forward declarations, the macros through which a C program calls the methods, and
    what a call written with a macro does. *)

From S2P Require Import Prelude Text Win32 WvApi.
From S2P Require Export WvMacros WvMacroTables.

(** ** Forward declarations

    [typedef interface I I;] for every interface, in the order of the header. *)

Definition forward_declarations1 : list string := [
   "ICoreWebView2AcceleratorKeyPressedEventArgs"; "ICoreWebView2AcceleratorKeyPressedEventArgs2";
   "ICoreWebView2AcceleratorKeyPressedEventHandler";
   "ICoreWebView2AddScriptToExecuteOnDocumentCreatedCompletedHandler";
   "ICoreWebView2CallDevToolsProtocolMethodCompletedHandler";
   "ICoreWebView2CapturePreviewCompletedHandler"; "ICoreWebView2"; "ICoreWebView2_2"; "ICoreWebView2_3";
   "ICoreWebView2_4"; "ICoreWebView2_5"; "ICoreWebView2_6"; "ICoreWebView2_7"; "ICoreWebView2_8";
   "ICoreWebView2_9"; "ICoreWebView2_10"; "ICoreWebView2_11"; "ICoreWebView2_12"; "ICoreWebView2_13";
   "ICoreWebView2_14"; "ICoreWebView2_15"].

Definition forward_declarations2 : list string := [
   "ICoreWebView2_16"; "ICoreWebView2_17"; "ICoreWebView2_18"; "ICoreWebView2_19"; "ICoreWebView2_20";
   "ICoreWebView2_21"; "ICoreWebView2_22"; "ICoreWebView2BasicAuthenticationRequestedEventArgs";
   "ICoreWebView2BasicAuthenticationRequestedEventHandler"; "ICoreWebView2BasicAuthenticationResponse";
   "ICoreWebView2BrowserProcessExitedEventArgs"; "ICoreWebView2BrowserProcessExitedEventHandler";
   "ICoreWebView2BytesReceivedChangedEventHandler"; "ICoreWebView2CompositionController";
   "ICoreWebView2CompositionController2"; "ICoreWebView2CompositionController3"; "ICoreWebView2Controller";
   "ICoreWebView2Controller2"; "ICoreWebView2Controller3"; "ICoreWebView2Controller4";
   "ICoreWebView2ControllerOptions"].

Definition forward_declarations3 : list string := [
   "ICoreWebView2ControllerOptions2"; "ICoreWebView2ContentLoadingEventArgs";
   "ICoreWebView2ContentLoadingEventHandler"; "ICoreWebView2ContextMenuRequestedEventArgs";
   "ICoreWebView2ContextMenuRequestedEventHandler"; "ICoreWebView2Cookie"; "ICoreWebView2CookieList";
   "ICoreWebView2CookieManager"; "ICoreWebView2Certificate"; "ICoreWebView2ClientCertificate";
   "ICoreWebView2StringCollection"; "ICoreWebView2ClearBrowsingDataCompletedHandler";
   "ICoreWebView2ClientCertificateCollection"; "ICoreWebView2ClientCertificateRequestedEventArgs";
   "ICoreWebView2ClientCertificateRequestedEventHandler"; "ICoreWebView2ContextMenuItem";
   "ICoreWebView2ContextMenuItemCollection"; "ICoreWebView2ContextMenuTarget";
   "ICoreWebView2ClearServerCertificateErrorActionsCompletedHandler";
   "ICoreWebView2CreateCoreWebView2CompositionControllerCompletedHandler";
   "ICoreWebView2CreateCoreWebView2ControllerCompletedHandler"].

Definition forward_declarations4 : list string := [
   "ICoreWebView2CreateCoreWebView2EnvironmentCompletedHandler";
   "ICoreWebView2ContainsFullScreenElementChangedEventHandler"; "ICoreWebView2CursorChangedEventHandler";
   "ICoreWebView2CustomItemSelectedEventHandler"; "ICoreWebView2CustomSchemeRegistration";
   "ICoreWebView2DocumentTitleChangedEventHandler"; "ICoreWebView2DOMContentLoadedEventArgs";
   "ICoreWebView2DOMContentLoadedEventHandler"; "ICoreWebView2Deferral";
   "ICoreWebView2DevToolsProtocolEventReceivedEventArgs";
   "ICoreWebView2DevToolsProtocolEventReceivedEventArgs2";
   "ICoreWebView2DevToolsProtocolEventReceivedEventHandler"; "ICoreWebView2DevToolsProtocolEventReceiver";
   "ICoreWebView2DownloadOperation"; "ICoreWebView2DownloadStartingEventArgs";
   "ICoreWebView2DownloadStartingEventHandler"; "ICoreWebView2Environment"; "ICoreWebView2Environment2";
   "ICoreWebView2Environment3"; "ICoreWebView2Environment4"; "ICoreWebView2Environment5"].

Definition forward_declarations5 : list string := [
   "ICoreWebView2Environment6"; "ICoreWebView2Environment7"; "ICoreWebView2Environment8";
   "ICoreWebView2Environment9"; "ICoreWebView2Environment10"; "ICoreWebView2Environment11";
   "ICoreWebView2Environment12"; "ICoreWebView2Environment13"; "ICoreWebView2EnvironmentOptions";
   "ICoreWebView2EnvironmentOptions2"; "ICoreWebView2EnvironmentOptions3";
   "ICoreWebView2EnvironmentOptions4"; "ICoreWebView2EnvironmentOptions5";
   "ICoreWebView2EnvironmentOptions6"; "ICoreWebView2EstimatedEndTimeChangedEventHandler";
   "ICoreWebView2ExecuteScriptCompletedHandler"; "ICoreWebView2GetProcessExtendedInfosCompletedHandler";
   "ICoreWebView2ProcessExtendedInfo"; "ICoreWebView2ProcessExtendedInfoCollection"; "ICoreWebView2Frame";
   "ICoreWebView2Frame2"].

Definition forward_declarations6 : list string := [
   "ICoreWebView2Frame3"; "ICoreWebView2Frame4"; "ICoreWebView2Frame5";
   "ICoreWebView2FrameContentLoadingEventHandler"; "ICoreWebView2FrameCreatedEventArgs";
   "ICoreWebView2FrameCreatedEventHandler"; "ICoreWebView2FrameDestroyedEventHandler";
   "ICoreWebView2FrameDOMContentLoadedEventHandler"; "ICoreWebView2FrameNameChangedEventHandler";
   "ICoreWebView2FrameNavigationCompletedEventHandler"; "ICoreWebView2FrameNavigationStartingEventHandler";
   "ICoreWebView2FramePermissionRequestedEventHandler"; "ICoreWebView2FrameWebMessageReceivedEventHandler";
   "ICoreWebView2FrameInfo"; "ICoreWebView2FrameInfo2"; "ICoreWebView2FrameInfoCollection";
   "ICoreWebView2FrameInfoCollectionIterator"; "ICoreWebView2FocusChangedEventHandler";
   "ICoreWebView2GetCookiesCompletedHandler";
   "ICoreWebView2GetNonDefaultPermissionSettingsCompletedHandler";
   "ICoreWebView2HistoryChangedEventHandler"].

Definition forward_declarations7 : list string := [
   "ICoreWebView2HttpHeadersCollectionIterator"; "ICoreWebView2HttpRequestHeaders";
   "ICoreWebView2HttpResponseHeaders"; "ICoreWebView2IsDefaultDownloadDialogOpenChangedEventHandler";
   "ICoreWebView2LaunchingExternalUriSchemeEventArgs";
   "ICoreWebView2LaunchingExternalUriSchemeEventHandler"; "ICoreWebView2MoveFocusRequestedEventArgs";
   "ICoreWebView2MoveFocusRequestedEventHandler"; "ICoreWebView2NavigationCompletedEventArgs";
   "ICoreWebView2NavigationCompletedEventArgs2"; "ICoreWebView2NavigationCompletedEventHandler";
   "ICoreWebView2NavigationStartingEventArgs"; "ICoreWebView2NavigationStartingEventArgs2";
   "ICoreWebView2NavigationStartingEventArgs3"; "ICoreWebView2NavigationStartingEventHandler";
   "ICoreWebView2NewBrowserVersionAvailableEventHandler"; "ICoreWebView2NewWindowRequestedEventArgs";
   "ICoreWebView2NewWindowRequestedEventArgs2"; "ICoreWebView2NewWindowRequestedEventArgs3";
   "ICoreWebView2NewWindowRequestedEventHandler"; "ICoreWebView2PermissionRequestedEventArgs"].

Definition forward_declarations8 : list string := [
   "ICoreWebView2PermissionRequestedEventArgs2"; "ICoreWebView2PermissionRequestedEventArgs3";
   "ICoreWebView2PermissionRequestedEventHandler"; "ICoreWebView2PermissionSettingCollectionView";
   "ICoreWebView2PermissionSetting"; "ICoreWebView2PointerInfo"; "ICoreWebView2PrintSettings";
   "ICoreWebView2PrintSettings2"; "ICoreWebView2PrintToPdfCompletedHandler";
   "ICoreWebView2PrintCompletedHandler"; "ICoreWebView2PrintToPdfStreamCompletedHandler";
   "ICoreWebView2ProcessFailedEventArgs"; "ICoreWebView2ProcessFailedEventArgs2";
   "ICoreWebView2ProcessFailedEventHandler"; "ICoreWebView2Profile"; "ICoreWebView2Profile2";
   "ICoreWebView2Profile3"; "ICoreWebView2Profile4"; "ICoreWebView2Profile5"; "ICoreWebView2Profile6";
   "ICoreWebView2Profile7"].

Definition forward_declarations9 : list string := [
   "ICoreWebView2Profile8"; "ICoreWebView2ProfileDeletedEventHandler";
   "ICoreWebView2RasterizationScaleChangedEventHandler";
   "ICoreWebView2ServerCertificateErrorDetectedEventArgs";
   "ICoreWebView2ServerCertificateErrorDetectedEventHandler";
   "ICoreWebView2SetPermissionStateCompletedHandler"; "ICoreWebView2ScriptDialogOpeningEventArgs";
   "ICoreWebView2ScriptDialogOpeningEventHandler"; "ICoreWebView2Settings"; "ICoreWebView2Settings2";
   "ICoreWebView2Settings3"; "ICoreWebView2Settings4"; "ICoreWebView2Settings5"; "ICoreWebView2Settings6";
   "ICoreWebView2Settings7"; "ICoreWebView2Settings8"; "ICoreWebView2SharedBuffer";
   "ICoreWebView2SourceChangedEventArgs"; "ICoreWebView2SourceChangedEventHandler";
   "ICoreWebView2StateChangedEventHandler"; "ICoreWebView2StatusBarTextChangedEventHandler"].

Definition forward_declarations10 : list string := [
   "ICoreWebView2TrySuspendCompletedHandler"; "ICoreWebView2WebMessageReceivedEventArgs";
   "ICoreWebView2WebMessageReceivedEventHandler"; "ICoreWebView2WebResourceRequest";
   "ICoreWebView2WebResourceRequestedEventArgs"; "ICoreWebView2WebResourceRequestedEventArgs2";
   "ICoreWebView2WebResourceRequestedEventHandler"; "ICoreWebView2WebResourceResponse";
   "ICoreWebView2WebResourceResponseReceivedEventHandler";
   "ICoreWebView2WebResourceResponseReceivedEventArgs"; "ICoreWebView2WebResourceResponseView";
   "ICoreWebView2WebResourceResponseViewGetContentCompletedHandler";
   "ICoreWebView2WindowCloseRequestedEventHandler"; "ICoreWebView2WindowFeatures";
   "ICoreWebView2ZoomFactorChangedEventHandler"; "ICoreWebView2IsMutedChangedEventHandler";
   "ICoreWebView2IsDocumentPlayingAudioChangedEventHandler"; "ICoreWebView2ProcessInfo";
   "ICoreWebView2ProcessInfoCollection"; "ICoreWebView2ProcessInfosChangedEventHandler";
   "ICoreWebView2FaviconChangedEventHandler"].

Definition forward_declarations11 : list string := [
   "ICoreWebView2GetFaviconCompletedHandler"; "ICoreWebView2ProfileAddBrowserExtensionCompletedHandler";
   "ICoreWebView2ProfileGetBrowserExtensionsCompletedHandler"; "ICoreWebView2BrowserExtensionList";
   "ICoreWebView2BrowserExtension"; "ICoreWebView2BrowserExtensionEnableCompletedHandler";
   "ICoreWebView2BrowserExtensionRemoveCompletedHandler"; "ICoreWebView2ExecuteScriptResult";
   "ICoreWebView2ExecuteScriptWithResultCompletedHandler"; "ICoreWebView2ScriptException";
   "ICoreWebView2File"; "ICoreWebView2ObjectCollectionView"; "ICoreWebView2WebMessageReceivedEventArgs2"].

Definition forward_declarations : list string :=
   forward_declarations1 ++ forward_declarations2 ++ forward_declarations3 ++ forward_declarations4 ++
   forward_declarations5 ++ forward_declarations6 ++ forward_declarations7 ++ forward_declarations8 ++
   forward_declarations9 ++ forward_declarations10 ++ forward_declarations11.

(** ** The macros of all interfaces *)

Definition cobjmacros : list (interface * list cmacro) := [
   (ICoreWebView2AcceleratorKeyPressedEventArgs, ICoreWebView2AcceleratorKeyPressedEventArgs_COBJMACROS);
   (ICoreWebView2AcceleratorKeyPressedEventArgs2, ICoreWebView2AcceleratorKeyPressedEventArgs2_COBJMACROS);
   (ICoreWebView2AcceleratorKeyPressedEventHandler, ICoreWebView2AcceleratorKeyPressedEventHandler_COBJMACROS);
   (ICoreWebView2AddScriptToExecuteOnDocumentCreatedCompletedHandler, ICoreWebView2AddScriptToExecuteOnDocumentCreatedCompletedHandler_COBJMACROS);
   (ICoreWebView2CallDevToolsProtocolMethodCompletedHandler, ICoreWebView2CallDevToolsProtocolMethodCompletedHandler_COBJMACROS);
   (ICoreWebView2CapturePreviewCompletedHandler, ICoreWebView2CapturePreviewCompletedHandler_COBJMACROS);
   (ICoreWebView2, ICoreWebView2_COBJMACROS); (ICoreWebView2_2, ICoreWebView2_2_COBJMACROS);
   (ICoreWebView2_3, ICoreWebView2_3_COBJMACROS); (ICoreWebView2_4, ICoreWebView2_4_COBJMACROS);
   (ICoreWebView2_5, ICoreWebView2_5_COBJMACROS); (ICoreWebView2_6, ICoreWebView2_6_COBJMACROS);
   (ICoreWebView2_7, ICoreWebView2_7_COBJMACROS); (ICoreWebView2_8, ICoreWebView2_8_COBJMACROS);
   (ICoreWebView2_9, ICoreWebView2_9_COBJMACROS); (ICoreWebView2_10, ICoreWebView2_10_COBJMACROS);
   (ICoreWebView2_11, ICoreWebView2_11_COBJMACROS); (ICoreWebView2_12, ICoreWebView2_12_COBJMACROS);
   (ICoreWebView2_13, ICoreWebView2_13_COBJMACROS); (ICoreWebView2_14, ICoreWebView2_14_COBJMACROS);
   (ICoreWebView2_15, ICoreWebView2_15_COBJMACROS); (ICoreWebView2_16, ICoreWebView2_16_COBJMACROS);
   (ICoreWebView2_17, ICoreWebView2_17_COBJMACROS); (ICoreWebView2_18, ICoreWebView2_18_COBJMACROS);
   (ICoreWebView2_19, ICoreWebView2_19_COBJMACROS); (ICoreWebView2_20, ICoreWebView2_20_COBJMACROS);
   (ICoreWebView2_21, ICoreWebView2_21_COBJMACROS); (ICoreWebView2_22, ICoreWebView2_22_COBJMACROS);
   (ICoreWebView2BasicAuthenticationRequestedEventArgs, ICoreWebView2BasicAuthenticationRequestedEventArgs_COBJMACROS);
   (ICoreWebView2BasicAuthenticationRequestedEventHandler, ICoreWebView2BasicAuthenticationRequestedEventHandler_COBJMACROS);
   (ICoreWebView2BasicAuthenticationResponse, ICoreWebView2BasicAuthenticationResponse_COBJMACROS);
   (ICoreWebView2BrowserProcessExitedEventArgs, ICoreWebView2BrowserProcessExitedEventArgs_COBJMACROS);
   (ICoreWebView2BrowserProcessExitedEventHandler, ICoreWebView2BrowserProcessExitedEventHandler_COBJMACROS);
   (ICoreWebView2BytesReceivedChangedEventHandler, ICoreWebView2BytesReceivedChangedEventHandler_COBJMACROS);
   (ICoreWebView2CompositionController, ICoreWebView2CompositionController_COBJMACROS);
   (ICoreWebView2CompositionController2, ICoreWebView2CompositionController2_COBJMACROS);
   (ICoreWebView2CompositionController3, ICoreWebView2CompositionController3_COBJMACROS);
   (ICoreWebView2Controller, ICoreWebView2Controller_COBJMACROS);
   (ICoreWebView2Controller2, ICoreWebView2Controller2_COBJMACROS);
   (ICoreWebView2Controller3, ICoreWebView2Controller3_COBJMACROS);
   (ICoreWebView2Controller4, ICoreWebView2Controller4_COBJMACROS);
   (ICoreWebView2ControllerOptions, ICoreWebView2ControllerOptions_COBJMACROS);
   (ICoreWebView2ControllerOptions2, ICoreWebView2ControllerOptions2_COBJMACROS);
   (ICoreWebView2ContentLoadingEventArgs, ICoreWebView2ContentLoadingEventArgs_COBJMACROS);
   (ICoreWebView2ContentLoadingEventHandler, ICoreWebView2ContentLoadingEventHandler_COBJMACROS);
   (ICoreWebView2ContextMenuRequestedEventArgs, ICoreWebView2ContextMenuRequestedEventArgs_COBJMACROS);
   (ICoreWebView2ContextMenuRequestedEventHandler, ICoreWebView2ContextMenuRequestedEventHandler_COBJMACROS);
   (ICoreWebView2Cookie, ICoreWebView2Cookie_COBJMACROS);
   (ICoreWebView2CookieList, ICoreWebView2CookieList_COBJMACROS);
   (ICoreWebView2CookieManager, ICoreWebView2CookieManager_COBJMACROS);
   (ICoreWebView2Certificate, ICoreWebView2Certificate_COBJMACROS);
   (ICoreWebView2ClientCertificate, ICoreWebView2ClientCertificate_COBJMACROS);
   (ICoreWebView2StringCollection, ICoreWebView2StringCollection_COBJMACROS);
   (ICoreWebView2ClearBrowsingDataCompletedHandler, ICoreWebView2ClearBrowsingDataCompletedHandler_COBJMACROS);
   (ICoreWebView2ClientCertificateCollection, ICoreWebView2ClientCertificateCollection_COBJMACROS);
   (ICoreWebView2ClientCertificateRequestedEventArgs, ICoreWebView2ClientCertificateRequestedEventArgs_COBJMACROS);
   (ICoreWebView2ClientCertificateRequestedEventHandler, ICoreWebView2ClientCertificateRequestedEventHandler_COBJMACROS);
   (ICoreWebView2ContextMenuItem, ICoreWebView2ContextMenuItem_COBJMACROS);
   (ICoreWebView2ContextMenuItemCollection, ICoreWebView2ContextMenuItemCollection_COBJMACROS);
   (ICoreWebView2ContextMenuTarget, ICoreWebView2ContextMenuTarget_COBJMACROS);
   (ICoreWebView2ClearServerCertificateErrorActionsCompletedHandler, ICoreWebView2ClearServerCertificateErrorActionsCompletedHandler_COBJMACROS);
   (ICoreWebView2CreateCoreWebView2CompositionControllerCompletedHandler, ICoreWebView2CreateCoreWebView2CompositionControllerCompletedHandler_COBJMACROS);
   (ICoreWebView2CreateCoreWebView2ControllerCompletedHandler, ICoreWebView2CreateCoreWebView2ControllerCompletedHandler_COBJMACROS);
   (ICoreWebView2CreateCoreWebView2EnvironmentCompletedHandler, ICoreWebView2CreateCoreWebView2EnvironmentCompletedHandler_COBJMACROS);
   (ICoreWebView2ContainsFullScreenElementChangedEventHandler, ICoreWebView2ContainsFullScreenElementChangedEventHandler_COBJMACROS);
   (ICoreWebView2CursorChangedEventHandler, ICoreWebView2CursorChangedEventHandler_COBJMACROS);
   (ICoreWebView2CustomItemSelectedEventHandler, ICoreWebView2CustomItemSelectedEventHandler_COBJMACROS);
   (ICoreWebView2CustomSchemeRegistration, ICoreWebView2CustomSchemeRegistration_COBJMACROS);
   (ICoreWebView2DocumentTitleChangedEventHandler, ICoreWebView2DocumentTitleChangedEventHandler_COBJMACROS);
   (ICoreWebView2DOMContentLoadedEventArgs, ICoreWebView2DOMContentLoadedEventArgs_COBJMACROS);
   (ICoreWebView2DOMContentLoadedEventHandler, ICoreWebView2DOMContentLoadedEventHandler_COBJMACROS);
   (ICoreWebView2Deferral, ICoreWebView2Deferral_COBJMACROS);
   (ICoreWebView2DevToolsProtocolEventReceivedEventArgs, ICoreWebView2DevToolsProtocolEventReceivedEventArgs_COBJMACROS);
   (ICoreWebView2DevToolsProtocolEventReceivedEventArgs2, ICoreWebView2DevToolsProtocolEventReceivedEventArgs2_COBJMACROS);
   (ICoreWebView2DevToolsProtocolEventReceivedEventHandler, ICoreWebView2DevToolsProtocolEventReceivedEventHandler_COBJMACROS);
   (ICoreWebView2DevToolsProtocolEventReceiver, ICoreWebView2DevToolsProtocolEventReceiver_COBJMACROS);
   (ICoreWebView2DownloadOperation, ICoreWebView2DownloadOperation_COBJMACROS);
   (ICoreWebView2DownloadStartingEventArgs, ICoreWebView2DownloadStartingEventArgs_COBJMACROS);
   (ICoreWebView2DownloadStartingEventHandler, ICoreWebView2DownloadStartingEventHandler_COBJMACROS);
   (ICoreWebView2Environment, ICoreWebView2Environment_COBJMACROS);
   (ICoreWebView2Environment2, ICoreWebView2Environment2_COBJMACROS);
   (ICoreWebView2Environment3, ICoreWebView2Environment3_COBJMACROS);
   (ICoreWebView2Environment4, ICoreWebView2Environment4_COBJMACROS);
   (ICoreWebView2Environment5, ICoreWebView2Environment5_COBJMACROS);
   (ICoreWebView2Environment6, ICoreWebView2Environment6_COBJMACROS);
   (ICoreWebView2Environment7, ICoreWebView2Environment7_COBJMACROS);
   (ICoreWebView2Environment8, ICoreWebView2Environment8_COBJMACROS);
   (ICoreWebView2Environment9, ICoreWebView2Environment9_COBJMACROS);
   (ICoreWebView2Environment10, ICoreWebView2Environment10_COBJMACROS);
   (ICoreWebView2Environment11, ICoreWebView2Environment11_COBJMACROS);
   (ICoreWebView2Environment12, ICoreWebView2Environment12_COBJMACROS);
   (ICoreWebView2Environment13, ICoreWebView2Environment13_COBJMACROS);
   (ICoreWebView2EnvironmentOptions, ICoreWebView2EnvironmentOptions_COBJMACROS);
   (ICoreWebView2EnvironmentOptions2, ICoreWebView2EnvironmentOptions2_COBJMACROS);
   (ICoreWebView2EnvironmentOptions3, ICoreWebView2EnvironmentOptions3_COBJMACROS);
   (ICoreWebView2EnvironmentOptions4, ICoreWebView2EnvironmentOptions4_COBJMACROS);
   (ICoreWebView2EnvironmentOptions5, ICoreWebView2EnvironmentOptions5_COBJMACROS);
   (ICoreWebView2EnvironmentOptions6, ICoreWebView2EnvironmentOptions6_COBJMACROS);
   (ICoreWebView2EstimatedEndTimeChangedEventHandler, ICoreWebView2EstimatedEndTimeChangedEventHandler_COBJMACROS);
   (ICoreWebView2ExecuteScriptCompletedHandler, ICoreWebView2ExecuteScriptCompletedHandler_COBJMACROS);
   (ICoreWebView2GetProcessExtendedInfosCompletedHandler, ICoreWebView2GetProcessExtendedInfosCompletedHandler_COBJMACROS);
   (ICoreWebView2ProcessExtendedInfo, ICoreWebView2ProcessExtendedInfo_COBJMACROS);
   (ICoreWebView2ProcessExtendedInfoCollection, ICoreWebView2ProcessExtendedInfoCollection_COBJMACROS);
   (ICoreWebView2Frame, ICoreWebView2Frame_COBJMACROS);
   (ICoreWebView2Frame2, ICoreWebView2Frame2_COBJMACROS);
   (ICoreWebView2Frame3, ICoreWebView2Frame3_COBJMACROS);
   (ICoreWebView2Frame4, ICoreWebView2Frame4_COBJMACROS);
   (ICoreWebView2Frame5, ICoreWebView2Frame5_COBJMACROS);
   (ICoreWebView2FrameContentLoadingEventHandler, ICoreWebView2FrameContentLoadingEventHandler_COBJMACROS);
   (ICoreWebView2FrameCreatedEventArgs, ICoreWebView2FrameCreatedEventArgs_COBJMACROS);
   (ICoreWebView2FrameCreatedEventHandler, ICoreWebView2FrameCreatedEventHandler_COBJMACROS);
   (ICoreWebView2FrameDestroyedEventHandler, ICoreWebView2FrameDestroyedEventHandler_COBJMACROS);
   (ICoreWebView2FrameDOMContentLoadedEventHandler, ICoreWebView2FrameDOMContentLoadedEventHandler_COBJMACROS);
   (ICoreWebView2FrameNameChangedEventHandler, ICoreWebView2FrameNameChangedEventHandler_COBJMACROS);
   (ICoreWebView2FrameNavigationCompletedEventHandler, ICoreWebView2FrameNavigationCompletedEventHandler_COBJMACROS);
   (ICoreWebView2FrameNavigationStartingEventHandler, ICoreWebView2FrameNavigationStartingEventHandler_COBJMACROS);
   (ICoreWebView2FramePermissionRequestedEventHandler, ICoreWebView2FramePermissionRequestedEventHandler_COBJMACROS);
   (ICoreWebView2FrameWebMessageReceivedEventHandler, ICoreWebView2FrameWebMessageReceivedEventHandler_COBJMACROS);
   (ICoreWebView2FrameInfo, ICoreWebView2FrameInfo_COBJMACROS);
   (ICoreWebView2FrameInfo2, ICoreWebView2FrameInfo2_COBJMACROS);
   (ICoreWebView2FrameInfoCollection, ICoreWebView2FrameInfoCollection_COBJMACROS);
   (ICoreWebView2FrameInfoCollectionIterator, ICoreWebView2FrameInfoCollectionIterator_COBJMACROS);
   (ICoreWebView2FocusChangedEventHandler, ICoreWebView2FocusChangedEventHandler_COBJMACROS);
   (ICoreWebView2GetCookiesCompletedHandler, ICoreWebView2GetCookiesCompletedHandler_COBJMACROS);
   (ICoreWebView2GetNonDefaultPermissionSettingsCompletedHandler, ICoreWebView2GetNonDefaultPermissionSettingsCompletedHandler_COBJMACROS);
   (ICoreWebView2HistoryChangedEventHandler, ICoreWebView2HistoryChangedEventHandler_COBJMACROS);
   (ICoreWebView2HttpHeadersCollectionIterator, ICoreWebView2HttpHeadersCollectionIterator_COBJMACROS);
   (ICoreWebView2HttpRequestHeaders, ICoreWebView2HttpRequestHeaders_COBJMACROS);
   (ICoreWebView2HttpResponseHeaders, ICoreWebView2HttpResponseHeaders_COBJMACROS);
   (ICoreWebView2IsDefaultDownloadDialogOpenChangedEventHandler, ICoreWebView2IsDefaultDownloadDialogOpenChangedEventHandler_COBJMACROS);
   (ICoreWebView2LaunchingExternalUriSchemeEventArgs, ICoreWebView2LaunchingExternalUriSchemeEventArgs_COBJMACROS);
   (ICoreWebView2LaunchingExternalUriSchemeEventHandler, ICoreWebView2LaunchingExternalUriSchemeEventHandler_COBJMACROS);
   (ICoreWebView2MoveFocusRequestedEventArgs, ICoreWebView2MoveFocusRequestedEventArgs_COBJMACROS);
   (ICoreWebView2MoveFocusRequestedEventHandler, ICoreWebView2MoveFocusRequestedEventHandler_COBJMACROS);
   (ICoreWebView2NavigationCompletedEventArgs, ICoreWebView2NavigationCompletedEventArgs_COBJMACROS);
   (ICoreWebView2NavigationCompletedEventArgs2, ICoreWebView2NavigationCompletedEventArgs2_COBJMACROS);
   (ICoreWebView2NavigationCompletedEventHandler, ICoreWebView2NavigationCompletedEventHandler_COBJMACROS);
   (ICoreWebView2NavigationStartingEventArgs, ICoreWebView2NavigationStartingEventArgs_COBJMACROS);
   (ICoreWebView2NavigationStartingEventArgs2, ICoreWebView2NavigationStartingEventArgs2_COBJMACROS);
   (ICoreWebView2NavigationStartingEventArgs3, ICoreWebView2NavigationStartingEventArgs3_COBJMACROS);
   (ICoreWebView2NavigationStartingEventHandler, ICoreWebView2NavigationStartingEventHandler_COBJMACROS);
   (ICoreWebView2NewBrowserVersionAvailableEventHandler, ICoreWebView2NewBrowserVersionAvailableEventHandler_COBJMACROS);
   (ICoreWebView2NewWindowRequestedEventArgs, ICoreWebView2NewWindowRequestedEventArgs_COBJMACROS);
   (ICoreWebView2NewWindowRequestedEventArgs2, ICoreWebView2NewWindowRequestedEventArgs2_COBJMACROS);
   (ICoreWebView2NewWindowRequestedEventArgs3, ICoreWebView2NewWindowRequestedEventArgs3_COBJMACROS);
   (ICoreWebView2NewWindowRequestedEventHandler, ICoreWebView2NewWindowRequestedEventHandler_COBJMACROS);
   (ICoreWebView2PermissionRequestedEventArgs, ICoreWebView2PermissionRequestedEventArgs_COBJMACROS);
   (ICoreWebView2PermissionRequestedEventArgs2, ICoreWebView2PermissionRequestedEventArgs2_COBJMACROS);
   (ICoreWebView2PermissionRequestedEventArgs3, ICoreWebView2PermissionRequestedEventArgs3_COBJMACROS);
   (ICoreWebView2PermissionRequestedEventHandler, ICoreWebView2PermissionRequestedEventHandler_COBJMACROS);
   (ICoreWebView2PermissionSettingCollectionView, ICoreWebView2PermissionSettingCollectionView_COBJMACROS);
   (ICoreWebView2PermissionSetting, ICoreWebView2PermissionSetting_COBJMACROS);
   (ICoreWebView2PointerInfo, ICoreWebView2PointerInfo_COBJMACROS);
   (ICoreWebView2PrintSettings, ICoreWebView2PrintSettings_COBJMACROS);
   (ICoreWebView2PrintSettings2, ICoreWebView2PrintSettings2_COBJMACROS);
   (ICoreWebView2PrintToPdfCompletedHandler, ICoreWebView2PrintToPdfCompletedHandler_COBJMACROS);
   (ICoreWebView2PrintCompletedHandler, ICoreWebView2PrintCompletedHandler_COBJMACROS);
   (ICoreWebView2PrintToPdfStreamCompletedHandler, ICoreWebView2PrintToPdfStreamCompletedHandler_COBJMACROS);
   (ICoreWebView2ProcessFailedEventArgs, ICoreWebView2ProcessFailedEventArgs_COBJMACROS);
   (ICoreWebView2ProcessFailedEventArgs2, ICoreWebView2ProcessFailedEventArgs2_COBJMACROS);
   (ICoreWebView2ProcessFailedEventHandler, ICoreWebView2ProcessFailedEventHandler_COBJMACROS);
   (ICoreWebView2Profile, ICoreWebView2Profile_COBJMACROS);
   (ICoreWebView2Profile2, ICoreWebView2Profile2_COBJMACROS);
   (ICoreWebView2Profile3, ICoreWebView2Profile3_COBJMACROS);
   (ICoreWebView2Profile4, ICoreWebView2Profile4_COBJMACROS);
   (ICoreWebView2Profile5, ICoreWebView2Profile5_COBJMACROS);
   (ICoreWebView2Profile6, ICoreWebView2Profile6_COBJMACROS);
   (ICoreWebView2Profile7, ICoreWebView2Profile7_COBJMACROS);
   (ICoreWebView2Profile8, ICoreWebView2Profile8_COBJMACROS);
   (ICoreWebView2ProfileDeletedEventHandler, ICoreWebView2ProfileDeletedEventHandler_COBJMACROS);
   (ICoreWebView2RasterizationScaleChangedEventHandler, ICoreWebView2RasterizationScaleChangedEventHandler_COBJMACROS);
   (ICoreWebView2ServerCertificateErrorDetectedEventArgs, ICoreWebView2ServerCertificateErrorDetectedEventArgs_COBJMACROS);
   (ICoreWebView2ServerCertificateErrorDetectedEventHandler, ICoreWebView2ServerCertificateErrorDetectedEventHandler_COBJMACROS);
   (ICoreWebView2SetPermissionStateCompletedHandler, ICoreWebView2SetPermissionStateCompletedHandler_COBJMACROS);
   (ICoreWebView2ScriptDialogOpeningEventArgs, ICoreWebView2ScriptDialogOpeningEventArgs_COBJMACROS);
   (ICoreWebView2ScriptDialogOpeningEventHandler, ICoreWebView2ScriptDialogOpeningEventHandler_COBJMACROS);
   (ICoreWebView2Settings, ICoreWebView2Settings_COBJMACROS);
   (ICoreWebView2Settings2, ICoreWebView2Settings2_COBJMACROS);
   (ICoreWebView2Settings3, ICoreWebView2Settings3_COBJMACROS);
   (ICoreWebView2Settings4, ICoreWebView2Settings4_COBJMACROS);
   (ICoreWebView2Settings5, ICoreWebView2Settings5_COBJMACROS);
   (ICoreWebView2Settings6, ICoreWebView2Settings6_COBJMACROS);
   (ICoreWebView2Settings7, ICoreWebView2Settings7_COBJMACROS);
   (ICoreWebView2Settings8, ICoreWebView2Settings8_COBJMACROS);
   (ICoreWebView2SharedBuffer, ICoreWebView2SharedBuffer_COBJMACROS);
   (ICoreWebView2SourceChangedEventArgs, ICoreWebView2SourceChangedEventArgs_COBJMACROS);
   (ICoreWebView2SourceChangedEventHandler, ICoreWebView2SourceChangedEventHandler_COBJMACROS);
   (ICoreWebView2StateChangedEventHandler, ICoreWebView2StateChangedEventHandler_COBJMACROS);
   (ICoreWebView2StatusBarTextChangedEventHandler, ICoreWebView2StatusBarTextChangedEventHandler_COBJMACROS);
   (ICoreWebView2TrySuspendCompletedHandler, ICoreWebView2TrySuspendCompletedHandler_COBJMACROS);
   (ICoreWebView2WebMessageReceivedEventArgs, ICoreWebView2WebMessageReceivedEventArgs_COBJMACROS);
   (ICoreWebView2WebMessageReceivedEventHandler, ICoreWebView2WebMessageReceivedEventHandler_COBJMACROS);
   (ICoreWebView2WebResourceRequest, ICoreWebView2WebResourceRequest_COBJMACROS);
   (ICoreWebView2WebResourceRequestedEventArgs, ICoreWebView2WebResourceRequestedEventArgs_COBJMACROS);
   (ICoreWebView2WebResourceRequestedEventArgs2, ICoreWebView2WebResourceRequestedEventArgs2_COBJMACROS);
   (ICoreWebView2WebResourceRequestedEventHandler, ICoreWebView2WebResourceRequestedEventHandler_COBJMACROS);
   (ICoreWebView2WebResourceResponse, ICoreWebView2WebResourceResponse_COBJMACROS);
   (ICoreWebView2WebResourceResponseReceivedEventHandler, ICoreWebView2WebResourceResponseReceivedEventHandler_COBJMACROS);
   (ICoreWebView2WebResourceResponseReceivedEventArgs, ICoreWebView2WebResourceResponseReceivedEventArgs_COBJMACROS);
   (ICoreWebView2WebResourceResponseView, ICoreWebView2WebResourceResponseView_COBJMACROS);
   (ICoreWebView2WebResourceResponseViewGetContentCompletedHandler, ICoreWebView2WebResourceResponseViewGetContentCompletedHandler_COBJMACROS);
   (ICoreWebView2WindowCloseRequestedEventHandler, ICoreWebView2WindowCloseRequestedEventHandler_COBJMACROS);
   (ICoreWebView2WindowFeatures, ICoreWebView2WindowFeatures_COBJMACROS);
   (ICoreWebView2ZoomFactorChangedEventHandler, ICoreWebView2ZoomFactorChangedEventHandler_COBJMACROS);
   (ICoreWebView2IsMutedChangedEventHandler, ICoreWebView2IsMutedChangedEventHandler_COBJMACROS);
   (ICoreWebView2IsDocumentPlayingAudioChangedEventHandler, ICoreWebView2IsDocumentPlayingAudioChangedEventHandler_COBJMACROS);
   (ICoreWebView2ProcessInfo, ICoreWebView2ProcessInfo_COBJMACROS);
   (ICoreWebView2ProcessInfoCollection, ICoreWebView2ProcessInfoCollection_COBJMACROS);
   (ICoreWebView2ProcessInfosChangedEventHandler, ICoreWebView2ProcessInfosChangedEventHandler_COBJMACROS);
   (ICoreWebView2FaviconChangedEventHandler, ICoreWebView2FaviconChangedEventHandler_COBJMACROS);
   (ICoreWebView2GetFaviconCompletedHandler, ICoreWebView2GetFaviconCompletedHandler_COBJMACROS);
   (ICoreWebView2ProfileAddBrowserExtensionCompletedHandler, ICoreWebView2ProfileAddBrowserExtensionCompletedHandler_COBJMACROS);
   (ICoreWebView2ProfileGetBrowserExtensionsCompletedHandler, ICoreWebView2ProfileGetBrowserExtensionsCompletedHandler_COBJMACROS);
   (ICoreWebView2BrowserExtensionList, ICoreWebView2BrowserExtensionList_COBJMACROS);
   (ICoreWebView2BrowserExtension, ICoreWebView2BrowserExtension_COBJMACROS);
   (ICoreWebView2BrowserExtensionEnableCompletedHandler, ICoreWebView2BrowserExtensionEnableCompletedHandler_COBJMACROS);
   (ICoreWebView2BrowserExtensionRemoveCompletedHandler, ICoreWebView2BrowserExtensionRemoveCompletedHandler_COBJMACROS);
   (ICoreWebView2ExecuteScriptResult, ICoreWebView2ExecuteScriptResult_COBJMACROS);
   (ICoreWebView2ExecuteScriptWithResultCompletedHandler, ICoreWebView2ExecuteScriptWithResultCompletedHandler_COBJMACROS);
   (ICoreWebView2ScriptException, ICoreWebView2ScriptException_COBJMACROS);
   (ICoreWebView2File, ICoreWebView2File_COBJMACROS);
   (ICoreWebView2ObjectCollectionView, ICoreWebView2ObjectCollectionView_COBJMACROS);
   (ICoreWebView2WebMessageReceivedEventArgs2, ICoreWebView2WebMessageReceivedEventArgs2_COBJMACROS)].

(** ** A macro as the preprocessor sees it

    Tokens are strings.  A macro is used with the arguments already expanded, each a list
    of tokens. *)

Definition cmacro_name (i : interface) (c : cmacro) : string := i_name i +:+ "_" +:+ x_method c.

Definition cmacro_params (c : cmacro) : list string := "This" :: x_formals c.

(** The arguments of a call, with commas between them. *)
Fixpoint commas (args : list (list string)) : list string :=
  match args with
  | [] => []
  | [a] => a
  | a :: args => a ++ "," :: commas args
  end.

(** [( (This)->lpVtbl -> m(This,a) )]. *)
Definition call_text (recv : list string) (m : string) (args : list (list string)) : list string :=
  ["("; "("] ++ recv ++ [")"; "->"; "lpVtbl"; "->"; m; "("] ++ commas (recv :: args) ++ [")"; ")"].

Definition cmacro_body (c : cmacro) : list string :=
  call_text ["This"] (x_method c) ((fun f => [f]) <$> x_formals c).

(** A parameter is replaced by its argument wherever it stands, also where it is meant as
    something else; any other token stays. *)
Fixpoint substitute (params : list string) (actuals : list (list string)) (t : string) : list string :=
  match params, actuals with
  | p :: params, a :: actuals => if String.eqb p t then a else substitute params actuals t
  | _, _ => [t]
  end.

Definition expand (c : cmacro) (actuals : list (list string)) : option (list string) :=
  if Nat.eqb (length actuals) (length (cmacro_params c))
  then Some (mjoin (substitute (cmacro_params c) actuals <$> cmacro_body c)) else None.

(** The parameters of a macro are different, and none is a token of the rest of it. *)
Definition hygienic (c : cmacro) : bool :=
  distinct (cmacro_params c) &&
  forallb (fun t => negb (existsb (String.eqb t) (cmacro_params c)))
    ["("; ")"; "->"; ","; "lpVtbl"; x_method c].

Definition names_of (cobj : list (interface * list cmacro)) : list string :=
  '(i, ms) ← cobj; cmacro_name i <$> ms.

(** The macros of an interface are those of its slots, in their order. *)
Definition macros_agree (p : interface * list cmacro) : bool :=
  match slots p.1 with
  | None => false
  | Some l => bool_decide ((fun c => (x_method c, length (x_formals c))) <$> p.2 =
                           (fun e => (m_name (e_method e), length (m_params (e_method e)))) <$> l)
  end.

(** No string occurs twice: compared among those of the same length only. *)
Definition distinct_by_length (bound : nat) (l : list string) : bool :=
  forallb (fun s => String.length s <? bound) l &&
  forallb (fun n => distinct (List.filter (fun s => String.length s =? n) l)) (seq 0 bound).

Lemma NoDup_by_key {A} (f : A -> nat) (l : list A) :
  (forall x, x ∈ l -> NoDup (List.filter (fun y => f y =? f x) l)) -> NoDup l.
Proof.
  induction l as [|x l IH]; intros H; constructor.
  - intros Hx. specialize (H x ltac:(left)). simpl in H. rewrite Nat.eqb_refl in H.
    apply NoDup_cons in H as [H _]. apply H, list_elem_of_In, List.filter_In.
    split; [by apply list_elem_of_In|apply Nat.eqb_refl].
  - apply IH. intros y Hy. specialize (H y ltac:(by right)). simpl in H.
    destruct (f x =? f y); [by apply NoDup_cons in H as [_ H]|done].
Qed.

Lemma distinct_by_length_NoDup bound l : distinct_by_length bound l = true -> NoDup l.
Proof.
  intros [Hb Hd]%andb_true_iff. rewrite forallb_forall in Hb, Hd. apply (NoDup_by_key String.length).
  intros s Hs%list_elem_of_In%Hb%Nat.ltb_lt. apply distinct_NoDup, Hd, in_seq. lia.
Qed.

(** ** Properties *)

Lemma macros_checked : forallb macros_agree cobjmacros = true.
Proof. vm_compute. reflexivity. Qed.

Lemma hygiene_checked : forallb (fun p => forallb hygienic p.2) cobjmacros = true.
Proof. vm_compute. reflexivity. Qed.

Lemma macro_names_distinct : NoDup (names_of cobjmacros).
Proof. apply (distinct_by_length_NoDup 150). vm_compute. reflexivity. Qed.

Lemma agree_names_distinct :
  NoDup forward_declarations /\ forward_declarations = i_name <$> interfaces /\
  cobjmacros.*1 = interfaces.
Proof. split; [apply distinct_NoDup; vm_compute; reflexivity|split; reflexivity]. Qed.

(** What a macro stands for, when its parameters are used as parameters only. *)
Lemma substitute_other ps : forall acts t, t ∉ ps -> substitute ps acts t = [t].
Proof.
  induction ps as [|p ps IH]; intros [|a acts] t Ht; [done..|]. apply not_elem_of_cons in Ht as [Hp Ht].
  simpl. destruct (String.eqb_spec p t) as [->|_]; [done|by apply IH].
Qed.

Lemma substitute_params ps : forall acts, NoDup ps -> length acts = length ps ->
  substitute ps acts <$> ps = acts.
Proof.
  induction ps as [|p ps IH]; intros [|a acts] Hd Hl; [done..|]. apply NoDup_cons in Hd as [Hp Hd].
  rewrite fmap_cons. f_equal; [by simpl; rewrite String.eqb_refl|].
  etrans; [|apply (IH acts); [done|by injection Hl]]. apply list_fmap_ext. intros k q Hq.
  simpl. destruct (String.eqb_spec p q) as [->|_]; [|done]. by apply list_elem_of_lookup_2 in Hq.
Qed.

Lemma substitute_commas ps acts (qs : list string) : "," ∉ ps ->
  mjoin (substitute ps acts <$> commas ((fun f => [f]) <$> qs)) = commas (substitute ps acts <$> qs).
Proof.
  intros Hc. induction qs as [|q [|r qs] IH]; [done|by simpl; rewrite app_nil_r|].
  change (commas ((fun f => [f]) <$> q :: r :: qs)) with (q :: "," :: commas ((fun f => [f]) <$> r :: qs)).
  change (substitute ps acts q ++ substitute ps acts "," ++
    mjoin (substitute ps acts <$> commas ((fun f => [f]) <$> r :: qs)) =
    substitute ps acts q ++ "," :: commas (substitute ps acts <$> r :: qs)).
  by rewrite IH, (substitute_other _ _ ",") by done.
Qed.

Lemma hygienic_sound c : hygienic c = true ->
  NoDup (cmacro_params c) /\ forall t, t ∈ ["("; ")"; "->"; ","; "lpVtbl"; x_method c] -> t ∉ cmacro_params c.
Proof.
  intros [Hd%distinct_NoDup Ht]%andb_true_iff. split; [done|]. rewrite forallb_forall in Ht.
  intros t Hin%list_elem_of_In%Ht%negb_true_iff%not_true_iff_false Hp. apply Hin, existsb_exists.
  exists t. split; [by apply list_elem_of_In|apply String.eqb_refl].
Qed.

Lemma expand_hygienic c recv args : hygienic c = true -> length args = length (x_formals c) ->
  expand c (recv :: args) = Some (call_text recv (x_method c) args).
Proof.
  intros [Hd Ht]%hygienic_sound Hl. unfold expand. simpl length. rewrite Hl, Nat.eqb_refl. f_equal.
  unfold cmacro_body, call_text. set (S := substitute (cmacro_params c) (recv :: args)).
  assert (Hs : forall t, t ∈ ["("; ")"; "->"; ","; "lpVtbl"; x_method c] -> S t = [t])
    by (intros t Hin; apply substitute_other, Ht, Hin).
  assert (HT : S "This" = recv) by reflexivity.
  assert (Hc : mjoin (S <$> commas (["This"] :: ((fun f => [f]) <$> x_formals c))) = commas (recv :: args)).
  { change (["This"] :: ((fun f => [f]) <$> x_formals c)) with ((fun f => [f]) <$> cmacro_params c).
    unfold S. rewrite substitute_commas by (apply Ht; set_solver).
    f_equal. apply (substitute_params (cmacro_params c)); [done|]. simpl. by rewrite Hl. }
  rewrite !fmap_app, !join_app, Hc. cbn [fmap list_fmap mjoin list_join app].
  pose proof (Hs "(" ltac:(set_solver)) as H1. pose proof (Hs ")" ltac:(set_solver)) as H2.
  pose proof (Hs "->" ltac:(set_solver)) as H3. pose proof (Hs "lpVtbl" ltac:(set_solver)) as H4.
  pose proof (Hs (x_method c) ltac:(set_solver)) as H5. rewrite HT, !H1, !H2, !H3, H4, H5.
  cbn [app]. by rewrite app_nil_r.
Qed.

Lemma expand_arity c acts : length acts <> length (cmacro_params c) -> expand c acts = None.
Proof. intros H%Nat.eqb_neq. unfold expand. by rewrite H. Qed.

Lemma slot_of_lookup i l k e : i ∈ interfaces -> slots i = Some l -> l !! k = Some e ->
  slot_of i (m_name (e_method e)) = Some k.
Proof.
  intros Hi Hl Hk. destruct (slots_sound i Hi) as (l' & Hl' & Hd). assert (l' = l) as -> by congruence.
  unfold slot_of. rewrite Hl. destruct (list_find _ l) as [[k' e']|] eqn:E.
  - apply list_find_Some in E as (Hk' & He & _). simpl. f_equal.
    apply (NoDup_lookup _ k' k (m_name (e_method e)) Hd); rewrite list_lookup_fmap.
    + rewrite Hk'. simpl. by f_equal.
    + by rewrite Hk.
  - exfalso. apply list_find_None in E. rewrite Forall_forall in E. by apply (E e); [eapply list_elem_of_lookup_2|].
Qed.

Lemma macro_slot i ms k c : In (i, ms) cobjmacros -> ms !! k = Some c ->
  exists l e, i ∈ interfaces /\ slots i = Some l /\ l !! k = Some e /\
    m_name (e_method e) = x_method c /\ length (m_params (e_method e)) = length (x_formals c) /\ hygienic c = true.
Proof.
  intros Hin Hk. pose proof (proj1 (forallb_forall _ _) macros_checked _ Hin) as E.
  pose proof (proj1 (forallb_forall _ _) hygiene_checked _ Hin) as G. unfold macros_agree in E. simpl in E, G.
  destruct (slots i) as [l|] eqn:Hl; [|done]. apply bool_decide_eq_true_1, (f_equal (.!! k)) in E.
  rewrite !list_lookup_fmap, Hk in E. simpl in E. destruct (l !! k) as [e|] eqn:He; [|done].
  injection E as E1 E2. exists l, e. split_and!; try done.
  - destruct agree_names_distinct as (_ & _ & <-). apply list_elem_of_fmap. exists (i, ms).
    split; [done|by apply list_elem_of_In].
  - apply (proj1 (forallb_forall _ _) G), list_elem_of_In. by eapply list_elem_of_lookup_2.
Qed.

(** C40: A C program reaches every method through its macro: the macros of an interface
    are those of its slots, in their order; used with the arguments of the method, a macro
    becomes the call of exactly that slot, with the object as first argument - no
    parameter of it can be mistaken for another word of its text - and with any other
    number of arguments it is an error; an object of a derived interface is called in the
    same slot; and no two macros of the header have the same name. *)
Theorem macros_call i ms k c (Hi : In (i, ms) cobjmacros) (Hk : ms !! k = Some c) :
  (exists l e, slots i = Some l /\ length l = length ms /\ l !! k = Some e /\ m_name (e_method e) = x_method c /\
     forall recv args, expand c (recv :: args) =
       if Nat.eqb (length args) (length (m_params (e_method e)))
       then Some (call_text recv (x_method c) args) else None) /\
  (forall j, derives j i -> slot_of j (x_method c) = Some k) /\
  NoDup (names_of cobjmacros).
Proof.
  destruct (macro_slot i ms k c Hi Hk) as (l & e & Hint & Hl & He & Hm & Hn & Hh).
  split_and!; [|intros j Hj; eapply derived_slot; [exact Hj|]; rewrite <- Hm; by eapply slot_of_lookup
              |exact macro_names_distinct].
  exists l, e. split_and!; [done| |done|done|].
  - pose proof (proj1 (forallb_forall _ _) macros_checked _ Hi) as E. unfold macros_agree in E. simpl in E.
    rewrite Hl in E. apply bool_decide_eq_true_1, (f_equal length) in E. by rewrite !length_fmap in E.
  - intros recv args. rewrite Hn. destruct (Nat.eqb_spec (length args) (length (x_formals c))) as [E|E].
    + by apply expand_hygienic.
    + apply expand_arity. simpl. lia.
Qed.

Lemma macros_call_witness :
  (exists l e, slots ICoreWebView2Settings = Some l /\ length l = length ICoreWebView2Settings_COBJMACROS /\
     l !! 4 = Some e /\ m_name (e_method e) = "put_IsScriptEnabled" /\
     forall recv args, expand (X "put_IsScriptEnabled" ["isScriptEnabled"]) (recv :: args) =
       if Nat.eqb (length args) (length (m_params (e_method e)))
       then Some (call_text recv "put_IsScriptEnabled" args) else None) /\
  (forall j, derives j ICoreWebView2Settings -> slot_of j "put_IsScriptEnabled" = Some 4) /\
  NoDup (names_of cobjmacros).
Proof.
  apply (macros_call ICoreWebView2Settings ICoreWebView2Settings_COBJMACROS 4 (X "put_IsScriptEnabled" ["isScriptEnabled"]));
    [|reflexivity].
  apply list_elem_of_In, (list_elem_of_lookup_2 _ 176). reflexivity.
Defined.
