(* ===== verification/WvHelpers.v ===== *)
(** * Helpers of the WebView2 bridge (webview2/helpers.h)

    Conversions between the strings of Go and of Windows, the owned string
    [MyString], and the MIME types of [suneido:] resources. *)

From S2P Require Import Prelude Text Prog Win32 Accounting AppBridge.

(** ** Conversions *)

(** [mbstowcs_s] with [_TRUNCATE] into a buffer of [newSize] characters: the program
    never calls [setlocale], and in the C locale every byte becomes the character
    with its value.  A terminated string always results. *)
Definition mbstowcs_s (newSize : Z) (s : list Z) : list Z := take (Z.to_nat (newSize - 1)) s.

Definition ConvertCharToWChar (s : list Z) : list Z :=
  let newSize := u64 (Z.of_nat (length s) + 1) in mbstowcs_s newSize s.

Definition CP_UTF8 : Z := 65001.

(** The array [charStr] and what it holds, for the caller to delete; null is [None]. *)
Definition ConvertWcharToChar (s : option (list Z)) : act (option (Z * list Z)) :=
  match s with
  | None => Ret None
  | Some s =>
      '(len, _) ← call (WideCharToMultiByte CP_UTF8 s 0);
      if (len =? 0)%Z then Ret None
      else
        charStr ← call (NewArray len);
        '(_, content) ← call (WideCharToMultiByte CP_UTF8 s len);
        Ret (Some (charStr : Z, content : list Z))
  end.

(** ** MyString *)

(** The pointer [s]: null, or the block it points to with the string in it. *)
Record MyString := MkString { ms_s : option (Z * list Z) }.

Definition new_MyString : MyString := MkString None.

Definition MyString_Release (this : MyString) : act MyString :=
  match ms_s this with
  | Some (p, _) => _ ← call (CoTaskMemFree p); Ret (MkString None)
  | None => Ret this
  end.

(** [sizeof(wchar_t)] is 2 and [size_t] has 64 bits; a product that wraps around is
    caught by the comparison. *)
Definition MakeString (source : list Z) : act (option (Z * list Z)) :=
  let length := Z.of_nat (length source) in
  let bytes := u64 ((length + 1) * 2) in
  if (bytes <=? length)%Z then Ret None
  else
    result ← call (CoTaskMemAlloc bytes);
    Ret (if c_true result then Some (result, source) else None).

Definition MyString_Set (this : MyString) (str : option (list Z)) : act (option (list Z) * MyString) :=
  this ← MyString_Release this;
  s ← match str with Some str => MakeString str | None => Ret (ms_s this) end;
  Ret (snd <$> s, MkString s).

Definition MyString_Get (this : MyString) : option (list Z) := snd <$> ms_s this.

Definition MyString_Copy (this : MyString) : act (option (Z * list Z)) :=
  match ms_s this with Some (_, w) => MakeString w | None => Ret None end.

(** The destructor. *)
Definition MyString_destroy (this : MyString) : act unit := _ ← MyString_Release this; Ret tt.

(** ** MIME types *)

Definition mimeMap : gmap string string := list_to_map [
  (".html", "text/html"); (".htm", "text/html"); (".css", "text/css");
  (".js", "application/javascript"); (".json", "application/json");
  (".png", "image/png"); (".jpg", "image/jpeg"); (".jpeg", "image/jpeg");
  (".gif", "image/gif"); (".svg", "image/svg+xml"); (".pdf", "application/pdf");
  (".txt", "text/plain")].

(** [strrchr]: the part of the string from the last [c] on, with its position. *)
Fixpoint strrchr (s : string) (c : Ascii.ascii) (pos : nat) : option (nat * string) :=
  match s with
  | "" => None
  | String x rest =>
      match strrchr rest c (S pos) with
      | Some r => Some r
      | None => if Ascii.eqb x c then Some (pos, s) else None
      end
  end.

(** [std::tolower] in the C locale. *)
Definition tolower (c : Ascii.ascii) : Ascii.ascii :=
  let n := Ascii.nat_of_ascii c in
  if (65 <=? n)%nat && (n <=? 90)%nat then Ascii.ascii_of_nat (n + 32) else c.

Fixpoint string_tolower (s : string) : string :=
  match s with "" => "" | String c s => String (tolower c) (string_tolower s) end.

Definition dot : Ascii.ascii := Ascii.ascii_of_nat 46.

Definition getContentTypeFromUri (uri : string) : string :=
  match strrchr uri dot 0 with
  | None => "text/html"
  | Some (pos, ext) =>
      if (pos =? 0)%nat then "text/html"
      else
        match mimeMap !! string_tolower ext with
        | Some t => t
        | None => "text/html"
        end
  end.

Definition crlf : string := String (Ascii.ascii_of_nat 13) (String (Ascii.ascii_of_nat 10) "").

Definition buildContentTypeHeader (uri : string) : string :=
  let contentType := getContentTypeFromUri uri in
  let header := "Content-Type: " +:+ contentType +:+ crlf in
  header.

(** ** MyString: lemmas and properties *)

(** The block a string owns. *)
Definition string_block (s : option (Z * list Z)) : list Z :=
  match s with Some (p, _) => [p] | None => [] end.

Definition MyString_wf (this : MyString) : Prop :=
  match ms_s this with Some (p, w) => p <> 0%Z | None => True end.

(** Lengths of real strings: the characters fit the address space. *)
Definition wide_ok (w : list Z) : Prop := (Z.of_nat (length w) < 9223372036854775807)%Z.

Lemma MakeString_ok C bor tr R B w : wide_ok w -> Acct bor tr R B ->
  every_run C (MakeString w) tr (fun s tr' =>
    Acct bor tr' R (string_block s ++ B) /\ MyString_wf (MkString s) /\
    (s = None \/ snd <$> s = Some w)).
Proof.
  intros Hw HA. unfold MakeString. unfold wide_ok in Hw.
  rewrite u64_id by lia. destruct (Z.leb_spec ((Z.of_nat (length w) + 1) * 2) (Z.of_nat (length w))); [lia|].
  cbn. intros p _. destruct (c_true p) eqn:E; cbn.
  - apply c_true_spec in E. acct_by HA (Acct_cotask _ _ _ _ HA ((Z.of_nat (length w) + 1) * 2)%Z p E). auto.
  - apply c_true_0 in E as ->. acct_by HA (Acct_cotask_fail _ _ _ _ HA ((Z.of_nat (length w) + 1) * 2)%Z). auto.
Qed.

Lemma MyString_Release_ok C bor tr R B this :
  MyString_wf this -> Acct bor tr R (string_block (ms_s this) ++ B) ->
  every_run C (MyString_Release this) tr (fun this' tr' => Acct bor tr' R B /\ this' = MkString None).
Proof.
  intros Hw HA. unfold MyString_Release, MyString_wf in *. destruct this as [o]; destruct o as [[p w]|]; cbn in *; [|done].
  intros [] _. split; [|done]. by apply (Acct_cotask_free _ _ _ _ HA).
Qed.

Lemma MyString_Set_ok C bor tr R B this str
    (Hw : MyString_wf this) (Hstr : from_option wide_ok True str)
    (HA : Acct bor tr R (string_block (ms_s this) ++ B)) :
  every_run C (MyString_Set this str) tr (fun '(res, this') tr' =>
    Acct bor tr' R (string_block (ms_s this') ++ B) /\ MyString_wf this' /\
    res = MyString_Get this' /\ (MyString_Get this' = str \/ MyString_Get this' = None)).
Proof.
  unfold MyString_Set. apply every_run_bind.
  eapply every_run_mono; [|by apply (MyString_Release_ok C _ _ _ _ _ Hw HA)].
  cbn. intros _ tr1 [HA1 ->]. apply every_run_bind. destruct str as [w|]; cbn; [|auto].
  eapply every_run_mono; [|by apply (MakeString_ok C _ _ _ _ _ Hstr HA1)].
  cbn. intros s tr2 (HA2 & Hwf & Hs). split_and!; [done..|]. unfold MyString_Get. simpl. destruct Hs as [-> | ->]; auto.
Qed.

(** [Set] frees the old string exactly once and then owns exactly one block with a
    copy of the new one: [Get] returns the string that was set (null for null).
    When there is no memory the old string is gone and [Get] returns null. *)
Theorem MyString_set_get C bor tr R B this str
    (Hw : MyString_wf this) (Hstr : from_option wide_ok True str)
    (HA : Acct bor tr R (string_block (ms_s this) ++ B)) :
  every_run C (MyString_Set this str) tr (fun '(res, this') tr' =>
    Acct bor tr' R (string_block (ms_s this') ++ B) /\ MyString_wf this' /\
    res = MyString_Get this' /\ (MyString_Get this' = str \/ MyString_Get this' = None)).
Proof. by apply MyString_Set_ok. Qed.

Lemma MyString_set_get_witness :
  every_run any_answer (MyString_Set (MkString (Some (50%Z, [7%Z]))) (Some [8; 9]%Z))
    [Ev (CoTaskMemAlloc 4) 50%Z] (fun '(res, this') tr' =>
    Acct [] tr' [] (string_block (ms_s this') ++ []) /\ MyString_wf this' /\
    res = MyString_Get this' /\ (MyString_Get this' = Some [8; 9]%Z \/ MyString_Get this' = None)).
Proof.
  apply (MyString_set_get any_answer [] [Ev (CoTaskMemAlloc 4) 50%Z] [] []); [done| |].
  - unfold wide_ok; simpl; lia.
  - apply (Acct_cotask [] [] [] [] (Acct_nil []) 4 50); done.
Defined.

(** ** MIME types: properties *)

Lemma strrchr_none c s : forall pos, strrchr s c pos = None <-> has_char c s = false.
Proof.
  induction s as [|x s IH]; intros pos; simpl; [done|].
  destruct (strrchr s c (S pos)) eqn:E.
  - split; [done|]. intros H. apply orb_false_elim in H as [_ H]. apply (IH (S pos)) in H. congruence.
  - apply IH in E. rewrite E, orb_false_r. by destruct (Ascii.eqb x c).
Qed.

Lemma strrchr_last c pre ext : has_char c ext = false -> forall pos,
  strrchr (pre +:+ String c ext) c pos = Some ((pos + String.length pre)%nat, String c ext).
Proof.
  intros Hext. induction pre as [|x pre IH]; intros pos.
  - change (strrchr (String c ext) c pos = Some ((pos + 0)%nat, String c ext)). simpl.
    rewrite (proj2 (strrchr_none c ext (S pos)) Hext), Ascii.eqb_refl. by rewrite Nat.add_0_r.
  - change (strrchr (String x (pre +:+ String c ext)) c pos = Some ((pos + S (String.length pre))%nat, String c ext)).
    simpl. rewrite IH. do 2 f_equal. lia.
Qed.

Lemma tolower_idem c : tolower (tolower c) = tolower c.
Proof. destruct c as [[] [] [] [] [] [] [] []]; reflexivity. Qed.

Lemma string_tolower_idem s : string_tolower (string_tolower s) = string_tolower s.
Proof. induction s as [|c s IH]; simpl; [done|]. by rewrite tolower_idem, IH. Qed.

Lemma tolower_not_dot c : Ascii.eqb (tolower c) dot = Ascii.eqb c dot.
Proof. destruct c as [[] [] [] [] [] [] [] []]; reflexivity. Qed.

Lemma has_dot_tolower s : has_char dot (string_tolower s) = has_char dot s.
Proof. induction s as [|c s IH]; simpl; [done|]. by rewrite tolower_not_dot, IH. Qed.

(** The content type of a resource is decided by what follows the last dot of its URI,
    in any case, through the table; without a dot, with only a leading one, or
    with an extension the table does not have it is [text/html]. *)
Theorem content_type_by_extension :
  (forall uri, has_char dot uri = false -> getContentTypeFromUri uri = "text/html") /\
  (forall ext, has_char dot ext = false -> getContentTypeFromUri (String dot ext) = "text/html") /\
  (forall x pre ext, has_char dot ext = false ->
     getContentTypeFromUri (String x pre +:+ String dot ext) =
       default "text/html" (mimeMap !! String dot (string_tolower ext)) /\
     getContentTypeFromUri (String x pre +:+ String dot (string_tolower ext)) =
       getContentTypeFromUri (String x pre +:+ String dot ext)).
Proof.
  split_and!.
  - intros uri H. unfold getContentTypeFromUri. by rewrite (proj2 (strrchr_none dot uri 0) H).
  - intros ext H. unfold getContentTypeFromUri. pose proof (strrchr_last dot "" ext H 0) as E.
    change ("" +:+ String dot ext) with (String dot ext) in E. by rewrite E.
  - intros x pre ext H. unfold getContentTypeFromUri.
    rewrite !strrchr_last by (rewrite ?has_dot_tolower; done). cbn -[lookup mimeMap string_tolower].
    change (string_tolower (String dot ext)) with (String dot (string_tolower ext)).
    change (string_tolower (String dot (string_tolower ext))) with (String dot (string_tolower (string_tolower ext))).
    rewrite string_tolower_idem. by destruct (mimeMap !! String dot (string_tolower ext)).
Qed.

Lemma content_type_by_extension_witness :
  getContentTypeFromUri (String (Ascii.ascii_of_nat 115) "uneido:/a.b" +:+ String dot "PnG") = "image/png".
Proof.
  rewrite (proj1 (proj2 (proj2 content_type_by_extension) (Ascii.ascii_of_nat 115) "uneido:/a.b" "PnG" eq_refl)).
  vm_compute. reflexivity.
Defined.

(** ** Conversions: properties *)

(** UTF-8, which [WideCharToMultiByte] writes for [CP_UTF8], for the characters of the
    basic plane that are not surrogates. *)
Definition utf8_char (c : Z) : list Z :=
  if (c <? 128)%Z then [c]
  else if (c <? 2048)%Z then [192 + c / 64; 128 + c mod 64]%Z
  else [224 + c / 4096; 128 + c / 64 mod 64; 128 + c mod 64]%Z.

Definition utf8 (w : list Z) : list Z := concat (utf8_char <$> w).

Definition utf8_contract : contract Ans := fun _ a =>
  match a return Ans a -> Prop with
  | WideCharToMultiByte cp s cch => fun r => cp = CP_UTF8 ->
      if (cch =? 0)%Z then r = (Z.of_nat (length (utf8 s)) + 1, [])%Z
      else (Z.of_nat (length (utf8 s)) < cch)%Z -> r = (Z.of_nat (length (utf8 s)) + 1, utf8 s ++ [0])%Z
  | _ => fun _ => True
  end.

Lemma ConvertCharToWChar_id s : wide_ok s -> ConvertCharToWChar s = s.
Proof.
  unfold ConvertCharToWChar, mbstowcs_s, wide_ok. intros H. rewrite u64_id by lia. apply take_ge. lia.
Qed.

Lemma utf8_cons c s : utf8 (c :: s) = utf8_char c ++ utf8 s.
Proof. reflexivity. Qed.

Lemma utf8_ascii s : Forall (fun c => 0 <= c < 128)%Z s -> utf8 s = s.
Proof.
  induction 1 as [|c s Hc Hs IH]; [done|]. rewrite utf8_cons, IH.
  unfold utf8_char. by rewrite (proj2 (Z.ltb_lt c 128)) by lia.
Qed.

Lemma utf8_length s : (length s <= length (utf8 s))%nat.
Proof.
  induction s as [|c s IH]; [done|]. rewrite utf8_cons, length_app.
  unfold utf8_char. repeat case_match; simpl; lia.
Qed.

Lemma utf8_fixed s : Forall (fun c => 0 <= c < 256)%Z s -> utf8 s = s -> Forall (fun c => 0 <= c < 128)%Z s.
Proof.
  induction 1 as [|c s Hc Hs IH]; [done|].
  rewrite utf8_cons. intros E. pose proof (utf8_length s) as Hl. unfold utf8_char in E.
  destruct (Z.ltb_spec c 128); simpl in E.
  - injection E as E. constructor; [lia|by apply IH].
  - rewrite (proj2 (Z.ltb_lt c 2048)) in E by lia.
    apply (f_equal length) in E. simpl in E. lia.
Qed.

(** C36: A string that goes to the browser and comes back - through [ConvertCharToWChar] and
    [ConvertWcharToChar] - is unchanged exactly when it is ASCII: the first
    conversion takes bytes for characters while the second writes UTF-8. *)
Theorem conversion_round_trip s (Hs : Forall (fun c => 0 < c < 256)%Z s) (Hl : wide_ok s) :
  every_run utf8_contract (ConvertWcharToChar (Some (ConvertCharToWChar s))) [] (fun r _ =>
    (snd <$> r = Some (s ++ [0%Z])) <-> Forall (fun c => c < 128)%Z s).
Proof.
  rewrite ConvertCharToWChar_id by done. cbn. intros [len b0] H0.
  specialize (H0 eq_refl). injection H0 as -> ->.
  destruct (Z.eqb_spec (Z.of_nat (length (utf8 s)) + 1) 0); [lia|]. cbn -[Z.eqb].
  intros p _ [len2 b] H1. specialize (H1 eq_refl).
  destruct (Z.eqb_spec (Z.of_nat (length (utf8 s)) + 1) 0); [lia|].
  specialize (H1 ltac:(lia)). injection H1 as -> ->. cbn.
  assert (Hs' : Forall (fun c => 0 <= c < 256)%Z s) by (eapply Forall_impl; eauto; simpl; lia).
  split.
  - intros [= E]. apply app_inj_2 in E as [E _]; [|done].
    eapply Forall_impl; [by apply utf8_fixed|]. simpl; lia.
  - intros Ha. rewrite utf8_ascii; [done|].
    apply Forall_forall. intros c Hc.
    rewrite Forall_forall in Hs', Ha. specialize (Hs' c Hc). specialize (Ha c Hc). lia.
Qed.

Lemma conversion_round_trip_witness :
  every_run utf8_contract (ConvertWcharToChar (Some (ConvertCharToWChar [97; 233]%Z))) [] (fun r _ =>
    (snd <$> r = Some [97; 233; 0]%Z) <-> Forall (fun c => c < 128)%Z [97; 233]%Z).
Proof. apply (conversion_round_trip [97; 233]%Z); [repeat constructor; lia|unfold wide_ok; simpl; lia]. Defined.
