(* ===== verification/WvObject.v ===== *)
(** * The browser object and its event handlers (webview2/MyWebView2Base.h, My*Handler.h)

    [MyBrowserObject] is what Go has a pointer to.  The event handlers that the
    WebView2 runtime holds keep it alive with a reference each; [Close] cuts the
    callback into Go and gives up Go's own reference. *)

From S2P Require Import Prelude Prog Win32 Accounting RefCount WvApi.

(** ** Enumerations *)

Definition ON_READY : Z := 0.
Definition ON_LOADED : Z := 1.
Definition ON_ACCEL_KEY_PRESSED : Z := 2.
Definition ON_CONTEXT_MENU_REQUESTED : Z := 3.
Definition ON_NAVCOMPLETED : Z := 4.

Definition webview2_create : Z := 0.
Definition webview2_close : Z := 1.
Definition webview2_resize : Z := 2.
Definition webview2_navigate : Z := 3.
Definition webview2_navigate_to_string : Z := 4.
Definition webview2_execute_script : Z := 5.
Definition webview2_get_source : Z := 6.
Definition webview2_print : Z := 7.
Definition webview2_set_focus : Z := 8.

Definition OK : Z := 0.
Definition NOT_READY : Z := 1.
Definition INVALID_OP : Z := 2.
Definition DLL_NOT_FOUND : Z := 3.
Definition PROC_NOT_FOUND : Z := 4.

Definition FINISH : Z := 0.
Definition CREATING_ENVIRONMENT : Z := 1.
Definition CREATING_CONTROLLER : Z := 2.
Definition CREATING_WEBVIEW : Z := 3.
Definition REGISTER_CUSTOM_SCHEME : Z := 4.
Definition ADD_LOAD_EVENT_LISTENER : Z := 5.
Definition ADD_ACCELERATOR_HANDLER : Z := 6.
Definition ADD_CONTEXTMENU_HANDLER : Z := 7.

(** ** MyBrowserObject *)

Record MyBrowserObject := BrowserObject {
  controller : Z; webview2 : Z; bo_hwnd : Z; onCallBackFn : Z; bo_refCount : Z }.

Definition new_MyBrowserObject (hwnd cb : Z) : MyBrowserObject := BrowserObject 0 0 hwnd cb 1.

(** The destructor. *)
Definition bo_destroy (this : MyBrowserObject) : act unit :=
  _ ← (if c_true (webview2 this) then r ← call (Release (webview2 this)); Ret tt else Ret tt);
  if c_true (controller this) then
    _ ← call (Invoke (controller this) "Close" []);
    _ ← call (Release (controller this));
    Ret tt
  else Ret tt.

Definition go_callback (this : MyBrowserObject) (type a b c : Z) : act Z :=
  if c_true (onCallBackFn this) then call (GoCallback (onCallBackFn this) type a b c) else Ret 0%Z.

(** An [int] passed as [uintptr] is sign-extended. *)
Definition onReady (this : MyBrowserObject) (stage result : Z) : act unit :=
  _ ← go_callback this ON_READY (u64 stage) (u64 (i32 result)) 0; Ret tt.

Definition onLoaded (this : MyBrowserObject) : act unit := _ ← go_callback this ON_LOADED 0 0 0; Ret tt.

Definition onNavCompleted (this : MyBrowserObject) : act unit :=
  _ ← go_callback this ON_NAVCOMPLETED 0 0 0; Ret tt.

Definition onAccelPressed (this : MyBrowserObject) (key : Z) : act bool :=
  r ← go_callback this ON_ACCEL_KEY_PRESSED (u32 key) 0 0; Ret (c_true r).

Definition onContextMenuRequested (this : MyBrowserObject) : act bool :=
  r ← go_callback this ON_CONTEXT_MENU_REQUESTED 0 0 0; Ret (c_true r).

Definition SetController (this : MyBrowserObject) (value : Z) : act MyBrowserObject :=
  _ ← call (AddRef value);
  Ret (BrowserObject value (webview2 this) (bo_hwnd this) (onCallBackFn this) (bo_refCount this)).

Definition SetWebView2 (this : MyBrowserObject) (value : Z) : act MyBrowserObject :=
  _ ← call (AddRef value);
  Ret (BrowserObject (controller this) value (bo_hwnd this) (onCallBackFn this) (bo_refCount this)).

Definition with_refs (this : MyBrowserObject) (n : Z) : MyBrowserObject :=
  BrowserObject (controller this) (webview2 this) (bo_hwnd this) (onCallBackFn this) n.

Definition bo_AddRef (this : MyBrowserObject) : Z * MyBrowserObject :=
  let n := InterlockedIncrement (bo_refCount this) in (u32 n, with_refs this n).

(** [None] when the object was deleted. *)
Definition bo_Release (this : MyBrowserObject) : act (Z * option MyBrowserObject) :=
  let n := InterlockedDecrement (bo_refCount this) in
  let result := u32 n in
  if (result =? 0)%Z then _ ← bo_destroy (with_refs this n); Ret (result, None)
  else Ret (result, Some (with_refs this n)).

Definition bo_Close (this : MyBrowserObject) : act (Z * option MyBrowserObject) :=
  '(n, this) ← bo_Release (BrowserObject (controller this) (webview2 this) (bo_hwnd this) 0 (bo_refCount this));
  Ret (i32 n, this).

(** ** The handlers' [IUnknown]

    The handlers only differ in the interface they answer to, in whether they hold
    the browser object, and in the type of the counter. *)
Record handler_class := HandlerClass {
  hc_iid : guid; hc_holds : bool; hc_unsigned : bool }.

Record event_handler (c : handler_class) := Handler { h_refCount : Z }.
Arguments Handler {c} h_refCount.
Arguments h_refCount {c} e.

(** What the handlers share: the browser object, and whether it was only used
    while it existed. *)
Definition shared : Type := bool * option MyBrowserObject.

(** The constructor takes a reference on the browser object. *)
Definition new_handler (c : handler_class) (w : shared) : event_handler c * shared :=
  (Handler 1,
   if hc_holds c then
     match w.2 with
     | Some ob => (w.1, Some (bo_AddRef ob).2)
     | None => (false, None)
     end
   else w).

(** The destructor gives it back. *)
Definition handler_destroy (c : handler_class) (w : shared) : act shared :=
  if hc_holds c then
    match w.2 with
    | Some ob => '(_, o) ← bo_Release ob; Ret (w.1, o)
    | None => Ret (false, None)
    end
  else Ret w.

Definition handler_AddRef {c} (this : event_handler c) : Z * event_handler c :=
  let n := if hc_unsigned c then InterlockedIncrementU (h_refCount this)
           else InterlockedIncrement (h_refCount this) in
  (u32 n, Handler n).

Definition handler_Release {c} (this : event_handler c) (w : shared) : act (Z * option (event_handler c) * shared) :=
  let n := if hc_unsigned c then InterlockedDecrementU (h_refCount this)
           else InterlockedDecrement (h_refCount this) in
  let newRefCount := u32 n in
  if (newRefCount =? 0)%Z then w ← handler_destroy c w; Ret (newRefCount, None, w)
  else Ret (newRefCount, Some (Handler n), w).

Definition handler_QueryInterface {c} (this : event_handler c) (riid : guid) : Z * bool * event_handler c :=
  if bool_decide (riid = IID_IUnknown) || bool_decide (riid = hc_iid c)
  then (S_OK, true, (handler_AddRef this).2)
  else (E_NOINTERFACE, false, this).

(** The classes, with the identifier each compares [riid] with. *)
Definition MyAcceleratorKeyPressedHandler :=
  HandlerClass (i_iid ICoreWebView2AcceleratorKeyPressedEventHandler) true false.
Definition MyContextMenuRequestedEventHandler :=
  HandlerClass (i_iid ICoreWebView2ContextMenuRequestedEventHandler) true true.
Definition MyDOMContentLoadedEventHandler :=
  HandlerClass (i_iid ICoreWebView2DOMContentLoadedEventHandler) true true.
Definition MyNavigationCompletedEventHandler :=
  HandlerClass (i_iid ICoreWebView2DOMContentLoadedEventHandler) true true.
Definition MyCreateControllerCompletedHandler :=
  HandlerClass (i_iid ICoreWebView2CreateCoreWebView2ControllerCompletedHandler) true true.
Definition MyCreateEnvironmentCompletedHandler :=
  HandlerClass (i_iid ICoreWebView2CreateCoreWebView2EnvironmentCompletedHandler) true true.
Definition MyNewWindowRequestedHandler :=
  HandlerClass (i_iid ICoreWebView2NewWindowRequestedEventHandler) false false.
Definition MyCustomSchemeHandler :=
  HandlerClass (i_iid ICoreWebView2WebResourceRequestedEventHandler) false false.

(** ** The handlers' [Invoke] *)

Definition TRUE : Z := 1.

Definition Accelerator_Invoke (ob : MyBrowserObject) (sender args : Z) : act Z :=
  '(hr, keyEventKind) ← call (GetValue args "get_KeyEventKind" []);
  if FAILED hr then Ret hr
  else if (keyEventKind =? COREWEBVIEW2_KEY_EVENT_KIND_KEY_DOWN)%Z ||
          (keyEventKind =? COREWEBVIEW2_KEY_EVENT_KIND_SYSTEM_KEY_DOWN)%Z then
    '(hr, key) ← call (GetValue args "get_VirtualKey" []);
    if FAILED hr then Ret hr
    else
      handled ← onAccelPressed ob key;
      _ ← (if (handled : bool) then call (Invoke args "put_Handled" [AInt TRUE]) else Ret S_OK);
      Ret S_OK
  else Ret S_OK.

Definition ContextMenu_Invoke (ob : MyBrowserObject) (sender args : Z) : act Z :=
  b ← onContextMenuRequested ob;
  _ ← (if negb b then call (Invoke args "put_Handled" [AInt TRUE]) else Ret S_OK);
  Ret S_OK.

Definition DOMContentLoaded_Invoke (ob : MyBrowserObject) (webview args : Z) : act Z :=
  _ ← onLoaded ob; Ret S_OK.

Definition NavigationCompleted_Invoke (ob : MyBrowserObject) (webview args : Z) : act Z :=
  _ ← onNavCompleted ob; Ret S_OK.

(** [L"suneido:"] *)
Definition suneidoPrefix : list Z := [115; 117; 110; 101; 105; 100; 111; 58]%Z.
Definition suneidoPrefixSize : Z := 8.

(** [wcsncmp] of the first [n] characters is zero. *)
Definition wcsncmp_eq (a b : list Z) (n : Z) : bool :=
  bool_decide (take (Z.to_nat n) a = take (Z.to_nat n) b).

Definition is_suneido_uri (uri : list Z) : bool :=
  (suneidoPrefixSize <=? Z.of_nat (length uri))%Z && wcsncmp_eq uri suneidoPrefix suneidoPrefixSize.

Definition NewWindow_Invoke (sender args : Z) : act Z :=
  '(hr, uri) ← call (GetString args "get_Uri" []);
  match uri with
  | Some (p, w) =>
      if SUCCEEDED hr then
        _ ← (if is_suneido_uri w then call (Invoke args "put_Handled" [AInt TRUE]) else Ret S_OK);
        _ ← call (CoTaskMemFree p);
        Ret S_OK
      else Ret S_OK
  | None => Ret S_OK
  end.

(** ** [IUnknown] of the handlers *)

#[export] Instance handler_com c : ComObject (event_handler c) unit shared := {|
  refs := h_refCount;
  data _ := tt;
  com_AddRef := handler_AddRef;
  com_Release := handler_Release;
  com_QueryInterface := handler_QueryInterface;
  com_destroy _ w := handler_destroy c w |}.

#[export] Instance handler_laws c : ComLaws (event_handler c) unit shared.
Proof.
  apply (Build_ComLaws _ _ _ _ (fun iid => bool_decide (iid = IID_IUnknown) || bool_decide (iid = hc_iid c))).
  - reflexivity.
  - intros s Hs. destruct (increment_range _ Hs) as (E1 & E2 & E3). cbn in *. unfold handler_AddRef.
    assert (E4 : u32 (h_refCount s + 1) = (h_refCount s + 1)%Z) by (apply u32_id; unfold max_refs in *; lia).
    destruct (hc_unsigned c); cbn; rewrite ?E1, ?E2, ?E4; done.
  - intros s w Hs. destruct (decrement_range (refs s)) as (E1 & E2 & E3); [lia|]. cbn in *. unfold handler_Release.
    assert (E4 : u32 (h_refCount s - 1) = (h_refCount s - 1)%Z) by (apply u32_id; unfold max_refs in *; lia).
    exists (Handler (h_refCount s - 1)). destruct (hc_unsigned c); rewrite ?E1, ?E2, ?E4;
      (destruct (Z.eqb_spec (h_refCount s - 1) 0); [lia|done]).
  - intros s w Hs. cbn in *. unfold handler_Release. rewrite Hs. by destruct (hc_unsigned c).
  - reflexivity.
Defined.

(** ** Properties *)

Definition handler_classes : list handler_class := [
  MyAcceleratorKeyPressedHandler; MyContextMenuRequestedEventHandler; MyDOMContentLoadedEventHandler;
  MyNavigationCompletedEventHandler; MyCreateControllerCompletedHandler;
  MyCreateEnvironmentCompletedHandler; MyNewWindowRequestedHandler; MyCustomSchemeHandler].

(** C29: Every event handler lives exactly as long as its users hold references: any use
    that follows the rules of COM sees the promised counts and answers, the browser
    object is not touched meanwhile, and the destructor - which gives back the
    reference on the browser object - runs exactly once, at the last release. *)
Theorem handler_lifecycle c {E} (h : E -> forall a, Ans a * E) ops (this : event_handler c) w e
    (Hr : follows_rules (supports (St := event_handler c)) (h_refCount this) ops = true)
    (Hn : (0 < h_refCount this <= max_refs)%Z) :
  let n := balance (supports (St := event_handler c)) (h_refCount this) ops in
  let results := promised (supports (St := event_handler c)) (h_refCount this) ops in
  run h (client ops (Some this) w []) e =
    if (n =? 0)%Z then
      let '(w', e', tr) := run h (handler_destroy c w) e in (Some (results, None, w'), e', tr)
    else (Some (results, Some (Handler n), w), e, []).
Proof.
  pose proof (client_lifecycle h ops this w [] e Hr Hn) as HL. cbn zeta in *.
  change (refs this) with (h_refCount this) in HL. destruct (_ =? 0)%Z; [done|].
  destruct HL as ([r] & -> & <- & _). done.
Qed.

Lemma handler_lifecycle_witness :
  run good_env (client [CAddRef; CRelease; CRelease] (Some (Handler (c := MyAcceleratorKeyPressedHandler) 1))
                  (true, Some (BrowserObject 0 0 3 4 2)) []) 0%Z =
    (Some ([2; 1; 0]%Z, None, (true, Some (BrowserObject 0 0 3 4 1))), 0%Z, []).
Proof.
  assert (H1 : (0 < h_refCount (Handler (c := MyAcceleratorKeyPressedHandler) 1) <= max_refs)%Z)
    by (unfold max_refs; simpl; lia).
  exact (handler_lifecycle MyAcceleratorKeyPressedHandler good_env [CAddRef; CRelease; CRelease]
           (Handler 1) (true, Some (BrowserObject 0 0 3 4 2)) 0%Z eq_refl H1).
Defined.

(** A handler answers exactly to [IUnknown] and to its own interface - except the
    one for completed navigations, which compares with the identifier of the
    DOM-content-loaded handler: it refuses its own interface and accepts that
    other one. *)
Theorem handler_interfaces :
  (forall c riid (this : event_handler c),
     fst (fst (handler_QueryInterface this riid)) =
       if bool_decide (riid = IID_IUnknown) || bool_decide (riid = hc_iid c) then S_OK else E_NOINTERFACE) /\
  (hc_iid <$> handler_classes) = i_iid <$> [
     ICoreWebView2AcceleratorKeyPressedEventHandler; ICoreWebView2ContextMenuRequestedEventHandler;
     ICoreWebView2DOMContentLoadedEventHandler; ICoreWebView2DOMContentLoadedEventHandler;
     ICoreWebView2CreateCoreWebView2ControllerCompletedHandler;
     ICoreWebView2CreateCoreWebView2EnvironmentCompletedHandler;
     ICoreWebView2NewWindowRequestedEventHandler; ICoreWebView2WebResourceRequestedEventHandler] /\
  (forall this : event_handler MyNavigationCompletedEventHandler,
     handler_QueryInterface this (i_iid ICoreWebView2NavigationCompletedEventHandler) =
       (E_NOINTERFACE, false, this)).
Proof.
  split_and!.
  - intros c riid this. unfold handler_QueryInterface. by destruct (_ || _).
  - reflexivity.
  - intros this. unfold handler_QueryInterface. rewrite !bool_decide_eq_false_2; [done|discriminate..].
Qed.

(** The calls into Go of the event callbacks. *)
Definition callbacks (tr : list ev) : list (Z * Z * Z * Z * Z) :=
  omap (fun e => match e with Ev (GoCallback f t a b c) _ => Some (f, t, a, b, c) | _ => None end) tr.

(** What an accelerator event does: it is not read, it is no key-down event, its key is
    not read, or Go gets it and decides. *)
Definition accelerator_spec (ob : MyBrowserObject) (args hr : Z) (tr : list ev) : Prop :=
  exists hr1 kind,
    ((hr1 < 0)%Z /\ hr = hr1 /\ tr = [Ev (GetValue args "get_KeyEventKind" []) (hr1, kind)]) \/
    ((0 <= hr1)%Z /\ kind <> 0%Z /\ kind <> 2%Z /\ hr = S_OK /\
       tr = [Ev (GetValue args "get_KeyEventKind" []) (hr1, kind)]) \/
    ((0 <= hr1)%Z /\ (kind = 0 \/ kind = 2)%Z /\ exists hr2 key,
       ((hr2 < 0)%Z /\ hr = hr2 /\
          tr = [Ev (GetValue args "get_KeyEventKind" []) (hr1, kind);
                Ev (GetValue args "get_VirtualKey" []) (hr2, key)]) \/
       ((0 <= hr2)%Z /\ hr = S_OK /\ exists r x,
          tr = [Ev (GetValue args "get_KeyEventKind" []) (hr1, kind);
                Ev (GetValue args "get_VirtualKey" []) (hr2, key);
                Ev (GoCallback (onCallBackFn ob) ON_ACCEL_KEY_PRESSED (u32 key) 0 0) r] ++
               if c_true r then [Ev (Invoke args "put_Handled" [AInt TRUE]) x] else [])).

(** Key-down events (and only those, ordinary or system) reach Go with their virtual
    key, and are marked handled exactly when Go answers true; a failing read of
    the event is passed on without a callback. *)
Theorem accelerator_forwards ob sender args (Hcb : onCallBackFn ob <> 0%Z) :
  every_run any_answer (Accelerator_Invoke ob sender args) [] (accelerator_spec ob args).
Proof.
  unfold Accelerator_Invoke, accelerator_spec. cbn -[Z.eqb Z.ltb]. intros [hr1 kind] _.
  unfold FAILED. destruct (Z.ltb_spec hr1 0); cbn -[Z.eqb Z.ltb]; [exists hr1, kind; by left|].
  change COREWEBVIEW2_KEY_EVENT_KIND_KEY_DOWN with 0%Z.
  change COREWEBVIEW2_KEY_EVENT_KIND_SYSTEM_KEY_DOWN with 2%Z.
  destruct (decide (kind = 0 \/ kind = 2)%Z) as [Hk|Hk].
  - assert ((kind =? 0) || (kind =? 2) = true)%Z as -> by (destruct Hk; subst; reflexivity).
    cbn -[Z.eqb Z.ltb]. intros [hr2 key] _.
    destruct (Z.ltb_spec hr2 0); cbn -[Z.eqb Z.ltb].
    { exists hr1, kind. right. right. split_and!; [done..|]. exists hr2, key. by left. }
    unfold onAccelPressed, go_callback. rewrite (proj2 (c_true_spec _) Hcb). cbn -[Z.eqb]. intros r _.
    destruct (c_true r) eqn:E; cbn.
    + intros x _. exists hr1, kind. right. right. split_and!; [done..|].
      exists hr2, key. right. split_and!; [done..|]. exists r, x. by rewrite E.
    + exists hr1, kind. right. right. split_and!; [done..|].
      exists hr2, key. right. split_and!; [done..|]. exists r, 0%Z. by rewrite E.
  - assert ((kind =? 0) || (kind =? 2) = false)%Z as ->.
    { apply orb_false_intro; apply Z.eqb_neq; tauto. }
    cbn. exists hr1, kind. right. left. split_and!; tauto.
Qed.

Lemma accelerator_forwards_witness :
  every_run any_answer (Accelerator_Invoke (BrowserObject 0 0 3 4 2) 5 6) []
    (accelerator_spec (BrowserObject 0 0 3 4 2) 6).
Proof. apply (accelerator_forwards (BrowserObject 0 0 3 4 2) 5 6). discriminate. Defined.

(** Trying to open a window: a [suneido:] address is refused, any other is left to
    the browser, and the string is freed in either case. *)
Definition new_window_spec (args hr : Z) (tr : list ev) : Prop :=
  Acct [args] tr [] [] /\ hr = S_OK /\
  exists hr1 uri,
    Ev (GetString args "get_Uri" []) (hr1, uri) ∈ tr /\
    ((exists r, Ev (Invoke args "put_Handled" [AInt TRUE]) r ∈ tr) <->
     exists p rest, uri = Some (p, suneidoPrefix ++ rest) /\ (0 <= hr1)%Z).

(** The addresses that belong to Suneido. *)
Definition suneido_address (w : list Z) : Prop := exists rest, w = suneidoPrefix ++ rest.

Lemma is_suneido_uri_spec w : is_suneido_uri w = true <-> suneido_address w.
Proof.
  unfold suneido_address, is_suneido_uri, wcsncmp_eq, suneidoPrefixSize. rewrite andb_true_iff, Z.leb_le, bool_decide_eq_true.
  split.
  - intros [Hl E]. exists (drop 8 w). change (Z.to_nat 8) with 8%nat in E.
    rewrite <- (take_drop 8 w) at 1. by rewrite E.
  - intros [rest ->]. rewrite length_app. split; [simpl; lia|]. done.
Qed.

Lemma NewWindow_Invoke_ok sender args :
  every_run com_contract (NewWindow_Invoke sender args) [] (new_window_spec args).
Proof.
  unfold NewWindow_Invoke, new_window_spec.
  pose proof (Acct_nil [args]) as HA. revert HA.
  assert (Hnil : forall e : ev, e ∈ ([] : list ev) -> False) by (intros e He; by apply elem_of_nil in He).
  revert Hnil. generalize (@nil ev) as tr. intros tr Hnil HA.
  intros [hr uri] [[Hhr (p & w & E & Hp)]|[Hhr E]]; simpl in Hhr, E; subst; cbn.
  - acct_by HA (Acct_getstring_ok _ _ _ _ HA args "get_Uri" [] S_OK p w ltac:(acct_mem) ltac:(done) Hp).
    pose proof (is_suneido_uri_spec w) as Hs. unfold suneido_address in Hs. destruct (is_suneido_uri w); cbn.
    + intros r _. acct_step HA. intros [] _. acct_step HA. split_and!; [done..|]. exists S_OK, (Some (p, w)).
      split; [rewrite !elem_of_app, list_elem_of_singleton; auto|]. split.
      * intros _. destruct (proj1 Hs eq_refl) as [rest ->]. by exists p, rest.
      * intros _. exists r. rewrite !elem_of_app, !list_elem_of_singleton. auto.
    + intros [] _. acct_step HA. split_and!; [done..|]. exists S_OK, (Some (p, w)).
      split; [rewrite !elem_of_app, list_elem_of_singleton; auto|]. split.
      * intros [r Hr]. rewrite !elem_of_app, !list_elem_of_singleton in Hr.
        destruct Hr as [[Hr|Hr]|Hr]; [by apply Hnil in Hr|discriminate..].
      * intros (p' & rest & [= -> ->] & _). assert (false = true) by (apply Hs; eauto). done.
  - acct_by HA (Acct_getstring_fail _ _ _ _ HA args "get_Uri" [] hr ltac:(acct_mem)).
    split_and!; [done..|]. exists hr, None. split; [rewrite !elem_of_app, list_elem_of_singleton; auto|].
    split.
    + intros [r Hr]. rewrite !elem_of_app, !list_elem_of_singleton in Hr.
      destruct Hr as [Hr|Hr]; [by apply Hnil in Hr|discriminate].
    + intros (p' & rest & ? & _). done.
Qed.

(** A request for a new window is marked handled - so that none opens - exactly when
    its address begins with [suneido:], and the string with the address, which the
    handler owns, is freed exactly once. *)
Theorem new_window_refuses_suneido sender args :
  every_run com_contract (NewWindow_Invoke sender args) [] (new_window_spec args).
Proof. apply NewWindow_Invoke_ok. Qed.
