(* ===== verification/WvLife.v ===== *)
(** * The life of the browser object

    Go opens a browser and closes it; the WebView2 runtime creates, references, calls
    and releases event handlers in whatever order it likes, also after [Close].
    This file puts the operations of [WvObject] together and shows that the browser
    object outlives every handler that uses it, is deleted when the last user goes,
    and never calls Go once it is closed. *)

From S2P Require Import Prelude Prog Win32 Accounting RefCount WvObject.

(** A live handler of some class that holds the browser object. *)
Record live := Live { lv_class : handler_class; lv_handler : event_handler lv_class }.

(** What a handler reports to Go, and what it gets back where it looks at the answer. *)
Inductive report :=
| Ready (stage result : Z) | Loaded | NavCompleted | AccelPressed (key : Z) | ContextMenuRequested.

Definition tell (b : MyBrowserObject) (e : report) : act bool :=
  match e with
  | Ready stage result => _ ← onReady b stage result; Ret false
  | Loaded => _ ← onLoaded b; Ret false
  | NavCompleted => _ ← onNavCompleted b; Ret false
  | AccelPressed key => onAccelPressed b key
  | ContextMenuRequested => onContextMenuRequested b
  end.

(** Whether Go still has the browser open, the object, and the handlers created so
    far, [None] for those deleted. *)
Record life := Life { go_open : bool; ob : option MyBrowserObject; hs : list (option live) }.

Inductive life_op :=
| LNew (c : handler_class)      (* a handler is created, with one reference *)
| LAddRef (i : nat)
| LRelease (i : nat)
| LInvoke (i : nat) (e : report) (* the runtime calls handler [i], which reports to Go *)
| LReady (i : nat) (ctrl wv : Z) (* handler [i] stores the controller and the view *)
| LClose.                        (* Go closes the browser *)

Definition handler_at (s : life) (i : nat) : option live :=
  match hs s !! i with Some (Some l) => Some l | _ => None end.

(** [None]: an object was used after it was deleted. *)
Definition life_step (op : life_op) (s : life) : act (option life) :=
  match op with
  | LNew c =>
      let '(h, w) := new_handler c (true, ob s) in
      Ret (if (w : shared).1 then Some (Life (go_open s) w.2 (hs s ++ [Some (Live c h)])) else None)
  | LAddRef i =>
      match handler_at s i with
      | Some l =>
          Ret (Some (Life (go_open s) (ob s)
                      (<[i := Some (Live (lv_class l) (handler_AddRef (lv_handler l)).2)]> (hs s))))
      | None => Ret None
      end
  | LRelease i =>
      match handler_at s i with
      | Some l =>
          '(_, o, w) ← handler_Release (lv_handler l) (true, ob s);
          Ret (if (w : shared).1 then Some (Life (go_open s) w.2 (<[i := option_map (Live (lv_class l)) o]> (hs s))) else None)
      | None => Ret None
      end
  | LInvoke i e =>
      match handler_at s i, ob s with
      | Some _, Some b => _ ← tell b e; Ret (Some s)
      | _, _ => Ret None
      end
  | LReady i ctrl wv =>
      match handler_at s i, ob s with
      | Some _, Some b =>
          b ← SetController b ctrl; b ← SetWebView2 b wv; Ret (Some (Life (go_open s) (Some b) (hs s)))
      | _, _ => Ret None
      end
  | LClose =>
      match ob s with
      | Some b => '(_, o) ← bo_Close b; Ret (Some (Life false o (hs s)))
      | None => Ret None
      end
  end.

(** References on the browser object: Go's and one per live handler. *)
Definition is_live (o : option live) : bool := match o with Some _ => true | None => false end.

Definition users (s : life) : Z :=
  (if go_open s then 1 else 0) + sumZ (fun o => if is_live o then 1 else 0)%Z (hs s).

(** What the rules allow: only holders of a reference act, handlers are created while
    the object is in use, it is made ready once, and counters do not overflow. *)
Definition allowed (bor : list Z) (op : life_op) (s : life) : bool :=
  match op with
  | LNew c => hc_holds c && (0 <? users s)%Z && (users s <? max_refs)%Z
  | LAddRef i => match handler_at s i with Some l => (h_refCount (lv_handler l) <? max_refs)%Z | None => false end
  | LRelease i | LInvoke i _ => match handler_at s i with Some _ => true | None => false end
  | LReady i ctrl wv =>
      match handler_at s i, ob s with
      | Some _, Some b => negb (c_true (controller b)) && negb (c_true (webview2 b)) &&
                          c_true ctrl && c_true wv && bool_decide (ctrl ∈ bor) && bool_decide (wv ∈ bor)
      | _, _ => false
      end
  | LClose => go_open s
  end.

(** Any sequence of operations; those the rules forbid do not happen. *)
Fixpoint life_run (bor : list Z) (ops : list life_op) (s : life) : act (option life) :=
  match ops with
  | [] => Ret (Some s)
  | op :: ops =>
      if allowed bor op s then
        o ← life_step op s;
        match (o : option life) with Some s => life_run bor ops s | None => Ret None end
      else life_run bor ops s
  end.

(** Just after [CreateWebView2] made the object. *)
Definition opened (hwnd cb : Z) : life := Life true (Some (new_MyBrowserObject hwnd cb)) [].

(** ** Invariant *)

Definition live_ok (o : option live) : Prop :=
  match o with
  | Some l => (0 < h_refCount (lv_handler l) <= max_refs)%Z /\ hc_holds (lv_class l) = true
  | None => True
  end.

(** The references the browser object holds. *)
Definition bo_refs (b : MyBrowserObject) : list Z :=
  (if c_true (webview2 b) then [webview2 b] else []) ++
  (if c_true (controller b) then [controller b] else []).

Definition ob_refs (o : option MyBrowserObject) : list Z :=
  match o with Some b => bo_refs b | None => [] end.

Definition life_inv (s : life) : Prop :=
  Forall live_ok (hs s) /\ (users s <= max_refs)%Z /\
  match ob s with
  | Some b => bo_refCount b = users s /\ (0 < users s)%Z /\ (go_open s = false -> onCallBackFn b = 0%Z)
  | None => users s = 0%Z
  end.

Lemma live_sum_nonneg l : (0 <= sumZ (fun o => if is_live o then 1 else 0)%Z l)%Z.
Proof. unfold sumZ. induction l as [|o l IH]; simpl; [lia|]. destruct (is_live o); lia. Qed.

Lemma live_sum_insert l i o o' : l !! i = Some o ->
  sumZ (fun o => if is_live o then 1 else 0)%Z (<[i := o']> l) =
  (sumZ (fun o => if is_live o then 1 else 0) l - (if is_live o then 1 else 0) + (if is_live o' then 1 else 0))%Z.
Proof.
  unfold sumZ. revert i. induction l as [|x l IH]; intros [|i] H; simpl in *; try discriminate.
  - injection H as ->. lia.
  - rewrite (IH _ H). lia.
Qed.

Lemma users_nonneg s : (0 <= users s)%Z.
Proof. unfold users. pose proof (live_sum_nonneg (hs s)). destruct (go_open s); lia. Qed.

Lemma handler_at_lookup s i l : handler_at s i = Some l -> hs s !! i = Some (Some l).
Proof. unfold handler_at. destruct (hs s !! i) as [[|]|]; congruence. Qed.

Lemma users_handler s i l : handler_at s i = Some l -> (0 < users s)%Z.
Proof.
  intros H. apply handler_at_lookup in H. unfold users.
  pose proof (live_sum_insert (hs s) i (Some l) None H) as E.
  pose proof (live_sum_nonneg (<[i := None]> (hs s))). simpl in E. destruct (go_open s); lia.
Qed.

(** Deleting the browser object gives back exactly what it held. *)
Lemma bo_destroy_ok b bor tr F B : Acct bor tr (bo_refs b ++ F) B ->
  every_run any_answer (bo_destroy b) tr (fun _ tr' => Acct bor tr' F B /\ callbacks tr' = callbacks tr).
Proof.
  unfold bo_destroy, bo_refs. intros HA.
  destruct (c_true (webview2 b)); cbn; [intros r _; cbn in HA; acct_step HA|];
    (destruct (c_true (controller b)); cbn in *;
      [intros r1 _; acct_step HA; intros r2 _; acct_step HA|]);
    (split; [exact HA|]); unfold callbacks; rewrite ?omap_app; cbn; rewrite ?app_nil_r; done.
Qed.

Lemma bo_Release_ok b bor tr F B : (0 < bo_refCount b <= max_refs)%Z -> Acct bor tr (bo_refs b ++ F) B ->
  every_run any_answer (bo_Release b) tr (fun '(n, o) tr' =>
    n = (bo_refCount b - 1)%Z /\
    o = (if (n =? 0)%Z then None else Some (with_refs b n)) /\
    Acct bor tr' (ob_refs o ++ F) B /\ callbacks tr' = callbacks tr).
Proof.
  intros Hn HA. unfold bo_Release. destruct (decrement_range _ Hn) as (E1 & E2 & E3). rewrite E1, E3 || rewrite E1.
  assert (u32 (bo_refCount b - 1) = bo_refCount b - 1)%Z as -> by (apply u32_id; unfold max_refs in *; lia).
  destruct (Z.eqb_spec (bo_refCount b - 1) 0) as [E|E].
  - apply every_run_bind. eapply every_run_mono; [|apply (bo_destroy_ok (with_refs b (bo_refCount b - 1)) _ _ _ _ HA)].
    cbn -[Z.eqb]. intros _ tr' [HA' Hc]. rewrite E. done.
  - cbn -[Z.eqb]. rewrite (proj2 (Z.eqb_neq _ _) E). done.
Qed.

(** ** Reports

    The four numbers Go gets for a report, the [int]s of it sign-extended, and whether the handler
    looks at its answer. *)
Definition report_args (e : report) : Z * Z * Z * Z :=
  match e with
  | Ready stage result => (ON_READY, u64 stage, u64 (i32 result), 0)
  | Loaded => (ON_LOADED, 0, 0, 0)
  | NavCompleted => (ON_NAVCOMPLETED, 0, 0, 0)
  | AccelPressed key => (ON_ACCEL_KEY_PRESSED, u32 key, 0, 0)
  | ContextMenuRequested => (ON_CONTEXT_MENU_REQUESTED, 0, 0, 0)
  end%Z.

Definition asks (e : report) : bool :=
  match e with AccelPressed _ | ContextMenuRequested => true | _ => false end.

(** Go is called exactly once, with these numbers, or not at all without a callback. *)
Definition told (b : MyBrowserObject) (e : report) (tr : list ev) (r : bool) (tr' : list ev) : Prop :=
  if decide (onCallBackFn b = 0%Z) then tr' = tr /\ r = false
  else exists w, r = asks e && bool_decide (w <> 0%Z) /\
    let '(type, x, y, z) := report_args e in tr' = tr ++ [Ev (GoCallback (onCallBackFn b) type x y z) w].

Lemma tell_told b e tr : every_run any_answer (tell b e) tr (told b e tr).
Proof.
  assert (Hc : forall w, c_true w = bool_decide (w <> 0%Z)).
  { intros w. apply eq_true_iff_eq. by rewrite bool_decide_eq_true, c_true_spec. }
  unfold told. destruct (decide (onCallBackFn b = 0%Z)) as [E|E].
  - destruct e; cbn; unfold onReady, onLoaded, onNavCompleted, onAccelPressed, onContextMenuRequested, go_callback;
      rewrite E; by cbn.
  - destruct e; cbn; unfold onReady, onLoaded, onNavCompleted, onAccelPressed, onContextMenuRequested, go_callback;
      rewrite (proj2 (c_true_spec _) E); cbn; intros w _; exists w; (split; [|reflexivity]); done.
Qed.

(** What every operation keeps. *)
Definition life_post (bor : list Z) (s : life) (tr : list ev) (o : option life) (tr' : list ev) : Prop :=
  exists s', o = Some s' /\ life_inv s' /\ Acct bor tr' (ob_refs (ob s')) [] /\
    (go_open s = false -> go_open s' = false /\ callbacks tr' = callbacks tr).

Lemma inv_handler s i l : life_inv s -> handler_at s i = Some l ->
  (0 < h_refCount (lv_handler l) <= max_refs)%Z /\ hc_holds (lv_class l) = true /\
  exists b, ob s = Some b /\ bo_refCount b = users s /\ (0 < users s <= max_refs)%Z /\
    (go_open s = false -> onCallBackFn b = 0%Z).
Proof.
  intros Hinv Hl. destruct Hinv as (Hhs & Hmax & Hob). pose proof (users_handler _ _ _ Hl).
  apply handler_at_lookup in Hl. apply (Forall_lookup_1 _ _ _ _ Hhs) in Hl as [H1 H2].
  split_and!; [lia..|done|]. destruct (ob s) as [b|]; [|lia]. exists b. destruct Hob as (? & ? & ?). done.
Qed.

Section steps.
Context (bor : list Z) (s : life) (tr : list ev).
Context (Hinv : life_inv s) (HA : Acct bor tr (ob_refs (ob s)) []).

Lemma step_new c : allowed bor (LNew c) s = true ->
  every_run any_answer (life_step (LNew c) s) tr (life_post bor s tr).
Proof using Hinv HA.
  cbn. rewrite !andb_true_iff. intros [[Hc H0%Z.ltb_lt] Hmax%Z.ltb_lt]. unfold new_handler. rewrite Hc. cbn.
  destruct Hinv as (Hhs & _ & Hob). destruct (ob s) as [b|] eqn:Eb; [|lia]. destruct Hob as (Hr & _ & Hcl). cbn.
  assert (Hu : users (Life (go_open s) (Some (bo_AddRef b).2) (hs s ++ [Some (Live c (Handler 1))]))
               = (users s + 1)%Z).
  { unfold users. simpl. rewrite sumZ_app. unfold sumZ. simpl. lia. }
  eexists. split; [reflexivity|]. split_and!; [|exact HA|by auto].
  destruct (increment_range (bo_refCount b)) as (E1 & _ & _); [lia|].
  split; [|split]; cbn -[users] in *.
  - apply Forall_app. split; [done|]. repeat constructor; [simpl; unfold max_refs; lia..|done].
  - lia.
  - rewrite Hu, E1. split_and!; [lia..|done].
Qed.

Lemma step_addref i : allowed bor (LAddRef i) s = true ->
  every_run any_answer (life_step (LAddRef i) s) tr (life_post bor s tr).
Proof using Hinv HA.
  cbn. destruct (handler_at s i) as [l|] eqn:El; [|done]. intros Hlt%Z.ltb_lt.
  destruct (inv_handler s i l Hinv El) as (H1 & H2 & _). pose proof (handler_at_lookup _ _ _ El) as Hl.
  destruct Hinv as (Hhs & Hmax & Hob). cbn.
  eexists. split; [reflexivity|]. split_and!; [|exact HA|by auto].
  match goal with |- life_inv ?s' => assert (Hu : users s' = users s) end.
  { unfold users. simpl. rewrite (live_sum_insert _ _ _ _ Hl). simpl. lia. }
  destruct (increment_range (h_refCount (lv_handler l))) as (E1 & E2 & _); [lia|].
  split; [|split]; rewrite ?Hu; cbn -[users]; [|done|exact Hob].
  apply Forall_insert; [done|]. split; [|done]. cbn. unfold max_refs in *.
  destruct (hc_unsigned (lv_class l)); lia.
Qed.

Lemma step_release i : allowed bor (LRelease i) s = true ->
  every_run any_answer (life_step (LRelease i) s) tr (life_post bor s tr).
Proof using Hinv HA.
  cbn. destruct (handler_at s i) as [l|] eqn:El; [|done]. intros _.
  destruct (inv_handler s i l Hinv El) as (H1 & H2 & b & Eb & Hr & Hu & Hcl).
  pose proof (handler_at_lookup _ _ _ El) as Hl. destruct Hinv as (Hhs & _ & _).
  unfold handler_Release. destruct (decrement_range _ H1) as (E1 & E2 & E3).
  assert (E4 : u32 (h_refCount (lv_handler l) - 1) = (h_refCount (lv_handler l) - 1)%Z)
    by (apply u32_id; unfold max_refs in *; lia).
  rewrite E1, E2. replace (if hc_unsigned (lv_class l) then (h_refCount (lv_handler l) - 1)%Z else (h_refCount (lv_handler l) - 1)%Z)
    with (h_refCount (lv_handler l) - 1)%Z by by destruct (hc_unsigned (lv_class l)).
  rewrite E4. destruct (Z.eqb_spec (h_refCount (lv_handler l) - 1) 0) as [E|E]; cbn -[Z.eqb].
  - unfold handler_destroy. rewrite H2, Eb. cbn [snd fst]. rewrite Eb in HA.
    repeat apply every_run_bind. eapply every_run_mono; [|apply (bo_Release_ok b bor tr []); [lia|rewrite app_nil_r; exact HA]].
    intros [n o] tr' (-> & -> & HA' & Hc). rewrite app_nil_r in HA'. cbn -[Z.eqb]. eexists. split; [reflexivity|].
    match goal with |- life_inv ?s' /\ _ => assert (Hu' : users s' = (users s - 1)%Z) end.
    { unfold users. simpl. rewrite (live_sum_insert _ _ _ _ Hl). simpl. lia. }
    split_and!; [|exact HA'|by auto].
    split; [|split]; rewrite ?Hu'; cbn -[users Z.eqb]; [by apply Forall_insert|lia|].
    destruct (Z.eqb_spec (bo_refCount b - 1) 0); cbn -[users]; [lia|]. split_and!; [lia..|done].
  - eexists. split; [reflexivity|]. split_and!; [|exact HA|by auto].
    match goal with |- life_inv ?s' => assert (Hu' : users s' = users s) end.
    { unfold users. simpl. rewrite (live_sum_insert _ _ _ _ Hl). simpl. lia. }
    split; [|split]; rewrite ?Hu'; cbn -[users]; [|lia|rewrite Eb; cbn; split_and!; [done|lia|done]].
    apply Forall_insert; [done|]. split; [|done]. simpl. lia.
Qed.

Lemma step_invoke i e : allowed bor (LInvoke i e) s = true ->
  every_run any_answer (life_step (LInvoke i e) s) tr (life_post bor s tr).
Proof using Hinv HA.
  cbn. destruct (handler_at s i) as [l|] eqn:El; [|done]. intros _.
  destruct (inv_handler s i l Hinv El) as (_ & _ & b & Eb & Hr & Hu & Hcl). pose proof HA as HA0. rewrite Eb in HA0 |- *.
  apply every_run_bind. eapply every_run_mono; [|apply tell_told]. unfold told. intros r tr' Ht. cbn.
  exists s. destruct (decide (onCallBackFn b = 0%Z)) as [Ec|Ec].
  - destruct Ht as [-> _]. split_and!; [done..| |auto]. by rewrite Eb.
  - destruct Ht as (w & _ & Ht). destruct (report_args e) as [[[type x] y] z]. subst tr'. split_and!; [done..| |].
    + rewrite Eb. acct_step HA0. done.
    + intros Hg. by rewrite (Hcl Hg) in Ec.
Qed.

Lemma step_ready i ctrl wv : allowed bor (LReady i ctrl wv) s = true ->
  every_run any_answer (life_step (LReady i ctrl wv) s) tr (life_post bor s tr).
Proof using Hinv HA.
  cbn. destruct (handler_at s i) as [l|] eqn:El; [|done].
  destruct (inv_handler s i l Hinv El) as (_ & _ & b & Eb & Hr & Hu & Hcl). rewrite Eb in HA |- *.
  rewrite !andb_true_iff, !negb_true_iff, !bool_decide_eq_true.
  intros (((((H1 & H2) & H3) & H4) & H5) & H6). cbn. cbn [ob_refs] in HA. unfold bo_refs in HA.
  rewrite H1, H2 in HA. cbn in HA. pose proof HA as HA0.
  intros r _. acct_by HA0 (Acct_addref _ _ _ _ HA0 ctrl r ltac:(by left)).
  intros r2 _. acct_by HA0 (Acct_addref _ _ _ _ HA0 wv r2 ltac:(by left)).
  eexists. split; [reflexivity|]. split_and!.
  - destruct Hinv as (Hhs & Hmax & _). split_and!; [done..|]. cbn. change (users _) with (users s).
    split_and!; [done|lia|done].
  - cbn. unfold bo_refs. cbn. by rewrite H3, H4.
  - intros Hg. split; [done|]. unfold callbacks. rewrite !omap_app. cbn. by rewrite !app_nil_r.
Qed.

Lemma step_close : allowed bor LClose s = true ->
  every_run any_answer (life_step LClose s) tr (fun o tr' =>
    life_post bor s tr o tr' /\ from_option (fun s' => go_open s' = false) True o).
Proof using Hinv HA.
  cbn. intros Hg. destruct Hinv as (Hhs & Hmax & Hob). destruct (ob s) as [b|] eqn:Eb.
  2: { unfold users in Hob. rewrite Hg in Hob. pose proof (live_sum_nonneg (hs s)). lia. }
  destruct Hob as (Hr & H0 & _). unfold bo_Close. repeat apply every_run_bind.
  eapply every_run_mono; [|apply (bo_Release_ok _ bor tr []); [cbn; lia|rewrite app_nil_r; exact HA]].
  intros [n o] tr' (-> & -> & HA' & Hc). rewrite app_nil_r in HA'. cbn -[Z.eqb users] in *. split; [|done]. eexists. split; [reflexivity|].
  assert (Hu' : forall o, users (Life false o (hs s)) = (users s - 1)%Z).
  { intros o. unfold users. simpl. rewrite Hg. lia. }
  split_and!; [|exact HA'|by rewrite Hg].
  split; [|split]; rewrite ?Hu'; cbn -[users Z.eqb]; [done|lia|].
  destruct (Z.eqb_spec (bo_refCount b - 1) 0); cbn -[users]; [lia|]. split_and!; [lia..|done].
Qed.

Lemma step_ok op : allowed bor op s = true ->
  every_run any_answer (life_step op s) tr (life_post bor s tr).
Proof using Hinv HA.
  destruct op; [apply step_new|apply step_addref|apply step_release|apply step_invoke|
    apply step_ready|].
  intros Hop. eapply every_run_mono; [|by apply step_close]. by intros o tr' [H _].
Qed.
End steps.

Lemma run_ok bor ops : forall s tr, life_inv s -> Acct bor tr (ob_refs (ob s)) [] ->
  every_run any_answer (life_run bor ops s) tr (life_post bor s tr).
Proof.
  induction ops as [|op ops IH]; intros s tr Hinv HA; cbn [life_run].
  { exists s. auto. }
  destruct (allowed bor op s) eqn:E; [|by apply IH]. apply every_run_bind.
  eapply every_run_mono; [|by apply (step_ok bor s tr Hinv HA op E)].
  intros o tr1 (s1 & -> & Hinv1 & HA1 & Hc1).
  eapply every_run_mono; [|by apply (IH s1 tr1 Hinv1 HA1)].
  intros o tr2 (s2 & -> & Hinv2 & HA2 & Hc2). exists s2. split_and!; [done..|].
  intros Hg. destruct (Hc1 Hg) as [Hg1 E1]. destruct (Hc2 Hg1) as [Hg2 E2]. by rewrite E2, E1.
Qed.

Lemma opened_inv hwnd cb : life_inv (opened hwnd cb).
Proof. split_and!; [constructor|unfold users, max_refs; simpl; lia|]. split_and!; unfold users; simpl; [done|lia|done]. Qed.

(** ** Properties *)

(** C9: However the runtime creates, references, calls and releases handlers, and
    whenever Go closes the browser, no handler ever uses the browser object after
    it was deleted.  The object exists exactly as long as Go has it open or some
    handler is alive; its counter is the number of those users; and it holds one
    reference on the controller and the view it was given, which are given back -
    the controller closed first - when it is deleted. *)
Theorem browser_object_safe bor hwnd cb ops :
  every_run any_answer (life_run bor ops (opened hwnd cb)) [] (fun o tr => exists s,
    o = Some s /\ Forall live_ok (hs s) /\
    Acct bor tr (ob_refs (ob s)) [] /\
    match ob s with
    | Some b => bo_refCount b = users s /\ (0 < users s <= max_refs)%Z
    | None => users s = 0%Z
    end).
Proof.
  eapply every_run_mono; [|apply (run_ok bor ops (opened hwnd cb) []); [apply opened_inv|apply Acct_nil]].
  intros o tr (s & -> & (H1 & H2 & H3) & HA & _). exists s. split_and!; [done..|].
  destruct (ob s); [|done]. destruct H3 as (? & ? & _). done.
Qed.

(** C30: A report - [onReady], [onLoaded], [onNavCompleted], [onAccelPressed],
    [onContextMenuRequested] - calls Go exactly once, with its own number and its arguments, while
    the browser object has its callback; without one it calls nothing, and the answer the handler
    sees is no.  And once Go has closed the browser it is never called again, whatever is still
    reported by the handlers that are alive. *)
Theorem silent_after_close bor hwnd cb ops1 ops2 :
  (forall b e tr, every_run any_answer (tell b e) tr (told b e tr)) /\
  every_run any_answer
    (o ← life_run bor (ops1 ++ [LClose]) (opened hwnd cb);
     match (o : option life) with Some s => life_run bor ops2 s | None => Ret None end) []
    (fun o tr => exists tr1 tr2, tr = tr1 ++ tr2 /\ callbacks tr2 = [] /\
       exists s, o = Some s /\ go_open s = false).
Proof.
  split; [apply tell_told|].
  assert (Hrun : forall ops s tr, life_inv s -> Acct bor tr (ob_refs (ob s)) [] ->
    every_run any_answer (life_run bor (ops ++ [LClose]) s) tr (fun o tr' => exists s', o = Some s' /\
      go_open s' = false /\ life_inv s' /\ Acct bor tr' (ob_refs (ob s')) [])).
  { induction ops as [|op ops IH]; intros s tr Hinv HA; cbn [life_run app].
    - destruct (allowed bor LClose s) eqn:E; [|by exists s].
      apply every_run_bind. eapply every_run_mono; [|by apply (step_close bor s tr Hinv HA E)].
      intros o tr1 [(s1 & -> & H1 & H2 & _) H3]. exists s1. auto.
    - destruct (allowed bor op s) eqn:E; [|by apply IH].
      apply every_run_bind. eapply every_run_mono; [|by apply (step_ok bor s tr Hinv HA op E)].
      intros o tr1 (s1 & -> & H1 & H2 & _). by apply IH. }
  apply every_run_bind. eapply every_run_mono; [|apply Hrun; [apply opened_inv|apply Acct_nil]].
  intros o tr1 (s1 & -> & Hg & Hinv1 & HA1). eapply every_run_mono.
  2: { apply every_run_and; [by apply (run_ok bor ops2 s1 tr1 Hinv1 HA1)|apply every_run_extends]. }
  intros o tr [(s2 & -> & _ & _ & Hc) [tr2 ->]]. exists tr1, tr2. destruct (Hc Hg) as [Hg2 E].
  unfold callbacks in E. rewrite omap_app in E. rewrite <- (app_nil_r (omap _ tr1)) in E at 2.
  apply app_inv_head in E. split_and!; [done..|]. by exists s2.
Qed.
