(* ===== verification/WvScheme.v ===== *)
(** * The options given to WebView2 (MyCoreWebView2CustomSchemeRegistration.h,
    MyCoreWebView2EnvironmentOptions.h)

    Two COM objects of the bridge that only carry data: the registration of the
    [suneido:] scheme, and the environment options that hold it.  The memory they
    own and the copies they hand out are what can go wrong here. *)

From S2P Require Import Prelude Prog Win32 Accounting RefCount WvApi WvHelpers.

(** ** Error codes *)

Definition HRESULT_FROM_WIN32 (e : Z) : Z :=
  let x := i32 e in
  if (x <=? 0)%Z then x else i32 (Z.lor (Z.lor (Z.land x 0xffff) 0x70000) 0x80000000).

Definition last_error : act Z := e ← call GetLastError; Ret (HRESULT_FROM_WIN32 e).

(** ** MyCoreWebView2CustomSchemeRegistration *)

(** [m_allowedOrigins]: null, the array of strings at [p], or a pointer to a deleted array. *)
Inductive origins := ONull | OArray (p : Z) (l : list MyString) | ODangling.

Record Registration := MkRegistration {
  r_refCount : Z; m_schemeName : MyString; m_allowedOrigins : origins;
  m_allowedOriginsCount : Z; m_TreatAsSecure : Z; m_HasAuthorityComponent : Z }.

Definition with_origins (this : Registration) (o : origins) (n : Z) : Registration :=
  MkRegistration (r_refCount this) (m_schemeName this) o n (m_TreatAsSecure this) (m_HasAuthorityComponent this).

Definition new_Registration (schemeName : option (list Z)) : act Registration :=
  '(_, name) ← MyString_Set new_MyString schemeName;
  Ret (MkRegistration 1 name ONull 0 0 0).

(** [delete[]] runs the destructors from the last element to the first, then frees the array. *)
Fixpoint destroy_strings (l : list MyString) : act unit :=
  match l with [] => Ret tt | s :: l => _ ← destroy_strings l; MyString_destroy s end.

(** [None]: the array was deleted before. *)
Definition ReleaseAllowedOrigins (this : Registration) : act (option Registration) :=
  match m_allowedOrigins this with
  | ONull => Ret (Some (with_origins this ONull 0))
  | OArray p l =>
      _ ← destroy_strings l;
      _ ← call (DeleteArray p);
      Ret (Some (with_origins this ONull 0))
  | ODangling => Ret None
  end.

Definition get_SchemeName (this : Registration) (schemeName : bool) : act (Z * option (Z * list Z)) :=
  if negb schemeName then Ret (E_POINTER, None)
  else
    s ← MyString_Copy (m_schemeName this);
    if negb (bool_decide (is_Some s)) && bool_decide (is_Some (MyString_Get (m_schemeName this)))
    then hr ← last_error; Ret (hr, s)
    else Ret (S_OK, s).

Fixpoint free_blocks (l : list (Z * list Z)) : act unit :=
  match l with [] => Ret tt | (p, _) :: l => _ ← call (CoTaskMemFree p); free_blocks l end.

(** The loop of [GetAllowedOrigins]; [copies] are those made so far. *)
Fixpoint copy_origins (l : list MyString) (arr : Z) (copies : list (Z * list Z))
    : act (Z * Z * option (Z * list (Z * list Z))) :=
  match l with
  | [] => Ret (S_OK, Z.of_nat (length copies), Some (arr, copies))
  | s :: l =>
      c ← MyString_Copy s;
      match (c : option (Z * list Z)) with
      | Some b => copy_origins l arr (copies ++ [b])
      | None =>
          hr ← last_error;
          _ ← free_blocks copies;
          _ ← call (CoTaskMemFree arr);
          Ret (hr, 0%Z, None)
      end
  end.

(** The result code, [*allowedOriginsCount], and the array with the copies. *)
Definition GetAllowedOrigins (this : Registration) (ptrs : bool)
    : act (Z * Z * option (Z * list (Z * list Z))) :=
  if negb ptrs then Ret (E_POINTER, 0%Z, None)
  else if (m_allowedOriginsCount this =? 0)%Z then Ret (S_OK, 0%Z, None)
  else
    arr ← call (CoTaskMemAlloc (u64 (m_allowedOriginsCount this * 8)));
    if negb (c_true arr) then hr ← last_error; Ret (hr, 0%Z, None)
    else copy_origins (match m_allowedOrigins this with OArray _ l => l | _ => [] end) arr [].

(** The loop of [SetAllowedOrigins] over the array at [p]; [set] are the strings set so far.  When
    one fails, those before it are released from the first on, so that [delete[]] only finds
    empty strings. *)
Fixpoint set_origins (this : Registration) (p : Z) (l : list (option (list Z))) (set : list MyString)
    : act (Z * Registration) :=
  match l with
  | [] => Ret (S_OK, with_origins this (OArray p set) (Z.of_nat (length set)))
  | w :: l =>
      '(_, s) ← MyString_Set new_MyString w;
      match MyString_Get s with
      | Some _ => set_origins this p l (set ++ [s])
      | None =>
          hr ← last_error;
          _ ← destroy_strings (rev set);
          _ ← call (DeleteArray p);
          Ret (hr, with_origins this ODangling 0)
      end
  end.

Definition SetAllowedOrigins (this : Registration) (allowedOrigins : list (option (list Z)))
    : act (option (Z * Registration)) :=
  o ← ReleaseAllowedOrigins this;
  match (o : option Registration) with
  | None => Ret None
  | Some this =>
      match allowedOrigins with
      | [] => Ret (Some (S_OK, this))
      | _ =>
          p ← call (NewArray (Z.of_nat (length allowedOrigins)));
          if negb (c_true p) then hr ← last_error; Ret (Some (hr, this))
          else r ← set_origins this p allowedOrigins []; Ret (Some r)
      end
  end.

(** The destructor, with those of the members; whether it was sound. *)
Definition Registration_destroy (this : Registration) : act bool :=
  o ← ReleaseAllowedOrigins this;
  match (o : option Registration) with
  | None => Ret false
  | Some this => _ ← MyString_destroy (m_schemeName this); Ret true
  end.

(** [delete this]; [ok] is whether the heap was intact before. *)
Definition Registration_delete (this : Registration) (ok : bool) : act bool :=
  sound ← Registration_destroy this; Ret (ok && sound).

Definition get_TreatAsSecure (this : Registration) (value : bool) : Z * option Z :=
  if negb value then (E_POINTER, None) else (S_OK, Some (m_TreatAsSecure this)).

Definition put_TreatAsSecure (this : Registration) (value : Z) : Z * Registration :=
  (S_OK, MkRegistration (r_refCount this) (m_schemeName this) (m_allowedOrigins this)
           (m_allowedOriginsCount this) value (m_HasAuthorityComponent this)).

Definition get_HasAuthorityComponent (this : Registration) (value : bool) : Z * option Z :=
  if negb value then (E_POINTER, None) else (S_OK, Some (m_HasAuthorityComponent this)).

Definition put_HasAuthorityComponent (this : Registration) (value : Z) : Z * Registration :=
  (S_OK, MkRegistration (r_refCount this) (m_schemeName this) (m_allowedOrigins this)
           (m_allowedOriginsCount this) (m_TreatAsSecure this) value).

Definition reg_with_refs (this : Registration) (n : Z) : Registration :=
  MkRegistration n (m_schemeName this) (m_allowedOrigins this)
    (m_allowedOriginsCount this) (m_TreatAsSecure this) (m_HasAuthorityComponent this).

Definition Registration_AddRef (this : Registration) : Z * Registration :=
  let n := InterlockedIncrementU (r_refCount this) in (n, reg_with_refs this n).

Definition Registration_Release (this : Registration) (ok : bool) : act (Z * option Registration * bool) :=
  let count := InterlockedDecrementU (r_refCount this) in
  if (count =? 0)%Z then ok ← Registration_delete (reg_with_refs this 0) ok; Ret (count, None, ok)
  else Ret (count, Some (reg_with_refs this count), ok).

Definition Registration_QueryInterface (this : Registration) (riid : guid) : Z * bool * Registration :=
  if bool_decide (riid = IID_IUnknown) || bool_decide (riid = i_iid ICoreWebView2CustomSchemeRegistration)
  then (S_OK, true, (Registration_AddRef this).2)
  else (E_NOINTERFACE, false, this).

#[export] Instance Registration_com : ComObject Registration Registration bool := {|
  refs := r_refCount;
  data s := reg_with_refs s 0;
  com_AddRef := Registration_AddRef;
  com_Release := Registration_Release;
  com_QueryInterface := Registration_QueryInterface;
  com_destroy := Registration_delete |}.

#[export] Instance Registration_laws : ComLaws Registration Registration bool.
Proof.
  apply (Build_ComLaws _ _ _ _ (fun iid => bool_decide (iid = IID_IUnknown) ||
                                  bool_decide (iid = i_iid ICoreWebView2CustomSchemeRegistration))).
  - reflexivity.
  - com_laws ltac:(unfold Registration_AddRef).
  - com_laws ltac:(unfold Registration_Release).
  - intros s w Hs. cbn in *. unfold Registration_Release. by rewrite Hs.
  - reflexivity.
Defined.

(** ** Registration: memory *)

Definition strings_blocks (l : list MyString) : list Z := concat ((fun s => string_block (ms_s s)) <$> l).

Definition origins_blocks (o : origins) : list Z :=
  match o with OArray p l => strings_blocks l ++ [p] | _ => [] end.

Definition origins_strings (o : origins) : list (option (list Z)) :=
  match o with OArray _ l => MyString_Get <$> l | _ => [] end.

(** The array holds as many strings as the counter says, each set and within bounds. *)
Definition registration_wf (this : Registration) : Prop :=
  match m_allowedOrigins this with
  | OArray p l => p <> 0%Z /\ Forall (fun s => MyString_wf s /\ exists w, MyString_Get s = Some w /\ wide_ok w) l /\
                m_allowedOriginsCount this = Z.of_nat (length l) /\ l <> []
  | _ => m_allowedOriginsCount this = 0%Z
  end.

Lemma strings_blocks_cons s l : strings_blocks (s :: l) = string_block (ms_s s) ++ strings_blocks l.
Proof. reflexivity. Qed.

Lemma strings_blocks_app l1 l2 : strings_blocks (l1 ++ l2) = strings_blocks l1 ++ strings_blocks l2.
Proof. unfold strings_blocks. by rewrite fmap_app, concat_app. Qed.

Lemma strings_blocks_perm l1 l2 : l1 ≡ₚ l2 -> strings_blocks l1 ≡ₚ strings_blocks l2.
Proof.
  induction 1 as [|s l1 l2 _ IH|s1 s2 l|l1 l2 l3 _ IH1 _ IH2]; rewrite ?strings_blocks_cons.
  - done.
  - by rewrite IH.
  - apply Permutation_app_swap_app.
  - by etrans.
Qed.

Lemma last_error_acct C bor tr R B : Acct bor tr R B ->
  every_run C last_error tr (fun _ tr' => Acct bor tr' R B).
Proof. intros HA. cbn. intros r _. acct_step HA. done. Qed.

Lemma destroy_strings_ok C bor R B l : forall tr,
  Forall MyString_wf l -> Acct bor tr R (strings_blocks l ++ B) ->
  every_run C (destroy_strings l) tr (fun _ tr' => Acct bor tr' R B).
Proof.
  revert B. induction l as [|s l IH]; intros B tr Hwf HA; cbn [destroy_strings]; [done|].
  apply Forall_cons in Hwf as [Hs Hl]. apply every_run_bind.
  eapply every_run_mono; [|apply (IH (string_block (ms_s s) ++ B)); [done|]].
  - cbn beta. intros _ tr1 HA1. unfold MyString_destroy. apply every_run_bind.
    eapply every_run_mono; [|by apply (MyString_Release_ok C _ _ _ _ _ Hs HA1)]. by intros ? tr2 [HA2 _].
  - rewrite strings_blocks_cons in HA. eapply Acct_proper; [reflexivity| |exact HA].
    rewrite <- !(assoc_L (++)). rewrite (assoc_L (++) (strings_blocks l)), (Permutation_app_comm (strings_blocks l)).
    by rewrite <- (assoc_L (++)).
Qed.

Lemma delete_array_ok C bor tr R B p : p <> 0%Z -> Acct bor tr R (p :: B) ->
  every_run C (call (DeleteArray p)) tr (fun _ tr' => Acct bor tr' R B).
Proof. intros Hp HA. cbn. intros r _. by apply (Acct_delete_array _ _ _ _ HA p r B). Qed.

Lemma release_origins_ok C bor tr R B this :
  registration_wf this -> m_allowedOrigins this <> ODangling ->
  Acct bor tr R (origins_blocks (m_allowedOrigins this) ++ B) ->
  every_run C (ReleaseAllowedOrigins this) tr (fun o tr' =>
    o = Some (with_origins this ONull 0) /\ Acct bor tr' R B).
Proof.
  intros Hwf Hd HA. unfold ReleaseAllowedOrigins, registration_wf in *.
  destruct (m_allowedOrigins this) as [|p l|]; cbn in *; [done| |done].
  destruct Hwf as (Hp & Hl & _). rewrite <- (assoc_L (++)) in HA. apply every_run_bind.
  eapply every_run_mono; [|apply (destroy_strings_ok C bor R (p :: B) l); [|exact HA]].
  - intros x tr' HA' r Hr. simpl in HA'. split; [done|]. by apply (Acct_delete_array _ _ _ _ HA' p r B).
  - eapply Forall_impl; [exact Hl|]. by intros s [H _].
Qed.

Lemma set_origins_ok C bor R B this p l : p <> 0%Z -> forall set tr,
  Forall (from_option wide_ok True) l ->
  Forall (fun s => MyString_wf s /\ exists w, MyString_Get s = Some w /\ wide_ok w) set ->
  (set <> [] \/ l <> []) ->
  Acct bor tr R (strings_blocks set ++ p :: B) ->
  every_run C (set_origins this p l set) tr (fun '(hr, this') tr' =>
    registration_wf this' /\ m_schemeName this' = m_schemeName this /\ r_refCount this' = r_refCount this /\
    ((m_allowedOrigins this' = ODangling /\ Acct bor tr' R B) \/
     (hr = S_OK /\ origins_strings (m_allowedOrigins this') = (MyString_Get <$> set) ++ l /\
      m_allowedOrigins this' <> ODangling /\
      Acct bor tr' R (origins_blocks (m_allowedOrigins this') ++ B)))).
Proof.
  intros Hp. induction l as [|w l IH]; intros set tr Hl Hset Hne HA; cbn [set_origins].
  { cbn -[registration_wf]. split_and!; [|done..|].
    - unfold registration_wf. cbn. destruct Hne; done.
    - right. split_and!; [done| |done|]; cbn; [by rewrite app_nil_r|]. by rewrite <- (assoc_L (++)). }
  apply Forall_cons in Hl as [Hw Hl]. apply every_run_bind.
  eapply every_run_mono; [|by apply (MyString_Set_ok C bor tr R (strings_blocks set ++ p :: B) new_MyString w I Hw)].
  intros [res s] tr1 (HA1 & Hs & _ & Hg). destruct (MyString_Get s) as [v|] eqn:Ev.
  - assert (w = Some v) as -> by (destruct Hg as [Hg|Hg]; congruence). simpl in Hw.
    eapply every_run_mono; [|apply (IH (set ++ [s])); [done| | |]].
    + intros [hr this'] tr2 (H1 & H2 & H3 & H4). split_and!; [done..|].
      destruct H4 as [H4|(H4 & H5 & H6)]; [by left|right]. split_and!; [done| |apply H6..].
      rewrite H5, fmap_app, <- (assoc_L (++)). simpl. by rewrite Ev.
    + apply Forall_app. split; [done|]. repeat constructor; [done|]. by exists v.
    + left. by destruct set.
    + rewrite strings_blocks_app, <- (assoc_L (++)).
      eapply Acct_proper; [reflexivity| |exact HA1]. rewrite strings_blocks_cons. simpl.
      rewrite app_nil_r. apply Permutation_app_swap_app.
  - apply every_run_bind. assert (HA2 : Acct bor tr1 R (strings_blocks set ++ p :: B)).
    { unfold MyString_Get in Ev. by destruct (ms_s s) as [[q v]|]. }
    eapply every_run_mono; [|by apply (last_error_acct C _ _ _ _ HA2)].
    cbn beta. intros hr tr2 HA3. apply every_run_bind.
    eapply every_run_mono; [|apply (destroy_strings_ok C bor R (p :: B) (rev set))].
    + cbn beta. intros _ tr3 HA4. apply every_run_bind. eapply every_run_mono; [|by apply delete_array_ok; [|exact HA4]].
      cbn. intros _ tr4 HA5. split_and!; [done..|]. by left.
    + apply Forall_rev. eapply Forall_impl; [exact Hset|]. by intros ? [H _].
    + eapply Acct_proper; [reflexivity| |exact HA3]. f_equiv. apply strings_blocks_perm. symmetry. apply Permutation_rev.
Qed.

Lemma free_blocks_ok C bor tr R B l :
  Forall (fun b => b.1 <> 0%Z) l -> Acct bor tr R (l.*1 ++ B) ->
  every_run C (free_blocks l) tr (fun _ tr' => Acct bor tr' R B).
Proof.
  revert tr. induction l as [|[p w] l IH]; intros tr Hl HA; cbn [free_blocks]; [done|].
  apply Forall_cons in Hl as [Hp Hl]. cbn. intros [] _. apply IH; [done|].
  by apply (Acct_cotask_free _ _ _ _ HA p tt (l.*1 ++ B)).
Qed.

Lemma copy_origins_ok C bor R B arr l : forall copies tr,
  arr <> 0%Z -> Forall (fun s => MyString_wf s /\ exists w, MyString_Get s = Some w /\ wide_ok w) l ->
  Forall (fun b => b.1 <> 0%Z) copies -> Acct bor tr R (copies.*1 ++ arr :: B) ->
  every_run C (copy_origins l arr copies) tr (fun '(hr, n, out) tr' =>
    match out with
    | Some (arr', cs) =>
        hr = S_OK /\ arr' = arr /\ n = Z.of_nat (length cs) /\
        Some <$> cs.*2 = (Some <$> copies.*2) ++ (MyString_Get <$> l) /\
        Acct bor tr' R (cs.*1 ++ arr :: B)
    | None => n = 0%Z /\ Acct bor tr' R B
    end).
Proof.
  induction l as [|s l IH]; intros copies tr Harr Hl Hc HA; cbn [copy_origins].
  { cbn. split_and!; [done..| |done]. by rewrite app_nil_r. }
  apply Forall_cons in Hl as [(Hs & w & Hw & Hok) Hl]. apply every_run_bind.
  unfold MyString_Get in Hw. destruct (ms_s s) as [[p v]|] eqn:Es; [|done]. injection Hw as ->.
  unfold MyString_Copy. rewrite Es.
  eapply every_run_mono; [|by apply (MakeString_ok C bor tr R _ w Hok HA)].
  intros [[q v]|] tr1 (HA1 & Hq & Hv).
  - assert (v = w) as -> by (destruct Hv as [Hv|Hv]; [done|by injection Hv]).
    eapply every_run_mono; [|apply (IH (copies ++ [(q, w)])); [done..| |]].
    + intros [[hr n] [[arr' cs]|]] tr2; [|done]. intros (H1 & H2 & H3 & H4 & H5). split_and!; [done..| |done].
      rewrite H4, !fmap_app, <- (assoc_L (++)). cbn. unfold MyString_Get at 2. by rewrite Es.
    + apply Forall_app. split; [done|]. by repeat constructor.
    + rewrite fmap_app, <- (assoc_L (++)). eapply Acct_proper; [reflexivity| |exact HA1].
      cbn. symmetry. apply Permutation_middle.
  - apply every_run_bind. eapply every_run_mono; [|by apply (last_error_acct C bor tr1 R _ HA1)].
    cbn beta. intros hr tr2 HA2. apply every_run_bind.
    eapply every_run_mono; [|apply (free_blocks_ok C bor tr2 R (arr :: B) copies); [done|exact HA2]].
    cbn. intros _ tr3 HA3. intros [] _. split; [done|].
    by apply (Acct_cotask_free _ _ _ _ HA3 arr tt B).
Qed.

(** ** Registration: what the allocator decides *)

(** What the allocations answered, and the error codes that were asked for. *)
Definition memory_of (e : ev) : option (Z + Z) :=
  match e with
  | Ev a r => match a return Ans a -> option (Z + Z) with
              | NewArray _ | CoTaskMemAlloc _ => fun p => Some (inl p)
              | GetLastError => fun e => Some (inr e)
              | _ => fun _ => None
              end r
  end.

Definition memory (tr : list ev) : list (Z + Z) := omap memory_of tr.

Lemma memory_app tr1 tr2 : memory (tr1 ++ tr2) = memory tr1 ++ memory tr2.
Proof. apply omap_app. Qed.

(** Calls that free. *)
Definition frees (a : Win32) : Prop :=
  match a with CoTaskMemFree _ | DeleteArray _ | AddRef _ | Release _ => True | _ => False end.

Lemma frees_memory {T} C (p : act T) tr : only_calls frees p ->
  every_run C p tr (fun _ tr' => memory tr' = memory tr).
Proof.
  intros Hp. eapply every_run_mono; [|by apply only_calls_every_run]. intros _ tr' (tr1 & -> & H).
  rewrite memory_app. enough (memory tr1 = []) as -> by apply app_nil_r.
  induction H as [|[a r] tr1 Ha _ IH]; [done|]. unfold memory in *. by destruct a.
Qed.

Lemma destroy_string_frees s : only_calls frees (MyString_destroy s).
Proof. unfold MyString_destroy, MyString_Release. by destruct (ms_s s) as [[p w]|]; cbn. Qed.

Lemma destroy_strings_frees l : only_calls frees (destroy_strings l).
Proof.
  induction l as [|s l IH]; [done|]. apply only_calls_bind; [exact IH|]. intros _. apply destroy_string_frees.
Qed.

Lemma free_blocks_frees l : only_calls frees (free_blocks l).
Proof. by induction l as [|[p w] l IH]; cbn. Qed.

Lemma release_origins_frees this : only_calls frees (ReleaseAllowedOrigins this).
Proof.
  unfold ReleaseAllowedOrigins. destruct (m_allowedOrigins this) as [|p l|]; [done| |done].
  apply only_calls_bind; [apply destroy_strings_frees|]. by cbn.
Qed.

Lemma MakeString_memory C w tr : wide_ok w ->
  every_run C (MakeString w) tr (fun s tr' => exists p, memory tr' = memory tr ++ [inl p] /\
    s = if c_true p then Some (p, w) else None).
Proof.
  intros Hw. unfold MakeString. unfold wide_ok in Hw. rewrite u64_id by lia.
  destruct (Z.leb_spec ((Z.of_nat (length w) + 1) * 2) (Z.of_nat (length w))); [lia|].
  cbn. intros p _. exists p. by rewrite memory_app.
Qed.

Lemma last_error_memory C tr :
  every_run C last_error tr (fun hr tr' => exists e, memory tr' = memory tr ++ [inr e] /\ hr = HRESULT_FROM_WIN32 e).
Proof. cbn. intros e _. exists e. by rewrite memory_app. Qed.

(** The allocations [l] succeeded; then none was needed any more, or one failed. *)
Definition lasted (before : list (Z + Z)) (l : list Z) (tr : list ev) : Prop :=
  Forall (fun p => p <> 0%Z) l /\ memory tr = before ++ (inl <$> l).

Definition ran_out (before : list (Z + Z)) (l : list Z) (e : Z) (tr : list ev) : Prop :=
  Forall (fun p => p <> 0%Z) l /\ memory tr = before ++ (inl <$> l) ++ [inl 0%Z; inr e].

(** The string that was set from [w] in the block [p]. *)
Definition string_at (p : Z) (w : list Z) : MyString := MkString (Some (p, w)).

Lemma set_origins_memory C this p ws : forall set tr, Forall wide_ok ws ->
  every_run C (set_origins this p (Some <$> ws) set) tr (fun '(hr, this') tr' => exists l,
    (length l = length ws /\ lasted (memory tr) l tr' /\ hr = S_OK /\
       this' = with_origins this (OArray p (set ++ zip_with string_at l ws)) (Z.of_nat (length set + length ws))) \/
    (length l < length ws /\ exists e, ran_out (memory tr) l e tr' /\ hr = HRESULT_FROM_WIN32 e /\
       this' = with_origins this ODangling 0)).
Proof.
  induction ws as [|w ws IH]; intros set tr Hws; cbn [fmap list_fmap set_origins].
  { exists []. left. unfold lasted. cbn. rewrite !app_nil_r, Nat.add_0_r. by split_and!. }
  apply Forall_cons in Hws as [Hw Hws]. unfold MyString_Set. cbn [MyString_Release new_MyString ms_s].
  apply every_run_bind, every_run_bind. change (mbind ?f (Ret ?x)) with (f x).
  apply every_run_bind. eapply every_run_mono; [|by apply MakeString_memory].
  intros s tr1 (q & Hm & ->). cbn [every_run]. unfold MyString_Get. cbn [ms_s]. destruct (c_true q) eqn:Eq; cbn [fmap option_fmap option_map snd].
  - apply c_true_spec in Eq. eapply every_run_mono; [|by apply IH].
    intros [hr this'] tr2 (l & H). exists (q :: l). unfold lasted, ran_out in *. rewrite Hm in H.
    cbn [fmap list_fmap length zip_with] in *. change (MkString (Some (q, w))) with (string_at q w) in H.
    rewrite length_app in H. cbn [length] in H. rewrite <- !(assoc_L (++)) in H. cbn [app] in *.
    destruct H as [(H1 & [H2 H3] & H4 & H5)|(H1 & e & [H2 H3] & H4)]; [left|right].
    + split_and!; [lia|by constructor|done|done|]. rewrite H5. do 2 f_equal; lia.
    + split; [lia|]. rewrite <- (assoc_L (++)) in H3. exists e. split_and!; [by constructor|done|by destruct H4|by destruct H4].
  - apply c_true_0 in Eq as ->. apply every_run_bind. eapply every_run_mono; [|apply last_error_memory].
    intros hr tr2 (e & Hm2 & ->). apply every_run_bind. eapply every_run_mono; [|apply frees_memory, destroy_strings_frees].
    cbn. intros _ tr3 Hm3 [] _. exists []. right. split; [simpl; lia|]. exists e. split_and!; [|done|done].
    split; [constructor|]. rewrite memory_app, Hm3, Hm2, Hm, <- !(assoc_L (++)). by rewrite app_nil_r.
Qed.

Lemma copy_origins_memory C arr ps ws : forall copies tr, length ps = length ws -> Forall wide_ok ws ->
  every_run C (copy_origins (zip_with string_at ps ws) arr copies) tr (fun r tr' => exists l,
    (length l = length ws /\ lasted (memory tr) l tr' /\
       r = (S_OK, Z.of_nat (length copies + length ws), Some (arr, copies ++ zip l ws))) \/
    (length l < length ws /\ exists e, ran_out (memory tr) l e tr' /\ r = (HRESULT_FROM_WIN32 e, 0%Z, None))).
Proof.
  revert ps. induction ws as [|w ws IH]; intros [|p ps] copies tr Hl Hws; try done; cbn [zip_with copy_origins].
  { exists []. left. unfold lasted. cbn. rewrite !app_nil_r, Nat.add_0_r. by split_and!. }
  apply Forall_cons in Hws as [Hw Hws]. injection Hl as Hl. unfold MyString_Copy. cbn [string_at ms_s]. apply every_run_bind.
  eapply every_run_mono; [|by apply MakeString_memory].
  intros s tr1 (q & Hm & ->). destruct (c_true q) eqn:Eq.
  - apply c_true_spec in Eq. eapply every_run_mono; [|by apply (IH ps (copies ++ [(q, w)]))].
    intros r tr2 (l & H). exists (q :: l). unfold lasted, ran_out in *. rewrite Hm in H.
    cbn [fmap list_fmap length zip_with] in *. rewrite length_app in H. cbn [length] in H.
    rewrite <- !(assoc_L (++)) in H. cbn [app] in *.
    destruct H as [(H1 & [H2 H3] & H4)|(H1 & e & [H2 H3] & H4)]; [left|right].
    + split_and!; [lia|by constructor|done|]. rewrite H4. by replace (length copies + 1 + length ws) with (length copies + S (length ws)) by lia.
    + split; [lia|]. rewrite <- (assoc_L (++)) in H3. exists e. split_and!; [by constructor|done|done].
  - apply c_true_0 in Eq as ->. apply every_run_bind. eapply every_run_mono; [|apply last_error_memory].
    intros hr tr2 (e & Hm2 & ->). apply every_run_bind. eapply every_run_mono; [|apply frees_memory, free_blocks_frees].
    cbn. intros _ tr3 Hm3 [] _. exists []. right. split; [simpl; lia|]. exists e. split_and!; [|done].
    split; [constructor|]. rewrite memory_app, Hm3, Hm2, Hm, <- !(assoc_L (++)). by rewrite app_nil_r.
Qed.

(** ** Registration: properties *)

(** Origins are set, and asked for. *)
Definition set_and_get (this : Registration) (ws : list (list Z))
    : act (option (Z * Registration * (Z * Z * option (Z * list (Z * list Z))))) :=
  o ← SetAllowedOrigins this (Some <$> ws);
  match (o : option (Z * Registration)) with
  | Some (hr, this) => r ← GetAllowedOrigins this true; Ret (Some (hr, this, r))
  | None => Ret None
  end.

(** The blocks that [GetAllowedOrigins] hands out. *)
Definition copies_blocks (r : Z * Z * option (Z * list (Z * list Z))) : list Z :=
  match r.2 with Some (arr, cs) => cs.*1 ++ [arr] | None => [] end.

(** Nothing leaks on any path. *)
Lemma GetAllowedOrigins_ok C bor tr R B this :
  registration_wf this -> m_allowedOrigins this <> ODangling -> Acct bor tr R (origins_blocks (m_allowedOrigins this) ++ B) ->
  every_run C (GetAllowedOrigins this true) tr (fun r tr' =>
    Acct bor tr' R (copies_blocks r ++ origins_blocks (m_allowedOrigins this) ++ B)).
Proof.
  intros Hwf Hd HA. unfold GetAllowedOrigins. cbn [negb]. unfold registration_wf in Hwf.
  destruct (Z.eqb_spec (m_allowedOriginsCount this) 0) as [|Hn]; [exact HA|].
  destruct (m_allowedOrigins this) as [|p l|] eqn:El; [done| |done]. destruct Hwf as (Hp & Hl & _).
  cbn -[copy_origins last_error origins_blocks]. intros arr _.
  destruct (c_true arr) eqn:Ea; cbn -[copy_origins last_error origins_blocks].
  - apply c_true_spec in Ea. eapply every_run_mono; [|apply (copy_origins_ok C bor R (origins_blocks (OArray p l) ++ B) arr l []);
      [done|done|constructor|by apply (Acct_cotask _ _ _ _ HA)]].
    intros [[hr n1] [[arr' cs]|]] tr3; unfold copies_blocks; cbn [snd].
    + intros (_ & -> & _ & _ & HA3). by rewrite <- (assoc_L (++)).
    + intros [_ HA3]. exact HA3.
  - apply c_true_0 in Ea as ->. apply (Acct_cotask_fail _ _ _ _) with (n := u64 (m_allowedOriginsCount this * 8)) in HA.
    intros e _. acct_step HA. exact HA.
Qed.

(** Nothing leaks on any path. *)
Lemma set_and_get_accounts C bor tr R B this ws :
  registration_wf this -> m_allowedOrigins this <> ODangling -> ws <> [] -> Forall wide_ok ws ->
  Acct bor tr R (origins_blocks (m_allowedOrigins this) ++ B) ->
  every_run C (set_and_get this ws) tr (fun o tr' => exists hr this' r, o = Some (hr, this', r) /\
    Acct bor tr' R (copies_blocks r ++ origins_blocks (m_allowedOrigins this') ++ B)).
Proof.
  intros Hwf Hd Hne Hws HA. unfold set_and_get, SetAllowedOrigins. apply every_run_bind, every_run_bind.
  eapply every_run_mono; [|by apply (release_origins_ok C bor tr R B this Hwf Hd HA)].
  intros o tr1 [-> HA1]. destruct ws as [|w ws]; [done|]. cbn -[set_origins GetAllowedOrigins last_error origins_blocks copies_blocks].
  intros p _. destruct (c_true p) eqn:Ep; cbn -[set_origins GetAllowedOrigins last_error origins_blocks copies_blocks].
  2: { apply c_true_0 in Ep as ->. intros e _. exists (HRESULT_FROM_WIN32 e). eexists _, _. split; [reflexivity|]. cbn.
       match goal with |- Acct _ ((_ ++ [Ev ?a _]) ++ _) _ _ =>
         pose proof (Acct_other _ _ _ _ HA1 a 0%Z eq_refl (fun _ => eq_refl) (fun _ => eq_refl)) as HA2 end.
       acct_step HA2. exact HA2. }
  apply c_true_spec in Ep. apply every_run_bind. eapply every_run_mono.
  2: { apply (set_origins_ok C bor R B (with_origins this ONull 0) p (Some w :: (Some <$> ws)) Ep []).
       - exact (proj2 (Forall_fmap Some (from_option wide_ok True) (w :: ws)) Hws).
       - constructor.
       - by right.
       - by apply (Acct_new_array _ _ _ _ HA1). }
  intros [hr this'] tr2 (Hwf' & _ & _ & Hcase). cbn -[GetAllowedOrigins]. apply every_run_bind.
  destruct Hcase as [[Hdang HA2]|(_ & _ & Hnd & HA2)].
  - unfold registration_wf in Hwf'. rewrite Hdang in Hwf'. unfold GetAllowedOrigins. rewrite Hwf'. cbn.
    eexists _, _, _. split; [reflexivity|]. by rewrite Hdang.
  - eapply every_run_mono; [|by apply GetAllowedOrigins_ok]. intros r tr3 HA3. by eexists _, _, _.
Qed.

Lemma release_origins_shape C this tr : m_allowedOrigins this <> ODangling ->
  every_run C (ReleaseAllowedOrigins this) tr (fun o _ => o = Some (with_origins this ONull 0)).
Proof.
  unfold ReleaseAllowedOrigins. destruct (m_allowedOrigins this) as [|p l|]; [done| |done]. intros _.
  apply every_run_bind. eapply every_run_mono; [|apply every_run_true]. done.
Qed.

(** Asking for strings that were set. *)
Lemma get_origins_memory C this p l ws tr : ws <> [] -> length l = length ws -> Forall wide_ok ws ->
  every_run C (GetAllowedOrigins (with_origins this (OArray p (zip_with string_at l ws)) (Z.of_nat (length ws))) true) tr
    (fun r tr' => exists l2,
      (exists arr l3, l2 = arr :: l3 /\ length l3 = length ws /\ lasted (memory tr) l2 tr' /\
         r = (S_OK, Z.of_nat (length ws), Some (arr, zip l3 ws))) \/
      (exists e, length l2 <= length ws /\ ran_out (memory tr) l2 e tr' /\ r = (HRESULT_FROM_WIN32 e, 0%Z, None))).
Proof.
  intros Hne Hl Hws. unfold GetAllowedOrigins. cbn -[copy_origins last_error].
  destruct (Z.eqb_spec (Z.of_nat (length ws)) 0); [by destruct ws|]. cbn -[copy_origins last_error]. intros arr _.
  destruct (c_true arr) eqn:Ea; cbn -[copy_origins last_error].
  - apply c_true_spec in Ea. eapply every_run_mono; [|by apply (copy_origins_memory C arr l ws [])].
    intros r tr2 (l3 & [(Hl3 & [Hnz Hm] & ->)|(Hl3 & e & [Hnz Hm] & ->)]); exists (arr :: l3); rewrite memory_app in Hm; [left|right].
    + exists arr, l3. split_and!; [done..| |done]. split; [by constructor|]. by rewrite Hm, <- (assoc_L (++)).
    + exists e. simpl. split_and!; [lia| |done]. split; [by constructor|]. by rewrite Hm, <- (assoc_L (++)).
  - apply c_true_0 in Ea as ->. intros e _. exists []. right. exists e. simpl. split_and!; [lia| |done].
    split; [constructor|]. by rewrite !memory_app, <- (assoc_L (++)).
Qed.

(** What the allocator decides. *)
Definition origins_outcome (ws : list (list Z)) (before : list (Z + Z)) (hr : Z) (this' : Registration)
    (r : Z * Z * option (Z * list (Z * list Z))) (l : list Z) (tr : list ev) : Prop :=
  let n := length ws in
  (length l = 2 * n + 2 /\ lasted before l tr /\ hr = S_OK /\
     origins_strings (m_allowedOrigins this') = Some <$> ws /\
     exists arr, l !! (n + 1) = Some arr /\ r = (S_OK, Z.of_nat n, Some (arr, zip (drop (n + 2) l) ws))) \/
  exists e, ran_out before l e tr /\
    if decide (length l <= n) then
      hr = HRESULT_FROM_WIN32 e /\ origins_strings (m_allowedOrigins this') = [] /\ r = (S_OK, 0%Z, None)
    else
      length l < 2 * n + 2 /\ hr = S_OK /\ origins_strings (m_allowedOrigins this') = Some <$> ws /\
      r = (HRESULT_FROM_WIN32 e, 0%Z, None).

Lemma strings_at_get l ws : length l = length ws -> MyString_Get <$> zip_with string_at l ws = Some <$> ws.
Proof. revert l. induction ws as [|w ws IH]; intros [|p l]; try done. intros [= Hl]. cbn. by rewrite IH. Qed.

Lemma set_and_get_memory C this ws tr : m_allowedOrigins this <> ODangling -> ws <> [] -> Forall wide_ok ws ->
  every_run C (set_and_get this ws) tr (fun o tr' => exists hr this' r l, o = Some (hr, this', r) /\
    origins_outcome ws (memory tr) hr this' r l tr').
Proof.
  intros Hd Hne Hws. unfold set_and_get, SetAllowedOrigins. apply every_run_bind, every_run_bind.
  eapply every_run_mono; [|apply every_run_and; [apply frees_memory, release_origins_frees|by apply release_origins_shape]].
  intros o tr1 [<- ->]. destruct ws as [|w ws]; [done|]. set (ws' := w :: ws) in *.
  change (Some <$> ws') with (Some w :: (Some <$> ws)). cbn -[set_origins GetAllowedOrigins last_error origins_outcome].
  intros p _. destruct (c_true p) eqn:Ep; cbn -[set_origins GetAllowedOrigins last_error origins_outcome].
  2: { apply c_true_0 in Ep as ->. intros e _. exists (HRESULT_FROM_WIN32 e), (with_origins this ONull 0), (S_OK, 0%Z, None), [].
       split; [reflexivity|]. right. exists e. rewrite decide_True by (simpl; lia). split; [|done].
       split; [constructor|]. by rewrite !memory_app, <- (assoc_L (++)). }
  apply c_true_spec in Ep. apply every_run_bind.
  eapply every_run_mono; [|apply (set_origins_memory C (with_origins this ONull 0) p ws' []); done].
  intros [hr this'] tr2 (l & [(Hl & Hm & -> & ->)|(Hl & e & Hm & -> & ->)]); cbn -[GetAllowedOrigins origins_outcome];
    rewrite memory_app in Hm; apply every_run_bind.
  - eapply every_run_mono; [|by apply (get_origins_memory C _ p l ws' tr2)].
    intros r tr3 (l2 & H). exists S_OK. eexists _, r, (p :: l ++ l2). split; [reflexivity|].
    destruct Hm as [Hnz Hm], H as [(arr & l3 & -> & Hl3 & [Hnz2 Hm2] & ->)|(e & Hl2 & [Hnz2 Hm2] & ->)]; [left|right].
    + split_and!; [simpl in *; rewrite ?length_app; simpl; lia| |done|by apply strings_at_get|].
      * split; [constructor; [done|by apply Forall_app]|]. rewrite Hm2, Hm, <- !(assoc_L (++)), (fmap_cons _ p), fmap_app, <- ?(assoc_L (++)). done.
      * exists arr. split; [apply (list_lookup_middle (p :: l)); simpl in *; lia|].
        change (p :: l ++ arr :: l3) with ((p :: l) ++ [arr] ++ l3).
        by rewrite (assoc_L (++)), drop_app_length' by (rewrite length_app; simpl in *; lia).
    + exists e. rewrite decide_False by (simpl in *; rewrite ?length_app; lia). split; [split|split_and!].
      * constructor; [done|by apply Forall_app].
      * rewrite Hm2, Hm, <- !(assoc_L (++)), (fmap_cons _ p), fmap_app, <- app_comm_cons, <- (assoc_L (++)). done.
      * simpl in *. rewrite length_app. lia.
      * done.
      * by apply strings_at_get.
      * done.
  - exists (HRESULT_FROM_WIN32 e), (with_origins (with_origins this ONull 0) ODangling 0), (S_OK, 0%Z, None), (p :: l).
    split; [reflexivity|]. right. exists e. destruct Hm as [Hnz Hm]. rewrite decide_True by (simpl in *; lia). split; [|done].
    split; [by constructor|]. rewrite Hm, <- !(assoc_L (++)), fmap_cons. done.
Qed.


(** When a string cannot be copied, [SetAllowedOrigins] deletes the new array but keeps
    pointing to it: the count is 0, and the very next release of the origins -
    another [SetAllowedOrigins] or the destructor - deletes it again. *)
Definition set_or_dangling (n : nat) (r : Z * Registration) : Prop :=
  let '(hr, this') := r in
  (hr = S_OK /\ exists p l, m_allowedOrigins this' = OArray p l /\ length l = n) \/
  (m_allowedOrigins this' = ODangling /\ m_allowedOriginsCount this' = 0%Z /\
   forall tr, every_run any_answer (Registration_destroy this') tr (fun sound _ => sound = false)).

Lemma set_origins_dangle this p l : forall set tr,
  every_run any_answer (set_origins this p l set) tr (fun r _ => set_or_dangling (length set + length l) r).
Proof.
  induction l as [|w l IH]; intros set tr; cbn [set_origins].
  - left. split; [done|]. exists p, set. simpl. split; [done|lia].
  - apply every_run_bind. eapply every_run_mono; [|apply every_run_extends].
    intros [res s] tr1 _. destruct (MyString_Get s).
    + eapply every_run_mono; [|apply IH]. intros r tr2. rewrite length_app. simpl. by rewrite <- Nat.add_assoc.
    + apply every_run_bind. eapply every_run_mono; [|apply every_run_extends]. intros hr tr2 _.
      apply every_run_bind. eapply every_run_mono; [|apply every_run_extends]. intros [] tr3 _. cbn -[set_or_dangling]. intros [] _.
      right. split_and!; [done..|]. intros tr4. by cbn.
Qed.

Theorem failed_origins_dangle this ws
    (Hd : m_allowedOrigins this <> ODangling) (Hne : ws <> []) :
  every_run com_contract (SetAllowedOrigins this ws) [] (fun o _ => exists r, o = Some r /\ set_or_dangling (length ws) r).
Proof.
  unfold SetAllowedOrigins. apply every_run_bind. eapply every_run_mono; [|by apply release_origins_shape].
  intros o tr ->. destruct ws as [|w ws]; [done|]. cbn -[set_origins set_or_dangling last_error]. intros p Hp.
  rewrite (proj2 (c_true_spec p)) by done. cbn -[set_origins set_or_dangling]. apply every_run_bind.
  eapply every_run_mono; [|apply every_run_contract with (C := any_answer); [done|apply set_origins_dangle]].
  intros r tr' H. by exists r.
Qed.

(** A registration with no origins yet. *)
Definition plain_registration : Registration := MkRegistration 1 new_MyString ONull 0 0 0.


(** The copies, when all goes well. *)
Example origins_come_back :
  (o ← result good_env (set_and_get plain_registration [[42]; [43; 44]]%Z) 100%Z; Some o.2) =
    Some (S_OK, 2, Some (400, [(500, [42]); (600, [43; 44])]))%Z.
Proof. vm_compute. reflexivity. Qed.

Lemma failed_origins_dangle_witness :
  every_run com_contract (SetAllowedOrigins plain_registration [Some [42]]%Z) []
    (fun o _ => exists r, o = Some r /\ set_or_dangling 1 r).
Proof. apply (failed_origins_dangle plain_registration [Some [42]]%Z); discriminate. Defined.
