(* ===== verification/WvOptions.v ===== *)
(** * The environment options (webview2/MyCoreWebView2EnvironmentOptions.h)

    Three strings, five flags and the scheme registrations, read by the WebView2
    runtime through the six versions of the interface. *)

From S2P Require Import Prelude Prog Win32 Accounting RefCount WvApi WvHelpers WvScheme.

Record Options := MkOptions {
  o_refCount : Z;
  m_AdditionalBrowserArguments : MyString;
  m_Language : MyString;
  m_TargetCompatibleBrowserVersion : MyString;
  m_AllowSingleSignOnUsingOSPrimaryAccount : Z;
  m_ExclusiveUserDataFolderAccess : Z;
  m_IsCustomCrashReportingEnabled : Z;
  m_EnableTrackingPrevention : Z;
  m_AreBrowserExtensionsEnabled : Z;
  m_customSchemeRegistrations : option (Z * list Z);  (** the array and the pointers in it *)
  m_customSchemeRegistrationsCount : Z }.

(** ["122.0.2357.0"] *)
Definition CORE_WEBVIEW_TARGET_PRODUCT_VERSION : list Z :=
  [49; 50; 50; 46; 48; 46; 50; 51; 53; 55; 46; 48]%Z.

Definition new_Options : act Options :=
  '(_, v) ← MyString_Set new_MyString (Some CORE_WEBVIEW_TARGET_PRODUCT_VERSION);
  Ret (MkOptions 1 new_MyString new_MyString v 0 0 0 1 0 None 0).

(** ** Strings *)

(** The body that [get_] of the three string properties share, and that of [put_]. *)
Definition get_string (s : MyString) (value : bool) : act (Z * option (Z * list Z)) :=
  if negb value then Ret (E_POINTER, None)
  else
    r ← MyString_Copy s;
    match r, MyString_Get s with
    | None, Some _ => hr ← last_error; Ret (hr, r)
    | _, _ => Ret (S_OK, r)
    end.

Definition put_string (s : MyString) (value : option (list Z)) : act (Z * MyString) :=
  '(result, s) ← MyString_Set s value;
  match result, value with
  | None, Some _ => hr ← last_error; Ret (hr, s)
  | _, _ => Ret (S_OK, s)
  end.

Definition get_AdditionalBrowserArguments (this : Options) := get_string (m_AdditionalBrowserArguments this).
Definition get_Language (this : Options) := get_string (m_Language this).
Definition get_TargetCompatibleBrowserVersion (this : Options) :=
  get_string (m_TargetCompatibleBrowserVersion this).

Definition put_AdditionalBrowserArguments (this : Options) (value : option (list Z)) : act (Z * Options) :=
  '(hr, s) ← put_string (m_AdditionalBrowserArguments this) value;
  Ret (hr, MkOptions (o_refCount this) s (m_Language this) (m_TargetCompatibleBrowserVersion this)
             (m_AllowSingleSignOnUsingOSPrimaryAccount this) (m_ExclusiveUserDataFolderAccess this)
             (m_IsCustomCrashReportingEnabled this) (m_EnableTrackingPrevention this)
             (m_AreBrowserExtensionsEnabled this) (m_customSchemeRegistrations this)
             (m_customSchemeRegistrationsCount this)).

Definition put_Language (this : Options) (value : option (list Z)) : act (Z * Options) :=
  '(hr, s) ← put_string (m_Language this) value;
  Ret (hr, MkOptions (o_refCount this) (m_AdditionalBrowserArguments this) s (m_TargetCompatibleBrowserVersion this)
             (m_AllowSingleSignOnUsingOSPrimaryAccount this) (m_ExclusiveUserDataFolderAccess this)
             (m_IsCustomCrashReportingEnabled this) (m_EnableTrackingPrevention this)
             (m_AreBrowserExtensionsEnabled this) (m_customSchemeRegistrations this)
             (m_customSchemeRegistrationsCount this)).

Definition put_TargetCompatibleBrowserVersion (this : Options) (value : option (list Z)) : act (Z * Options) :=
  '(hr, s) ← put_string (m_TargetCompatibleBrowserVersion this) value;
  Ret (hr, MkOptions (o_refCount this) (m_AdditionalBrowserArguments this) (m_Language this) s
             (m_AllowSingleSignOnUsingOSPrimaryAccount this) (m_ExclusiveUserDataFolderAccess this)
             (m_IsCustomCrashReportingEnabled this) (m_EnableTrackingPrevention this)
             (m_AreBrowserExtensionsEnabled this) (m_customSchemeRegistrations this)
             (m_customSchemeRegistrationsCount this)).

(** ** Flags *)

Definition get_flag (v : Z) (value : bool) : Z * option Z :=
  if negb value then (E_POINTER, None) else (S_OK, Some v).

Definition get_AllowSingleSignOnUsingOSPrimaryAccount (this : Options) :=
  get_flag (m_AllowSingleSignOnUsingOSPrimaryAccount this).
Definition get_ExclusiveUserDataFolderAccess (this : Options) := get_flag (m_ExclusiveUserDataFolderAccess this).
Definition get_IsCustomCrashReportingEnabled (this : Options) := get_flag (m_IsCustomCrashReportingEnabled this).
Definition get_EnableTrackingPrevention (this : Options) := get_flag (m_EnableTrackingPrevention this).
Definition get_AreBrowserExtensionsEnabled (this : Options) := get_flag (m_AreBrowserExtensionsEnabled this).

(** The flags in the order of the record. *)
Definition with_flags (this : Options) (sso excl crash track ext : Z) : Options :=
  MkOptions (o_refCount this) (m_AdditionalBrowserArguments this) (m_Language this)
    (m_TargetCompatibleBrowserVersion this) sso excl crash track ext
    (m_customSchemeRegistrations this) (m_customSchemeRegistrationsCount this).

Definition put_AllowSingleSignOnUsingOSPrimaryAccount (this : Options) (value : Z) : Z * Options :=
  (S_OK, with_flags this value (m_ExclusiveUserDataFolderAccess this) (m_IsCustomCrashReportingEnabled this)
           (m_EnableTrackingPrevention this) (m_AreBrowserExtensionsEnabled this)).
Definition put_ExclusiveUserDataFolderAccess (this : Options) (value : Z) : Z * Options :=
  (S_OK, with_flags this (m_AllowSingleSignOnUsingOSPrimaryAccount this) value (m_IsCustomCrashReportingEnabled this)
           (m_EnableTrackingPrevention this) (m_AreBrowserExtensionsEnabled this)).
Definition put_IsCustomCrashReportingEnabled (this : Options) (value : Z) : Z * Options :=
  (S_OK, with_flags this (m_AllowSingleSignOnUsingOSPrimaryAccount this) (m_ExclusiveUserDataFolderAccess this)
           value (m_EnableTrackingPrevention this) (m_AreBrowserExtensionsEnabled this)).
Definition put_EnableTrackingPrevention (this : Options) (value : Z) : Z * Options :=
  (S_OK, with_flags this (m_AllowSingleSignOnUsingOSPrimaryAccount this) (m_ExclusiveUserDataFolderAccess this)
           (m_IsCustomCrashReportingEnabled this) value (m_AreBrowserExtensionsEnabled this)).
Definition put_AreBrowserExtensionsEnabled (this : Options) (value : Z) : Z * Options :=
  (S_OK, with_flags this (m_AllowSingleSignOnUsingOSPrimaryAccount this) (m_ExclusiveUserDataFolderAccess this)
           (m_IsCustomCrashReportingEnabled this) (m_EnableTrackingPrevention this) value).

(** ** Scheme registrations *)

Definition with_registrations (this : Options) (r : option (Z * list Z)) (n : Z) : Options :=
  MkOptions (o_refCount this) (m_AdditionalBrowserArguments this) (m_Language this)
    (m_TargetCompatibleBrowserVersion this) (m_AllowSingleSignOnUsingOSPrimaryAccount this)
    (m_ExclusiveUserDataFolderAccess this) (m_IsCustomCrashReportingEnabled this)
    (m_EnableTrackingPrevention this) (m_AreBrowserExtensionsEnabled this) r n.

Fixpoint addref_all (l : list Z) : act unit :=
  match l with [] => Ret tt | p :: l => _ ← call (AddRef p); addref_all l end.

Fixpoint release_all (l : list Z) : act unit :=
  match l with [] => Ret tt | p :: l => _ ← call (Release p); release_all l end.

Definition ReleaseCustomSchemeRegistrations (this : Options) : act Options :=
  match m_customSchemeRegistrations this with
  | Some (p, regs) =>
      _ ← release_all (take (Z.to_nat (m_customSchemeRegistrationsCount this)) regs);
      _ ← call (CoTaskMemFree p);
      Ret (with_registrations this None 0)
  | None => Ret this
  end.

Definition GetCustomSchemeRegistrations (this : Options) (ptrs : bool) : act (Z * Z * option (Z * list Z)) :=
  if negb ptrs then Ret (E_POINTER, 0%Z, None)
  else if (m_customSchemeRegistrationsCount this =? 0)%Z then Ret (S_OK, 0%Z, None)
  else
    p ← call (CoTaskMemAlloc (u64 (8 * m_customSchemeRegistrationsCount this)));
    if negb (c_true p) then hr ← last_error; Ret (hr, 0%Z, None)
    else
      let regs := match m_customSchemeRegistrations this with Some (_, l) => l | None => [] end in
      let regs := take (Z.to_nat (m_customSchemeRegistrationsCount this)) regs in
      _ ← addref_all regs;
      Ret (S_OK, m_customSchemeRegistrationsCount this, Some (p, regs)).

(** [schemeRegistrations] has [count] elements.  The failure returns the error of
    Windows itself, not an [HRESULT]. *)
Definition SetCustomSchemeRegistrations (this : Options) (schemeRegistrations : list Z) : act (Z * Options) :=
  let count := Z.of_nat (length schemeRegistrations) in
  this ← ReleaseCustomSchemeRegistrations this;
  p ← call (CoTaskMemAlloc (u64 (8 * count)));
  if negb (c_true p) then
    e ← call GetLastError;
    Ret (i32 e, with_registrations this None (m_customSchemeRegistrationsCount this))
  else
    _ ← addref_all schemeRegistrations;
    Ret (S_OK, with_registrations this (Some (p, schemeRegistrations)) count).

(** ** [IUnknown] *)

(** The destructor, with those of the strings. *)
Definition Options_destroy (this : Options) : act unit :=
  this ← ReleaseCustomSchemeRegistrations this;
  _ ← MyString_destroy (m_TargetCompatibleBrowserVersion this);
  _ ← MyString_destroy (m_Language this);
  MyString_destroy (m_AdditionalBrowserArguments this).

Definition opt_with_refs (this : Options) (n : Z) : Options :=
  MkOptions n (m_AdditionalBrowserArguments this) (m_Language this)
    (m_TargetCompatibleBrowserVersion this) (m_AllowSingleSignOnUsingOSPrimaryAccount this)
    (m_ExclusiveUserDataFolderAccess this) (m_IsCustomCrashReportingEnabled this)
    (m_EnableTrackingPrevention this) (m_AreBrowserExtensionsEnabled this)
    (m_customSchemeRegistrations this) (m_customSchemeRegistrationsCount this).

Definition Options_AddRef (this : Options) : Z * Options :=
  let n := InterlockedIncrementU (o_refCount this) in (n, opt_with_refs this n).

Definition Options_Release (this : Options) (w : unit) : act (Z * option Options * unit) :=
  let count := InterlockedDecrementU (o_refCount this) in
  if (count =? 0)%Z then w ← Options_destroy (opt_with_refs this 0); Ret (count, None, w)
  else Ret (count, Some (opt_with_refs this count), w).

(** The interfaces [QueryInterface] compares with, in order. *)
Definition options_iids : list guid := [
  IID_IUnknown; i_iid ICoreWebView2EnvironmentOptions; i_iid ICoreWebView2EnvironmentOptions2;
  i_iid ICoreWebView2EnvironmentOptions3; i_iid ICoreWebView2EnvironmentOptions4;
  i_iid ICoreWebView2EnvironmentOptions5; i_iid ICoreWebView2EnvironmentOptions6].

Definition Options_QueryInterface (this : Options) (riid : guid) : Z * bool * Options :=
  if bool_decide (riid ∈ options_iids) then (S_OK, true, (Options_AddRef this).2)
  else (E_NOINTERFACE, false, this).

#[export] Instance Options_com : ComObject Options Options unit := {|
  refs := o_refCount;
  data s := opt_with_refs s 0;
  com_AddRef := Options_AddRef;
  com_Release := Options_Release;
  com_QueryInterface := Options_QueryInterface;
  com_destroy p w := Options_destroy p |}.

#[export] Instance Options_laws : ComLaws Options Options unit.
Proof.
  apply (Build_ComLaws _ _ _ _ (fun iid => bool_decide (iid ∈ options_iids))).
  - reflexivity.
  - com_laws ltac:(unfold Options_AddRef).
  - intros s []. revert s. intros s Hs. eexists.
    destruct (decrement_range (refs s)) as (E1 & E2 & E3); [lia|]. cbn in *. unfold Options_Release.
    rewrite E2. destruct (Z.eqb_spec (o_refCount s - 1) 0); [lia|]. split_and!; [reflexivity|done|done].
  - intros s w Hs. cbn in *. unfold Options_Release. by rewrite Hs.
  - reflexivity.
Defined.

(** ** Memory and references *)

Definition opt_wf (this : Options) : Prop :=
  match m_customSchemeRegistrations this with
  | Some (p, regs) => p <> 0%Z /\ m_customSchemeRegistrationsCount this = Z.of_nat (length regs)
  | None => m_customSchemeRegistrationsCount this = 0%Z
  end.

Definition opt_refs (this : Options) : list Z :=
  match m_customSchemeRegistrations this with Some (_, regs) => regs | None => [] end.

Definition opt_block (this : Options) : list Z :=
  match m_customSchemeRegistrations this with Some (p, _) => [p] | None => [] end.

Lemma addref_all_ok C bor B l : forall R tr,
  Forall (fun p => p ∈ bor \/ p ∈ R) l -> Acct bor tr R B ->
  every_run C (addref_all l) tr (fun _ tr' => Acct bor tr' (l ++ R) B).
Proof.
  induction l as [|p l IH]; intros R tr Hl HA; cbn [addref_all]; [done|].
  apply Forall_cons in Hl as [Hp Hl]. cbn. intros r _.
  eapply every_run_mono; [|apply (IH (p :: R)); [|by apply (Acct_addref _ _ _ _ HA)]].
  - cbn. intros _ tr' HA'. eapply Acct_proper; [|reflexivity|exact HA']. apply Permutation_middle.
  - eapply Forall_impl; [exact Hl|]. intros q [?|?]; [by left|right; by apply list_elem_of_further].
Qed.

Lemma release_all_ok C bor R B l : forall tr,
  Acct bor tr (l ++ R) B -> every_run C (release_all l) tr (fun _ tr' => Acct bor tr' R B).
Proof.
  induction l as [|p l IH]; intros tr HA; cbn [release_all]; [done|].
  cbn. intros r _. apply IH. by apply (Acct_release _ _ _ _ HA p r (l ++ R)).
Qed.

Lemma release_registrations_ok C bor tr R B this :
  opt_wf this -> Acct bor tr (opt_refs this ++ R) (opt_block this ++ B) ->
  every_run C (ReleaseCustomSchemeRegistrations this) tr (fun this' tr' =>
    this' = with_registrations this None 0 /\ Acct bor tr' R B).
Proof.
  unfold opt_wf, opt_refs, opt_block, ReleaseCustomSchemeRegistrations.
  destruct this as [rc a l v f1 f2 f3 f4 f5 [[p regs]|] n]; cbn -[release_all].
  - intros [Hp ->] HA. rewrite Nat2Z.id, take_ge by lia. apply every_run_bind.
    eapply every_run_mono; [|by apply (release_all_ok C bor R (p :: B) regs)].
    cbn. intros _ tr1 HA1 [] _. split; [done|]. by apply (Acct_cotask_free _ _ _ _ HA1 p tt B).
  - intros -> HA. done.
Qed.

(** The blocks of the options: the array and the strings. *)
Definition opt_mem (this : Options) : list Z :=
  opt_block this ++ string_block (ms_s (m_TargetCompatibleBrowserVersion this)) ++
  string_block (ms_s (m_Language this)) ++ string_block (ms_s (m_AdditionalBrowserArguments this)).

(** Everything is well-formed. *)
Definition options_ok (this : Options) : Prop :=
  opt_wf this /\ MyString_wf (m_TargetCompatibleBrowserVersion this) /\
  MyString_wf (m_Language this) /\ MyString_wf (m_AdditionalBrowserArguments this).

Lemma Options_destroy_ok C bor tr R B this :
  options_ok this -> Acct bor tr (opt_refs this ++ R) (opt_mem this ++ B) ->
  every_run C (Options_destroy this) tr (fun _ tr' => Acct bor tr' R B).
Proof.
  intros (H0 & H1 & H2 & H3) HA. unfold Options_destroy, opt_mem in *. rewrite <- !app_assoc in HA.
  apply every_run_bind. eapply every_run_mono; [|by apply (release_registrations_ok C bor tr R _ this H0 HA)].
  intros _ tr1 [-> HA1]. unfold MyString_destroy. cbn [with_registrations m_TargetCompatibleBrowserVersion m_Language m_AdditionalBrowserArguments].
  repeat (apply every_run_bind; try (eapply every_run_mono; [|apply (MyString_Release_ok C bor _ R); [|eassumption]; done];
    clear HA1; cbn; intros _ ? [HA1 _])); [done..|].
  done.
Qed.

Lemma new_Options_ok C bor tr R B : Acct bor tr R B ->
  every_run C new_Options tr (fun o tr' => options_ok o /\ opt_refs o = [] /\
    m_customSchemeRegistrations o = None /\ Acct bor tr' R (opt_mem o ++ B)).
Proof.
  intros HA. unfold new_Options. apply every_run_bind.
  eapply every_run_mono; [|apply (MyString_Set_ok C bor tr R B new_MyString (Some CORE_WEBVIEW_TARGET_PRODUCT_VERSION));
    [done|unfold wide_ok; simpl; lia|done]].
  intros [res v] tr1 (HA1 & Hwf & _). cbn. split_and!; [|done|done|].
  - split_and!; done.
  - unfold opt_mem. cbn. by rewrite app_nil_r.
Qed.

Lemma SetCustomSchemeRegistrations_ok C bor tr R B this regs :
  m_customSchemeRegistrations this = None -> options_ok this ->
  Forall (fun p => p ∈ bor \/ p ∈ R) regs -> Acct bor tr R (opt_mem this ++ B) ->
  every_run C (SetCustomSchemeRegistrations this regs) tr (fun '(hr, this') tr' =>
    options_ok this' /\
    (opt_refs this' = regs /\ hr = S_OK \/ opt_refs this' = [] /\ exists e, hr = i32 e /\ Ev GetLastError e ∈ tr') /\
    Acct bor tr' (opt_refs this' ++ R) (opt_mem this' ++ B)).
Proof.
  intros Hn (H0 & H1 & H2 & H3) Hregs HA. unfold SetCustomSchemeRegistrations, ReleaseCustomSchemeRegistrations.
  unfold opt_wf, opt_mem, opt_block in *. rewrite Hn in *. cbn -[addref_all]. intros p _.
  destruct (c_true p) eqn:Ep; cbn -[addref_all].
  - apply c_true_spec in Ep. apply every_run_bind.
    acct_by HA (Acct_cotask _ _ _ _ HA (u64 (8 * Z.of_nat (length regs))) p Ep).
    eapply every_run_mono; [|exact (addref_all_ok C bor _ regs R _ Hregs HA)].
    cbn. intros _ tr2 HA2. split_and!; [done|by left|done].
  - apply c_true_0 in Ep as ->. intros e _. cbn. split_and!; [done| |].
    { right. split; [done|]. exists e. split; [done|]. apply elem_of_app. right. by apply list_elem_of_here. }
    acct_by HA (Acct_cotask_fail _ _ _ _ HA (u64 (8 * Z.of_nat (length regs)))). acct_step HA. exact HA.
Qed.

Lemma addref_all_frees l : only_calls frees (addref_all l).
Proof. by induction l; cbn. Qed.

Lemma release_all_frees l : only_calls frees (release_all l).
Proof. by induction l; cbn. Qed.

Lemma release_registrations_frees this : only_calls frees (ReleaseCustomSchemeRegistrations this).
Proof.
  unfold ReleaseCustomSchemeRegistrations. destruct (m_customSchemeRegistrations this) as [[p regs]|]; [|done].
  apply only_calls_bind; [apply release_all_frees|]. by cbn.
Qed.

(** ** Properties *)

(** Registrations are set, and asked for. *)
Definition set_and_get_registrations (this : Options) (regs : list Z) : act (Z * Options * (Z * Z * option (Z * list Z))) :=
  '(hr, this) ← SetCustomSchemeRegistrations this regs;
  r ← GetCustomSchemeRegistrations this true;
  Ret (hr, this, r).

(** What comes of it, by how many of the two allocations succeed. *)
Definition registrations_outcome (bor R B : list Z) (before : list (Z + Z)) (regs : list Z)
    (x : Z * Options * (Z * Z * option (Z * list Z))) (tr : list ev) : Prop :=
  let '(hr, this, r) := x in
  (exists p q, lasted before [p; q] tr /\ hr = S_OK /\ m_customSchemeRegistrations this = Some (p, regs) /\
     r = (S_OK, Z.of_nat (length regs), Some (q, regs)) /\ Acct bor tr (regs ++ regs ++ R) (q :: p :: B)) \/
  (exists p e, ran_out before [p] e tr /\ hr = S_OK /\ m_customSchemeRegistrations this = Some (p, regs) /\
     r = (HRESULT_FROM_WIN32 e, 0%Z, None) /\ Acct bor tr (regs ++ R) (p :: B)) \/
  (exists e, ran_out before [] e tr /\ hr = i32 e /\ m_customSchemeRegistrations this = None /\
     r = (S_OK, 0%Z, None) /\ Acct bor tr R B).

(** C32: The options keep the registrations alive: [SetCustomSchemeRegistrations] gives up
    the old ones and takes one reference on each of the new, and [GetCustomSchemeRegistrations]
    hands out the same registrations, and their number, in a fresh array with one more reference
    each.  Both return [S_OK] then.  This happens whenever the two arrays can be allocated.  When the
    second cannot, the get returns the error of Windows as an [HRESULT] and hands out nothing;
    when the first cannot, the set returns the number of the error itself and there is nothing to get.  In
    every case the options own exactly the references and the array that their destructor
    gives back. *)
Theorem registrations_round_trip C bor tr R B this regs
    (Hwf : opt_wf this) (Hbor : Forall (fun p => p ∈ bor) regs) (Hne : regs <> [])
    (HA : Acct bor tr (opt_refs this ++ R) (opt_block this ++ B)) :
  every_run C (set_and_get_registrations this regs) tr (fun '(hr, this', r) tr' =>
    opt_wf this' /\ registrations_outcome bor R B (memory tr) regs (hr, this', r) tr').
Proof.
  unfold set_and_get_registrations, SetCustomSchemeRegistrations. apply every_run_bind, every_run_bind.
  eapply every_run_mono; [|apply every_run_and; [by apply (release_registrations_ok C bor tr R B this Hwf HA)
    |apply frees_memory, release_registrations_frees]].
  intros ? tr1 [[-> HA1] Hm1]. cbn -[addref_all GetCustomSchemeRegistrations registrations_outcome]. intros p _.
  destruct (c_true p) eqn:Ep; cbn -[addref_all GetCustomSchemeRegistrations registrations_outcome].
  2: { apply c_true_0 in Ep as ->. intros e _. cbn -[registrations_outcome]. split; [done|]. right. right. exists e.
       apply (Acct_cotask_fail _ _ _ _) with (n := u64 (8 * Z.of_nat (length regs))) in HA1. acct_step HA1.
       split_and!; [|done..]. split; [constructor|]. by rewrite !memory_app, Hm1, <- !(assoc_L (++)). }
  apply c_true_spec in Ep. apply every_run_bind.
  eapply every_run_mono; [|apply every_run_and; [|apply frees_memory, addref_all_frees]].
  2: { apply (addref_all_ok C bor (p :: B) regs R); [by eapply Forall_impl; [exact Hbor|by left]|]. by apply (Acct_cotask _ _ _ _ HA1). }
  cbn -[addref_all GetCustomSchemeRegistrations registrations_outcome]. intros _ tr2 [HA2 Hm2]. apply every_run_bind.
  rewrite memory_app, Hm1 in Hm2. unfold GetCustomSchemeRegistrations. cbn -[addref_all last_error registrations_outcome].
  destruct (Z.eqb_spec (Z.of_nat (length regs)) 0); [by destruct regs|].
  cbn -[addref_all last_error registrations_outcome]. intros q _.
  destruct (c_true q) eqn:Eq; cbn -[addref_all last_error registrations_outcome].
  - apply c_true_spec in Eq. rewrite Nat2Z.id, take_ge by lia. apply every_run_bind.
    eapply every_run_mono; [|apply every_run_and; [|apply frees_memory, addref_all_frees]].
    2: { apply (addref_all_ok C bor (q :: p :: B) regs (regs ++ R)); [by eapply Forall_impl; [exact Hbor|by left]|]. by apply (Acct_cotask _ _ _ _ HA2). }
    cbn -[registrations_outcome]. intros _ tr3 [HA3 Hm3]. split; [done|]. left. exists p, q. split_and!; [|done..].
    split; [by repeat constructor|]. by rewrite Hm3, memory_app, Hm2, <- !(assoc_L (++)).
  - apply c_true_0 in Eq as ->. intros e _. cbn -[registrations_outcome]. split; [done|]. right. left. exists p, e.
    apply (Acct_cotask_fail _ _ _ _) with (n := u64 (8 * Z.of_nat (length regs))) in HA2. acct_step HA2.
    split_and!; [|done..]. split; [by repeat constructor|]. by rewrite !memory_app, Hm2, <- !(assoc_L (++)).
Qed.

Definition plain_options : Options :=
  MkOptions 1 new_MyString new_MyString new_MyString 0 0 0 1 0 None 0.

Lemma registrations_round_trip_witness :
  every_run any_answer (set_and_get_registrations plain_options [500; 500]%Z) [] (fun '(hr, this', r) tr' =>
    opt_wf this' /\ registrations_outcome [500%Z] [] [] (memory []) [500; 500]%Z (hr, this', r) tr').
Proof.
  apply (registrations_round_trip any_answer [500%Z] [] [] [] plain_options [500; 500]%Z);
    [done|repeat constructor|discriminate|apply Acct_nil].
Defined.

(** A failed [SetCustomSchemeRegistrations] does not look like a failure: it returns
    the error number of Windows, which is positive, so that the test [FAILED] of
    its caller does not see it and the scheme is silently not registered. *)
Theorem failed_registrations_unnoticed this regs (Hwf : m_customSchemeRegistrations this = None) :
  every_run (fun _ a => match a return Ans a -> Prop with
                        | CoTaskMemAlloc _ => fun r => r = 0%Z
                        | GetLastError => fun r => (0 < r < 2147483648)%Z
                        | _ => fun _ => True
                        end)
    (SetCustomSchemeRegistrations this regs) [] (fun '(hr, this') _ =>
      (0 < hr)%Z /\ FAILED hr = false /\ m_customSchemeRegistrations this' = None).
Proof.
  unfold SetCustomSchemeRegistrations, ReleaseCustomSchemeRegistrations. rewrite Hwf. cbn.
  intros p ->. cbn. intros e He. rewrite i32_id by lia. split_and!; [lia| |done].
  unfold FAILED. apply Z.ltb_ge. lia.
Qed.

Lemma failed_registrations_unnoticed_witness :
  every_run (fun _ a => match a return Ans a -> Prop with
                        | CoTaskMemAlloc _ => fun r => r = 0%Z
                        | GetLastError => fun r => (0 < r < 2147483648)%Z
                        | _ => fun _ => True
                        end)
    (SetCustomSchemeRegistrations plain_options [500%Z]) [] (fun '(hr, this') _ =>
      (0 < hr)%Z /\ FAILED hr = false /\ m_customSchemeRegistrations this' = None).
Proof. apply (failed_registrations_unnoticed plain_options [500%Z]). reflexivity. Defined.

(** The options answer to exactly the seven interfaces they implement and live as
    long as they are referenced: their destructor - which releases the
    registrations, the array and the strings - runs once, at the last release. *)
Theorem options_lifecycle {E} (h : E -> forall a, Ans a * E) ops (this : Options) e
    (Hr : follows_rules (supports (St := Options)) (o_refCount this) ops = true)
    (Hn : (0 < o_refCount this <= max_refs)%Z) :
  let n := balance (supports (St := Options)) (o_refCount this) ops in
  let results := promised (supports (St := Options)) (o_refCount this) ops in
  (forall iid, supports (St := Options) iid = bool_decide (iid ∈ options_iids)) /\
  run h (client ops (Some this) tt []) e =
    if (n =? 0)%Z then
      let '(w', e', tr) := run h (Options_destroy (opt_with_refs this 0)) e in (Some (results, None, w'), e', tr)
    else (Some (results, Some (opt_with_refs this n), tt), e, []).
Proof.
  pose proof (client_lifecycle h ops this tt [] e Hr Hn) as HL. cbn zeta in *. split; [done|].
  change (refs this) with (o_refCount this) in HL. destruct (_ =? 0)%Z; [done|].
  destruct HL as (s' & -> & <- & Hd & _). do 3 f_equal.
  destruct s', this. cbn in *. by simplify_eq.
Qed.

Lemma options_lifecycle_witness :
  (forall iid, supports (St := Options) iid = bool_decide (iid ∈ options_iids)) /\
  run good_env (client [CQuery (i_iid ICoreWebView2EnvironmentOptions4); CRelease; CRelease]
                  (Some plain_options) tt []) 0%Z = (Some ([0; 1; 0]%Z, None, tt), 0%Z, []).
Proof.
  assert (H1 : (0 < o_refCount plain_options <= max_refs)%Z) by (unfold max_refs; simpl; lia).
  exact (options_lifecycle good_env [CQuery (i_iid ICoreWebView2EnvironmentOptions4); CRelease; CRelease]
           plain_options 0%Z eq_refl H1).
Defined.
