(* ===== verification/WvCreate.v ===== *)
(** * Creating the browser (webview2/MyCreateEnvironmentCompletedHandler.h,
    MyCreateControllerCompletedHandler.h, MyCustomSchemeHandler.h)

    WebView2 is created asynchronously: the runtime calls one handler with the
    environment, which asks for a controller, and another with the controller,
    which takes the view from it, registers the event handlers, and tells Go that
    the browser is ready or which stage failed.  The handler of the [suneido:]
    scheme answers its resource requests. *)

From S2P Require Import Prelude Prog Win32 Accounting RefCount AppBridge WvApi WvHelpers WvObject WvOptions.

(** ** Handlers as seen by the code that creates them

    A new handler is registered with the runtime, which references it as it likes;
    [Release] answers the count that is left, and when that is 0 the destructor
    gives the reference on the browser object back. *)
Definition release_handler (h : Z) (ob : MyBrowserObject) : act (option MyBrowserObject) :=
  r ← call (Release h);
  if (r =? 0)%Z then '(_, o) ← bo_Release ob; Ret o else Ret (Some ob).

(** The browser object is kept alive by the handler whose [Invoke] is running; [None]
    as result means it was deleted all the same. *)
Definition invoke_result : Type := option (Z * MyBrowserObject).

(** ** MyCustomSchemeHandler *)

(** [RegisterCustomScheme]. *)
Definition RegisterCustomScheme (webView : Z) : act Z :=
  handler ← call (NewObject "MyCustomSchemeHandler");
  hr ← call (Invoke webView "AddWebResourceRequestedFilter"
               [AStr "*"; AInt COREWEBVIEW2_WEB_RESOURCE_CONTEXT_ALL]);
  if FAILED hr then _ ← call (Release handler); Ret hr
  else
    '(hr, token) ← call (GetValue webView "add_WebResourceRequested" [APtr handler]);
    _ ← call (Release handler);
    Ret hr.

(** ** MyCreateControllerCompletedHandler::Invoke *)

(** The handler for the controller ends on every path with telling Go a stage, and then
    releases the views it still holds.  Suneido code runs inside that call - Reentry has
    what it may do - so the definitions of the work before give the ending; [None] when
    the browser object was deleted. *)
Record ending := Ending { e_ob : MyBrowserObject; e_stage : Z; e_result : Z; e_views : list Z }.

Definition tell (ob : MyBrowserObject) (stage result : Z) (views : list Z) : act (option ending) :=
  Ret (Some (Ending ob stage result views)).

(** The code that registers an event handler: on failure the views in [onfail] and the
    handler are released and Go is told the stage, on success the views in [onok]
    and the handler are released. *)
Definition add_handler (ob : MyBrowserObject) (cls : string) (obj : Z) (m : string)
    (onfail onok : list Z) (stage : Z) (k : MyBrowserObject -> act (option ending)) : act (option ending) :=
  h ← call (NewObject cls);
  let ob := (bo_AddRef ob).2 in
  '(rtn, token) ← call (GetValue obj m [APtr h]);
  if FAILED rtn then
    _ ← release_all onfail;
    o ← release_handler h ob;
    match (o : option MyBrowserObject) with Some ob => tell ob stage rtn [] | None => Ret None end
  else
    _ ← release_all onok;
    o ← release_handler h ob;
    match (o : option MyBrowserObject) with Some ob => k ob | None => Ret None end.

(** From the test for [ICoreWebView2_13] to the end.  The parentheses of the two
    tests [SUCCEEDED(x && y)] are as in the source. *)
Definition finish_view (ob : MyBrowserObject) (controller webview2 : Z) : act (option ending) :=
  '(rtn, webview2_13) ← call (QueryInterface webview2 (i_iid ICoreWebView2_13));
  _ ← (if SUCCEEDED rtn && c_true webview2_13 then
         '(hr, profile) ← call (Fetch webview2_13 "get_Profile" []);
         _ ← (if SUCCEEDED (c_bool (c_true hr && c_true profile)) then
                _ ← call (Invoke profile "put_PreferredColorScheme" [AInt COREWEBVIEW2_PREFERRED_COLOR_SCHEME_LIGHT]);
                _ ← call (Release profile);
                Ret tt
              else Ret tt);
         _ ← call (Release webview2_13);
         Ret tt
       else Ret tt);
  '(hr, settings) ← call (Fetch webview2 "get_Settings" []);
  _ ← (if SUCCEEDED (c_bool (c_true hr && c_true settings)) then
         _ ← call (Invoke settings "put_IsStatusBarEnabled" [AInt 0]);
         _ ← call (Release settings);
         Ret tt
       else Ret tt);
  nw ← call (NewObject "MyNewWindowRequestedHandler");
  _ ← call (GetValue webview2 "add_NewWindowRequested" [APtr nw]);
  ob ← SetController ob controller;
  ob ← SetWebView2 ob webview2;
  tell ob FINISH OK [webview2].

(** The registration of the context menu handler, through [ICoreWebView2_11]. *)
Definition add_context_menu (ob : MyBrowserObject) (controller webview2 webview2_2 : Z) : act (option ending) :=
  '(rtn, webview2_11) ← call (QueryInterface webview2 (i_iid ICoreWebView2_11));
  if FAILED rtn || negb (c_true webview2_11) then
    _ ← call (Release webview2);
    _ ← call (Release webview2_2);
    tell ob ADD_CONTEXTMENU_HANDLER rtn []
  else
    add_handler ob "MyContextMenuRequestedEventHandler" webview2_11 "add_ContextMenuRequested"
      [webview2; webview2_11] [webview2_11] ADD_CONTEXTMENU_HANDLER
      (fun ob => finish_view ob controller webview2).

(** The registrations through [ICoreWebView2_2] and the controller. *)
Definition add_listeners (ob : MyBrowserObject) (controller webview2 : Z) : act (option ending) :=
  '(rtn, webview2_2) ← call (QueryInterface webview2 (i_iid ICoreWebView2_2));
  if FAILED rtn || negb (c_true webview2_2) then
    _ ← call (Release webview2);
    tell ob ADD_LOAD_EVENT_LISTENER rtn []
  else
    add_handler ob "MyDOMContentLoadedEventHandler" webview2_2 "add_DOMContentLoaded"
      [webview2; webview2_2] [] ADD_LOAD_EVENT_LISTENER (fun ob =>
    add_handler ob "MyNavigationCompletedEventHandler" webview2_2 "add_NavigationCompleted"
      [webview2; webview2_2] [] ADD_LOAD_EVENT_LISTENER (fun ob =>
    add_handler ob "MyAcceleratorKeyPressedHandler" controller "add_AcceleratorKeyPressed"
      [webview2; webview2_2] [webview2_2] ADD_ACCELERATOR_HANDLER (fun ob =>
    add_context_menu ob controller webview2 webview2_2))).

Definition create_controller (ob : MyBrowserObject) (result controller : Z) : act (option ending) :=
  if FAILED result then tell ob CREATING_CONTROLLER result []
  else
    '(rtn, webview2) ← call (Fetch controller "get_CoreWebView2" []);
    if FAILED rtn then tell ob CREATING_WEBVIEW rtn []
    else
      rtn ← RegisterCustomScheme webview2;
      if FAILED rtn then
        _ ← call (Release webview2);
        tell ob REGISTER_CUSTOM_SCHEME rtn []
      else add_listeners ob controller webview2.

Definition ready_and_return (ob : MyBrowserObject) (stage result : Z) (views : list Z) : act invoke_result :=
  _ ← onReady ob stage result;
  _ ← release_all views;
  Ret (Some (S_OK, ob)).

Definition CreateController_Invoke (ob : MyBrowserObject) (result controller : Z) : act invoke_result :=
  o ← create_controller ob result controller;
  match (o : option ending) with Some e => ready_and_return (e_ob e) (e_stage e) (e_result e) (e_views e) | None => Ret None end.

(** ** MyCreateEnvironmentCompletedHandler::Invoke *)

(** The same for the handler for the environment: [kept] is the state in which the request
    for the controller was accepted, and [drop] gives up the reference on its handler. *)
Definition create_environment {X} (tell : MyBrowserObject -> Z -> Z -> list Z -> act X) (kept : MyBrowserObject -> X)
    (drop : Z -> X -> act X) (ob : MyBrowserObject) (hwnd result created_environment : Z) : act X :=
  if SUCCEEDED result then
    handler ← call (NewObject "MyCreateControllerCompletedHandler");
    let ob := (bo_AddRef ob).2 in
    rtn ← call (Invoke created_environment "CreateCoreWebView2Controller" [APtr hwnd; APtr handler]);
    x ← (if FAILED rtn then tell ob CREATING_CONTROLLER rtn [] else Ret (kept ob));
    drop handler x
  else tell ob CREATING_ENVIRONMENT result [].

Definition drop_handler (h : Z) (o : invoke_result) : act invoke_result :=
  match o with
  | Some (hr, ob) => o ← release_handler h ob; Ret (option_map (pair hr) o)
  | None => Ret None
  end.

Definition CreateEnvironment_Invoke : MyBrowserObject -> Z -> Z -> Z -> act invoke_result :=
  create_environment ready_and_return (fun ob => Some (S_OK, ob)) drop_handler.

(** ** What the handlers leave behind *)

(** The same browser object with at most [k] more references. *)
Definition more_refs (k : Z) (ob ob' : MyBrowserObject) : Prop :=
  exists m, ob' = with_refs ob m /\ (bo_refCount ob <= m <= bo_refCount ob + k)%Z.

Lemma more_refs_trans k1 k2 k ob1 ob2 ob3 :
  more_refs k1 ob1 ob2 -> more_refs k2 ob2 ob3 -> (k1 + k2 <= k)%Z -> more_refs k ob1 ob3.
Proof.
  intros (m1 & -> & H1) (m2 & -> & H2) Hk. exists m2. split; [done|]. simpl in *. lia.
Qed.

Lemma more_refs_0 ob : more_refs 0 ob ob.
Proof. exists (bo_refCount ob). split; [by destruct ob|lia]. Qed.

(** One ready callback, if Go has one. *)
Definition ready_call (ob : MyBrowserObject) (stage result : Z) : list (Z * Z * Z * Z * Z) :=
  if c_true (onCallBackFn ob) then [(onCallBackFn ob, ON_READY, u64 stage, u64 (i32 result), 0%Z)] else [].

(** The outcome: the handler returns [S_OK]; Go is told exactly once; either a stage
    failed and no reference is left, or the browser is ready and the browser
    object holds the controller and the view. *)
Definition ready_post (bor : list Z) (ob : MyBrowserObject) (ctrl : Z) (cbs0 : list (Z * Z * Z * Z * Z))
    (o : invoke_result) (tr : list ev) : Prop :=
  exists ob' stage result,
    o = Some (S_OK, ob') /\ onCallBackFn ob' = onCallBackFn ob /\
    callbacks tr = cbs0 ++ ready_call ob stage result /\
    ((stage <> FINISH /\ more_refs 4 ob ob' /\ Acct bor tr [] []) \/
     (stage = FINISH /\ result = OK /\ exists nw view n,
        ob' = BrowserObject ctrl view (bo_hwnd ob) (onCallBackFn ob) n /\ view <> 0%Z /\
        (bo_refCount ob <= n <= bo_refCount ob + 4)%Z /\ Acct bor tr [nw; view; ctrl] [])).

(** Just before Go is told: what the handler holds, which is [views] and what the browser
    object has. *)
Definition told_at (bor : list Z) (ob0 : MyBrowserObject) (ctrl : Z) (cbs0 : list (Z * Z * Z * Z * Z))
    (e : ending) (tr : list ev) : Prop :=
  let 'Ending ob stage result views := e in
  onCallBackFn ob = onCallBackFn ob0 /\ callbacks tr = cbs0 /\
  ((stage <> FINISH /\ views = [] /\ more_refs 4 ob0 ob /\ Acct bor tr [] []) \/
   (stage = FINISH /\ result = OK /\ exists nw view n, views = [view] /\
      ob = BrowserObject ctrl view (bo_hwnd ob0) (onCallBackFn ob0) n /\ view <> 0%Z /\
      (bo_refCount ob0 <= n <= bo_refCount ob0 + 4)%Z /\ Acct bor tr [view; nw; view; ctrl] [])).

(** The three failures that the handler is not prepared for.  Without [ICoreWebView2_11] it
    releases [ICoreWebView2_2] again, on which it holds nothing any more; and because the
    parentheses of [SUCCEEDED] include the comparison with null, it calls a method through
    the null pointer that a failing [get_Profile] or [get_Settings] left.  Up to there the
    accounts are right, and Go has not been told. *)
Definition breaks (bor : list Z) (cbs0 : list (Z * Z * Z * Z * Z)) (tr : list ev) : Prop :=
  exists tr1 tr2 view hr, callbacks tr1 = cbs0 /\ (hr < 0)%Z /\
    ((exists view2 r1 r2, Acct bor tr1 [view] [] /\
        tr = tr1 ++ [Ev (QueryInterface view (i_iid ICoreWebView2_11)) (hr, 0%Z);
                     Ev (Release view) r1; Ev (Release view2) r2] ++ tr2) \/
     (exists view13 r, Acct bor tr1 [view13; view] [] /\
        tr = tr1 ++ [Ev (Fetch view13 "get_Profile" []) (hr, 0%Z);
                     Ev (Invoke 0 "put_PreferredColorScheme" [AInt COREWEBVIEW2_PREFERRED_COLOR_SCHEME_LIGHT]) r] ++ tr2) \/
     (exists r, Acct bor tr1 [view] [] /\
        tr = tr1 ++ [Ev (Fetch view "get_Settings" []) (hr, 0%Z);
                     Ev (Invoke 0 "put_IsStatusBarEnabled" [AInt 0]) r] ++ tr2)).

Lemma breaks_app bor cbs0 tr t : breaks bor cbs0 tr -> breaks bor cbs0 (tr ++ t).
Proof.
  intros (tr1 & tr2 & view & hr & Hc & Hr & H). exists tr1, (tr2 ++ t), view, hr. split_and!; [done..|].
  destruct H as [(v2 & r1 & r2 & HA & ->)|[(v13 & r & HA & ->)|(r & HA & ->)]]; [left; exists v2, r1, r2|right; left; exists v13, r|right; right; exists r];
    (split; [done|by rewrite <- !(assoc_L (++))]).
Qed.

Lemma breaks_run {T} C (p : act T) bor cbs0 tr : breaks bor cbs0 tr -> every_run C p tr (fun _ tr' => breaks bor cbs0 tr').
Proof. intros H. eapply every_run_mono; [|apply every_run_extends]. intros x tr' [t ->]. by apply breaks_app. Qed.

Lemma callbacks_app tr1 tr2 : callbacks (tr1 ++ tr2) = callbacks tr1 ++ callbacks tr2.
Proof. apply omap_app. Qed.

Lemma onReady_ok C bor tr R B ob stage result : Acct bor tr R B ->
  every_run C (onReady ob stage result) tr (fun _ tr' =>
    Acct bor tr' R B /\ callbacks tr' = callbacks tr ++ ready_call ob stage result).
Proof.
  intros HA. unfold onReady, go_callback, ready_call. destruct (c_true (onCallBackFn ob)); cbn.
  - intros r _. acct_step HA. by rewrite callbacks_app.
  - by rewrite app_nil_r.
Qed.

Lemma ready_call_refs ob n stage result : ready_call (with_refs ob n) stage result = ready_call ob stage result.
Proof. reflexivity. Qed.

Lemma release_all_quiet C bor R B l : forall tr,
  Acct bor tr (l ++ R) B -> every_run C (release_all l) tr (fun _ tr' =>
    Acct bor tr' R B /\ callbacks tr' = callbacks tr).
Proof.
  induction l as [|p l IH]; intros tr HA; cbn [release_all]; [done|].
  cbn. intros r _. eapply every_run_mono; [|apply IH, (Acct_release _ _ _ _ HA p r (l ++ R)); done].
  intros _ tr' [H1 H2]. split; [done|]. rewrite H2, callbacks_app. cbn. by rewrite app_nil_r.
Qed.

Section create.
Context (C : contract Ans) (HC : forall tr a r, C tr a r -> com_contract tr a r).

(** Which of the two it was is the answer of [Release]; the object itself stays. *)
Lemma release_handler_run tr h ob :
  (1 < bo_refCount ob <= max_refs)%Z ->
  every_run C (release_handler h ob) tr (fun o tr' => exists r,
    tr' = tr ++ [Ev (Release h) r] /\
    o = Some (with_refs ob (if (r =? 0)%Z then bo_refCount ob - 1 else bo_refCount ob))).
Proof using C.
  intros Hn. unfold release_handler. cbn -[bo_Release]. intros r _.
  destruct (Z.eqb_spec r 0) as [->|Hr]; cbn -[bo_Release].
  - unfold bo_Release. destruct (decrement_range (bo_refCount ob)) as (E1 & E2 & E3); [lia|].
    rewrite E1, u32_id by (unfold max_refs in *; lia).
    destruct (Z.eqb_spec (bo_refCount ob - 1) 0); [lia|]. cbn. by exists 0%Z.
  - exists r. rewrite (proj2 (Z.eqb_neq r 0)) by done. by destruct ob.
Qed.

Lemma release_handler_ok bor tr R B h ob :
  (1 < bo_refCount ob <= max_refs)%Z -> Acct bor tr (h :: R) B ->
  every_run C (release_handler h ob) tr (fun o tr' => exists m,
    o = Some (with_refs ob m) /\ (bo_refCount ob - 1 <= m <= bo_refCount ob)%Z /\
    Acct bor tr' R B /\ callbacks tr' = callbacks tr).
Proof using C.
  intros Hn HA. eapply every_run_mono; [|by apply release_handler_run].
  intros o tr' (r & -> & ->). acct_step HA. eexists. split_and!; [done|case_match; lia..|done|].
  rewrite callbacks_app. cbn. by rewrite app_nil_r.
Qed.

Lemma RegisterCustomScheme_ok bor tr R B wv : wv ∈ bor \/ wv ∈ R -> Acct bor tr R B ->
  every_run C (RegisterCustomScheme wv) tr (fun _ tr' => Acct bor tr' R B /\ callbacks tr' = callbacks tr).
Proof using HC.
  intros Hwv HA. unfold RegisterCustomScheme. cbn. intros h Hh. apply HC in Hh. cbn in Hh. acct_step HA.
  assert (Hwv' : wv ∈ bor \/ wv ∈ h :: R) by (destruct Hwv; [by left|right; by apply list_elem_of_further]).
  intros hr _. acct_step HA.
  destruct (FAILED hr); cbn.
  - intros r _. acct_step HA. split; [exact HA|]. rewrite !callbacks_app. cbn. by rewrite !app_nil_r.
  - intros [hr2 token] _. acct_step HA.
    intros r _. acct_step HA. split; [exact HA|]. rewrite !callbacks_app. cbn. by rewrite !app_nil_r.
Qed.

Context (bor : list Z) (ob0 : MyBrowserObject) (ctrl : Z) (cbs0 : list (Z * Z * Z * Z * Z)).

Definition ends_told (o : option ending) (tr : list ev) : Prop :=
  (exists e, o = Some e /\ told_at bor ob0 ctrl cbs0 e tr) \/ breaks bor cbs0 tr.

Lemma tell_ok e tr : told_at bor ob0 ctrl cbs0 e tr -> every_run C (tell (e_ob e) (e_stage e) (e_result e) (e_views e)) tr ends_told.
Proof using. intros H. left. exists e. split; [by destruct e|done]. Qed.

Context (Hob0 : (0 < bo_refCount ob0)%Z) (Hmax : (bo_refCount ob0 + 5 <= max_refs)%Z) (Hctrl : ctrl ∈ bor).

Lemma tell_failed tr ob stage result : stage <> FINISH -> more_refs 4 ob0 ob -> Acct bor tr [] [] -> callbacks tr = cbs0 ->
  every_run C (tell ob stage result []) tr ends_told.
Proof using.
  intros Hst Hm HA Hc. apply (tell_ok (Ending ob stage result [])). destruct Hm as (m & -> & Hm). split_and!; [done|done|]. left.
  split_and!; [done|done|by exists m|done].
Qed.

Lemma add_handler_ok tr R0 R1 ob cls obj m onfail onok stage k :
  stage <> FINISH -> (exists j, (j <= 3)%Z /\ more_refs j ob0 ob) ->
  obj ∈ bor \/ obj ∈ R0 -> R0 ≡ₚ onfail -> R0 ≡ₚ onok ++ R1 ->
  Acct bor tr R0 [] -> callbacks tr = cbs0 ->
  (forall ob' tr', more_refs 1 ob ob' -> Acct bor tr' R1 [] -> callbacks tr' = cbs0 -> every_run C (k ob') tr' ends_told) ->
  every_run C (add_handler ob cls obj m onfail onok stage k) tr ends_told.
Proof using HC Hob0 Hmax.
  intros Hst (j & Hj & mm & -> & Hmm) Hobj Hf Hok HA Hcb Hk. unfold add_handler.
  cbn -[release_all release_handler bo_AddRef]. intros h Hh. apply HC in Hh. cbn in Hh. acct_step HA.
  intros [rtn token] _.
  acct_by HA (Acct_getvalue _ _ _ _ HA obj m [APtr h] (rtn, token)
                ltac:(destruct Hobj; [by left|right; by apply list_elem_of_further])).
  match type of HA with Acct _ ?t _ _ => assert (Hc : callbacks t = cbs0)
    by (rewrite !callbacks_app; cbn; by rewrite !app_nil_r) end.
  destruct (increment_range mm) as (E1 & _ & _); [simpl in *; lia|].
  assert (Eadd : (bo_AddRef (with_refs ob0 mm)).2 = with_refs ob0 (mm + 1)) by (unfold bo_AddRef; simpl; by rewrite E1).
  rewrite Eadd. destruct (FAILED rtn); apply every_run_bind.
  - eapply every_run_mono; [|apply (release_all_quiet C bor [h] [] onfail)].
    2: { eapply Acct_proper; [|reflexivity|exact HA]. rewrite Hf. symmetry. apply Permutation_cons_append. }
    cbn -[release_handler]. intros _ tr2 [HA2 Hc2]. apply every_run_bind.
    eapply every_run_mono; [|by apply (release_handler_ok bor tr2 [] [] h); [simpl in *; lia|]].
    intros o tr3 (m2 & -> & Hm2 & HA3 & Hc3). apply tell_failed; [done| |done|by rewrite Hc3, Hc2].
    exists m2. split; [done|]. simpl in *. lia.
  - eapply every_run_mono; [|apply (release_all_quiet C bor (h :: R1) [] onok)].
    2: { eapply Acct_proper; [|reflexivity|exact HA]. rewrite Hok. symmetry. apply Permutation_middle. }
    cbn -[release_handler]. intros _ tr2 [HA2 Hc2]. apply every_run_bind.
    eapply every_run_mono; [|by apply (release_handler_ok bor tr2 R1 [] h); [simpl in *; lia|]].
    intros o tr3 (m2 & -> & Hm2 & HA3 & Hc3). apply Hk; [|done|by rewrite Hc3, Hc2].
    exists m2. split; [done|]. simpl in *. lia.
Qed.

Lemma broken_run {X} (p : act X) (Q : X -> list ev -> Prop) tr :
  (forall x tr', breaks bor cbs0 tr' -> Q x tr') -> breaks bor cbs0 tr -> every_run C p tr Q.
Proof using. intros HQ H. eapply every_run_mono; [exact HQ|by apply breaks_run]. Qed.

Lemma failed_settings tr wv hr r : (hr < 0)%Z -> Acct bor tr [wv] [] -> callbacks tr = cbs0 ->
  breaks bor cbs0 ((tr ++ [Ev (Fetch wv "get_Settings" []) (hr, 0%Z)]) ++ [Ev (Invoke 0 "put_IsStatusBarEnabled" [AInt 0]) r]).
Proof using.
  intros Hr HA Hc. exists tr, [], wv, hr. split_and!; [done..|]. right. right. exists r. split; [done|by rewrite <- (assoc_L (++))].
Qed.

(** The color scheme, if the runtime has one. *)
Lemma color_scheme_ok tr wv : wv <> 0%Z -> Acct bor tr [wv] [] -> callbacks tr = cbs0 ->
  every_run C ('(rtn, webview2_13) ← call (QueryInterface wv (i_iid ICoreWebView2_13));
    if SUCCEEDED rtn && c_true webview2_13 then
      '(hr, profile) ← call (Fetch webview2_13 "get_Profile" []);
      _ ← (if SUCCEEDED (c_bool (c_true hr && c_true profile)) then
             _ ← call (Invoke profile "put_PreferredColorScheme" [AInt COREWEBVIEW2_PREFERRED_COLOR_SCHEME_LIGHT]);
             _ ← call (Release profile);
             Ret tt
           else Ret tt);
      _ ← call (Release webview2_13);
      Ret tt
    else Ret tt) tr (fun _ tr' => (Acct bor tr' [wv] [] /\ callbacks tr' = cbs0) \/ breaks bor cbs0 tr').
Proof using HC.
  intros Hwv HA Hcb. cbn. intros [rtn wv13] Hq. apply HC in Hq. cbn in Hq. destruct Hq as [[-> Hwv13]|[Hr ->]]; acct_step HA.
  - cbn. rewrite (proj2 (c_true_spec wv13)) by done. cbn. intros [hr pf] Hp. apply HC in Hp.
    cbn in Hp. destruct Hp as [[-> Hpf]|[Hhr ->]]; cbn; [|rewrite andb_false_r; cbn].
    + acct_step HA. intros r1 _. acct_step HA. intros r2 _. acct_step HA. intros r3 _. acct_step HA.
      left. split; [exact HA|]. rewrite !callbacks_app, Hcb. cbn. by rewrite !app_nil_r.
    + intros r1 _ r2 _ r3 _. right. do 2 apply breaks_app. eexists _, [], wv, hr. split_and!; [|exact Hhr|].
      2: { right. left. exists wv13, r1. split; [exact HA|by rewrite <- !(assoc_L (++))]. }
      rewrite callbacks_app, Hcb. cbn. by rewrite app_nil_r.
  - unfold SUCCEEDED. rewrite (proj2 (Z.leb_gt 0 rtn)) by done. cbn.
    left. split; [exact HA|]. rewrite callbacks_app, Hcb. cbn. by rewrite app_nil_r.
Qed.

(** The end, from the settings on. *)
Lemma settings_ok tr ob wv : more_refs 4 ob0 ob -> wv <> 0%Z -> Acct bor tr [wv] [] -> callbacks tr = cbs0 ->
  every_run C ('(hr, settings) ← call (Fetch wv "get_Settings" []);
    _ ← (if SUCCEEDED (c_bool (c_true hr && c_true settings)) then
           _ ← call (Invoke settings "put_IsStatusBarEnabled" [AInt 0]);
           _ ← call (Release settings);
           Ret tt
         else Ret tt);
    nw ← call (NewObject "MyNewWindowRequestedHandler");
    _ ← call (GetValue wv "add_NewWindowRequested" [APtr nw]);
    ob ← SetController ob ctrl;
    ob ← SetWebView2 ob wv;
    tell ob FINISH OK [wv]) tr ends_told.
Proof using HC Hctrl.
  intros (m & -> & Hm) Hwv HA Hcb. cbn -[SetController SetWebView2]. intros [hr st] Hs. apply HC in Hs.
  cbn in Hs. destruct Hs as [[-> Hst]|[Hhr ->]]; cbn -[SetController SetWebView2];
    [|rewrite andb_false_r; cbn -[SetController SetWebView2]].
  - acct_step HA. intros r1 _. acct_step HA. intros r2 _. acct_step HA.
    intros nw Hnw. apply HC in Hnw. cbn in Hnw. acct_step HA. intros [hr2 tk] _. acct_step HA.
    cbn. intros r3 _. acct_by HA (Acct_addref _ _ _ _ HA ctrl r3 ltac:(by left)).
    intros r4 _. acct_step HA. left. eexists. split; [reflexivity|]. split_and!; [done| |].
    + rewrite !callbacks_app, Hcb. cbn. by rewrite !app_nil_r.
    + right. split_and!; [done..|]. exists nw, wv, m. split_and!; [done..|lia|lia|].
      eapply Acct_proper; [|reflexivity|exact HA]. apply perm_skip, perm_3.
  - intros r1 _. pose proof (failed_settings tr wv hr r1 Hhr HA Hcb) as Hb.
    intros r2 _. cbn. intros nw _ [hr2 tk] _ r3 _ r4 _. right. by do 5 apply breaks_app.
Qed.

Lemma finish_view_ok tr ob wv :
  more_refs 4 ob0 ob -> wv <> 0%Z -> Acct bor tr [wv] [] -> callbacks tr = cbs0 ->
  every_run C (finish_view ob ctrl wv) tr ends_told.
Proof using HC Hctrl.
  intros Hm Hwv HA Hcb. pose proof (color_scheme_ok tr wv Hwv HA Hcb) as Hcolor. unfold finish_view.
  cbn -[SetController SetWebView2] in Hcolor |- *. intros [rtn wv13] Hq. specialize (Hcolor (rtn, wv13) Hq).
  apply every_run_bind. eapply every_run_mono; [|exact Hcolor].
  intros [] tr1 [[HA1 Hc1]|Hb]; [by apply settings_ok|]. apply broken_run; [by right|done].
Qed.

Lemma add_context_menu_ok tr ob wv wv2 :
  more_refs 3 ob0 ob -> wv <> 0%Z -> Acct bor tr [wv] [] -> callbacks tr = cbs0 ->
  every_run C (add_context_menu ob ctrl wv wv2) tr ends_told.
Proof using HC Hob0 Hmax Hctrl.
  intros Hm Hwv HA Hcb. unfold add_context_menu. cbn -[add_handler].
  intros [rtn wv11] Hq. pose proof (HC _ _ _ Hq) as Hq'. cbn in Hq'. destruct Hq' as [[-> Hwv11]|[Hr ->]].
  - acct_step HA. rewrite (proj2 (c_true_spec wv11)) by done.
    cbn -[add_handler]. apply (add_handler_ok _ [wv11; wv] [wv]); try done.
    + by exists 3%Z.
    + right. by apply list_elem_of_here.
    + apply perm_2.
    + rewrite callbacks_app, Hcb. cbn. by rewrite app_nil_r.
    + intros ob' tr' Hm' HA' Hc'. apply finish_view_ok; try done. by eapply (more_refs_trans 3 1).
  - unfold FAILED. rewrite (proj2 (Z.ltb_lt rtn 0)) by done. cbn. intros r1 _ r2 _. right.
    exists tr, [], wv, rtn. split_and!; [done..|]. left. exists wv2, r1, r2. split; [done|by rewrite <- !(assoc_L (++))].
Qed.

Lemma add_listeners_ok tr wv :
  wv <> 0%Z -> Acct bor tr [wv] [] -> callbacks tr = cbs0 ->
  every_run C (add_listeners ob0 ctrl wv) tr ends_told.
Proof using HC Hob0 Hmax Hctrl.
  intros Hwv HA Hcb. unfold add_listeners. cbn -[add_handler].
  intros [rtn wv2] Hq. pose proof (HC _ _ _ Hq) as Hq'. cbn in Hq'.
  assert (Hcb' : callbacks (tr ++ [Ev (QueryInterface wv (i_iid ICoreWebView2_2)) (rtn, wv2)]) = cbs0)
    by (rewrite callbacks_app, Hcb; cbn; by rewrite app_nil_r).
  destruct Hq' as [[-> Hwv2]|[Hr ->]]; acct_step HA.
  - rewrite (proj2 (c_true_spec wv2)) by done. cbn -[add_handler].
    apply (add_handler_ok _ [wv2; wv] [wv2; wv]); try done; [exists 0%Z; split; [lia|apply more_refs_0]| |apply perm_2|].
    { right. by apply list_elem_of_here. }
    intros ob1 tr1 Hm1 HA1 Hc1. apply (add_handler_ok _ [wv2; wv] [wv2; wv]); try done; [by exists 1%Z| |apply perm_2|].
    { right. by apply list_elem_of_here. }
    intros ob2 tr2 Hm2 HA2 Hc2.
    apply (add_handler_ok _ [wv2; wv] [wv]); try done;
      [exists 2%Z; split; [lia|by eapply (more_refs_trans 1 1)]|by left|apply perm_2|].
    intros ob3 tr3 Hm3 HA3 Hc3. apply add_context_menu_ok; try done.
    eapply (more_refs_trans 1 2); [done| |lia]. by eapply (more_refs_trans 1 1).
  - unfold FAILED. rewrite (proj2 (Z.ltb_lt rtn 0)) by done. cbn.
    intros r _. acct_step HA. apply tell_failed; [done| |done|].
    + exists (bo_refCount ob0). split; [by destruct ob0|lia].
    + rewrite !callbacks_app, Hcb. cbn. by rewrite !app_nil_r.
Qed.

Lemma create_controller_ok tr result : Acct bor tr [] [] -> callbacks tr = cbs0 ->
  every_run C (create_controller ob0 result ctrl) tr ends_told.
Proof using HC Hob0 Hmax Hctrl.
  intros HA Hcb. unfold create_controller.
  assert (H0 : more_refs 4 ob0 ob0) by (exists (bo_refCount ob0); split; [by destruct ob0|lia]).
  destruct (FAILED result); [by apply tell_failed|].
  cbn -[RegisterCustomScheme add_listeners]. intros [rtn wv] Hq. pose proof (HC _ _ _ Hq) as Hq'. cbn in Hq'.
  assert (Hcb' : callbacks (tr ++ [Ev (Fetch ctrl "get_CoreWebView2" []) (rtn, wv)]) = cbs0)
    by (rewrite callbacks_app, Hcb; cbn; by rewrite app_nil_r).
  destruct Hq' as [[-> Hwv]|[Hr ->]]; acct_step HA.
  - cbn -[RegisterCustomScheme add_listeners]. apply every_run_bind.
    eapply every_run_mono; [|by apply (RegisterCustomScheme_ok _ _ _ _ wv ltac:(right; by apply list_elem_of_here) HA)].
    cbn -[add_listeners]. intros rtn2 tr2 [HA2 Hc2].
    destruct (FAILED rtn2); [|apply add_listeners_ok; try done; by rewrite Hc2].
    cbn. intros r _. acct_step HA2. apply tell_failed; [done..|].
    rewrite callbacks_app, Hc2, Hcb'. cbn. by rewrite app_nil_r.
  - unfold FAILED. rewrite (proj2 (Z.ltb_lt rtn 0)) by done. by apply tell_failed.
Qed.
End create.

(** The end of the handler when nothing happens inside it. *)
Lemma ready_and_return_ok C bor ob0 ctrl cbs0 e tr : told_at bor ob0 ctrl cbs0 e tr ->
  every_run C (ready_and_return (e_ob e) (e_stage e) (e_result e) (e_views e)) tr (ready_post bor ob0 ctrl cbs0).
Proof.
  destruct e as [ob stage result views]. intros (Hfn & Hc & Hcase). unfold ready_and_return.
  cbn [e_ob e_stage e_result e_views].
  assert (HA : exists R, Acct bor tr (views ++ R) [] /\
    ((stage <> FINISH /\ more_refs 4 ob0 ob /\ R = []) \/
     (stage = FINISH /\ result = OK /\ exists nw view n, R = [nw; view; ctrl] /\
        ob = BrowserObject ctrl view (bo_hwnd ob0) (onCallBackFn ob0) n /\ view <> 0%Z /\
        (bo_refCount ob0 <= n <= bo_refCount ob0 + 4)%Z))).
  { destruct Hcase as [(? & -> & ? & HA)|(? & ? & nw & view & n & -> & ? & ? & ? & HA)].
    - exists []. split; [done|]. by left.
    - exists [nw; view; ctrl]. split; [done|]. right. split_and!; [done..|]. by exists nw, view, n. }
  clear Hcase. destruct HA as (R & HA & Hcase). apply every_run_bind.
  eapply every_run_mono; [|by apply (onReady_ok C bor tr _ _ ob stage result HA)].
  intros _ tr2 [HA2 Hc2]. apply every_run_bind. eapply every_run_mono; [|by apply (release_all_quiet C bor R [] views)].
  intros _ tr3 [HA3 Hc3]. exists ob, stage, result.
  assert (E : callbacks tr3 = cbs0 ++ ready_call ob0 stage result).
  { rewrite Hc3, Hc2, Hc. unfold ready_call. by rewrite Hfn. }
  destruct Hcase as [(Hst & Hm & ->)|(-> & -> & nw & view & n & -> & -> & Hv & Hn)]; (split_and!; [done..|]).
  - by left.
  - right. split_and!; [done..|]. by exists nw, view, n.
Qed.

Lemma CreateController_ok C ob0 result ctrl : (forall tr a r, C tr a r -> com_contract tr a r) ->
  (0 < bo_refCount ob0)%Z -> (bo_refCount ob0 + 5 <= max_refs)%Z ->
  every_run C (CreateController_Invoke ob0 result ctrl) [] (fun o tr => ready_post [ctrl] ob0 ctrl [] o tr \/ breaks [ctrl] [] tr).
Proof.
  intros HC Hob0 Hmax. apply every_run_bind.
  eapply every_run_mono; [|apply (create_controller_ok C HC [ctrl] ob0 ctrl []); try done; [apply list_elem_of_here|apply Acct_nil]].
  intros o tr [(e & -> & He)|Hb].
  - eapply every_run_mono; [|by apply ready_and_return_ok]. intros; by left.
  - eapply every_run_mono; [|by apply breaks_run]. intros; by right.
Qed.

(** C7: Creating the controller leaves no reference behind and tells Go exactly once how it
    ended: when a stage fails, all views, handlers and the browser object's own counts are
    given back; when all succeed, the browser object holds one reference on the controller
    and one on the view.  Only the handler for new windows, whose first reference is never
    released, stays.  The exceptions are three failures of the runtime ([breaks]), on which
    the handler, before it has told Go anything, releases an object that it holds nothing
    on or calls a method of a null pointer. *)
Theorem controller_completed ob result ctrl
    (Hob : (0 < bo_refCount ob)%Z) (Hmax : (bo_refCount ob + 5 <= max_refs)%Z) :
  every_run com_contract (CreateController_Invoke ob result ctrl) [] (fun o tr =>
    ready_post [ctrl] ob ctrl [] o tr \/ breaks [ctrl] [] tr).
Proof. by apply CreateController_ok. Qed.

Lemma controller_completed_witness :
  every_run com_contract (CreateController_Invoke (new_MyBrowserObject 7 9) 0 50) [] (fun o tr =>
    ready_post [50%Z] (new_MyBrowserObject 7 9) 50 [] o tr \/ breaks [50%Z] [] tr).
Proof.
  apply (controller_completed (new_MyBrowserObject 7 9) 0 50); unfold max_refs; simpl; lia.
Defined.

(** Only calls of Go's function [f]. *)
Definition go_only (f : Z) (tr : list ev) : Prop :=
  Forall (fun e => exists t a b c r, e = Ev (GoCallback f t a b c) r) tr.

(** What the environment handler does: report that there is no environment; or ask for
    the controller with a fresh handler, report if that fails at once, and give the
    handler up to the runtime. *)
Definition environment_post (ob : MyBrowserObject) (hwnd result env : Z) (o : invoke_result) (tr : list ev) : Prop :=
  exists ob', o = Some (S_OK, ob') /\ more_refs 1 ob ob' /\ Acct [env] tr [] [] /\
    (((result < 0)%Z /\ ob' = ob /\ callbacks tr = ready_call ob CREATING_ENVIRONMENT result /\
        go_only (onCallBackFn ob) tr) \/
     ((0 <= result)%Z /\ exists h rtn told r,
        tr = [Ev (NewObject "MyCreateControllerCompletedHandler") h;
              Ev (Invoke env "CreateCoreWebView2Controller" [APtr hwnd; APtr h]) rtn] ++ told ++ [Ev (Release h) r] /\
        callbacks told = (if FAILED rtn then ready_call ob CREATING_CONTROLLER rtn else []) /\
        ((0 <= rtn)%Z -> told = []) /\ go_only (onCallBackFn ob) told /\
        bo_refCount ob' = (if (r =? 0)%Z then bo_refCount ob else bo_refCount ob + 1)%Z)).

Lemma onReady_run C tr ob stage result :
  every_run C (onReady ob stage result) tr (fun _ tr' => exists told, tr' = tr ++ told /\
    callbacks told = ready_call ob stage result /\
    go_only (onCallBackFn ob) told).
Proof.
  unfold onReady, go_callback, ready_call. destruct (c_true (onCallBackFn ob)); cbn.
  - intros r _. eexists. split_and!; [reflexivity|done|]. constructor; [eauto 6|constructor].
  - exists []. split_and!; [by rewrite app_nil_r|done|constructor].
Qed.

Lemma CreateEnvironment_ok C ob hwnd result env :
  (forall tr a r, C tr a r -> com_contract tr a r) ->
  (0 < bo_refCount ob)%Z -> (bo_refCount ob + 1 <= max_refs)%Z ->
  every_run C (CreateEnvironment_Invoke ob hwnd result env) [] (environment_post ob hwnd result env).
Proof.
  intros HC Hob Hmax. unfold CreateEnvironment_Invoke, create_environment, SUCCEEDED. destruct (Z.leb_spec 0 result) as [Hr|Hr].
  - cbn -[onReady release_handler bo_AddRef]. intros h Hh. apply HC in Hh. cbn in Hh. intros rtn _.
    pose proof (Acct_new _ _ _ _ (Acct_nil [env]) "MyCreateControllerCompletedHandler" h Hh) as HA.
    pose proof (Acct_invoke _ _ _ _ HA env "CreateCoreWebView2Controller" [APtr hwnd; APtr h] rtn ltac:(acct_mem)) as HA1.
    destruct (increment_range (bo_refCount ob)) as (E1 & _ & _); [unfold max_refs in *; lia|].
    assert (Eadd : (bo_AddRef ob).2 = with_refs ob (bo_refCount ob + 1)) by (unfold bo_AddRef; simpl; by rewrite E1).
    rewrite Eadd. clear HA. apply every_run_bind.
    match type of HA1 with Acct _ ?t _ _ => apply every_run_mono with (Q1 := fun o tr' => o = Some (S_OK, with_refs ob (bo_refCount ob + 1)) /\ exists told, tr' = t ++ told /\
      Acct [env] tr' [h] [] /\ callbacks told = (if FAILED rtn then ready_call ob CREATING_CONTROLLER rtn else []) /\
      ((0 <= rtn)%Z -> told = []) /\ go_only (onCallBackFn ob) told) end.
    + intros o tr1 (-> & told & -> & HA2 & Hc & Ht & Hg). apply every_run_bind.
      eapply every_run_mono; [|apply release_handler_run; simpl; lia].
      intros o' tr2 (r & -> & ->). acct_by HA2 (Acct_release _ _ _ _ HA2 h r [] ltac:(done)). cbn. eexists. split_and!; [reflexivity| |done|].
      { eexists. split; [reflexivity|]. simpl. destruct (r =? 0)%Z; lia. }
      right. split; [done|]. exists h, rtn, told, r. split_and!; [done|done|done|done|].
      simpl. destruct (r =? 0)%Z; lia.
    + unfold FAILED. destruct (Z.ltb_spec rtn 0).
      * apply every_run_bind. eapply every_run_mono; [|apply every_run_and; [apply onReady_run|
          by apply (onReady_ok C _ _ _ _ _ CREATING_CONTROLLER rtn HA1)]].
        intros _ tr2 [(told & -> & Hc & Hg) [HA2 _]]. split; [done|]. exists told. split_and!; [done..|lia|done].
      * split; [done|]. exists []. split_and!; [done..|constructor].
  - apply every_run_bind.
    eapply every_run_mono; [|apply every_run_and; [apply onReady_run|
      apply (onReady_ok C [env] [] [] [] ob CREATING_ENVIRONMENT result), Acct_nil]].
    intros _ tr2 [(told & -> & Hc & Hf) [HA2 _]]. exists ob. split_and!; [done| |done|].
    + exists (bo_refCount ob). split; [by destruct ob|lia].
    + left. split_and!; done.
Qed.

(** The environment handler asks for the controller with a fresh handler and keeps no
    reference; Go only hears of failures, and the browser object is only referenced
    by a controller handler that the runtime kept. *)
Theorem environment_completed ob hwnd result env
    (Hob : (0 < bo_refCount ob)%Z) (Hmax : (bo_refCount ob + 1 <= max_refs)%Z) :
  every_run com_contract (CreateEnvironment_Invoke ob hwnd result env) [] (environment_post ob hwnd result env).
Proof. by apply CreateEnvironment_ok. Qed.

Lemma environment_completed_witness :
  every_run com_contract (CreateEnvironment_Invoke (new_MyBrowserObject 7 9) 7 0 60) []
    (environment_post (new_MyBrowserObject 7 9) 7 0 60).
Proof. apply (environment_completed (new_MyBrowserObject 7 9) 7 0 60); unfold max_refs; simpl; lia. Defined.

(** A runtime in which one call fails. *)
Definition failing_env (bad : Win32 -> bool) (s : Z) (a : Win32) : Ans a * Z :=
  if bad a then
    match a return Ans a * Z with
    | QueryInterface _ _ => ((E_NOINTERFACE, 0)%Z, s)
    | Fetch _ _ _ => ((E_NOINTERFACE, 0)%Z, s)
    | a => good_env s a
    end
  else good_env s a.

Definition is_query (iid : guid) (a : Win32) : bool :=
  match a with QueryInterface _ i => bool_decide (i = iid) | _ => false end.

Definition is_fetch (m : string) (a : Win32) : bool :=
  match a with Fetch _ m' _ => String.eqb m' m | _ => false end.

(** With a runtime that lacks [ICoreWebView2_11] the code releases the pointer to
    [ICoreWebView2_2] twice: once after the last registration through it, and
    again when the query for the context menu interface fails. *)
Theorem old_runtime_double_release :
  let tr := trace (failing_env (is_query (i_iid ICoreWebView2_11)))
              (CreateController_Invoke (new_MyBrowserObject 7 9) 0 50) 1000%Z in
  exists view view2,
    Ev (QueryInterface view (i_iid ICoreWebView2_2)) (S_OK, view2) ∈ tr /\ held tr view2 = (-1)%Z.
Proof.
  exists 1000%Z, 1200%Z. split; [|vm_compute; reflexivity].
  apply list_elem_of_In. vm_compute. tauto.
Qed.

(** A failing [get_Settings] is not noticed, because the parenthesis of [SUCCEEDED]
    includes the comparison with null: the code goes on to call a method of the
    null pointer. *)
Theorem failed_settings_null_call :
  exists r, Ev (Invoke 0 "put_IsStatusBarEnabled" [AInt 0]) r ∈
    trace (failing_env (is_fetch "get_Settings")) (CreateController_Invoke (new_MyBrowserObject 7 9) 0 50) 1000%Z.
Proof. exists 0%Z. apply list_elem_of_In. vm_compute. tauto. Qed.
