(* ===== verification/WvRequest.v ===== *)
(** * Serving [suneido:] resources to WebView2 (webview2/MyCustomSchemeHandler.h)

    The handler sees every resource request.  For a [suneido:] address it asks Go for
    the content and builds the response; all other requests it leaves alone. *)

From stdpp Require Import pretty.
From S2P Require Import Prelude Prog Win32 Accounting RefCount AppBridge SunApp WvApi WvHelpers WvObject.

(** The bytes of a C string as characters. *)
Definition string_of_bytes (l : list Z) : string :=
  foldr (fun b s => String (Ascii.ascii_of_nat (Z.to_nat b)) s) "" l.

Definition no_content_headers : string :=
  "Content-Disposition: inline" +:+ crlf +:+ "Content-Length: 0" +:+ crlf +:+ "Content-Type: text/plain".

(** The header of a response with content. *)
Definition content_header (converted : list Z) (size : Z) : string :=
  buildContentTypeHeader (string_of_bytes (c_str converted)) +:+ "Content-Length: " +:+ pretty size.

(** The bytes [SHCreateMemStream] copies: [(ULONG)buf.size] from [buf.data]. *)
Definition stream_bytes (buf : buf_t) : list Z :=
  take (Z.to_nat (u32 (buf_size buf))) (contents (buf_data buf)).

(** The response to a request for [converted]; [None] when a null pointer is used:
    [strrchr] of a failed conversion, or a response that was not created. *)
Definition respond (environment args : Z) (converted : option (list Z)) (buf : buf_t) : act (option unit) :=
  if (buf_size buf =? 0)%Z then
    '(_, response) ← call (Fetch environment "CreateWebResourceResponse"
                             [APtr 0; AInt 204; AStr "No Content"; AStr no_content_headers]);
    _ ← call (Invoke args "put_Response" [APtr response]);
    if c_true response then _ ← call (Release response); Ret (Some tt) else Ret None
  else
    stream ← call (SHCreateMemStream (stream_bytes buf));
    if c_true stream then
      match converted with
      | None => Ret None
      | Some uri =>
          '(_, response) ← call (Fetch environment "CreateWebResourceResponse"
                                   [APtr stream; AInt 200; AStr "OK"; AStr (content_header uri (buf_size buf))]);
          _ ← call (Invoke args "put_Response" [APtr response]);
          if c_true response then
            _ ← call (Release response);
            _ ← call (Release stream);
            Ret (Some tt)
          else Ret None
      end
    else Ret (Some tt).

(** A converted string is an array of the handler itself, which it deletes. *)
Definition converted_url (converted : option (Z * list Z)) : cstring :=
  match converted with Some (_, c) => StackBuf c | None => Null end.

Definition delete_converted (converted : option (Z * list Z)) : act unit :=
  call (DeleteArray (from_option fst 0%Z converted)).

(** The body of the test for the [suneido:] prefix, for the address [w] in block [p].
    The two early returns give [inl hr], the end [inr] with whether the block that was
    deleted is one of the heap. *)
Definition serve (g : globals) (junk sender args request p : Z) (w : list Z) : act (option (Z + bool)) :=
  '(hr, webview2_2) ← call (QueryInterface sender (i_iid ICoreWebView2_2));
  if FAILED hr || negb (c_true webview2_2) then
    _ ← call (CoTaskMemFree p);
    _ ← call (Release request);
    Ret (Some (inl hr))
  else
    '(hr, environment) ← call (Fetch webview2_2 "get_Environment" []);
    if FAILED hr || negb (c_true environment) then
      _ ← call (CoTaskMemFree p);
      _ ← call (Release request);
      _ ← call (Release webview2_2);
      Ret (Some (inl hr))
    else
      converted ← ConvertWcharToChar (Some w);
      buf ← suneidoAPP g junk (converted_url converted);
      o ← respond environment args (snd <$> converted) buf;
      match (o : option unit) with
      | None => Ret None
      | Some _ =>
          _ ← delete_converted converted;
          ok ← delete_str (buf_data buf) true;
          _ ← call (Release environment);
          _ ← call (Release webview2_2);
          Ret (Some (inr ok))
      end.

(** The result code and the state of the heap; [None] when a null pointer is used. *)
Definition CustomScheme_Invoke (g : globals) (junk sender args : Z) : act (option (Z * bool)) :=
  '(hr, request) ← call (Fetch args "get_Request" []);
  if FAILED hr || negb (c_true request) then Ret (Some (hr, true))
  else
    '(hr, uri) ← call (GetString request "get_Uri" []);
    match uri with
    | Some (p, w) =>
        if FAILED hr then _ ← call (Release request); Ret (Some (hr, true))
        else if is_suneido_uri w then
          o ← serve g junk sender args request p w;
          match (o : option (Z + bool)) with
          | None => Ret None
          | Some (inl hr) => Ret (Some (hr, true))
          | Some (inr ok) =>
              _ ← call (CoTaskMemFree p);
              _ ← call (Release request);
              Ret (Some (S_OK, ok))
          end
        else
          _ ← call (CoTaskMemFree p);
          _ ← call (Release request);
          Ret (Some (S_OK, true))
    | None => _ ← call (Release request); Ret (Some (hr, true))
    end.

(** ** What Windows promises *)

(** On top of COM's results: messages to the helper window are delivered. *)
Definition request_contract (g : globals) : contract Ans := fun tr a r =>
  com_contract tr a r /\ window_contract (helperHwnd g) tr a r.

(** What a request observably does: the address that is read, its conversion, the
    question to Go, the content, the response and its installation. *)
Inductive observation :=
| OAddress (w : list Z)
| OLength (w : list Z) (n : Z)
| OConverted (w : list Z) (n : Z) (c : list Z)
| OAsk (thread : Z) (url content : list Z)
| OStream (bytes : list Z) (stream : Z)
| OResponse (args : list arg) (response : Z)
| OInstall (obj : Z) (args : list arg).

Definition observe (e : ev) : option observation :=
  match e with
  | Ev a r =>
      match a return Ans a -> option observation with
      | GetString _ _ _ => fun r => (fun q => OAddress q.2) <$> r.2
      | WideCharToMultiByte _ w cch => fun r =>
          Some (if (cch =? 0)%Z then OLength w r.1 else OConverted w cch r.2)
      | GoSunAPP t url => fun content => Some (OAsk t url content)
      | SHCreateMemStream b => fun q => Some (OStream b q)
      | Fetch _ m args => fun r => if String.eqb m "CreateWebResourceResponse" then Some (OResponse args r.2) else None
      | Invoke o m args => fun _ => if String.eqb m "put_Response" then Some (OInstall o args) else None
      | _ => fun _ => None
      end r
  end.

Definition served (tr : list ev) : list observation := omap observe tr.

Lemma served_app tr1 tr2 : served (tr1 ++ tr2) = served tr1 ++ served tr2.
Proof. apply omap_app. Qed.

(** The conversion of the address: its length in bytes, for which there is an array, and its
    characters as a C string; or a failure. *)
Definition conversion (w : list Z) (c : option (list Z)) (l : list observation) : Prop :=
  match c with
  | Some c => exists n, n <> 0%Z /\ l = [OLength w n; OConverted w n c]
  | None => l = [OLength w 0]
  end.

(** The response to the address [c] with what Go gave: no content; or a stream with
    exactly Go's bytes; no response only when there is no memory for the stream.  The
    handler crashes when it takes the content type from a conversion that failed, and
    just after it has installed a response that could not be created. *)
Definition response_for (args : Z) (c : option (list Z)) (content : list Z) (l : list observation) (crash : bool) : Prop :=
  let size := i32 (Z.of_nat (length content)) in
  if (size =? 0)%Z then
    exists resp, crash = negb (c_true resp) /\
      l = [OResponse [APtr 0; AInt 204; AStr "No Content"; AStr no_content_headers] resp;
           OInstall args [APtr resp]]
  else
    exists bytes stream, ((Z.of_nat (length content) < 4294967296)%Z -> bytes = content) /\
      if c_true stream then
        match c with
        | None => l = [OStream bytes stream] /\ crash = true
        | Some c => exists resp, crash = negb (c_true resp) /\
            l = [OStream bytes stream;
                 OResponse [APtr stream; AInt 200; AStr "OK"; AStr (content_header c size)] resp;
                 OInstall args [APtr resp]]
        end
      else l = [OStream bytes stream] /\ crash = false.

(** Which interface was missing. *)
Definition refusal (e : ev) : option Z :=
  match e with
  | Ev a r =>
      match a return Ans a -> option Z with
      | QueryInterface _ _ | Fetch _ _ _ => fun r => if FAILED r.1 then Some r.1 else None
      | GetString _ _ _ => fun r => if FAILED r.1 then Some r.1 else None
      | _ => fun _ => None
      end r
  end.

(** The three outcomes: an interface was missing, it is not for us, or it is served - to the
    end, or up to the crash. *)
Definition serve_spec (g : globals) (sender args : Z) (o : option (Z * bool)) (tr : list ev) : Prop :=
  (exists hr, o = Some (hr, true) /\ Acct [sender; args] tr [] [] /\
    (((hr < 0)%Z /\ omap refusal tr = [hr] /\
        (served tr = [] \/ exists w, suneido_address w /\ served tr = [OAddress w])) \/
     (hr = S_OK /\ exists w, ~ suneido_address w /\ served tr = [OAddress w]))) \/
  (exists w c content lc l crash, suneido_address w /\ conversion w c lc /\ response_for args c content l crash /\
     served tr = OAddress w :: lc ++ OAsk (main_threadid g) (from_option c_str [] c) content :: l /\
     if crash then o = None /\ exists R B, Acct [sender; args] tr R B
     else o = Some (S_OK, true) /\ Acct [sender; args] tr [] []).

Lemma stream_bytes_all p content :
  (Z.of_nat (length content) < 4294967296)%Z ->
  stream_bytes (Buf (Malloced p (content ++ [0%Z])) (i32 (Z.of_nat (length content)))) = content.
Proof.
  intros Hl. unfold stream_bytes. simpl. rewrite u32_i32, u32_id by lia.
  by rewrite Nat2Z.id, take_app_length.
Qed.

Section serve.
Context (g : globals) (Hw : helperHwnd g <> 0%Z).

(** The array of a conversion. *)
Definition array_of (c : option (Z * list Z)) : list Z := from_option (fun q => [q.1]) [] c.

Lemma convert_ok bor tr R B w : Acct bor tr R B ->
  every_run (request_contract g) (ConvertWcharToChar (Some w)) tr (fun o tr' =>
    Acct bor tr' R (array_of o ++ B) /\ from_option (fun q => q.1 <> 0%Z) True o /\
    (exists lc, conversion w (snd <$> o) lc /\ served tr' = served tr ++ lc) /\ omap refusal tr' = omap refusal tr).
Proof using.
  intros HA. cbn -[Z.eqb]. intros [len l1] _. acct_step HA. destruct (Z.eqb_spec len 0) as [->|Hlen]; cbn.
  - split_and!; [exact HA|done| |by rewrite omap_app, app_nil_r]. eexists. split; [reflexivity|by rewrite served_app].
  - intros p Hp. apply proj1 in Hp. cbn in Hp. acct_by HA (Acct_new_array _ _ _ _ HA len p Hp). intros [len2 c] _.
    acct_step HA. split_and!; [exact HA|done| |by rewrite !omap_app, !app_nil_r]. eexists. split; [by exists len|].
    rewrite !served_app. cbn. rewrite (proj2 (Z.eqb_neq len 0)) by done. cbn. by rewrite app_nil_r, <- app_assoc.
Qed.

(** The response is created, installed and given up. *)
Lemma install_ok {A} bor tr R B env args l (k : act (option A)) (Q : option A -> list ev -> Prop) :
  env ∈ R -> args ∈ bor -> Acct bor tr R B ->
  (forall tr', Acct bor tr' R B -> (exists resp, c_true resp = true /\
     served tr' = served tr ++ [OResponse l resp; OInstall args [APtr resp]]) -> every_run (request_contract g) k tr' Q) ->
  (forall tr', Acct bor tr' R B -> served tr' = served tr ++ [OResponse l 0; OInstall args [APtr 0]] -> Q None tr') ->
  every_run (request_contract g)
    ('(_, response) ← call (Fetch env "CreateWebResourceResponse" l);
     _ ← call (Invoke args "put_Response" [APtr response]);
     if c_true response then _ ← call (Release response); k else Ret None) tr Q.
Proof using.
  intros Henv Hargs HA Hk HQ. cbn. intros [hr resp] [Hc _]. cbn in Hc. destruct Hc as [[-> Hresp]|[Hhr ->]].
  - acct_step HA. intros r1 _. acct_step HA. rewrite (proj2 (c_true_spec resp)) by done. cbn. intros r2 _.
    acct_step HA. apply Hk; [exact HA|]. exists resp. split; [by apply c_true_spec|].
    rewrite !served_app. cbn. by rewrite app_nil_r, <- app_assoc.
  - acct_step HA. intros r1 _. acct_step HA. apply HQ; [exact HA|]. rewrite !served_app. cbn. by rewrite <- app_assoc.
Qed.

Lemma respond_ok bor tr R B env args c p content :
  env ∈ R -> args ∈ bor -> Acct bor tr R B ->
  every_run (request_contract g)
    (respond env args c (Buf (Malloced p (content ++ [0%Z])) (i32 (Z.of_nat (length content))))) tr
    (fun o tr' => exists l crash, response_for args c content l crash /\ served tr' = served tr ++ l /\
       if crash then o = None /\ exists R' B', Acct bor tr' R' B' else o = Some tt /\ Acct bor tr' R B).
Proof using.
  intros Henv Hargs HA. pose proof (stream_bytes_all p content) as Hb.
  unfold respond, response_for. cbn [buf_size]. destruct (i32 (Z.of_nat (length content)) =? 0)%Z.
  - apply (install_ok bor tr R B); [exact Henv|exact Hargs|exact HA| |].
    + intros tr' HA' (resp & Hr & Hs). do 2 eexists. split; [by exists resp|]. split; [exact Hs|]. by rewrite Hr.
    + intros tr' HA' Hs. do 2 eexists. split; [by exists 0%Z|]. split; [exact Hs|]. simpl. eauto.
  - revert Hb. generalize (stream_bytes (Buf (Malloced p (content ++ [0%Z])) (i32 (Z.of_nat (length content))))) as bytes.
    intros bytes Hb. cbn -[content_header Z.eqb]. intros stream _. destruct (c_true stream) eqn:E.
    2: { apply c_true_0 in E as ->. acct_step HA. exists [OStream bytes 0%Z], false. split; [by exists bytes, 0%Z|]. by rewrite served_app. }
    pose proof E as Hst. apply c_true_spec in Hst. acct_step HA. destruct c as [uri|].
    2: { exists [OStream bytes stream], true. split; [exists bytes, stream; rewrite E; by split|].
         split; [by rewrite served_app|]. simpl. eauto. }
    apply (install_ok bor _ (stream :: R) B); [by apply list_elem_of_further|exact Hargs|exact HA| |].
    + intros tr' HA' (resp & Hr & Hs). cbn. intros r _. acct_step HA'. eexists _, false.
      split; [exists bytes, stream; rewrite E; split; [exact Hb|exists resp; by rewrite Hr]|].
      rewrite served_app, Hs, served_app. cbn. by rewrite app_nil_r, <- app_assoc.
    + intros tr' HA' Hs. eexists _, true. split; [exists bytes, stream; rewrite E; split; [exact Hb|by exists 0%Z]|].
      rewrite Hs, served_app. cbn. rewrite <- app_assoc. eauto.
Qed.

(** The part of the outcome that the body of the test decides. *)
Definition body_spec (sender args request p : Z) (w : list Z) (tr : list ev) (o : option (Z + bool)) (tr' : list ev) : Prop :=
  (exists hr, o = Some (inl hr) /\ (hr < 0)%Z /\ Acct [sender; args] tr' [] [] /\ served tr' = served tr /\
     omap refusal tr' = omap refusal tr ++ [hr]) \/
  (exists c content lc l crash, conversion w c lc /\ response_for args c content l crash /\
     served tr' = served tr ++ lc ++ OAsk (main_threadid g) (from_option c_str [] c) content :: l /\
     if crash then o = None /\ exists R B, Acct [sender; args] tr' R B
     else o = Some (inr true) /\ Acct [sender; args] tr' [request] [p]).

(** From the conversion on, with the environment. *)
Lemma answer_ok junk sender args tr request p w wv2 env : Acct [sender; args] tr [env; wv2; request] [p] ->
  every_run (request_contract g)
    (converted ← ConvertWcharToChar (Some w);
     buf ← suneidoAPP g junk (converted_url converted);
     o ← respond env args (snd <$> converted) buf;
     match (o : option unit) with
     | None => Ret None
     | Some _ =>
         _ ← delete_converted converted;
         ok ← delete_str (buf_data buf) true;
         _ ← call (Release env);
         _ ← call (Release wv2);
         Ret (Some (inr ok))
     end) tr (body_spec sender args request p w tr).
Proof using Hw.
  intros HA. apply every_run_bind. eapply every_run_mono; [|apply (convert_ok _ _ _ _ w HA)].
  intros conv tr1 (HA1 & Hp & (lc & Hlc & Hs1) & _). apply every_run_bind.
  eapply every_run_mono; [|apply (suneidoAPP_calls (request_contract g) g junk (converted_url conv) _ _ _ _
     ltac:(by intros ??? [_ ?]) Hw HA1)].
  intros buf tr2 (pre & content & q & -> & Hpre & -> & HA2). cbn [Ans] in *. apply every_run_bind.
  eapply every_run_mono; [|apply (respond_ok [sender; args] _ [env; wv2; request] (block_of q ++ array_of conv ++ [p]) env args (snd <$> conv) q content);
    [by repeat first [apply list_elem_of_here | apply list_elem_of_further]..|exact HA2]].
  assert (Hpre' : served pre = []) by (clear -Hpre; induction Hpre as [|[a r] pre [-> | ->] _ IH]; done).
  assert (Hurl : c_str (contents (converted_url conv)) = from_option c_str [] (snd <$> conv)) by (by destruct conv as [[? ?]|]).
  intros o tr3 (l & crash & Hl & Hs3 & Hend). rewrite Hurl in Hs3.
  assert (Hs : forall t, served t = [] -> served (tr3 ++ t) =
    served tr ++ lc ++ OAsk (main_threadid g) (from_option c_str [] (snd <$> conv)) content :: l).
  { intros t Ht. rewrite served_app, Ht, app_nil_r, Hs3, !served_app, Hs1, Hpre'. cbn. by rewrite <- !app_assoc. }
  destruct crash; destruct Hend as [-> HA3]; cbn [every_run].
  { right. exists (snd <$> conv), content, lc, l, true. split_and!; [done|done| |done|done]. rewrite <- (Hs []) by done. by rewrite app_nil_r. }
  cbn -[response_for]. intros [] _ [] _ r1 _ r2 _. right. exists (snd <$> conv), content, lc, l, false. split; [done|]. split; [done|]. split.
  { rewrite <- !(assoc_L (++)). by apply Hs. }
  split; [done|]. assert (HA4 : Acct [sender; args] (tr3 ++ [Ev (DeleteArray (from_option fst 0%Z conv)) tt]) [env; wv2; request] (block_of q ++ [p])).
  { destruct conv as [[a c]|]; cbn in *.
    - apply (Acct_delete_array _ _ _ _ HA3 a tt); [done|]. symmetry. apply (Permutation_middle (block_of q) [p] a).
    - eapply Acct_snoc; [exact HA3|done|..]; intros x; cbn -[occ]; lia. }
  apply (Acct_free_block _ _ _ _ _ tt) in HA4. pose proof (Acct_release _ _ _ _ HA4 env r1 [wv2; request] ltac:(done)) as HA5.
  by apply (Acct_release _ _ _ _ HA5 wv2 r2).
Qed.

Lemma serve_ok junk sender args tr request p w :
  p <> 0%Z -> Acct [sender; args] tr [request] [p] ->
  every_run (request_contract g) (serve g junk sender args request p w) tr (body_spec sender args request p w tr).
Proof using Hw.
  intros Hp HA. unfold serve. cbn -[ConvertWcharToChar suneidoAPP respond delete_converted delete_str Z.ltb].
  intros [hr wv2] (Hc & _); cbn in Hc. destruct Hc as [[-> Hq]|[Hr ->]]; acct_step HA.
  2: { unfold FAILED. rewrite (proj2 (Z.ltb_lt hr 0)) by done. cbn. intros [] _. acct_step HA. intros r _. acct_step HA.
       left. exists hr. split_and!; [done..| |]; [by rewrite !served_app; cbn; rewrite !app_nil_r|].
       rewrite !omap_app. cbn. unfold FAILED. rewrite (proj2 (Z.ltb_lt hr 0)) by done. by rewrite !app_nil_r. }
  rewrite (proj2 (c_true_spec wv2)) by done. cbn -[ConvertWcharToChar suneidoAPP respond delete_converted delete_str Z.ltb].
  intros [hr env] (Hc & _); cbn in Hc. destruct Hc as [[-> He]|[Hr ->]]; acct_step HA.
  2: { unfold FAILED. rewrite (proj2 (Z.ltb_lt hr 0)) by done. cbn. intros [] _. acct_step HA. intros r _. acct_step HA.
       intros r2 _. acct_step HA.
       left. exists hr. split_and!; [done..| |]; [by rewrite !served_app; cbn; rewrite !app_nil_r|].
       rewrite !omap_app. cbn. unfold FAILED. rewrite (proj2 (Z.ltb_lt hr 0)) by done. by rewrite !app_nil_r. }
  rewrite (proj2 (c_true_spec env)) by done.
  eapply every_run_mono; [|apply (answer_ok junk sender args _ request p w wv2 env HA)].
  unfold body_spec. intros o tr'. rewrite !served_app, !omap_app. cbn. by rewrite !app_nil_r.
Qed.

Lemma CustomScheme_Invoke_ok junk sender args :
  every_run (request_contract g) (CustomScheme_Invoke g junk sender args) [] (serve_spec g sender args).
Proof using Hw.
  unfold CustomScheme_Invoke, serve_spec. pose proof (Acct_nil [sender; args]) as HA.
  assert (Hs : served [] = []) by done. assert (Hf : omap refusal (@nil ev) = []) by done.
  revert HA Hs Hf. generalize (@nil ev) at 1 2 3 4 as tr. intros tr HA Hs Hf.
  cbn -[serve Z.ltb]. intros [hr request] (Hc & _); cbn in Hc. destruct Hc as [[-> Hq]|[Hr ->]]; cbn -[serve Z.ltb]; acct_step HA.
  2: { unfold FAILED. rewrite (proj2 (Z.ltb_lt hr 0)) by done. cbn. left. exists hr. split_and!; [done..|].
       left. split; [done|]. rewrite served_app, omap_app, Hs, Hf. cbn. unfold FAILED.
       rewrite (proj2 (Z.ltb_lt hr 0)) by done. split; [done|by left]. }
  rewrite (proj2 (c_true_spec request)) by done. cbn -[serve Z.ltb].
  intros [hr uri] (Hc & _); cbn in Hc. destruct Hc as [[-> (p & w & -> & Hp)]|[Hhr ->]]; cbn -[serve Z.ltb].
  2: { acct_by HA (Acct_getstring_fail _ _ _ _ HA request "get_Uri" [] hr ltac:(acct_mem)).
       intros r _. acct_step HA. left. exists hr. split_and!; [done..|].
       left. split; [done|]. rewrite !served_app, !omap_app, Hs, Hf. cbn. unfold FAILED.
       rewrite (proj2 (Z.ltb_lt hr 0)) by done. split; [done|by left]. }
  acct_by HA (Acct_getstring_ok _ _ _ _ HA request "get_Uri" [] S_OK p w ltac:(acct_mem) ltac:(done) Hp).
  match type of HA with Acct _ ?t _ _ => assert (Hs' : served t = [OAddress w] /\ omap refusal t = [])
    by (by rewrite !served_app, !omap_app, Hs, Hf) end. destruct Hs' as [Hs' Hf'].
  pose proof (is_suneido_uri_spec w) as Hours. destruct (is_suneido_uri w) eqn:Ew.
  - apply every_run_bind. eapply every_run_mono; [|apply (serve_ok junk sender args _ request p w Hp HA)].
    cbn. unfold body_spec. rewrite Hs', Hf'. intros o tr2 [(hr & -> & Hr & HA2 & Hs2 & Hf2)|(c & content & lc & l & crash & Hlc & Hl & Hs2 & Hend)].
    + cbn. left. exists hr. split_and!; [done..|]. left. split_and!; [done|by rewrite Hf2|]. right. exists w. split; [by apply Hours|done].
    + destruct crash; destruct Hend as [-> HA2]; cbn.
      * right. exists w, c, content, lc, l, true. split_and!; [by apply Hours|done..].
      * intros [] _. acct_step HA2. intros r _. acct_step HA2. right. exists w, c, content, lc, l, false. split_and!; [by apply Hours|done..| |done|done].
        rewrite !served_app, Hs2. cbn. by rewrite !app_nil_r.
  - cbn. intros [] _. acct_step HA. intros r _. acct_step HA. left. exists S_OK. split_and!; [done..|].
    right. split; [done|]. exists w. split; [by intros H; apply Hours in H|]. rewrite served_app, served_app, Hs'. done.
Qed.

(** C10: A resource request is served exactly when its address begins with [suneido:]: Go is
    asked once, on the main thread, for the address in UTF-8, and the one response
    that is installed has Go's bytes, their length and the content type of the
    address - or is 204 when there are none; other requests never reach Go, and neither does
    one for which an interface is missing, whose error is the result.  On every such path
    all references, the address, the array of the conversion and Go's block are given back
    exactly once.  The handler only crashes, with its accounts right up to there, on the
    null pointers of an address that could not be converted and of a response that could
    not be created. *)
Theorem custom_scheme_serves junk sender args :
  every_run (request_contract g) (CustomScheme_Invoke g junk sender args) [] (serve_spec g sender args).
Proof using Hw. by apply CustomScheme_Invoke_ok. Qed.
End serve.

Lemma custom_scheme_serves_witness :
  every_run (request_contract (Globals 5 6 77)) (CustomScheme_Invoke (Globals 5 6 77) 0 50 60) []
    (serve_spec (Globals 5 6 77) 50 60).
Proof. apply (custom_scheme_serves (Globals 5 6 77)). discriminate. Defined.
