(* ===== verification/Pages.v ===== *)
(** * The pages of both browsers

    Suneido's pages have [suneido:] addresses, and the old embedded browser and WebView2 get
    them by entirely different ways: a pluggable protocol that is read in pieces
    (sunapp.cpp), and a resource handler that answers with a stream
    (MyCustomSchemeHandler.h).  They give the same bytes. *)

From S2P Require Import Prelude Prog Win32 Accounting RefCount AppBridge SunApp WvApi WvHelpers WvObject WvRequest.

#[local] Ltac tlist := repeat first [apply list_elem_of_here | apply list_elem_of_further].
#[local] Ltac tnot H := repeat (apply elem_of_cons in H as [H|H]; [discriminate H|]); by apply elem_of_nil in H.

(** ** The rules *)

Definition is_ascii (c : Z) : Prop := (0 < c < 128)%Z.

(** Go makes the same page for the same address; the request of WebView2 is for [w]; and the
    conversion of ASCII text, in whatever code page, gives its characters as bytes, if there
    is room for them, and their number if asked for it. *)
Definition page_contract (g : globals) (page : list Z -> list Z) (w : list Z) : contract Ans := fun tr a r =>
  request_contract g tr a r /\
  match a return Ans a -> Prop with
  | GoSunAPP _ url => fun content => content = page url
  | GetString _ m _ => fun r => m = "get_Uri" -> snd <$> r.2 = Some w \/ r.2 = None
  | WideCharToMultiByte _ w cch => fun r => Forall is_ascii w ->
      (cch = 0%Z -> r.1 = (Z.of_nat (length w) + 1)%Z) /\
      ((Z.of_nat (length w) + 1 <= cch)%Z -> r.2 = w ++ [0%Z])
  | _ => fun _ => True
  end r.

Lemma page_request g page w tr a r : page_contract g page w tr a r -> request_contract g tr a r.
Proof. by intros [H _]. Qed.

Lemma page_window g page w tr a r : page_contract g page w tr a r -> window_contract (helperHwnd g) tr a r.
Proof. by intros [[_ H] _]. Qed.

Section pages.
Context (g : globals) (page : list Z -> list Z) (Hw : helperHwnd g <> 0%Z).
Context (w : list Z) (Hascii : Forall is_ascii w) (Hlen : (Z.of_nat (length w) < 1000000000)%Z).

Lemma ascii_c_str : c_str (w ++ [0%Z]) = w.
Proof using Hascii. apply c_str_zero. eapply Forall_impl; [exact Hascii|]. unfold is_ascii. intros c Hc. lia. Qed.

Lemma go_call_elem tr t url content : (t, url, content) ∈ go_calls tr -> exists r, Ev (GoSunAPP t url) r ∈ tr /\ r = content.
Proof using.
  intros ([a r] & Ha & Hr)%list_elem_of_omap. destruct a; try done. injection Hr as -> -> ->. eauto.
Qed.

Lemma go_answers tr t url content : respects (page_contract g page w) [] tr -> (t, url, content) ∈ go_calls tr ->
  content = page url.
Proof using.
  intros Hr (r & He & <-)%go_call_elem. by destruct (respects_elem _ _ _ _ Hr He) as (pre & _ & H).
Qed.

Lemma converts tr cp cch r b : respects (page_contract g page w) [] tr -> Ev (WideCharToMultiByte cp w cch) (r, b) ∈ tr ->
  (cch = 0%Z -> r = (Z.of_nat (length w) + 1)%Z) /\ ((Z.of_nat (length w) + 1 <= cch)%Z -> b = w ++ [0%Z]).
Proof using Hascii. intros Hr He. destruct (respects_elem _ _ _ _ Hr He) as (pre & _ & H). by apply H. Qed.

(** ** The embedded browser *)

Lemma old_page junk sink cbs : Forall (fun cb => 0 <= cb < 4294967296)%Z cbs ->
  (Z.of_nat (length (page w)) < 4294967296)%Z -> (Z.of_nat (length (page w)) <= sumZ id cbs)%Z ->
  every_run (page_contract g page w) (protocol_session g junk (Some w) sink cbs) [] (fun '(out, _) tr =>
    exists pieces, out = Some pieces /\ concat pieces.*2 = page w).
Proof using Hw Hascii Hlen.
  intros Hcbs Hp Hsum. eapply every_run_mono; [|apply every_run_respects; [exact I|];
    eapply every_run_contract; [apply page_window|by apply protocol_session_ok]].
  intros [out ok] tr [(curl & result & Hg & (cch & r & b & He & -> & Hcch) & _ & _ & ->) Hr].
  rewrite i32_id in Hcch by lia. apply (converts tr _ _ _ _ Hr) in He as [_ Hb]. rewrite Hb in Hg by lia. rewrite ascii_c_str in Hg.
  assert (result = page w) as -> by (eapply go_answers; [exact Hr|rewrite Hg; apply list_elem_of_here]).
  eexists. split; [reflexivity|]. rewrite read_stream_concat by done. rewrite u32_id, Nat2Z.id by lia.
  rewrite (take_ge (page w)) by lia. by apply take_ge; lia.
Qed.

(** ** WebView2 *)

Lemma served_elem tr o : o ∈ served tr -> exists e, e ∈ tr /\ observe e = Some o.
Proof using. intros (e & He & Ho)%list_elem_of_omap. eauto. Qed.

Lemma observed_length e n : observe e = Some (OLength w n) ->
  exists cp b, e = Ev (WideCharToMultiByte cp w 0) (n, b).
Proof using.
  destruct e as [a r]. destruct a; cbn; try done; try (by destruct (String.eqb _ _)); [by destruct r as [? [?|]]|].
  destruct (Z.eqb_spec cch 0) as [->|]; [|done]. destruct r as [r b]. intros [= -> ->]. eauto.
Qed.

Lemma observed_converted e n c : observe e = Some (OConverted w n c) ->
  exists cp r, e = Ev (WideCharToMultiByte cp w n) (r, c).
Proof using.
  destruct e as [a r]. destruct a; cbn; try done; try (by destruct (String.eqb _ _)); [by destruct r as [? [?|]]|].
  destruct (Z.eqb_spec cch 0); [done|]. destruct r as [r b]. intros [= -> -> ->]. eauto.
Qed.

(** The conversion in the handler is of the whole address. *)
Lemma served_conversion tr c lc l1 l2 : respects (page_contract g page w) [] tr -> conversion w c lc ->
  served tr = l1 ++ lc ++ l2 -> exists n, c = Some (w ++ [0%Z]) /\ lc = [OLength w n; OConverted w n (w ++ [0%Z])].
Proof using Hascii.
  intros Hr Hlc Hs. assert (Hin : forall o, o ∈ lc -> o ∈ served tr) by (intros o Ho; rewrite Hs, !elem_of_app; auto).
  assert (Hlen' : forall n, OLength w n ∈ lc -> n = (Z.of_nat (length w) + 1)%Z).
  { intros n (e & He & (cp & b & ->)%observed_length)%Hin%served_elem. by apply (converts _ _ _ _ _ Hr He). }
  destruct c as [c|]; cbn in Hlc.
  - destruct Hlc as (n & Hn & ->). pose proof (Hlen' n ltac:(tlist)) as En.
    destruct (served_elem _ _ (Hin (OConverted w n c) ltac:(tlist))) as (e & He & (cp & r & ->)%observed_converted).
    apply (converts _ _ _ _ _ Hr) in He as [_ Hb]. rewrite Hb by lia. eauto.
  - subst lc. pose proof (Hlen' 0%Z ltac:(tlist)). lia.
Qed.

Lemma served_address tr w' : respects (page_contract g page w) [] tr -> (forall e, e ∈ tr -> forall o m args r, e = Ev (GetString o m args) r -> m = "get_Uri") ->
  OAddress w' ∈ served tr -> w' = w.
Proof using.
  intros Hr Huri ([a r] & He & Ho)%served_elem. pose proof (Huri _ He) as Hm. destruct (respects_elem _ _ _ _ Hr He) as (pre & _ & H).
  destruct a; cbn in Ho, H; try done; try (by destruct (String.eqb _ _)); try (by destruct (_ =? _)%Z).
  destruct r as [hr [[p w2]|]]; [|done]. injection Ho as ->. destruct (H (Hm _ _ _ _ eq_refl)) as [[= ->]|E]; done.
Qed.

Lemma served_ask tr t url content : respects (page_contract g page w) [] tr -> OAsk t url content ∈ served tr -> content = page url.
Proof using.
  intros Hr ([a r] & He & Ho)%served_elem. eapply go_answers; [exact Hr|]. apply list_elem_of_omap.
  exists (Ev a r). split; [exact He|].
  destruct a; cbn in Ho |- *; try done; try (by destruct (String.eqb _ _)); try (by destruct (_ =? _)%Z);
    [by destruct r as [? [?|]]|]. by injection Ho as -> -> ->.
Qed.

(** The only string the handler asks for is the address. *)
Definition asks_address (a : Win32) : Prop := match a with GetString _ m _ => m = "get_Uri" | _ => True end.

Lemma handler_asks junk sender args : only_calls asks_address (CustomScheme_Invoke g junk sender args).
Proof using.
  unfold CustomScheme_Invoke, serve, respond, ConvertWcharToChar, converted_url, delete_converted, suneidoAPP, SuneidoAPP, helperWndProc, delete_str.
  repeat match goal with
  | |- True => exact I
  | |- _ /\ _ => split
  | |- forall _, _ => intro
  | |- only_calls _ (Ret _) => exact I
  | |- only_calls _ (Vis _ _) => cbn
  | |- only_calls _ (mbind _ _) => apply only_calls_bind
  | |- only_calls _ (bind _ _) => apply only_calls_bind
  | |- only_calls _ (call _) => cbn
  | |- only_calls _ (match ?x with _ => _ end) => destruct x
  | |- asks_address _ => exact I
  | |- only_calls _ (SuneidoAPP _ _) => unfold SuneidoAPP
  | |- _ = _ => reflexivity
  end.
Qed.

(** What the request is answered with: a stream of exactly the bytes of the page, in a
    response with their number and the type of the address, which is installed; without
    content for an empty page.  The stream may be refused for lack of memory. *)
Definition page_response (args : Z) (l : list observation) : Prop :=
  if decide (page w = []) then
    exists resp, l = [OResponse [APtr 0; AInt 204; AStr "No Content"; AStr no_content_headers] resp; OInstall args [APtr resp]]
  else
    exists stream, if c_true stream then
      exists resp, l = [OStream (page w) stream;
        OResponse [APtr stream; AInt 200; AStr "OK"; AStr (content_header (w ++ [0%Z]) (Z.of_nat (length (page w))))] resp;
        OInstall args [APtr resp]]
    else l = [OStream (page w) stream].

(** The request is answered with the page, or the runtime has refused an interface and the
    result says so. *)
Definition gives_page (args : Z) (o : option (Z * bool)) (tr : list ev) : Prop :=
  (exists hr, (hr < 0)%Z /\ o = Some (hr, true) /\ omap refusal tr = [hr]) \/
  (exists n l, served tr = [OAddress w; OLength w n; OConverted w n (w ++ [0%Z]); OAsk (main_threadid g) w (page w)] ++ l /\
     page_response args l).

Lemma new_page junk sender args : suneido_address w -> (Z.of_nat (length (page w)) < 2147483648)%Z ->
  every_run (page_contract g page w) (CustomScheme_Invoke g junk sender args) [] (gives_page args).
Proof using Hw Hascii.
  intros Hours Hp. eapply every_run_mono; [|apply every_run_and; [exact (only_calls_every_run _ _ _ _ (handler_asks junk sender args))|
    apply every_run_respects; [exact I|eapply every_run_contract; [apply page_request|by apply CustomScheme_Invoke_ok]]]].
  intros o tr [(tr' & Htr & Hq) [Hs Hr]]. cbn in Htr. subst tr'. rewrite Forall_forall in Hq.
  assert (Haddr : forall w', OAddress w' ∈ served tr -> w' = w).
  { intros w'. apply served_address; [done|]. intros e He o' m args' r ->. exact (Hq _ He). }
  destruct Hs as [(hr & -> & _ & [(Hhr & Href & _)|(_ & w1 & Hnot & Hs)])|(w1 & c & content & lc & l & crash & _ & Hlc & Hl & Hs & _)].
  - left. by exists hr.
  - rewrite (Haddr w1) in Hnot by (rewrite Hs; tlist). contradiction.
  - right. assert (w1 = w) as -> by (apply Haddr; rewrite Hs; tlist).
    destruct (served_conversion tr c lc [OAddress w] _ Hr Hlc Hs) as (n & -> & ->). exists n, l. cbn in Hs. rewrite ascii_c_str in Hs.
    assert (content = page w) as -> by (eapply (served_ask tr); [done|]; rewrite Hs; tlist).
    split; [exact Hs|]. unfold response_for in Hl. rewrite i32_id in Hl by lia. unfold page_response.
    destruct (decide (page w = [])) as [E|E].
    + rewrite E in Hl. cbn in Hl. destruct Hl as (resp & _ & ->). by exists resp.
    + destruct (Z.eqb_spec (Z.of_nat (length (page w))) 0) as [E0|_]; [by destruct (page w)|].
      destruct Hl as (bytes & stream & Hb & Hl). rewrite Hb in Hl by lia. exists stream.
      destruct (c_true stream); [|by destruct Hl as [-> _]]. destruct Hl as (resp & _ & ->). by exists resp.
Qed.
End pages.

(** ** Properties *)


(** A page that repeats its address. *)
Definition echo (url : list Z) : list Z := url ++ url.

(** [suneido:a] *)
Definition an_address : list Z := suneidoPrefix ++ [97%Z].

