(* ===== verification/WvOps.v ===== *)
(** * The operations on the browser (webview2.cpp, cside.h)

    What Go calls: creating the browser, the operations on it, and the single entry
    point [WebView2] that dispatches on an operation code. *)

From S2P Require Import Prelude Prog Win32 Accounting RefCount AppBridge WvApi WvHelpers WvObject WvScheme WvOptions WvCreate WvRequest.

(** ** CreateWebView2 *)

(** Giving up the options: when no reference is left, their destructor runs; otherwise
    the runtime has them. *)
Definition release_options (p : Z) (o : Options) : act (option Options) :=
  r ← call (Release p);
  if (r =? 0)%Z then _ ← Options_destroy o; Ret None else Ret (Some o).

(** The result code, what [*pBrowserObject] was set to, and the options if the runtime
    keeps them.  The registration for [L"suneido"] is constructed inside [NewObject] and
    destructed inside the [Release] that answers 0. *)
Definition CreateWebView2 (hwnd dllPath : Z) (userDataFolder : list Z) (cb : Z)
    : act (Z * option MyBrowserObject * option Options) :=
  hWebView2Loader ← call (LoadLibrary dllPath);
  if (hWebView2Loader =? 0)%Z then Ret (DLL_NOT_FOUND, None, None)
  else
    CreateCoreWebView2Environment ← call (GetProcAddress hWebView2Loader "CreateWebViewEnvironmentWithOptionsInternal");
    if (CreateCoreWebView2Environment =? 0)%Z then
      _ ← call (FreeLibrary hWebView2Loader);
      Ret (PROC_NOT_FOUND, None, None)
    else
      options ← call (NewObject "MyCoreWebView2EnvironmentOptions");
      o ← new_Options;
      customSchemeRegistration ← call (NewObject "MyCoreWebView2CustomSchemeRegistration(suneido)");
      '(result, o) ← SetCustomSchemeRegistrations o [customSchemeRegistration];
      if FAILED result then
        kept ← release_options options o;
        _ ← call (Release customSchemeRegistration);
        _ ← call (FreeLibrary hWebView2Loader);
        Ret (result, None, kept)
      else
        _ ← call (Release customSchemeRegistration);
        let ob := new_MyBrowserObject hwnd cb in
        handler ← call (NewObject "MyCreateEnvironmentCompletedHandler");
        let ob := (bo_AddRef ob).2 in
        let userDataFolder_w := ConvertCharToWChar userDataFolder in
        result ← call (CallProc CreateCoreWebView2Environment
                         [AInt 1; AInt 1; AWide userDataFolder_w; APtr options; APtr handler]);
        ob ← release_handler handler ob;
        kept ← release_options options o;
        _ ← call (FreeLibrary hWebView2Loader);
        Ret (result, ob, kept).

(** ** The operations *)

Definition Close (ob : MyBrowserObject) : act (Z * option MyBrowserObject) := bo_Close ob.

Definition Resize (ob : MyBrowserObject) (w h : Z) : act Z :=
  if (controller ob =? 0)%Z then Ret NOT_READY
  else call (Invoke (controller ob) "put_Bounds" [ARect (Rect 0 0 w h)]).

Definition Navigate (ob : MyBrowserObject) (s : list Z) : act Z :=
  if (controller ob =? 0)%Z then Ret NOT_READY
  else call (Invoke (webview2 ob) "Navigate" [AWide (ConvertCharToWChar s)]).

Definition NavigateToString (ob : MyBrowserObject) (s : list Z) : act Z :=
  if (controller ob =? 0)%Z then Ret NOT_READY
  else call (Invoke (webview2 ob) "NavigateToString" [AWide (ConvertCharToWChar s)]).

Definition ExecuteScript (ob : MyBrowserObject) (script : list Z) : act Z :=
  if (controller ob =? 0)%Z then Ret NOT_READY
  else call (Invoke (webview2 ob) "ExecuteScript" [AWide (ConvertCharToWChar script); APtr 0]).

Definition MAX_PATH : Z := 260.

(** [strncpy]: exactly [n] bytes are written, padded with zeros. *)
Definition strncpy (dst src : list Z) (n : Z) : list Z :=
  let s := take (Z.to_nat n) (c_str src) in
  s ++ replicate (Z.to_nat n - length s) 0%Z ++ drop (Z.to_nat n) dst.

(** The result code and the buffer; [None]: [strncpy] from the null pointer of a failed
    conversion. *)
Definition GetSource (ob : MyBrowserObject) (dst : list Z) : act (option (Z * list Z)) :=
  if (controller ob =? 0)%Z then Ret (Some (NOT_READY, dst))
  else
    '(result, uri) ← call (GetString (webview2 ob) "get_Source" []);
    if SUCCEEDED result then
      converted ← ConvertWcharToChar (snd <$> uri);
      _ ← call (CoTaskMemFree (from_option fst 0%Z uri));
      match converted with
      | Some (p, c) => _ ← call (DeleteArray p); Ret (Some (result, strncpy dst c MAX_PATH))
      | None => Ret None
      end
    else Ret (Some (result, dst)).

Definition DoPrint (ob : MyBrowserObject) : act Z :=
  if (controller ob =? 0)%Z then Ret NOT_READY
  else
    '(result, webview2_16) ← call (QueryInterface (webview2 ob) (i_iid ICoreWebView2_16));
    if FAILED result || negb (c_true webview2_16) then Ret result
    else
      result ← call (Invoke webview2_16 "ShowPrintUI" [AInt COREWEBVIEW2_PRINT_DIALOG_KIND_BROWSER]);
      _ ← call (Release webview2_16);
      Ret result.

Definition SetFocus (ob : MyBrowserObject) : act Z :=
  if (controller ob =? 0)%Z then Ret NOT_READY
  else call (Invoke (controller ob) "MoveFocus" [AInt COREWEBVIEW2_MOVE_FOCUS_REASON_PROGRAMMATIC]).

(** ** The entry point *)

(** What the arguments point to: the browser objects, the C strings (without
    terminator) and the buffers of Go. *)
Record pointees := Pointees {
  object_at : Z -> MyBrowserObject; string_at : Z -> list Z; buffer_at : Z -> list Z }.

(** What a call returns and leaves behind its pointer arguments. *)
Inductive outcome :=
| Code (result : Z)
| Created (result : Z) (ob : option MyBrowserObject) (kept : option Options)
| Closed (result : Z) (ob : option MyBrowserObject)
| Stored (result : Z) (dst : list Z)
| Crashed.

Definition code (p : act Z) : act outcome := r ← p; Ret (Code r).

(** The functions of cside.h, which Go's build without the dispatcher calls. *)
Section entry.
Context (m : pointees).

Definition WebView2_Create (hwnd dllPath userDataFolder cb : Z) : act outcome :=
  '(r, ob, kept) ← CreateWebView2 hwnd dllPath (string_at m userDataFolder) cb; Ret (Created r ob kept).
Definition WebView2_Resize (p w h : Z) : act outcome := code (Resize (object_at m p) w h).
Definition WebView2_Navigate (p s : Z) : act outcome := code (Navigate (object_at m p) (string_at m s)).
Definition WebView2_NavigateToString (p s : Z) : act outcome :=
  code (NavigateToString (object_at m p) (string_at m s)).
Definition WebView2_ExecuteScript (p script : Z) : act outcome :=
  code (ExecuteScript (object_at m p) (string_at m script)).
Definition WebView2_GetSource (p dst : Z) : act outcome :=
  o ← GetSource (object_at m p) (buffer_at m dst);
  Ret (match o with Some (r, d) => Stored r d | None => Crashed end).
Definition WebView2_Print (p : Z) : act outcome := code (DoPrint (object_at m p)).
Definition WebView2_SetFocus (p : Z) : act outcome := code (SetFocus (object_at m p)).
Definition WebView2_Close (p : Z) : act outcome :=
  '(r, ob) ← Close (object_at m p); Ret (Closed r ob).

(** [arg2] of a creation is the address the object is stored at. *)
Definition WebView2 (op arg1 arg2 arg3 arg4 arg5 : Z) : act outcome :=
  if (op =? webview2_create)%Z then
    '(r, ob, kept) ← CreateWebView2 arg1 arg3 (string_at m arg4) arg5; Ret (Created r ob kept)
  else if (op =? webview2_close)%Z then '(r, ob) ← Close (object_at m arg1); Ret (Closed r ob)
  else if (op =? webview2_resize)%Z then code (Resize (object_at m arg1) (i32 arg2) (i32 arg3))
  else if (op =? webview2_navigate)%Z then code (Navigate (object_at m arg1) (string_at m arg2))
  else if (op =? webview2_navigate_to_string)%Z then
    code (NavigateToString (object_at m arg1) (string_at m arg2))
  else if (op =? webview2_execute_script)%Z then code (ExecuteScript (object_at m arg1) (string_at m arg2))
  else if (op =? webview2_get_source)%Z then
    o ← GetSource (object_at m arg1) (buffer_at m arg2);
    Ret (match o with Some (r, d) => Stored r d | None => Crashed end)
  else if (op =? webview2_print)%Z then code (DoPrint (object_at m arg1))
  else if (op =? webview2_set_focus)%Z then code (SetFocus (object_at m arg1))
  else Ret (Code INVALID_OP).
End entry.

(** ** What the runtime is asked *)

(** Libraries loaded and not freed. *)
Definition lib_delta (p : Z) (e : ev) : Z :=
  match e with
  | Ev a r =>
      match a return Ans a -> Z with
      | LoadLibrary _ => fun q => if c_true q && (q =? p)%Z then 1 else 0
      | FreeLibrary q => fun _ => if (q =? p)%Z then -1 else 0
      | _ => fun _ => 0
      end r
  end%Z.

Definition libs (tr : list ev) (p : Z) : Z := sumZ (lib_delta p) tr.

(** Calls of functions that were looked up in a library. *)
Definition asked (tr : list ev) : list (Z * list arg * Z) :=
  omap (fun e => match e with
                 | Ev a r => match a return Ans a -> option (Z * list arg * Z) with
                             | CallProc p args => fun r => Some (p, args, r)
                             | _ => fun _ => None
                             end r
                 end) tr.

(** Calls that have nothing to do with libraries. *)
Definition no_library (a : Win32) : Prop :=
  match a with LoadLibrary _ | GetProcAddress _ _ | FreeLibrary _ | CallProc _ _ => False | _ => True end.

Lemma libs_app tr1 tr2 p : libs (tr1 ++ tr2) p = (libs tr1 p + libs tr2 p)%Z.
Proof. apply sumZ_app. Qed.

Lemma asked_app tr1 tr2 : asked (tr1 ++ tr2) = asked tr1 ++ asked tr2.
Proof. apply omap_app. Qed.

Lemma no_library_events tr : Forall (fun e : ev => match e with Ev a _ => no_library a end) tr ->
  (forall p, libs tr p = 0%Z) /\ asked tr = [].
Proof.
  induction 1 as [|[a r] tr Ha _ [IH1 IH2]]; [done|]. unfold libs, asked, sumZ in *. split.
  - intros p. simpl. rewrite IH1. by destruct a.
  - by destruct a.
Qed.

Lemma quiet_run {T} C (p : act T) tr Q :
  only_calls no_library p -> every_run C p tr Q ->
  every_run C p tr (fun x tr' => Q x tr' /\ (forall q, libs tr' q = libs tr q) /\ asked tr' = asked tr).
Proof.
  intros Hp HQ. eapply every_run_mono; [|apply every_run_and; [exact HQ|exact (only_calls_every_run no_library C p tr Hp)]].
  cbn. intros x tr' [H (tr1 & -> & H1)]. apply no_library_events in H1 as [H1 H2].
  split_and!; [done| |by rewrite asked_app, H2, app_nil_r].
  intros q. rewrite libs_app, H1. lia.
Qed.

(** Before the runtime is asked, with one library loaded or none. *)
Definition lib_state (lib : option Z) (tr : list ev) : Prop :=
  asked tr = [] /\
  forall p, libs tr p = match lib with Some l => if (l =? p)%Z then 1 else 0 | None => 0 end%Z.

Lemma lib_state_quiet l tr a r : no_library a -> lib_state l tr -> lib_state l (tr ++ [Ev a r]).
Proof.
  intros Ha [H1 H2]. destruct (no_library_events [Ev a r]) as [H3 H4]; [by constructor|].
  split; [by rewrite asked_app, H1, H4|]. intros p. rewrite libs_app, H2, H3. lia.
Qed.

Lemma lib_state_load path lib tr : lib_state None tr -> lib <> 0%Z -> lib_state (Some lib) (tr ++ [Ev (LoadLibrary path) lib]).
Proof.
  intros [H1 H2] Hl. split; [by rewrite asked_app, H1|]. intros p. rewrite libs_app, H2. unfold libs, sumZ. simpl.
  rewrite (proj2 (c_true_spec lib) Hl). simpl. case_match; lia.
Qed.

Lemma lib_state_find lib name tr r l : lib_state l tr -> lib_state l (tr ++ [Ev (GetProcAddress lib name) r]).
Proof. intros [H1 H2]. split; [by rewrite asked_app, H1|]. intros p. rewrite libs_app, H2. unfold libs, sumZ. simpl. lia. Qed.

Lemma lib_state_free lib tr r : lib_state (Some lib) tr -> lib_state None (tr ++ [Ev (FreeLibrary lib) r]).
Proof.
  intros [H1 H2]. split; [by rewrite asked_app, H1|]. intros p. rewrite libs_app, H2. unfold libs, sumZ. simpl.
  case_match; lia.
Qed.

Lemma lib_state_run {T} C (p : act T) tr Q l :
  only_calls no_library p -> lib_state l tr -> every_run C p tr Q ->
  every_run C p tr (fun x tr' => Q x tr' /\ lib_state l tr' /\ forall e, e ∈ tr -> e ∈ tr').
Proof.
  intros Hp [H1 H2] HQ. eapply every_run_mono; [|by apply every_run_history, (quiet_run C p tr Q Hp)].
  cbn. intros x tr' [(H & H3 & H4) [tr1 Htr]]. split_and!; [done|split; [congruence|intros q; by rewrite H3]|].
  intros e He. rewrite Htr. apply elem_of_app. by left.
Qed.

Lemma quiet_release_all l : only_calls no_library (release_all l).
Proof. induction l; cbn; [done|]. split; [done|]. intros _. done. Qed.

Lemma quiet_MyString_destroy s : only_calls no_library (MyString_destroy s).
Proof. unfold MyString_destroy, MyString_Release. by destruct (ms_s s) as [[p w]|]. Qed.

Lemma quiet_ReleaseRegistrations o : only_calls no_library (ReleaseCustomSchemeRegistrations o).
Proof.
  unfold ReleaseCustomSchemeRegistrations. destruct (m_customSchemeRegistrations o) as [[p l]|]; [|done].
  apply only_calls_bind; [apply quiet_release_all|done].
Qed.

Lemma quiet_release_options p o : only_calls no_library (release_options p o).
Proof.
  cbn. split; [done|]. intros r. destruct (r =? 0)%Z; [|done].
  apply only_calls_bind; [|done]. unfold Options_destroy.
  apply only_calls_bind; [apply quiet_ReleaseRegistrations|intros x].
  apply only_calls_bind; [apply quiet_MyString_destroy|intros _].
  apply only_calls_bind; [apply quiet_MyString_destroy|intros _]. apply quiet_MyString_destroy.
Qed.

Lemma quiet_new_Options : only_calls no_library new_Options.
Proof. unfold new_Options, MyString_Set. cbn. done. Qed.

Lemma quiet_addref_all l : only_calls no_library (addref_all l).
Proof. induction l; cbn; [done|]. split; [done|]. intros _. done. Qed.

Lemma quiet_SetRegistrations o l : only_calls no_library (SetCustomSchemeRegistrations o l).
Proof.
  unfold SetCustomSchemeRegistrations.
  apply only_calls_bind; [apply quiet_ReleaseRegistrations|intros x]. cbn -[addref_all]. split; [done|].
  intros r. destruct (negb (c_true r)); [done|]. apply only_calls_bind; [apply quiet_addref_all|done].
Qed.

Lemma quiet_release_handler h ob : only_calls no_library (release_handler h ob).
Proof.
  unfold release_handler. cbn -[bo_Release]. split; [done|]. intros r. destruct (r =? 0)%Z; [|done].
  apply only_calls_bind; [|by intros [? ?]]. unfold bo_Release, bo_destroy. destruct (_ =? 0)%Z; [|done].
  cbn. repeat case_match; done.
Qed.

Lemma release_options_ok C bor tr R B p o :
  options_ok o -> Acct bor tr (p :: opt_refs o ++ R) (opt_mem o ++ B) ->
  every_run C (release_options p o) tr (fun kept tr' =>
    Acct bor tr' (from_option opt_refs [] kept ++ R) (from_option opt_mem [] kept ++ B) /\ from_option options_ok True kept).
Proof.
  intros Ho HA. unfold release_options. cbn -[Options_destroy]. intros r _. acct_step HA.
  destruct (r =? 0)%Z; [|done]. apply every_run_bind.
  eapply every_run_mono; [|by apply (Options_destroy_ok C bor _ R B o)]. done.
Qed.

(** Where [CreateWebView2] can end: before the runtime is asked, or with its answer. *)
Definition create_failed (dllPath result : Z) (tr : list ev) : Prop :=
  (result = DLL_NOT_FOUND /\ Ev (LoadLibrary dllPath) 0%Z ∈ tr) \/
  (result = PROC_NOT_FOUND /\
     exists lib, Ev (GetProcAddress lib "CreateWebViewEnvironmentWithOptionsInternal") 0%Z ∈ tr) \/
  ((result < 0)%Z /\ exists e, result = i32 e /\ Ev GetLastError e ∈ tr).

Definition create_outcome (hwnd dllPath cb : Z) (folder : list Z) (result : Z) (ob : option MyBrowserObject)
    (tr : list ev) : Prop :=
  (asked tr = [] /\ ob = None /\ create_failed dllPath result tr) \/
  (exists proc options handler r,
     let args := [AInt 1; AInt 1; AWide (ConvertCharToWChar folder); APtr options; APtr handler] in
     asked tr = [(proc, args, result)] /\
     (exists tr1 tr2, tr = tr1 ++ Ev (CallProc proc args) result :: Ev (Release handler) r :: tr2) /\
     ob = Some (with_refs (new_MyBrowserObject hwnd cb) (if (r =? 0)%Z then 1 else 2))).

Definition create_post (hwnd dllPath cb : Z) (folder : list Z) : Z * option MyBrowserObject * option Options -> list ev -> Prop :=
  fun '(result, ob, kept) tr =>
    (forall p, libs tr p = 0%Z) /\
    Acct [] tr (from_option opt_refs [] kept) (from_option opt_mem [] kept) /\
    create_outcome hwnd dllPath cb folder result ob tr.

(** From the construction of the handler to the end. *)
Lemma create_runtime_ok C tr hwnd dllPath cb folder lib proc options o :
  (forall tr a r, C tr a r -> com_contract tr a r) ->
  options_ok o -> Acct [] tr (options :: opt_refs o) (opt_mem o) -> lib_state (Some lib) tr ->
  every_run C
    (handler ← call (NewObject "MyCreateEnvironmentCompletedHandler");
     result ← call (CallProc proc [AInt 1; AInt 1; AWide (ConvertCharToWChar folder); APtr options; APtr handler]);
     ob ← release_handler handler (bo_AddRef (new_MyBrowserObject hwnd cb)).2;
     kept ← release_options options o;
     _ ← call (FreeLibrary lib);
     Ret (result, ob, kept)) tr (create_post hwnd dllPath cb folder).
Proof.
  intros HC Ho HA Hl. cbn -[release_handler release_options bo_AddRef new_MyBrowserObject].
  intros handler Hh. apply HC in Hh. cbn in Hh. acct_step HA. intros result _. acct_step HA.
  pose proof (lib_state_quiet _ _ (NewObject "MyCreateEnvironmentCompletedHandler") handler I Hl) as [Hask Hl1].
  apply every_run_bind. eapply every_run_mono.
  2: { apply quiet_run; [apply quiet_release_handler|].
       apply release_handler_run; cbv; split; [reflexivity|discriminate]. }
  cbn beta. intros ob tr2 [(rh & -> & ->) [Hl2 Hask2]].
  pose proof (Acct_release _ _ _ _ HA handler rh (options :: opt_refs o) ltac:(done)) as HA2. apply every_run_bind.
  eapply every_run_mono.
  2: { apply every_run_history, quiet_run; [apply quiet_release_options|].
       apply (release_options_ok C [] _ [] [] options o Ho). rewrite !app_nil_r. exact HA2. }
  cbn beta. intros kept tr3 [[[HA3 _] [Hl3 Hask3]] [tr4 ->]]. rewrite !app_nil_r in HA3. cbn. intros r _.
  acct_by HA3 (Acct_other _ _ _ _ HA3 (FreeLibrary lib) r eq_refl (fun _ => eq_refl) (fun _ => eq_refl)).
  split_and!; [|exact HA3|].
  - intros p. rewrite libs_app, Hl3, Hl2, libs_app, Hl1. unfold libs, sumZ. simpl. case_match; lia.
  - right. exists proc, options, handler, rh. cbn zeta. split_and!.
    + by rewrite asked_app, Hask3, Hask2, asked_app, Hask.
    + exists (tr ++ [Ev (NewObject "MyCreateEnvironmentCompletedHandler") handler]), (tr4 ++ [Ev (FreeLibrary lib) r]).
      rewrite <- !app_assoc. cbn [app]. done.
    + by destruct (rh =? 0)%Z.
Qed.

(** The ends before the runtime is asked. *)
Lemma create_early hwnd dllPath cb folder lib tr r result kept :
  lib_state (Some lib) tr ->
  Acct [] tr (from_option opt_refs [] kept) (from_option opt_mem [] kept) ->
  create_failed dllPath result tr ->
  create_post hwnd dllPath cb folder (result, None, kept) (tr ++ [Ev (FreeLibrary lib) r]).
Proof.
  intros Hl HA Hr. acct_step HA. pose proof (lib_state_free _ _ r Hl) as [Hask Hl1].
  split_and!; [done|exact HA|left]. split_and!; [by rewrite Hask|done|].
  assert (Hin : forall e, e ∈ tr -> e ∈ tr ++ [Ev (FreeLibrary lib) r]) by (intros; apply elem_of_app; by left).
  destruct Hr as [[? ?]|[(? & l & ?)|(? & e & ? & ?)]]; [left; auto|right; left; eauto|right; right; eauto].
Qed.

(** From the registration of the scheme on. *)
Lemma create_scheme_ok C tr hwnd dllPath cb folder lib proc options o reg :
  (forall tr a r, C tr a r -> com_contract tr a r) ->
  options_ok o -> m_customSchemeRegistrations o = None ->
  Acct [] tr [reg; options] (opt_mem o) -> lib_state (Some lib) tr ->
  every_run C
    ('(result, o) ← SetCustomSchemeRegistrations o [reg];
     if FAILED result then
       kept ← release_options options o;
       _ ← call (Release reg);
       _ ← call (FreeLibrary lib);
       Ret (result, None, kept)
     else
       _ ← call (Release reg);
       handler ← call (NewObject "MyCreateEnvironmentCompletedHandler");
       result ← call (CallProc proc [AInt 1; AInt 1; AWide (ConvertCharToWChar folder); APtr options; APtr handler]);
       ob ← release_handler handler (bo_AddRef (new_MyBrowserObject hwnd cb)).2;
       kept ← release_options options o;
       _ ← call (FreeLibrary lib);
       Ret (result, ob, kept)) tr (create_post hwnd dllPath cb folder).
Proof.
  intros HC Ho Hn HA Hl. apply every_run_bind. eapply every_run_mono.
  2: { eapply lib_state_run; [apply (quiet_SetRegistrations o [reg])|exact Hl|].
       apply (SetCustomSchemeRegistrations_ok C [] _ [reg; options] [] o [reg] Hn Ho); [|rewrite app_nil_r; exact HA].
       constructor; [right; by apply list_elem_of_here|done]. }
  cbn beta. intros [result o'] tr3 [(Ho' & Hcase & HA3) [Hl3 _]]. rewrite app_nil_r in HA3.
  unfold FAILED. destruct (Z.ltb_spec result 0) as [Hres|Hres].
  - apply every_run_bind. eapply every_run_mono.
    2: { eapply lib_state_run; [apply (quiet_release_options options o')|exact Hl3|].
         apply (release_options_ok C [] tr3 [reg] [] options o' Ho'). rewrite app_nil_r.
         eapply Acct_proper; [|reflexivity|exact HA3]. by rewrite (Permutation_app_comm (opt_refs o') [reg]), (Permutation_app_comm (opt_refs o') [reg; options]), perm_2. }
    cbn beta. intros kept tr4 [[HA4 _] [Hl4 Hin]]. rewrite app_nil_r in HA4. cbn -[create_post]. intros r1 _ r2 _.
    acct_by HA4 (Acct_release _ _ _ _ HA4 reg r1 (from_option opt_refs [] kept)
                   ltac:(symmetry; apply Permutation_cons_append)).
    apply create_early; [by apply lib_state_quiet|exact HA4|].
    destruct Hcase as [[_ ->]|(_ & e & He & Hein)]; [done|]. right. right. split; [done|]. exists e.
    split; [done|]. apply elem_of_app. left. by apply Hin.
  - cbn -[release_handler release_options bo_AddRef new_MyBrowserObject ConvertCharToWChar]. intros r _.
    acct_by HA3 (Acct_release _ _ _ _ HA3 reg r (options :: opt_refs o')
                   ltac:(by rewrite (Permutation_app_comm (opt_refs o') [reg; options]))).
    apply (create_runtime_ok C _ hwnd dllPath cb folder lib proc options o' HC Ho' HA3). by apply lib_state_quiet.
Qed.

Lemma CreateWebView2_ok C hwnd dllPath folder cb :
  (forall tr a r, C tr a r -> com_contract tr a r) ->
  every_run C (CreateWebView2 hwnd dllPath folder cb) [] (create_post hwnd dllPath cb folder).
Proof.
  intros HC. unfold CreateWebView2. pose proof (Acct_nil []) as HA.
  assert (Hl : lib_state None []) by done.
  revert HA Hl. generalize (@nil ev) at 1 2 3 as tr. intros tr HA Hl.
  cbn -[Z.eqb new_Options SetCustomSchemeRegistrations release_options release_handler bo_AddRef new_MyBrowserObject ConvertCharToWChar create_post].
  intros lib _. acct_step HA. destruct (Z.eqb_spec lib 0) as [->|Hlib].
  { destruct Hl as [H1 H2]. cbn. split_and!; [intros p; by rewrite libs_app, H2|done|left].
    split_and!; [by rewrite asked_app, H1|done|]. left. split; [done|]. apply elem_of_app. right. by apply list_elem_of_here. }
  apply (lib_state_load dllPath lib) in Hl; [|done].
  cbn -[Z.eqb new_Options SetCustomSchemeRegistrations release_options release_handler bo_AddRef new_MyBrowserObject ConvertCharToWChar create_post].
  intros proc _. acct_step HA. apply (lib_state_find lib "CreateWebViewEnvironmentWithOptionsInternal" _ proc) in Hl.
  destruct (Z.eqb_spec proc 0) as [->|Hproc].
  { cbn -[create_post]. intros r _. apply create_early; [done|exact HA|]. right. left. split; [done|]. exists lib.
    apply elem_of_app. right. by apply list_elem_of_here. }
  cbn -[Z.eqb new_Options SetCustomSchemeRegistrations release_options release_handler bo_AddRef new_MyBrowserObject ConvertCharToWChar create_post].
  intros options Hop. apply HC in Hop. cbn in Hop. acct_step HA.
  apply (lib_state_quiet _ _ (NewObject "MyCoreWebView2EnvironmentOptions") options) in Hl; [|done].
  apply every_run_bind. eapply every_run_mono.
  2: { eapply lib_state_run; [apply quiet_new_Options|exact Hl|]. exact (new_Options_ok C [] _ _ _ HA). }
  cbn beta. intros o tr2 [(Ho & Hr & Hn & HA2) [Hl2 _]]. rewrite app_nil_r in HA2.
  cbn -[Z.eqb SetCustomSchemeRegistrations release_options release_handler bo_AddRef new_MyBrowserObject ConvertCharToWChar create_post].
  intros reg Hreg. apply HC in Hreg. cbn in Hreg. acct_step HA2.
  apply (create_scheme_ok C _ hwnd dllPath cb folder lib proc options o reg HC Ho Hn HA2). by apply lib_state_quiet.
Qed.

(** ** Properties *)

(** C6: [CreateWebView2] frees the library it loaded on every path and keeps no reference
    and no block but those of options the runtime still holds.  The error code tells
    what was missing, and then nothing was created; otherwise the runtime was asked
    exactly once, with the converted folder, the options and a handler, its answer is
    the result, and Go has a browser object - also when the answer is a failure -
    with a second reference when the runtime kept the handler. *)
Theorem create_browser hwnd dllPath folder cb :
  every_run com_contract (CreateWebView2 hwnd dllPath folder cb) [] (create_post hwnd dllPath cb folder).
Proof. by apply CreateWebView2_ok. Qed.

(** The contract of the operations: COM's results, and conversions succeed. *)
Definition ops_contract : contract Ans := fun tr a r =>
  com_contract tr a r /\
  match a return Ans a -> Prop with WideCharToMultiByte _ _ cch => fun r => cch = 0%Z -> r.1 <> 0%Z | _ => fun _ => True end r.

(** A call on one of the objects of the browser is of a method that the interface of the
    pointer declares, with as many parameters. *)
Definition declared (ob : MyBrowserObject) (e : ev) : bool :=
  let has o m n :=
    (o =? controller ob)%Z && has_method ICoreWebView2Controller m n ||
    (o =? webview2 ob)%Z && has_method ICoreWebView2 m n ||
    has_method ICoreWebView2_16 m n && negb (has_method ICoreWebView2 m n) in
  match e with
  | Ev (Invoke o m args) _ => has o m (length args)
  | Ev (Fetch o m args) _ | Ev (GetValue o m args) _ | Ev (GetString o m args) _ => has o m (S (length args))
  | _ => true
  end.

(** The result code of a call. *)
Definition answer (e : ev) : option Z :=
  match e with
  | Ev a r =>
      match a return Ans a -> option Z with
      | Invoke _ _ _ => fun r => Some r
      | QueryInterface _ _ | GetString _ _ _ => fun r => Some r.1
      | _ => fun _ => None
      end r
  end.

Definition outcome_code (o : outcome) : option Z :=
  match o with Code r | Created r _ _ | Closed r _ | Stored r _ => Some r | Crashed => None end.

(** What an operation does when the controller is there: it keeps nothing, it only calls
    declared methods, and its result is that of the last of them. *)
Definition op_post (ob : MyBrowserObject) (o : outcome) (tr : list ev) : Prop :=
  Acct [controller ob; webview2 ob] tr [] [] /\ Forall (fun e => declared ob e = true) tr /\
  is_Some (outcome_code o) /\ last (omap answer tr) = outcome_code o.

Lemma code_invoke_ok C ob o m args :
  o ∈ [controller ob; webview2 ob] -> declared ob (Ev (Invoke o m args) 0%Z) = true ->
  every_run C (code (call (Invoke o m args))) [] (op_post ob).
Proof.
  intros Ho Hd. cbn -[declared]. intros r _. split_and!.
  - apply (Acct_invoke _ [] [] [] (Acct_nil _) o m args r). by left.
  - constructor; [exact Hd|constructor].
  - by exists r.
  - done.
Qed.

Lemma DoPrint_ok C ob : (forall tr a r, C tr a r -> com_contract tr a r) -> controller ob <> 0%Z ->
  every_run C (code (DoPrint ob)) [] (op_post ob).
Proof.
  intros HC Hc. unfold DoPrint. rewrite (proj2 (Z.eqb_neq (controller ob) 0)) by done.
  pose proof (Acct_nil [controller ob; webview2 ob]) as HA. unfold op_post.
  assert (Hans : omap answer [] = []) by done. assert (Hd : Forall (fun e => declared ob e = true) []) by done.
  revert HA Hans Hd. generalize (@nil ev) at 1 2 3 4 as tr. intros tr HA Hans Hd.
  cbn -[declared Z.ltb]. intros [result wv16] Hq. apply HC in Hq. cbn in Hq.
  destruct Hq as [[-> Hwv]|[Hr ->]]; acct_step HA.
  - rewrite (proj2 (c_true_spec wv16)) by done. cbn -[declared]. intros r _. acct_step HA. intros r2 _. acct_step HA.
    split_and!; [exact HA| |by exists r|by rewrite !omap_app, Hans].
    rewrite !Forall_app. split_and!; [done|by repeat constructor| |by repeat constructor].
    constructor; [|constructor]. unfold declared.
    change (has_method ICoreWebView2_16 "ShowPrintUI" _ && negb (has_method ICoreWebView2 "ShowPrintUI" _)) with true.
    apply orb_true_r.
  - unfold FAILED. rewrite (proj2 (Z.ltb_lt result 0)) by done. cbn -[declared].
    split_and!; [exact HA| |by exists result|by rewrite omap_app, Hans].
    rewrite Forall_app. split; [done|by repeat constructor].
Qed.

(** [GetSource] with what it stores: nothing when the browser reports an error; the address
    that the browser gave, converted; or it crashes when that could not be converted. *)
Definition source_post (ob : MyBrowserObject) (dst : list Z) (o : option (Z * list Z)) (tr : list ev) : Prop :=
  (exists hr dst', o = Some (hr, dst') /\ Acct [controller ob; webview2 ob] tr [] [] /\
    Forall (fun e => declared ob e = true) tr /\ last (omap answer tr) = Some hr /\
    (((hr < 0)%Z /\ dst' = dst /\ tr = ([Ev (GetString (webview2 ob) "get_Source" []) (hr, None)] : list ev)) \/
     (hr = S_OK /\ exists w n c, n <> 0%Z /\ served tr = [OAddress w; OLength w n; OConverted w n c] /\
        dst' = strncpy dst c MAX_PATH))) \/
  (o = None /\ exists w, served tr = [OAddress w; OLength w 0] /\
     exists l, (Ev (WideCharToMultiByte CP_UTF8 w 0) (0%Z, l) : ev) ∈ tr).

Ltac all_declared :=
  repeat first [apply Forall_nil_2 | apply Forall_app_2 | apply Forall_cons_2 | reflexivity | solve [auto]].

Lemma GetSource_ok C ob dst : (forall tr a r, C tr a r -> com_contract tr a r) -> controller ob <> 0%Z ->
  every_run C (GetSource ob dst) [] (source_post ob dst).
Proof.
  intros HC Hc. unfold GetSource. rewrite (proj2 (Z.eqb_neq (controller ob) 0)) by done.
  pose proof (Acct_nil [controller ob; webview2 ob]) as HA. unfold source_post.
  assert (Hd : forall r, declared ob (Ev (GetString (webview2 ob) "get_Source" []) r) = true).
  { intros r. unfold declared. rewrite Z.eqb_refl.
    change (has_method ICoreWebView2 "get_Source" _) with true. by rewrite orb_true_r. }
  cbn -[declared Z.leb]. intros [hr uri] Hq. apply HC in Hq. cbn in Hq.
  destruct Hq as [[-> (p & w & -> & Hp)]|[Hr ->]]; cbn -[declared Z.leb Z.eqb strncpy].
  - pose proof (Acct_getstring_ok _ _ _ _ HA (webview2 ob) "get_Source" [] S_OK p w ltac:(acct_mem) ltac:(done) Hp) as HA1.
    intros [len l1] _. destruct (Z.eqb_spec len 0) as [->|Hlen]; cbn -[declared Z.eqb strncpy].
    { intros [] _. right. split; [done|]. exists w. split; [done|]. exists l1. apply list_elem_of_further, list_elem_of_here. }
    intros arr Harr. apply HC in Harr. cbn in Harr. intros [len2 c] _ [] _ [] _. left. exists S_OK, (strncpy dst c MAX_PATH).
    split_and!; [done| |all_declared|done|right].
    + pose proof (Acct_other _ _ _ _ HA1 (WideCharToMultiByte CP_UTF8 w 0) (len, l1) eq_refl (fun _ => eq_refl) (fun _ => eq_refl)) as HA2.
      pose proof (Acct_new_array _ _ _ _ HA2 len arr Harr) as HA3.
      pose proof (Acct_other _ _ _ _ HA3 (WideCharToMultiByte CP_UTF8 w len) (len2, c) eq_refl (fun _ => eq_refl) (fun _ => eq_refl)) as HA4.
      pose proof (Acct_cotask_free _ _ _ _ HA4 p tt [arr] Hp (perm_swap _ _ _)) as HA5.
      by apply (Acct_delete_array _ _ _ _ HA5 arr tt []).
    + split; [done|]. exists w, len, c. split_and!; [done| |done]. unfold served. simpl.
      by rewrite (proj2 (Z.eqb_neq len 0)).
  - unfold SUCCEEDED. rewrite (proj2 (Z.leb_gt 0 hr)) by done. cbn -[declared]. left. exists hr, dst. split_and!; [done| | |done|by left].
    + apply (Acct_getstring_fail _ _ _ _ HA (webview2 ob) "get_Source" [] hr). acct_mem.
    + all_declared.
Qed.

Lemma ready_invoke_ok ob o m args P :
  o ∈ [controller ob; webview2 ob] -> declared ob (Ev (Invoke o m args) 0%Z) = true ->
  let p := code (if (controller ob =? 0)%Z then Ret NOT_READY else call (Invoke o m args)) in
  if (controller ob =? 0)%Z then p = Ret (Code NOT_READY) \/ P else every_run ops_contract p [] (op_post ob).
Proof.
  intros Ho Hd. cbn zeta. destruct (controller ob =? 0)%Z; [by left|]. by apply code_invoke_ok.
Qed.

Lemma declared_controller ob m args :
  has_method ICoreWebView2Controller m (length args) = true -> declared ob (Ev (Invoke (controller ob) m args) 0%Z) = true.
Proof. intros H. unfold declared. by rewrite Z.eqb_refl, H. Qed.

Lemma declared_view ob m args :
  has_method ICoreWebView2 m (length args) = true -> declared ob (Ev (Invoke (webview2 ob) m args) 0%Z) = true.
Proof. intros H. unfold declared. rewrite Z.eqb_refl, H. by rewrite orb_true_r. Qed.

Lemma operations_ok m op arg1 arg2 arg3 arg4 arg5 :
  let ob := object_at m arg1 in
  let p := WebView2 m op arg1 arg2 arg3 arg4 arg5 in
  if ((op =? webview2_create) || (op =? webview2_close))%Z then True
  else if ((webview2_resize <=? op) && (op <=? webview2_set_focus))%Z then
    if (controller ob =? 0)%Z
    then p = Ret (Code NOT_READY) \/ p = Ret (Stored NOT_READY (buffer_at m arg2))
    else every_run ops_contract p [] (op_post ob)
  else p = Ret (Code INVALID_OP).
Proof.
  cbn zeta. set (ob := object_at m arg1).
  destruct (decide (0 <= op <= 8)%Z) as [Hop|Hop].
  - assert (Hc : op ∈ [0; 1; 2; 3; 4; 5; 6; 7; 8]%Z) by (rewrite !elem_of_cons, elem_of_nil; lia).
    rewrite !elem_of_cons, elem_of_nil in Hc.
    assert (Hcl : controller ob ∈ [controller ob; webview2 ob]) by apply list_elem_of_here.
    assert (Hwl : webview2 ob ∈ [controller ob; webview2 ob]) by (apply list_elem_of_further, list_elem_of_here).
    destruct Hc as [->|[->|[->|[->|[->|[->|[->|[->|[->|[]]]]]]]]]]; try exact I.
    + exact (ready_invoke_ok ob _ "put_Bounds" [ARect (Rect 0 0 (i32 arg2) (i32 arg3))] _ Hcl ltac:(by apply declared_controller)).
    + exact (ready_invoke_ok ob _ "Navigate" [AWide (ConvertCharToWChar (string_at m arg2))] _ Hwl ltac:(by apply declared_view)).
    + exact (ready_invoke_ok ob _ "NavigateToString" [AWide (ConvertCharToWChar (string_at m arg2))] _ Hwl ltac:(by apply declared_view)).
    + exact (ready_invoke_ok ob _ "ExecuteScript" [AWide (ConvertCharToWChar (string_at m arg2)); APtr 0] _ Hwl ltac:(by apply declared_view)).
    + change (if (controller ob =? 0)%Z
        then WebView2_GetSource m arg1 arg2 = Ret (Code NOT_READY) \/
             WebView2_GetSource m arg1 arg2 = Ret (Stored NOT_READY (buffer_at m arg2))
        else every_run ops_contract (WebView2_GetSource m arg1 arg2) [] (op_post ob)).
      unfold WebView2_GetSource. fold ob. destruct (Z.eqb_spec (controller ob) 0) as [E|E].
      * right. unfold GetSource. by rewrite E.
      * apply every_run_bind. eapply every_run_mono; [|apply every_run_respects; [done|apply GetSource_ok; [by intros ??? [? _]|done]]].
        intros o tr [[(hr & dst' & -> & HA & Hd & Hl & _)|(_ & w & _ & l & Hin)] Hr]; [by split_and!|].
        destruct (respects_elem _ _ _ _ Hr Hin) as (pre & _ & H). by specialize (H eq_refl).
    + change (if (controller ob =? 0)%Z
        then code (DoPrint ob) = Ret (Code NOT_READY) \/ code (DoPrint ob) = Ret (Stored NOT_READY (buffer_at m arg2))
        else every_run ops_contract (code (DoPrint ob)) [] (op_post ob)).
      destruct (Z.eqb_spec (controller ob) 0) as [E|E].
      * left. unfold DoPrint. by rewrite E.
      * apply DoPrint_ok; [by intros ??? [? _]|done].
    + exact (ready_invoke_ok ob _ "MoveFocus" [AInt COREWEBVIEW2_MOVE_FOCUS_REASON_PROGRAMMATIC] _ Hcl ltac:(by apply declared_controller)).
  - assert (Hf : forall k, (0 <= k <= 8)%Z -> (op =? k)%Z = false) by (intros k ?; apply Z.eqb_neq; lia).
    assert ((webview2_resize <=? op) && (op <=? webview2_set_focus) = false)%Z as ->.
    { apply andb_false_iff. rewrite !Z.leb_gt. unfold webview2_resize, webview2_set_focus. lia. }
    unfold WebView2. rewrite !Hf by (cbv; split; discriminate). done.
Qed.

(** C18: Go may call any operation at any time: an operation other than create and close does
    nothing and reports NOT_READY before the controller is there; afterwards it leaves
    every reference as it found it, only calls methods that the interfaces declare,
    and returns the result of the browser.  An unknown operation is refused. *)
Theorem operations_guarded m op arg1 arg2 arg3 arg4 arg5 :
  let ob := object_at m arg1 in
  let p := WebView2 m op arg1 arg2 arg3 arg4 arg5 in
  if ((op =? webview2_create) || (op =? webview2_close))%Z then True
  else if ((webview2_resize <=? op) && (op <=? webview2_set_focus))%Z then
    if (controller ob =? 0)%Z
    then p = Ret (Code NOT_READY) \/ p = Ret (Stored NOT_READY (buffer_at m arg2))
    else every_run ops_contract p [] (op_post ob)
  else p = Ret (Code INVALID_OP).
Proof. apply operations_ok. Qed.

Lemma strncpy_length dst src : 260 <= length dst -> length (strncpy dst src MAX_PATH) = length dst.
Proof.
  intros Hl. unfold strncpy. change (Z.to_nat MAX_PATH) with 260. rewrite !length_app, length_replicate, length_drop, length_take. lia.
Qed.

Lemma c_str_nonzero l : Forall (fun b => b <> 0%Z) (c_str l).
Proof. induction l as [|b l IH]; simpl; [done|]. destruct (Z.eqb_spec b 0); by constructor. Qed.

Lemma c_str_id l : Forall (fun b => b <> 0%Z) l -> c_str l = l.
Proof.
  induction 1 as [|b l Hb _ IH]; simpl; [done|]. rewrite (proj2 (Z.eqb_neq b 0)) by done. by rewrite IH.
Qed.

Lemma c_str_strncpy dst src : length dst = 260 -> c_str (strncpy dst src MAX_PATH) = take 260 (c_str src).
Proof.
  intros Hl. unfold strncpy. rewrite drop_ge, app_nil_r by (rewrite Hl; done).
  change (Z.to_nat MAX_PATH) with 260. pose proof (Forall_take _ 260 _ (c_str_nonzero src)) as Hn.
  destruct (260 - length (take 260 (c_str src))) as [|k]; simpl replicate.
  - by rewrite app_nil_r, c_str_id.
  - by apply c_str_zero.
Qed.

(** Go's buffer of 260 bytes is never overrun, and what Go reads from it - up to the first
    zero, or all of it - is the address of the page in UTF-8, cut off after 260 bytes;
    when the browser reports an error the buffer is untouched, and before the
    controller is there so is it.  An address that cannot be converted crashes. *)
Theorem get_source_delivers ob dst (Hdst : length dst = 260) :
  every_run com_contract (GetSource ob dst) [] (fun o tr =>
    (exists hr dst', o = Some (hr, dst') /\ length dst' = 260 /\
      (hr = NOT_READY /\ controller ob = 0%Z /\ dst' = dst /\ tr = [] \/
       controller ob <> 0%Z /\ (hr < 0)%Z /\ dst' = dst /\ tr = [Ev (GetString (webview2 ob) "get_Source" []) (hr, None)] \/
       controller ob <> 0%Z /\ hr = S_OK /\ exists w n c, n <> 0%Z /\ served tr = [OAddress w; OLength w n; OConverted w n c] /\
         c_str dst' = take 260 (c_str c))) \/
    (controller ob <> 0%Z /\ o = None /\ exists w, served tr = [OAddress w; OLength w 0])).
Proof.
  destruct (decide (controller ob = 0%Z)) as [E|E].
  - unfold GetSource. rewrite E. left. exists NOT_READY, dst. split_and!; [done|done|]. by left.
  - eapply every_run_mono; [|by apply (GetSource_ok com_contract)].
    intros o tr [(hr & dst' & -> & _ & _ & _ & [(Hr & -> & ->)|(-> & w & n & c & Hn & Hs & ->)])|(-> & w & Hs & _)].
    + left. exists hr, dst. split_and!; [done|done|]. right. by left.
    + left. exists S_OK, (strncpy dst c MAX_PATH). split_and!; [done|rewrite strncpy_length; lia|]. right. right.
      split; [done|]. split; [done|]. exists w, n, c. split_and!; [done..|]. by apply c_str_strncpy.
    + right. split_and!; [done..|]. by exists w.
Qed.

Lemma get_source_delivers_witness :
  every_run com_contract (GetSource (BrowserObject 50 60 7 9 2) (replicate 260 1%Z)) [] (fun o tr =>
    (exists hr dst', o = Some (hr, dst') /\ length dst' = 260 /\
      (hr = NOT_READY /\ 50%Z = 0%Z /\ dst' = replicate 260 1%Z /\ tr = [] \/
       50%Z <> 0%Z /\ (hr < 0)%Z /\ dst' = replicate 260 1%Z /\ tr = [Ev (GetString 60 "get_Source" []) (hr, None)] \/
       50%Z <> 0%Z /\ hr = S_OK /\ exists w n c, n <> 0%Z /\ served tr = [OAddress w; OLength w n; OConverted w n c] /\
         c_str dst' = take 260 (c_str c))) \/
    (50%Z <> 0%Z /\ o = None /\ exists w, served tr = [OAddress w; OLength w 0])).
Proof. exact (get_source_delivers (BrowserObject 50 60 7 9 2) (replicate 260 1%Z) eq_refl). Defined.

(** C8: Go may use the browser exactly when it was told FINISH: after the controller handler
    has run, navigating either reports NOT_READY and the stage that Go was told is a
    failed one, or Go was told FINISH, and the address reaches the view the browser
    object holds - unless the handler has run into one of the failures of [breaks]. *)
Theorem ready_then_navigate ob result ctrl url
    (Hob : (0 < bo_refCount ob)%Z) (Hmax : (bo_refCount ob + 5 <= max_refs)%Z)
    (Hnew : controller ob = 0%Z) (Hctrl : ctrl <> 0%Z) :
  every_run com_contract
    (o ← CreateController_Invoke ob result ctrl;
     match (o : invoke_result) with
     | Some (_, ob') => r ← Navigate ob' url; Ret (Some (ob', r))
     | None => Ret None
     end) [] (fun o tr => (exists ob' r stage res,
       o = Some (ob', r) /\ callbacks tr = ready_call ob stage res /\
       ((stage <> FINISH /\ r = NOT_READY /\ Acct [ctrl] tr [] []) \/
        (stage = FINISH /\ res = OK /\
         last tr = Some (Ev (Invoke (webview2 ob') "Navigate" [AWide (ConvertCharToWChar url)]) r) /\
         exists nw, Acct [ctrl] tr [nw; webview2 ob'; ctrl] []))) \/ breaks [ctrl] [] tr).
Proof.
  apply every_run_bind. eapply every_run_mono; [|by apply (CreateController_ok com_contract)].
  intros o tr [(ob' & stage & res & -> & Hcb & Hcalls & [(Hst & (n & -> & _) & HA)|(-> & -> & nw & view & n & -> & _ & _ & HA)])|Hb].
  - unfold Navigate. cbn [with_refs controller]. rewrite Hnew. cbn. left.
    exists (with_refs ob n), NOT_READY, stage, res. split_and!; [done|done|]. by left.
  - unfold Navigate. cbn [controller webview2]. rewrite (proj2 (Z.eqb_neq ctrl 0)) by done. cbn -[ready_call]. intros r _. left.
    eexists _, r, FINISH, OK. split_and!; [done| |].
    + rewrite callbacks_app, Hcalls. cbn -[ready_call]. by rewrite app_nil_r.
    + right. split_and!; [done|done|apply last_snoc|]. exists nw. acct_step HA. done.
  - eapply every_run_mono; [|by apply breaks_run]. intros x tr' H. by right.
Qed.

Lemma ready_then_navigate_witness :
  every_run com_contract
    (o ← CreateController_Invoke (new_MyBrowserObject 7 9) 0 50;
     match (o : invoke_result) with
     | Some (_, ob') => r ← Navigate ob' [97%Z]; Ret (Some (ob', r))
     | None => Ret None
     end) [] (fun o tr => (exists ob' r stage res,
       o = Some (ob', r) /\ callbacks tr = ready_call (new_MyBrowserObject 7 9) stage res /\
       ((stage <> FINISH /\ r = NOT_READY /\ Acct [50%Z] tr [] []) \/
        (stage = FINISH /\ res = OK /\
         last tr = Some (Ev (Invoke (webview2 ob') "Navigate" [AWide (ConvertCharToWChar [97%Z])]) r) /\
         exists nw, Acct [50%Z] tr [nw; webview2 ob'; 50%Z] []))) \/ breaks [50%Z] [] tr).
Proof.
  apply (ready_then_navigate (new_MyBrowserObject 7 9) 0 50 [97%Z]);
    [reflexivity|unfold max_refs; simpl; lia|reflexivity|discriminate].
Defined.

(** The dispatcher and the functions of cside.h do the same. *)
Lemma dispatch_is_direct m a1 a2 a3 a4 a5 :
  WebView2 m webview2_create a1 a2 a3 a4 a5 = WebView2_Create m a1 a3 a4 a5 /\
  WebView2 m webview2_close a1 a2 a3 a4 a5 = WebView2_Close m a1 /\
  WebView2 m webview2_resize a1 a2 a3 a4 a5 = WebView2_Resize m a1 (i32 a2) (i32 a3) /\
  WebView2 m webview2_navigate a1 a2 a3 a4 a5 = WebView2_Navigate m a1 a2 /\
  WebView2 m webview2_navigate_to_string a1 a2 a3 a4 a5 = WebView2_NavigateToString m a1 a2 /\
  WebView2 m webview2_execute_script a1 a2 a3 a4 a5 = WebView2_ExecuteScript m a1 a2 /\
  WebView2 m webview2_get_source a1 a2 a3 a4 a5 = WebView2_GetSource m a1 a2 /\
  WebView2 m webview2_print a1 a2 a3 a4 a5 = WebView2_Print m a1 /\
  WebView2 m webview2_set_focus a1 a2 a3 a4 a5 = WebView2_SetFocus m a1.
Proof. split_and!; reflexivity. Qed.
