(* ===== verification/WvSession.v ===== *)
(** * Sessions of a WebView2 browser

    One browser from [CreateWebView2] to the end, as a transition system: the runtime
    completes the two asynchronous steps of the creation, delivers events and resource
    requests and gives up handlers; Go calls operations and closes the browser - in any
    order.  Every step runs the translated code of the handler or operation on the
    shared browser object.  The theorems hold of a whole session, up to the first failure
    that the code is not prepared for ([unprepared]), if there is one. *)

From S2P Require Import Prelude Prog Win32 Accounting RefCount AppBridge SunApp WvApi WvHelpers WvObject WvLife WvScheme WvOptions WvCreate WvRequest WvOps.

(** ** The state *)

(** How far the creation is: a completion handler is pending, Go was told how it
    ended, or nobody will ever tell Go. *)
Inductive stage := AwaitEnvironment | AwaitController | Told | Silent.

#[export] Instance stage_eq_dec : EqDecision stage.
Proof. solve_decision. Defined.

Definition awaiting (st : stage) : bool :=
  match st with AwaitEnvironment | AwaitController => true | _ => false end.

(** Whether Go has the browser open, the browser object, the stage, and the number of
    handlers with a reference on the object, apart from the pending one. *)
Record session := Session {
  s_open : bool; s_ob : option MyBrowserObject; s_stage : stage; s_handlers : Z }.

(** References on the browser object. *)
Definition s_users (s : session) : Z :=
  ((if s_open s then 1 else 0) + (if awaiting (s_stage s) then 1 else 0) + s_handlers s)%Z.

(** After a call of the pending handler, which is now one among the others. *)
Definition completed (s : session) (b : MyBrowserObject) (st : stage) : session :=
  Session (s_open s) (Some b) st
    (bo_refCount b - (if s_open s then 1 else 0) - (if awaiting st then 1 else 0)).

(** ** The steps *)

Inductive step :=
| SEnvironment (result env : Z)       (* the environment is there, or failed *)
| SController (result ctrl : Z)       (* the controller is there, or failed *)
| SAbandon                            (* the pending handler is released without a call *)
| SAccelerator (sender args : Z)
| SContextMenu (sender args : Z)
| SLoaded (sender args : Z)
| SNavigated (sender args : Z)
| SNewWindow (sender args : Z)
| SRequest (junk sender args : Z)
| SOperation (op a2 a3 : Z) (text buffer : list Z)
| SClose
| SRelease.                           (* a handler that is not pending goes *)

(** The result of the request for the controller, when the handler made it. *)
Definition controller_request (e : ev) : option Z :=
  match e with
  | Ev a r =>
      match a return Ans a -> option Z with
      | Invoke _ m _ => fun r => if String.eqb m "CreateCoreWebView2Controller" then Some r else None
      | _ => fun _ => None
      end r
  end.

Definition after_environment (l : list ev) : stage :=
  match omap controller_request l with
  | [rtn] => if SUCCEEDED rtn then AwaitController else Told
  | _ => Told
  end.

(** The browser object that an operation of Go addresses, and its arguments. *)
Definition the_object (b : MyBrowserObject) (text buffer : list Z) : pointees :=
  Pointees (fun _ => b) (fun _ => text) (fun _ => buffer).

(** [None]: an object was used that is gone, or a null pointer. *)
Definition session_step (g : globals) (op : step) (s : session) : act (option session) :=
  match op, s_ob s with
  | SEnvironment result env, Some b =>
      '(o, l) ← traced (CreateEnvironment_Invoke b (bo_hwnd b) result env);
      Ret (match (o : invoke_result) with
           | Some (_, b') => Some (completed s b' (after_environment l))
           | None => None
           end)
  | SController result ctrl, Some b =>
      o ← CreateController_Invoke b result ctrl;
      Ret (match (o : invoke_result) with
           | Some (_, b') => Some (completed s b' Told)
           | None => None
           end)
  | SAbandon, Some b => '(_, o) ← bo_Release b; Ret (Some (Session (s_open s) o Silent (s_handlers s)))
  | SAccelerator sender args, Some b => _ ← Accelerator_Invoke b sender args; Ret (Some s)
  | SContextMenu sender args, Some b => _ ← ContextMenu_Invoke b sender args; Ret (Some s)
  | SLoaded sender args, Some b => _ ← DOMContentLoaded_Invoke b sender args; Ret (Some s)
  | SNavigated sender args, Some b => _ ← NavigationCompleted_Invoke b sender args; Ret (Some s)
  | SNewWindow sender args, _ => _ ← NewWindow_Invoke sender args; Ret (Some s)
  | SRequest junk sender args, _ =>
      o ← CustomScheme_Invoke g junk sender args;
      Ret (match (o : option (Z * bool)) with Some (_, true) => Some s | _ => None end)
  | SOperation op a2 a3 text buffer, Some b =>
      o ← WebView2 (the_object b text buffer) op 0 a2 a3 0 0;
      Ret (match o with Code _ | Stored _ _ => Some s | _ => None end)
  | SClose, Some b => '(_, o) ← Close b; Ret (Some (Session false o (s_stage s) (s_handlers s)))
  | SRelease, Some b =>
      '(_, o) ← bo_Release b; Ret (Some (Session (s_open s) o (s_stage s) (s_handlers s - 1)))
  | _, None => Ret None
  end.

(** What the rules of the runtime and of Go allow: a pending handler is called once,
    with the object it asked for; handlers that are called are alive; Go uses the
    browser until it closes it. *)
Definition s_allowed (op : step) (s : session) : bool :=
  match op with
  | SEnvironment result env => bool_decide (s_stage s = AwaitEnvironment) && (FAILED result || c_true env)
  | SController result ctrl => bool_decide (s_stage s = AwaitController) && (FAILED result || c_true ctrl)
  | SAbandon => awaiting (s_stage s)
  | SAccelerator _ _ | SContextMenu _ _ | SLoaded _ _ | SNavigated _ _ | SRelease => (0 <? s_handlers s)%Z
  | SNewWindow _ _ | SRequest _ _ _ => true
  | SOperation op _ _ _ _ => s_open s && negb (op =? webview2_create)%Z && negb (op =? webview2_close)%Z
  | SClose => s_open s
  end.

(** Any sequence of steps; those the rules forbid do not happen. *)
Fixpoint session_run (g : globals) (ops : list step) (s : session) : act (option session) :=
  match ops with
  | [] => Ret (Some s)
  | op :: ops =>
      if s_allowed op s then
        o ← session_step g op s;
        match (o : option session) with Some s => session_run g ops s | None => Ret None end
      else session_run g ops s
  end.

(** The session that [CreateWebView2] starts, if it made a browser object. *)
Definition start (r : Z * option MyBrowserObject * option Options) : option session :=
  let '(result, ob, _) := r in
  match ob with
  | Some b =>
      let st := if SUCCEEDED result then AwaitEnvironment else Silent in
      Some (completed (Session true (Some b) st 0) b st)
  | None => None
  end.

(** A whole life: creation, then the steps.  The result code of the creation; the session,
    if there is a browser object; and the options, if the runtime keeps them. *)
Definition browser_life (g : globals) (hwnd dllPath : Z) (folder : list Z) (cb : Z) (ops : list step)
    : act (Z * option (option session) * option Options) :=
  r ← CreateWebView2 hwnd dllPath folder cb;
  match start r with
  | Some s => o ← session_run g ops s; Ret (r.1.1, Some o, r.2)
  | None => Ret (r.1.1, None, r.2)
  end.

(** ** What the runtime promises *)

(** A runtime that accepts a completion handler keeps a reference on it: the next call,
    the bridge's [Release], does not answer 0. *)
Definition keeps_handler : contract Ans := fun tr a =>
  match a return Ans a -> Prop with
  | Release h => fun r =>
      match last tr with
      | Some (Ev a' r') =>
          match a' return Ans a' -> Prop with
          | Invoke _ m args => fun rtn =>
              m = "CreateCoreWebView2Controller" -> SUCCEEDED rtn = true -> APtr h ∈ args -> r <> 0%Z
          | CallProc _ args => fun rtn => SUCCEEDED rtn = true -> APtr h ∈ args -> r <> 0%Z
          | _ => fun _ => True
          end r'
      | None => True
      end
  | _ => fun _ => True
  end.

Definition session_contract (g : globals) : contract Ans := fun tr a r =>
  request_contract g tr a r /\ keeps_handler tr a r.

(** ** What the bridge is not prepared for

    The failures on which the code uses a null pointer or gives a reference back twice: no
    [ICoreWebView2_11], no profile or settings ([breaks]), no response to install, and a
    string of the browser that cannot be converted. *)
Definition unprepared (e : ev) : bool :=
  match e with
  | Ev a r =>
      match a return Ans a -> bool with
      | QueryInterface _ iid => fun r => bool_decide (iid = i_iid ICoreWebView2_11) && FAILED r.1
      | Fetch _ m _ => fun r => bool_decide (m ∈ ["get_Profile"; "get_Settings"; "CreateWebResourceResponse"]) && FAILED r.1
      | WideCharToMultiByte _ _ cch => fun r => (cch =? 0)%Z && (r.1 =? 0)%Z
      | _ => fun _ => false
      end r
  end.

Definition smooth_contract (g : globals) : contract Ans := spared unprepared (session_contract g).

Lemma smooth_request g tr a r : smooth_contract g tr a r -> request_contract g tr a r.
Proof. by intros [[H _] _]. Qed.

Lemma smooth_com g tr a r : smooth_contract g tr a r -> com_contract tr a r.
Proof. by intros [[[H _] _] _]. Qed.

Lemma smooth_ops g tr a r : smooth_contract g tr a r -> ops_contract tr a r.
Proof.
  intros [[[H _] _] Hu]. split; [done|]. destruct a; try done. cbn in Hu. intros ->. cbn in Hu. by apply Z.eqb_neq.
Qed.

Lemma keeps_forgetful : forgetful keeps_handler.
Proof.
  intros tr1 tr2 a r. destruct a; try done. unfold keeps_handler.
  destruct tr2 as [|e tr2 _] using rev_ind; [done|]. by rewrite (assoc_L (++)), !last_snoc.
Qed.

Lemma smooth_forgetful g : forgetful (smooth_contract g).
Proof.
  apply forgetful_and; [|by intros tr1 tr2 a r]. apply forgetful_and; [by intros tr1 tr2 a r|apply keeps_forgetful].
Qed.

(** A runtime that keeps every handler and never fails. *)
Definition steady_env (next : Z) (a : Win32) : Ans a * Z :=
  match a return Ans a * Z with
  | Release _ => (1, next)%Z
  | a => good_env (Z.max 100 next) a
  end.

Lemma steady_smooth g s tr a : smooth_contract g tr a (steady_env s a).1.
Proof.
  split; [split; [split|]|]; destruct a; cbn; try done; try lia; try (left; split; [done|simpl; lia]); rewrite ?andb_false_r; try done.
  - left. split; [done|]. eexists _, _. split; [reflexivity|lia].
  - destruct (last tr) as [[[] ?]|]; done.
  - apply andb_false_iff. right. apply Z.eqb_neq. lia.
Qed.

(** A history without them has no part of [breaks], and no crash of a request. *)
Lemma clean_elem tr e : clean unprepared tr -> e ∈ tr -> unprepared e = false.
Proof. intros H. by apply (Forall_forall (fun e => unprepared e = false) tr). Qed.

Lemma clean_unbroken bor cbs0 tr : clean unprepared tr -> ~ breaks bor cbs0 tr.
Proof.
  intros Hc (tr1 & tr2 & view & hr & _ & Hr & H).
  assert (Hf : FAILED hr = true) by by apply Z.ltb_lt.
  assert (H' : exists e t, unprepared e = FAILED hr /\ tr = tr1 ++ e :: t).
  { destruct H as [(v2 & r1 & r2 & _ & ->)|[(v13 & r & _ & ->)|(r & _ & ->)]];
      (do 2 eexists; split; [|cbn [app]; reflexivity]); reflexivity. }
  destruct H' as (e & t & He & ->). apply Forall_app in Hc as [_ Hc]. apply Forall_cons in Hc as [Hc _]. congruence.
Qed.

(** So a handler under the contract without them. *)
Lemma smooth_unbroken {T} g (p : act T) (Q : T -> list ev -> Prop) bor cbs0 :
  every_run (smooth_contract g) p [] (fun x tr => Q x tr \/ breaks bor cbs0 tr) -> every_run (smooth_contract g) p [] Q.
Proof.
  intros H. eapply every_run_mono; [|apply every_run_respects; [done|exact H]].
  intros x tr [[?|Hb] Hr]; [done|]. apply respects_spared in Hr. by destruct (clean_unbroken _ _ _ Hr Hb).
Qed.

(** A response that was asked for is there, and so is a conversion: a request is served to
    the end. *)
Lemma clean_served tr w : clean unprepared tr -> OLength w 0 ∉ served tr.
Proof.
  intros Hc ([a r] & He & Ho)%list_elem_of_omap. pose proof (clean_elem _ _ Hc He) as Hu.
  destruct a; cbn in Ho; try done; try (by destruct (String.eqb _ _)); [by destruct r as [? [?|]]|].
  cbn in Hu. destruct (cch =? 0)%Z; [|done]. injection Ho as [= _ Hr]. by rewrite Hr in Hu.
Qed.

Lemma smooth_response g tr args : respects (smooth_contract g) [] tr -> OResponse args 0 ∉ served tr.
Proof.
  intros Hc ([a r] & He & Ho)%list_elem_of_omap. destruct (respects_elem _ _ _ _ Hc He) as (pre & [[Hcom _] _] & Hu).
  destruct a; cbn in Ho; try done; try (by destruct (cch =? 0)%Z); try (by destruct r as [? [?|]]);
    try (by destruct (String.eqb m "put_Response")).
  destruct (String.eqb_spec m "CreateWebResourceResponse") as [->|]; [|done]. injection Ho as _ Hr.
  cbn in Hcom. destruct Hcom as [[_ Hq]|[Hhr _]]; [done|]. cbn in Hu. unfold FAILED in Hu. apply Z.ltb_lt in Hhr. by rewrite Hhr in Hu.
Qed.

Lemma request_ok g junk sender args : helperHwnd g <> 0%Z ->
  every_run (smooth_contract g) (CustomScheme_Invoke g junk sender args) []
    (fun o tr => (exists hr, o = Some (hr, true)) /\ Acct [sender; args] tr [] []).
Proof.
  intros Hg. eapply every_run_mono; [|apply every_run_respects; [done|eapply every_run_contract; [apply smooth_request|by apply CustomScheme_Invoke_ok]]].
  intros o tr [[(hr & -> & HA & _)|(w & c & content & lc & l & crash & _ & Hlc & Hl & Hs & Hend)] Hr]; [by eauto|].
  destruct crash; [|destruct Hend as [-> HA]; by eauto]. exfalso.
  assert (Hin : forall o, o ∈ lc ++ l -> o ∈ served tr).
  { intros o'. rewrite Hs, elem_of_app, elem_of_cons, elem_of_app, elem_of_cons. tauto. }
  assert (Hno : forall resp a, negb (c_true resp) = true -> OResponse a resp ∈ l -> False).
  { intros resp a ->%negb_true_iff%c_true_0 Hr'. apply (smooth_response g tr a Hr), Hin, elem_of_app. by right. }
  unfold response_for in Hl. destruct (_ =? 0)%Z.
  - destruct Hl as (resp & Hresp & ->). eapply (Hno resp); [done|apply list_elem_of_here].
  - destruct Hl as (bytes & stream & _ & Hl). destruct (c_true stream); [|by destruct Hl]. destruct c as [c|].
    + destruct Hl as (resp & Hresp & ->). eapply (Hno resp); [done|apply list_elem_of_further, list_elem_of_here].
    + cbn in Hlc. subst lc. apply (clean_served tr w); [by eapply respects_spared|]. apply Hin, elem_of_app. left. apply list_elem_of_here.
Qed.

(** ** What Go hears of the creation *)

Definition is_ready (c : Z * Z * Z * Z * Z) : bool := (c.1.1.1.2 =? ON_READY)%Z.
Definition readies (tr : list ev) : list (Z * Z * Z * Z * Z) := List.filter is_ready (callbacks tr).

Lemma readies_app tr1 tr2 : readies (tr1 ++ tr2) = readies tr1 ++ readies tr2.
Proof. unfold readies. by rewrite callbacks_app, List.filter_app. Qed.

Lemma readies_ready_call tr ob stage result : callbacks tr = ready_call ob stage result ->
  readies tr = ready_call ob stage result.
Proof. intros E. unfold readies. rewrite E. unfold ready_call. by destruct (c_true (onCallBackFn ob)). Qed.

(** Calls that do not tell Go that the browser is ready. *)
Definition not_ready (a : Win32) : Prop :=
  match a with GoCallback _ t _ _ _ => t <> ON_READY | _ => True end.

Lemma not_ready_events tr : Forall (fun e : ev => match e with Ev a _ => not_ready a end) tr -> readies tr = [].
Proof.
  induction 1 as [|[a r] tr Ha _ IH]; [done|]. change (Ev a r :: tr) with ([Ev a r] ++ tr).
  rewrite readies_app, IH, app_nil_r. destruct a; try done. unfold readies, is_ready. cbn -[Z.eqb]. cbn in Ha.
  by rewrite (proj2 (Z.eqb_neq _ _)) by done.
Qed.

Ltac quiet_calls :=
  repeat match goal with
  | |- True => exact I
  | |- _ /\ _ => split
  | |- _ <> _ => discriminate
  | |- forall _, _ => intro
  | |- only_calls _ (Ret _) => exact I
  | |- only_calls _ (Vis _ _) => cbn
  | |- only_calls _ (mbind _ _) => apply only_calls_bind
  | |- only_calls _ (bind _ _) => apply only_calls_bind
  | |- only_calls _ (call _) => cbn
  | |- only_calls _ (match ?x with _ => _ end) => destruct x
  | |- only_calls _ (let '(_, _) := ?x in _) => destruct x
  | |- not_ready _ => first [exact I | discriminate]
  end.

Lemma quiet_accelerator b sender args : only_calls not_ready (Accelerator_Invoke b sender args).
Proof. unfold Accelerator_Invoke, onAccelPressed, go_callback. quiet_calls. Qed.

Lemma quiet_context_menu b sender args : only_calls not_ready (ContextMenu_Invoke b sender args).
Proof. unfold ContextMenu_Invoke, onContextMenuRequested, go_callback. quiet_calls. Qed.

Lemma quiet_loaded b sender args : only_calls not_ready (DOMContentLoaded_Invoke b sender args).
Proof. unfold DOMContentLoaded_Invoke, onLoaded, go_callback. quiet_calls. Qed.

Lemma quiet_navigated b sender args : only_calls not_ready (NavigationCompleted_Invoke b sender args).
Proof. unfold NavigationCompleted_Invoke, onNavCompleted, go_callback. quiet_calls. Qed.

Lemma quiet_new_window sender args : only_calls not_ready (NewWindow_Invoke sender args).
Proof. unfold NewWindow_Invoke. quiet_calls. Qed.

Lemma quiet_app g junk url : only_calls not_ready (suneidoAPP g junk url).
Proof. unfold suneidoAPP, helperWndProc, SuneidoAPP. quiet_calls. Qed.

Lemma quiet_request g junk sender args : only_calls not_ready (CustomScheme_Invoke g junk sender args).
Proof.
  unfold CustomScheme_Invoke, serve, respond, ConvertWcharToChar, delete_converted, delete_str. quiet_calls; apply quiet_app.
Qed.

Lemma quiet_operation m op a1 a2 a3 a4 a5 : op <> webview2_create -> op <> webview2_close ->
  only_calls not_ready (WebView2 m op a1 a2 a3 a4 a5).
Proof.
  intros H0 H1. unfold WebView2. rewrite (proj2 (Z.eqb_neq _ _) H0), (proj2 (Z.eqb_neq _ _) H1).
  unfold Resize, Navigate, NavigateToString, ExecuteScript, GetSource, DoPrint, SetFocus, code, ConvertWcharToChar.
  quiet_calls.
Qed.

Lemma quiet_bo_Release b : only_calls not_ready (bo_Release b).
Proof. unfold bo_Release, bo_destroy. quiet_calls. Qed.

(** ** The invariant *)

(** How many handlers there can be besides the pending one. *)
Definition room (st : stage) : Z :=
  match st with AwaitEnvironment => 1 | AwaitController => 2 | Told => 7 | Silent => 2 end.

(** The browser object between steps: before the end of the creation it has neither a
    controller nor a view; with a controller it has a view.  Go's function [cb] is in it
    until it is closed. *)
Definition object_ok (cb : Z) (s : session) (b : MyBrowserObject) : Prop :=
  bo_refCount b = s_users s /\ (0 < s_users s)%Z /\
  onCallBackFn b = (if s_open s then cb else 0%Z) /\
  (awaiting (s_stage s) = true -> controller b = 0%Z /\ webview2 b = 0%Z) /\
  (controller b <> 0%Z -> webview2 b <> 0%Z).

(** What Go was told of the creation: nothing before its end, one thing if it ended while
    the browser was open. *)
Definition told_ok (cb : Z) (s : session) (tr : list ev) : Prop :=
  match s_stage s with
  | Told => length (readies tr) <= 1 /\ (s_open s = true -> length (readies tr) = if c_true cb then 1 else 0)
  | _ => readies tr = []
  end.

(** [K] and [KB] are what the creation left to the runtime. *)
Definition session_inv (bor : list Z) (cb : Z) (K KB : list Z) (s : session) (tr : list ev) : Prop :=
  (0 <= s_handlers s <= room (s_stage s))%Z /\
  match s_ob s with Some b => object_ok cb s b | None => s_users s = 0%Z end /\
  told_ok cb s tr /\
  exists nws, length nws <= 1 /\ (awaiting (s_stage s) = true -> nws = []) /\
    Acct bor tr (ob_refs (s_ob s) ++ nws ++ K) KB.

(** The objects a step lends the bridge. *)
Definition borrowed (op : step) : list Z :=
  match op with
  | SEnvironment _ env => [env]
  | SController _ ctrl => [ctrl]
  | SAccelerator sender args | SContextMenu sender args | SLoaded sender args | SNavigated sender args
  | SNewWindow sender args | SRequest _ sender args => [sender; args]
  | _ => []
  end.

Section steps.
Context (g : globals) (Hg : helperHwnd g <> 0%Z) (bor : list Z) (cb : Z) (K KB : list Z).
Context (s : session) (tr : list ev) (Hinv : session_inv bor cb K KB s tr).

Definition step_keeps (o : option session) (tr' : list ev) : Prop :=
  exists s', o = Some s' /\ session_inv bor cb K KB s' tr'.

(** Steps that leave the state as it is: their accounts are even, and Go is not told
    anything about the creation. *)
Lemma keep_quiet bor' tr2 :
  Acct bor' tr2 [] [] -> readies tr2 = [] -> (forall o, o ∈ bor' -> o ∈ bor \/ o ∈ ob_refs (s_ob s)) ->
  session_inv bor cb K KB s (tr ++ tr2).
Proof using Hinv.
  intros HA Hr Hbor. destruct Hinv as (H1 & H2 & H3 & nws & H4 & H5 & H6). split; [exact H1|]. split; [exact H2|]. split.
  - unfold told_ok. by rewrite readies_app, Hr, app_nil_r.
  - exists nws. split_and!; [done..|]. apply (Acct_frame _ _ _ _ _ _ _ _ H6 HA).
    intros o Ho. destruct (Hbor o Ho); [by left|right]. apply elem_of_app. by left.
Qed.

Lemma quiet_step {T} (p : act T) (f : T -> option session) (P : T -> Prop) bor' :
  only_calls not_ready p ->
  every_run (smooth_contract g) p [] (fun x tr2 => P x /\ Acct bor' tr2 [] []) ->
  (forall x, P x -> f x = Some s) ->
  (forall o, o ∈ bor' -> o ∈ bor \/ o ∈ ob_refs (s_ob s)) ->
  every_run (smooth_contract g) (x ← p; Ret (f x)) tr step_keeps.
Proof using Hinv.
  intros Hc Hp Hf Hbor. apply every_run_bind.
  eapply every_run_mono; [|apply every_run_shift; [apply smooth_forgetful|
    apply every_run_and; [exact Hp|exact (only_calls_every_run _ _ _ _ Hc)]]].
  cbn. intros x tr' (tr2 & -> & [Hx HA] & tr3 & -> & Hq). exists s. split; [by apply Hf|].
  eapply keep_quiet; [exact HA|by apply not_ready_events|done].
Qed.

(** Events whose handler only touches what it was given. *)
Ltac even_event Hs :=
  eapply (quiet_step _ _ (fun _ => True)); [solve [auto using quiet_accelerator, quiet_context_menu, quiet_loaded, quiet_navigated]| |done|
    intros o Ho; left; by apply Hs].

Lemma even_accelerator C b sender args : every_run C (Accelerator_Invoke b sender args) []
  (fun _ tr => True /\ Acct [sender; args] tr [] []).
Proof using.
  unfold Accelerator_Invoke, onAccelPressed, go_callback. pose proof (Acct_nil [sender; args]) as HA.
  revert HA. generalize (@nil ev) at 1 2 as tr0. intros tr0 HA. cbn -[Z.eqb FAILED]. intros [hr kind] _. acct_step HA.
  destruct (FAILED hr); [done|]. destruct (_ || _); [|done]. cbn -[FAILED]. intros [hr2 key] _. acct_step HA.
  destruct (FAILED hr2); [done|]. destruct (c_true (onCallBackFn b)); cbn.
  - intros r _. acct_step HA. destruct (c_true r); cbn; [|done]. intros r2 _. by acct_step HA.
  - done.
Qed.

Lemma even_context_menu C b sender args : every_run C (ContextMenu_Invoke b sender args) []
  (fun _ tr => True /\ Acct [sender; args] tr [] []).
Proof using.
  unfold ContextMenu_Invoke, onContextMenuRequested, go_callback. pose proof (Acct_nil [sender; args]) as HA.
  revert HA. generalize (@nil ev) at 1 2 as tr0. intros tr0 HA. destruct (c_true (onCallBackFn b)); cbn.
  - intros r _. acct_step HA. destruct (c_true r); cbn; [done|]. intros r2 _. by acct_step HA.
  - intros r2 _. by acct_step HA.
Qed.

Lemma even_callback C b t sender args : every_run C (_ ← (_ ← go_callback b t 0 0 0; Ret tt); Ret S_OK) []
  (fun _ tr => True /\ Acct [sender; args] tr [] []).
Proof using.
  unfold go_callback. pose proof (Acct_nil [sender; args]) as HA. destruct (c_true (onCallBackFn b)); cbn; [|done].
  intros r _. split; [done|]. exact (Acct_other _ _ _ _ HA (GoCallback _ _ _ _ _) r eq_refl (fun _ => eq_refl) (fun _ => eq_refl)).
Qed.
(** The object is there as long as somebody may use it. *)
Lemma inv_object : (0 < s_users s)%Z -> exists b, s_ob s = Some b /\ object_ok cb s b.
Proof using Hinv.
  intros Hu. destruct Hinv as (_ & H2 & _). destruct (s_ob s) as [b|]; [by exists b|lia].
Qed.

Lemma users_bounds : (0 <= s_users s <= 9)%Z.
Proof using Hinv.
  destruct Hinv as ([H1 H2] & _). unfold s_users. destruct (s_open s), (s_stage s); simpl in *; lia.
Qed.

Lemma awaiting_users : awaiting (s_stage s) = true -> (0 < s_users s)%Z.
Proof using Hinv.
  destruct Hinv as ([H1 _] & _). unfold s_users. intros ->. destruct (s_open s); lia.
Qed.

(** A completion handler was called: what it leaves on top, and what it told Go.  [views] are
    what it still holds itself, if it has not returned. *)
Lemma completed_inv b b' st tr2 R nw views :
  awaiting (s_stage s) = true -> s_ob s = Some b ->
  (bo_refCount b + (if awaiting st then 1 else 0) <= bo_refCount b' <= bo_refCount b + 4)%Z ->
  (awaiting st = true -> s_stage s = AwaitEnvironment /\ (bo_refCount b' <= bo_refCount b + 1)%Z) ->
  st = AwaitController \/ st = Told ->
  onCallBackFn b' = onCallBackFn b ->
  (awaiting st = true -> controller b' = 0%Z /\ webview2 b' = 0%Z /\ readies tr2 = []) ->
  (st = Told -> exists stage result, readies tr2 = ready_call b stage result) ->
  (controller b' <> 0%Z -> webview2 b' <> 0%Z) ->
  length nw <= 1 -> (awaiting st = true -> nw = []) -> R ≡ₚ ob_refs (Some b') ++ nw ++ views ->
  (forall F FB, Acct bor tr F FB -> Acct bor (tr ++ tr2) (R ++ F) FB) ->
  session_inv bor cb (views ++ K) KB (completed s b' st) (tr ++ tr2).
Proof using Hinv.
  intros Haw Eb Href Hst Hst2 Hcb Hclean Htold Hview Hnw Hnw' HR HA.
  destruct Hinv as (Hh & Hob & Ht & nws & Hnws & Hnil & Hacct). rewrite Eb in Hob, Hacct.
  destruct Hob as (Hu & Hpos & Hfn & Hz & _). rewrite (Hnil Haw) in Hacct. destruct (Hz Haw) as [Hc0 Hw0].
  assert (Hrefs : ob_refs (Some b) = []) by (cbn; unfold bo_refs; by rewrite Hc0, Hw0). rewrite Hrefs in Hacct.
  unfold s_users in *. rewrite Haw in Hu, Hpos.
  assert (Hr : readies tr = []) by (unfold told_ok in Ht; by destruct (s_stage s)).
  split_and!.
  - unfold completed. cbn [s_handlers]. destruct (awaiting st); lia.
  - unfold completed. cbn [s_handlers s_stage].
    assert (s_handlers s <= 2)%Z by (destruct (s_stage s); simpl in *; try done; lia).
    destruct Hst2 as [-> | ->]; simpl in *; [|destruct (s_open s); lia].
    destruct (Hst eq_refl) as [Hse ?]. rewrite Hse in Hh. simpl in Hh. destruct (s_open s); lia.
  - unfold completed. cbn [s_ob]. unfold object_ok, s_users. cbn [s_open s_stage s_handlers]. split_and!.
    + lia.
    + destruct (s_open s), (awaiting st); lia.
    + by rewrite Hcb.
    + intros H. by destruct (Hclean H) as (? & ? & _).
    + done.
  - unfold told_ok, completed. cbn [s_stage s_open]. rewrite readies_app, Hr. cbn [app].
    destruct Hst2 as [-> | ->]; [by apply Hclean|]. destruct (Htold eq_refl) as (sg & res & ->).
    unfold ready_call. rewrite Hfn. destruct (s_open s); destruct (c_true _) eqn:E; simpl; split; try done; try lia.
  - unfold completed. cbn [s_ob s_stage]. exists nw. split_and!; [done..|].
    apply HA in Hacct. by rewrite HR, <- !(assoc_L (++)) in Hacct.
Qed.

Lemma controller_request_told f told : go_only f told -> omap controller_request told = [].
Proof using. induction 1 as [|e told (t & a & b & c & r & ->) _ IH]; [done|]. exact IH. Qed.

Lemma step_environment result env : s_allowed (SEnvironment result env) s = true -> env ∈ bor ->
  every_run (smooth_contract g) (session_step g (SEnvironment result env) s) tr step_keeps.
Proof using Hinv.
  cbn. rewrite andb_true_iff, bool_decide_eq_true. intros [Hst _] Henv.
  assert (Haw : awaiting (s_stage s) = true) by by rewrite Hst.
  destruct (inv_object (awaiting_users Haw)) as (b & Eb & Hb). rewrite Eb. pose proof users_bounds as Hub.
  pose proof Hb as (Hu & Hpos & _). apply every_run_bind, every_run_traced.
  eapply every_run_mono; [|apply every_run_shift; [apply smooth_forgetful|apply every_run_respects; [done|
    apply (CreateEnvironment_ok (smooth_contract g) b (bo_hwnd b) result env); [apply smooth_com|lia|unfold max_refs; lia]]]].
  cbn -[after_environment completed]. intros o tr' (tr2 & -> & (b' & -> & (n & -> & Hn) & HA & Hcase) & Hresp) tr3 <-%app_inv_head.
  exists (completed s (with_refs b n) (after_environment tr2)). split; [done|].
  assert (HF : forall F FB, Acct bor tr F FB -> Acct bor (tr ++ tr2) ([] ++ F) FB).
  { intros F FB HF. apply (Acct_frame _ _ _ _ _ _ _ _ HF HA). intros o ->%list_elem_of_singleton. by left. }
  assert (Hz : object_ok cb s b) by done. destruct Hz as (_ & _ & _ & Hz & Hv). destruct (Hz Haw) as [Hc0 Hw0].
  assert (Hrefs0 : [] ≡ₚ ob_refs (Some (with_refs b n)) ++ [] ++ []) by (cbn; unfold bo_refs; simpl; by rewrite Hc0, Hw0).
  destruct Hcase as [(Hr & Hn' & Hcb & Hf)|(Hr & h & rtn & told & r & Htr & Hcb & Hnil & Hg' & Hrefs)].
  - assert (Hst' : after_environment tr2 = Told) by (unfold after_environment; by rewrite (controller_request_told _ _ Hf)).
    rewrite Hst'. eapply (completed_inv b _ Told tr2 [] [] []); try done; [simpl; lia|by right|
      intros _; exists CREATING_ENVIRONMENT, result; by apply readies_ready_call|simpl; lia].
  - assert (Hreq : omap controller_request tr2 = [rtn]).
    { rewrite Htr, !omap_app, (controller_request_told _ _ Hg'). done. }
    unfold after_environment. rewrite Hreq. unfold SUCCEEDED. destruct (Z.leb_spec 0 rtn) as [Hrtn|Hrtn].
    + specialize (Hnil Hrtn). subst told. rewrite Htr in Hresp.
      apply (respects_at _ [] [_; _] (Release h) r []) in Hresp as [[_ Hk] _].
      assert (Hr0 : r <> 0%Z).
      { apply Hk; [done| |apply list_elem_of_further, list_elem_of_here]. unfold SUCCEEDED. by apply Z.leb_le. }
      rewrite (proj2 (Z.eqb_neq r 0) Hr0) in Hrefs. cbn in Hrefs. subst n.
      eapply (completed_inv b _ AwaitController tr2 [] [] []); try done; [simpl; lia|by left| |simpl; lia].
      intros _. split_and!; [done..|]. apply not_ready_events. rewrite Htr. by repeat constructor.
    + eapply (completed_inv b _ Told tr2 [] [] []); try done; [simpl; lia|by right| |simpl; lia].
      intros _. exists CREATING_CONTROLLER, rtn. rewrite Htr, !readies_app.
      rewrite (readies_ready_call told b CREATING_CONTROLLER rtn); [cbn; by rewrite app_nil_r|].
      rewrite Hcb. unfold FAILED. by rewrite (proj2 (Z.ltb_lt rtn 0)).
Qed.

Lemma CreateController_outcome b result ctrl :
  (0 < bo_refCount b)%Z -> (bo_refCount b + 5 <= max_refs)%Z ->
  every_run (smooth_contract g) (CreateController_Invoke b result ctrl) [] (fun o tr =>
    ready_post [ctrl] b ctrl [] o tr /\ (FAILED result = true -> from_option (fun r => r.2 = b) False o)).
Proof using.
  intros Hb Hmax. destruct (FAILED result) eqn:Hf.
  - unfold CreateController_Invoke, create_controller. rewrite Hf. apply every_run_bind. cbn -[ready_and_return].
    apply every_run_bind. eapply every_run_mono.
    2: { apply (onReady_ok (smooth_contract g) [ctrl] [] [] [] b CREATING_CONTROLLER result), Acct_nil. }
    intros _ tr2 [HA Hc]. split; [|done]. exists b, CREATING_CONTROLLER, result. split_and!; [done..|]. left.
    split_and!; [done| |done]. exists (bo_refCount b). split; [by destruct b|lia].
  - eapply every_run_mono; [|apply smooth_unbroken with (bor := [ctrl]) (cbs0 := []), CreateController_ok; [apply smooth_com|done|done]].
    done.
Qed.

Lemma step_controller result ctrl : s_allowed (SController result ctrl) s = true -> ctrl ∈ bor ->
  every_run (smooth_contract g) (session_step g (SController result ctrl) s) tr step_keeps.
Proof using Hinv.
  cbn. rewrite andb_true_iff, bool_decide_eq_true. intros [Hst Hok] Hctrl.
  assert (Haw : awaiting (s_stage s) = true) by by rewrite Hst.
  destruct (inv_object (awaiting_users Haw)) as (b & Eb & Hb). rewrite Eb. pose proof users_bounds as Hub.
  pose proof Hb as (Hu & Hpos & _ & Hz & Hv). destruct (Hz Haw) as [Hc0 Hw0]. apply every_run_bind.
  eapply every_run_mono; [|apply every_run_shift; [apply smooth_forgetful|
    apply (CreateController_outcome b result ctrl); [lia|unfold max_refs; lia]]].
  cbn -[completed]. intros o tr' (tr2 & -> & (b' & sg & res & -> & Hfn & Hcb & Hcase) & Hres).
  exists (completed s b' Told). split; [done|].
  assert (HF : forall R, Acct [ctrl] tr2 R [] -> forall F FB, Acct bor tr F FB -> Acct bor (tr ++ tr2) (R ++ F) FB).
  { intros R HA F FB HF. apply (Acct_frame _ _ _ _ _ _ _ _ HF HA). intros o ->%list_elem_of_singleton. by left. }
  destruct Hcase as [(Hsg & (n & -> & Hn) & HA)|(-> & -> & nw & view & n & -> & Hview & Hn & HA)].
  - eapply (completed_inv b _ Told tr2 [] [] []); try done; [simpl; lia|by right| |simpl; lia| |by apply HF].
    + intros _. exists sg, res. by apply readies_ready_call.
    + cbn. unfold bo_refs. simpl. by rewrite Hc0, Hw0.
  - assert (Hc : ctrl <> 0%Z).
    { destruct (FAILED result); [|by apply c_true_spec]. specialize (Hres eq_refl). cbn in Hres.
      rewrite <- Hres in Hw0. done. }
    eapply (completed_inv b _ Told tr2 [nw; view; ctrl] [nw] []); try done; [simpl; lia|by right| | |by apply HF].
    + intros _. exists FINISH, OK. by apply readies_ready_call.
    + cbn. unfold bo_refs. simpl.
      rewrite (proj2 (c_true_spec view)), (proj2 (c_true_spec ctrl)) by done. cbn. symmetry. apply perm_3.
Qed.

(** Somebody gives the browser object up. *)
Lemma step_drop b b1 open st h :
  s_ob s = Some b -> bo_refs b1 = bo_refs b -> bo_refCount b1 = bo_refCount b ->
  s_users (Session open None st h) = (s_users s - 1)%Z -> (0 <= h <= room st)%Z ->
  onCallBackFn b1 = (if open then cb else 0%Z) ->
  (awaiting st = true -> awaiting (s_stage s) = true) ->
  (controller b1 = controller b /\ webview2 b1 = webview2 b) ->
  (forall tr', readies tr' = readies tr -> told_ok cb (Session open None st h) tr') ->
  every_run (smooth_contract g) (bo_Release b1) tr (fun '(_, o) =>
    step_keeps (Some (Session open o st h))).
Proof using Hinv.
  intros Eb Hbr Hrc Hus Hh Hfn Haw [Hco Hwv] Htold. pose proof users_bounds as Hub.
  destruct Hinv as (_ & Hob & _ & nws & Hnws & Hnil & Hacct). rewrite Eb in Hob, Hacct.
  destruct Hob as (Hu & Hpos & _ & Hz & Hv). cbn in Hacct. rewrite <- Hbr in Hacct.
  eapply every_run_mono; [|eapply every_run_contract; [|apply (bo_Release_ok b1 bor tr (nws ++ K) KB); [unfold max_refs; lia|exact Hacct]]; done].
  cbn -[Z.eqb]. intros [n o] tr' (-> & -> & HA & Hc). eexists. split; [reflexivity|].
  assert (Hr : readies tr' = readies tr) by (unfold readies; by rewrite Hc).
  split_and!; cbn [s_handlers s_stage s_ob s_open]; [lia|lia| |by apply Htold|].
  - rewrite Hrc, Hu. destruct (Z.eqb_spec (s_users s - 1) 0) as [E|E].
    + by rewrite <- E, <- Hus.
    + unfold object_ok. change (s_users (Session open _ st h)) with (s_users (Session open None st h)).
      rewrite Hus. cbn. split_and!; [done|lia|done| |].
      * intros H. rewrite Hco, Hwv. auto.
      * by rewrite Hco, Hwv.
  - exists nws. split_and!; [done|auto|]. exact HA.
Qed.

Lemma session_close : s_allowed SClose s = true ->
  every_run (smooth_contract g) (session_step g SClose s) tr step_keeps.
Proof using Hinv.
  cbn. intros Hopen. pose proof Hinv as ([H1 H2] & _ & Ht & _).
  destruct inv_object as (b & Eb & Hb).
  { unfold s_users. rewrite Hopen. destruct (awaiting _); lia. }
  rewrite Eb. unfold Close, bo_Close. apply every_run_bind, every_run_bind.
  eapply every_run_mono; [|apply (step_drop b (BrowserObject (controller b) (webview2 b) (bo_hwnd b) 0 (bo_refCount b))
     false (s_stage s) (s_handlers s)); try done].
  - by intros [n o] tr'.
  - unfold s_users. cbn. rewrite Hopen. destruct (awaiting _); lia.
  - unfold told_ok in *. cbn. intros tr' ->. destruct (s_stage s); try done. by destruct Ht.
Qed.

Lemma step_abandon : s_allowed SAbandon s = true ->
  every_run (smooth_contract g) (session_step g SAbandon s) tr step_keeps.
Proof using Hinv.
  cbn. intros Haw. pose proof Hinv as ([H1 H2] & _ & Ht & _).
  destruct (inv_object (awaiting_users Haw)) as (b & Eb & Hb). rewrite Eb. apply every_run_bind.
  pose proof Hb as (_ & _ & Hfn & _).
  eapply every_run_mono; [|apply (step_drop b b (s_open s) Silent (s_handlers s)); try done].
  - by intros [n o] tr'.
  - unfold s_users. cbn. rewrite Haw. destruct (s_open s); lia.
  - destruct (s_stage s); simpl in *; try done; lia.
  - unfold told_ok in *. cbn. intros tr' ->. by destruct (s_stage s).
Qed.

Lemma session_release : s_allowed SRelease s = true ->
  every_run (smooth_contract g) (session_step g SRelease s) tr step_keeps.
Proof using Hinv.
  cbn. intros Hh%Z.ltb_lt. pose proof Hinv as ([H1 H2] & _ & Ht & _).
  destruct inv_object as (b & Eb & Hb).
  { unfold s_users. destruct (s_open s), (awaiting _); lia. }
  rewrite Eb. apply every_run_bind. pose proof Hb as (_ & _ & Hfn & _).
  eapply every_run_mono; [|apply (step_drop b b (s_open s) (s_stage s) (s_handlers s - 1)); try done].
  - by intros [n o] tr'.
  - unfold s_users. cbn. lia.
  - lia.
  - unfold told_ok in *. cbn. by intros tr' ->.
Qed.

(** An operation answers a code or a buffer, unless it crashes. *)
Definition no_object (o : outcome) : bool := match o with Created _ _ _ | Closed _ _ => false | _ => true end.
Definition answered (o : outcome) : bool := match o with Code _ | Stored _ _ => true | _ => false end.

Lemma code_shape C p tr0 : every_run C (code p) tr0 (fun o _ => no_object o = true).
Proof using. apply every_run_bind. eapply every_run_mono; [|apply every_run_true]. done. Qed.

Lemma operation_shape C m op a1 a2 a3 a4 a5 tr0 : op <> webview2_create -> op <> webview2_close ->
  every_run C (WebView2 m op a1 a2 a3 a4 a5) tr0 (fun o _ => no_object o = true).
Proof using.
  intros H0 H1. unfold WebView2. rewrite (proj2 (Z.eqb_neq _ _) H0), (proj2 (Z.eqb_neq _ _) H1).
  repeat (case_match; [first [apply code_shape|
    apply every_run_bind; eapply every_run_mono; [|apply every_run_true]; intros [[r d]|] ? _; done]|]).
  done.
Qed.

(** Operations of Go use the objects the browser object holds. *)
Lemma step_operation op a2 a3 text buffer : s_allowed (SOperation op a2 a3 text buffer) s = true ->
  every_run (smooth_contract g) (session_step g (SOperation op a2 a3 text buffer) s) tr step_keeps.
Proof using Hinv.
  cbn -[WebView2]. rewrite !andb_true_iff, !negb_true_iff, !Z.eqb_neq. intros [[Hopen H0] H1].
  pose proof Hinv as ([H2 _] & _). destruct inv_object as (b & Eb & Hb).
  { unfold s_users. rewrite Hopen. destruct (awaiting _); lia. }
  rewrite Eb. pose proof (operations_ok (the_object b text buffer) op 0 a2 a3 0 0) as Hop. cbn zeta in Hop.
  rewrite (proj2 (Z.eqb_neq _ _) H0), (proj2 (Z.eqb_neq _ _) H1) in Hop. cbn -[WebView2 Z.leb] in Hop.
  assert (Hgood : forall bor', (forall o, o ∈ bor' -> o ∈ ob_refs (Some b)) ->
    every_run (smooth_contract g) (WebView2 (the_object b text buffer) op 0 a2 a3 0 0) []
      (fun x tr2 => answered x = true /\ Acct bor' tr2 [] []) ->
    every_run (smooth_contract g) (o ← WebView2 (the_object b text buffer) op 0 a2 a3 0 0;
      Ret (match o with Code _ | Stored _ _ => Some s | _ => None end)) tr step_keeps).
  { intros bor' Hbor Hp. eapply (quiet_step _ _ (fun x => answered x = true) bor');
      [by apply quiet_operation|exact Hp|by intros []|]. intros o Ho. right. rewrite Eb. auto. }
  assert (Hcode : forall o, answered o = true -> WebView2 (the_object b text buffer) op 0 a2 a3 0 0 = Ret o ->
    every_run (smooth_contract g) (WebView2 (the_object b text buffer) op 0 a2 a3 0 0) []
      (fun x tr2 => answered x = true /\ Acct [] tr2 [] [])).
  { intros o Ho ->. split; [done|apply Acct_nil]. }
  assert (Hnil : forall o, o ∈ [] -> o ∈ ob_refs (Some b)) by (intros o Ho; by apply elem_of_nil in Ho).
  destruct ((webview2_resize <=? op) && (op <=? webview2_set_focus))%Z.
  2: { apply (Hgood []); [done|]. by apply (Hcode (Code INVALID_OP)). }
  destruct (Z.eqb_spec (controller b) 0) as [Ec|Ec].
  { apply (Hgood []); [done|]. destruct Hop as [Hop|Hop]; [by apply (Hcode (Code NOT_READY))|apply (Hcode (Stored NOT_READY buffer)); [done|exact Hop]]. }
  destruct Hb as (_ & _ & _ & _ & Hv). specialize (Hv Ec).
  apply (Hgood [controller b; webview2 b]).
  - cbn. unfold bo_refs. rewrite (proj2 (c_true_spec _) Ec), (proj2 (c_true_spec _) Hv).
    cbn. intros o. rewrite !elem_of_cons. tauto.
  - eapply every_run_mono; [|apply every_run_and; [eapply every_run_contract; [apply smooth_ops|exact Hop]|
      by apply operation_shape]].
    intros o tr2 [(HA & _ & Hs & _) Hn]. split; [|exact HA].
    destruct o; try done. by apply is_Some_None in Hs.
Qed.

Lemma session_step_ok op : s_allowed op s = true -> (forall p, p ∈ borrowed op -> p ∈ bor) ->
  every_run (smooth_contract g) (session_step g op s) tr step_keeps.
Proof using Hg Hinv.
  assert (Hev : (0 <? s_handlers s)%Z = true -> exists b, s_ob s = Some b).
  { intros Hh%Z.ltb_lt. pose proof Hinv as ([H1 _] & _). destruct inv_object as (b & Eb & _); [|by exists b].
    unfold s_users. destruct (s_open s), (awaiting _); lia. }
  destruct op; intros Hop Hs; cbn [borrowed] in Hs.
  - apply step_environment; [done|]. apply Hs, list_elem_of_here.
  - apply step_controller; [done|]. apply Hs, list_elem_of_here.
  - by apply step_abandon.
  - destruct (Hev Hop) as [b Eb]. cbn -[Accelerator_Invoke]. rewrite Eb.
    eapply (quiet_step _ (fun _ => Some s)); [apply quiet_accelerator|apply even_accelerator|done|intros o Ho; left; by apply Hs].
  - destruct (Hev Hop) as [b Eb]. cbn -[ContextMenu_Invoke]. rewrite Eb.
    eapply (quiet_step _ (fun _ => Some s)); [apply quiet_context_menu|apply even_context_menu|done|intros o Ho; left; by apply Hs].
  - destruct (Hev Hop) as [b Eb]. cbn -[DOMContentLoaded_Invoke]. rewrite Eb.
    eapply (quiet_step _ (fun _ => Some s)); [apply quiet_loaded|apply even_callback|done|intros o Ho; left; by apply Hs].
  - destruct (Hev Hop) as [b Eb]. cbn -[NavigationCompleted_Invoke]. rewrite Eb.
    eapply (quiet_step _ (fun _ => Some s)); [apply quiet_navigated|apply even_callback|done|intros o Ho; left; by apply Hs].
  - cbn -[NewWindow_Invoke].
    assert (Hp : every_run (smooth_contract g) (NewWindow_Invoke sender args) []
      (fun _ tr2 => True /\ Acct [args] tr2 [] [])).
    { eapply every_run_contract; [apply smooth_com|]. eapply every_run_mono; [|apply NewWindow_Invoke_ok].
      intros hr tr2 [HA _]. done. }
    destruct (s_ob s); (eapply (quiet_step _ (fun _ => Some s)); [apply quiet_new_window|exact Hp|done|]);
      intros o ->%list_elem_of_singleton; left; apply Hs, list_elem_of_further, list_elem_of_here.
  - cbn -[CustomScheme_Invoke].
    pose proof (request_ok g junk sender args Hg) as Hp.
    destruct (s_ob s); (eapply quiet_step; [apply quiet_request|exact Hp| |intros o Ho; left; by apply Hs]); intros o [hr ->]; done.
  - by apply step_operation.
  - by apply session_close.
  - by apply session_release.
Qed.
End steps.

(** ** Runs of steps *)

Section runs.
Context (g : globals) (Hg : helperHwnd g <> 0%Z) (bor : list Z) (cb : Z) (K KB : list Z).

Lemma session_run_ok ops : forall s tr, session_inv bor cb K KB s tr ->
  (forall op p, op ∈ ops -> p ∈ borrowed op -> p ∈ bor) ->
  every_run (smooth_contract g) (session_run g ops s) tr (step_keeps bor cb K KB).
Proof using Hg.
  induction ops as [|op ops IH]; intros s tr Hinv Hbor; cbn [session_run]; [by exists s|].
  assert (Hops : forall op' p, op' ∈ ops -> p ∈ borrowed op' -> p ∈ bor)
    by (intros op' p Hop'; apply Hbor; by apply list_elem_of_further).
  destruct (s_allowed op s) eqn:E; [|by apply IH]. apply every_run_bind.
  eapply every_run_mono; [|apply (session_step_ok g Hg bor cb K KB s tr Hinv op E)].
  - intros o tr1 (s1 & -> & Hinv1). by apply IH.
  - intros p. apply Hbor, list_elem_of_here.
Qed.

(** How many completions are to come. *)
Definition rank (st : stage) : nat :=
  match st with AwaitEnvironment => 2 | AwaitController => 1 | _ => 0 end.

(** Without [SAbandon] the creation only goes forward. *)
Definition forward (op : step) (st st' : stage) : Prop :=
  st <> Silent -> st' <> Silent /\ rank st' <= rank st /\
  match op with
  | SEnvironment _ _ => rank st' <= 1
  | SController _ _ => rank st = 1 -> rank st' = 0
  | _ => True
  end.

Lemma after_environment_stage l : after_environment l = AwaitController \/ after_environment l = Told.
Proof using. unfold after_environment. repeat case_match; auto. Qed.

Lemma same_forward op st :
  match op with SEnvironment _ _ | SController _ _ => False | _ => True end -> forward op st st.
Proof using. intros H Hst. split_and!; [done|done|]. by destruct op. Qed.

Lemma step_forward op s tr : op <> SAbandon -> s_allowed op s = true ->
  every_run (smooth_contract g) (session_step g op s) tr (fun o _ =>
    from_option (fun s' => forward op (s_stage s) (s_stage s')) True o).
Proof using.
  intros Hne Hop.
  assert (Hsame : match op with SEnvironment _ _ | SController _ _ => False | _ => True end -> forward op (s_stage s) (s_stage s))
    by apply same_forward.
  destruct op; unfold session_step; destruct (s_ob s) as [b|]; try exact I; try done;
    (apply every_run_bind; eapply every_run_mono; [|apply every_run_true]).
  - intros [[[hr b']|] l] ? _; [|exact I]. cbn -[forward after_environment] in *.
    apply andb_true_iff in Hop as [Hst _]. apply bool_decide_eq_true in Hst.
    intros _. rewrite Hst. destruct (after_environment_stage l) as [-> | ->]; simpl; split_and!; (done || lia).
  - intros [[hr b']|] ? _; [|exact I]. intros _. simpl. split_and!; (done || lia).
  - intros x ? _. by apply Hsame.
  - intros x ? _. by apply Hsame.
  - intros x ? _. by apply Hsame.
  - intros x ? _. by apply Hsame.
  - intros x ? _. by apply Hsame.
  - intros x ? _. by apply Hsame.
  - intros [[hr []]|] ? _; try exact I. by apply Hsame.
  - intros [[hr []]|] ? _; try exact I. by apply Hsame.
  - intros [] ? _; try exact I; by apply Hsame.
  - intros [hr o] ? _. by apply Hsame.
  - intros [hr o] ? _. by apply Hsame.
Qed.

(** So the stage after a run is at most as far from the end, and an answered completion
    takes it one further. *)
Lemma session_run_forward ops : forall s tr, session_inv bor cb K KB s tr ->
  (forall op p, op ∈ ops -> p ∈ borrowed op -> p ∈ bor) -> SAbandon ∉ ops -> s_stage s <> Silent ->
  every_run (smooth_contract g) (session_run g ops s) tr (fun o tr' => exists s',
    o = Some s' /\ session_inv bor cb K KB s' tr' /\ s_stage s' <> Silent /\ rank (s_stage s') <= rank (s_stage s)).
Proof using Hg.
  induction ops as [|op ops IH]; intros s tr Hinv Hbor Hna Hst; cbn [session_run]; [by exists s|].
  apply not_elem_of_cons in Hna as [Hne Hna].
  assert (Hops : forall op' p, op' ∈ ops -> p ∈ borrowed op' -> p ∈ bor)
    by (intros op' p Hop'; apply Hbor; by apply list_elem_of_further).
  destruct (s_allowed op s) eqn:E; [|by apply IH]. apply every_run_bind.
  eapply every_run_mono; [|apply every_run_and; [apply (session_step_ok g Hg bor cb K KB s tr Hinv op E)|by apply step_forward]].
  - intros o tr1 [(s1 & -> & Hinv1) Hf]. destruct (Hf Hst) as (Hs1 & Hr1 & _).
    eapply every_run_mono; [|by apply IH]. intros o tr' (s' & -> & ? & ? & ?). exists s'. split_and!; [done..|lia].
  - intros p. apply Hbor, list_elem_of_here.
Qed.

Lemma session_run_app C l1 l2 s tr (Q : option session -> list ev -> Prop) :
  every_run C (session_run g l1 s) tr (fun o tr' =>
    match o with Some s' => every_run C (session_run g l2 s') tr' Q | None => Q None tr' end) ->
  every_run C (session_run g (l1 ++ l2) s) tr Q.
Proof using.
  revert s tr. induction l1 as [|op l1 IH]; intros s tr; cbn [session_run app]; [done|].
  destruct (s_allowed op s); [|apply IH]. intros H.
  assert (H' : every_run C (session_step g op s) tr (fun o tr' => every_run C
    match o with Some s => session_run g l1 s | None => Ret None end tr' (fun o tr' =>
      match o with Some s' => every_run C (session_run g l2 s') tr' Q | None => Q None tr' end))).
  { revert H. clear. generalize (session_step g op s) as p. intros p. revert tr.
    induction p as [x|a k IH]; intros tr H; cbn in *; [exact H|]. intros r Hr. apply IH. by apply H. }
  apply every_run_bind. eapply every_run_mono; [|exact H']. intros [s'|] tr'; [apply IH|]. exact (fun HQ => HQ).
Qed.

(** What runs that keep the invariant and do not give the creation up end in. *)
Definition goes_to (P : stage -> Prop) (o : option session) (tr' : list ev) : Prop :=
  exists s', o = Some s' /\ session_inv bor cb K KB s' tr' /\ s_stage s' <> Silent /\ P (s_stage s').

Definition usable (result p : Z) : bool := FAILED result || c_true p.

Lemma run_environment result env s tr : usable result env = true -> env ∈ bor ->
  session_inv bor cb K KB s tr -> s_stage s <> Silent ->
  every_run (smooth_contract g) (session_run g [SEnvironment result env] s) tr (goes_to (fun st => rank st <= 1)).
Proof using Hg.
  intros Hu Henv Hinv Hst. cbn [session_run]. destruct (s_allowed (SEnvironment result env) s) eqn:E.
  - apply every_run_bind. eapply every_run_mono; [|apply every_run_and;
      [by apply (step_environment g bor cb K KB s tr Hinv result env E)|by apply (step_forward (SEnvironment result env) s tr ltac:(done) E)]].
    intros o tr' [(s' & -> & Hinv') Hf]. destruct (Hf Hst) as (? & _ & ?). by exists s'.
  - exists s. split_and!; [done..|]. cbn in E. unfold usable in Hu. rewrite Hu, andb_true_r in E.
    apply bool_decide_eq_false in E. destruct (s_stage s); simpl; try done; lia.
Qed.

Lemma run_controller result ctrl s tr : usable result ctrl = true -> ctrl ∈ bor ->
  session_inv bor cb K KB s tr -> s_stage s <> Silent -> rank (s_stage s) <= 1 ->
  every_run (smooth_contract g) (session_run g [SController result ctrl] s) tr (goes_to (fun st => rank st = 0)).
Proof using Hg.
  intros Hu Hctrl Hinv Hst Hr. cbn [session_run]. destruct (s_allowed (SController result ctrl) s) eqn:E.
  - apply every_run_bind. eapply every_run_mono; [|apply every_run_and;
      [by apply (step_controller g bor cb K KB s tr Hinv result ctrl E)|by apply (step_forward (SController result ctrl) s tr ltac:(done) E)]].
    intros o tr' [(s' & -> & Hinv') Hf]. destruct (Hf Hst) as (? & _ & H). exists s'. split_and!; try done. apply H.
    cbn in E. apply andb_true_iff in E as [E _]. apply bool_decide_eq_true in E. by rewrite E.
  - exists s. split_and!; [done..|]. cbn in E. unfold usable in Hu. rewrite Hu, andb_true_r in E.
    apply bool_decide_eq_false in E. destruct (s_stage s); simpl in *; try done; lia.
Qed.

(** A runtime that answers both requests brings the creation to its end. *)
Lemma answered_run l1 l2 l3 result env result' ctrl s tr :
  let ops := l1 ++ [SEnvironment result env] ++ l2 ++ [SController result' ctrl] ++ l3 in
  usable result env = true -> usable result' ctrl = true -> SAbandon ∉ ops ->
  (forall op p, op ∈ ops -> p ∈ borrowed op -> p ∈ bor) ->
  session_inv bor cb K KB s tr -> s_stage s <> Silent ->
  every_run (smooth_contract g) (session_run g ops s) tr (goes_to (fun st => st = Told)).
Proof using Hg.
  cbn zeta. intros Hu1 Hu2 Hna Hbor Hinv Hst.
  assert (Hin : forall l : list step, (forall op, op ∈ l -> op ∈ l1 ++ [SEnvironment result env] ++ l2 ++ [SController result' ctrl] ++ l3) ->
    (SAbandon ∉ l) /\ (forall op p, op ∈ l -> p ∈ borrowed op -> p ∈ bor)).
  { intros l Hl. split; [intros H; apply Hna; by apply Hl|]. intros op p Hop. apply Hbor. by apply Hl. }
  destruct (Hin l1) as [Hna1 Hb1]; [intros op Hop; rewrite !elem_of_app; tauto|].
  destruct (Hin l2) as [Hna2 Hb2]; [intros op Hop; rewrite !elem_of_app; tauto|].
  destruct (Hin l3) as [Hna3 Hb3]; [intros op Hop; rewrite !elem_of_app; tauto|].
  destruct (Hin [SEnvironment result env]) as [_ Hbe]; [intros op Hop; rewrite !elem_of_app; tauto|].
  destruct (Hin [SController result' ctrl]) as [_ Hbc]; [intros op Hop; rewrite !elem_of_app; tauto|].
  assert (Henv : env ∈ bor) by (eapply Hbe; [apply list_elem_of_here|apply list_elem_of_here]).
  assert (Hctrl : ctrl ∈ bor) by (eapply Hbc; [apply list_elem_of_here|apply list_elem_of_here]). clear Hin.
  apply session_run_app. eapply every_run_mono; [|by apply session_run_forward].
  intros o tr1 (s1 & -> & Hi1 & Hs1 & _). apply session_run_app.
  eapply every_run_mono; [|by apply run_environment]. intros o tr2 (s2 & -> & Hi2 & Hs2 & Hr2). apply session_run_app.
  eapply every_run_mono; [|by apply session_run_forward]. intros o tr3 (s3 & -> & Hi3 & Hs3 & Hr3). apply session_run_app.
  eapply every_run_mono; [|apply run_controller; try done; lia]. intros o tr4 (s4 & -> & Hi4 & Hs4 & Hr4).
  eapply every_run_mono; [|by apply session_run_forward]. intros o tr5 (s5 & -> & Hi5 & Hs5 & Hr5).
  exists s5. split_and!; [done..|]. destruct (s_stage s5); simpl in *; try done; lia.
Qed.
End runs.

(** ** The creation *)

Lemma quiet_release_all_ready l : only_calls not_ready (release_all l).
Proof. induction l; cbn; [done|]. split; [done|]. intros _. done. Qed.

Lemma quiet_addref_all_ready l : only_calls not_ready (addref_all l).
Proof. induction l; cbn; [done|]. split; [done|]. intros _. done. Qed.

Lemma quiet_create hwnd dllPath folder cb : only_calls not_ready (CreateWebView2 hwnd dllPath folder cb).
Proof.
  unfold CreateWebView2, release_handler, release_options, new_Options, SetCustomSchemeRegistrations, Options_destroy,
    ReleaseCustomSchemeRegistrations, MyString_destroy, MyString_Set, MyString_Release, MakeString.
  quiet_calls; auto using quiet_release_all_ready, quiet_addref_all_ready, quiet_bo_Release.
Qed.

(** The session that a creation starts. *)
Lemma start_inv g bor hwnd dllPath folder cb :
  every_run (smooth_contract g) (CreateWebView2 hwnd dllPath folder cb) [] (fun '(result, ob, kept) tr =>
    match start (result, ob, kept) with
    | Some s => session_inv bor cb (from_option opt_refs [] kept) (from_option opt_mem [] kept) s tr /\
                (s_stage s <> Silent \/ (result < 0)%Z)
    | None => create_failed dllPath result tr /\ readies tr = [] /\
              Acct bor tr (from_option opt_refs [] kept) (from_option opt_mem [] kept)
    end).
Proof.
  eapply every_run_mono; [|apply every_run_and; [exact (only_calls_every_run _ _ _ _ (quiet_create hwnd dllPath folder cb))|
    apply every_run_respects; [done|apply (CreateWebView2_ok (smooth_contract g)), smooth_com]]].
  intros [[result ob] kept] tr [(tr1 & Htr1 & Hq) [(_ & HA & Hout) Hresp]]. cbn in Htr1. subst tr1.
  apply not_ready_events in Hq.
  assert (HA' : Acct bor tr (from_option opt_refs [] kept) (from_option opt_mem [] kept)).
  { pose proof (Acct_frame bor [] [] tr [] [] _ _ (Acct_nil bor) HA) as HF. rewrite !app_nil_r in HF. apply HF.
    intros o Ho. by apply elem_of_nil in Ho. }
  destruct Hout as [(_ & -> & Hf)|(proc & options & handler & r & _ & (tr1 & tr2 & ->) & ->)]; [done|].
  set (args := [AInt 1; AInt 1; AWide (ConvertCharToWChar folder); APtr options; APtr handler]) in *.
  assert (Hk : keeps_handler (tr1 ++ [Ev (CallProc proc args) result]) (Release handler) r).
  { rewrite (app_assoc tr1 [_] (_ :: tr2)) in Hresp || change (tr1 ++ ?x :: ?y :: tr2) with (tr1 ++ [x] ++ y :: tr2) in Hresp.
    rewrite ?app_assoc in Hresp. by apply respects_at in Hresp as [[_ ?] _]. }
  unfold keeps_handler in Hk. rewrite last_snoc in Hk. cbn -[SUCCEEDED] in Hk.
  assert (Hin : APtr handler ∈ args) by (do 4 apply list_elem_of_further; apply list_elem_of_here).
  unfold start. split; [|destruct (SUCCEEDED result) eqn:E; [by left|right; unfold SUCCEEDED in E; by apply Z.leb_gt in E]].
  set (n := if (r =? 0)%Z then 1%Z else 2%Z).
  assert (Hn : (n = 1 \/ n = 2)%Z) by (unfold n; destruct (r =? 0)%Z; auto).
  assert (Hs : SUCCEEDED result = true -> n = 2%Z).
  { intros E. unfold n. by rewrite (proj2 (Z.eqb_neq r 0) (Hk E Hin)). }
  unfold session_inv, completed, object_ok, told_ok, s_users. cbn -[readies].
  destruct (SUCCEEDED result); cbn -[readies]; [specialize (Hs eq_refl)|].
  - split_and!; try done; try lia. exists []. cbn. split_and!; [lia|done|done].
  - split_and!; try done; try lia. exists []. cbn. split_and!; [lia|done|done].
Qed.

(** ** Properties *)

(** The objects the steps lend the bridge. *)
Definition lent (ops : list step) : list Z := flat_map borrowed ops.

Lemma lent_borrowed ops op p : op ∈ ops -> p ∈ borrowed op -> p ∈ lent ops.
Proof.
  intros Hop Hp. apply list_elem_of_In, in_flat_map. exists op. by split; apply list_elem_of_In.
Qed.

Lemma browser_life_ok g hwnd dllPath folder cb ops bor (P : session -> list ev -> Prop) (Hg : helperHwnd g <> 0%Z) :
  (forall K KB s tr, session_inv bor cb K KB s tr -> s_stage s <> Silent \/ s_stage s = Silent ->
     every_run (smooth_contract g) (session_run g ops s) tr (fun o tr' => exists s',
       o = Some s' /\ session_inv bor cb K KB s' tr' /\ (s_stage s <> Silent -> P s' tr'))) ->
  every_run (smooth_contract g) (browser_life g hwnd dllPath folder cb ops) [] (fun '(result, o, kept) tr =>
    let K := from_option opt_refs [] kept in
    let KB := from_option opt_mem [] kept in
    match o with
    | None => create_failed dllPath result tr /\ readies tr = [] /\ Acct bor tr K KB
    | Some o => exists s, o = Some s /\ session_inv bor cb K KB s tr /\ ((0 <= result)%Z -> P s tr)
    end).
Proof.
  intros HP. unfold browser_life. apply every_run_bind. eapply every_run_mono; [|apply (start_inv g bor)].
  intros [[result ob] kept] tr H. destruct (start (result, ob, kept)) as [s|] eqn:E; [|done].
  destruct H as [Hinv Hst]. apply every_run_bind. eapply every_run_mono; [|apply (HP _ _ s tr Hinv)].
  - cbn. intros o tr' (s' & -> & Hinv' & HP'). exists s'. split_and!; [done..|]. intros Hr. apply HP'.
    destruct Hst; [done|lia].
  - destruct (decide (s_stage s = Silent)); auto.
Qed.

(** What is right at any moment of a life: nothing was used that is not there, nothing given
    back twice, and Go heard at most once how the creation ended. *)
Definition right_so_far (bor : list Z) (tr : list ev) : Prop := sound bor tr /\ length (readies tr) <= 1.

Lemma right_so_far_app bor t1 t2 : right_so_far bor (t1 ++ t2) -> right_so_far bor t1.
Proof. intros [H1 H2]. split; [by eapply sound_app|]. rewrite readies_app, length_app in H2. lia. Qed.

Lemma session_right bor cb K KB s tr : session_inv bor cb K KB s tr -> right_so_far bor tr.
Proof.
  intros (_ & _ & Ht & nws & _ & _ & HA). split; [by eapply Acct_sound|].
  unfold told_ok in Ht. destruct (s_stage s); [rewrite Ht; simpl; lia..|apply Ht|rewrite Ht; simpl; lia].
Qed.

(** How a life leaves off: there is no browser object and [CreateWebView2] says why; or the
    session is as its invariant says. *)
Definition life_post (dllPath cb : Z) (bor : list Z) : Z * option (option session) * option Options -> list ev -> Prop :=
  fun '(result, o, kept) tr =>
    let K := from_option opt_refs [] kept in
    let KB := from_option opt_mem [] kept in
    match o with
    | None => create_failed dllPath result tr /\ readies tr = [] /\ Acct bor tr K KB
    | Some o => exists s, o = Some s /\ session_inv bor cb K KB s tr
    end.

Lemma life_right dllPath cb bor x tr : life_post dllPath cb bor x tr -> right_so_far bor tr.
Proof.
  destruct x as [[result [o|]] kept]; cbn -[readies].
  - intros (s & _ & H). by eapply session_right.
  - intros (_ & Hr & HA). split; [by eapply Acct_sound|]. rewrite Hr. simpl. lia.
Qed.

(** C11: However a browser is created and whatever happens to it then - completions, events and
    resource requests in any order, operations and the closing by Go, handlers that come
    and go - no call is made on an object that is gone or through a null pointer, and
    the accounts are right at every moment: the browser object is there exactly as
    long as somebody uses it, with their number as its counter; the only references
    are those on its controller and view, which are given back when it goes, on the one
    new-window handler that is never released, and those of the options the runtime
    keeps; and Go hears at most once how the creation ended.  This holds up to the first
    failure that the bridge is not prepared for ([unprepared]), if there is one. *)
Theorem browser_life_sound g hwnd dllPath folder cb ops (Hg : helperHwnd g <> 0%Z) :
  every_run (session_contract g) (browser_life g hwnd dllPath folder cb ops) []
    (until unprepared (life_post dllPath cb (lent ops)) (right_so_far (lent ops))).
Proof.
  apply (every_run_until steady_env unprepared (session_contract g) _ 0%Z);
    [apply steady_smooth|apply life_right|apply right_so_far_app|constructor|].
  eapply every_run_mono; [|apply (browser_life_ok g hwnd dllPath folder cb ops (lent ops) (fun _ _ => True) Hg)].
  - intros [[result [o|]] kept] tr H; [|exact H]. destruct H as (s & ? & ? & _). by exists s.
  - intros K KB s tr Hinv _. eapply every_run_mono; [|apply (session_run_ok g Hg _ cb K KB ops s tr Hinv)].
    + intros o tr' (s' & -> & Hinv'). by exists s'.
    + intros op p. apply lent_borrowed.
Qed.

(** An endless schedule of steps in which the runtime keeps on answering - with an object or
    with an error - and never gives a pending handler up. *)
Record fair (sigma : nat -> step) : Prop := {
  fair_keeps : forall n, sigma n <> SAbandon;
  fair_environment : forall n, exists m result env, n <= m /\ sigma m = SEnvironment result env /\ usable result env = true;
  fair_controller : forall n, exists m result ctrl, n <= m /\ sigma m = SController result ctrl /\ usable result ctrl = true }.

Lemma fair_prefix sigma : fair sigma -> exists n, forall m, n <= m ->
  exists l1 l2 l3 result env result' ctrl,
    sigma <$> seq 0 m = l1 ++ [SEnvironment result env] ++ l2 ++ [SController result' ctrl] ++ l3 /\
    usable result env = true /\ usable result' ctrl = true.
Proof.
  intros [_ He Hc]. destruct (He 0) as (n1 & result & env & _ & E1 & Hu1).
  destruct (Hc (S n1)) as (n2 & result' & ctrl & Hn & E2 & Hu2). exists (S n2). intros m Hm.
  exists (sigma <$> seq 0 n1), (sigma <$> seq (S n1) (n2 - S n1)), (sigma <$> seq (S n2) (m - S n2)), result, env, result', ctrl.
  split; [|done]. rewrite <- E1, <- E2.
  replace m with (n1 + (1 + (n2 - S n1 + (1 + (m - S n2))))) at 1 by lia.
  rewrite seq_app, !fmap_app. f_equal. rewrite seq_app, fmap_app. f_equal. rewrite seq_app, fmap_app. simpl.
  replace (n1 + 1) with (S n1) by lia. f_equal. simpl. by replace (S (n1 + (n2 - S n1))) with n2 by lia.
Qed.

(** C13: When the runtime keeps answering, Go eventually hears how the creation ended, whatever else
    happens meanwhile: from some step on, in every run in which the request to the
    runtime succeeded, Go was told exactly once - or has closed the browser, or the runtime
    failed in a way the bridge is not prepared for ([unprepared]), before which everything
    was right. *)
Theorem creation_is_told g hwnd dllPath folder cb sigma
    (Hg : helperHwnd g <> 0%Z) (Hcb : cb <> 0%Z) (Hfair : fair sigma) :
  exists n, forall m, n <= m ->
    every_run (session_contract g) (browser_life g hwnd dllPath folder cb (sigma <$> seq 0 m)) []
      (until unprepared (fun r tr => right_so_far (lent (sigma <$> seq 0 m)) tr /\
         ((0 <= r.1.1)%Z -> r.1.2 <> None ->
          exists s, r.1.2 = Some (Some s) /\ s_stage s = Told /\ (s_open s = true -> length (readies tr) = 1)))
        (right_so_far (lent (sigma <$> seq 0 m)))).
Proof.
  destruct (fair_prefix sigma Hfair) as [n Hn]. exists n. intros m Hm.
  destruct (Hn m Hm) as (l1 & l2 & l3 & result & env & result' & ctrl & E & Hu1 & Hu2).
  set (ops := sigma <$> seq 0 m) in *. apply (every_run_until steady_env unprepared (session_contract g) _ 0%Z);
    [apply steady_smooth|by intros x tr [? _]|apply right_so_far_app|constructor|].
  eapply every_run_mono; [|apply (browser_life_ok g hwnd dllPath folder cb ops (lent ops) (fun s tr =>
    s_stage s = Told /\ (s_open s = true -> length (readies tr) = 1)) Hg)].
  - intros [[res o] kept] tr H. split.
    + apply (life_right dllPath cb (lent ops) (res, o, kept)). destruct o as [o|]; [|exact H].
      destruct H as (s & ? & ? & _). by exists s.
    + intros Hres Ho. destruct o as [o|]; [|done]. destruct H as (s & -> & _ & HP). destruct (HP Hres). by exists s.
  - intros K KB s tr Hinv Hst. destruct (decide (s_stage s = Silent)) as [Hs|Hs].
    { eapply every_run_mono; [|apply (session_run_ok g Hg (lent ops) cb K KB ops s tr Hinv)].
      - intros o tr' (s' & -> & Hinv'). by exists s'.
      - intros op p. apply lent_borrowed. }
    eapply every_run_mono; [|rewrite E; apply (answered_run g Hg (lent ops) cb K KB); try done].
    + intros o tr' (s' & -> & Hinv' & _ & Ht). exists s'. split_and!; [done..|]. intros _. split; [done|].
      intros Ho. destruct Hinv' as (_ & _ & Htold & _). unfold told_ok in Htold. rewrite Ht in Htold.
      destruct Htold as [_ H]. rewrite (proj2 (c_true_spec cb) Hcb) in H. by apply H.
    + rewrite <- E. unfold ops. intros (k & Hk & _)%list_elem_of_fmap. by apply (fair_keeps _ Hfair k).
    + rewrite <- E. intros op p. apply lent_borrowed.
Qed.

(** A runtime that keeps every handler. *)
Definition runtime_env (next : Z) (a : Win32) : Ans a * Z :=
  match a return Ans a * Z with
  | Release _ => (1, next)%Z
  | a => good_env next a
  end.

Definition a_life : list step :=
  [SOperation webview2_navigate 1 0 [97%Z] []; SEnvironment 0 60; SController 0 50; SLoaded 8 9;
   SOperation webview2_navigate 1 0 [97%Z] []; SClose; SNavigated 8 9; SRelease; SRelease; SRelease; SRelease; SRelease; SRelease].

(** A life from the beginning to the end: the object is gone, Go heard of the end of the
    creation and of the loaded page, and nothing after it closed the browser. *)
Example a_life_ends :
  let '(result, o, _) := result runtime_env (browser_life (Globals 5 6 77) 7 1 [97%Z] 9 a_life) 1000%Z in
  let tr := trace runtime_env (browser_life (Globals 5 6 77) 7 1 [97%Z] 9 a_life) 1000%Z in
  result = 0%Z /\ o = Some (Some (Session false None Told 0)) /\
  callbacks tr = [(9, ON_READY, FINISH, OK, 0); (9, ON_LOADED, 0, 0, 0)]%Z.
Proof. vm_compute. done. Qed.

Lemma browser_life_sound_witness :
  every_run (session_contract (Globals 5 6 77)) (browser_life (Globals 5 6 77) 7 1 [97%Z] 9 a_life) []
    (until unprepared (life_post 1 9 (lent a_life)) (right_so_far (lent a_life))).
Proof. apply (browser_life_sound (Globals 5 6 77) 7 1 [97%Z] 9 a_life). discriminate. Defined.

(** Nothing the bridge is not prepared for happens in it. *)
Example a_life_clean : clean unprepared (trace runtime_env (browser_life (Globals 5 6 77) 7 1 [97%Z] 9 a_life) 1000%Z).
Proof. vm_compute. repeat constructor. Qed.

Definition answering (n : nat) : step := if Nat.even n then SEnvironment 0 60 else SController 0 50.

Lemma creation_is_told_witness : exists n, forall m, n <= m ->
  every_run (session_contract (Globals 5 6 77)) (browser_life (Globals 5 6 77) 7 1 [97%Z] 9 (answering <$> seq 0 m)) []
    (until unprepared (fun r tr => right_so_far (lent (answering <$> seq 0 m)) tr /\
       ((0 <= r.1.1)%Z -> r.1.2 <> None ->
        exists s, r.1.2 = Some (Some s) /\ s_stage s = Told /\ (s_open s = true -> length (readies tr) = 1)))
      (right_so_far (lent (answering <$> seq 0 m)))).
Proof.
  apply (creation_is_told (Globals 5 6 77) 7 1 [97%Z] 9 answering); [discriminate|discriminate|].
  split; intros n; unfold answering.
  - by destruct (Nat.even n).
  - exists (2 * n), 0%Z, 60%Z. split; [lia|]. by rewrite Nat.even_mul.
  - exists (S (2 * n)), 0%Z, 50%Z. split; [lia|]. by rewrite Nat.even_succ, <- Nat.negb_even, Nat.even_mul.
Defined.
