(* ===== verification/Reentry.v ===== *)
(** * Sessions in which Go acts inside the handlers

    The sessions of WvSession let Go act between the calls of the runtime.  In the program
    the bridge calls Go in the middle of its handlers, and the Suneido code that runs then
    may do anything it may do otherwise - close the browser, call operations, run a message
    loop in which more events and completions arrive, whose handlers call Go again - before
    the handler continues.  Here every step carries what happens inside its calls of Go, to
    any depth, and the invariant of WvSession is proved for all of it. *)

From S2P Require Import Prelude Prog Win32 Accounting RefCount AppBridge SunApp WvApi WvHelpers WvObject WvLife WvScheme WvOptions WvCreate WvRequest WvOps WvSession.

(** ** The steps, with what happens inside them *)

Inductive nested :=
| NDone
| NThen (op : step) (inside rest : nested).

(** The calls that enter Go, and return after Go has run. *)
Definition enters_go (a : Win32) : bool :=
  match a with GoCallback _ _ _ _ _ | GoSunAPP _ _ => true | _ => false end.

(** The program [p] with [go] run inside each of its calls of Go. *)
Definition with_go {W A} (go : W -> act (option W)) (p : act A) : W -> act (option (A * W)) :=
  around enters_go (fun _ => go) 0 p.

(** The end of a completion handler: Go is told, acts, and the handler releases its views.
    From the time Go is told the handler counts as one of the others. *)
Definition tell_go (go : session -> act (option session)) (s : session) (e : ending) : act (option session) :=
  let s := completed s (e_ob e) Told in
  o ← (if c_true (onCallBackFn (e_ob e)) then
         _ ← onReady (e_ob e) (e_stage e) (e_result e); go s
       else Ret (Some s));
  match (o : option session) with Some s => _ ← release_all (e_views e); Ret (Some s) | None => Ret None end.

(** [handler->Release()] after Go has acted: the destructor works on what the browser object
    is by then. *)
Definition drop_nested (g : globals) (h : Z) (o : option session) : act (option session) :=
  match o with
  | Some s => r ← call (Release h); if (r =? 0)%Z then session_step g SRelease s else Ret (Some s)
  | None => Ret None
  end.

(** A step with [go busy] inside; [busy] is how many of the handlers have to stay, because
    they are running or held by code that is. *)
Definition nested_step (g : globals) (go : Z -> session -> act (option session)) (busy : Z) (op : step) (s : session)
    : act (option session) :=
  match op, s_ob s with
  | SEnvironment result env, Some b =>
      create_environment (fun ob stage res views => tell_go (go (busy + 1)%Z) s (Ending ob stage res views))
        (fun ob => Some (completed s ob AwaitController)) (drop_nested g) b (bo_hwnd b) result env
  | SController result ctrl, Some b =>
      o ← create_controller b result ctrl;
      match (o : option ending) with Some e => tell_go (go (busy + 1)%Z) s e | None => Ret None end
  | SAccelerator sender args, Some b => o ← with_go (go (Z.max busy 1)) (Accelerator_Invoke b sender args) s; Ret (option_map snd o)
  | SContextMenu sender args, Some b => o ← with_go (go (Z.max busy 1)) (ContextMenu_Invoke b sender args) s; Ret (option_map snd o)
  | SLoaded sender args, Some b => o ← with_go (go (Z.max busy 1)) (DOMContentLoaded_Invoke b sender args) s; Ret (option_map snd o)
  | SNavigated sender args, Some b => o ← with_go (go (Z.max busy 1)) (NavigationCompleted_Invoke b sender args) s; Ret (option_map snd o)
  | SRequest junk sender args, _ =>
      o ← with_go (go busy) (CustomScheme_Invoke g junk sender args) s;
      Ret (match o with Some (Some (_, true), s) => Some s | _ => None end)
  | op, _ => session_step g op s
  end.

(** The runtime does not give up a handler it is calling. *)
Definition n_allowed (busy : Z) (op : step) (s : session) : bool :=
  match op with SRelease => (busy <? s_handlers s)%Z | _ => s_allowed op s end.

Fixpoint nested_run (g : globals) (l : nested) (busy : Z) (s : session) : act (option session) :=
  match l with
  | NDone => Ret (Some s)
  | NThen op inside rest =>
      if n_allowed busy op s then
        o ← nested_step g (nested_run g inside) busy op s;
        match (o : option session) with Some s => nested_run g rest busy s | None => Ret None end
      else nested_run g rest busy s
  end.

(** A whole life of a browser. *)
Definition nested_life (g : globals) (hwnd dllPath : Z) (folder : list Z) (cb : Z) (l : nested)
    : act (Z * option (option session) * option Options) :=
  r ← CreateWebView2 hwnd dllPath folder cb;
  match start r with
  | Some s => o ← nested_run g l 0 s; Ret (r.1.1, Some o, r.2)
  | None => Ret (r.1.1, None, r.2)
  end.

Fixpoint steps_of (l : nested) : list step :=
  match l with NDone => [] | NThen op inside rest => op :: steps_of inside ++ steps_of rest end.

(** ** Histories with something in between *)

(** For the contract a history may stand for another when the two end alike, or when it
    ends with a call of Go. *)
Definition ends_alike (tr t : list ev) : Prop :=
  last t = last tr \/ (exists a r, last t = Some (Ev a r) /\ enters_go a = true) \/ t = [].

Lemma session_local g tr t a r : ends_alike tr t -> smooth_contract g tr a r -> smooth_contract g t a r.
Proof.
  intros He [[H Hk] Hu]. split; [split; [exact H|]|exact Hu]. destruct a; try done. unfold keeps_handler in *.
  destruct He as [->|[(a' & r' & -> & Ha)| ->]]; [done| |done]. by destruct a'.
Qed.

Lemma last_app_alike {A} (l1 l2 n : list A) : last l1 = last l2 -> last (l1 ++ n) = last (l2 ++ n).
Proof. intros H. by rewrite !last_app, H. Qed.

Lemma every_run_transport {A} g (p : act A) (Q : A -> list ev -> Prop) a b : last a = last b ->
  every_run (smooth_contract g) p a Q ->
  every_run (smooth_contract g) p b (fun x tr => exists n, tr = b ++ n /\ Q x (a ++ n)).
Proof.
  intros Hl. enough (H : forall n, every_run (smooth_contract g) p (a ++ n) Q ->
    every_run (smooth_contract g) p (b ++ n) (fun x tr => exists n, tr = b ++ n /\ Q x (a ++ n))).
  { intros Hp. specialize (H []). rewrite !app_nil_r in H. by apply H. }
  induction p as [x|c k IH]; cbn; intros n Hp; [by exists n|].
  intros r Hr. rewrite <- (assoc_L (++)). apply IH. rewrite (assoc_L (++)). apply Hp.
  eapply session_local; [|exact Hr]. left. by apply last_app_alike.
Qed.

Lemma weave_readies a b c : weave a b c -> readies b = [] -> readies c = readies a.
Proof.
  induction 1 as [a|e a b c _ IH|e a b c _ IH|e a b c _ _ IH]; rewrite ?readies_app; intros Hb; [done|..].
  - by rewrite IH.
  - apply app_nil in Hb as [Hb ->]. rewrite app_nil_r. auto.
  - apply app_nil in Hb as [Hb ->]. rewrite !app_nil_r. auto.
Qed.

Lemma go_neutral a (r : Ans a) : enters_go a = true -> neutral (Ev a r).
Proof. intros H. destruct a; try discriminate; done. Qed.

(** ** The invariant *)

Section nested.
Context (g : globals) (Hg : helperHwnd g <> 0%Z) (bor : list Z) (cb : Z) (KB : list Z).

(** That of WvSession, and the busy handlers are there. *)
Definition nested_inv (K : list Z) (busy : Z) (s : session) (tr : list ev) : Prop :=
  session_inv bor cb K KB s tr /\ (busy <= s_handlers s)%Z.

Definition keeps (K : list Z) (busy : Z) (o : option session) (tr : list ev) : Prop :=
  exists s, o = Some s /\ nested_inv K busy s tr.

(** What [nested_run] does for all counts, and the steps below assume of what is inside. *)
Definition go_keeps (go : Z -> session -> act (option session)) : Prop :=
  forall K busy s tr, (0 <= busy)%Z -> nested_inv K busy s tr ->
    every_run (smooth_contract g) (go busy s) tr (keeps K busy).

Lemma inv_go K s tr a (r : Ans a) : enters_go a = true -> not_ready a ->
  session_inv bor cb K KB s tr -> session_inv bor cb K KB s (tr ++ [Ev a r]).
Proof using.
  intros Ha Hr Hinv. apply (keep_quiet bor cb K KB s tr Hinv []).
  - apply (Acct_other [] [] [] [] (Acct_nil []) a r); by destruct a.
  - apply not_ready_events. by repeat constructor.
  - intros o Ho. by apply elem_of_nil in Ho.
Qed.

(** A handler that does not touch the browser object, with Go inside. *)
Lemma around_ok {A} (go : session -> act (option session)) (p : act A) Q K busy :
  (forall s tr, nested_inv K busy s tr -> every_run (smooth_contract g) (go s) tr (keeps K busy)) ->
  forall s t hs tr, weave hs t tr -> nested_inv K busy s hs -> ends_alike tr t ->
    only_calls not_ready p -> every_run (smooth_contract g) p t Q ->
    forall n, every_run (smooth_contract g) (around enters_go (fun _ => go) n p s) tr (fun o tr' => exists x s' t' hs',
      o = Some (x, s') /\ Q x t' /\ weave hs' t' tr' /\ nested_inv K busy s' hs').
Proof using.
  intros Hgo. induction p as [x|a k IH]; cbn; intros s t hs tr Hw Hinv He Hc Hp n; [by exists x, s, t, hs|].
  destruct Hc as [Ha Hk]. intros r Hr. pose proof (session_local g tr t a r He Hr) as Hrt.
  destruct (enters_go a) eqn:Hent.
  - set (e := Ev a r). assert (Hinv1 : nested_inv K busy s (hs ++ [e])).
    { destruct Hinv as [Hi Hb]. split; [by apply inv_go|done]. }
    apply every_run_bind. eapply every_run_mono; [|apply (every_run_transport g (go s) (keeps K busy) (hs ++ [e])); [by rewrite !last_snoc|by apply Hgo]].
    intros o tr' (l & -> & s' & -> & Hinv'). cbn. apply (IH r s' (t ++ [e]) ((hs ++ [e]) ++ l)); [|done| |apply Hk|by apply Hp].
    + apply weave_lefts, weave_both; [by apply go_neutral|done].
    + right. left. exists a, r. by rewrite last_snoc.
  - apply (IH r s (t ++ [Ev a r]) hs); try done; [by apply weave_right| |by apply Hp]. left. by rewrite !last_snoc.
Qed.

Lemma weave_inv K s bor' hs t tr : weave hs t tr -> Acct bor' t [] [] -> readies t = [] ->
  (forall o, o ∈ bor' -> o ∈ bor) -> session_inv bor cb K KB s hs -> session_inv bor cb K KB s tr.
Proof using.
  intros Hw HA Hr Hbor (H1 & H2 & H3 & nws & H4 & H5 & H6). split; [exact H1|]. split; [exact H2|]. split.
  - unfold told_ok in *. by rewrite (weave_readies _ _ _ Hw Hr).
  - exists nws. split_and!; [done..|]. exact (Acct_weave _ _ _ _ _ _ _ _ _ Hw Hbor H6 HA).
Qed.

Lemma even_nested {A} go (p : act A) (P : A -> Prop) K busy bor' s tr :
  (forall s tr, nested_inv K busy s tr -> every_run (smooth_contract g) (go s) tr (keeps K busy)) ->
  nested_inv K busy s tr -> only_calls not_ready p ->
  every_run (smooth_contract g) p [] (fun x t => P x /\ Acct bor' t [] []) -> (forall o, o ∈ bor' -> o ∈ bor) ->
  every_run (smooth_contract g) (with_go go p s) tr (fun o tr' => exists x s',
    o = Some (x, s') /\ P x /\ nested_inv K busy s' tr').
Proof using.
  intros Hgo Hinv Hc Hp Hbor.
  eapply every_run_mono; [|apply (around_ok go p _ K busy Hgo s [] tr tr (weave_base tr) Hinv ltac:(right; by right) Hc
    (every_run_and _ _ _ _ _ Hp (only_calls_every_run _ _ _ _ Hc)))].
  cbn. intros o tr' (x & s' & t & hs & -> & [[Hx HA] (t' & -> & Hq)] & Hw & Hi & Hb). exists x, s'.
  split_and!; [done|done|]. split; [|done]. eapply weave_inv; [exact Hw|exact HA|by apply not_ready_events|done|done].
Qed.

Lemma nested_inv_busy K busy busy' s tr : (busy' <= busy)%Z -> nested_inv K busy s tr -> nested_inv K busy' s tr.
Proof using. intros H [Hi Hb]. split; [done|lia]. Qed.

(** An event of a handler that is there. *)
Lemma event_nested {A} go (p : act A) K busy s tr bor' : go_keeps go -> (0 <= busy)%Z ->
  nested_inv K busy s tr -> (0 < s_handlers s)%Z -> only_calls not_ready p ->
  every_run (smooth_contract g) p [] (fun _ t => True /\ Acct bor' t [] []) -> (forall o, o ∈ bor' -> o ∈ bor) ->
  every_run (smooth_contract g) (o ← with_go (go (Z.max busy 1)) p s; Ret (option_map snd o)) tr (keeps K busy).
Proof using.
  intros Hgo Hbusy [Hi Hb] Hh Hc Hp Hbor. apply every_run_bind.
  eapply every_run_mono; [|apply (even_nested (go (Z.max busy 1)) p (fun _ => True) K (Z.max busy 1) bor' s tr); try done].
  - intros o tr' (x & s' & -> & _ & Hinv). exists s'. split; [done|]. eapply nested_inv_busy; [|exact Hinv]. lia.
  - intros s' tr'. apply Hgo. lia.
  - split; [done|lia].
Qed.

(** ** The completion handlers *)

Lemma release_one h K s tr busy r : nested_inv (h :: K) busy s tr -> nested_inv K busy s (tr ++ [Ev (Release h) r]).
Proof using.
  intros [(H1 & H2 & H3 & nws & H4 & H5 & HA) Hb]. split; [|done]. split; [exact H1|]. split; [exact H2|]. split.
  - unfold told_ok in *. by rewrite readies_app, app_nil_r.
  - exists nws. split_and!; [done..|]. apply (Acct_release _ _ _ _ HA h r).
    rewrite (Permutation_app_swap_app nws [h] K). apply (Permutation_app_swap_app (ob_refs (s_ob s)) [h]).
Qed.

Lemma release_views views K s busy : forall tr, nested_inv (views ++ K) busy s tr ->
  every_run (smooth_contract g) (release_all views) tr (fun _ tr' => nested_inv K busy s tr').
Proof using.
  induction views as [|h views IH]; intros tr Hi; cbn [release_all]; [done|]. intros r _. by apply IH, release_one.
Qed.

(** Go is told: [t] are the events of the handler before, on top of the session's, and [F] is
    what it keeps until after its end. *)
Lemma tell_go_ok go K busy s b tr t R nw F ob stage result views :
  (forall K s tr, nested_inv K busy s tr -> every_run (smooth_contract g) (go s) tr (keeps K busy)) ->
  session_inv bor cb K KB s tr -> awaiting (s_stage s) = true -> s_ob s = Some b ->
  (bo_refCount b <= bo_refCount ob <= bo_refCount b + 4)%Z ->
  onCallBackFn ob = onCallBackFn b -> callbacks t = [] -> (controller ob <> 0%Z -> webview2 ob <> 0%Z) ->
  length nw <= 1 -> R ≡ₚ ob_refs (Some ob) ++ nw ++ views ++ F ->
  (forall R' B', Acct bor tr R' B' -> Acct bor (tr ++ t) (R ++ R') B') ->
  (busy <= s_handlers (completed s ob Told))%Z ->
  every_run (smooth_contract g) (tell_go go s (Ending ob stage result views)) (tr ++ t) (keeps (F ++ K) busy).
Proof using.
  intros Hgo Hinv Haw Eb Href Hcb Hct Hv Hnw HR HA Hb. unfold tell_go. cbn [e_ob e_stage e_result e_views].
  assert (Hrt : readies t = []) by (unfold readies; by rewrite Hct).
  assert (Hdone : forall t2,
    (forall R' B', Acct bor (tr ++ t) R' B' -> Acct bor ((tr ++ t) ++ t2) R' B') ->
    readies t2 = ready_call b stage result ->
    nested_inv (views ++ F ++ K) busy (completed s ob Told) ((tr ++ t) ++ t2)).
  { intros t2 H2 Hr. split; [|done]. rewrite <- (assoc_L (++)), (assoc_L (++) views).
    apply (completed_inv bor cb K KB s tr Hinv b ob Told (t ++ t2) R nw (views ++ F)); try done.
    - simpl. lia.
    - by right.
    - intros _. exists stage, result. by rewrite readies_app, Hrt.
    - intros R' B' HF. rewrite (assoc_L (++)). apply H2, HA, HF. }
  assert (Hend : forall o tr', keeps (views ++ F ++ K) busy o tr' -> every_run (smooth_contract g)
    (match o with Some s => _ ← release_all views; Ret (Some s) | None => Ret None end) tr' (keeps (F ++ K) busy)).
  { intros o tr' (s' & -> & Hi). apply every_run_bind. eapply every_run_mono; [|by apply release_views].
    intros x tr2 H. by exists s'. }
  apply every_run_bind. eapply every_run_mono; [exact Hend|].
  destruct (c_true (onCallBackFn ob)) eqn:Hc.
  - unfold onReady, go_callback. rewrite Hc. cbn -[ON_READY]. intros r _. apply Hgo, Hdone.
    + intros R' B' HF. exact (Acct_other _ _ _ _ HF (GoCallback _ _ _ _ _) r eq_refl (fun _ => eq_refl) (fun _ => eq_refl)).
    + apply readies_ready_call. unfold ready_call. by rewrite <- Hcb, Hc.
  - cbn. exists (completed s ob Told). split; [done|]. rewrite <- (app_nil_r (tr ++ t)). apply Hdone.
    + intros R' B' HF. by rewrite app_nil_r.
    + unfold ready_call. by rewrite <- Hcb, Hc.
Qed.

Lemma keeps_busy K busy busy' o tr : (busy' <= busy)%Z -> keeps K busy o tr -> keeps K busy' o tr.
Proof using. intros H (s & -> & Hi). exists s. split; [done|by eapply nested_inv_busy]. Qed.

(** The pending handler is called. *)
Lemma pending K s tr : session_inv bor cb K KB s tr -> awaiting (s_stage s) = true ->
  exists b, s_ob s = Some b /\ (0 < bo_refCount b)%Z /\ (bo_refCount b + 5 <= max_refs)%Z /\
    bo_refCount b = ((if s_open s then 1 else 0) + 1 + s_handlers s)%Z /\
    controller b = 0%Z /\ webview2 b = 0%Z.
Proof using.
  intros Hinv Haw. destruct (inv_object bor cb K KB s tr Hinv (awaiting_users bor cb K KB s tr Hinv Haw)) as (b & Eb & Hu & Hpos & _ & Hz & _).
  pose proof (users_bounds bor cb K KB s tr Hinv). destruct (Hz Haw). exists b. unfold max_refs.
  split_and!; [done|lia|lia| |done|done]. rewrite Hu. unfold s_users. by rewrite Haw.
Qed.

Lemma nested_controller go K busy s tr result ctrl : go_keeps go -> (0 <= busy)%Z -> nested_inv K busy s tr ->
  s_allowed (SController result ctrl) s = true -> ctrl ∈ bor ->
  every_run (smooth_contract g) (nested_step g go busy (SController result ctrl) s) tr (keeps K busy).
Proof using.
  intros Hgo Hbusy [Hinv Hb]. cbn. rewrite andb_true_iff, bool_decide_eq_true. intros [Hst Hok] Hctrl.
  assert (Haw : awaiting (s_stage s) = true) by by rewrite Hst.
  destruct (pending K s tr Hinv Haw) as (b & Eb & Hpos & Hmax & Href & Hc0 & Hw0). rewrite Eb.
  assert (Hin : forall K s tr, nested_inv K (busy + 1) s tr ->
    every_run (smooth_contract g) (go (busy + 1)%Z s) tr (keeps K (busy + 1))) by (intros; apply Hgo; [lia|done]).
  assert (HF : forall t R, Acct [ctrl] t R [] -> forall F FB, Acct bor tr F FB -> Acct bor (tr ++ t) (R ++ F) FB).
  { intros t R HA F FB HF. apply (Acct_frame _ _ _ _ _ _ _ _ HF HA). intros o ->%list_elem_of_singleton. by left. }
  assert (Hend : forall e t, told_at [ctrl] b ctrl [] e t -> (e_stage e = FINISH -> ctrl <> 0%Z) ->
    every_run (smooth_contract g) (tell_go (go (busy + 1)%Z) s e) (tr ++ t) (keeps K busy)).
  { intros [ob stage res views] t (Hfn & Hct & Hcase) Hc. cbn in Hc. eapply every_run_mono; [intros o tr'; apply (keeps_busy K (busy + 1)); lia|].
    destruct Hcase as [(Hsg & -> & (n & -> & Hn) & HA)|(-> & -> & nw & view & n & -> & -> & Hview & Hn & HA)].
    - apply (tell_go_ok _ K (busy + 1) s b tr t [] [] []); try done; [simpl; lia| |by apply HF|unfold completed; simpl; destruct (s_open s); lia].
      cbn. unfold bo_refs. simpl. by rewrite Hc0, Hw0.
    - apply (tell_go_ok _ K (busy + 1) s b tr t [view; nw; view; ctrl] [nw] []); try done;
        [|by apply HF|unfold completed; simpl; destruct (s_open s); lia].
      cbn. unfold bo_refs. simpl. rewrite (proj2 (c_true_spec view)), (proj2 (c_true_spec ctrl)) by auto. cbn.
      apply perm_skip, perm_3. }
  apply every_run_bind. destruct (FAILED result) eqn:Hf.
  - unfold create_controller. rewrite Hf. cbn -[tell_go]. rewrite <- (app_nil_r tr). apply Hend; [|done].
    split_and!; [done|done|]. left. split_and!; [done|done| |apply Acct_nil]. exists (bo_refCount b). split; [by destruct b|lia].
  - eapply every_run_mono; [|apply every_run_shift; [apply smooth_forgetful|
      apply smooth_unbroken with (bor := [ctrl]) (cbs0 := []);
      apply (create_controller_ok (smooth_contract g) (smooth_com g) [ctrl] b ctrl []); try done;
        [apply list_elem_of_here|apply Acct_nil]]].
    cbn. intros o tr' (t & -> & e & -> & He). apply Hend; [done|]. intros _. by apply c_true_spec.
Qed.

(** What the steps that are no completion do to the number of handlers. *)
Lemma step_handlers op s tr : match op with SEnvironment _ _ | SController _ _ => False | _ => True end ->
  every_run (smooth_contract g) (session_step g op s) tr (fun o _ =>
    from_option (fun s' => s_handlers s' = s_handlers s - (match op with SRelease => 1 | _ => 0 end))%Z True o).
Proof using.
  intros H. destruct op; try done; unfold session_step; destruct (s_ob s) as [b|]; try exact I;
    (apply every_run_bind; eapply every_run_mono; [|apply every_run_true]); intros x ? _; repeat case_match; try exact I;
    simplify_eq; cbn; lia.
Qed.

Lemma plain_step op K busy s tr : match op with SEnvironment _ _ | SController _ _ => False | _ => True end ->
  (0 <= busy)%Z -> nested_inv K busy s tr -> n_allowed busy op s = true -> (forall p, p ∈ borrowed op -> p ∈ bor) ->
  every_run (smooth_contract g) (session_step g op s) tr (keeps K busy).
Proof using Hg.
  intros Hop Hbusy [Hinv Hb] Ha Hbor.
  assert (Hs : s_allowed op s = true) by (destruct op; try done; cbn in *; rewrite Z.ltb_lt in *; lia).
  eapply every_run_mono; [|apply every_run_and; [by apply (session_step_ok g Hg bor cb K KB s tr Hinv op)|by apply step_handlers]].
  intros o tr' [(s' & -> & Hi) Hh]. exists s'. split; [done|]. split; [done|]. cbn in Hh. rewrite Hh.
  destruct op; cbn in *; rewrite ?Z.ltb_lt in *; lia.
Qed.

(** The handler of the controller is given up, after Go has acted. *)
Lemma drop_nested_ok K busy h o tr : (0 <= busy)%Z -> keeps (h :: K) (busy + 1) o tr ->
  every_run (smooth_contract g) (drop_nested g h o) tr (keeps K busy).
Proof using Hg.
  intros Hbusy (s & -> & Hi). cbn -[session_step]. intros r _. apply (release_one h K s tr (busy + 1) r) in Hi.
  assert (Hi' : nested_inv K busy s (tr ++ [Ev (Release h) r])) by (eapply nested_inv_busy; [|exact Hi]; lia).
  destruct (Z.eqb_spec r 0) as [->|_]; [|by exists s].
  apply plain_step; try done; [|intros p Hp; by apply elem_of_nil in Hp]. destruct Hi as [_ Hb]. cbn. apply Z.ltb_lt. lia.
Qed.

Lemma nested_environment go K busy s tr result env : go_keeps go -> (0 <= busy)%Z -> nested_inv K busy s tr ->
  s_allowed (SEnvironment result env) s = true -> env ∈ bor ->
  every_run (smooth_contract g) (nested_step g go busy (SEnvironment result env) s) tr (keeps K busy).
Proof using Hg.
  intros Hgo Hbusy [Hinv Hb]. cbn -[create_environment]. rewrite andb_true_iff, bool_decide_eq_true. intros [Hst _] Henv.
  assert (Haw : awaiting (s_stage s) = true) by by rewrite Hst.
  destruct (pending K s tr Hinv Haw) as (b & Eb & Hpos & Hmax & Href & Hc0 & Hw0). rewrite Eb.
  assert (Hin : forall K s tr, nested_inv K (busy + 1) s tr ->
    every_run (smooth_contract g) (go (busy + 1)%Z s) tr (keeps K (busy + 1))) by (intros; apply Hgo; [lia|done]).
  assert (Hrefs : forall n, ob_refs (Some (with_refs b n)) = []) by (intros n; cbn; unfold bo_refs; simpl; by rewrite Hc0, Hw0).
  unfold create_environment. destruct (SUCCEEDED result).
  2: { eapply every_run_mono; [intros o tr'; apply (keeps_busy K (busy + 1)); lia|]. rewrite <- (app_nil_r tr).
       apply (tell_go_ok _ K (busy + 1) s b tr [] [] [] []); try done;
         [lia|simpl; lia| |intros R' B' HR; by rewrite app_nil_r|unfold completed; simpl; destruct (s_open s); lia].
       cbn. unfold bo_refs. by rewrite Hc0, Hw0. }
  cbn -[tell_go drop_nested bo_AddRef]. intros h Hh. apply smooth_com in Hh. cbn in Hh. intros rtn _.
  destruct (increment_range (bo_refCount b)) as (E1 & _ & _); [unfold max_refs in *; lia|].
  assert (Eadd : (bo_AddRef b).2 = with_refs b (bo_refCount b + 1)) by (unfold bo_AddRef; simpl; by rewrite E1).
  rewrite Eadd, <- (assoc_L (++)).
  set (t := [Ev (NewObject "MyCreateControllerCompletedHandler") h] ++
    [Ev (Invoke env "CreateCoreWebView2Controller" [APtr (bo_hwnd b); APtr h]) rtn]).
  assert (Ht : Acct [env] t [h] []).
  { apply Acct_invoke; [|acct_mem]. exact (Acct_new _ _ _ _ (Acct_nil [env]) "MyCreateControllerCompletedHandler" h Hh). }
  assert (HF : forall F FB, Acct bor tr F FB -> Acct bor (tr ++ t) ([h] ++ F) FB).
  { intros F FB HF. apply (Acct_frame _ _ _ _ _ _ _ _ HF Ht). intros o ->%list_elem_of_singleton. by left. }
  apply every_run_bind. unfold FAILED. destruct (Z.ltb_spec rtn 0) as [Hr|Hr].
  - eapply every_run_mono; [intros o tr'; apply drop_nested_ok; done|].
    apply (tell_go_ok _ K (busy + 1) s b tr t [h] [] [h]); try done; [simpl; lia|simpl; lia|by rewrite Hrefs|].
    unfold completed. simpl. destruct (s_open s); lia.
  - cbn -[completed session_step]. intros r Hk.
    assert (Hr0 : r <> 0%Z).
    { destruct Hk as [[_ Hk] _]. unfold keeps_handler, t in Hk. rewrite last_app in Hk.
      apply Hk; [done|unfold SUCCEEDED; by apply Z.leb_le|apply list_elem_of_further, list_elem_of_here]. }
    rewrite (proj2 (Z.eqb_neq r 0) Hr0). exists (completed s (with_refs b (bo_refCount b + 1)) AwaitController).
    split; [done|]. split; [|unfold completed; simpl; destruct (s_open s); lia]. rewrite <- (assoc_L (++)).
    apply (completed_inv bor cb K KB s tr Hinv b (with_refs b (bo_refCount b + 1)) AwaitController (t ++ [Ev (Release h) r]) [] [] []); try done.
    + simpl. lia.
    + by left.
    + simpl. lia.
    + by rewrite Hrefs.
    + intros F FB HA. rewrite (assoc_L (++)). by apply (Acct_release _ _ _ _ (HF F FB HA) h r).
Qed.

Lemma nested_step_ok go K busy op s tr : go_keeps go -> (0 <= busy)%Z -> nested_inv K busy s tr ->
  n_allowed busy op s = true -> (forall p, p ∈ borrowed op -> p ∈ bor) ->
  every_run (smooth_contract g) (nested_step g go busy op s) tr (keeps K busy).
Proof using Hg.
  intros Hgo Hbusy Hi Ha Hbor. pose proof Hi as [Hinv Hb].
  assert (Hev : (0 <? s_handlers s)%Z = true -> exists b, s_ob s = Some b).
  { intros Hh%Z.ltb_lt. destruct (inv_object bor cb K KB s tr Hinv) as (b & Eb & _); [|by exists b].
    unfold s_users. destruct (s_open s), (awaiting _); lia. }
  assert (Hplain : match op with SEnvironment _ _ | SController _ _ => False | _ => True end ->
    every_run (smooth_contract g) (session_step g op s) tr (keeps K busy)) by (intros; by apply plain_step).
  destruct op; cbn [borrowed] in Hbor; try (by apply Hplain).
  - apply nested_environment; try done. apply Hbor, list_elem_of_here.
  - apply nested_controller; try done. apply Hbor, list_elem_of_here.
  - destruct (Hev Ha) as [b Eb]. unfold nested_step. rewrite Eb. apply Z.ltb_lt in Ha.
    eapply event_nested; try done; [apply quiet_accelerator|apply even_accelerator].
  - destruct (Hev Ha) as [b Eb]. unfold nested_step. rewrite Eb. apply Z.ltb_lt in Ha.
    eapply event_nested; try done; [apply quiet_context_menu|apply even_context_menu].
  - destruct (Hev Ha) as [b Eb]. unfold nested_step. rewrite Eb. apply Z.ltb_lt in Ha.
    eapply event_nested; try done; [apply quiet_loaded|apply even_callback].
  - destruct (Hev Ha) as [b Eb]. unfold nested_step. rewrite Eb. apply Z.ltb_lt in Ha.
    eapply event_nested; try done; [apply quiet_navigated|apply even_callback].
  - pose proof (request_ok g junk sender args Hg) as Hp.
    assert (Hreq : every_run (smooth_contract g) (o ← with_go (go busy) (CustomScheme_Invoke g junk sender args) s;
      Ret (match o with Some (Some (_, true), s) => Some s | _ => None end)) tr (keeps K busy)).
    { apply every_run_bind. eapply every_run_mono; [|apply (even_nested (go busy) _ (fun o => exists hr, o = Some (hr, true)) K busy [sender; args] s tr);
        [|done|apply quiet_request|exact Hp|exact Hbor]].
      - intros o tr' (x & s' & -> & [hr ->] & Hi'). by exists s'.
      - intros s' tr'. by apply Hgo. }
    unfold nested_step. by destruct (s_ob s).
Qed.

Lemma nested_run_ok l : (forall op p, op ∈ steps_of l -> p ∈ borrowed op -> p ∈ bor) -> go_keeps (nested_run g l).
Proof using Hg.
  induction l as [|op inside IH1 rest IH2]; intros Hbor K busy s tr Hbusy Hi; cbn [nested_run]; [by exists s|].
  cbn [steps_of] in Hbor.
  assert (H1 : go_keeps (nested_run g inside)).
  { apply IH1. intros op' p Hop. apply Hbor. apply list_elem_of_further, elem_of_app. by left. }
  assert (H2 : go_keeps (nested_run g rest)).
  { apply IH2. intros op' p Hop. apply Hbor. apply list_elem_of_further, elem_of_app. by right. }
  destruct (n_allowed busy op s) eqn:Ha; [|by apply H2]. apply every_run_bind.
  eapply every_run_mono; [|apply nested_step_ok; try done; intros p; apply Hbor, list_elem_of_here].
  intros o tr' (s' & -> & Hi'). by apply H2.
Qed.
End nested.

(** ** Properties *)

(** C12: The invariant of a browser's life holds with Go acting inside the handlers: while Go
    is told that the browser is ready, that a key was pressed, that a page was loaded, or
    is asked for a page, it may close the browser, call operations, and let the runtime
    deliver more events and completions, which enter Go again, to any depth.  Whatever
    happens, the handler that continues afterwards uses no object that is gone, every
    reference is given back once - but for that on the new-window handler - and Go hears at
    most once how the creation ended.  This holds up to the first failure that the bridge is
    not prepared for ([unprepared]), if there is one. *)
Theorem nested_life_sound g hwnd dllPath folder cb l (Hg : helperHwnd g <> 0%Z) :
  every_run (session_contract g) (nested_life g hwnd dllPath folder cb l) []
    (until unprepared (life_post dllPath cb (lent (steps_of l))) (right_so_far (lent (steps_of l)))).
Proof.
  apply (every_run_until steady_env unprepared (session_contract g) _ 0%Z);
    [apply steady_smooth|apply life_right|apply right_so_far_app|constructor|].
  unfold nested_life. apply every_run_bind. eapply every_run_mono; [|apply (start_inv g (lent (steps_of l)))].
  intros [[result ob] kept] tr H. destruct (start (result, ob, kept)) as [s|]; [|exact H]. destruct H as [Hinv _].
  apply every_run_bind. eapply every_run_mono; [|apply (nested_run_ok g Hg (lent (steps_of l)) cb
    (from_option opt_mem [] kept) l) with (K := from_option opt_refs [] kept)]; [|intros op p; apply lent_borrowed|done|].
  - cbn. intros o tr' (s' & -> & Hi & _). by exists s'.
  - split; [exact Hinv|]. by destruct Hinv as ([? _] & _).
Qed.

(** Steps with nothing inside. *)
Definition flat (ops : list step) : nested := foldr (fun op l => NThen op NDone l) NDone ops.

(** The life of WvSession, step by step the same. *)
Example flat_life_same :
  run runtime_env (nested_life (Globals 5 6 77) 7 1 [97%Z] 9 (flat a_life)) 1000%Z =
  run runtime_env (browser_life (Globals 5 6 77) 7 1 [97%Z] 9 a_life) 1000%Z.
Proof. vm_compute. reflexivity. Qed.

(** Go hears that the browser is ready and waits for the page to load; inside that event it
    navigates and closes the browser; the rest of the handlers runs after it. *)
Definition a_nested_life : nested :=
  NThen (SEnvironment 0 60) NDone
  (NThen (SController 0 50)
     (NThen (SLoaded 8 9) (NThen (SOperation webview2_navigate 1 0 [97%Z] []) NDone (NThen SClose NDone NDone))
     (NThen (SNavigated 8 9) NDone NDone))
   (flat (replicate 6 SRelease))).

Example a_nested_life_ends :
  let p := nested_life (Globals 5 6 77) 7 1 [97%Z] 9 a_nested_life in
  (result runtime_env p 1000%Z).1 = (0%Z, Some (Some (Session false None Told 0))) /\
  callbacks (trace runtime_env p 1000%Z) = [(9, ON_READY, FINISH, OK, 0); (9, ON_LOADED, 0, 0, 0)]%Z.
Proof. vm_compute. split; reflexivity. Qed.

Lemma nested_life_sound_witness :
  every_run (session_contract (Globals 5 6 77)) (nested_life (Globals 5 6 77) 7 1 [97%Z] 9 a_nested_life) []
    (until unprepared (life_post 1 9 (lent (steps_of a_nested_life))) (right_so_far (lent (steps_of a_nested_life)))).
Proof. apply (nested_life_sound (Globals 5 6 77) 7 1 [97%Z] 9 a_nested_life). discriminate. Defined.
