(* ===== verification/WvTyping.v ===== *)
(** * The types of interface pointers

    A COM call goes through the table of the interface the pointer was asked for, so a call
    of a method of another interface, or with other arguments, runs arbitrary code.  The
    C++ types of the pointers only help as far as the casts to [void **] are right.  Here
    the interface of a pointer comes from how it was obtained - the declaration of the
    method that handed it out, the identifier that was queried, the class that was
    constructed, the parameter it was passed as - and only where that succeeded with a pointer
    that is not null; every call of a session of WvSession is
    checked against the declarations of WebView2.h. *)

From S2P Require Import Prelude Text Prog Win32 Accounting RefCount AppBridge SunApp WvApi WvHelpers WvObject WvLife WvScheme WvOptions WvCreate WvRequest WvOps WvSession.

(** ** Types of parameters *)

(** The values of the enumerated types. *)
Definition enumerators (t : string) : list Z :=
  from_option snd [] (List.find (fun e => String.eqb e.1 t) enumerations).

Definition integer_types : list string := ["bool"; "BOOL"; "int"; "INT32"; "UINT32"].
Definition string_types : list string := ["LPCWSTR"; "PCWSTR"].

(** What an [out] parameter hands out. *)
Inductive out := OutPointer (i : string) | OutString | OutValue (t : string).

Definition out_of (t : string) : option out :=
  if String.eqb t "LPWSTR *" then Some OutString
  else match strip_suffix " **" t with
       | Some i => Some (OutPointer i)
       | None => OutValue <$> strip_suffix " *" t
       end.

Definition is_in (p : param) : bool := String.eqb (p_attrs p) "in" || String.eqb (p_attrs p) "".

(** The types of the [in] parameters and the [out] parameters of a method of an interface. *)
Definition signature (i m : string) : option (list string * list out) :=
  l ← layout 30 i;
  e ← List.find (fun e => String.eqb (m_name (e_method e)) m) l;
  let ps := m_params (e_method e) in
  outs ← mapM (fun p => out_of (p_type p)) (List.filter (fun p => negb (is_in p)) ps);
  Some (unqualified ∘ p_type <$> List.filter is_in ps, outs).

(** ** Typing *)

(** Which pointers may be used as which interfaces. *)
Abbreviation tenv := (list (Z * string)).

Definition conforms (G : tenv) (t : string) (a : arg) : Prop :=
  match a with
  | AInt z => t ∈ integer_types \/ z ∈ enumerators t
  | AStr _ | AWide _ => t ∈ string_types
  | ARect _ => t = "RECT"
  | APtr p => t = "HWND" \/ exists i, strip_suffix " *" t = Some i /\ (p = 0%Z \/ (p, i) ∈ G)
  | AIid _ => t = "REFIID"
  end.

(** The interface of the classes of the bridge: the class each is derived from (the first
    one for the options). *)
Definition class_interface (c : string) : option string :=
  snd <$> List.find (fun p => String.eqb p.1 c) [
    ("MyAcceleratorKeyPressedHandler", "ICoreWebView2AcceleratorKeyPressedEventHandler");
    ("MyContextMenuRequestedEventHandler", "ICoreWebView2ContextMenuRequestedEventHandler");
    ("MyDOMContentLoadedEventHandler", "ICoreWebView2DOMContentLoadedEventHandler");
    ("MyNavigationCompletedEventHandler", "ICoreWebView2NavigationCompletedEventHandler");
    ("MyCreateControllerCompletedHandler", "ICoreWebView2CreateCoreWebView2ControllerCompletedHandler");
    ("MyCreateEnvironmentCompletedHandler", "ICoreWebView2CreateCoreWebView2EnvironmentCompletedHandler");
    ("MyNewWindowRequestedHandler", "ICoreWebView2NewWindowRequestedEventHandler");
    ("MyCustomSchemeHandler", "ICoreWebView2WebResourceRequestedEventHandler");
    ("MyCoreWebView2EnvironmentOptions", "ICoreWebView2EnvironmentOptions");
    ("MyCoreWebView2CustomSchemeRegistration(suneido)", "ICoreWebView2CustomSchemeRegistration")].

(** [CreateWebViewEnvironmentWithOptionsInternalFunc] of webview2.cpp. *)
Definition CreateWebViewEnvironmentWithOptionsInternalFunc : list string := [
  "bool"; "int"; "PCWSTR"; "ICoreWebView2EnvironmentOptions *";
  "ICoreWebView2CreateCoreWebView2EnvironmentCompletedHandler *"].

(** Calls on objects, and those that make one; all others are not typed here. *)
Definition on_object (a : Win32) : bool :=
  match a with
  | QueryInterface _ _ | AddRef _ | Release _ | Invoke _ _ _ | Fetch _ _ _ | GetValue _ _ _ | GetString _ _ _
  | NewObject _ | SHCreateMemStream _ | CallProc _ _ => true
  | _ => false
  end.

(** [call_types G a r G']: the call is well typed, and the answer types what it hands out -
    which is nothing when the call failed or the pointer is null. *)
Inductive call_types (G : tenv) : forall a, Ans a -> tenv -> Prop :=
| CT_query o i iid j hr q : (o, i) ∈ G -> j ∈ interfaces -> i_iid j = iid -> SUCCEEDED hr = true -> q <> 0%Z ->
    call_types G (QueryInterface o iid) (hr, q) ((q, i_name j) :: G)
| CT_query_none o i iid j hr q : (o, i) ∈ G -> j ∈ interfaces -> i_iid j = iid -> SUCCEEDED hr = false \/ q = 0%Z ->
    call_types G (QueryInterface o iid) (hr, q) G
| CT_addref o i r : (o, i) ∈ G -> call_types G (AddRef o) r G
| CT_release o i r : (o, i) ∈ G -> call_types G (Release o) r G
| CT_invoke o i m args ts r : (o, i) ∈ G -> signature i m = Some (ts, []) -> Forall2 (conforms G) ts args ->
    call_types G (Invoke o m args) r G
| CT_fetch o i m args ts j hr q : (o, i) ∈ G -> signature i m = Some (ts, [OutPointer j]) ->
    Forall2 (conforms G) ts args -> SUCCEEDED hr = true -> q <> 0%Z ->
    call_types G (Fetch o m args) (hr, q) ((q, j) :: G)
| CT_fetch_none o i m args ts j hr q : (o, i) ∈ G -> signature i m = Some (ts, [OutPointer j]) ->
    Forall2 (conforms G) ts args -> SUCCEEDED hr = false \/ q = 0%Z ->
    call_types G (Fetch o m args) (hr, q) G
| CT_value o i m args ts t r : (o, i) ∈ G -> signature i m = Some (ts, [OutValue t]) ->
    Forall2 (conforms G) ts args -> call_types G (GetValue o m args) r G
| CT_string o i m args ts r : (o, i) ∈ G -> signature i m = Some (ts, [OutString]) ->
    Forall2 (conforms G) ts args -> call_types G (GetString o m args) r G
| CT_new c i p : class_interface c = Some i -> p <> 0%Z -> call_types G (NewObject c) p ((p, i) :: G)
| CT_stream b p : p <> 0%Z -> call_types G (SHCreateMemStream b) p ((p, "IStream") :: G)
| CT_stream_none b : call_types G (SHCreateMemStream b) 0%Z G
| CT_create p args r : Forall2 (conforms G) CreateWebViewEnvironmentWithOptionsInternalFunc args ->
    call_types G (CallProc p args) r G
| CT_other a r : on_object a = false -> call_types G a r G.

(** The answers that COM documents, but for those the bridge is not prepared for. *)
Definition expected (a : Win32) (r : Ans a) : Prop := com_contract [] a r /\ unprepared (Ev a r) = false.

(** Programs all of whose calls are well typed, whatever the expected answers. *)
Fixpoint typed {T} (G : tenv) (p : act T) (Q : tenv -> T -> Prop) : Prop :=
  match p with
  | Ret x => Q G x
  | Vis a k => forall r, expected a r -> exists G', call_types G a r G' /\ typed G' (k r) Q
  end.

(** Histories that are well typed from [G] on. *)
Inductive typed_trace (G : tenv) : list ev -> tenv -> Prop :=
| TT_nil : typed_trace G [] G
| TT_snoc tr G1 a r G2 : typed_trace G tr G1 -> call_types G1 a r G2 -> typed_trace G (tr ++ [Ev a r]) G2.

Lemma typed_mono {T} (p : act T) (Q1 Q2 : tenv -> T -> Prop) : (forall G x, Q1 G x -> Q2 G x) ->
  forall G, typed G p Q1 -> typed G p Q2.
Proof.
  intros HQ. induction p as [x|a k IH]; intros G; cbn; [apply HQ|]. intros H r Hr.
  destruct (H r Hr) as (G' & Hc & Hk). eauto.
Qed.

Lemma typed_bind {T U} (p : act T) (f : T -> act U) Q : forall G,
  typed G p (fun G' x => typed G' (f x) Q) -> typed G (p ≫= f) Q.
Proof.
  induction p as [x|a k IH]; intros G; cbn; [done|]. intros H r Hr.
  destruct (H r Hr) as (G' & Hc & Hk). exists G'. split; [done|]. by apply IH.
Qed.

Lemma typed_call {U} a (f : Ans a -> act U) G Q :
  (forall r, expected a r -> exists G', call_types G a r G' /\ typed G' (f r) Q) -> typed G (call a ≫= f) Q.
Proof. done. Qed.

Lemma not_succeeded hr : (hr < 0)%Z -> SUCCEEDED hr = false.
Proof. apply Z.leb_gt. Qed.

Lemma is_failed hr : (hr < 0)%Z -> FAILED hr = true.
Proof. apply Z.ltb_lt. Qed.

(** Calls that hand out a pointer, with their two outcomes. *)
Lemma typed_query {U} G o i j (f : Z * Z -> act U) Q : (o, i) ∈ G -> j ∈ interfaces ->
  (forall q, q <> 0%Z -> typed ((q, i_name j) :: G) (f (S_OK, q)) Q) ->
  (forall hr, (hr < 0)%Z -> bool_decide (i_iid j = i_iid ICoreWebView2_11) = false -> typed G (f (hr, 0%Z)) Q) ->
  typed G (call (QueryInterface o (i_iid j)) ≫= f) Q.
Proof.
  intros Ho Hj Hok Hfail [hr q] [Hc Hu]. cbn in Hc. destruct Hc as [[-> Hq]|[Hhr ->]].
  - eexists. split; [by eapply CT_query|by apply Hok].
  - eexists. split; [eapply CT_query_none; eauto using not_succeeded|]. apply Hfail; [done|].
    unfold unprepared in Hu. cbn [fst] in Hu. by rewrite (is_failed hr Hhr), andb_true_r in Hu.
Qed.

Lemma typed_fetch {U} G o i m args ts j (f : Z * Z -> act U) Q : (o, i) ∈ G -> signature i m = Some (ts, [OutPointer j]) ->
  Forall2 (conforms G) ts args ->
  (forall q, q <> 0%Z -> typed ((q, j) :: G) (f (S_OK, q)) Q) ->
  (forall hr, (hr < 0)%Z -> bool_decide (m ∈ ["get_Profile"; "get_Settings"; "CreateWebResourceResponse"]) = false ->
     typed G (f (hr, 0%Z)) Q) ->
  typed G (call (Fetch o m args) ≫= f) Q.
Proof.
  intros Ho Hs Ha Hok Hfail [hr q] [Hc Hu]. cbn in Hc. destruct Hc as [[-> Hq]|[Hhr ->]].
  - eexists. split; [by eapply CT_fetch|by apply Hok].
  - eexists. split; [eapply CT_fetch_none; eauto using not_succeeded|]. apply Hfail; [done|].
    unfold unprepared in Hu. cbn [fst] in Hu. by rewrite (is_failed hr Hhr), andb_true_r in Hu.
Qed.

Lemma typed_new {U} G c i (f : Z -> act U) Q : class_interface c = Some i ->
  (forall p, p <> 0%Z -> typed ((p, i) :: G) (f p) Q) -> typed G (call (NewObject c) ≫= f) Q.
Proof. intros Hi Hf p [Hp _]. eexists. split; [by apply CT_new|by apply Hf]. Qed.

Lemma typed_stream {U} G b (f : Z -> act U) Q : (forall p, p <> 0%Z -> typed ((p, "IStream") :: G) (f p) Q) ->
  typed G (f 0%Z) Q -> typed G (call (SHCreateMemStream b) ≫= f) Q.
Proof.
  intros Hf H0 p _. destruct (decide (p = 0%Z)) as [->|Hp]; eexists; (split; [|eauto]); by constructor.
Qed.

(** Pointers keep their types. *)
Lemma call_types_extends G a r G' : call_types G a r G' -> G ⊆ G'.
Proof. destruct 1; intros x Hx; auto using list_elem_of_further. Qed.

Lemma typed_extends {T} (p : act T) Q : forall G, typed G p Q -> typed G p (fun G' x => Q G' x /\ G ⊆ G').
Proof.
  induction p as [x|a k IH]; intros G; cbn; [by split|]. intros H r Hr.
  destruct (H r Hr) as (G' & Hc & Hk). exists G'. split; [done|]. apply call_types_extends in Hc.
  eapply typed_mono; [|by apply IH]. intros G2 x [? ?]. split; [done|]. by etrans.
Qed.

(** Well-typed programs have well-typed runs, up to an answer that they do not expect. *)
Lemma typed_run {T} (p : act T) Q G0 : forall G tr, clean unprepared tr -> typed G p Q -> typed_trace G0 tr G ->
  every_run com_contract p tr (until unprepared (fun x tr' => exists G', typed_trace G0 tr' G' /\ Q G' x)
    (fun tr' => exists G', typed_trace G0 tr' G')).
Proof.
  induction p as [x|a k IH]; intros G tr Hc; cbn; [left; eauto|]. intros H Htr r Hr.
  destruct (unprepared (Ev a r)) eqn:E.
  - eapply every_run_mono; [|apply every_run_extends]. intros x tr' [tr2 ->]. right. exists tr, (Ev a r), tr2.
    rewrite <- (assoc_L (++)). split_and!; [done..|by exists G].
  - destruct (H r (conj Hr E)) as (G' & Hct & Hk). apply (IH _ G'); [|done|by eapply TT_snoc].
    apply Forall_app. split; [done|by constructor].
Qed.

(** Programs that make no typed calls. *)
Lemma typed_other {T} (p : act T) G : only_calls (fun a => on_object a = false) p -> typed G p (fun G' _ => G' = G).
Proof.
  induction p as [x|a k IH]; cbn; [done|]. intros [Ha Hk] r _. exists G. split; [by apply CT_other|]. by apply IH.
Qed.

(** ** Checking a program

    [tstep] takes a program of the bridge over its next call or test; [tcall] finds the
    rule of a call, the interface of its pointer and its signature. *)

Ltac tmem := first [eassumption | apply list_elem_of_here | apply list_elem_of_further; tmem].

Ltac tlist := repeat first [apply list_elem_of_here | apply list_elem_of_further].

Ltac tconforms :=
  cbn [conforms];
  first [ left; reflexivity
        | left; solve [tlist]
        | solve [tlist]
        | right; solve [tlist]
        | right; eexists; split; [vm_compute; reflexivity|first [left; reflexivity | right; tmem]]
        | reflexivity ].

Ltac targs := repeat first [apply Forall2_nil_2 | apply Forall2_cons_2; [solve [tconforms]|]].

Ltac tcall :=
  lazymatch goal with
  | |- call_types _ (AddRef _) _ _ => eapply CT_addref; tmem
  | |- call_types _ (Release _) _ _ => eapply CT_release; tmem
  | |- call_types _ (Invoke _ _ _) _ _ => eapply CT_invoke; [tmem|vm_compute; reflexivity|targs]
  | |- call_types _ (GetValue _ _ _) _ _ => eapply CT_value; [tmem|vm_compute; reflexivity|targs]
  | |- call_types _ (GetString _ _ _) _ _ => eapply CT_string; [tmem|vm_compute; reflexivity|targs]
  | |- call_types _ (CallProc _ _) _ _ => apply CT_create; targs
  | |- call_types _ _ _ _ => apply CT_other; reflexivity
  end.

(** After a call that hands out a pointer: the tests of its result that follow. *)
Ltac tests :=
  cbn beta iota;
  repeat match goal with
  | H : ?q <> 0%Z |- context [c_true ?q] => rewrite (proj2 (c_true_spec q) H)
  | H : (?hr < 0)%Z |- context [FAILED ?hr] => rewrite (is_failed hr H)
  | H : (?hr < 0)%Z |- context [SUCCEEDED ?hr] => rewrite (not_succeeded hr H)
  end;
  change (FAILED S_OK) with false; change (SUCCEEDED S_OK) with true; change (c_true 0) with false;
  cbn [orb andb negb]; cbn beta iota.

Ltac unexpected H := try (exfalso; vm_compute in H; discriminate H); clear H.

Ltac tstep :=
  lazymatch goal with
  | |- typed _ (Ret _) _ => cbn [typed]
  | |- typed _ (Vis _ _) _ => change (typed ?G (Vis ?a ?k) ?Q) with (typed G (call a ≫= k) Q)
  | |- typed _ (mbind _ (call (QueryInterface _ _))) _ =>
      let H := fresh in
      eapply typed_query; [tmem|apply list_elem_of_In; cbn; tauto|intros ? ?; tests|intros ? ? H; unexpected H; tests]
  | |- typed _ (mbind _ (call (Fetch _ _ _))) _ =>
      let H := fresh in
      eapply typed_fetch; [tmem|vm_compute; reflexivity|targs|intros ? ?; tests|intros ? ? H; unexpected H; tests]
  | |- typed _ (mbind _ (call (NewObject _))) _ => eapply typed_new; [reflexivity|intros ? ?; cbn beta]
  | |- typed _ (mbind _ (call (SHCreateMemStream _))) _ => eapply typed_stream; [intros ? ?; tests|tests]
  | |- typed _ (mbind _ (call _)) _ =>
      apply typed_call;
      first [ intros [? ?] _; eexists; split; [tcall|]
            | intros ? _; eexists; split; [tcall|] ]
  | |- typed _ (call _) _ =>
      first [ intros [? ?] _; eexists; split; [tcall|cbn [typed]]
            | intros ? _; eexists; split; [tcall|cbn [typed]] ]
  | |- typed _ (match ?x with _ => _ end) _ => destruct x eqn:?
  | |- typed _ (mbind _ (match ?x with _ => _ end)) _ => destruct x eqn:?
  | |- typed _ (mbind _ (Ret _)) _ => apply typed_bind; cbn [typed]
  | |- typed _ (mbind _ (mbind _ _)) _ => apply typed_bind
  end.

(** ** The programs of the bridge *)

(** A browser object holds a controller and a view; with a controller it is used without
    a test for the view. *)
Definition object_typed (G : tenv) (b : MyBrowserObject) : Prop :=
  (controller b <> 0%Z -> (controller b, "ICoreWebView2Controller") ∈ G /\ (webview2 b, "ICoreWebView2") ∈ G) /\
  (webview2 b <> 0%Z -> (webview2 b, "ICoreWebView2") ∈ G).

Definition result_typed (G : tenv) (o : option MyBrowserObject) : Prop := from_option (object_typed G) True o.

Lemma object_typed_extends G G' b : G ⊆ G' -> object_typed G b -> object_typed G' b.
Proof. intros H [H1 H2]. split; [|auto]. intros Hc. destruct (H1 Hc). auto. Qed.

Lemma object_typed_refs G b n : object_typed G b -> object_typed G (with_refs b n).
Proof. done. Qed.

Lemma typed_keep {T} (p : act T) (P : T -> Prop) G : typed G p (fun _ x => P x) -> forall b, object_typed G b ->
  typed G p (fun G' x => P x /\ object_typed G' b /\ G ⊆ G').
Proof.
  intros Hp b Hb. eapply typed_mono; [|by apply typed_extends]. intros G' x [? ?].
  split_and!; [done|by eapply object_typed_extends|done].
Qed.

Lemma go_callback_typed G b t x y z : typed G (go_callback b t x y z) (fun G' _ => G' = G).
Proof. apply typed_other. unfold go_callback. by destruct (c_true _). Qed.

Lemma onReady_typed G b stage result : typed G (onReady b stage result) (fun G' _ => G' = G).
Proof. unfold onReady. apply typed_bind. eapply typed_mono; [|apply go_callback_typed]. by intros G' x ->. Qed.

Lemma bo_destroy_typed G b : object_typed G b -> typed G (bo_destroy b) (fun G' _ => G' = G).
Proof.
  intros [Hc Hw]. unfold bo_destroy.
  destruct (c_true (webview2 b)) eqn:Ew; [apply c_true_spec, Hw in Ew|];
    (destruct (c_true (controller b)) eqn:Ec; [apply c_true_spec, Hc in Ec as [Ec _]|]); repeat tstep; try done; cbn; done.
Qed.

Lemma bo_Release_typed G b : object_typed G b -> typed G (bo_Release b) (fun G' r => G' = G /\ result_typed G r.2).
Proof.
  intros Hb. unfold bo_Release. destruct (_ =? 0)%Z; [|by split].
  apply typed_bind. eapply typed_mono; [|by apply bo_destroy_typed]. by intros G' x ->.
Qed.

Lemma release_handler_typed G h i b : (h, i) ∈ G -> object_typed G b ->
  typed G (release_handler h b) (fun G' o => G' = G /\ result_typed G o).
Proof.
  intros Hh Hb. unfold release_handler. tstep. destruct (_ =? 0)%Z; [|by split].
  apply typed_bind. eapply typed_mono; [|by apply bo_Release_typed]. intros G' [n o] [-> Ho]. by split.
Qed.

Lemma release_all_typed G l : (forall p, p ∈ l -> exists i, (p, i) ∈ G) -> typed G (release_all l) (fun G' _ => G' = G).
Proof.
  induction l as [|p l IH]; intros Hl; cbn [release_all]; [done|].
  destruct (Hl p) as [i Hp]; [apply list_elem_of_here|]. tstep. apply IH. intros q Hq. apply Hl. by apply list_elem_of_further.
Qed.

Definition invoke_typed (G : tenv) (o : invoke_result) : Prop := result_typed G (snd <$> o).

Lemma after_ready G b stage result (x : invoke_result) : invoke_typed G x ->
  typed G (_ ← onReady b stage result; Ret x) invoke_typed.
Proof. intros Hx. apply typed_bind. eapply typed_mono; [|apply onReady_typed]. by intros G' y ->. Qed.

Lemma ready_and_return_typed G b stage result views : object_typed G b -> (forall p, p ∈ views -> exists i, (p, i) ∈ G) ->
  typed G (ready_and_return b stage result views) invoke_typed.
Proof.
  intros Hb Hv. apply typed_bind. eapply typed_mono; [|apply onReady_typed]. intros G' y ->.
  apply typed_bind. eapply typed_mono; [|by apply release_all_typed]. by intros G' z ->.
Qed.

(** How the work before the end leaves off. *)
Definition ending_typed (G : tenv) (o : option ending) : Prop :=
  match o with Some e => object_typed G (e_ob e) /\ forall p, p ∈ e_views e -> exists i, (p, i) ∈ G | None => True end.

Lemma tell_typed G b stage result views : object_typed G b -> (forall p, p ∈ views -> exists i, (p, i) ∈ G) ->
  typed G (tell b stage result views) ending_typed.
Proof. by split. Qed.

Lemma tell_nothing_typed G b stage result : object_typed G b -> typed G (tell b stage result []) ending_typed.
Proof. intros Hb. apply tell_typed; [done|set_solver]. Qed.

(** Registering a handler: the class is the one the event takes. *)
Lemma add_handler_typed G ob cls i obj j m onfail onok stage k :
  class_interface cls = Some i -> (obj, j) ∈ G ->
  signature j m = Some ([i +:+ " *"], [OutValue "EventRegistrationToken"]) ->
  strip_suffix " *" (i +:+ " *") = Some i ->
  object_typed G ob -> (forall p, p ∈ onfail ++ onok -> exists i, (p, i) ∈ G) ->
  (forall G' ob', G ⊆ G' -> object_typed G' ob' -> typed G' (k ob') ending_typed) ->
  typed G (add_handler ob cls obj m onfail onok stage k) ending_typed.
Proof.
  intros Hc Hobj Hs Hsuf Hob Hl Hk. unfold add_handler. eapply typed_new; [exact Hc|]. intros h _. cbn zeta.
  set (G1 := (h, i) :: G). assert (HG1 : G ⊆ G1) by (intros x Hx; by apply list_elem_of_further).
  assert (Hob1 : object_typed G1 (bo_AddRef ob).2) by (by eapply (object_typed_extends G)).
  assert (Hl1 : forall l, (forall p, p ∈ l -> p ∈ onfail ++ onok) -> typed G1 (release_all l) (fun G' _ => G' = G1)).
  { intros l Hl'. apply release_all_typed. intros p Hp. destruct (Hl p) as [i' Hi]; [auto|]. exists i'. auto. }
  apply typed_call. intros [rtn token] _. exists G1. split.
  { eapply CT_value; [apply HG1, Hobj|exact Hs|]. apply Forall2_cons_2; [|apply Forall2_nil_2]. cbn [conforms].
    right. exists i. split; [done|]. right. apply list_elem_of_here. }
  destruct (FAILED rtn).
  - apply typed_bind. eapply typed_mono; [|apply (Hl1 onfail); intros p Hp; apply elem_of_app; by left].
    intros G' _ ->. apply typed_bind.
    eapply typed_mono; [|apply (release_handler_typed G1 h i); [apply list_elem_of_here|done]].
    intros G' [b|] [-> Hb]; [|exact I]. by apply tell_nothing_typed.
  - apply typed_bind. eapply typed_mono; [|apply (Hl1 onok); intros p Hp; apply elem_of_app; by right].
    intros G' _ ->. apply typed_bind.
    eapply typed_mono; [|apply (release_handler_typed G1 h i); [apply list_elem_of_here|done]].
    intros G' [b|] [-> Hb]; [|exact I]. by apply Hk.
Qed.

Lemma RegisterCustomScheme_typed G wv : (wv, "ICoreWebView2") ∈ G ->
  typed G (RegisterCustomScheme wv) (fun G' _ => G ⊆ G').
Proof.
  intros Hwv. eapply typed_mono; [|apply (typed_extends _ (fun _ _ => True))]; [by intros G' x [_ ?]|].
  unfold RegisterCustomScheme. repeat tstep; done.
Qed.

Lemma settings_typed G ob ctrl wv : (ctrl, "ICoreWebView2Controller") ∈ G -> (wv, "ICoreWebView2") ∈ G ->
  typed G ('(hr, settings) ← call (Fetch wv "get_Settings" []);
    _ ← (if SUCCEEDED (c_bool (c_true hr && c_true settings)) then
           _ ← call (Invoke settings "put_IsStatusBarEnabled" [AInt 0]);
           _ ← call (Release settings);
           Ret tt
         else Ret tt);
    nw ← call (NewObject "MyNewWindowRequestedHandler");
    _ ← call (GetValue wv "add_NewWindowRequested" [APtr nw]);
    ob ← SetController ob ctrl;
    ob ← SetWebView2 ob wv;
    tell ob FINISH OK [wv]) ending_typed.
Proof.
  intros Hc Hw. tstep. apply typed_bind. eapply typed_mono; [|apply typed_extends with (Q := fun _ _ => True); repeat tstep; done].
  intros G2 y [_ HG]. assert (Hc2 : (ctrl, "ICoreWebView2Controller") ∈ G2) by (apply HG, list_elem_of_further, Hc).
  assert (Hw2 : (wv, "ICoreWebView2") ∈ G2) by (apply HG, list_elem_of_further, Hw). clear HG Hc Hw.
  unfold SetController, SetWebView2. do 8 tstep. apply tell_typed.
  - split; intros _; cbn [controller webview2]; [split|]; tmem.
  - intros ? ->%list_elem_of_singleton. eexists. tmem.
Qed.

Lemma finish_view_typed G ob ctrl wv : (ctrl, "ICoreWebView2Controller") ∈ G -> (wv, "ICoreWebView2") ∈ G ->
  typed G (finish_view ob ctrl wv) ending_typed.
Proof.
  intros Hc Hw. unfold finish_view. tstep; [|apply typed_bind; by apply settings_typed].
  apply typed_bind. eapply typed_mono; [|apply typed_extends with (Q := fun _ _ => True); repeat tstep; done].
  intros G' x [_ HG]. apply settings_typed; by apply HG, list_elem_of_further.
Qed.

(** All lists of pointers to release that the code has are of typed pointers. *)
Ltac typed_pointers :=
  intros p Hp; cbn in Hp; rewrite ?elem_of_cons, elem_of_nil in Hp;
  repeat destruct Hp as [->|Hp]; try done; eexists; tmem.

Ltac add_handler_step :=
  eapply add_handler_typed; [reflexivity|tmem|vm_compute; reflexivity|vm_compute; reflexivity|try done|typed_pointers|].

Lemma add_context_menu_typed G ob ctrl wv wv2 :
  (ctrl, "ICoreWebView2Controller") ∈ G -> (wv, "ICoreWebView2") ∈ G -> (wv2, "ICoreWebView2_2") ∈ G ->
  object_typed G ob -> typed G (add_context_menu ob ctrl wv wv2) ending_typed.
Proof.
  intros Hc Hw Hw2 Hob. unfold add_context_menu. tstep.
  apply (object_typed_extends G ((q, i_name ICoreWebView2_11) :: G)) in Hob; [|intros x Hx; by apply list_elem_of_further].
  add_handler_step. intros G' ob' HG Hob'. apply finish_view_typed; apply HG; tmem.
Qed.

Lemma add_listeners_typed G ob ctrl wv : (ctrl, "ICoreWebView2Controller") ∈ G -> (wv, "ICoreWebView2") ∈ G ->
  object_typed G ob -> typed G (add_listeners ob ctrl wv) ending_typed.
Proof.
  intros Hc Hw Hob. unfold add_listeners. tstep; [|tstep; by apply tell_nothing_typed].
  apply (object_typed_extends G ((q, i_name ICoreWebView2_2) :: G)) in Hob; [|intros x Hx; by apply list_elem_of_further].
  set (G1 := (q, i_name ICoreWebView2_2) :: G) in *.
  assert (Hw2 : (q, "ICoreWebView2_2") ∈ G1) by apply list_elem_of_here.
  apply (list_elem_of_further _ (q, "ICoreWebView2_2")) in Hc, Hw. change (_ :: G) with G1 in Hc, Hw. clearbody G1.
  add_handler_step. intros G2 ob2 HG2 Hob2. apply HG2 in Hc, Hw, Hw2. clear HG2.
  add_handler_step. intros G3 ob3 HG3 Hob3. apply HG3 in Hc, Hw, Hw2. clear HG3.
  add_handler_step. intros G4 ob4 HG4 Hob4. apply HG4 in Hc, Hw, Hw2. by apply add_context_menu_typed.
Qed.

(** The controller is only there when the creation succeeded. *)
Lemma create_controller_typed G ob result ctrl : (FAILED result = false -> (ctrl, "ICoreWebView2Controller") ∈ G) -> object_typed G ob ->
  typed G (create_controller ob result ctrl) ending_typed.
Proof.
  intros Hc Hob. unfold create_controller.
  destruct (FAILED result); [by apply tell_nothing_typed|]. specialize (Hc eq_refl). tstep; [|by apply tell_nothing_typed].
  apply (object_typed_extends G ((q, "ICoreWebView2") :: G)) in Hob; [|intros x Hx; by apply list_elem_of_further].
  assert (Hw : (q, "ICoreWebView2") ∈ (q, "ICoreWebView2") :: G) by apply list_elem_of_here.
  apply (list_elem_of_further _ (q, "ICoreWebView2")) in Hc. revert Hc Hob Hw. generalize ((q, "ICoreWebView2") :: G) as G1.
  intros G1 Hc Hob Hw. apply typed_bind. eapply typed_mono; [|by apply RegisterCustomScheme_typed].
  intros G2 rtn2 HG2. apply HG2 in Hc, Hw. apply (object_typed_extends _ _ _ HG2) in Hob.
  destruct (FAILED rtn2); [tstep; by apply tell_nothing_typed|by apply add_listeners_typed].
Qed.

Lemma CreateController_typed G ob result ctrl : (FAILED result = false -> (ctrl, "ICoreWebView2Controller") ∈ G) -> object_typed G ob ->
  typed G (CreateController_Invoke ob result ctrl) invoke_typed.
Proof.
  intros Hc Hob. apply typed_bind. eapply typed_mono; [|by apply create_controller_typed].
  intros G' [e|]; [|done]. intros [He Hv]. by apply ready_and_return_typed.
Qed.

Lemma CreateEnvironment_typed G ob hwnd result env : (FAILED result = false -> (env, "ICoreWebView2Environment") ∈ G) -> object_typed G ob ->
  typed G (CreateEnvironment_Invoke ob hwnd result env) invoke_typed.
Proof.
  intros He Hob. unfold CreateEnvironment_Invoke, create_environment.
  rewrite FAILED_negb in He. destruct (SUCCEEDED result); [|apply ready_and_return_typed; [done|set_solver]].
  specialize (He eq_refl). tstep. rename p into h. cbn zeta.
  match goal with |- typed ?g _ _ => set (G1 := g) end. apply (object_typed_extends G G1) in Hob; [|intros x Hx; by apply list_elem_of_further].
  tstep. apply typed_bind. rename r into rtn.
  eapply typed_mono with (Q1 := fun G' o => G' = G1 /\ invoke_typed G1 o).
  2: { destruct (FAILED rtn); [|by split]. apply typed_bind. eapply typed_mono; [|apply onReady_typed]. by intros G' y ->. }
  intros G' [[hr b]|] [-> Hb]; [|done]. apply typed_bind.
  eapply typed_mono; [|eapply (release_handler_typed G1 h); [apply list_elem_of_here|exact Hb]].
  by intros G' [b'|] [-> Hb'].
Qed.

(** Events and requests. *)
Lemma Accelerator_typed G ob sender args : (args, "ICoreWebView2AcceleratorKeyPressedEventArgs") ∈ G ->
  typed G (Accelerator_Invoke ob sender args) (fun G' _ => True).
Proof.
  intros Ha. unfold Accelerator_Invoke, onAccelPressed. tstep. destruct (FAILED z); [done|].
  destruct (_ || _); [|done]. tstep. destruct (FAILED _); [done|]. apply typed_bind, typed_bind.
  eapply typed_mono; [|apply go_callback_typed]. intros G' ? ->. tstep. repeat tstep; done.
Qed.

Lemma ContextMenu_typed G ob sender args : (args, "ICoreWebView2ContextMenuRequestedEventArgs") ∈ G ->
  typed G (ContextMenu_Invoke ob sender args) (fun G' _ => True).
Proof.
  intros Ha. unfold ContextMenu_Invoke, onContextMenuRequested. apply typed_bind, typed_bind.
  eapply typed_mono; [|apply go_callback_typed]. intros G' ? ->. tstep. repeat tstep; done.
Qed.

Lemma callback_typed G b t : typed G (_ ← (_ ← go_callback b t 0 0 0; Ret tt); Ret S_OK) (fun G' _ => True).
Proof. apply typed_bind, typed_bind. eapply typed_mono; [|apply go_callback_typed]. done. Qed.

Lemma NewWindow_typed G sender args : (args, "ICoreWebView2NewWindowRequestedEventArgs") ∈ G ->
  typed G (NewWindow_Invoke sender args) (fun G' _ => True).
Proof. intros Ha. unfold NewWindow_Invoke. repeat tstep; done. Qed.

Lemma typed_then {T U} (p : act T) (f : T -> act U) G Q :
  only_calls (fun a => on_object a = false) p -> (forall x, typed G (f x) Q) -> typed G (p ≫= f) Q.
Proof. intros Hp Hf. apply typed_bind. eapply typed_mono; [|by apply typed_other]. by intros G' x ->. Qed.

Ltac plain_calls :=
  repeat match goal with
  | |- True => exact I
  | |- _ /\ _ => split
  | |- forall _, _ => intro
  | |- only_calls _ (Ret _) => exact I
  | |- only_calls _ (Vis _ _) => cbn
  | |- only_calls _ (mbind _ _) => apply only_calls_bind
  | |- only_calls _ (call _) => cbn
  | |- only_calls _ (match ?x with _ => _ end) => destruct x
  | |- _ = false => reflexivity
  end.

Lemma respond_typed G env args converted buf :
  (env, "ICoreWebView2Environment") ∈ G -> (args, "ICoreWebView2WebResourceRequestedEventArgs") ∈ G ->
  typed G (respond env args converted buf) (fun G' _ => G ⊆ G').
Proof.
  intros He Ha. eapply typed_mono; [|apply (typed_extends _ (fun _ _ => True))]; [by intros G' x [_ ?]|].
  unfold respond. repeat tstep; done.
Qed.

Lemma serve_typed G g junk sender args request p w :
  (sender, "ICoreWebView2") ∈ G -> (args, "ICoreWebView2WebResourceRequestedEventArgs") ∈ G ->
  (request, "ICoreWebView2WebResourceRequest") ∈ G -> typed G (serve g junk sender args request p w) (fun _ _ => True).
Proof.
  intros Hs Ha Hr. unfold serve. tstep; [|repeat tstep; done]. tstep; [|repeat tstep; done].
  apply typed_then; [unfold ConvertWcharToChar; plain_calls|]. intros converted.
  apply typed_then; [unfold suneidoAPP, helperWndProc, SuneidoAPP; plain_calls|]. intros buf. apply typed_bind.
  eapply typed_mono; [|apply respond_typed; tmem]. intros G2 o HG.
  destruct o; [|done]. apply typed_then; [unfold delete_converted; plain_calls|]. intros ?.
  apply typed_then; [unfold delete_str; plain_calls|]. intros ok.
  do 2 (apply typed_call; intros ? _; eexists; split; [eapply CT_release; apply HG; tmem|]). done.
Qed.

Lemma CustomScheme_typed G g junk sender args :
  (sender, "ICoreWebView2") ∈ G -> (args, "ICoreWebView2WebResourceRequestedEventArgs") ∈ G ->
  typed G (CustomScheme_Invoke g junk sender args) (fun G' _ => True).
Proof.
  intros Hs Ha. unfold CustomScheme_Invoke. tstep; [|done].
  match goal with |- typed ?g _ _ => set (G1 := g) end.
  assert (Hs1 : (sender, "ICoreWebView2") ∈ G1) by tmem.
  assert (Ha1 : (args, "ICoreWebView2WebResourceRequestedEventArgs") ∈ G1) by tmem.
  assert (Hr1 : (q, "ICoreWebView2WebResourceRequest") ∈ G1) by tmem. clearbody G1. clear Hs Ha.
  apply typed_call. intros [hr2 o] _. eexists. split; [tcall|].
  destruct o as [[p w]|]; [|repeat tstep; done]. destruct (FAILED _); [repeat tstep; done|].
  destruct (is_suneido_uri w); [|repeat tstep; done]. apply typed_bind.
  eapply typed_mono; [|by apply typed_extends, serve_typed].
  intros G' o [_ HG]. apply HG in Hr1. repeat tstep; done.
Qed.

(** The operations of Go. *)
Lemma operation_typed G b text buffer op a2 a3 : op <> webview2_create -> op <> webview2_close -> object_typed G b ->
  typed G (WebView2 (the_object b text buffer) op 0 a2 a3 0 0) (fun _ _ => True).
Proof.
  intros H0 H1 [Hc _]. unfold WebView2. rewrite (proj2 (Z.eqb_neq _ _) H0), (proj2 (Z.eqb_neq _ _) H1).
  unfold Resize, Navigate, NavigateToString, ExecuteScript, GetSource, DoPrint, SetFocus, code. cbn [object_at the_object].
  destruct (Z.eqb_spec (controller b) 0) as [E|E]; [repeat (case_match; [done|]); done|].
  destruct (Hc E) as [Hc' Hw']. clear Hc.
  destruct (op =? webview2_resize)%Z; [repeat tstep; done|]. destruct (op =? webview2_navigate)%Z; [repeat tstep; done|].
  destruct (op =? webview2_navigate_to_string)%Z; [repeat tstep; done|].
  destruct (op =? webview2_execute_script)%Z; [repeat tstep; done|].
  destruct (op =? webview2_get_source)%Z.
  { apply typed_bind. tstep. destruct (SUCCEEDED _); [|repeat tstep; done].
    apply typed_then; [unfold ConvertWcharToChar; plain_calls|]. intros converted. repeat tstep; done. }
  destruct (op =? webview2_print)%Z; [repeat tstep; done|]. destruct (op =? webview2_set_focus)%Z; repeat tstep; done.
Qed.

(** The options' registrations. *)
Definition options_typed (G : tenv) (o : Options) : Prop :=
  match m_customSchemeRegistrations o with Some (_, l) => forall p, p ∈ l -> exists i, (p, i) ∈ G | None => True end.

Lemma options_typed_extends G G' o : G ⊆ G' -> options_typed G o -> options_typed G' o.
Proof.
  unfold options_typed. intros HG. destruct (m_customSchemeRegistrations o) as [[p l]|]; [|done].
  intros Hl q Hq. destruct (Hl q Hq) as [i Hi]. eauto.
Qed.

Lemma MyString_destroy_typed G s : typed G (MyString_destroy s) (fun G' _ => G' = G).
Proof. apply typed_other. unfold MyString_destroy, MyString_Release. plain_calls. Qed.

Lemma ReleaseRegistrations_typed G o : options_typed G o ->
  typed G (ReleaseCustomSchemeRegistrations o) (fun G' o' => G' = G /\ options_typed G o').
Proof.
  unfold ReleaseCustomSchemeRegistrations, options_typed. destruct (m_customSchemeRegistrations o) as [[p l]|] eqn:E; intros Ho.
  - apply typed_bind. eapply typed_mono; [|apply release_all_typed].
    + intros G' ? ->. tstep. by split.
    + intros q Hq. apply Ho. rewrite <- (take_drop (Z.to_nat (m_customSchemeRegistrationsCount o)) l). apply elem_of_app. by left.
  - split; [done|]. by rewrite E.
Qed.

Lemma release_options_typed G p i o : (p, i) ∈ G -> options_typed G o ->
  typed G (release_options p o) (fun G' _ => G' = G).
Proof.
  intros Hp Ho. unfold release_options. tstep. destruct (_ =? 0)%Z; [|done]. apply typed_bind.
  eapply typed_mono with (Q1 := fun G' _ => G' = G); [by intros G' ? ->|]. unfold Options_destroy. apply typed_bind.
  eapply typed_mono; [|by apply ReleaseRegistrations_typed]. intros G' o' [-> _].
  do 2 (apply typed_bind; eapply typed_mono; [|apply MyString_destroy_typed]; intros G' ? ->).
  apply MyString_destroy_typed.
Qed.

Lemma addref_all_typed G l : (forall p, p ∈ l -> exists i, (p, i) ∈ G) -> typed G (addref_all l) (fun G' _ => G' = G).
Proof.
  induction l as [|p l IH]; intros Hl; cbn [addref_all]; [done|].
  destruct (Hl p) as [i Hp]; [apply list_elem_of_here|]. tstep. apply IH. intros q Hq. apply Hl. by apply list_elem_of_further.
Qed.

Lemma SetRegistrations_typed G o l : options_typed G o -> (forall p, p ∈ l -> exists i, (p, i) ∈ G) ->
  typed G (SetCustomSchemeRegistrations o l) (fun G' r => G' = G /\ options_typed G r.2).
Proof.
  intros Ho Hl. unfold SetCustomSchemeRegistrations. apply typed_bind.
  eapply typed_mono; [|by apply ReleaseRegistrations_typed]. intros G' o' [-> _]. tstep. destruct (negb _).
  - tstep. by split.
  - apply typed_bind. eapply typed_mono; [|by apply addref_all_typed]. intros G' ? ->. by split.
Qed.

Definition created_typed (G : tenv) (r : Z * option MyBrowserObject * option Options) : Prop :=
  match r.1.2 with Some b => controller b = 0%Z /\ webview2 b = 0%Z | None => True end.

Lemma release_handler_new G h i b : (h, i) ∈ G -> controller b = 0%Z -> webview2 b = 0%Z ->
  typed G (release_handler h b) (fun G' o => G' = G /\ from_option (fun b => controller b = 0%Z /\ webview2 b = 0%Z) True o).
Proof.
  intros Hh Hc Hw. unfold release_handler. tstep. destruct (_ =? 0)%Z; [|by split].
  apply typed_bind. unfold bo_Release. destruct (_ =? 0)%Z; [|by split]. apply typed_bind.
  eapply typed_mono; [|apply bo_destroy_typed; unfold object_typed; simpl; rewrite Hc, Hw; done].
  by intros G' ? ->.
Qed.

Lemma new_Options_typed G : typed G new_Options (fun G' o => G' = G /\ options_typed G o).
Proof.
  unfold new_Options. apply typed_bind. eapply typed_mono; [|apply typed_other].
  - by intros G' [r v] ->.
  - unfold MyString_Set, MyString_Release, MakeString. plain_calls.
Qed.

Lemma CreateWebView2_typed G hwnd dllPath folder cb : typed G (CreateWebView2 hwnd dllPath folder cb) created_typed.
Proof.
  unfold CreateWebView2. tstep. destruct (_ =? 0)%Z; [done|]. tstep. destruct (_ =? 0)%Z; [tstep; done|].
  eapply typed_new; [reflexivity|]. intros options _. apply typed_bind.
  eapply typed_mono; [|apply new_Options_typed]. intros G' o [-> Ho].
  eapply typed_new; [reflexivity|]. intros reg _. apply typed_bind.
  match goal with |- typed ?g _ _ => set (G1 := g) end.
  assert (Hreg : (reg, "ICoreWebView2CustomSchemeRegistration") ∈ G1) by tmem.
  assert (Hopt : (options, "ICoreWebView2EnvironmentOptions") ∈ G1) by tmem.
  apply (options_typed_extends _ G1) in Ho; [|intros x Hx; by apply list_elem_of_further]. clearbody G1.
  eapply typed_mono; [|apply SetRegistrations_typed].
  - intros G' [result o'] [-> Ho']. destruct (FAILED result).
    + apply typed_bind. eapply typed_mono; [|by eapply release_options_typed]. intros G' kept ->. repeat tstep. done.
    + tstep. cbn zeta. eapply typed_new; [reflexivity|]. intros handler _. tstep. apply typed_bind.
      match goal with |- typed ?g _ _ => set (G2 := g) end.
      eapply typed_mono; [|eapply (release_handler_new G2 handler); [apply list_elem_of_here|done..]].
      intros G' ob [-> Hob]. apply typed_bind.
      eapply typed_mono; [|eapply (release_options_typed G2 options); [apply list_elem_of_further, Hopt|]].
      * intros G' kept ->. tstep. tstep. exact Hob.
      * eapply options_typed_extends; [|exact Ho']. intros x Hx. by apply list_elem_of_further.
  - exact Ho.
  - intros p ->%list_elem_of_singleton. eauto.
Qed.

(** ** Sessions *)

(** The pointers a handler is called with have the types that [Invoke] of its interface
    declares - that of a completion handler only if what was asked for succeeded. *)
Definition handed (i : string) (args : list Z) : tenv :=
  match signature i "Invoke" with
  | Some (ts, _) => omap (fun '(t, p) => (fun j => (p, j)) <$> strip_suffix " *" t) (zip ts args)
  | None => []
  end.

Definition step_types (op : step) : tenv :=
  match op with
  | SEnvironment result env =>
      if FAILED result then [] else handed "ICoreWebView2CreateCoreWebView2EnvironmentCompletedHandler" [result; env]
  | SController result ctrl =>
      if FAILED result then [] else handed "ICoreWebView2CreateCoreWebView2ControllerCompletedHandler" [result; ctrl]
  | SAccelerator sender args => handed "ICoreWebView2AcceleratorKeyPressedEventHandler" [sender; args]
  | SContextMenu sender args => handed "ICoreWebView2ContextMenuRequestedEventHandler" [sender; args]
  | SLoaded sender args => handed "ICoreWebView2DOMContentLoadedEventHandler" [sender; args]
  | SNavigated sender args => handed "ICoreWebView2NavigationCompletedEventHandler" [sender; args]
  | SNewWindow sender args => handed "ICoreWebView2NewWindowRequestedEventHandler" [sender; args]
  | SRequest _ sender args => handed "ICoreWebView2WebResourceRequestedEventHandler" [sender; args]
  | _ => []
  end.

Definition session_typed (G : tenv) (o : option session) : Prop :=
  from_option (fun s => result_typed G (s_ob s)) True o.

Lemma typed_traced {T} (p : act T) Q : forall G, typed G p Q -> typed G (traced p) (fun G' r => Q G' r.1).
Proof.
  induction p as [x|a k IH]; intros G; cbn; [done|]. intros H r Hr. destruct (H r Hr) as (G' & Hc & Hk).
  exists G'. split; [done|]. apply (typed_bind (traced (k r)) _ _). eapply typed_mono; [|by apply IH].
  intros G2 [x tr]. done.
Qed.

Lemma step_typed g op s G : s_allowed op s = true -> result_typed G (s_ob s) -> step_types op ⊆ G ->
  typed G (session_step g op s) session_typed.
Proof.
  intros Hop Hob Hst.
  assert (Hp : forall p i, (p, i) ∈ step_types op -> (p, i) ∈ G) by auto. clear Hst.
  assert (Hkeep : forall {T} (p : act T) (f : T -> option session), typed G p (fun _ _ => True) ->
    (forall x, f x = Some s \/ f x = None) -> typed G (x ← p; Ret (f x)) session_typed).
  { intros T p f Hp' Hf. apply typed_bind. eapply typed_mono; [|by apply typed_extends].
    intros G' x [_ HG]. cbn. destruct (Hf x) as [-> | ->]; [|done]. unfold session_typed. cbn.
    destruct (s_ob s); [|done]. by eapply object_typed_extends. }
  destruct op; unfold session_step; cbn [step_types] in Hp.
  - destruct (s_ob s) as [b|]; [|done]. apply typed_bind.
    eapply typed_mono; [|apply typed_traced, CreateEnvironment_typed; [intros Hf; apply Hp; rewrite Hf; vm_compute; tlist|exact Hob]].
    intros G' [[[hr b']|] l] Hb'; [exact Hb'|exact I].
  - destruct (s_ob s) as [b|]; [|done]. apply typed_bind.
    eapply typed_mono; [|apply CreateController_typed; [intros Hf; apply Hp; rewrite Hf; vm_compute; tlist|exact Hob]].
    intros G' [[hr b']|] Hb'; [exact Hb'|exact I].
  - destruct (s_ob s) as [b|]; [|done]. apply typed_bind. eapply typed_mono; [|by apply bo_Release_typed].
    intros G' [n o] [-> Ho]. exact Ho.
  - destruct (s_ob s) as [b|]; [|done]. apply (Hkeep _ _ (fun _ => Some s)); [|by left].
    apply Accelerator_typed, Hp. vm_compute. tlist.
  - destruct (s_ob s) as [b|]; [|done]. apply (Hkeep _ _ (fun _ => Some s)); [|by left].
    apply ContextMenu_typed, Hp. vm_compute. tlist.
  - destruct (s_ob s) as [b|]; [|done]. apply (Hkeep _ _ (fun _ => Some s)); [|by left]. apply callback_typed.
  - destruct (s_ob s) as [b|]; [|done]. apply (Hkeep _ _ (fun _ => Some s)); [|by left]. apply callback_typed.
  - assert (H : typed G (NewWindow_Invoke sender args) (fun _ _ => True)) by (apply NewWindow_typed, Hp; vm_compute; tlist).
    destruct (s_ob s); (apply (Hkeep _ _ (fun _ => Some s)); [exact H|by left]).
  - assert (H : typed G (CustomScheme_Invoke g junk sender args) (fun _ _ => True))
      by (apply CustomScheme_typed; apply Hp; vm_compute; tlist).
    destruct (s_ob s); (apply Hkeep; [exact H|intros [[hr []]|]; auto]).
  - destruct (s_ob s) as [b|]; [|done]. cbn in Hop. rewrite !andb_true_iff, !negb_true_iff, !Z.eqb_neq in Hop.
    apply Hkeep; [apply operation_typed; tauto|intros []; auto].
  - destruct (s_ob s) as [b|]; [|done]. unfold Close, bo_Close. apply typed_bind, typed_bind.
    eapply typed_mono; [|apply bo_Release_typed; exact Hob]. intros G' [n o] [-> Ho]. exact Ho.
  - destruct (s_ob s) as [b|]; [|done]. apply typed_bind. eapply typed_mono; [|by apply bo_Release_typed].
    intros G' [n o] [-> Ho]. exact Ho.
Qed.

Lemma session_run_typed g ops : forall s G, result_typed G (s_ob s) -> (forall op, op ∈ ops -> step_types op ⊆ G) ->
  typed G (session_run g ops s) session_typed.
Proof.
  induction ops as [|op ops IH]; intros s G Hob Hops; cbn [session_run]; [exact Hob|].
  assert (Hops' : forall op', op' ∈ ops -> step_types op' ⊆ G) by (intros op' H; apply Hops; by apply list_elem_of_further).
  destruct (s_allowed op s) eqn:E; [|by apply IH]. apply typed_bind.
  eapply typed_mono; [|apply typed_extends, (step_typed g op s G E Hob), Hops, list_elem_of_here].
  intros G' [s'|] [Ho HG]; [|exact I]. apply IH; [exact Ho|]. intros op' Hop' x Hx. by apply HG, (Hops' op' Hop').
Qed.

(** What the typing is for: the call goes to an entry of the table of some interface, with as
    many arguments as it declares. *)
Definition dispatches (e : ev) : Prop :=
  match e with
  | Ev (Invoke _ m args) _ | Ev (Fetch _ m args) _ | Ev (GetValue _ m args) _ | Ev (GetString _ m args) _ =>
      exists i l f, layout 30 i = Some l /\ f ∈ l /\ m_name (e_method f) = m /\
        length (List.filter is_in (m_params (e_method f))) = length args
  | _ => True
  end.

Lemma signature_entry i m ts outs G args : signature i m = Some (ts, outs) -> Forall2 (conforms G) ts args ->
  exists i l f, layout 30 i = Some l /\ f ∈ l /\ m_name (e_method f) = m /\
    length (List.filter is_in (m_params (e_method f))) = length args.
Proof.
  unfold signature. destruct (layout 30 i) as [l|] eqn:El; [|done]. cbn [mbind option_bind].
  destruct (List.find _ l) as [f|] eqn:Ef; [|done]. cbn [mbind option_bind].
  destruct (mapM _ _) as [os|]; [|done]. intros [= <- <-] Hargs. apply find_some in Ef as [Hin Hm].
  exists i, l, f. split_and!; [done|by apply list_elem_of_In|by apply String.eqb_eq|].
  apply Forall2_length in Hargs. by rewrite length_fmap in Hargs.
Qed.

Lemma typed_trace_dispatches G tr G' : typed_trace G tr G' -> Forall dispatches tr.
Proof.
  induction 1 as [|tr G1 a r G2 _ IH Hc]; [constructor|]. apply Forall_app. split; [done|].
  constructor; [|constructor]. destruct Hc; cbn [dispatches]; eauto using signature_entry.
  destruct a; try done; match goal with H : on_object _ = false |- _ => by discriminate H end.
Qed.

(** ** Properties *)

Definition lent_types (ops : list step) : tenv := flat_map step_types ops.

(** What a well-typed history says of the calls: each is of a method that the interface of
    its pointer declares, with arguments of the declared types - strings for strings,
    enumerators of the parameter's enumeration, pointers to objects of the declared
    interface - so it goes to that entry of the object's table. *)
Definition well_typed (G0 : tenv) (tr : list ev) : Prop := (exists G, typed_trace G0 tr G) /\ Forall dispatches tr.

Lemma typed_well G0 tr G : typed_trace G0 tr G -> well_typed G0 tr.
Proof. intros H. split; [by exists G|by eapply typed_trace_dispatches]. Qed.

(** In any session, up to the first failure that the bridge is not prepared for, every call
    is well typed, and the browser object only ever holds a controller as its controller and
    a view as its view. *)
Theorem browser_life_typed g hwnd dllPath folder cb ops :
  every_run com_contract (browser_life g hwnd dllPath folder cb ops) []
    (until unprepared (fun '(_, o, _) tr => exists G, typed_trace (lent_types ops) tr G /\ Forall dispatches tr /\
       from_option (session_typed G) True o) (well_typed (lent_types ops))).
Proof.
  assert (Ht : typed (lent_types ops) (browser_life g hwnd dllPath folder cb ops) (fun G r =>
    from_option (session_typed G) True r.1.2)).
  { unfold browser_life. apply typed_bind. eapply typed_mono; [|apply typed_extends, CreateWebView2_typed].
    intros G [[result ob] kept] [Hob HG]. unfold created_typed in Hob. cbn in Hob. unfold start.
    destruct ob as [b|]; [|done]. apply typed_bind. eapply typed_mono; [|apply session_run_typed].
    - intros G' o Ho. exact Ho.
    - cbn. destruct Hob as [H1 H2]. unfold object_typed. by rewrite H1, H2.
    - intros op Hop x Hx. apply HG, list_elem_of_In, in_flat_map. exists op. by split; apply list_elem_of_In. }
  eapply every_run_mono; [|eapply (typed_run _ _ (lent_types ops)); [constructor|exact Ht|constructor]].
  intros x tr. apply until_mono; [|intros t [G HG]; by eapply typed_well].
  intros [[result o] kept] t (G & Htr & Ho). exists G. split_and!; [done| |done]. by eapply typed_trace_dispatches.
Qed.
