(* ===== verification/NestedTyping.v ===== *)
(** * The types of interface pointers when Go acts inside the handlers

    WvTyping checks the calls of a session in which Go acts between the calls of the
    runtime.  In the lives of Reentry other steps run inside a handler, and so the handler
    continues with more pointers known than before - and with a browser object that may
    have changed.  The calls of all of them are still well typed. *)

From S2P Require Import Prelude Text Prog Win32 Accounting RefCount AppBridge SunApp WvApi WvHelpers WvObject WvLife WvScheme WvOptions WvCreate WvRequest WvOps WvSession WvTyping Reentry.

(** ** More pointers do no harm *)

Lemma conforms_extends G G' t a : G ⊆ G' -> conforms G t a -> conforms G' t a.
Proof. intros HG. destruct a; cbn [conforms]; try done. intros [?|(i & Hi & [?|?])]; eauto 6. Qed.

Lemma conforms_all_extends G G' ts args : G ⊆ G' -> Forall2 (conforms G) ts args -> Forall2 (conforms G') ts args.
Proof. intros HG H. eapply Forall2_impl; [exact H|]. intros t a. by apply conforms_extends. Qed.

#[local] Hint Resolve conforms_all_extends : core.

Lemma call_types_weaken G G' a r G1 : G ⊆ G' -> call_types G a r G1 ->
  exists G1', call_types G' a r G1' /\ G1 ⊆ G1'.
Proof.
  intros HG Hc. assert (Hcons : forall x, x :: G ⊆ x :: G').
  { intros x y. rewrite !elem_of_cons. intros [->|Hy]; auto. }
  destruct Hc; eexists; (split; [|first [apply Hcons | exact HG]]); econstructor; eauto.
Qed.

Lemma typed_weaken {T} (p : act T) Q : forall G G', G ⊆ G' -> typed G p Q ->
  typed G' p (fun G2' x => exists G2, Q G2 x /\ G2 ⊆ G2').
Proof.
  induction p as [x|a k IH]; cbn; intros G G' HG Hp; [by exists G|]. intros r Hr.
  destruct (Hp r Hr) as (G1 & Hc & Hk). destruct (call_types_weaken _ _ _ _ _ HG Hc) as (G1' & Hc' & HG1). eauto.
Qed.

(** ** Programs with other code inside *)

(** What [go] needs of its state, with whatever pointers are known. *)
Definition lasting {W} (I : tenv -> W -> Prop) : Prop := forall G G' w, G ⊆ G' -> I G w -> I G' w.

Definition keeps_types {W} (I : tenv -> W -> Prop) (go : W -> act (option W)) : Prop :=
  forall G w, I G w -> typed G (go w) (fun G' o => from_option (I G') True o).

Lemma around_typed {W A} (I : tenv -> W -> Prop) enters (go : nat -> W -> act (option W)) (p : act A) Q :
  lasting I -> (forall n, keeps_types I (go n)) -> forall n w G0 G, G0 ⊆ G -> I G w -> typed G0 p Q ->
  typed G (around enters go n p w) (fun G' o =>
    from_option (fun r => I G' r.2 /\ exists G2, Q G2 r.1 /\ G2 ⊆ G') True o).
Proof.
  intros HI Hgo. induction p as [x|a k IH]; cbn; intros n w G0 G HG Hw Hp; [split; [done|by exists G0]|].
  intros r Hr. destruct (Hp r Hr) as (G1 & Hc & Hk). destruct (call_types_weaken _ _ _ _ _ HG Hc) as (G1' & Hc' & HG1).
  exists G1'. split; [done|]. apply call_types_extends in Hc'. pose proof (HI G G1' w Hc' Hw) as Hw1.
  destruct (enters a); [|by eapply (IH r)]. apply (typed_bind (go n w) _ _).
  eapply typed_mono; [|apply typed_extends, (Hgo n G1' w Hw1)]. intros G2 [w2|] [Hw2 HG2]; [|exact Logic.I].
  eapply (IH r); [|exact Hw2|exact Hk]. by etrans.
Qed.

(** ** The steps *)

(** The handler for the environment, whatever it does when Go is told. *)
Lemma create_environment_typed {X} (I : tenv -> X -> Prop) tell kept drop b hwnd result env G :
  (FAILED result = false -> (env, "ICoreWebView2Environment") ∈ G) -> object_typed G b ->
  (forall G' ob st res, G ⊆ G' -> object_typed G' ob -> typed G' (tell ob st res []) I) ->
  (forall G' ob, G ⊆ G' -> object_typed G' ob -> I G' (kept ob)) ->
  (forall G' h i x, (h, i) ∈ G' -> I G' x -> typed G' (drop h x) I) ->
  typed G (create_environment tell kept drop b hwnd result env) I.
Proof.
  intros He Hob Ht Hk Hd. unfold create_environment. rewrite FAILED_negb in He. destruct (SUCCEEDED result); [|by apply Ht].
  specialize (He eq_refl). eapply typed_new; [reflexivity|]. intros h _. cbn zeta.
  match goal with |- typed ?g _ _ => set (G1 := g) end.
  assert (HG1 : G ⊆ G1) by (intros x Hx; by apply list_elem_of_further). apply (object_typed_extends G G1 _ HG1) in Hob.
  tstep. rename r into rtn. apply typed_bind. eapply typed_mono with (Q1 := fun G' x => I G' x /\ G1 ⊆ G').
  - intros G' x [Hx HG]. eapply Hd; [apply HG, list_elem_of_here|exact Hx].
  - apply typed_extends. destruct (FAILED rtn); [by apply Ht|by apply Hk].
Qed.

Section lent.
Context (G0 : tenv).

(** The pointers [G0] that the runtime lends to the steps are known, and the browser object
    of the session is typed. *)
Definition s_typed (G : tenv) (s : session) : Prop := G0 ⊆ G /\ result_typed G (s_ob s).

Lemma result_typed_extends G G' o : G ⊆ G' -> result_typed G o -> result_typed G' o.
Proof. intros HG. destruct o; [by apply object_typed_extends|done]. Qed.

Lemma s_typed_lasting : lasting s_typed.
Proof using. intros G G' s HG [H0 Hs]. split; [by etrans|by eapply result_typed_extends]. Qed.

Definition o_typed (G : tenv) (o : option session) : Prop := from_option (s_typed G) True o.

Lemma session_o_typed (p : act (option session)) G : G0 ⊆ G -> typed G p session_typed -> typed G p o_typed.
Proof using.
  intros H0 Hp. eapply typed_mono; [|by apply typed_extends]. intros G' [s|] [Ho HG]; [|done]. split; [by etrans|exact Ho].
Qed.

(** An event or a request, with [go] inside. *)
Lemma with_go_typed {A B} go (p : act A) (f : option (A * session) -> option B) (I : tenv -> B -> Prop) G s :
  keeps_types s_typed go -> s_typed G s -> typed G p (fun _ _ => True) ->
  (forall G' o, from_option (fun r => s_typed G' r.2) True o -> from_option (I G') True (f o)) ->
  typed G (o ← with_go go p s; Ret (f o)) (fun G' o => from_option (I G') True o).
Proof using.
  intros Hgo Hs Hp Hf. apply typed_bind. eapply typed_mono; [|eapply (around_typed s_typed enters_go (fun _ => go));
    [apply s_typed_lasting|intros _; exact Hgo|reflexivity|exact Hs|exact Hp]].
  intros G' o Ho. cbn [typed]. apply Hf. destruct o as [[x s']|]; [|done]. apply Ho.
Qed.

Lemma event_typed {A} go (p : act A) G s : keeps_types s_typed go -> s_typed G s -> typed G p (fun _ _ => True) ->
  typed G (o ← with_go go p s; Ret (option_map snd o)) o_typed.
Proof using. intros Hgo Hs Hp. apply with_go_typed; [done..|]. intros G' [[x s']|] Ho; [exact Ho|done]. Qed.

Lemma tell_go_typed go s e G : keeps_types s_typed go -> G0 ⊆ G -> object_typed G (e_ob e) ->
  (forall p, p ∈ e_views e -> exists i, (p, i) ∈ G) -> typed G (tell_go go s e) o_typed.
Proof using.
  intros Hgo H0 Hob Hv. unfold tell_go. apply typed_bind.
  eapply typed_mono with (Q1 := fun G' o => o_typed G' o /\ G ⊆ G').
  - intros G' [s'|] [Ho HG]; [|exact I]. apply typed_bind. eapply typed_mono; [|apply release_all_typed].
    + intros G2 x ->. exact Ho.
    + intros p Hp. destruct (Hv p Hp) as [i Hi]. exists i. by apply HG.
  - apply typed_extends. destruct (c_true _); [|by split]. apply typed_bind. eapply typed_mono; [|apply onReady_typed].
    intros G' x ->. apply Hgo. by split.
Qed.

Lemma release_step_typed g s G : s_typed G s -> typed G (session_step g SRelease s) o_typed.
Proof using.
  intros [H0 Hs]. apply session_o_typed; [done|]. unfold session_step. destruct (s_ob s) as [b|]; [|done]. apply typed_bind.
  eapply typed_mono; [|by apply bo_Release_typed]. intros G' [n o] [-> Ho]. exact Ho.
Qed.

Lemma drop_nested_typed g h i o G : (h, i) ∈ G -> o_typed G o -> typed G (drop_nested g h o) o_typed.
Proof using.
  intros Hh Ho. destruct o as [s|]; [|done]. unfold drop_nested. tstep. destruct (_ =? 0)%Z; [by apply release_step_typed|exact Ho].
Qed.

Lemma nested_step_typed g go busy op s G : (forall busy, keeps_types s_typed (go busy)) -> n_allowed busy op s = true ->
  s_typed G s -> step_types op ⊆ G0 -> typed G (nested_step g go busy op s) o_typed.
Proof using.
  intros Hgo Hop Hs Hst. pose proof Hs as [H0 Hob]. assert (Hp : forall p i, (p, i) ∈ step_types op -> (p, i) ∈ G) by auto.
  assert (Hplain : op <> SRelease -> typed G (session_step g op s) o_typed).
  { intros Hr. apply session_o_typed; [done|]. apply step_typed; [by destruct op|done|by etrans]. }
  destruct op; try (apply Hplain; discriminate); try (unfold nested_step; destruct (s_ob s) as [b|]; [|by apply Hplain]).
  - apply create_environment_typed; [intros Hf; apply Hp; cbn [step_types]; rewrite Hf; vm_compute; tlist|exact Hob| | |].
    + intros G' ob st res HG Ho. apply tell_go_typed; [apply Hgo|by etrans|exact Ho|intros p Hp'; by apply elem_of_nil in Hp'].
    + intros G' ob HG Ho. split; [by etrans|exact Ho].
    + intros G' h i x. apply drop_nested_typed.
  - apply typed_bind. eapply typed_mono; [|apply typed_extends, create_controller_typed; [intros Hf; apply Hp; cbn [step_types]; rewrite Hf; vm_compute; tlist|exact Hob]].
    intros G' [e|] [Ho HG]; [|done]. destruct Ho as [He Hv]. apply tell_go_typed; [apply Hgo|by etrans|done..].
  - apply event_typed; [apply Hgo|exact Hs|]. apply Accelerator_typed, Hp. vm_compute. tlist.
  - apply event_typed; [apply Hgo|exact Hs|]. apply ContextMenu_typed, Hp. vm_compute. tlist.
  - apply event_typed; [apply Hgo|exact Hs|]. apply callback_typed.
  - apply event_typed; [apply Hgo|exact Hs|]. apply callback_typed.
  - assert (H : typed G (o ← with_go (go busy) (CustomScheme_Invoke g junk sender args) s;
      Ret (match o with Some (Some (_, true), s) => Some s | _ => None end)) o_typed).
    { apply with_go_typed; [apply Hgo|exact Hs| |].
      - apply CustomScheme_typed; apply Hp; vm_compute; tlist.
      - intros G' [[[[hr []]|] s']|] Ho; try done; exact Ho. }
    unfold nested_step. by destruct (s_ob s).
  - unfold nested_step. destruct (s_ob s); by apply release_step_typed.
Qed.

Lemma nested_run_typed g l : (forall op, op ∈ steps_of l -> step_types op ⊆ G0) ->
  forall busy, keeps_types s_typed (nested_run g l busy).
Proof using.
  induction l as [|op inside IHi rest IHr]; intros Hl busy G s Hs; cbn [nested_run steps_of] in *; [exact Hs|].
  assert (Hi : forall op, op ∈ steps_of inside -> step_types op ⊆ G0).
  { intros op' H. apply Hl, list_elem_of_further, elem_of_app. by left. }
  assert (Hr : forall op, op ∈ steps_of rest -> step_types op ⊆ G0).
  { intros op' H. apply Hl, list_elem_of_further, elem_of_app. by right. }
  destruct (n_allowed busy op s) eqn:E; [|by apply IHr]. apply typed_bind.
  eapply typed_mono; [|apply (nested_step_typed g (nested_run g inside) busy op s G (IHi Hi) E Hs), Hl, list_elem_of_here].
  intros G' [s'|] Ho; [|done]. by apply IHr.
Qed.
End lent.

(** ** Properties *)

(** What is proved of a whole life that begins with the types [base]. *)
Definition life_typed (base : tenv) (r : Z * option (option session) * option Options) (tr : list ev) : Prop :=
  exists G, typed_trace base tr G /\ Forall dispatches tr /\ from_option (session_typed G) True r.1.2.

(** C14: In the life of a browser in which Go acts inside the handlers, to any depth - and
    whatever the runtime, Windows and Go answer - every call is of a method that the
    interface of its pointer declares, with arguments of the declared types, and so goes
    to that entry of the object's table: also the calls a handler makes after Go has
    closed the browser or let other handlers run.  A pointer only has a type if the call
    that was to hand it out succeeded and it is not null; so this also says that no pointer
    is used that was not obtained.  The browser object only ever holds a controller as its
    controller and a view as its view.  All of it holds up to the first failure that the bridge
    is not prepared for ([unprepared]), if there is one. *)
Theorem nested_life_typed g hwnd dllPath folder cb l :
  every_run com_contract (nested_life g hwnd dllPath folder cb l) []
    (until unprepared (life_typed (lent_types (steps_of l))) (well_typed (lent_types (steps_of l)))).
Proof.
  assert (Ht : typed (lent_types (steps_of l)) (nested_life g hwnd dllPath folder cb l) (fun G r =>
    from_option (session_typed G) True r.1.2)).
  { unfold nested_life. apply typed_bind. eapply typed_mono; [|apply typed_extends, CreateWebView2_typed].
    intros G [[result ob] kept] [Hob HG]. unfold created_typed in Hob. cbn in Hob. unfold start.
    destruct ob as [b|]; [|done]. apply typed_bind.
    eapply typed_mono; [|apply (nested_run_typed (lent_types (steps_of l))); [|split; [exact HG|]]].
    - intros G' [s|] Ho; [apply Ho|done].
    - intros op Hop x Hx. apply list_elem_of_In, in_flat_map. exists op. by split; apply list_elem_of_In.
    - cbn. destruct Hob as [H1 H2]. unfold object_typed. by rewrite H1, H2. }
  eapply every_run_mono; [|eapply (typed_run _ _ (lent_types (steps_of l))); [constructor|exact Ht|constructor]].
  intros x tr. apply until_mono; [|intros t [G HG]; by eapply typed_well].
  intros [[result o] kept] t (G & Htr & Ho). exists G. split_and!; [done| |done]. by eapply typed_trace_dispatches.
Qed.
