(* ===== verification/GoBridge.v ===== *)
(** * The Go side of the bridge (goc.go, wingui.go, sunapp_wingui.go, webbrowser2_wingui.go)

    The functions of goc.go that hand values to C, and the two built-ins that use them
    most: [sunAPP], which makes the pages of [suneido:] addresses, and [WebBrowser2].
    They compose the models of the C functions with the callbacks of Callbacks and the
    values of ComObject. *)

From S2P Require Import Prelude Callbacks Prog Win32 Accounting AppBridge ComDispatch ComObject CSide WvApi WvHelpers WvObject WvScheme WvOptions WvCreate WvRequest WvOps.

(** ** goc.go: strings, message boxes, the end *)

(** [zstr] and [C.CString]: a copy with a terminator; the second is [malloc]ed for C to
    free. *)
Definition zstr (s : list Z) : list Z := s ++ [0%Z].

Definition CString (s : list Z) : act Z := call (c_malloc (Z.of_nat (length s) + 1)).

(** [CreateInstance] adds two zeros. *)
Definition progid_buffer (progid : list Z) : list Z := progid ++ [0; 0]%Z.

(** [junk] is what the C function's uninitialised result holds. *)
Definition Alert (gui : bool) (junk : Z) (s : list Z) : act unit :=
  if gui then p ← CString s; _ ← alert junk p 0; Ret tt else Ret tt.

Definition IDCANCEL : Z := 2.

Definition AlertCancel (gui : bool) (junk : Z) (s : list Z) : act bool :=
  if gui then p ← CString s; r ← alert junk p 1; Ret (negb (IDCANCEL =? r)%Z) else Ret true.

(** [fatalOnce] is whether it was done; the text is shown without its last character.
    The result is the new [fatalOnce]. *)
Definition Fatal (gui fatalOnce : bool) (junk : Z) (s : list Z) : act (panics bool) :=
  if gui then
    if fatalOnce then Ret (inl true)
    else
      match s with
      | [] => Ret (inr (WrongUse "slice bounds out of range"))
      | _ => p ← CString (take (length s - 1) s); _ ← fatal junk p; Ret (inl true)
      end
  else Ret (inl fatalOnce).

(** [Interrupt]: [None] when the process has ended. *)
Definition Interrupt : act (option bool) :=
  o ← interrupt;
  Ret (match (o : option CSide.outcome) with Some (Returns v) => Some (v =? 1)%Z | _ => None end).

(** [MessageLoop]; the loop of C with its fuel. *)
Definition MessageLoop (fuel : nat) (a : ComValue) : act (panics (option Z)) :=
  match ToInt a with
  | None => Ret (inr (WrongUse "can't convert to integer"))
  | Some n => r ← message_loop fuel (u64 n); Ret (inl r)
  end.

(** ** sunapp_wingui.go *)

Section sunapp.

(** [MainThread], and what [fmt.Sprint] writes of what was panicked with. *)
Context (MainThread : Z) (sprint : Z -> list Z).

(** The panics of [ToStr]: of nothing, and of what is no string. *)
Definition nil_value : Z := -2.
Definition not_string : Z := -3.

Definition returned_string (x : returned) : list Z + Z :=
  match x with
  | RVal _ (Some s) => inl s
  | RNil => inr nil_value
  | _ => inr not_string
  end.

Definition SuneidoApp_error : list Z := [83; 117; 110; 101; 105; 100; 111; 65; 112; 112; 40]%Z.  (* SuneidoApp( *)

(** The recovered error; [41] is the parenthesis. *)
Definition error_page (url : list Z) (e : Z) : list Z := SuneidoApp_error ++ url ++ [41]%Z ++ sprint e.

Definition sunAPP (url : list Z) : go (list Z) :=
  state ← go_call (GetState MainThread);
  f ← go_call (GetName MainThread "SuneidoAPP");
  result ← (match f with
            | inr e => Ret (error_page url e)
            | inl f =>
                x ← go_call (ThCall MainThread f url);
                Ret (match x with
                     | Panics e => error_page url e
                     | Returned x => match returned_string x with inl s => s | inr e => error_page url e end
                     end)
            end);
  _ ← go_call (RestoreState MainThread state);
  Ret result.

End sunapp.

(** ** webbrowser2_wingui.go *)

(** [truncToInt]; [trunc] is the number without its fraction when the value is a decimal
    number. *)
Definition truncToInt (trunc : option Z) (x : ComValue) : option Z :=
  match trunc with Some n => Some n | None => ToInt x end.

Definition intArg (trunc : option Z) (x : ComValue) : panics Z :=
  match x with
  | VBool true => inl 1%Z
  | VBool false => inl 0%Z
  | _ => match truncToInt trunc x with
         | Some n => inl (u64 n)
         | None => inr (WrongUse "can't convert to integer")
         end
  end.

Definition intRet (rtn : Z) : ComValue := VNum (Some (i64 rtn)).

(** What the built-in gives: the object around the pointer that was stored, an error code,
    a panic, or the end of the process.  [kept] are the options the runtime keeps;
    with an error code [lost] is the browser object that was stored. *)
Inductive wb2_result :=
| Wb2 (iOleObject : option MyBrowserObject) (kept : option Options)
| Wb2Error (rtn : ComValue) (lost : option MyBrowserObject) (kept : option Options)
| Wb2Panic
| Wb2Exit.

Section webbrowser2.
Context (goCallback : nat -> nat -> Z) (deref : Z -> Z * Z).

(** The arguments are evaluated from left to right, so that the callback is made last.
    [dll] is the address of the copy of a string. *)
Definition WebBrowser2 (now th : Z) (trunc : option Z) (hwnd dllPath userDataFolder : ComValue) (cb : Value) (dll : list Z -> Z)
    (s : state) : act (wb2_result * state) :=
  match intArg trunc hwnd, ToStr dllPath, ToStr userDataFolder with
  | inl w, Some path, Some folder =>
      match NewCallback goCallback deref now th cb 4 s with
      | Done fn s =>
          '(rtn, ob, kept) ← CreateWebView2 w (dll (zstr path)) (c_str (zstr folder)) fn;
          if negb (rtn =? 0)%Z then Ret (Wb2Error (intRet rtn) ob kept, s)
          else Ret (Wb2 ob kept, s)
      | Panic _ => Ret (Wb2Panic, s)
      | Exit _ => Ret (Wb2Exit, s)
      end
  | _, _, _ => Ret (Wb2Panic, s)
  end.

(** The methods.  A panic is [inr]; [web2_Release] gives what is left of the object too. *)
Definition web2_Release (wb : MyBrowserObject) : act (ComValue * option MyBrowserObject) :=
  '(rtn, ob) ← Close wb; Ret (intRet rtn, ob).

Definition with_ints (w h : ComValue) (f : Z -> Z -> act Z) : act (panics ComValue) :=
  match ToInt w, ToInt h with
  | Some w, Some h => rtn ← f w h; Ret (inl (intRet rtn))
  | _, _ => Ret (inr (WrongUse "can't convert to integer"))
  end.

Definition with_string (s : ComValue) (f : list Z -> act Z) : act (panics ComValue) :=
  match ToStr s with
  | Some s => rtn ← f (c_str (zstr s)); Ret (inl (intRet rtn))
  | None => Ret (inr (WrongUse "can't convert to String"))
  end.

Definition web2_Resize (wb : MyBrowserObject) (w h : ComValue) : act (panics ComValue) :=
  with_ints w h (fun w h => Resize wb (i32 w) (i32 h)).

Definition web2_Navigate (wb : MyBrowserObject) (s : ComValue) : act (panics ComValue) := with_string s (Navigate wb).

Definition web2_NavigateToString (wb : MyBrowserObject) (s : ComValue) : act (panics ComValue) :=
  with_string s (NavigateToString wb).

Definition web2_ExecuteScript (wb : MyBrowserObject) (script : ComValue) : act (panics ComValue) :=
  with_string script (ExecuteScript wb).

(** [None]: C has crashed. *)
Definition web2_GetSource (wb : MyBrowserObject) : act (option ComValue) :=
  o ← GetSource wb (replicate (Z.to_nat MAX_PATH) 0%Z);
  Ret (match o with
       | Some (rtn, buf) => Some (VStr (if (rtn =? 0)%Z then c_str buf else []))
       | None => None
       end).

Definition web2_Print (wb : MyBrowserObject) : act ComValue := rtn ← DoPrint wb; Ret (intRet rtn).

Definition web2_SetFocus (wb : MyBrowserObject) : act ComValue := rtn ← SetFocus wb; Ret (intRet rtn).

End webbrowser2.

(** ** Lemmas *)

Lemma c_str_app s t : Forall (fun b => b <> 0%Z) s -> c_str (s ++ t) = s ++ c_str t.
Proof.
  induction 1 as [|b s Hb _ IH]; simpl; [done|]. rewrite (proj2 (Z.eqb_neq b 0)) by done. by rewrite IH.
Qed.

(** C takes a string of Go up to its first zero byte. *)
Lemma c_str_zstr s : c_str (zstr s) = c_str s.
Proof. unfold zstr. induction s as [|b s IH]; simpl; [done|]. destruct (b =? 0)%Z; [done|]. by rewrite IH. Qed.

Lemma alert_even C junk p bor tr R B : Acct bor tr R (block_of p ++ B) -> forall type,
  every_run C (alert junk p type) tr (fun _ tr' => Acct bor tr' R B).
Proof.
  intros HA type. unfold alert, msgbox, message_thread. cbn. intros thread _. acct_step HA.
  assert (Hfree : forall tr', Acct bor tr' R (block_of p ++ B) -> Acct bor (tr' ++ [Ev (c_free p) tt]) R B).
  { intros tr' HA'. unfold block_of in HA'. destruct (c_true p) eqn:Ep.
    - apply c_true_spec in Ep. cbn in HA'. by apply (Acct_free _ _ _ _ HA' p tt B).
    - apply c_true_0 in Ep as ->. cbn in HA'. eapply Acct_snoc; [exact HA'|done|..]; intros q; cbn -[occ]; lia. }
  destruct (c_true thread); cbn.
  - intros r _. acct_step HA. intros w _. acct_step HA. intros [] _. by apply Hfree.
  - intros [] _. by apply Hfree.
Qed.

(** What a message box answered. *)
Definition pressed (tr : list ev) : list Z :=
  omap (fun e => match e with
                 | Ev a r => match a return Ans a -> option Z with MessageBox _ _ _ => fun r => Some r | _ => fun _ => None end r
                 end) tr.

Lemma alert_cancel_ok gui junk s :
  every_run any_answer (AlertCancel gui junk s) [] (fun ok tr => Acct [] tr [] [] /\
    ((tr = [] /\ gui = false /\ ok = true) \/
     (gui = true /\ ((exists r, pressed tr = [r] /\ ok = negb (r =? IDCANCEL)%Z) \/
                     (pressed tr = [] /\ ok = negb (junk =? IDCANCEL)%Z))))).
Proof.
  unfold AlertCancel. destruct gui; [|split; [apply Acct_nil|by left]].
  apply every_run_and.
  - cbn -[alert]. intros p _. apply every_run_bind.
    eapply every_run_mono; [|apply (alert_even _ junk p [] _ [] [])]; [done|].
    apply (Acct_malloc_block [] [] [] []), Acct_nil.
  - cbn -[Z.eqb]. intros p _ thread _. destruct (c_true thread); cbn -[Z.eqb].
    + intros r _ w _ [] _. right. split; [done|]. left. exists r. split; [done|]. f_equal. apply Z.eqb_sym.
    + intros [] _. right. split; [done|]. right. split; [done|]. f_equal. apply Z.eqb_sym.
Qed.

(** ** Properties *)

(** Asking the user: [AlertCancel] is true unless the message box was answered with
    Cancel - without a window system it is true at once - and the copy of the text that
    C gets is freed on every path.  Only when the box could not be shown does it depend
    on what the stack held. *)
Theorem alert_cancel gui junk s :
  every_run any_answer (AlertCancel gui junk s) [] (fun ok tr => Acct [] tr [] [] /\
    ((tr = [] /\ gui = false /\ ok = true) \/
     (gui = true /\ ((exists r, pressed tr = [r] /\ ok = negb (r =? IDCANCEL)%Z) \/
                     (pressed tr = [] /\ ok = negb (junk =? IDCANCEL)%Z))))).
Proof. apply alert_cancel_ok. Qed.

(** ** The pages Go makes *)

Section sunapp_ok.
Context (MainThread : Z) (sprint : Z -> list Z).

(** C38: Go always has an answer for a [suneido:] address, on the main thread: the string
    that the function [SuneidoAPP] returned, or a text that names the address and the
    error, whatever went wrong - the function does not exist or cannot be compiled, it
    panicked, it returned nothing or no string - and the state of the thread is restored
    last in every case. *)
Theorem sunAPP_answers url :
  every_run any_answer (sunAPP MainThread sprint url) [] (fun page tr =>
    exists st f mid, tr = Ev (GetState MainThread) st :: Ev (GetName MainThread "SuneidoAPP") f ::
        mid ++ [Ev (RestoreState MainThread st) tt] /\
      match f with
      | inr e => mid = [] /\ page = error_page sprint url e
      | inl f => exists x, mid = [Ev (ThCall MainThread f url) x] /\
          match x with
          | Returned (RVal _ (Some s)) => page = s
          | Panics e => page = error_page sprint url e
          | Returned x => exists e, returned_string x = inr e /\ page = error_page sprint url e
          end
      end).
Proof.
  unfold sunAPP. cbn -[error_page]. intros st _ f _. destruct f as [f|e]; cbn -[error_page].
  - intros x _ [] _. exists st, (inl f), [Ev (ThCall MainThread f url) x]. split; [done|]. exists x. split; [done|].
    destruct x as [[| | |n [s|]]|e]; cbn -[error_page]; eauto.
  - intros [] _. by exists st, (inr e), [].
Qed.
End sunapp_ok.

(** ** WebBrowser2 *)

Section webbrowser2_ok.
Context (goCallback : nat -> nat -> Z) (deref : Z -> Z * Z).
Context (Hg : forall nargs i, goCallback nargs i <> 0%Z).

(** The pointer [fn] is one that runs [cb] on [th], or the number that was given. *)
Definition runs_callback (s : state) (fn : Z) (th : Z) (cb : Value) : Prop :=
  (exists n, cb = Number (Some n) /\ fn = u64 n) \/
  (is_function cb /\ exists i, fn = goCallback 4 i /\ forall now, callv now 4 i s = Some (false, th, cb)).

Lemma NewCallback_runs now th cb s fn s' : inv goCallback deref s ->
  NewCallback goCallback deref now th cb 4 s = Done fn s' ->
  inv goCallback deref s' /\ runs_callback s' fn th cb.
Proof using Hg.
  intros Hs HN. assert (Hnum : (exists n, cb = Number n) \/ is_function cb) by (destruct cb; simpl; eauto).
  destruct Hnum as [[[n|] ->]|Hf]; cbn in HN; [|done|].
  - injection HN as <- <-. split; [done|]. left. by exists n.
  - pose proof (NewCallback_ok goCallback deref Hg now th cb 4 s Hs Hf) as H. rewrite HN in H.
    destruct H as (n & k & l & c & H4 & Hn & Hk & _ & _ & _ & -> & -> & Hinv). assert (n = 2) as -> by lia.
    split; [done|]. right. split; [done|]. exists k. split; [done|]. intros now'. apply (callv_lent _ 2).
    rewrite lent_update by (done || by eapply lookup_lt_Some). by rewrite decide_True.
Qed.

(** The window handle that an argument stands for: 1 or 0 for a boolean, the number without
    its fraction, 0 for the empty string, in 64 bits. *)
Inductive window_arg (trunc : option Z) : ComValue -> Z -> Prop :=
| WA_true : window_arg trunc (VBool true) 1
| WA_false : window_arg trunc (VBool false) 0
| WA_decimal x n : (forall b, x <> VBool b) -> trunc = Some n -> window_arg trunc x (u64 n)
| WA_integer n : trunc = None -> window_arg trunc (VNum (Some n)) (u64 n)
| WA_empty : trunc = None -> window_arg trunc (VStr []) (u64 0).

Lemma intArg_window trunc x w : intArg trunc x = inl w <-> window_arg trunc x w.
Proof.
  split.
  - destruct x as [[]|n|s|o|]; cbn; [intros [= <-]; constructor..| | | |]; destruct trunc as [m|] eqn:E; cbn; try done;
      try (intros [= <-]; by constructor).
    + destruct n; [|done]. intros [= <-]. by constructor.
    + destruct s; [|done]. intros [= <-]. by constructor.
  - intros [| |y n Hb ->|n ->| ->]; cbn; try done. destruct y as [b| | | |]; try done. by destruct (Hb b).
Qed.

(** Why there is no callback: [cb] is a number without a 64-bit value, or is lent already. *)
Definition no_callback_for (cb : Value) (s : state) : Prop :=
  cb = Number None \/ (is_function cb /\ exists l, cbs s !! 2 = Some l /\ has_active deref cb l).

(** What the built-in leaves. *)
Definition wb2_post (now th : Z) (trunc : option Z) (hwnd dllPath userDataFolder : ComValue) (cb : Value) (dll : list Z -> Z)
    (s : state) (r : wb2_result) (s' : state) (tr : list ev) : Prop :=
  inv goCallback deref s' /\
  match r with
  | Wb2 ob kept => exists w d f fn b,
      window_arg trunc hwnd w /\ dllPath = VStr d /\ userDataFolder = VStr f /\ runs_callback s' fn th cb /\
      ob = Some b /\ onCallBackFn b = fn /\ bo_hwnd b = w /\
      create_post w (dll (zstr d)) fn (c_str f) (0%Z, ob, kept) tr
  | Wb2Error x lost kept => exists w d f fn code,
      window_arg trunc hwnd w /\ dllPath = VStr d /\ userDataFolder = VStr f /\ runs_callback s' fn th cb /\
      code <> 0%Z /\ x = intRet code /\ (is_Some lost <-> asked tr <> []) /\
      create_post w (dll (zstr d)) fn (c_str f) (code, lost, kept) tr
  | Wb2Panic => tr = [] /\ s' = s /\
      ((forall w, ~ window_arg trunc hwnd w) \/ (forall d, dllPath <> VStr d) \/ (forall f, userDataFolder <> VStr f) \/
       no_callback_for cb s)
  | Wb2Exit => tr = [] /\ s' = s /\
      (exists w d f, window_arg trunc hwnd w /\ dllPath = VStr d /\ userDataFolder = VStr f) /\
      is_function cb /\ exists l, cbs s !! 2 = Some l /\ fresh_for deref cb l /\ Forall (fun c => ~ available (clock now) c) l
  end.

(** When there is no callback. *)
Lemma NewCallback_none now th cb s : inv goCallback deref s ->
  match NewCallback goCallback deref now th cb 4 s with
  | Done _ _ => True
  | Panic _ => no_callback_for cb s
  | Exit _ => is_function cb /\ exists l, cbs s !! 2 = Some l /\ fresh_for deref cb l /\ Forall (fun c => ~ available (clock now) c) l
  end.
Proof using Hg.
  intros Hs. assert (Hcb : (exists n, cb = Number n) \/ is_function cb) by (destruct cb; simpl; eauto).
  destruct Hcb as [[[n|] ->]|Hf]; [done|by left|].
  pose proof (NewCallback_ok goCallback deref Hg now th cb 4 s Hs Hf) as H.
  destruct (NewCallback goCallback deref now th cb 4 s) as [fn s1|msg|msg]; [done|..].
  - destruct H as [(_ & n & l & Hn & Hl & Ha)|[_ H]]; [|lia]. assert (n = 2) as -> by lia. right. split; [done|]. by exists l.
  - destruct H as (n & l & Hn & Hl & Hfr & Hav). assert (n = 2) as -> by lia. split; [done|]. by exists l.
Qed.

Lemma WebBrowser2_ok now th trunc hwnd dllPath folder cb dll s : inv goCallback deref s ->
  every_run com_contract (WebBrowser2 goCallback deref now th trunc hwnd dllPath folder cb dll s) []
    (fun '(r, s') tr => wb2_post now th trunc hwnd dllPath folder cb dll s r s' tr).
Proof using Hg.
  intros Hs. unfold WebBrowser2. pose proof (intArg_window trunc hwnd) as Hw.
  destruct (intArg trunc hwnd) as [w|e].
  2: { split; [done|]. split_and!; [done..|]. left. intros w H. by apply Hw in H. }
  assert (Hwa : window_arg trunc hwnd w) by by apply Hw. clear Hw.
  destruct dllPath as [| |d| |]; cbn [ToStr]; try (split; [done|]; split_and!; [done..|]; right; by left).
  destruct folder as [| |f| |]; cbn [ToStr]; try (split; [done|]; split_and!; [done..|]; right; right; by left).
  pose proof (NewCallback_none now th cb s Hs) as Hnone.
  destruct (NewCallback goCallback deref now th cb 4 s) as [fn s1|msg|msg] eqn:HN.
  - destruct (NewCallback_runs now th cb s fn s1 Hs HN) as [Hs1 Hrun].
    apply every_run_bind. eapply every_run_mono; [|by apply CreateWebView2_ok]. rewrite c_str_zstr.
    intros [[rtn ob] kept] tr Hpost. destruct (Z.eqb_spec rtn 0) as [->|Hr]; cbn [negb].
    + split; [done|]. exists w, d, f, fn. destruct Hpost as (Hl & HA & Ho). pose proof Ho as Hout.
      destruct Ho as [(_ & _ & [(E & _)|[(E & _)|(E & _)]])|(proc & options & handler & r & _ & _ & ->)]; try done.
      eexists. split_and!; [done..|]. by split_and!.
    + split; [done|]. exists w, d, f, fn, rtn. split_and!; [done..| |done].
      destruct Hpost as (_ & _ & [(Ha & -> & _)|(proc & options & handler & r & Ha & _ & ->)]); rewrite Ha.
      * split; [by intros []|done].
      * split; [done|by eexists].
  - split; [done|]. split_and!; [done..|]. right. right. by right.
  - split; [done|]. split; [done|]. split; [done|]. split; [by exists w, d, f|exact Hnone].
Qed.
End webbrowser2_ok.

(** C23: [WebBrowser2] panics over its arguments before anything was called, and only when the
    window is no number, the path or the folder is no string, or there can be no callback;
    it ends the process only when the table of callbacks is full.  Otherwise the
    callback is made first, and the browser is created for the window that the argument
    stands for with the path and the folder that were given; when the result is an object,
    it holds the pointer through which the browser's events run that very function on that
    thread, and creation kept its promises ([create_post]); otherwise the result is the
    error code, and when the runtime was asked at all, the browser object that was made is
    lost. *)
Theorem web_browser2_created goCallback deref now th trunc hwnd dllPath folder cb dll s
    (Hg : forall nargs i, goCallback nargs i <> 0%Z) (Hs : inv goCallback deref s) :
  every_run com_contract (WebBrowser2 goCallback deref now th trunc hwnd dllPath folder cb dll s) []
    (fun '(r, s') tr => wb2_post goCallback deref now th trunc hwnd dllPath folder cb dll s r s' tr).
Proof. by apply WebBrowser2_ok. Qed.

Lemma web_browser2_created_witness :
  every_run com_contract (WebBrowser2 example_pointer example_deref 0 1 None (VNum (Some 40%Z)) (VStr [68]%Z) (VStr [70]%Z)
    (Other 5) (fun _ => 16%Z) init) []
    (fun '(r, s') tr => wb2_post example_pointer example_deref 0 1 None (VNum (Some 40%Z)) (VStr [68]%Z) (VStr [70]%Z)
       (Other 5) (fun _ => 16%Z) init r s' tr).
Proof. apply web_browser2_created; [apply example_pointer_nonzero|apply init_ok]. Defined.

(** ** The methods *)

(** What a method that takes a string does: nothing but panic when it gets something else,
    NOT_READY before the controller is there, else one call on the view, with the bytes
    of the string up to its first zero. *)
Definition string_method (wb : MyBrowserObject) (s : ComValue) (m : string) (more : list arg) (r : panics ComValue)
    (tr : list ev) : Prop :=
  match ToStr s with
  | None => tr = [] /\ exists msg, r = inr (WrongUse msg)
  | Some b =>
      if (controller wb =? 0)%Z then tr = [] /\ r = inl (intRet NOT_READY)
      else exists code, tr = [Ev (Invoke (webview2 wb) m (AWide (ConvertCharToWChar (c_str b)) :: more)) code] /\
        r = inl (intRet code)
  end.

Lemma with_string_ok wb s m more f : (forall b, f b = if (controller wb =? 0)%Z then Ret NOT_READY
    else call (Invoke (webview2 wb) m (AWide (ConvertCharToWChar b) :: more))) ->
  every_run any_answer (with_string s f) [] (string_method wb s m more).
Proof.
  intros Hf. unfold with_string, string_method. destruct (ToStr s) as [b|]; [|by split; [|eexists]]. rewrite Hf, c_str_zstr.
  destruct (controller wb =? 0)%Z; [done|]. cbn -[intRet]. intros code _. by exists code.
Qed.

(** [Resize] takes the low 32 bits of two numbers. *)
Lemma resize_ok wb w h :
  every_run any_answer (web2_Resize wb w h) [] (fun r tr =>
    match ToInt w, ToInt h with
    | Some w, Some h =>
        if (controller wb =? 0)%Z then tr = [] /\ r = inl (intRet NOT_READY)
        else exists code, tr = [Ev (Invoke (controller wb) "put_Bounds" [ARect (Rect 0 0 (i32 w) (i32 h))]) code] /\
          r = inl (intRet code)
    | _, _ => tr = [] /\ exists msg, r = inr (WrongUse msg)
    end).
Proof.
  unfold web2_Resize, with_ints, Resize. destruct (ToInt w); [|by split; [|eexists]]. destruct (ToInt h); [|by split; [|eexists]].
  destruct (controller wb =? 0)%Z; [done|]. cbn -[intRet]. intros code _. by exists code.
Qed.

(** The methods of a [WebBrowser2] object give each value to the right method of the
    browser: strings up to their first zero, sizes in 32 bits.  A wrong argument panics and
    a browser that is not ready answers NOT_READY, both without any call; otherwise there is
    exactly one call, whose code is the result. *)
Theorem web2_methods wb s w h :
  every_run any_answer (web2_Navigate wb s) [] (string_method wb s "Navigate" []) /\
  every_run any_answer (web2_NavigateToString wb s) [] (string_method wb s "NavigateToString" []) /\
  every_run any_answer (web2_ExecuteScript wb s) [] (string_method wb s "ExecuteScript" [APtr 0]) /\
  every_run any_answer (web2_Resize wb w h) [] (fun r tr =>
    match ToInt w, ToInt h with
    | Some w, Some h =>
        if (controller wb =? 0)%Z then tr = [] /\ r = inl (intRet NOT_READY)
        else exists code, tr = [Ev (Invoke (controller wb) "put_Bounds" [ARect (Rect 0 0 (i32 w) (i32 h))]) code] /\
          r = inl (intRet code)
    | _, _ => tr = [] /\ exists msg, r = inr (WrongUse msg)
    end) /\
  every_run any_answer (web2_SetFocus wb) [] (fun r tr =>
    if (controller wb =? 0)%Z then tr = [] /\ r = intRet NOT_READY
    else exists code, r = intRet code /\ tr =
      [Ev (Invoke (controller wb) "MoveFocus" [AInt COREWEBVIEW2_MOVE_FOCUS_REASON_PROGRAMMATIC]) code]).
Proof.
  split_and!; [by apply with_string_ok..|apply resize_ok|].
  unfold web2_SetFocus, SetFocus. destruct (controller wb =? 0)%Z; [done|]. cbn -[intRet]. intros code _. by exists code.
Qed.

(** C39: What [GetSource] of Go gives: the empty string, without any call, when the browser is
    not ready; the empty string when the browser reports an error; else the address of the
    page that the browser gave, in UTF-8, up to its terminator and cut off after the 260 bytes
    of the buffer that C fills and never overruns.  C crashes when the address cannot be
    converted. *)
Theorem web2_source wb :
  every_run com_contract (web2_GetSource wb) [] (fun r tr =>
    if (controller wb =? 0)%Z then r = Some (VStr []) /\ tr = []
    else
      (exists hr, (hr < 0)%Z /\ r = Some (VStr []) /\ tr = [Ev (GetString (webview2 wb) "get_Source" []) (hr, None)]) \/
      (exists w n c, n <> 0%Z /\ served tr = [OAddress w; OLength w n; OConverted w n c] /\
         r = Some (VStr (take 260 (c_str c)))) \/
      (exists w, served tr = [OAddress w; OLength w 0] /\ r = None)).
Proof.
  unfold web2_GetSource. apply every_run_bind.
  eapply every_run_mono; [|apply (get_source_delivers wb (replicate (Z.to_nat MAX_PATH) 0%Z)); reflexivity].
  intros o tr [(hr & dst' & -> & Hlen & [(-> & Hc & -> & ->)|[(Hc & Hr & -> & ->)|(Hc & -> & w & n & c & Hn & Hs & Hd)]])|(Hc & -> & w & Hs)];
    (destruct (Z.eqb_spec (controller wb) 0); [|]); try done.
  - left. exists hr. by rewrite (proj2 (Z.eqb_neq hr 0)) by lia.
  - right. left. exists w, n, c. cbn [Z.eqb S_OK]. by rewrite Hd.
  - right. right. by exists w.
Qed.

(** When the runtime refuses, the object that was made is lost, and its callback is still
    lent. *)
Definition refusing_env (s : Z) (a : Win32) : Ans a * Z :=
  match a return Ans a * Z with
  | CallProc _ _ => (-5, s)%Z
  | a => good_env s a
  end.

Example refused_object_lost :
  let '(r, s) := result refusing_env (WebBrowser2 example_pointer example_deref 0 1 None (VNum (Some 40%Z)) (VStr [68]%Z)
                   (VStr [70]%Z) (Other 5) (fun _ => 16%Z) init) 1000%Z in
  (match r with Wb2Error x (Some ob) _ => Some (x, onCallBackFn ob) | _ => None end) = Some (VNum (Some (-5)%Z), 4001%Z) /\
  Callbacks s = [Other 5].
Proof. vm_compute. by split. Qed.
